(* ===== verification/_CoqProject ===== *)
-Q . S2P
Prelude.v
GoStrings.v
Regex.v
GoTime.v
Cron.v
JSONText.v
Plan.v
PlanJSON.v
PlanStore.v
World.v
LLMTypes.v
SSE.v
Anthropic.v
OpenAI.v
AnthropicFacts.v
OpenAIFacts.v
ToolCore.v
LLMLoop.v
Approval.v
Stages.v
Chat.v
ChatFacts.v
Worker.v
Scheduler.v
Manager.v
Security.v
JSONRead.v
SiteTables.v
PublicAPI.v
PublicAPIFacts.v
ToolMonad.v
Tables.v
SchedulerTool.v
DataTool.v
Endpoints.v
Questions.v
QuestionFacts.v
StoreFacts.v
DataFacts.v
PageText.v
Pages.v
PageFacts.v
Layout.v
PageParts.v
HttpTool.v
Paths.v
Encryption.v
Files.v
FileFacts.v
FileHistory.v
SiteDB.v
Middleware.v
EventBus.v
WsHub.v
Webhooks.v
PublicSite.v
PublicSiteFacts.v
Uploads.v
Streams.v
OAuth.v
AdminDB.v
Admin.v
AdminSites.v
AdminFacts.v
AdminRoutes.v
AdminSiteFacts.v
Services.v
Payments.v
PaymentFacts.v
WebhookTool.v
Panel.v
PanelTables.v
PanelContent.v
PanelFacts.v
PanelLinks.v
SiteTool.v
Reports.v
ReportFacts.v
Prompts.v
PromptFacts.v
