(* ===== verification/Prelude.v ===== *)
(** * IATAN: a verification library

    IATAN is a server that builds and runs web sites with a language model.  Each
    site has a worker (its "brain") that plans the site, builds it by tool calls,
    and then watches over it; a scheduler gives the workers timed tasks; a public
    server answers the visitors of the sites from the tables the model made; an
    administration lets the owner set up, watch and change all of it.  This library
    models these parts from the Go sources under src/ and proves what they are meant
    to do.  Every definition keeps the name of the Go function, method or type it
    models where Rocq allows it; the comment before a definition says what differs.

    ** The files

    Shared ground:
    - Prelude: results and errors ([res]), 64-bit integers, tactics;
    - GoStrings: strings, strconv and fmt as the sources use them;
    - GoTime: instants and durations in nanoseconds, the calendar;
    - JSONText: JSON trees, the text encoding/json writes and reads, and that what is
      written is read back; JSONRead: that what is read can be written.

    The brain (src/brain, src/internal/cron, src/tools):
    - Cron: internal/cron/cron.go, the validator and the search of [NextTime];
    - Plan: the types, validator and patches of brain/plan.go;
    - PlanJSON: cleaning and repair of the model's answers, decoding of plans;
    - PlanStore: the encoding of plans, and the way back from the database;
    - World: the state of a worker: its site's tables, the global database as far as
      it reads it, the events and requests it makes, the clock; the class [Env] is
      everything that answers from outside (failing writes and reads, the model,
      cancellation), and [M] the state monad of the code over it; then the operations
      on pipeline_state and stage_log of plan.go;
    - ToolCore: results, dispatch, registry and executor of src/tools;
    - LLMLoop: model calls with retries, and the tool loop, of brain/pipeline.go;
      the class [LawfulTools] is what the loop needs of the tools it runs;
    - Approval: tools/approval.go;
    - Stages: brain/stages.go, each stage a computation ending in [Done], [Fail] or
      [Panic];
    - Worker: crash recovery, the build loop, commands, the paused and monitoring
      loops of brain/pipeline.go; a waiting loop is a transition on a [location];
    - Scheduler: brain/scheduler.go, over the class [Dispatcher];
    - Manager: brain/manager.go, which is an instance of [Dispatcher], with the map
      of workers as a transition system;
    - SchedulerTool: tools/scheduler.go, the rows the scheduler works through;
    - Prompts: the texts of brain/prompts.go, brain/manifests.go and chat/prompt.go
      with what they read of a site; PromptFacts their theorems.

    The language models and the owner's chat (src/llm, src/chat):
    - LLMTypes: requests, answers, chunks, the registry of providers, the entries of
      the log of calls;
    - SSE: lines and events of a stream, the bodies of requests and answers, the class
      [Wire] of the network;
    - Anthropic, OpenAI: the two clients, each with request, answer and stream;
      AnthropicFacts, OpenAIFacts their theorems;
    - Chat: history, sessions, the streaming tool loop and the handlers of src/chat,
      over the world with what was streamed, asked and logged; ChatFacts its theorems.

    The tools of a site (src/tools), on the monad of ToolMonad:
    - SiteTables: the configuration tables of a site database, the class [SQL], and
      which texts are safe as statements;
    - ToolMonad: a call of a tool as a computation over a store, ending in a result,
      an error or a panic; reads and writes that can fail; the assertions [keeps]
      (an invariant), [wp] (weakest preconditions), [steady] and [reads];
    - Tables, DataTool, Endpoints: manage_schema, manage_data and manage_endpoints of
      tables.go and endpoints.go; StoreFacts and DataFacts their theorems, the latter
      with what the public API shows of it;
    - Regex: backtracking matching as regexp does it, sound for a declarative relation;
    - PageText: what is read out of HTML and CSS; Pages: manage_pages of pages.go over
      pages and versions; PageFacts its theorems; Layout: manage_layout of layout.go
      with its theorems;
    - HttpTool: make_http_request of http.go and the check of addresses;
    - Paths: names, paths, types and base64 of storage.go; Files: manage_files over
      rows, history and a disk that notes its operations; FileFacts (where it
      writes) and FileHistory (what it gives back) its theorems;
    - Encryption: the framing of security/encryption.go; Questions: secrets.go,
      communication.go and the handlers of questions and answers; QuestionFacts the
      way of an answer back to the worker;
    - Services: manage_providers of providers.go; Payments: payments.go and email.go;
      PaymentFacts their theorems; WebhookTool: manage_webhooks of webhooks.go;
    - SiteTool: site.go, analytics.go and diagnostics.go.

    The server (src/server, src/security, src/webhooks, src/events, src/db):
    - Security: tokens, authentication, roles, identifiers, secure values;
    - PublicAPI, PublicAPIFacts: the routes under /api/ of handler.go and auth.go,
      over the class [SQL], with the statements sent kept as a trace; and their
      theorems;
    - PublicSite, PageParts: the pages, files, redirects and visits of handler.go;
      PublicSiteFacts their theorems;
    - Uploads, Streams, OAuth: uploads, event streams with the messages of websockets,
      and the login at a provider, each with its theorems;
    - SiteDB: db/sitedb.go and db/migrations.go, the cache of open databases;
    - Middleware: the rate limiter in binary64, client addresses, headers;
    - EventBus: events/bus.go; WsHub: ws_hub.go and its connections as steps;
    - Webhooks: deliveries (webhooks/outgoing.go) and receipt (webhooks.go).

    The administration (src/server/admin, src/db):
    - AdminDB: the tables of the global database, their statements in db/models, and
      the transactions and write lock of db/db.go, over the class [SQLite];
    - Admin: login, setup, users and settings; AdminSites: sites, workers, providers,
      status and tools; AdminRoutes: routes.go with the routes and who may take them;
      AdminFacts, AdminSiteFacts their theorems;
    - Panel, PanelTables, PanelContent: the panels of a site (secrets, services,
      webhooks, layouts, tasks; tables and endpoints; pages, files and assets), over
      the stores of the tools; PanelFacts, PanelLinks their theorems;
    - Reports: logs, visits, diagnostics and the summary of a site, the INSERT of
      llm/dblogger.go and the clean-up of brain/manager.go; ReportFacts their theorems
      and those of SiteTool.

    ** How they interact

    The manager starts a [Run] of Worker per site; commands reach it through
    [Manager.SendCommand], from the scheduler and the handlers.  The worker's build
    loop runs the stages by the stage recorded in the database; a stage asks the
    model ([callWithRetry]), runs its tools ([runToolLoop], [Execute]) and writes the
    plan, the log and the questions.  Tools act on the same tables: approvals pause
    the pipeline, manage_scheduler writes the rows the scheduler reads, and what
    manage_schema and manage_endpoints store is what the public API reads (DataFacts).
    A call of a site tool runs on its own store ([Ctx]): the world of the worker and
    the rows the tool acts on.  The panels act on the stores of the tools, and the
    theorems of PanelLinks and ReportFacts say so: a task made in a panel is the one
    the tool makes, both count the same visits.  What manage_pages, manage_files and
    manage_site store is what PublicSite serves, and what manage_webhooks subscribes to
    is what Webhooks delivers.

    ** What the theorems show

    - Plans: the validator is equivalent to a declarative well-formedness; patches do
      what they say, keep it, and panic exactly when characterised; what the program
      stores it reads back; repaired text is balanced.
    - Time: [NextTime] is the first minute denoted; a pass of the scheduler runs and
      reschedules exactly the due tasks; the tool, the panel and the scheduler agree.
    - The worker: the build loop ends, follows the stage graph, records its pauses;
      recovery, commands and retries on every branch; requests to the model are well
      formed and bounded in number; at most one worker of a site is active; an
      approval of the owner reaches it.
    - The prompts: indented JSON is read back; what is told of a site depends neither
      on its secrets nor on its rows; a build taken up again is told all there is.
    - The chat: what is asked continues the history by whole rounds of calls and
      answers; what was said is kept and is the next history; a streamed answer says
      what the whole answer says; a request holds the conversation it was made from.
    - The tools: the configuration stays well formed under any calls; statements are
      put together from identifiers and bound arguments; secure columns are hashed,
      encrypted and hidden; files stay below the site's directories and are read back
      as saved; what a save of a page or a file overwrites can be restored.
    - Payments and services: a payment is followed from its checkout to the webhook
      that settles it; signatures are checked; amounts are written exactly; secrets
      go to the addresses they belong to and nowhere else.
    - The server: a table is reached only by an allowed method and caller; statements
      hold nothing of a request but identifiers and bound arguments; hashes are not
      shown, roles not chosen; a page is served exactly when it is published, a saved
      file as it is, a redirect as it is set; texts of visitors are escaped; uploads
      are checked; a stream is read back; a login at a provider needs the state it
      was given; the cache of databases refines its specification; the limiter lets
      exactly the burst through; deliveries, signatures, subscriptions, rooms.
    - The administration: an installation keeps an administrator; changes need one;
      setup happens once; a site is made whole or not at all; panels show no hashes
      and send only statements of known shapes; the exported log is read back as it
      is stored, and statistics add up.
    - Where the code does not do what a comment says, a theorem or an example shows
      the behaviour.

    ** Bounds and fuel

    The loops of Cron run on the fuel the 366-day window and a field's range give
    (60 units for the fields of accepted expressions, [scan_fuel] for the search),
    and the theorems state that this is enough.  The build loop takes a unit per
    stage attempt; [build_loop_ends] computes enough of them from the stage and the
    retries.  The JSON parser's fuel is twice the length of the text; a round of the
    skeleton's loop and of a scan for references takes a byte at least, so that the
    length of the text is enough; a regular expression is run by recursion on it, its
    stars on the length of what is left.  Retries, continuations and iterations are
    bounded by the constants of the code.  The id of a new row is one above the
    largest of its table, and above the last one given where the global database
    counts them.

    ** What is not modelled

    The event stream of the administration, the configuration, the web server in
    front (caddy) and start-up, which are input and output; the names, descriptions,
    guides and parameter schemas of the tools, which are texts for the model; the
    memory model of Go - goroutines are sequences of steps -, and the end of a query
    in the middle of its rows.  SQLite, tokens, bcrypt, AES, HMAC, HTTP, parsers of
    URLs, XML and multipart bodies, the router, the network and the disk's failures
    are parameters with the behaviour the code relies on.  The prompts are a parameter
    of the worker and of the chat; Prompts gives their texts. *)

From Stdlib Require Import ZArith Lia Ascii String List Bool.
From stdpp Require Import base list strings gmap numbers.

#[global] Open Scope Z_scope.

(** ** Notations *)

Declare Scope go_scope.
Delimit Scope go_scope with go.

(** The Go pair [(value, error)] of a fallible call: exactly one side is
    meaningful, so it is a sum. *)
Inductive res (E A : Type) : Type :=
| Ok (a : A)
| Err (e : E).
Arguments Ok {E A} a.
Arguments Err {E A} e.

Definition res_bind {E A B} (m : res E A) (k : A -> res E B) : res E B :=
  match m with
  | Ok a => k a
  | Err e => Err e
  end.

Notation "'let!' p := m 'in' k" := (res_bind m (fun x => match x with p => k end))
  (at level 200, p pattern, m at level 100, k at level 200) : go_scope.
Notation "x <-? m ; k" := (res_bind m (fun x => k))
  (at level 60, m at next level, right associativity) : go_scope.

Definition is_ok {E A} (m : res E A) : bool :=
  match m with Ok _ => true | Err _ => false end.

(** ** Machine integers *)

(** Go's [int] is the 64-bit two's complement integer on the platforms the
    program is built for. *)
Definition max_int64 : Z := 2 ^ 63 - 1.
Definition min_int64 : Z := - 2 ^ 63.

Definition wrap64 (z : Z) : Z := (z + 2 ^ 63) mod 2 ^ 64 - 2 ^ 63.

Definition in_int64 (z : Z) : Prop := min_int64 <= z <= max_int64.

Lemma wrap64_range z : in_int64 (wrap64 z).
Proof.
  unfold in_int64, wrap64, min_int64, max_int64.
  pose proof (Z.mod_pos_bound (z + 2 ^ 63) (2 ^ 64) ltac:(lia)). lia.
Qed.

Lemma wrap64_id z : in_int64 z -> wrap64 z = z.
Proof.
  unfold in_int64, wrap64, min_int64, max_int64. intros H.
  rewrite Z.mod_small; lia.
Qed.

(** Overflow past the top of the range lands at the bottom. *)
Lemma wrap64_over z : 2 ^ 63 <= z < 2 ^ 63 + 2 ^ 64 -> wrap64 z = z - 2 ^ 64.
Proof.
  unfold wrap64. intros H.
  replace (z + 2 ^ 63) with ((z + 2 ^ 63 - 2 ^ 64) + 1 * 2 ^ 64) by lia.
  rewrite Z.mod_add by lia. rewrite Z.mod_small; lia.
Qed.

(** ** Tactics *)

(** Case analysis on the innermost scrutinee of the goal or of a hypothesis. *)
Ltac split_match :=
  match goal with
  | |- context [match ?x with _ => _ end] =>
      lazymatch x with
      | context [match _ with _ => _ end] => fail
      | _ => destruct x eqn:?
      end
  end.

Ltac split_match_in H :=
  match type of H with
  | context [match ?x with _ => _ end] =>
      lazymatch x with
      | context [match _ with _ => _ end] => fail
      | _ => destruct x eqn:?
      end
  end.

(** Turns the boolean comparisons of the code into arithmetic. *)
Ltac b2p :=
  repeat match goal with
  | H : andb _ _ = true |- _ => apply andb_true_iff in H; destruct H
  | H : andb _ _ = false |- _ => apply andb_false_iff in H
  | H : orb _ _ = false |- _ => apply orb_false_iff in H; destruct H
  | H : orb _ _ = true |- _ => apply orb_true_iff in H
  | H : negb _ = true |- _ => apply negb_true_iff in H
  | H : negb _ = false |- _ => apply negb_false_iff in H
  | H : (_ =? _)%Z = true |- _ => apply Z.eqb_eq in H
  | H : (_ =? _)%Z = false |- _ => apply Z.eqb_neq in H
  | H : (_ <=? _)%Z = true |- _ => apply Z.leb_le in H
  | H : (_ <=? _)%Z = false |- _ => apply Z.leb_gt in H
  | H : (_ <? _)%Z = true |- _ => apply Z.ltb_lt in H
  | H : (_ <? _)%Z = false |- _ => apply Z.ltb_ge in H
  | H : (_ =? _)%nat = true |- _ => apply Nat.eqb_eq in H
  | H : (_ =? _)%nat = false |- _ => apply Nat.eqb_neq in H
  | H : (_ <=? _)%nat = true |- _ => apply Nat.leb_le in H
  | H : (_ <=? _)%nat = false |- _ => apply Nat.leb_gt in H
  | H : (_ <? _)%nat = true |- _ => apply Nat.ltb_lt in H
  | H : (_ <? _)%nat = false |- _ => apply Nat.ltb_ge in H
  | H : (_ =? _)%string = true |- _ => apply String.eqb_eq in H
  | H : (_ =? _)%string = false |- _ => apply String.eqb_neq in H
  end.

(** Linear arithmetic with [/] and [mod] by constants. *)
Ltac div_lia := Z.to_euclidean_division_equations; lia.

(** ** Hint databases *)

Create HintDb iatan discriminated.
#[export] Hint Resolve wrap64_range : iatan.
