(* ===== verification/GoStrings.v ===== *)
(** * The part of Go's [strings] and [strconv] packages the program uses

    A Go string is a sequence of bytes: [string] of the Standard Library is
    that sequence, one [ascii] per byte.  White space is Go's
    [unicode.IsSpace], recognised on the UTF-8 encoding, so [TrimSpace] and
    [Fields] are exact on non-ASCII input too.  [ToLower] maps the ASCII
    letters and the two runes outside ASCII whose lower case is ASCII
    (U+0130 and U+212A); every other byte is left as it is. *)

From Stdlib Require Import ZArith Lia Ascii String List Bool.
From stdpp Require Import base list strings pretty.
From S2P Require Import Prelude.

Local Open Scope string_scope.
Local Open Scope nat_scope.

(** ** Bytes *)

Definition byte_of (n : nat) : ascii := ascii_of_nat n.
Definition code (a : ascii) : nat := nat_of_ascii a.

Definition is_digit (a : ascii) : bool := (48 <=? code a) && (code a <=? 57).
Definition is_upper (a : ascii) : bool := (65 <=? code a) && (code a <=? 90).
Definition is_lower (a : ascii) : bool := (97 <=? code a) && (code a <=? 122).
Definition is_alpha (a : ascii) : bool := is_upper a || is_lower a.

(** The [asciiSpace] table of the [strings] package: \t \n \v \f \r and space. *)
Definition is_ascii_space (a : ascii) : bool :=
  ((9 <=? code a) && (code a <=? 13)) || (code a =? 32).

(** ** Basic operations *)

Definition s1 (a : ascii) : string := String a "".

Fixpoint rev_onto (s acc : string) : string :=
  match s with
  | "" => acc
  | String a r => rev_onto r (String a acc)
  end.

Definition reverse (s : string) : string := rev_onto s "".

(** [s[n:]] and [s[:n]] for an in-range [n]. *)
Fixpoint drop_str (n : nat) (s : string) : string :=
  match n, s with
  | S n', String _ r => drop_str n' r
  | _, _ => s
  end.

Fixpoint take_str (n : nat) (s : string) : string :=
  match n, s with
  | S n', String a r => String a (take_str n' r)
  | _, _ => ""
  end.

Definition HasPrefix (s p : string) : bool := String.prefix p s.

Definition HasSuffix (s p : string) : bool := String.prefix (reverse p) (reverse s).

(** [strings.Index]: [None] is Go's -1. *)
Fixpoint Index (s sub : string) : option nat :=
  if String.prefix sub s then Some 0 else
  match s with
  | "" => None
  | String _ r => option_map S (Index r sub)
  end.

Definition Contains (s sub : string) : bool :=
  match Index s sub with Some _ => true | None => false end.

Fixpoint LastIndex (s sub : string) : option nat :=
  match s with
  | "" => if String.prefix sub s then Some 0 else None
  | String _ r =>
      match LastIndex r sub with
      | Some n => Some (S n)
      | None => if String.prefix sub s then Some 0 else None
      end
  end.

Definition TrimPrefix (s p : string) : string :=
  if HasPrefix s p then drop_str (String.length p) s else s.

Definition TrimSuffix (s p : string) : string :=
  if HasSuffix s p then take_str (String.length s - String.length p) s else s.

(** [strings.Split(s, sep)] for a one-byte separator: never empty. *)
Fixpoint Split (c : ascii) (s : string) : list string :=
  match s with
  | "" => [""]
  | String a r =>
      if Ascii.eqb a c then "" :: Split c r
      else match Split c r with
           | w :: ws => String a w :: ws
           | [] => [s1 a]
           end
  end.

(** [strings.SplitN(s, sep, 2)] for a one-byte separator. *)
Fixpoint SplitN2 (c : ascii) (s : string) : list string :=
  match s with
  | "" => [""]
  | String a r =>
      if Ascii.eqb a c then ["" ; r]
      else match SplitN2 c r with
           | w :: ws => String a w :: ws
           | [] => [s1 a]
           end
  end.

Definition Join (l : list string) (sep : string) : string := String.concat sep l.

(** [strings.ReplaceAll] for a non-empty [old]: [skip] counts the bytes of a
    match that are still to be dropped. *)
Fixpoint replace_go (old new : string) (skip : nat) (s : string) : string :=
  match s with
  | "" => ""
  | String a r =>
      match skip with
      | S k => replace_go old new k r
      | O => if String.prefix old s
             then new ++ replace_go old new (String.length old - 1) r
             else String a (replace_go old new 0 r)
      end
  end.

Definition ReplaceAll (s old new : string) : string := replace_go old new 0 s.

(** ** White space *)

Definition between (lo hi : nat) (a : ascii) : bool := (lo <=? code a) && (code a <=? hi).

(** The number of bytes of the white-space rune at the head of [s]; 0 if the
    first rune is not white space.  The runes outside ASCII are U+0085,
    U+00A0, U+1680, U+2000-200A, U+2028, U+2029, U+202F, U+205F, U+3000. *)
Definition space_len (s : string) : nat :=
  match s with
  | "" => 0
  | String a r =>
      if is_ascii_space a then 1 else
      match r with
      | "" => 0
      | String b r' =>
          if (code a =? 194) && ((code b =? 133) || (code b =? 160)) then 2 else
          match r' with
          | "" => 0
          | String c _ =>
              if (code a =? 225) && (code b =? 154) && (code c =? 128) then 3 else
              if (code a =? 226) && (code b =? 128) &&
                 (between 128 138 c || (code c =? 168) || (code c =? 169) || (code c =? 175)) then 3 else
              if (code a =? 226) && (code b =? 129) && (code c =? 159) then 3 else
              if (code a =? 227) && (code b =? 128) && (code c =? 128) then 3 else 0
          end
      end
  end.

(** The same for the last rune of a string given backwards. *)
Definition rspace_len (s : string) : nat :=
  match s with
  | "" => 0
  | String a r =>
      if is_ascii_space a then 1 else
      match r with
      | "" => 0
      | String b r' =>
          if space_len (String b (String a "")) =? 2 then 2 else
          match r' with
          | "" => 0
          | String c _ => if space_len (String c (String b (String a ""))) =? 3 then 3 else 0
          end
      end
  end.

Fixpoint trim_with (len : string -> nat) (skip : nat) (s : string) : string :=
  match s with
  | "" => ""
  | String _ r =>
      match skip with
      | S k => trim_with len k r
      | O => match len s with
             | S k => trim_with len k r
             | O => s
             end
      end
  end.

Definition TrimSpace (s : string) : string :=
  reverse (trim_with rspace_len 0 (reverse (trim_with space_len 0 s))).

(** [strings.Fields]: [cur] is the word being read, backwards. *)
Fixpoint fields_go (cur : string) (skip : nat) (s : string) : list string :=
  match s with
  | "" => if (cur =? "")%string then [] else [reverse cur]
  | String a r =>
      match skip with
      | S k => fields_go cur k r
      | O => match space_len s with
             | S k => (if (cur =? "")%string then [] else [reverse cur]) ++ fields_go "" k r
             | O => fields_go (String a cur) 0 r
             end
      end
  end%list.

Definition Fields (s : string) : list string := fields_go "" 0 s.

(** [strings.TrimRight(s, cutset)] and [strings.Trim] for ASCII cutsets. *)
Fixpoint in_set (a : ascii) (cutset : string) : bool :=
  match cutset with
  | "" => false
  | String b r => Ascii.eqb a b || in_set a r
  end.

Fixpoint trim_left_set (cutset s : string) : string :=
  match s with
  | "" => ""
  | String a r => if in_set a cutset then trim_left_set cutset r else s
  end.

Definition TrimRight (s cutset : string) : string := reverse (trim_left_set cutset (reverse s)).
Definition Trim (s cutset : string) : string := TrimRight (trim_left_set cutset s) cutset.

(** ** Case *)

Definition lower_byte (a : ascii) : ascii := if is_upper a then byte_of (code a + 32) else a.

Fixpoint ToLower (s : string) : string :=
  match s with
  | "" => ""
  | String a r =>
      match r with
      | String b (String c r'' as r') =>
          if (code a =? 226) && (code b =? 132) && (code c =? 170) then String "k" (ToLower r'') else
          if (code a =? 196) && (code b =? 176) then String "i" (ToLower r') else
          String (lower_byte a) (ToLower r)
      | String b "" =>
          if (code a =? 196) && (code b =? 176) then "i" else String (lower_byte a) (ToLower r)
      | "" => String (lower_byte a) ""
      end
  end.

Definition upper_byte (a : ascii) : ascii := if is_lower a then byte_of (code a - 32) else a.

(** [strings.ToUpper]; of the letters outside ASCII, those whose capital is in
    ASCII: the dotless i and the long s. *)
Fixpoint ToUpper (s : string) : string :=
  match s with
  | "" => ""
  | String a r =>
      match r with
      | String b r' =>
          if (code a =? 196) && (code b =? 177) then String "I" (ToUpper r') else
          if (code a =? 197) && (code b =? 191) then String "S" (ToUpper r') else
          String (upper_byte a) (ToUpper r)
      | "" => String (upper_byte a) ""
      end
  end.

(** [strings.EqualFold]: letters that differ in case only, and the two letters
    outside ASCII that fold to one in it, the long s and the Kelvin sign. *)
Fixpoint fold_case (s : string) : string :=
  match s with
  | "" => ""
  | String a r =>
      match r with
      | String b (String c r'' as r') =>
          if (code a =? 226) && (code b =? 132) && (code c =? 170) then String "k" (fold_case r'') else
          if (code a =? 197) && (code b =? 191) then String "s" (fold_case r') else
          String (lower_byte a) (fold_case r)
      | String b "" =>
          if (code a =? 197) && (code b =? 191) then "s" else String (lower_byte a) (fold_case r)
      | "" => String (lower_byte a) ""
      end
  end.

Definition EqualFold (a b : string) : bool := (fold_case a =? fold_case b)%string.

(** ** Numbers *)

Inductive num_err := ErrSyntax | ErrRange.

Local Open Scope Z_scope.

(** [strconv.ParseUint] in base 10 for 64 bits: the range error is returned at
    the digit that overflows, before the rest of the text is looked at. *)
Fixpoint parse_uint (n : Z) (s : string) : Z * option num_err :=
  match s with
  | "" => (n, None)
  | String a r =>
      if is_digit a then
        let n' := n * 10 + (Z.of_nat (code a) - 48) in
        if 2 ^ 64 <=? n' then (2 ^ 64 - 1, Some ErrRange) else parse_uint n' r
      else (0, Some ErrSyntax)
  end.

(** [strconv.Atoi] and [strconv.ParseInt(s, 10, 64)]. *)
Definition Atoi (s : string) : Z * option num_err :=
  let '(neg, digits) :=
    match s with
    | String "-" r => (true, r)
    | String "+" r => (false, r)
    | _ => (false, s)
    end in
  if (digits =? "")%string then (0, Some ErrSyntax) else
  match parse_uint 0 digits with
  | (_, Some ErrSyntax) => (0, Some ErrSyntax)
  | (un, _) =>
      if negb neg && (2 ^ 63 <=? un) then (2 ^ 63 - 1, Some ErrRange)
      else if neg && (2 ^ 63 <? un) then (- 2 ^ 63, Some ErrRange)
      else ((if neg then - un else un), None)
  end.

Example atoi_examples :
  map Atoi ["5"; "-7"; "+12"; ""; "-"; "4x"; "9223372036854775808"; "99999999999999999999x"]
  = [(5, None); (-7, None); (12, None); (0, Some ErrSyntax); (0, Some ErrSyntax);
     (0, Some ErrSyntax); (2 ^ 63 - 1, Some ErrRange); (2 ^ 63 - 1, Some ErrRange)].
Proof. reflexivity. Qed.

(** [strconv.Itoa]. *)
Definition Itoa (z : Z) : string := pretty z.

(** ** Lemmas on splitting *)

Lemma prefix_s1 a s : String.prefix (s1 a) s = match s with String b _ => Ascii.eqb a b | "" => false end.
Proof.
  destruct s as [|b r]; [reflexivity|]. unfold s1. simpl.
  destruct (ascii_dec a b) as [->|N].
  - rewrite Ascii.eqb_refl. by destruct r.
  - symmetry. by apply Ascii.eqb_neq.
Qed.

(** [SplitN(s, sep, 2)] has two parts exactly when the separator occurs. *)
Lemma SplitN2_cases c s :
  (Contains s (s1 c) = false /\ SplitN2 c s = [s]) \/
  (Contains s (s1 c) = true /\ exists a b, SplitN2 c s = [a; b] /\ s = (a ++ s1 c ++ b)%string).
Proof.
  unfold Contains. induction s as [|x r IH]; [by left|].
  cbn [Index SplitN2]. rewrite prefix_s1, (Ascii.eqb_sym c x).
  destruct (Ascii.eqb x c) eqn:E.
  - right. split; [done|]. apply Ascii.eqb_eq in E as ->. by exists ""%string, r.
  - destruct IH as [[I S]|[I (a & b & S & ->)]]; destruct (Index _ _); try discriminate; rewrite S.
    + by left.
    + right. split; [done|]. by exists (String x a), b.
Qed.

Lemma SplitN2_without c s : Contains s (s1 c) = false -> SplitN2 c s = [s].
Proof. intros H. destruct (SplitN2_cases c s) as [[_ E]|[E _]]; [done|congruence]. Qed.

Lemma SplitN2_with c s : Contains s (s1 c) = true -> exists a b, SplitN2 c s = [a; b].
Proof. intros H. destruct (SplitN2_cases c s) as [[E _]|[_ (a & b & E & _)]]; [congruence|eauto]. Qed.

Lemma Split_not_nil c s : Split c s <> [].
Proof. destruct s; simpl; [done|]. destruct (Ascii.eqb _ _); [done|]. by destruct (Split _ _). Qed.

(** ** Formatting *)

Definition hex_digit (n : nat) : ascii :=
  if (n <? 10)%nat then byte_of (48 + n) else byte_of (87 + n).

Fixpoint quote_body (s : string) : string :=
  match s with
  | "" => ""
  | String a r =>
      let n := code a in
      (if (n =? 34)%nat then String "\" (String (byte_of 34) "")
       else if (n =? 92)%nat then "\\"
       else if (n =? 7)%nat then "\a" else if (n =? 8)%nat then "\b"
       else if (n =? 9)%nat then "\t" else if (n =? 10)%nat then "\n"
       else if (n =? 11)%nat then "\v" else if (n =? 12)%nat then "\f"
       else if (n =? 13)%nat then "\r"
       else if (n <? 32)%nat || (n =? 127)%nat
            then "\x" ++ String (hex_digit (n / 16)) (String (hex_digit (n mod 16)) "")
       else String a "") ++ quote_body r
  end%string.

(** The [%q] verb, for text whose runes outside ASCII are printable. *)
Definition Quote (s : string) : string :=
  (String (byte_of 34) (quote_body s ++ String (byte_of 34) ""))%string.

(** A text with its double quotes written as single ones. *)
Definition dq (s : string) : string := ReplaceAll s "'" (s1 (byte_of 34)).

(** ** Lemmas on concatenation, reversal and trimming *)

Local Open Scope nat_scope.

Lemma append_cons a s t : (String a s ++ t = String a (s ++ t))%string.
Proof. reflexivity. Qed.

Lemma append_nil_l s : ("" ++ s = s)%string.
Proof. reflexivity. Qed.

Lemma append_nil_r s : (s ++ "" = s)%string.
Proof. induction s as [|a s IH]; [done|]. by rewrite append_cons, IH. Qed.

Lemma append_assoc s t u : ((s ++ t) ++ u = s ++ (t ++ u))%string.
Proof. induction s as [|a s IH]; [done|]. by rewrite !append_cons, IH. Qed.

Lemma length_append s t : String.length (s ++ t) = String.length s + String.length t.
Proof. induction s as [|a s IH]; [done|]. rewrite append_cons. simpl. by rewrite IH. Qed.

Lemma rev_onto_append s : forall acc, rev_onto s acc = (reverse s ++ acc)%string.
Proof.
  unfold reverse. induction s as [|a s IH]; intros acc; [done|]. simpl.
  rewrite IH, (IH (String a "")). by rewrite append_assoc.
Qed.

Lemma reverse_cons a s : reverse (String a s) = (reverse s ++ s1 a)%string.
Proof. unfold reverse at 1. simpl. apply rev_onto_append. Qed.

Lemma reverse_append s t : reverse (s ++ t) = (reverse t ++ reverse s)%string.
Proof.
  induction s as [|a s IH]; [by rewrite append_nil_l, append_nil_r|].
  by rewrite append_cons, !reverse_cons, IH, append_assoc.
Qed.

Lemma reverse_reverse s : reverse (reverse s) = s.
Proof.
  induction s as [|a s IH]; [done|]. rewrite reverse_cons, reverse_append, IH. reflexivity.
Qed.

Lemma take_drop_str n s : (take_str n s ++ drop_str n s = s)%string.
Proof.
  revert s. induction n as [|n IH]; intros [|a s]; try done. simpl.
  by rewrite append_cons, IH.
Qed.

Lemma take_append s t : take_str (String.length s) (s ++ t) = s.
Proof. induction s as [|a s IH]; [by destruct t|]. rewrite append_cons. simpl. by rewrite IH. Qed.

Lemma drop_append s t : drop_str (String.length s) (s ++ t) = t.
Proof. induction s as [|a s IH]; [done|]. rewrite append_cons. exact IH. Qed.

(** Every byte satisfies [P]. *)
Fixpoint all_bytes (P : ascii -> bool) (s : string) : bool :=
  match s with
  | "" => true
  | String a r => P a && all_bytes P r
  end.

Lemma all_bytes_append P s t : all_bytes P (s ++ t) = all_bytes P s && all_bytes P t.
Proof.
  induction s as [|a s IH]; [done|]. rewrite append_cons. simpl. by rewrite IH, andb_assoc.
Qed.

Lemma all_bytes_reverse P s : all_bytes P (reverse s) = all_bytes P s.
Proof.
  induction s as [|a s IH]; [done|]. rewrite reverse_cons, all_bytes_append, IH. simpl.
  by rewrite andb_true_r, andb_comm.
Qed.

Lemma all_bytes_impl (P Q : ascii -> bool) s :
  (forall a, P a = true -> Q a = true) -> all_bytes P s = true -> all_bytes Q s = true.
Proof.
  intros H. induction s as [|a s IH]; [done|]. simpl. rewrite !andb_true_iff. intros [A B]. auto.
Qed.

Lemma trim_left_set_split cutset s : exists t,
  s = (t ++ trim_left_set cutset s)%string /\ all_bytes (fun a => in_set a cutset) t = true.
Proof.
  induction s as [|a s (t & E & A)]; [by exists ""|]. simpl. destruct (in_set a cutset) eqn:I.
  - exists (String a t). rewrite append_cons, <- E. simpl. by rewrite I.
  - by exists "".
Qed.

(** [TrimRight] removes a suffix made of bytes of the cutset. *)
Lemma TrimRight_split cutset s : exists t,
  s = (TrimRight s cutset ++ t)%string /\ all_bytes (fun a => in_set a cutset) t = true.
Proof.
  destruct (trim_left_set_split cutset (reverse s)) as (t & E & A).
  exists (reverse t). unfold TrimRight. split; [|by rewrite all_bytes_reverse].
  rewrite <- reverse_append, <- E. by rewrite reverse_reverse.
Qed.

Lemma Index_split s sub n : Index s sub = Some n ->
  exists a b, s = (a ++ sub ++ b)%string /\ String.length a = n.
Proof.
  revert n. assert (P : forall s, String.prefix sub s = true -> exists b, s = (sub ++ b)%string).
  { clear. induction sub as [|x sub IH]; intros s H; [by exists s|].
    destruct s as [|y s]; [done|]. simpl in H. destruct (ascii_dec x y) as [->|]; [|done].
    destruct (IH s H) as [b ->]. by exists b. }
  induction s as [|a s IH]; intros n; cbn [Index]; destruct (String.prefix sub _) eqn:E;
    try (intros [= <-]; destruct (P _ E) as [b ->]; by exists "", b); try done.
  destruct (Index s sub) as [m|]; [|done]. intros [= <-].
  destruct (IH m eq_refl) as (x & y & -> & <-). by exists (String a x), y.
Qed.

(** The last occurrence of a byte: none after it. *)
Lemma LastIndex_None s c : LastIndex s (s1 c) = None ->
  all_bytes (fun a => negb (Ascii.eqb c a)) s = true.
Proof.
  induction s as [|a s IH]; [done|]. cbn [LastIndex all_bytes]. rewrite prefix_s1.
  destruct (LastIndex s _); [done|]. destruct (Ascii.eqb c a); [done|]. intros _. by apply IH.
Qed.

Lemma LastIndex_byte s c n : LastIndex s (s1 c) = Some n ->
  exists a b, s = (a ++ s1 c ++ b)%string /\ String.length a = n /\
              all_bytes (fun a => negb (Ascii.eqb c a)) b = true.
Proof.
  revert n. induction s as [|a s IH]; intros n; cbn [LastIndex]; rewrite prefix_s1; [done|].
  destruct (LastIndex s (s1 c)) as [m|] eqn:E.
  - intros [= <-]. destruct (IH m eq_refl) as (x & b & S & L & A). exists (String a x), b.
    rewrite append_cons, <- S. simpl. by rewrite L.
  - destruct (Ascii.eqb c a) eqn:C; [|done]. intros [= <-]. apply Ascii.eqb_eq in C as ->.
    exists "", s. split; [done|]. split; [done|by apply LastIndex_None].
Qed.

Local Open Scope Z_scope.

(** ** [Atoi] reads what [Itoa] writes *)

Lemma pretty_char d : (d < 10)%N ->
  is_digit (pretty_N_char d) = true /\ Z.of_nat (code (pretty_N_char d)) = 48 + Z.of_N d /\
  (d <> 0%N -> Ascii.eqb (pretty_N_char d) "0" = false).
Proof.
  intros H. assert (d = 0 \/ d = 1 \/ d = 2 \/ d = 3 \/ d = 4 \/ d = 5 \/ d = 6 \/ d = 7 \/ d = 8 \/ d = 9)%N
    as Hd by lia.
  repeat destruct Hd as [->|Hd]; [repeat split; done..|]. subst d. repeat split; done.
Qed.

Lemma parse_uint_pretty x : forall s, (x < 2 ^ 64)%N ->
  parse_uint 0 (pretty_N_go x s) = parse_uint (Z.of_N x) s.
Proof.
  induction x as [x IH] using (well_founded_induction N.lt_wf_0). intros s Hx.
  destruct (decide (x = 0%N)) as [->|H0]; [by rewrite pretty_N_go_0|].
  rewrite pretty_N_go_step by lia.
  assert (x / 10 < x)%N by (apply N.div_lt; lia).
  rewrite IH by lia. cbn [parse_uint].
  destruct (pretty_char (x mod 10)) as (Hd & Hc & _); [by apply N.mod_lt|].
  rewrite Hd, Hc.
  assert (Z.of_N (x / 10) * 10 + (48 + Z.of_N (x mod 10) - 48) = Z.of_N x) as E.
  { rewrite (N.div_mod' x 10) at 3. lia. }
  rewrite E. replace (2 ^ 64 <=? Z.of_N x) with false by (symmetry; apply Z.leb_gt; lia). done.
Qed.

(** A decimal: digits, the first of them not zero. *)
Lemma pretty_N_go_digits x : forall s, all_bytes is_digit s = true ->
  all_bytes is_digit (pretty_N_go x s) = true /\
  (x <> 0%N -> exists a r, pretty_N_go x s = String a r /\ is_digit a = true /\ Ascii.eqb a "0" = false).
Proof.
  induction x as [x IH] using (well_founded_induction N.lt_wf_0). intros s Hs.
  destruct (decide (x = 0%N)) as [->|H0]; [by rewrite pretty_N_go_0|].
  rewrite pretty_N_go_step by lia.
  destruct (pretty_char (x mod 10)) as (Hd & Hc & Hz); [by apply N.mod_lt|].
  destruct (IH (x / 10)%N (N.div_lt x 10 ltac:(lia) ltac:(lia)) (String (pretty_N_char (x mod 10)) s))
    as [H1 H2]; [by cbn [all_bytes]; rewrite Hd|].
  split; [done|]. intros _. destruct (decide (x / 10 = 0)%N) as [E|E]; [|by apply H2].
  rewrite E, pretty_N_go_0. eexists _, _. repeat split; [done|]. apply Hz.
  pose proof (N.div_mod' x 10). lia.
Qed.

Lemma Itoa_cases z : exists neg a r,
  Itoa z = (if neg : bool then String "-" (String a r) else String a r) /\
  all_bytes is_digit (String a r) = true /\ (Ascii.eqb a "0" = true -> r = "") /\
  (Z.abs z < 2 ^ 64 -> parse_uint 0 (String a r) = (Z.abs z, None)) /\ z = (if neg then - Z.abs z else Z.abs z).
Proof.
  assert (Hpos : forall p, exists a r, pretty (N.pos p) = String a r /\
    all_bytes is_digit (String a r) = true /\ (Ascii.eqb a "0" = true -> r = "") /\
    (Z.pos p < 2 ^ 64 -> parse_uint 0 (String a r) = (Z.pos p, None))).
  { intros p. destruct (pretty_N_go_digits (N.pos p) "" eq_refl) as [H1 H2].
    destruct H2 as (a & r & E & Ha & H0); [done|]. exists a, r.
    unfold pretty, pretty_N. rewrite decide_False by done. rewrite <- E. repeat split; [done| |].
    - by rewrite H0.
    - intros Hp. by rewrite parse_uint_pretty by lia. }
  destruct z as [|p|p].
  - exists false, "0"%char, "". done.
  - destruct (Hpos p) as (a & r & H). exists false, a, r. naive_solver.
  - destruct (Hpos p) as (a & r & H1 & H2 & H3 & H4). exists true, a, r.
    repeat split; try done. unfold Itoa. change (pretty (Z.neg p)) with ("-" ++ pretty (N.pos p))%string.
    by rewrite H1.
Qed.

Lemma Atoi_Itoa z : - 2 ^ 63 <= z < 2 ^ 63 -> Atoi (Itoa z) = (z, None).
Proof.
  intros Hz. destruct (Itoa_cases z) as (neg & a & r & E & Hd & _ & Hp & Hs).
  rewrite E. specialize (Hp ltac:(lia)).
  assert (Hm : Ascii.eqb a "-" = false /\ Ascii.eqb a "+" = false).
  { cbn [all_bytes] in Hd. destruct a as [[] [] [] [] [] [] [] []]; done. }
  unfold Atoi. destruct neg.
  - cbn [String.eqb]. rewrite Hp. cbn [negb andb].
    replace (2 ^ 63 <? Z.abs z) with false by (symmetry; apply Z.ltb_ge; lia). f_equal. lia.
  - assert (match String a r with String "-" r0 => (true, r0) | String "+" r0 => (false, r0)
            | _ => (false, String a r) end = (false, String a r)) as ->.
    { destruct Hm. destruct a as [[] [] [] [] [] [] [] []]; done. }
    cbn [String.eqb]. rewrite Hp. cbn [negb andb].
    replace (2 ^ 63 <=? Z.abs z) with false by (symmetry; apply Z.leb_gt; lia). f_equal. lia.
Qed.

Lemma TrimPrefix_append p t : TrimPrefix (p ++ t) p = t.
Proof.
  unfold TrimPrefix, HasPrefix. assert (String.prefix p (p ++ t) = true) as ->; [|apply drop_append].
  induction p as [|a p IH]; [by destruct t|]. rewrite append_cons. cbn. by destruct (ascii_dec a a).
Qed.
