(* ===== verification/Regex.v ===== *)
(** * Regular expressions

    The part of Go's regexp package the program's expressions use: leftmost
    match, alternatives and repetitions in the order of preference (the
    leftmost-first rule), groups, [^], [$] by lines and [\b].  Texts are taken byte by byte:
    the classes of the program are of ASCII bytes or complements of such, for
    which that is the same as rune by rune.  [run] is the matcher, [Match] the
    language it decides. *)

From Stdlib Require Import ZArith Lia Ascii String List Bool.
From stdpp Require Import base list strings.
From S2P Require Import Prelude GoStrings.

Local Open Scope string_scope.

Inductive re :=
| Eps
| Cls (p : ascii -> bool)
| Cat (r1 r2 : re)
| Alt (r1 r2 : re)
| Star (greedy : bool) (r : re)
| Grp (n : nat) (r : re)
| Bol
| Eol
| WordB.

(** A place in the text: the byte before, what follows, the groups so far. *)
Record here := { prev : option ascii; rest : string; caps : list (nat * string) }.

Definition is_word_byte (a : ascii) : bool := is_alpha a || is_digit a || Ascii.eqb a "_".
Definition word_at (o : option ascii) : bool := match o with Some a => is_word_byte a | None => false end.
Definition first_byte (s : string) : option ascii := match s with String a _ => Some a | EmptyString => None end.
Definition line_break (o : option ascii) : bool := match o with Some a => (code a =? 10)%nat | None => true end.

Definition move_on (a : ascii) (s : string) (h : here) : here := {| prev := Some a; rest := s; caps := caps h |}.

(** What lies between two places. *)
Definition span (h h' : here) : string := take_str (String.length (rest h) - String.length (rest h')) (rest h).
Definition capture (n : nat) (h h' : here) : here :=
  {| prev := prev h'; rest := rest h'; caps := (n, span h h') :: caps h' |}.

Definition shorter (h' h : here) : bool := (String.length (rest h') <? String.length (rest h))%nat.

Section Run.
Context {A : Type}.

Definition first_of (x : option A) (y : unit -> option A) : option A :=
  match x with Some a => Some a | None => y tt end.

(** The repetition of [step], as often as the text allows: greedy tries one more
    first, lazy tries to go on first. *)
Fixpoint repeat_step (greedy : bool) (step : here -> (here -> option A) -> option A) (k : here -> option A)
    (n : nat) (h : here) : option A :=
  match n with
  | O => k h
  | S n =>
      let more _ := step h (fun h' => if shorter h' h then repeat_step greedy step k n h' else None) in
      if greedy then first_of (more tt) (fun _ => k h) else first_of (k h) more
  end.

Fixpoint run (r : re) (h : here) (k : here -> option A) {struct r} : option A :=
  match r with
  | Eps => k h
  | Cls p => match rest h with
             | String a s => if p a then k (move_on a s h) else None
             | EmptyString => None
             end
  | Cat r1 r2 => run r1 h (fun h' => run r2 h' k)
  | Alt r1 r2 => first_of (run r1 h k) (fun _ => run r2 h k)
  | Star greedy r => repeat_step greedy (run r) k (S (String.length (rest h))) h
  | Grp n r => run r h (fun h' => k (capture n h h'))
  | Bol => if line_break (prev h) then k h else None
  | Eol => if line_break (first_byte (rest h)) then k h else None
  | WordB => if xorb (word_at (prev h)) (word_at (first_byte (rest h))) then k h else None
  end.
End Run.

(** A match that begins here: the place it ends. *)
Definition match_at (r : re) (p : option ascii) (s : string) : option here :=
  run r {| prev := p; rest := s; caps := [] |} Some.

(** The leftmost match: the text before it and the place it ends. *)
Fixpoint find (r : re) (p : option ascii) (s : string) : option (string * here) :=
  match match_at r p s with
  | Some h => Some ("", h)
  | None =>
      match s with
      | EmptyString => None
      | String a s' => match find r (Some a) s' with
                       | Some (b, h) => Some (String a b, h)
                       | None => None
                       end
      end
  end.

(** The matches one after the other, each with the text before it, and the text
    after the last; no expression of the program matches the empty text
    ([consumes]), so that the length of the text is enough fuel. *)
Fixpoint pieces (fuel : nat) (r : re) (p : option ascii) (s : string) : list (string * here) * string :=
  match fuel with
  | O => ([], s)
  | S fuel =>
      match find r p s with
      | None => ([], s)
      | Some (b, h) => let '(l, t) := pieces fuel r (prev h) (rest h) in ((b, h) :: l, t)
      end
  end.

(** [re.FindAllStringSubmatch(s, -1)] *)
Definition FindAll (r : re) (s : string) : list here := map snd (fst (pieces (S (String.length s)) r None s)).
(** [m[n]] *)
Fixpoint group_of (n : nat) (l : list (nat * string)) : string :=
  match l with [] => "" | (m, s) :: r => if (m =? n)%nat then s else group_of n r end.
Definition group (n : nat) (h : here) : string := group_of n (caps h).
(** [re.MatchString(s)] *)
Definition MatchString (r : re) (s : string) : bool := match find r None s with Some _ => true | None => false end.
(** [re.ReplaceAllString(s, "")] *)
Definition remove_all (r : re) (s : string) : string :=
  let '(l, t) := pieces (S (String.length s)) r None s in foldr (fun bh acc => fst bh ++ acc) t l.

(** ** Writing expressions *)

Definition seq_of (l : list re) : re := foldr Cat Eps l.
Definition byte (a : ascii) : re := Cls (Ascii.eqb a).
Fixpoint lit (s : string) : re := match s with String a s' => Cat (byte a) (lit s') | EmptyString => Eps end.

(** [ſ] and the Kelvin sign fold to s and k. *)
Definition long_s : re := lit (String (byte_of 197) (s1 (byte_of 191))).
Definition kelvin : re := lit (String (byte_of 226) (String (byte_of 132) (s1 (byte_of 170)))).
Definition byte_i (a : ascii) : re :=
  let b := Cls (fun c => Ascii.eqb (lower_byte c) (lower_byte a)) in
  if Ascii.eqb (lower_byte a) "s" then Alt b long_s else if Ascii.eqb (lower_byte a) "k" then Alt b kelvin else b.
Fixpoint lit_i (s : string) : re := match s with String a s' => Cat (byte_i a) (lit_i s') | EmptyString => Eps end.
Definition letter_i : re := Alt (Cls is_alpha) (Alt long_s kelvin).

Definition one_of (set : string) : ascii -> bool := fun a => in_set a set.
Definition none_of (set : string) : ascii -> bool := fun a => negb (in_set a set).
Definition white (a : ascii) : bool := existsb (Nat.eqb (code a)) [9; 10; 12; 13; 32]%nat.

Definition star (r : re) : re := Star true r.
Definition star_lazy (r : re) : re := Star false r.
Definition plus (r : re) : re := Cat r (Star true r).
Definition plus_lazy (r : re) : re := Cat r (Star false r).
Definition opt (r : re) : re := Alt r Eps.
Definition spaces : re := star (Cls white).

(** ** The language *)

Inductive Match : re -> here -> here -> Prop :=
| M_Eps h : Match Eps h h
| M_Cls p a s h : rest h = String a s -> p a = true -> Match (Cls p) h (move_on a s h)
| M_Cat r1 r2 h h1 h2 : Match r1 h h1 -> Match r2 h1 h2 -> Match (Cat r1 r2) h h2
| M_Left r1 r2 h h' : Match r1 h h' -> Match (Alt r1 r2) h h'
| M_Right r1 r2 h h' : Match r2 h h' -> Match (Alt r1 r2) h h'
| M_Done g r h : Match (Star g r) h h
| M_More g r h h1 h2 : Match r h h1 -> shorter h1 h = true -> Match (Star g r) h1 h2 -> Match (Star g r) h h2
| M_Grp n r h h' : Match r h h' -> Match (Grp n r) h (capture n h h')
| M_Bol h : line_break (prev h) = true -> Match Bol h h
| M_Eol h : line_break (first_byte (rest h)) = true -> Match Eol h h
| M_WordB h : xorb (word_at (prev h)) (word_at (first_byte (rest h))) = true -> Match WordB h h.

#[export] Hint Constructors Match : regex.

(** Whether every match takes at least a byte. *)
Fixpoint consumes (r : re) : bool :=
  match r with
  | Cls _ => true
  | Cat r1 r2 => consumes r1 || consumes r2
  | Alt r1 r2 => consumes r1 && consumes r2
  | Grp _ r => consumes r
  | _ => false
  end.

Section Language.
Context {A : Type}.
Implicit Types (k : here -> option A).

Lemma first_of_Some (x : option A) y a : first_of x y = Some a -> x = Some a \/ x = None /\ y tt = Some a.
Proof. destruct x; cbn; naive_solver. Qed.

Lemma first_of_None (x : option A) y : first_of x y = None -> x = None /\ y tt = None.
Proof. by destruct x. Qed.

Lemma repeat_sound g r (Hr : forall h k a, run r h k = Some a -> exists h', Match r h h' /\ k h' = Some a) k n :
  forall h a, repeat_step g (run r) k n h = Some a -> exists h', Match (Star g r) h h' /\ k h' = Some a.
Proof.
  induction n as [|n IH]; intros h a; cbn [repeat_step].
  { exists h. split; [constructor|done]. }
  assert (Hm : run r h (fun h' => if shorter h' h then repeat_step g (run r) k n h' else None) = Some a ->
               exists h', Match (Star g r) h h' /\ k h' = Some a).
  { intros (h1 & H1 & H2)%Hr. destruct (shorter h1 h) eqn:Hs; [|done].
    apply IH in H2 as (h2 & H2 & H3). exists h2. split; [by eapply M_More|done]. }
  destruct g; intros [H|[_ H]]%first_of_Some; auto; exists h; by (split; [constructor|]).
Qed.

(** What the matcher finds is in the language ... *)
Lemma run_sound r : forall h k a, run r h k = Some a -> exists h', Match r h h' /\ k h' = Some a.
Proof.
  induction r; intros h k a; cbn [run].
  - eauto with regex.
  - destruct (rest h) eqn:Hr; [done|]. destruct (p _) eqn:Hp; [|done]. eauto with regex.
  - intros (h1 & H1 & H2)%IHr1. apply IHr2 in H2 as (h2 & H2 & H3). eauto with regex.
  - intros [H|[_ H]]%first_of_Some; [apply IHr1 in H|apply IHr2 in H]; destruct H as (h' & ? & ?); eauto with regex.
  - by apply repeat_sound.
  - intros (h1 & H1 & H2)%IHr. eauto with regex.
  - destruct (line_break _) eqn:?; [|done]. eauto with regex.
  - destruct (line_break _) eqn:?; [|done]. eauto with regex.
  - destruct (xorb _ _) eqn:?; [|done]. eauto with regex.
Qed.

(** ... and it finds something wherever the language has a match from which one can go on. *)
Lemma repeat_none g r k n : (forall h k h', run r h k = None -> Match r h h' -> k h' = None) ->
  forall h h', (String.length (rest h) < n)%nat -> repeat_step g (run r) k n h = None -> Match (Star g r) h h' -> k h' = None.
Proof.
  intros Hr. induction n as [|n IH]; intros h h' Hl; [lia|]. cbn [repeat_step]. intros Hn Hm.
  assert (H : run r h (fun h' => if shorter h' h then repeat_step g (run r) k n h' else None) = None /\ k h = None).
  { destruct g; apply first_of_None in Hn as [? ?]; done. }
  destruct H as [H1 H2]. inversion Hm as [| | | | | |? ? ? h1 ? Hm1 Hs Hm2| | | |]; subst; [done|].
  pose proof (Hr _ _ _ H1 Hm1) as H3. cbv beta in H3. rewrite Hs in H3. apply Nat.ltb_lt in Hs.
  eapply IH; [|exact H3|done]. lia.
Qed.

Lemma run_none r : forall h k h', run r h k = None -> Match r h h' -> k h' = None.
Proof.
  induction r; intros h k h'; cbn [run]; intros Hn Hm.
  5: { eapply repeat_none; [exact IHr| |exact Hn|done]. lia. }
  all: inversion Hm; subst; simplify_eq.
  - done.
  - revert Hn. rewrite H0, H1. done.
  - eapply IHr2; [|eassumption]. by apply (IHr1 _ _ _ Hn).
  - apply first_of_None in Hn as [? ?]. eauto.
  - apply first_of_None in Hn as [? ?]. eauto.
  - by apply (IHr _ _ _ Hn).
  - by rewrite H in Hn.
  - by rewrite H in Hn.
  - by rewrite H in Hn.
Qed.
End Language.

(** [match_at] decides whether a match begins at a place. *)
Lemma match_at_None r p s : match_at r p s = None <-> forall h, ~ Match r {| prev := p; rest := s; caps := [] |} h.
Proof.
  unfold match_at. split.
  - intros Hn h Hm. by pose proof (run_none r _ _ _ Hn Hm).
  - intros Hn. destruct (run _ _ _) eqn:Hr; [|done]. apply run_sound in Hr as (h' & Hm & _). by apply Hn in Hm.
Qed.

Lemma match_at_Some r p s h : match_at r p s = Some h -> Match r {| prev := p; rest := s; caps := [] |} h.
Proof. intros (h' & Hm & [= <-])%run_sound. done. Qed.

(** A match goes forward: it leaves a suffix of the text, a shorter one if the
    expression consumes. *)
Lemma Match_suffix r h h' : Match r h h' -> exists t, rest h = t ++ rest h' /\ (consumes r = true -> t <> "").
Proof.
  induction 1; cbn [consumes]; try (by exists "").
  - exists (s1 a). split; [by rewrite H|done].
  - destruct IHMatch1 as (t1 & E1 & C1), IHMatch2 as (t2 & E2 & C2). exists (t1 ++ t2).
    split; [by rewrite E1, E2, append_assoc|]. intros [H1|H1]%orb_prop; [destruct t1; [by destruct (C1 H1)|done]|].
    destruct t1; [|done]. exact (C2 H1).
  - destruct IHMatch as (t & E1 & C1). exists t. split; [done|]. intros [? ?]%andb_prop. auto.
  - destruct IHMatch as (t & E1 & C1). exists t. split; [done|]. intros [? ?]%andb_prop. auto.
  - destruct IHMatch1 as (t1 & E1 & C1), IHMatch2 as (t2 & E2 & C2). exists (t1 ++ t2).
    by rewrite E1, E2, append_assoc.
  - destruct IHMatch as (t & E1 & C1). by exists t.
Qed.

(** [find] and a text with no match at all. *)
Fixpoint no_match (r : re) (p : option ascii) (s : string) : bool :=
  match match_at r p s with
  | Some _ => false
  | None => match s with EmptyString => true | String a s' => no_match r (Some a) s' end
  end.

Lemma find_None r : forall s p, find r p s = None <-> no_match r p s = true.
Proof.
  induction s as [|a s IH]; intros p; cbn [find no_match]; destruct (match_at _ _ _); try done.
  rewrite <- IH. destruct (find r (Some a) s) as [[? ?]|]; done.
Qed.

(** The text of a match, and where it is. *)
Lemma find_split r : forall s p b h, find r p s = Some (b, h) ->
  exists t, s = b ++ t ++ rest h /\ (consumes r = true -> t <> "").
Proof.
  induction s as [|a s IH]; intros p b h; cbn [find]; destruct (match_at r p _) eqn:Hm; intros Hf; try done.
  - simplify_eq. apply match_at_Some, Match_suffix in Hm. done.
  - simplify_eq. apply match_at_Some, Match_suffix in Hm. done.
  - destruct (find r (Some a) s) as [[b' h']|] eqn:Hf'; [|done]. simplify_eq.
    destruct (IH _ _ _ Hf') as (t & E & C). exists t. split; [|done]. cbn. by rewrite E.
Qed.

(** Taking out the matches leaves a text without a match alone. *)
Lemma remove_all_id r s : no_match r None s = true -> remove_all r s = s.
Proof. intros H%find_None. unfold remove_all. cbn [pieces]. by rewrite H. Qed.

(** It never makes the text longer. *)
Lemma pieces_length r fuel : forall p s,
  (String.length (foldr (fun bh acc => fst bh ++ acc) (snd (pieces fuel r p s)) (fst (pieces fuel r p s)))
   <= String.length s)%nat.
Proof.
  induction fuel as [|fuel IH]; intros p s; cbn [pieces]; [done|].
  destruct (find r p s) as [[b h]|] eqn:Hf; [|done].
  destruct (find_split _ _ _ _ _ Hf) as (t & E & _). specialize (IH (Regex.prev h) (rest h)).
  destruct (pieces fuel r _ _) as [l u]. cbn [fst snd foldr] in *. rewrite E, !length_append. lia.
Qed.

Lemma remove_all_length r s : (String.length (remove_all r s) <= String.length s)%nat.
Proof.
  unfold remove_all. pose proof (pieces_length r (S (String.length s)) None s) as H.
  by destruct (pieces _ _ _ _) as [l t].
Qed.
