(* ===== verification/GoTime.v ===== *)
(** * The part of Go's [time] package the program uses

    An instant is a number of nanoseconds since Go's zero time, January 1 of
    year 1, 00:00 UTC.  A [Location] is a fixed offset from UTC in seconds;
    zones with daylight-saving transitions are outside the model.  The civil
    calendar is the proleptic Gregorian one, as in Go. *)

From Stdlib Require Import ZArith Lia List Bool.
From stdpp Require Import base list.
From S2P Require Import Prelude.

Local Open Scope Z_scope.

Definition time := Z.
Definition duration := Z.

Definition nanosecond : duration := 1.
Definition second : duration := 1000000000.
Definition minute : duration := 60 * second.
Definition hour : duration := 60 * minute.
Definition day : duration := 24 * hour.

(** [t.Truncate(d)]: rounds down to a multiple of [d] since the zero time. *)
Definition Truncate (t : time) (d : duration) : time := t - t mod d.

(** ** The civil calendar *)

Definition is_leap (y : Z) : bool :=
  (y mod 4 =? 0) && (negb (y mod 100 =? 0) || (y mod 400 =? 0)).

(** Days from the zero date to January 1 of year [y]. *)
Definition days_before_year (y : Z) : Z :=
  365 * (y - 1) + (y - 1) / 4 - (y - 1) / 100 + (y - 1) / 400.

(** Days from January 1 to the first of month [m] (1 to 12); [m = 13] is the
    length of the year. *)
Definition days_before_month (leap : bool) (m : Z) : Z :=
  let l := if leap then 1 else 0 in
  if m <=? 1 then 0 else if m =? 2 then 31 else
  l + (if m =? 3 then 59 else if m =? 4 then 90 else if m =? 5 then 120
       else if m =? 6 then 151 else if m =? 7 then 181 else if m =? 8 then 212
       else if m =? 9 then 243 else if m =? 10 then 273 else if m =? 11 then 304
       else if m =? 12 then 334 else 365).

(** The year of a day: an estimate from the mean year length, corrected by at
    most one year either way. *)
Definition year_of_day (n : Z) : Z :=
  let y := n * 400 / 146097 + 1 in
  if n <? days_before_year y then y - 1
  else if days_before_year (y + 1) <=? n then y + 1 else y.

Definition month_of_yday (leap : bool) (k : Z) : Z :=
  let b m := days_before_month leap m in
  if k <? b 2 then 1 else if k <? b 3 then 2 else if k <? b 4 then 3
  else if k <? b 5 then 4 else if k <? b 6 then 5 else if k <? b 7 then 6
  else if k <? b 8 then 7 else if k <? b 9 then 8 else if k <? b 10 then 9
  else if k <? b 11 then 10 else if k <? b 12 then 11 else 12.

(** The date of a day number, as year, month and day of the month. *)
Definition civil (n : Z) : Z * Z * Z :=
  let y := year_of_day n in
  let k := n - days_before_year y in
  let m := month_of_yday (is_leap y) k in
  (y, m, k - days_before_month (is_leap y) m + 1).

(** The day number of a date, with the normalisation of [time.Date]: a month
    outside 1..12 carries into the year, a day outside the month into the
    following months. *)
Definition day_number (y m d : Z) : Z :=
  let y' := y + (m - 1) / 12 in
  let m' := (m - 1) mod 12 + 1 in
  days_before_year y' + days_before_month (is_leap y') m' + d - 1.

(** ** Clock readings in a location *)

Section Location.
(** Seconds east of UTC. *)
Variable off : Z.

Definition wall (t : time) : Z := t + off * second.
Definition day_of (t : time) : Z := wall t / day.

Definition Year (t : time) : Z := fst (fst (civil (day_of t))).
Definition Month (t : time) : Z := snd (fst (civil (day_of t))).
Definition Day (t : time) : Z := snd (civil (day_of t)).
(** The zero date is a Monday; Sunday is 0. *)
Definition Weekday (t : time) : Z := (day_of t + 1) mod 7.
Definition Hour (t : time) : Z := wall t mod day / hour.
Definition Minute (t : time) : Z := wall t mod hour / minute.

(** [time.Date(y, m, d, 0, 0, 0, 0, loc)]. *)
Definition Date (y m d : Z) : time := day_number y m d * day - off * second.
End Location.

(** ** The calendar is a bijection *)

Lemma days_before_year_succ y :
  days_before_year (y + 1) = days_before_year y + 365 + (if is_leap y then 1 else 0).
Proof.
  unfold days_before_year, is_leap.
  replace (y + 1 - 1) with y by lia.
  destruct (y mod 4 =? 0) eqn:H4, (y mod 100 =? 0) eqn:H100, (y mod 400 =? 0) eqn:H400;
    b2p; simpl; div_lia.
Qed.

Lemma days_before_year_bounds y :
  146097 * (y - 1) - 700 <= 400 * days_before_year y <= 146097 * (y - 1) + 396.
Proof.
  unfold days_before_year. set (x := y - 1).
  pose proof (Z.div_mod x 4 ltac:(lia)). pose proof (Z.mod_pos_bound x 4 ltac:(lia)).
  pose proof (Z.div_mod x 100 ltac:(lia)). pose proof (Z.mod_pos_bound x 100 ltac:(lia)).
  pose proof (Z.div_mod x 400 ltac:(lia)). pose proof (Z.mod_pos_bound x 400 ltac:(lia)).
  lia.
Qed.

Lemma year_of_day_spec n :
  days_before_year (year_of_day n) <= n < days_before_year (year_of_day n + 1).
Proof.
  unfold year_of_day.
  pose proof (Z.div_mod (n * 400) 146097 ltac:(lia)) as E.
  pose proof (Z.mod_pos_bound (n * 400) 146097 ltac:(lia)) as B.
  set (y := n * 400 / 146097 + 1) in *.
  assert (Hy : 146097 * (y - 1) <= 400 * n < 146097 * y) by lia. clearbody y. clear E B.
  pose proof (days_before_year_bounds y). pose proof (days_before_year_bounds (y + 1)).
  pose proof (days_before_year_bounds (y - 1)). pose proof (days_before_year_bounds (y + 1 + 1)).
  destruct (n <? _) eqn:?; [|destruct (_ <=? n) eqn:?]; b2p; try lia.
Qed.

Lemma days_before_year_mono y y' : y <= y' -> days_before_year y <= days_before_year y'.
Proof. unfold days_before_year. intros. div_lia. Qed.

Lemma year_of_day_unique n y :
  days_before_year y <= n < days_before_year (y + 1) -> year_of_day n = y.
Proof.
  intros H. pose proof (year_of_day_spec n) as S.
  destruct (Z.lt_trichotomy (year_of_day n) y) as [L|[E|L]]; [|exact E|].
  - pose proof (days_before_year_mono (year_of_day n + 1) y ltac:(lia)). lia.
  - pose proof (days_before_year_mono (y + 1) (year_of_day n) ltac:(lia)). lia.
Qed.

Ltac month_cases :=
  unfold month_of_yday, days_before_month in *; simpl in *;
  repeat match goal with
         | |- context [if ?b then _ else _] => destruct b eqn:?; b2p
         end.

Lemma month_of_yday_spec (leap : bool) (k : Z) :
  0 <= k < 365 + (if leap then 1 else 0) ->
  1 <= month_of_yday leap k <= 12 /\
  days_before_month leap (month_of_yday leap k) <= k
    < days_before_month leap (month_of_yday leap k + 1).
Proof. destruct leap; intros H; month_cases; simpl; lia. Qed.

Ltac month12 m :=
  assert (m = 1 \/ m = 2 \/ m = 3 \/ m = 4 \/ m = 5 \/ m = 6 \/ m = 7 \/ m = 8 \/
          m = 9 \/ m = 10 \/ m = 11 \/ m = 12) by lia;
  destruct_or!; subst m.

Lemma month_of_yday_unique (leap : bool) (m : Z) : 1 <= m <= 12 -> forall k,
  days_before_month leap m <= k < days_before_month leap (m + 1) -> month_of_yday leap k = m.
Proof.
  intros R k H. month12 m; destruct leap; unfold days_before_month in H; simpl in H;
    month_cases; lia.
Qed.

(** The year, month and day of a day number lie in their ranges and give the
    day number back. *)
Lemma civil_spec n : let '(y, m, d) := civil n in
  1 <= m <= 12 /\ 1 <= d /\
  n = days_before_year y + days_before_month (is_leap y) m + d - 1 /\
  d <= days_before_month (is_leap y) (m + 1) - days_before_month (is_leap y) m.
Proof.
  unfold civil. pose proof (year_of_day_spec n) as S.
  rewrite days_before_year_succ in S.
  pose proof (month_of_yday_spec (is_leap (year_of_day n)) (n - days_before_year (year_of_day n))
                ltac:(lia)) as M.
  lia.
Qed.

Lemma day_number_in_year y m d : 1 <= m <= 12 ->
  day_number y m d = days_before_year y + days_before_month (is_leap y) m + d - 1.
Proof.
  intros H. unfold day_number.
  rewrite (Z.div_small (m - 1)), (Z.mod_small (m - 1)) by lia.
  replace (y + 0) with y by lia. replace (m - 1 + 1) with m by lia. reflexivity.
Qed.

Lemma days_before_month_13 (leap : bool) :
  days_before_month leap 13 = 365 + (if leap then 1 else 0).
Proof. destruct leap; reflexivity. Qed.

(** The first of the month after [m], December included. *)
Lemma day_number_next_month y m : 1 <= m <= 12 ->
  day_number y (m + 1) 1 = days_before_year y + days_before_month (is_leap y) (m + 1).
Proof.
  intros H. destruct (Z.eq_dec m 12) as [->|N].
  - unfold day_number. change ((12 + 1 - 1) / 12) with 1. change ((12 + 1 - 1) mod 12 + 1) with 1.
    change (12 + 1) with 13. rewrite days_before_month_13, days_before_year_succ.
    change (days_before_month (is_leap (y + 1)) 1) with 0. lia.
  - rewrite day_number_in_year by lia. lia.
Qed.

(** [time.Date] undoes the calendar; the day field may run one past. *)
Lemma day_number_civil n k :
  let '(y, m, d) := civil n in day_number y m (d + k) = n + k.
Proof.
  pose proof (civil_spec n) as S. destruct (civil n) as [[y m] d].
  destruct S as (Hm & _ & E & _). rewrite day_number_in_year by exact Hm. lia.
Qed.

(** From a day up to the first of the next month the month does not change,
    and that day is still ahead. *)
Lemma next_month_after n :
  let '(y, m, d) := civil n in
  n < day_number y (m + 1) 1 /\
  forall k, n <= k < day_number y (m + 1) 1 -> snd (fst (civil k)) = m.
Proof.
  pose proof (civil_spec n) as S. pose proof (year_of_day_spec n) as Y.
  unfold civil in S |- *. cbv zeta in S |- *.
  set (y := year_of_day n) in *. set (m := month_of_yday (is_leap y) (n - days_before_year y)) in *.
  destruct S as (Hm & Hd & E & L). rewrite day_number_next_month by exact Hm.
  assert (B : days_before_month (is_leap y) (m + 1) <= 365 + (if is_leap y then 1 else 0)).
  { clearbody m. clear -Hm. month12 m; destruct (is_leap y); vm_compute; discriminate. }
  split; [lia|]. intros k Hk. cbn [fst snd].
  assert (Ey : year_of_day k = y).
  { apply year_of_day_unique. rewrite days_before_year_succ. lia. }
  rewrite Ey. apply month_of_yday_unique; lia.
Qed.
