(* ===== verification/Cron.v ===== *)
(** * internal/cron/cron.go: the 5-field cron expressions of the scheduler

    [Validate] is the check done when a task is saved, [parseField] and
    [NextTime] what the scheduler runs on the stored expression.  The [for]
    loops of [parseField] take fuel, since an unvalidated range can be as long
    as the integers; [NextTime]'s own search carries the fuel that its 366-day
    window bounds, and is proved never to run out. *)

From Stdlib Require Import ZArith Lia Ascii String List Bool.
From stdpp Require Import base list strings gmap.
From S2P Require Import Prelude GoStrings GoTime.

Local Open Scope Z_scope.
Local Open Scope go_scope.

(** ** Validation *)

(** The error texts, by the values they format. *)
Inductive cron_err :=
| FieldCount (n : nat)
| InField (i : nat) (name : string) (e : cron_err)
| EmptyValue
| InvalidStep (s : string)
| InvalidValue (s : string)
| OutOfRange (v lo hi : Z)
| InvalidRangeStart (s : string)
| InvalidRangeEnd (s : string)
| InvalidRange (a b lo hi : Z).

Definition validate_value (s : string) (lo hi : Z) : res cron_err unit :=
  match Atoi s with
  | (_, Some _) => Err (InvalidValue s)
  | (v, None) => if (v <? lo) || (hi <? v) then Err (OutOfRange v lo hi) else Ok tt
  end.

Definition validateRange (expr : string) (lo hi : Z) : res cron_err unit :=
  match SplitN2 "-" expr with
  | [a; b] =>
      match Atoi a with
      | (_, Some _) => Err (InvalidRangeStart a)
      | (start, None) =>
          match Atoi b with
          | (_, Some _) => Err (InvalidRangeEnd b)
          | (stop, None) =>
              if (start <? lo) || (hi <? stop) || (stop <? start)
              then Err (InvalidRange start stop lo hi) else Ok tt
          end
      end
  | _ => validate_value expr lo hi
  end.

Definition validate_part (part0 : string) (lo hi : Z) : res cron_err unit :=
  let part := TrimSpace part0 in
  if (part =? "")%string then Err EmptyValue
  else if (part =? "*")%string then Ok tt
  else if Contains part "/" then
    match SplitN2 "/" part with
    | [range; step_s] =>
        match Atoi step_s with
        | (_, Some _) => Err (InvalidStep step_s)
        | (step, None) =>
            if step <=? 0 then Err (InvalidStep step_s)
            else if (range =? "*")%string then Ok tt
            else validateRange range lo hi
        end
    | _ => Err EmptyValue
    end
  else if Contains part "-" then validateRange part lo hi
  else validate_value part lo hi.

Fixpoint validate_parts (parts : list string) (lo hi : Z) : res cron_err unit :=
  match parts with
  | [] => Ok tt
  | p :: ps => _ <-? validate_part p lo hi; validate_parts ps lo hi
  end.

Definition validateField (field : string) (lo hi : Z) : res cron_err unit :=
  validate_parts (Split "," field) lo hi.

(** The fields in order, with their names and limits. *)
Definition field_specs : list (string * (Z * Z)) :=
  [("minute", (0, 59)); ("hour", (0, 23)); ("day_of_month", (1, 31)); ("month", (1, 12));
   ("day_of_week", (0, 6))]%string.

Fixpoint validate_fields (i : nat) (fields : list string) (specs : list (string * (Z * Z)))
    : res cron_err unit :=
  match fields, specs with
  | f :: fs, (name, (lo, hi)) :: ss =>
      match validateField f lo hi with
      | Err e => Err (InField i name e)
      | Ok _ => validate_fields (S i) fs ss
      end
  | _, _ => Ok tt
  end.

Definition Validate (expr : string) : res cron_err unit :=
  let fields := Fields expr in
  if negb (length fields =? 5)%nat then Err (FieldCount (length fields))
  else validate_fields 1 fields field_specs.

(** ** Parsing a field into the set of its values *)

(** [for i := i; i <= stop; i += step { set[i] = true }] on 64-bit integers;
    [None] when the fuel runs out. *)
Fixpoint fill (fuel : nat) (i stop step : Z) (set : gset Z) : option (gset Z) :=
  if stop <? i then Some set else
  match fuel with
  | O => None
  | S f => fill f (wrap64 (i + step)) stop step ({[i]} ∪ set)
  end.

Definition parse_part (fuel : nat) (part0 : string) (lo hi : Z) (set : gset Z)
    : option (gset Z) :=
  let part := TrimSpace part0 in
  if Contains part "/" then
    match SplitN2 "/" part with
    | [range; step_s] =>
        let step := match Atoi step_s with
                    | (n, None) => if n <=? 0 then 1 else n
                    | (_, Some _) => 1
                    end in
        if (range =? "*")%string then fill fuel lo hi step set
        else match SplitN2 "-" range with
             | [a; b] => fill fuel (fst (Atoi a)) (fst (Atoi b)) step set
             | _ => fill fuel (fst (Atoi range)) hi step set
             end
    | _ => Some set
    end
  else if (part =? "*")%string then fill fuel lo hi 1 set
  else if Contains part "-" then
    match SplitN2 "-" part with
    | [a; b] =>
        match Atoi a, Atoi b with
        | (start, None), (stop, None) => fill fuel start stop 1 set
        | _, _ => Some set
        end
    | _ => Some set
    end
  else match Atoi part with
       | (v, None) => if (lo <=? v) && (v <=? hi) then Some ({[v]} ∪ set) else Some set
       | (_, Some _) => Some set
       end.

Fixpoint parse_parts (fuel : nat) (parts : list string) (lo hi : Z) (set : gset Z)
    : option (gset Z) :=
  match parts with
  | [] => Some set
  | p :: ps =>
      match parse_part fuel p lo hi set with
      | Some set' => parse_parts fuel ps lo hi set'
      | None => None
      end
  end.

Definition parseField (fuel : nat) (field : string) (lo hi : Z) : option (gset Z) :=
  match parse_parts fuel (Split "," field) lo hi ∅ with
  | Some set => if bool_decide (set = ∅) then fill fuel lo hi 1 set else Some set
  | None => None
  end.

(** ** The search for the next firing time *)

Record schedule := {
  minuteSet : gset Z;
  hourSet : gset Z;
  domSet : gset Z;
  monthSet : gset Z;
  dowSet : gset Z;
}.

Definition parse_schedule (fuel : nat) (f0 f1 f2 f3 f4 : string) : option schedule :=
  m ← parseField fuel f0 0 59; h ← parseField fuel f1 0 23; d ← parseField fuel f2 1 31;
  mo ← parseField fuel f3 1 12; w ← parseField fuel f4 0 6;
  Some {| minuteSet := m; hourSet := h; domSet := d; monthSet := mo; dowSet := w |}.

Inductive scan_result := Found (t : time) | NotFound | OutOfFuel.

Section Search.
(** The location of [after], in seconds east of UTC. *)
Variable off : Z.
Variable s : schedule.

Definition mem (v : Z) (set : gset Z) : bool := bool_decide (v ∈ set).

Definition fires (t : time) : bool :=
  mem (Month off t) (monthSet s) && mem (Day off t) (domSet s) &&
  mem (Weekday off t) (dowSet s) && mem (Hour off t) (hourSet s) &&
  mem (Minute off t) (minuteSet s).

(** The step taken from a candidate that does not fire. *)
Definition advance (c : time) : time :=
  if negb (mem (Month off c) (monthSet s)) then Date off (Year off c) (Month off c + 1) 1
  else if negb (mem (Day off c) (domSet s)) || negb (mem (Weekday off c) (dowSet s)) then
    Date off (Year off c) (Month off c) (Day off c + 1)
  else if negb (mem (Hour off c) (hourSet s)) then Truncate c hour + hour
  else c + minute.

Fixpoint scan (fuel : nat) (limit c : time) : scan_result :=
  if c <? limit then
    if fires c then Found c else
    match fuel with
    | O => OutOfFuel
    | S f => scan f limit (advance c)
    end
  else NotFound.
End Search.

(** Steps of the search: each one moves at least a minute, and the window is
    366 days. *)
Definition scan_fuel : nat := Z.to_nat (366 * 24 * 60).

Definition search (off : Z) (s : schedule) (after : time) : scan_result :=
  let candidate := Truncate after minute + minute in
  scan off s scan_fuel (candidate + 366 * 24 * hour) candidate.

(** [None] when [parseField] runs out of fuel. *)
Definition NextTime (fuel : nat) (off : Z) (expr : string) (after : time) : option time :=
  match Fields expr with
  | [f0; f1; f2; f3; f4] =>
      s ← parse_schedule fuel f0 f1 f2 f3 f4;
      match search off s after with
      | Found t => Some t
      | NotFound => Some (after + 1 * hour)
      | OutOfFuel => None
      end
  | _ => Some (after + 1 * hour)
  end.

Example validate_ok : Validate "*/15 9-17 1,15 * 1-5" = Ok tt.
Proof. vm_compute. reflexivity. Qed.
Example validate_bad : Validate "60 * * * *" = Err (InField 1 "minute" (OutOfRange 60 0 59)).
Proof. vm_compute. reflexivity. Qed.
(* Monday, January 1 of year 1, 00:00 UTC: the next weekday 09:30 is the same day. *)
Example next_time_ex :
  NextTime 100 0 "30 9 * * 1-5" 0 = Some (9 * hour + 30 * minute).
Proof. vm_compute. reflexivity. Qed.
(* 2024-02-29 from 2024-01-15: day number 738899 is 2024-01-15. *)
Example next_time_leap :
  NextTime 100 0 "0 0 29 2 *" (Date 0 2024 1 15) = Some (Date 0 2024 2 29).
Proof. vm_compute. reflexivity. Qed.

(** ** The search finds the earliest firing minute *)

Lemma minute_pos : 0 < minute. Proof. reflexivity. Qed.

Section SearchCorrect.
Variable off : Z.
Variable s : schedule.

(** [t] is a whole minute. *)
Definition aligned (t : time) : Prop := t mod minute = 0.

Lemma day_of_bounds t : day_of off t * day <= wall off t < (day_of off t + 1) * day.
Proof. unfold day_of, day, hour, minute, second. div_lia. Qed.

Lemma day_of_range t n : n * day <= wall off t < (n + 1) * day -> day_of off t = n.
Proof. unfold day_of, day, hour, minute, second. div_lia. Qed.

Lemma aligned_step t t' : aligned t -> aligned t' -> t < t' -> t + minute <= t'.
Proof. unfold aligned, minute, second. div_lia. Qed.

(** The date on which the month and day skips land. *)
Lemma advance_month_day c :
  Date off (Year off c) (Month off c + 1) 1
    = day_number (fst (fst (civil (day_of off c)))) (snd (fst (civil (day_of off c))) + 1) 1 * day
      - off * second /\
  Date off (Year off c) (Month off c) (Day off c + 1) = (day_of off c + 1) * day - off * second.
Proof.
  split; [reflexivity|]. unfold Date, Year, Month, Day.
  pose proof (day_number_civil (day_of off c) 1) as E.
  destruct (civil (day_of off c)) as [[y m] d]. cbn in E |- *. by rewrite E.
Qed.

Lemma month_skip c t :
  c < Date off (Year off c) (Month off c + 1) 1 /\
  (c <= t < Date off (Year off c) (Month off c + 1) 1 -> Month off t = Month off c).
Proof.
  rewrite (proj1 (advance_month_day c)).
  pose proof (next_month_after (day_of off c)) as N. unfold Month.
  destruct (civil (day_of off c)) as [[y m] d] eqn:E. cbn [fst snd] in *.
  destruct N as [N1 N2]. pose proof (day_of_bounds c) as B. pose proof (day_of_bounds t) as B'.
  unfold wall, day, hour, minute, second in *. split; [lia|]. intros H. apply N2. lia.
Qed.

Lemma day_skip c t :
  c < Date off (Year off c) (Month off c) (Day off c + 1) /\
  (c <= t < Date off (Year off c) (Month off c) (Day off c + 1) -> day_of off t = day_of off c).
Proof.
  rewrite (proj2 (advance_month_day c)). pose proof (day_of_bounds c) as B.
  split; [unfold wall in B; lia|]. intros H. apply day_of_range. unfold wall in *. lia.
Qed.

Lemma hour_skip c t : off mod 3600 = 0 ->
  c <= t < Truncate c hour + hour -> Hour off t = Hour off c.
Proof.
  unfold Truncate, Hour, wall, day, hour, minute, second. intros H ?.
  apply Z.mod_divide in H; [|lia]. destruct H as [k ->]. div_lia.
Qed.

Lemma not_fires_iff t :
  fires off s t = false <->
  mem (Month off t) (monthSet s) = false \/ mem (Day off t) (domSet s) = false \/
  mem (Weekday off t) (dowSet s) = false \/ mem (Hour off t) (hourSet s) = false \/
  mem (Minute off t) (minuteSet s) = false.
Proof. unfold fires. rewrite !andb_false_iff. tauto. Qed.

(** Every step moves forward by at least a minute, in any zone whose offset
    is a whole number of minutes. *)
Lemma advance_progress c : off mod 60 = 0 -> aligned c ->
  aligned (advance off s c) /\ c + minute <= advance off s c.
Proof.
  intros Hoff Hc.
  assert (A : aligned (advance off s c) /\ c < advance off s c).
  { unfold advance. pose proof (month_skip c c) as [M _]. pose proof (day_skip c c) as [D _].
    apply Z.mod_divide in Hoff; [|lia]. destruct Hoff as [k Hk].
    assert (F : forall n, aligned (n * day - off * second)).
    { intros n. unfold aligned, day, hour, minute, second. subst off. div_lia. }
    repeat split_match; split; try assumption; try apply F;
      unfold aligned, Truncate, hour, minute, second in *; div_lia. }
  destruct A as [A1 A2]. split; [exact A1|]. by apply aligned_step.
Qed.

Lemma advance_cases c :
  (mem (Month off c) (monthSet s) = false /\
     advance off s c = Date off (Year off c) (Month off c + 1) 1) \/
  ((mem (Day off c) (domSet s) = false \/ mem (Weekday off c) (dowSet s) = false) /\
     advance off s c = Date off (Year off c) (Month off c) (Day off c + 1)) \/
  (mem (Hour off c) (hourSet s) = false /\ advance off s c = Truncate c hour + hour) \/
  advance off s c = c + minute.
Proof.
  unfold advance. destruct (mem (Month off c) _), (mem (Day off c) _), (mem (Weekday off c) _),
    (mem (Hour off c) _); cbn [negb orb]; tauto.
Qed.

(** No firing minute lies between a candidate that does not fire and the
    next one, in a zone whose offset is a whole number of hours. *)
Lemma advance_skips_nothing c t :
  off mod 3600 = 0 -> aligned c -> aligned t -> fires off s c = false ->
  c <= t < advance off s c -> fires off s t = false.
Proof.
  intros Hoff Hc Ht Hf Hr. apply not_fires_iff.
  destruct (advance_cases c) as [[E A]|[[[E|E] A]|[[E A]|A]]]; rewrite A in Hr; clear A.
  - left. by rewrite (proj2 (month_skip c t) Hr).
  - right; left. unfold Day. by rewrite (proj2 (day_skip c t) Hr).
  - right; right; left. unfold Weekday. by rewrite (proj2 (day_skip c t) Hr).
  - right; right; right; left. by rewrite (hour_skip c t Hoff Hr).
  - assert (t = c) as ->; [|by apply not_fires_iff].
    destruct (Z.eq_dec t c) as [|N]; [assumption|].
    pose proof (aligned_step c t Hc Ht ltac:(lia)). lia.
Qed.

(** What a complete minute-by-minute search from [c] would answer. *)
Definition earliest (c limit : time) (r : scan_result) : Prop :=
  match r with
  | Found t => c <= t < limit /\ aligned t /\ fires off s t = true /\
               forall t', aligned t' -> c <= t' < t -> fires off s t' = false
  | NotFound => forall t', aligned t' -> c <= t' < limit -> fires off s t' = false
  | OutOfFuel => False
  end.

Lemma scan_earliest fuel : forall limit c,
  off mod 3600 = 0 -> aligned c -> limit <= c + Z.of_nat fuel * minute ->
  earliest c limit (scan off s fuel limit c).
Proof.
  induction fuel as [|f IH]; intros limit c Hoff Hc Hl; simpl; destruct (c <? limit) eqn:L; b2p;
    try (simpl; intros; lia).
  - rewrite Nat2Z.inj_succ, Z.mul_succ_l in Hl. destruct (fires off s c) eqn:F; [simpl; repeat split; auto; intros; lia|].
    destruct (advance_progress c ltac:(div_lia) Hc) as [A P].
    specialize (IH limit (advance off s c) Hoff A ltac:(lia)).
    pose proof (advance_skips_nothing c) as K.
    destruct (scan off s f limit (advance off s c)) as [t| |]; simpl in IH |- *; [|intros t' ??|done].
    + destruct IH as (I1 & I2 & I3 & I4). assert (0 < minute) by apply minute_pos.
      repeat split; auto; try lia. intros t' Ht' R.
      destruct (Z.lt_ge_cases t' (advance off s c)); [eapply K|eapply I4]; eauto; lia.
    + destruct (Z.lt_ge_cases t' (advance off s c)); [eapply K|eapply IH]; eauto; lia.
Qed.

Lemma candidate_aligned t : aligned (Truncate t minute + minute).
Proof. unfold aligned, Truncate, minute, second. div_lia. Qed.

Lemma candidate_next t t' : aligned t' -> (Truncate t minute + minute <= t' <-> t < t').
Proof. unfold aligned, Truncate, minute, second. div_lia. Qed.
End SearchCorrect.

(** ** What a field denotes

    The reference reading of a field: a list of parts, each a base (everything,
    a value or a range) with an optional step. *)

Inductive base := BAll | BVal (v : Z) | BRange (a b : Z).
Inductive part := Plain (b : base) | Stepped (b : base) (n : Z).

Definition read_int (s : string) : option Z :=
  match Atoi s with (v, None) => Some v | _ => None end.

Definition read_range (s : string) : option base :=
  match SplitN2 "-" s with
  | [a; b] => x ← read_int a; y ← read_int b; Some (BRange x y)
  | _ => v ← read_int s; Some (BVal v)
  end.

Definition read_part (s0 : string) : option part :=
  let s := TrimSpace s0 in
  if (s =? "")%string then None
  else if (s =? "*")%string then Some (Plain BAll)
  else match SplitN2 "/" s with
       | [r; n] =>
           k ← read_int n;
           if k <=? 0 then None else
           if (r =? "*")%string then Some (Stepped BAll k)
           else b ← read_range r; Some (Stepped b k)
       | _ => b ← read_range s; Some (Plain b)
       end.

(** First value, last value and step; a lone value with a step runs to the
    end of the field's range. *)
Definition span (lo hi : Z) (p : part) : Z * Z * Z :=
  match p with
  | Plain BAll => (lo, hi, 1)
  | Plain (BVal v) => (v, v, 1)
  | Plain (BRange a b) => (a, b, 1)
  | Stepped BAll n => (lo, hi, n)
  | Stepped (BVal v) n => (v, hi, n)
  | Stepped (BRange a b) n => (a, b, n)
  end.

Definition denotes (lo hi : Z) (p : part) (v : Z) : Prop :=
  let '(a, b, n) := span lo hi p in a <= v <= b /\ (v - a) mod n = 0.

Definition part_wf (lo hi : Z) (p : part) : Prop :=
  let '(a, b, n) := span lo hi p in lo <= a /\ a <= b /\ b <= hi /\ 0 < n.

(** The step, added to the last value, stays in 64 bits. *)
Definition step_fits (hi : Z) (p : part) : Prop :=
  match p with Plain _ => True | Stepped _ n => hi + n <= max_int64 end.

Definition read_field (f : string) : list (option part) := map read_part (Split "," f).

Definition field_denotes (lo hi : Z) (f : string) (v : Z) : Prop :=
  exists p, Some p ∈ read_field f /\ denotes lo hi p v.

Definition field_steps_fit (hi : Z) (f : string) : Prop :=
  forall p, Some p ∈ read_field f -> step_fits hi p.

(** *** The validator accepts well-formed parts only *)

Lemma read_int_Some s v : read_int s = Some v <-> Atoi s = (v, None).
Proof.
  unfold read_int. destruct (Atoi s) as [x [e|]]; split; intros H; try discriminate; by inversion H.
Qed.

Lemma validate_value_ok s lo hi :
  validate_value s lo hi = Ok tt -> exists v, read_int s = Some v /\ lo <= v <= hi.
Proof.
  unfold validate_value, read_int. destruct (Atoi s) as [v [e|]]; [done|].
  destruct (_ || _) eqn:E; [done|]. b2p. intros _. exists v. split; [done|lia].
Qed.

Definition range_wf (lo hi : Z) (b : base) : Prop :=
  match b with
  | BAll => False
  | BVal v => lo <= v <= hi
  | BRange x y => lo <= x /\ x <= y /\ y <= hi
  end.

Lemma validateRange_ok s lo hi :
  validateRange s lo hi = Ok tt -> exists b, read_range s = Some b /\ range_wf lo hi b.
Proof.
  assert (V : validate_value s lo hi = Ok tt ->
    exists b, (v ← read_int s; Some (BVal v)) = Some b /\ range_wf lo hi b).
  { intros (v & E & B)%validate_value_ok. rewrite E. by exists (BVal v). }
  unfold validateRange, read_range.
  destruct (SplitN2 "-" s) as [|a [|b [|]]]; auto.
  unfold read_int. destruct (Atoi a) as [x [|]]; [done|]. destruct (Atoi b) as [y [|]]; [done|].
  destruct (_ || _) eqn:E; [done|]. b2p. intros _. exists (BRange x y). simpl. split; [done|lia].
Qed.

Lemma range_wf_part lo hi b n : 0 < n -> range_wf lo hi b ->
  part_wf lo hi (Plain b) /\ part_wf lo hi (Stepped b n).
Proof. destruct b; simpl; unfold part_wf; simpl; lia. Qed.

Lemma validate_part_ok s lo hi : lo <= hi ->
  validate_part s lo hi = Ok tt -> exists p, read_part s = Some p /\ part_wf lo hi p.
Proof.
  intros B. unfold validate_part, read_part. set (t := TrimSpace s). clearbody t.
  destruct (_ =? "")%string; [done|]. destruct (_ =? "*")%string.
  { intros _. exists (Plain BAll). unfold part_wf; simpl. split; [done|lia]. }
  destruct (Contains t "/") eqn:C.
  - destruct (SplitN2_with _ _ C) as (r & n & ->).
    unfold read_int. destruct (Atoi n) as [k [|]]; [done|]. simpl.
    destruct (k <=? 0) eqn:K; [done|]. b2p. destruct (r =? "*")%string.
    { intros _. exists (Stepped BAll k). unfold part_wf; simpl. split; [done|lia]. }
    intros (b & -> & W)%validateRange_ok. exists (Stepped b k). split; [done|].
    by apply range_wf_part.
  - rewrite (SplitN2_without _ _ C). destruct (Contains t "-") eqn:D.
    + intros (b & -> & W)%validateRange_ok. exists (Plain b). split; [done|].
      by apply (range_wf_part lo hi b 1).
    + unfold read_range. rewrite (SplitN2_without _ _ D).
      intros (v & -> & W)%validate_value_ok. exists (Plain (BVal v)). unfold part_wf; simpl.
      split; [done|lia].
Qed.

Lemma validate_parts_ok ps lo hi : lo <= hi -> validate_parts ps lo hi = Ok tt ->
  Forall (fun s => exists p, read_part s = Some p /\ part_wf lo hi p) ps.
Proof.
  intros B. induction ps as [|s ps IH]; simpl; [constructor|].
  destruct (validate_part s lo hi) as [[]|] eqn:E; [|done]. intros H.
  constructor; [by apply validate_part_ok|auto].
Qed.

(** *** The parser computes the denotation *)

Lemma fill_spec fuel : forall a b n set,
  0 < n -> min_int64 <= a -> b + n <= max_int64 -> b - a < Z.of_nat fuel ->
  exists set', fill fuel a b n set = Some set' /\
    forall v, v ∈ set' <-> v ∈ set \/ (a <= v <= b /\ (v - a) mod n = 0).
Proof.
  induction fuel as [|f IH]; intros a b n set Hn Ha Hb Hf; simpl; destruct (b <? a) eqn:L; b2p;
    try (exists set; split; [done|]; intros v; split; [tauto|]; intros [|[]]; [done|lia]).
  { lia. }
  rewrite wrap64_id by (unfold in_int64, min_int64, max_int64 in *; lia).
  destruct (IH (a + n) b n ({[a]} ∪ set) Hn ltac:(lia) Hb ltac:(lia)) as (set' & E & M).
  exists set'. split; [done|]. intros v. rewrite M, elem_of_union, elem_of_singleton.
  assert (S : (v - (a + n)) mod n = (v - a) mod n).
  { replace (v - (a + n)) with (v - a + -1 * n) by lia. apply Z.mod_add. lia. }
  rewrite S. split.
  - intros [[->|]|[]]; [right|by left|right; split; [lia|done]].
    rewrite Z.sub_diag, Z.mod_0_l by lia. split; [lia|done].
  - intros [|[R D]]; [by left; right|]. destruct (Z.eq_dec v a); [left; left; done|].
    right. split; [|done]. apply Z.mod_divide in D as [k D]; [|lia].
    assert (0 < k) by nia. nia.
Qed.

(** [parse_part] on a well-formed part is one [fill] over its span. *)
Lemma parse_part_fill fuel s lo hi set p :
  read_part s = Some p -> part_wf lo hi p -> (0 < fuel)%nat -> hi < max_int64 -> min_int64 <= lo ->
  let '(a, b, n) := span lo hi p in
  parse_part fuel s lo hi set = fill fuel a b n set.
Proof.
  intros R W F Hhi Hlo. unfold read_part in R. unfold parse_part. set (t := TrimSpace s) in *. clearbody t.
  destruct (_ =? "")%string; [done|].
  destruct (t =? "*")%string eqn:S.
  { b2p. subst t. inversion R. reflexivity. }
  destruct (Contains t "/") eqn:C.
  - destruct (SplitN2_with _ _ C) as (r & n & E). rewrite E in R |- *.
    unfold read_int in R. destruct (Atoi n) as [k [|]]; [done|]. simpl in R.
    destruct (k <=? 0) eqn:K; [done|]. destruct (r =? "*")%string; [by inversion R|].
    unfold read_range, read_int in R.
    destruct (SplitN2 "-" r) as [|x [|y [|]]]; try destruct (Atoi r) as [v [|]];
      try destruct (Atoi x) as [vx [|]]; try destruct (Atoi y) as [vy [|]]; by inversion R.
  - rewrite (SplitN2_without _ _ C) in R. unfold read_range, read_int in R.
    destruct (Contains t "-") eqn:D.
    + destruct (SplitN2_with _ _ D) as (x & y & E). rewrite E in R |- *.
      destruct (Atoi x) as [vx [|]]; [done|]. destruct (Atoi y) as [vy [|]]; by inversion R.
    + rewrite (SplitN2_without _ _ D) in R. destruct (Atoi t) as [v [|]]; [done|].
      inversion R; subst p. unfold part_wf in W. simpl in W |- *.
      replace ((lo <=? v) && (v <=? hi)) with true by (symmetry; apply andb_true_iff; lia).
      destruct fuel as [|f]; [lia|]. simpl. rewrite (proj2 (Z.ltb_ge v v)) by lia.
      rewrite wrap64_id by (unfold in_int64, max_int64, min_int64 in *; lia).
      destruct f; simpl; by rewrite (proj2 (Z.ltb_lt v (v + 1))) by lia.
Qed.

Section Field.
Variables (fuel : nat) (lo hi : Z).
Hypothesis Hfuel : hi - lo < Z.of_nat fuel.
Hypothesis Hlo : min_int64 <= lo.
Hypothesis Hrange : lo <= hi < max_int64.

Lemma parse_parts_spec ps : forall set,
  Forall (fun s => exists p, read_part s = Some p /\ part_wf lo hi p /\ step_fits hi p) ps ->
  exists set', parse_parts fuel ps lo hi set = Some set' /\
    forall v, v ∈ set' <-> v ∈ set \/ exists p, Some p ∈ map read_part ps /\ denotes lo hi p v.
Proof.
  induction ps as [|s ps IH]; intros set H; simpl.
  { exists set. split; [done|]. intros v. split; [by left|]. intros [|(p & E & _)]; [done|].
    by apply elem_of_nil in E. }
  inversion_clear H as [|? ? (p & R & W & T) H'].
  pose proof (parse_part_fill fuel s lo hi set p R W ltac:(lia) ltac:(lia) Hlo) as P.
  unfold part_wf in W. destruct (span lo hi p) as [[a b] n] eqn:S.
  assert (Hb : b + n <= max_int64).
  { destruct p as [[]|[] k]; simpl in S, T; inversion S; subst; lia. }
  destruct (fill_spec fuel a b n set ltac:(lia) ltac:(lia) Hb ltac:(lia)) as (set1 & F & M).
  rewrite P, F. destruct (IH set1 H') as (set' & E & M').
  exists set'. split; [done|]. intros v. rewrite M', M, R. setoid_rewrite elem_of_cons.
  split.
  - intros [[|D]|(q & I & D)]; [by left|right; exists p|right; exists q; auto].
    split; [by left|]. unfold denotes. by rewrite S.
  - intros [|(q & [I|I] & D)]; [tauto| |right; eauto]. inversion I; subst q.
    left; right. unfold denotes in D. by rewrite S in D.
Qed.

(** A validated field parses, to exactly the values it denotes. *)
Lemma parseField_spec f :
  validateField f lo hi = Ok tt -> field_steps_fit hi f ->
  exists set, parseField fuel f lo hi = Some set /\ forall v, v ∈ set <-> field_denotes lo hi f v.
Proof.
  unfold validateField, field_steps_fit, parseField, field_denotes, read_field.
  intros V T. apply validate_parts_ok in V; [|lia].
  assert (H : Forall (fun s => exists p, read_part s = Some p /\ part_wf lo hi p /\ step_fits hi p)
                (Split "," f)).
  { rewrite Forall_forall in V |- *. intros s I. destruct (V s I) as (p & R & W). exists p.
    repeat split; [done..|]. apply T. rewrite <- R. apply list_elem_of_In, in_map, list_elem_of_In, I. }
  destruct (parse_parts_spec _ ∅ H) as (set & E & M). rewrite E.
  assert (N : set <> ∅).
  { pose proof (Split_not_nil "," f) as NN. destruct (Split "," f) as [|s ps]; [done|].
    inversion_clear H as [|? ? (p & R & W & _) _].
    unfold part_wf in W. destruct (span lo hi p) as [[a b] n] eqn:S.
    intros ->. apply (not_elem_of_empty (C := gset Z) a), M. right. exists p. split.
    - simpl. rewrite R. constructor.
    - unfold denotes. rewrite S. rewrite Z.sub_diag, Z.mod_0_l; lia. }
  rewrite bool_decide_eq_false_2 by done. exists set. split; [done|].
  intros v. rewrite M. split; [intros [I|]|]; [|done|by right].
  by apply not_elem_of_empty in I.
Qed.
End Field.

(** ** The properties of the package *)

(** [t] is a minute the expression names. *)
Definition expr_fires (off : Z) (expr : string) (t : time) : Prop :=
  match Fields expr with
  | [f0; f1; f2; f3; f4] =>
      field_denotes 0 59 f0 (Minute off t) /\ field_denotes 0 23 f1 (Hour off t) /\
      field_denotes 1 31 f2 (Day off t) /\ field_denotes 1 12 f3 (Month off t) /\
      field_denotes 0 6 f4 (Weekday off t)
  | _ => False
  end.

Definition expr_steps_fit (expr : string) : Prop :=
  match Fields expr with
  | [f0; f1; f2; f3; f4] =>
      field_steps_fit 59 f0 /\ field_steps_fit 23 f1 /\ field_steps_fit 31 f2 /\
      field_steps_fit 12 f3 /\ field_steps_fit 6 f4
  | _ => False
  end.

Lemma Validate_fields expr : Validate expr = Ok tt -> exists f0 f1 f2 f3 f4,
  Fields expr = [f0; f1; f2; f3; f4] /\
  validateField f0 0 59 = Ok tt /\ validateField f1 0 23 = Ok tt /\ validateField f2 1 31 = Ok tt /\
  validateField f3 1 12 = Ok tt /\ validateField f4 0 6 = Ok tt.
Proof.
  unfold Validate. destruct (Fields expr) as [|f0 [|f1 [|f2 [|f3 [|f4 [|]]]]]]; try done.
  cbn [length Nat.eqb negb validate_fields field_specs]. intros H. exists f0, f1, f2, f3, f4.
  repeat match type of H with
         | context [validateField ?f ?a ?b] => destruct (validateField f a b) as [[]|]; [|done]
         end.
  done.
Qed.

Lemma schedule_spec fuel f0 f1 f2 f3 f4 : (60 <= fuel)%nat ->
  validateField f0 0 59 = Ok tt -> validateField f1 0 23 = Ok tt -> validateField f2 1 31 = Ok tt ->
  validateField f3 1 12 = Ok tt -> validateField f4 0 6 = Ok tt ->
  field_steps_fit 59 f0 -> field_steps_fit 23 f1 -> field_steps_fit 31 f2 ->
  field_steps_fit 12 f3 -> field_steps_fit 6 f4 ->
  exists s, parse_schedule fuel f0 f1 f2 f3 f4 = Some s /\
    forall off t, fires off s t = true <->
      field_denotes 0 59 f0 (Minute off t) /\ field_denotes 0 23 f1 (Hour off t) /\
      field_denotes 1 31 f2 (Day off t) /\ field_denotes 1 12 f3 (Month off t) /\
      field_denotes 0 6 f4 (Weekday off t).
Proof.
  intros F V0 V1 V2 V3 V4 T0 T1 T2 T3 T4.
  assert (L : forall lo hi f, (lo =? 0) || (lo =? 1) = true -> lo <= hi <= 59 ->
    validateField f lo hi = Ok tt -> field_steps_fit hi f ->
    exists set, parseField fuel f lo hi = Some set /\ forall v, v ∈ set <-> field_denotes lo hi f v).
  { intros lo hi f B R V T. apply orb_true_iff in B.
    assert (0 <= lo) by (destruct B as [B|B]; b2p; lia).
    apply parseField_spec; auto; unfold max_int64, min_int64; lia. }
  destruct (L 0 59 f0) as (m & Em & Mm); [done|done|done|done|].
  destruct (L 0 23 f1) as (h & Eh & Mh); [done|done|done|done|].
  destruct (L 1 31 f2) as (d & Ed & Md); [done|done|done|done|].
  destruct (L 1 12 f3) as (mo & Emo & Mmo); [done|done|done|done|].
  destruct (L 0 6 f4) as (w & Ew & Mw); [done|done|done|done|].
  unfold parse_schedule. rewrite Em, Eh, Ed, Emo, Ew. simpl. eexists. split; [done|].
  intros off t. unfold fires, mem. simpl. rewrite !andb_true_iff, !bool_decide_eq_true.
  rewrite Mm, Mh, Md, Mmo, Mw. tauto.
Qed.

Lemma search_earliest off s after : off mod 3600 = 0 ->
  earliest off s (Truncate after minute + minute)
    (Truncate after minute + minute + 366 * 24 * hour) (search off s after).
Proof.
  intros H. unfold search. apply scan_earliest; [done|apply candidate_aligned|].
  unfold scan_fuel. rewrite Z2Nat.id by lia. unfold hour. lia.
Qed.

(** C6. For an expression the validator accepts, in a zone whose offset is a
    whole number of hours, [NextTime] is the first minute after [after] that
    every one of the five fields denotes; if the 366-day window holds no such
    minute it is [after] plus one hour.  The skips over months, days and hours
    lose nothing. *)
Theorem NextTime_earliest fuel off expr after :
  (60 <= fuel)%nat -> off mod 3600 = 0 -> Validate expr = Ok tt -> expr_steps_fit expr ->
  exists r, NextTime fuel off expr after = Some r /\
    ((after < r /\ aligned r /\ expr_fires off expr r /\
      forall t, aligned t -> after < t < r -> ~ expr_fires off expr t)
     \/
     (r = after + hour /\
      forall t, aligned t -> after < t < Truncate after minute + minute + 366 * 24 * hour ->
                ~ expr_fires off expr t)).
Proof.
  intros F O V T. apply Validate_fields in V as (f0 & f1 & f2 & f3 & f4 & E & V0 & V1 & V2 & V3 & V4).
  unfold expr_steps_fit in T. unfold NextTime, expr_fires. rewrite E in T |- *.
  destruct T as (T0 & T1 & T2 & T3 & T4).
  destruct (schedule_spec fuel f0 f1 f2 f3 f4 F) as (s & S & M); [done..|].
  rewrite S. simpl. pose proof (search_earliest off s after O) as K.
  destruct (search off s after) as [r| |]; cbn [earliest] in K; [| |done]; eexists; (split; [done|]).
  - left. destruct K as ([K1 _] & K2 & K3 & K4). split; [by apply candidate_next|]. split; [done|].
    split; [by apply M|]. intros t At [t1 t2] Ft.
    apply (candidate_next after t At) in t1. apply M in Ft. rewrite K4 in Ft; done.
  - right. split; [unfold hour; lia|]. intros t At [t1 t2] Ft.
    apply (candidate_next after t At) in t1. apply M in Ft. rewrite K in Ft; done.
Qed.

Lemma NextTime_earliest_witness :
  Validate "30 9 * * 1-5" = Ok tt /\
  exists r, NextTime 60 3600 "30 9 * * 1-5" 0 = Some r /\
    ((0 < r /\ aligned r /\ expr_fires 3600 "30 9 * * 1-5" r /\
      forall t, aligned t -> 0 < t < r -> ~ expr_fires 3600 "30 9 * * 1-5" t)
     \/
     (r = 0 + hour /\
      forall t, aligned t -> 0 < t < Truncate 0 minute + minute + 366 * 24 * hour ->
                ~ expr_fires 3600 "30 9 * * 1-5" t)).
Proof.
  split; [vm_compute; reflexivity|].
  apply (NextTime_earliest 60 3600 "30 9 * * 1-5" 0);
    [lia|reflexivity|vm_compute; reflexivity|].
  unfold expr_steps_fit.
  replace (Fields "30 9 * * 1-5") with ["30"; "9"; "*"; "*"; "1-5"]%string by reflexivity.
  assert (A : forall f b hi, read_field f = [Some (Plain b)] -> field_steps_fit hi f).
  { intros f b hi E p I. rewrite E in I. apply list_elem_of_singleton in I. by inversion I. }
  repeat split; eapply A; vm_compute; reflexivity.
Defined.

(** The search never runs out of the fuel it carries: it answers in every zone
    whose offset is a whole number of minutes, with a time ahead of the start. *)
Lemma scan_progress off s fuel : forall limit c,
  off mod 60 = 0 -> aligned c -> limit <= c + Z.of_nat fuel * minute ->
  match scan off s fuel limit c with
  | Found t => c <= t < limit /\ fires off s t = true
  | NotFound => True
  | OutOfFuel => False
  end.
Proof.
  induction fuel as [|f IH]; intros limit c Hoff Hc Hl; simpl; destruct (c <? limit) eqn:L; b2p;
    try done.
  - exfalso. change (Z.of_nat 0) with 0 in Hl. lia.
  - rewrite Nat2Z.inj_succ, Z.mul_succ_l in Hl.
    destruct (fires off s c) eqn:F; [split; [lia|done]|].
    destruct (advance_progress off s c Hoff Hc) as [A P].
    specialize (IH limit (advance off s c) Hoff A ltac:(lia)). pose proof minute_pos.
    destruct (scan off s f limit (advance off s c)); [|done|done].
    destruct IH as [[] ?]. split; [lia|done].
Qed.

Lemma NextTime_bounds fuel off expr after r :
  off mod 60 = 0 -> NextTime fuel off expr after = Some r ->
  after < r <= after + 366 * 24 * hour + minute.
Proof.
  intros O. unfold NextTime.
  assert (B : after < after + 1 * hour <= after + 366 * 24 * hour + minute).
  { unfold hour, minute, second. lia. }
  destruct (Fields expr) as [|f0 [|f1 [|f2 [|f3 [|f4 [|]]]]]]; try (intros [= <-]; exact B).
  destruct (parse_schedule fuel f0 f1 f2 f3 f4) as [s|]; [|done]. simpl.
  pose proof (scan_progress off s scan_fuel (Truncate after minute + minute + 366 * 24 * hour)
                (Truncate after minute + minute) O (candidate_aligned after)) as P.
  unfold search. destruct (scan _ _ _ _ _) as [t| |]; intros [= <-]; [|exact B].
  destruct P as [P _]; [unfold scan_fuel; rewrite Z2Nat.id by lia; unfold hour; lia|].
  unfold Truncate, hour, minute, second in *. div_lia.
Qed.

(** Whatever the expression, once its fields are parsed the search
    terminates, and the time it answers lies in the future and at most 366 days
    and a minute ahead: the scheduler never sets a task's next run in the past. *)
Theorem NextTime_future fuel off expr after r :
  off mod 60 = 0 -> NextTime fuel off expr after = Some r ->
  after < r <= after + 366 * 24 * hour + minute.
Proof. apply NextTime_bounds. Qed.

Lemma NextTime_future_witness :
  let r := 9 * hour + 30 * minute in
  NextTime 60 0 "30 9 * * 1-5" 0 = Some r /\ 0 < r <= 0 + 366 * 24 * hour + minute.
Proof.
  assert (E : NextTime 60 0 "30 9 * * 1-5" 0 = Some (9 * hour + 30 * minute))
    by (vm_compute; reflexivity).
  split; [exact E|].
  apply (NextTime_future 60 0 "30 9 * * 1-5" 0 (9 * hour + 30 * minute)); [reflexivity|exact E].
Defined.

(** The hour skip rounds to the hour of the absolute clock, not of the
    local one.  At UTC+05:30 the expression "0,45 11 * * *", asked at 10:58, is
    answered with 11:45 although it denotes 11:00. *)
Theorem NextTime_half_hour_zone_misses :
  let ist := 19800 in
  let midnight := Date ist 2024 1 15 in
  let after := midnight + 10 * hour + 58 * minute in
  Validate "0,45 11 * * *" = Ok tt /\
  NextTime 60 ist "0,45 11 * * *" after = Some (midnight + 11 * hour + 45 * minute) /\
  after < midnight + 11 * hour < midnight + 11 * hour + 45 * minute /\
  expr_fires ist "0,45 11 * * *" (midnight + 11 * hour).
Proof.
  cbv zeta. split; [vm_compute; reflexivity|]. split; [vm_compute; reflexivity|].
  split; [vm_compute; auto|]. unfold expr_fires.
  replace (Fields "0,45 11 * * *") with ["0,45"; "11"; "*"; "*"; "*"]%string by reflexivity.
  assert (A : forall lo hi f v p, head (read_field f) = Some (Some p) ->
    denotes lo hi p v -> field_denotes lo hi f v).
  { intros lo hi f v p E D. exists p. split; [|done]. destruct (read_field f); [done|].
    injection E as ->. constructor. }
  repeat split; (eapply A; [vm_compute; reflexivity|vm_compute; intuition discriminate]).
Qed.

(** The step loops add on 64-bit integers.  The minute field
    "5-10/9223372036854775807" is accepted, and denotes minute 5 alone; the
    parsed set also holds the minutes 3 and 1, reached by wrapping around. *)
Theorem parseField_step_overflow :
  let f := "5-10/9223372036854775807"%string in
  validateField f 0 59 = Ok tt /\
  exists set, parseField 60 f 0 59 = Some set /\
    3 ∈ set /\ 1 ∈ set /\ forall v, 0 <= v <= 59 -> field_denotes 0 59 f v -> v = 5.
Proof.
  cbv zeta. split; [vm_compute; reflexivity|].
  assert (B : match parseField 60 "5-10/9223372036854775807" 0 59 with
              | Some set => mem 3 set && mem 1 set
              | None => false
              end = true) by (vm_compute; reflexivity).
  destruct (parseField 60 _ 0 59) as [set|]; [|done]. b2p. exists set. split; [done|].
  split; [by apply (bool_decide_eq_true (3 ∈ set))|].
  split; [by apply (bool_decide_eq_true (1 ∈ set))|].
  intros v R (p & I & D).
  replace (read_field _) with [Some (Stepped (BRange 5 10) (2 ^ 63 - 1))] in I
    by (vm_compute; reflexivity).
  apply list_elem_of_singleton in I. inversion I; subst p. unfold denotes in D. simpl in D.
  destruct D as [D1 D2]. rewrite Z.mod_small in D2 by lia. lia.
Qed.
