(* ===== verification/JSONText.v ===== *)
(** * JSON values and their text: encoding/json's Marshal and Unmarshal

    A value is a tree; a number keeps its literal, as [json.Number] does, an object
    its members in order, duplicates included.

    The part of Go's encoding/json that the program's stored plans and tool
    results go through.  [Unmarshal] accepts the JSON grammar with the
    scanner's error texts; invalid UTF-8 and unpaired surrogates in strings
    become U+FFFD.  [Marshal] escapes as the default encoder does (the HTML
    characters and U+2028/2029 included).  A number keeps its literal. *)

From Stdlib Require Import ZArith Lia Ascii String List Bool.
From stdpp Require Import base list strings.
From S2P Require Import Prelude GoStrings.

Local Open Scope string_scope.
Local Open Scope nat_scope.
Local Open Scope go_scope.

Inductive json : Type :=
| JNull
| JBool (b : bool)
| JNum (lit : string)
| JStr (s : string)
| JArr (l : list json)
| JObj (m : list (string * json)).

(** The decoder matches member names to field names without regard to case;
    on ASCII names this is equality of the lower-case forms. *)
Definition same_name (a b : string) : bool := (ToLower a =? ToLower b)%string.

(** The value a field ends up with: the last member of that name. *)
Fixpoint member (name : string) (m : list (string * json)) : option json :=
  match m with
  | [] => None
  | (k, v) :: r =>
      match member name r with
      | Some w => Some w
      | None => if same_name k name then Some v else None
      end
  end.

(** [json.Unmarshal] into a Go [string] holding [old]: null leaves it alone,
    any other kind than a string is an [UnmarshalTypeError]. *)
Definition dec_string (old : string) (j : option json) : res string string :=
  match j with
  | None | Some JNull => Ok old
  | Some (JStr s) => Ok s
  | Some _ => Err "json: cannot unmarshal into Go value of type string"
  end.

Fixpoint dec_strings (l : list json) : res string (list string) :=
  match l with
  | [] => Ok []
  | j :: r =>
      match dec_string "" (Some j), dec_strings r with
      | Ok s, Ok ss => Ok (s :: ss)
      | Err e, _ => Err e
      | _, Err e => Err e
      end
  end.

(** A nil slice and an absent or null member are the same empty list here. *)
Definition dec_string_list (j : option json) : res string (list string) :=
  match j with
  | None | Some JNull => Ok []
  | Some (JArr l) => dec_strings l
  | Some _ => Err "json: cannot unmarshal into Go value of type []string"
  end.

Definition quote : ascii := byte_of 34.
Definition backslash : ascii := byte_of 92.
Definition cont (a : ascii) : bool := between 128 191 a.

(** The length of the UTF-8 encoding at the head of [s], 0 if there is none. *)
Definition utf8_len (s : string) : nat :=
  match s with
  | "" => 0
  | String a r =>
      if code a <? 128 then 1
      else match r with
      | "" => 0
      | String b r =>
          if between 194 223 a then (if cont b then 2 else 0)
          else match r with
          | "" => 0
          | String c r =>
              if between 224 239 a then
                if (if code a =? 224 then between 160 191 b
                    else if code a =? 237 then between 128 159 b else cont b) && cont c
                then 3 else 0
              else match r with
              | "" => 0
              | String d _ =>
                  if between 240 244 a then
                    if (if code a =? 240 then between 144 191 b
                        else if code a =? 244 then between 128 143 b else cont b) && cont c && cont d
                    then 4 else 0
                  else 0
              end
          end
      end
  end.

(** [utf8.AppendRune] for a rune of the basic multilingual plane or above. *)
Definition utf8_enc (r : nat) : string :=
  if r <? 128 then s1 (byte_of r)
  else if r <? 2048 then
    String (byte_of (192 + r / 64)) (s1 (byte_of (128 + r mod 64)))
  else if r <? 65536 then
    String (byte_of (224 + r / 4096)) (String (byte_of (128 + r / 64 mod 64)) (s1 (byte_of (128 + r mod 64))))
  else
    String (byte_of (240 + r / 262144)) (String (byte_of (128 + r / 4096 mod 64))
      (String (byte_of (128 + r / 64 mod 64)) (s1 (byte_of (128 + r mod 64))))).

Definition replacement : string := utf8_enc 65533.

(** ** Marshal *)

(** The escape of a byte below 128, if it has one. *)
Definition escape_of (a : ascii) : option string :=
  let n := code a in
  if n =? 34 then Some (String backslash (s1 quote))
  else if n =? 92 then Some (String backslash (s1 backslash))
  else if n =? 8 then Some "\b" else if n =? 12 then Some "\f"
  else if n =? 10 then Some "\n" else if n =? 13 then Some "\r" else if n =? 9 then Some "\t"
  else if (n <? 32) || (n =? 60) || (n =? 62) || (n =? 38)
       then Some ("\u00" ++ String (hex_digit (n / 16)) (s1 (hex_digit (n mod 16))))%string
  else None.

(** U+2028 and U+2029, which break JavaScript string literals. *)
Definition line_separator (s : string) : option string :=
  if HasPrefix s (utf8_enc 8232) then Some "\u2028"
  else if HasPrefix s (utf8_enc 8233) then Some "\u2029" else None.

Fixpoint enc_body (fuel : nat) (s : string) : string :=
  match fuel, s with
  | S n, String a r =>
      match escape_of a with
      | Some e => (e ++ enc_body n r)%string
      | None =>
          match utf8_len s with
          | 0 => ("\ufffd" ++ enc_body n r)%string
          | k => ((match line_separator s with Some e => e | None => take_str k s end)
                  ++ enc_body n (drop_str k s))%string
          end
      end
  | _, _ => ""
  end.

Definition enc_string (s : string) : string :=
  String quote (enc_body (String.length s) s ++ s1 quote)%string.

Fixpoint Marshal (j : json) : string :=
  match j with
  | JNull => "null"
  | JBool true => "true"
  | JBool false => "false"
  | JNum lit => lit
  | JStr s => enc_string s
  | JArr l => ("[" ++ Join (map Marshal l) "," ++ "]")%string
  | JObj m => ("{" ++ Join (map (fun kv => (enc_string (fst kv) ++ ":" ++ Marshal (snd kv))%string) m) ","
               ++ "}")%string
  end.

(** ** Unmarshal *)

Definition eof {A} : res string A := Err "unexpected end of JSON input".

(** [quoteChar] of the scanner, on a byte taken as a rune. *)
Definition quoteChar (c : ascii) : string :=
  let n := code c in
  (if (n =? 39)%nat then "'\''"
   else if (n =? 34)%nat then String "'" (String quote "'")
   else if (n =? 92)%nat then "'\\'"
   else if (n =? 7)%nat then "'\a'" else if (n =? 8)%nat then "'\b'" else if (n =? 9)%nat then "'\t'"
   else if (n =? 10)%nat then "'\n'" else if (n =? 11)%nat then "'\v'" else if (n =? 12)%nat then "'\f'"
   else if (n =? 13)%nat then "'\r'"
   else if (n <? 32)%nat || (n =? 127)%nat then
     "'\x" ++ String (hex_digit ((n / 16)%nat)) (s1 (hex_digit ((n mod 16)%nat))) ++ "'"
   else if between 128 160 c || (n =? 173)%nat then
     "'\u00" ++ String (hex_digit ((n / 16)%nat)) (s1 (hex_digit ((n mod 16)%nat))) ++ "'"
   else "'" ++ utf8_enc n ++ "'")%string.

Definition bad {A} (c : ascii) (context : string) : res string A :=
  Err ("invalid character " ++ quoteChar c ++ " " ++ context)%string.

Definition is_json_space (a : ascii) : bool :=
  let n := code a in (n =? 32) || (n =? 9) || (n =? 13) || (n =? 10).

Fixpoint skip_space (s : string) : string :=
  match s with
  | String a r => if is_json_space a then skip_space r else s
  | "" => ""
  end.

Definition hex_value (a : ascii) : option nat :=
  let n := code a in
  if is_digit a then Some (n - 48)
  else if between 97 102 a then Some (n - 87)
  else if between 65 70 a then Some (n - 55) else None.

(** [k] hexadecimal digits, the value so far being [v]. *)
Fixpoint hex_digits (k : nat) (v : nat) (s : string) : res string (nat * string) :=
  match k with
  | 0 => Ok (v, s)
  | S k => match s with
           | "" => eof
           | String a r => match hex_value a with
                           | Some d => hex_digits k (16 * v + d) r
                           | None => bad a "in \u hexadecimal character escape"
                           end
           end
  end.

(** The rune of an escape whose digits say [u], given the text after it; a
    surrogate takes the escape of the other half with it. *)
Definition escaped_rune (u : nat) (s : string) : string * string :=
  if (55296 <=? u) && (u <? 57344) then
    match s with
    | String b (String c r) =>
        if Ascii.eqb b backslash && Ascii.eqb c "u" then
          match hex_digits 4 0 r with
          | Ok (v, r') =>
              if (u <? 56320) && (56320 <=? v) && (v <? 57344)
              then (utf8_enc (65536 + (u - 55296) * 1024 + (v - 56320)), r')
              else (replacement, s)
          | Err _ => (replacement, s)
          end
        else (replacement, s)
    | _ => (replacement, s)
    end
  else (utf8_enc u, s).

Definition simple_escape (a : ascii) : option ascii :=
  match a with
  | "b" => Some (byte_of 8) | "f" => Some (byte_of 12) | "n" => Some (byte_of 10)
  | "r" => Some (byte_of 13) | "t" => Some (byte_of 9) | "/" => Some "/"
  | _ => if Ascii.eqb a quote || Ascii.eqb a backslash then Some a else None
  end%char.

(** The rest of a string literal, up to the closing quote. *)
Fixpoint str_body (fuel : nat) (s : string) : res string (string * string) :=
  match fuel, s with
  | S n, String a r =>
      if Ascii.eqb a quote then Ok ("", r)
      else if Ascii.eqb a backslash then
        match r with
        | "" => eof
        | String e r' =>
            match simple_escape e with
            | Some c => let! (t, rest) := str_body n r' in Ok (String c t, rest)
            | None =>
                if Ascii.eqb e "u" then
                  let! (u, r'') := hex_digits 4 0 r' in
                  let '(c, r3) := escaped_rune u r'' in
                  let! (t, rest) := str_body n r3 in Ok ((c ++ t)%string, rest)
                else bad e "in string escape code"
            end
        end
      else if code a <? 32 then bad a "in string literal"
      else match utf8_len s with
           | 0 => let! (t, rest) := str_body n r in Ok ((replacement ++ t)%string, rest)
           | k => let! (t, rest) := str_body n (drop_str k s) in Ok ((take_str k s ++ t)%string, rest)
           end
  | _, _ => eof
  end.

Definition parse_string (s : string) : res string (string * string) :=
  str_body (S (String.length s)) s.

(** The longest run of digits. *)
Fixpoint digits (s : string) : string * string :=
  match s with
  | String a r => if is_digit a then let '(d, rest) := digits r in (String a d, rest) else ("", s)
  | "" => ("", "")
  end.

(** Digits, at least one, or the error of the given context. *)
Definition digits1 (context : string) (s : string) : res string (string * string) :=
  match s with
  | "" => eof
  | String a _ => if is_digit a then Ok (digits s) else bad a context
  end.

Definition parse_exp (s : string) : res string (string * string) :=
  match s with
  | String e r =>
      if Ascii.eqb e "e" || Ascii.eqb e "E" then
        let '(sign, r') := match r with
                           | String g r' => if Ascii.eqb g "+" || Ascii.eqb g "-" then (s1 g, r') else ("", r)
                           | "" => ("", r)
                           end in
        let! (d, rest) := digits1 "in exponent of numeric literal" r' in
        Ok (String e (sign ++ d)%string, rest)
      else Ok ("", s)
  | "" => Ok ("", s)
  end.

Definition parse_frac (s : string) : res string (string * string) :=
  match s with
  | String p r =>
      if Ascii.eqb p "." then
        let! (d, rest) := digits1 "after decimal point in numeric literal" r in Ok (String p d, rest)
      else Ok ("", s)
  | "" => Ok ("", s)
  end.

Definition parse_int (s : string) : res string (string * string) :=
  match s with
  | String a r => if Ascii.eqb a "0" then Ok (s1 a, r) else digits1 "in numeric literal" s
  | "" => eof
  end.

Definition parse_number (s : string) : res string (string * string) :=
  let '(sign, r) := match s with
                    | String a r => if Ascii.eqb a "-" then (s1 a, r) else ("", s)
                    | "" => ("", s)
                    end in
  let! (i, r) := parse_int r in
  let! (f, r) := parse_frac r in
  let! (e, r) := parse_exp r in
  Ok ((sign ++ i ++ f ++ e)%string, r).

(** The letters left of a literal, once its first is read. *)
Fixpoint parse_literal (name : string) (letters : string) (s : string) : res string string :=
  match letters with
  | "" => Ok s
  | String l ls =>
      match s with
      | "" => eof
      | String a r =>
          if Ascii.eqb a l then parse_literal name ls r
          else bad a ("in literal " ++ name ++ " (expecting " ++ quoteChar l ++ ")")%string
      end
  end.

Definition max_depth : nat := 100 * 100.

Fixpoint parse_value (fuel : nat) (room : nat) (s : string) : res string (json * string) :=
  match fuel with
  | 0 => eof
  | S n =>
      match skip_space s with
      | "" => eof
      | String a r =>
          if Ascii.eqb a "{" then
            match room with
            | 0 => Err "exceeded max depth"
            | S room =>
                match skip_space r with
                | "" => eof
                | String b r' =>
                    if Ascii.eqb b "}" then Ok (JObj [], r')
                    else let! (m, rest) := parse_members n room (String b r') in Ok (JObj m, rest)
                end
            end
          else if Ascii.eqb a "[" then
            match room with
            | 0 => Err "exceeded max depth"
            | S room =>
                match skip_space r with
                | "" => eof
                | String b r' =>
                    if Ascii.eqb b "]" then Ok (JArr [], r')
                    else let! (l, rest) := parse_elems n room (String b r') in Ok (JArr l, rest)
                end
            end
          else if Ascii.eqb a quote then let! (t, rest) := parse_string r in Ok (JStr t, rest)
          else if Ascii.eqb a "-" || is_digit a then
            let! (t, rest) := parse_number (String a r) in Ok (JNum t, rest)
          else if Ascii.eqb a "t" then rest <-? parse_literal "true" "rue" r; Ok (JBool true, rest)
          else if Ascii.eqb a "f" then rest <-? parse_literal "false" "alse" r; Ok (JBool false, rest)
          else if Ascii.eqb a "n" then rest <-? parse_literal "null" "ull" r; Ok (JNull, rest)
          else bad a "looking for beginning of value"
      end
  end
with parse_elems (fuel : nat) (room : nat) (s : string) : res string (list json * string) :=
  match fuel with
  | 0 => eof
  | S n =>
      let! (j, r) := parse_value n room s in
      match skip_space r with
      | "" => eof
      | String a r' =>
          if Ascii.eqb a "," then let! (l, rest) := parse_elems n room r' in Ok (j :: l, rest)
          else if Ascii.eqb a "]" then Ok ([j], r')
          else bad a "after array element"
      end
  end
with parse_members (fuel : nat) (room : nat) (s : string) : res string (list (string * json) * string) :=
  match fuel with
  | 0 => eof
  | S n =>
      match skip_space s with
      | "" => eof
      | String q r =>
          if Ascii.eqb q quote then
            let! (k, r) := parse_string r in
            match skip_space r with
            | "" => eof
            | String c r =>
                if Ascii.eqb c ":" then
                  let! (j, r) := parse_value n room r in
                  match skip_space r with
                  | "" => eof
                  | String a r' =>
                      if Ascii.eqb a "," then let! (m, rest) := parse_members n room r' in Ok ((k, j) :: m, rest)
                      else if Ascii.eqb a "}" then Ok ([(k, j)], r')
                      else bad a "after object key:value pair"
                  end
                else bad c "after object key"
            end
          else bad q "looking for beginning of object key string"
      end
  end.

(** The value of a whole text. *)
Definition Unmarshal (s : string) : res string json :=
  let! (j, r) := parse_value (2 * String.length s + 2) max_depth s in
  match skip_space r with
  | "" => Ok j
  | String a _ => bad a "after top-level value"
  end.

(** ** Strings are read back *)

(** Valid UTF-8, chunk by chunk. *)
Inductive utf8 : string -> Prop :=
| utf8_nil : utf8 ""
| utf8_cons s k : utf8_len s = S k -> utf8 (drop_str (S k) s) -> utf8 s.

(** The length of a chunk depends on its bytes alone. *)
Lemma utf8_len_take s t k : utf8_len s = S k -> utf8_len (take_str (S k) s ++ t) = S k.
Proof.
  destruct s as [|a [|b [|c [|d r]]]]; cbn [utf8_len]; intros H;
    repeat (lazymatch type of H with (if ?x then _ else _) = _ => destruct x eqn:? end;
            try discriminate H);
    try discriminate H; injection H as [= <-]; cbn [take_str];
    rewrite ?append_cons, ?append_nil_l; cbn [utf8_len];
    repeat match goal with H : ?x = _ |- context [if ?x then _ else _] => rewrite H end;
    try done; destruct t as [|? [|? [|? ?]]]; done.
Qed.

Lemma utf8_len_le s : utf8_len s <= String.length s.
Proof.
  destruct s as [|a [|b [|c [|d r]]]]; cbn [utf8_len String.length]; repeat case_match; lia.
Qed.

Lemma drop_take_append n s t : n <= String.length s -> drop_str n (take_str n s ++ t) = t.
Proof.
  revert s. induction n as [|n IH]; intros [|a s]; simpl; intros Hn; try done; try lia.
  apply IH. lia.
Qed.

Lemma take_take_append n s t : n <= String.length s -> take_str n (take_str n s ++ t) = take_str n s.
Proof.
  revert s. induction n as [|n IH]; intros [|a s]; simpl; intros Hn; try done; try lia.
  f_equal. apply IH. lia.
Qed.

Lemma length_drop_str n s : String.length (drop_str n s) = String.length s - n.
Proof. revert s. induction n as [|n IH]; intros [|a s]; simpl; try lia. apply IH. Qed.

(** Reading back an escape. *)
Lemma str_body_escape a e n t : escape_of a = Some e ->
  str_body (S n) (e ++ t) = let! (u, rest) := str_body n t in Ok (String a u, rest).
Proof.
  destruct a as [[] [] [] [] [] [] [] []]; intros [= <-]; reflexivity.
Qed.

Lemma escape_of_None a : escape_of a = None ->
  Ascii.eqb a quote = false /\ Ascii.eqb a backslash = false /\ (code a <? 32) = false.
Proof. destruct a as [[] [] [] [] [] [] [] []]; by intros [=]. Qed.

Lemma escape_len a r e : escape_of a = Some e -> utf8_len (String a r) = 1.
Proof. destruct a as [[] [] [] [] [] [] [] []]; by intros [=]. Qed.

Lemma HasPrefix_split s p : HasPrefix s p = true -> exists r, s = (p ++ r)%string.
Proof.
  unfold HasPrefix. revert s. induction p as [|a p IH]; intros s H; [by exists s|].
  destruct s as [|b s]; [done|]. cbn in H. destruct (ascii_dec a b) as [->|]; [|done].
  destruct (IH s H) as [r ->]. by exists r.
Qed.

Lemma line_separator_spec s e : line_separator s = Some e ->
  utf8_len s = 3 /\
  forall n t, str_body (S n) (e ++ t) =
              let! (u, rest) := str_body n t in Ok ((take_str 3 s ++ u)%string, rest).
Proof.
  unfold line_separator. repeat case_match; intros [= <-];
    match goal with H : HasPrefix _ _ = true |- _ => destruct (HasPrefix_split _ _ H) as [r ->] end;
    (split; [by vm_compute|]); intros n t.
  all: replace (take_str 3 _) with (utf8_enc 8232) + replace (take_str 3 _) with (utf8_enc 8233);
    [reflexivity | by vm_compute].
Qed.

(** A chunk without escapes is read back as it is. *)
Lemma str_body_chunk a r k n t : escape_of a = None -> utf8_len (String a r) = S k ->
  str_body (S n) (take_str (S k) (String a r) ++ t) =
  let! (u, rest) := str_body n t in Ok ((take_str (S k) (String a r) ++ u)%string, rest).
Proof.
  intros He Hk. destruct (escape_of_None a He) as (Hq & Hb & H32).
  pose proof (utf8_len_take (String a r) t k Hk) as Hl.
  pose proof (utf8_len_le (String a r)) as Hle. rewrite Hk in Hle.
  pose proof (drop_take_append (S k) (String a r) t Hle) as Hd.
  pose proof (take_take_append (S k) (String a r) t Hle) as Ht.
  cbn [take_str drop_str] in *. rewrite append_cons in *. cbn [str_body].
  rewrite Hq, Hb, H32, Hl. cbn [take_str drop_str] in *. rewrite Hd, Ht. done.
Qed.

Lemma str_body_quote n rest : str_body (S n) (String quote rest) = Ok ("", rest).
Proof. done. Qed.

Lemma enc_body_read s : utf8 s -> forall n m rest,
  String.length s <= n -> String.length s < m ->
  str_body m (enc_body n s ++ String quote rest) = Ok (s, rest).
Proof.
  induction 1 as [|s k Hk Hs IH]; intros n m rest Hn Hm.
  - destruct m; [lia|]. by destruct n.
  - destruct s as [|a r]; [done|]. destruct n as [|n]; [simpl in Hn; lia|].
    destruct m as [|m]; [lia|].
    pose proof (utf8_len_le (String a r)) as Hle. rewrite Hk in Hle.
    assert (Hlen := length_drop_str (S k) (String a r)).
    assert (Hd : (take_str (S k) (String a r) ++ drop_str (S k) (String a r))%string = String a r)
      by apply take_drop_str.
    specialize (IH n m rest ltac:(lia) ltac:(lia)).
    cbn [enc_body]. destruct (escape_of a) as [e|] eqn:He.
    + rewrite append_assoc, (str_body_escape a e) by done.
      pose proof (escape_len a r e He) as H1. rewrite H1 in Hk. injection Hk as <-.
      cbn [drop_str] in IH. by rewrite IH.
    + rewrite Hk. destruct (line_separator (String a r)) as [e|] eqn:Hl.
      * destruct (line_separator_spec _ _ Hl) as [H3 Hr]. rewrite H3 in Hk. injection Hk as <-.
        rewrite append_assoc, Hr, IH. cbn [res_bind]. by rewrite Hd.
      * rewrite append_assoc, str_body_chunk, IH by done. cbn [res_bind]. by rewrite Hd.
Qed.

Lemma enc_body_length n s : String.length s <= n -> utf8 s -> String.length s <= String.length (enc_body n s).
Proof.
  intros Hn Hs. revert n Hn. induction Hs as [|s k Hk Hs IH]; intros n Hn; [simpl; lia|].
  destruct s as [|a r]; [done|]. destruct n as [|n]; [simpl in Hn; lia|].
  pose proof (utf8_len_le (String a r)) as Hle. rewrite Hk in Hle.
  assert (Hlen := length_drop_str (S k) (String a r)). specialize (IH n ltac:(lia)).
  assert (Ht : String.length (take_str (S k) (String a r)) = S k).
  { pose proof (take_drop_str (S k) (String a r)) as H. apply (f_equal String.length) in H.
    rewrite length_append in H. lia. }
  cbn [enc_body]. destruct (escape_of a) as [e|] eqn:He.
  - pose proof (escape_len a r e He) as H1. rewrite H1 in Hk. injection Hk as <-.
    cbn [drop_str] in IH. rewrite length_append. 
    assert (1 <= String.length e). { destruct a as [[] [] [] [] [] [] [] []]; first [discriminate He | injection He as <-; simpl; lia]. }
    simpl in Hlen |- *. lia.
  - rewrite Hk, length_append. destruct (line_separator (String a r)) as [e|] eqn:Hl; [|lia].
    destruct (line_separator_spec _ _ Hl) as [H3 _].
    assert (String.length e = 6) as He6.
    { unfold line_separator in Hl. destruct (HasPrefix _ _); [by injection Hl as <-|].
      destruct (HasPrefix _ _); [by injection Hl as <-|done]. }
    rewrite H3 in Hk. injection Hk as <-. lia.
Qed.

Lemma parse_enc_string s rest : utf8 s ->
  parse_string (enc_body (String.length s) s ++ String quote rest) = Ok (s, rest).
Proof.
  intros Hs. apply enc_body_read; [done..|]. rewrite length_append.
  pose proof (enc_body_length (String.length s) s ltac:(lia) Hs). simpl. lia.
Qed.

(** ** Numbers are read back *)

(** What may follow a number: nothing that could continue it. *)
Definition stops (t : string) : bool :=
  match t with
  | "" => true
  | String a _ => negb (is_digit a || Ascii.eqb a "." || Ascii.eqb a "e" || Ascii.eqb a "E")
  end.

Lemma stops_head a t : stops (String a t) = true ->
  is_digit a = false /\ Ascii.eqb a "." = false /\ Ascii.eqb a "e" = false /\ Ascii.eqb a "E" = false.
Proof. cbn. rewrite negb_true_iff, !orb_false_iff. tauto. Qed.

Lemma digits_append s d rest t : digits s = (d, rest) -> stops t = true -> digits (s ++ t) = (d, (rest ++ t)%string).
Proof.
  revert d. induction s as [|a s IH]; intros d H Ht.
  - injection H as <- <-. destruct t as [|b t]; [done|].
    destruct (stops_head _ _ Ht) as (Hd & _). rewrite append_nil_l. cbn [digits]. by rewrite Hd.
  - rewrite append_cons. cbn in H |- *. destruct (is_digit a); [|by injection H as <- <-].
    destruct (digits s) as [d' r']. injection H as <- ->. by rewrite (IH d').
Qed.

Lemma digits1_append c s d rest t : digits1 c s = Ok (d, rest) -> stops t = true ->
  digits1 c (s ++ t) = Ok (d, (rest ++ t)%string).
Proof.
  destruct s as [|a s]; [done|]. unfold digits1. rewrite append_cons. destruct (is_digit a); [|done].
  intros [= H] Ht. f_equal. rewrite <- append_cons. by apply digits_append.
Qed.

Lemma parse_int_append s d rest t : parse_int s = Ok (d, rest) -> stops t = true ->
  parse_int (s ++ t) = Ok (d, (rest ++ t)%string).
Proof.
  destruct s as [|a s]; [done|]. unfold parse_int. rewrite append_cons.
  destruct (Ascii.eqb a "0"); [by intros [= <- <-]|]. rewrite <- append_cons. apply digits1_append.
Qed.

Lemma parse_frac_append s d rest t : parse_frac s = Ok (d, rest) -> stops t = true ->
  parse_frac (s ++ t) = Ok (d, (rest ++ t)%string).
Proof.
  destruct s as [|a s]; intros H Ht.
  - injection H as <- <-. destruct t as [|b t]; [done|].
    destruct (stops_head _ _ Ht) as (_ & Hd & _). rewrite append_nil_l. cbn [parse_frac]. by rewrite Hd.
  - rewrite append_cons. unfold parse_frac in *. destruct (Ascii.eqb a ".").
    + destruct (digits1 _ s) as [[d' r']|] eqn:E; [|done]. injection H as <- <-.
      by rewrite (digits1_append _ _ _ _ t E Ht).
    + injection H as <- <-. by rewrite append_cons.
Qed.

Lemma parse_exp_append s d rest t : parse_exp s = Ok (d, rest) -> stops t = true ->
  parse_exp (s ++ t) = Ok (d, (rest ++ t)%string).
Proof.
  destruct s as [|a s]; intros H Ht.
  - injection H as <- <-. destruct t as [|b t]; [done|].
    destruct (stops_head _ _ Ht) as (_ & _ & He & HE). rewrite append_nil_l. cbn [parse_exp]. by rewrite He, HE.
  - rewrite append_cons. unfold parse_exp in *. destruct (Ascii.eqb a "e" || Ascii.eqb a "E").
    + destruct s as [|g s]; [done|]. rewrite append_cons.
      destruct (Ascii.eqb g "+" || Ascii.eqb g "-").
      all: match type of H with res_bind ?m _ = _ => destruct m as [[d' r']|] eqn:E; [|done] end.
      all: injection H as <- <-; rewrite <- ?append_cons, (digits1_append _ _ _ _ t E Ht); done.
    + injection H as <- <-. by rewrite append_cons.
Qed.

Lemma parse_number_append s d rest t : parse_number s = Ok (d, rest) -> stops t = true ->
  parse_number (s ++ t) = Ok (d, (rest ++ t)%string).
Proof.
  intros H Ht. unfold parse_number in *.
  assert (Hsign : forall r0 sign, s = (sign ++ r0)%string -> forall k,
    res_bind (parse_int r0) k = Ok (d, rest) ->
    (forall i r1, k (i, r1) = (let! (f, r) := parse_frac r1 in let! (e, r) := parse_exp r in
                               Ok ((sign ++ i ++ f ++ e)%string, r))) ->
    res_bind (parse_int (r0 ++ t)) k = Ok (d, (rest ++ t)%string)).
  { intros r0 sign _ k Hk Hd.
    destruct (parse_int r0) as [[i r1]|] eqn:E1; [|done]. cbn [res_bind] in Hk. rewrite Hd in Hk.
    destruct (parse_frac r1) as [[f r2]|] eqn:E2; [|done]. cbn [res_bind] in Hk.
    destruct (parse_exp r2) as [[e r3]|] eqn:E3; [|done]. injection Hk as <- <-.
    rewrite (parse_int_append _ _ _ t E1 Ht). cbn [res_bind]. rewrite Hd.
    rewrite (parse_frac_append _ _ _ t E2 Ht). cbn [res_bind].
    by rewrite (parse_exp_append _ _ _ t E3 Ht). }
  destruct s as [|a s]; [done|]. rewrite append_cons. destruct (Ascii.eqb a "-").
  - by apply (Hsign s (s1 a)).
  - rewrite <- append_cons. by apply (Hsign (String a s) "").
Qed.

(** A number starts with a minus sign or a digit. *)
Lemma parse_number_head s p : parse_number s = Ok p ->
  exists a r, s = String a r /\ (Ascii.eqb a "-" || is_digit a) = true.
Proof.
  destruct s as [|a s]; [done|]. intros H. exists a, s. split; [done|].
  unfold parse_number in H. destruct (Ascii.eqb a "-"); [done|].
  unfold parse_int, digits1 in H. destruct (Ascii.eqb a "0") eqn:E0.
  - apply Ascii.eqb_eq in E0 as ->. done.
  - by destruct (is_digit a).
Qed.

(** ** Values are read back *)

(** Induction over values with their lists. *)
Lemma json_ind' (P : json -> Prop) :
  P JNull -> (forall b, P (JBool b)) -> (forall l, P (JNum l)) -> (forall s, P (JStr s)) ->
  (forall l, Forall P l -> P (JArr l)) -> (forall m, Forall (fun kv => P (snd kv)) m -> P (JObj m)) ->
  forall j, P j.
Proof.
  intros Hn Hb Hl Hs Ha Ho. fix IH 1. intros [|b|l|s|l|m]; [apply Hn|apply Hb|apply Hl|apply Hs| |].
  - apply Ha. induction l as [|x l IHl]; constructor; [apply IH|exact IHl].
  - apply Ho. induction m as [|[k v] m IHm]; constructor; [apply IH|exact IHm].
Qed.

(** The values [Marshal] writes readably: valid numbers, UTF-8 strings, and
    nesting within [room]. *)
Fixpoint readable (room : nat) (j : json) {struct j} : Prop :=
  match j with
  | JNull | JBool _ => True
  | JNum lit => parse_number lit = Ok (lit, "")
  | JStr s => utf8 s
  | JArr l => match room with
              | 0 => False
              | S r => foldr (fun x P => readable r x /\ P) True l
              end
  | JObj m => match room with
              | 0 => False
              | S r => foldr (fun kv P => (utf8 (fst kv) /\ readable r (snd kv)) /\ P) True m
              end
  end.

(** The fuel a value takes. *)
Fixpoint jsize (j : json) : nat :=
  match j with
  | JArr l => S (foldr (fun x n => S (jsize x + n)) 1 l)
  | JObj m => S (foldr (fun kv n => S (jsize (snd kv) + n)) 1 m)
  | _ => 1
  end.

(** The text of a value starts with a byte that opens a value. *)
Definition opens (a : ascii) : bool := negb (is_json_space a || Ascii.eqb a "]" || Ascii.eqb a "}").

Lemma number_head a : (Ascii.eqb a "-" || is_digit a) = true ->
  opens a = true /\ Ascii.eqb a "{" = false /\ Ascii.eqb a "[" = false /\ Ascii.eqb a quote = false.
Proof. destruct a as [[] [] [] [] [] [] [] []]; by intros [=]. Qed.

Lemma Marshal_head j room : readable room j -> exists a r, Marshal j = String a r /\ opens a = true.
Proof.
  destruct j as [|[]|lit|s|l|m]; intros H; try (eexists _, _; split; reflexivity).
  cbn [readable] in H. destruct (parse_number_head _ _ H) as (a & r & -> & Ha). exists a, r.
  by destruct (number_head a Ha).
Qed.

Lemma skip_opens a r : opens a = true -> skip_space (String a r) = String a r.
Proof.
  unfold opens. rewrite negb_true_iff, !orb_false_iff. intros [[H _] _]. cbn. by rewrite H.
Qed.

Lemma skip_String a r : is_json_space a = false -> skip_space (String a r) = String a r.
Proof. cbn. by intros ->. Qed.

Ltac norm_append := repeat first [rewrite append_cons | rewrite append_nil_l | rewrite append_assoc].

Definition reads (j : json) : Prop := forall n room t,
  readable room j -> stops t = true -> jsize j <= n ->
  parse_value n room (Marshal j ++ t) = Ok (j, t).

Definition elem_text (l : list json) : string := Join (map Marshal l) ",".
Definition member_text (m : list (string * json)) : string :=
  Join (map (fun kv => (enc_string (fst kv) ++ ":" ++ Marshal (snd kv))%string) m) ",".

Lemma Join_cons2 x y (l : list string) : Join (x :: y :: l) "," = (x ++ String "," (Join (y :: l) ","))%string.
Proof. done. Qed.

Lemma parse_elems_read l : Forall reads l -> forall n room t, l <> [] ->
  foldr (fun x P => readable room x /\ P) True l ->
  foldr (fun x n => S (jsize x + n)) 1 l <= n ->
  parse_elems n room (elem_text l ++ String "]" t) = Ok (l, t).
Proof.
  unfold elem_text. induction 1 as [|j l Hj Hl IH]; intros n room t Hne Hr Hn; [done|].
  destruct n as [|n]; [simpl in Hn; lia|]. destruct Hr as [Hr Hrs]. cbn [foldr] in Hn.
  destruct l as [|j2 l]; cbn [map].
  - change (Join [Marshal j] ",") with (Marshal j). cbn [parse_elems].
    by rewrite Hj by (done || lia).
  - rewrite Join_cons2, append_assoc, append_cons. cbn [parse_elems].
    rewrite Hj by (done || lia).
    specialize (IH n room t ltac:(done) Hrs ltac:(cbn [foldr] in *; lia)). cbn [map] in IH.
    cbn [res_bind]. rewrite skip_String, Ascii.eqb_refl by done. by rewrite IH.
Qed.

Lemma enc_string_append s t : (enc_string s ++ t)%string = String quote (enc_body (String.length s) s ++ String quote t).
Proof. unfold enc_string. rewrite append_cons, append_assoc. done. Qed.

Lemma parse_members_read m : Forall (fun kv => reads (snd kv)) m -> forall n room t, m <> [] ->
  foldr (fun kv P => (utf8 (fst kv) /\ readable room (snd kv)) /\ P) True m ->
  foldr (fun kv n => S (jsize (snd kv) + n)) 1 m <= n ->
  parse_members n room (member_text m ++ String "}" t) = Ok (m, t).
Proof.
  unfold member_text. induction 1 as [|[k j] m Hj Hm IH]; intros n room t Hne Hr Hn; [done|].
  destruct n as [|n]; [simpl in Hn; lia|]. destruct Hr as [[Hk Hr] Hrs]. cbn [foldr fst snd] in *.
  destruct m as [|kv2 m]; cbn [map fst snd].
  - change (Join [?x] ",") with x. cbn [parse_members].
    rewrite append_assoc, enc_string_append. rewrite skip_opens by done.
    rewrite parse_enc_string by done. cbn [res_bind]. norm_append.
    rewrite skip_String, Ascii.eqb_refl by done. by rewrite Hj by (done || lia).
  - rewrite Join_cons2. cbn [foldr] in *.
    specialize (IH n room t ltac:(done) Hrs ltac:(lia)). cbn [map] in IH.
    set (J := Join (_ :: map _ m) ",") in *.
    rewrite append_assoc, append_assoc, enc_string_append, append_cons. cbn [parse_members].
    rewrite skip_opens by done. rewrite parse_enc_string by done. cbn [res_bind].
    norm_append. rewrite skip_String, Ascii.eqb_refl by done.
    rewrite Hj by (done || lia).
    cbn [res_bind]. rewrite skip_String, Ascii.eqb_refl by done. by rewrite IH.
Qed.

Lemma Marshal_reads j : reads j.
Proof.
  induction j as [|b|lit|s|l Hl|m Hm] using json_ind'; intros n room t Hr Ht Hn;
    (destruct n as [|n]; [simpl in Hn; lia|]).
  - done.
  - by destruct b.
  - cbn [readable] in Hr. destruct (parse_number_head _ _ Hr) as (a & r & Hlit & Ha). destruct (number_head a Ha) as (Ho & H1 & H2 & H3).
    cbn [Marshal readable] in *. rewrite Hlit at 1. rewrite append_cons. cbn [parse_value].
    rewrite skip_opens, H1, H2, H3, Ha by done. rewrite <- append_cons, <- Hlit.
    by rewrite (parse_number_append _ _ _ t Hr Ht).
  - cbn [Marshal]. rewrite enc_string_append. cbn [parse_value]. rewrite skip_String by done.
    change (Ascii.eqb quote "{"%char) with false. change (Ascii.eqb quote "["%char) with false.
    by rewrite Ascii.eqb_refl, parse_enc_string.
  - destruct room as [|room]; [done|]. destruct l as [|j l]; [done|].
    cbn [Marshal]. rewrite append_assoc, append_assoc, append_cons, append_nil_l. 
    destruct Hr as [Hrj Hrs]. destruct (Marshal_head j room Hrj) as (a & r & Ha & Ho).
    assert (exists r', (elem_text (j :: l) ++ "]" ++ t)%string = String a r') as [r' Hr'].
    { unfold elem_text. destruct l as [|j2 l]; cbn [map].
      - change (Join [?x] ",") with x. rewrite Ha, append_cons. by eexists.
      - rewrite Join_cons2, Ha, append_cons, append_cons. by eexists. }
    pose proof (parse_elems_read (j :: l) Hl n room t) as HP.
    fold (elem_text (j :: l)). rewrite Hr'. change ("]" ++ t)%string with (String "]" t) in Hr'.
    rewrite Hr' in HP. cbn [parse_value]. rewrite skip_String by done.
    change (Ascii.eqb "[" "{"%char) with false. rewrite Ascii.eqb_refl, skip_opens by done.
    assert (Ascii.eqb a "]" = false) as -> by (destruct a as [[] [] [] [] [] [] [] []]; done).
    rewrite HP; [done|done|by split|]. cbn [jsize] in Hn. lia.
  - destruct room as [|room]; [done|]. destruct m as [|[k j] m]; [done|].
    cbn [Marshal]. rewrite append_assoc, append_assoc, append_cons, append_nil_l.
    fold (member_text ((k, j) :: m)).
    assert (exists r', (member_text ((k, j) :: m) ++ "}" ++ t)%string = String quote r') as [r' Hr'].
    { unfold member_text, enc_string. destruct m as [|kv m]; cbn [map fst snd].
      - change (Join [?x] ",") with x. rewrite !append_cons. by eexists.
      - rewrite Join_cons2, !append_cons. by eexists. }
    pose proof (parse_members_read ((k, j) :: m) Hm n room t) as HP.
    rewrite Hr'. change ("}" ++ t)%string with (String "}" t) in Hr'.
    rewrite Hr' in HP. cbn [parse_value]. rewrite skip_String, Ascii.eqb_refl by done.
    rewrite skip_String by done. change (Ascii.eqb quote "}"%char) with false.
    rewrite HP; [done|done|done|]. cbn [jsize] in Hn. lia.
Qed.

Lemma length_Join_cons x l : l <> [] ->
  String.length (Join (x :: l) ",") = String.length x + S (String.length (Join l ",")).
Proof. destruct l as [|y l]; [done|]. intros _. by rewrite Join_cons2, length_append. Qed.

Lemma jsize_le j : jsize j <= 2 * String.length (Marshal j) + 1.
Proof.
  induction j as [|b|lit|s|l Hl|m Hm] using json_ind'; try (cbn; lia).
  - cbn [jsize Marshal]. rewrite !length_append. change (String.length "[") with 1. change (String.length "]") with 1.
    destruct l as [|x l]; [cbn; lia|].
    enough (foldr (fun x n => S (jsize x + n)) 1 (x :: l) <= 2 * String.length (Join (map Marshal (x :: l)) ",") + 3) by lia.
    revert x Hl. induction l as [|y l IH]; intros x Hl; inversion Hl as [|? ? Hx Hr]; subst.
    + cbn [foldr map]. change (Join [?x] ",") with x. lia.
    + specialize (IH y Hr). cbn [foldr map] in *. rewrite length_Join_cons by done. lia.
  - cbn [jsize Marshal]. rewrite !length_append. change (String.length "{") with 1. change (String.length "}") with 1.
    destruct m as [|x m]; [cbn; lia|]. set (f := fun kv : string * json => (enc_string (fst kv) ++ ":" ++ Marshal (snd kv))%string).
    enough (foldr (fun kv n => S (jsize (snd kv) + n)) 1 (x :: m) <= 2 * String.length (Join (map f (x :: m)) ",") + 3) by lia.
    assert (Hf : forall kv, String.length (Marshal (snd kv)) <= String.length (f kv)).
    { intros kv. unfold f. rewrite !length_append. lia. }
    revert x Hm. induction m as [|y m IH]; intros x Hm; inversion Hm as [|? ? Hx Hr]; subst.
    + cbn [foldr map]. change (Join [?x] ",") with x. specialize (Hf x). lia.
    + specialize (IH y Hr). cbn [foldr map] in *. rewrite length_Join_cons by done. specialize (Hf x). lia.
Qed.

(** What is marshalled is read back. *)
Lemma Unmarshal_Marshal j : readable max_depth j -> Unmarshal (Marshal j) = Ok j.
Proof.
  intros H. unfold Unmarshal. pose proof (jsize_le j) as Hs.
  rewrite <- (append_nil_r (Marshal j)) at 2.
  rewrite (Marshal_reads j (2 * String.length (Marshal j) + 2) max_depth ""); [done|done|done|lia].
Qed.

(** ** Integers are valid numbers *)

Lemma digits_all s : all_bytes is_digit s = true -> digits s = (s, "").
Proof.
  induction s as [|a s IH]; [done|]. cbn [all_bytes digits]. rewrite andb_true_iff. intros [-> H].
  by rewrite IH.
Qed.

Lemma Itoa_readable z : parse_number (Itoa z) = Ok (Itoa z, "").
Proof.
  destruct (Itoa_cases z) as (neg & a & r & E & Hd & H0 & _ & _). rewrite E.
  assert (Ha : is_digit a = true) by (cbn [all_bytes] in Hd; by b2p).
  assert (Hi : parse_int (String a r) = Ok (String a r, "")).
  { unfold parse_int, digits1. destruct (Ascii.eqb a "0") eqn:Z; [by rewrite H0|].
    by rewrite Ha, digits_all. }
  unfold parse_number. destruct neg.
  - cbn [Ascii.eqb Bool.eqb]. change (Ascii.eqb "-" "-") with true. cbv iota. rewrite Hi. cbn [res_bind parse_frac parse_exp]. by rewrite !append_nil_r.
  - assert (Ascii.eqb a "-" = false) as -> by (destruct a as [[] [] [] [] [] [] [] []]; done).
    rewrite Hi. cbn [res_bind parse_frac parse_exp]. by rewrite !append_nil_r.
Qed.
