(* ===== verification/Plan.v ===== *)
(** * brain/plan.go: the plan, its patches and its validation

    The structs keep their fields and order; a Go map that may be nil is an
    [option] of a map, since assigning into a nil map panics; a pointer is an
    [option]. *)

From Stdlib Require Import ZArith Lia Ascii String List Bool.
From stdpp Require Import base list strings gmap.
From S2P Require Import Prelude GoStrings JSONText.

Local Open Scope string_scope.

(** ** Data *)

Record TypographySpec := { HeadingFont : string; BodyFont : string; Scale : string }.

Record DesignSystem := {
  Colors : option (gmap string string);
  Typography : option TypographySpec;
  Spacing : string;
  Radius : string;
  DarkMode : bool;
  Components : option (gmap string string);
}.

Record LayoutSpec := { Style : string; NavItems : list string }.

Record SectionSpec := {
  SName : string; SPurpose : string; SEndpoints : list string; DataFlow : string;
}.

Record PageSpec := {
  Path : string; Title : string; Purpose : string; Sections : list SectionSpec;
  PEndpoints : list string; Auth : bool; Notes : string;
}.

Record WebhookSpec := { WName : string; Direction : string; URL : string; Events : list string }.

Record TaskSpec := {
  TaskName : string; Description : string; Prompt : string; CronExpr : string; IntervalSec : Z;
}.

Record EndpointSpec := {
  Action : string; EPath : string; TableName : string; RequiresAuth : bool; PublicRead : bool;
  RoomColumn : string; WriteTable : string; EventTypes : list string; UsernameCol : string;
  PasswordCol : string; DefaultRole : string; RoleColumn : string; JWTExpiryHours : Z;
  PublicColumns : list string;
}.

Record ColumnDef := { CName : string; CType : string; Primary : bool; Required : bool }.

Record TableSpec := {
  TName : string; TPurpose : string; Columns : list ColumnDef; SeedData : json;
  SearchableColumns : list string;
}.

Record PlanQuestion := { Question : string; QType : string; Options : list string }.

Record Plan := {
  AppType : string;
  Architecture : string;
  AuthStrategy : string;
  Design : option DesignSystem;
  Layout : option LayoutSpec;
  Tables : list TableSpec;
  Endpoints : list EndpointSpec;
  Pages : list PageSpec;
  Exclusions : list string;
  Webhooks : list WebhookSpec;
  ScheduledTasks : list TaskSpec;
  Questions : list PlanQuestion;
}.

Record PlanPatch := {
  AddPages : list PageSpec;
  ModifyPages : list PageSpec;
  RemovePages : list string;
  AddEndpoints : list EndpointSpec;
  AddTables : list TableSpec;
  AddWebhooks : list WebhookSpec;
  AddTasks : list TaskSpec;
  UpdateCSS : bool;
  UpdateNav : bool;
  UpdateAuthStrategy : string;
  UpdateDesignSystem : option DesignSystem;
  UpdateLayout : option LayoutSpec;
}.

(** ** Decoding of the two fields the model may give in two shapes *)

(** [SectionSpec.UnmarshalJSON] on a section [ss]: a plain string sets the
    name; an object replaces the whole section. *)
Definition SectionSpec_UnmarshalJSON (ss : SectionSpec) (data : json) : res string SectionSpec :=
  match dec_string "" (Some data) with
  | Ok s => Ok {| SName := s; SPurpose := SPurpose ss; SEndpoints := SEndpoints ss;
                  DataFlow := DataFlow ss |}
  | Err _ =>
      match data with
      | JObj m =>
          res_bind (dec_string "" (member "name" m)) (fun n =>
          res_bind (dec_string "" (member "purpose" m)) (fun p =>
          res_bind (dec_string_list (member "endpoints" m)) (fun es =>
          res_bind (dec_string "" (member "data_flow" m)) (fun d =>
          Ok {| SName := n; SPurpose := p; SEndpoints := es; DataFlow := d |}))))
      | _ => Err "json: cannot unmarshal into Go value of type brain.alias"
      end
  end.

(** [PlanQuestion.UnmarshalJSON]: a plain string is an open question; an
    object without a type gets one from whether it has options. *)
Definition PlanQuestion_UnmarshalJSON (pq : PlanQuestion) (data : json) : res string PlanQuestion :=
  match dec_string "" (Some data) with
  | Ok s => Ok {| Question := s; QType := "open"; Options := Options pq |}
  | Err _ =>
      match data with
      | JObj m =>
          res_bind (dec_string "" (member "question" m)) (fun q =>
          res_bind (dec_string "" (member "type" m)) (fun t =>
          res_bind (dec_string_list (member "options" m)) (fun os =>
          Ok {| Question := q;
                QType := if (t =? "")%string
                         then (if (0 <? length os)%nat then "single_choice" else "open")
                         else t;
                Options := os |})))
      | _ => Err "json: cannot unmarshal into Go value of type brain.alias"
      end
  end.

(** [PageSpec.SectionNames]. *)
Definition SectionNames (p : PageSpec) : list string := map SName (Sections p).

(** ** Applying a patch *)

(** The endpoints a patch may add, given the plan's exclusions. *)
Definition filter_endpoints (exclusions : list string) (eps : list EndpointSpec) : list EndpointSpec :=
  if (0 <? length exclusions)%nat then
    let exclusionSet := Join exclusions " " in
    List.filter (fun ep => negb ((Action ep =? "create_auth")%string && Contains exclusionSet "no auth")) eps
  else eps.

(** Removes the first page with path [rm]. *)
Fixpoint remove_page (rm : string) (pages : list PageSpec) : list PageSpec :=
  match pages with
  | [] => []
  | pg :: r => if (Path pg =? rm)%string then r else pg :: remove_page rm r
  end.

(** Replaces the first page with the path of [md]. *)
Fixpoint modify_page (md : PageSpec) (pages : list PageSpec) : list PageSpec :=
  match pages with
  | [] => []
  | pg :: r => if (Path pg =? Path md)%string then md :: r else pg :: modify_page md r
  end.

(** [for k, v := range src { dst[k] = v }]: a panic when [dst] is nil and
    there is anything to assign. *)
Definition assign_all (src dst : option (gmap string string)) : option (option (gmap string string)) :=
  match src, dst with
  | None, _ => Some dst
  | Some s, Some d => Some (Some (s ∪ d))
  | Some s, None => if bool_decide (s = ∅) then Some None else None
  end.

(** The design-system part of [ApplyPatch] when both sides have one. *)
Definition merge_design (d u : DesignSystem) : option DesignSystem :=
  match assign_all (Colors u) (Colors d) with
  | None => None
  | Some colors =>
      let components :=
        match Components u with
        | None => Components d
        | Some c => Some (c ∪ default ∅ (Components d))
        end in
      Some {| Colors := colors;
              Typography := match Typography u with Some t => Some t | None => Typography d end;
              Spacing := if (Spacing u =? "")%string then Spacing d else Spacing u;
              Radius := if (Radius u =? "")%string then Radius d else Radius u;
              DarkMode := DarkMode u;
              Components := components |}
  end.

Definition update_design (d u : option DesignSystem) : option (option DesignSystem) :=
  match u with
  | None => Some d
  | Some u' =>
      match d with
      | None => Some (Some u')
      | Some d' => option_map Some (merge_design d' u')
      end
  end.

(** [Plan.ApplyPatch]; [None] is the panic of an assignment into a nil map. *)
Definition ApplyPatch (p : Plan) (patch : PlanPatch) : option Plan :=
  let endpoints := filter_endpoints (Exclusions p) (AddEndpoints patch) in
  let pages := fold_left (fun ps rm => remove_page rm ps) (RemovePages patch) (Pages p) in
  let pages := fold_left (fun ps m => modify_page m ps) (ModifyPages patch) pages in
  let pages := (pages ++ AddPages patch)%list in
  match update_design (Design p) (UpdateDesignSystem patch) with
  | None => None
  | Some design =>
      Some {| AppType := AppType p;
              Architecture := Architecture p;
              AuthStrategy := if (UpdateAuthStrategy patch =? "")%string
                              then AuthStrategy p else UpdateAuthStrategy patch;
              Design := design;
              Layout := match UpdateLayout patch with Some l => Some l | None => Layout p end;
              Tables := (Tables p ++ AddTables patch)%list;
              Endpoints := (Endpoints p ++ endpoints)%list;
              Pages := pages;
              Exclusions := Exclusions p;
              Webhooks := (Webhooks p ++ AddWebhooks patch)%list;
              ScheduledTasks := (ScheduledTasks p ++ AddTasks patch)%list;
              Questions := Questions p |}
  end.

(** ** Validation *)

Inductive plan_err :=
| AppTypeRequired
| NoPages
| DuplicatePagePath (path : string)
| NoHomepage
| ColorsRequired
| PrimaryRequired
| BgRequired
| InvalidAction (i : nat) (action : string)
| EndpointPathRequired (i : nat)
| TableNameRequired (i : nat)
| DuplicateColumn (table column : string)
| NoUserColumns (table : string).

Definition plan_err_string (e : plan_err) : string :=
  let nat_s n := Itoa (Z.of_nat n) in
  match e with
  | AppTypeRequired => "app_type is required"
  | NoPages => "plan must include at least 1 page"
  | DuplicatePagePath p => "duplicate page path: " ++ p
  | NoHomepage => "plan must include a homepage at path /"
  | ColorsRequired => "design_system.colors is required when design_system is present"
  | PrimaryRequired => "design_system.colors must include 'primary'"
  | BgRequired => "design_system.colors must include 'bg'"
  | InvalidAction i a => "endpoints[" ++ nat_s i ++ "].action " ++ Quote a ++ " is not valid"
  | EndpointPathRequired i => "endpoints[" ++ nat_s i ++ "].path is required"
  | TableNameRequired i => "tables[" ++ nat_s i ++ "].name is required"
  | DuplicateColumn t c => "table " ++ t ++ " has duplicate column name: " ++ c
  | NoUserColumns t => "table " ++ t ++ " has no non-system columns"
  end.

Fixpoint check_pages (seen : gset string) (pages : list PageSpec) : list plan_err * gset string :=
  match pages with
  | [] => ([], seen)
  | pg :: r =>
      let '(errs, seen') := check_pages ({[Path pg]} ∪ seen) r in
      ((if bool_decide (Path pg ∈ seen) then [DuplicatePagePath (Path pg)] else []) ++ errs, seen')%list
  end.

Definition color (m : option (gmap string string)) (k : string) : string :=
  default "" (default ∅ m !! k).

Definition check_design (d : option DesignSystem) : list plan_err :=
  match d with
  | None => []
  | Some ds =>
      if bool_decide (default ∅ (Colors ds) = ∅) then [ColorsRequired]
      else ((if (color (Colors ds) "primary" =? "")%string then [PrimaryRequired] else []) ++
            (if (color (Colors ds) "bg" =? "")%string then [BgRequired] else []))%list
  end.

Definition valid_actions : list string :=
  ["create_api"; "create_auth"; "create_websocket"; "create_stream"; "create_upload"].

Fixpoint check_endpoints (i : nat) (eps : list EndpointSpec) : list plan_err :=
  match eps with
  | [] => []
  | ep :: r =>
      ((if bool_decide (Action ep ∈ valid_actions) then [] else [InvalidAction i (Action ep)]) ++
       (if (EPath ep =? "")%string then [EndpointPathRequired i] else []) ++
       check_endpoints (S i) r)%list
  end.

Definition is_system_column (c : string) : bool :=
  (c =? "id")%string || (c =? "created_at")%string || (c =? "updated_at")%string.

Fixpoint check_columns (table : string) (seen : gset string) (cols : list ColumnDef) : list plan_err :=
  match cols with
  | [] => []
  | c :: r =>
      ((if bool_decide (CName c ∈ seen) then [DuplicateColumn table (CName c)] else []) ++
       check_columns table ({[CName c]} ∪ seen) r)%list
  end.

Definition check_table (i : nat) (t : TableSpec) : list plan_err :=
  if (TName t =? "")%string then [TableNameRequired i] else
  let nonSystem := length (List.filter (fun c => negb (is_system_column (CName c))) (Columns t)) in
  (check_columns (TName t) ∅ (Columns t) ++
   (if (nonSystem =? 0)%nat && (0 <? length (Columns t))%nat then [NoUserColumns (TName t)] else []))%list.

Fixpoint check_tables (i : nat) (ts : list TableSpec) : list plan_err :=
  match ts with
  | [] => []
  | t :: r => (check_table i t ++ check_tables (S i) r)%list
  end.

Definition ValidatePlan (p : Plan) : list plan_err :=
  let '(page_errs, paths) := check_pages ∅ (Pages p) in
  ((if (AppType p =? "")%string then [AppTypeRequired] else []) ++
   (if (length (Pages p) <? 1)%nat then [NoPages] else []) ++
   page_errs ++
   (if bool_decide ("/" ∈ paths) then [] else [NoHomepage]) ++
   check_design (Design p) ++
   check_endpoints 0 (Endpoints p) ++
   check_tables 0 (Tables p))%list.

(** ** Route patterns *)

Fixpoint segments_match (ps cs : list string) : bool :=
  match ps, cs with
  | [], [] => true
  | p :: ps', c :: cs' => (HasPrefix p ":" || (p =? c)%string) && segments_match ps' cs'
  | _, _ => false
  end.

(** [routeMatches]: a concrete path against a pattern with [:param] segments. *)
Definition routeMatches (pattern concrete : string) : bool :=
  segments_match (Split "/" (Trim pattern "/")) (Split "/" (Trim concrete "/")).

Example route_ex : map (routeMatches "/builder/:id") ["/builder/new"; "builder/7/"; "/builder"; "/x/1"]
  = [true; true; false; false].
Proof. reflexivity. Qed.

(** ** What a valid plan is *)

Definition design_wf (d : DesignSystem) : Prop :=
  color (Colors d) "primary" <> "" /\ color (Colors d) "bg" <> "".

Definition endpoint_wf (ep : EndpointSpec) : Prop := Action ep ∈ valid_actions /\ EPath ep <> "".

Definition table_wf (t : TableSpec) : Prop :=
  TName t <> "" /\ NoDup (map CName (Columns t)) /\
  (Columns t = [] \/ exists c, c ∈ Columns t /\ is_system_column (CName c) = false).

Record plan_wf (p : Plan) : Prop := {
  wf_app_type : AppType p <> "";
  wf_paths : NoDup (map Path (Pages p));
  wf_home : "/" ∈ map Path (Pages p);
  wf_design : forall d, Design p = Some d -> design_wf d;
  wf_endpoints : Forall endpoint_wf (Endpoints p);
  wf_tables : Forall table_wf (Tables p);
}.

Lemma guard_nil {A} (b : bool) (x : A) : (if b then [x] else []) = [] <-> b = false.
Proof. destruct b; naive_solver. Qed.

Lemma guard_nil' {A} (b : bool) (x : A) : (if b then [] else [x]) = [] <-> b = true.
Proof. destruct b; naive_solver. Qed.

Lemma eqb_empty (s : string) : (s =? "")%string = false <-> s <> "".
Proof. apply String.eqb_neq. Qed.

(** A pass that collects seen names in a set reports nothing exactly when the
    names are distinct and none was seen before. *)
Lemma check_pages_paths pages : forall seen errs paths,
  check_pages seen pages = (errs, paths) ->
  paths = list_to_set (map Path pages) ∪ seen /\
  (errs = [] <-> NoDup (map Path pages) /\ forall x, x ∈ map Path pages -> x ∉ seen).
Proof.
  induction pages as [|pg r IH]; intros seen errs paths; cbn [check_pages map list_to_set].
  { intros [= <- <-]. split; [set_solver|]. split; [|done]. intros _. split; [constructor|].
    by intros x ?%elem_of_nil. }
  destruct (check_pages _ r) as [errs' paths'] eqn:E. intros [= <- <-].
  apply IH in E as [-> I]. split; [set_solver|].
  rewrite app_nil, guard_nil, bool_decide_eq_false, I, NoDup_cons. setoid_rewrite elem_of_cons.
  split; [|intros [[N D] S]]; [intros (N & D & S)|].
  - repeat split; [|done|intros x [->|X]; [done|by apply S in X; set_solver]].
    intros X. apply S in X. set_solver.
  - repeat split; [apply S; by left|done|]. intros x X. rewrite not_elem_of_union, not_elem_of_singleton.
    split; [by intros ->|]. apply S. by right.
Qed.

Lemma check_columns_nil table cols : forall seen,
  check_columns table seen cols = [] <->
  NoDup (map CName cols) /\ forall x, x ∈ map CName cols -> x ∉ seen.
Proof.
  induction cols as [|c r IH]; intros seen; cbn [check_columns map].
  { split; [|done]. intros _. split; [constructor|]. by intros x ?%elem_of_nil. }
  rewrite app_nil, guard_nil, bool_decide_eq_false, IH, NoDup_cons. setoid_rewrite elem_of_cons.
  split; [intros (N & D & S)|intros [[N D] S]].
  - repeat split; [|done|intros x [->|X]; [done|by apply S in X; set_solver]].
    intros X. apply S in X. set_solver.
  - repeat split; [apply S; by left|done|]. intros x X. rewrite not_elem_of_union, not_elem_of_singleton.
    split; [by intros ->|]. apply S. by right.
Qed.

Lemma filter_nil_iff {A} (f : A -> bool) l :
  List.filter f l = [] <-> forall x, x ∈ l -> f x = false.
Proof.
  induction l as [|a l IH]; simpl.
  { split; [by intros _ x ?%elem_of_nil|done]. }
  setoid_rewrite elem_of_cons. destruct (f a) eqn:F; [split; [done|]|rewrite IH; naive_solver].
  intros H. rewrite (H a) in F; [done|by left].
Qed.

Lemma check_table_nil i t : check_table i t = [] <-> table_wf t.
Proof.
  unfold check_table, table_wf. destruct (TName t =? "")%string eqn:E.
  { b2p. split; [done|]. by intros [? _]. }
  b2p. cbv zeta. rewrite app_nil, check_columns_nil, guard_nil, andb_false_iff.
  rewrite Nat.eqb_neq, Nat.ltb_ge. split.
  - intros [[D _] S]. repeat split; [done..|]. destruct S as [S|S].
    + right. destruct (List.filter _ _) as [|c l] eqn:F; [done|]. exists c.
      assert (I : In c (List.filter (fun c => negb (is_system_column (CName c))) (Columns t)))
        by (rewrite F; by left).
      apply filter_In in I as [I N]. b2p. split; [by apply list_elem_of_In|done].
    + left. by destruct (Columns t); [|simpl in S; lia].
  - intros (_ & D & S). split; [split; [done|set_solver]|].
    destruct S as [->|(c & I & N)]; [right; simpl; lia|left].
    intros Z. apply length_zero_iff_nil in Z. apply (proj1 (filter_nil_iff _ _)) with (x := c) in Z; [|done].
    by rewrite N in Z.
Qed.

Lemma check_tables_nil ts : forall i, check_tables i ts = [] <-> Forall table_wf ts.
Proof.
  induction ts as [|t r IH]; intros i; simpl; [by rewrite Forall_nil|].
  by rewrite app_nil, check_table_nil, IH, Forall_cons.
Qed.

Lemma check_endpoints_nil eps : forall i, check_endpoints i eps = [] <-> Forall endpoint_wf eps.
Proof.
  induction eps as [|e r IH]; intros i; simpl; [by rewrite Forall_nil|].
  rewrite !app_nil, guard_nil', guard_nil, bool_decide_eq_true, eqb_empty, IH, Forall_cons.
  unfold endpoint_wf. tauto.
Qed.

Lemma check_design_nil d : check_design d = [] <-> forall ds, d = Some ds -> design_wf ds.
Proof.
  destruct d as [ds|]; simpl; [|naive_solver]. unfold design_wf.
  destruct (bool_decide _) eqn:B.
  - apply bool_decide_eq_true in B. split; [done|]. intros H. destruct (H ds eq_refl) as [H' _].
    unfold color in H'. by rewrite B, lookup_empty in H'.
  - rewrite app_nil, !guard_nil, !eqb_empty.
    split; [by intros H ? [= <-]|by intros H; apply H].
Qed.

Lemma ValidatePlan_wf p : ValidatePlan p = [] <-> plan_wf p.
Proof.
  unfold ValidatePlan. destruct (check_pages ∅ (Pages p)) as [errs paths] eqn:E.
  apply check_pages_paths in E as [-> I].
  rewrite !app_nil, guard_nil, guard_nil, guard_nil', eqb_empty, Nat.ltb_ge, I, bool_decide_eq_true,
    check_design_nil, check_endpoints_nil, check_tables_nil.
  assert (M : "/" ∈ (list_to_set (map Path (Pages p)) ∪ ∅ : gset string) <-> "/" ∈ map Path (Pages p))
    by (rewrite elem_of_union, elem_of_list_to_set; set_solver).
  rewrite M. split.
  - intros (A & _ & [D _] & H & De & Ep & T). by constructor.
  - intros [A D H De Ep T]. split; [done|]. split.
    { destruct (Pages p); [by apply elem_of_nil in H|simpl; lia]. }
    split; [|done]. split; [done|]. intros x _. apply not_elem_of_empty.
Qed.

(** C4. [ValidatePlan] reports no error exactly for the plans with an
    application type, distinct page paths with a home page among them, a design
    system (if any) that sets the two required colours, endpoints with a known
    action and a path, and named tables with distinct columns of which one is
    not a system column. *)
Theorem ValidatePlan_correct p : ValidatePlan p = [] <-> plan_wf p.
Proof. apply ValidatePlan_wf. Qed.

(** ** What a patch does *)

Lemma remove_page_paths rm pages :
  map Path (remove_page rm pages) `sublist_of` map Path pages /\
  (forall x, x <> rm -> x ∈ map Path pages -> x ∈ map Path (remove_page rm pages)) /\
  (NoDup (map Path pages) -> rm ∉ map Path (remove_page rm pages)).
Proof.
  induction pages as [|pg r (S & K & N)]; cbn [remove_page map].
  { split; [constructor|]. split; [done|]. intros _ ?%elem_of_nil. done. }
  destruct (Path pg =? rm)%string eqn:E; b2p.
  - subst rm. split; [by constructor|]. split.
    + intros x Hx [->|X]%elem_of_cons; done.
    + rewrite NoDup_cons. tauto.
  - split; [by constructor|]. split; cbn [map].
    + intros x Hx [->|X]%elem_of_cons; apply elem_of_cons; [by left|right; by apply K].
    + rewrite NoDup_cons. intros [_ D] [X|X]%elem_of_cons; [congruence|by apply N in X].
Qed.

Lemma remove_pages_paths rms : forall pages,
  let pages' := fold_left (fun ps rm => remove_page rm ps) rms pages in
  map Path pages' `sublist_of` map Path pages /\
  (forall x, x ∉ rms -> x ∈ map Path pages -> x ∈ map Path pages') /\
  (NoDup (map Path pages) -> forall x, x ∈ rms -> x ∉ map Path pages').
Proof.
  induction rms as [|rm rms IH]; intros pages; cbn [fold_left].
  { split; [done|]. split; [done|]. by intros _ x ?%elem_of_nil. }
  destruct (IH (remove_page rm pages)) as (S & K & N).
  destruct (remove_page_paths rm pages) as (S1 & K1 & N1).
  split; [by etrans|]. split.
  - intros x Hx X. apply not_elem_of_cons in Hx as [? ?]. auto.
  - intros D x. pose proof (sublist_NoDup _ _ D S1) as D'. rewrite elem_of_cons. intros [->|X]; [|auto].
    intros X. by apply (N1 D), (elem_of_sublist _ _ _ X S).
Qed.

Lemma modify_page_paths m pages : map Path (modify_page m pages) = map Path pages.
Proof.
  induction pages as [|pg r IH]; [done|]. simpl.
  destruct (Path pg =? Path m)%string eqn:E; b2p; simpl; congruence.
Qed.

Lemma modify_pages_paths mods : forall pages,
  map Path (fold_left (fun ps m => modify_page m ps) mods pages) = map Path pages.
Proof.
  induction mods as [|m mods IH]; intros pages; [done|]. simpl. by rewrite IH, modify_page_paths.
Qed.

(** The first page with a given path. *)
Definition find_page (x : string) (pages : list PageSpec) : option PageSpec :=
  List.find (fun pg => (Path pg =? x)%string) pages.

Lemma find_page_None x pages : find_page x pages = None <-> x ∉ map Path pages.
Proof.
  unfold find_page. induction pages as [|pg r IH]; simpl; [set_solver|].
  rewrite not_elem_of_cons. destruct (Path pg =? x)%string eqn:E; b2p; [|rewrite IH]; naive_solver.
Qed.

Lemma find_remove_page x rm pages : NoDup (map Path pages) ->
  find_page x (remove_page rm pages) = if (x =? rm)%string then None else find_page x pages.
Proof.
  induction pages as [|pg r IH]; [by destruct (x =? rm)%string|]. cbn [map remove_page].
  rewrite NoDup_cons. intros [N D]. specialize (IH D).
  destruct (Path pg =? rm)%string eqn:E; b2p.
  - subst rm. destruct (x =? Path pg)%string eqn:E; b2p.
    + subst x. by apply find_page_None.
    + unfold find_page; simpl. apply not_eq_sym, String.eqb_neq in E. by rewrite E.
  - unfold find_page in *; simpl. destruct (Path pg =? x)%string eqn:F; b2p; [|done].
    subst x. apply String.eqb_neq in E. by rewrite E.
Qed.

Lemma find_remove_pages x rms : forall pages, NoDup (map Path pages) ->
  find_page x (fold_left (fun ps rm => remove_page rm ps) rms pages)
  = if bool_decide (x ∈ rms) then None else find_page x pages.
Proof.
  induction rms as [|rm rms IH]; intros pages D; [done|]. cbn [fold_left].
  rewrite IH, find_remove_page; [|done|by eapply sublist_NoDup, remove_page_paths].
  destruct (x =? rm)%string eqn:E; b2p.
  - subst rm. rewrite (bool_decide_eq_true_2 (x ∈ x :: rms)) by by left. by destruct (bool_decide _).
  - rewrite (bool_decide_ext (x ∈ rm :: rms) (x ∈ rms)); [done|]. rewrite elem_of_cons. naive_solver.
Qed.

Lemma find_modify_page x m pages :
  find_page x (modify_page m pages)
  = (fun pg => if (Path m =? x)%string then m else pg) <$> find_page x pages.
Proof.
  unfold find_page. induction pages as [|pg r IH]; [done|]. cbn [modify_page].
  destruct (Path pg =? Path m)%string eqn:E; b2p; cbn [List.find].
  - rewrite E. destruct (Path m =? x)%string eqn:F; [done|]. clear. induction r as [|a r IH]; [done|].
    cbn [List.find]. by destruct (Path a =? x)%string.
  - destruct (Path pg =? x)%string eqn:F; [|done]. b2p. subst x. simpl.
    apply not_eq_sym, String.eqb_neq in E. by rewrite E.
Qed.

(** The last modification of path [x] among [mods], the page itself if none. *)
Definition modified (x : string) (mods : list PageSpec) (pg : PageSpec) : PageSpec :=
  fold_left (fun pg m => if (Path m =? x)%string then m else pg) mods pg.

Lemma find_modify_pages x mods : forall pages,
  find_page x (fold_left (fun ps m => modify_page m ps) mods pages)
  = modified x mods <$> find_page x pages.
Proof.
  induction mods as [|m mods IH]; intros pages; cbn [fold_left].
  { by destruct (find_page x pages). }
  rewrite IH, find_modify_page. by destruct (find_page x pages).
Qed.

Lemma find_page_app x l k :
  find_page x (l ++ k) = match find_page x l with Some pg => Some pg | None => find_page x k end.
Proof. unfold find_page. induction l as [|a l IH]; [done|]. simpl. by destruct (_ =? _)%string. Qed.

(** What [ApplyPatch] leaves at each path, and the lists it only extends. *)
Record patched (p p' : Plan) (patch : PlanPatch) : Prop := {
  patched_pages : forall x, find_page x (Pages p')
    = match (if bool_decide (x ∈ RemovePages patch) then None else find_page x (Pages p)) with
      | Some pg => Some (modified x (ModifyPages patch) pg)
      | None => find_page x (AddPages patch)
      end;
  patched_endpoints : Endpoints p' = (Endpoints p ++ filter_endpoints (Exclusions p) (AddEndpoints patch))%list;
  patched_tables : Tables p' = (Tables p ++ AddTables patch)%list;
  patched_kept : AppType p' = AppType p /\ Exclusions p' = Exclusions p;
}.

Lemma ApplyPatch_patched p patch p' :
  NoDup (map Path (Pages p)) -> ApplyPatch p patch = Some p' -> patched p p' patch.
Proof.
  intros D. unfold ApplyPatch. destruct (update_design _ _) as [ds|]; [|done]. intros [= <-].
  constructor; cbn [Pages Endpoints Tables AppType Exclusions]; try done. intros x.
  rewrite find_page_app, find_modify_pages, find_remove_pages by done.
  by destruct (if bool_decide _ then None else find_page x (Pages p)).
Qed.

(** On a plan with distinct page paths, the page found at a path after
    [ApplyPatch] is: the last modification of the old page, if the path was
    kept; the added page otherwise, so that a page removed and added again is
    the new one.  Endpoints and tables are appended, and a [create_auth]
    endpoint never gets into a plan whose exclusions say "no auth". *)
Theorem ApplyPatch_functional p patch p' :
  NoDup (map Path (Pages p)) -> ApplyPatch p patch = Some p' ->
  patched p p' patch /\
  (Exclusions p <> [] -> Contains (Join (Exclusions p) " ") "no auth" = true ->
   forall ep, ep ∈ Endpoints p' -> Action ep = "create_auth" -> ep ∈ Endpoints p).
Proof.
  intros D E. pose proof (ApplyPatch_patched p patch p' D E) as P. split; [done|].
  intros X C ep I A. rewrite (patched_endpoints p p' patch P) in I. apply elem_of_app in I as [I|I]; [done|].
  unfold filter_endpoints in I. destruct (Exclusions p) as [|e es]; [done|].
  cbn [length Nat.ltb Nat.leb] in I. apply list_elem_of_In, filter_In in I as [_ I].
  rewrite A, C in I. done.
Qed.

(** ** Patches keep a plan valid *)

Definition keeps_color (u : DesignSystem) (k : string) : Prop := default ∅ (Colors u) !! k <> Some "".

Record patch_wf (p : Plan) (patch : PlanPatch) : Prop := {
  pw_home : "/" ∈ RemovePages patch -> "/" ∈ map Path (AddPages patch);
  pw_new_paths : NoDup (map Path (AddPages patch));
  pw_fresh : forall x, x ∈ map Path (AddPages patch) ->
    x ∉ map Path (Pages p) \/ x ∈ RemovePages patch;
  pw_endpoints : Forall endpoint_wf (AddEndpoints patch);
  pw_tables : Forall table_wf (AddTables patch);
  pw_design : forall u, UpdateDesignSystem patch = Some u ->
    match Design p with
    | None => design_wf u
    | Some _ => keeps_color u "primary" /\ keeps_color u "bg"
    end;
}.

Lemma color_union (m1 m2 : gmap string string) k :
  color (Some m2) k <> "" -> m1 !! k <> Some "" -> color (Some (m1 ∪ m2)) k <> "".
Proof.
  unfold color. simpl. rewrite lookup_union. destruct (m1 !! k) as [v|] eqn:E; simpl.
  - intros _ H. destruct (m2 !! k); simpl; congruence.
  - by rewrite (left_id None (∪)).
Qed.

Lemma merge_design_wf d u : design_wf d -> keeps_color u "primary" -> keeps_color u "bg" ->
  exists d', merge_design d u = Some d' /\ design_wf d'.
Proof.
  unfold design_wf, keeps_color, merge_design. intros [P B] KP KB.
  destruct (Colors d) as [dm|]; [|by unfold color in P].
  destruct (Colors u) as [um|]; simpl in *; eexists; (split; [done|]); simpl; [|done].
  split; by apply color_union.
Qed.

Lemma update_design_wf p patch : plan_wf p -> patch_wf p patch ->
  exists d', update_design (Design p) (UpdateDesignSystem patch) = Some d' /\
             forall d, d' = Some d -> design_wf d.
Proof.
  intros W Q. pose proof (wf_design p W) as WD. pose proof (pw_design p patch Q) as QD.
  destruct (UpdateDesignSystem patch) as [u|]; simpl; [|by exists (Design p)].
  specialize (QD u eq_refl). destruct (Design p) as [d|].
  - destruct QD as [KP KB]. destruct (merge_design_wf d u (WD d eq_refl) KP KB) as (d' & -> & W').
    exists (Some d'). split; [done|]. by intros ? [= <-].
  - exists (Some u). split; [done|]. by intros ? [= <-].
Qed.

Lemma filter_endpoints_subset ex eps : Forall endpoint_wf eps -> Forall endpoint_wf (filter_endpoints ex eps).
Proof.
  rewrite !Forall_forall. intros H x I. apply H. unfold filter_endpoints in I.
  destruct (0 <? length ex)%nat; [|done].
  apply list_elem_of_In, filter_In in I as [I _]. by apply list_elem_of_In.
Qed.

(** A patch that removes the home page only to add it again, adds pages at
    fresh or vacated paths, well-formed endpoints and tables, and does not
    blank a required colour never panics and turns a valid plan into a valid
    plan. *)
Theorem ApplyPatch_preserves_wf p patch :
  plan_wf p -> patch_wf p patch -> exists p', ApplyPatch p patch = Some p' /\ plan_wf p'.
Proof.
  intros W Q. destruct (update_design_wf p patch W Q) as (d' & E & WD).
  unfold ApplyPatch. rewrite E. eexists. split; [done|].
  destruct (remove_pages_paths (RemovePages patch) (Pages p)) as (S & K & N).
  pose proof (wf_paths p W) as D.
  constructor; cbn [AppType Pages Design Endpoints Tables].
  - apply W.
  - rewrite map_app, modify_pages_paths. apply NoDup_app. split; [by eapply sublist_NoDup|].
    split; [|apply Q]. intros x X Y. destruct (pw_fresh p patch Q x Y) as [F|F].
    + exact (F (elem_of_sublist _ _ _ X S)).
    + by apply (N D x F).
  - rewrite map_app, modify_pages_paths, elem_of_app.
    destruct (decide ("/" ∈ RemovePages patch)) as [R|R]; [right; by apply Q|left].
    apply K; [done|]. apply W.
  - done.
  - apply Forall_app. split; [apply W|]. apply filter_endpoints_subset, Q.
  - apply Forall_app. split; [apply W|apply Q].
Qed.

(** ** Panics *)

(** [ApplyPatch] panics exactly when the plan has a design system whose
    colour map is nil and the patch has a colour to set. *)
Theorem ApplyPatch_panics_iff p patch :
  ApplyPatch p patch = None <->
  exists d u m, Design p = Some d /\ Colors d = None /\
                UpdateDesignSystem patch = Some u /\ Colors u = Some m /\ m <> ∅.
Proof.
  unfold ApplyPatch. split.
  - destruct (update_design _ _) eqn:E; [done|]. intros _.
    unfold update_design, merge_design in E.
    destruct (UpdateDesignSystem patch) as [u|]; [|done]. destruct (Design p) as [d|]; [|done].
    destruct (Colors u) as [m|] eqn:Cu, (Colors d) eqn:Cd; simpl in E; try done.
    destruct (bool_decide (m = ∅)) eqn:B; [done|]. exists d, u, m.
    by apply bool_decide_eq_false in B.
  - intros (d & u & m & -> & Cd & -> & Cu & N). simpl. unfold merge_design. rewrite Cd, Cu. simpl.
    by rewrite bool_decide_eq_false_2.
Qed.

(** *** Sample plans *)

Definition sample_page (path : string) : PageSpec :=
  {| Path := path; Title := "T"; Purpose := "P"; Sections := []; PEndpoints := []; Auth := false;
     Notes := "" |}.

Definition sample_plan (pages : list PageSpec) (d : option DesignSystem) : Plan :=
  {| AppType := "blog"; Architecture := "multi"; AuthStrategy := ""; Design := d; Layout := None;
     Tables := []; Endpoints := []; Pages := pages; Exclusions := ["no auth"]; Webhooks := [];
     ScheduledTasks := []; Questions := [] |}.

Definition sample_design (colors : option (gmap string string)) : DesignSystem :=
  {| Colors := colors; Typography := None; Spacing := "compact"; Radius := ""; DarkMode := false;
     Components := None |}.

Definition sample_patch (add : list PageSpec) (rm : list string) (u : option DesignSystem) : PlanPatch :=
  {| AddPages := add; ModifyPages := []; RemovePages := rm; AddEndpoints := []; AddTables := [];
     AddWebhooks := []; AddTasks := []; UpdateCSS := false; UpdateNav := false;
     UpdateAuthStrategy := ""; UpdateDesignSystem := u; UpdateLayout := None |}.

Definition home_plan : Plan := sample_plan [sample_page "/"; sample_page "/a"] None.

Lemma home_plan_wf : plan_wf home_plan.
Proof. apply ValidatePlan_wf. vm_compute. reflexivity. Qed.

Lemma ValidatePlan_patch_witness_patch :
  patch_wf home_plan (sample_patch [sample_page "/a"; sample_page "/b"] ["/a"] None).
Proof.
  constructor; cbn; try done.
  - by intros ?%list_elem_of_singleton.
  - apply (bool_decide_unpack _). vm_compute. exact I.
  - intros x [->|[->|[]%elem_of_nil]%elem_of_cons]%elem_of_cons; [right; by constructor|left].
    apply (bool_decide_unpack _). vm_compute. exact I.
Qed.

Lemma ApplyPatch_preserves_wf_witness :
  let patch := sample_patch [sample_page "/a"; sample_page "/b"] ["/a"] None in
  plan_wf home_plan /\ patch_wf home_plan patch /\
  exists p', ApplyPatch home_plan patch = Some p' /\ plan_wf p'.
Proof.
  split; [apply home_plan_wf|]. split; [apply ValidatePlan_patch_witness_patch|].
  apply ApplyPatch_preserves_wf; [apply home_plan_wf|apply ValidatePlan_patch_witness_patch].
Defined.

Lemma ApplyPatch_functional_witness :
  let patch := sample_patch [sample_page "/b"] ["/a"] None in
  exists p', ApplyPatch home_plan patch = Some p' /\ patched home_plan p' patch.
Proof.
  eexists. split; [vm_compute; reflexivity|].
  apply ApplyPatch_functional; [apply home_plan_wf|vm_compute; reflexivity].
Defined.

(** Two patches in a row can reach that panic from a valid plan.  A plan
    without a design system takes the first patch's whole, which nothing
    validates; if that one had no colours, a later patch that sets one panics,
    on every retry of the stage. *)
Theorem ApplyPatch_two_patches_panic :
  let q1 := sample_patch [] [] (Some (sample_design None)) in
  let q2 := sample_patch [] [] (Some (sample_design (Some {["primary" := "#123456"]}))) in
  ValidatePlan home_plan = [] /\
  exists p1, ApplyPatch home_plan q1 = Some p1 /\ ApplyPatch p1 q2 = None.
Proof.
  split; [vm_compute; reflexivity|]. eexists. split; [reflexivity|]. vm_compute. reflexivity.
Qed.
