(* ===== verification/PlanJSON.v ===== *)
(** * brain/plan.go: from the model's raw text to a plan

    [extractJSON] finds the JSON text in an answer, [repairJSON] mends the
    usual slips, [repairTruncatedJSON] closes what a cut-off answer left open,
    and [ParsePlan] decodes the result.  The two regular expressions are
    written out as the deterministic scans they amount to. *)

From Stdlib Require Import ZArith Lia Ascii String List Bool.
From stdpp Require Import base list strings gmap.
From S2P Require Import Prelude GoStrings JSONText Plan.

Local Open Scope string_scope.
Local Open Scope go_scope.
Local Open Scope nat_scope.

(** ** extractJSON *)

(** The class [\s] of Go's regular expressions. *)
Definition re_space (a : ascii) : bool :=
  let n := code a in (n =? 9) || (n =? 10) || (n =? 12) || (n =? 13) || (n =? 32).

Fixpoint count_spaces (s : string) : nat :=
  match s with
  | String a r => if re_space a then S (count_spaces r) else 0
  | "" => 0
  end.

Definition fence : string := "```".

(** The contents of the matches of [jsonFenceRe]: an opening fence, an optional
    "json", white space, then as little as possible up to a closing fence. *)
Fixpoint fence_matches (fuel : nat) (s : string) : list string :=
  match fuel with
  | O => []
  | S f =>
      match Index s fence with
      | None => []
      | Some i =>
          let body := TrimPrefix (drop_str (i + 3) s) "json" in
          let body := drop_str (count_spaces body) body in
          match Index body fence with
          | None => []
          | Some j => take_str j body :: fence_matches f (drop_str (j + 3) body)
          end
      end
  end.

Definition opens_json (s : string) : bool :=
  match s with
  | String a _ => Ascii.eqb a "{" || Ascii.eqb a "["
  | "" => false
  end.

Definition extractJSON (raw0 : string) : string :=
  let raw := TrimSpace raw0 in
  if (raw =? "")%string then raw else
  match fence_matches (String.length raw) raw with
  | (m :: _) as all =>
      match List.find opens_json (map TrimSpace all) with
      | Some candidate => candidate
      | None => TrimSpace m
      end
  | [] =>
      if opens_json raw then raw else
      match Index raw "{" with
      | Some start =>
          match LastIndex raw "}" with
          | Some stop => if start <? stop then take_str (stop + 1 - start) (drop_str start raw) else raw
          | None => raw
          end
      | None => raw
      end
  end.

(** ** repairTruncatedJSON *)

(** The bracket scanner: open brackets (the innermost first), whether the
    position is inside a string, and whether the next byte is escaped. *)
Record scan_state := { stack : list ascii; inString : bool; escaped : bool }.

Definition scan_init : scan_state := {| stack := []; inString := false; escaped := false |}.


Definition pop (open : ascii) (st : list ascii) : list ascii :=
  match st with
  | top :: rest => if Ascii.eqb top open then rest else st
  | [] => []
  end.

Definition scan_byte (st : scan_state) (c : ascii) : scan_state :=
  if escaped st then {| stack := stack st; inString := inString st; escaped := false |}
  else if Ascii.eqb c backslash && inString st
  then {| stack := stack st; inString := inString st; escaped := true |}
  else if Ascii.eqb c quote
  then {| stack := stack st; inString := negb (inString st); escaped := false |}
  else if inString st then st
  else {| stack := if Ascii.eqb c "{" || Ascii.eqb c "[" then c :: stack st
                   else if Ascii.eqb c "}" then pop "{" (stack st)
                   else if Ascii.eqb c "]" then pop "[" (stack st)
                   else stack st;
          inString := inString st; escaped := escaped st |}.

Fixpoint scan_from (st : scan_state) (s : string) : scan_state :=
  match s with
  | "" => st
  | String c r => scan_from (scan_byte st c) r
  end.

Definition scan (s : string) : scan_state := scan_from scan_init s.

Fixpoint closers (st : list ascii) : string :=
  match st with
  | [] => ""
  | c :: r => (if Ascii.eqb c "{" then "}" else "]") ++ closers r
  end.

Fixpoint last_byte (s : string) : option ascii :=
  match s with
  | "" => None
  | String a "" => Some a
  | String _ r => last_byte r
  end.

Definition ends_with (c : ascii) (s : string) : bool :=
  match last_byte s with Some a => Ascii.eqb a c | None => false end.

Definition drop_last (s : string) : string := take_str (String.length s - 1) s.

(** The bytes of [" \t\n\r"]. *)
Definition blanks : string :=
  String (byte_of 32) (String (byte_of 9) (String (byte_of 10) (String (byte_of 13) ""))).

(** Removes a value cut off inside a string, and the key it belonged to. *)
Definition cut_string (s : string) : string :=
  match LastIndex s (s1 quote) with
  | Some (S _ as lastQuote) =>
      let s := TrimRight (take_str lastQuote s) blanks in
      let s :=
        if ends_with ":" s then
          let s := TrimRight (drop_last s) blanks in
          if ends_with quote s then
            match LastIndex (drop_last s) (s1 quote) with
            | Some prevQuote => take_str prevQuote s
            | None => s
            end
          else s
        else s in
      TrimRight s (blanks ++ ",")
  | _ => s
  end.

Definition repairTruncatedJSON (s0 : string) : string :=
  let s := TrimSpace s0 in
  if negb (opens_json s) then s else
  let st := scan s in
  match stack st with
  | [] => s
  | _ :: _ =>
      let s := if inString st then cut_string s else TrimRight s (blanks ++ ",:") in
      s ++ closers (stack (scan s))
  end.

(** ** repairJSON *)

(** [trailingCommaRe.ReplaceAllString(s, "$1")]: a comma, white space and a
    closing bracket become the bracket; [skip] counts the white space still to
    be dropped. *)
Fixpoint drop_commas (skip : nat) (s : string) : string :=
  match s with
  | "" => ""
  | String a r =>
      match skip with
      | S k => drop_commas k r
      | O =>
          let k := count_spaces r in
          match drop_str k r with
          | String b _ =>
              if Ascii.eqb a "," && (Ascii.eqb b "]" || Ascii.eqb b "}")
              then drop_commas k r else String a (drop_commas 0 r)
          | "" => String a (drop_commas 0 r)
          end
      end
  end.

Definition newline : ascii := byte_of 10.

Definition repairJSON (s : string) : string :=
  let lines := List.filter (fun line => negb (HasPrefix (TrimSpace line) "//")) (Split newline s) in
  repairTruncatedJSON (drop_commas 0 (Join lines (s1 newline))).

Example repair_ex1 :
  repairJSON (dq "{'a': [1, 2,], // no
// comment
'b': 3,}") = dq "{'a': [1, 2], // no
'b': 3}".
Proof. vm_compute. reflexivity. Qed.

Example repair_ex2 : repairJSON (dq "{'a': [1, {'b': 'tru") = dq "{'a': [1, {}]}".
Proof. vm_compute. reflexivity. Qed.

(** ** The repaired text is balanced *)

Lemma scan_from_append s t st : scan_from st (s ++ t) = scan_from (scan_from st s) t.
Proof.
  revert st. induction s as [|a s IH]; intros st; [done|]. rewrite append_cons. apply IH.
Qed.

Lemma scan_append s t : scan (s ++ t) = scan_from (scan s) t.
Proof. apply scan_from_append. Qed.

(** Neither a quote, nor a backslash, nor a bracket. *)
Definition neutral (c : ascii) : bool :=
  negb (Ascii.eqb c quote || Ascii.eqb c backslash ||
        Ascii.eqb c "{" || Ascii.eqb c "[" || Ascii.eqb c "}" || Ascii.eqb c "]").

Definition no_backslash (s : string) : bool := all_bytes (fun a => negb (Ascii.eqb backslash a)) s.
Definition no_quote (s : string) : bool := all_bytes (fun a => negb (Ascii.eqb quote a)) s.

(** Outside strings. *)
Definition outside (k : list ascii) : scan_state := {| stack := k; inString := false; escaped := false |}.
Definition inside (k : list ascii) : scan_state := {| stack := k; inString := true; escaped := false |}.

(** Without a backslash the scanner is never in the escaped state. *)
Lemma scan_from_clean s st : no_backslash s = true -> escaped st = false ->
  escaped (scan_from st s) = false.
Proof.
  unfold no_backslash. revert st. induction s as [|c s IH]; intros st; [done|]. cbn [all_bytes scan_from].
  rewrite andb_true_iff, negb_true_iff. intros [N A] E. apply IH; [done|].
  unfold scan_byte. rewrite E, (Ascii.eqb_sym c backslash), N. cbn [andb].
  by repeat split_match.
Qed.

Lemma scan_cases s : no_backslash s = true -> exists k, scan s = outside k \/ scan s = inside k.
Proof.
  intros N. pose proof (scan_from_clean s scan_init N eq_refl) as E. fold (scan s) in E.
  destruct (scan s) as [k [] []]; simpl in E; try done; exists k; auto.
Qed.

Lemma scan_from_outside_neutral k t : all_bytes neutral t = true -> scan_from (outside k) t = outside k.
Proof.
  induction t as [|c t IH]; [done|]. cbn [all_bytes scan_from]. rewrite andb_true_iff. intros [N A].
  rewrite <- (IH A) at 2. f_equal. unfold neutral in N. b2p. unfold scan_byte. simpl.
  repeat match goal with H : Ascii.eqb c _ = false |- _ => rewrite H; clear H end. reflexivity.
Qed.

Lemma scan_from_inside k t : no_backslash t = true -> no_quote t = true -> scan_from (inside k) t = inside k.
Proof.
  unfold no_backslash, no_quote. induction t as [|c t IH]; [done|]. cbn [all_bytes scan_from].
  rewrite !andb_true_iff, !negb_true_iff. intros [B A] [Q A'].
  rewrite <- (IH A A') at 2. f_equal. unfold scan_byte. simpl.
  by rewrite (Ascii.eqb_sym c backslash), B, (Ascii.eqb_sym c quote), Q.
Qed.

Lemma scan_quote st : escaped st = false ->
  scan_from st (s1 quote) = {| stack := stack st; inString := negb (inString st); escaped := false |}.
Proof. intros E. simpl. unfold scan_byte. by rewrite E. Qed.

Lemma neutral_no_quote t : all_bytes neutral t = true -> no_quote t = true /\ no_backslash t = true.
Proof.
  intros A. split; revert A; apply all_bytes_impl; intros c N; unfold neutral in N; b2p;
    by rewrite Ascii.eqb_sym, negb_true_iff.
Qed.

Lemma no_backslash_append s t : no_backslash (s ++ t) = true <-> no_backslash s = true /\ no_backslash t = true.
Proof. unfold no_backslash. by rewrite all_bytes_append, andb_true_iff. Qed.

(** Removing neutral bytes from the end of a text that ends outside strings
    changes nothing for the scanner. *)
Lemma scan_trim s t k : no_backslash (s ++ t) = true -> all_bytes neutral t = true ->
  scan (s ++ t) = outside k -> scan s = outside k.
Proof.
  intros N A. rewrite scan_append. apply no_backslash_append in N as [N _].
  destruct (scan_cases s N) as [k' [->| ->]].
  - by rewrite scan_from_outside_neutral.
  - destruct (neutral_no_quote t A). by rewrite scan_from_inside.
Qed.

(** Before the last quote of a text that ends outside strings the scanner is
    inside one, and the other way round; the open brackets are the same. *)
Lemma scan_before_last_quote s b :
  no_backslash (s ++ s1 quote ++ b) = true -> no_quote b = true -> forall k,
  (scan (s ++ s1 quote ++ b) = inside k -> scan s = outside k).
Proof.
  intros N Q k. apply no_backslash_append in N as [N N']. apply no_backslash_append in N' as [_ N'].
  rewrite scan_append, scan_from_append.
  destruct (scan_cases s N) as [k' [->| ->]]; rewrite scan_quote by done; simpl.
  - fold (inside k'). rewrite scan_from_inside by done. by intros [= ->].
  - fold (outside k'). intros H. exfalso.
    assert (P : forall t st, no_quote t = true -> no_backslash t = true -> escaped st = false ->
                inString st = false -> inString (scan_from st t) = false).
    { clear. induction t as [|c t IH]; intros st; [done|]. unfold no_quote, no_backslash.
      cbn [all_bytes scan_from]. rewrite !andb_true_iff, !negb_true_iff. intros [Q A] [B A'] E I.
      apply IH; try done; unfold scan_byte; rewrite E, (Ascii.eqb_sym c backslash), B,
        (Ascii.eqb_sym c quote), Q, I; done. }
    specialize (P b (outside k') Q N' eq_refl eq_refl). by rewrite H in P.
Qed.

Lemma blanks_neutral t : all_bytes (fun a => in_set a (blanks ++ ",:")) t = true -> all_bytes neutral t = true.
Proof.
  apply all_bytes_impl. intros [[] [] [] [] [] [] [] []]; vm_compute; congruence.
Qed.

Lemma blanks_neutral' c t : c = "" \/ c = "," ->
  all_bytes (fun a => in_set a (blanks ++ c)) t = true -> all_bytes neutral t = true.
Proof.
  intros C A. apply blanks_neutral. revert A. apply all_bytes_impl.
  destruct C as [->| ->]; intros [[] [] [] [] [] [] [] []]; vm_compute; congruence.
Qed.

(** [TrimRight] with blanks, commas and colons is such a removal. *)
Lemma scan_TrimRight s k c : c = "" \/ c = "," \/ c = ",:" ->
  no_backslash s = true -> scan s = outside k ->
  scan (TrimRight s (blanks ++ c)) = outside k /\ no_backslash (TrimRight s (blanks ++ c)) = true.
Proof.
  intros C N S. destruct (TrimRight_split (blanks ++ c) s) as (t & E & A).
  assert (A' : all_bytes neutral t = true).
  { destruct C as [C|[C| ->]]; [by apply (blanks_neutral' c); auto..|by apply blanks_neutral]. }
  set (s' := TrimRight s _) in *. clearbody s'. subst s. split.
  - by apply (scan_trim s' t).
  - by apply no_backslash_append in N as [? _].
Qed.

Lemma last_byte_split s c : last_byte s = Some c -> s = (drop_last s ++ s1 c)%string.
Proof.
  unfold drop_last. induction s as [|a s IH]; [done|]. destruct s as [|b s].
  - simpl. by intros [= ->].
  - intros E. change (last_byte (String a (String b s))) with (last_byte (String b s)) in E.
    specialize (IH E). simpl in IH |- *. rewrite Nat.sub_0_r in IH. rewrite append_cons. by f_equal.
Qed.

Lemma ends_with_split c s : ends_with c s = true -> s = (drop_last s ++ s1 c)%string.
Proof.
  unfold ends_with. destruct (last_byte s) as [a|] eqn:E; [|done]. intros ->%Ascii.eqb_eq.
  by apply last_byte_split.
Qed.

Lemma scan_before_closed s k : no_backslash (s ++ s1 quote) = true ->
  scan (s ++ s1 quote) = outside k -> scan s = inside k.
Proof.
  intros N. apply no_backslash_append in N as [N _]. rewrite scan_append.
  destruct (scan_cases s N) as [k' [->| ->]]; rewrite scan_quote by done; [done|].
  simpl. by intros [= ->].
Qed.

(** The text kept of a truncated answer ends outside strings, with the same
    brackets open. *)
Lemma cut_key_scan s k : no_backslash s = true -> scan s = outside k ->
  let s' := match LastIndex (drop_last s) (s1 quote) with
            | Some prevQuote => take_str prevQuote s
            | None => s
            end in
  ends_with quote s = true -> scan s' = outside k /\ no_backslash s' = true.
Proof.
  intros N S s' E. subst s'. apply ends_with_split in E.
  destruct (LastIndex _ _) as [n|] eqn:L; [|done].
  apply LastIndex_byte in L as (a & b & L & <- & Q). rewrite E in N, S.
  pose proof (scan_before_closed _ k N S) as I. apply no_backslash_append in N as [N _].
  rewrite E, L, append_assoc, take_append. rewrite L in N, I. split.
  - by apply (scan_before_last_quote a b).
  - by apply no_backslash_append in N as [? _].
Qed.

(** A text that opens with a bracket and ends inside a string has a quote
    after that bracket. *)
Lemma quote_after_bracket s k : opens_json s = true -> scan s = inside k ->
  exists n, LastIndex s (s1 quote) = Some (S n).
Proof.
  intros O I. destruct (LastIndex s (s1 quote)) as [[|n]|] eqn:L; [| |exfalso].
  - apply LastIndex_byte in L as ([|] & b & -> & L & _); [|done]. by vm_compute in O.
  - by exists n.
  - apply LastIndex_None in L. revert I.
    assert (P : forall t st, no_quote t = true -> inString st = false -> inString (scan_from st t) = false).
    { clear. unfold no_quote. induction t as [|c t IH]; intros st; [done|]. cbn [all_bytes scan_from].
      rewrite andb_true_iff, negb_true_iff. intros [Q A] F. apply IH; [done|].
      unfold scan_byte. rewrite F, andb_false_r, (Ascii.eqb_sym c quote), Q. by destruct (escaped st). }
    specialize (P s scan_init L eq_refl). fold (scan s) in P. intros I. by rewrite I in P.
Qed.

Lemma cut_string_scan s k : no_backslash s = true -> opens_json s = true -> scan s = inside k ->
  scan (cut_string s) = outside k.
Proof.
  intros N O I. destruct (quote_after_bracket s k O I) as [n L]. unfold cut_string. rewrite L.
  apply LastIndex_byte in L as (a & b & E & L & Q). rewrite <- L, E, take_append. rewrite E in N, I.
  pose proof (scan_before_last_quote a b N Q k I) as A. apply no_backslash_append in N as [N _].
  destruct (scan_TrimRight a k "" (or_introl eq_refl) N A) as [A1 N1].
  change (blanks ++ "") with blanks in A1, N1. set (s1 := TrimRight a blanks) in *. clearbody s1.
  apply scan_TrimRight; [by right; left| |]; destruct (ends_with ":" s1) eqn:C; try done;
    apply ends_with_split in C.
  all: assert (D : scan (drop_last s1) = outside k /\ no_backslash (drop_last s1) = true)
    by (rewrite C in A1, N1; split; [by apply (scan_trim _ ":")|by apply no_backslash_append in N1 as [? _]]).
  all: destruct D as [A2 N2]; destruct (scan_TrimRight _ k "" (or_introl eq_refl) N2 A2) as [A3 N3];
    change (blanks ++ "") with blanks in A3, N3.
  all: destruct (ends_with quote _) eqn:F; [|done]; by apply (cut_key_scan _ k).
Qed.

(** Only brackets are ever pushed. *)
Definition brackets (k : list ascii) : Prop := Forall (fun c => c = "{"%char \/ c = "["%char) k.

Lemma scan_from_brackets s : forall st, brackets (stack st) -> brackets (stack (scan_from st s)).
Proof.
  induction s as [|c s IH]; intros st B; [done|]. apply IH. unfold scan_byte.
  assert (P : forall o, brackets (pop o (stack st))).
  { intros o. unfold pop. destruct (stack st) as [|x k]; [done|]. destruct (Ascii.eqb x o); [|done].
    by apply Forall_cons in B as [_ ?]. }
  repeat split_match; simpl; auto. apply Forall_cons. split; [|done]. b2p.
  repeat match goal with H : _ \/ _ |- _ => destruct H as [H|H]; apply Ascii.eqb_eq in H end; auto.
Qed.

Lemma scan_closers k : brackets k -> scan_from (outside k) (closers k) = outside [].
Proof.
  induction k as [|c k IH]; [done|]. intros [[-> | ->] B]%Forall_cons; apply IH, B.
Qed.

(** On an answer that opens with a bracket and contains no backslash,
    [repairTruncatedJSON] leaves no bracket open, and if it had to close any it
    also ends outside strings: a cut-off answer comes back balanced. *)
Theorem repairTruncatedJSON_balanced s0 :
  no_backslash (TrimSpace s0) = true -> opens_json (TrimSpace s0) = true ->
  stack (scan (repairTruncatedJSON s0)) = [] /\
  (stack (scan (TrimSpace s0)) <> [] -> scan (repairTruncatedJSON s0) = outside []).
Proof.
  unfold repairTruncatedJSON. generalize (TrimSpace s0) as s. intros s N O. rewrite O. cbn [negb].
  destruct (stack (scan s)) as [|c k] eqn:K; [done|].
  assert (H : exists s', (if inString (scan s) then cut_string s else TrimRight s (blanks ++ ",:")) = s' /\
                scan s' = outside (c :: k)).
  { eexists. split; [done|]. destruct (scan_cases s N) as [k' [E|E]]; rewrite E in K |- *; simpl in K; subst k'.
    - by apply scan_TrimRight; [right; right| |].
    - by apply cut_string_scan. }
  destruct H as (s' & -> & S). rewrite scan_append, S. simpl.
  assert (B : brackets (c :: k)).
  { rewrite <- K. apply scan_from_brackets. constructor. }
  change (scan_from _ _) with (scan_from (outside (c :: k)) (closers (c :: k))).
  by rewrite scan_closers.
Qed.

Lemma repairTruncatedJSON_balanced_witness :
  let s := dq "{'pages': [{'path': '/', 'title': 'Ho" in
  no_backslash (TrimSpace s) = true /\ opens_json (TrimSpace s) = true /\
  stack (scan (repairTruncatedJSON s)) = [].
Proof.
  split; [vm_compute; reflexivity|]. split; [vm_compute; reflexivity|].
  apply repairTruncatedJSON_balanced; vm_compute; reflexivity.
Defined.

(** The backslash matters: when the cut falls after an escaped quote, the
    repair cuts at that quote and appends the brackets inside the string it
    left open, so the result is not JSON. *)
Theorem repairTruncatedJSON_escaped_quote :
  let s := dq "{'title': 'He said \'hi" in
  repairTruncatedJSON s = dq "{'title': 'He said \}" /\
  scan (repairTruncatedJSON s) = inside ["{"%char].
Proof. split; vm_compute; reflexivity. Qed.

(** ** Decoding *)

Definition type_error {A} : res string A := Err "json: cannot unmarshal".

Definition dec_bool (j : option json) : res string bool :=
  match j with
  | None | Some JNull => Ok false
  | Some (JBool b) => Ok b
  | Some _ => type_error
  end.

(** An [int] field takes an integer literal in range. *)
Definition dec_int (j : option json) : res string Z :=
  match j with
  | None | Some JNull => Ok 0%Z
  | Some (JNum lit) => match Atoi lit with (z, None) => Ok z | _ => type_error end
  | Some _ => type_error
  end.

Fixpoint dec_all {A} (f : json -> res string A) (l : list json) : res string (list A) :=
  match l with
  | [] => Ok []
  | j :: r => res_bind (f j) (fun a => res_bind (dec_all f r) (fun b => Ok (a :: b)))
  end.

Definition dec_list {A} (f : json -> res string A) (j : option json) : res string (list A) :=
  match j with
  | None | Some JNull => Ok []
  | Some (JArr l) => dec_all f l
  | Some _ => type_error
  end.

(** A pointer field: absent and null are nil. *)
Definition dec_ptr {A} (f : json -> res string A) (j : option json) : res string (option A) :=
  match j with
  | None | Some JNull => Ok None
  | Some v => res_bind (f v) (fun a => Ok (Some a))
  end.

Fixpoint dec_members (m : list (string * json)) : res string (gmap string string) :=
  match m with
  | [] => Ok ∅
  | (k, v) :: r =>
      res_bind (dec_string "" (Some v)) (fun s =>
      res_bind (dec_members r) (fun g =>
      Ok (match g !! k with Some _ => g | None => <[k := s]> g end)))
  end.

Definition dec_map (j : option json) : res string (option (gmap string string)) :=
  match j with
  | None | Some JNull => Ok None
  | Some (JObj m) => res_bind (dec_members m) (fun g => Ok (Some g))
  | Some _ => type_error
  end.

(** The members of an object; null decodes a struct to its zero value. *)
Definition members (j : json) : res string (list (string * json)) :=
  match j with
  | JObj m => Ok m
  | JNull => Ok []
  | _ => type_error
  end.

Definition str (k : string) (m : list (string * json)) := dec_string "" (member k m).

Definition dec_Typography (j : json) : res string TypographySpec :=
  let! m := members j in
  let! h := str "heading_font" m in let! b := str "body_font" m in let! s := str "scale" m in
  Ok {| HeadingFont := h; BodyFont := b; Scale := s |}.

Definition dec_DesignSystem (j : json) : res string DesignSystem :=
  let! m := members j in
  let! c := dec_map (member "colors" m) in
  let! t := dec_ptr dec_Typography (member "typography" m) in
  let! sp := str "spacing" m in let! r := str "radius" m in
  let! d := dec_bool (member "dark_mode" m) in
  let! co := dec_map (member "components" m) in
  Ok {| Colors := c; Typography := t; Spacing := sp; Radius := r; DarkMode := d; Components := co |}.

Definition dec_LayoutSpec (j : json) : res string LayoutSpec :=
  let! m := members j in
  let! s := str "style" m in let! n := dec_string_list (member "nav_items" m) in
  Ok {| Style := s; NavItems := n |}.

Definition zero_section : SectionSpec := {| SName := ""; SPurpose := ""; SEndpoints := []; DataFlow := "" |}.
Definition zero_question : PlanQuestion := {| Question := ""; QType := ""; Options := [] |}.

Definition dec_PageSpec (j : json) : res string PageSpec :=
  let! m := members j in
  let! p := str "path" m in let! t := str "title" m in let! pu := str "purpose" m in
  let! s := dec_list (SectionSpec_UnmarshalJSON zero_section) (member "sections" m) in
  let! e := dec_string_list (member "endpoints" m) in
  let! a := dec_bool (member "auth" m) in let! n := str "notes" m in
  Ok {| Path := p; Title := t; Purpose := pu; Sections := s; PEndpoints := e; Auth := a; Notes := n |}.

Definition dec_EndpointSpec (j : json) : res string EndpointSpec :=
  let! m := members j in
  let! a := str "action" m in let! p := str "path" m in let! t := str "table_name" m in
  let! ra := dec_bool (member "requires_auth" m) in let! pr := dec_bool (member "public_read" m) in
  let! rc := str "room_column" m in let! wt := str "write_to_table" m in
  let! ev := dec_string_list (member "event_types" m) in
  let! u := str "username_column" m in let! pw := str "password_column" m in
  let! dr := str "default_role" m in let! rl := str "role_column" m in
  let! jw := dec_int (member "jwt_expiry_hours" m) in
  let! pc := dec_string_list (member "public_columns" m) in
  Ok {| Action := a; EPath := p; TableName := t; RequiresAuth := ra; PublicRead := pr;
        RoomColumn := rc; WriteTable := wt; EventTypes := ev; UsernameCol := u; PasswordCol := pw;
        DefaultRole := dr; RoleColumn := rl; JWTExpiryHours := jw; PublicColumns := pc |}.

Definition dec_ColumnDef (j : json) : res string ColumnDef :=
  let! m := members j in
  let! n := str "name" m in let! t := str "type" m in
  let! p := dec_bool (member "primary" m) in let! r := dec_bool (member "required" m) in
  Ok {| CName := n; CType := t; Primary := p; Required := r |}.

Definition dec_TableSpec (j : json) : res string TableSpec :=
  let! m := members j in
  let! n := str "name" m in let! p := str "purpose" m in
  let! c := dec_list dec_ColumnDef (member "columns" m) in
  let! sc := dec_string_list (member "searchable_columns" m) in
  Ok {| TName := n; TPurpose := p; Columns := c;
        SeedData := match member "seed_data" m with Some v => v | None => JNull end;
        SearchableColumns := sc |}.

Definition dec_WebhookSpec (j : json) : res string WebhookSpec :=
  let! m := members j in
  let! n := str "name" m in let! d := str "direction" m in let! u := str "url" m in
  let! e := dec_string_list (member "event_types" m) in
  Ok {| WName := n; Direction := d; URL := u; Events := e |}.

Definition dec_TaskSpec (j : json) : res string TaskSpec :=
  let! m := members j in
  let! n := str "name" m in let! d := str "description" m in let! p := str "prompt" m in
  let! c := str "cron" m in let! i := dec_int (member "interval_seconds" m) in
  Ok {| TaskName := n; Description := d; Prompt := p; CronExpr := c; IntervalSec := i |}.

(** [json.Unmarshal] into a zero [Plan], from the parsed text. *)
Definition dec_Plan (j : json) : res string Plan :=
  let! m := members j in
  let! at_ := str "app_type" m in let! ar := str "architecture" m in let! au := str "auth_strategy" m in
  let! d := dec_ptr dec_DesignSystem (member "design_system" m) in
  let! l := dec_ptr dec_LayoutSpec (member "layout" m) in
  let! t := dec_list dec_TableSpec (member "tables" m) in
  let! e := dec_list dec_EndpointSpec (member "endpoints" m) in
  let! p := dec_list dec_PageSpec (member "pages" m) in
  let! x := dec_string_list (member "exclusions" m) in
  let! w := dec_list dec_WebhookSpec (member "webhooks" m) in
  let! st := dec_list dec_TaskSpec (member "scheduled_tasks" m) in
  let! q := dec_list (PlanQuestion_UnmarshalJSON zero_question) (member "questions" m) in
  Ok {| AppType := at_; Architecture := ar; AuthStrategy := au; Design := d; Layout := l; Tables := t;
        Endpoints := e; Pages := p; Exclusions := x; Webhooks := w; ScheduledTasks := st; Questions := q |}.

Definition dec_PlanPatch (j : json) : res string PlanPatch :=
  let! m := members j in
  let! ap := dec_list dec_PageSpec (member "add_pages" m) in
  let! mp := dec_list dec_PageSpec (member "modify_pages" m) in
  let! rp := dec_string_list (member "remove_pages" m) in
  let! ae := dec_list dec_EndpointSpec (member "add_endpoints" m) in
  let! tb := dec_list dec_TableSpec (member "add_tables" m) in
  let! aw := dec_list dec_WebhookSpec (member "add_webhooks" m) in
  let! ta := dec_list dec_TaskSpec (member "add_scheduled_tasks" m) in
  let! uc := dec_bool (member "update_css" m) in let! un := dec_bool (member "update_nav" m) in
  let! ua := str "update_auth_strategy" m in
  let! ud := dec_ptr dec_DesignSystem (member "update_design_system" m) in
  let! ul := dec_ptr dec_LayoutSpec (member "update_layout" m) in
  Ok {| AddPages := ap; ModifyPages := mp; RemovePages := rp; AddEndpoints := ae; AddTables := tb;
        AddWebhooks := aw; AddTasks := ta; UpdateCSS := uc; UpdateNav := un; UpdateAuthStrategy := ua;
        UpdateDesignSystem := ud; UpdateLayout := ul |}.

Definition ParsePlan (raw : string) : res string Plan :=
  let raw := repairJSON (extractJSON raw) in
  match res_bind (Unmarshal raw) dec_Plan with
  | Ok p => Ok p
  | Err e => Err ("invalid plan JSON: " ++ e)
  end.

Definition ParsePlanPatch (raw : string) : res string PlanPatch :=
  let raw := repairJSON (extractJSON raw) in
  match res_bind (Unmarshal raw) dec_PlanPatch with
  | Ok p => Ok p
  | Err e => Err ("invalid plan patch JSON: " ++ e)
  end.

(** ** Rereading a stored plan *)

(** A comma, white space, a closing bracket: what the trailing-comma
    expression matches. *)
Fixpoint dangling_comma (s : string) : bool :=
  match s with
  | "" => false
  | String a r =>
      (Ascii.eqb a "," &&
       match drop_str (count_spaces r) r with
       | String b _ => Ascii.eqb b "]" || Ascii.eqb b "}"
       | "" => false
       end) || dangling_comma r
  end.

Lemma drop_commas_id s : dangling_comma s = false -> drop_commas 0 s = s.
Proof.
  induction s as [|a r IH]; [done|]. cbn [dangling_comma drop_commas].
  rewrite orb_false_iff. intros [A D]. rewrite (IH D).
  destruct (drop_str _ r) as [|b t]; [done|]. by rewrite A.
Qed.

Lemma Split_none c s : all_bytes (fun a => negb (Ascii.eqb a c)) s = true -> Split c s = [s].
Proof.
  induction s as [|a r IH]; [done|]. cbn [all_bytes Split]. rewrite andb_true_iff, negb_true_iff.
  intros [-> A]. by rewrite (IH A).
Qed.

Lemma fence_matches_none n s : Contains s fence = false -> fence_matches n s = [].
Proof. unfold Contains. destruct n; [done|]. simpl. by destruct (Index s fence). Qed.

Lemma opens_json_not_comment s : opens_json s = true -> HasPrefix s "//" = false /\ (s =? "")%string = false.
Proof.
  destruct s as [|a r]; [done|]. intros H. split; [|done]. unfold HasPrefix.
  cbn [String.prefix]. destruct (ascii_dec "/" a) as [<-|N]; [by vm_compute in H|]. reflexivity.
Qed.

Lemma repairJSON_clean s :
  TrimSpace s = s -> opens_json s = true -> Contains s fence = false ->
  all_bytes (fun a => negb (Ascii.eqb a newline)) s = true -> dangling_comma s = false ->
  stack (scan s) = [] ->
  repairJSON (extractJSON s) = s.
Proof.
  intros T O F N D S. destruct (opens_json_not_comment s O) as [C E]. unfold extractJSON.
  rewrite T, E, fence_matches_none, O by done. unfold repairJSON.
  rewrite (Split_none _ _ N). cbn [List.filter]. rewrite T, C. cbn [negb].
  unfold Join. cbn [String.concat]. rewrite (drop_commas_id _ D).
  unfold repairTruncatedJSON. by rewrite T, O, S.
Qed.

(** Neither restriction is idle.  Valid JSON whose strings hold a comma
    before a bracket is changed inside the string, and valid JSON with two code
    fences in its strings is replaced by the text between them, although every
    bracket of both is closed. *)
Theorem stored_plan_altered :
  let s := dq "{'pages':[{'path':'/','notes':'call f([1,2,])'}]}" in
  let t := dq "{'pages':[{'path':'/','notes':'```js x()``` first'}]}" in
  scan s = outside [] /\ scan t = outside [] /\
  repairJSON (extractJSON s) = dq "{'pages':[{'path':'/','notes':'call f([1,2])'}]}" /\
  repairJSON (extractJSON t) = "js x()".
Proof. repeat split; vm_compute; reflexivity. Qed.
