(* ===== verification/PlanStore.v ===== *)
(** * Storing a plan and reading it back

    [marshalToJSON] of a plan (brain/plan.go), which the PLAN and UPDATE_PLAN
    stages write to pipeline_state.plan_json, and the result that [ParsePlan],
    made for the model's unreliable output, reads the stored text back as the
    same plan. *)

From Stdlib Require Import ZArith Lia Ascii String List Bool.
From stdpp Require Import base list strings gmap sorting.
From S2P Require Import Prelude GoStrings JSONText Plan PlanJSON.

Local Open Scope string_scope.
Local Open Scope go_scope.

(** ** Marshalled text is balanced and on one line *)

(** A byte that is no delimiter inside a string literal. *)
Definition plain (c : ascii) : bool :=
  negb (Ascii.eqb c quote || Ascii.eqb c backslash || (code c <? 32)%nat).

Definition one_line (s : string) : bool := all_bytes (fun a => negb (Ascii.eqb a newline)) s.

Lemma one_line_append s t : one_line (s ++ t) = one_line s && one_line t.
Proof. apply all_bytes_append. Qed.

Lemma high_plain lo hi c : (32 <=? lo)%nat && (93 <=? lo)%nat = true -> between lo hi c = true -> plain c = true.
Proof.
  unfold between, plain. intros Hlo H. b2p.
  rewrite negb_true_iff, !orb_false_iff. repeat split.
  1,2: apply Ascii.eqb_neq; intros ->; cbv in *; lia.
  apply Nat.ltb_ge. lia.
Qed.

Lemma cont_plain c : cont c = true -> plain c = true.
Proof. by apply high_plain. Qed.

Lemma chunk_plain a r k : escape_of a = None -> utf8_len (String a r) = S k ->
  all_bytes plain (take_str (S k) (String a r)) = true.
Proof.
  intros He. assert (Ha : plain a = true).
  { destruct (escape_of_None a He) as (H1 & H2 & H3). unfold plain. by rewrite H1, H2, H3. }
  destruct r as [|b [|c [|d r]]]; cbn [utf8_len]; intros H;
    repeat (lazymatch type of H with (if ?x then _ else _) = _ => destruct x eqn:? end;
            try discriminate H);
    try discriminate H; injection H as [= <-]; cbn [take_str all_bytes]; rewrite Ha; b2p;
    rewrite ?andb_true_iff; repeat split; try done;
    repeat match goal with H : (if ?x then _ else _) = true |- _ => destruct x eqn:? end;
    match goal with
    | H : between ?lo ?hi ?c = true |- plain ?c = true => exact (high_plain lo hi c eq_refl H)
    | H : cont ?c = true |- plain ?c = true => exact (cont_plain c H)
    end.
Qed.

Lemma plain_scan k t : all_bytes plain t = true -> scan_from (inside k) t = inside k /\ one_line t = true.
Proof.
  intros H. split.
  - apply scan_from_inside; revert H; apply all_bytes_impl; intros c N; unfold plain in N; b2p;
      rewrite negb_true_iff, Ascii.eqb_sym; done.
  - revert H. apply all_bytes_impl. intros [[] [] [] [] [] [] [] []]; by intros [=].
Qed.

Lemma escape_scan a e k : escape_of a = Some e -> scan_from (inside k) e = inside k /\ one_line e = true.
Proof. destruct a as [[] [] [] [] [] [] [] []]; intros [= <-]; split; reflexivity. Qed.

Lemma line_separator_scan s e k : line_separator s = Some e ->
  scan_from (inside k) e = inside k /\ one_line e = true.
Proof. unfold line_separator. repeat case_match; intros [= <-]; split; reflexivity. Qed.

Lemma enc_body_scan n : forall s k,
  scan_from (inside k) (enc_body n s) = inside k /\ one_line (enc_body n s) = true.
Proof.
  induction n as [|n IH]; intros s k; [done|]. destruct s as [|a r]; [done|].
  assert (Hcat : forall x y, (scan_from (inside k) x = inside k /\ one_line x = true) ->
    scan_from (inside k) (x ++ enc_body n y) = inside k /\ one_line (x ++ enc_body n y) = true).
  { intros x y [H1 H2]. destruct (IH y k) as [H3 H4].
    rewrite scan_from_append, one_line_append, H1, H2. done. }
  cbn [enc_body]. destruct (escape_of a) as [e|] eqn:He; [by apply Hcat, (escape_scan a)|].
  destruct (utf8_len (String a r)) as [|m] eqn:Hm; [by apply Hcat|].
  destruct (line_separator (String a r)) as [e|] eqn:Hl; apply Hcat.
  - by eapply line_separator_scan.
  - apply plain_scan. by apply chunk_plain.
Qed.

Lemma enc_string_scan s k :
  scan_from (outside k) (enc_string s) = outside k /\ one_line (enc_string s) = true.
Proof.
  unfold enc_string. destruct (enc_body_scan (String.length s) s k) as [H1 H2]. split.
  - cbn [scan_from]. change (scan_byte (outside k) quote) with (inside k).
    by rewrite scan_from_append, H1.
  - change (one_line (enc_body (String.length s) s ++ s1 quote) = true).
    by rewrite one_line_append, H2.
Qed.

(** The bytes a number is made of. *)
Definition num_byte (c : ascii) : bool :=
  is_digit c || Ascii.eqb c "-" || Ascii.eqb c "+" || Ascii.eqb c "." || Ascii.eqb c "e" || Ascii.eqb c "E".

Lemma num_byte_scan t k : all_bytes num_byte t = true ->
  scan_from (outside k) t = outside k /\ one_line t = true.
Proof.
  intros H. split.
  - apply scan_from_outside_neutral. revert H. apply all_bytes_impl.
    intros [[] [] [] [] [] [] [] []]; by intros [=].
  - revert H. apply all_bytes_impl. intros [[] [] [] [] [] [] [] []]; by intros [=].
Qed.

Lemma digits_num s d r : digits s = (d, r) -> all_bytes num_byte d = true.
Proof.
  revert d. induction s as [|a s IH]; intros d H; [by injection H as <- <-|].
  cbn in H. destruct (is_digit a) eqn:Ha; [|by injection H as <- <-].
  destruct (digits s) as [d' r']. injection H as <- ->. cbn [all_bytes].
  rewrite (IH d' eq_refl). unfold num_byte. by rewrite Ha.
Qed.

Lemma digits1_num c s d r : digits1 c s = Ok (d, r) -> all_bytes num_byte d = true.
Proof.
  unfold digits1. destruct s as [|a s]; [done|]. destruct (is_digit a); [|done].
  intros H. assert (D : digits (String a s) = (d, r)) by congruence. by apply digits_num in D.
Qed.

Lemma parse_number_num s d r : parse_number s = Ok (d, r) -> all_bytes num_byte d = true.
Proof.
  unfold parse_number.
  assert (Hint : forall s i r, parse_int s = Ok (i, r) -> all_bytes num_byte i = true).
  { intros [|a t] i q; [done|]. unfold parse_int. destruct (Ascii.eqb a "0") eqn:E; [|apply digits1_num].
    intros [= <- _]. apply Ascii.eqb_eq in E as ->. done. }
  assert (Hfrac : forall s i r, parse_frac s = Ok (i, r) -> all_bytes num_byte i = true).
  { intros [|a t] i q; [by intros [= <- _]|]. unfold parse_frac. destruct (Ascii.eqb a ".") eqn:E; [|by intros [= <- _]].
    destruct (digits1 _ t) as [[d' r']|] eqn:D; [|done]. intros [= <- _]. apply Ascii.eqb_eq in E as ->.
    by apply digits1_num in D. }
  assert (Hexp : forall s i r, parse_exp s = Ok (i, r) -> all_bytes num_byte i = true).
  { intros [|a t] i q; [by intros [= <- _]|]. unfold parse_exp.
    destruct (Ascii.eqb a "e" || Ascii.eqb a "E") eqn:E; [|by intros [= <- _]].
    assert (Ha : num_byte a = true) by (unfold num_byte; b2p; destruct E as [->| ->]; rewrite ?orb_true_r; done).
    destruct t as [|g t]; [done|].
    destruct (Ascii.eqb g "+" || Ascii.eqb g "-") eqn:G;
      match goal with |- res_bind ?m _ = _ -> _ => destruct m as [[d' r']|] eqn:D; [|done] end;
      intros [= <- _]; apply digits1_num in D; cbn [all_bytes]; rewrite Ha.
    - rewrite all_bytes_append, D. cbn [all_bytes s1]. b2p. unfold num_byte.
      destruct G as [->| ->]; by rewrite ?orb_true_r.
    - by rewrite append_nil_l, D. }
  intros H. assert (Hsign : exists sign s', all_bytes num_byte sign = true /\
    (let! (i, r) := parse_int s' in let! (f, r) := parse_frac r in let! (e, r) := parse_exp r in
     Ok ((sign ++ i ++ f ++ e)%string, r)) = Ok (d, r)).
  { destruct s as [|a s]; [exists "", ""; done|]. destruct (Ascii.eqb a "-") eqn:E.
    - exists (s1 a), s. apply Ascii.eqb_eq in E as ->. done.
    - by exists "", (String a s). }
  destruct Hsign as (sign & s' & Hs & H').
  destruct (parse_int s') as [[i r1]|] eqn:E1; [|done]. cbn [res_bind] in H'.
  destruct (parse_frac r1) as [[f r2]|] eqn:E2; [|done]. cbn [res_bind] in H'.
  destruct (parse_exp r2) as [[e r3]|] eqn:E3; [|done]. injection H' as <- _.
  rewrite !all_bytes_append. rewrite Hs, (Hint _ _ _ E1), (Hfrac _ _ _ E2), (Hexp _ _ _ E3). done.
Qed.

(** A value's text leaves the scanner where it was. *)
Definition closed_text (t : string) : Prop :=
  (forall k, brackets k -> scan_from (outside k) t = outside k) /\ one_line t = true.

Lemma closed_append s t : closed_text s -> closed_text t -> closed_text (s ++ t).
Proof.
  intros [H1 H2] [H3 H4]. split.
  - intros k Hk. by rewrite scan_from_append, H1, H3.
  - by rewrite one_line_append, H2, H4.
Qed.

Lemma closed_Join l : Forall closed_text l -> closed_text (Join l ",").
Proof.
  induction 1 as [|x l Hx Hl IH]; [by split|]. destruct l as [|y l]; [done|].
  rewrite Join_cons2. apply closed_append; [done|].
  change (String "," (Join (y :: l) ",")) with ("," ++ Join (y :: l) ",")%string.
  apply closed_append; [by split|done].
Qed.

Lemma closed_bracket c d t : (c = "{"%char /\ d = "}"%char) \/ (c = "["%char /\ d = "]"%char) ->
  closed_text t -> closed_text (s1 c ++ t ++ s1 d).
Proof.
  intros Hcd [H1 H2].
  assert (Hc : c = "{"%char \/ c = "["%char) by naive_solver.
  split.
  - intros k Hk. rewrite !scan_from_append.
    assert (scan_from (outside k) (s1 c) = outside (c :: k)) as -> by (destruct Hcd as [[-> _]|[-> _]]; done).
    rewrite H1 by (by constructor). destruct Hcd as [[-> ->]|[-> ->]]; done.
  - rewrite !one_line_append, H2. by destruct Hcd as [[-> ->]|[-> ->]].
Qed.

Lemma closed_string s : closed_text (enc_string s).
Proof. split; [intros k _; apply enc_string_scan|apply (enc_string_scan s [])]. Qed.

Lemma Marshal_closed j : forall room, readable room j -> closed_text (Marshal j).
Proof.
  induction j as [|b|lit|s|l Hl|m Hm] using json_ind'; intros room Hr.
  - by split.
  - by destruct b; split.
  - apply parse_number_num in Hr. split; [intros k _; by apply num_byte_scan|by apply (num_byte_scan lit [])].
  - apply closed_string.
  - destruct room as [|room]; [done|]. apply (closed_bracket "[" "]"); [by right|].
    apply closed_Join. cbn [readable] in Hr. revert Hr.
    induction Hl as [|x l Hx Hl IH]; intros Hr; constructor; destruct Hr as [Hr Hrs]; [eauto|by apply IH].
  - destruct room as [|room]; [done|]. apply (closed_bracket "{" "}"); [by left|].
    apply closed_Join. cbn [readable] in Hr. revert Hr.
    induction Hm as [|x m Hx Hm IH]; intros Hr; constructor; destruct Hr as [[Hk Hr] Hrs]; [|by apply IH].
    apply closed_append; [apply closed_string|].
    apply closed_append; [by split|by eapply Hx].
Qed.

Lemma space_brace r : space_len (String "{" r) = 0%nat.
Proof. by destruct r as [|b [|c r]]. Qed.

Lemma rspace_brace r : rspace_len (String "}" r) = 0%nat.
Proof.
  destruct r as [|b [|c r]]; unfold rspace_len, space_len, between; repeat case_match; try done;
    exfalso; change (code "}") with 125%nat in *;
    repeat first [discriminate | lia | progress b2p | match goal with H : _ \/ _ |- _ => destruct H end].
Qed.

(** Text between braces has nothing to trim. *)
Lemma TrimSpace_object t : TrimSpace ("{" ++ t ++ "}") = ("{" ++ t ++ "}")%string.
Proof.
  unfold TrimSpace. change ("{" ++ t ++ "}")%string with (String "{" (t ++ "}")).
  cbn [trim_with]. rewrite space_brace.
  assert (reverse (String "{" (t ++ "}")) = String "}" (reverse t ++ "{"))%string as E.
  { by rewrite reverse_cons, reverse_append. }
  rewrite E. cbn [trim_with]. rewrite rspace_brace.
  by rewrite <- E, reverse_reverse.
Qed.

(** What [ParsePlan] makes of the text of an object: unless the text holds a
    code fence or a comma before a closing bracket, the object itself. *)
Lemma repairJSON_Marshal m :
  let t := Marshal (JObj m) in
  readable max_depth (JObj m) -> Contains t fence = false -> dangling_comma t = false ->
  res_bind (Unmarshal (repairJSON (extractJSON t))) Ok = Ok (JObj m).
Proof.
  intros t Hr Hf Hd. subst t. destruct (Marshal_closed (JObj m) max_depth Hr) as [Hs Hl].
  rewrite repairJSON_clean; try done.
  - by rewrite Unmarshal_Marshal.
  - apply TrimSpace_object.
  - unfold scan. change scan_init with (outside []). by rewrite (Hs []) by constructor.
Qed.

(** ** The encoder *)

(** The members of a struct: the fields that are not omitted, in order. *)
Definition fields (l : list (string * option json)) : json :=
  JObj (omap (fun kv => option_map (pair (fst kv)) (snd kv)) l).

(** [omitempty] by kind. *)
Definition enc_str (s : string) : option json := if (s =? "")%string then None else Some (JStr s).
Definition enc_bool (b : bool) : option json := if b then Some (JBool true) else None.
Definition enc_int (z : Z) : option json := if (z =? 0)%Z then None else Some (JNum (Itoa z)).
Definition enc_list {A} (f : A -> json) (l : list A) : option json :=
  match l with [] => None | _ => Some (JArr (map f l)) end.
Definition enc_strs : list string -> option json := enc_list JStr.

(** A slice without [omitempty]; the empty slice stands for the nil one too,
    which is written null: both are read back as the same plan. *)
Definition enc_slice {A} (f : A -> json) (l : list A) : option json :=
  Some (match l with [] => JNull | _ => JArr (map f l) end).

Definition string_leb (a b : string) : bool :=
  match String.compare a b with Gt => false | _ => true end.

(** A map's members, by key in byte order. *)
Fixpoint insert_member {A} (x : string * A) (l : list (string * A)) : list (string * A) :=
  match l with
  | [] => [x]
  | y :: r => if string_leb (fst x) (fst y) then x :: l else y :: insert_member x r
  end.
Definition sorted_members {A} (m : gmap string A) : list (string * A) :=
  foldr insert_member [] (map_to_list m).
Definition enc_gmap (m : gmap string string) : json :=
  JObj (map (fun kv => (fst kv, JStr (snd kv))) (sorted_members m)).

Definition enc_Typography (t : TypographySpec) : json :=
  fields [("heading_font", enc_str (HeadingFont t)); ("body_font", enc_str (BodyFont t));
          ("scale", enc_str (Scale t))].

Definition enc_DesignSystem (d : DesignSystem) : json :=
  fields [("colors", Some (match Colors d with Some m => enc_gmap m | None => JNull end));
          ("typography", option_map enc_Typography (Typography d));
          ("spacing", enc_str (Spacing d)); ("radius", enc_str (Radius d));
          ("dark_mode", enc_bool (DarkMode d));
          ("components", match Components d with
                         | Some m => if bool_decide (m = ∅) then None else Some (enc_gmap m)
                         | None => None
                         end)].

Definition enc_LayoutSpec (l : LayoutSpec) : json :=
  fields [("style", Some (JStr (Style l))); ("nav_items", enc_strs (NavItems l))].

Definition enc_SectionSpec (s : SectionSpec) : json :=
  fields [("name", Some (JStr (SName s))); ("purpose", enc_str (SPurpose s));
          ("endpoints", enc_strs (SEndpoints s)); ("data_flow", enc_str (DataFlow s))].

Definition enc_PageSpec (p : PageSpec) : json :=
  fields [("path", Some (JStr (Path p))); ("title", Some (JStr (Title p)));
          ("purpose", Some (JStr (Purpose p))); ("sections", enc_list enc_SectionSpec (Sections p));
          ("endpoints", enc_strs (PEndpoints p)); ("auth", enc_bool (Auth p));
          ("notes", enc_str (Notes p))].

Definition enc_WebhookSpec (w : WebhookSpec) : json :=
  fields [("name", Some (JStr (WName w))); ("direction", Some (JStr (Direction w)));
          ("url", enc_str (URL w)); ("event_types", enc_strs (Events w))].

Definition enc_TaskSpec (t : TaskSpec) : json :=
  fields [("name", Some (JStr (TaskName t))); ("description", Some (JStr (Description t)));
          ("prompt", Some (JStr (Prompt t))); ("cron", enc_str (CronExpr t));
          ("interval_seconds", enc_int (IntervalSec t))].

Definition enc_EndpointSpec (e : EndpointSpec) : json :=
  fields [("action", Some (JStr (Action e))); ("path", Some (JStr (EPath e)));
          ("table_name", enc_str (TableName e)); ("requires_auth", enc_bool (RequiresAuth e));
          ("public_read", enc_bool (PublicRead e)); ("room_column", enc_str (RoomColumn e));
          ("write_to_table", enc_str (WriteTable e)); ("event_types", enc_strs (EventTypes e));
          ("username_column", enc_str (UsernameCol e)); ("password_column", enc_str (PasswordCol e));
          ("default_role", enc_str (DefaultRole e)); ("role_column", enc_str (RoleColumn e));
          ("jwt_expiry_hours", enc_int (JWTExpiryHours e));
          ("public_columns", enc_strs (PublicColumns e))].

Definition enc_ColumnDef (c : ColumnDef) : json :=
  fields [("name", Some (JStr (CName c))); ("type", Some (JStr (CType c)));
          ("primary", enc_bool (Primary c)); ("required", enc_bool (Required c))].

(** A value decoded into an [interface{}] is written with the members of its
    objects in key order, the last of a repeated name kept; its numbers are
    float64, and the literal stands for their shortest form. *)
Fixpoint put_member (k : string) (v : json) (l : list (string * json)) : list (string * json) :=
  match l with
  | [] => [(k, v)]
  | (k', v') :: r =>
      match String.compare k k' with
      | Lt => (k, v) :: l
      | Eq => (k, v) :: r
      | Gt => (k', v') :: put_member k v r
      end
  end.

Fixpoint any_value (j : json) : json :=
  match j with
  | JArr l => JArr (map any_value l)
  | JObj m => JObj (fold_left (fun acc kv => put_member (fst kv) (any_value (snd kv)) acc) m [])
  | _ => j
  end.

(** [SeedData] is an [interface{}]: nil is omitted, anything else written. *)
Definition enc_TableSpec (t : TableSpec) : json :=
  fields [("name", Some (JStr (TName t))); ("purpose", Some (JStr (TPurpose t)));
          ("columns", enc_slice enc_ColumnDef (Columns t));
          ("seed_data", match SeedData t with JNull => None | v => Some (any_value v) end);
          ("searchable_columns", enc_strs (SearchableColumns t))].

Definition enc_PlanQuestion (q : PlanQuestion) : json :=
  fields [("question", Some (JStr (Question q))); ("type", Some (JStr (QType q)));
          ("options", enc_strs (Options q))].

Definition enc_Plan (p : Plan) : json :=
  fields [("app_type", Some (JStr (AppType p))); ("architecture", enc_str (Architecture p));
          ("auth_strategy", enc_str (AuthStrategy p));
          ("design_system", option_map enc_DesignSystem (Design p));
          ("layout", option_map enc_LayoutSpec (Layout p));
          ("tables", enc_list enc_TableSpec (Tables p));
          ("endpoints", enc_list enc_EndpointSpec (Endpoints p));
          ("pages", enc_slice enc_PageSpec (Pages p)); ("exclusions", enc_strs (Exclusions p));
          ("webhooks", enc_list enc_WebhookSpec (Webhooks p));
          ("scheduled_tasks", enc_list enc_TaskSpec (ScheduledTasks p));
          ("questions", enc_list enc_PlanQuestion (Questions p))].

(** [marshalToJSON] of a plan: it has no value [json.Marshal] refuses. *)
Definition marshalToJSON (p : Plan) : string := Marshal (enc_Plan p).

(** ** Decoding what was encoded *)

Fixpoint field (k : string) (l : list (string * option json)) : option json :=
  match l with
  | [] => None
  | (k', v) :: r => if same_name k' k then v else field k r
  end.

Fixpoint distinct (l : list string) : bool :=
  match l with
  | [] => true
  | k :: r => negb (existsb (fun k' => same_name k' k) r) && distinct r
  end.

Lemma same_name_trans a b c : same_name a c = true -> same_name b c = true -> same_name b a = true.
Proof. unfold same_name. rewrite !String.eqb_eq. congruence. Qed.

Lemma member_absent k l : existsb (fun k' => same_name k' k) (map fst l) = false ->
  member k (omap (fun kv => option_map (pair (fst kv)) (snd kv)) l) = None.
Proof.
  induction l as [|[k' [v|]] l IH]; [done|..]; cbn [map existsb fst]; rewrite orb_false_iff;
    intros [H1 H2]; cbn [omap list_omap snd option_map fst]; [|by apply IH].
  cbn [member]. rewrite IH by done. by rewrite H1.
Qed.

Lemma member_fields k l : distinct (map fst l) = true ->
  member k (omap (fun kv => option_map (pair (fst kv)) (snd kv)) l) = field k l.
Proof.
  induction l as [|[k' v] l IH]; [done|]. cbn [map distinct fst field]. rewrite andb_true_iff, negb_true_iff.
  intros [Hk Hl]. destruct (same_name k' k) eqn:E.
  - assert (existsb (fun x => same_name x k) (map fst l) = false) as Ha.
    { apply not_true_iff_false. intros Hx. apply existsb_exists in Hx as (x & Hx & Hs).
      apply not_true_iff_false in Hk. apply Hk, existsb_exists. exists x. split; [done|].
      by apply (same_name_trans k' x k). }
    apply member_absent in Ha. destruct v as [v|]; cbn [omap list_omap snd option_map fst]; [|done].
    cbn [member]. by rewrite Ha, E.
  - destruct v as [v|]; cbn [omap list_omap snd option_map fst]; [|by apply IH].
    cbn [member]. rewrite IH by done. rewrite E. by destruct (field k l).
Qed.

(** Reduces the lookup of a field by name in an encoded struct. *)
Ltac get_fields :=
  repeat (rewrite member_fields by reflexivity; cbn [field];
          repeat match goal with
          | |- context [same_name ?a ?b] =>
              let v := eval vm_compute in (same_name a b) in change (same_name a b) with v
          end; cbv iota).

Lemma dec_enc_str s : dec_string "" (enc_str s) = Ok s.
Proof. unfold enc_str. by destruct (String.eqb_spec s "") as [->|]. Qed.

Lemma dec_enc_bool b : dec_bool (enc_bool b) = Ok b.
Proof. by destruct b. Qed.

Lemma dec_enc_list {A} (f : json -> res string A) (g : A -> json) l :
  Forall (fun x => f (g x) = Ok x) l -> dec_list f (enc_list g l) = Ok l.
Proof.
  intros H. destruct l as [|x l]; [done|]. cbn [enc_list dec_list].
  induction H as [|y r Hy Hr IH]; [done|]. cbn [map dec_all]. rewrite Hy. cbn [res_bind]. by rewrite IH.
Qed.

Lemma dec_enc_slice {A} (f : json -> res string A) (g : A -> json) l :
  Forall (fun x => f (g x) = Ok x) l -> dec_list f (enc_slice g l) = Ok l.
Proof. intros H. rewrite <- (dec_enc_list f g l H). by destruct l. Qed.

Lemma dec_enc_strs l : dec_string_list (enc_strs l) = Ok l.
Proof.
  destruct l as [|x l]; [done|]. unfold enc_strs. cbn [enc_list dec_string_list].
  generalize (x :: l). induction l0 as [|y r IH]; [done|]. cbn [map dec_strings dec_string]. by rewrite IH.
Qed.

Lemma dec_JStr s : dec_string "" (Some (JStr s)) = Ok s.
Proof. done. Qed.

Lemma dec_enc_ptr {A} (f : json -> res string A) (g : A -> json) o :
  (forall x, o = Some x -> f (g x) = Ok x /\ g x <> JNull) -> dec_ptr f (option_map g o) = Ok o.
Proof.
  intros H. destruct o as [x|]; [|done]. destruct (H x eq_refl) as [H1 H2]. cbn.
  destruct (g x); by rewrite ?H1.
Qed.

Create HintDb dec.
#[export] Hint Rewrite dec_enc_str dec_enc_bool dec_enc_strs dec_JStr : dec.

(** Decodes an encoded struct field by field. *)
Ltac dec_struct :=
  unfold str; get_fields; autorewrite with dec; cbn [res_bind]; autorewrite with dec; cbn [res_bind].

Lemma dec_enc_Typography t : dec_Typography (enc_Typography t) = Ok t.
Proof. unfold dec_Typography, enc_Typography, fields. cbn [members res_bind]. dec_struct. by destruct t. Qed.

Lemma dec_enc_ColumnDef c : dec_ColumnDef (enc_ColumnDef c) = Ok c.
Proof. unfold dec_ColumnDef, enc_ColumnDef, fields. cbn [members res_bind]. dec_struct. by destruct c. Qed.

Lemma dec_enc_int z : in_int64 z -> dec_int (enc_int z) = Ok z.
Proof.
  intros Hz. unfold enc_int. destruct (Z.eqb_spec z 0) as [->|]; [done|]. cbn [dec_int].
  rewrite Atoi_Itoa; [done|]. unfold in_int64, min_int64, max_int64 in Hz. lia.
Qed.

Lemma insert_member_perm {A} (x : string * A) l : insert_member x l ≡ₚ x :: l.
Proof.
  induction l as [|y l IH]; [done|]. cbn [insert_member]. destruct (string_leb _ _); [done|].
  rewrite IH. constructor.
Qed.

Lemma sorted_members_perm {A} (m : gmap string A) : sorted_members m ≡ₚ map_to_list m.
Proof.
  unfold sorted_members. induction (map_to_list m) as [|x l IH]; [done|]. cbn [foldr].
  by rewrite insert_member_perm, IH.
Qed.

Lemma dec_members_map l : NoDup l.*1 ->
  dec_members (map (fun kv => (fst kv, JStr (snd kv))) l) = Ok (list_to_map l).
Proof.
  induction l as [|[k v] l IH]; [done|]. cbn [fmap list_fmap fst]. rewrite NoDup_cons. intros [Hk Hl].
  cbn [map dec_members fst snd dec_string res_bind]. rewrite IH by done. cbn [res_bind].
  by rewrite (proj1 (not_elem_of_list_to_map l k) Hk).
Qed.

Lemma dec_enc_gmap m : dec_map (Some (enc_gmap m)) = Ok (Some m).
Proof.
  unfold enc_gmap. cbn [dec_map]. pose proof (sorted_members_perm m) as Hp.
  assert (NoDup (sorted_members m).*1) as Hn by (rewrite Hp; apply NoDup_fst_map_to_list).
  rewrite dec_members_map by done. cbn [res_bind]. do 2 f_equal.
  rewrite (list_to_map_proper _ _ Hn Hp). apply list_to_map_to_list.
Qed.

(** A design system whose [Components] is not the empty map: that one is
    omitted, and read back as nil. *)
Definition design_ok (d : DesignSystem) : Prop := Components d <> Some ∅.

Lemma dec_enc_DesignSystem d : design_ok d -> dec_DesignSystem (enc_DesignSystem d) = Ok d.
Proof.
  intros Hc. unfold dec_DesignSystem, enc_DesignSystem, fields. cbn [members res_bind]. dec_struct.
  destruct d as [co ty sp ra da cm]. cbn [Colors Typography Spacing Radius DarkMode Components] in *.
  assert (dec_map (Some match co with Some m => enc_gmap m | None => JNull end) = Ok co) as ->
    by (destruct co; [apply dec_enc_gmap|done]).
  cbn [res_bind]. rewrite dec_enc_ptr by (intros t _; split; [apply dec_enc_Typography|done]).
  cbn [res_bind]. autorewrite with dec. cbn [res_bind].
  assert (dec_map match cm with
                  | Some m => if bool_decide (m = ∅) then None else Some (enc_gmap m)
                  | None => None
                  end = Ok cm) as ->; [|done].
  destruct cm as [m|]; [|done]. rewrite bool_decide_false; [apply dec_enc_gmap|].
  intros ->. by apply Hc.
Qed.

Lemma dec_enc_LayoutSpec l : dec_LayoutSpec (enc_LayoutSpec l) = Ok l.
Proof. unfold dec_LayoutSpec, enc_LayoutSpec, fields. cbn [members res_bind]. dec_struct. by destruct l. Qed.

Lemma dec_enc_SectionSpec s : SectionSpec_UnmarshalJSON zero_section (enc_SectionSpec s) = Ok s.
Proof.
  unfold enc_SectionSpec, fields. unfold SectionSpec_UnmarshalJSON. cbn [dec_string].
  dec_struct. by destruct s.
Qed.

Lemma dec_enc_PageSpec p : dec_PageSpec (enc_PageSpec p) = Ok p.
Proof.
  unfold dec_PageSpec, enc_PageSpec, fields. cbn [members res_bind]. dec_struct.
  rewrite dec_enc_list by (apply Forall_forall; intros; apply dec_enc_SectionSpec).
  cbn [res_bind]. autorewrite with dec. cbn [res_bind]. autorewrite with dec. by destruct p.
Qed.

Lemma dec_enc_WebhookSpec w : dec_WebhookSpec (enc_WebhookSpec w) = Ok w.
Proof. unfold dec_WebhookSpec, enc_WebhookSpec, fields. cbn [members res_bind]. dec_struct. by destruct w. Qed.

Lemma dec_enc_TaskSpec t : in_int64 (IntervalSec t) -> dec_TaskSpec (enc_TaskSpec t) = Ok t.
Proof.
  intros H. unfold dec_TaskSpec, enc_TaskSpec, fields. cbn [members res_bind]. dec_struct.
  rewrite dec_enc_int by done. by destruct t.
Qed.

Lemma dec_enc_EndpointSpec e : in_int64 (JWTExpiryHours e) -> dec_EndpointSpec (enc_EndpointSpec e) = Ok e.
Proof.
  intros H. unfold dec_EndpointSpec, enc_EndpointSpec, fields. cbn [members res_bind].
  do 3 dec_struct. rewrite dec_enc_int by done. cbn [res_bind]. autorewrite with dec. by destruct e.
Qed.

Lemma dec_enc_TableSpec t : any_value (SeedData t) = SeedData t -> dec_TableSpec (enc_TableSpec t) = Ok t.
Proof.
  intros H. unfold dec_TableSpec, enc_TableSpec, fields. cbn [members res_bind]. dec_struct.
  rewrite dec_enc_slice by (apply Forall_forall; intros; apply dec_enc_ColumnDef).
  cbn [res_bind]. autorewrite with dec. cbn [res_bind].
  destruct t as [n p c sd sc]. cbn [SeedData] in *. destruct sd; cbv iota; by rewrite ?H.
Qed.

Lemma dec_enc_PlanQuestion q : QType q <> "" -> PlanQuestion_UnmarshalJSON zero_question (enc_PlanQuestion q) = Ok q.
Proof.
  intros H. unfold enc_PlanQuestion, fields, PlanQuestion_UnmarshalJSON. cbn [dec_string].
  dec_struct. destruct q as [x t o]. cbn [QType Question Options] in *.
  by destruct (String.eqb_spec t "").
Qed.

(** A plan with the values its Go types hold: machine integers, seed data with
    members in key order, and nothing the encoder omits although it is set. *)
Record storable (p : Plan) : Prop := {
  st_design : forall d, Design p = Some d -> design_ok d;
  st_tables : Forall (fun t => any_value (SeedData t) = SeedData t) (Tables p);
  st_endpoints : Forall (fun e => in_int64 (JWTExpiryHours e)) (Endpoints p);
  st_tasks : Forall (fun t => in_int64 (IntervalSec t)) (ScheduledTasks p);
  st_questions : Forall (fun q => QType q <> "") (Questions p);
}.

Lemma dec_enc_Plan p : storable p -> dec_Plan (enc_Plan p) = Ok p.
Proof.
  intros [Hd Ht He Hs Hq]. unfold dec_Plan, enc_Plan, fields. cbn [members res_bind]. dec_struct.
  rewrite dec_enc_ptr by (intros d Hx; split; [by apply dec_enc_DesignSystem, Hd|done]). cbn [res_bind].
  rewrite dec_enc_ptr by (intros l Hx; split; [apply dec_enc_LayoutSpec|done]). cbn [res_bind].
  rewrite dec_enc_list by exact (Forall_impl _ _ _ Ht dec_enc_TableSpec). cbn [res_bind].
  rewrite dec_enc_list by exact (Forall_impl _ _ _ He dec_enc_EndpointSpec). cbn [res_bind].
  rewrite dec_enc_slice by (apply Forall_forall; intros; apply dec_enc_PageSpec). cbn [res_bind].
  autorewrite with dec. cbn [res_bind].
  rewrite dec_enc_list by (apply Forall_forall; intros; apply dec_enc_WebhookSpec). cbn [res_bind].
  rewrite dec_enc_list by exact (Forall_impl _ _ _ Hs dec_enc_TaskSpec). cbn [res_bind].
  rewrite dec_enc_list by exact (Forall_impl _ _ _ Hq dec_enc_PlanQuestion). by destruct p.
Qed.

(** C5. A plan stored by [marshalToJSON] is read back by [ParsePlan] as the
    same plan, although [ParsePlan] runs the repairs meant for the model's
    output on the stored text, unless that text holds a code fence or a comma
    before a closing bracket (its strings may; its own punctuation never does). *)
Theorem stored_plan_read_back p :
  let t := marshalToJSON p in
  storable p -> readable max_depth (enc_Plan p) ->
  Contains t fence = false -> dangling_comma t = false ->
  ParsePlan t = Ok p.
Proof.
  intros t Hs Hr Hf Hd. subst t. unfold ParsePlan, marshalToJSON in *. cbv zeta.
  assert (H : res_bind (Unmarshal (repairJSON (extractJSON (Marshal (enc_Plan p))))) Ok = Ok (enc_Plan p))
    by (by apply (repairJSON_Marshal _ Hr)).
  destruct (Unmarshal _) as [j|]; [|done]. cbn [res_bind] in *.
  assert (j = enc_Plan p) as -> by congruence. by rewrite dec_enc_Plan.
Qed.

Definition sample_plan : Plan :=
  {| AppType := "blog"; Architecture := "multi_page"; AuthStrategy := "";
     Design := Some {| Colors := Some (<["primary" := "#fff"]> (<["bg" := "#000"]> ∅)); Typography := None;
                       Spacing := "compact"; Radius := ""; DarkMode := true; Components := None |};
     Layout := None;
     Tables := [{| TName := "posts"; TPurpose := dq "say 'hi' <b>"; Columns :=
                    [{| CName := "title"; CType := "TEXT"; Primary := false; Required := true |}];
                   SeedData := JArr [JObj [("n", JNum "1")]]; SearchableColumns := [] |}];
     Endpoints := []; Pages := []; Exclusions := ["no auth"]; Webhooks := [];
     ScheduledTasks := [{| TaskName := "t"; Description := ""; Prompt := "p"; CronExpr := ""; IntervalSec := -60 |}];
     Questions := [] |}.

Lemma utf8_ascii s : all_bytes (fun a => (code a <? 128)%nat) s = true -> utf8 s.
Proof.
  induction s as [|a s IH]; [constructor|]. cbn [all_bytes]. rewrite andb_true_iff. intros [Ha Hs].
  apply (utf8_cons _ 0); [|by apply IH]. cbn [utf8_len]. by rewrite Ha.
Qed.

Lemma stored_plan_read_back_witness : ParsePlan (marshalToJSON sample_plan) = Ok sample_plan.
Proof.
  apply (stored_plan_read_back sample_plan).
  - split; try (repeat constructor; vm_compute; congruence).
    intros d [= <-]. by unfold design_ok.
  - vm_compute. repeat split; by apply utf8_ascii.
  - vm_compute. reflexivity.
  - vm_compute. reflexivity.
Defined.
