(* ===== verification/World.v ===== *)
(** * The state a site's worker acts on, and the effects it performs

    One site database (the tables of db/site_migrations/001_initial.sql the
    modelled code reads or writes), the row of the site in the global
    database, the in-memory fields of the worker, the events published on the
    bus, the clock, and counters that index the outside world's answers.

    The outside world is the class [Env]: which writes and loads fail, when a
    context is done, what the language model answers, what the JSON grammar
    and the prompt builders say.  Everything else is computed.  At the end the second half
    of brain/plan.go: the row of pipeline_state, read into a [PipelineState], and the
    log of the stages. *)

From Stdlib Require Import ZArith Lia Ascii String List Bool.
From stdpp Require Import base list strings gmap.
From S2P Require Import Prelude GoStrings GoTime JSONText.

Local Open Scope Z_scope.

(** ** Types of brain/types.go *)

Inductive BrainState := StateIdle | StateBuilding | StateMonitoring | StatePaused | StateError.

#[export] Instance BrainState_eq_dec : EqDecision BrainState.
Proof. solve_decision. Defined.

(** A stage is the text stored in [pipeline_state.stage]; the five names are
    the ones the code knows. *)
Definition PipelineStage := string.
Definition StagePlan : PipelineStage := "PLAN".
Definition StageBuild : PipelineStage := "BUILD".
Definition StageComplete : PipelineStage := "COMPLETE".
Definition StageMonitoring : PipelineStage := "MONITORING".
Definition StageUpdatePlan : PipelineStage := "UPDATE_PLAN".

Definition PauseReasonOwnerAnswers : string := "awaiting_owner_answers".
Definition PauseReasonApproval : string := "awaiting_approval".

(** A value of a command's or an event's payload, with the Go type that
    decides which assertion [v.(T)] succeeds; a float is its exact value,
    mantissa and binary exponent. *)
Inductive value :=
| VNil
| VBool (b : bool)
| VString (s : string)
| VInt (z : Z)
| VInt64 (z : Z)
| VFloat64 (mant exp : Z)
| VStrings (l : list string)
| VArgs (m : list (string * json)).

Definition payload := list (string * value).

Fixpoint payload_get (k : string) (p : payload) : option value :=
  match p with
  | [] => None
  | (k', v) :: r => if (k =? k')%string then Some v else payload_get k r
  end.

(** [s, ok := p[k].(string)] on a payload that may be the nil map. *)
Definition payload_string (k : string) (p : option payload) : option string :=
  match p with
  | None => None
  | Some m => match payload_get k m with Some (VString s) => Some s | _ => None end
  end.

Record BrainCommand := { CmdType : string; CmdPayload : option payload }.

(** ** Messages of llm/message.go and llm/provider.go *)

(** A role is a text; the four constants, and any other. *)
Inductive Role := RoleSystem | RoleUser | RoleAssistant | RoleTool | OtherRole (r : string).

#[export] Instance Role_eq_dec : EqDecision Role.
Proof. solve_decision. Defined.

Definition role_string (r : Role) : string :=
  match r with
  | RoleSystem => "system" | RoleUser => "user" | RoleAssistant => "assistant" | RoleTool => "tool"
  | OtherRole r => r
  end.

Record ToolCall := { tc_id : string; tc_name : string; tc_args : string }.

Record Message := {
  msg_role : Role; msg_content : string; msg_calls : list ToolCall; msg_call_id : string;
}.

Definition text_message (r : Role) (c : string) : Message :=
  {| msg_role := r; msg_content := c; msg_calls := []; msg_call_id := "" |}.

Record ToolDef := { td_name : string; td_description : string }.

Record Request := {
  rq_model : string; rq_system : string; rq_messages : list Message; rq_tools : list ToolDef;
  rq_max_tokens : Z;
}.

Record Response := {
  rs_content : string; rs_calls : list ToolCall; rs_input : Z; rs_output : Z; rs_model : string;
  rs_stop : string;
}.

(** ** Rows of the site database *)

Record PipelineRow := {
  stage : PipelineStage;
  plan_json : option string;
  tool_calls_completed : Z;
  update_description : option string;
  error_count : Z;
  last_error : option string;
  paused : bool;
  pause_reason : option string;
  started_at : time;
  updated_at : time;
}.

Record StageLog := {
  sl_id : Z; sl_stage : string; sl_status : string; sl_input : Z; sl_output : Z; sl_calls : Z;
  sl_duration : Z; sl_error : option string; sl_started : time; sl_completed : option time;
}.

Record ChatRow := {
  ch_session : string; ch_role : string; ch_content : string; ch_calls : option string;
  ch_call_id : option string; ch_created : time;
}.

Record BrainLog := {
  bl_type : string; bl_summary : string; bl_details : option string; bl_tokens : Z; bl_model : option string;
  bl_duration : option Z; bl_created : time;
}.

Record QuestionRow := {
  q_id : Z; q_question : string; q_context : option string; q_options : string; q_urgency : string;
  q_status : string; q_type : string; q_secret : option string; q_fields : option string; q_created : time;
}.

Record AnswerRow := { a_id : Z; a_question : Z; a_answer : string; a_created : time }.

Record TaskRow := {
  t_id : Z; t_name : string; t_prompt : string; t_cron : option string; t_interval : option Z;
  t_enabled : bool; t_last : option time; t_next : option time; t_runs : Z; t_errors : Z;
  t_description : option string; t_created : time; t_updated : time;
}.

Record TaskRun := {
  r_id : Z; r_task : Z; r_status : string; r_error : option string; r_started : time; r_completed : option time;
}.

Record PageRow := { pg_path : string; pg_deleted : bool }.

Record SiteStore := {
  pipeline : PipelineRow;
  stage_log : list StageLog;
  chat_messages : list ChatRow;
  brain_log : list BrainLog;
  questions : list QuestionRow;
  answers : list AnswerRow;
  scheduled_tasks : list TaskRow;
  task_runs : list TaskRun;
  pages : list PageRow;
}.

(** ** The global database, as far as the worker reads it *)

Record ProviderRow := {
  p_name : string; p_type : string; p_key : option string; p_base_url : option string;
  p_config : string; p_enabled : bool;
}.

Record SiteRow := { s_name : string; s_mode : string; s_config : string }.

Record Global := {
  site : option SiteRow;
  site_model : option (string * ProviderRow);     (* GetModelForSite *)
  default_model : option (string * ProviderRow);  (* GetDefaultModel *)
  owner : string;                                 (* first admin's display name *)
  registered : list string;                       (* providers in the LLM registry *)
}.

(** ** The worker's own fields *)

Record Worker := {
  wstate : BrainState;
  idleCheckCount : Z;
  wakeContext : option payload;
  maxToolResultOverride : Z;
  spawned : list string;   (* messages of the chat-wake goroutines started *)
}.

Record Event := { ev_type : string; ev_payload : payload }.

Record World := {
  db : SiteStore;
  glob : Global;
  worker : Worker;
  bus : list Event;      (* published, the latest last *)
  clock : time;
  nwrites : nat;         (* writes attempted *)
  nloads : nat;          (* pipeline_state loads attempted *)
  npolls : nat;          (* context checks *)
  sent : list Request;   (* completion requests, the latest last *)
  commands : option (list BrainCommand);   (* the worker's channel, if it has one *)
}.

(** ** The outside world

    Each answer is indexed by how many were given before, so that nothing is
    assumed to repeat. *)

Class Env := {
  write_fails : nat -> bool;             (* a write to a database *)
  load_fails : nat -> option string;     (* a read of the site database: its error *)
  ctx_done : nat -> option string;       (* [ctx.Err()], its text when not nil *)
  complete : nat -> Request -> res string Response;   (* [Provider.Complete] *)
  complete_time : nat -> duration;       (* how long that call took *)
  decrypt : string -> res string string;              (* [Encryptor.Decrypt] *)
  factory_knows : string -> bool;        (* ProviderFactory returns a provider for the type *)
  prompt : string -> World -> string;    (* the prompt builders of prompts.go, by name *)
  scan_time : time -> time;              (* [time.Parse] of the text the driver returns *)
  MonitoringBase : duration;             (* Deps.MonitoringBase *)
  MonitoringMax : duration;
}.

(** ** The monad of the worker's code *)

Definition M (A : Type) : Type := World -> (A * World)%type.

#[export] Instance M_ret : MRet M := fun A a w => (a, w).
#[export] Instance M_bind : MBind M := fun A B k m w => let '(a, w') := m w in k a w'.

#[export] Instance M_fmap : FMap M := fun A B f m w => let '(a, w') := m w in (f a, w').

Definition get {A} (f : World -> A) : M A := fun w => (f w, w).
Definition modify (f : World -> World) : M unit := fun w => (tt, f w).

(** What a call that may also panic comes to. *)
(** [m] leaves what [f] reads as it was. *)
Definition frame {T A} (f : World -> T) (m : M A) : Prop := forall w, f (snd (m w)) = f w.

Lemma frame_ret {T A} (f : World -> T) (a : A) : frame f (mret a).
Proof. done. Qed.

Lemma frame_bind {T A B} (f : World -> T) (m : M A) (k : A -> M B) :
  frame f m -> (forall a, frame f (k a)) -> frame f (m ≫= k).
Proof.
  intros Hm Hk w. unfold mbind, M_bind. specialize (Hm w). destruct (m w) as [a w']. simpl in Hm.
  by rewrite Hk.
Qed.

Lemma frame_fmap {T A B} (f : World -> T) (g : A -> B) (m : M A) : frame f m -> frame f (g <$> m).
Proof. intros H w. specialize (H w). unfold fmap, M_fmap. by destruct (m w). Qed.

Lemma frame_get {T A} (f : World -> T) (g : World -> A) : frame f (get g).
Proof. done. Qed.

(** A frame of a pair is a frame of its parts. *)
Lemma frame_via {T U A} (g : T -> U) (f : World -> T) (m : M A) : frame f m -> frame (fun w => g (f w)) m.
Proof. intros H w. by rewrite H. Qed.

Inductive outcome (A : Type) := Done (a : A) | Fail (e : string) | Panic (e : string).
Arguments Done {A} a.
Arguments Fail {A} e.
Arguments Panic {A} e.

Definition try {A B} (m : M (outcome A)) (k : A -> M (outcome B)) : M (outcome B) :=
  o ← m;
  match o with
  | Done a => k a
  | Fail e => mret (Fail e)
  | Panic e => mret (Panic e)
  end.

Notation "'let?' x := m 'in' k" := (try m (fun x => k))
  (at level 200, x pattern, m at level 100, k at level 200).

(** ** Field updates *)

Definition set_db (f : SiteStore -> SiteStore) (w : World) : World :=
  {| db := f (db w); glob := glob w; worker := worker w; bus := bus w; clock := clock w;
     nwrites := nwrites w; nloads := nloads w; npolls := npolls w; sent := sent w; commands := commands w |}.
Definition set_glob (f : Global -> Global) (w : World) : World :=
  {| db := db w; glob := f (glob w); worker := worker w; bus := bus w; clock := clock w;
     nwrites := nwrites w; nloads := nloads w; npolls := npolls w; sent := sent w; commands := commands w |}.
Definition set_worker (f : Worker -> Worker) (w : World) : World :=
  {| db := db w; glob := glob w; worker := f (worker w); bus := bus w; clock := clock w;
     nwrites := nwrites w; nloads := nloads w; npolls := npolls w; sent := sent w; commands := commands w |}.
Definition add_event (e : Event) (w : World) : World :=
  {| db := db w; glob := glob w; worker := worker w; bus := bus w ++ [e]; clock := clock w;
     nwrites := nwrites w; nloads := nloads w; npolls := npolls w; sent := sent w; commands := commands w |}.
Definition advance_clock (d : duration) (w : World) : World :=
  {| db := db w; glob := glob w; worker := worker w; bus := bus w; clock := clock w + d;
     nwrites := nwrites w; nloads := nloads w; npolls := npolls w; sent := sent w; commands := commands w |}.
Definition count_write (w : World) : World :=
  {| db := db w; glob := glob w; worker := worker w; bus := bus w; clock := clock w;
     nwrites := S (nwrites w); nloads := nloads w; npolls := npolls w; sent := sent w; commands := commands w |}.
Definition count_load (w : World) : World :=
  {| db := db w; glob := glob w; worker := worker w; bus := bus w; clock := clock w;
     nwrites := nwrites w; nloads := S (nloads w); npolls := npolls w; sent := sent w; commands := commands w |}.
Definition count_poll (w : World) : World :=
  {| db := db w; glob := glob w; worker := worker w; bus := bus w; clock := clock w;
     nwrites := nwrites w; nloads := nloads w; npolls := S (npolls w); sent := sent w; commands := commands w |}.
Definition add_request (rq : Request) (w : World) : World :=
  {| db := db w; glob := glob w; worker := worker w; bus := bus w; clock := clock w;
     nwrites := nwrites w; nloads := nloads w; npolls := npolls w; sent := sent w ++ [rq];
     commands := commands w |}.

Definition set_commands (q : option (list BrainCommand)) (w : World) : World :=
  {| db := db w; glob := glob w; worker := worker w; bus := bus w; clock := clock w;
     nwrites := nwrites w; nloads := nloads w; npolls := npolls w; sent := sent w; commands := q |}.

Definition set_pipeline (f : PipelineRow -> PipelineRow) (s : SiteStore) : SiteStore :=
  {| pipeline := f (pipeline s); stage_log := stage_log s; chat_messages := chat_messages s;
     brain_log := brain_log s; questions := questions s; answers := answers s;
     scheduled_tasks := scheduled_tasks s; task_runs := task_runs s; pages := pages s |}.
Definition set_stage_log (l : list StageLog) (s : SiteStore) : SiteStore :=
  {| pipeline := pipeline s; stage_log := l; chat_messages := chat_messages s;
     brain_log := brain_log s; questions := questions s; answers := answers s;
     scheduled_tasks := scheduled_tasks s; task_runs := task_runs s; pages := pages s |}.
Definition set_chat (l : list ChatRow) (s : SiteStore) : SiteStore :=
  {| pipeline := pipeline s; stage_log := stage_log s; chat_messages := l;
     brain_log := brain_log s; questions := questions s; answers := answers s;
     scheduled_tasks := scheduled_tasks s; task_runs := task_runs s; pages := pages s |}.
Definition set_brain_log (l : list BrainLog) (s : SiteStore) : SiteStore :=
  {| pipeline := pipeline s; stage_log := stage_log s; chat_messages := chat_messages s;
     brain_log := l; questions := questions s; answers := answers s;
     scheduled_tasks := scheduled_tasks s; task_runs := task_runs s; pages := pages s |}.
Definition set_questions (l : list QuestionRow) (s : SiteStore) : SiteStore :=
  {| pipeline := pipeline s; stage_log := stage_log s; chat_messages := chat_messages s;
     brain_log := brain_log s; questions := l; answers := answers s;
     scheduled_tasks := scheduled_tasks s; task_runs := task_runs s; pages := pages s |}.
Definition set_answers (l : list AnswerRow) (s : SiteStore) : SiteStore :=
  {| pipeline := pipeline s; stage_log := stage_log s; chat_messages := chat_messages s;
     brain_log := brain_log s; questions := questions s; answers := l;
     scheduled_tasks := scheduled_tasks s; task_runs := task_runs s; pages := pages s |}.
Definition set_tasks (l : list TaskRow) (s : SiteStore) : SiteStore :=
  {| pipeline := pipeline s; stage_log := stage_log s; chat_messages := chat_messages s;
     brain_log := brain_log s; questions := questions s; answers := answers s;
     scheduled_tasks := l; task_runs := task_runs s; pages := pages s |}.
Definition set_runs (l : list TaskRun) (s : SiteStore) : SiteStore :=
  {| pipeline := pipeline s; stage_log := stage_log s; chat_messages := chat_messages s;
     brain_log := brain_log s; questions := questions s; answers := answers s;
     scheduled_tasks := scheduled_tasks s; task_runs := l; pages := pages s |}.
Definition set_pages (l : list PageRow) (s : SiteStore) : SiteStore :=
  {| pipeline := pipeline s; stage_log := stage_log s; chat_messages := chat_messages s;
     brain_log := brain_log s; questions := questions s; answers := answers s;
     scheduled_tasks := scheduled_tasks s; task_runs := task_runs s; pages := l |}.

(** [UPDATE ... SET ... WHERE]: the rows that satisfy [c] go through [f]. *)
Definition update_where {A} (c : A -> bool) (f : A -> A) (l : list A) : list A :=
  map (fun x => if c x then f x else x) l.

Lemma map_update_where {A B} (f : A -> B) key upd l :
  (forall r, key r = true -> f (upd r) = f r) -> map f (update_where key upd l) = map f l.
Proof.
  intros H. unfold update_where. rewrite map_map. apply map_ext. intros r. destruct (key r) eqn:E; [by apply H|done].
Qed.

(** [LIMIT n]: a negative one limits nothing. *)
Definition sql_limit {A} (n : Z) (l : list A) : list A := if (n <? 0)%Z then l else firstn (Z.to_nat n) l.

(** [ORDER BY] a number, the highest first. *)
Fixpoint insert_down {A} (key : A -> Z) (x : A) (l : list A) : list A :=
  match l with [] => [x] | y :: r => if (key y <=? key x)%Z then x :: l else y :: insert_down key x r end.
Definition descending {A} (key : A -> Z) (l : list A) : list A := foldr (insert_down key) [] l.

(** The key SQLite's AUTOINCREMENT gives a new row. *)
Definition next_id {A} (key : A -> Z) (l : list A) : Z := fold_left Z.max (map key l) 0 + 1.

(** ** Effects *)

(** The resolution of CURRENT_TIMESTAMP. *)
Definition CURRENT_TIMESTAMP (w : World) : time := Truncate (clock w) second.

Section Effects.
Context `{E : Env}.

(** [SiteDB.ExecWrite]: applies the statement, given CURRENT_TIMESTAMP, or
    fails and changes nothing; answers whether it succeeded. *)
Definition ExecWrite (f : time -> SiteStore -> SiteStore) : M bool := fun w =>
  if write_fails (nwrites w) then (false, count_write w)
  else (true, set_db (f (CURRENT_TIMESTAMP w)) (count_write w)).

(** An INSERT: the new row's id, or nothing if the write failed. *)
Definition ExecInsert (f : time -> SiteStore -> SiteStore * Z) : M (option Z) := fun w =>
  if write_fails (nwrites w) then (None, count_write w)
  else let '(s, id) := f (CURRENT_TIMESTAMP w) (db w) in
       (Some id, set_db (fun _ => s) (count_write w)).

(** A write to the global database. *)
Definition ExecGlobal (f : Global -> Global) : M bool := fun w =>
  if write_fails (nwrites w) then (false, count_write w)
  else (true, set_glob f (count_write w)).

(** A read of the site database. *)
Definition Query {A} (f : SiteStore -> A) : M (res string A) := fun w =>
  match load_fails (nloads w) with
  | Some e => (Err e, count_load w)
  | None => (Ok (f (db w)), count_load w)
  end.

(** [ctx.Err()] at this point of the execution. *)
Definition ctx_Err : M (option string) := fun w => (ctx_done (npolls w), count_poll w).

Definition sleep (d : duration) : M unit := modify (advance_clock d).

Definition publish (ty : string) (p : payload) : M unit :=
  modify (add_event {| ev_type := ty; ev_payload := p |}).

Definition now : M time := get clock.

(** [Provider.Complete]: the answer, once the time it takes has passed. *)
Definition Complete (rq : Request) : M (res string Response) := fun w =>
  let n := List.length (sent w) in
  (complete n rq, advance_clock (complete_time n) (add_request rq w)).

Definition setState (s : BrainState) : M unit :=
  modify (set_worker (fun k => {| wstate := s; idleCheckCount := idleCheckCount k;
    wakeContext := wakeContext k; maxToolResultOverride := maxToolResultOverride k;
    spawned := spawned k |})).
Definition set_idle (n : Z) : M unit :=
  modify (set_worker (fun k => {| wstate := wstate k; idleCheckCount := n;
    wakeContext := wakeContext k; maxToolResultOverride := maxToolResultOverride k;
    spawned := spawned k |})).
Definition set_wake (c : option payload) : M unit :=
  modify (set_worker (fun k => {| wstate := wstate k; idleCheckCount := idleCheckCount k;
    wakeContext := c; maxToolResultOverride := maxToolResultOverride k;
    spawned := spawned k |})).
Definition set_override (n : Z) : M unit :=
  modify (set_worker (fun k => {| wstate := wstate k; idleCheckCount := idleCheckCount k;
    wakeContext := wakeContext k; maxToolResultOverride := n; spawned := spawned k |})).
Definition spawn (msg : string) : M unit :=
  modify (set_worker (fun k => {| wstate := wstate k; idleCheckCount := idleCheckCount k;
    wakeContext := wakeContext k; maxToolResultOverride := maxToolResultOverride k;
    spawned := spawned k ++ [msg] |})).
End Effects.

(** The definition of a frame for the effects that do not touch its view. *)
Ltac frame_effect :=
  intros ?w; cbv beta delta [ExecWrite ExecInsert ExecGlobal Query ctx_Err sleep publish now modify get
    setState set_idle set_wake set_override spawn];
  repeat case_match; simplify_eq; reflexivity.

Create HintDb frame.
#[export] Hint Resolve frame_ret frame_get : frame.

(** Walks through binds, matches and conditionals. *)
Ltac frame_step :=
  lazymatch goal with
  | |- frame _ (mbind _ _) => apply frame_bind; [|intros ?]
  | |- frame _ (mret _) => apply frame_ret
  | |- frame _ (fmap _ _) => apply frame_fmap
  | |- frame _ (let '_ := ?x in _) => destruct x
  | |- frame _ (match ?x with _ => _ end) => destruct x
  | |- frame _ (let x := _ in _) => cbv zeta
  | |- _ => first [solve [eauto with frame] | solve [frame_effect]]
  end.
Ltac frame_tac := repeat (cbv beta zeta; frame_step).

(** ** A concrete world, for the examples *)

Definition new_pipeline : PipelineRow :=
  {| stage := StagePlan; plan_json := None; tool_calls_completed := 0; update_description := None;
     error_count := 0; last_error := None; paused := false; pause_reason := None; started_at := 0;
     updated_at := 0 |}.

Definition new_store : SiteStore :=
  {| pipeline := new_pipeline; stage_log := []; chat_messages := []; brain_log := []; questions := [];
     answers := []; scheduled_tasks := []; task_runs := []; pages := [] |}.

Definition sample_provider : ProviderRow :=
  {| p_name := "local"; p_type := "anthropic"; p_key := Some "k"; p_base_url := None; p_config := "";
     p_enabled := true |}.

Definition new_world : World :=
  {| db := new_store;
     glob := {| site := Some {| s_name := "demo"; s_mode := "building"; s_config := "" |};
                site_model := Some ("m", sample_provider); default_model := None; owner := "Ann";
                registered := [] |};
     worker := {| wstate := StateIdle; idleCheckCount := 0; wakeContext := None;
                  maxToolResultOverride := 0; spawned := [] |};
     bus := []; clock := 0; nwrites := 0; nloads := 0; npolls := 0; sent := [];
     commands := Some [] |}.

(** Nothing fails, no context ends; the model answers with [script]. *)
Definition calm_env (script : nat -> Request -> res string Response) : Env :=
  {| write_fails := fun _ => false; load_fails := fun _ => None; ctx_done := fun _ => None;
     complete := script; complete_time := fun _ => second; decrypt := Ok; factory_knows := fun _ => true;
     prompt := fun name _ => name; scan_time := fun t => t; MonitoringBase := 0; MonitoringMax := 0 |}.

Definition text_answer (s : string) : Response :=
  {| rs_content := s; rs_calls := []; rs_input := 10; rs_output := 5; rs_model := "m"; rs_stop := "end_turn" |}.
Definition call_answer (calls : list ToolCall) : Response :=
  {| rs_content := ""; rs_calls := calls; rs_input := 10; rs_output := 5; rs_model := "m"; rs_stop := "tool_use" |}.

Record PipelineState := {
  Stage : PipelineStage;
  PlanJSON : string;
  ToolCallsCompleted : Z;
  ErrorCount : Z;
  LastError : string;
  Paused : bool;
  PauseReason : string;
  UpdateDescription : string;
  StartedAt : time;
  UpdatedAt : time;
}.

(** [sql.NullString.String] *)
Definition null_string (s : option string) : string := default "" s.

Definition scan_state `{Env} (r : PipelineRow) : PipelineState :=
  {| Stage := stage r; PlanJSON := null_string (plan_json r);
     ToolCallsCompleted := tool_calls_completed r; ErrorCount := error_count r;
     LastError := null_string (last_error r); Paused := paused r;
     PauseReason := null_string (pause_reason r);
     UpdateDescription := null_string (update_description r);
     StartedAt := scan_time (started_at r); UpdatedAt := scan_time (updated_at r) |}.

(** ** The UPDATE statements, on the row *)

Definition row_save (s : PipelineState) (t : time) (r : PipelineRow) : PipelineRow :=
  {| stage := Stage s; plan_json := Some (PlanJSON s);
     tool_calls_completed := ToolCallsCompleted s; update_description := update_description r;
     error_count := ErrorCount s; last_error := Some (LastError s); paused := Paused s;
     pause_reason := Some (PauseReason s); started_at := started_at r; updated_at := t |}.

Definition row_advance (st : PipelineStage) (t : time) (r : PipelineRow) : PipelineRow :=
  {| stage := st; plan_json := plan_json r; tool_calls_completed := tool_calls_completed r;
     update_description := update_description r; error_count := 0; last_error := last_error r;
     paused := paused r; pause_reason := pause_reason r; started_at := started_at r;
     updated_at := t |}.

Definition row_reset (t : time) (r : PipelineRow) : PipelineRow :=
  {| stage := StagePlan; plan_json := None; tool_calls_completed := 0;
     update_description := update_description r; error_count := 0; last_error := None;
     paused := false; pause_reason := None; started_at := t; updated_at := t |}.

Definition row_pause (b : bool) (reason : option string) (t : time) (r : PipelineRow) : PipelineRow :=
  {| stage := stage r; plan_json := plan_json r; tool_calls_completed := tool_calls_completed r;
     update_description := update_description r; error_count := error_count r;
     last_error := last_error r; paused := b; pause_reason := reason; started_at := started_at r;
     updated_at := t |}.

Definition row_error (n : Z) (e : option string) (t : time) (r : PipelineRow) : PipelineRow :=
  {| stage := stage r; plan_json := plan_json r; tool_calls_completed := tool_calls_completed r;
     update_description := update_description r; error_count := n; last_error := e;
     paused := paused r; pause_reason := pause_reason r; started_at := started_at r;
     updated_at := t |}.

Definition row_plan (p : string) (t : time) (r : PipelineRow) : PipelineRow :=
  {| stage := stage r; plan_json := Some p; tool_calls_completed := tool_calls_completed r;
     update_description := update_description r; error_count := error_count r;
     last_error := last_error r; paused := paused r; pause_reason := pause_reason r;
     started_at := started_at r; updated_at := t |}.

Definition row_description (d : option string) (r : PipelineRow) : PipelineRow :=
  {| stage := stage r; plan_json := plan_json r; tool_calls_completed := tool_calls_completed r;
     update_description := d; error_count := error_count r; last_error := last_error r;
     paused := paused r; pause_reason := pause_reason r; started_at := started_at r;
     updated_at := updated_at r |}.

(** ** The operations *)

Section Ops.
Context `{E : Env}.

(** [LoadPipelineState]: the row, or an error. *)
Definition LoadPipelineState : M (res string PipelineState) :=
  r ← Query pipeline;
  mret (match r with
        | Ok r => Ok (scan_state r)
        | Err e => Err ("load pipeline state: " ++ e)%string
        end).

Definition SavePipelineState (s : PipelineState) : M bool :=
  ExecWrite (fun t => set_pipeline (row_save s t)).

Definition AdvanceStage (st : PipelineStage) : M bool :=
  ExecWrite (fun t => set_pipeline (row_advance st t)).

Definition ResetPipeline : M bool :=
  ExecWrite (fun t => set_pipeline (row_reset t)).

Definition PausePipeline (reason : string) : M bool :=
  ExecWrite (fun t => set_pipeline (row_pause true (Some reason) t)).

Definition ResumePipeline : M bool :=
  ExecWrite (fun t => set_pipeline (row_pause false None t)).

(** [IncrementErrorCount]: the new count; an error when the write or the
    read after it fails. *)
Definition IncrementErrorCount (errMsg : string) : M (res string Z) :=
  ok ← ExecWrite (fun t => set_pipeline (fun r => row_error (error_count r + 1) (Some errMsg) t r));
  if (ok : bool) then Query (fun s => error_count (pipeline s))
  else mret (Err "write failed").

(** [LogStageStart]: the new entry's id, 0 with the error. *)
Definition LogStageStart (st : PipelineStage) : M Z :=
  id ← ExecInsert (fun t s =>
    let id := next_id sl_id (stage_log s) in
    (set_stage_log (stage_log s ++ [{| sl_id := id; sl_stage := st; sl_status := "started";
       sl_input := 0; sl_output := 0; sl_calls := 0; sl_duration := 0; sl_error := None;
       sl_started := t; sl_completed := None |}]) s, id));
  mret (default 0 id).

(** [duration.Milliseconds()] *)
Definition Milliseconds (d : duration) : Z := Z.quot d 1000000.

Definition LogStageComplete (logID inputTokens outputTokens toolCalls : Z) (d : duration) : M bool :=
  ExecWrite (fun t s => set_stage_log (update_where (fun l => sl_id l =? logID)
    (fun l => {| sl_id := sl_id l; sl_stage := sl_stage l; sl_status := "completed";
       sl_input := inputTokens; sl_output := outputTokens; sl_calls := toolCalls;
       sl_duration := Milliseconds d; sl_error := sl_error l; sl_started := sl_started l;
       sl_completed := Some t |}) (stage_log s)) s).

Definition LogStageError (logID : Z) (errMsg : string) : M bool :=
  ExecWrite (fun t s => set_stage_log (update_where (fun l => sl_id l =? logID)
    (fun l => {| sl_id := sl_id l; sl_stage := sl_stage l; sl_status := "failed";
       sl_input := sl_input l; sl_output := sl_output l; sl_calls := sl_calls l;
       sl_duration := sl_duration l; sl_error := Some errMsg; sl_started := sl_started l;
       sl_completed := Some t |}) (stage_log s)) s).
End Ops.
