(* ===== verification/LLMTypes.v ===== *)
(** * llm/: messages, requests, answers and providers

    The JSON of tool calls, the request and the answer of a completion, the chunks
    of a stream, the registry of providers and the provider that logs its calls. *)

From Stdlib Require Import ZArith Lia Ascii String List Bool.
From stdpp Require Import base list strings gmap.
From S2P Require Import Prelude GoStrings GoTime JSONText PlanJSON PlanStore World.

Local Open Scope string_scope.
Local Open Scope go_scope.

(** ** Tool calls as JSON *)

Definition enc_ToolCall (tc : ToolCall) : json :=
  JObj [("id", JStr (tc_id tc)); ("name", JStr (tc_name tc)); ("arguments", JStr (tc_args tc))].

Definition dec_ToolCall (j : json) : res string ToolCall :=
  let! m := members j in
  let! i := str "id" m in let! n := str "name" m in let! a := str "arguments" m in
  Ok {| tc_id := i; tc_name := n; tc_args := a |}.

(** The column [tool_calls] of a message: NULL without calls. *)
Definition calls_text (l : list ToolCall) : option string :=
  match l with [] => None | _ => Some (Marshal (JArr (map enc_ToolCall l))) end.

(** The calls the column holds; what is no list of calls counts as none. *)
Definition calls_of (col : option string) : list ToolCall :=
  match col with
  | None | Some "" => []
  | Some t => match (let! j := Unmarshal t in dec_list dec_ToolCall (Some j)) with Ok l => l | Err _ => [] end
  end.

Definition utf8_call (tc : ToolCall) : Prop := utf8 (tc_id tc) /\ utf8 (tc_name tc) /\ utf8 (tc_args tc).

(** The role a text names. *)
Definition role_of (s : string) : Role :=
  if (s =? "system")%string then RoleSystem else if (s =? "user")%string then RoleUser
  else if (s =? "assistant")%string then RoleAssistant else if (s =? "tool")%string then RoleTool else OtherRole s.

Lemma role_string_of s : role_string (role_of s) = s.
Proof.
  unfold role_of. destruct (String.eqb_spec s "system") as [->|]; [done|]. destruct (String.eqb_spec s "user") as [->|]; [done|].
  destruct (String.eqb_spec s "assistant") as [->|]; [done|]. by destruct (String.eqb_spec s "tool") as [->|].
Qed.

(** A role named once. *)
Definition known_role (r : Role) : Prop := role_of (role_string r) = r.

(** ** Requests, answers, chunks *)

(** The parameters of a tool are the JSON of its schema. *)
Record WireTool := { wt_name : string; wt_description : string; wt_type : string; wt_parameters : json }.

(** A number is the literal encoding/json writes for the float. *)
Record CompletionRequest := {
  Model : string; Messages : list Message; System : string; Tools : list WireTool; MaxTokens : Z;
  Temperature : option string; TopP : option string; StopWords : list string; CacheSystem : bool;
}.

Record Usage := { InputTokens : Z; OutputTokens : Z }.
Definition no_usage : Usage := {| InputTokens := 0; OutputTokens := 0 |}.

Record CompletionResponse := {
  r_content : string; r_calls : list ToolCall; r_usage : Usage; r_model : string; r_stop : string;
}.

Record ToolResult := { tr_id : string; tr_name : string; tr_result : string; tr_error : bool }.

Record StreamChunk := {
  Delta : string; ChunkCall : option ToolCall; ChunkResult : option ToolResult; ChunkDone : bool;
  ChunkUsage : option Usage; ChunkError : option string;
}.
Definition delta (s : string) : StreamChunk :=
  {| Delta := s; ChunkCall := None; ChunkResult := None; ChunkDone := false; ChunkUsage := None; ChunkError := None |}.
Definition call_chunk (tc : ToolCall) : StreamChunk :=
  {| Delta := ""; ChunkCall := Some tc; ChunkResult := None; ChunkDone := false; ChunkUsage := None; ChunkError := None |}.
Definition result_chunk (r : ToolResult) : StreamChunk :=
  {| Delta := ""; ChunkCall := None; ChunkResult := Some r; ChunkDone := false; ChunkUsage := None; ChunkError := None |}.
Definition done_chunk (u : option Usage) : StreamChunk :=
  {| Delta := ""; ChunkCall := None; ChunkResult := None; ChunkDone := true; ChunkUsage := u; ChunkError := None |}.
Definition error_chunk (e : string) : StreamChunk :=
  {| Delta := ""; ChunkCall := None; ChunkResult := None; ChunkDone := false; ChunkUsage := None; ChunkError := Some e |}.

(** What a listener to the chunks collects: the text and the calls. *)
Definition said (l : list StreamChunk) : string := String.concat "" (map Delta l).
Definition called (l : list StreamChunk) : list ToolCall := omap ChunkCall l.

(** ** The registry of providers *)

Section Registry.
Context {P : Type}.

Record ProviderRegistry := { providers : gmap string P; defaultName : string }.
Definition NewProviderRegistry : ProviderRegistry := {| providers := ∅; defaultName := "" |}.

Definition RegisterProvider (name : string) (p : P) (r : ProviderRegistry) : ProviderRegistry :=
  {| providers := <[name := p]> (providers r);
     defaultName := if (defaultName r =? "")%string then name else defaultName r |}.

Definition GetProvider (r : ProviderRegistry) (name : string) : res string P :=
  match providers r !! name with
  | Some p => Ok p
  | None => Err ("llm: provider " ++ Quote name ++ " not found")
  end.

Definition Default (r : ProviderRegistry) : res string P :=
  if (defaultName r =? "")%string then Err "llm: no default provider set"
  else match providers r !! defaultName r with
       | Some p => Ok p
       | None => Err ("llm: default provider " ++ Quote (defaultName r) ++ " not found")
       end.

Definition SetDefault (name : string) (r : ProviderRegistry) : res string unit * ProviderRegistry :=
  match providers r !! name with
  | Some _ => (Ok tt, {| providers := providers r; defaultName := name |})
  | None => (Err ("llm: provider " ++ Quote name ++ " not found"), r)
  end.
End Registry.
Arguments ProviderRegistry : clear implicits.

(** ** Calls are read back *)

Lemma dec_enc_ToolCall tc : dec_ToolCall (enc_ToolCall tc) = Ok tc.
Proof. by destruct tc. Qed.

Lemma dec_all_enc l : dec_all dec_ToolCall (map enc_ToolCall l) = Ok l.
Proof. induction l as [|tc l IH]; [done|]. cbn [map dec_all]. by rewrite dec_enc_ToolCall, IH. Qed.

(** Texts in UTF-8 survive the way through the column. *)
Lemma calls_of_text l : Forall utf8_call l -> calls_of (calls_text l) = l.
Proof.
  intros H. destruct l as [|tc l]; [done|]. unfold calls_text, calls_of.
  assert (readable max_depth (JArr (map enc_ToolCall (tc :: l)))) as Hr.
  { change max_depth with (S (S (pred (pred max_depth)))). cbn [readable]. induction H as [|x r (Hi & Hn & Ha) Hf IH]; [done|].
    split; [|exact IH]. unfold enc_ToolCall. cbn. split_and!; try done; by apply utf8_ascii. }
  rewrite Unmarshal_Marshal by exact Hr. destruct (Marshal_head _ _ Hr) as (a & r & -> & _). cbn [res_bind].
  change (dec_list dec_ToolCall (Some (JArr (map enc_ToolCall (tc :: l))))) with (dec_all dec_ToolCall (map enc_ToolCall (tc :: l))).
  by rewrite dec_all_enc.
Qed.

(** The default, once there is one, is a provider of the registry. *)
Definition default_known {P} (r : ProviderRegistry P) : Prop :=
  defaultName r = "" \/ is_Some (providers r !! defaultName r).

Lemma default_known_new {P} : default_known (NewProviderRegistry (P := P)).
Proof. by left. Qed.

Lemma default_known_register {P} name (p : P) r : default_known r -> default_known (RegisterProvider name p r).
Proof.
  intros H. unfold default_known, RegisterProvider. cbn. destruct (String.eqb_spec (defaultName r) "") as [E|E].
  - right. rewrite lookup_insert_eq. by eexists.
  - right. destruct H as [H|H]; [done|]. destruct (decide (name = defaultName r)) as [->|Hn].
    + rewrite lookup_insert_eq. by eexists.
    + by rewrite lookup_insert_ne.
Qed.

Lemma default_known_set {P} name (r : ProviderRegistry P) : default_known r -> default_known (snd (SetDefault name r)).
Proof. intros H. unfold SetDefault. destruct (providers r !! name) eqn:E; [|done]. right. cbn. rewrite E. by eexists. Qed.

(** ** The log of calls *)

Definition enc_Message (m : Message) : json :=
  JObj ([("role", JStr (role_string (msg_role m))); ("content", JStr (msg_content m))]
        ++ match msg_calls m with [] => [] | l => [("tool_calls", JArr (map enc_ToolCall l))] end
        ++ match msg_call_id m with "" => [] | i => [("tool_call_id", JStr i)] end)%list.

(** [json.Marshal] of a slice; the nil slice is null. *)
Definition marshal_slice {A} (enc : A -> json) (l : list A) : string :=
  match l with [] => "null" | _ => Marshal (JArr (map enc l)) end.

Record LLMLogEntry := {
  Source : string; SessionID : string; Iteration : Z; LogModel : string; ProviderType : string;
  RequestMessages : string; RequestSystem : string; RequestTools : string; RequestMaxTokens : Z;
  ResponseContent : string; ResponseToolCalls : string; ResponseStopReason : string; LogUsage : Usage;
  DurationMs : Z; ErrorMessage : string;
}.

Definition toolNamesJSON (tools : list WireTool) : string :=
  match tools with [] => "[]" | _ => Marshal (JArr (map (fun t => JStr (wt_name t)) tools)) end.

(** The entry of a call: [buildEntry] and what the answer adds to it. *)
Definition log_entry (source session type : string) (iteration durationMs : Z) (req : CompletionRequest)
    (content : string) (calls : list ToolCall) (stop : string) (u : Usage) (err : string) : LLMLogEntry :=
  {| Source := source; SessionID := session; Iteration := iteration; LogModel := Model req; ProviderType := type;
     RequestMessages := marshal_slice enc_Message (Messages req); RequestSystem := System req;
     RequestTools := toolNamesJSON (Tools req); RequestMaxTokens := MaxTokens req;
     ResponseContent := content; ResponseToolCalls := default "" (calls_text calls); ResponseStopReason := stop;
     LogUsage := u; DurationMs := durationMs; ErrorMessage := err |}.

Definition complete_entry source session type iteration durationMs req (r : res string CompletionResponse) : LLMLogEntry :=
  match r with
  | Ok resp => log_entry source session type iteration durationMs req (r_content resp) (r_calls resp) (r_stop resp) (r_usage resp) ""
  | Err e => log_entry source session type iteration durationMs req "" [] "" no_usage e
  end.

(** The last of those that are there. *)
Definition last_some {A B} (f : A -> option B) (l : list A) : option B := last (omap f l).

Definition stream_entry source session type iteration durationMs req (out : list StreamChunk * option string) : LLMLogEntry :=
  let '(l, err) := out in
  log_entry source session type iteration durationMs req (said l) (called l) "" (default no_usage (last_some ChunkUsage l))
    (match err with Some e => e | None => default "" (last_some ChunkError l) end).

(** ** Providers *)

(** A provider answers a request, or streams the answer as chunks with the error
    of the call, if any.  The number is how many requests were made before. *)
Record Provider := {
  provider_Type : string;
  provider_Complete : nat -> CompletionRequest -> res string CompletionResponse;
  provider_Stream : nat -> CompletionRequest -> list StreamChunk * option string;
}.

(** A logged provider writes an entry for each request and answers what it was answered. *)
Definition logged_stream (p : Provider) source session iteration durationMs (n : nat) req :
    (list StreamChunk * option string) * LLMLogEntry :=
  let out := provider_Stream p n req in (out, stream_entry source session (provider_Type p) iteration durationMs req out).
Definition logged_complete (p : Provider) source session iteration durationMs (n : nat) req :
    res string CompletionResponse * LLMLogEntry :=
  let out := provider_Complete p n req in (out, complete_entry source session (provider_Type p) iteration durationMs req out).
