(* ===== verification/SSE.v ===== *)
(** * Bodies of answers: lines, events and values

    [bufio.Scanner] with its limit on lines, the data lines of server-sent events,
    the first value of a body as [json.Decoder] reads it, and the texts of members
    and elements as [json.RawMessage] keeps them. *)

From Stdlib Require Import ZArith Lia Ascii String List Bool.
From stdpp Require Import base list strings.
From S2P Require Import Prelude GoStrings JSONText PlanJSON LLMTypes.

Local Open Scope string_scope.
Local Open Scope go_scope.

(** What arrives of a body: its bytes, and the error that ends it, if not EOF. *)
Record Body := { bytes : string; broken : option string }.

(** ** Lines *)

Definition newline_byte : ascii := byte_of 10.
Definition return_byte : ascii := byte_of 13.

(** A line has to fit the buffer of 64 KB together with its end. *)
Definition too_long (l : string) : bool := (65536 <=? Z.of_nat (String.length l))%Z.

Definition dropCR (l : string) : string := TrimSuffix l (s1 return_byte).

(** The lines the parts of a text between line feeds make, up to one that is too
    long; what follows the last line feed is a line if it is not empty. *)
Fixpoint scan_parts (parts : list string) : list string * bool :=
  match parts with
  | [] => ([], false)
  | l :: r =>
      if too_long l then ([], true)
      else match r with
           | [] => (if (l =? "")%string then [] else [dropCR l], false)
           | _ => let '(ls, b) := scan_parts r in (dropCR l :: ls, b)
           end
  end.

Definition Scan (b : Body) : list string * option string :=
  let '(ls, long) := scan_parts (Split newline_byte (bytes b)) in
  (ls, if long then Some "bufio.Scanner: token too long" else broken b).

(** ** Streams of events *)

(** What the data line carries; other lines - empty ones, comments, names of
    events - carry nothing. *)
Definition data_of (line : string) : option string :=
  if (line =? "")%string || HasPrefix line ":" then None
  else if HasPrefix line "data: " then Some (TrimPrefix line "data: ") else None.

(** A step of the loop over the lines: on, or the end with what [Stream] returns. *)
Inductive next (S : Type) := Go (s : S) | Stop (err : option string).
Arguments Go {S} s.
Arguments Stop {S} err.

Section Stream.
Context {S : Type} (api : string) (step : S -> string -> list StreamChunk * next S) (used : S -> option Usage).

(** After the last line: an error of reading, or [done]. *)
Definition stream_end (err : option string) (s : S) : list StreamChunk * option string :=
  match err with
  | Some e => ([], Some (api ++ ": reading stream: " ++ e))
  | None => ([done_chunk (used s)], None)
  end.

Fixpoint stream_lines (lines : list string) (err : option string) (s : S) : list StreamChunk * option string :=
  match lines with
  | [] => stream_end err s
  | line :: r =>
      match data_of line with
      | None => stream_lines r err s
      | Some data =>
          let '(out, n) := step s data in
          match n with
          | Go s' => let '(out', e) := stream_lines r err s' in ((out ++ out')%list, e)
          | Stop e => (out, e)
          end
      end
  end.

Definition stream_body (b : Body) (s : S) : list StreamChunk * option string :=
  let '(lines, err) := Scan b in stream_lines lines err s.
End Stream.

(** ** Values *)

(** [Decoder.Decode]: the text of the first value. *)
Definition Decode (b : Body) : res string string :=
  let s := bytes b in
  match parse_value (2 * String.length s + 2) max_depth s with
  | Ok (_, rest) => Ok (take_str (String.length s - String.length rest) s)
  | Err e =>
      Err (if (e =? "unexpected end of JSON input")%string then
             match broken b with
             | Some r => r
             | None => if (skip_space s =? "")%string then "EOF" else "unexpected EOF"
             end
           else e)
  end.

(** The text of the value [s] starts with, and what follows it; the text has been
    found to be valid. *)
Definition raw_value (s : string) : option (string * string) :=
  let s := skip_space s in
  match parse_value (2 * String.length s + 2) max_depth s with
  | Ok (_, rest) => Some (take_str (String.length s - String.length rest) s, rest)
  | Err _ => None
  end.

(** The elements after an opening bracket, the members after an opening brace. *)
Fixpoint raw_elems (fuel : nat) (s : string) : list string :=
  match fuel with
  | O => []
  | S n =>
      match raw_value s with
      | None => []
      | Some (v, rest) =>
          v :: match skip_space rest with
               | String c r => if Ascii.eqb c "," then raw_elems n r else []
               | EmptyString => []
               end
      end
  end.

Fixpoint raw_members (fuel : nat) (s : string) : list (string * string) :=
  match fuel, skip_space s with
  | S n, String _ r =>
      match parse_string r with
      | Ok (k, r) =>
          match skip_space r with
          | String _ r =>
              match raw_value r with
              | None => []
              | Some (v, rest) =>
                  (k, v) :: match skip_space rest with
                            | String c r => if Ascii.eqb c "," then raw_members n r else []
                            | EmptyString => []
                            end
              end
          | EmptyString => []
          end
      | Err _ => []
      end
  | _, _ => []
  end.

(** The texts of the elements of an array, and of the last member of a name. *)
Definition raw_array (s : string) : list string :=
  match skip_space s with
  | String _ r => raw_elems (String.length r) r
  | EmptyString => []
  end.

Fixpoint raw_find (name : string) (m : list (string * string)) : option string :=
  match m with
  | [] => None
  | (k, v) :: r => match raw_find name r with Some w => Some w | None => if same_name k name then Some v else None end
  end.

Definition raw_member (name s : string) : option string :=
  match skip_space s with
  | String _ r => raw_find name (raw_members (String.length r) r)
  | EmptyString => None
  end.

(** ** Requests *)

Record Post := { po_url : string; po_headers : list (string * string); po_body : string }.
Record Answer := { an_code : Z; an_body : Body }.

(** The network: the error of [http.NewRequest] for a URL, and what the client of
    net/http answers to the n-th request. *)
Class Wire := { bad_request : string -> option string; post : nat -> Post -> res string Answer }.

(** [http.NewRequest] and [Do] with the status checked. *)
Definition send `{W : Wire} (api : string) (readError : Answer -> string) (n : nat) (p : Post) : res string Body :=
  match bad_request (po_url p) with
  | Some e => Err (api ++ ": create request: " ++ e)
  | None =>
      match post n p with
      | Err e => Err (api ++ ": send request: " ++ e)
      | Ok a => if (an_code a =? 200)%Z then Ok (an_body a) else Err (readError a)
      end
  end.

(** [readError]: the message of the error the API answers, or its whole body. *)
Definition api_error (api : string) (dec : string -> res string (string * string)) (a : Answer) : string :=
  let head := api ++ ": API error " ++ Itoa (an_code a) ++ ": " in
  match dec (bytes (an_body a)) with
  | Ok (ty, msg) => if (msg =? "")%string then head ++ bytes (an_body a) else head ++ ty ++ ": " ++ msg
  | Err _ => head ++ bytes (an_body a)
  end.

(** The nil slice is null. *)
Definition json_list (l : list json) : json := match l with [] => JNull | _ => JArr l end.

(** A member that is there on a condition. *)
Definition member_when (b : bool) (k : string) (v : json) : list (string * json) := if b then [(k, v)] else [].
Definition member_of {A} (k : string) (f : A -> json) (o : option A) : list (string * json) :=
  match o with Some a => [(k, f a)] | None => [] end.

(** ** Lines that are read as they were written *)

Definition line_byte (a : ascii) : bool := negb (Ascii.eqb a newline_byte).
Definition good_line (l : string) : Prop := all_bytes line_byte l = true /\ too_long l = false /\ dropCR l = l.

Definition written (ls : list string) : string := String.concat "" (map (fun l => l ++ s1 newline_byte) ls).

Lemma Split_line l t : all_bytes line_byte l = true ->
  Split newline_byte (l ++ String newline_byte t) = l :: Split newline_byte t.
Proof.
  induction l as [|a l IH]; [done|]. cbn [all_bytes]. intros [Ha Hl]%andb_prop. rewrite append_cons. cbn [Split].
  unfold line_byte in Ha. apply negb_true_iff in Ha. rewrite Ha. by rewrite IH.
Qed.

Lemma written_cons l ls : written (l :: ls) = l ++ String newline_byte (written ls).
Proof.
  unfold written. cbn [map String.concat]. destruct ls as [|k ls]; [by cbn|]. by rewrite append_assoc.
Qed.

Lemma Scan_written ls e : Forall good_line ls -> Scan {| bytes := written ls; broken := e |} = (ls, e).
Proof.
  intros H. unfold Scan. cbn [bytes broken]. assert (scan_parts (Split newline_byte (written ls)) = (ls, false)) as ->; [|done].
  induction H as [|l ls (Hb & Hl & Hr) H IH]; [done|]. rewrite written_cons, Split_line by done. cbn [scan_parts]. rewrite Hl, IH, Hr.
  destruct (Split newline_byte (written ls)) eqn:Es; [by apply Split_not_nil in Es|done].
Qed.

(** ** Members *)

Lemma member_app k a b : member k (a ++ b) = match member k b with Some w => Some w | None => member k a end.
Proof.
  induction a as [|[k' v] a IH]; cbn [app member]; [by destruct (member k b)|]. rewrite IH. by destruct (member k b).
Qed.
Lemma member_when_other k b k' v : same_name k' k = false -> member k (member_when b k' v) = None.
Proof. intros H. destruct b; [|done]. cbn. by rewrite H. Qed.
Lemma member_of_other {A} k k' (f : A -> json) o : same_name k' k = false -> member k (member_of k' f o) = None.
Proof. intros H. destruct o; [|done]. cbn. by rewrite H. Qed.
Lemma member_of_this {A} k (f : A -> json) o : member k (member_of k f o) = option_map f o.
Proof. destruct o; [|done]. cbn. unfold same_name. by rewrite String.eqb_refl. Qed.

(** ** What chunks say *)

Lemma concat_cons x l : String.concat "" (x :: l) = x ++ String.concat "" l.
Proof. destruct l; cbn; [by rewrite append_nil_r|done]. Qed.

Lemma concat_app a b : String.concat "" (a ++ b) = String.concat "" a ++ String.concat "" b.
Proof. induction a as [|x a IH]; [done|]. cbn [app]. by rewrite !concat_cons, IH, append_assoc. Qed.

(** Chunks of text and of calls. *)
Definition plain (c : StreamChunk) : Prop := ChunkDone c = false /\ ChunkError c = None /\ ChunkResult c = None.

Lemma said_app a b : said (a ++ b) = said a ++ said b.
Proof. unfold said. by rewrite map_app, concat_app. Qed.
Lemma called_app a b : called (a ++ b) = (called a ++ called b)%list.
Proof. apply omap_app. Qed.
Lemma said_deltas l : said (map delta l) = String.concat "" l.
Proof. unfold said. rewrite map_map. cbn. by rewrite map_id. Qed.
Lemma called_deltas l : called (map delta l) = [].
Proof. by induction l. Qed.
Lemma plain_deltas l : Forall plain (map delta l).
Proof. induction l; by constructor. Qed.
