(* ===== verification/Anthropic.v ===== *)
(** * llm/anthropic/client.go

    The provider of the Anthropic API: the request it makes of a conversation, the
    answer it reads whole, and the events it reads as a stream. *)

From Stdlib Require Import ZArith Lia Ascii String List Bool.
From stdpp Require Import base list strings.
From S2P Require Import Prelude GoStrings GoTime JSONText PlanJSON PlanStore World LLMTypes SSE.

Local Open Scope string_scope.
Local Open Scope go_scope.

Definition defaultEndpoint : string := "https://api.anthropic.com/v1/messages".
Definition defaultAnthropicVersion : string := "2023-06-01".

Record Client := { name : string; apiKey : string; endpoint : string; apiVersion : string }.

Definition WithBaseURL (url : string) (c : Client) : Client :=
  let url := TrimRight url "/" in
  {| name := name c; apiKey := apiKey c;
     endpoint := if HasSuffix url "/messages" then url else url ++ "/v1/messages"; apiVersion := apiVersion c |}.

Definition New (name apiKey : string) (opts : list (Client -> Client)) : Client :=
  fold_left (fun c o => o c) opts
    {| name := name; apiKey := apiKey; endpoint := defaultEndpoint; apiVersion := defaultAnthropicVersion |}.

(** ** The request *)

Definition text_block (s : string) : json := JObj [("text", JStr s); ("type", JStr "text")].
Definition ephemeral : json := JObj [("type", JStr "ephemeral")].

Definition tool_use (tc : ToolCall) : json :=
  JObj [("id", JStr (tc_id tc));
        ("input", match Unmarshal (tc_args tc) with Ok j => any_value j | Err _ => JObj [] end);
        ("name", JStr (tc_name tc)); ("type", JStr "tool_use")].

Definition tool_result (m : Message) : json :=
  JObj [("content", JStr (msg_content m)); ("tool_use_id", JStr (msg_call_id m)); ("type", JStr "tool_result")].

Definition message_json (m : Message) : json :=
  let role := role_string (msg_role m) in
  if bool_decide (msg_role m = RoleTool) then JObj [("content", JArr [tool_result m]); ("role", JStr "user")]
  else match msg_calls m with
       | [] => JObj [("content", JStr (msg_content m)); ("role", JStr role)]
       | calls =>
           JObj [("content", JArr ((if (msg_content m =? "")%string then [] else [text_block (msg_content m)])
                              ++ map tool_use calls)%list); ("role", JStr role)]
       end.

Definition is_system (m : Message) : bool := bool_decide (msg_role m = RoleSystem).

(** The system prompt goes into a field of its own; without one, the last system
    message does. *)
Definition system_json (req : CompletionRequest) : option json :=
  if (System req =? "")%string then
    option_map (fun m => JStr (msg_content m)) (last (List.filter is_system (Messages req)))
  else if CacheSystem req then
    Some (JArr [JObj [("cache_control", ephemeral); ("text", JStr (System req)); ("type", JStr "text")]])
  else Some (JStr (System req)).

Definition tool_members (t : WireTool) : list (string * json) :=
  if (wt_type t =? "")%string then
    [("description", JStr (wt_description t)); ("input_schema", wt_parameters t); ("name", JStr (wt_name t))]
  else [("name", JStr (wt_name t));
        ("type", JStr (if (wt_type t =? "web_search")%string then "web_search_20250305" else wt_type t))].

(** The last tool carries the mark that caches all of them. *)
Fixpoint tools_json (cache : bool) (l : list WireTool) : list json :=
  match l with
  | [] => []
  | [t] => [JObj (member_when cache "cache_control" ephemeral ++ tool_members t)%list]
  | t :: r => JObj (tool_members t) :: tools_json cache r
  end.

Definition body_members (req : CompletionRequest) (stream : bool) : list (string * json) :=
  ([("max_tokens", JNum (Itoa (if (MaxTokens req <=? 0)%Z then 4096 else MaxTokens req)));
    ("messages", json_list (map message_json (List.filter (fun m => negb (is_system m)) (Messages req))));
    ("model", JStr (Model req))]
   ++ match StopWords req with [] => [] | l => [("stop_sequences", JArr (map JStr l))] end
   ++ member_when stream "stream" (JBool true)
   ++ member_of "system" id (system_json req)
   ++ member_of "temperature" JNum (Temperature req)
   ++ match Tools req with [] => [] | l => [("tools", JArr (tools_json (CacheSystem req) l))] end
   ++ member_of "top_p" JNum (TopP req))%list.

Definition buildRequestBody (req : CompletionRequest) (stream : bool) : json := JObj (body_members req stream).

(** Headers by their canonical names, in the order they are set. *)
Definition headers (c : Client) (req : CompletionRequest) : list (string * string) :=
  ([("Content-Type", "application/json"); ("X-Api-Key", apiKey c); ("Anthropic-Version", apiVersion c)]
   ++ if CacheSystem req then [("Anthropic-Beta", "prompt-caching-2024-07-31")] else [])%list.

Definition request (c : Client) (req : CompletionRequest) (stream : bool) : Post :=
  {| po_url := endpoint c; po_headers := headers c req; po_body := Marshal (buildRequestBody req stream) |}.

(** ** The answer *)

Record apiContent := { c_type : string; c_text : string; c_id : string; c_name : string; c_input : string }.
Record apiResponse := {
  a_id : string; a_type : string; a_role : string; a_content : list apiContent; a_model : string; a_stop : string;
  a_usage : Usage;
}.

Definition dec_apiUsage (j : json) : res string Usage :=
  let! m := members j in
  let! i := dec_int (member "input_tokens" m) in let! o := dec_int (member "output_tokens" m) in
  Ok {| InputTokens := i; OutputTokens := o |}.

(** [input] keeps its text. *)
Definition dec_apiContent (t : string) : res string apiContent :=
  let! j := Unmarshal t in
  let! m := members j in
  let! ty := str "type" m in let! tx := str "text" m in let! i := str "id" m in let! n := str "name" m in
  Ok {| c_type := ty; c_text := tx; c_id := i; c_name := n; c_input := default "" (raw_member "input" t) |}.

Fixpoint dec_texts {A} (f : string -> res string A) (l : list string) : res string (list A) :=
  match l with
  | [] => Ok []
  | t :: r => let! a := f t in let! b := dec_texts f r in Ok (a :: b)
  end.

Definition dec_apiResponse (t : string) : res string apiResponse :=
  let! j := Unmarshal t in
  let! m := members j in
  let! i := str "id" m in let! ty := str "type" m in let! ro := str "role" m in
  let! c := match member "content" m with
            | None | Some JNull => Ok []
            | Some (JArr _) => dec_texts dec_apiContent (raw_array (default "" (raw_member "content" t)))
            | Some _ => type_error
            end in
  let! mo := str "model" m in let! s := str "stop_reason" m in
  let! u := dec_ptr dec_apiUsage (member "usage" m) in
  Ok {| a_id := i; a_type := ty; a_role := ro; a_content := c; a_model := mo; a_stop := s; a_usage := default no_usage u |}.

(** A block of another type is left out: the tools of the server are run by it. *)
Fixpoint block_texts (l : list apiContent) : string :=
  match l with
  | [] => ""
  | b :: r => (if (c_type b =? "text")%string then c_text b else "") ++ block_texts r
  end.
Definition block_calls (l : list apiContent) : list ToolCall :=
  omap (fun b => if (c_type b =? "tool_use")%string
                 then Some {| tc_id := c_id b; tc_name := c_name b; tc_args := c_input b |} else None) l.

Definition parseResponse (r : apiResponse) : CompletionResponse :=
  {| r_content := block_texts (a_content r); r_calls := block_calls (a_content r); r_usage := a_usage r;
     r_model := a_model r; r_stop := a_stop r |}.

Definition dec_apiError (j : json) : res string (string * string) :=
  let! m := members j in let! t := str "type" m in let! s := str "message" m in Ok (t, s).

Definition dec_errorWrapper (t : string) : res string (string * string) :=
  let! j := Unmarshal t in let! m := members j in let! ty := str "type" m in
  let! e := dec_ptr dec_apiError (member "error" m) in Ok (default ("", "") e).

Definition readError (a : Answer) : string := api_error "anthropic" dec_errorWrapper a.

(** ** The stream *)

Record sseDelta := { d_type : string; d_text : string; d_json : string; d_stop : string }.
Record sseBlock := { b_type : string; b_id : string; b_name : string; b_text : string }.
Record sseEvent := {
  e_type : string; e_delta : option sseDelta; e_block : option sseBlock; e_message : option apiResponse;
  e_usage : option Usage; e_error : option (string * string); e_index : Z;
}.

Definition dec_sseDelta (j : json) : res string sseDelta :=
  let! m := members j in
  let! t := str "type" m in let! x := str "text" m in let! p := str "partial_json" m in let! s := str "stop_reason" m in
  Ok {| d_type := t; d_text := x; d_json := p; d_stop := s |}.

Definition dec_sseBlock (j : json) : res string sseBlock :=
  let! m := members j in
  let! t := str "type" m in let! i := str "id" m in let! n := str "name" m in let! x := str "text" m in
  Ok {| b_type := t; b_id := i; b_name := n; b_text := x |}.

Definition dec_sseEvent (t : string) : res string sseEvent :=
  let! j := Unmarshal t in
  let! m := members j in
  let! ty := str "type" m in
  let! d := dec_ptr dec_sseDelta (member "delta" m) in
  let! b := dec_ptr dec_sseBlock (member "content_block" m) in
  let! msg := match member "message" m with
              | None | Some JNull => Ok None
              | Some _ => let! r := dec_apiResponse (default "" (raw_member "message" t)) in Ok (Some r)
              end in
  let! u := dec_ptr dec_apiUsage (member "usage" m) in
  let! e := dec_ptr dec_apiError (member "error" m) in
  let! i := dec_int (member "index" m) in
  Ok {| e_type := ty; e_delta := d; e_block := b; e_message := msg; e_usage := u; e_error := e; e_index := i |}.

(** The call that is being built, with its arguments so far. *)
Record SSEState := { currentToolCall : option (string * string); toolArgs : string; usage : option Usage }.
Definition sse_start : SSEState := {| currentToolCall := None; toolArgs := ""; usage := None |}.
Definition set_usage (u : Usage) (s : SSEState) : SSEState :=
  {| currentToolCall := currentToolCall s; toolArgs := toolArgs s; usage := Some u |}.
Definition add_args (t : string) (s : SSEState) : SSEState :=
  {| currentToolCall := currentToolCall s; toolArgs := toolArgs s ++ t; usage := usage s |}.

Definition nonempty_args (t : string) : string := if (t =? "")%string then "{}" else t.

Definition event_step (s : SSEState) (e : sseEvent) : list StreamChunk * next SSEState :=
  if (e_type e =? "content_block_start")%string then
    match e_block e with
    | Some b => if (b_type b =? "tool_use")%string
                then ([], Go {| currentToolCall := Some (b_id b, b_name b); toolArgs := ""; usage := usage s |})
                else ([], Go s)
    | None => ([], Go s)
    end
  else if (e_type e =? "content_block_delta")%string then
    match e_delta e with
    | Some d => if (d_type d =? "text_delta")%string then ([delta (d_text d)], Go s)
                else if (d_type d =? "input_json_delta")%string then ([], Go (add_args (d_json d) s))
                else ([], Go s)
    | None => ([], Go s)
    end
  else if (e_type e =? "content_block_stop")%string then
    match currentToolCall s with
    | Some (i, n) =>
        ([call_chunk {| tc_id := i; tc_name := n; tc_args := nonempty_args (toolArgs s) |}],
         Go {| currentToolCall := None; toolArgs := ""; usage := usage s |})
    | None => ([], Go s)
    end
  else if (e_type e =? "message_delta")%string then
    ([], Go match e_usage e with Some u => set_usage u s | None => s end)
  else if (e_type e =? "message_start")%string then
    ([], Go match e_message e with
            | Some r => if (0 <? InputTokens (a_usage r))%Z then set_usage (a_usage r) s else s
            | None => s
            end)
  else if (e_type e =? "message_stop")%string then ([done_chunk (usage s)], Stop None)
  else if (e_type e =? "error")%string then
    let msg := "anthropic: stream error: " ++ match e_error e with Some (_, m) => m | None => "unknown error" end in
    ([error_chunk msg], Stop (Some msg))
  else ([], Go s).

Definition stream_step (s : SSEState) (data : string) : list StreamChunk * next SSEState :=
  if (data =? "[DONE]")%string then ([done_chunk (usage s)], Stop None)
  else match dec_sseEvent data with
       | Ok e => event_step s e
       | Err _ => ([], Go s)
       end.

Definition parseSSEStream (b : Body) : list StreamChunk * option string :=
  stream_body "anthropic" stream_step usage b sse_start.

(** ** The provider *)

Section Provider.
Context `{W : Wire}.

Definition Complete (c : Client) (n : nat) (req : CompletionRequest) : res string CompletionResponse :=
  let! b := send "anthropic" readError n (request c req false) in
  match (let! t := Decode b in dec_apiResponse t) with
  | Ok r => Ok (parseResponse r)
  | Err e => Err ("anthropic: decode response: " ++ e)
  end.

Definition Stream (c : Client) (n : nat) (req : CompletionRequest) : list StreamChunk * option string :=
  match send "anthropic" readError n (request c req true) with
  | Ok b => parseSSEStream b
  | Err e => ([], Some e)
  end.

Definition Ping (c : Client) (n : nat) (model : string) : option string :=
  match Complete c n {| Model := model; Messages := [text_message RoleUser "ping"]; System := ""; Tools := [];
                        MaxTokens := 1; Temperature := None; TopP := None; StopWords := []; CacheSystem := false |} with
  | Ok _ => None
  | Err e => Some e
  end.

Definition provider (c : Client) : Provider :=
  {| provider_Type := "anthropic"; provider_Complete := Complete c; provider_Stream := Stream c |}.
End Provider.
