(* ===== verification/OpenAI.v ===== *)
(** * llm/openai/client.go

    The provider of APIs compatible with OpenAI's: the request, the whole answer,
    and the stream, whose calls are put together from pieces. *)

From Stdlib Require Import ZArith Lia Ascii String List Bool.
From stdpp Require Import base list strings.
From S2P Require Import Prelude GoStrings GoTime JSONText PlanJSON PlanStore World LLMTypes SSE.

Local Open Scope string_scope.
Local Open Scope go_scope.

Definition defaultEndpoint : string := "https://api.openai.com/v1/chat/completions".

Record Client := { name : string; apiKey : string; endpoint : string }.

Definition WithBaseURL (url : string) (c : Client) : Client :=
  let url := TrimRight url "/" in
  {| name := name c; apiKey := apiKey c;
     endpoint := if HasSuffix url "/chat/completions" then url else url ++ "/v1/chat/completions" |}.

Definition New (name apiKey : string) (opts : list (Client -> Client)) : Client :=
  fold_left (fun c o => o c) opts {| name := name; apiKey := apiKey; endpoint := defaultEndpoint |}.

(** ** The request *)

Definition tool_call_json (tc : ToolCall) : json :=
  JObj [("function", JObj [("arguments", JStr (tc_args tc)); ("name", JStr (tc_name tc))]); ("id", JStr (tc_id tc));
        ("type", JStr "function")].

Definition message_json (m : Message) : json :=
  let role := JStr (role_string (msg_role m)) in
  if bool_decide (msg_role m = RoleTool) then
    JObj [("content", JStr (msg_content m)); ("role", JStr "tool"); ("tool_call_id", JStr (msg_call_id m))]
  else if bool_decide (msg_role m = RoleAssistant) && negb (bool_decide (msg_calls m = [])) then
    JObj [("content", if (msg_content m =? "")%string then JNull else JStr (msg_content m)); ("role", role);
          ("tool_calls", JArr (map tool_call_json (msg_calls m)))]
  else JObj [("content", JStr (msg_content m)); ("role", role)].

Definition system_message (s : string) : list json :=
  if (s =? "")%string then [] else [JObj [("content", JStr s); ("role", JStr "system")]].

Definition is_search (t : WireTool) : bool := (wt_type t =? "web_search")%string.

Definition tool_json (t : WireTool) : json :=
  JObj [("function", JObj [("description", JStr (wt_description t)); ("name", JStr (wt_name t));
                           ("parameters", wt_parameters t)]); ("type", JStr "function")].

Definition body_members (req : CompletionRequest) (stream : bool) : list (string * json) :=
  (member_when (0 <? MaxTokens req)%Z "max_tokens" (JNum (Itoa (MaxTokens req)))
   ++ [("messages", json_list (system_message (System req) ++ map message_json (Messages req))%list);
       ("model", JStr (Model req))]
   ++ match StopWords req with [] => [] | l => [("stop", JArr (map JStr l))] end
   ++ member_when stream "stream" (JBool true)
   ++ member_of "temperature" JNum (Temperature req)
   ++ match List.filter (fun t => negb (is_search t)) (Tools req) with [] => [] | l => [("tools", JArr (map tool_json l))] end
   ++ member_of "top_p" JNum (TopP req)
   ++ member_when (existsb is_search (Tools req)) "web_search_options" (JObj []))%list.

Definition buildRequestBody (req : CompletionRequest) (stream : bool) : json := JObj (body_members req stream).

Definition headers (c : Client) : list (string * string) :=
  (("Content-Type", "application/json")
   :: if (apiKey c =? "")%string then [] else [("Authorization", ("Bearer " ++ apiKey c)%string)])%list.

Definition request (c : Client) (req : CompletionRequest) (stream : bool) : Post :=
  {| po_url := endpoint c; po_headers := headers c; po_body := Marshal (buildRequestBody req stream) |}.

(** ** The answer *)

Record apiToolCall := { t_id : string; t_type : string; t_name : string; t_args : string }.
Record apiMessage := { m_role : string; m_content : option string; m_calls : list apiToolCall }.
Record apiChoice := { ch_index : Z; ch_message : apiMessage; ch_finish : string }.
Record apiResponse := { a_id : string; a_object : string; a_model : string; a_choices : list apiChoice; a_usage : Usage }.

(** A field that is a struct: null leaves it as it is. *)
Definition field (k : string) (m : list (string * json)) : json := default JNull (member k m).
Definition dec_text_ptr (j : option json) : res string (option string) := dec_ptr (fun v => dec_string "" (Some v)) j.

Definition dec_apiUsage (j : json) : res string Usage :=
  let! m := members j in
  let! p := dec_int (member "prompt_tokens" m) in let! c := dec_int (member "completion_tokens" m) in
  let! t := dec_int (member "total_tokens" m) in
  Ok {| InputTokens := p; OutputTokens := c |}.

Definition dec_apiToolCall (j : json) : res string apiToolCall :=
  let! m := members j in
  let! i := str "id" m in let! ty := str "type" m in
  let! f := members (field "function" m) in
  let! n := str "name" f in let! a := str "arguments" f in
  Ok {| t_id := i; t_type := ty; t_name := n; t_args := a |}.

Definition dec_apiMessage (j : json) : res string apiMessage :=
  let! m := members j in
  let! r := str "role" m in let! c := dec_text_ptr (member "content" m) in
  let! l := dec_list dec_apiToolCall (member "tool_calls" m) in
  Ok {| m_role := r; m_content := c; m_calls := l |}.

Definition dec_apiChoice (j : json) : res string apiChoice :=
  let! m := members j in
  let! i := dec_int (member "index" m) in let! g := dec_apiMessage (field "message" m) in
  let! f := str "finish_reason" m in
  Ok {| ch_index := i; ch_message := g; ch_finish := f |}.

Definition dec_apiResponse (t : string) : res string apiResponse :=
  let! j := Unmarshal t in
  let! m := members j in
  let! i := str "id" m in let! o := str "object" m in let! mo := str "model" m in
  let! c := dec_list dec_apiChoice (member "choices" m) in let! u := dec_apiUsage (field "usage" m) in
  Ok {| a_id := i; a_object := o; a_model := mo; a_choices := c; a_usage := u |}.

Definition parse_call (t : apiToolCall) : ToolCall := {| tc_id := t_id t; tc_name := t_name t; tc_args := t_args t |}.

Definition parseResponse (r : apiResponse) : CompletionResponse :=
  match a_choices r with
  | [] => {| r_content := ""; r_calls := []; r_usage := a_usage r; r_model := a_model r; r_stop := "" |}
  | c :: _ =>
      {| r_content := default "" (m_content (ch_message c)); r_calls := map parse_call (m_calls (ch_message c));
         r_usage := a_usage r; r_model := a_model r; r_stop := ch_finish c |}
  end.

Definition dec_errorResponse (t : string) : res string (string * string) :=
  let! j := Unmarshal t in let! m := members j in
  let! e := members (field "error" m) in
  let! s := str "message" e in let! ty := str "type" e in let! c := str "code" e in Ok (ty, s).

Definition readError (a : Answer) : string := api_error "openai" dec_errorResponse a.

(** ** The stream *)

Record streamChoice := {
  s_index : Z; s_role : string; s_content : option string; s_calls : list apiToolCall; s_finish : option string;
}.
Record streamChunkResponse := { s_model : string; s_choices : list streamChoice; s_usage : option Usage }.

Definition dec_streamChoice (j : json) : res string streamChoice :=
  let! m := members j in
  let! i := dec_int (member "index" m) in
  let! d := members (field "delta" m) in
  let! r := str "role" d in let! c := dec_text_ptr (member "content" d) in
  let! l := dec_list dec_apiToolCall (member "tool_calls" d) in
  let! f := dec_text_ptr (member "finish_reason" m) in
  Ok {| s_index := i; s_role := r; s_content := c; s_calls := l; s_finish := f |}.

Definition dec_streamChunk (t : string) : res string streamChunkResponse :=
  let! j := Unmarshal t in
  let! m := members j in
  let! i := str "id" m in let! o := str "object" m in let! mo := str "model" m in
  let! c := dec_list dec_streamChoice (member "choices" m) in
  let! u := dec_ptr dec_apiUsage (member "usage" m) in
  Ok {| s_model := mo; s_choices := c; s_usage := u |}.

(** The calls so far, by their place, each with its arguments so far. *)
Record SSEState := { partial : list ToolCall; usage : option Usage }.
Definition sse_start : SSEState := {| partial := []; usage := None |}.

Definition add_args (t : string) (tc : ToolCall) : ToolCall :=
  {| tc_id := tc_id tc; tc_name := tc_name tc; tc_args := tc_args tc ++ t |}.

(** The arguments of a piece go to the last call there is. *)
Fixpoint add_to_last (t : string) (l : list ToolCall) : list ToolCall :=
  match l with
  | [] => []
  | [tc] => [add_args t tc]
  | tc :: r => tc :: add_to_last t r
  end.

(** A piece with an id begins a call. *)
Definition add_piece (l : list ToolCall) (t : apiToolCall) : list ToolCall :=
  let l := if (t_id t =? "")%string then l else (l ++ [{| tc_id := t_id t; tc_name := t_name t; tc_args := "" |}])%list in
  if (t_args t =? "")%string then l else add_to_last (t_args t) l.

Definition finished (tc : ToolCall) : ToolCall :=
  {| tc_id := tc_id tc; tc_name := tc_name tc; tc_args := if (tc_args tc =? "")%string then "{}" else tc_args tc |}.

(** The calls are kept in a map by their places, which a loop visits in any order. *)
Class PlaceOrder := {
  visit : forall {A}, list A -> list A;
  visit_perm : forall {A} (l : list A), visit l ≡ₚ l;
}.

Section Stream.
Context `{V : PlaceOrder}.

Definition flush (l : list ToolCall) : list StreamChunk := map (fun tc => call_chunk (finished tc)) (visit l).

Definition choice_step (c : streamChoice) (s : SSEState) : list StreamChunk * SSEState :=
  let text := match s_content c with Some t => if (t =? "")%string then [] else [delta t] | None => [] end in
  let calls := fold_left add_piece (s_calls c) (partial s) in
  if match s_finish c with Some f => (f =? "tool_calls")%string | None => false end
  then ((text ++ flush calls)%list, {| partial := []; usage := usage s |})
  else (text, {| partial := calls; usage := usage s |}).

Definition chunk_step (ch : streamChunkResponse) (s : SSEState) : list StreamChunk * SSEState :=
  let s := match s_usage ch with Some u => {| partial := partial s; usage := Some u |} | None => s end in
  match s_choices ch with
  | [] => ([], s)
  | c :: _ => choice_step c s
  end.

Definition stream_step (s : SSEState) (data : string) : list StreamChunk * next SSEState :=
  if (data =? "[DONE]")%string then ((flush (partial s) ++ [done_chunk (usage s)])%list, Stop None)
  else
    match dec_streamChunk data with
    | Err _ => ([], Go s)
    | Ok ch => let '(out, s) := chunk_step ch s in (out, Go s)
    end.

Definition parseSSEStream (b : Body) : list StreamChunk * option string :=
  stream_body "openai" stream_step usage b sse_start.
End Stream.

(** ** The provider *)

Section Provider.
Context `{W : Wire} `{V : PlaceOrder}.

Definition Complete (c : Client) (n : nat) (req : CompletionRequest) : res string CompletionResponse :=
  let! b := send "openai" readError n (request c req false) in
  match (let! t := Decode b in dec_apiResponse t) with
  | Ok r => Ok (parseResponse r)
  | Err e => Err ("openai: decode response: " ++ e)
  end.

Definition Stream (c : Client) (n : nat) (req : CompletionRequest) : list StreamChunk * option string :=
  match send "openai" readError n (request c req true) with
  | Ok b => parseSSEStream b
  | Err e => ([], Some e)
  end.

Definition Ping (c : Client) (n : nat) (model : string) : option string :=
  match Complete c n {| Model := model; Messages := [text_message RoleUser "ping"]; System := ""; Tools := [];
                        MaxTokens := 1; Temperature := None; TopP := None; StopWords := []; CacheSystem := false |} with
  | Ok _ => None
  | Err e => Some e
  end.

Definition provider (c : Client) : Provider :=
  {| provider_Type := "openai"; provider_Complete := Complete c; provider_Stream := Stream c |}.
End Provider.
