(* ===== verification/AnthropicFacts.v ===== *)
(** * What the Anthropic provider promises

    The stream of an answer says what the whole answer says, however it is cut into
    events; and the request holds the conversation. *)

From Stdlib Require Import ZArith Lia Ascii String List Bool.
From stdpp Require Import base list strings.
From S2P Require Import Prelude GoStrings GoTime JSONText PlanJSON PlanStore World LLMTypes SSE Anthropic.

Local Open Scope string_scope.

(** ** Streams of events *)

(** The lines carry these events; other lines, and events that only keep the
    connection open, may come between. *)
Inductive carries : list string -> list sseEvent -> Prop :=
| carries_nil : carries [] []
| carries_quiet l ls es : data_of l = None -> carries ls es -> carries (l :: ls) es
| carries_ping l d e ls es : data_of l = Some d -> d <> "[DONE]" -> dec_sseEvent d = Ok e -> e_type e = "ping" ->
    carries ls es -> carries (l :: ls) es
| carries_event l d e ls es : data_of l = Some d -> d <> "[DONE]" -> dec_sseEvent d = Ok e ->
    carries ls es -> carries (l :: ls) (e :: es).

(** What the deltas of a block add up to. *)
Definition delta_text (e : sseEvent) : option string :=
  match e_delta e with Some d => if (d_type d =? "text_delta")%string then Some (d_text d) else None | None => None end.
Definition delta_json (e : sseEvent) : option string :=
  match e_delta e with
  | Some d => if (d_type d =? "text_delta")%string then None
              else if (d_type d =? "input_json_delta")%string then Some (d_json d) else None
  | None => None
  end.
Definition pieces (f : sseEvent -> option string) (ds : list sseEvent) : string := String.concat "" (omap f ds).

(** The events of a block: it starts, its content comes in deltas, it stops.  Only
    the text of text blocks comes as text; the input of a call comes as pieces of a
    JSON text, of which none stands for the empty object. *)
Inductive block_events (b : apiContent) : list sseEvent -> Prop :=
| Block start k ds stop :
    e_type start = "content_block_start" -> e_block start = Some k ->
    b_type k = c_type b -> b_id k = c_id b -> b_name k = c_name b ->
    Forall (fun e => e_type e = "content_block_delta") ds ->
    pieces delta_text ds = (if (c_type b =? "text")%string then c_text b else "") ->
    (c_type b = "tool_use" -> Unmarshal (nonempty_args (pieces delta_json ds)) = Unmarshal (c_input b)) ->
    e_type stop = "content_block_stop" ->
    block_events b (start :: ds ++ [stop]).

(** The events of an answer [r] of which [u] is used in the end: the start, the
    blocks, at least one event with the counts, the end. *)
Inductive answer_events (r : apiResponse) (u : Usage) : list sseEvent -> Prop :=
| Answered start blocks ds d stop :
    e_type start = "message_start" -> Forall2 block_events (a_content r) blocks ->
    Forall (fun e => e_type e = "message_delta") ds -> e_type d = "message_delta" -> e_usage d = Some u ->
    e_type stop = "message_stop" ->
    answer_events r u (start :: List.concat blocks ++ ds ++ [d; stop]).

(** ** Running the events *)

Fixpoint run_events (es : list sseEvent) (s : SSEState) : list StreamChunk * next SSEState :=
  match es with
  | [] => ([], Go s)
  | e :: r =>
      let '(out, n) := event_step s e in
      match n with
      | Go s' => let '(out', n') := run_events r s' in ((out ++ out')%list, n')
      | Stop x => (out, Stop x)
      end
  end.

Lemma run_app a b s out s' : run_events a s = (out, Go s') ->
  run_events (a ++ b) s = let '(out', n) := run_events b s' in ((out ++ out')%list, n).
Proof.
  revert s out. induction a as [|e a IH]; intros s out; cbn [run_events app].
  - intros [= <- <-]. by destruct (run_events b s).
  - destruct (event_step s e) as [o1 [s1|x]]; [|done]. destruct (run_events a s1) as [o2 n2] eqn:Ha. intros [= <- ->].
    rewrite (IH s1 o2 Ha). destruct (run_events b s'). by rewrite app_assoc.
Qed.

Lemma run_carries ls es rest err : carries ls es -> forall s,
  stream_lines "anthropic" stream_step usage (ls ++ rest) err s =
  let '(out, n) := run_events es s in
  match n with
  | Go s' => let '(out', e) := stream_lines "anthropic" stream_step usage rest err s' in ((out ++ out')%list, e)
  | Stop x => (out, x)
  end.
Proof.
  assert (forall s d e, d <> "[DONE]" -> dec_sseEvent d = Ok e -> stream_step s d = event_step s e) as Hstep.
  { intros s d e Hd He. unfold stream_step. apply String.eqb_neq in Hd. by rewrite Hd, He. }
  induction 1 as [|l ls es Hl _ IH|l d e ls es Hl Hd He Hp _ IH|l d e ls es Hl Hd He _ IH]; intros s.
  - cbn. by destruct (stream_lines _ _ _ rest err s).
  - cbn [app stream_lines]. rewrite Hl. apply IH.
  - cbn [app stream_lines]. rewrite Hl, (Hstep s d e Hd He). unfold event_step. rewrite Hp. cbn. rewrite IH.
    destruct (run_events es s) as [out [s'|x]]; [|done]. by destruct (stream_lines _ _ _ rest err s').
  - cbn [app stream_lines run_events]. rewrite Hl, (Hstep s d e Hd He). destruct (event_step s e) as [out [s'|x]]; [|done].
    rewrite IH. destruct (run_events es s') as [out' [s2|x]]; [|done]. destruct (stream_lines _ _ _ rest err s2). by rewrite app_assoc.
Qed.

Lemma run_deltas ds : Forall (fun e => e_type e = "content_block_delta") ds -> forall s,
  run_events ds s = (map delta (omap delta_text ds),
    Go {| currentToolCall := currentToolCall s; toolArgs := toolArgs s ++ pieces delta_json ds; usage := usage s |}).
Proof.
  induction 1 as [|e ds He _ IH]; intros s.
  - cbn. rewrite append_nil_r. by destruct s.
  - cbn [run_events]. unfold event_step. rewrite He. cbn [String.eqb Ascii.eqb Bool.eqb].
    unfold pieces, delta_text, delta_json in *. cbn [omap list_omap]. destruct (e_delta e) as [d|]; [|by rewrite IH].
    destruct (d_type d =? "text_delta")%string; [by rewrite IH|]. destruct (d_type d =? "input_json_delta")%string; [|by rewrite IH].
    rewrite IH, concat_cons. cbn. by rewrite append_assoc.
Qed.

(** The same call, its arguments compared as JSON. *)
Definition same_call (a b : ToolCall) : Prop :=
  tc_id a = tc_id b /\ tc_name a = tc_name b /\ Unmarshal (tc_args a) = Unmarshal (tc_args b).

(** What the chunks [out] say of the blocks [bs]. *)
Definition tells (bs : list apiContent) (out : list StreamChunk) : Prop :=
  said out = block_texts bs /\ Forall2 same_call (called out) (block_calls bs) /\ Forall plain out.

Lemma tells_app b bs o o' : tells [b] o -> tells bs o' -> tells (b :: bs) (o ++ o').
Proof.
  intros (Hs & Hc & Hp) (Hs' & Hc' & Hp'). unfold tells. rewrite said_app, called_app, Hs, Hs'. split_and!.
  - cbn. by rewrite append_nil_r.
  - change (block_calls (b :: bs)) with (block_calls ([b] ++ bs)). unfold block_calls in *. rewrite omap_app. by apply Forall2_app.
  - by apply Forall_app.
Qed.

Lemma run_block b es : block_events b es -> forall s, currentToolCall s = None ->
  exists out s', run_events es s = (out, Go s') /\ currentToolCall s' = None /\ usage s' = usage s /\ tells [b] out.
Proof.
  intros [start k ds stop Hstart Hk Hty Hid Hname Hds Htext Hin Hstop] s Hs.
  cbn [run_events]. unfold event_step at 1. rewrite Hstart, Hk, Hty. cbn [String.eqb Ascii.eqb Bool.eqb].
  assert (forall s1, run_events (ds ++ [stop]) s1 =
    let '(o, s2) := (map delta (omap delta_text ds),
                     {| currentToolCall := currentToolCall s1; toolArgs := toolArgs s1 ++ pieces delta_json ds; usage := usage s1 |}) in
    match currentToolCall s1 with
    | Some (i, n) => ((o ++ [call_chunk {| tc_id := i; tc_name := n; tc_args := nonempty_args (toolArgs s2) |}])%list,
                      Go {| currentToolCall := None; toolArgs := ""; usage := usage s1 |})
    | None => (o, Go s2)
    end) as Hrest.
  { intros s1. rewrite (run_app _ _ _ _ _ (run_deltas ds Hds s1)). cbn [run_events]. unfold event_step. rewrite Hstop.
    cbn. destruct (currentToolCall s1) as [[? ?]|]; [done|]. by rewrite app_nil_r. }
  destruct (String.eqb_spec (c_type b) "tool_use") as [E|E].
  - rewrite Hrest. cbn. eexists _, _. split; [done|]. split; [done|]. split; [done|]. unfold tells.
    rewrite said_app, called_app, said_deltas, called_deltas. rewrite E in Htext. unfold pieces in Htext. rewrite Htext. cbn. rewrite E. cbn.
    split_and!; [done| |].
    + constructor; [|constructor]. split; [done|]. split; [done|]. by apply Hin.
    + apply Forall_app. split; [apply plain_deltas|by repeat constructor].
  - rewrite Hrest, Hs. cbn. eexists _, _. split; [done|]. split; [done|]. split; [done|]. unfold tells.
    rewrite said_deltas, called_deltas. split_and!; [|by cbn; apply String.eqb_neq in E; rewrite E; constructor|apply plain_deltas].
    unfold pieces in Htext. rewrite Htext. cbn. by rewrite append_nil_r.
Qed.

Lemma run_blocks bs ess : Forall2 block_events bs ess -> forall s, currentToolCall s = None ->
  exists out s', run_events (List.concat ess) s = (out, Go s') /\ usage s' = usage s /\ tells bs out.
Proof.
  induction 1 as [|b es bs ess Hb _ IH]; intros s Hs.
  - exists [], s. split; [done|]. split; [done|]. by split_and!; [done|constructor..].
  - destruct (run_block b es Hb s Hs) as (o1 & s1 & H1 & Hs1 & Hu1 & Ht1). destruct (IH s1 Hs1) as (o2 & s2 & H2 & Hu2 & Ht2).
    exists (o1 ++ o2)%list, s2. cbn [List.concat]. rewrite (run_app _ _ _ _ _ H1), H2. split; [done|]. split; [congruence|]. by apply tells_app.
Qed.

Lemma run_counts ds : Forall (fun e => e_type e = "message_delta") ds -> forall s, exists s', run_events ds s = ([], Go s').
Proof.
  induction 1 as [|e ds He _ IH]; intros s; [by eexists|]. cbn [run_events]. unfold event_step. rewrite He. cbn.
  match goal with |- context [run_events ds ?s1] => destruct (IH s1) as [s' ->] end. by eexists.
Qed.

Lemma run_answer r u es : answer_events r u es ->
  exists out, run_events es sse_start = ((out ++ [done_chunk (Some u)])%list, Stop None) /\ tells (a_content r) out.
Proof.
  intros [start blocks ds d stop Hstart Hb Hds Hd Hu Hstop]. cbn [run_events]. unfold event_step at 1. rewrite Hstart.
  cbn [String.eqb Ascii.eqb Bool.eqb]. set (s0 := match e_message start with Some m => _ | None => _ end).
  assert (currentToolCall s0 = None) as Hs0. { unfold s0. destruct (e_message start) as [m|]; [|done]. by destruct (0 <? _)%Z. }
  destruct (run_blocks _ _ Hb s0 Hs0) as (out & s1 & H1 & _ & Ht). destruct (run_counts ds Hds s1) as [s2 H2].
  exists out. split; [|done]. rewrite (run_app _ _ _ _ _ H1), (run_app _ _ _ _ _ H2). cbn [run_events]. unfold event_step.
  rewrite Hd, Hu, Hstop. by cbn.
Qed.

(** C9. A stream says what the whole answer says.  However the lines of a stream
    cut the answer [r] into events - texts and inputs in any pieces, comments, empty
    lines and pings in between, anything at all after the end - the chunks hold the
    text of the answer that [Complete] would have read and its calls, in order, with
    the same inputs; they end with [done] and the counts, and there is no error. *)
Theorem stream_agrees_with_answer r u ls es rest err :
  answer_events r u es -> carries ls es -> Forall good_line (ls ++ rest) ->
  exists out, parseSSEStream {| bytes := written (ls ++ rest); broken := err |} = ((out ++ [done_chunk (Some u)])%list, None) /\
    said out = r_content (parseResponse r) /\ Forall2 same_call (called out) (r_calls (parseResponse r)) /\ Forall plain out.
Proof.
  intros Hr Hc Hl. destruct (run_answer r u es Hr) as (out & Hrun & Hs & Hcalls & Hp). exists out. split; [|by split_and!].
  unfold parseSSEStream, stream_body. rewrite Scan_written by done. rewrite (run_carries _ _ _ _ Hc), Hrun. done.
Qed.

(** ** The request holds the conversation *)

(** How the documentation of the API reads a request. *)
Definition block_is (ty : string) (m : list (string * json)) : bool :=
  match member "type" m with Some (JStr t) => (t =? ty)%string | _ => false end.
Definition text_member (k : string) (m : list (string * json)) : string :=
  match member k m with Some (JStr t) => t | _ => "" end.

Definition read_text (b : json) : string :=
  match b with JObj m => if block_is "text" m then text_member "text" m else "" | _ => "" end.
Definition read_call (b : json) : option ToolCall :=
  match b with
  | JObj m => if block_is "tool_use" m
              then Some {| tc_id := text_member "id" m; tc_name := text_member "name" m;
                           tc_args := Marshal (default JNull (member "input" m)) |}
              else None
  | _ => None
  end.

Definition read_blocks (role : Role) (l : list json) : Message :=
  let blocks := {| msg_role := role; msg_content := String.concat "" (map read_text l); msg_calls := omap read_call l; msg_call_id := "" |} in
  match l with
  | [JObj m] => if block_is "tool_result" m then
                  {| msg_role := RoleTool; msg_content := text_member "content" m; msg_calls := [];
                     msg_call_id := text_member "tool_use_id" m |}
                else blocks
  | _ => blocks
  end.

Definition read_message (j : json) : option Message :=
  match j with
  | JObj m =>
      let role := role_of (text_member "role" m) in
      match member "content" m with
      | Some (JStr t) => Some (text_message role t)
      | Some (JArr l) => Some (read_blocks role l)
      | _ => None
      end
  | _ => None
  end.

Definition read_messages (body : json) : option (list Message) :=
  match body with
  | JObj m => match member "messages" m with Some (JArr l) => mapM read_message l | _ => None end
  | _ => None
  end.

(** A message as the code makes them: the answer of a tool makes no calls, and
    nothing else answers one. *)
Definition proper (m : Message) : Prop :=
  known_role (msg_role m) /\ (msg_role m = RoleTool -> msg_calls m = []) /\ (msg_role m <> RoleTool -> msg_call_id m = "").

(** The input of a call as it is written: what is no JSON counts as no input. *)
Definition written_args (tc : ToolCall) : ToolCall :=
  {| tc_id := tc_id tc; tc_name := tc_name tc;
     tc_args := match Unmarshal (tc_args tc) with Ok j => Marshal (any_value j) | Err _ => "{}" end |}.
Definition written_message (m : Message) : Message :=
  {| msg_role := msg_role m; msg_content := msg_content m; msg_calls := map written_args (msg_calls m); msg_call_id := msg_call_id m |}.

Lemma read_calls l : omap read_call (map tool_use l) = map written_args l.
Proof.
  induction l as [|tc l IH]; [done|]. cbn [map omap list_omap].
  assert (read_call (tool_use tc) = Some (written_args tc)) as ->; [|by rewrite <- IH].
  unfold read_call, tool_use, written_args. cbn. by destruct (Unmarshal (tc_args tc)).
Qed.

Lemma read_no_text l : String.concat "" (map read_text (map tool_use l)) = "".
Proof. induction l as [|tc l IH]; [done|]. cbn [map]. by rewrite concat_cons, IH. Qed.

Lemma role_member x r : text_member "role" [("content", x); ("role", JStr r)] = r.
Proof. done. Qed.
Lemma content_member x y : member "content" [("content", x); ("role", y)] = Some x.
Proof. done. Qed.

Lemma read_content m l : msg_calls m = l -> l <> [] ->
  read_blocks (msg_role m) ((if (msg_content m =? "")%string then [] else [text_block (msg_content m)]) ++ map tool_use l)%list =
  {| msg_role := msg_role m; msg_content := msg_content m; msg_calls := map written_args l; msg_call_id := "" |}.
Proof.
  intros _ Hl. destruct l as [|tc l]; [done|]. destruct (String.eqb_spec (msg_content m) "") as [E|E].
  - change ([] ++ map tool_use (tc :: l))%list with (map tool_use (tc :: l)).
    assert (forall b, b = {| msg_role := msg_role m; msg_content := String.concat "" (map read_text (map tool_use (tc :: l)));
              msg_calls := omap read_call (map tool_use (tc :: l)); msg_call_id := "" |} ->
            b = {| msg_role := msg_role m; msg_content := msg_content m; msg_calls := map written_args (tc :: l); msg_call_id := "" |}) as H.
    { intros b ->. by rewrite read_no_text, read_calls, E. }
    apply H. unfold read_blocks. cbn [map]. destruct (map tool_use l); done.
  - cbn [app]. unfold read_blocks. rewrite (map_cons read_text), concat_cons, read_no_text, append_nil_r.
    cbn [omap list_omap]. rewrite read_calls. done.
Qed.

Lemma read_message_json m : proper m -> read_message (message_json m) = Some (written_message m).
Proof.
  intros (Hr & Ht & Hn). unfold message_json, written_message. cbv zeta. case_bool_decide as E.
  - rewrite (Ht E). unfold read_message, read_blocks. cbn. by rewrite E.
  - rewrite (Hn E). destruct (msg_calls m) as [|tc l] eqn:Hc.
    + unfold read_message. rewrite role_member, content_member, Hr. done.
    + unfold read_message. rewrite role_member, content_member, Hr. f_equal. by apply read_content.
Qed.

Definition read_system (body : json) : option string :=
  match body with
  | JObj m =>
      match member "system" m with
      | Some (JStr t) => Some t
      | Some (JArr [JObj b]) => Some (text_member "text" b)
      | _ => None
      end
  | _ => None
  end.

(** The members of a request, by name. *)
Lemma member_body req stream :
  member "messages" (body_members req stream) =
    Some (json_list (map message_json (List.filter (fun m => negb (is_system m)) (Messages req)))) /\
  member "system" (body_members req stream) = system_json req.
Proof.
  unfold body_members. split; rewrite !member_app.
  - rewrite (member_of_other "messages" "top_p"), (member_of_other "messages" "temperature"), (member_of_other "messages" "system"),
      member_when_other by done. by destruct (Tools req), (StopWords req).
  - rewrite (member_of_other "system" "top_p"), (member_of_other "system" "temperature"), member_of_this by done.
    destruct (Tools req), (system_json req); try done; by destruct stream, (StopWords req).
Qed.

(** C10. The request holds the conversation.  The text that is sent, read as the API
    is documented to read it, gives every message that is no system message back in
    order - its role, its text, its calls with their inputs, the call it answers - and
    as the system prompt that of the request or, without one, the last system message. *)
Theorem request_holds_conversation c req stream :
  Forall proper (Messages req) -> List.filter (fun m => negb (is_system m)) (Messages req) <> [] ->
  readable max_depth (buildRequestBody req stream) ->
  exists body, Unmarshal (po_body (request c req stream)) = Ok body /\
    read_messages body = Some (map written_message (List.filter (fun m => negb (is_system m)) (Messages req))) /\
    read_system body = if (System req =? "")%string then option_map msg_content (last (List.filter is_system (Messages req)))
                       else Some (System req).
Proof.
  intros Hp Hne Hr. exists (buildRequestBody req stream). split; [by apply Unmarshal_Marshal|].
  set (l := List.filter (fun m => negb (is_system m)) (Messages req)) in *.
  assert (Forall proper l) as Hl.
  { apply Forall_forall. intros m Hm%list_elem_of_In. apply filter_In in Hm as [Hm _]. rewrite Forall_forall in Hp. by apply Hp, list_elem_of_In. }
  unfold read_messages, read_system, buildRequestBody. destruct (member_body req stream) as [-> ->]. fold l. split.
  - destruct l as [|x l'] eqn:El; [done|]. cbn [map json_list]. clear -Hl.
    change (message_json x :: map message_json l') with (map message_json (x :: l')).
    change (written_message x :: map written_message l') with (map written_message (x :: l')).
    induction Hl as [|y r Hy Hr IH]; [done|]. cbn [map mapM]. by rewrite (read_message_json y Hy), IH.
  - unfold system_json. destruct (System req =? "")%string; [by destruct (last _)|]. by destruct (CacheSystem req).
Qed.

(** ** An answer with a text and a call *)

Module AnthropicSample.
Definition counts : Usage := {| InputTokens := 12; OutputTokens := 34 |}.
Definition text_part : apiContent := {| c_type := "text"; c_text := "Hello there"; c_id := ""; c_name := ""; c_input := "" |}.
Definition search_part : apiContent :=
  {| c_type := "server_tool_use"; c_text := ""; c_id := "s"; c_name := "web_search"; c_input := dq "{'query':'x'}" |}.
Definition call_part : apiContent :=
  {| c_type := "tool_use"; c_text := ""; c_id := "c"; c_name := "manage_pages"; c_input := dq "{'action': 'list'}" |}.
Definition answer : apiResponse :=
  {| a_id := "m"; a_type := "message"; a_role := "assistant"; a_model := "model"; a_stop := "tool_use"; a_usage := counts;
     a_content := [text_part; search_part; call_part] |}.

(** The lines of the events, by block. *)
Definition start_line : string := dq "data: {'type':'message_start','message':{'id':'m','content':[],'usage':{'input_tokens':12,'output_tokens':1}}}".
Definition text_start : string := dq "data: {'type':'content_block_start','index':0,'content_block':{'type':'text','text':''}}".
Definition text_1 : string := dq "data: {'type':'content_block_delta','index':0,'delta':{'type':'text_delta','text':'Hello'}}".
Definition text_2 : string := dq "data: {'type':'content_block_delta','index':0,'delta':{'type':'text_delta','text':' there'}}".
Definition stop_block : string := dq "data: {'type':'content_block_stop','index':0}".
Definition search_start : string :=
  dq "data: {'type':'content_block_start','index':1,'content_block':{'type':'server_tool_use','id':'s','name':'web_search'}}".
Definition search_1 : string :=
  dq "data: {'type':'content_block_delta','index':1,'delta':{'type':'input_json_delta','partial_json':'{\'query\':\'x\'}'}}".
Definition call_start : string :=
  dq "data: {'type':'content_block_start','index':2,'content_block':{'type':'tool_use','id':'c','name':'manage_pages'}}".
Definition call_1 : string := dq "data: {'type':'content_block_delta','index':2,'delta':{'type':'input_json_delta','partial_json':''}}".
Definition call_2 : string := dq "data: {'type':'content_block_delta','index':2,'delta':{'type':'input_json_delta','partial_json':'{\'act'}}".
Definition call_3 : string := dq "data: {'type':'content_block_delta','index':2,'delta':{'type':'input_json_delta','partial_json':'ion\':\'list\'}'}}".
Definition count_line : string := dq "data: {'type':'message_delta','delta':{'stop_reason':'tool_use'},'usage':{'input_tokens':12,'output_tokens':34}}".
Definition stop_line : string := dq "data: {'type':'message_stop'}".
Definition ping_line : string := dq "data: {'type': 'ping'}".

Definition event (l : string) : sseEvent :=
  match dec_sseEvent (TrimPrefix l "data: ") with
  | Ok e => e
  | Err _ => {| e_type := ""; e_delta := None; e_block := None; e_message := None; e_usage := None; e_error := None; e_index := 0 |}
  end.
Definition lines : list string :=
  ["event: message_start"; start_line; ""; ": comment"; text_start; text_1; text_2; stop_block; ping_line;
   search_start; search_1; stop_block; call_start; call_1; call_2; call_3; stop_block; count_line; stop_line].
Definition text_events : list sseEvent := event text_start :: [event text_1; event text_2] ++ [event stop_block].
Definition search_events : list sseEvent := event search_start :: [event search_1] ++ [event stop_block].
Definition call_events : list sseEvent := event call_start :: [event call_1; event call_2; event call_3] ++ [event stop_block].
Definition events : list sseEvent :=
  event start_line :: List.concat [text_events; search_events; call_events] ++ [] ++ [event count_line; event stop_line].

Ltac deltas := repeat constructor; vm_compute; reflexivity.

Lemma text_block_events : block_events text_part text_events.
Proof.
  apply (Block text_part (event text_start) {| b_type := "text"; b_id := ""; b_name := ""; b_text := "" |}
    [event text_1; event text_2] (event stop_block)); try done; try (vm_compute; reflexivity). deltas.
Qed.
Lemma search_block_events : block_events search_part search_events.
Proof.
  apply (Block search_part (event search_start) {| b_type := "server_tool_use"; b_id := "s"; b_name := "web_search"; b_text := "" |}
    [event search_1] (event stop_block)); try done; try (vm_compute; reflexivity). deltas.
Qed.
Lemma call_block_events : block_events call_part call_events.
Proof.
  apply (Block call_part (event call_start) {| b_type := "tool_use"; b_id := "c"; b_name := "manage_pages"; b_text := "" |}
    [event call_1; event call_2; event call_3] (event stop_block)); try done; try (vm_compute; reflexivity). deltas.
Qed.

Lemma carry l ls es : data_of l = Some (TrimPrefix l "data: ") -> (TrimPrefix l "data: " =? "[DONE]") = false ->
  is_ok (dec_sseEvent (TrimPrefix l "data: ")) = true -> carries ls es -> carries (l :: ls) (event l :: es).
Proof.
  intros Hd Hn%String.eqb_neq Hok H. apply (carries_event l (TrimPrefix l "data: ")); [done|done| |done].
  unfold event. by destruct (dec_sseEvent (TrimPrefix l "data: ")).
Qed.

Lemma lines_carry : carries lines events.
Proof.
  unfold lines, events, text_events, search_events, call_events. cbn [List.concat app].
  repeat first [ apply carries_nil
               | apply carry; [vm_compute; reflexivity..|]
               | apply carries_quiet; [vm_compute; reflexivity|]
               | eapply (carries_ping ping_line); [vm_compute; reflexivity|by intros [=]|vm_compute; reflexivity|vm_compute; reflexivity|] ].
Qed.

(** A conversation with a call and its answer. *)
Definition asked : CompletionRequest :=
  {| Model := "model"; System := "Be brief."; Tools := []; MaxTokens := 100; Temperature := None; TopP := None; StopWords := [];
     CacheSystem := true;
     Messages := [text_message RoleUser "List the pages.";
                  {| msg_role := RoleAssistant; msg_content := "Looking."; msg_call_id := "";
                     msg_calls := [{| tc_id := "c"; tc_name := "manage_pages"; tc_args := dq "{'action': 'list'}" |}] |};
                  {| msg_role := RoleTool; msg_content := "[]"; msg_calls := []; msg_call_id := "c" |}] |}.
End AnthropicSample.
Import AnthropicSample.

Lemma stream_agrees_with_answer_witness :
  exists out, parseSSEStream {| bytes := written (lines ++ ["ignored"]); broken := None |} = ((out ++ [done_chunk (Some counts)])%list, None) /\
    said out = r_content (parseResponse answer) /\ Forall2 same_call (called out) (r_calls (parseResponse answer)) /\ Forall plain out.
Proof.
  apply (stream_agrees_with_answer answer counts lines events ["ignored"] None).
  - apply (Answered answer counts (event start_line) [text_events; search_events; call_events] []
      (event count_line) (event stop_line)); try (vm_compute; reflexivity); [|constructor].
    repeat constructor; [apply text_block_events|apply search_block_events|apply call_block_events].
  - apply lines_carry.
  - repeat constructor; vm_compute; reflexivity.
Defined.

Lemma request_holds_conversation_witness :
  let c := New "claude" "key" [] in
  exists body, Unmarshal (po_body (request c asked true)) = Ok body /\
    read_messages body = Some (map written_message (Messages asked)) /\ read_system body = Some "Be brief.".
Proof.
  apply (request_holds_conversation (New "claude" "key" []) asked true).
  - repeat constructor; done.
  - done.
  - assert (forall n, readable (S (S (S (S (S (S n)))))) (buildRequestBody asked true)) as H.
    { intros n. cbn. repeat split; try (by apply utf8_ascii); vm_compute; reflexivity. }
    apply (H (Nat.sub max_depth 6)).
Defined.
