(* ===== verification/OpenAIFacts.v ===== *)
(** * What the OpenAI provider promises

    The stream of an answer says what the whole answer says, but for the order of
    its calls; and the request holds the conversation. *)

From Stdlib Require Import ZArith Lia Ascii String List Bool.
From stdpp Require Import base list strings.
From S2P Require Import Prelude GoStrings GoTime JSONText PlanJSON PlanStore World LLMTypes SSE OpenAI.

Local Open Scope string_scope.

(** ** Streams of chunks *)

Definition text_of (ch : streamChunkResponse) : string :=
  match s_choices ch with c :: _ => default "" (s_content c) | [] => "" end.
Definition pieces_of (ch : streamChunkResponse) : list apiToolCall :=
  match s_choices ch with c :: _ => s_calls c | [] => [] end.
Definition finish_of (ch : streamChunkResponse) : option string :=
  match s_choices ch with c :: _ => s_finish c | [] => None end.

Inductive carries : list string -> list streamChunkResponse -> Prop :=
| carries_nil : carries [] []
| carries_quiet l ls cs : data_of l = None -> carries ls cs -> carries (l :: ls) cs
| carries_chunk l d ch ls cs : data_of l = Some d -> d <> "[DONE]" -> dec_streamChunk d = Ok ch ->
    carries ls cs -> carries (l :: ls) (ch :: cs).

(** A call comes in pieces: the first has its id and name, the others have none. *)
Inductive call_pieces (t : apiToolCall) : list apiToolCall -> Prop :=
| Pieces p ps : t_id t <> "" -> t_id p = t_id t -> t_name p = t_name t -> Forall (fun q => t_id q = "") ps ->
    String.concat "" (map t_args (p :: ps)) = t_args t -> call_pieces t (p :: ps).

(** The chunks of a message: its text and its calls one after the other, in any
    division into chunks; the last says why it ends; chunks with the counts alone
    may follow. *)
Inductive message_chunks (m : apiMessage) : list streamChunkResponse -> Prop :=
| Chunks pre fin post f calls :
    Forall (fun ch => finish_of ch = None) pre -> finish_of fin = Some f -> Forall (fun ch => s_choices ch = []) post ->
    String.concat "" (map text_of (pre ++ [fin])) = default "" (m_content m) ->
    List.concat (map pieces_of (pre ++ [fin])) = List.concat calls -> Forall2 call_pieces (m_calls m) calls ->
    message_chunks m (pre ++ fin :: post).

(** ** Running the chunks *)

Section Run.
Context `{V : PlaceOrder}.

Fixpoint run_chunks (cs : list streamChunkResponse) (s : SSEState) : list StreamChunk * SSEState :=
  match cs with
  | [] => ([], s)
  | ch :: r => let '(out, s1) := chunk_step ch s in let '(out', s2) := run_chunks r s1 in ((out ++ out')%list, s2)
  end.

Lemma chunks_app a b s : run_chunks (a ++ b) s =
  let '(o1, s1) := run_chunks a s in let '(o2, s2) := run_chunks b s1 in ((o1 ++ o2)%list, s2).
Proof.
  revert s. induction a as [|ch a IH]; intros s; cbn [app run_chunks]; [by destruct (run_chunks b s)|].
  destruct (chunk_step ch s) as [o1 s1]. rewrite IH. destruct (run_chunks a s1) as [o2 s2]. destruct (run_chunks b s2) as [o3 s3].
  by rewrite app_assoc.
Qed.

Lemma chunks_carried ls cs rest err : carries ls cs -> forall s,
  stream_lines "openai" stream_step usage (ls ++ rest) err s =
  let '(out, s') := run_chunks cs s in
  let '(out', e) := stream_lines "openai" stream_step usage rest err s' in ((out ++ out')%list, e).
Proof.
  induction 1 as [|l ls cs Hl _ IH|l d ch ls cs Hl Hd Hc _ IH]; intros s.
  - cbn. by destruct (stream_lines _ _ _ rest err s).
  - cbn [app stream_lines]. rewrite Hl. apply IH.
  - cbn [app stream_lines run_chunks]. rewrite Hl. unfold stream_step at 1. apply String.eqb_neq in Hd. rewrite Hd, Hc.
    destruct (chunk_step ch s) as [o1 s1]. rewrite IH. destruct (run_chunks cs s1) as [o2 s2].
    destruct (stream_lines _ _ _ rest err s2). by rewrite app_assoc.
Qed.

(** The counts of the last chunk that has any. *)
Definition counts (cs : list streamChunkResponse) (u : option Usage) : option Usage :=
  fold_left (fun u ch => match s_usage ch with Some v => Some v | None => u end) cs u.

Lemma run_usage cs s : usage (snd (run_chunks cs s)) = counts cs (usage s).
Proof.
  revert s. induction cs as [|ch cs IH]; intros s; [done|]. cbn [run_chunks].
  destruct (chunk_step ch s) as [o1 s1] eqn:Hc. specialize (IH s1). destruct (run_chunks cs s1) as [o2 s2]. cbn [snd] in *.
  rewrite IH. unfold counts. cbn [fold_left]. f_equal.
  revert Hc. unfold chunk_step, choice_step. cbv zeta. destruct (s_usage ch), (s_choices ch); [| | |]; try (intros [= <- <-]; done);
    match goal with |- context [if ?b then _ else _] => destruct b end; by intros [= <- <-].
Qed.

(** *** Unfinished chunks *)

Definition text_chunks (ch : streamChunkResponse) : list StreamChunk :=
  if (text_of ch =? "")%string then [] else [delta (text_of ch)].

Lemma text_chunks_tell ch : said (text_chunks ch) = text_of ch /\ called (text_chunks ch) = [] /\ Forall plain (text_chunks ch).
Proof. unfold text_chunks. destruct (String.eqb_spec (text_of ch) "") as [->|]; [done|]. split; [by cbn|]. by repeat constructor. Qed.

Lemma step_texts ch s : chunk_step ch s =
  let calls := fold_left add_piece (pieces_of ch) (partial s) in
  let u := counts [ch] (usage s) in
  if match finish_of ch with Some f => (f =? "tool_calls")%string | None => false end
  then ((text_chunks ch ++ flush calls)%list, {| partial := []; usage := u |})
  else (text_chunks ch, {| partial := calls; usage := u |}).
Proof.
  unfold chunk_step, choice_step, text_chunks, text_of, pieces_of, finish_of, counts. cbn [fold_left]. cbv zeta.
  destruct (s_choices ch) as [|c r]; [by destruct (s_usage ch), s|].
  destruct (s_content c) as [t|]; cbn; [destruct (t =? "")%string|]; destruct (s_usage ch); done.
Qed.

Lemma run_unfinished pre : Forall (fun ch => finish_of ch = None) pre -> forall s, exists out,
  run_chunks pre s = (out, {| partial := fold_left add_piece (List.concat (map pieces_of pre)) (partial s); usage := counts pre (usage s) |}) /\
  said out = String.concat "" (map text_of pre) /\ called out = [] /\ Forall plain out.
Proof.
  induction 1 as [|ch pre Hc _ IH]; intros s; [exists []; by destruct s|]. cbn [run_chunks]. rewrite step_texts, Hc. cbv zeta.
  destruct (IH {| partial := fold_left add_piece (pieces_of ch) (partial s); usage := counts [ch] (usage s) |}) as (out & -> & Hs & Hcl & Hp).
  destruct (text_chunks_tell ch) as (Ht & Htc & Htp). exists (text_chunks ch ++ out)%list. split_and!.
  - cbn [map List.concat]. by rewrite fold_left_app.
  - rewrite said_app, Hs, Ht. cbn [map]. by rewrite concat_cons.
  - by rewrite called_app, Htc.
  - by apply Forall_app.
Qed.

Lemma chunks_counted post : Forall (fun ch => s_choices ch = []) post -> forall s,
  run_chunks post s = ([], {| partial := partial s; usage := counts post (usage s) |}).
Proof.
  induction 1 as [|ch post Hc _ IH]; intros s; [by destruct s|]. cbn [run_chunks].
  rewrite step_texts. unfold finish_of, pieces_of, text_chunks, text_of. rewrite Hc. cbn. by rewrite IH.
Qed.

(** *** Calls *)

Lemma add_to_last_app t l tc : add_to_last t (l ++ [tc]) = (l ++ [add_args t tc])%list.
Proof.
  induction l as [|x l IH]; [done|]. cbn [app add_to_last]. rewrite IH. by destruct l.
Qed.

Lemma add_more ps : Forall (fun q => t_id q = "") ps -> forall l tc,
  fold_left add_piece ps (l ++ [tc])%list = (l ++ [add_args (String.concat "" (map t_args ps)) tc])%list.
Proof.
  induction 1 as [|q ps Hq _ IH]; intros l tc.
  - cbn. unfold add_args. rewrite append_nil_r. by destruct tc.
  - cbn [fold_left map]. unfold add_piece at 2. rewrite Hq. cbn [String.eqb]. rewrite concat_cons.
    destruct (String.eqb_spec (t_args q) "") as [->|]; [by rewrite IH|]. rewrite add_to_last_app, IH. unfold add_args. cbn.
    by rewrite append_assoc.
Qed.

Lemma add_call t ps l : call_pieces t ps -> fold_left add_piece ps l = (l ++ [parse_call t])%list.
Proof.
  intros [p qs Hne Hid Hname Hqs Hargs]. cbn [fold_left map] in *. rewrite concat_cons in Hargs. unfold add_piece at 2.
  apply String.eqb_neq in Hne. rewrite Hid, Hne, Hname. unfold parse_call. rewrite <- Hargs.
  destruct (String.eqb_spec (t_args p) "") as [->|]; [rewrite add_more by done|rewrite add_to_last_app, add_more by done]; done.
Qed.

Lemma add_calls ts calls l : Forall2 call_pieces ts calls ->
  fold_left add_piece (List.concat calls) l = (l ++ map parse_call ts)%list.
Proof.
  intros H. revert l. induction H as [|t ps ts calls Ht _ IH]; intros l; [by rewrite app_nil_r|].
  cbn [List.concat map]. rewrite fold_left_app, (add_call t ps l Ht), IH. by rewrite <- app_assoc.
Qed.

Lemma flush_calls l : said (flush l) = "" /\ called (flush l) ≡ₚ map finished l /\ Forall plain (flush l).
Proof.
  unfold flush. split_and!.
  - unfold said. induction (visit l) as [|x r IH]; [done|]. cbn [map]. by rewrite concat_cons.
  - assert (forall r, called (map (fun tc => call_chunk (finished tc)) r) = map finished r) as ->.
    { induction r as [|x r IH]; [done|]. cbn. by rewrite <- IH. }
    apply Permutation_map, visit_perm.
  - induction (visit l); by repeat constructor.
Qed.

Lemma flush_nil : flush [] = [].
Proof. unfold flush. pose proof (visit_perm (A := ToolCall) []) as H. apply Permutation_nil_r in H. by rewrite H. Qed.

Lemma stream_done rest err s :
  stream_lines "openai" stream_step usage ("data: [DONE]" :: rest) err s = ((flush (partial s) ++ [done_chunk (usage s)])%list, None).
Proof. done. Qed.

(** A stream says what the whole answer says, whatever chunks it comes in: the
    text is that of the answer, the calls are those of the answer with their
    arguments (none standing for the empty object) - in some order, since they are
    kept in a map - each once, whether the message ends with them or for another
    reason; the counts are the last that were given; and there is no error. *)
Theorem stream_agrees_up_to_order r c cs choices ls rest err :
  a_choices r = c :: choices -> message_chunks (ch_message c) cs -> carries ls cs ->
  Forall good_line (ls ++ "data: [DONE]" :: rest) ->
  exists out, parseSSEStream {| bytes := written (ls ++ "data: [DONE]" :: rest); broken := err |} =
      ((out ++ [done_chunk (counts cs None)])%list, None) /\
    said out = r_content (parseResponse r) /\ called out ≡ₚ map finished (r_calls (parseResponse r)) /\ Forall plain out.
Proof.
  intros Hr [pre fin post f calls Hpre Hfin Hpost Htext Hpieces Hcalls] Hc Hl.
  unfold parseSSEStream, stream_body. rewrite Scan_written, (chunks_carried _ _ _ _ Hc), chunks_app by done.
  destruct (run_unfinished pre Hpre sse_start) as (o1 & -> & Hs1 & Hc1 & Hp1). cbn [run_chunks]. rewrite step_texts, Hfin. cbv zeta.
  cbn [partial usage sse_start]. rewrite <- fold_left_app.
  rewrite map_app, concat_app in Htext. rewrite map_app, List.concat_app in Hpieces. cbn [map String.concat List.concat] in Htext, Hpieces.
  rewrite app_nil_r in Hpieces. rewrite Hpieces, (add_calls _ _ [] Hcalls). cbn [app].
  destruct (text_chunks_tell fin) as (Ht & Htc & Htp). destruct (flush_calls (map parse_call (m_calls (ch_message c)))) as (Fs & Fc & Fp).
  assert (counts post (counts [fin] (counts pre None)) = counts (pre ++ fin :: post) None) as Hu.
  { unfold counts. by rewrite fold_left_app. }
  assert (r_content (parseResponse r) = said o1 ++ text_of fin) as Ec.
  { unfold parseResponse. rewrite Hr. cbn [r_content]. by rewrite <- Htext, Hs1. }
  assert (r_calls (parseResponse r) = map parse_call (m_calls (ch_message c))) as Ecalls by (unfold parseResponse; by rewrite Hr).
  rewrite Ec, Ecalls. clear Ec Ecalls.
  set (calls' := map parse_call (m_calls (ch_message c))) in *.
  exists (o1 ++ text_chunks fin ++ flush calls')%list. split; [|split_and!].
  - destruct (f =? "tool_calls")%string; rewrite chunks_counted by done; cbn [partial usage]; rewrite Hu, stream_done;
      cbn [partial usage]; rewrite ?flush_nil, ?app_nil_r; cbn [app]; by rewrite <- ?app_assoc.
  - by rewrite !said_app, Ht, Fs, append_nil_r.
  - by rewrite !called_app, Hc1, Htc.
  - by repeat (apply Forall_app; split).
Qed.
End Run.

(** ** The request holds the conversation *)

Definition text_member (k : string) (m : list (string * json)) : string :=
  match member k m with Some (JStr t) => t | _ => "" end.
Definition read_call (j : json) : option ToolCall :=
  match j with
  | JObj m => match member "function" m with
              | Some (JObj f) => Some {| tc_id := text_member "id" m; tc_name := text_member "name" f; tc_args := text_member "arguments" f |}
              | _ => None
              end
  | _ => None
  end.
Definition read_message (j : json) : option Message :=
  match j with
  | JObj m =>
      Some {| msg_role := role_of (text_member "role" m); msg_content := text_member "content" m;
              msg_calls := match member "tool_calls" m with Some (JArr l) => omap read_call l | _ => [] end;
              msg_call_id := text_member "tool_call_id" m |}
  | _ => None
  end.
Definition read_messages (body : json) : option (list Message) :=
  match body with
  | JObj m => match member "messages" m with Some (JArr l) => mapM read_message l | _ => None end
  | _ => None
  end.

(** A message as the code makes them: only the assistant calls tools, only a tool answers. *)
Definition proper (m : Message) : Prop :=
  known_role (msg_role m) /\ (msg_role m <> RoleAssistant -> msg_calls m = []) /\ (msg_role m <> RoleTool -> msg_call_id m = "").

Lemma read_tool_calls l : omap read_call (map tool_call_json l) = l.
Proof. induction l as [|tc l IH]; [done|]. cbn. rewrite IH. by destruct tc. Qed.

Lemma read_plain c role : read_message (JObj [("content", JStr c); ("role", JStr role)]) =
  Some {| msg_role := role_of role; msg_content := c; msg_calls := []; msg_call_id := "" |}.
Proof. done. Qed.
Lemma read_with_calls c role l : read_message (JObj [("content", c); ("role", JStr role); ("tool_calls", JArr l)]) =
  Some {| msg_role := role_of role; msg_content := match c with JStr t => t | _ => "" end; msg_calls := omap read_call l; msg_call_id := "" |}.
Proof. done. Qed.
Lemma read_answer c i : read_message (JObj [("content", JStr c); ("role", JStr "tool"); ("tool_call_id", JStr i)]) =
  Some {| msg_role := RoleTool; msg_content := c; msg_calls := []; msg_call_id := i |}.
Proof. done. Qed.

Lemma read_message_back m : proper m -> read_message (message_json m) = Some m.
Proof.
  intros (Hr & Ha & Ht). unfold message_json. cbv zeta. unfold known_role in Hr.
  destruct m as [ro co ca id]; cbn [msg_role msg_content msg_calls msg_call_id] in *. case_bool_decide as E.
  - rewrite read_answer. rewrite (Ha ltac:(by rewrite E)). by subst.
  - rewrite (Ht E). case_bool_decide as E2; cbn [andb].
    + case_bool_decide as E3; cbn [negb]; [by rewrite read_plain, Hr, E3|].
      rewrite read_with_calls, read_tool_calls, Hr. by destruct (String.eqb_spec co "") as [->|].
    + by rewrite read_plain, Hr, (Ha E2).
Qed.

Lemma member_messages req stream :
  member "messages" (body_members req stream) = Some (json_list (system_message (System req) ++ map message_json (Messages req))%list).
Proof.
  unfold body_members. rewrite !member_app.
  rewrite (member_of_other "messages" "top_p"), (member_of_other "messages" "temperature"), !member_when_other by done.
  by destruct (List.filter _ (Tools req)), (StopWords req).
Qed.

(** The request holds the conversation: the text that is sent, read as the API is
    documented to read it, is the system prompt, if there is one, and then every
    message as it is. *)
Theorem openai_request_holds_conversation c req stream :
  Forall proper (Messages req) -> Messages req <> [] -> readable max_depth (buildRequestBody req stream) ->
  exists body, Unmarshal (po_body (request c req stream)) = Ok body /\
    read_messages body = Some ((if (System req =? "")%string then [] else [text_message RoleSystem (System req)]) ++ Messages req)%list.
Proof.
  intros Hp Hne Hr. exists (buildRequestBody req stream). split; [by apply Unmarshal_Marshal|].
  unfold read_messages, buildRequestBody. rewrite member_messages. unfold system_message.
  assert (mapM read_message (map message_json (Messages req)) = Some (Messages req)) as Hm.
  { clear Hne Hr. induction Hp as [|m l Hm _ IH]; [done|]. cbn [map mapM]. by rewrite (read_message_back m Hm), IH. }
  destruct (System req =? "")%string; cbn [app].
  - destruct (Messages req); [done|exact Hm].
  - cbn [json_list mapM]. rewrite Hm. done.
Qed.

(** ** An answer with two calls *)

Module OpenAISample.
(** The places of a map, the last first. *)
#[export] Instance backwards : PlaceOrder := {| visit A l := rev l; visit_perm A l := Permutation_sym (Permutation_rev l) |}.

Definition used : Usage := {| InputTokens := 5; OutputTokens := 7 |}.
Definition call_a : apiToolCall := {| t_id := "a"; t_type := "function"; t_name := "manage_pages"; t_args := dq "{'action':'list'}" |}.
Definition call_b : apiToolCall := {| t_id := "b"; t_type := "function"; t_name := "manage_site"; t_args := "" |}.
Definition message : apiMessage := {| m_role := "assistant"; m_content := Some "Looking now."; m_calls := [call_a; call_b] |}.
Definition choice : apiChoice := {| ch_index := 0; ch_message := message; ch_finish := "tool_calls" |}.
Definition answer : apiResponse := {| a_id := "x"; a_object := ""; a_model := "model"; a_choices := [choice]; a_usage := used |}.

Definition line_1 : string := dq "data: {'choices':[{'index':0,'delta':{'role':'assistant','content':'Looking'},'finish_reason':null}]}".
Definition line_2 : string := dq "data: {'choices':[{'index':0,'delta':{'content':' now.'},'finish_reason':null}]}".
Definition line_3 : string :=
  dq "data: {'choices':[{'delta':{'tool_calls':[{'index':0,'id':'a','function':{'name':'manage_pages','arguments':''}}]}}]}".
Definition line_4 : string := dq "data: {'choices':[{'delta':{'tool_calls':[{'index':0,'function':{'arguments':'{\'action\':'}}]}}]}".
Definition line_5 : string :=
  dq "data: {'choices':[{'delta':{'tool_calls':[{'index':0,'function':{'arguments':'\'list\'}'}},{'index':1,'id':'b','function':{'name':'manage_site'}}]}}]}".
Definition line_6 : string := dq "data: {'choices':[{'delta':{},'finish_reason':'tool_calls'}]}".
Definition line_7 : string := dq "data: {'choices':[],'usage':{'prompt_tokens':5,'completion_tokens':7,'total_tokens':12}}".

Definition chunk (l : string) : streamChunkResponse :=
  match dec_streamChunk (TrimPrefix l "data: ") with
  | Ok e => e
  | Err _ => {| s_model := ""; s_choices := []; s_usage := None |}
  end.
Definition lines : list string := [line_1; ""; line_2; ": comment"; line_3; line_4; line_5; line_6; line_7].
Definition chunks : list streamChunkResponse :=
  [chunk line_1; chunk line_2; chunk line_3; chunk line_4; chunk line_5] ++ chunk line_6 :: [chunk line_7].

Lemma chunk_carried l ls cs : data_of l = Some (TrimPrefix l "data: ") -> (TrimPrefix l "data: " =? "[DONE]") = false ->
  is_ok (dec_streamChunk (TrimPrefix l "data: ")) = true -> carries ls cs -> carries (l :: ls) (chunk l :: cs).
Proof.
  intros Hd Hn%String.eqb_neq Hok H. apply (carries_chunk l (TrimPrefix l "data: ")); [done|done| |done].
  unfold chunk. by destruct (dec_streamChunk (TrimPrefix l "data: ")).
Qed.

Lemma chunk_lines_carried : carries lines chunks.
Proof.
  unfold lines, chunks. cbn [app].
  repeat first [ apply carries_nil
               | apply chunk_carried; [vm_compute; reflexivity..|]
               | apply carries_quiet; [vm_compute; reflexivity|] ].
Qed.

Definition pieces_a : list apiToolCall :=
  [{| t_id := "a"; t_type := ""; t_name := "manage_pages"; t_args := "" |};
   {| t_id := ""; t_type := ""; t_name := ""; t_args := dq "{'action':" |};
   {| t_id := ""; t_type := ""; t_name := ""; t_args := dq "'list'}" |}].
Definition pieces_b : list apiToolCall := [{| t_id := "b"; t_type := ""; t_name := "manage_site"; t_args := "" |}].

Lemma chunks_of_message : message_chunks message chunks.
Proof.
  apply (Chunks message [chunk line_1; chunk line_2; chunk line_3; chunk line_4; chunk line_5] (chunk line_6) [chunk line_7]
    "tool_calls" [pieces_a; pieces_b]); try (vm_compute; reflexivity).
  - repeat constructor; vm_compute; reflexivity.
  - repeat constructor; vm_compute; reflexivity.
  - constructor; [apply Pieces|constructor; [apply Pieces|constructor]]; try done; repeat constructor.
Qed.

(** A conversation with a call and its answer. *)
Definition asked : CompletionRequest :=
  {| Model := "model"; System := "Be brief."; Tools := []; MaxTokens := 100; Temperature := None; TopP := None; StopWords := [];
     CacheSystem := false;
     Messages := [text_message RoleUser "List the pages.";
                  {| msg_role := RoleAssistant; msg_content := ""; msg_call_id := "";
                     msg_calls := [{| tc_id := "c"; tc_name := "manage_pages"; tc_args := dq "{'action': 'list'}" |}] |};
                  {| msg_role := RoleTool; msg_content := "[]"; msg_calls := []; msg_call_id := "c" |}] |}.
End OpenAISample.
Import OpenAISample.

Lemma stream_agrees_up_to_order_witness :
  exists out, parseSSEStream {| bytes := written (lines ++ "data: [DONE]" :: []); broken := None |} =
      ((out ++ [done_chunk (counts chunks None)])%list, None) /\
    said out = "Looking now." /\ called out ≡ₚ map finished (r_calls (parseResponse answer)) /\ Forall plain out.
Proof.
  apply (stream_agrees_up_to_order answer choice chunks [] lines [] None); [done|apply chunks_of_message|apply chunk_lines_carried|].
  repeat constructor; vm_compute; reflexivity.
Defined.

Lemma openai_request_holds_conversation_witness :
  let c := New "gpt" "key" [] in
  exists body, Unmarshal (po_body (request c asked true)) = Ok body /\
    read_messages body = Some (text_message RoleSystem "Be brief." :: Messages asked).
Proof.
  apply (openai_request_holds_conversation (New "gpt" "key" []) asked true).
  - repeat constructor; done.
  - done.
  - assert (forall n, readable (S (S (S (S (S (S n)))))) (buildRequestBody asked true)) as H.
    { intros n. cbn. repeat split; try (by apply utf8_ascii); vm_compute; reflexivity. }
    apply (H (Nat.sub max_depth 6)).
Defined.
