(* ===== verification/ToolCore.v ===== *)
(** * The tools package's core: arguments, registry, executor, summaries

    tools/types.go, tools/helpers.go, tools/registry.go, tools/executor.go and
    tools/summarize.go.  A tool is a record of its methods; the optional
    interfaces (Documented, ResultSizer, Summarizer) are options.  What a tool
    does is an action on the [World], and it answers with the argument map as it
    leaves it, since the caller still holds that map; a tool that panics ends the
    process and has no place here. *)

From Stdlib Require Import ZArith Lia Ascii String List Bool.
From stdpp Require Import base list strings gmap sorting.
From S2P Require Import Prelude GoStrings GoTime JSONText World.

Local Open Scope string_scope.

(** ** Arguments and results *)

(** [map[string]interface{}] as decoded: of a repeated key the last counts. *)
Definition Args := list (string * json).

Fixpoint arg (k : string) (args : Args) : option json :=
  match args with
  | [] => None
  | (k', v) :: r =>
      match arg k r with
      | Some w => Some w
      | None => if (k' =? k)%string then Some v else None
      end
  end.

(** [s, _ := args[k].(string)] *)
Definition arg_string (k : string) (args : Args) : string :=
  match arg k args with Some (JStr s) => s | _ => "" end.

Definition set_arg (k : string) (v : json) (args : Args) : Args := (args ++ [(k, v)])%list.

Record Result := { Success : bool; Data : option json; Error : string }.

Definition failure (msg : string) : Result := {| Success := false; Data := None; Error := msg |}.

(** The result's JSON: data and error are omitted when nil and empty. *)
Definition enc_Result (r : Result) : json :=
  JObj ([("success", JBool (Success r))]
        ++ match Data r with Some d => [("data", d)] | None => [] end
        ++ if (Error r =? "")%string then [] else [("error", JStr (Error r))])%list.

(** [RequireAction]: the action, or the error result. *)
Definition RequireAction (args : Args) : res Result string :=
  let action := arg_string "action" args in
  if (action =? "")%string then Err (failure "action is required") else Ok action.

(** [RequireString] *)
Definition RequireString (args : Args) (key : string) : res Result string :=
  let v := arg_string key args in
  if (v =? "")%string then Err (failure (key ++ " is required")) else Ok v.

Definition OptionalString (args : Args) (key defaultVal : string) : string :=
  match arg key args with
  | Some (JStr s) => if (s =? "")%string then defaultVal else s
  | _ => defaultVal
  end.

Definition OptionalBool (args : Args) (key : string) (defaultVal : bool) : bool :=
  match arg key args with Some (JBool b) => b | _ => defaultVal end.

(** [joinSorted]: joined with commas (and, as its comment says, not sorted). *)
Definition joinSorted (s : list string) : string :=
  match s with
  | [] => ""
  | x :: r => fold_left (fun out v => out ++ ", " ++ v) r x
  end.

Definition arg_num (k : string) (args : Args) : option string :=
  match arg k args with Some (JNum lit) => Some lit | _ => None end.

Definition success (m : list (string * json)) : Result := {| Success := true; Data := Some (JObj m); Error := "" |}.
Definition result_data (j : json) : Result := {| Success := true; Data := Some j; Error := "" |}.

(** A float64 argument is told apart by what the code does with it: whether it
    is zero, whether it is positive, whether it is at most an integer, and [int] of it.  [foreign_keys] tells
    whether SQLite enforces the cascade of the schema. *)
Class Formats := {
  float_zero : string -> bool;
  float_positive : string -> bool;
  float_int : string -> Z;
  float_leb : string -> Z -> bool;
  float_of_int : forall n, - 2 ^ 53 <= n <= 2 ^ 53 ->
    float_int (Itoa n) = n /\ float_positive (Itoa n) = (0 <? n)%Z /\ float_zero (Itoa n) = (n =? 0)%Z /\
    forall m, float_leb (Itoa n) m = (n <=? m)%Z;
  time_text : time -> string;            (* MarshalJSON of a time *)
  foreign_keys : bool;
}.

(** ** Tools *)

Record Tool := {
  Name : string;
  ToolDescription : string;
  Parameters : json;
  Guide : option string;                      (* Documented *)
  MaxResultSize : option Z;                   (* ResultSizer *)
  Summarize : option (string -> string);      (* Summarizer *)
  Run : Args -> M (res string (option Result) * Args);
}.

(** [DispatchAction]: the handler of the action, inferred from the other
    arguments when the action is missing and inference is given.  [order] is
    the order Go's map iteration takes the routes in; [R] is what a handler is
    in the caller's monad, and [reply] answers with a result. *)
Definition ActionHandler (R : Type) := Args -> R.

Definition DispatchAction {R} (reply : Result -> ActionHandler R) (routes : gmap string (ActionHandler R))
    (order : list string) (inferAction : option (Args -> string)) (args : Args) : R :=
  let run (action : string) (args : Args) : R :=
    match routes !! action with
    | Some handler => handler args
    | None => reply (failure ("unknown action " ++ Quote action ++ " — valid actions: " ++ joinSorted order)) args
    end in
  match RequireAction args with
  | Ok action => run action args
  | Err r =>
      let action := match inferAction with Some f => f args | None => "" end in
      if (action =? "")%string then reply r args
      else run action (set_arg "action" (JStr action) args)
  end.

(** ** The registry *)

Definition Registry := gmap string Tool.

Definition NewRegistry : Registry := ∅.
Definition Register (t : Tool) (r : Registry) : Registry := <[Name t := t]> r.

Definition Get (r : Registry) (name : string) : res string Tool :=
  match r !! name with
  | Some t => Ok t
  | None => Err ("tool not found: " ++ name)
  end.

Definition Has (r : Registry) (name : string) : bool :=
  match r !! name with Some _ => true | None => false end.

Fixpoint insert_name (x : string) (l : list string) : list string :=
  match l with
  | [] => [x]
  | y :: r => match String.compare x y with Gt => y :: insert_name x r | _ => x :: l end
  end.

(** [sort.Strings] of the names. *)
Definition sortedNames (r : Registry) : list string := foldr insert_name [] (map_to_list r).*1.

Definition List (r : Registry) : list Tool := omap (fun n => r !! n) (sortedNames r).

Definition tool_def (t : Tool) : ToolDef :=
  {| td_name := Name t; td_description := ToolDescription t |}.

Definition ToLLMTools (r : Registry) : list ToolDef := map tool_def (List r).

Definition ToLLMToolsFiltered (r : Registry) (allowed : gset string) : list ToolDef :=
  omap (fun n => if bool_decide (n ∈ allowed) then tool_def <$> r !! n else None) (sortedNames r).

Definition newline : string := s1 (byte_of 10).

Definition BuildGuide (r : Registry) (allowed : gset string) : string :=
  String.concat "" (omap (fun n =>
    if bool_decide (n ∈ allowed) then
      (fun t => match Guide t with
                | Some g => g ++ newline
                | None => "- **" ++ n ++ "**: " ++ ToolDescription t ++ newline
                end) <$> r !! n
    else None) (sortedNames r)).

(** [ChatToolSet] *)
Definition ChatToolSet : gset string := list_to_set
  ["manage_pages"; "manage_files"; "manage_layout"; "manage_data"; "manage_endpoints"; "manage_schema";
   "manage_diagnostics"; "manage_analytics"; "manage_communication"; "manage_scheduler"; "manage_site";
   "manage_secrets"; "manage_providers"; "manage_email"; "manage_payments"; "manage_webhooks";
   "make_http_request"].

(** ** The executor *)

Definition marshalError (msg : string) : string := Marshal (enc_Result (failure msg)).

Definition ms (d : duration) : value := VInt64 (Z.quot d 1000000).

Section Executor.
Context `{E : Env}.

(** [Executor.Execute].  The tool runs in a goroutine of its own; when the
    context is done before it answers, its answer is dropped (its effects
    are not).  The error of the pair is never set. *)
Definition Execute (r : Registry) (name : string) (args : Args) : M (res string string * Args) :=
  match Get r name with
  | Err _ => mret (Ok (marshalError ("unknown tool: " ++ name)), args)
  | Ok tool =>
      start ← now;
      out ← Run tool args;
      let '(answer, args) := out in
      done ← ctx_Err;
      let answer := match done with
                    | Some why => Err ("tool " ++ name ++ " timed out: " ++ why)
                    | None => answer
                    end in
      finish ← now;
      let payload := [("tool", VString name); ("args", VArgs args); ("duration_ms", ms (finish - start)%Z)] in
      match answer with
      | Err e =>
          publish "tool.failed" (payload ++ [("error", VString e)])%list;;
          mret (Ok (marshalError e), args)
      | Ok result =>
          let result := default {| Success := true; Data := None; Error := "" |} result in
          publish "tool.executed" (payload ++ [("success", VBool (Success result))])%list;;
          mret (Ok (Marshal (enc_Result result)), args)
      end
  end.
End Executor.

(** ** Summaries *)

(** [parseSummaryResult]: the success flag, the data and the error of a result
    text, or nothing if the text is no result. *)
Definition parseSummaryResult (result : string) : option (bool * option json * string) :=
  match Unmarshal result with
  | Ok (JObj m) =>
      match (match member "success" m with
             | None | Some JNull => Ok false
             | Some (JBool b) => Ok b
             | Some _ => Err "json: cannot unmarshal"
             end), dec_string "" (member "error" m) with
      | Ok s, Ok e => Some (s, match member "data" m with Some JNull => None | d => d end, e)
      | _, _ => None
      end
  | Ok JNull => Some (false, None, "")
  | _ => None
  end.

Definition summarizeError (errMsg : string) : string :=
  dq "{'success':false,'error':'" ++ take_str 150 errMsg ++ dq "'}".

Definition summarizeTruncate (s : string) (maxLen : nat) : string :=
  if (String.length s <=? maxLen)%nat then s else take_str maxLen s ++ "...".

Definition GenericSummarize (result : string) : string :=
  match parseSummaryResult result with
  | None => summarizeTruncate result 200
  | Some (false, _, e) => summarizeError e
  | Some (true, Some (JArr l), _) =>
      dq "{'success':true,'summary':'Returned " ++ Itoa (Z.of_nat (List.length l)) ++ dq " items'}"
  | Some (true, _, _) => summarizeTruncate result 300
  end.
