(* ===== verification/LLMLoop.v ===== *)
(** * brain/pipeline.go: calls to the language model and its tools

    [callWithRetry], [runToolLoop], [executeToolCalls] and the helpers that
    save, publish, truncate and summarize what they exchange.  The call log
    the code keeps beside (llm/logged_provider.go) is not part of the state. *)

From Stdlib Require Import ZArith Lia Ascii String List Bool.
From stdpp Require Import base list strings gmap.
From S2P Require Import Prelude GoStrings GoTime JSONText LLMTypes World ToolCore.

Local Open Scope string_scope.

(** What the worker is given besides its databases (brain/types.go, Deps). *)
Class Deps := { siteID : Z; ToolRegistry : Registry }.

(** ** Constants *)

Definition monitoringBaseDefault : duration := 5 * minute.
Definition monitoringMaxDefault : duration := 15 * minute.
Definition idleThreshold : Z := 3.
Definition maxStageRetries : Z := 3.
Definition maxLLMRetries : nat := 3.
Definition maxContinuations : Z := 3.

(** ** Small helpers *)

Definition truncate (s : string) (maxLen : Z) : string :=
  if (Z.of_nat (String.length s) <=? maxLen)%Z then s else take_str (Z.to_nat maxLen) s ++ "...".

Definition isInteractiveTool (name : string) : bool :=
  existsb (String.eqb name)
    ["manage_communication"; "manage_pages"; "manage_files"; "manage_layout"; "manage_schema";
     "manage_data"; "manage_endpoints"].

(** A connection error, from which a retry cannot recover. *)
Definition connection_error (msg api : string) : bool :=
  Contains msg "send request:" && negb (Contains msg api) && negb (Contains msg "timeout")
  && negb (Contains msg "context deadline exceeded").

Definition isPermanentError (err : string) : bool :=
  let msg := ToLower err in
  existsb (Contains msg)
    ["no api key"; "no model configured"; "provider not available"; "failed to decrypt"; "has no api key";
     "has no base_url"]
  || connection_error msg "api error".

(** [int64(f)] for a float of value mant * 2^exp: truncated toward zero; out of
    range, the conversion of amd64. *)
Definition int64_of_float (mant exp : Z) : Z :=
  let v := (if 0 <=? exp then mant * 2 ^ exp else Z.quot mant (2 ^ (- exp)))%Z in
  if ((min_int64 <=? v) && (v <=? max_int64))%Z then v else min_int64.

Definition payloadInt64 (p : option payload) (key : string) : Z :=
  match p with
  | None => 0
  | Some m =>
      match payload_get key m with
      | Some (VInt64 v) | Some (VInt v) => v
      | Some (VFloat64 mant exp) => int64_of_float mant exp
      | Some (VString s) => match Atoi s with (n, None) => n | _ => 0 end
      | _ => 0
      end
  end%Z.

(** [toolProgressMessage]: the empty string where there is nothing to say. *)
Definition toolProgressMessage (toolName : string) (args : Args) : string :=
  let action := arg_string "action" args in
  let said k f := let v := arg_string k args in if (v =? "")%string then "" else f v in
  if (toolName =? "manage_files") && (action =? "save") then
    said "filename" (fun f =>
      let scope := arg_string "scope" args in
      "Created **" ++ f ++ "** (" ++ (if (scope =? "")%string then "page" else scope) ++ ")")
  else if (toolName =? "manage_files") && (action =? "delete") then
    said "filename" (fun f => "Deleted **" ++ f ++ "**")
  else if (toolName =? "manage_layout") && (action =? "save") then
    let name := arg_string "name" args in
    "Saved layout: **" ++ (if (name =? "")%string then "default" else name) ++ "**"
  else if (toolName =? "manage_schema") && (action =? "create") then
    said "table_name" (fun t => "Created table: **" ++ t ++ "**")
  else if (toolName =? "manage_endpoints") && HasPrefix action "create_" then
    said "path" (fun p => "Created endpoint: **/api/" ++ p ++ "** (" ++ action ++ ")")
  else "".

(** [json.Unmarshal] into a [map[string]interface{}]. *)
Definition args_of_json (j : json) : res string Args :=
  let wrong kind := Err ("json: cannot unmarshal " ++ kind
                         ++ " into Go value of type map[string]interface {}") in
  match j with
  | JObj m => Ok m
  | JNull => Ok []
  | JArr _ => wrong "array"
  | JStr _ => wrong "string"
  | JNum _ => wrong "number"
  | JBool _ => wrong "bool"
  end.

(** The arguments of a call: an array of one element is unwrapped. *)
Definition decode_args (text : string) : res string Args :=
  match Unmarshal text with
  | Ok (JArr [j]) => if HasPrefix text "[" then args_of_json j else args_of_json (JArr [j])
  | Ok j => args_of_json j
  | Err e => Err e
  end.

Section Loop.
Context `{E : Env} `{D : Deps}.

(** ** Persistence helpers *)

Definition saveChatMessage (msg : Message) : M unit :=
  ExecWrite (fun t s => set_chat (chat_messages s ++
    [{| ch_session := "brain"; ch_role := role_string (msg_role msg); ch_content := msg_content msg;
        ch_calls := calls_text (msg_calls msg);
        ch_call_id := if (msg_call_id msg =? "")%string then None else Some (msg_call_id msg);
        ch_created := t |}])%list s);;
  mret tt.

(** Is this user message already there, at most 30 minutes old? *)
Definition recent_message (content : string) (t : time) (c : ChatRow) : bool :=
  (ch_session c =? "brain")%string && (ch_role c =? "user")%string && (ch_content c =? content)%string
  && (Truncate t second - 30 * minute <? ch_created c)%Z.

Definition saveChatMessageOnce (msg : Message) : M unit :=
  if bool_decide (msg_role msg = RoleUser) then
    t ← now;
    n ← Query (fun s => List.length (List.filter (recent_message (msg_content msg) t) (chat_messages s)));
    match n with
    | Ok (S _) => mret tt
    | _ => saveChatMessage msg
    end
  else saveChatMessage msg.

Definition logBrainEvent (eventType summary details : string) (tokens : Z) (model : string)
    (durationMs : Z) : M unit :=
  ExecWrite (fun t s => set_brain_log (brain_log s ++
    [{| bl_type := eventType; bl_summary := summary; bl_details := Some details; bl_tokens := tokens;
        bl_model := Some model; bl_duration := Some durationMs; bl_created := t |}])%list s);;
  mret tt.

Definition publishBrainMessage (content : string) : M unit :=
  saveChatMessage (text_message RoleAssistant content);;
  publish "brain.message" [("session_id", VString "brain"); ("role", VString "assistant");
                           ("content", VString content)].

Definition publishBrainError (errMsg : string) : M unit :=
  publishBrainMessage ("**Pipeline Error:** " ++ errMsg);;
  publish "brain.error" [("error", VString errMsg)].

Definition truncateToolResult (toolName result : string) : M string :=
  over ← get (fun w => maxToolResultOverride (worker w));
  let maxSize := match Get ToolRegistry toolName with
                 | Ok t => default 6000%Z (MaxResultSize t)
                 | Err _ => 6000%Z
                 end in
  let maxSize := if ((0 <? over) && (over <? maxSize))%Z then over else maxSize in
  mret (truncate result maxSize).

Definition summarizeToolResult (toolName result : string) : string :=
  match Get ToolRegistry toolName with
  | Ok t => match Summarize t with Some f => f result | None => GenericSummarize result end
  | Err _ => GenericSummarize result
  end.

(** ** One completion, with retries *)

Definition backoff (msg : string) (attempt : Z) : duration :=
  let isRateLimit := Contains msg "API error 429" || Contains msg "API error 529"
                     || Contains msg "overloaded" in
  let isTimeout := Contains msg "timeout" || Contains msg "context deadline exceeded" in
  ((if isRateLimit then 15 else if isTimeout then 5 else 2) * (attempt + 1) * second)%Z.

Fixpoint call_attempts (tries : nat) (attempt : Z) (err : string) (rq : Request)
  : M (res string Response) :=
  match tries with
  | O => mret (Err err)
  | S tries =>
      r ← Complete rq;
      match r with
      | Ok resp => mret (Ok resp)
      | Err e =>
          done ← ctx_Err;
          match done with
          | Some _ => mret (Err e)
          | None =>
              if connection_error e "API error" then mret (Err e)
              else
                done ← ctx_Err;
                match done with
                | Some why => mret (Err why)
                | None => sleep (backoff e attempt);; call_attempts tries (attempt + 1)%Z e rq
                end
          end
      end
  end.

Definition callWithRetry (rq : Request) : M (res string Response) :=
  call_attempts maxLLMRetries 0 "" rq.

(** ** Tool calls *)

Definition tool_message (content call_id : string) : Message :=
  {| msg_role := RoleTool; msg_content := content; msg_calls := []; msg_call_id := call_id |}.

Definition unknown_tool (name : string) : string :=
  dq "{'error': '" ++ "unknown tool '" ++ name ++ "' — check available tool names" ++ dq "'}".

Definition invalid_args (name err : string) : string :=
  dq "{'error': '" ++ "invalid JSON arguments for tool " ++ name ++ ": " ++ err ++ dq "'}".

(** One call: the message that answers it. *)
Definition execute_call (tc : ToolCall) : M Message :=
  if negb (Has ToolRegistry (tc_name tc)) then
    mret (tool_message (unknown_tool (tc_name tc)) (tc_id tc))
  else
    match decode_args (tc_args tc) with
    | Err e => mret (tool_message (invalid_args (tc_name tc) e) (tc_id tc))
    | Ok args =>
        let about args := [("tool", VString (tc_name tc)); ("name", VString (tc_name tc));
                           ("call_id", VString (tc_id tc)); ("args", VArgs args)] in
        publish "brain.tool_start" (about args);;
        out ← Execute ToolRegistry (tc_name tc) args;
        let '(answer, args) := out in
        let result := match answer with
                      | Ok r => r
                      | Err e => dq "{'error': '" ++ "tool " ++ tc_name tc ++ " failed: " ++ e ++ dq "'}"
                      end in
        short ← truncateToolResult (tc_name tc) result;
        saveChatMessage (tool_message (summarizeToolResult (tc_name tc) result) (tc_id tc));;
        publish "brain.tool_result" (about args ++
          [("result", VString (if isInteractiveTool (tc_name tc) then result else truncate result 500))])%list;;
        (let msg := toolProgressMessage (tc_name tc) args in
         if is_ok answer && negb (msg =? "")%string then publishBrainMessage msg else mret tt);;
        mret (tool_message short (tc_id tc))
    end.

Fixpoint executeToolCalls (calls : list ToolCall) (messages : list Message) : M (list Message) :=
  match calls with
  | [] => mret messages
  | tc :: r => m ← execute_call tc; executeToolCalls r (messages ++ [m])%list
  end.

(** ** The tool loop *)

Record LoopResult := {
  lastContent : string; lastModel : string; totalTokens : Z; totalToolCalls : Z;
  loopErr : option string;
}.

Definition continue_message : Message := text_message RoleUser
  "Your response was cut off. Continue building from where you tries off — call your next tool.".

(** The loop from iteration [i] on, with [tries] iterations allowed. *)
Fixpoint tool_loop (tries : nat) (i : Z) (rq : Request) (conts : Z) (acc : LoopResult) : M LoopResult :=
  match tries with
  | O => mret acc
  | S tries =>
      r ← callWithRetry rq;
      match r with
      | Err e =>
          mret {| lastContent := ""; lastModel := ""; totalTokens := totalTokens acc;
                  totalToolCalls := totalToolCalls acc;
                  loopErr := Some ("LLM call failed at iteration " ++ Itoa i ++ ": " ++ e) |}
      | Ok resp =>
          let acc := {| lastContent := rs_content resp; lastModel := rs_model resp;
                        totalTokens := (totalTokens acc + (rs_input resp + rs_output resp))%Z;
                        totalToolCalls := totalToolCalls acc; loopErr := None |} in
          let assistant := {| msg_role := RoleAssistant; msg_content := rs_content resp;
                              msg_calls := rs_calls resp; msg_call_id := "" |} in
          let said := negb (rs_content resp =? "")%string in
          let calls := match rs_calls resp with [] => false | _ => true end in
          (if said || calls then saveChatMessage assistant else mret tt);;
          (if said && negb calls then
             publish "brain.message" [("session_id", VString "brain"); ("role", VString "assistant");
                                      ("content", VString (rs_content resp))]
           else mret tt);;
          if negb calls then
            if (rs_stop resp =? "max_tokens")%string then
              if (maxContinuations <=? conts + 1)%Z then
                publishBrainMessage
                  "Build hit output limit — some items may be incomplete. Use chat to request fixes.";;
                mret acc
              else
                tool_loop tries (i + 1)%Z
                  {| rq_model := rq_model rq; rq_system := rq_system rq;
                     rq_messages := (rq_messages rq ++ [assistant; continue_message])%list;
                     rq_tools := rq_tools rq; rq_max_tokens := rq_max_tokens rq |}
                  (conts + 1)%Z acc
            else mret acc
          else
            messages ← executeToolCalls (rs_calls resp) (rq_messages rq ++ [assistant])%list;
            tool_loop tries (i + 1)%Z
              {| rq_model := rq_model rq; rq_system := rq_system rq; rq_messages := messages;
                 rq_tools := rq_tools rq; rq_max_tokens := rq_max_tokens rq |}
              conts
              {| lastContent := lastContent acc; lastModel := lastModel acc;
                 totalTokens := totalTokens acc;
                 totalToolCalls := (totalToolCalls acc + Z.of_nat (List.length (rs_calls resp)))%Z;
                 loopErr := None |}
      end
  end.

Definition runToolLoop (modelID systemPrompt : string) (messages : list Message)
    (toolDefs : list ToolDef) (maxIter : nat) (maxTokens : Z) : M LoopResult :=
  tool_loop maxIter 0
    {| rq_model := modelID; rq_system := systemPrompt; rq_messages := messages; rq_tools := toolDefs;
       rq_max_tokens := maxTokens |} 0
    {| lastContent := ""; lastModel := ""; totalTokens := 0; totalToolCalls := 0; loopErr := None |}.
End Loop.

(** ** What the helpers leave alone *)

(** The part of the pipeline row that only the pipeline itself writes: tools may
    pause the pipeline (tools/approval.go), nothing else of it. *)
Definition core (r : PipelineRow) := (stage r, plan_json r, update_description r, error_count r).

(** The rows of the brain's log a monitoring tick looks for. *)
Definition error_rows (l : list BrainLog) : list BrainLog :=
  List.filter (fun r => bl_type r =? "error")%string l.

Definition core_view (w : World) := (core (pipeline (db w)), error_rows (brain_log (db w)), worker w).
(** The same with the requests sent to the model. *)
Definition view (w : World) := (core_view w, sent w).

(** What a registered tool promises the pipeline. *)
Class LawfulTools `{D : Deps} : Prop :=
  tools_frame : forall n t args, ToolRegistry !! n = Some t -> frame view (Run t args).

Section Frames.
Context `{E : Env} `{D : Deps}.

Lemma frame_saveChatMessage msg : frame view (saveChatMessage msg).
Proof. unfold saveChatMessage. frame_tac. Qed.

Lemma frame_logBrainEvent ty s d n m ms : (ty =? "error")%string = false ->
  frame view (logBrainEvent ty s d n m ms).
Proof.
  intros H. unfold logBrainEvent. apply frame_bind; [|frame_tac]. intros w. unfold ExecWrite.
  destruct (write_fails _); [done|]. unfold view, core_view, error_rows. cbn.
  rewrite List.filter_app. cbn. rewrite H. by rewrite app_nil_r.
Qed.

Lemma frame_publish ty p : frame view (publish ty p).
Proof. frame_effect. Qed.

Hint Resolve frame_saveChatMessage frame_publish frame_logBrainEvent : frame.

Lemma frame_saveChatMessageOnce msg : frame view (saveChatMessageOnce msg).
Proof. unfold saveChatMessageOnce. frame_tac. Qed.

Lemma frame_publishBrainMessage s : frame view (publishBrainMessage s).
Proof. unfold publishBrainMessage. frame_tac. Qed.

Hint Resolve frame_publishBrainMessage : frame.

Lemma frame_publishBrainError s : frame view (publishBrainError s).
Proof. unfold publishBrainError. frame_tac. Qed.

Lemma frame_truncateToolResult n s : frame view (truncateToolResult n s).
Proof. unfold truncateToolResult. frame_tac. Qed.

Hint Resolve frame_truncateToolResult : frame.

Context `{L : !LawfulTools}.

Lemma frame_Execute name args : frame view (Execute ToolRegistry name args).
Proof.
  unfold Execute, Get. destruct (ToolRegistry !! name) as [t|] eqn:Ht; [|frame_tac].
  pose proof (tools_frame name t args Ht) as Hf. frame_tac.
Qed.

Hint Resolve frame_Execute : frame.

Lemma frame_execute_call tc : frame view (execute_call tc).
Proof. unfold execute_call. frame_tac. Qed.

Lemma frame_executeToolCalls calls : forall msgs, frame view (executeToolCalls calls msgs).
Proof.
  induction calls as [|tc calls IH]; intros msgs; cbn [executeToolCalls]; [apply frame_ret|].
  apply frame_bind; [apply frame_execute_call|auto].
Qed.
End Frames.
#[export] Hint Resolve frame_saveChatMessage frame_publish frame_logBrainEvent frame_saveChatMessageOnce
  frame_publishBrainMessage frame_publishBrainError frame_truncateToolResult frame_Execute
  frame_execute_call frame_executeToolCalls : frame.

(** ** The retries of one completion *)

Local Open Scope nat_scope.

Section Retry.
Context `{E : Env} `{D : Deps}.

(** [k] requests were sent, the answer of the last one being [r] (or the
    context having ended the wait), and nothing but time and polls changed. *)
Record retried (rq : Request) (k limit : nat) (w : World) (r : res string Response) (w' : World) : Prop := {
  rt_count : 1 <= k <= limit;
  rt_sent : sent w' = (sent w ++ repeat rq k)%list;
  rt_same : db w' = db w /\ glob w' = glob w /\ worker w' = worker w /\ bus w' = bus w /\
            nwrites w' = nwrites w /\ nloads w' = nloads w;
  rt_failed : forall j, j + 1 < k -> exists e,
    complete (List.length (sent w) + j) rq = Err e /\ connection_error e "API error" = false;
  rt_answer :
    match r with
    | Ok resp => complete (List.length (sent w) + (k - 1)) rq = Ok resp
    | Err e => exists e', complete (List.length (sent w) + (k - 1)) rq = Err e' /\
        ((e = e' /\ (k = limit \/ connection_error e "API error" = true)) \/
         exists n why, ctx_done n = Some why /\ (e = e' \/ e = why))
    end;
}.

Lemma call_attempts_spec rq : forall limit attempt err w, 0 < limit ->
  let '(r, w') := call_attempts limit attempt err rq w in exists k, retried rq k limit w r w'.
Proof.
  induction limit as [|limit IH]; intros attempt err w Hl; [lia|].
  cbn [call_attempts]. unfold mbind, M_bind, Complete. cbn [fst snd].
  set (w1 := advance_clock _ (add_request rq w)).
  assert (Hs1 : sent w1 = (sent w ++ [rq])%list) by done.
  destruct (complete (List.length (sent w)) rq) as [resp|e] eqn:Hc.
  { exists 1. split; [lia|done|done|intros; lia|by rewrite Nat.add_0_r]. }
  unfold ctx_Err. destruct (ctx_done (npolls w1)) as [why|] eqn:Hd1.
  { exists 1. split; [lia|done|done|intros; lia|]. rewrite Nat.add_0_r. exists e. split; [done|]. right. eauto. }
  destruct (connection_error e "API error") eqn:Hce.
  { exists 1. split; [lia|done|done|intros; lia|]. rewrite Nat.add_0_r. exists e. split; [done|]. left. auto. }
  destruct (ctx_done (npolls (count_poll w1))) as [why|] eqn:Hd2.
  { exists 1. split; [lia|done|done|intros; lia|]. rewrite Nat.add_0_r. exists e. split; [done|]. right. eauto. }
  cbn [sleep modify]. unfold modify, sleep. set (w2 := advance_clock _ _).
  destruct limit as [|limit].
  { cbn [call_attempts]. exists 1. split; [lia|done|done|intros; lia|].
    rewrite Nat.add_0_r. exists e. split; [done|]. left. auto. }
  specialize (IH (attempt + 1)%Z e w2 ltac:(lia)).
  destruct (call_attempts (S limit) (attempt + 1) e rq w2) as [r w']. destruct IH as (k & [Hk Hs Hsame Hf Ha]).
  assert (Hs2 : sent w2 = (sent w ++ [rq])%list) by done.
  rewrite Hs2, length_app in *. cbn [List.length] in *.
  exists (S k). split; [lia| |exact Hsame| |].
  - rewrite Hs. by rewrite <- app_assoc.
  - intros [|j] Hj; [exists e; by rewrite Nat.add_0_r|].
    destruct (Hf j ltac:(lia)) as (e' & He & Hn). exists e'. split; [|done]. rewrite <- He. f_equal. lia.
  - replace (List.length (sent w) + (S k - 1)) with (List.length (sent w) + 1 + (k - 1)) by lia.
    destruct r as [resp|e']; [done|]. destruct Ha as (e'' & He & [[-> Hx]|Hx]); exists e''; split; [done| |done|].
    + left. split; [done|]. destruct Hx as [->|Hx]; auto.
    + by right.
Qed.

Lemma callWithRetry_retried rq w :
  let '(r, w') := callWithRetry rq w in exists k, retried rq k maxLLMRetries w r w'.
Proof. apply call_attempts_spec. unfold maxLLMRetries. lia. Qed.

(** [callWithRetry] sends the same request between one and three times and
    changes nothing else.  It answers with the first answer that is not an
    error; an error comes back only when three attempts failed, when the
    endpoint cannot be reached, or when the context is done. *)
Theorem callWithRetry_spec rq w :
  let '(r, w') := callWithRetry rq w in
  exists k, 1 <= k <= 3 /\ sent w' = (sent w ++ repeat rq k)%list /\ db w' = db w /\ bus w' = bus w /\
    (forall j, j + 1 < k -> is_ok (complete (List.length (sent w) + j) rq) = false) /\
    match r with
    | Ok resp => complete (List.length (sent w) + (k - 1)) rq = Ok resp
    | Err e => is_ok (complete (List.length (sent w) + (k - 1)) rq) = false /\
               (k = 3 \/ connection_error e "API error" = true \/ exists n, ctx_done n <> None)
    end.
Proof.
  pose proof (callWithRetry_retried rq w) as H. destruct (callWithRetry rq w) as [r w'].
  destruct H as (k & [Hk Hs (Hdb & _ & _ & Hbus & _) Hf Ha]). exists k.
  repeat split; try done; try (unfold maxLLMRetries in Hk; lia).
  - intros j Hj. destruct (Hf j Hj) as (e & He & _). by rewrite He.
  - destruct r as [resp|e]; [done|]. destruct Ha as (e' & He & Hx). rewrite He. split; [done|].
    destruct Hx as [[-> [->|Hx]]|(n & why & Hn & _)]; [auto|auto|].
    right; right. exists n. by rewrite Hn.
Qed.
End Retry.

(** ** The conversation *)

(** Every assistant message that calls tools is followed by one tool message
    per call, in order, with the calls' ids; providers refuse anything else. *)
Inductive conversation : list Message -> Prop :=
| conv_nil : conversation []
| conv_text msgs m : conversation msgs -> msg_calls m = [] -> msg_role m <> RoleTool ->
    conversation (msgs ++ [m])
| conv_calls msgs a answers : conversation msgs -> msg_role a = RoleAssistant ->
    map msg_call_id answers = map tc_id (msg_calls a) ->
    Forall (fun m => msg_role m = RoleTool /\ msg_calls m = []) answers ->
    conversation (msgs ++ [a] ++ answers).

Section Conversation.
Context `{E : Env} `{D : Deps}.

Lemma execute_call_answer tc w :
  let m := fst (execute_call tc w) in
  msg_call_id m = tc_id tc /\ msg_role m = RoleTool /\ msg_calls m = [].
Proof.
  unfold execute_call. destruct (negb _); [done|]. destruct (decode_args _) as [args|]; [|done].
  cbv zeta. unfold mbind, M_bind. destruct (publish _ _ w) as [? w1].
  destruct (Execute _ _ _ w1) as [[answer args'] w2]. destruct (truncateToolResult _ _ w2) as [short w3].
  destruct (saveChatMessage _ w3) as [? w4]. destruct (publish _ _ w4) as [? w5].
  by match goal with |- context [if ?c then _ else _] => destruct c end;
    try destruct (publishBrainMessage _ w5).
Qed.

(** The calls of a response are answered one by one, whatever they are (an
    unknown tool, arguments that are no JSON object, a tool that fails) and
    whatever the tools do. *)
Lemma executeToolCalls_answers calls : forall msgs w, exists answers,
  fst (executeToolCalls calls msgs w) = (msgs ++ answers)%list /\
  map msg_call_id answers = map tc_id calls /\
  Forall (fun m => msg_role m = RoleTool /\ msg_calls m = []) answers.
Proof.
  induction calls as [|tc calls IH]; intros msgs w; cbn [executeToolCalls].
  - exists []. by rewrite app_nil_r.
  - pose proof (execute_call_answer tc w) as Hm. unfold mbind, M_bind.
    destruct (execute_call tc w) as [m w1]. destruct Hm as (H1 & H2 & H3). simpl in H1, H2, H3.
    destruct (IH (msgs ++ [m])%list w1) as (answers & Ha & Hi & Hf).
    exists (m :: answers). rewrite Ha, <- app_assoc. repeat split; [|by constructor].
    cbn [map]. by rewrite H1, Hi.
Qed.

Context `{L : !LawfulTools}.

(** The same request as [rq] but for messages added at the end. *)
Definition extends (rq q : Request) : Prop :=
  conversation (rq_messages q) /\ rq_messages rq `prefix_of` rq_messages q /\
  rq_model q = rq_model rq /\ rq_system q = rq_system rq /\ rq_tools q = rq_tools rq /\
  rq_max_tokens q = rq_max_tokens rq.

Lemma extends_refl rq : conversation (rq_messages rq) -> extends rq rq.
Proof. by repeat split. Qed.

Lemma extends_trans a b c : extends a b -> extends b c -> extends a c.
Proof.
  intros (_ & P1 & ? & ? & ? & ?) (C2 & P2 & ? & ? & ? & ?).
  repeat split; try congruence. by transitivity (rq_messages b).
Qed.

(** What a run of the loop sends from [w] to [w']. *)
Definition sends (rq : Request) (limit : nat) (w w' : World) : Prop :=
  core_view w' = core_view w /\
  exists rs, sent w' = (sent w ++ rs)%list /\ List.length rs <= limit /\ Forall (extends rq) rs.

Lemma sends_view rq limit w w' : view w' = view w -> sends rq limit w w'.
Proof.
  intros H. split; [exact (f_equal fst H)|].
  exists []. rewrite app_nil_r. repeat split; [exact (f_equal snd H)|simpl; lia|constructor].
Qed.

Lemma sends_trans rq rq' a b w1 w2 w3 : extends rq rq' ->
  sends rq a w1 w2 -> sends rq' b w2 w3 -> sends rq (a + b) w1 w3.
Proof.
  intros He [V1 (r1 & S1 & L1 & F1)] [V2 (r2 & S2 & L2 & F2)]. split; [congruence|].
  exists (r1 ++ r2)%list. rewrite S2, S1, app_assoc, length_app. repeat split; [lia|].
  apply Forall_app. split; [done|]. eapply Forall_impl; [exact F2|]. intros q. by apply extends_trans.
Qed.

Lemma sends_retry rq w : conversation (rq_messages rq) ->
  sends rq maxLLMRetries w (snd (callWithRetry rq w)).
Proof.
  intros Hc. pose proof (callWithRetry_retried rq w) as H. destruct (callWithRetry rq w) as [r w'].
  destruct H as (k & [Hk Hs (Hdb & _ & Hw & _) _ _]). cbn [snd]. split.
  - unfold core_view. by rewrite Hdb, Hw.
  - exists (repeat rq k). rewrite repeat_length. repeat split; [done|lia|].
    apply Forall_forall. intros q Hq. apply list_elem_of_In, repeat_spec in Hq as ->. by apply extends_refl.
Qed.

Lemma tool_loop_sends iters : forall i rq conts acc w, conversation (rq_messages rq) ->
  sends rq (3 * iters) w (snd (tool_loop iters i rq conts acc w)).
Proof.
  induction iters as [|iters IH]; intros i rq conts acc w Hc; cbn [tool_loop]; [by apply sends_view|].
  replace (3 * S iters) with (maxLLMRetries + 3 * iters) by (unfold maxLLMRetries; lia).
  pose proof (sends_retry rq w Hc) as Hr. unfold mbind at 1, M_bind at 1.
  destruct (callWithRetry rq w) as [[resp|e] w1]; cbn [snd] in Hr.
  2: { eapply sends_trans; [by apply extends_refl|exact Hr|by apply sends_view]. }
  eapply sends_trans; [by apply extends_refl|exact Hr|]. clear Hr.
  set (asst := {| msg_role := RoleAssistant; msg_content := rs_content resp; msg_calls := rs_calls resp; msg_call_id := "" |}).
  (* the two frames after the answer *)
  assert (Hseq : forall {A B} (m : M A) (k : A -> M B) w, frame view m ->
    (forall a w', sends rq (3 * iters) w' (snd (k a w'))) -> sends rq (3 * iters) w (snd ((m ≫= k) w))).
  { intros A B m k v Hm Hk. unfold mbind, M_bind. specialize (Hm v). destruct (m v) as [a v']. cbn [snd] in Hm.
    change (3 * iters) with (0 + 3 * iters). eapply sends_trans; [by apply extends_refl|by apply sends_view|].
    apply Hk. }
  cbv zeta. apply Hseq; [by frame_tac|]. intros _ w2. apply Hseq; [by frame_tac|]. intros _ w3.
  destruct (rs_calls resp) as [|tc calls] eqn:Ecalls; cbn [negb].
  - destruct (rs_stop resp =? "max_tokens")%string; [|by apply sends_view].
    destruct (maxContinuations <=? conts + 1)%Z.
    + apply Hseq; [by frame_tac|]. intros _ w4. by apply sends_view.
    + assert (Hc' : conversation ((rq_messages rq ++ [asst; continue_message])%list)).
      { rewrite (app_assoc _ [asst] [continue_message]). apply conv_text; [|done|done]. by apply conv_text. }
      eapply (sends_trans _ _ 0); [| |apply IH; exact Hc'].
      * repeat split; [done|]. by eexists.
      * by apply sends_view.
  - unfold mbind, M_bind.
    pose proof (executeToolCalls_answers (tc :: calls) (rq_messages rq ++ [asst])%list w3) as (answers & Ha & Hi & Hf).
    pose proof (frame_executeToolCalls (tc :: calls) (rq_messages rq ++ [asst])%list w3) as Hv.
    destruct (executeToolCalls _ _ w3) as [messages w4]. cbn [fst snd] in Ha, Hv. subst messages.
    assert (Hc' : conversation (((rq_messages rq ++ [asst]) ++ answers)%list)).
    { rewrite <- app_assoc. apply conv_calls; [done|done| |done]. by rewrite Hi. }
    eapply (sends_trans _ _ 0); [|by apply sends_view|apply IH; exact Hc'].
    repeat split; [done|]. cbn [rq_messages]. rewrite <- app_assoc. by eexists.
Qed.

(** A run of the tool loop with [n] iterations sends at most [3 * n]
    requests, whatever the model answers and the tools do.  Each carries the
    model, system prompt, tools and limit it was given and a conversation that
    begins with the given messages and in which every tool call is answered
    exactly once, in order and by id.  The loop leaves the pipeline's stage,
    plan, error count and update description and the worker's own state as
    they were. *)
Theorem runToolLoop_requests model sys msgs defs n maxTokens w : conversation msgs ->
  let w' := snd (runToolLoop model sys msgs defs n maxTokens w) in
  core_view w' = core_view w /\
  exists rs, sent w' = (sent w ++ rs)%list /\ List.length rs <= 3 * n /\
    Forall (fun q => conversation (rq_messages q) /\ msgs `prefix_of` rq_messages q /\ rq_model q = model /\
                     rq_system q = sys /\ rq_tools q = defs /\ rq_max_tokens q = maxTokens) rs.
Proof. intros Hc. by apply (tool_loop_sends n 0 {| rq_messages := msgs |}). Qed.
End Conversation.

(** ** Examples *)

Module Sample.
(** A tool that always fails, and a registry of it alone. *)
Definition failing : Tool :=
  {| Name := "manage_schema"; ToolDescription := "tables"; Parameters := JNull; Guide := None;
     MaxResultSize := None; Summarize := None;
     Run := fun args => mret (Ok (Some (failure "table posts already exists")), args) |}.

Definition deps : Deps := {| siteID := 1; ToolRegistry := Register failing NewRegistry |}.

#[export] Instance deps_lawful : LawfulTools (D := deps).
Proof.
  intros n t args H. cbn [ToolRegistry deps] in H. unfold Register, NewRegistry in H.
  apply lookup_insert_Some in H as [[_ <-]|[_ H]]; [|done]. by apply frame_ret.
Qed.

Definition create_posts : ToolCall :=
  {| tc_id := "c1"; tc_name := "manage_schema"; tc_args := dq "{'action':'create','table_name':'posts'}" |}.

Definition script (n : nat) (rq : Request) : res string Response :=
  match n with
  | 0 => Err "API error 529: overloaded"
  | 1 => Ok (call_answer [create_posts; {| tc_id := "c2"; tc_name := "no_such"; tc_args := "" |}])
  | _ => Ok (text_answer "done")
  end.

#[export] Instance env : Env := calm_env script.
End Sample.

Lemma runToolLoop_requests_witness :
  let w' := snd (runToolLoop (E := Sample.env) (D := Sample.deps) "m" "sys" [text_message RoleUser "go"] []
                   5 100 new_world) in
  List.length (sent w') = 3 /\ core_view w' = core_view new_world.
Proof.
  split; [vm_compute; reflexivity|].
  refine (proj1 (runToolLoop_requests (E := Sample.env) (L := Sample.deps_lawful) "m" "sys"
           [text_message RoleUser "go"] [] 5 100 new_world _)).
  apply (conv_text [] (text_message RoleUser "go")); [constructor|reflexivity|discriminate].
Defined.

(** The executor turns every error of a tool into a result and returns no
    error, so the test on which the worker publishes its progress message always
    holds: a tool that failed is announced to the owner as having done its work. *)
Theorem failed_tool_announced :
  (forall `{E : Env} r name args w, is_ok (fst (fst (Execute r name args w))) = true) /\
  let '(m, w) := execute_call (E := Sample.env) (D := Sample.deps) Sample.create_posts new_world in
  msg_content m = dq "{'success':false,'error':'table posts already exists'}" /\
  In {| ev_type := "brain.message";
        ev_payload := [("session_id", VString "brain"); ("role", VString "assistant");
                       ("content", VString "Created table: **posts**")] |} (bus w).
Proof.
  split.
  - intros E r name args w. unfold Execute. destruct (Get r name) as [t|]; [|done].
    unfold mbind, M_bind, now, get. destruct (Run t args w) as [[answer args'] w1].
    unfold ctx_Err. destruct (ctx_done _); [done|]. by destruct answer.
  - vm_compute. split; [reflexivity|]. auto 10.
Qed.
