(* ===== verification/Approval.v ===== *)
(** * tools/approval.go: the owner's approval of destructive actions

    An approval is a question whose context is the action's key; the owner's
    latest answer to it decides.  Asking pauses the pipeline. *)

From Stdlib Require Import ZArith Lia Ascii String List Bool.
From stdpp Require Import base list strings gmap.
From S2P Require Import Prelude GoStrings GoTime JSONText World ToolCore.

Local Open Scope string_scope.

Definition approvalKeyPrefix : string := "approval:".

(** The answers to the questions of a context. *)
Definition answers_for (key : string) (s : SiteStore) : list AnswerRow :=
  flat_map (fun q =>
    if bool_decide (q_context q = Some key)
    then List.filter (fun a => a_question a =? q_id q)%Z (answers s) else []) (questions s).

(** The latest of them; of two with the same time, the one found first. *)
Definition latest_answer (l : list AnswerRow) : option AnswerRow :=
  fold_left (fun best a =>
    match best with
    | Some b => if (a_created b <? a_created a)%Z then Some a else best
    | None => Some a
    end) l None.

Definition approves (answer : string) : bool :=
  let lower := ToLower (TrimSpace answer) in
  (lower =? "approve") || (lower =? "yes") || (lower =? "approved")
  || HasPrefix lower "yes" || HasPrefix lower "approve".

Definition denies (answer : string) : bool :=
  let lower := ToLower (TrimSpace answer) in
  (lower =? "deny") || (lower =? "no") || (lower =? "denied")
  || (lower =? "reject") || (lower =? "rejected") || (lower =? "cancel").

Definition has_key (key : string) (q : QuestionRow) : bool :=
  bool_decide (q_context q = Some key) && (q_status q =? "pending")%string.

Section Approval.
Context `{E : Env}.

Definition read_answer (actionKey : string) : M (option string) :=
  r ← Query (fun s => latest_answer (answers_for (approvalKeyPrefix ++ actionKey) s));
  mret (match r with Ok (Some a) => Some (a_answer a) | _ => None end).

Definition CheckApproval (actionKey : string) : M bool :=
  a ← read_answer actionKey;
  mret (match a with Some s => approves s | None => false end).

Definition isApprovalDenied (actionKey : string) : M bool :=
  a ← read_answer actionKey;
  mret (match a with Some s => denies s | None => false end).

Definition approval_question (key question : string) (t : time) (s : SiteStore) : SiteStore * Z :=
  let id := next_id q_id (questions s) in
  (set_questions (questions s ++
     [{| q_id := id; q_question := question; q_context := Some key; q_options := "Approve, Deny";
         q_urgency := "high"; q_status := "pending"; q_type := "approval"; q_secret := None; q_fields := None; q_created := t |}])%list s, id).

Definition RequestApproval (actionKey question detail : string) : M Result :=
  denied ← isApprovalDenied actionKey;
  if (denied : bool) then
    mret (failure ("ACTION_DENIED: The owner denied this action. " ++ detail))
  else
    let key := approvalKeyPrefix ++ actionKey in
    existing ← Query (fun s => List.find (has_key key) (questions s));
    match existing with
    | Ok None =>
        id ← ExecInsert (approval_question key question);
        match id with
        | Some id =>
            publish "question.asked"
              [("id", VInt64 id); ("question", VString question); ("options", VString "Approve, Deny");
               ("urgency", VString "high"); ("type", VString "approval")]
        | None => mret tt
        end
    | _ => mret tt
    end;;
    ExecWrite (fun t => set_pipeline (row_pause true (Some PauseReasonApproval) t));;
    mret (failure ("APPROVAL_REQUIRED: " ++ detail ++ " This action requires owner approval. A question has been created in the admin panel. The pipeline will resume automatically when the owner responds.")).

Definition LogDestructiveAction (tool action target : string) : M unit :=
  ExecWrite (fun t s => set_brain_log (brain_log s ++
    [{| bl_type := "destructive_action";
        bl_summary := "Destructive: " ++ tool ++ " → " ++ action ++ " on " ++ Quote target;
        bl_details := None; bl_tokens := 0; bl_model := None; bl_duration := None; bl_created := t |}])%list s);;
  mret tt.

(** ** What an approval means *)

(** When nothing fails, asking for approval of an action that is not yet
    answered leaves exactly one pending question for it, however often it is
    asked (given at most one before), and the pipeline paused for approval;
    an action the owner denied is refused without pausing or asking again. *)
Theorem RequestApproval_spec actionKey question detail w :
  (forall n, write_fails n = false) -> (forall n, load_fails n = None) ->
  let key := approvalKeyPrefix ++ actionKey in
  let pending s := List.length (List.filter (has_key key) (questions s)) in
  let denied := match latest_answer (answers_for key (db w)) with
                | Some a => denies (a_answer a)
                | None => false
                end in
  (pending (db w) <= 1)%nat ->
  let '(r, w') := RequestApproval actionKey question detail w in
  Success r = false /\
  if denied then db w' = db w /\ bus w' = bus w
  else pending (db w') = 1%nat /\ paused (pipeline (db w')) = true /\
       pause_reason (pipeline (db w')) = Some PauseReasonApproval /\
       stage (pipeline (db w')) = stage (pipeline (db w)) /\ answers (db w') = answers (db w).
Proof.
  intros Hw Hl key pending denied Hp.
  unfold RequestApproval, isApprovalDenied, read_answer, mbind, M_bind, mret, M_ret, Query.
  rewrite Hl. cbn [fst snd]. fold key. 
  assert (Hd : (match (match latest_answer (answers_for key (db w)) with
                       | Some a => Some (a_answer a) | None => None end) with
                | Some s => denies s | None => false end) = denied)
    by (unfold denied; by destruct (latest_answer _)).
  rewrite Hd. destruct denied; [done|].
  rewrite Hl. cbn [fst snd count_load db].
  destruct (List.find (has_key key) (questions (db w))) as [q|] eqn:Hf.
  - unfold ExecWrite. rewrite Hw. cbn. repeat split.
    apply List.find_some in Hf as [Hin Hq]. unfold pending in *.
    assert (In q (List.filter (has_key key) (questions (db w)))) as Hin' by (by apply List.filter_In).
    destruct (List.filter _ _) as [|? [|? ?]]; cbn in *; [done|done|lia].
  - unfold ExecInsert. rewrite Hw. cbn. unfold ExecWrite. rewrite Hw. cbn. repeat split.
    unfold pending. cbn. rewrite List.filter_app, length_app. cbn. unfold has_key at 2. cbn.
    rewrite bool_decide_true by done. cbn.
    assert (List.filter (has_key key) (questions (db w)) = []) as ->; [|done].
    destruct (List.filter _ _) as [|q l] eqn:Hfl; [done|].
    assert (In q (List.filter (has_key key) (questions (db w)))) as Hin by (rewrite Hfl; by left).
    apply List.filter_In in Hin as [Hin Hq]. by rewrite (List.find_none _ _ Hf q Hin) in Hq.
Qed.
End Approval.

Lemma RequestApproval_spec_witness :
  let E := calm_env (fun _ _ => Err "") in
  let w' := snd (RequestApproval (E := E) "delete_table:posts" "Delete posts?" "" new_world) in
  paused (pipeline (db w')) = true.
Proof.
  cbv zeta. pose proof (RequestApproval_spec (E := calm_env (fun _ _ => Err "")) "delete_table:posts" "Delete posts?" ""
    new_world (fun _ => eq_refl) (fun _ => eq_refl)) as H.
  cbv zeta in H. specialize (H ltac:(vm_compute; lia)).
  destruct (RequestApproval _ _ _ new_world) as [r w'] eqn:E. cbn [snd].
  exact (proj1 (proj2 (proj2 H))).
Defined.
