(* ===== verification/Stages.v ===== *)
(** * brain/stages.go: the stages of the build pipeline

    Each stage is a function that does its work on the [World] and comes to the
    next stage, an error, or a panic.  The model's answers go through
    [runToolLoop] (LLMLoop), the plan through PlanJSON and PlanStore. *)

From Stdlib Require Import ZArith Lia Ascii String List Bool.
From stdpp Require Import base list strings gmap.
From S2P Require Import Prelude GoStrings GoTime JSONText Plan PlanJSON PlanStore World ToolCore LLMLoop.

Local Open Scope string_scope.

(** ** Tool sets *)

Definition toolSetExcept (base : gset string) (exclude : list string) : gset string :=
  base ∖ list_to_set exclude.

Definition buildToolSet := toolSetExcept ChatToolSet ["manage_diagnostics"; "manage_analytics"; "manage_site"].
Definition chatWakeToolSet := toolSetExcept ChatToolSet ["manage_diagnostics"; "manage_analytics"].
Definition monitoringTools : gset string :=
  list_to_set ["manage_diagnostics"; "manage_analytics"; "manage_communication"].
Definition fullWriteToolSet := ChatToolSet.

(** ** Providers *)

(** [LLMProvider.RequiresAPIKey]: true unless the configuration says otherwise. *)
Definition RequiresAPIKey (config : string) : bool :=
  if (config =? "")%string then true
  else match Unmarshal config with
       | Ok (JObj m) => match member "requires_api_key" m with
                        | Some (JBool b) => b
                        | _ => true
                        end
       | _ => true
       end.

Definition no_rows : string := "sql: no rows in result set".

Section Stages.
Context `{E : Env} `{D : Deps}.

(** [getProvider]: the id of the model to ask, once a provider for it could
    be made. *)
Definition provider_for (g : Global) : res string string :=
  match (match site_model g with Some m => Some m | None => default_model g end) with
  | None => Err ("no model configured and no default available: " ++ no_rows)
  | Some (model, row) =>
      let key := match p_key row with
                 | Some k => if (k =? "")%string then None else Some k
                 | None => None
                 end in
      match (match key with
             | Some k => match decrypt k with
                         | Ok _ => Ok tt
                         | Err e => Err ("failed to decrypt API key for " ++ Quote (p_name row) ++ ": " ++ e)
                         end
             | None => if RequiresAPIKey (p_config row)
                       then Err ("provider " ++ Quote (p_name row) ++ " has no API key") else Ok tt
             end) with
      | Err e => Err e
      | Ok _ =>
          let baseURL := default "" (p_base_url row) in
          if (p_type row =? "openai")%string && (baseURL =? "")%string
          then Err ("provider " ++ Quote (p_name row) ++ " (openai) has no base_url")
          else if factory_knows (p_type row) then Ok model
          else if existsb (String.eqb (p_name row)) (registered g) then Ok model
          else Err ("provider " ++ Quote (p_name row) ++ " not available: llm: provider "
                    ++ Quote (p_name row) ++ " not found")
      end
  end.

Definition getProvider : M (res string string) := get (fun w => provider_for (glob w)).

(** [models.GetSiteByID] *)
Definition getSite : M (res string SiteRow) :=
  get (fun w => match site (glob w) with Some s => Ok s | None => Err no_rows end).

(** [loadPlan] *)
Definition loadPlan : M (res string Plan) :=
  r ← LoadPipelineState;
  mret (match r with
        | Err e => Err e
        | Ok s => if (PlanJSON s =? "")%string then Err "no plan found in pipeline state"
                  else ParsePlan (PlanJSON s)
        end).

(** The first [n] runes; a byte that is no UTF-8 becomes U+FFFD. *)
Fixpoint take_runes (n fuel : nat) (s : string) : string :=
  match n, fuel with
  | S n, S fuel =>
      match s with
      | "" => ""
      | String _ r =>
          match utf8_len s with
          | O => replacement ++ take_runes n fuel r
          | S k => take_str (S k) s ++ take_runes n fuel (drop_str (S k) s)
          end
      end
  | _, _ => ""
  end.
Fixpoint rune_count (fuel : nat) (s : string) : nat :=
  match fuel with
  | O => O
  | S fuel => match s with
              | "" => O
              | String _ _ => S (rune_count fuel (drop_str (Nat.max 1 (utf8_len s)) s))
              end
  end.

(** [ownerName] *)
Definition ownerName (g : Global) : string :=
  let name := ReplaceAll (ReplaceAll (owner g) (s1 (byte_of 10)) " ") (s1 (byte_of 13)) "" in
  if (50 <? rune_count (String.length name) name)%nat
  then take_runes 50 (String.length name) name else name.

(** ** Stage bookkeeping *)

Record stageRun := { sr_start : time; sr_log : Z; sr_stage : PipelineStage }.

Definition beginStage (st : PipelineStage) : M stageRun :=
  id ← LogStageStart st;
  t ← now;
  mret {| sr_start := t; sr_log := id; sr_stage := st |}.

Definition sr_fail (sr : stageRun) (err : string) : M (outcome PipelineStage) :=
  LogStageError (sr_log sr) err;;
  mret (Fail err).

Definition sr_complete (sr : stageRun) (tokens toolCalls : Z) : M unit :=
  t ← now;
  LogStageComplete (sr_log sr) tokens 0 toolCalls (t - sr_start sr)%Z;;
  mret tt.

(** [err] of a call ends the stage. *)
Definition or_fail {A} (sr : stageRun) (m : M (res string A)) (k : A -> M (outcome PipelineStage))
  : M (outcome PipelineStage) :=
  r ← m;
  match r with
  | Err e => sr_fail sr e
  | Ok a => k a
  end.

(** ** The question to the model, with one retry *)

Definition retry_message (err : string) : string :=
  "Your previous response could not be parsed. Error: " ++ err ++ newline
  ++ "Respond with ONLY a raw JSON object. No markdown code fences, no explanation text.".

(** The part [runPlan] and [runUpdatePlan] share: ask, parse the answer, ask
    once more if it does not parse; the parsed value and the tokens. *)
Definition ask {A} (modelID sys userMsg : string) (maxTokens : Z) (parse : string -> res string A)
    (retrying invalid : string) : M (res string (A * Z)) :=
  r ← runToolLoop modelID sys [text_message RoleUser userMsg] [] 1 maxTokens;
  match loopErr r with
  | Some e => mret (Err e)
  | None =>
      match parse (lastContent r) with
      | Ok a => mret (Ok (a, totalTokens r))
      | Err e =>
          publishBrainMessage retrying;;
          r2 ← runToolLoop modelID sys [text_message RoleUser (retry_message e)] [] 1 maxTokens;
          match loopErr r2 with
          | Some e2 => mret (Err e2)
          | None =>
              match parse (lastContent r2) with
              | Ok a => mret (Ok (a, (totalTokens r + totalTokens r2)%Z))
              | Err e2 => mret (Err (invalid ++ e2))
              end
          end
      end
  end.

(** ** PLAN *)

Definition supersede (q : QuestionRow) : QuestionRow :=
  {| q_id := q_id q; q_question := q_question q; q_context := q_context q; q_options := q_options q;
     q_urgency := q_urgency q; q_status := "superseded"; q_type := q_type q;
     q_secret := q_secret q; q_fields := q_fields q; q_created := q_created q |}.

Definition new_question (q : PlanQuestion) (t : time) (s : SiteStore) : SiteStore * Z :=
  let id := next_id q_id (questions s) in
  (set_questions (questions s ++
     [{| q_id := id; q_question := Question q; q_context := None;
         q_options := match Options q with [] => "[]" | os => Marshal (JArr (map JStr os)) end;
         q_urgency := "normal"; q_status := "pending";
         q_type := if (QType q =? "")%string then "open" else QType q;
         q_secret := None; q_fields := None; q_created := t |}])%list s, id).

(** Stores the questions; the result of a failed INSERT is nil, and asking it
    for its id panics. *)
Fixpoint ask_owner (qs : list PlanQuestion) : M (outcome unit) :=
  match qs with
  | [] => mret (Done tt)
  | q :: r =>
      id ← ExecInsert (new_question q);
      match id with
      | None => mret (Panic "runtime error: invalid memory address or nil pointer dereference")
      | Some id =>
          publish "question.asked"
            [("id", VInt64 id); ("question", VString (Question q)); ("options", VStrings (Options q));
             ("type", VString (if (QType q =? "")%string then "open" else QType q))];;
          ask_owner r
      end
  end.

Definition save_plan (p : Plan) : M bool :=
  ExecWrite (fun t => set_pipeline (row_plan (marshalToJSON p) t)).

Definition set_architecture (p : Plan) : M bool :=
  ExecGlobal (fun g =>
    {| site := match site g with
               | Some s => Some {| s_name := s_name s; s_mode := s_mode s;
                                   s_config := dq "{'architecture':'" ++ Architecture p ++ dq "'}" |}
               | None => None
               end;
       site_model := site_model g; default_model := default_model g; owner := owner g;
       registered := registered g |}).

Definition count {A} (l : list A) : string := Itoa (Z.of_nat (List.length l)).

Definition sizes (p : Plan) : string :=
  count (Pages p) ++ " pages, " ++ count (Endpoints p) ++ " endpoints, " ++ count (Tables p) ++ " tables".

Definition plan_message (answers : string) : string :=
  if (answers =? "")%string then "Analyze the site requirements and produce a complete Plan JSON."
  else "The owner answered your questions: " ++ Quote answers ++ newline ++ newline
       ++ "Now produce a complete Plan JSON.".

Definition runPlan : M (outcome PipelineStage) :=
  sr ← beginStage StagePlan;
  or_fail sr getProvider (fun modelID =>
  or_fail sr getSite (fun _ =>
    answers ← get (fun w => default "" (payload_string "answer" (wakeContext (worker w))));
    sys ← get (prompt "buildPlanPrompt");
    saveChatMessageOnce (text_message RoleUser (plan_message answers));;
    or_fail sr (ask modelID sys (plan_message answers) 16384 ParsePlan
                  "Plan response wasn't valid JSON, retrying..." "plan JSON still invalid after retry: ")
    (fun '(plan, tokens) =>
      match Questions plan with
      | _ :: _ =>
          ExecWrite (fun _ s => set_questions
            (update_where (fun q => q_status q =? "pending")%string supersede (questions s)) s);;
          let? _ := ask_owner (Questions plan) in
          PausePipeline PauseReasonOwnerAnswers;;
          sr_complete sr tokens 0;;
          mret (Fail "paused: awaiting owner answers")
      | [] =>
          match ValidatePlan plan with
          | _ :: _ as errs => sr_fail sr ("plan validation errors: " ++ Join (map plan_err_string errs) "; ")
          | [] =>
              save_plan plan;;
              set_architecture plan;;
              publishBrainMessage ("Plan ready: " ++ AppType plan ++ " (" ++ Architecture plan ++ "), "
                                   ++ sizes plan);;
              sr_complete sr tokens 0;;
              set_wake None;;
              mret (Done StageBuild)
          end
      end))).

(** ** BUILD *)

Definition build_message (manifest : string) : string :=
  if (manifest =? "")%string
  then "Build this site from the plan. Follow the build order in the system prompt. When everything is built, stop."
  else "Resume building. Items already built are listed above under 'Already Built'. Build only the remaining items from the plan.".

(** [Duration.Round(time.Second)], printed. *)
Definition round_seconds (d : duration) : Z :=
  (if 0 <=? d then (d + second / 2) / second else - ((- d + second / 2) / second))%Z.
Definition seconds_string (s : Z) : string :=
  let a := Z.abs s in
  let h := (a / 3600)%Z in let m := (a / 60 mod 60)%Z in let sec := (a mod 60)%Z in
  (if (s <? 0)%Z then "-" else "")
  ++ (if (h =? 0)%Z then "" else Itoa h ++ "h")
  ++ (if (h =? 0)%Z && (m =? 0)%Z then "" else Itoa m ++ "m") ++ Itoa sec ++ "s".

Definition runBuild : M (outcome PipelineStage) :=
  sr ← beginStage StageBuild;
  or_fail sr getProvider (fun modelID =>
  or_fail sr loadPlan (fun plan =>
    manifest ← get (prompt "buildCrashRecoveryManifest");
    sys ← get (prompt "buildBuildPrompt");
    publishBrainMessage ("Building " ++ AppType plan ++ ": " ++ sizes plan ++ "...");;
    r ← runToolLoop modelID sys [text_message RoleUser (build_message manifest)]
          (ToLLMToolsFiltered ToolRegistry buildToolSet) 50 16384;
    match loopErr r with
    | Some e => sr_fail sr e
    | None =>
        t ← now;
        publishBrainMessage ("Build complete: " ++ Itoa (totalToolCalls r) ++ " tool calls, "
                             ++ seconds_string (round_seconds (t - sr_start sr)%Z));;
        sr_complete sr (totalTokens r) (totalToolCalls r);;
        mret (Done StageComplete)
    end)).

(** ** COMPLETE *)

Definition set_mode (mode : string) : M bool :=
  ExecGlobal (fun g =>
    {| site := match site g with
               | Some s => Some {| s_name := s_name s; s_mode := mode; s_config := s_config s |}
               | None => None
               end;
       site_model := site_model g; default_model := default_model g; owner := owner g;
       registered := registered g |}).

Definition runComplete : M (outcome PipelineStage) :=
  sr ← beginStage StageComplete;
  logBrainEvent "complete" "Site build completed" "" 0 "" 0;;
  publishBrainMessage "Site build complete! Switching to monitoring mode.";;
  set_mode "monitoring";;
  publish "brain.mode_changed" [("site_id", VInt siteID); ("mode", VString "monitoring")];;
  sr_complete sr 0 0;;
  mret (Done StageMonitoring).

(** ** UPDATE_PLAN *)

Definition update_message (changeDesc : string) : string :=
  (if (changeDesc =? "")%string then ""
   else "The owner requested: " ++ changeDesc ++ newline ++ newline)
  ++ "Create a PlanPatch JSON describing the changes needed.".

Definition delete_page (path : string) : M bool :=
  ExecWrite (fun _ s => set_pages
    (update_where (fun p => (pg_path p =? path)%string && negb (pg_deleted p))
       (fun p => {| pg_path := pg_path p; pg_deleted := true |}) (pages s)) s).

Fixpoint delete_pages (l : list PageSpec) : M unit :=
  match l with
  | [] => mret tt
  | p :: r => delete_page (Path p);; delete_pages r
  end.

Definition runUpdatePlan : M (outcome PipelineStage) :=
  sr ← beginStage StageUpdatePlan;
  or_fail sr getProvider (fun modelID =>
    existing ← loadPlan;
    state ← LoadPipelineState;
    let changeDesc := match state with Ok s => UpdateDescription s | Err _ => "" end in
    sys ← get (prompt "buildUpdatePlanPrompt");
    saveChatMessageOnce (text_message RoleUser (update_message changeDesc));;
    or_fail sr (ask modelID sys (update_message changeDesc) 4096 ParsePlanPatch
                  "Patch response wasn't valid JSON, retrying..." "patch JSON still invalid after retry: ")
    (fun '(patch, tokens) =>
      match existing with
      | Err _ => sr_fail sr "cannot apply patch: no existing plan found"
      | Ok plan =>
          ExecWrite (fun _ => set_pipeline (row_description None));;
          delete_pages (ModifyPages patch);;
          match ApplyPatch plan patch with
          | None => mret (Panic "assignment to entry in nil map")
          | Some plan' =>
              save_plan plan';;
              sr_complete sr tokens 0;;
              mret (Done StageBuild)
          end
      end)).

(** ** The monitoring tick *)

(** The errors logged in the last hour. *)
Definition recent_errors (t : time) (s : SiteStore) : nat :=
  List.length (List.filter (fun r => (Truncate t second - hour <? bl_created r)%Z)
                 (error_rows (brain_log s))).

Definition health_message (n : nat) : string :=
  "Check site health. Issues detected:" ++ newline ++ "- " ++ Itoa (Z.of_nat n)
  ++ " recent errors in the last hour" ++ newline.

Definition elapsed_ms (start : time) : M Z := t ← now; mret (Z.quot (t - start) 1000000).

Definition monitoringTick : M unit :=
  start ← now;
  done ← ctx_Err;
  match done with
  | Some _ => mret tt
  | None =>
      n ← Query (recent_errors start);
      match n with
      | Ok (S _ as n) =>
          set_idle 0;;
          p ← getProvider;
          match p with
          | Err _ => mret tt
          | Ok modelID =>
              loadPlan;;
              sys ← get (prompt "buildMonitoringPrompt");
              r ← runToolLoop modelID sys [text_message RoleUser (health_message n)]
                    (ToLLMToolsFiltered ToolRegistry monitoringTools) 5 2048;
              d ← elapsed_ms start;
              logBrainEvent "tick" "Monitoring: investigated issues" "" (totalTokens r) (lastModel r) d
          end
      | _ =>
          idle ← get (fun w => idleCheckCount (worker w));
          set_idle (idle + 1)%Z;;
          d ← elapsed_ms start;
          logBrainEvent "tick" "Monitoring: healthy" "" 0 "" d
      end
  end.
End Stages.

(** ** What the stages leave alone, and where they lead *)

(** The stage in the database, the errors logged, the worker's state. *)
Definition stage_view (w : World) :=
  (stage (pipeline (db w)), error_rows (brain_log (db w)), wstate (worker w)).

(** [P] holds of every result of [m]. *)
Definition results {A} (m : M A) (P : A -> Prop) : Prop := forall w, P (fst (m w)).

Lemma results_ret {A} (a : A) (P : A -> Prop) : P a -> results (mret a) P.
Proof. by intros H w. Qed.

Lemma results_bind {A B} (m : M A) (k : A -> M B) P : (forall a, results (k a) P) -> results (m ≫= k) P.
Proof. intros H w. unfold mbind, M_bind. destruct (m w) as [a w']. apply H. Qed.

Section StageFacts.
Context `{E : Env} `{D : Deps} `{L : !LawfulTools}.

Lemma frame_core {A} (m : M A) : frame view m -> frame core_view m.
Proof. apply (frame_via fst view). Qed.

Lemma frame_stage {A} (m : M A) : frame core_view m -> frame stage_view m.
Proof.
  apply (frame_via (fun v : _ * _ * _ * _ * list BrainLog * Worker =>
    (v.1.1.1.1.1, v.1.2, wstate v.2)) core_view).
Qed.

Lemma frame_view_stage {A} (m : M A) : frame view m -> frame stage_view m.
Proof. intros H. by apply frame_stage, frame_core. Qed.

Lemma frame_runToolLoop model sys text defs n maxTokens :
  frame core_view (runToolLoop model sys [text_message RoleUser text] defs n maxTokens).
Proof.
  intros w. apply (tool_loop_sends n 0 {| rq_messages := [text_message RoleUser text] |}).
  by apply (conv_text [] (text_message RoleUser text)); [constructor|..].
Qed.

#[local] Hint Resolve frame_core frame_stage frame_view_stage frame_runToolLoop : frame.
#[local] Hint Extern 1 (frame _ (logBrainEvent _ _ _ _ _ _)) =>
  (apply frame_view_stage, frame_logBrainEvent; reflexivity) : frame.

Lemma frame_loadPlan : frame stage_view loadPlan.
Proof. unfold loadPlan, LoadPipelineState. frame_tac. Qed.

Lemma frame_beginStage st : frame stage_view (beginStage st).
Proof. unfold beginStage, LogStageStart. frame_tac. Qed.

Lemma frame_sr_fail sr e : frame stage_view (sr_fail sr e).
Proof. unfold sr_fail, LogStageError. frame_tac. Qed.

Lemma frame_sr_complete sr t c : frame stage_view (sr_complete sr t c).
Proof. unfold sr_complete, LogStageComplete. frame_tac. Qed.

Hint Resolve frame_loadPlan frame_beginStage frame_sr_fail frame_sr_complete : frame.

Lemma frame_or_fail {A} sr (m : M (res string A)) k :
  frame stage_view m -> (forall a, frame stage_view (k a)) -> frame stage_view (or_fail sr m k).
Proof. intros Hm Hk. unfold or_fail. frame_tac. Qed.

Lemma frame_ask {A} model sys msg n (parse : string -> res string A) x y :
  frame stage_view (ask model sys msg n parse x y).
Proof. unfold ask. frame_tac. Qed.

Lemma frame_ask_owner qs : frame stage_view (ask_owner qs).
Proof. induction qs as [|q qs IH]; cbn [ask_owner]; unfold new_question; frame_tac. Qed.

Hint Resolve frame_ask frame_ask_owner : frame.

Lemma frame_runPlan : frame stage_view runPlan.
Proof.
  unfold runPlan, try, save_plan, set_architecture, PausePipeline. apply frame_bind; [auto with frame|].
  intros sr. apply frame_or_fail; [frame_effect|]. intros m. apply frame_or_fail; [frame_effect|].
  intros s. apply frame_bind; [frame_effect|]. intros a. apply frame_bind; [frame_effect|]. intros sys.
  apply frame_bind; [auto with frame|]. intros _.
  apply frame_or_fail; [auto with frame|]. intros [plan tokens]. frame_tac.
Qed.

Lemma frame_runBuild : frame stage_view runBuild.
Proof.
  unfold runBuild. apply frame_bind; [auto with frame|].
  intros sr. apply frame_or_fail; [frame_effect|]. intros m. apply frame_or_fail; [auto with frame|].
  intros plan. frame_tac.
Qed.

Lemma frame_runComplete : frame stage_view runComplete.
Proof. unfold runComplete, set_mode. frame_tac. Qed.

Lemma frame_delete_pages l : frame stage_view (delete_pages l).
Proof. induction l as [|p l IH]; cbn [delete_pages]; unfold delete_page; frame_tac. Qed.

Hint Resolve frame_delete_pages : frame.

Lemma frame_runUpdatePlan : frame stage_view runUpdatePlan.
Proof.
  unfold runUpdatePlan, save_plan, LoadPipelineState. apply frame_bind; [auto with frame|].
  intros sr. apply frame_or_fail; [frame_effect|]. intros m.
  apply frame_bind; [auto with frame|]. intros ex. apply frame_bind; [frame_tac|]. intros st.
  apply frame_bind; [frame_effect|]. intros sys. apply frame_bind; [auto with frame|]. intros _.
  apply frame_or_fail; [auto with frame|]. intros [patch tokens]. frame_tac.
Qed.
End StageFacts.

(** Success leads to [next] and nowhere else. *)
Definition leads_to (next : PipelineStage) (o : outcome PipelineStage) : Prop :=
  match o with Done s => s = next | _ => True end.

Ltac results_step :=
  lazymatch goal with
  | |- results (mbind _ _) _ => apply results_bind; intros ?
  | |- results (mret _) _ => by apply results_ret
  | |- results (match ?x with _ => _ end) _ => destruct x
  | |- results (or_fail _ _ _) _ => unfold or_fail
  | |- results (sr_fail _ _) _ => unfold sr_fail
  | |- results (try _ _) _ => unfold try
  end.
Ltac results_tac := repeat (cbv beta zeta; results_step).

Section Leads.
Context `{E : Env} `{D : Deps}.

Lemma runPlan_leads : results runPlan (leads_to StageBuild).
Proof. unfold runPlan. results_tac. Qed.

Lemma runBuild_leads : results runBuild (leads_to StageComplete).
Proof. unfold runBuild. results_tac. Qed.

Lemma runComplete_leads : results runComplete (leads_to StageMonitoring).
Proof. unfold runComplete. results_tac. Qed.

Lemma runUpdatePlan_leads : results runUpdatePlan (leads_to StageBuild).
Proof. unfold runUpdatePlan. results_tac. Qed.
End Leads.

(** [Q] holds of every result of [m] and the world it leaves. *)
Definition post {A} (m : M A) (Q : A -> World -> Prop) : Prop := forall w, Q (fst (m w)) (snd (m w)).

Lemma post_bind {A B} (m : M A) (k : A -> M B) Q : (forall a, post (k a) Q) -> post (m ≫= k) Q.
Proof. intros H w. unfold mbind, M_bind. destruct (m w) as [a w']. apply H. Qed.

Lemma post_ret {A} (a : A) (Q : A -> World -> Prop) : (forall w, Q a w) -> post (mret a) Q.
Proof. by intros H w. Qed.

Lemma frame_run {T A} (f : World -> T) (m : M A) a w w' : m w = (a, w') -> frame f m -> f w' = f w.
Proof. intros Hm Hf. specialize (Hf w). by rewrite Hm in Hf. Qed.

(** A result that is a success satisfies [P]. *)
Definition ok_implies {A} (P : A -> Prop) (r : res string A) : Prop :=
  match r with Ok a => P a | Err _ => True end.

Section PlanStage.
Context `{E : Env} `{D : Deps}.

Lemma post_sr_fail sr e (Q : outcome PipelineStage -> World -> Prop) :
  (forall w, Q (Fail e) w) -> post (sr_fail sr e) Q.
Proof. intros H. apply post_bind. intros _. by apply post_ret. Qed.

Lemma post_or_fail {A} sr (m : M (res string A)) k (P : A -> Prop) (Q : outcome PipelineStage -> World -> Prop) :
  results m (ok_implies P) -> (forall e w, Q (Fail e) w) ->
  (forall a, P a -> post (k a) Q) -> post (or_fail sr m k) Q.
Proof.
  intros Hm He Hk v. unfold or_fail, mbind, M_bind. specialize (Hm v).
  destruct (m v) as [[a|e] v']; cbn in Hm; [by apply Hk|by apply post_sr_fail].
Qed.

Lemma ok_implies_True {A} (m : M (res string A)) : results m (ok_implies (fun _ => True)).
Proof. intros w. by destruct (fst (m w)). Qed.

Lemma ask_parses {A} model sys msg n (parse : string -> res string A) x y :
  results (ask model sys msg n parse x y) (ok_implies (fun at_ => exists text, parse text = Ok (fst at_))).
Proof.
  intros v. unfold ask, mbind, M_bind. destruct (runToolLoop _ _ _ _ _ _ v) as [r v1].
  destruct (loopErr r); [done|]. destruct (parse (lastContent r)) eqn:Hp; [by eexists|].
  destruct (publishBrainMessage _ v1) as [? v2]. destruct (runToolLoop _ _ _ _ _ _ v2) as [r2 v3].
  destruct (loopErr r2); [done|]. destruct (parse (lastContent r2)) eqn:Hp2; [by eexists|done].
Qed.

(** C3. When the database takes the writes, a PLAN stage that succeeds has
    stored, as the plan of the pipeline, a plan the model's answer parses to,
    that passes every check of [ValidatePlan] and leaves no question open; the
    next stage is BUILD and the answers that woke the worker are used up. *)
Theorem runPlan_stores_valid_plan w w' s :
  (forall n, write_fails n = false) ->
  runPlan w = (Done s, w') ->
  s = StageBuild /\ wakeContext (worker w') = None /\
  exists text p, ParsePlan text = Ok p /\ ValidatePlan p = [] /\ Questions p = [] /\
    plan_json (pipeline (db w')) = Some (marshalToJSON p).
Proof.
  intros Hw.
  set (Q := fun (o : outcome PipelineStage) (w' : World) => forall s, o = Done s ->
    s = StageBuild /\ wakeContext (worker w') = None /\
    exists text p, ParsePlan text = Ok p /\ ValidatePlan p = [] /\ Questions p = [] /\
      plan_json (pipeline (db w')) = Some (marshalToJSON p)).
  enough (post runPlan Q) as H by (intros Hr; specialize (H w); rewrite Hr in H; by apply H).
  assert (HQ : forall e w, Q (Fail e) w) by done.
  apply post_bind. intros sr.
  eapply post_or_fail; [apply ok_implies_True|done|]. intros model _.
  eapply post_or_fail; [apply ok_implies_True|done|]. intros st _.
  do 3 (apply post_bind; intros ?).
  eapply post_or_fail; [apply ask_parses|done|]. intros [plan tokens] [text Hparse]. cbn [fst] in Hparse.
  destruct (Questions plan) as [|q qs] eqn:Hqs.
  - destruct (ValidatePlan plan) as [|e es] eqn:Hv; [|by apply post_sr_fail].
    intros v s0 Hs. unfold save_plan, mbind, M_bind in Hs |- *. unfold ExecWrite in *. rewrite Hw in *.
    set (v1 := set_db _ (count_write v)) in *.
    destruct (set_architecture plan v1) as [? v2] eqn:E2.
    destruct (publishBrainMessage _ v2) as [? v3] eqn:E3.
    destruct (sr_complete sr tokens 0 v3) as [? v4] eqn:E4. cbn in Hs. injection Hs as <-.
    repeat split. exists text, plan. repeat split; try done. cbn.
    pose (f := fun w => plan_json (pipeline (db w))). change (f v4 = Some (marshalToJSON plan)).
    rewrite (frame_run f _ _ _ _ E4), (frame_run f _ _ _ _ E3), (frame_run f _ _ _ _ E2); [done| | |];
      unfold set_architecture, publishBrainMessage, saveChatMessage, sr_complete, LogStageComplete; frame_tac.
  - apply post_bind. intros _. unfold try. apply post_bind. intros [u|e|e]; try by apply post_ret.
    do 2 (apply post_bind; intros ?). by apply post_ret.
Qed.
End PlanStage.

(** ** Examples *)

Module StageSample.
Definition plan_text : string :=
  dq "Here is the plan: {'app_type':'blog','pages':[{'path':'/','title':'Home','purpose':'p'}],}".

(** A model that answers every request with [s]. *)
Definition answering (s : string) : Env := calm_env (fun _ _ => Ok (text_answer s)).

Definition with_update : World :=
  set_db (set_pipeline (fun r => row_description (Some "make it blue")
    (row_plan (dq "{'app_type':'blog','pages':[{'path':'/','title':'Home','purpose':'p'}]}") 0 r)))
    new_world.
End StageSample.

Lemma runPlan_stores_valid_plan_witness :
  let w' := snd (runPlan (E := StageSample.answering StageSample.plan_text) (D := Sample.deps) new_world) in
  exists p, ValidatePlan p = [] /\ plan_json (pipeline (db w')) = Some (marshalToJSON p).
Proof.
  destruct (runPlan_stores_valid_plan (E := StageSample.answering StageSample.plan_text) (D := Sample.deps)
    new_world (snd (runPlan (E := StageSample.answering StageSample.plan_text) (D := Sample.deps) new_world))
    StageBuild (fun _ => eq_refl) ltac:(vm_compute; reflexivity)) as (_ & _ & text & p & _ & Hv & _ & Hp).
  exists p. split; [exact Hv|exact Hp].
Defined.

(** The last message of the last request. *)
Definition last_asked (w : World) : string :=
  match last (sent w) with
  | Some rq => match last (rq_messages rq) with Some m => msg_content m | None => "" end
  | None => ""
  end.

(** UPDATE_PLAN is not idempotent, although the build loop runs it again when
      the write that advances the stage fails ("stages are idempotent, so
      re-executing is safe"): its first run clears the description of the change,
      and the second asks the model for a patch without saying which. *)
Theorem runUpdatePlan_forgets_description :
  let E := StageSample.answering (dq "{'update_css':true,'update_nav':false}") in
  let D := Sample.deps in
  let '(o1, w1) := runUpdatePlan (E := E) (D := D) StageSample.with_update in
  let '(o2, w2) := runUpdatePlan (E := E) (D := D) w1 in
  o1 = Done StageBuild /\ Contains (last_asked w1) "make it blue" = true /\
  o2 = Done StageBuild /\ last_asked w2 = "Create a PlanPatch JSON describing the changes needed.".
Proof. vm_compute. repeat split. Qed.
