(* ===== verification/Chat.v ===== *)
(** * chat/: the conversation of the owner with a site

    The history of messages (history.go), a session that streams the answers of the
    model and runs its tools (session.go), and the handler that keeps the sessions
    (handler.go).  The chunks given to the caller are kept in order. *)

From Stdlib Require Import ZArith Lia Ascii String List Bool.
From stdpp Require Import base list strings gmap.
From S2P Require Import Anthropic OpenAI Prelude GoStrings GoTime JSONText PlanJSON LLMTypes SSE World ToolCore LLMLoop Stages.

Local Open Scope string_scope.

(** ** The history *)

Definition of_session (sessionID : string) (r : ChatRow) : bool := (ch_session r =? sessionID)%string.

(** The newest [n] rows, the newest first: rows are kept in the order of their ids. *)
Definition newest (n : nat) (l : list ChatRow) : list ChatRow := firstn n (descending ch_created (rev l)).

Definition message_of (r : ChatRow) : Message :=
  {| msg_role := role_of (ch_role r); msg_content := ch_content r; msg_calls := calls_of (ch_calls r);
     msg_call_id := default "" (ch_call_id r) |}.

Definition limit_or (d limit : Z) : nat := Z.to_nat (if (limit <=? 0)%Z then d else limit).

(** What [LoadHistory] answers when the database does. *)
Definition history (sessionID : string) (limit : Z) (s : SiteStore) : list Message :=
  rev (map message_of (newest (limit_or 50 limit) (List.filter (of_session sessionID) (chat_messages s)))).

Definition chat_row (sessionID : string) (msg : Message) (t : time) : ChatRow :=
  {| ch_session := sessionID; ch_role := role_string (msg_role msg); ch_content := msg_content msg;
     ch_calls := calls_text (msg_calls msg);
     ch_call_id := if (msg_call_id msg =? "")%string then None else Some (msg_call_id msg); ch_created := t |}.

Record MessageWithMeta := { mm_message : Message; mm_session : string; mm_created : string }.

Section History.
Context `{E : Env}.

Definition LoadHistory (sessionID : string) (limit : Z) : M (res string (list Message)) :=
  r ← Query (history sessionID limit);
  mret match r with Ok l => Ok l | Err e => Err ("chat: load history: " ++ e) end.

(** The messages of the owner and of the brain, for display.  [stored_text] is the
    text SQLite keeps of a time and compares with [before]; [scanned_text] the text
    the driver gives for it. *)
Definition LoadMergedHistory (stored_text scanned_text : time -> string) (limit : Z) (before : string)
    : M (res string (list MessageWithMeta)) :=
  r ← Query (fun s =>
        rev (map (fun r => {| mm_message := message_of r; mm_session := ch_session r; mm_created := scanned_text (ch_created r) |})
          (newest (limit_or 100 limit)
            (List.filter (fun r => (of_session "admin" r || of_session "brain" r)
                                   && ((before =? "")%string || String.ltb (stored_text (ch_created r)) before))
              (chat_messages s)))));
  mret match r with Ok l => Ok l | Err e => Err ("chat: load merged history: " ++ e) end.

Definition SaveMessage (sessionID : string) (msg : Message) : M (res string unit) :=
  ok ← ExecWrite (fun t s => set_chat (chat_messages s ++ [chat_row sessionID msg t])%list s);
  mret (if ok : bool then Ok tt else Err "chat: save message").
End History.

(** ** Sessions *)

Definition chatMaxToolIterations : nat := 10.
Definition historyLimit : Z := 50.

(** The world with what a session has besides: the chunks given to its caller, the
    registry of live providers, the log of calls, the requests made. *)
Record ChatState := {
  chat_world : World; chat_out : list StreamChunk; chat_registry : ProviderRegistry Provider;
  chat_log : list LLMLogEntry; chat_asked : list CompletionRequest;
}.

Definition C (A : Type) : Type := ChatState -> (res string A * ChatState)%type.
#[export] Instance C_ret : MRet C := fun A a s => (Ok a, s).
#[export] Instance C_bind : MBind C := fun A B k m s =>
  let '(r, s') := m s in match r with Ok a => k a s' | Err e => (Err e, s') end.

Definition fail {A} (e : string) : C A := fun s => (Err e, s).

(** A step of the world, whose error ends the call with [during] before it. *)
Definition set_world (w : World) (s : ChatState) : ChatState :=
  {| chat_world := w; chat_out := chat_out s; chat_registry := chat_registry s; chat_log := chat_log s; chat_asked := chat_asked s |}.
Definition lift {A} (m : M A) : C A := fun s => let '(a, w) := m (chat_world s) in (Ok a, set_world w s).
Definition or_fail {A} (during : string) (r : res string A) : C A :=
  match r with Ok a => mret a | Err e => fail (during ++ e) end.

(** [onChunk] *)
Definition give (l : list StreamChunk) : C unit := fun s =>
  (Ok tt, {| chat_world := chat_world s; chat_out := (chat_out s ++ l)%list; chat_registry := chat_registry s;
             chat_log := chat_log s; chat_asked := chat_asked s |}).

(** How long a stream takes. *)
Class StreamTime := { stream_time : nat -> duration }.

(** What a session forwards of a stream, and what it collects. *)
Definition forwarded (ch : StreamChunk) : list StreamChunk :=
  match ChunkError ch with
  | Some _ => [ch]
  | None => ((if (Delta ch =? "")%string then [] else [ch]) ++ match ChunkCall ch with Some _ => [ch] | None => [] end)%list
  end.
Definition heard (l : list StreamChunk) : list StreamChunk :=
  List.filter (fun ch => match ChunkError ch with Some _ => false | None => true end) l.

Section Session.
Context `{E : Env} `{D : Deps} `{W : Wire} `{V : PlaceOrder} `{T : StreamTime}.
Context (sessionID : string).

(** [createProvider] *)
Definition createProvider (name providerType apiKey baseURL : string) : option Provider :=
  let ty := ToLower providerType in
  if (ty =? "anthropic")%string then
    Some (Anthropic.provider (Anthropic.New name apiKey (if (baseURL =? "")%string then [] else [Anthropic.WithBaseURL baseURL])))
  else if (ty =? "openai")%string then
    Some (OpenAI.provider (OpenAI.New name apiKey (if (baseURL =? "")%string then [] else [OpenAI.WithBaseURL baseURL])))
  else None.

(** The key of a provider; [GetModelForSite] without a model for the site answers [no_rows]. *)
Definition provider_key (row : ProviderRow) : res string string :=
  match (match p_key row with Some "" => None | k => k end) with
  | Some k => match decrypt k with
              | Ok key => Ok key
              | Err e => Err ("decrypt API key for " ++ Quote (p_name row) ++ ": " ++ e)
              end
  | None => if RequiresAPIKey (p_config row) then Err ("provider " ++ Quote (p_name row) ++ " has no API key configured") else Ok ""
  end.

Definition register_live (name : string) (p : Provider) : C unit := fun s =>
  (Ok tt, {| chat_world := chat_world s; chat_out := chat_out s; chat_registry := RegisterProvider name p (chat_registry s);
             chat_log := chat_log s; chat_asked := chat_asked s |}).

Definition resolveProvider : C (Provider * string) :=
  m ← lift (get (fun w => site_model (glob w)));
  match m with
  | None => fail ("get model for site " ++ Itoa siteID ++ ": " ++ no_rows)
  | Some (model, row) =>
      live ← (fun s => (Ok (providers (chat_registry s) !! p_name row), s));
      match live with
      | Some p => mret (p, model)
      | None =>
          key ← or_fail "" (provider_key row);
          match createProvider (p_name row) (p_type row) key (default "" (p_base_url row)) with
          | Some p => register_live (p_name row) p;; mret (p, model)
          | None => fail ("unsupported provider type: " ++ p_type row)
          end
      end
  end.

(** A request through the logged provider. *)
Definition stream (p : Provider) (iteration : Z) (req : CompletionRequest) : C (list StreamChunk * option string) := fun s =>
  let n := List.length (chat_asked s) in
  let d := stream_time n in
  let '(o, entry) := logged_stream p "chat" sessionID iteration (Z.quot d 1000000) n req in
  (Ok o, {| chat_world := advance_clock d (chat_world s); chat_out := chat_out s; chat_registry := chat_registry s;
            chat_log := (chat_log s ++ [entry])%list; chat_asked := (chat_asked s ++ [req])%list |}).

(** The error of a save is logged only. *)
Definition save (msg : Message) : C unit := lift (SaveMessage sessionID msg);; mret tt.

Definition publish_chat (role content : string) : C unit :=
  lift (publish "chat.message" [("session_id", VString sessionID); ("role", VString role); ("content", VString content)]).

Definition call_args (text : string) : Args :=
  match Unmarshal text with
  | Ok j => match args_of_json j with Ok a => a | Err _ => [] end
  | Err _ => []
  end.

(** One call: the message that answers it. *)
Definition run_call (tc : ToolCall) : C Message :=
  o ← lift (Execute ToolRegistry (tc_name tc) (call_args (tc_args tc)));
  let '(answer, _) := o in
  let result := match answer with Ok r => r | Err e => dq "{'success':false,'error':" ++ Quote e ++ "}" end in
  give [result_chunk {| tr_id := tc_id tc; tr_name := tc_name tc; tr_result := result; tr_error := negb (is_ok answer) |}];;
  let msg := tool_message result (tc_id tc) in
  save msg;;
  mret msg.

Fixpoint run_calls (calls : list ToolCall) (messages : list Message) : C (list Message) :=
  match calls with
  | [] => mret messages
  | tc :: r => m ← run_call tc; run_calls r (messages ++ [m])%list
  end.

(** The loop from iteration [i] on, with [tries] iterations left. *)
Fixpoint streamWithTools (tries : nat) (i : Z) (p : Provider) (modelID systemPrompt : string) (messages : list Message)
    (tools : list WireTool) : C unit :=
  match tries with
  | O => give [done_chunk None];;
         fail ("chat: exceeded maximum tool iterations (" ++ Itoa (Z.of_nat chatMaxToolIterations) ++ ")")
  | S tries =>
      o ← stream p i {| Model := modelID; Messages := messages; System := systemPrompt; Tools := tools; MaxTokens := 8192;
                        Temperature := None; TopP := None; StopWords := []; CacheSystem := false |};
      let '(chunks, err) := o in
      give (List.concat (map forwarded chunks));;
      match err with
      | Some e => fail ("stream (iteration " ++ Itoa i ++ "): " ++ e)
      | None =>
          let assistant := {| msg_role := RoleAssistant; msg_content := said (heard chunks); msg_calls := called (heard chunks);
                              msg_call_id := "" |} in
          match msg_calls assistant with
          | [] => save assistant;; publish_chat "assistant" (msg_content assistant);; give [done_chunk None]
          | calls =>
              save assistant;;
              messages ← run_calls calls (messages ++ [assistant])%list;
              streamWithTools tries (i + 1)%Z p modelID systemPrompt messages tools
          end
      end
  end.

Definition wire_tool (t : Tool) : WireTool :=
  {| wt_name := ToolCore.Name t; wt_description := ToolDescription t; wt_type := ""; wt_parameters := Parameters t |}.
Definition chat_tools : list WireTool :=
  omap (fun n => if bool_decide (n ∈ ChatToolSet) then wire_tool <$> ToolRegistry !! n else None) (sortedNames ToolRegistry).

(** An error of [m] with what was being done before it. *)
Definition during {A} (what : string) (m : C A) : C A := fun s =>
  let '(r, s') := m s in (match r with Ok a => Ok a | Err e => Err (what ++ e) end, s').

Definition Send (message : string) : C unit :=
  r ← lift (SaveMessage sessionID (text_message RoleUser message));
  or_fail "chat: save user message: " r;;
  publish_chat "user" message;;
  h ← lift (LoadHistory sessionID historyLimit);
  messages ← or_fail "chat: load history: " h;
  systemPrompt ← lift (get (fun w => prompt "BuildChatSystemPrompt" w));
  pm ← during "chat: resolve provider: " resolveProvider;
  let '(p, modelID) := pm in
  during "chat: stream: " (streamWithTools chatMaxToolIterations 0 p modelID systemPrompt messages chat_tools).
End Session.

(** ** Server-sent events *)

Section Events.

(** [writeSSE] *)
Definition writeSSE (event : string) (data : json) : string :=
  "event: " ++ event ++ s1 newline_byte ++ "data: " ++ Marshal data ++ s1 newline_byte ++ s1 newline_byte.

Definition enc_ToolResult (r : ToolResult) : json :=
  JObj ([("id", JStr (tr_id r)); ("name", JStr (tr_name r)); ("result", JStr (tr_result r))]
        ++ if tr_error r then [("is_error", JBool true)] else [])%list.

(** What the callback of [HandleStream] writes for a chunk. *)
Definition sse_chunk (ch : StreamChunk) : list (string * json) :=
  match ChunkError ch with
  | Some e => [("error", JObj [("error", JStr e)])]
  | None =>
      ((if (Delta ch =? "")%string then [] else [("token", JObj [("text", JStr (Delta ch))])])
       ++ match ChunkCall ch with
          | Some tc => [("tool_start", JObj [("id", JStr (tc_id tc)); ("name", JStr (tc_name tc))])]
          | None => []
          end
       ++ match ChunkResult ch with Some r => [("tool_result", enc_ToolResult r)] | None => [] end
       ++ if ChunkDone ch then [("done", JObj [])] else [])%list
  end.

(** The body of the answer to a message: its chunks and the error of [Send]. *)
Definition stream_answer (chunks : list StreamChunk) (r : res string unit) : list (string * json) :=
  (List.concat (map sse_chunk chunks) ++ match r with Ok _ => [] | Err e => [("error", JObj [("error", JStr e)])] end)%list.
Definition sse_text (l : list (string * json)) : string := String.concat "" (map (fun ev => writeSSE (fst ev) (snd ev)) l).
End Events.

(** ** The sessions of the handler *)

Definition sessionMaxIdle : duration := 2 * hour.

(** A session is the site and the id it was made with. *)
Record sessionEntry := { se_site : Z; se_id : string; lastUsed : time; inUse : Z }.
Definition Sessions := gmap string sessionEntry.

Definition session_key (siteID : Z) (sessionID : string) : string := Itoa siteID ++ ":" ++ sessionID.

(** [getOrCreateSession]; [opens] says whether the site's database opens. *)
Definition getOrCreateSession (opens : bool) (siteID : Z) (sessionID : string) (t : time) (m : Sessions) : option sessionEntry * Sessions :=
  match m !! session_key siteID sessionID with
  | Some e =>
      let e := {| se_site := se_site e; se_id := se_id e; lastUsed := t; inUse := inUse e |} in
      (Some e, <[session_key siteID sessionID := e]> m)
  | None =>
      if opens then
        let e := {| se_site := siteID; se_id := sessionID; lastUsed := t; inUse := 0 |} in
        (Some e, <[session_key siteID sessionID := e]> m)
      else (None, m)
  end.

(** The streams of an entry, counted up and down. *)
Definition count_use (d : Z) (key : string) (m : Sessions) : Sessions :=
  match m !! key with
  | Some e => <[key := {| se_site := se_site e; se_id := se_id e; lastUsed := lastUsed e; inUse := inUse e + d |}]> m
  | None => m
  end.

(** A tick of [cleanupLoop]. *)
Definition cleanup (now : time) (m : Sessions) : Sessions :=
  filter (fun kv => ~ ((inUse (snd kv) =? 0)%Z && (sessionMaxIdle <? now - lastUsed (snd kv))%Z = true)) m.


(** ** The handlers *)

Definition maxChatBodySize : nat := Nat.pow 2 20.

(** [fmt.Sscanf(s, "%d")]: spaces but no line break, a sign, and as many digits as
    there are; what follows is not looked at. *)
Fixpoint digits_of (s : string) : string :=
  match s with
  | String a r => if is_digit a then String a (digits_of r) else ""
  | EmptyString => ""
  end.
Definition Sscanf_int (s : string) : option Z :=
  let t := trim_with space_len 0 s in
  if Contains (take_str (String.length s - String.length t) s) (s1 newline_byte) then None else
  let '(sign, rest) := match t with
                       | String "-" r => ("-", r)
                       | String "+" r => ("+", r)
                       | _ => ("", t)
                       end in
  match Atoi (sign ++ digits_of rest) with
  | (n, None) => Some n
  | _ => None
  end.

Record ChatRequest := { cq_method : string; cq_site : string; cq_session : string; cq_before : string; cq_body : Body }.

(** An error of [http.Error], a stream of events, a JSON text. *)
Inductive ChatAnswer :=
| HttpError (code : Z) (text : string)
| EventStream (events : list (string * json))
| JsonAnswer (text : string).

Definition missing_params : ChatAnswer := HttpError 400 "site_id and session_id query parameters are required".

(** The site and the session of a request. *)
Definition params (q : ChatRequest) : ChatAnswer + Z * string :=
  if (cq_site q =? "")%string || (cq_session q =? "")%string then inl missing_params
  else match Sscanf_int (cq_site q) with
       | None => inl (HttpError 400 "site_id must be an integer")
       | Some siteID => inr (siteID, cq_session q)
       end.

(** The message in the body. *)
Definition posted_message (b : Body) : ChatAnswer + string :=
  let cut := {| bytes := take_str maxChatBodySize (bytes b);
                broken := if (maxChatBodySize <=? String.length (bytes b))%nat then None else broken b |} in
  match Decode cut with
  | Err _ => inl (HttpError 400 "invalid JSON body")
  | Ok text =>
      match res_bind (Unmarshal text) (fun j => res_bind (members j) (str "message")) with
      | Err _ => inl (HttpError 400 "invalid JSON body")
      | Ok m => if (m =? "")%string then inl (HttpError 400 "message is required") else inr m
      end
  end.

Section Handlers.
Context `{E : Env} `{W : Wire} `{V : PlaceOrder} `{T : StreamTime}.

(** [HandleStream] for the sites [deps] describes; [opens] says whether the site's
    database opens, [flushes] whether the writer is a [Flusher].  The events are
    those of the chunks [Send] gives, then its error. *)
Definition HandleStream (deps : Z -> Deps) (opens : Z -> bool) (flushes : bool) (q : ChatRequest) (t : time) (m : Sessions) (s : ChatState)
    : ChatAnswer * Sessions * ChatState :=
  if negb (cq_method q =? "POST")%string then (HttpError 405 "method not allowed", m, s) else
  match params q with
  | inl a => (a, m, s)
  | inr (siteID, sessionID) =>
      match posted_message (cq_body q) with
      | inl a => (a, m, s)
      | inr message =>
          if negb flushes then (HttpError 500 "streaming not supported", m, s) else
          match getOrCreateSession (opens siteID) siteID sessionID t m with
          | (None, m) => (HttpError 500 "failed to open site database", m, s)
          | (Some entry, m) =>
              let key := session_key siteID sessionID in
              let m := count_use 1 key m in
              let '(r, s') := Send (D := deps (se_site entry)) (se_id entry) message s in
              (EventStream (stream_answer (skipn (List.length (chat_out s)) (chat_out s')) r), count_use (-1) key m, s')
          end
      end
  end.

Definition enc_MessageWithMeta (m : MessageWithMeta) : json :=
  match enc_Message (mm_message m) with
  | JObj l => JObj (l ++ [("session_id", JStr (mm_session m)); ("created_at", JStr (mm_created m))])%list
  | j => j
  end.

(** [HandleHistory]; the encoder ends its text with a line break. *)
Definition HandleHistory (stored_text scanned_text : time -> string) (opens : Z -> bool) (q : ChatRequest) : M ChatAnswer :=
  if negb (cq_method q =? "GET")%string then mret (HttpError 405 "method not allowed") else
  match params q with
  | inl a => mret a
  | inr (siteID, sessionID) =>
      if negb (opens siteID) then mret (HttpError 500 "failed to open site database") else
      text ← (if (sessionID =? "admin")%string then
                r ← LoadMergedHistory stored_text scanned_text historyLimit (cq_before q);
                mret (match r with Ok l => Ok (marshal_slice enc_MessageWithMeta l) | Err e => Err e end)
              else
                r ← LoadHistory sessionID historyLimit;
                mret (match r with Ok l => Ok (marshal_slice enc_Message l) | Err e => Err e end));
      mret match text with
           | Ok t => JsonAnswer (t ++ s1 newline_byte)
           | Err _ => HttpError 500 "failed to load history"
           end
  end.
End Handlers.
