(* ===== verification/ChatFacts.v ===== *)
(** * What a chat session promises

    The requests of an answer carry the history and a well-formed continuation of
    it; what was said is kept, and is what the next request begins with. *)

From Stdlib Require Import ZArith Lia Ascii String List Bool Sorted.
From stdpp Require Import base list strings gmap.
From S2P Require Import OpenAI Prelude GoStrings GoTime JSONText PlanStore LLMTypes SSE World ToolCore LLMLoop Stages Chat.

Local Open Scope string_scope.

(** ** Steps of a session *)

Section Requests.
Context `{E : Env} `{D : Deps} `{W : Wire} `{V : PlaceOrder} `{T : StreamTime}.
Context (sessionID : string).

(** The rounds a request adds to the messages it was first given: each an assistant
    message with calls and the answers to them. *)
Inductive rounds : list Message -> Prop :=
| rounds_nil : rounds []
| rounds_add l a answers : rounds l -> msg_role a = RoleAssistant -> msg_calls a <> [] ->
    map msg_call_id answers = map tc_id (msg_calls a) ->
    Forall (fun m => msg_role m = RoleTool /\ msg_calls m = []) answers ->
    rounds (l ++ a :: answers).

(** Rounds continue a conversation. *)
Lemma rounds_conversation h l : conversation h -> rounds l -> conversation (h ++ l).
Proof.
  intros Hh. induction 1 as [|l a answers _ IH Ha Hc Hi Hf]; [by rewrite app_nil_r|].
  rewrite app_assoc. change (a :: answers) with ([a] ++ answers)%list. by apply conv_calls.
Qed.

(** A call of the session that makes no request. *)
Definition silent {A} (m : C A) : Prop := forall s,
  chat_asked (snd (m s)) = chat_asked s /\ chat_log (snd (m s)) = chat_log s.

Lemma silent_ret {A} (a : A) : silent (mret a).
Proof. done. Qed.
Lemma silent_fail {A} e : silent (fail (A := A) e).
Proof. done. Qed.
Lemma silent_lift {A} (m : M A) : silent (lift m).
Proof. intros s. unfold lift. by destruct (m (chat_world s)). Qed.
Lemma silent_give l : silent (give l).
Proof. done. Qed.
Lemma silent_or_fail {A} what (r : res string A) : silent (or_fail what r).
Proof. by destruct r. Qed.
Lemma silent_bind {A B} (m : C A) (k : A -> C B) : silent m -> (forall a, silent (k a)) -> silent (m ≫= k).
Proof.
  intros Hm Hk s. unfold mbind, C_bind. specialize (Hm s). destruct (m s) as [[a|e] s1]; [|done]. cbn [snd] in Hm.
  destruct (Hk a s1) as [H1 H2]. destruct Hm as [H3 H4]. by rewrite H1, H2.
Qed.
Lemma silent_during {A} what (m : C A) : silent m -> silent (during what m).
Proof. intros Hm s. unfold during. specialize (Hm s). by destruct (m s) as [[a|e] s1]. Qed.

Lemma silent_save msg : silent (save sessionID msg).
Proof. apply silent_bind; [apply silent_lift|intros; apply silent_ret]. Qed.
Lemma silent_publish role content : silent (publish_chat sessionID role content).
Proof. apply silent_lift. Qed.

Lemma silent_run_call tc : silent (run_call sessionID tc).
Proof.
  apply silent_bind; [apply silent_lift|intros [answer args]]. cbv zeta. apply silent_bind; [apply silent_give|intros _].
  apply silent_bind; [apply silent_save|intros _; apply silent_ret].
Qed.

Lemma silent_resolve : silent resolveProvider.
Proof.
  apply silent_bind; [apply silent_lift|intros [[model row]|]]; [|apply silent_fail].
  apply silent_bind; [done|intros [p|]]; [apply silent_ret|]. apply silent_bind; [apply silent_or_fail|intros key].
  destruct (createProvider _ _ _ _); [|apply silent_fail]. by apply silent_bind.
Qed.

(** Calls are answered in order, and nothing else is added. *)
Lemma run_call_answer tc s : match fst (run_call sessionID tc s) with
  | Ok m => msg_call_id m = tc_id tc /\ msg_role m = RoleTool /\ msg_calls m = []
  | Err _ => False
  end.
Proof.
  cbv beta zeta iota delta [run_call mbind C_bind lift give save mret C_ret].
  destruct (Execute _ _ _ (chat_world s)) as [[answer args] w1].
  match goal with |- context [SaveMessage ?i ?m ?w] => by destruct (SaveMessage i m w) as [r w2] end.
Qed.

Lemma run_calls_answers calls : forall msgs s, exists answers,
  fst (run_calls sessionID calls msgs s) = Ok (msgs ++ answers)%list /\ map msg_call_id answers = map tc_id calls /\
  Forall (fun m => msg_role m = RoleTool /\ msg_calls m = []) answers /\
  chat_asked (snd (run_calls sessionID calls msgs s)) = chat_asked s /\ chat_log (snd (run_calls sessionID calls msgs s)) = chat_log s.
Proof.
  induction calls as [|tc calls IH]; intros msgs s; cbn [run_calls].
  - exists []. by rewrite app_nil_r.
  - pose proof (run_call_answer tc s) as Hm. pose proof (silent_run_call tc s) as Hq. unfold mbind, C_bind.
    destruct (run_call sessionID tc s) as [[m|e] s1]; [|done]. cbn [fst snd] in *. destruct Hm as (H1 & H2 & H3). destruct Hq as [Q1 Q2].
    destruct (IH (msgs ++ [m])%list s1) as (answers & Ha & Hi & Hf & A1 & A2). exists (m :: answers).
    rewrite Ha, A1, A2, <- app_assoc. cbn [map]. rewrite H1, Hi. split_and!; try done. by constructor.
Qed.

(** What a run of the loop asks, from the messages [h] on: the i-th request adds
    rounds to those before, and is logged once. *)
Definition request (sys model : string) (msgs : list Message) : CompletionRequest :=
  {| Model := model; Messages := msgs; System := sys; Tools := chat_tools; MaxTokens := 8192; Temperature := None; TopP := None;
     StopWords := []; CacheSystem := false |}.

Definition asks (sys model : string) (h : list Message) (limit : nat) (i : Z) (s s' : ChatState) : Prop :=
  exists qs entries, chat_asked s' = (chat_asked s ++ qs)%list /\ chat_log s' = (chat_log s ++ entries)%list /\
    (List.length qs <= limit)%nat /\
    Forall (fun q => exists added, q = request sys model (h ++ added) /\ rounds added) qs /\
    Forall2 (fun q en => SessionID en = sessionID /\ RequestMessages en = marshal_slice enc_Message (Messages q)) qs entries /\
    map Iteration entries = map (fun k => (i + Z.of_nat k)%Z) (seq 0 (List.length qs)).

Lemma asks_silent sys model h limit i s s' : chat_asked s' = chat_asked s -> chat_log s' = chat_log s -> asks sys model h limit i s s'.
Proof. intros H1 H2. exists [], []. rewrite !app_nil_r. split_and!; try done. cbn. lia. Qed.

Lemma asks_one sys model h added limit i s s1 s' en : rounds added ->
  chat_asked s1 = (chat_asked s ++ [request sys model (h ++ added)])%list -> chat_log s1 = (chat_log s ++ [en])%list ->
  SessionID en = sessionID -> RequestMessages en = marshal_slice enc_Message (h ++ added)%list -> Iteration en = i ->
  asks sys model h limit (i + 1) s1 s' -> asks sys model h (S limit) i s s'.
Proof.
  intros Hr H1 H2 He Hm Hi (qs & es & A & L & Hl & Hq & Hf & Hit). exists (request sys model (h ++ added) :: qs), (en :: es).
  rewrite A, L, H1, H2, <- !app_assoc. split_and!; [done|done|cbn; lia| | |].
  - constructor; [by exists added|done].
  - by constructor.
  - cbn [map List.length seq]. rewrite Hit, Hi. f_equal; [cbn; lia|]. rewrite <- seq_shift, map_map. apply map_ext. intros k. lia.
Qed.
(** The end of an answer without calls asks nothing. *)
Lemma silent_answer asst : silent (save sessionID asst;; publish_chat sessionID "assistant" (msg_content asst);; give [done_chunk None]).
Proof.
  apply silent_bind; [apply silent_save|intros _]. apply silent_bind; [apply silent_publish|intros _; apply silent_give].
Qed.

Lemma loop_asks tries : forall i p sys model h added s, rounds added ->
  asks sys model h tries i s (snd (streamWithTools sessionID tries i p model sys (h ++ added) chat_tools s)).
Proof.
  induction tries as [|tries IH]; intros i p sys model h added s Hr; cbn [streamWithTools]; [by apply asks_silent|].
  unfold mbind at 1, C_bind at 1, stream. fold (request sys model (h ++ added)). cbv zeta.
  unfold logged_stream. destruct (provider_Stream p _ _) as [chunks err].
  set (s1 := {| chat_world := _; chat_out := _; chat_registry := _; chat_log := _; chat_asked := _ |}).
  assert (forall s', asks sys model h tries (i + 1) s1 s' -> asks sys model h (S tries) i s s') as Hone.
  { intros s'. by eapply asks_one. }
  apply Hone. clear Hone. unfold mbind at 1, C_bind at 1. cbn [give].
  set (s2 := {| chat_world := _; chat_out := _; chat_registry := _; chat_log := _; chat_asked := _ |}).
  destruct err as [e|]; [by apply asks_silent|]. cbv zeta.
  set (asst := {| msg_role := RoleAssistant; msg_content := _; msg_calls := _; msg_call_id := "" |}).
  destruct (msg_calls asst) as [|tc calls] eqn:Hc.
  - pose proof (silent_answer asst s2) as [H1 H2]. by apply asks_silent; [rewrite H1|rewrite H2].
  - unfold mbind at 1, C_bind at 1. pose proof (silent_save asst s2) as [Q1 Q2]. destruct (save sessionID asst s2) as [[[]|e] s3] eqn:Hs.
    2: { by apply asks_silent; [rewrite Q1|rewrite Q2]. }
    cbn [snd] in Q1, Q2.
    destruct (run_calls_answers (tc :: calls) ((h ++ added) ++ [asst])%list s3) as (answers & Ha & Hi & Hf & A1 & A2).
    unfold mbind, C_bind. destruct (run_calls sessionID (tc :: calls) ((h ++ added) ++ [asst])%list s3) as [[msgs|e] s4]; [|done].
    cbn [fst snd] in *. injection Ha as ->.
    assert (rounds (added ++ asst :: answers)) as Hr'. { apply rounds_add; try done; by rewrite Hc. }
    specialize (IH (i + 1)%Z p sys model h _ s4 Hr'). rewrite <- !app_assoc. cbn [app].
    destruct IH as (qs & es & H1 & H2 & H3). exists qs, es. by rewrite H1, H2, A1, A2, Q1, Q2.
Qed.

(** The history a message is answered with: what is kept of the session, and the message. *)
Definition history_with (message : string) (w : World) : list Message :=
  history sessionID historyLimit
    (set_chat (chat_messages (db w) ++ [chat_row sessionID (text_message RoleUser message) (CURRENT_TIMESTAMP w)])%list (db w)).

Lemma SaveMessage_done msg w u w' : SaveMessage sessionID msg w = (Ok u, w') ->
  db w' = set_chat (chat_messages (db w) ++ [chat_row sessionID msg (CURRENT_TIMESTAMP w)])%list (db w) /\ clock w' = clock w.
Proof.
  unfold SaveMessage, mbind, M_bind, ExecWrite. destruct (write_fails _); [done|]. by intros [= _ <-].
Qed.

Lemma LoadHistory_done limit w h w' : LoadHistory sessionID limit w = (Ok h, w') -> h = history sessionID limit (db w) /\ db w' = db w /\ clock w' = clock w.
Proof.
  unfold LoadHistory, mbind, M_bind, Query. destruct (load_fails _); [done|]. by intros [= <- <-].
Qed.

Lemma Send_asks message s : exists sys model,
  asks sys model (history_with message (chat_world s)) chatMaxToolIterations 0 s (snd (Send sessionID message s)).
Proof.
  set (h0 := history_with message (chat_world s)).
  assert (forall s', chat_asked s' = chat_asked s -> chat_log s' = chat_log s ->
    exists sys model, asks sys model h0 chatMaxToolIterations 0 s s') as Hsil.
  { intros s' H1 H2. exists "", "". by apply asks_silent. }
  unfold Send. unfold mbind at 1, C_bind at 1, lift at 1. destruct (SaveMessage _ _ (chat_world s)) as [r w1] eqn:Hsave.
  unfold mbind at 1, C_bind at 1. destruct r as [u|e]; cbn [or_fail]; [|by apply Hsil]. cbn [mret C_ret].
  apply SaveMessage_done in Hsave as [Hdb _].
  unfold mbind at 1, C_bind at 1, publish_chat. set (s1 := set_world w1 s). unfold lift at 1. cbn [publish modify].
  unfold mbind at 1, C_bind at 1, lift at 1. destruct (LoadHistory _ _ _) as [r w2] eqn:Hload.
  unfold mbind at 1, C_bind at 1. destruct r as [h|e]; cbn [or_fail]; [|by apply Hsil]. cbn [mret C_ret].
  apply LoadHistory_done in Hload as (Hh & _ & _). assert (h = h0) as ->. { rewrite Hh. cbn. by rewrite Hdb. }
  unfold mbind at 1, C_bind at 1, lift at 1, get. set (sys := prompt _ _). set (s3 := set_world _ _).
  unfold mbind at 1, C_bind at 1. pose proof (silent_during "chat: resolve provider: " resolveProvider silent_resolve s3) as [R1 R2].
  destruct (during _ resolveProvider s3) as [[[p model]|e] s4]; cbn [snd] in *; [|apply Hsil; [by rewrite R1|by rewrite R2]].
  exists sys, model. pose proof (loop_asks chatMaxToolIterations 0 p sys model h0 [] s4 rounds_nil) as (qs & es & H1 & H2 & H3).
  rewrite app_nil_r in H1, H2. unfold during. destruct (streamWithTools _ _ _ _ _ _ _ _ s4) as [r s5]. cbn [snd] in *.
  exists qs, es. by rewrite H1, H2, R1, R2.
Qed.

(** What a session asks.  A message of the owner leads to at most ten requests;
    each carries the system prompt, the tools of the chat and the same history - the
    last fifty messages kept, this one included - followed by rounds: an assistant
    message with calls and one answer to each, in order and by id.  So a history
    that is a conversation is asked for as one.  Each request is logged once, with
    its messages and its number. *)
Theorem Send_requests message s :
  let s' := snd (Send sessionID message s) in
  let h := history_with message (chat_world s) in
  exists sys model, asks sys model h chatMaxToolIterations 0 s s' /\
    (conversation h -> forall q, In q (skipn (List.length (chat_asked s)) (chat_asked s')) -> conversation (Messages q)).
Proof.
  cbv zeta. destruct (Send_asks message s) as (sys & model & Ha). exists sys, model. split; [done|]. intros Hh q Hq.
  destruct Ha as (qs & es & H1 & _ & _ & Hf & _). rewrite H1, drop_app_length in Hq. rewrite Forall_forall in Hf.
  apply list_elem_of_In in Hq. destruct (Hf q Hq) as (added & -> & Hr). by apply rounds_conversation.
Qed.
End Requests.

(** ** What is kept of a conversation *)

Section Memory.
Context `{E : Env} `{D : Deps} `{W : Wire} `{V : PlaceOrder} `{T : StreamTime}.
Context (sessionID : string).

(** A message that the table keeps as it is. *)
Definition keepable (m : Message) : Prop := known_role (msg_role m) /\ Forall utf8_call (msg_calls m).

Lemma message_of_row m t : keepable m -> message_of (chat_row sessionID m t) = m.
Proof.
  intros [Hr Hc]. unfold message_of, chat_row. cbn. rewrite Hr, calls_of_text by done. destruct m as [ro co ca id]; cbn.
  by destruct (String.eqb_spec id "") as [->|].
Qed.

(** All messages of the session, in order. *)
Definition full (s : SiteStore) : list Message := map message_of (List.filter (of_session sessionID) (chat_messages s)).

(** The rows are in the order of their times. *)
Definition in_order (l : list ChatRow) : Prop := StronglySorted Z.le (map ch_created l).

Lemma in_order_filter f l : in_order l -> in_order (List.filter f l).
Proof.
  unfold in_order. induction l as [|x l IH]; [done|]. cbn. intros H. apply StronglySorted_inv in H as [H Hx].
  destruct (f x); [|by apply IH]. cbn. constructor; [by apply IH|]. rewrite Forall_forall in *. intros y Hy.
  apply Hx. apply list_elem_of_fmap in Hy as (r & -> & Hr). apply list_elem_of_fmap. exists r. split; [done|].
  apply list_elem_of_In. apply list_elem_of_In, filter_In in Hr. tauto.
Qed.

Lemma in_order_app l r : in_order l -> in_order r -> (forall x y, In x l -> In y r -> (ch_created x <= ch_created y)%Z) -> in_order (l ++ r).
Proof.
  unfold in_order. induction l as [|x l IH]; [done|]. cbn. intros H Hr Hxy. apply StronglySorted_inv in H as [H Hx].
  constructor; [apply IH; auto|]. rewrite map_app. apply Forall_app. split; [done|]. apply Forall_forall. intros z Hz.
  apply list_elem_of_fmap in Hz as (y & -> & Hy%list_elem_of_In). apply Hxy; [by left|done].
Qed.

Lemma descending_rev l : in_order l -> descending ch_created (rev l) = rev l.
Proof.
  intros H. unfold descending. induction l as [|x l IH] using rev_ind; [done|]. rewrite rev_app_distr. cbn [rev app foldr].
  assert (in_order l) as Hl.
  { unfold in_order in *. rewrite map_app in H. clear IH. induction (map ch_created l) as [|y r IHr]; [constructor|].
    cbn in H. apply StronglySorted_inv in H as [H Hy]. constructor; [by apply IHr|]. by apply Forall_app in Hy as [Hy _]. }
  rewrite (IH Hl). destruct l as [|y l] using rev_ind; [done|]. rewrite rev_app_distr. cbn [rev app insert_down].
  assert (ch_created y <= ch_created x)%Z as Hle.
  { unfold in_order in H. rewrite <- app_assoc, map_app in H. clear -H. induction (map ch_created l) as [|z r IHr]; cbn in H.
    - apply StronglySorted_inv in H as [_ H]. by apply Forall_inv in H.
    - apply StronglySorted_inv in H as [H _]. by apply IHr. }
  by apply Z.leb_le in Hle as ->.
Qed.

(** The last [n] elements. *)
Definition lastn {A} (n : nat) (l : list A) : list A := skipn (List.length l - n) l.

(** Of a session whose rows are in order, the history is the end. *)
Lemma history_full limit s : in_order (chat_messages s) -> history sessionID limit s = lastn (limit_or 50 limit) (full s).
Proof.
  intros H. unfold history, newest, full, lastn. rewrite descending_rev by (by apply in_order_filter).
  rewrite <- map_rev, firstn_rev, rev_involutive, length_map, <- skipn_map. done.
Qed.
(** The messages [msgs] were kept between two worlds: their rows follow those there
    were, with times between. *)
Definition kept (msgs : list Message) (w w' : World) : Prop :=
  exists rows, chat_messages (db w') = (chat_messages (db w) ++ rows)%list /\ map message_of rows = msgs /\
    Forall (fun r => of_session sessionID r = true) rows /\
    Forall (fun r => CURRENT_TIMESTAMP w <= ch_created r <= CURRENT_TIMESTAMP w')%Z rows /\ in_order rows /\ (clock w <= clock w')%Z.

Lemma timestamp_mono w w' : (clock w <= clock w')%Z -> (CURRENT_TIMESTAMP w <= CURRENT_TIMESTAMP w')%Z.
Proof.
  unfold CURRENT_TIMESTAMP, Truncate. intros H. assert (0 < second)%Z by done.
  pose proof (Z.div_le_mono _ _ second ltac:(done) H). rewrite !Z.mod_eq by lia. nia.
Qed.

Lemma kept_nil w w' : chat_messages (db w') = chat_messages (db w) -> (clock w <= clock w')%Z -> kept [] w w'.
Proof. intros H1 H2. exists []. rewrite app_nil_r. split_and!; try done; constructor. Qed.

Lemma kept_trans a b w1 w2 w3 : kept a w1 w2 -> kept b w2 w3 -> kept (a ++ b) w1 w3.
Proof.
  intros (r1 & D1 & <- & S1 & T1 & O1 & C1) (r2 & D2 & <- & S2 & T2 & O2 & C2). exists (r1 ++ r2)%list.
  rewrite D2, D1, app_assoc, map_app. pose proof (timestamp_mono _ _ C1). pose proof (timestamp_mono _ _ C2). split_and!; try done.
  - by apply Forall_app.
  - apply Forall_app. split; (eapply Forall_impl; [eassumption|]); cbn; intros; lia.
  - apply in_order_app; [done|done|]. intros x y Hx Hy. rewrite Forall_forall in T1, T2.
    apply list_elem_of_In in Hx, Hy. specialize (T1 _ Hx). specialize (T2 _ Hy). cbn in *. lia.
  - lia.
Qed.

(** The rows there are come before now. *)
Definition dated (w : World) : Prop :=
  in_order (chat_messages (db w)) /\ Forall (fun r => (ch_created r <= CURRENT_TIMESTAMP w)%Z) (chat_messages (db w)).

Lemma dated_kept msgs w w' : kept msgs w w' -> dated w -> dated w'.
Proof.
  intros (r & D1 & _ & _ & T1 & O1 & C1) [Ho Hd]. pose proof (timestamp_mono _ _ C1). unfold dated. rewrite D1. split.
  - apply in_order_app; [done|done|]. intros x y Hx Hy. rewrite Forall_forall in T1, Hd.
    apply list_elem_of_In in Hx, Hy. specialize (T1 _ Hy). specialize (Hd _ Hx). cbn in *. lia.
  - apply Forall_app. split; (eapply Forall_impl; [eassumption|]); cbn; intros; lia.
Qed.

Lemma full_kept msgs w w' : kept msgs w w' -> full (db w') = (full (db w) ++ msgs)%list.
Proof.
  intros (r & D1 & <- & S1 & _). unfold full. rewrite D1, List.filter_app, map_app. do 2 f_equal.
  clear D1. induction S1 as [|x r Hx _ IH]; [done|]. cbn [List.filter]. by rewrite Hx, IH.
Qed.

(** Steps that succeed. *)
Lemma step {A B} (m : C A) (k : A -> C B) s a s' : m s = (Ok a, s') -> (m ≫= k) s = k a s'.
Proof. intros H. unfold mbind, C_bind. by rewrite H. Qed.
Lemma step_inv {A B} (m : C A) (k : A -> C B) s b s' : (m ≫= k) s = (Ok b, s') ->
  exists a s1, m s = (Ok a, s1) /\ k a s1 = (Ok b, s').
Proof. unfold mbind, C_bind. destruct (m s) as [[a|e] s1] eqn:Hm; [|done]. intros H. by exists a, s1. Qed.

(** Tools leave the messages of the chat alone, and time passes. *)
Definition quiet_tools : Prop := forall n t args w, ToolRegistry !! n = Some t ->
  chat_messages (db (snd (Run t args w))) = chat_messages (db w) /\ (clock w <= clock (snd (Run t args w)))%Z.

Context (writes : forall n, write_fails n = false) (quiet : quiet_tools) (forward : forall n, (0 <= stream_time n)%Z).

Lemma kept_Execute name args w : kept [] w (snd (Execute ToolRegistry name args w)).
Proof.
  unfold Execute, Get. destruct (ToolRegistry !! name) as [t|] eqn:Ht; [|apply kept_nil; [done|cbn; lia]].
  unfold mbind, M_bind, now, get. destruct (quiet name t args w Ht) as [H1 H2]. destruct (Run t args w) as [[answer args'] w1].
  unfold ctx_Err. destruct (ctx_done _); [by apply kept_nil|]. destruct answer; by apply kept_nil.
Qed.

Lemma kept_save msg s : keepable msg -> exists s', save sessionID msg s = (Ok tt, s') /\
  kept [msg] (chat_world s) (chat_world s') /\ chat_registry s' = chat_registry s /\ chat_asked s' = chat_asked s.
Proof.
  intros Hm. unfold save, lift, SaveMessage, mbind, C_bind, M_bind, ExecWrite. rewrite writes. cbn. eexists. split; [done|].
  split; [|done]. exists [chat_row sessionID msg (CURRENT_TIMESTAMP (chat_world s))]. cbn. split_and!.
  - done.
  - by rewrite message_of_row.
  - repeat constructor. unfold of_session. cbn. by rewrite String.eqb_refl.
  - repeat constructor; cbn; unfold CURRENT_TIMESTAMP; cbn; lia.
  - repeat constructor.
  - lia.
Qed.

(** Tool answers are keepable. *)
Lemma keepable_answer result id : keepable (tool_message result id).
Proof. split; [done|by constructor]. Qed.

Lemma run_call_kept tc s : exists m s', run_call sessionID tc s = (Ok m, s') /\ kept [m] (chat_world s) (chat_world s') /\
  chat_asked s' = chat_asked s.
Proof.
  pose proof (kept_Execute (tc_name tc) (call_args (tc_args tc)) (chat_world s)) as Hx.
  destruct (Execute ToolRegistry (tc_name tc) (call_args (tc_args tc)) (chat_world s)) as [[answer args] w1] eqn:He. cbn [snd] in Hx.
  unfold run_call. rewrite (step _ _ _ (answer, args) (set_world w1 s)) by (unfold lift; by rewrite He). cbv zeta.
  erewrite step by done. set (m := tool_message _ _). set (s1 := {| chat_world := _; chat_out := _ |}).
  destruct (kept_save m s1 (keepable_answer _ _)) as (s2 & Hs & Hk & _ & Hq). rewrite (step _ _ _ tt s2 Hs).
  exists m, s2. split; [done|]. split; [|by rewrite Hq]. exact (kept_trans [] [m] _ _ _ Hx Hk).
Qed.

Lemma run_calls_kept calls : forall msgs s msgs' s', run_calls sessionID calls msgs s = (Ok msgs', s') ->
  exists answers, msgs' = (msgs ++ answers)%list /\ kept answers (chat_world s) (chat_world s').
Proof.
  induction calls as [|tc calls IH]; intros msgs s msgs' s'; cbn [run_calls].
  - intros [= <- <-]. exists []. rewrite app_nil_r. split; [done|]. apply kept_nil; [done|lia].
  - destruct (run_call_kept tc s) as (m & s1 & Hm & Hk & _). rewrite (step _ _ _ _ _ Hm).
    intros (answers & -> & Ha)%IH. exists (m :: answers). rewrite <- app_assoc. split; [done|].
    exact (kept_trans [m] answers _ _ _ Hk Ha).
Qed.

(** The providers a message may be answered by give calls whose texts are UTF-8. *)
Definition speaks_utf8 (p : Provider) : Prop := forall n req, Forall utf8_call (called (heard (fst (provider_Stream p n req)))).
Definition speaker (s : ChatState) : Prop := forall s0 p model, chat_registry s0 = chat_registry s ->
  glob (chat_world s0) = glob (chat_world s) -> fst (resolveProvider s0) = Ok (p, model) -> speaks_utf8 p.

(** What an answer that ends well adds after [h], which its first request carried:
    rounds and a last message without calls, all kept; the last request carried all
    but that message. *)
Definition answered (h added : list Message) (s s' : ChatState) : Prop := exists more final qs q,
  kept (more ++ [final]) (chat_world s) (chat_world s') /\ rounds (added ++ more) /\
  msg_role final = RoleAssistant /\ msg_calls final = [] /\
  chat_asked s' = (chat_asked s ++ qs ++ [q])%list /\ Messages q = (h ++ added ++ more)%list.

Lemma stream_kept p i q s chunks err s' : stream sessionID p i q s = (Ok (chunks, err), s') ->
  kept [] (chat_world s) (chat_world s') /\ chat_asked s' = (chat_asked s ++ [q])%list /\
  (chunks, err) = provider_Stream p (List.length (chat_asked s)) q.
Proof.
  unfold stream. cbv zeta. unfold logged_stream. destruct (provider_Stream p _ q) as [c e].
  intros H. injection H as <- <- <-. split; [|done]. apply kept_nil; [done|]. cbn. pose proof (forward (List.length (chat_asked s))). lia.
Qed.

Lemma kept_publish role content s s' : publish_chat sessionID role content s = (Ok tt, s') ->
  kept [] (chat_world s) (chat_world s') /\ chat_registry s' = chat_registry s /\ chat_asked s' = chat_asked s.
Proof. intros H. injection H as <-. split; [|done]. apply kept_nil; [done|cbn; lia]. Qed.

Lemma give_kept l s s' : give l s = (Ok tt, s') -> chat_world s' = chat_world s /\ chat_asked s' = chat_asked s.
Proof. by intros [= <-]. Qed.

Lemma loop_answered tries : forall i p sys model h added s s', speaks_utf8 p -> rounds added ->
  streamWithTools sessionID tries i p model sys (h ++ added) chat_tools s = (Ok tt, s') -> answered h added s s'.
Proof.
  induction tries as [|tries IH]; intros i p sys model h added s s' Hp Hr; cbn [streamWithTools]; [done|].
  fold (request sys model (h ++ added)). set (q := request sys model (h ++ added)).
  intros ([chunks err] & s1 & Hq & H)%step_inv. pose proof (stream_kept p i q s _ _ _ Hq) as (K1 & A1 & P1).
  apply step_inv in H as ([] & s2 & [W2 Q2]%give_kept & H). destruct err as [e|]; [done|]. cbv zeta in H.
  pose proof Hp as Hp0. specialize (Hp (List.length (chat_asked s)) q). rewrite <- P1 in Hp. cbn [fst] in Hp.
  set (asst := {| msg_role := RoleAssistant; msg_content := _; msg_calls := _; msg_call_id := "" |}) in H.
  assert (keepable asst) as Hk by done.
  destruct (kept_save asst s2 Hk) as (s3 & Hs & K2 & _ & A2). rewrite W2 in K2. rewrite Q2 in A2. pose proof (kept_trans _ _ _ _ _ K1 K2) as K3. cbn [app] in K3.
  destruct (msg_calls asst) as [|tc calls] eqn:Hc.
  - rewrite (step _ _ _ _ _ Hs) in H. apply step_inv in H as ([] & s4 & (K4 & _ & A4)%kept_publish & H). injection H as <-.
    exists [], asst, [], q. rewrite app_nil_r. split_and!; try done.
    + exact (kept_trans [asst] [] _ _ _ K3 K4).
    + cbn [chat_asked app]. by rewrite A4, A2, A1.
  - rewrite (step _ _ _ _ _ Hs) in H. apply step_inv in H as (msgs & s4 & Hr4 & H).
    destruct (run_calls_kept _ _ _ _ _ Hr4) as (answers & -> & K4).
    destruct (run_calls_answers sessionID (tc :: calls) ((h ++ added) ++ [asst])%list s3) as (answers' & Ha & Hi & Hf & A3 & _).
    rewrite Hr4 in Ha, A3. cbn [fst snd] in Ha, A3. injection Ha as Ha%app_inv_head. subst answers'.
    assert (rounds (added ++ asst :: answers)) as Hr'. { apply rounds_add; try done; by rewrite Hc. }
    rewrite <- !app_assoc in H. cbn [app] in H. destruct (IH _ _ _ _ _ _ _ _ Hp0 Hr' H) as (more & final & qs & q' & K5 & R & F1 & F2 & A5 & M).
    exists (asst :: answers ++ more)%list, final, (q :: qs), q'. split_and!; try done.
    + rewrite app_comm_cons, <- app_assoc. change (asst :: answers ++ more ++ [final])%list with ([asst] ++ (answers ++ (more ++ [final])))%list.
      exact (kept_trans _ _ _ _ _ K3 (kept_trans _ _ _ _ _ K4 K5)).
    + by rewrite <- app_assoc in R.
    + rewrite A5, A3, A2. rewrite A1, <- !app_assoc. done.
    + rewrite M, <- app_assoc. done.
Qed.
Lemma during_inv {A} what (m : C A) s a s' : during what m s = (Ok a, s') -> m s = (Ok a, s').
Proof. unfold during. by destruct (m s) as [[b|e] s1]. Qed.
Lemma or_fail_inv {A} what (r : res string A) s a s' : or_fail what r s = (Ok a, s') -> r = Ok a /\ s' = s.
Proof. destruct r; by intros [= -> ->]. Qed.

(** Choosing a provider touches neither the world nor the requests. *)
Lemma resolve_world s : chat_world (snd (resolveProvider s)) = chat_world s.
Proof.
  unfold resolveProvider, mbind, C_bind, lift, get. destruct (site_model _) as [[model row]|]; [|by destruct s].
  cbn [chat_registry set_world]. destruct (providers _ !! _) as [p|]; [by destruct s|]. destruct (provider_key row) as [key|e]; [|by destruct s].
  cbn [or_fail mret C_ret]. destruct (createProvider _ _ _ _); by destruct s.
Qed.

(** The first steps of [Send] keep the message, and read the history with it. *)
Lemma user_kept message s r s' : lift (SaveMessage sessionID (text_message RoleUser message)) s = (Ok r, s') ->
  kept [text_message RoleUser message] (chat_world s) (chat_world s') /\
  chat_registry s' = chat_registry s /\ chat_asked s' = chat_asked s /\ glob (chat_world s') = glob (chat_world s).
Proof.
  intros H. assert (keepable (text_message RoleUser message)) as Hm by (split; [done|by constructor]).
  destruct (kept_save _ s Hm) as (s1 & Hs & Hk & Hr & Ha). unfold save, mbind, C_bind in Hs. rewrite H in Hs. injection Hs as <-.
  split_and!; try done. revert H. unfold lift, SaveMessage, mbind, M_bind, ExecWrite. rewrite writes. cbn. by intros [= _ <-].
Qed.

Lemma read_kept limit s h s' : lift (LoadHistory sessionID limit) s = (Ok (Ok h), s') ->
  h = history sessionID limit (db (chat_world s)) /\ kept [] (chat_world s) (chat_world s') /\
  chat_registry s' = chat_registry s /\ chat_asked s' = chat_asked s /\ glob (chat_world s') = glob (chat_world s).
Proof.
  unfold lift, LoadHistory, mbind, M_bind, Query. destruct (load_fails _); [done|]. intros [= <- <-]. cbn.
  split_and!; try done. apply kept_nil; [done|cbn; lia].
Qed.

Lemma resolve_kept p model s s' : resolveProvider s = (Ok (p, model), s') -> chat_world s' = chat_world s /\ chat_asked s' = chat_asked s.
Proof.
  intros H. pose proof (resolve_world s) as Hw. destruct (silent_resolve s) as [Ha _]. rewrite H in Hw, Ha. done.
Qed.

(** C8. What was said is remembered.  When writes do not fail and the tools leave the
    conversation alone, an answer that ends well leaves in the table, after what was
    there, the message of the owner, rounds of calls and their answers, and the last
    message of the model, which calls nothing.  The last request carried the end of
    all that but this message; and the history the next message is answered with is
    the end of what there now is. *)
Theorem conversation_is_remembered message s s' : dated (chat_world s) -> speaker s ->
  Send sessionID message s = (Ok tt, s') ->
  let before := full (db (chat_world s)) in
  exists added final qs q,
    full (db (chat_world s')) = (before ++ text_message RoleUser message :: added ++ [final])%list /\
    rounds added /\ msg_role final = RoleAssistant /\ msg_calls final = [] /\
    chat_asked s' = (chat_asked s ++ qs ++ [q])%list /\
    Messages q = (lastn 50 (before ++ [text_message RoleUser message]) ++ added)%list /\
    forall limit, history sessionID limit (db (chat_world s')) = lastn (limit_or 50 limit) (full (db (chat_world s'))).
Proof.
  intros Hd Hsp H before. set (um := text_message RoleUser message). unfold Send in H.
  apply step_inv in H as (r & s1 & (K1 & R1 & A1 & G1)%user_kept & H). apply step_inv in H as ([] & s1' & [-> ->]%or_fail_inv & H).
  apply step_inv in H as ([] & s2 & Hp & H). destruct (kept_publish _ _ _ _ Hp) as (K2 & R2 & A2).
  assert (glob (chat_world s2) = glob (chat_world s1)) as G2 by (by injection Hp as <-).
  apply step_inv in H as (r & s3 & H3 & H). apply step_inv in H as (h & s3' & [-> ->]%or_fail_inv & H).
  destruct (read_kept _ _ _ _ H3) as (-> & K3 & R3 & A3 & G3).
  apply step_inv in H as (sys & s4 & H4 & H). assert (s4 = s3) as -> by (injection H4 as _ <-; by destruct s3).
  apply step_inv in H as ([p model] & s5 & H5%during_inv & H%during_inv). destruct (resolve_kept _ _ _ _ H5) as (W5 & A5).
  pose proof (kept_trans _ _ _ _ _ K1 (kept_trans _ _ _ _ _ K2 K3)) as K. cbn [app] in K.
  assert (speaks_utf8 p) as Hu. { eapply (Hsp s3); [by rewrite R3, R2|by rewrite G3, G2|by rewrite H5]. }
  rewrite <- (app_nil_r (history _ _ _)) in H.
  destruct (loop_answered _ _ _ _ _ _ _ _ _ Hu rounds_nil H) as (added & final & qs & q & K6 & Hr & F1 & F2 & A6 & M).
  rewrite W5 in K6. pose proof (kept_trans _ _ _ _ _ K K6) as Ka. pose proof (dated_kept _ _ _ (kept_trans _ _ _ _ _ K1 K2) Hd) as [D2 _].
  pose proof (dated_kept _ _ _ Ka Hd) as [D6 _]. exists added, final, qs, q. split_and!; try done.
  - by apply full_kept in Ka.
  - by rewrite A6, A5, A3, A2, A1.
  - rewrite M, history_full by done. by rewrite (full_kept _ _ _ (kept_trans _ _ _ _ _ K1 K2)).
  - intros limit. by apply history_full.
Qed.
End Memory.

(** ** Examples *)

Module ChatSample.
(** A provider that first calls the sample tool and a tool that is not there, then answers. *)
Definition call_1 : ToolCall := LLMLoop.Sample.create_posts.
Definition call_2 : ToolCall := {| tc_id := "c2"; tc_name := "no_such"; tc_args := "" |}.
Definition talk (n : nat) (q : CompletionRequest) : list StreamChunk * option string :=
  match n with
  | O => ([delta "One "; delta "moment."; call_chunk call_1; call_chunk call_2; done_chunk None], None)
  | _ => ([delta "Done."; done_chunk None], None)
  end.
Definition talker : Provider := {| provider_Type := "anthropic"; provider_Complete := fun _ _ => Err ""; provider_Stream := talk |}.

#[export] Instance env : Env := calm_env (fun _ _ => Err "").
#[export] Instance deps : Deps := LLMLoop.Sample.deps.
#[export] Instance no_wire : Wire := {| SSE.bad_request := fun _ => Some "no wire"; SSE.post := fun _ _ => Err "no wire" |}.
#[export] Instance as_stored : PlaceOrder := {| visit A l := l; visit_perm A l := Permutation_refl l |}.
#[export] Instance steady : StreamTime := {| stream_time := fun _ => second |}.

(** A session in which something was said before. *)
Definition world : World :=
  set_db (fun s => set_chat [chat_row "admin" (text_message RoleUser "Hello") 0; chat_row "admin" (text_message RoleAssistant "Hi") 0] s) new_world.
Definition state : ChatState :=
  {| chat_world := world; chat_out := []; chat_registry := RegisterProvider "local" talker NewProviderRegistry;
     chat_log := []; chat_asked := [] |}.

Lemma tools_quiet : quiet_tools.
Proof.
  intros n t args w H. cbn [ToolRegistry deps LLMLoop.Sample.deps] in H. unfold Register, NewRegistry in H.
  apply lookup_insert_Some in H as [[_ <-]|[_ H]]; [|done]. cbn. split; [done|lia].
Qed.

Lemma talker_speaks : speaker state.
Proof.
  intros s0 p model Hr Hg. unfold resolveProvider, mbind, C_bind, lift, get. rewrite Hg.
  change (site_model (glob (chat_world state))) with (Some ("m", sample_provider)). cbn [mret M_ret].
  unfold set_world. cbn [chat_registry]. rewrite Hr. change (providers (chat_registry state) !! p_name sample_provider) with (Some talker).
  intros H n q. cbn [mret C_ret fst] in H. injection H as <- _. destruct n as [|n]; [|constructor].
  change (called (heard (fst (provider_Stream talker 0 q)))) with [call_1; call_2].
  apply Forall_cons_2; [|apply Forall_cons_2; [|constructor]]; repeat split; apply utf8_ascii; vm_compute; reflexivity.
Qed.
End ChatSample.

Lemma conversation_is_remembered_witness :
  let s' := snd (Send (E := ChatSample.env) (D := ChatSample.deps) (W := ChatSample.no_wire) (V := ChatSample.as_stored)
                   (T := ChatSample.steady) "admin" "Make a blog" ChatSample.state) in
  exists added, rounds added /\ List.length (full "admin" (db (chat_world s'))) = (4 + List.length added)%nat.
Proof.
  cbv zeta.
  destruct (conversation_is_remembered (E := ChatSample.env) (D := ChatSample.deps) (W := ChatSample.no_wire) (V := ChatSample.as_stored)
    (T := ChatSample.steady) "admin" (fun _ => eq_refl) ChatSample.tools_quiet ltac:(done) "Make a blog" ChatSample.state
    (snd (Send (E := ChatSample.env) (D := ChatSample.deps) (W := ChatSample.no_wire) (V := ChatSample.as_stored)
                   (T := ChatSample.steady) "admin" "Make a blog" ChatSample.state)))
    as (added & final & qs & q & Hf & Hr & _).
  - split; [|by apply Forall_cons_2; [|apply Forall_cons_2; [|constructor]]]. change (StronglySorted Z.le [0; 0]%Z).
    by apply SSorted_cons; [apply SSorted_cons; constructor|apply Forall_cons_2; [|constructor]].
  - exact ChatSample.talker_speaks.
  - vm_compute. reflexivity.
  - exists added. split; [exact Hr|]. rewrite Hf, length_app. cbn [List.length]. rewrite length_app. vm_compute (List.length (full _ _)). cbn. lia.
Defined.

Lemma Send_requests_witness :
  let s' := snd (Send (E := ChatSample.env) (D := ChatSample.deps) (W := ChatSample.no_wire) (V := ChatSample.as_stored)
                   (T := ChatSample.steady) "admin" "Make a blog" ChatSample.state) in
  List.length (chat_asked s') = 2%nat /\ forall q, In q (chat_asked s') -> conversation (Messages q).
Proof.
  cbv zeta. split; [vm_compute; reflexivity|].
  destruct (Send_requests (E := ChatSample.env) (D := ChatSample.deps) (W := ChatSample.no_wire) (V := ChatSample.as_stored)
    (T := ChatSample.steady) "admin" "Make a blog" ChatSample.state) as (sys & model & _ & H).
  intros q Hq. apply H; [|exact Hq]. vm_compute (history_with _ _ _).
  apply (conv_text [text_message RoleUser "Hello"; text_message RoleAssistant "Hi"] (text_message RoleUser "Make a blog")); [|done|done].
  apply (conv_text [text_message RoleUser "Hello"] (text_message RoleAssistant "Hi")); [|done|done].
  apply (conv_text [] (text_message RoleUser "Hello")); [constructor|done|done].
Defined.
