(* ===== verification/Worker.v ===== *)
(** * brain/pipeline.go: the worker of a site

    Crash recovery, the build loop over the stages, the commands, the paused and
    the monitoring loop.  The two waiting loops are a transition on the place
    the worker waits in, one input at a time: an input is the branch the [select]
    of the loop took.  The build loop runs in one step and takes fuel, one unit
    per stage attempt. *)

From Stdlib Require Import ZArith Lia Ascii String List Bool.
From stdpp Require Import base list strings gmap relations.
From S2P Require Import Prelude GoStrings GoTime JSONText Plan World ToolCore Approval LLMLoop Stages.

Local Open Scope string_scope.

Definition CommandWake : string := "wake".
Definition CommandChat : string := "chat".
Definition CommandModeChange : string := "mode_change".
Definition CommandShutdown : string := "shutdown".
Definition CommandScheduledTask : string := "scheduled_task".
Definition CommandUpdate : string := "update".

(** How the build loop ends. *)
Inductive build_exit := ExitDone | ExitLoadError | ExitPaused | ExitMonitoring | ExitFuel.

Section Worker.
Context `{E : Env} `{D : Deps}.

(** ** Crash recovery *)

Definition recover_errors (t : time) (r : PipelineRow) : PipelineRow :=
  if (0 <? error_count r)%Z then row_error 0 (last_error r) t r else r.

(** [paused = 1 AND pause_reason NOT IN (answers, approval)]; NULL is in no
    such comparison. *)
Definition recover_pause (t : time) (r : PipelineRow) : PipelineRow :=
  match pause_reason r with
  | Some reason =>
      if paused r && negb ((reason =? PauseReasonOwnerAnswers)%string || (reason =? PauseReasonApproval)%string)
      then row_pause false None t r else r
  | None => r
  end.

Definition pending_questions (s : SiteStore) : nat :=
  List.length (List.filter (fun q => (q_status q =? "pending")%string) (questions s)).

Fixpoint insert_question (q : QuestionRow) (l : list QuestionRow) : list QuestionRow :=
  match l with
  | [] => [q]
  | x :: r => if (q_id q <=? q_id x)%Z then q :: l else x :: insert_question q r
  end.

(** The answered questions with their answers, by question id. *)
Definition answered (s : SiteStore) : list string :=
  flat_map (fun q =>
    if (q_status q =? "answered")%string then
      map (fun a => q_question q ++ ": " ++ a_answer a)
          (List.filter (fun a => a_question a =? q_id q)%Z (answers s))
    else []) (foldr insert_question [] (questions s)).

Definition autoRecover : M bool :=
  n ← Query (fun s => error_count (pipeline s));
  let errorCount := match n with Ok n => n | Err _ => 0%Z end in
  if (maxStageRetries <=? errorCount)%Z then mret false
  else
    ExecWrite (fun t => set_pipeline (recover_errors t));;
    ExecWrite (fun t => set_pipeline (recover_pause t));;
    p ← Query (fun s => (paused (pipeline s), null_string (pause_reason (pipeline s))));
    match p with
    | Ok (true, reason) =>
        if (reason =? PauseReasonOwnerAnswers)%string then
          pending ← Query pending_questions;
          match pending with
          | Ok 0%nat =>
              parts ← Query answered;
              match parts with
              | Ok parts =>
                  set_wake (Some [("reason", VString "question_answered");
                                  ("answer", VString (Join parts newline))]);;
                  ResumePipeline;;
                  mret true
              | Err _ => mret true
              end
          | _ => mret true
          end
        else mret true
    | _ => mret true
    end.

(** ** The build loop *)

Definition run_stage (st : PipelineStage) : M (outcome PipelineStage) :=
  if (st =? StagePlan)%string then runPlan
  else if (st =? StageBuild)%string then runBuild
  else if (st =? StageComplete)%string then runComplete
  else if (st =? StageUpdatePlan)%string then runUpdatePlan
  else mret (Fail ("unknown pipeline stage: " ++ st)).

(** The error of a stage, a panic recovered into one. *)
Definition stage_error (st : PipelineStage) (o : outcome PipelineStage) : string :=
  match o with
  | Done _ => ""
  | Fail e => e
  | Panic e => "panic in stage " ++ st ++ ": " ++ e
  end.

Definition pause_at : M build_exit := setState StatePaused;; mret ExitPaused.

Definition stage_backoff (retries : Z) : duration := Z.min (retries * (5 * second)) (30 * second).

(** A failure that is no intended pause: pause on a permanent error or the
    last attempt, else wait and try again ([None]). *)
Definition retry_or_pause (st : PipelineStage) (retries : Z) (err : string) : M (option build_exit) :=
  if isPermanentError err then
    PausePipeline ("permanent error in " ++ st ++ ": " ++ err);;
    publishBrainError ("Pipeline paused: **" ++ st ++ "** — " ++ err ++ ". Fix the configuration and resume.");;
    Some <$> pause_at
  else
    IncrementErrorCount err;;
    if (maxStageRetries <=? retries)%Z then
      PausePipeline ("stage " ++ st ++ " failed " ++ Itoa retries ++ " times");;
      publishBrainError ("Pipeline paused: stage **" ++ st ++ "** failed " ++ Itoa retries
                         ++ " consecutive times. Last error: " ++ err);;
      Some <$> pause_at
    else
      publishBrainMessage ("Stage " ++ st ++ " failed (attempt " ++ Itoa retries ++ "/" ++ Itoa maxStageRetries
                           ++ "): " ++ err ++ " — retrying...");;
      done ← ctx_Err;
      match done with
      | Some _ => mret (Some ExitDone)
      | None => sleep (stage_backoff retries);; mret None
      end.

(** What follows a failed stage: a pause the stage made itself is no error. *)
Definition after_failure (st : PipelineStage) (retries : Z) (err : string) : M (option build_exit) :=
  ps ← LoadPipelineState;
  if (match ps with Ok s => Paused s | Err _ => false end) then Some <$> pause_at
  else retry_or_pause st retries err.

Fixpoint build_loop (fuel : nat) (st : PipelineStage) (retries : Z) : M build_exit :=
  match fuel with
  | O => mret ExitFuel
  | S fuel =>
      done ← ctx_Err;
      match done with
      | Some _ => mret ExitDone
      | None =>
          start ← now;
          publishBrainMessage ("Starting stage: **" ++ st ++ "**");;
          if (st =? StageMonitoring)%string then setState StateMonitoring;; mret ExitMonitoring
          else
            o ← run_stage st;
            match o with
            | Done next =>
                ok ← AdvanceStage next;
                if (ok : bool) then
                  t ← now;
                  publish "brain.stage_change"
                    [("prev_stage", VString st); ("stage", VString next);
                     ("duration_ms", VInt64 (Milliseconds (t - start)%Z))];;
                  build_loop fuel next 0
                else build_loop fuel st retries
            | _ =>
                x ← after_failure st (retries + 1)%Z (stage_error st o);
                match x with
                | Some e => mret e
                | None => build_loop fuel st (retries + 1)%Z
                end
            end
      end
  end.

Definition runBuildPipeline (fuel : nat) : M build_exit :=
  s ← LoadPipelineState;
  match s with
  | Err e => publishBrainError ("Failed to load pipeline state: " ++ e);; mret ExitLoadError
  | Ok s =>
      if Paused s then
        setState StatePaused;;
        publishBrainMessage ("Pipeline paused: " ++ PauseReason s);;
        mret ExitPaused
      else build_loop fuel (Stage s) 0
  end.

(** ** Commands *)

Definition finalizeTaskRun (runID taskID : Z) (success : bool) (errMsg : string) : M unit :=
  if (runID <=? 0)%Z then mret tt
  else
    ExecWrite (fun t s => set_runs (update_where (fun r => r_id r =? runID)%Z
      (fun r => {| r_id := r_id r; r_task := r_task r;
                   r_status := if success then "completed" else "failed";
                   r_error := if success then r_error r else Some errMsg;
                   r_started := r_started r; r_completed := Some t |}) (task_runs s)) s);;
    if (0 <? taskID)%Z then
      ExecWrite (fun _ s => set_tasks (update_where (fun k => t_id k =? taskID)%Z
        (fun k => {| t_id := t_id k; t_name := t_name k; t_prompt := t_prompt k; t_cron := t_cron k;
                     t_interval := t_interval k; t_enabled := t_enabled k; t_last := t_last k;
                     t_next := t_next k;
                     t_runs := (if success then t_runs k + 1 else t_runs k)%Z;
                     t_errors := (if success then t_errors k else t_errors k + 1)%Z;
                     t_description := t_description k; t_created := t_created k; t_updated := t_updated k |})
        (scheduled_tasks s)) s);;
      mret tt
    else mret tt.

Definition executeScheduledTask (task : string) (runID taskID : Z) : M unit :=
  p ← getProvider;
  match p with
  | Err e => finalizeTaskRun runID taskID false ("provider error: " ++ e)
  | Ok modelID =>
      sys ← get (prompt "buildScheduledTaskPrompt");
      start ← now;
      r ← runToolLoop modelID sys [text_message RoleUser task]
            (ToLLMToolsFiltered ToolRegistry fullWriteToolSet) 20 2048;
      match loopErr r with
      | Some e => finalizeTaskRun runID taskID false ("LLM error: " ++ e)
      | None =>
          d ← elapsed_ms start;
          logBrainEvent "scheduled_task" (lastContent r) task (totalTokens r) (lastModel r) d;;
          finalizeTaskRun runID taskID true ""
      end
  end.

(** The goroutine a chat message starts. *)
Definition handleChatWake (userMessage : string) : M unit :=
  start ← now;
  done ← ctx_Err;
  match done with
  | Some _ => mret tt
  | None =>
      p ← getProvider;
      match p with
      | Err _ => mret tt
      | Ok modelID =>
          loadPlan;;
          sys ← get (prompt "buildChatWakePrompt");
          set_override 8000;;
          r ← runToolLoop modelID sys [text_message RoleUser userMessage]
                (ToLLMToolsFiltered ToolRegistry chatWakeToolSet) 10 8192;
          set_override 0;;
          d ← elapsed_ms start;
          logBrainEvent "chat_wake" "Responded to owner chat message" userMessage (totalTokens r)
            (lastModel r) d
      end
  end.

Definition set_description (desc : string) : M bool :=
  ExecWrite (fun _ => set_pipeline (row_description (Some desc))).

Definition handleCommand (cmd : BrainCommand) : M unit :=
  let ty := CmdType cmd in
  if (ty =? CommandWake)%string then
    set_idle 0;;
    match CmdPayload cmd with Some p => set_wake (Some p) | None => mret tt end;;
    st ← get (fun w => wstate (worker w));
    if bool_decide (st = StatePaused) then ResumePipeline;; setState StateBuilding else mret tt
  else if (ty =? CommandModeChange)%string then
    match payload_string "mode" (CmdPayload cmd) with
    | None => mret tt
    | Some mode =>
        (if (mode =? "building")%string then setState StateBuilding;; ResetPipeline;; mret tt
         else if (mode =? "monitoring")%string then setState StateMonitoring
         else if (mode =? "paused")%string then setState StatePaused
         else mret tt);;
        publish "brain.mode_changed" [("site_id", VInt siteID); ("mode", VString mode)]
    end
  else if (ty =? CommandUpdate)%string then
    set_idle 0;;
    setState StateBuilding;;
    set_description (default "" (payload_string "description" (CmdPayload cmd)));;
    AdvanceStage StageUpdatePlan;;
    mret tt
  else if (ty =? CommandScheduledTask)%string then
    match payload_string "prompt" (CmdPayload cmd) with
    | None => mret tt
    | Some task => executeScheduledTask task (payloadInt64 (CmdPayload cmd) "run_id")
                     (payloadInt64 (CmdPayload cmd) "task_id")
    end
  else if (ty =? CommandChat)%string then
    st ← get (fun w => wstate (worker w));
    if bool_decide (st = StateMonitoring) then
      set_idle 0;;
      match payload_string "message" (CmdPayload cmd) with
      | Some msg => if (msg =? "")%string then mret tt else spawn msg
      | None => mret tt
      end
    else mret tt
  else mret tt.

Definition monitoringInterval : M duration :=
  let base := if (0 <? MonitoringBase)%Z then MonitoringBase else monitoringBaseDefault in
  let max := if (0 <? MonitoringMax)%Z then MonitoringMax else monitoringMaxDefault in
  idle ← get (fun w => idleCheckCount (worker w));
  mret (if (idleThreshold <=? idle)%Z then max else base).

(** ** The waiting loops *)

Inductive input := ICancel | ICommand (c : BrainCommand) | ITick.

Inductive location := InPausedLoop | InMonitoringLoop | InBuildLoop | Stopped.

Definition at_exit (x : build_exit) : location :=
  match x with
  | ExitDone | ExitLoadError => Stopped
  | ExitPaused => InPausedLoop
  | ExitMonitoring => InMonitoringLoop
  | ExitFuel => InBuildLoop
  end.

(** One turn of [runPausedLoop] or [runMonitoringLoop]. *)
Definition turn (fuel : nat) (l : location) (i : input) : M location :=
  match l, i with
  | Stopped, _ | InBuildLoop, _ => mret l
  | _, ICancel => mret Stopped
  | InPausedLoop, ITick => mret l
  | InPausedLoop, ICommand c =>
      handleCommand c;;
      st ← get (fun w => wstate (worker w));
      if bool_decide (st = StateBuilding) then at_exit <$> runBuildPipeline fuel
      else if bool_decide (st = StateMonitoring) then mret InMonitoringLoop
      else mret InPausedLoop
  | InMonitoringLoop, ICommand c => handleCommand c;; mret InMonitoringLoop
  | InMonitoringLoop, ITick => monitoringTick;; mret InMonitoringLoop
  end.

Fixpoint turns (fuel : nat) (l : location) (ins : list input) : M location :=
  match ins with
  | [] => mret l
  | i :: r => l' ← turn fuel l i; turns fuel l' r
  end.

(** [Run] up to the first wait. *)
Definition start_worker (fuel : nat) : M location :=
  publish "brain.started" [("site_id", VInt siteID)];;
  s ← getSite;
  match s with
  | Err _ => mret Stopped
  | Ok site =>
      if (s_mode site =? "building")%string then
        sleep 200000000;;
        ok ← autoRecover;
        if (ok : bool) then setState StateBuilding;; at_exit <$> runBuildPipeline fuel
        else setState StatePaused;; mret InPausedLoop
      else if (s_mode site =? "monitoring")%string then setState StateMonitoring;; mret InMonitoringLoop
      else if (s_mode site =? "paused")%string then setState StatePaused;; mret InPausedLoop
      else setState StateIdle;; mret InPausedLoop
  end.

Definition Run (fuel : nat) (ins : list input) : M location :=
  l ← start_worker fuel;
  l' ← turns fuel l ins;
  match l' with
  | Stopped => publish "brain.stopped" [("site_id", VInt siteID)]
  | _ => mret tt
  end;;
  mret l'.
End Worker.

(** ** The graph of the stages *)

Inductive stage_step : PipelineStage -> PipelineStage -> Prop :=
| step_plan : stage_step StagePlan StageBuild
| step_update : stage_step StageUpdatePlan StageBuild
| step_build : stage_step StageBuild StageComplete
| step_complete : stage_step StageComplete StageMonitoring.

(** How many stages are left before the monitoring one. *)
Definition stages_left (st : PipelineStage) : nat :=
  if (st =? StagePlan)%string || (st =? StageUpdatePlan)%string then 3
  else if (st =? StageBuild)%string then 2
  else if (st =? StageComplete)%string then 1 else 0.

Section WorkerFacts.
Context `{E : Env} `{D : Deps}.

Lemma run_stage_leads st w next : fst (run_stage st w) = Done next -> stage_step st next.
Proof.
  unfold run_stage. intros H.
  destruct (String.eqb_spec st StagePlan) as [->|_].
  { pose proof (runPlan_leads w) as Hl. rewrite H in Hl. cbn in Hl. subst. constructor. }
  destruct (String.eqb_spec st StageBuild) as [->|_].
  { pose proof (runBuild_leads w) as Hl. rewrite H in Hl. cbn in Hl. subst. constructor. }
  destruct (String.eqb_spec st StageComplete) as [->|_].
  { pose proof (runComplete_leads w) as Hl. rewrite H in Hl. cbn in Hl. subst. constructor. }
  destruct (String.eqb_spec st StageUpdatePlan) as [->|_]; [|done].
  pose proof (runUpdatePlan_leads w) as Hl. rewrite H in Hl. cbn in Hl. subst. constructor.
Qed.

Lemma stage_step_left a b : stage_step a b -> stages_left a = S (stages_left b).
Proof. by destruct 1. Qed.

Lemma after_failure_results st retries err :
  results (after_failure st retries err) (fun x =>
    match x with
    | Some e => e <> ExitFuel
    | None => (retries < maxStageRetries)%Z
    end).
Proof.
  unfold after_failure, retry_or_pause, pause_at. apply results_bind. intros ps.
  destruct (match ps with Ok s => Paused s | Err _ => false end).
  { intros w. unfold fmap, M_fmap, mbind, M_bind. by destruct (setState StatePaused w). }
  destruct (isPermanentError err).
  { do 2 (apply results_bind; intros ?). intros w. unfold fmap, M_fmap, mbind, M_bind.
    by destruct (setState StatePaused w). }
  apply results_bind. intros ?. destruct (Z.leb_spec maxStageRetries retries).
  { do 2 (apply results_bind; intros ?). intros w. unfold fmap, M_fmap, mbind, M_bind.
    by destruct (setState StatePaused w). }
  apply results_bind. intros ?. apply results_bind. intros [why|]; [by apply results_ret|].
  apply results_bind. intros ?. by apply results_ret.
Qed.

(** Attempts needed at most: three per stage left, and three for the present
    one less those that failed. *)
Definition turns_needed (st : PipelineStage) (retries : Z) : nat :=
  3 * stages_left st + Z.to_nat (maxStageRetries - retries).

(** C1. When the database takes the writes, the build loop ends: from any stage
    (a name no code knows included), whatever the model, the tools, the reads
    and the contexts do, twelve stage attempts are enough to reach the
    monitoring loop, the paused loop or the worker's end. *)
Theorem build_loop_ends : (forall n, write_fails n = false) ->
  forall fuel st retries w, (0 <= retries < maxStageRetries)%Z -> (turns_needed st retries <= fuel)%nat ->
  fst (build_loop fuel st retries w) <> ExitFuel.
Proof.
  intros Hw fuel. unfold turns_needed, maxStageRetries.
  induction fuel as [|fuel IH]; intros st retries w Hr Hf; [lia|].
  cbn [build_loop]. unfold mbind, M_bind. destruct (ctx_Err w) as [[why|] w1]; [done|].
  destruct (now w1) as [start w2]. destruct (publishBrainMessage _ w2) as [? w3].
  destruct (st =? StageMonitoring)%string; [by destruct (setState StateMonitoring w3)|].
  pose proof (run_stage_leads st w3) as Hlead. destruct (run_stage st w3) as [o w4]. cbn [fst] in Hlead.
  assert (Hfail : forall err, fst (let '(x, w') := after_failure st (retries + 1) err w4 in
    match x with Some e => mret e | None => build_loop fuel st (retries + 1) end w') <> ExitFuel).
  { intros err. pose proof (after_failure_results st (retries + 1) err w4) as Ha. unfold maxStageRetries in Ha.
    destruct (after_failure st (retries + 1) err w4) as [[e|] w5]; cbn [fst] in Ha; [done|].
    apply IH; lia. }
  destruct o as [next|e|e]; [|apply Hfail..].
  unfold AdvanceStage, ExecWrite. rewrite Hw. cbn [fst snd].
  specialize (Hlead next eq_refl). apply stage_step_left in Hlead. apply IH; lia.
Qed.

Context `{L : !LawfulTools}.

#[local] Hint Resolve frame_core frame_stage frame_view_stage : frame.

Lemma frame_run_stage st : frame stage_view (run_stage st).
Proof.
  unfold run_stage. repeat case_match;
    auto using frame_runPlan, frame_runBuild, frame_runComplete, frame_runUpdatePlan, frame_ret.
Qed.

(** The stage and the error rows alone, where the worker's state moves. *)
Definition quiet_view (w : World) := (stage (pipeline (db w)), error_rows (brain_log (db w))).

Lemma frame_quiet {A} (m : M A) : frame stage_view m -> frame quiet_view m.
Proof. apply (frame_via fst stage_view). Qed.

#[local] Hint Resolve frame_quiet frame_run_stage : frame.

Lemma frame_after_failure st retries err : frame quiet_view (after_failure st retries err).
Proof. unfold after_failure, retry_or_pause, LoadPipelineState, PausePipeline, IncrementErrorCount, pause_at. frame_tac. Qed.

Lemma quiet_run {A} (m : M A) a w w' : m w = (a, w') -> frame quiet_view m ->
  stage (pipeline (db w')) = stage (pipeline (db w)) /\ error_rows (brain_log (db w')) = error_rows (brain_log (db w)).
Proof. intros Hm Hf. pose proof (frame_run quiet_view m a w w' Hm Hf) as H. by injection H. Qed.

(** What a run of the build loop comes to, from a world in its stage. *)
Definition moves (st : PipelineStage) (w : World) (r : build_exit * World) : Prop :=
  rtc stage_step st (stage (pipeline (db (snd r)))) /\
  error_rows (brain_log (db (snd r))) = error_rows (brain_log (db w)) /\
  (fst r = ExitMonitoring -> stage (pipeline (db (snd r))) = StageMonitoring /\
                             wstate (worker (snd r)) = StateMonitoring) /\
  (fst r = ExitPaused -> wstate (worker (snd r)) = StatePaused).

Lemma after_failure_state st retries err w :
  fst (after_failure st retries err w) = Some ExitPaused ->
  wstate (worker (snd (after_failure st retries err w))) = StatePaused.
Proof.
  enough (post (after_failure st retries err) (fun x w' => x = Some ExitPaused -> wstate (worker w') = StatePaused))
    as H by apply H.
  assert (Hp : post (Some <$> pause_at) (fun x w' => x = Some ExitPaused -> wstate (worker w') = StatePaused)) by done.
  unfold after_failure, retry_or_pause. apply post_bind. intros ps. destruct (match ps with Ok s => Paused s | Err _ => false end); [done|].
  destruct (isPermanentError err); [do 2 (apply post_bind; intros ?); done|].
  apply post_bind. intros ?. destruct (maxStageRetries <=? retries)%Z; [do 2 (apply post_bind; intros ?); done|].
  do 2 (apply post_bind; intros ?). case_match; [by apply post_ret|]. apply post_bind. intros ?. by apply post_ret.
Qed.

Lemma after_failure_exit st retries err : results (after_failure st retries err) (fun x => x <> Some ExitMonitoring).
Proof.
  assert (Hp : results (Some <$> pause_at) (fun x => x <> Some ExitMonitoring)) by done.
  unfold after_failure, retry_or_pause. results_tac; done.
Qed.

Lemma build_loop_moves fuel : forall st retries w, stage (pipeline (db w)) = st ->
  moves st w (build_loop fuel st retries w).
Proof.
  induction fuel as [|fuel IH]; intros st retries w Hst; cbn [build_loop].
  { split; [by subst|done]. }
  unfold mbind at 1, M_bind at 1. destruct (ctx_Err w) as [done_ w1] eqn:E1.
  destruct (quiet_run _ _ _ _ E1 ltac:(frame_effect)) as [S1 R1].
  destruct done_ as [why|]; [split; [cbn; by rewrite S1, Hst|by split]|].
  unfold mbind at 1, M_bind at 1. destruct (now w1) as [start w2] eqn:E2.
  destruct (quiet_run _ _ _ _ E2 ltac:(frame_effect)) as [S2 R2].
  unfold mbind at 1, M_bind at 1. destruct (publishBrainMessage _ w2) as [? w3] eqn:E3.
  destruct (quiet_run _ _ _ _ E3 ltac:(auto with frame)) as [S3 R3].
  assert (S : stage (pipeline (db w3)) = st) by congruence.
  assert (R : error_rows (brain_log (db w3)) = error_rows (brain_log (db w))) by congruence.
  destruct (String.eqb_spec st StageMonitoring) as [Hm|Hm].
  { split; [change (rtc stage_step st (stage (pipeline (db w3)))); by rewrite S|].
    split; [done|]. split; [|done]. intros _. split; [|done].
    change (stage (pipeline (db w3)) = StageMonitoring). congruence. }
  pose proof (run_stage_leads st w3) as Hlead. unfold mbind at 1, M_bind at 1.
  destruct (run_stage st w3) as [o w4] eqn:E4. cbn [fst] in Hlead.
  destruct (quiet_run _ _ _ _ E4 ltac:(auto with frame)) as [S4 R4].
  assert (Htrans : forall w' r, stage (pipeline (db w')) = st ->
    error_rows (brain_log (db w')) = error_rows (brain_log (db w)) -> moves st w' r -> moves st w r).
  { intros w' r _ Hr (H1 & H2 & H3). split; [done|]. split; [congruence|done]. }
  assert (Hfail : forall err, moves st w (let '(x, w') := after_failure st (retries + 1) err w4 in
    match x with Some e => mret e | None => build_loop fuel st (retries + 1) end w')).
  { intros err. pose proof (after_failure_state st (retries + 1) err w4) as Ha.
    pose proof (after_failure_exit st (retries + 1) err w4) as Hx.
    destruct (after_failure st (retries + 1) err w4) as [x w5] eqn:E5. cbn [fst snd] in Ha, Hx.
    destruct (quiet_run _ _ _ _ E5 ltac:(apply frame_after_failure)) as [S5 R5].
    assert (stage (pipeline (db w5)) = st) as S' by congruence. 
    destruct x as [e|]; [|apply (Htrans w5); [done|congruence|by apply IH]].
    split; [cbn; by rewrite S'|]. split; [cbn; congruence|]. cbn. split; [intros ->; done|]. intros ->. by apply Ha. }
  destruct o as [next|e|e]; [|apply Hfail..].
  specialize (Hlead next eq_refl).
  unfold mbind at 1, M_bind at 1. unfold AdvanceStage, ExecWrite. destruct (write_fails (nwrites w4)).
  - apply (Htrans (count_write w4)); [cbn; congruence|cbn; congruence|]. apply IH. cbn. congruence.
  - set (w5 := set_db _ (count_write w4)). unfold mbind, M_bind. destruct (now w5) as [t w6] eqn:E6.
    destruct (quiet_run _ _ _ _ E6 ltac:(frame_effect)) as [S6 R6].
    destruct (publish _ _ w6) as [? w7] eqn:E7.
    destruct (quiet_run _ _ _ _ E7 ltac:(frame_effect)) as [S7 R7].
    assert (S7' : stage (pipeline (db w7)) = next) by (rewrite S7, S6; done).
    destruct (IH next 0%Z w7 S7') as (H1 & H2 & H3). split; [by eapply rtc_l|]. split; [|done].
    rewrite H2, R7, R6. change (error_rows (brain_log (db w4)) = error_rows (brain_log (db w))). congruence.
Qed.

End WorkerFacts.

(** ** Crash recovery and waking *)

(** The pauses a restart leaves in place: an approval that is still asked for,
    questions some of which are pending, and a pause without a reason. *)
Definition pause_stands (s : SiteStore) : bool :=
  match pause_reason (pipeline s) with
  | None => true
  | Some reason => (reason =? PauseReasonApproval)%string
                   || (reason =? PauseReasonOwnerAnswers)%string && (0 <? pending_questions s)%nat
  end.

(** A pause that the recovery lifts at once. *)
Definition other_pause (r : PipelineRow) : bool :=
  match pause_reason r with
  | Some reason => paused r && negb ((reason =? PauseReasonOwnerAnswers)%string || (reason =? PauseReasonApproval)%string)
  | None => false
  end.

Lemma recover_row t t' r : (error_count r < 3)%Z ->
  let r2 := recover_pause t' (recover_errors t r) in
  (error_count r2 <= 0)%Z /\ stage r2 = stage r /\ plan_json r2 = plan_json r /\
  paused r2 = paused r && negb (other_pause r) /\
  pause_reason r2 = (if other_pause r then None else pause_reason r).
Proof.
  intros Hr. unfold recover_pause, recover_errors, other_pause.
  destruct (Z.ltb_spec 0 (error_count r)); cbn;
    destruct (pause_reason r) as [reason|] eqn:Er; cbn; rewrite ?Er, ?andb_true_r;
    try (destruct (paused r) eqn:Hp; cbn); try (destruct (_ || _)); cbn; rewrite ?Er; repeat split; try done; try lia; try congruence.
Qed.

Section Recovery.
Context `{E : Env} `{D : Deps}.

(** When nothing fails, a restart proceeds exactly when fewer than three
    errors are on record.  It then has cleared them, keeps the stage and the
    plan, and the pipeline is paused afterwards exactly if it was and the
    pause stands: on an approval, on questions some of which are pending, or
    without a reason.  Otherwise it has changed nothing. *)
Theorem autoRecover_spec w :
  (forall n, write_fails n = false) -> (forall n, load_fails n = None) ->
  let '(ok, w') := autoRecover w in
  let r := pipeline (db w) in let r' := pipeline (db w') in
  ok = (error_count r <? 3)%Z /\
  if ok : bool then
    (error_count r' <= 0)%Z /\ stage r' = stage r /\ plan_json r' = plan_json r /\
    paused r' = paused r && pause_stands (db w)
  else db w' = db w.
Proof.
  intros Hw Hl. unfold autoRecover, mbind, M_bind, Query. rewrite Hl. cbn [fst snd count_load db].
  unfold maxStageRetries. destruct (Z.leb_spec 3 (error_count (pipeline (db w)))) as [Hge|Hlt].
  { cbn. split; [|done]. symmetry. apply Z.ltb_ge. lia. }
  unfold ExecWrite. rewrite !Hw. cbn [fst snd]. rewrite Hl.
  set (w1 := set_db _ (count_write (count_load w))). set (w2 := set_db _ (count_write w1)).
  assert (Hq : pending_questions (db w2) = pending_questions (db w)) by done.
  destruct (recover_row (CURRENT_TIMESTAMP (count_load w)) (CURRENT_TIMESTAMP w1) (pipeline (db w)) Hlt)
    as (Hec & Hs & Hpl & Hpa & Hre).
  change (recover_pause _ _) with (pipeline (db w2)) in *.
  assert (Hok : true = (error_count (pipeline (db w)) <? 3)%Z) by (symmetry; apply Z.ltb_lt; lia).
  rewrite Hpa, Hre. unfold pause_stands, other_pause in *.
  destruct (paused (pipeline (db w))) eqn:Hp; cbn [andb]; [|by repeat split].
  destruct (pause_reason (pipeline (db w))) as [reason|] eqn:Hr; cbn [negb andb] in *; [|by repeat split].
  destruct (String.eqb_spec reason PauseReasonApproval) as [->|Ha].
  { cbn in Hpa, Hre |- *. by repeat split. }
  destruct (String.eqb_spec reason PauseReasonOwnerAnswers) as [->|Ho]; [|by repeat split].
  cbn [orb negb andb] in *. cbn [null_string default]. rewrite String.eqb_refl.
  rewrite Hl. cbn [fst snd db count_load]. rewrite Hq.
  destruct (pending_questions (db w)) as [|n]; [|by repeat split].
  rewrite Hl. unfold ResumePipeline, ExecWrite, set_wake, modify. rewrite Hw. cbn [fst snd]. by repeat split.
Qed.
End Recovery.

Lemma autoRecover_spec_witness :
  let E := calm_env (fun _ _ => Err "") in
  let w := set_db (set_pipeline (fun r => row_pause true (Some PauseReasonOwnerAnswers) 0
                                   (row_error 2 None 0 r))) new_world in
  fst (autoRecover (E := E) w) = true /\ paused (pipeline (db (snd (autoRecover (E := E) w)))) = false.
Proof.
  cbv zeta. set (E := calm_env _). set (w := set_db _ _).
  pose proof (autoRecover_spec (E := E) w (fun _ => eq_refl) (fun _ => eq_refl)) as H.
  destruct (autoRecover w) as [ok w']. cbv zeta in H. destruct H as [-> H]. split; [reflexivity|].
  cbn [snd]. destruct H as (_ & _ & _ & ->). vm_compute. reflexivity.
Defined.

Section Pauses.
Context `{E : Env} `{D : Deps}.

Lemma frame_pipeline_publishBrainError s : frame (fun w => pipeline (db w)) (publishBrainError s).
Proof. unfold publishBrainError, publishBrainMessage, saveChatMessage. frame_tac. Qed.

Lemma frame_pipeline_publishBrainMessage s : frame (fun w => pipeline (db w)) (publishBrainMessage s).
Proof. unfold publishBrainMessage, saveChatMessage. frame_tac. Qed.

Definition recorded (w : World) : Prop := paused (pipeline (db w)) = true.

Lemma post_pause reason m :
  (forall n, write_fails n = false) -> frame (fun w => pipeline (db w)) m ->
  post (PausePipeline reason;; (m : M unit);; (Some <$> pause_at)) (fun _ w' => recorded w').
Proof.
  intros Hw Hm w. unfold mbind, M_bind, PausePipeline, ExecWrite. rewrite Hw. set (w1 := set_db _ _).
  specialize (Hm w1). destruct (m w1) as [u w2]. cbn in Hm.
  change (paused (pipeline (db w2)) = true). by rewrite Hm.
Qed.

(** A loop that stops on a pause has the pause on record. *)
Definition records (x : option build_exit) (w' : World) : Prop := x = Some ExitPaused -> recorded w'.

Lemma retry_or_pause_recorded st retries err :
  (forall n, write_fails n = false) -> post (retry_or_pause st retries err) records.
Proof.
  intros Hw.
  assert (Hp : forall reason m, frame (fun w => pipeline (db w)) m ->
    post (PausePipeline reason;; (m : M unit);; (Some <$> pause_at)) records).
  { intros reason m Hm v _. by apply post_pause. }
  unfold retry_or_pause. destruct (isPermanentError err).
  { by apply Hp, frame_pipeline_publishBrainError. }
  apply post_bind. intros ?. destruct (maxStageRetries <=? retries)%Z.
  { by apply Hp, frame_pipeline_publishBrainError. }
  apply post_bind. intros ?. apply post_bind. intros [why|]; [by apply post_ret|].
  apply post_bind. intros ?. by apply post_ret.
Qed.

Lemma after_failure_recorded st retries err :
  (forall n, write_fails n = false) -> post (after_failure st retries err) records.
Proof.
  intros Hw w. unfold after_failure, LoadPipelineState, mbind, M_bind, Query.
  destruct (load_fails (nloads w)) as [e|]; cbn -[retry_or_pause]; [by apply retry_or_pause_recorded|].
  destruct (paused (pipeline (db w))) eqn:Hp; [|by apply retry_or_pause_recorded]. by intros _.
Qed.

(** When the database takes the writes, the worker never waits in the paused
    loop with the pipeline running on record: however the build pipeline comes
    to pause (the owner's questions, a permanent error, three failures, a pause
    found at the start), pipeline_state says paused, so a restart finds it. *)
Theorem pauses_are_recorded fuel w :
  (forall n, write_fails n = false) ->
  let '(x, w') := runBuildPipeline fuel w in x = ExitPaused -> paused (pipeline (db w')) = true.
Proof.
  intros Hw.
  assert (Hloop : forall fuel st retries, post (build_loop fuel st retries) (fun x w' => x = ExitPaused -> recorded w')).
  { clear fuel w. induction fuel as [|fuel IH]; intros st retries; cbn [build_loop]; [by apply post_ret|].
    apply post_bind. intros [why|]; [by apply post_ret|]. do 2 (apply post_bind; intros ?).
    destruct (st =? StageMonitoring)%string; [apply post_bind; intros ?; by apply post_ret|].
    apply post_bind. intros o.
    assert (Hfail : forall err, post (x ← after_failure st (retries + 1) err;
      match x with Some e => mret e | None => build_loop fuel st (retries + 1) end)
      (fun x w' => x = ExitPaused -> recorded w')).
    { intros err v. unfold mbind, M_bind. pose proof (after_failure_recorded st (retries + 1) err Hw v) as Ha.
      destruct (after_failure st (retries + 1) err v) as [[e|] v']; cbn in Ha; [|apply IH].
      cbn. intros ->. by apply Ha. }
    destruct o as [next|e|e]; [|apply Hfail..].
    apply post_bind. intros [|]; [|apply IH]. do 2 (apply post_bind; intros ?). apply IH. }
  unfold runBuildPipeline, LoadPipelineState, mbind, M_bind, Query.
  destruct (load_fails (nloads w)) as [e|]; cbn [fst snd mret M_ret].
  { by destruct (publishBrainError _ _). }
  cbn [Paused scan_state]. destruct (paused (pipeline (db w))) eqn:Hp.
  - unfold setState, modify. cbv beta iota.
    match goal with |- context [publishBrainMessage ?s] =>
      pose proof (frame_pipeline_publishBrainMessage s) as Hf end.
    match goal with |- context [publishBrainMessage ?s ?v] =>
      specialize (Hf v); destruct (publishBrainMessage s v) as [u v'] end.
    cbn in Hf. intros _. change (paused (pipeline (db v')) = true). by rewrite Hf.
  - specialize (Hloop fuel (stage (pipeline (db w))) 0%Z (count_load w)). by destruct (build_loop _ _ _ _).
Qed.
End Pauses.

(** ** Commands and the waiting loops *)

Section Waiting.
Context `{E : Env} `{D : Deps}.

Definition command (ty : string) (p : option payload) : BrainCommand :=
  {| CmdType := ty; CmdPayload := p |}.

(** What the commands of the owner do, when the database takes the writes: a
    wake resumes a paused pipeline where it stood, with the payload for the
    next stage to read, and touches no other state of the pipeline; a change of
    mode to building starts the pipeline over, without plan or errors; an
    update keeps plan and errors' record, notes the description and goes to
    UPDATE_PLAN.  All three leave the worker in the building state. *)
Theorem handleCommand_spec p desc w :
  (forall n, write_fails n = false) ->
  let r := pipeline (db w) in
  (wstate (worker w) = StatePaused ->
    let w' := snd (handleCommand (command CommandWake (Some p)) w) in let r' := pipeline (db w') in
    wstate (worker w') = StateBuilding /\ idleCheckCount (worker w') = 0%Z /\
    wakeContext (worker w') = Some p /\ paused r' = false /\ pause_reason r' = None /\
    (stage r', plan_json r', error_count r', update_description r')
    = (stage r, plan_json r, error_count r, update_description r)) /\
  (let w' := snd (handleCommand (command CommandModeChange (Some [("mode", VString "building")])) w) in
   let r' := pipeline (db w') in
   wstate (worker w') = StateBuilding /\ stage r' = StagePlan /\ plan_json r' = None /\ error_count r' = 0%Z /\
   paused r' = false) /\
  (let w' := snd (handleCommand (command CommandUpdate (Some [("description", VString desc)])) w) in
   let r' := pipeline (db w') in
   wstate (worker w') = StateBuilding /\ stage r' = StageUpdatePlan /\ plan_json r' = plan_json r /\
   update_description r' = Some desc /\ paused r' = paused r).
Proof.
  intros Hw r. split; [|split].
  - intros Hp. unfold handleCommand, command, mbind, M_bind. cbn. rewrite Hp.
    rewrite bool_decide_true by done. unfold ResumePipeline, ExecWrite. rewrite Hw. by cbn.
  - unfold handleCommand, command, mbind, M_bind. cbn. unfold ResetPipeline, ExecWrite. rewrite Hw. by cbn.
  - unfold handleCommand, command, mbind, M_bind. cbn. unfold set_description, AdvanceStage, ExecWrite.
    rewrite !Hw. by cbn.
Qed.

Lemma monitoring_turn fuel i w :
  fst (turn fuel InMonitoringLoop i w) = InMonitoringLoop \/ fst (turn fuel InMonitoringLoop i w) = Stopped.
Proof.
  destruct i as [|c|]; cbn [turn]; [by right|left..]; unfold mbind, M_bind.
  - by destruct (handleCommand c w).
  - by destruct (monitoringTick w).
Qed.

Lemma stopped_turns fuel ins w : turns fuel Stopped ins w = (Stopped, w).
Proof. induction ins as [|i ins IH]; [done|]. cbn [turns]. exact IH. Qed.

(** The monitoring loop never builds: whatever commands, ticks and
    cancellations come, the worker stays in that loop until it is stopped.  So
    the change of mode to building and the update, which put the worker in the
    building state and the pipeline at PLAN or UPDATE_PLAN, start nothing when
    they reach a worker that monitors, against what [CommandUpdate] ("trigger
    incremental update") and the mode change ("reset pipeline for fresh
    build") announce. *)
Theorem monitoring_never_builds fuel ins w :
  fst (turns fuel InMonitoringLoop ins w) = InMonitoringLoop \/
  fst (turns fuel InMonitoringLoop ins w) = Stopped.
Proof.
  revert w. induction ins as [|i ins IH]; intros w; [by left|]. cbn [turns]. unfold mbind, M_bind.
  pose proof (monitoring_turn fuel i w) as Ht. destruct (turn fuel InMonitoringLoop i w) as [l w'].
  destruct Ht as [Ht|Ht]; cbn [fst] in Ht; subst l; [apply IH|]. right. by rewrite stopped_turns.
Qed.
End Waiting.

Definition paused_world : World :=
  set_worker (fun k => {| wstate := StatePaused; idleCheckCount := 2; wakeContext := None;
                          maxToolResultOverride := 0; spawned := [] |}) new_world.

Lemma handleCommand_spec_witness :
  let w' := snd (handleCommand (E := calm_env (fun _ _ => Err "")) (D := Sample.deps)
    (command CommandWake (Some [("answer", VString "blue")])) paused_world) in
  wstate (worker w') = StateBuilding.
Proof.
  exact (proj1 (proj1 (handleCommand_spec (E := calm_env (fun _ _ => Err "")) (D := Sample.deps)
    [("answer", VString "blue")] "" paused_world (fun _ => eq_refl)) eq_refl)).
Defined.

(** ** Monitoring looks for errors nobody records *)

Section Quiet.
Context `{E : Env} `{D : Deps} `{L : !LawfulTools}.

Definition error_view (w : World) := error_rows (brain_log (db w)).

Lemma frame_error_core {A} (m : M A) : frame core_view m -> frame error_view m.
Proof. apply (frame_via (fun v : _ * list BrainLog * Worker => v.1.2) core_view). Qed.

Lemma frame_error_view {A} (m : M A) : frame view m -> frame error_view m.
Proof. intros H. apply frame_error_core. exact (frame_via fst view m H). Qed.

#[local] Hint Resolve frame_error_view frame_error_core frame_runToolLoop : frame.
#[local] Hint Extern 1 (frame error_view (logBrainEvent _ _ _ _ _ _)) =>
  (apply frame_error_view, frame_logBrainEvent; reflexivity) : frame.

Lemma error_loadPlan : frame error_view loadPlan.
Proof. unfold loadPlan, LoadPipelineState. frame_tac. Qed.

Lemma error_elapsed t : frame error_view (elapsed_ms t).
Proof. unfold elapsed_ms. frame_tac. Qed.

Hint Resolve error_loadPlan error_elapsed : frame.

Lemma error_monitoringTick : frame error_view monitoringTick.
Proof. unfold monitoringTick, getProvider. frame_tac. Qed.

Lemma error_finalizeTaskRun r t s e : frame error_view (finalizeTaskRun r t s e).
Proof. unfold finalizeTaskRun. frame_tac. Qed.

Hint Resolve error_finalizeTaskRun : frame.

Lemma error_handleCommand c : frame error_view (handleCommand c).
Proof.
  unfold handleCommand, executeScheduledTask, getProvider, ResumePipeline, ResetPipeline, set_description,
    AdvanceStage. frame_tac.
Qed.

Lemma error_handleChatWake m : frame error_view (handleChatWake m).
Proof. unfold handleChatWake, getProvider. frame_tac. Qed.

Lemma error_runBuildPipeline fuel : frame error_view (runBuildPipeline fuel).
Proof.
  intros w. unfold runBuildPipeline, LoadPipelineState, mbind, M_bind, Query.
  destruct (load_fails (nloads w)) as [e|]; cbn [fst snd mret M_ret].
  { match goal with |- context [publishBrainError ?s ?v] =>
      pose proof (frame_error_view _ (frame_publishBrainError s) v) as H; destruct (publishBrainError s v) end.
    exact H. }
  cbn [Paused scan_state]. destruct (paused (pipeline (db w))).
  - unfold setState, modify. cbv beta iota.
    match goal with |- context [publishBrainMessage ?s ?v] =>
      pose proof (frame_error_view _ (frame_publishBrainMessage s) v) as H; destruct (publishBrainMessage s v) end.
    exact H.
  - destruct (build_loop_moves fuel (stage (pipeline (db w))) 0%Z (count_load w) eq_refl) as (_ & H & _). exact H.
Qed.

Lemma error_turn fuel l i : frame error_view (turn fuel l i).
Proof.
  destruct l, i; cbn [turn]; try apply frame_ret;
    repeat (apply frame_bind; [auto using error_handleCommand, error_monitoringTick, frame_get|intros ?]);
    try apply frame_ret.
  case_bool_decide; [apply frame_fmap, error_runBuildPipeline|]. case_bool_decide; apply frame_ret.
Qed.

Lemma error_turns fuel ins : forall l, frame error_view (turns fuel l ins).
Proof.
  induction ins as [|i ins IH]; intros l; cbn [turns]; [apply frame_ret|].
  apply frame_bind; [apply error_turn|auto].
Qed.

(** Monitoring never asks the model.  A tick looks for rows of type error in
    the brain's log, and nothing the worker or its tools do writes one: started
    without any, the worker records none whatever commands and ticks reach it
    and wherever it waits, and a tick then counts the site as healthy and sends
    no request.  The branch that investigates issues is never taken. *)
Theorem monitoring_never_investigates fuel l ins w :
  error_rows (brain_log (db w)) = [] ->
  let w' := snd (turns fuel l ins w) in
  error_rows (brain_log (db w')) = [] /\ sent (snd (monitoringTick w')) = sent w'.
Proof.
  intros H w'. assert (He : error_rows (brain_log (db w')) = []) by (rewrite <- H; apply (error_turns fuel ins l w)).
  split; [done|]. clearbody w'. unfold monitoringTick, mbind at 1, M_bind at 1, now, get at 1.
  unfold mbind at 1, M_bind at 1, ctx_Err. destruct (ctx_done _); [done|].
  unfold mbind at 1, M_bind at 1, Query. destruct (load_fails _); cbn [fst snd].
  - by unfold mbind, M_bind, get, elapsed_ms, set_idle, modify, now, logBrainEvent, ExecWrite, mbind, M_bind, get; cbn; destruct (write_fails _).
  - unfold recent_errors. cbn [db count_load count_poll]. rewrite He. cbn.
    by unfold elapsed_ms, logBrainEvent, ExecWrite, mbind, M_bind, get; cbn; destruct (write_fails _).
Qed.
End Quiet.

Lemma monitoring_never_investigates_witness :
  let E := calm_env (fun _ _ => Err "") in
  let w' := snd (turns (E := E) (D := Sample.deps) 12 InMonitoringLoop [ITick; ITick] new_world) in
  sent (snd (monitoringTick (E := E) (D := Sample.deps) w')) = sent w'.
Proof.
  exact (proj2 (monitoring_never_investigates (E := calm_env (fun _ _ => Err "")) (L := Sample.deps_lawful)
    12 InMonitoringLoop [ITick; ITick] new_world eq_refl)).
Defined.

(** ** Findings on the build loop *)

Section Spin.
Context `{E : Env} `{D : Deps}.

Lemma runComplete_done w : fst (runComplete w) = Done StageMonitoring.
Proof.
  unfold runComplete, mbind, M_bind. destruct (beginStage _ w) as [sr w1].
  destruct (logBrainEvent _ _ _ _ _ _ w1) as [? w2]. destruct (publishBrainMessage _ w2) as [? w3].
  destruct (set_mode _ w3) as [? w4]. destruct (publish _ _ w4) as [? w5]. by destruct (sr_complete _ _ _ w5).
Qed.

Lemma runComplete_clock : frame clock runComplete.
Proof.
  unfold runComplete, beginStage, LogStageStart, sr_complete, LogStageComplete, set_mode, logBrainEvent,
    publishBrainMessage, saveChatMessage. frame_tac.
Qed.

(** A stage whose result cannot be recorded is repeated without limit and
    without waiting: when the database refuses every write and the context
    stays alive, the COMPLETE stage is run as often as there is fuel, no error
    is counted and the clock stands still.  The limit of three attempts and the
    backoff cover failures of the stage only. *)
Theorem build_loop_spins fuel retries w :
  (forall n, write_fails n = true) -> (forall n, ctx_done n = None) ->
  fst (build_loop fuel StageComplete retries w) = ExitFuel /\
  clock (snd (build_loop fuel StageComplete retries w)) = clock w.
Proof.
  intros Hw Hc. revert w. induction fuel as [|fuel IH]; intros w; [done|].
  cbn [build_loop]. unfold mbind, M_bind, ctx_Err. rewrite Hc. cbn [fst snd now get].
  unfold now, get.
  pose proof (fun s => ltac:(unfold publishBrainMessage, saveChatMessage; frame_tac) : frame clock (publishBrainMessage s)) as Hp.
  specialize (Hp ("Starting stage: **" ++ StageComplete ++ "**") (count_poll w)).
  destruct (publishBrainMessage _ (count_poll w)) as [u w1]. cbn [snd] in Hp.
  change (StageComplete =? StageMonitoring)%string with false. cbv iota.
  assert (exists w2, run_stage StageComplete w1 = (Done StageMonitoring, w2) /\ clock w2 = clock w1) as (w2 & Hr & Hk).
  { exists (snd (runComplete w1)). split; [|apply runComplete_clock].
    change (run_stage StageComplete w1) with (runComplete w1). rewrite <- runComplete_done at 1.
    apply surjective_pairing. }
  rewrite Hr. unfold AdvanceStage, ExecWrite. cbv beta iota. rewrite Hw. destruct (IH (count_write w2)) as [H1 H2].
  split; [exact H1|]. rewrite H2. cbn. by rewrite Hk, Hp.
Qed.
End Spin.

Definition broken_env : Env :=
  {| write_fails := fun _ => true; load_fails := fun _ => None; ctx_done := fun _ => None;
     complete := fun _ _ => Err ""; complete_time := fun _ => second; decrypt := Ok;
     factory_knows := fun _ => true; prompt := fun name _ => name; scan_time := fun t => t;
     MonitoringBase := 0; MonitoringMax := 0 |}.

Lemma build_loop_spins_witness :
  fst (build_loop (E := broken_env) (D := Sample.deps) 50 StageComplete 0 new_world) = ExitFuel.
Proof.
  exact (proj1 (build_loop_spins (E := broken_env) (D := Sample.deps) 50 0 new_world (fun _ => eq_refl) (fun _ => eq_refl))).
Defined.

Lemma build_loop_ends_witness :
  let E := calm_env (fun _ _ => Err "API error 500") in
  fst (build_loop (E := E) (D := Sample.deps) 12 StagePlan 0 new_world) <> ExitFuel.
Proof.
  apply (build_loop_ends (E := calm_env (fun _ _ => Err "API error 500")) (D := Sample.deps) (fun _ => eq_refl)).
  - unfold maxStageRetries. lia.
  - vm_compute. lia.
Defined.


Lemma pauses_are_recorded_witness :
  let E := calm_env (fun _ _ => Err "API error 500") in
  let '(x, w') := runBuildPipeline (E := E) (D := Sample.deps) 12 new_world in
  x = ExitPaused -> paused (pipeline (db w')) = true.
Proof.
  exact (pauses_are_recorded (E := calm_env (fun _ _ => Err "API error 500")) (D := Sample.deps) 12 new_world
    (fun _ => eq_refl)).
Defined.

Module ApprovalSample.
(** A tool that asks the owner before it drops a table. *)
Definition dropper `{Env} : Tool :=
  {| Name := "manage_schema"; ToolDescription := "tables"; Parameters := JNull; Guide := None;
     MaxResultSize := None; Summarize := None;
     ToolCore.Run := fun args => r ← RequestApproval "drop_table:posts" "Drop posts?" "Table posts."; mret (Ok (Some r), args) |}.

Definition script (n : nat) (rq : Request) : res string Response :=
  match n with
  | O => Ok (call_answer [{| tc_id := "c1"; tc_name := "manage_schema"; tc_args := dq "{'action':'drop'}" |}])
  | _ => Ok (text_answer "Waiting for the owner.")
  end.

Definition env : Env := calm_env script.
Definition deps : Deps := {| siteID := 1; ToolRegistry := Register (dropper (H := env)) NewRegistry |}.

Definition building : World :=
  set_db (set_pipeline (fun r => row_advance StageBuild 0
    (row_plan (dq "{'app_type':'blog','pages':[{'path':'/','title':'Home','purpose':'p'}]}") 0 r))) new_world.
End ApprovalSample.

(** An approval does not stop the build: a tool that asks the owner during the
    BUILD stage "pauses the pipeline so the brain waits", yet the loop looks at
    the pause only after a stage has failed.  Here the stage goes on to its end,
    the pipeline advances through COMPLETE, the site is switched to monitoring
    and the worker waits there, with the pause still on record and the question
    still pending. *)
Theorem approval_does_not_pause_build :
  let '(x, w') := runBuildPipeline (E := ApprovalSample.env) (D := ApprovalSample.deps) 12 ApprovalSample.building in
  x = ExitMonitoring /\ stage (pipeline (db w')) = StageMonitoring /\
  paused (pipeline (db w')) = true /\ pause_reason (pipeline (db w')) = Some PauseReasonApproval /\
  pending_questions (db w') = 1%nat /\ option_map s_mode (site (glob w')) = Some "monitoring".
Proof. vm_compute. repeat split. Qed.
