(* ===== verification/Scheduler.v ===== *)
(** * brain/scheduler.go: due tasks

    One pass of the scheduler over a site: the tasks without a next run get one
    ([initializeNextRunForSite]), the due ones are dispatched and rescheduled
    ([checkDueTasksForSite]).  Sending a command to the worker is the interface
    [Dispatcher]; Manager implements it.  The timestamps of the tasks are
    compared as times (the code leaves the comparison to SQLite's text order). *)

From Stdlib Require Import ZArith Lia Ascii String List Bool.
From stdpp Require Import base list strings gmap.
From S2P Require Import Prelude GoStrings GoTime Cron World.

Local Open Scope Z_scope.

(** What the scheduler asks of the manager: an attempt to hand the worker a
    command, with its error, that does not write the task tables. *)
Class Dispatcher := {
  SendCommand : BrainCommand -> M (option string);
  send_frame : forall c, frame (fun w => (scheduled_tasks (db w), task_runs (db w))) (SendCommand c);
}.

(** The clock and the cron search: the zone's offset in seconds, and the fuel of
    the field parser ([None] of it stands for a loop that does not end). *)
Record CronEnv := { cron_fuel : nat; zone : Z }.

(** [now.Add(time.Duration(sec) * time.Second)]: the product is an int64. *)
Definition after_interval (now sec : Z) : time := now + wrap64 (sec * second).

Inductive next_run := RunAt (t : time) | NoSchedule | Hangs.

(** The next run of a task by its cron expression, else by its interval. *)
Definition compute_next (ce : CronEnv) (t : TaskRow) (now : time) : next_run :=
  match (match t_cron t with Some c => if (c =? "")%string then None else Some c | None => None end) with
  | Some c => match NextTime (cron_fuel ce) (zone ce) c now with
              | Some r => RunAt r
              | None => Hangs
              end
  | None => match t_interval t with
            | Some n => if 0 <? n then RunAt (after_interval now n) else NoSchedule
            | None => NoSchedule
            end
  end.

Definition set_next (r : time) (t : TaskRow) : TaskRow :=
  {| t_id := t_id t; t_name := t_name t; t_prompt := t_prompt t; t_cron := t_cron t;
     t_interval := t_interval t; t_enabled := t_enabled t; t_last := t_last t; t_next := Some r;
     t_runs := t_runs t; t_errors := t_errors t; t_description := t_description t; t_created := t_created t; t_updated := t_updated t |}.

(** [stamp] is CURRENT_TIMESTAMP. *)
Definition reschedule (now r stamp : time) (t : TaskRow) : TaskRow :=
  {| t_id := t_id t; t_name := t_name t; t_prompt := t_prompt t; t_cron := t_cron t;
     t_interval := t_interval t; t_enabled := t_enabled t; t_last := Some now; t_next := Some r;
     t_runs := t_runs t; t_errors := t_errors t; t_description := t_description t; t_created := t_created t; t_updated := stamp |}.

Definition disable (now : time) (t : TaskRow) : TaskRow :=
  {| t_id := t_id t; t_name := t_name t; t_prompt := t_prompt t; t_cron := t_cron t;
     t_interval := t_interval t; t_enabled := false; t_last := Some now; t_next := t_next t;
     t_runs := t_runs t; t_errors := t_errors t; t_description := t_description t; t_created := t_created t; t_updated := t_updated t |}.

Definition is_due (now : time) (t : TaskRow) : bool :=
  t_enabled t && match t_next t with Some n => n <=? now | None => false end.

Definition uninitialized (t : TaskRow) : bool :=
  t_enabled t && match t_next t with Some _ => false | None => true end.

Definition update_task (f : TaskRow -> TaskRow) (id : Z) (s : SiteStore) : SiteStore :=
  set_tasks (update_where (fun t => t_id t =? id) f (scheduled_tasks s)) s.

Section Scheduler.
Context `{E : Env} `{DI : Dispatcher} (ce : CronEnv).

Definition ExecTask (f : TaskRow -> TaskRow) (id : Z) : M bool := ExecWrite (fun _ => update_task f id).

Fixpoint initialize_tasks (now : time) (l : list TaskRow) : M (outcome unit) :=
  match l with
  | [] => mret (Done tt)
  | t :: r =>
      match compute_next ce t now with
      | RunAt n => ExecTask (set_next n) (t_id t);; initialize_tasks now r
      | NoSchedule => initialize_tasks now r
      | Hangs => mret (Fail "the scheduler's goroutine does not come back")
      end
  end.

Definition initializeNextRunForSite : M (outcome unit) :=
  tasks ← Query (fun s => List.filter uninitialized (scheduled_tasks s));
  match tasks with
  | Err _ => mret (Done tt)
  | Ok tasks => t ← now; initialize_tasks t tasks
  end.

(** The run recorded for a dispatch: 0 when it could not be. *)
Definition record_run (id : Z) : M Z :=
  r ← ExecInsert (fun t s =>
    let rid := next_id r_id (task_runs s) in
    (set_runs (task_runs s ++ [{| r_id := rid; r_task := id; r_status := "running"; r_error := None;
                                  r_started := t; r_completed := None |}]) s, rid));
  mret (default 0 r).

Definition fail_run (rid : Z) (err : string) : M bool :=
  ExecWrite (fun t s => set_runs (update_where (fun r => r_id r =? rid)
    (fun r => {| r_id := r_id r; r_task := r_task r; r_status := "failed";
                 r_error := Some ("dispatch error: " ++ err)%string; r_started := r_started r; r_completed := Some t |})
    (task_runs s)) s).

Definition dispatch_task (now : time) (t : TaskRow) : M (outcome unit) :=
  rid ← record_run (t_id t);
  err ← SendCommand {| CmdType := "scheduled_task";
                       CmdPayload := Some [("prompt", VString (t_prompt t)); ("task_id", VInt (t_id t));
                                           ("run_id", VInt64 rid)] |};
  match err with
  | Some e => if 0 <? rid then fail_run rid e;; mret tt else mret tt
  | None => mret tt
  end;;
  match compute_next ce t now with
  | RunAt n => ExecWrite (fun stamp => update_task (reschedule now n stamp) (t_id t));; mret (Done tt)
  | NoSchedule => ExecTask (disable now) (t_id t);; mret (Done tt)
  | Hangs => mret (Fail "the scheduler's goroutine does not come back")
  end.

Fixpoint dispatch_tasks (now : time) (l : list TaskRow) : M (outcome unit) :=
  match l with
  | [] => mret (Done tt)
  | t :: r => let? _ := dispatch_task now t in dispatch_tasks now r
  end.

Definition checkDueTasksForSite (now : time) : M (outcome unit) :=
  tasks ← Query (fun s => List.filter (is_due now) (scheduled_tasks s));
  match tasks with
  | Err _ => mret (Done tt)
  | Ok tasks => dispatch_tasks now tasks
  end.
End Scheduler.

(** ** Every due task runs once and is due no more *)

Definition task_view (w : World) := (scheduled_tasks (db w), task_runs (db w)).

(** A schedule whose next run lies ahead: the interval fits a duration. *)
Definition sane (t : TaskRow) : Prop :=
  forall n, t_interval t = Some n -> 0 < n -> in_int64 (n * second).

Lemma compute_next_future ce t now r : zone ce mod 60 = 0 -> sane t ->
  compute_next ce t now = RunAt r -> now < r.
Proof.
  intros Hz Hs. unfold compute_next.
  destruct (match t_cron t with Some c => if (c =? "")%string then None else Some c | None => None end) as [c|].
  - destruct (NextTime _ _ _ _) as [x|] eqn:Hn; [|done]. intros [= <-].
    by apply (NextTime_bounds _ _ _ _ _ Hz) in Hn as [? _].
  - destruct (t_interval t) as [n|] eqn:Hi; [|done]. destruct (Z.ltb_spec 0 n); [|done].
    intros [= <-]. unfold after_interval. rewrite wrap64_id by (by apply Hs).
    assert (0 < second) by (unfold second; lia). nia.
Qed.

Section SchedulerFacts.
Context `{E : Env} `{DI : Dispatcher} (ce : CronEnv).

Lemma dispatch_task_done now t w w' : (forall n, write_fails n = false) ->
  zone ce mod 60 = 0 -> sane t ->
  dispatch_task ce now t w = (Done tt, w') ->
  map r_task (task_runs (db w')) = (map r_task (task_runs (db w)) ++ [t_id t])%list /\
  exists f, scheduled_tasks (db w') = update_where (fun x => t_id x =? t_id t) f (scheduled_tasks (db w)) /\
            forall x, is_due now (f x) = false /\ t_id (f x) = t_id x.
Proof.
  intros Hw Hz Hs. unfold dispatch_task, record_run, mbind, M_bind, mret, M_ret, ExecInsert. rewrite Hw.
  unfold default, from_option, id. set (rid := next_id r_id _). set (w1 := set_db _ (count_write w)).
  match goal with |- context [SendCommand ?c w1] => pose proof (send_frame c w1) as Hf; destruct (SendCommand c w1) as [err w2] end.
  injection Hf as Hf1 Hf2. cbn in Hf1, Hf2.
  set (step := match err with Some _ => _ | None => _ end).
  assert (Hstep : exists w3, step w2 = (tt, w3) /\ scheduled_tasks (db w3) = scheduled_tasks (db w) /\
    map r_task (task_runs (db w3)) = (map r_task (task_runs (db w)) ++ [t_id t])%list).
  { unfold step. assert (H2 : map r_task (task_runs (db w2)) = (map r_task (task_runs (db w)) ++ [t_id t])%list).
    { rewrite Hf2, map_app. done. }
    destruct err as [e|]; [|by exists w2]. destruct (0 <? rid); [|by exists w2].
    unfold fail_run, ExecWrite. rewrite Hw. eexists. split; [reflexivity|]. split; [exact Hf1|].
    cbn. rewrite map_update_where by done. exact H2. }
  destruct Hstep as (w3 & -> & Ht & Hr).
  pose proof (compute_next_future ce t now) as Hn.
  destruct (compute_next ce t now) as [n| |]; [| |done]; unfold ExecTask, ExecWrite; rewrite Hw; intros [= <-].
  - split; [by rewrite <- Hr|]. exists (reschedule now n (CURRENT_TIMESTAMP w3)). split; [cbn; by rewrite Ht|].
    intros x. split; [|done]. unfold is_due, reschedule. cbn.
    specialize (Hn n Hz Hs eq_refl). replace (n <=? now) with false by (symmetry; apply Z.leb_gt; lia).
    apply andb_false_r.
  - split; [by rewrite <- Hr|]. exists (disable now). split; [cbn; by rewrite Ht|]. done.
Qed.

Lemma dispatch_tasks_done now l : (forall n, write_fails n = false) -> zone ce mod 60 = 0 -> Forall sane l ->
  forall w w', dispatch_tasks ce now l w = (Done tt, w') ->
  (forall x, In x (scheduled_tasks (db w)) -> is_due now x = true -> In (t_id x) (map t_id l)) ->
  map r_task (task_runs (db w')) = (map r_task (task_runs (db w)) ++ map t_id l)%list /\
  forall x, In x (scheduled_tasks (db w')) -> is_due now x = false.
Proof.
  intros Hw Hz Hs. induction Hs as [|t l Ht Hl IH]; intros w w' H Hd.
  - injection H as <-. rewrite app_nil_r. split; [done|]. intros x Hx.
    destruct (is_due now x) eqn:Hx'; [|done]. by destruct (Hd x Hx Hx').
  - cbn [dispatch_tasks] in H. unfold try, mbind, M_bind in H.
    destruct (dispatch_task ce now t w) as [[[]|e|e] w1] eqn:E1; [|done|done].
    destruct (dispatch_task_done now t w w1 Hw Hz Ht E1) as (Hr & f & Hu & Hf).
    destruct (IH w1 w' H) as [H1 H2].
    + intros x Hx Hdx. rewrite Hu in Hx. unfold update_where in Hx. apply in_map_iff in Hx as (y & <- & Hy).
      destruct (Z.eqb_spec (t_id y) (t_id t)) as [Heq|Hne]; [by rewrite (proj1 (Hf y)) in Hdx|].
      destruct (Hd y Hy Hdx) as [?|?]; [congruence|done].
    + split; [|done]. rewrite H1, Hr. cbn [map]. by rewrite <- app_assoc.
Qed.

End SchedulerFacts.

(** ** Examples *)

Module SchedulerSample.
#[export, refine] Instance no_worker : Dispatcher :=
  {| SendCommand := fun _ => mret (Some "brain: no worker running for site 1") |}.
Proof. intros c. apply frame_ret. Defined.

Definition ce : CronEnv := {| cron_fuel := 60; zone := 0 |}.

Definition task (id : Z) (cron : option string) (interval : option Z) : TaskRow :=
  {| t_id := id; t_name := "t"; t_prompt := "p"; t_cron := cron; t_interval := interval; t_enabled := true;
     t_last := None; t_next := Some 0; t_runs := 0; t_errors := 0; t_description := None; t_created := 0; t_updated := 0 |}.

Definition tasks_world : World :=
  set_db (set_tasks [task 1 (Some "0 9 * * *") None; task 2 None (Some 60); task 3 None None]) new_world.

Definition env : Env := calm_env (fun _ _ => Err "").
End SchedulerSample.


(** An interval beyond the range of a duration makes a task run on every pass:
    at 9223372037 seconds (some 292 years) the product overflows, and the next
    run computed lies in the past. *)
Theorem interval_overflow :
  let t := SchedulerSample.task 1 None (Some 9223372037) in
  forall now, exists r, compute_next SchedulerSample.ce t now = RunAt r /\ r < now /\
    forall stamp, is_due now (reschedule now r stamp t) = true.
Proof.
  intros t now. exists (now - 9223372036709551616). split; [|split; [lia|intros stamp]].
  - cbn. f_equal.
  - cbn. apply Z.leb_le. lia.
Qed.
