(* ===== verification/Manager.v ===== *)
(** * brain/manager.go: the workers of all sites

    The map of workers and the goroutines behind it, as one state with the
    manager's operations, and the tick semaphore.  A goroutine is told apart by
    its number; cancelling it asks it to end, and it ends in a step of its own.
    [SendCommand] is seen from one site: the channel of its worker is part of
    that site's [World]. *)

From Stdlib Require Import ZArith Lia Ascii String List Bool.
From stdpp Require Import base list strings gmap relations.
From S2P Require Import Prelude GoStrings GoTime World Scheduler.

(** ** The worker's channel *)

Section Commands.
Context (siteID : Z).

Definition channel_size : nat := 16.

(** [PipelineWorker.Send]: waits up to five seconds for room. *)
Definition Send (c : BrainCommand) (q : list BrainCommand) : M (option string) := fun w =>
  if (List.length q <? channel_size)%nat then (None, set_commands (Some (q ++ [c])) w)
  else (Some ("pipeline command channel full, command " ++ CmdType c ++ " not delivered")%string,
        advance_clock (5 * second) w).

Definition SendCommand (c : BrainCommand) : M (option string) :=
  q ← get commands;
  match q with
  | None => mret (Some ("brain: no worker running for site " ++ Itoa siteID)%string)
  | Some q => Send c q
  end.

Lemma frame_SendCommand c : frame (fun w => (scheduled_tasks (db w), task_runs (db w))) (SendCommand c).
Proof.
  apply frame_bind; [apply frame_get|]. intros [q|]; [|apply frame_ret]. intros w. unfold Send. by case_match.
Qed.

(** The manager serves the scheduler. *)
#[export] Instance manager_dispatcher : Dispatcher :=
  {| Scheduler.SendCommand := SendCommand; send_frame := frame_SendCommand |}.
End Commands.

(** ** The map of workers *)

Record BrainManager := {
  workers : gmap Z nat;          (* the worker (goroutine) of a site *)
  live : gset (Z * nat);         (* goroutines that have not ended *)
  cancelled : gset nat;          (* whose context is cancelled *)
  fresh : nat;                   (* the next goroutine *)
}.

Definition NewBrainManager : BrainManager :=
  {| workers := ∅; live := ∅; cancelled := ∅; fresh := 0 |}.

(** [StartSite]; [opened] is the error of opening the site's database. *)
Definition StartSite (opened : option string) (siteID : Z) (m : BrainManager) : option string * BrainManager :=
  match workers m !! siteID with
  | Some _ => (None, m)
  | None =>
      match opened with
      | Some e => (Some ("brain: failed to create pipeline worker for site " ++ Itoa siteID ++ ": " ++ e)%string, m)
      | None => (None, {| workers := <[siteID := fresh m]> (workers m);
                          live := {[(siteID, fresh m)]} ∪ live m;
                          cancelled := cancelled m; fresh := S (fresh m) |})
      end
  end.

Definition StopSite (siteID : Z) (m : BrainManager) : option string * BrainManager :=
  match workers m !! siteID with
  | None => (Some ("brain: no worker running for site " ++ Itoa siteID)%string, m)
  | Some k => (None, {| workers := delete siteID (workers m); live := live m;
                        cancelled := {[k]} ∪ cancelled m; fresh := fresh m |})
  end.

(** [StopAll], up to its wait for the goroutines (30 seconds at most). *)
Definition StopAll (m : BrainManager) : BrainManager :=
  {| workers := ∅; live := live m; cancelled := list_to_set (map_to_list (workers m)).*2 ∪ cancelled m;
     fresh := fresh m |}.

(** [AutoStart]: an error of one site does not keep the others from starting. *)
Fixpoint AutoStart (sites : list (Z * option string)) (m : BrainManager) : BrainManager :=
  match sites with
  | [] => m
  | (s, opened) :: r => AutoStart r (snd (StartSite opened s m))
  end.

Definition IsRunning (siteID : Z) (m : BrainManager) : bool :=
  match workers m !! siteID with Some _ => true | None => false end.
Definition RunningCount (m : BrainManager) : nat := size (workers m).
Definition RunningSites (m : BrainManager) : list Z := (map_to_list (workers m)).*1.

(** [Status], given the workers' own states. *)
Definition Status (state_of : nat -> BrainState) (siteID : Z) (m : BrainManager) : BrainState :=
  match workers m !! siteID with Some k => state_of k | None => StateIdle end.

(** A goroutine ends: [Run] returned. *)
Definition goroutine_ends (g : Z * nat) (m : BrainManager) : BrainManager :=
  {| workers := workers m; live := live m ∖ {[g]}; cancelled := cancelled m; fresh := fresh m |}.

Inductive manager_step : BrainManager -> BrainManager -> Prop :=
| do_start s o m : manager_step m (snd (StartSite o s m))
| do_stop s m : manager_step m (snd (StopSite s m))
| do_stop_all m : manager_step m (StopAll m)
| do_end g m : g ∈ live m -> manager_step m (goroutine_ends g m).

Definition reachable (m : BrainManager) : Prop := rtc manager_step NewBrainManager m.

(** The map holds workers that were not cancelled, one goroutine per number, and
    every goroutine not cancelled is the one the map holds for its site. *)
Record manager_inv (m : BrainManager) : Prop := {
  mi_map : forall s k, workers m !! s = Some k -> k ∉ cancelled m /\ (k < fresh m)%nat;
  mi_inj : forall s s' k, workers m !! s = Some k -> workers m !! s' = Some k -> s = s';
  mi_live : forall s k, (s, k) ∈ live m -> (k < fresh m)%nat /\ (k ∉ cancelled m -> workers m !! s = Some k);
  mi_fresh : forall k, k ∈ cancelled m -> (k < fresh m)%nat;
}.

Lemma manager_inv_init : manager_inv NewBrainManager.
Proof.
  split; cbn.
  - intros s k H. by rewrite lookup_empty in H.
  - intros s s' k H. by rewrite lookup_empty in H.
  - intros s k []%not_elem_of_empty.
  - intros k []%not_elem_of_empty.
Qed.

Lemma StartSite_inv s o m : manager_inv m -> manager_inv (snd (StartSite o s m)).
Proof.
  intros [H1 H2 H3 H4]. unfold StartSite. destruct (workers m !! s) as [k|] eqn:Hs; [by split|].
  destruct o; [by split|]. cbn. split; cbn.
  - intros s' k [[-> <-]|[Hne Hk]]%lookup_insert_Some.
    + split; [|lia]. intros Hc. apply H4 in Hc. lia.
    + apply H1 in Hk as [? ?]. split; [done|lia].
  - intros s1 s2 k [[-> <-]|[? Hk1]]%lookup_insert_Some [[-> Hk]|[? Hk2]]%lookup_insert_Some; try done.
    + apply H1 in Hk2 as [_ ?]. lia.
    + apply H1 in Hk1 as [_ ?]. lia.
    + eauto.
  - intros s' k [Heq|Hin]%elem_of_union.
    + apply elem_of_singleton in Heq. simplify_eq. split; [lia|]. intros _. by rewrite lookup_insert_eq.
    + apply H3 in Hin as [Hlt Hin]. split; [lia|]. intros Hc. specialize (Hin Hc).
      rewrite lookup_insert_ne; [done|]. intros ->. congruence.
  - intros k Hk. apply H4 in Hk. lia.
Qed.

Lemma StopSite_inv s m : manager_inv m -> manager_inv (snd (StopSite s m)).
Proof.
  intros [H1 H2 H3 H4]. unfold StopSite. destruct (workers m !! s) as [k|] eqn:Hs; [|by split]. cbn. split; cbn.
  - intros s' k' [Hne Hk]%lookup_delete_Some. destruct (H1 s' k' Hk) as [Hc Hlt]. split; [|done].
    intros [->%elem_of_singleton|?]%elem_of_union; [|done]. apply Hne. by eapply H2.
  - intros s1 s2 k' [_ A]%lookup_delete_Some [_ B]%lookup_delete_Some. eauto.
  - intros s' k' Hin. destruct (H3 s' k' Hin) as [Hlt Hm]. split; [done|]. intros Hc.
    assert (workers m !! s' = Some k') by (apply Hm; set_solver).
    rewrite lookup_delete_ne; [done|]. intros ->. set_solver.
  - intros k' [->%elem_of_singleton|?]%elem_of_union; [by eapply H1|auto].
Qed.

Lemma StopAll_inv m : manager_inv m -> manager_inv (StopAll m).
Proof.
  intros [H1 H2 H3 H4]. unfold StopAll. split; cbn.
  - intros s k H. by rewrite lookup_empty in H.
  - intros s s' k H. by rewrite lookup_empty in H.
  - intros s k Hin. destruct (H3 s k Hin) as [Hlt Hm]. split; [done|]. intros Hc. exfalso. apply Hc.
    apply elem_of_union. destruct (decide (k ∈ cancelled m)) as [?|Hnc]; [by right|]. left.
    apply elem_of_list_to_set. apply list_elem_of_fmap. exists (s, k). split; [done|].
    apply elem_of_map_to_list. auto.
  - intros k [Hk|Hk]%elem_of_union; [|auto]. apply elem_of_list_to_set, list_elem_of_fmap in Hk as ([s k'] & -> & Hk).
    apply elem_of_map_to_list in Hk. by eapply H1.
Qed.

Lemma reachable_inv m : reachable m -> manager_inv m.
Proof.
  unfold reachable. intros H. apply (rtc_ind_r (R := manager_step) manager_inv NewBrainManager); [apply manager_inv_init| |exact H].
  intros a b _ Hs Ha. destruct Hs as [s o a|s a|a|g a Hg]; auto using StartSite_inv, StopSite_inv, StopAll_inv.
  destruct Ha as [H1 H2 H3 H4]. split; cbn; auto. intros s k Hin. apply H3. set_solver.
Qed.

(** C11. In whatever order sites are started, stopped and workers end, at most one
    worker of a site runs without having been told to stop, it is the one the
    manager holds for the site, and no two sites share a worker. *)
Theorem one_active_worker m : reachable m ->
  (forall s k k', (s, k) ∈ live m -> (s, k') ∈ live m -> k ∉ cancelled m -> k' ∉ cancelled m -> k = k') /\
  (forall s s' k, workers m !! s = Some k -> workers m !! s' = Some k -> s = s').
Proof.
  intros H%reachable_inv. destruct H as [H1 H2 H3 H4]. split; [|done].
  intros s k k' Hk Hk' Hc Hc'. apply H3 in Hk as [_ Hk]. apply H3 in Hk' as [_ Hk'].
  specialize (Hk Hc). specialize (Hk' Hc'). congruence.
Qed.

(** A site stopped and started at once; and a worker that returned. *)
Definition restarted : BrainManager := snd (StartSite None 7 (snd (StopSite 7 (snd (StartSite None 7 NewBrainManager))))).
Definition abandoned : BrainManager := goroutine_ends (7%Z, 0%nat) (snd (StartSite None 7 NewBrainManager)).

Lemma one_active_worker_witness : (7%Z, 1%nat) ∈ live restarted /\ 1%nat ∉ cancelled restarted /\ 1%nat = 1%nat.
Proof.
  assert (H : (7%Z, 1%nat) ∈ live restarted) by (apply elem_of_union; left; by apply elem_of_singleton).
  assert (Hc : 1%nat ∉ cancelled restarted) by (apply (bool_decide_unpack _); vm_compute; exact I).
  split; [exact H|]. split; [exact Hc|].
  refine (proj1 (one_active_worker restarted _) 7%Z 1%nat 1%nat H H Hc Hc).
  eapply rtc_l; [apply (do_start 7 None)|]. eapply rtc_l; [apply (do_stop 7)|].
  eapply rtc_l; [apply (do_start 7 None)|]. apply rtc_refl.
Defined.

(** The limits of that: [StopSite] does not wait, so a site started again at
    once has two workers running on its database until the first notices; and a
    worker that returns on its own (its site or its pipeline state could not be
    loaded) stays in the map, so that the site counts as running and
    [StartSite] reports success without starting anything. *)
Theorem worker_map_limits :
  reachable restarted /\ (7%Z, 0%nat) ∈ live restarted /\ (7%Z, 1%nat) ∈ live restarted /\
  reachable abandoned /\ live abandoned = ∅ /\ IsRunning 7 abandoned = true /\
  StartSite None 7 abandoned = (None, abandoned).
Proof.
  assert (H7 : (7%Z, 1%nat) ∈ live restarted /\ (7%Z, 0%nat) ∈ live restarted).
  { split; apply elem_of_union; [left|right; apply elem_of_union; left]; by apply elem_of_singleton. }
  destruct H7 as [H1 H0]. split; [|split; [exact H0|split; [exact H1|split]]].
  - eapply rtc_l; [apply (do_start 7 None)|]. eapply rtc_l; [apply (do_stop 7)|].
    eapply rtc_l; [apply (do_start 7 None)|]. apply rtc_refl.
  - eapply rtc_l; [apply (do_start 7 None)|]. eapply rtc_l; [|apply rtc_refl]. apply do_end.
    apply elem_of_union_l. by apply elem_of_singleton.
  - split; [|split; reflexivity]. apply (bool_decide_unpack _). vm_compute. exact I.
Qed.

(** ** The tick semaphore *)

Definition defaultMaxConcurrentTicks : nat := 4.

(** The two kinds of work that take a slot, with their site. *)
Inductive job := Tick (site : Z) | ChatWake (site : Z) (message : string).

#[export] Instance job_eq_dec : EqDecision job.
Proof. solve_decision. Defined.

(** [semaphore <- struct{}{}] and the deferred receive. *)
Inductive sem_step : list job -> list job -> Prop :=
| acquire j held : (List.length held < defaultMaxConcurrentTicks)%nat -> sem_step held (j :: held)
| release j l r : sem_step (l ++ j :: r) (l ++ r).

(** At most four ticks and chat wakes hold the semaphore at a time, over all
    sites; but it is no mutual exclusion: a chat wake and a monitoring tick of
    the same site can hold it together, against the comment in [handleChatWake]
    ("to prevent concurrent execution with monitoring ticks"). *)
Theorem semaphore_bound held : rtc sem_step [] held ->
  (List.length held <= defaultMaxConcurrentTicks)%nat /\
  rtc sem_step [] [ChatWake 7 "fix the menu"; Tick 7].
Proof.
  intros H. split.
  - apply (rtc_ind_r (R := sem_step) (fun h => (List.length h <= defaultMaxConcurrentTicks)%nat) []); [cbn; lia| |exact H].
    intros a b _ [j h Hh|j l r] Ha; cbn; [lia|]. rewrite !length_app in *. cbn in Ha. lia.
  - eapply rtc_l; [apply (acquire (Tick 7)); cbn; unfold defaultMaxConcurrentTicks; lia|].
    eapply rtc_l; [apply acquire; cbn; unfold defaultMaxConcurrentTicks; lia|]. apply rtc_refl.
Qed.

Lemma semaphore_bound_witness : (List.length (@nil job) <= defaultMaxConcurrentTicks)%nat.
Proof. exact (proj1 (semaphore_bound [] (rtc_refl _ []))). Defined.
