(* ===== verification/Security.v ===== *)
(** * security/: tokens, roles, identifiers, secure column values

    The signing of tokens (golang-jwt), bcrypt and AES-GCM are not part of the
    repository: they are the class [Crypto], with the documented behaviour the
    code relies on.  The handlers of net/http become functions from a request to
    the response written, or to what the next handler gets. *)

From Stdlib Require Import ZArith Lia Ascii String List Bool.
From stdpp Require Import base list strings gmap.
From S2P Require Import Prelude GoStrings GoTime JSONText PlanStore.

Local Open Scope string_scope.

(** ** Requests and responses *)

Record HttpRequest := {
  method : string;
  url_path : string;
  headers : list (string * string);      (* canonical names *)
  cookies : list (string * string);
  query : gmap string (list string);     (* [r.URL.Query()] *)
  req_body : string;
}.

Record HttpResponse := { resp_status : Z; resp_body : json }.

Fixpoint assoc (k : string) (l : list (string * string)) : option string :=
  match l with
  | [] => None
  | (k', v) :: r => if (k' =? k)%string then Some v else assoc k r
  end.

(** [Header.Get] and [url.Values.Get]: the empty string when absent. *)
Definition header (k : string) (r : HttpRequest) : string := default "" (assoc k (headers r)).

Definition query_get (k : string) (r : HttpRequest) : string :=
  match query r !! k with Some (v :: _) => v | _ => "" end.

Definition error_response (status : Z) (msg : string) : HttpResponse :=
  {| resp_status := status; resp_body := JObj [("error", JStr msg)] |}.

(** The map a JSON object decodes into: a later member replaces an earlier one. *)
Definition go_map {A} (l : list (string * A)) : gmap string A := fold_left (fun m kv => <[fst kv := snd kv]> m) l ∅.

(** ** security/jwt.go *)

Record Claims := { SiteID : Z; UserID : Z; Username : string; ClaimRole : string }.

(** A token carries the claims, the time it was issued and the time it expires,
    in whole seconds; it is accepted with the key that signed it until then. *)
Class Crypto := {
  token_sign : string -> Claims -> time -> time -> string;
  token_parse : string -> string -> time -> res string Claims;
  token_valid : forall key c iat exp now, now < Truncate exp second ->
    token_parse key (token_sign key c iat exp) now = Ok c;
  bcrypt : string -> res string string;                    (* HashPassword *)
  bcrypt_check : string -> string -> bool;                 (* CheckPassword password hash *)
  encrypt : string -> res string string;                   (* Encryptor.Encrypt *)
  float_text : string -> string;                           (* fmt's %v of the float64 of a literal *)
}.

Record JWTManager := { secret : string; expiry : duration }.

Section Tokens.
Context `{C : Crypto}.

Definition GenerateForSite (j : JWTManager) (siteID userID : Z) (username role : string) (now : time) : string :=
  token_sign (secret j) {| SiteID := siteID; UserID := userID; Username := username; ClaimRole := role |}
    now (now + expiry j).

Definition Generate (j : JWTManager) (userID : Z) (username role : string) (now : time) : string :=
  GenerateForSite j 0 userID username role now.

Definition Validate (j : JWTManager) (tokenString : string) (now : time) : res string Claims :=
  token_parse (secret j) tokenString now.

(** ** security/middleware.go *)

Definition AuthCookieName : string := "iatan_auth".

Definition find_token (r : HttpRequest) : res HttpResponse string :=
  let authHeader := header "Authorization" r in
  if negb (authHeader =? "")%string then
    let t := TrimPrefix authHeader "Bearer " in
    if (t =? authHeader)%string then Err (error_response 401 "invalid authorization format") else Ok t
  else
    let cookie := default "" (assoc AuthCookieName (cookies r)) in
    if negb (cookie =? "")%string then Ok cookie
    else if negb (query_get "token" r =? "")%string then Ok (query_get "token" r)
    else Err (error_response 401 "missing authorization").

(** The claims put in the request's context, or the response. *)
Definition Authenticator (j : JWTManager) (r : HttpRequest) (now : time) : res HttpResponse Claims :=
  match find_token r with
  | Err e => Err e
  | Ok t =>
      match Validate j t now with
      | Err _ => Err (error_response 401 "invalid or expired token")
      | Ok c => Ok c
      end
  end.

Definition RequireRole (role : string) (claims : option Claims) : res HttpResponse unit :=
  match claims with
  | Some c => if (ClaimRole c =? role)%string then Ok tt else Err (error_response 403 "insufficient permissions")
  | None => Err (error_response 403 "insufficient permissions")
  end.

(** ** security/values.go *)

(** [fmt.Sprintf("%v", value)] of a decoded JSON value: maps print with their
    keys in order. *)
Fixpoint format_value (j : json) : string :=
  match j with
  | JNull => "<nil>"
  | JBool b => if b then "true" else "false"
  | JNum lit => float_text lit
  | JStr s => s
  | JArr l => "[" ++ Join (map format_value l) " " ++ "]"
  | JObj m => "map[" ++ Join (map (fun kv => fst kv ++ ":" ++ snd kv)
                 (sorted_members (go_map (map (fun kv => (fst kv, format_value (snd kv))) m)))) " " ++ "]"
  end.

(** [encryptor] tells whether one is configured. *)
Definition ProcessSecureValue (encryptor : bool) (kind : string) (value : json) : res string json :=
  let strVal := format_value value in
  if (kind =? "hash")%string then
    match bcrypt strVal with Ok h => Ok (JStr h) | Err e => Err ("hashing password: " ++ e) end
  else if (kind =? "encrypt")%string then
    if encryptor then
      match encrypt strVal with Ok h => Ok (JStr h) | Err e => Err ("encrypting value: " ++ e) end
    else Err "encryption not configured"
  else Ok value.
End Tokens.

(** ** security/validate.go *)

Definition is_word (a : ascii) : bool := is_alpha a || is_digit a || Ascii.eqb a "_".

(** The regular expression [^[a-zA-Z][a-zA-Z0-9_]*$]. *)
Definition validIdentifier (s : string) : bool :=
  match s with
  | "" => false
  | String a r => is_alpha a && all_bytes is_word r
  end.

Definition ValidateColumnName (name : string) : res string unit :=
  if validIdentifier name then Ok tt
  else Err ("invalid column name: " ++ Quote name ++ " (must start with letter, contain only alphanumeric/underscore)").

Fixpoint ValidateColumnNames (names : list string) : res string unit :=
  match names with
  | [] => Ok tt
  | n :: r => match ValidateColumnName n with Ok _ => ValidateColumnNames r | Err e => Err e end
  end.

(** ** Facts *)

Lemma validIdentifier_words s : validIdentifier s = true -> all_bytes is_word s = true.
Proof.
  destruct s as [|a r]; cbn; [done|]. intros [H ->]%andb_true_iff. unfold is_word. by rewrite H.
Qed.

Lemma ValidateColumnName_ok s : is_ok (ValidateColumnName s) = validIdentifier s.
Proof. unfold ValidateColumnName. by destruct (validIdentifier s). Qed.

Lemma ValidateColumnNames_ok l : is_ok (ValidateColumnNames l) = forallb validIdentifier l.
Proof.
  induction l as [|n r IH]; [done|]. cbn. rewrite <- IH. unfold ValidateColumnName. by destruct (validIdentifier n).
Qed.

