(* ===== verification/JSONRead.v ===== *)
(** * What is decoded can be written and read again

    A value that [Unmarshal] gives is [readable]: its strings are UTF-8, its numbers
    are numbers and it is nested within the limit, so that [Marshal] of it is read
    back as the same value.  And the text [Marshal] writes has no control bytes. *)

From Stdlib Require Import ZArith Lia Ascii String List Bool.
From stdpp Require Import base list strings gmap.
From S2P Require Import Prelude GoStrings JSONText Plan PlanJSON PlanStore Security.

Local Open Scope string_scope.
Local Open Scope go_scope.

(** ** UTF-8 *)

Lemma utf8_len_append s t k : utf8_len s = S k -> utf8_len (s ++ t) = S k.
Proof. intros H. rewrite <- (take_drop_str (S k) s), append_assoc. by apply utf8_len_take. Qed.

Lemma drop_append_le n : forall s t, (n <= String.length s)%nat -> drop_str n (s ++ t) = drop_str n s ++ t.
Proof. induction n as [|n IH]; intros [|a s] t H; cbn in *; try done; [lia|]. apply IH. lia. Qed.

Lemma utf8_append s t : utf8 s -> utf8 t -> utf8 (s ++ t).
Proof.
  intros Hs Ht. induction Hs as [|s k Hk Hs IH]; [done|]. eapply utf8_cons; [by apply utf8_len_append|].
  pose proof (utf8_len_le s). rewrite drop_append_le by lia. done.
Qed.

Lemma utf8_chunk s k : utf8_len s = S k -> utf8 (take_str (S k) s).
Proof.
  intros H. pose proof (utf8_len_take s "" k H) as Hl. rewrite append_nil_r in Hl. eapply utf8_cons; [exact Hl|].
  pose proof (utf8_len_le s). rewrite <- (append_nil_r (take_str (S k) s)), drop_take_append by lia. constructor.
Qed.

Lemma utf8_byte a : (code a < 128)%nat -> utf8 (s1 a).
Proof. intros H. apply (utf8_cons _ 0); [|constructor]. unfold utf8_len, s1. apply Nat.ltb_lt in H. by rewrite H. Qed.

Lemma code_byte n : (n < 256)%nat -> code (byte_of n) = n.
Proof. apply nat_ascii_embedding. Qed.

(** The runes but for the surrogates are encoded as UTF-8. *)
Definition rune (u : nat) : Prop := (Z.of_nat u < 1114112)%Z /\ ~ (55296 <= Z.of_nat u < 57344)%Z.

Lemma byte_between lo hi n : (n < 256)%nat -> between lo hi (byte_of n) = (lo <=? n)%nat && (n <=? hi)%nat.
Proof. intros H. unfold between. by rewrite code_byte. Qed.

(** The comparisons the goal depends on, settled where the context does. *)
Ltac settle b :=
  first [ replace b with true by (symmetry; first [apply Nat.ltb_lt|apply Nat.leb_le|apply Nat.eqb_eq]; lia)
        | replace b with false by (symmetry; first [apply Nat.ltb_ge|apply Nat.leb_gt|apply Nat.eqb_neq]; lia)
        | destruct b eqn:?; rewrite ?Nat.eqb_eq, ?Nat.eqb_neq, ?Nat.leb_le, ?Nat.leb_gt in *; try (exfalso; lia) ].
Ltac compare_bytes := repeat (match goal with
  | |- context [(?a =? ?b)%nat] => settle (a =? b)%nat
  | |- context [(?a <? ?b)%nat] => settle (a <? b)%nat
  | |- context [(?a <=? ?b)%nat] => settle (a <=? b)%nat
  end; cbn [andb]).

Lemma base64 n : (n = 64 * (n / 64) + n mod 64)%nat /\ (n mod 64 < 64)%nat.
Proof. split; [apply Nat.div_mod_eq|by apply Nat.mod_upper_bound]. Qed.

Lemma ltb_65536 u : (u <? 65536)%nat = (Z.of_nat u <? 65536)%Z.
Proof.
  assert (Z.of_nat 65536 = 65536)%Z as E by (vm_compute; reflexivity). rewrite <- E. clear E.
  destruct (Nat.ltb_spec u 65536), (Z.ltb_spec (Z.of_nat u) (Z.of_nat 65536)); try done; exfalso.
  - apply Nat2Z.inj_lt in H. revert H H0. apply Z.lt_nge.
  - apply Nat2Z.inj_le in H. revert H0 H. apply Z.lt_nge.
Qed.

Lemma div_262144 u : (u / 262144 = u / 4096 / 64)%nat.
Proof.
  apply Nat2Z.inj. rewrite !Nat2Z.inj_div.
  assert (Z.of_nat 262144 = 262144)%Z as -> by (vm_compute; reflexivity).
  assert (Z.of_nat 4096 = 4096)%Z as -> by (vm_compute; reflexivity).
  by rewrite Z.div_div.
Qed.

Lemma utf8_enc_len u : rune u -> exists k, utf8_len (utf8_enc u) = S k /\ String.length (utf8_enc u) = S k.
Proof.
  intros [H1 H2]. unfold utf8_enc. destruct (Nat.ltb_spec u 128); [|destruct (Nat.ltb_spec u 2048); [|rewrite ltb_65536; destruct (Z.ltb_spec (Z.of_nat u) 65536)]].
  - exists 0%nat. split; [|done]. cbv [utf8_len s1]. rewrite code_byte by lia. by compare_bytes.
  - exists 1%nat. split; [|done]. destruct (base64 u) as [E1 B1]. set (a := (u / 64)%nat) in *. set (b := (u mod 64)%nat) in *. clearbody a b. cbv [utf8_len cont s1]. rewrite !byte_between, code_byte by lia. by compare_bytes.
  - exists 2%nat. split; [|done]. set (a := (u / 4096)%nat). set (b := (u / 64 mod 64)%nat). set (c := (u mod 64)%nat).
    destruct (base64 u) as [E1 B1]. destruct (base64 (u / 64)) as [E2 B2]. rewrite Nat.Div0.div_div in E2. change (64 * 64)%nat with 4096%nat in E2. fold c in E1, B1. fold b in E2, B2. fold a in E2.
    set (u1 := (u / 64)%nat) in *. clearbody a b c u1.
    cbv [utf8_len cont s1]. rewrite !byte_between, !code_byte by lia. by compare_bytes.
  - exists 3%nat. split; [|done]. set (a := (u / 262144)%nat). set (b := (u / 4096 mod 64)%nat). set (c := (u / 64 mod 64)%nat). set (d := (u mod 64)%nat).
    destruct (base64 u) as [E1 B1]. destruct (base64 (u / 64)) as [E2 B2]. destruct (base64 (u / 4096)) as [E3 B3].
    rewrite Nat.Div0.div_div in E2. change (64 * 64)%nat with 4096%nat in E2.
    rewrite <- div_262144 in E3. fold d in E1, B1. fold c in E2, B2. fold b in E3, B3. fold a in E3.
    set (u1 := (u / 64)%nat) in *. set (u2 := (u / 4096)%nat) in *. clearbody a b c d u1 u2.
    cbv [utf8_len cont s1]. rewrite !byte_between, !code_byte by lia. by compare_bytes.
Qed.

Lemma utf8_enc_valid u : rune u -> utf8 (utf8_enc u).
Proof.
  intros (k & Hk & Hl)%utf8_enc_len. apply utf8_chunk in Hk as H. rewrite <- Hl in H.
  pose proof (take_append (utf8_enc u) "") as Ht. rewrite append_nil_r in Ht. by rewrite Ht in H.
Qed.

(** ** Strings *)

Lemma hex_digits_bound k : forall v s u r, hex_digits k v s = Ok (u, r) -> (Z.of_nat u < (Z.of_nat v + 1) * 16 ^ Z.of_nat k)%Z.
Proof.
  induction k as [|k IH]; intros v s u r; [intros [= -> _]; change (16 ^ Z.of_nat 0)%Z with 1%Z; lia|]. cbn [hex_digits]. destruct s as [|a s]; [done|].
  destruct (hex_value a) as [d|] eqn:Hd; [|done]. intros H%IH.
  assert (d < 16)%nat as Hlt.
  { revert Hd. clear. destruct a as [[] [] [] [] [] [] [] []]; intros [= <-]; apply Nat.ltb_lt; reflexivity. }
  rewrite Nat2Z.inj_succ, Z.pow_succ_r by lia. nia.
Qed.

Lemma hex_digits_rune s u r : hex_digits 4 0 s = Ok (u, r) -> (Z.of_nat u < 65536)%Z.
Proof. intros H%hex_digits_bound. exact H. Qed.

Lemma replacement_utf8 : utf8 replacement.
Proof. apply (utf8_cons _ 2); [by vm_compute|vm_compute; constructor]. Qed.

(** The bounds of the surrogates, too large for unary numbers. *)
Lemma leb_of_nat a b : (a <=? b)%nat = (Z.of_nat a <=? Z.of_nat b)%Z.
Proof. apply eq_true_iff_eq. rewrite Nat.leb_le, Z.leb_le. apply Nat2Z.inj_le. Qed.
Lemma surrogate_bounds : Z.of_nat 55296 = 55296%Z /\ Z.of_nat 57344 = 57344%Z /\ Z.of_nat 56320 = 56320%Z /\ Z.of_nat 65536 = 65536%Z.
Proof. by vm_compute. Qed.

Lemma surrogate_pair u v b1 b2 b3 b4 : Z.of_nat b1 = 55296%Z -> Z.of_nat b2 = 57344%Z -> Z.of_nat b3 = 56320%Z -> Z.of_nat b4 = 65536%Z ->
  (b1 <=? u)%nat && (u <? b2)%nat = true -> (u <? b3)%nat && (b3 <=? v)%nat && (v <? b2)%nat = true ->
  rune (b4 + (u - b1) * 1024 + (v - b3)).
Proof.
  unfold Nat.ltb. rewrite !leb_of_nat. intros E1 E2 E3 E4 H1 H2. b2p. unfold rune. nia.
Qed.

Lemma no_surrogate u b1 b2 : Z.of_nat b1 = 55296%Z -> Z.of_nat b2 = 57344%Z -> (Z.of_nat u < 65536)%Z ->
  (b1 <=? u)%nat && (u <? b2)%nat = false -> rune u.
Proof. unfold Nat.ltb. rewrite !leb_of_nat. intros E1 E2 Hu H. apply andb_false_iff in H. unfold rune. destruct H; b2p; lia. Qed.

Lemma escaped_rune_utf8 u s s' : hex_digits 4 0 s' = Ok (u, s) -> utf8 (fst (escaped_rune u s)).
Proof.
  intros Hu%hex_digits_rune. unfold escaped_rune. destruct surrogate_bounds as (E1 & E2 & E3 & E4). pose proof replacement_utf8 as Hr.
  destruct (_ && _) eqn:Hs; [|cbn [fst]; apply utf8_enc_valid; by apply (no_surrogate u _ _ E1 E2)].
  destruct s as [|b [|c r]]; [exact Hr..|]. destruct (Ascii.eqb b backslash && Ascii.eqb c "u"); [|exact Hr]. destruct (hex_digits 4 0 r) as [[v r']|] eqn:Hv; [|exact Hr].
  match goal with |- context [(u <? ?x)%nat && (?y <=? v)%nat && (v <? ?z)%nat] => destruct ((u <? x)%nat && (y <=? v)%nat && (v <? z)%nat) eqn:Hp end; [|exact Hr]. cbn [fst]. apply utf8_enc_valid. by apply (surrogate_pair u v _ _ _ _ E1 E2 E3 E4).
Qed.

Lemma escape_ascii e c : simple_escape e = Some c -> utf8 (s1 c).
Proof. intros H. apply utf8_byte, Nat.ltb_lt. revert H. by destruct e as [[] [] [] [] [] [] [] []]; intros [= <-]. Qed.

Lemma str_body_utf8 n : forall s t rest, str_body n s = Ok (t, rest) -> utf8 t.
Proof.
  induction n as [|n IH]; intros s t rest; [done|]. cbn [str_body]. destruct s as [|a r]; [done|].
  destruct (Ascii.eqb a quote); [intros [= <- _]; constructor|]. destruct (Ascii.eqb a backslash).
  { destruct r as [|e r']; [done|]. destruct (simple_escape e) as [c|] eqn:He.
    - destruct (str_body n r') as [[u q]|] eqn:Hu; [|done]. intros [= <- _]. apply (utf8_append (s1 c)); [by eapply escape_ascii|by eapply IH].
    - destruct (Ascii.eqb e "u"); [|done]. destruct (hex_digits 4 0 r') as [[u r'']|] eqn:Hh; [|done]. cbn [res_bind].
      pose proof (escaped_rune_utf8 _ _ _ Hh) as Hc. destruct (escaped_rune u r'') as [c r3].
      destruct (str_body n r3) as [[v q]|] eqn:Hv; [|done]. intros [= <- _]. apply utf8_append; [done|by eapply IH]. }
  destruct (code a <? 32)%nat; [done|]. destruct (utf8_len (String a r)) as [|k] eqn:Hk.
  - pose proof replacement_utf8 as Hr. revert Hr. generalize replacement. intros rp Hr.
    destruct (str_body n r) as [[u q]|] eqn:Hu; [|done]. intros [= <- _]. apply utf8_append; [done|by eapply IH].
  - destruct (str_body n (drop_str (S k) (String a r))) as [[u q]|] eqn:Hu; [|done]. intros [= <- _].
    apply (utf8_append (take_str (S k) (String a r))); [by apply utf8_chunk|by eapply IH].
Qed.

(** ** Numbers *)

Definition no_digit (t : string) : bool := match t with String a _ => negb (is_digit a) | "" => true end.

Lemma digits_none t : no_digit t = true -> digits t = ("", t).
Proof. destruct t as [|a t]; [done|]. cbn [no_digit digits]. by destruct (is_digit a). Qed.

Lemma digits_self s d r : digits s = (d, r) -> s = d ++ r /\ no_digit r = true /\ forall t, no_digit t = true -> digits (d ++ t) = (d, t).
Proof.
  revert d. induction s as [|a s IH]; intros d; cbn [digits].
  - intros [= <- <-]. split; [done|]. split; [done|]. intros t Ht. by apply digits_none.
  - destruct (is_digit a) eqn:Ha.
    + destruct (digits s) as [d' r'] eqn:Hd. intros [= <- <-]. destruct (IH d' eq_refl) as (-> & H2 & H3). split; [done|]. split; [done|].
      intros t Ht. rewrite append_cons. cbn [digits]. by rewrite Ha, H3.
    + intros [= <- <-]. split; [done|]. cbn [no_digit]. rewrite Ha. split; [done|]. intros t Ht. by apply digits_none.
Qed.

Lemma digits1_self c s d r : digits1 c s = Ok (d, r) -> s = d ++ r /\ no_digit r = true /\ d <> "" /\
  forall t, no_digit t = true -> digits1 c (d ++ t) = Ok (d, t).
Proof.
  unfold digits1. destruct s as [|a s]; [done|]. destruct (is_digit a) eqn:Ha; [|done]. intros [= H].
  destruct (digits_self (String a s) d r H) as (E & H2 & H3).
  destruct d as [|b d]; [exfalso; rewrite append_nil_l in E; rewrite <- E in H2; cbn [no_digit] in H2; by rewrite Ha in H2|].
  split; [done|]. split; [done|]. split; [done|]. intros t Ht. injection E as -> _. specialize (H3 t Ht).
  rewrite append_cons in *. by rewrite Ha, H3.
Qed.

Lemma parse_int_self s i r : parse_int s = Ok (i, r) -> s = i ++ r /\ forall t, no_digit t = true -> parse_int (i ++ t) = Ok (i, t).
Proof.
  destruct s as [|a s]; [done|]. cbn [parse_int]. destruct (Ascii.eqb a "0") eqn:Ha.
  - intros [= <- <-]. split; [done|]. intros t _. change (parse_int (String a t) = Ok (s1 a, t)). cbn [parse_int]. by rewrite Ha.
  - intros (E & _ & Hn & H)%digits1_self. split; [done|]. intros t Ht. specialize (H t Ht).
    destruct i as [|b i]; [done|]. rewrite append_cons in *. injection E as -> _. cbn [parse_int]. by rewrite Ha.
Qed.

(** What may come after a fraction. *)
Definition after_frac (t : string) : bool := match t with String a _ => negb (is_digit a || Ascii.eqb a ".") | "" => true end.

Lemma parse_frac_self s f r : parse_frac s = Ok (f, r) -> s = f ++ r /\ (forall t, after_frac t = true -> parse_frac (f ++ t) = Ok (f, t)) /\
  forall t, after_frac t = true -> no_digit (f ++ t) = true.
Proof.
  assert (forall t, after_frac t = true -> parse_frac t = Ok ("", t) /\ no_digit t = true) as H0.
  { intros [|b t] Ht; [done|]. unfold after_frac in Ht. apply negb_true_iff, orb_false_iff in Ht as [Hd Hp]. cbn [parse_frac no_digit].
    by rewrite Hp, Hd. }
  destruct s as [|a s]; cbn [parse_frac]; [intros [= <- <-]; split; [done|]; split; intros t Ht; by apply H0|].
  destruct (Ascii.eqb a ".") eqn:Ha.
  - destruct (digits1 _ s) as [[d q]|] eqn:Hd; [|done]. intros [= <- <-]. apply digits1_self in Hd as (-> & _ & _ & H).
    split; [done|]. split; intros t Ht; rewrite append_cons.
    + cbn [parse_frac]. rewrite Ha, H by by apply H0. done.
    + apply Ascii.eqb_eq in Ha as ->. done.
  - intros [= <- <-]. split; [done|]. split; intros t Ht; by apply H0.
Qed.

Lemma parse_exp_self s e r : parse_exp s = Ok (e, r) -> s = e ++ r /\ parse_exp e = Ok (e, "") /\ after_frac e = true.
Proof.
  destruct s as [|a s]; cbn [parse_exp]; [by intros [= <- <-]|]. destruct (Ascii.eqb a "e" || Ascii.eqb a "E") eqn:Ha; [|by intros [= <- <-]].
  assert (forall q, after_frac (String a q) = true) as Hx.
  { intros q. unfold after_frac. apply orb_true_iff in Ha as [->%Ascii.eqb_eq| ->%Ascii.eqb_eq]; done. }
  assert (forall c d q t, digits1 c t = Ok (d, q) -> t = d ++ q /\ d <> "" /\ digits1 c d = Ok (d, "")) as Hd.
  { intros c d q t (H1 & _ & H2 & H3)%digits1_self. specialize (H3 "" eq_refl). by rewrite append_nil_r in H3. }
  destruct s as [|g s]; [done|]. destruct (Ascii.eqb g "+" || Ascii.eqb g "-") eqn:Hg.
  - destruct (digits1 _ s) as [[d q]|] eqn:E; [|done]. intros [= <- <-]. apply Hd in E as (-> & _ & E).
    split; [done|]. split; [|apply Hx]. change (parse_exp (String a (String g d)) = Ok (String a (String g d), "")). cbn [parse_exp]. rewrite Ha, Hg, E. done.
  - destruct (digits1 _ (String g s)) as [[d q]|] eqn:E; [|done]. intros [= <- <-]. apply Hd in E as (E1 & Hn & E2).
    rewrite append_nil_l. split; [by rewrite E1|]. split; [|apply Hx]. destruct d as [|b d]; [done|]. injection E1 as <- _. cbn [parse_exp].
    rewrite Ha, Hg, E2. done.
Qed.

Lemma parse_int_nonempty s i r : parse_int s = Ok (i, r) -> exists a t, i = String a t /\ Ascii.eqb a "-" = false.
Proof.
  destruct s as [|a s]; [done|]. cbn [parse_int]. destruct (Ascii.eqb_spec a "0") as [->|]; [intros [= <- _]; by exists "0"%char, ""|].
  intros H. pose proof H as (E & _ & Hn & _)%digits1_self. destruct i as [|b i]; [done|]. injection E as -> _. exists b, i. split; [done|].
  revert H. unfold digits1. destruct (is_digit b) eqn:Hb; [|done]. intros _. by destruct (Ascii.eqb_spec b "-") as [->|].
Qed.

Lemma parse_number_self s d r : parse_number s = Ok (d, r) -> parse_number d = Ok (d, "").
Proof.
  intros H. assert (exists sign s0, (sign = "" \/ sign = "-") /\ (let! (i, r) := parse_int s0 in let! (f, r) := parse_frac r in
      let! (e, r) := parse_exp r in Ok (sign ++ i ++ f ++ e, r)) = Ok (d, r)) as (sign & s0 & Hsign & H0).
  { unfold parse_number in H. destruct s as [|a s]; [done|]. destruct (Ascii.eqb_spec a "-") as [->|].
    - exists "-", s. split; [by right|exact H].
    - exists "", (String a s). split; [by left|exact H]. }
  destruct (parse_int s0) as [[i r1]|] eqn:E1; [|done]. cbn [res_bind] in H0.
  destruct (parse_frac r1) as [[f r2]|] eqn:E2; [|done]. cbn [res_bind] in H0. destruct (parse_exp r2) as [[e r3]|] eqn:E3; [|done].
  injection H0 as <- _. apply parse_exp_self in E3 as (_ & X1 & X2). apply parse_frac_self in E2 as (_ & F1 & F2).
  pose proof (parse_int_nonempty _ _ _ E1) as (a & t & -> & Ha). apply parse_int_self in E1 as (_ & I1). specialize (I1 (f ++ e) (F2 _ X2)).
  unfold parse_number. destruct Hsign as [->| ->].
  - rewrite append_nil_l, append_cons, Ha. rewrite append_cons in I1. rewrite I1. cbn [res_bind]. rewrite F1 by done. cbn [res_bind]. by rewrite X1.
  - change ("-" ++ String a t ++ f ++ e) with (String "-" (String a t ++ f ++ e)). cbn [Ascii.eqb Bool.eqb]. change (Ascii.eqb "-" "-") with true.
    cbv iota. rewrite I1. cbn [res_bind]. rewrite F1 by done. cbn [res_bind]. by rewrite X1.
Qed.

(** ** Values *)

(** Nested within [room], which the parser counts down. *)
Lemma parse_readable n :
  (forall room s j r, parse_value n room s = Ok (j, r) -> readable room j) /\
  (forall room s l r, parse_elems n room s = Ok (l, r) -> foldr (fun x P => readable room x /\ P) True l) /\
  (forall room s m r, parse_members n room s = Ok (m, r) -> foldr (fun kv P => (utf8 (fst kv) /\ readable room (snd kv)) /\ P) True m).
Proof.
  induction n as [|n (IHv & IHe & IHm)]; [done|]. split; [|split]; intros room s.
  - intros j r. cbn [parse_value]. destruct (skip_space s) as [|a t]; [done|].
    destruct (Ascii.eqb a "{").
    { destruct room as [|room]; [done|]. destruct (skip_space t) as [|b t']; [done|]. destruct (Ascii.eqb b "}"); [by intros [= <- _]|].
      destruct (parse_members _ _ _) as [[m q]|] eqn:E; [|done]. intros [= <- _]. by eapply IHm. }
    destruct (Ascii.eqb a "[").
    { destruct room as [|room]; [done|]. destruct (skip_space t) as [|b t']; [done|]. destruct (Ascii.eqb b "]"); [by intros [= <- _]|].
      destruct (parse_elems _ _ _) as [[m q]|] eqn:E; [|done]. intros [= <- _]. by eapply IHe. }
    destruct (Ascii.eqb a quote).
    { unfold parse_string. destruct (str_body _ _) as [[u q]|] eqn:E; [|done]. intros [= <- _]. by eapply str_body_utf8. }
    destruct (Ascii.eqb a "-" || is_digit a).
    { destruct (parse_number _) as [[u q]|] eqn:E; [|done]. intros [= <- _]. by eapply parse_number_self. }
    repeat (destruct (Ascii.eqb a _); [destruct (parse_literal _ _ _); [by intros [= <- _]|done]|]). done.
  - intros l r. cbn [parse_elems]. destruct (parse_value n room s) as [[j q]|] eqn:E; [|done]. cbn [res_bind]. apply IHv in E.
    destruct (skip_space q) as [|a t]; [done|]. destruct (Ascii.eqb a ",").
    + destruct (parse_elems _ _ _) as [[l' q']|] eqn:E'; [|done]. intros [= <- _]. split; [done|]. by eapply IHe.
    + destruct (Ascii.eqb a "]"); [|done]. by intros [= <- _].
  - intros m r. cbn [parse_members]. destruct (skip_space s) as [|a t]; [done|]. destruct (Ascii.eqb a quote); [|done].
    unfold parse_string. destruct (str_body _ _) as [[k q]|] eqn:Ek; [|done]. cbn [res_bind]. apply str_body_utf8 in Ek.
    destruct (skip_space q) as [|c u]; [done|]. destruct (Ascii.eqb c ":"); [|done].
    destruct (parse_value n room u) as [[j q']|] eqn:E; [|done]. cbn [res_bind]. apply IHv in E.
    destruct (skip_space q') as [|b v]; [done|]. destruct (Ascii.eqb b ",").
    + destruct (parse_members _ _ _) as [[m' q'']|] eqn:E'; [|done]. intros [= <- _]. split; [done|]. by eapply IHm.
    + destruct (Ascii.eqb b "}"); [|done]. by intros [= <- _].
Qed.

Lemma Unmarshal_readable s j : Unmarshal s = Ok j -> readable max_depth j.
Proof.
  unfold Unmarshal. destruct (parse_value _ _ s) as [[k r]|] eqn:E; [|done]. cbn [res_bind].
  destruct (skip_space r); [|done]. intros [= <-]. by eapply parse_readable.
Qed.

(** ** No control bytes *)

Definition printable (s : string) : Prop := all_bytes (fun a => negb (code a <? 32)%nat) s = true.

Lemma printable_append s t : printable (s ++ t) <-> printable s /\ printable t.
Proof. unfold printable. by rewrite all_bytes_append, andb_true_iff. Qed.

Lemma enc_body_printable n : forall s, printable (enc_body n s).
Proof.
  induction n as [|n IH]; intros s; [done|]. destruct s as [|a r]; [done|]. cbn [enc_body].
  destruct (escape_of a) as [e|] eqn:He.
  { apply printable_append. split; [|done]. revert He. clear. destruct a as [[] [] [] [] [] [] [] []]; intros [= <-]; done. }
  destruct (utf8_len (String a r)) as [|k] eqn:Hk; [by apply printable_append|]. apply printable_append. split; [|done].
  destruct (line_separator _) as [e|] eqn:Hl.
  - unfold line_separator in Hl. destruct (HasPrefix _ _); [by injection Hl as <-|]. destruct (HasPrefix _ _); [by injection Hl as <-|done].
  - pose proof (chunk_plain a r k He Hk) as H. revert H. apply all_bytes_impl. intros c. unfold plain. rewrite !negb_orb. by intros [_ ?]%andb_prop.
Qed.

Lemma printable_Join l : Forall printable l -> printable (Join l ",").
Proof.
  induction 1 as [|x l Hx Hl IH]; [done|]. destruct l as [|y l]; [done|]. rewrite Join_cons2.
  apply printable_append. split; [done|exact IH].
Qed.

Lemma Marshal_printable j : forall room, readable room j -> printable (Marshal j).
Proof.
  assert (forall s, printable (enc_string s)) as Hs.
  { intros s. unfold enc_string. change (printable (s1 quote ++ enc_body (String.length s) s ++ s1 quote)). rewrite !printable_append.
    split; [done|]. split; [apply enc_body_printable|done]. }
  induction j as [|b|lit|s|l Hl|m Hm] using json_ind'; intros room Hr; [done|by destruct b| |apply Hs|..].
  - apply parse_number_num in Hr. revert Hr. apply all_bytes_impl. intros [[] [] [] [] [] [] [] []]; by intros [=].
  - destruct room as [|room]; [done|]. change (printable ("[" ++ Join (map Marshal l) "," ++ "]")). rewrite !printable_append.
    split; [done|]. split; [|done]. apply printable_Join. cbn [readable] in Hr. revert Hr.
    induction Hl as [|x l Hx Hl IH]; intros Hr; constructor; destruct Hr as [Hr Hrs]; [eauto|by apply IH].
  - destruct room as [|room]; [done|]. change (printable ("{" ++ Join (map (fun kv => enc_string (fst kv) ++ ":" ++ Marshal (snd kv)) m) "," ++ "}")).
    rewrite !printable_append. split; [done|]. split; [|done]. apply printable_Join. cbn [readable] in Hr. revert Hr.
    induction Hm as [|x m Hx Hm IH]; intros Hr; constructor; destruct Hr as [[Hk Hr] Hrs]; [|by apply IH].
    rewrite !printable_append. split; [done|]. split; [done|by eapply Hx].
Qed.

(** ** Through an interface{} and back *)

(** What encoding/json writes for the float64 of a number literal; nothing, if it is
    out of range and decoding fails. *)
Class Floats := {
  json_float : string -> option string;
  json_float_number : forall l l', json_float l = Some l' -> parse_number l' = Ok (l', "");
}.

Section Values.
Context `{Fl : Floats}.

(** A decoded map, its members in the order they are written in. *)
Definition sorted_object (m : gmap string json) : json := JObj (sorted_members m).

(** The value of a text as decoding into an [interface{}] and encoding again leaves
    it: numbers are float64, of equal keys the last counts. *)
Fixpoint go_value (j : json) : option json :=
  match j with
  | JNum l => option_map JNum (json_float l)
  | JArr l => option_map JArr (foldr (fun x r => match go_value x, r with Some y, Some ys => Some (y :: ys) | _, _ => None end) (Some []) l)
  | JObj m =>
      option_map (fun l => sorted_object (go_map l))
        (foldr (fun kv r => match go_value (snd kv), r with Some y, Some ys => Some ((fst kv, y) :: ys) | _, _ => None end) (Some []) m)
  | _ => Some j
  end.

(** The members of an object as a map. *)
Definition go_members (m : list (string * json)) : option (gmap string json) :=
  option_map go_map
    (foldr (fun kv r => match go_value (snd kv), r with Some y, Some ys => Some ((fst kv, y) :: ys) | _, _ => None end) (Some []) m).

(** ** What comes back *)

Lemma go_map_lookup {A} (l : list (string * A)) : forall (m : gmap string A) k v, fold_left (fun m kv => <[fst kv := snd kv]> m) l m !! k = Some v ->
  In (k, v) l \/ m !! k = Some v.
Proof.
  induction l as [|[k0 v0] l IH]; intros m k v; [by right|]. cbn [fold_left fst snd]. intros [H|H]%IH; [by left; right|].
  apply lookup_insert_Some in H as [[<- <-]|[_ H]]; [by left; left|by right].
Qed.

Lemma readable_sorted room (m : gmap string json) : map_Forall (fun k v => utf8 k /\ readable room v) m -> readable (S room) (sorted_object m).
Proof.
  intros Hm. cbn [readable sorted_object]. assert (Forall (fun kv => utf8 (fst kv) /\ readable room (snd kv)) (sorted_members m)) as H.
  { rewrite sorted_members_perm. apply Forall_forall. intros [k v] Hi%elem_of_map_to_list. by apply Hm. }
  by induction H.
Qed.

(** The members of a readable object, their values decoded. *)
Lemma decoded_members room l : Forall (fun kv => forall j, readable room (snd kv) -> go_value (snd kv) = Some j -> readable room j) l ->
  foldr (fun kv P => (utf8 (fst kv) /\ readable room (snd kv)) /\ P) True l ->
  forall ys, foldr (fun kv r => match go_value (snd kv), r with Some y, Some ys => Some ((fst kv, y) :: ys) | _, _ => None end) (Some []) l = Some ys ->
  map_Forall (fun k v => utf8 k /\ readable room v) (go_map ys).
Proof.
  intros Hl Hr ys Hy. assert (Forall (fun kv => utf8 (fst kv) /\ readable room (snd kv)) ys) as H.
  { revert Hr ys Hy. induction Hl as [|[k v] l Hv Hl IH]; intros Hr ys; cbn [foldr fst snd] in *; [by intros [= <-]|].
    destruct (go_value v) as [y|] eqn:Ey; [|done]. destruct (foldr _ _ l) as [zs|] eqn:Ez; [|done]. intros [= <-].
    destruct Hr as [[H1 H2] H3]. constructor; [by split; [|apply Hv]|by apply IH]. }
  intros k v [Hi|Hi]%go_map_lookup; [|by rewrite lookup_empty in Hi]. rewrite Forall_forall in H. by apply (H (k, v)), list_elem_of_In.
Qed.

Lemma go_value_readable j : forall room k, readable room j -> go_value j = Some k -> readable room k.
Proof.
  induction j as [|b|lit|s|l Hl|m Hm] using json_ind'; intros room k Hr; cbn [go_value]; try by intros [= <-].
  - destruct (json_float lit) as [l'|] eqn:E; [|done]. intros [= <-]. by eapply json_float_number.
  - destruct (foldr _ _ l) as [ys|] eqn:Ey; [|done]. intros [= <-]. destruct room as [|room]; [done|]. cbn [readable] in *. revert Hr ys Ey.
    induction Hl as [|x l Hx Hl IH]; intros Hr ys; cbn [foldr]; [by intros [= <-]|]. destruct (go_value x) as [y|] eqn:Ex; [|done].
    destruct (foldr _ _ l) as [zs|] eqn:Ez; [|done]. intros [= <-]. destruct Hr as [H1 H2]. split; [by eapply Hx|by apply IH].
  - destruct (foldr _ _ m) as [ys|] eqn:Ey; [|done]. intros [= <-]. destruct room as [|room]; [done|]. apply readable_sorted.
    eapply decoded_members; [|exact Hr|exact Ey]. eapply Forall_impl; [exact Hm|]. intros x Hx j. apply Hx.
Qed.

Lemma go_members_readable room m mm : readable (S room) (JObj m) -> go_members m = Some mm ->
  map_Forall (fun k v => utf8 k /\ readable room v) mm.
Proof.
  unfold go_members. intros Hr. destruct (foldr _ _ m) as [ys|] eqn:Ey; [|done]. intros [= <-].
  eapply decoded_members; [|exact Hr|exact Ey]. apply Forall_forall. intros x _ j. apply go_value_readable.
Qed.
End Values.

Lemma go_map_list_to_map {A} (l : list (string * A)) : NoDup l.*1 -> go_map l = list_to_map l.
Proof.
  unfold go_map. assert (forall m : gmap string A, NoDup l.*1 -> (forall k, k ∈ l.*1 -> m !! k = None) ->
    fold_left (fun m kv => <[fst kv := snd kv]> m) l m = list_to_map l ∪ m) as H.
  { induction l as [|[k v] l IH]; intros m Hn Hm; [cbn; by rewrite (left_id_L ∅ (∪))|].
    cbn [fmap list_fmap fst] in *. apply NoDup_cons in Hn as [Hk Hn]. cbn [fold_left fst snd list_to_map foldr].
    rewrite IH; [|done|].
    - apply map_eq. intros i. cbn. destruct (decide (i = k)) as [->|].
      + rewrite lookup_union. rewrite (proj1 (not_elem_of_list_to_map l k) Hk), lookup_insert_eq.
        by rewrite lookup_union, lookup_insert_eq, (Hm k ltac:(by left)).
      + by rewrite !lookup_union, !lookup_insert_ne.
    - intros i Hi. rewrite lookup_insert_ne; [by apply Hm; right|]. by intros ->. }
  intros Hn. rewrite H; [|done|done]. apply (right_id_L ∅ (∪)).
Qed.

Lemma go_map_sorted {A} (m : gmap string A) : go_map (sorted_members m) = m.
Proof.
  pose proof (sorted_members_perm m) as Hp.
  assert (NoDup (sorted_members m).*1) as Hn by (rewrite Hp; apply NoDup_fst_map_to_list).
  rewrite go_map_list_to_map, (list_to_map_proper _ _ Hn Hp) by done. apply list_to_map_to_list.
Qed.

(** Numbers as they are. *)
Module FloatSample.
#[export] Instance same_numbers : Floats.
Proof.
  refine {| json_float l := match parse_number l with Ok (l', "") => Some l' | _ => None end |}.
  intros l l' H. destruct (parse_number l) as [[k r]|] eqn:E; [|done]. destruct r; [|done]. injection H as ->. by eapply parse_number_self.
Defined.
End FloatSample.
