(* ===== verification/SiteTables.v ===== *)
(** * The tables of a site, as the tools fill and the public server reads them

    What SQLite answers on the tables an owner creates is the class [SQL]: the
    statements are texts with arguments.  The tables that configure the site
    (db/site_migrations/001_initial.sql) are lists of rows.  At the end, what makes the
    text of a statement safe to send: no quotes, no semicolons, no comments, and as
    many placeholders as arguments. *)

From Stdlib Require Import ZArith Lia Ascii String List Bool.
From stdpp Require Import base list strings gmap.
From S2P Require Import Prelude GoStrings GoTime JSONText Security.

Local Open Scope string_scope.

(** SQLite on the tables of a site: rows with their column names, the last
    inserted id and the number of rows affected, name and type of the columns. *)
Class SQL := {
  tables : Type;
  sql_query : string -> list json -> tables -> res string (list (list (string * json)));
  sql_exec : string -> list json -> tables -> res string (Z * Z) * tables;
  table_info : string -> tables -> res string (list (string * string));
}.

(** The order in which [range] walks a map: any. *)
Class MapOrder := {
  entries : forall {A}, gmap string A -> list (string * A);
  entries_perm : forall {A} (m : gmap string A), entries m ≡ₚ map_to_list m;
}.

(** The rows of dynamic_tables, api_endpoints and auth_endpoints. *)
Record DynRow := { dt_id : Z; dt_name : string; dt_schema : string; dt_secure : option string; dt_created : time }.
Record ApiRow := {
  ar_id : Z; ar_path : string; ar_table : string; ar_methods : string; ar_columns : option string;
  ar_auth : bool; ar_read : bool; ar_role : option string; ar_rate : Z; ar_created : time;
}.
Record AuthRow := {
  au_id : Z; au_path : string; au_table : string; au_username : string; au_password : string;
  au_columns : string; au_default : string; au_role : string; au_created : time;
}.

(** [json.Unmarshal] into a [[]string] and a [map[string]string], errors ignored:
    an element of another kind is left empty. *)
Definition text_of (j : json) : string := match j with JStr s => s | _ => "" end.
Definition strings_of (s : string) : list string :=
  match Unmarshal s with Ok (JArr l) => map text_of l | _ => [] end.
Definition string_map_of (s : string) : gmap string string :=
  match Unmarshal s with Ok (JObj m) => go_map (map (fun kv => (fst kv, text_of (snd kv))) m) | _ => ∅ end.

Definition row := gmap string json.

(** [scanRowsToMaps]. *)
Definition scanRowsToMaps (rows : list (list (string * json))) : list row := map go_map rows.

(** [database/sql] scanning into a float64: NULL and other texts fail. *)
Definition scan_float (j : json) : option json :=
  match j with
  | JNum l => Some (JNum l)
  | JStr s => match Unmarshal s with Ok (JNum l) => Some (JNum l) | _ => None end
  | _ => None
  end.

(** Scanning into an int. *)
Definition scan_int (j : json) : option Z :=
  match j with
  | JNum l | JStr l => match Atoi l with (n, None) => Some n | _ => None end
  | _ => None
  end.

(** Scanning into a string. *)
Definition scan_text (j : json) : option string :=
  match j with JStr s | JNum s => Some s | JBool b => Some (if b then "true" else "false") | _ => None end.

(** ** Safe texts *)

Definition sql_byte (a : ascii) : bool := is_word a || in_set a " ,()=?*<>!.".

(** The number of placeholders. *)
Fixpoint marks (s : string) : nat :=
  match s with
  | "" => 0
  | String a r => (if Ascii.eqb a "?" then 1 else 0) + marks r
  end%nat.

(** A text without quotes, semicolons or comments, with [n] placeholders. *)
Definition sql_ok (s : string) (n : nat) : Prop := all_bytes sql_byte s = true /\ marks s = n.

Lemma marks_append s t : marks (s ++ t) = (marks s + marks t)%nat.
Proof. induction s as [|a s IH]; [done|]. rewrite append_cons. cbn [marks]. lia. Qed.

Lemma sql_ok_append s t n m : sql_ok s n -> sql_ok t m -> sql_ok (s ++ t) (n + m).
Proof. intros [H1 H2] [H3 H4]. split; [by rewrite all_bytes_append, H1, H3|]. rewrite marks_append. lia. Qed.

Lemma words_no_marks s : all_bytes is_word s = true -> marks s = 0%nat.
Proof.
  induction s as [|a s IH]; cbn; [done|]. intros [H Hs]%andb_true_iff. rewrite IH by done.
  destruct (Ascii.eqb_spec a "?") as [->|]; [done|lia].
Qed.

Lemma sql_ok_identifier s : validIdentifier s = true -> sql_ok s 0.
Proof.
  intros H%validIdentifier_words. split; [|by apply words_no_marks].
  revert H. apply all_bytes_impl. intros a Ha. unfold sql_byte. by rewrite Ha.
Qed.

Lemma sql_ok_join sep n l : sql_ok sep 0 -> Forall (fun s => sql_ok s n) l -> sql_ok (Join l sep) (n * List.length l).
Proof.
  intros Hsep. induction 1 as [|s l Hs Hl IH]; [by split; cbn; lia|].
  destruct l as [|t l]; [cbn; by rewrite Nat.mul_1_r|].
  change (Join (s :: t :: l) sep) with (s ++ (sep ++ Join (t :: l) sep)).
  replace (n * List.length (s :: t :: l))%nat with (n + (0 + n * List.length (t :: l)))%nat by (cbn; lia).
  by repeat apply sql_ok_append.
Qed.

(** Splits a text of literals, identifiers and joins. *)
Ltac sql_text :=
  repeat first
    [ eassumption
    | apply sql_ok_identifier; eassumption
    | (split; [vm_compute; reflexivity|reflexivity])
    | eapply sql_ok_append ].
