(* ===== verification/PublicAPI.v ===== *)
(** * server/public: the tables API of a site

    The routes under /api/: the CRUD handlers over the tables an owner exposes,
    their statistics route, and the login routes.  A handler is a computation
    over the site's tables that either returns or has written a response.  What
    SQLite answers is the class [SQL]; the texts of all statements sent to it
    are kept, so that theorems can speak of them.  The router tells
    uploads, streams, websockets and the OAuth routes apart: Uploads, Streams and
    OAuth model them. *)

From Stdlib Require Import ZArith Lia Ascii String List Bool.
From stdpp Require Import base list strings gmap.
From S2P Require Import Prelude GoStrings GoTime JSONText PlanStore Security SiteTables.

Local Open Scope string_scope.

(** ** What the handlers work with *)

Record DataEvent := { de_type : string; de_site : Z; de_table : string; de_id : json }.

Record apiEndpoint := {
  TableName : string;
  Methods : list string;
  PublicColumns : list string;
  RequiresAuth : bool;
  PublicRead : bool;
  RequiredRole : string;
  SecureCols : gmap string string;
}.

Record authEndpointConfig := {
  ae_TableName : string;
  UsernameColumn : string;
  PasswordColumn : string;
  ae_PublicColumns : list string;
  DefaultRole : string;
  RoleColumn : string;
}.

(** One site, as the public server sees it: its configuration (sites.config) and
    the tables that configure its API. *)
Record SiteAPI := {
  site_ID : Z;
  site_Config : string;
  api_endpoints : list ApiRow;
  auth_endpoints : list AuthRow;
  dynamic_tables : list DynRow;
  jwt : option JWTManager;               (* deps.JWTManager, possibly nil *)
  encryptor : bool;                      (* deps.Encryptor is not nil *)
}.

Definition loadEndpoint (api : SiteAPI) (path : string) : option apiEndpoint :=
  match List.find (fun r => (ar_path r =? path)%string) (api_endpoints api) with
  | None => None
  | Some r => Some {|
      TableName := ar_table r;
      Methods := strings_of (ar_methods r);
      PublicColumns := match ar_columns r with Some c => if (c =? "")%string then [] else strings_of c | None => [] end;
      RequiresAuth := ar_auth r;
      PublicRead := ar_read r;
      RequiredRole := default "" (ar_role r);
      SecureCols := match List.find (fun d => (dt_name d =? ar_table r)%string) (dynamic_tables api) with
                    | Some d => match dt_secure d with Some raw => string_map_of raw | None => ∅ end
                    | None => ∅
                    end |}
  end.

Definition methodAllowed (methods : list string) (m : string) : bool := existsb (fun x => EqualFold x m) methods.

(** [validateSiteToken]: the [api_key] of the site's configuration. *)
Definition validateSiteToken (api : SiteAPI) (token : string) : bool :=
  if (token =? "")%string then false
  else match Unmarshal (site_Config api) with
       | Ok (JObj cfg) =>
           match go_map cfg !! "api_key" with
           | Some (JStr apiKey) => negb (apiKey =? "")%string && (apiKey =? token)%string
           | _ => false
           end
       | _ => false
       end.

Definition is_hash (ep : apiEndpoint) (col : string) : bool :=
  match SecureCols ep !! col with Some kind => (kind =? "hash")%string | None => false end.

Definition reservedParams : list string :=
  ["limit"; "offset"; "sort"; "order"; "order_by"; "direction"; "page"; "search"; "stats"; "q"].
Definition is_reserved (l : list string) (k : string) : bool := existsb (String.eqb k) l.

(** The column, the operator and whether it is a LIKE. *)
Definition parseFilterParam (key : string) : option (string * string * bool) :=
  match Index key "__" with
  | None => Some (key, "=", false)
  | Some n =>
      let column := take_str n key in
      let suffix := drop_str (n + 2) key in
      if (suffix =? "like")%string then Some (column, "LIKE", true)
      else if (suffix =? "gt")%string then Some (column, ">", false)
      else if (suffix =? "gte")%string then Some (column, ">=", false)
      else if (suffix =? "lt")%string then Some (column, "<", false)
      else if (suffix =? "lte")%string then Some (column, "<=", false)
      else if (suffix =? "ne")%string then Some (column, "!=", false)
      else None
  end.

Definition visibleColumns (ep : apiEndpoint) : string :=
  match PublicColumns ep with
  | [] => "*"
  | cols =>
      match List.filter (fun c => negb (is_hash ep c)) cols with
      | [] => "id"
      | safe => Join safe ", "
      end
  end.

(** [stripSecureColumns]: whatever the comment says of ENCRYPTED columns, the
    columns deleted are those of kind hash. *)
Definition strip_row (secureCols : gmap string string) (r : row) : row :=
  filter (fun kv => secureCols !! fst kv ≠ Some "hash") r.
Definition stripSecureColumns (secureCols : gmap string string) (results : list row) : list row :=
  map (strip_row secureCols) results.

Section Handlers.
Context `{C : Crypto} `{Q : SQL} `{O : MapOrder}.

(** ** The monad of a handler *)

Record Srv := {
  db_tables : tables;
  statements : list (string * list json);   (* sent to the database, latest first *)
  published : list DataEvent;               (* latest first *)
}.

Definition H (A : Type) : Type := Srv -> (res HttpResponse A * Srv)%type.

#[export] Instance H_ret : MRet H := fun A a w => (Ok a, w).
#[export] Instance H_bind : MBind H := fun A B k m w =>
  match m w with (Ok a, w') => k a w' | (Err r, w') => (Err r, w') end.

Definition write_error {A} (status : Z) (msg : string) : H A := fun w => (Err (error_response status msg), w).
Definition write_json {A} (status : Z) (j : json) : H A :=
  fun w => (Err {| resp_status := status; resp_body := j |}, w).

Definition send (q : string) (args : list json) (w : Srv) : Srv :=
  {| db_tables := db_tables w; statements := (q, args) :: statements w; published := published w |}.

Definition Query (q : string) (args : list json) : H (res string (list row)) := fun w =>
  (Ok (match sql_query q args (db_tables w) with Ok rows => Ok (scanRowsToMaps rows) | Err e => Err e end),
   send q args w).

Definition Exec (q : string) (args : list json) : H (res string (Z * Z)) := fun w =>
  let '(r, t) := sql_exec q args (db_tables w) in
  (Ok r, {| db_tables := t; statements := (q, args) :: statements w; published := published w |}).

Definition pragma_text (t : string) : string := "PRAGMA table_info(" ++ t ++ ")".
Definition pragma (t : string) : H (res string (list (string * string))) := fun w =>
  (Ok (table_info t (db_tables w)), send (pragma_text t) [] w).

Definition probe_text (t : string) : string := "SELECT COUNT(*) FROM pragma_table_info('" ++ t ++ "') WHERE name = ?".
(** The count is positive. *)
Definition probe (t c : string) : H bool := fun w =>
  (Ok (match table_info t (db_tables w) with
       | Ok cols => existsb (fun x => (fst x =? c)%string) cols
       | Err _ => false
       end), send (probe_text t) [JStr c] w).

Definition publish_data (api : SiteAPI) (ty : string) (endpoint : string) (id : json) : H unit := fun w =>
  (Ok tt, {| db_tables := db_tables w; statements := statements w;
             published := {| de_type := ty; de_site := site_ID api; de_table := endpoint; de_id := id |}
                          :: published w |}).

(** [json.NewDecoder(body).Decode] into a [map[string]interface{}]: the first
    value of the body, null being the nil map. *)
Definition decode_body (body : string) : option (gmap string json) :=
  match parse_value (2 * String.length body + 2) max_depth body with
  | Ok (JObj m, _) => Some (go_map m)
  | Ok (JNull, _) => Some ∅
  | _ => None
  end.

Definition read_body (r : HttpRequest) : H (gmap string json) :=
  match decode_body (req_body r) with
  | Some m => mret m
  | None => write_error 400 "invalid JSON body"
  end.
(** ** CRUD on an endpoint's table *)

Definition num (n : Z) : json := JNum (Itoa n).

Definition placeholders_like (l : list string) : string := Join (map (fun _ => "?") l) ", ".

Definition getTextColumns (physTable : string) (ep : apiEndpoint) : H (list string) :=
  info ← pragma physTable;
  mret match info with
       | Err _ => []
       | Ok cols =>
           map fst (List.filter (fun c => EqualFold (snd c) "TEXT" && negb (fst c =? "id")%string
                                          && negb (fst c =? "created_at")%string && negb (is_hash ep (fst c))) cols)
       end.

(** One query parameter as a condition and its argument. *)
Definition filter_clause (ep : apiEndpoint) (kv : string * list string) : option (string * json) :=
  let '(key, vals) := kv in
  match vals with
  | [] => None
  | v :: _ =>
      if is_reserved reservedParams key then None
      else match parseFilterParam key with
           | None => None
           | Some (col, op, isLike) =>
               if negb (is_ok (ValidateColumnName col)) then None
               else if is_hash ep col then None
               else if isLike : bool then Some (col ++ " LIKE ? COLLATE NOCASE", JStr ("%" ++ v ++ "%"))
               else Some (col ++ " " ++ op ++ " ?", JStr v)
           end
  end.

Definition bounded_param (r : HttpRequest) (name : string) (ok : Z -> bool) (dflt : Z) : Z :=
  let s := query_get name r in
  if (s =? "")%string then dflt
  else match Atoi s with (n, None) => if ok n then n else dflt | _ => dflt end.

Definition or_else (a b : string) : string := if (a =? "")%string then b else a.

Definition order_clause (r : HttpRequest) : string :=
  let sortCol := or_else (query_get "sort" r) (query_get "order_by" r) in
  if negb (sortCol =? "")%string && is_ok (ValidateColumnName sortCol) then
    let orderDir := or_else (query_get "order" r) (query_get "direction" r) in
    sortCol ++ " " ++ (if EqualFold orderDir "desc" then "DESC" else "ASC")
  else "id DESC".

(** The condition of [?q=term]. *)
Definition search_clause (physTable : string) (ep : apiEndpoint) (r : HttpRequest) : H (list (string * list json)) :=
  let qTerm := query_get "q" r in
  if (qTerm =? "")%string then mret []
  else
    textCols ← getTextColumns physTable ep;
    mret match textCols with
         | [] => []
         | _ => [("(" ++ Join (map (fun tc => tc ++ " LIKE ? COLLATE NOCASE") textCols) " OR " ++ ")",
                  map (fun _ => JStr ("%" ++ qTerm ++ "%")) textCols)]
         end.

Definition where_sql (clauses : list string) : string :=
  match clauses with [] => "" | _ => " WHERE " ++ Join clauses " AND " end.

Definition apiList (r : HttpRequest) (ep : apiEndpoint) : H unit :=
  let limit := bounded_param r "limit" (fun n => (0 <? n)%Z && (n <=? 200)%Z) 50 in
  let offset := bounded_param r "offset" (fun n => (0 <=? n)%Z) 0 in
  let filters := omap (filter_clause ep) (entries (query r)) in
  search ← search_clause (TableName ep) ep r;
  let whereSQL := where_sql (map fst filters ++ map fst search)%list in
  let whereArgs := (map snd filters ++ concat (map snd search))%list in
  let text := "SELECT " ++ visibleColumns ep ++ " FROM " ++ TableName ep ++ whereSQL
              ++ " ORDER BY " ++ order_clause r ++ " LIMIT ? OFFSET ?" in
  result ← Query text (whereArgs ++ [num limit; num offset])%list;
  match result with
  | Err e => if Contains e "no such column" then write_error 400 ("invalid filter column: " ++ e)
             else write_error 500 "query error"
  | Ok rows =>
      let results := stripSecureColumns (SecureCols ep) rows in
      write_json 200 (JObj [("count", num (Z.of_nat (List.length results)));
                            ("data", JArr (map (fun x => JObj (map_to_list x)) results));
                            ("limit", num limit); ("offset", num offset)])
  end.

Definition rowIDColumn (physTable rowID : string) : H string :=
  match Atoi rowID with
  | (_, None) => mret "id"
  | _ =>
      has_uuid ← probe physTable "uuid";
      if has_uuid : bool then mret "uuid"
      else has_slug ← probe physTable "slug";
           mret (if has_slug : bool then "slug" else "id")
  end.

Definition apiGetOne (rowID : string) (ep : apiEndpoint) : H unit :=
  lookupCol ← rowIDColumn (TableName ep) rowID;
  result ← Query ("SELECT " ++ visibleColumns ep ++ " FROM " ++ TableName ep ++ " WHERE " ++ lookupCol ++ " = ?")
             [JStr rowID];
  match result with
  | Err _ => write_error 500 "query error"
  | Ok [] => write_error 404 "not found"
  | Ok (r0 :: _) => write_json 200 (JObj (map_to_list (strip_row (SecureCols ep) r0)))
  end.

(** The loop over the secure columns of an insert or an update. *)
Fixpoint secure_values (api : SiteAPI) (cols : list (string * string)) (body : row) : H row :=
  match cols with
  | [] => mret body
  | (col, kind) :: rest =>
      match body !! col with
      | None => secure_values api rest body
      | Some v =>
          match ProcessSecureValue (encryptor api) kind v with
          | Err e => write_error 400 ("error processing " ++ col ++ ": " ++ e)
          | Ok p => secure_values api rest (<[col := p]> body)
          end
      end
  end.

(** The loop over the body: names checked, one by one. *)
Fixpoint check_columns (l : list (string * json)) : H (list string * list json) :=
  match l with
  | [] => mret ([], [])
  | (col, v) :: rest =>
      if is_ok (ValidateColumnName col) then
        p ← check_columns rest;
        mret (col :: fst p, v :: snd p)
      else write_error 400 ("invalid field name: " ++ col)
  end.

(** What an insert and an update have in common, up to the statement. *)
Definition body_columns (api : SiteAPI) (r : HttpRequest) (ep : apiEndpoint) : H (list string * list json) :=
  body ← read_body r;
  body ← secure_values api (entries (SecureCols ep)) (delete "id" body);
  if bool_decide (body = ∅) then write_error 400 "no data provided"
  else check_columns (entries body).

Definition insert_text (table : string) (columns : list string) : string :=
  "INSERT INTO " ++ table ++ " (" ++ Join columns ", " ++ ") VALUES (" ++ placeholders_like columns ++ ")".

Definition apiInsert (api : SiteAPI) (r : HttpRequest) (ep : apiEndpoint) (endpointPath : string) : H unit :=
  p ← body_columns api r ep;
  result ← Exec (insert_text (TableName ep) (fst p)) (snd p);
  match result with
  | Err _ => write_error 400 "insert failed"
  | Ok (id, _) =>
      publish_data api "data.insert" endpointPath (num id);;
      write_json 201 (JObj [("id", num id); ("success", JBool true)])
  end.

Definition apiUpdate (api : SiteAPI) (r : HttpRequest) (rowID : string) (ep : apiEndpoint)
    (endpointPath : string) : H unit :=
  p ← body_columns api r ep;
  lookupCol ← rowIDColumn (TableName ep) rowID;
  result ← Exec ("UPDATE " ++ TableName ep ++ " SET " ++ Join (map (fun c => c ++ " = ?") (fst p)) ", "
                   ++ " WHERE " ++ lookupCol ++ " = ?") (snd p ++ [JStr rowID])%list;
  match result with
  | Err _ => write_error 400 "update failed"
  | Ok (_, n) =>
      if (n =? 0)%Z then write_error 404 "not found"
      else publish_data api "data.update" endpointPath (JStr rowID);;
           write_json 200 (JObj [("success", JBool true)])
  end.

Definition apiDelete (api : SiteAPI) (rowID : string) (ep : apiEndpoint) (endpointPath : string) : H unit :=
  lookupCol ← rowIDColumn (TableName ep) rowID;
  result ← Exec ("DELETE FROM " ++ TableName ep ++ " WHERE " ++ lookupCol ++ " = ?") [JStr rowID];
  match result with
  | Err _ => write_error 500 "delete failed"
  | Ok (_, n) =>
      if (n =? 0)%Z then write_error 404 "not found"
      else publish_data api "data.delete" endpointPath (JStr rowID);;
           write_json 200 (JObj [("success", JBool true)])
  end.
(** ** Statistics *)

Definition allowedAggFuncsPublic : list string := ["count"; "sum"; "avg"; "min"; "max"].
Definition statsReserved : list string := ["fn"; "column"; "group_by"].

Definition bearer (r : HttpRequest) : string := TrimPrefix (header "Authorization" r) "Bearer ".

Definition ToUpper_fn (fn : string) : string :=
  if (fn =? "count")%string then "COUNT" else if (fn =? "sum")%string then "SUM"
  else if (fn =? "avg")%string then "AVG" else if (fn =? "min")%string then "MIN" else "MAX".

Definition stats_clause (ep : apiEndpoint) (kv : string * list string) : option (string * json) :=
  let '(key, vals) := kv in
  match vals with
  | [] => None
  | v :: _ =>
      if is_reserved reservedParams key || is_reserved statsReserved key then None
      else if negb (is_ok (ValidateColumnName key)) then None
      else if is_hash ep key then None
      else Some (key ++ " = ?", JStr v)
  end.

Fixpoint group_columns (ep : apiEndpoint) (l : list string) : H (list string) :=
  match l with
  | [] => mret []
  | gc :: rest =>
      let gc := TrimSpace gc in
      if (gc =? "")%string then group_columns ep rest
      else if negb (is_ok (ValidateColumnName gc)) then write_error 400 ("invalid group_by column: " ++ gc)
      else if is_hash ep gc then write_error 400 "cannot group by secure columns"
      else gs ← group_columns ep rest; mret (gc :: gs)
  end.

Definition agg_result (rows : list row) : option json :=
  match rows with
  | [] => None
  | r0 :: _ => match r0 !! "result" with Some v => scan_float v | None => None end
  end.

Definition check_stats_column (ep : apiEndpoint) (fn col : string) : H unit :=
  if negb (fn =? "count")%string && (col =? "")%string then write_error 400 (fn ++ " requires a column parameter")
  else if (col =? "")%string then mret tt
  else if negb (is_ok (ValidateColumnName col)) then write_error 400 "invalid column name"
  else if is_hash ep col then write_error 400 "cannot aggregate on secure columns"
  else mret tt.

Definition agg_expr (fn col : string) : string :=
  if negb (fn =? "count")%string then ToUpper_fn fn ++ "(" ++ col ++ ")"
  else if negb (col =? "")%string then "COUNT(" ++ col ++ ")" else "COUNT(*)".

Definition group_sql (groupCols : list string) : string :=
  match groupCols with
  | [] => ""
  | _ => " GROUP BY " ++ Join groupCols ", " ++ " ORDER BY " ++ Join groupCols ", "
  end.

Definition apiStats (api : SiteAPI) (r : HttpRequest) (endpointPath : string) : H unit :=
  match loadEndpoint api endpointPath with
  | None => write_error 404 "endpoint not found"
  | Some ep =>
      if RequiresAuth ep && negb (PublicRead ep) && negb (validateSiteToken api (bearer r)) then
        write_error 401 "unauthorized"
      else
        let fn := ToLower (TrimSpace (query_get "fn" r)) in
        if negb (existsb (String.eqb fn) allowedAggFuncsPublic) then
          write_error 400 "fn is required: count, sum, avg, min, or max"
        else
          let col := query_get "column" r in
          check_stats_column ep fn col;;
          groupCols ← (if (query_get "group_by" r =? "")%string then mret []
                       else group_columns ep (Split "," (query_get "group_by" r)));
          let filters := omap (stats_clause ep) (entries (query r)) in
          let text := "SELECT " ++ Join (groupCols ++ [(agg_expr fn col ++ " AS result")%string])%list ", "
                      ++ " FROM " ++ TableName ep ++ where_sql (map fst filters) ++ group_sql groupCols in
          result ← Query text (map snd filters);
          match result, groupCols with
          | Err _, _ => write_error 500 "aggregation query failed"
          | Ok rows, [] =>
              match agg_result rows with
              | Some v => write_json 200 (JObj [("function", JStr fn); ("result", v)])
              | None => write_error 500 "aggregation query failed"
              end
          | Ok rows, _ =>
              write_json 200 (JObj [("data", JArr (map (fun x => JObj (map_to_list x)) rows)); ("function", JStr fn)])
          end
  end.

(** ** The login routes *)

Definition nonempty_or (s d : string) : string := if (s =? "")%string then d else s.

Definition loadAuthEndpoint (api : SiteAPI) (path : string) : option authEndpointConfig :=
  match List.find (fun r => (au_path r =? path)%string) (auth_endpoints api) with
  | None => None
  | Some r =>
      let ae := {| ae_TableName := au_table r; UsernameColumn := au_username r; PasswordColumn := au_password r;
                   ae_PublicColumns := strings_of (au_columns r);
                   DefaultRole := nonempty_or (au_default r) "user";
                   RoleColumn := nonempty_or (au_role r) "role" |} in
      if is_ok (ValidateColumnName (UsernameColumn ae)) && is_ok (ValidateColumnName (PasswordColumn ae))
         && is_ok (ValidateColumnNames (ae_PublicColumns ae)) && is_ok (ValidateColumnName (RoleColumn ae))
      then Some ae else None
  end.

Definition generateUserToken (api : SiteAPI) (userID : Z) (username role : string) (now : time) : res string string :=
  match jwt api with
  | None => Err "JWT manager not configured"
  | Some j => Ok (GenerateForSite j (site_ID api) userID username role now)
  end.

Definition required (body : row) (col : string) : H string :=
  match body !! col with
  | Some (JStr s) => if (s =? "")%string then write_error 400 (col ++ " is required") else mret s
  | _ => write_error 400 (col ++ " is required")
  end.

(** Scanning a column into an int, a string and a [sql.NullString]. *)
Definition scan_int (j : json) : option Z :=
  match j with
  | JNum s | JStr s => match Atoi s with (n, None) => Some n | _ => None end
  | _ => None
  end.
Definition scan_text (j : json) : option string :=
  match j with JNum s | JStr s => Some s | JBool b => Some (if b then "true" else "false") | _ => None end.

Definition select_user (ae : authEndpointConfig) (cols : string) : string :=
  "SELECT " ++ cols ++ " FROM " ++ ae_TableName ae ++ " WHERE " ++ UsernameColumn ae ++ " = ?".

(** The columns of the body an insert can keep: all, when they are not known. *)
Definition keep_known (ae : authEndpointConfig) (body : row) : H row :=
  info ← pragma (ae_TableName ae);
  match info with
  | Err _ => mret body
  | Ok cols =>
      let valid c := existsb (fun x => (fst x =? c)%string) cols in
      match cols with
      | [] => write_error 500 ("registration failed: table " ++ Quote (ae_TableName ae) ++ " does not exist")
      | _ =>
          if negb (valid (UsernameColumn ae)) || negb (valid (PasswordColumn ae)) then
            write_error 500 ("auth config mismatch: table " ++ Quote (ae_TableName ae) ++ " is missing column "
                             ++ Quote (UsernameColumn ae) ++ " or " ++ Quote (PasswordColumn ae))
          else mret (filter (fun kv => valid (fst kv) = true) body)
      end
  end.

Definition authRegister (api : SiteAPI) (r : HttpRequest) (ae : authEndpointConfig) (now : time) : H unit :=
  body ← read_body r;
  username ← required body (UsernameColumn ae);
  password ← required body (PasswordColumn ae);
  existing ← Query (select_user ae "id") [JStr username];
  match existing with
  | Ok (r0 :: _) =>
      match r0 !! "id" ≫= scan_int with
      | Some _ => write_error 409 ("user with this " ++ UsernameColumn ae ++ " already exists")
      | None => mret tt
      end
  | _ => mret tt
  end;;
  match bcrypt password with
  | Err _ => write_error 500 "failed to hash password"
  | Ok hashed =>
      let body := delete "id" (<[RoleColumn ae := JStr (DefaultRole ae)]> (<[PasswordColumn ae := JStr hashed]> body)) in
      body ← keep_known ae body;
      p ← check_columns (entries body);
      match fst p with
      | [] => write_error 500 ("no valid columns for registration — table=" ++ Quote (ae_TableName ae)
                ++ ", username_col=" ++ Quote (UsernameColumn ae) ++ ", password_col=" ++ Quote (PasswordColumn ae)
                ++ ", role_col=" ++ Quote (RoleColumn ae))
      | _ =>
          result ← Exec (insert_text (ae_TableName ae) (fst p)) (snd p);
          match result with
          | Err e => write_error 400 ("registration failed: " ++ e)
          | Ok (userID, _) =>
              match generateUserToken api userID username (DefaultRole ae) now with
              | Err _ => write_error 500 "failed to generate token"
              | Ok token => write_json 201 (JObj [("success", JBool true); ("token", JStr token); ("user_id", num userID)])
              end
          end
      end
  end.

(** The first row of a query, scanned by [f]; its error as a text. *)
Definition QueryRow {A} (q : string) (args : list json) (f : row -> option A) : H (res string A) :=
  result ← Query q args;
  mret match result with
       | Err e => Err e
       | Ok [] => Err "sql: no rows in result set"
       | Ok (r0 :: _) => match f r0 with Some a => Ok a | None => Err "sql: Scan error" end
       end.

Definition scan_user (ae : authEndpointConfig) (r0 : row) : option (Z * string) :=
  id ← r0 !! "id" ≫= scan_int; pw ← r0 !! PasswordColumn ae ≫= scan_text; Some (id, pw).

Definition scan_role (ae : authEndpointConfig) (r0 : row) : string := default "" (r0 !! RoleColumn ae ≫= scan_text).

Definition authLogin (api : SiteAPI) (r : HttpRequest) (ae : authEndpointConfig) (now : time) : H unit :=
  body ← read_body r;
  username ← required body (UsernameColumn ae);
  password ← required body (PasswordColumn ae);
  first ← QueryRow (select_user ae ("id, " ++ PasswordColumn ae ++ ", " ++ RoleColumn ae)) [JStr username]
            (fun r0 => u ← scan_user ae r0; Some (u, scan_role ae r0));
  found ← match first with
          | Err e =>
              if Contains e "no such column" then
                again ← QueryRow (select_user ae ("id, " ++ PasswordColumn ae)) [JStr username] (scan_user ae);
                mret match again with Ok u => Ok (u, DefaultRole ae) | Err e => Err e end
              else mret (Err e)
          | Ok u => mret (Ok u)
          end;
  match found : res string (Z * string * string) with
  | Err _ => write_error 401 "invalid credentials"
  | Ok (userID, hashedPassword, role) =>
      if negb (bcrypt_check password hashedPassword) then write_error 401 "invalid credentials"
      else
        match generateUserToken api userID username (nonempty_or role (DefaultRole ae)) now with
        | Err _ => write_error 500 "failed to generate token"
        | Ok token => write_json 200 (JObj [("success", JBool true); ("token", JStr token); ("user_id", num userID)])
        end
  end.

Definition extractUserClaims (api : SiteAPI) (r : HttpRequest) (now : time) : res string Claims :=
  match jwt api with
  | None => Err "JWT manager not configured"
  | Some j =>
      let authHeader := header "Authorization" r in
      if (authHeader =? "")%string then Err "no authorization header"
      else
        let token := TrimPrefix authHeader "Bearer " in
        if (token =? authHeader)%string then Err "invalid authorization format" else Validate j token now
  end.

Definition authMe (api : SiteAPI) (r : HttpRequest) (ae : authEndpointConfig) (now : time) : H unit :=
  match extractUserClaims api r now with
  | Err _ => write_error 401 "unauthorized"
  | Ok claims =>
      if negb (SiteID claims =? site_ID api)%Z then write_error 401 "unauthorized"
      else
        let cols := match ae_PublicColumns ae with [] => "id, " ++ UsernameColumn ae | l => Join l ", " end in
        result ← Query ("SELECT " ++ cols ++ " FROM " ++ ae_TableName ae ++ " WHERE id = ?") [num (UserID claims)];
        match result with
        | Err _ => write_error 500 "query error"
        | Ok [] => write_error 404 "user not found"
        | Ok (r0 :: _) => write_json 200 (JObj (map_to_list r0))
        end
  end.
(** ** The router of /api/ *)

(** Where a request goes; the last four are modelled in files of their own. *)
Inductive route :=
| RNotFound
| RRefused (msg : string)              (* a login route with another method *)
| RRegister (ae : authEndpointConfig)
| RLogin (ae : authEndpointConfig)
| RMe (ae : authEndpointConfig)
| RStats (path : string)
| RCrud (path rowID : string)
| ROAuth (ae : authEndpointConfig) (action : string)
| RUpload (path : string)
| RStream (path : string)
| RWebSocket (path : string).

(** [handleAuthRequest]: none when the path is no login route. *)
Definition auth_route (api : SiteAPI) (r : HttpRequest) (fullPath : string) : option route :=
  match SplitN2 "/" fullPath with
  | [authPath; action] =>
      match loadAuthEndpoint api authPath with
      | None => None
      | Some ae =>
          if (action =? "register")%string then
            Some (if (method r =? "POST")%string then RRegister ae else RRefused "POST required")
          else if (action =? "login")%string then
            Some (if (method r =? "POST")%string then RLogin ae else RRefused "POST required")
          else if (action =? "me")%string then
            Some (if (method r =? "GET")%string then RMe ae else RRefused "GET required")
          else if HasPrefix action "oauth/" then Some (ROAuth ae action)
          else None
      end
  | _ => None
  end.

Definition api_route (api : SiteAPI) (r : HttpRequest) : route :=
  let fullPath := TrimPrefix (url_path r) "/api/" in
  if (fullPath =? "")%string then RNotFound
  else match auth_route api r fullPath with
  | Some x => x
  | None =>
      let '(path, rowID) := match SplitN2 "/" fullPath with
                            | [a; b] => (a, b)
                            | [a] => (a, "")
                            | _ => ("", "")
                            end in
      if (rowID =? "_stats")%string && (method r =? "GET")%string then RStats path
      else if (rowID =? "upload")%string && (method r =? "POST")%string then RUpload path
      else if (rowID =? "stream")%string && (method r =? "GET")%string then RStream path
      else if (rowID =? "ws")%string then RWebSocket path
      else RCrud path rowID
  end.

(** The check of [DynamicAPI] before the table is touched. *)
Definition authorize (api : SiteAPI) (r : HttpRequest) (ep : apiEndpoint) (now : time) : H unit :=
  if RequiresAuth ep && negb ((method r =? "GET")%string && PublicRead ep) then
    if validateSiteToken api (bearer r) then mret tt
    else
      match jwt api with
      | None => write_error 401 "unauthorized"
      | Some j =>
          match Validate j (bearer r) now with
          | Err _ => write_error 401 "invalid or expired token"
          | Ok claims =>
              if negb (SiteID claims =? site_ID api)%Z then write_error 401 "invalid or expired token"
              else if negb (RequiredRole ep =? "")%string && negb (ClaimRole claims =? RequiredRole ep)%string
              then write_error 403 "insufficient permissions"
              else mret tt
          end
      end
  else mret tt.

Definition crud (api : SiteAPI) (r : HttpRequest) (path rowID : string) (now : time) : H unit :=
  match loadEndpoint api path with
  | None => write_error 404 "endpoint not found"
  | Some ep =>
      if negb (methodAllowed (Methods ep) (method r)) then write_error 405 "method not allowed"
      else
        authorize api r ep now;;
        if (method r =? "GET")%string then
          if negb (rowID =? "")%string then apiGetOne rowID ep else apiList r ep
        else if (method r =? "POST")%string then apiInsert api r ep path
        else if (method r =? "PUT")%string then
          if (rowID =? "")%string then write_error 400 "ID required for PUT" else apiUpdate api r rowID ep path
        else if (method r =? "DELETE")%string then
          if (rowID =? "")%string then write_error 400 "ID required for DELETE" else apiDelete api rowID ep path
        else write_error 405 "method not allowed"
  end.

(** [DynamicAPI] on the modelled routes; [opened] is the error of opening the
    site's database. *)
Definition DynamicAPI (opened : option string) (api : SiteAPI) (r : HttpRequest) (now : time) : option (H unit) :=
  match opened with
  | Some _ => Some (write_error 500 "database error")
  | None =>
      match api_route api r with
      | RNotFound => Some (write_error 404 "endpoint not found")
      | RRefused msg => Some (write_error 405 msg)
      | RRegister ae => Some (authRegister api r ae now)
      | RLogin ae => Some (authLogin api r ae now)
      | RMe ae => Some (authMe api r ae now)
      | RStats path => Some (apiStats api r path)
      | RCrud path rowID => Some (crud api r path rowID now)
      | ROAuth _ _ | RUpload _ | RStream _ | RWebSocket _ => None
      end
  end.
End Handlers.
