(* ===== verification/PublicAPIFacts.v ===== *)
(** * The tables API: access, statements, hidden columns, login tokens *)

From Stdlib Require Import ZArith Lia Ascii String List Bool.
From stdpp Require Import base list strings gmap.
From S2P Require Import Prelude GoStrings GoTime JSONText PlanStore Security SiteTables PublicAPI.

Local Open Scope string_scope.

(** ** What a handler sends *)

Section Sends.
Context `{C : Crypto} `{Q : SQL} `{O : MapOrder}.
Implicit Types (w : Srv).

(** Every statement [m] sends satisfies [P], and what it returns [R]. *)
Definition sends {A} (P : string * list json -> Prop) (m : H A) (R : A -> Prop) : Prop :=
  forall w, (exists l, statements (snd (m w)) = (l ++ statements w)%list /\ Forall P l) /\
            (forall a, fst (m w) = Ok a -> R a).

Lemma sends_ret {A} P (R : A -> Prop) a : R a -> sends P (mret a) R.
Proof. intros Ha w. split; [by exists []|]. by intros ? [= <-]. Qed.

Lemma sends_error {A} P (R : A -> Prop) s msg : sends P (write_error s msg) R.
Proof. intros w. split; [by exists []|done]. Qed.

Lemma sends_json {A} P (R : A -> Prop) s j : sends P (write_json s j) R.
Proof. intros w. split; [by exists []|done]. Qed.

Lemma sends_bind {A B} P (m : H A) (k : A -> H B) R R' :
  sends P m R -> (forall a, R a -> sends P (k a) R') -> sends P (m ≫= k) R'.
Proof.
  intros Hm Hk w. unfold mbind, H_bind. destruct (Hm w) as [(l & Hl & Pl) Hr].
  destruct (m w) as [[a|e] w1]; cbn in *; [|split; [by exists l|done]].
  destruct (Hk a (Hr a eq_refl) w1) as [(l' & Hl' & Pl') Hr']. split; [|done].
  exists (l' ++ l)%list. rewrite Hl', Hl, app_assoc. split; [done|]. by apply Forall_app.
Qed.

Lemma sends_one {A} (P : string * list json -> Prop) (m : H A) q args R :
  P (q, args) -> (forall w, statements (snd (m w)) = (q, args) :: statements w) ->
  (forall w a, fst (m w) = Ok a -> R a) -> sends P m R.
Proof. intros HP Hs HR w. split; [|apply HR]. exists [(q, args)]. split; [apply Hs|by repeat constructor]. Qed.

Lemma sends_Query (P : string * list json -> Prop) q args : P (q, args) -> sends P (Query q args) (fun _ => True).
Proof. intros. by eapply sends_one. Qed.

Lemma sends_Exec (P : string * list json -> Prop) q args : P (q, args) -> sends P (Exec q args) (fun _ => True).
Proof.
  intros. eapply (sends_one _ _ q args); [done| |done]. intros w. unfold Exec. by destruct (sql_exec _ _ _).
Qed.

Lemma sends_publish P api ty e id : sends P (publish_data api ty e id) (fun _ => True).
Proof. intros w. split; [by exists []|done]. Qed.

Lemma sends_weaken {A} (P P' : string * list json -> Prop) (m : H A) (R R' : A -> Prop) :
  (forall x, P x -> P' x) -> (forall a, R a -> R' a) -> sends P m R -> sends P' m R'.
Proof.
  intros HP HR Hm w. destruct (Hm w) as [(l & Hl & Pl) Hr]. split; [|auto].
  exists l. split; [done|]. eapply Forall_impl; [exact Pl|auto].
Qed.

Lemma sends_read_body P r : sends P (read_body r) (fun _ => True).
Proof. unfold read_body. case_match; [by apply sends_ret|apply sends_error]. Qed.
End Sends.

(** ** The statements of the CRUD handlers *)

(** The endpoint's own configuration holds identifiers. *)
Definition config_ok (ep : apiEndpoint) : Prop :=
  validIdentifier (TableName ep) = true /\ Forall (fun c => validIdentifier c = true) (PublicColumns ep).

(** A statement for the endpoint: a safe text, or the probe for a column of its
    table, with an argument for each placeholder. *)
Definition statement_ok (ep : apiEndpoint) (st : string * list json) : Prop :=
  (all_bytes sql_byte (fst st) = true \/ fst st = probe_text (TableName ep)) /\
  marks (fst st) = List.length (snd st).

Lemma statement_text ep q n args : sql_ok q n -> n = List.length args -> statement_ok ep (q, args).
Proof. intros [H1 H2] ->. split; [by left|done]. Qed.

Lemma visibleColumns_ok ep : config_ok ep -> sql_ok (visibleColumns ep) 0.
Proof.
  intros [_ Hc]. unfold visibleColumns. destruct (PublicColumns ep) as [|c0 cols] eqn:E; [by split|].
  rewrite <- E in *. destruct (List.filter _ _) as [|c l] eqn:F; [by split|].
  assert (Forall (fun s => sql_ok s 0) (c :: l)) as Hl.
  { rewrite <- F. apply Forall_forall. intros x Hx%list_elem_of_In. apply filter_In in Hx as [Hx _].
    rewrite Forall_forall in Hc. apply sql_ok_identifier, Hc. by apply list_elem_of_In. }
  replace 0%nat with (0 * List.length (c :: l))%nat by lia. by apply sql_ok_join.
Qed.

Lemma parseFilterParam_op key col op b : parseFilterParam key = Some (col, op, b) -> sql_ok op 0.
Proof. unfold parseFilterParam. intros H. repeat case_match; simplify_eq; by split. Qed.

Lemma filter_clause_ok ep kv c v : filter_clause ep kv = Some (c, v) -> sql_ok c 1.
Proof.
  unfold filter_clause. intros H. destruct kv as [key [|v0 vals]]; [done|]. case_match; [done|].
  destruct (parseFilterParam key) as [[[col op] b]|] eqn:E; [|done].
  rewrite ValidateColumnName_ok in H. destruct (validIdentifier col) eqn:Hcol; [|done]. cbn in H.
  apply parseFilterParam_op in E. case_match; [done|]. destruct b; simplify_eq.
  - change 1%nat with (0 + 1)%nat. apply sql_ok_append; [by apply sql_ok_identifier|by split].
  - change 1%nat with (0 + (0 + (0 + 1)))%nat.
    repeat apply sql_ok_append; try done; by apply sql_ok_identifier.
Qed.

Lemma order_clause_ok r : sql_ok (order_clause r) 0.
Proof.
  unfold order_clause. set (s := or_else _ _). rewrite ValidateColumnName_ok.
  destruct (negb _ && _) eqn:E; [|by split]. apply andb_true_iff in E as [_ E].
  change 0%nat with (0 + (0 + 0))%nat.
  repeat apply sql_ok_append; [by apply sql_ok_identifier|by split|by case_match].
Qed.

Lemma where_sql_ok clauses n : Forall2 sql_ok clauses n -> sql_ok (where_sql clauses) (foldr Nat.add 0%nat n).
Proof.
  intros H. destruct H as [|c m clauses n Hc Hr]; [by split|].
  change (foldr Nat.add 0%nat (m :: n)) with (0 + (foldr Nat.add 0%nat (m :: n)))%nat.
  apply sql_ok_append; [by split|].
  revert c m Hc. induction Hr as [|d k clauses n Hd Hr IH]; intros c m Hc; [cbn; by rewrite Nat.add_0_r|].
  change (Join (c :: d :: clauses) " AND ") with (c ++ (" AND " ++ Join (d :: clauses) " AND ")).
  change (foldr Nat.add 0%nat (m :: k :: n)) with (m + (0 + foldr Nat.add 0%nat (k :: n)))%nat.
  apply sql_ok_append; [done|]. apply sql_ok_append; [by split|]. by apply IH.
Qed.

Lemma placeholders_like_ok l : sql_ok (placeholders_like l) (List.length l).
Proof.
  unfold placeholders_like. rewrite <- (Nat.mul_1_l (List.length l)), <- (length_map (fun _ => "?") l).
  apply sql_ok_join; [by split|]. apply Forall_forall. intros x Hx%list_elem_of_In.
  apply in_map_iff in Hx as (y & <- & _). by split.
Qed.

Definition identifiers (l : list string) : Prop := Forall (fun c => validIdentifier c = true) l.

Lemma insert_text_ok table cols : validIdentifier table = true -> identifiers cols ->
  sql_ok (insert_text table cols) (List.length cols).
Proof.
  intros Ht Hc. unfold insert_text.
  replace (List.length cols) with (0 + (0 + (0 + (0 * List.length cols + (0 + (List.length cols + 0))))))%nat by lia.
  repeat apply sql_ok_append; try (by split); [by apply sql_ok_identifier| |apply placeholders_like_ok].
  apply sql_ok_join; [by split|]. eapply Forall_impl; [exact Hc|]. intros. by apply sql_ok_identifier.
Qed.

Lemma set_text_ok cols : identifiers cols ->
  sql_ok (Join (map (fun c => c ++ " = ?") cols) ", ") (List.length cols).
Proof.
  intros Hc. rewrite <- (Nat.mul_1_l (List.length cols)), <- (length_map (fun c => c ++ " = ?") cols).
  apply sql_ok_join; [by split|]. apply Forall_map. eapply Forall_impl; [exact Hc|]. intros c Hi. cbn.
  change 1%nat with (0 + 1)%nat. apply sql_ok_append; [by apply sql_ok_identifier|by split].
Qed.

Section CrudStatements.
Context `{C : Crypto} `{Q : SQL} `{O : MapOrder}.
Context (ep : apiEndpoint) (Hcfg : config_ok ep).

(** The columns of the tables have names that are identifiers, as
    manage_schema makes them. *)
Definition columns_named : Prop :=
  forall t tb cols, table_info t tb = Ok cols -> identifiers (map fst cols).

Context (Hnamed : columns_named).

Let P := statement_ok ep.

Lemma sends_probe c : sends P (probe (TableName ep) c) (fun _ => True).
Proof.
  eapply sends_one; [|done..]. split; [by right|]. cbn [fst snd List.length]. unfold probe_text.
  rewrite !marks_append, (words_no_marks (TableName ep)); [done|]. apply validIdentifier_words, Hcfg.
Qed.

Lemma sends_rowIDColumn rowID : sends P (rowIDColumn (TableName ep) rowID) (fun c => validIdentifier c = true).
Proof.
  unfold rowIDColumn. destruct (Atoi rowID) as [n [e|]]; [|by apply sends_ret].
  eapply sends_bind; [apply sends_probe|]. intros [] _; [by apply sends_ret|].
  eapply sends_bind; [apply sends_probe|]. intros [] _; by apply sends_ret.
Qed.

Lemma match_nonempty {A B} (l : list A) (x y : B) : l <> [] -> match l with [] => x | _ :: _ => y end = y.
Proof. by destruct l. Qed.

Lemma sends_search r :
  sends P (search_clause (TableName ep) ep r) (Forall (fun x => sql_ok (fst x) (List.length (snd x)))).
Proof.
  unfold search_clause. case_match; [by apply sends_ret|].
  eapply (sends_bind _ _ _ identifiers).
  - unfold getTextColumns. eapply (sends_bind _ _ _ (fun info => forall cols, info = Ok cols -> identifiers (map fst cols))).
    + eapply sends_one; [|done|].
      * eapply statement_text; [|reflexivity]. unfold pragma_text. change (List.length []) with (0 + (0 + 0))%nat.
        repeat apply sql_ok_append; try (by split). apply sql_ok_identifier, Hcfg.
      * intros w a [= <-] cols Hc. by eapply Hnamed.
    + intros info Hi. apply sends_ret. destruct info as [cols|]; [|constructor].
      specialize (Hi cols eq_refl). unfold identifiers in *. rewrite Forall_forall in *.
      intros x Hx%list_elem_of_In. apply in_map_iff in Hx as (y & <- & Hy). apply filter_In in Hy as [Hy _].
      apply Hi, list_elem_of_In, in_map, Hy.
  - intros cols Hc. apply sends_ret. destruct (decide (cols = [])) as [->|Hne]; [constructor|].
    rewrite (match_nonempty cols) by done. constructor; [|constructor]. cbn [fst snd]. rewrite length_map.
    replace (List.length cols) with (0 + (1 * List.length cols + 0))%nat by lia.
    apply sql_ok_append; [by split|]. apply sql_ok_append; [|by split].
    rewrite <- (length_map (fun tc => tc ++ " LIKE ? COLLATE NOCASE") cols). apply sql_ok_join; [by split|].
    apply Forall_map. eapply Forall_impl; [exact Hc|]. intros x Hx. cbn.
    change 1%nat with (0 + 1)%nat. apply sql_ok_append; [by apply sql_ok_identifier|by split].
Qed.

Lemma filters_ok l : Forall2 sql_ok (map fst (omap (filter_clause ep) l))
                       (map (fun _ => 1%nat) (omap (filter_clause ep) l)).
Proof.
  induction l as [|kv l IH]; [constructor|]. cbn. destruct (filter_clause ep kv) as [[c v]|] eqn:E; [|exact IH].
  constructor; [|exact IH]. by apply filter_clause_ok in E.
Qed.

Lemma sum_ones {A} (l : list A) : foldr Nat.add 0%nat (map (fun _ => 1%nat) l) = List.length l.
Proof. induction l; [done|]. cbn. by f_equal. Qed.

Lemma sends_apiList r : sends P (apiList r ep) (fun _ => True).
Proof.
  unfold apiList. eapply sends_bind; [apply sends_search|]. intros search Hs. cbv zeta.
  set (filters := omap _ _).
  eapply sends_bind; [apply sends_Query|intros [rows|e] _; [apply sends_json|case_match; apply sends_error]].
  assert (Hlen : foldr Nat.add 0%nat (map (fun x => List.length (snd x)) search) = List.length (concat (map snd search))).
  { clear. induction search as [|x s IH]; [done|]. cbn. rewrite length_app. lia. }
  assert (Hsum : forall l k, foldr Nat.add 0%nat (l ++ k)%list = (foldr Nat.add 0 l + foldr Nat.add 0 k)%nat).
  { clear. induction l as [|x l IH]; intros k; [done|]. cbn. rewrite IH. lia. }
  eapply statement_text.
  - eapply (sql_ok_append _ _ 0); [by split|]. eapply (sql_ok_append _ _ 0); [by apply visibleColumns_ok|].
    eapply (sql_ok_append _ _ 0); [by split|]. eapply (sql_ok_append _ _ 0); [apply sql_ok_identifier, Hcfg|].
    eapply sql_ok_append; [apply where_sql_ok, Forall2_app; [apply filters_ok|]|].
    + instantiate (1 := map (fun x => List.length (snd x)) search).
      clear -Hs. induction Hs as [|x s Hx Hs IH]; by constructor.
    + eapply (sql_ok_append _ _ 0); [by split|]. eapply (sql_ok_append _ _ 0); [apply order_clause_ok|].
      instantiate (1 := 2%nat). by split.
  - rewrite Hsum. unfold filters in *. rewrite sum_ones, Hlen, !length_app, length_map. cbn. lia.
Qed.

Lemma sends_apiGetOne rowID : sends P (apiGetOne rowID ep) (fun _ => True).
Proof.
  unfold apiGetOne. eapply sends_bind; [apply sends_rowIDColumn|]. intros c Hc.
  eapply sends_bind; [apply sends_Query|intros [[|x rows]|e] _; first [apply sends_json|apply sends_error]].
  eapply (statement_text _ _ (0 + (0 + (0 + (0 + (0 + (0 + 1))))))); [|done].
  repeat apply sql_ok_append; try (by split); [by apply visibleColumns_ok|apply sql_ok_identifier, Hcfg|].
  by apply sql_ok_identifier.
Qed.

Lemma sends_secure_values api cols : forall body, sends P (secure_values api cols body) (fun _ => True).
Proof.
  induction cols as [|[c k] cols IH]; intros body; cbn [secure_values]; [by apply sends_ret|].
  case_match; [|apply IH]. case_match; [apply IH|apply sends_error].
Qed.

Lemma sends_check_columns l :
  sends P (check_columns l) (fun p => identifiers (fst p) /\ List.length (fst p) = List.length (snd p)).
Proof.
  induction l as [|[c v] l IH]; cbn [check_columns]; [apply sends_ret; by split; [constructor|]|].
  rewrite ValidateColumnName_ok. destruct (validIdentifier c) eqn:Hc; [|apply sends_error].
  eapply sends_bind; [exact IH|]. intros [cs vs] [H1 H2]. apply sends_ret. cbn in *.
  split; [by constructor|lia].
Qed.

Lemma sends_body_columns api r :
  sends P (body_columns api r ep) (fun p => identifiers (fst p) /\ List.length (fst p) = List.length (snd p)).
Proof.
  unfold body_columns. eapply sends_bind; [apply sends_read_body|]. intros body _.
  eapply sends_bind; [apply sends_secure_values|]. intros body' _.
  case_match; [apply sends_error|apply sends_check_columns].
Qed.

Lemma sends_apiInsert api r e : sends P (apiInsert api r ep e) (fun _ => True).
Proof.
  unfold apiInsert. eapply sends_bind; [apply sends_body_columns|]. intros [cs vs] [Hc Hl]. cbn in *.
  eapply sends_bind; [apply sends_Exec|].
  - eapply statement_text; [apply insert_text_ok; [apply Hcfg|done]|done].
  - intros [[id n]|err] _; [|apply sends_error]. eapply sends_bind; [apply sends_publish|]. intros; apply sends_json.
Qed.

Lemma sends_apiUpdate api r rowID e : sends P (apiUpdate api r rowID ep e) (fun _ => True).
Proof.
  unfold apiUpdate. eapply sends_bind; [apply sends_body_columns|]. intros [cs vs] [Hc Hl]. cbn [fst snd] in *.
  eapply sends_bind; [apply sends_rowIDColumn|]. intros c Hi.
  eapply sends_bind; [apply sends_Exec|].
  - eapply (statement_text _ _ (0 + (0 + (0 + (List.length cs + (0 + (0 + 1))))))).
    + repeat apply sql_ok_append; try (by split);
        [apply sql_ok_identifier, Hcfg|by apply set_text_ok|by apply sql_ok_identifier].
    + rewrite length_app. cbn. lia.
  - intros [[id n]|err] _; [|apply sends_error]. case_match; [apply sends_error|].
    eapply sends_bind; [apply sends_publish|]. intros; apply sends_json.
Qed.

Lemma sends_apiDelete api rowID e : sends P (apiDelete api rowID ep e) (fun _ => True).
Proof.
  unfold apiDelete. eapply sends_bind; [apply sends_rowIDColumn|]. intros c Hi.
  eapply sends_bind; [apply sends_Exec|].
  - eapply (statement_text _ _ (0 + (0 + (0 + (0 + 1))))); [|done].
    repeat apply sql_ok_append; try (by split); [apply sql_ok_identifier, Hcfg|by apply sql_ok_identifier].
  - intros [[id n]|err] _; [|apply sends_error]. case_match; [apply sends_error|].
    eapply sends_bind; [apply sends_publish|]. intros; apply sends_json.
Qed.

Lemma sends_authorize api r now : sends P (authorize api r ep now) (fun _ => True).
Proof. unfold authorize. repeat case_match; first [by apply sends_ret|apply sends_error]. Qed.

End CrudStatements.

(** ** Who gets to a table *)

Section Access.
Context `{C : Crypto} `{Q : SQL} `{O : MapOrder}.

(** Who may use an endpoint: anybody when it is open (or open to reading), the
    holder of the site's key, and a user of the site with the required role. *)
Inductive may_access (api : SiteAPI) (r : HttpRequest) (ep : apiEndpoint) (now : time) : Prop :=
| access_open : RequiresAuth ep = false -> may_access api r ep now
| access_read : method r = "GET" -> PublicRead ep = true -> may_access api r ep now
| access_key : validateSiteToken api (bearer r) = true -> may_access api r ep now
| access_user j c : jwt api = Some j -> Validate j (bearer r) now = Ok c -> SiteID c = site_ID api ->
    RequiredRole ep = "" \/ ClaimRole c = RequiredRole ep -> may_access api r ep now.

Lemma authorize_spec api r ep now w :
  (may_access api r ep now /\ authorize api r ep now w = (Ok tt, w)) \/
  (~ may_access api r ep now /\ exists e, authorize api r ep now w = (Err e, w) /\
     (resp_status e = 401 \/ resp_status e = 403)).
Proof.
  unfold authorize. destruct (RequiresAuth ep) eqn:E1; [|left; split; [by apply access_open|done]].
  cbn [andb]. destruct (String.eqb_spec (method r) "GET") as [Em|Em]; cbn [andb negb].
  1: destruct (PublicRead ep) eqn:E2; cbn [negb]; [left; split; [by apply access_read|done]|].
  all: destruct (validateSiteToken api (bearer r)) eqn:E3; [left; split; [by apply access_key|done]|].
  all: destruct (jwt api) as [j|] eqn:E4;
    [|right; split; [intros []; congruence|eexists; split; [done|by left]]].
  all: destruct (Validate j (bearer r) now) as [c|err] eqn:E5;
    [|right; split; [intros []; congruence|eexists; split; [done|by left]]].
  all: destruct (Z.eqb_spec (SiteID c) (site_ID api)) as [E6|E6]; cbn [negb];
    [|right; split; [intros []; congruence|eexists; split; [done|by left]]].
  all: destruct (String.eqb_spec (RequiredRole ep) "") as [E7|E7]; cbn [negb andb];
    [left; split; [by eapply access_user; eauto|done]|].
  all: destruct (String.eqb_spec (ClaimRole c) (RequiredRole ep)) as [E8|E8]; cbn [negb];
    [left; split; [by eapply access_user; eauto|done]|].
  all: right; split; [intros []; intuition congruence|eexists; split; [done|by right]].
Qed.

(** C12. A request reaches the table of an endpoint only if the endpoint exists,
    allows the method and lets the caller in: otherwise the answer is 404, 405,
    401 or 403 and the database, the statements and the events are as before.  A
    caller that may access an endpoint gets the handler of the method. *)
Theorem crud_access api r path rowID now w :
  match loadEndpoint api path with
  | None => exists e, crud api r path rowID now w = (Err e, w) /\ resp_status e = 404
  | Some ep =>
      if methodAllowed (Methods ep) (method r) then
        (~ may_access api r ep now -> exists e, crud api r path rowID now w = (Err e, w) /\
           (resp_status e = 401 \/ resp_status e = 403)) /\
        (may_access api r ep now -> method r = "DELETE" -> rowID <> "" ->
           crud api r path rowID now w = apiDelete api rowID ep path w) /\
        (may_access api r ep now -> method r = "PUT" -> rowID <> "" ->
           crud api r path rowID now w = apiUpdate api r rowID ep path w) /\
        (may_access api r ep now -> method r = "POST" -> crud api r path rowID now w = apiInsert api r ep path w) /\
        (may_access api r ep now -> method r = "GET" -> crud api r path rowID now w =
           (if (rowID =? "")%string then apiList r ep w else apiGetOne rowID ep w))
      else exists e, crud api r path rowID now w = (Err e, w) /\ resp_status e = 405
  end.
Proof.
  unfold crud. destruct (loadEndpoint api path) as [ep|]; [|by eexists].
  destruct (methodAllowed _ _); cbn [negb]; [|by eexists].
  unfold mbind, H_bind. destruct (authorize_spec api r ep now w) as [[Ha ->]|[Ha (e & -> & He)]].
  - split; [done|]. repeat split; intros _ ->; cbn; try done.
    + by intros ->%String.eqb_neq.
    + by intros ->%String.eqb_neq.
    + by destruct (rowID =? "")%string.
  - split; [|by repeat split]. intros _. by exists e.
Qed.

(** ** Password hashes stay inside *)

Definition hides (ep : apiEndpoint) (j : json) : Prop :=
  exists m, j = JObj m /\ Forall (fun kv : string * json => is_hash ep (fst kv) = false) m.

Lemma strip_row_hides ep r0 : hides ep (JObj (map_to_list (strip_row (SecureCols ep) r0))).
Proof.
  eexists. split; [done|]. apply Forall_forall. intros [k v] Hk%elem_of_map_to_list. unfold strip_row in Hk.
  apply map_lookup_filter_Some in Hk as [_ Hk]. cbn in *. unfold is_hash.
  destruct (SecureCols ep !! k) as [kind|]; [|done]. apply String.eqb_neq. congruence.
Qed.

(** The rows of a successful answer to a GET. *)
Definition rows_of (rowID : string) (j : json) : list json :=
  if (rowID =? "")%string
  then match j with JObj [_; (_, JArr l); _; _] => l | _ => [] end
  else [j].

(** However a GET of an endpoint is filtered, sorted or searched, no row of
    the answer has a column the table keeps as a password hash. *)
Theorem hashes_are_hidden api r path rowID now w ep resp w' :
  loadEndpoint api path = Some ep -> method r = "GET" ->
  crud api r path rowID now w = (Err resp, w') -> resp_status resp = 200 ->
  Forall (hides ep) (rows_of rowID (resp_body resp)).
Proof.
  intros Hep Hm Hc Hs. unfold crud in Hc. rewrite Hep, Hm in Hc.
  destruct (negb (methodAllowed _ _)); [by injection Hc as <- <-|].
  unfold mbind, H_bind in Hc. destruct (authorize_spec api r ep now w) as [[_ Ha]|[_ (e & Ha & He)]];
    rewrite Ha in Hc; [|simplify_eq; destruct He; congruence].
  change (("GET" =? "GET")%string) with true in Hc. cbn iota in Hc. unfold rows_of.
  destruct (rowID =? "")%string; cbn [negb] in Hc.
  - unfold apiList, mbind, H_bind in Hc. destruct (search_clause _ _ _ w) as [[s|e] w1] eqn:E1.
    2: { exfalso. unfold search_clause, getTextColumns, mbind, H_bind in E1. repeat case_match; simplify_eq. }
    cbn [Query] in Hc. unfold Query in Hc. destruct (sql_query _ _ _) as [rows|e].
    + injection Hc as <- <-. cbn. apply Forall_map. unfold stripSecureColumns. apply Forall_map, Forall_forall.
      intros x _. apply strip_row_hides.
    + destruct (Contains e _); by injection Hc as <- <-.
  - constructor; [|constructor]. unfold apiGetOne, mbind, H_bind in Hc.
    destruct (rowIDColumn _ _ w) as [[c|e] w1] eqn:E1.
    2: { exfalso. unfold rowIDColumn, probe, mbind, H_bind in E1. repeat case_match; simplify_eq. }
    unfold Query in Hc. destruct (sql_query _ _ _) as [rows|e]; [|by injection Hc as <- <-].
    destruct (scanRowsToMaps rows) as [|r0 rs]; injection Hc as <- <-; [done|]. apply strip_row_hides.
Qed.
End Access.

(** ** Registering and logging in *)

Section Login.
Context `{C : Crypto} `{Q : SQL} `{O : MapOrder}.

(** What [authRegister] may insert: the default role, the hash of the password
    of the request, and no id. *)
Definition registers (ae : authEndpointConfig) (r : HttpRequest) (st : string * list json) : Prop :=
  HasPrefix (fst st) "INSERT" = true ->
  exists cols, fst st = insert_text (ae_TableName ae) cols /\ List.length cols = List.length (snd st) /\
    "id" ∉ cols /\
    (forall v, (RoleColumn ae, v) ∈ zip cols (snd st) -> v = JStr (DefaultRole ae)) /\
    (forall v, (PasswordColumn ae, v) ∈ zip cols (snd st) ->
       exists body pw h, decode_body (req_body r) = Some body /\ body !! PasswordColumn ae = Some (JStr pw) /\
         bcrypt pw = Ok h /\ v = JStr h).

Lemma sends_check_zip P (l : list (string * json)) :
  sends P (check_columns l) (fun p => zip (fst p) (snd p) = l /\ List.length (fst p) = List.length (snd p)).
Proof.
  induction l as [|[c v] l IH]; cbn [check_columns]; [by apply sends_ret|].
  case_match; [|apply sends_error]. eapply sends_bind; [exact IH|]. intros [cs vs] [H1 H2].
  apply sends_ret. cbn in *. split; [by f_equal|lia].
Qed.

Lemma sends_keep_known P ae (body : row) : P (pragma_text (ae_TableName ae), []) ->
  sends P (keep_known ae body) (fun b => b ⊆ body).
Proof.
  intros HP. unfold keep_known. eapply (sends_bind _ _ _ (fun _ => True)).
  - by eapply sends_one.
  - intros [cols|e] _; [|by apply sends_ret]. case_match; [apply sends_error|]. case_match; [apply sends_error|].
    apply sends_ret. apply map_filter_subseteq.
Qed.

Lemma sends_required P (body : row) col :
  sends P (required body col) (fun s => body !! col = Some (JStr s)).
Proof.
  unfold required. destruct (body !! col) as [[]|]; try apply sends_error.
  case_match; [apply sends_error|by apply sends_ret].
Qed.

Lemma sends_read_decoded P r :
  sends P (read_body r) (fun b => decode_body (req_body r) = Some b).
Proof. unfold read_body. case_match; [by apply sends_ret|apply sends_error]. Qed.

Lemma entries_lookup (m : row) k v : (k, v) ∈ entries m -> m !! k = Some v.
Proof. rewrite entries_perm. by rewrite elem_of_map_to_list. Qed.

(** Whatever a registration sends, the only row inserted has the endpoint's
    default role and the bcrypt hash of the password, and its id is the
    database's: nobody registers with a role or an id of their choice. *)
Theorem register_forces_role api r ae now w : RoleColumn ae <> PasswordColumn ae ->
  exists l, statements (snd (authRegister api r ae now w)) = (l ++ statements w)%list /\
            Forall (registers ae r) l.
Proof.
  intros Hne. apply (fun S : sends (registers ae r) (authRegister api r ae now) (fun _ => True) => proj1 (S w)).
  unfold authRegister. eapply sends_bind; [apply sends_read_decoded|]. intros body Hb.
  eapply sends_bind; [apply sends_required|]. intros username _.
  eapply sends_bind; [apply sends_required|]. intros pw Hpw.
  eapply sends_bind; [by apply sends_Query|]. intros existing _.
  eapply (sends_bind _ _ _ (fun _ => True)).
  { repeat case_match; first [by apply sends_ret|apply sends_error]. }
  intros _ _. destruct (bcrypt pw) as [h|e] eqn:Eh; [|apply sends_error].
  set (stored := delete "id" _).
  eapply sends_bind; [by apply sends_keep_known|]. intros kept Hk.
  eapply sends_bind; [apply sends_check_zip|]. intros [cols vals] [Hz Hl]. cbn [fst snd] in *.
  assert (Hin : forall k v, (k, v) ∈ zip cols vals -> stored !! k = Some v).
  { intros k v. rewrite Hz. intros H%entries_lookup. by apply (lookup_weaken kept). }
  destruct (decide (cols = [])) as [->|Hcols]; [apply sends_error|]. rewrite match_nonempty by done.
  eapply sends_bind; [apply sends_Exec|].
  - intros _. exists cols. split; [done|]. split; [done|]. split; [|split].
    + intros Hid. rewrite <- (fst_zip cols vals) in Hid by lia.
      apply list_elem_of_fmap in Hid as ([k v] & Hkv & Hid). cbn in Hkv. subst k. apply Hin in Hid.
      unfold stored in Hid. by apply lookup_delete_Some in Hid as [[] _].
    + intros v Hv%Hin. unfold stored in Hv. apply lookup_delete_Some in Hv as [_ Hv].
      by apply lookup_insert_Some in Hv as [[_ <-]|[[] _]].
    + intros v Hv%Hin. unfold stored in Hv. apply lookup_delete_Some in Hv as [_ Hv].
      apply lookup_insert_Some in Hv as [[Heq _]|[_ Hv]]; [done|].
      apply lookup_insert_Some in Hv as [[_ <-]|[[] _]]; [|done]. by exists body, pw, h.
  - intros [[id n]|e] _; [|apply sends_error]. case_match; [apply sends_json|apply sends_error].
Qed.

Lemma bearer_not_token t : t <> "Bearer " ++ t.
Proof. intros Heq%(f_equal String.length). rewrite length_append in Heq. cbn in Heq. lia. Qed.

Lemma Authenticator_bearer j r t c now : header "Authorization" r = "Bearer " ++ t ->
  Validate j t now = Ok c -> Authenticator j r now = Ok c.
Proof.
  intros Hh Hv. unfold Authenticator, find_token. rewrite Hh. change (("Bearer " ++ t) =? "")%string with false.
  cbn [negb]. rewrite TrimPrefix_append.
  destruct (String.eqb_spec t ("Bearer " ++ t)) as [Heq|_]; [by apply bearer_not_token in Heq|]. by rewrite Hv.
Qed.

(** What a handler answers, when it answers. *)
Definition answers {A} (R : HttpResponse -> Prop) (m : H A) : Prop := forall w e, fst (m w) = Err e -> R e.

Lemma answers_bind {A B} R (m : H A) (k : A -> H B) : answers R m -> (forall a, answers R (k a)) -> answers R (m ≫= k).
Proof.
  intros Hm Hk w e. unfold mbind, H_bind. specialize (Hm w). destruct (m w) as [[a|e'] w1]; cbn in *; [apply Hk|].
  intros [= <-]. auto.
Qed.

Lemma answers_ret {A} R (a : A) : answers R (mret a).
Proof. by intros w e. Qed.

Lemma answers_error {A} (R : HttpResponse -> Prop) s msg : R (error_response s msg) -> answers R (write_error (A := A) s msg).
Proof. by intros HR w e [= <-]. Qed.

Lemma answers_check_columns (R : HttpResponse -> Prop) l : (forall s msg, s <> 201 -> R (error_response s msg)) ->
  answers R (check_columns l).
Proof.
  intros HR. induction l as [|[c v] l IH]; cbn [check_columns]; [apply answers_ret|].
  case_match; [|by apply answers_error, HR]. apply answers_bind; [exact IH|]. intros; apply answers_ret.
Qed.

Lemma answers_authRegister api j r ae now : jwt api = Some j ->
  answers (fun e => resp_status e = 201 -> exists username userID, resp_body e =
    JObj [("success", JBool true); ("token", JStr (GenerateForSite j (site_ID api) userID username (DefaultRole ae) now));
          ("user_id", num userID)]) (authRegister api r ae now).
Proof.
  intros Hj. unfold authRegister, generateUserToken. rewrite Hj. set (R := fun e : HttpResponse => _).
  assert (HR : forall s msg, s <> 201 -> R (error_response s msg)) by (intros s msg Hs Hs'; destruct (Hs Hs')).
  assert (HE : forall A s msg, s <> 201 -> answers (A := A) R (write_error s msg)) by (intros; by apply answers_error, HR).
  apply answers_bind; [unfold read_body; case_match; [apply answers_ret|by apply HE]|]. intros body.
  do 2 (apply answers_bind; [unfold required; repeat case_match; first [apply answers_ret|by apply HE]|intros ?]).
  apply answers_bind; [by intros w e|]. intros existing.
  apply answers_bind; [repeat case_match; first [apply answers_ret|by apply HE]|]. intros _.
  case_match; [|by apply HE].
  apply answers_bind.
  { apply answers_bind; [by intros w e|]. intros [cols|err]; [|apply answers_ret]. cbv zeta.
    destruct cols; [by apply HE|]. destruct (_ || _); [by apply HE|apply answers_ret]. }
  intros kept. apply answers_bind; [by apply answers_check_columns|]. intros p. case_match; [by apply HE|].
  apply answers_bind; [intros w e; unfold Exec; by destruct (sql_exec _ _ _)|].
  intros [[id n]|err]; [|by apply HE]. intros w e [= <-] _. by eexists _, _.
Qed.

(** C14. The tokens of a site's own users open the administration: public and admin
    routes check tokens with the same key, and [Authenticator] does not look at
    the site a token is for.  The token any visitor gets by registering passes
    it (for the routes "available to all authenticated users"), under the id of
    a site user, and with a site role named admin it passes [RequireRole] too. *)
Theorem site_token_opens_admin api j r ae now w resp w' later r' :
  jwt api = Some j -> authRegister api r ae now w = (Err resp, w') -> resp_status resp = 201 ->
  later < Truncate (now + expiry j) second ->
  exists token userID c, resp_body resp = JObj [("success", JBool true); ("token", JStr token); ("user_id", num userID)] /\
    (header "Authorization" r' = "Bearer " ++ token -> Authenticator j r' later = Ok c) /\
    SiteID c = site_ID api /\ UserID c = userID /\ RequireRole (DefaultRole ae) (Some c) = Ok tt.
Proof.
  intros Hj Hr Hs Hl. pose proof (answers_authRegister api j r ae now Hj w) as Ha. rewrite Hr in Ha.
  destruct (Ha resp eq_refl Hs) as (username & userID & Hb).
  eexists _, userID, {| SiteID := site_ID api; UserID := userID; Username := username; ClaimRole := DefaultRole ae |}.
  split; [exact Hb|]. split; [|split; [done|split; [done|cbn; by rewrite String.eqb_refl]]].
  intros Hh. eapply Authenticator_bearer; [exact Hh|]. by apply token_valid.
Qed.
End Login.

(** ** Samples *)

Module ApiSample.
Fixpoint pos_text (p : positive) : string :=
  match p with xH => "" | xO q => String "0" (pos_text q) | xI q => String "1" (pos_text q) end.
Fixpoint text_pos (s : string) : positive :=
  match s with
  | "" => xH
  | String a r => if Ascii.eqb a "0" then xO (text_pos r) else xI (text_pos r)
  end.

Lemma text_pos_text p : text_pos (pos_text p) = p.
Proof. induction p as [p IH|p IH|]; cbn; by rewrite ?IH. Qed.

Definition fields (key : string) (c : Claims) (exp : time) :=
  (key, (SiteID c, UserID c), (Username c, ClaimRole c), Truncate exp second).

Definition sign (key : string) (c : Claims) (iat exp : time) : string := pos_text (encode (fields key c exp)).

Definition parse (key tok : string) (now : time) : res string Claims :=
  match decode (text_pos tok) : option (string * (Z * Z) * (string * string) * Z) with
  | Some (k, (s, u), (n, r), e) =>
      if (k =? key)%string && (now <? e)%Z then Ok {| SiteID := s; UserID := u; Username := n; ClaimRole := r |}
      else Err "token is expired"
  | None => Err "token is malformed"
  end.

Lemma sign_parse key c iat exp now : now < Truncate exp second -> parse key (sign key c iat exp) now = Ok c.
Proof.
  intros Hn. unfold parse, sign. rewrite text_pos_text, decode_encode. cbn. rewrite String.eqb_refl.
  apply Z.ltb_lt in Hn. rewrite Hn. by destruct c.
Qed.

#[export] Instance crypto : Crypto :=
  {| token_sign := sign; token_parse := parse; token_valid := sign_parse;
     bcrypt := fun s => Ok ("$2a$" ++ s); bcrypt_check := fun p h => (h =? "$2a$" ++ p)%string;
     encrypt := fun s => Ok s; float_text := fun s => s |}.

(** A database that accepts every statement and has one table's columns. *)
#[export] Instance sql : SQL :=
  {| tables := unit; sql_query := fun _ _ _ => Ok []; sql_exec := fun _ _ t => (Ok (7%Z, 1%Z), t);
     table_info := fun _ _ => Ok [("id", "INTEGER"); ("email", "TEXT"); ("password", "TEXT"); ("role", "TEXT")] |}.

#[export] Instance order : MapOrder := {| entries := fun A m => map_to_list m; entries_perm := fun A m => reflexivity _ |}.

Definition post (path body : string) : HttpRequest :=
  {| method := "POST"; url_path := path; headers := []; cookies := []; query := ∅; req_body := dq body |}.

Definition site : SiteAPI :=
  {| site_ID := 3; site_Config := dq "{'api_key':'k1'}";
     api_endpoints := [{| ar_id := 1; ar_path := "users"; ar_table := "users"; ar_methods := dq "['GET','POST']";
                          ar_columns := None; ar_auth := false; ar_read := false; ar_role := None;
                          ar_rate := 60; ar_created := 0 |}];
     auth_endpoints := [{| au_id := 1; au_path := "auth"; au_table := "users"; au_username := "email"; au_password := "password";
                           au_columns := "[]"; au_default := "user"; au_role := "role"; au_created := 0 |}];
     dynamic_tables := [{| dt_id := 1; dt_name := "users"; dt_schema := "{}"; dt_secure := Some (dq "{'password':'hash'}");
                           dt_created := 0 |}];
     jwt := Some {| secret := "s"; expiry := 24 * hour |}; encryptor := false |}.

Definition ae : authEndpointConfig :=
  {| ae_TableName := "users"; UsernameColumn := "email"; PasswordColumn := "password"; ae_PublicColumns := [];
     DefaultRole := "user"; RoleColumn := "role" |}.

Definition ep : apiEndpoint :=
  {| TableName := "users"; Methods := ["GET"; "POST"]; PublicColumns := []; RequiresAuth := false;
     PublicRead := false; RequiredRole := ""; SecureCols := {["password" := "hash"]} |}.

Definition start : Srv := {| db_tables := tt; statements := []; published := [] |}.

Definition signup : HttpRequest := post "/api/auth/register" "{'email':'a@b.c','password':'pw','role':'admin'}".
End ApiSample.

Import ApiSample.


Definition list_users : HttpRequest :=
  {| method := "GET"; url_path := "/api/users"; headers := []; cookies := [];
     query := {["sort" := ["email"]]}; req_body := "" |}.

Lemma hashes_are_hidden_witness :
  let '(r, _) := crud site list_users "users" "" 0 start in
  match r with Err resp => Forall (hides ep) (rows_of "" (resp_body resp)) | Ok _ => False end.
Proof.
  destruct (crud site list_users "users" "" 0 start) as [[u|resp] w'] eqn:E; [exfalso; vm_compute in E; congruence|].
  refine (hashes_are_hidden site list_users "users" "" 0 start ep resp w' _ eq_refl E _).
  - vm_compute. reflexivity.
  - vm_compute in E. by simplify_eq.
Defined.

Lemma register_forces_role_witness :
  exists l, statements (snd (authRegister site signup ae 0 start)) = (l ++ [])%list /\ Forall (registers ae signup) l.
Proof. apply (register_forces_role (O := order) site signup ae 0 start). discriminate. Defined.

Lemma site_token_opens_admin_witness :
  match authRegister site signup ae 0 start with
  | (Err resp, _) => resp_status resp = 201 /\
      exists token userID c, resp_body resp = JObj [("success", JBool true); ("token", JStr token); ("user_id", num userID)] /\
        (header "Authorization" signup = "Bearer " ++ token ->
         Authenticator {| secret := "s"; expiry := 24 * hour |} signup hour = Ok c) /\
        SiteID c = 3 /\ UserID c = userID /\ RequireRole (DefaultRole ae) (Some c) = Ok tt
  | _ => False
  end.
Proof.
  destruct (authRegister site signup ae 0 start) as [[u|resp] w'] eqn:E; [exfalso; vm_compute in E; congruence|].
  assert (Hs : resp_status resp = 201) by (vm_compute in E; by simplify_eq). split; [exact Hs|].
  exact (site_token_opens_admin site _ signup ae 0 start resp w' hour signup eq_refl E Hs eq_refl).
Defined.

(** The columns a table keeps hashed are told by their exact name, while
    SQLite's column names have no case: a body that spells the password column
    differently has it stored as it came, in clear. *)
Theorem insert_case_bypass :
  statements (snd (crud site (post "/api/users" "{'Password':'hunter2'}") "users" "" 0 start))
    = [("INSERT INTO users (Password) VALUES (?)", [JStr "hunter2"])] /\
  statements (snd (crud site (post "/api/users" "{'password':'hunter2'}") "users" "" 0 start))
    = [("INSERT INTO users (password) VALUES (?)", [JStr "$2a$hunter2"])].
Proof. split; vm_compute; reflexivity. Qed.
