(* ===== verification/ToolMonad.v ===== *)
(** * The code of a site tool

    A tool handler works on the worker's [World] and on a part of the site
    database of its own, of type [S].  It ends early by answering with a result
    or by returning a Go error; [T] is that monad.  [keeps] is what proofs about
    handlers are built from: an invariant of the store together with a
    postcondition on the value. *)

From Stdlib Require Import ZArith Lia Ascii String List Bool.
From stdpp Require Import base list strings gmap.
From S2P Require Import Prelude GoStrings GoTime JSONText World ToolCore Approval.

Local Open Scope string_scope.

Record Ctx (S : Type) := { cw : World; cs : S }.
Arguments cw {S}. Arguments cs {S}.

(** How a handler comes to its end: with a result, with an error, or with a
    panic, which nothing recovers (the executor runs it in a goroutine of its own). *)
Inductive Exit := Returned (r : Result) | Failed (e : string) | Panicked.

Definition T (S A : Type) : Type := Ctx S -> (res Exit A * Ctx S)%type.

#[export] Instance T_ret {S} : MRet (T S) := fun A a c => (Ok a, c).
#[export] Instance T_bind {S} : MBind (T S) := fun A B k m c =>
  match m c with (Ok a, c') => k a c' | (Err x, c') => (Err x, c') end.

Lemma bind_ok {S A B} (m : T S A) (k : A -> T S B) a c c' : m c = (Ok a, c') -> (m ≫= k) c = k a c'.
Proof. intros H. unfold mbind, T_bind. by rewrite H. Qed.
Lemma bind_err {S A B} (m : T S A) (k : A -> T S B) x c c' : m c = (Err x, c') -> (m ≫= k) c = (Err x, c').
Proof. intros H. unfold mbind, T_bind. by rewrite H. Qed.

Section Tool.
Context {S : Type}.
Implicit Types (c : Ctx S).

Definition set_cs (s : S) (c : Ctx S) : Ctx S := {| cw := cw c; cs := s |}.

(** [return result, nil] *)
Definition answer {A} (r : Result) : T S A := fun c => (Err (Returned r), c).
(** [return &Result{Success: false, Error: msg}, nil] *)
Definition reject {A} (msg : string) : T S A := answer (failure msg).
(** [return nil, err] *)
Definition throw {A} (e : string) : T S A := fun c => (Err (Failed e), c).
(** An index out of range. *)
Definition crash {A} : T S A := fun c => (Err Panicked, c).

Definition or_reject {A} (r : res string A) : T S A := match r with Ok a => mret a | Err e => reject e end.
Definition or_throw {A} (during : string) (r : res string A) : T S A :=
  match r with Ok a => mret a | Err e => throw (during ++ ": " ++ e) end.
Definition guard_reject (b : bool) (msg : string) : T S unit := if b then mret tt else reject msg.

Definition lift {A} (m : M A) : T S A := fun c => let '(a, w) := m (cw c) in (Ok a, {| cw := w; cs := cs c |}).

(** What the handler returns when it gets to its end. *)
Definition outcome_of (m : T S Result) (c : Ctx S) : Exit * Ctx S :=
  match m c with (Ok r, c') => (Returned r, c') | (Err x, c') => (x, c') end.

Section Effects.
Context `{E : Env}.

(** A read of the tables of the store. *)
Definition load {A} (f : S -> A) : T S (res string A) := fun c =>
  (Ok match load_fails (nloads (cw c)) with Some e => Err e | None => Ok (f (cs c)) end,
   {| cw := count_load (cw c); cs := cs c |}).

(** A write to the tables of the store, given CURRENT_TIMESTAMP: what it answers
    and the tables after it, or [None] when it failed and changed nothing. *)
Definition save {A} (f : time -> S -> A * S) : T S (option A) := fun c =>
  if write_fails (nwrites (cw c)) then (Ok None, {| cw := count_write (cw c); cs := cs c |})
  else let '(a, s) := f (CURRENT_TIMESTAMP (cw c)) (cs c) in
       (Ok (Some a), {| cw := count_write (cw c); cs := s |}).

Definition save_ (f : time -> S -> S) : T S bool :=
  o ← save (fun t s => (tt, f t s));
  mret (match o with Some _ => true | None => false end).

(** A write whose failure the handler returns as an error. *)
Definition must_save {A} (during : string) (f : time -> S -> A * S) : T S A :=
  o ← save f;
  match o with Some a => mret a | None => throw during end.
End Effects.

(** ** Invariants *)

(** From every state that satisfies [I], [m] ends in one that does, and what it
    returns satisfies [R]. *)
Definition keeps {A} (I : S -> Prop) (m : T S A) (R : A -> Prop) : Prop :=
  forall c, I (cs c) -> I (cs (snd (m c))) /\ forall a, fst (m c) = Ok a -> R a.

Lemma keeps_ret {A} I (a : A) (R : A -> Prop) : R a -> keeps I (mret a) R.
Proof. intros Ha c Hc. split; [done|]. by intros ? [= <-]. Qed.

Lemma keeps_exit {A} I (x : Exit) (R : A -> Prop) : keeps I (fun c => (Err x, c)) R.
Proof. intros c Hc. by split. Qed.

Lemma keeps_bind {A B} I (m : T S A) (k : A -> T S B) R R' :
  keeps I m R -> (forall a, R a -> keeps I (k a) R') -> keeps I (m ≫= k) R'.
Proof.
  intros Hm Hk c Hc. unfold mbind, T_bind. destruct (Hm c Hc) as [H1 H2].
  destruct (m c) as [[a|x] c1]; cbn in *; [|by split]. by apply (Hk a (H2 a eq_refl)).
Qed.

Lemma keeps_weaken {A} I (m : T S A) (R R' : A -> Prop) :
  keeps I m R -> (forall a, R a -> R' a) -> keeps I m R'.
Proof. intros Hm HR c Hc. destruct (Hm c Hc). split; [done|auto]. Qed.

Lemma keeps_any {A} I (m : T S A) R : keeps I m R -> keeps I m (fun _ => True).
Proof. intros H. by eapply keeps_weaken. Qed.

Lemma keeps_lift {A} I (m : M A) : keeps I (lift m) (fun _ => True).
Proof. intros c Hc. unfold lift. by destruct (m (cw c)). Qed.

Lemma keeps_load `{E : Env} {A} (I : S -> Prop) (f : S -> A) (R : A -> Prop) :
  (forall s, I s -> R (f s)) -> keeps I (load f) (fun r => match r with Ok a => R a | Err _ => True end).
Proof.
  intros HR c Hc. unfold load. destruct (load_fails _); cbn; (split; [done|]); intros ? [= <-]; [done|by apply HR].
Qed.

Lemma keeps_save `{E : Env} {A} (I : S -> Prop) (f : time -> S -> A * S) :
  (forall t s, I s -> I (snd (f t s))) -> keeps I (save f) (fun _ => True).
Proof.
  intros Hf c Hc. unfold save. destruct (write_fails _); [done|]. specialize (Hf (CURRENT_TIMESTAMP (cw c)) _ Hc).
  by destruct (f _ _).
Qed.

Lemma keeps_save_ `{E : Env} (I : S -> Prop) (f : time -> S -> S) :
  (forall t s, I s -> I (f t s)) -> keeps I (save_ f) (fun _ => True).
Proof.
  intros Hf. eapply keeps_bind; [apply keeps_save; intros; by apply Hf|]. intros. by apply keeps_ret.
Qed.

Lemma keeps_must_save `{E : Env} {A} (I : S -> Prop) during (f : time -> S -> A * S) :
  (forall t s, I s -> I (snd (f t s))) -> keeps I (must_save during f) (fun _ => True).
Proof.
  intros Hf. eapply keeps_bind; [by apply keeps_save|]. intros [a|] _; [by apply keeps_ret|apply keeps_exit].
Qed.

Lemma keeps_or_reject {A} I (r : res string A) (R : A -> Prop) :
  (forall a, r = Ok a -> R a) -> keeps I (or_reject r) R.
Proof. intros H. destruct r; [by apply keeps_ret, H|apply keeps_exit]. Qed.

Lemma keeps_or_throw {A} I during (r : res string A) (R : A -> Prop) :
  (forall a, r = Ok a -> R a) -> keeps I (or_throw during r) R.
Proof. intros H. destruct r; [by apply keeps_ret, H|apply keeps_exit]. Qed.

Lemma keeps_guard I (b : bool) msg : keeps I (guard_reject b msg) (fun _ => b = true).
Proof. destruct b; [by apply keeps_ret|apply keeps_exit]. Qed.

(** The handler as a whole. *)
Lemma keeps_outcome I (m : T S Result) R c : keeps I m R -> I (cs c) -> I (cs (snd (outcome_of m c))).
Proof. intros Hm Hc. destruct (Hm c Hc) as [H _]. unfold outcome_of. by destruct (m c) as [[?|?] ?]. Qed.
End Tool.

(** [LogDestructiveAction(ctx, tool, action, target)] *)
Definition log_destructive {S} `{E : Env} (tool action target : string) : T S unit :=
  lift (LogDestructiveAction tool action target).

(** The approval gate: approved, or the handler ends by asking. *)
Definition approval_gate {S} `{E : Env} (key question detail : string) : T S unit :=
  approved ← lift (CheckApproval key);
  if (approved : bool) then mret tt
  else r ← lift (RequestApproval key question detail); answer r.

Lemma keeps_gate {S} `{E : Env} (I : S -> Prop) key question detail :
  keeps I (approval_gate key question detail) (fun _ => True).
Proof.
  eapply keeps_bind; [apply keeps_lift|]. intros [] _; [by apply keeps_ret|].
  eapply keeps_bind; [apply keeps_lift|]. intros r _. apply keeps_exit.
Qed.

(** With the value itself as the postcondition. *)
Lemma keeps_or_reject_eq {S A} (I : S -> Prop) (r : res string A) : keeps I (or_reject r) (fun a => r = Ok a).
Proof. by apply keeps_or_reject. Qed.
Lemma keeps_or_throw_eq {S A} (I : S -> Prop) during (r : res string A) : keeps I (or_throw during r) (fun a => r = Ok a).
Proof. by apply keeps_or_throw. Qed.

Lemma keeps_load_any {S A} `{E : Env} (I : S -> Prop) (f : S -> A) : keeps I (load f) (fun _ => True).
Proof. intros c Hc. split; [done|]. done. Qed.

Create HintDb keeps.
#[export] Hint Resolve keeps_exit keeps_lift keeps_gate keeps_guard keeps_or_reject_eq keeps_or_throw_eq keeps_load_any : keeps.
#[export] Hint Extern 1 (keeps _ (answer _) _) => apply keeps_exit : keeps.
#[export] Hint Extern 1 (keeps _ (reject _) _) => apply keeps_exit : keeps.
#[export] Hint Extern 1 (keeps _ (throw _) _) => apply keeps_exit : keeps.
#[export] Hint Extern 1 (keeps _ crash _) => apply keeps_exit : keeps.
#[export] Hint Extern 1 (keeps _ (log_destructive _ _ _) _) => apply keeps_lift : keeps.

(** Walks through a handler: binds, matches on what was read, the effects the
    hint database knows; leaves the writes and the values returned. *)
Ltac keep_step :=
  lazymatch goal with
  | |- keeps _ (mbind _ _) _ => eapply keeps_bind; [|let H := fresh "Hp" in intros ? H; cbv beta in H]
  | |- keeps _ (mret _) (fun _ => True) => by apply keeps_ret
  | |- keeps _ (mret _) ?R => is_evar R; by apply (keeps_ret _ _ (fun _ => True))
  | |- keeps _ (let '_ := ?x in _) _ => destruct x
  | |- keeps ?I (match ?x with _ => _ end) ?R =>
      tryif is_evar R then (let A := match type of R with ?A -> _ => A end in unify R (fun _ : A => True)) else idtac;
      destruct x eqn:?
  | |- keeps _ (let x := _ in _) _ => cbv zeta
  | |- keeps _ (must_save _ _) _ => apply keeps_must_save; intros ? ? ?
  | |- keeps _ (save_ _) _ => apply keeps_save_; intros ? ? ?
  | |- keeps _ _ _ => solve [eauto with keeps | eapply keeps_any; eauto with keeps]
  end.
Ltac keep_tac := repeat (cbv beta zeta; keep_step); cbv beta in *.

(** ** Where a handler leads *)

(** From the store [s], [m] returns a value and a store that satisfy [Q], or ends
    the handler with an exit and a store that satisfy [X]. *)
Definition wp {S A} (s : S) (m : T S A) (Q : A -> S -> Prop) (X : Exit -> S -> Prop) : Prop :=
  forall c, cs c = s -> match m c with (Ok a, c') => Q a (cs c') | (Err x, c') => X x (cs c') end.

(** No access to the database fails. *)
Class Calm `{E : Env} : Prop := {
  loads_work : forall n, load_fails n = None;
  writes_work : forall n, write_fails n = false;
}.

Section Wp.
Context {S : Type}.
Implicit Types (s : S) (X : Exit -> S -> Prop).

Lemma wp_ret {A} s (a : A) (Q : A -> S -> Prop) X : Q a s -> wp s (mret a) Q X.
Proof. by intros H c <-. Qed.

Lemma wp_exit {A} s x (Q : A -> S -> Prop) X : X x s -> wp s (fun c => (Err x, c)) Q X.
Proof. by intros H c <-. Qed.

Lemma wp_bind {A B} s (m : T S A) (k : A -> T S B) Q X :
  wp s m (fun a s' => wp s' (k a) Q X) X -> wp s (m ≫= k) Q X.
Proof.
  intros H c Hc. specialize (H c Hc). unfold mbind, T_bind. destruct (m c) as [[a|x] c1]; [by apply H|done].
Qed.

Lemma wp_mono {A} s (m : T S A) (Q Q' : A -> S -> Prop) X X' :
  wp s m Q X -> (forall a s', Q a s' -> Q' a s') -> (forall x s', X x s' -> X' x s') -> wp s m Q' X'.
Proof. intros H HQ HX c Hc. specialize (H c Hc). destruct (m c) as [[a|x] c1]; auto. Qed.

(** Code that leaves the store as it is. *)
Lemma wp_keeps {A} s (m : T S A) (Q : A -> S -> Prop) X :
  keeps (fun s' => s' = s) m (fun _ => True) -> (forall a, Q a s) -> (forall x, X x s) -> wp s m Q X.
Proof. intros H HQ HX c Hc. destruct (H c Hc) as [E _]. destruct (m c) as [[a|x] c1]; cbn in E; rewrite E; auto. Qed.

Lemma wp_guard s (b : bool) msg (Q : unit -> S -> Prop) X :
  (b = true -> Q tt s) -> (b = false -> X (Returned (failure msg)) s) -> wp s (guard_reject b msg) Q X.
Proof. intros H1 H2. destruct b; [apply wp_ret|apply wp_exit]; auto. Qed.

Lemma wp_or_reject {A} s (r : res string A) (Q : A -> S -> Prop) X :
  (forall a, r = Ok a -> Q a s) -> (forall e, r = Err e -> X (Returned (failure e)) s) -> wp s (or_reject r) Q X.
Proof. intros H1 H2. destruct r; [apply wp_ret|apply wp_exit]; auto. Qed.

Lemma wp_lift {A} s (m : M A) (Q : A -> S -> Prop) X : (forall a, Q a s) -> wp s (lift m) Q X.
Proof. intros H c Hc. unfold lift. destruct (m (cw c)). cbn. rewrite Hc. apply H. Qed.

Lemma wp_load `{E : Env} {A} s (f : S -> A) (Q : res string A -> S -> Prop) X :
  Q (Ok (f s)) s -> (forall e, Q (Err e) s) -> wp s (load f) Q X.
Proof. intros H1 H2 c <-. unfold load. destruct (load_fails _); cbn; auto. Qed.

Lemma wp_load_calm `{E : Env} `{K : !Calm} {A} s (f : S -> A) (Q : res string A -> S -> Prop) X :
  Q (Ok (f s)) s -> wp s (load f) Q X.
Proof. intros H c <-. unfold load. by rewrite loads_work. Qed.

Lemma wp_save `{E : Env} {A} s (f : time -> S -> A * S) (Q : option A -> S -> Prop) X :
  (forall t, Q (Some (fst (f t s))) (snd (f t s))) -> Q None s -> wp s (save f) Q X.
Proof.
  intros H1 H2 c <-. unfold save. destruct (write_fails _); cbn; [done|].
  specialize (H1 (CURRENT_TIMESTAMP (cw c))). by destruct (f _ _).
Qed.

Lemma wp_save_calm `{E : Env} `{K : !Calm} {A} s (f : time -> S -> A * S) (Q : option A -> S -> Prop) X :
  (forall t, Q (Some (fst (f t s))) (snd (f t s))) -> wp s (save f) Q X.
Proof.
  intros H c <-. unfold save. rewrite writes_work. specialize (H (CURRENT_TIMESTAMP (cw c))). by destruct (f _ _).
Qed.

Lemma wp_save__calm `{E : Env} `{K : !Calm} s (f : time -> S -> S) (Q : bool -> S -> Prop) X :
  (forall t, Q true (f t s)) -> wp s (save_ f) Q X.
Proof. intros H. unfold save_. apply wp_bind, wp_save_calm. intros t. apply wp_ret, H. Qed.

Lemma wp_must_save_calm `{E : Env} `{K : !Calm} {A} s during (f : time -> S -> A * S) (Q : A -> S -> Prop) X :
  (forall t, Q (fst (f t s)) (snd (f t s))) -> wp s (must_save during f) Q X.
Proof. intros H. unfold must_save. apply wp_bind, wp_save_calm. intros t. apply wp_ret, H. Qed.

(** [m] keeps the invariant and does not panic. *)
Definition steady {A} (I : S -> Prop) (m : T S A) : Prop :=
  forall s, I s -> wp s m (fun _ => I) (fun x s' => x <> Panicked /\ I s').

Lemma steady_ret {A} I (a : A) : steady I (mret a).
Proof. intros s Hs. by apply wp_ret. Qed.
Lemma steady_exit {A} I x : x <> Panicked -> steady I (fun c => (Err x, c) : res Exit A * Ctx S).
Proof. intros Hx s Hs. by apply wp_exit. Qed.
Lemma steady_bind {A B} I (m : T S A) (k : A -> T S B) : steady I m -> (forall a, steady I (k a)) -> steady I (m ≫= k).
Proof. intros Hm Hk s Hs. apply wp_bind. eapply wp_mono; [by apply Hm| |done]. intros a s' Hs'. by apply Hk. Qed.
Lemma steady_guard I b msg : steady I (guard_reject b msg).
Proof. intros s Hs. by apply wp_guard. Qed.
Lemma steady_or_reject {A} I (r : res string A) : steady I (or_reject r).
Proof. intros s Hs. by apply wp_or_reject. Qed.
Lemma steady_or_throw {A} I during (r : res string A) : steady I (or_throw during r).
Proof. intros s Hs. destruct r; [by apply wp_ret|by apply wp_exit]. Qed.
Lemma steady_lift {A} I (m : M A) : steady I (lift m).
Proof. intros s Hs. by apply wp_lift. Qed.
Lemma steady_load `{E : Env} {A} I (f : S -> A) : steady I (load f).
Proof. intros s Hs. by apply wp_load. Qed.
Lemma steady_save `{E : Env} {A} (I : S -> Prop) (f : time -> S -> A * S) :
  (forall t s, I s -> I (snd (f t s))) -> steady I (save f).
Proof. intros Hf s Hs. apply wp_save; auto. Qed.
Lemma steady_save_ `{E : Env} (I : S -> Prop) (f : time -> S -> S) : (forall t s, I s -> I (f t s)) -> steady I (save_ f).
Proof. intros Hf. apply steady_bind; [by apply steady_save|]. intros o. apply steady_ret. Qed.
Lemma steady_must_save `{E : Env} {A} (I : S -> Prop) during (f : time -> S -> A * S) :
  (forall t s, I s -> I (snd (f t s))) -> steady I (must_save during f).
Proof. intros Hf. apply steady_bind; [by apply steady_save|]. intros [a|]; [apply steady_ret|by apply steady_exit]. Qed.

(** [m] only reads, and does not end the handler. *)
Definition reads {A} (m : T S A) : Prop := forall s, wp s m (fun _ s' => s' = s) (fun _ _ => False).

Lemma reads_ret {A} (a : A) : reads (mret a).
Proof. intros s. by apply wp_ret. Qed.
Lemma reads_bind {A B} (m : T S A) (k : A -> T S B) : reads m -> (forall a, reads (k a)) -> reads (m ≫= k).
Proof. intros Hm Hk s. apply wp_bind. eapply wp_mono; [apply Hm| |done]. intros a s' ->. apply Hk. Qed.
Lemma reads_load `{E : Env} {A} (f : S -> A) : reads (load f).
Proof. intros s. by apply wp_load. Qed.
Lemma wp_reads {A} s (m : T S A) (Q : A -> S -> Prop) X : reads m -> (forall a, Q a s) -> wp s m Q X.
Proof. intros Hm HQ. eapply wp_mono; [apply Hm| |done]. intros a s' ->. apply HQ. Qed.
Lemma keeps_reads {A} (I : S -> Prop) (m : T S A) : reads m -> keeps I m (fun _ => True).
Proof. intros Hm c Hc. specialize (Hm (cs c) c eq_refl). destruct (m c) as [[a|x] c']; [|done]. cbn. by rewrite Hm. Qed.
Lemma steady_reads {A} (I : S -> Prop) (m : T S A) : reads m -> steady I m.
Proof. intros Hm s Hs. by apply wp_reads. Qed.

(** The handler as a whole. *)
Lemma wp_outcome s (m : T S Result) (Q : Exit -> S -> Prop) c :
  wp s m (fun r => Q (Returned r)) Q -> cs c = s -> Q (fst (outcome_of m c)) (cs (snd (outcome_of m c))).
Proof. intros H Hc. specialize (H c Hc). unfold outcome_of. by destruct (m c) as [[r|x] c1]. Qed.
End Wp.

Create HintDb steady.
#[export] Hint Resolve steady_ret steady_guard steady_or_reject steady_or_throw steady_lift steady_load : steady.
#[export] Hint Extern 1 (steady _ (answer _)) => by apply steady_exit : steady.
#[export] Hint Extern 1 (steady _ (reject _)) => by apply steady_exit : steady.
#[export] Hint Extern 1 (steady _ (throw _)) => by apply steady_exit : steady.

Create HintDb reads.
#[export] Hint Resolve reads_ret reads_load : reads.
#[export] Hint Extern 2 (keeps _ _ _) => apply keeps_reads; solve [eauto with reads] : keeps.
#[export] Hint Extern 2 (steady _ _) => apply steady_reads; solve [eauto with reads] : steady.
Ltac reads_tac :=
  repeat (cbv beta zeta; lazymatch goal with
    | |- reads (mbind _ _) => apply reads_bind; [|intros ?]
    | |- reads (match ?x with _ => _ end) => destruct x eqn:?
    | |- reads _ => solve [eauto with reads]
    end).

Ltac steady_step :=
  lazymatch goal with
  | |- steady _ (mbind _ _) => apply steady_bind; [|intros ?]
  | |- steady _ (must_save _ _) => apply steady_must_save; intros ? ? ?
  | |- steady _ (save_ _) => apply steady_save_; intros ? ? ?
  | |- steady _ (match ?x with _ => _ end) => destruct x eqn:?
  | |- steady _ (let x := _ in _) => cbv zeta
  | |- steady _ _ => solve [eauto with steady]
  end.
Ltac steady_tac := repeat (cbv beta zeta; steady_step).

(** ** Arguments and results *)

(** [v, ok := args[k].([]interface{})] and [.(map[string]interface{})] *)
Definition arg_list (k : string) (args : Args) : option (list json) :=
  match arg k args with Some (JArr l) => Some l | _ => None end.
Definition arg_object (k : string) (args : Args) : option (list (string * json)) :=
  match arg k args with Some (JObj m) => Some m | _ => None end.
Definition arg_bool (k : string) (args : Args) : bool := OptionalBool args k false.
Definition has_arg (k : string) (args : Args) : bool := match arg k args with Some _ => true | None => false end.

(** The strings of a list, other elements skipped. *)
Definition only_strings (l : list json) : list string :=
  omap (fun j => match j with JStr s => Some s | _ => None end) l.

(** A slice as JSON: nil is null. *)
Definition slice {A} (f : A -> json) (l : list A) : json := match l with [] => JNull | _ => JArr (map f l) end.
Definition int (n : Z) : json := JNum (Itoa n).
