(* ===== verification/Tables.v ===== *)
(** * tools/tables.go: manage_schema and manage_data

    The tools the brain keeps an owner's tables with.  [Store] is the part of the
    site database they and manage_endpoints write: the tables themselves, behind
    [SQL], the registry dynamic_tables, and the endpoints' configuration.  Every
    statement sent for a table of the owner is kept as text with its arguments. *)

From Stdlib Require Import ZArith Lia Ascii String List Bool.
From stdpp Require Import base list strings gmap sorting.
From S2P Require Import Prelude GoStrings GoTime JSONText PlanStore World ToolCore Approval Security SiteTables ToolMonad.

Local Open Scope string_scope.

(** ** Names *)

Definition allowedColumnTypes (t : string) : option string :=
  if existsb (String.eqb t) ["TEXT"; "INTEGER"; "REAL"; "BLOB"; "BOOLEAN"] then Some t
  else if existsb (String.eqb t) ["PASSWORD"; "ENCRYPTED"] then Some "TEXT"
  else None.

Definition secureColumnKinds (t : string) : option string :=
  if (t =? "PASSWORD")%string then Some "hash" else if (t =? "ENCRYPTED")%string then Some "encrypt" else None.

Definition systemTables : list string :=
  ["pages"; "page_versions"; "assets"; "files"; "file_versions"; "brain_log"; "memory"; "chat_messages";
   "questions"; "answers"; "dynamic_tables"; "api_endpoints"; "auth_endpoints"; "oauth_providers"; "webhooks";
   "webhook_subscriptions"; "webhook_logs"; "analytics"; "secrets"; "scheduled_tasks"; "task_runs";
   "activity_log"; "approval_rules"; "site_snapshots"; "service_providers"; "llm_log"; "layouts";
   "layout_versions"; "pipeline_state"; "stage_log"; "upload_endpoints"; "stream_endpoints"; "redirects";
   "ws_endpoints"].

Definition sanitizedTableName (name : string) : res string string :=
  if negb (validIdentifier name) then
    Err ("invalid table name: " ++ name ++ " (must be alphanumeric/underscore, start with letter)")
  else if existsb (String.eqb name) systemTables then Err ("cannot use reserved system table: " ++ name)
  else Ok name.

(** ** Filters *)

Definition allowedOps : list string :=
  ["="; "!="; "<"; ">"; "<="; ">="; "LIKE"; "NOT LIKE"; "IS NULL"; "IS NOT NULL"].

(** [s, _ := m[k].(string)] on a decoded object, and whether it has the member. *)
Definition member_string (k : string) (m : list (string * json)) : string := arg_string k m.

(** One filter: its condition and its arguments. *)
Definition build_clause (f : json) : res string (string * list json) :=
  match f with
  | JObj fm =>
      let col := member_string "column" fm in
      let op := member_string "op" fm in
      if negb (validIdentifier col) then Err ("invalid column name in filter: " ++ col)
      else
        let op := ToUpper (TrimSpace op) in
        if negb (existsb (String.eqb op) allowedOps) then Err ("unsupported operator: " ++ op)
        else if (op =? "IS NULL")%string || (op =? "IS NOT NULL")%string then Ok (col ++ " " ++ op, [])
        else match arg "value" fm with
             | None => Err ("filter on " ++ col ++ " requires a value")
             | Some v => Ok (col ++ " " ++ op ++ " ?", [v])
             end
  | _ => Err "each filter must be an object with column, op, and value"
  end.

Fixpoint build_clauses (filters : list json) : res string (list string * list json) :=
  match filters with
  | [] => Ok ([], [])
  | f :: r =>
      match build_clause f with
      | Err e => Err e
      | Ok (c, ps) =>
          match build_clauses r with
          | Err e => Err e
          | Ok (cs, qs) => Ok (c :: cs, (ps ++ qs)%list)
          end
      end
  end.

Definition buildWhereClause (filters : list json) : res string (string * list json) :=
  match filters with
  | [] => Ok ("", [])
  | _ => match build_clauses filters with
         | Err e => Err e
         | Ok (cs, ps) => Ok (" WHERE " ++ Join cs " AND ", ps)
         end
  end.

(** ** The store *)

(** A NULL or anything that is no object of texts leaves the map nil. *)
Definition secure_map (raw : option string) : option (gmap string string) :=
  match raw with
  | None => None
  | Some raw =>
      match Unmarshal raw with
      | Ok (JObj m) =>
          match mapM (fun kv => match snd kv with
                                | JStr s => Some (fst kv, s) | JNull => Some (fst kv, "") | _ => None end) m with
          | Some l => Some (go_map l)
          | None => None
          end
      | _ => None
      end
  end.

Record UploadRow := { up_id : Z; up_path : string; up_types : string; up_max : Z; up_auth : bool; up_table : string }.
Record StreamRow := { sr_id : Z; sr_path : string; sr_types : string; sr_auth : bool }.
Record WsRow := { ws_id : Z; ws_path : string; ws_table : string; ws_room : string; ws_auth : bool }.
Record OAuthRow := {
  oa_id : Z; oa_name : string; oa_display : string; oa_client : string; oa_secret_name : string;
  oa_authorize : string; oa_token : string; oa_userinfo : string; oa_scopes : string; oa_username : string;
  oa_path : string; oa_enabled : bool; oa_created : time;
}.

Record Store `{Q : SQL} := {
  st_user : tables;                           (* the owner's tables *)
  st_dynamic : list DynRow;
  st_api : list ApiRow;
  st_auth : list AuthRow;
  st_upload : list UploadRow;
  st_stream : list StreamRow;
  st_ws : list WsRow;
  st_oauth : list OAuthRow;
  st_secrets : gmap string string;            (* encrypted, by name *)
  st_sent : list (string * list json);        (* statements on the owner's tables, latest first *)
}.

(** What a row of the registry is updated with, or a new row. *)
Definition upsert_dynamic (name schema secure : string) (t : time) (l : list DynRow) : list DynRow :=
  if existsb (fun r => (dt_name r =? name)%string) l
  then update_where (fun r => (dt_name r =? name)%string)
         (fun r => {| dt_id := dt_id r; dt_name := name; dt_schema := schema; dt_secure := Some secure; dt_created := dt_created r |}) l
  else (l ++ [{| dt_id := next_id dt_id l; dt_name := name; dt_schema := schema; dt_secure := Some secure; dt_created := t |}])%list.

(** [ORDER BY ... DESC] a time or a number, the largest first: the order of equals is
    left open. *)
Class Newest := {
  newest : forall {A}, (A -> Z) -> list A -> list A;
  newest_perm : forall {A} (key : A -> Z) l, newest key l ≡ₚ l;
  newest_sorted : forall {A} (key : A -> Z) l, Sorted (fun a b => (key b <= key a)%Z) (newest key l);
}.

Section Tables.
Context `{C : Crypto} `{Q : SQL} `{O : MapOrder} `{E : Env} `{F : Formats}.
Implicit Types (s : Store) (args : Args).

Definition set_user (u : tables) s : Store :=
  {| st_user := u; st_dynamic := st_dynamic s; st_api := st_api s; st_auth := st_auth s; st_upload := st_upload s;
     st_stream := st_stream s; st_ws := st_ws s; st_oauth := st_oauth s; st_secrets := st_secrets s;
     st_sent := st_sent s |}.
Definition set_dynamic (l : list DynRow) s : Store :=
  {| st_user := st_user s; st_dynamic := l; st_api := st_api s; st_auth := st_auth s; st_upload := st_upload s;
     st_stream := st_stream s; st_ws := st_ws s; st_oauth := st_oauth s; st_secrets := st_secrets s;
     st_sent := st_sent s |}.
Definition set_api (l : list ApiRow) s : Store :=
  {| st_user := st_user s; st_dynamic := st_dynamic s; st_api := l; st_auth := st_auth s; st_upload := st_upload s;
     st_stream := st_stream s; st_ws := st_ws s; st_oauth := st_oauth s; st_secrets := st_secrets s;
     st_sent := st_sent s |}.
Definition set_auth (l : list AuthRow) s : Store :=
  {| st_user := st_user s; st_dynamic := st_dynamic s; st_api := st_api s; st_auth := l; st_upload := st_upload s;
     st_stream := st_stream s; st_ws := st_ws s; st_oauth := st_oauth s; st_secrets := st_secrets s;
     st_sent := st_sent s |}.
Definition set_upload (l : list UploadRow) s : Store :=
  {| st_user := st_user s; st_dynamic := st_dynamic s; st_api := st_api s; st_auth := st_auth s; st_upload := l;
     st_stream := st_stream s; st_ws := st_ws s; st_oauth := st_oauth s; st_secrets := st_secrets s; st_sent := st_sent s |}.
Definition set_stream (l : list StreamRow) s : Store :=
  {| st_user := st_user s; st_dynamic := st_dynamic s; st_api := st_api s; st_auth := st_auth s; st_upload := st_upload s;
     st_stream := l; st_ws := st_ws s; st_oauth := st_oauth s; st_secrets := st_secrets s; st_sent := st_sent s |}.
Definition set_ws (l : list WsRow) s : Store :=
  {| st_user := st_user s; st_dynamic := st_dynamic s; st_api := st_api s; st_auth := st_auth s; st_upload := st_upload s;
     st_stream := st_stream s; st_ws := l; st_oauth := st_oauth s; st_secrets := st_secrets s; st_sent := st_sent s |}.
Definition set_oauth (l : list OAuthRow) s : Store :=
  {| st_user := st_user s; st_dynamic := st_dynamic s; st_api := st_api s; st_auth := st_auth s; st_upload := st_upload s;
     st_stream := st_stream s; st_ws := st_ws s; st_oauth := l; st_secrets := st_secrets s; st_sent := st_sent s |}.
Definition set_secrets (l : gmap string string) s : Store :=
  {| st_user := st_user s; st_dynamic := st_dynamic s; st_api := st_api s; st_auth := st_auth s; st_upload := st_upload s;
     st_stream := st_stream s; st_ws := st_ws s; st_oauth := st_oauth s; st_secrets := l; st_sent := st_sent s |}.
Definition add_sent (st : string * list json) s : Store :=
  {| st_user := st_user s; st_dynamic := st_dynamic s; st_api := st_api s; st_auth := st_auth s;
     st_upload := st_upload s; st_stream := st_stream s; st_ws := st_ws s; st_oauth := st_oauth s;
     st_secrets := st_secrets s; st_sent := st :: st_sent s |}.

(** [ctx.DB.Exec] and [ctx.DB.Query] on a table of the owner. *)
Definition db_exec (q : string) (args : list json) : T Store (res string (Z * Z)) := fun c =>
  let '(r, u) := sql_exec q args (st_user (cs c)) in
  (Ok r, set_cs (set_user u (add_sent (q, args) (cs c))) c).
Definition db_query (q : string) (args : list json) : T Store (res string (list (list (string * json)))) := fun c =>
  (Ok (sql_query q args (st_user (cs c))), set_cs (add_sent (q, args) (cs c)) c).

(** [QueryRow(q).Scan(&n)] for an int. *)
Definition query_int (q : string) (args : list json) : T Store (res string Z) :=
  r ← db_query q args;
  mret match r with
       | Err e => Err e
       | Ok (((_, v) :: _) :: _) => match scan_int v with Some n => Ok n | None => Err "sql: Scan error" end
       | Ok _ => Err "sql: no rows in result set"
       end.

(** [LoadSecureColumns] *)
Definition LoadSecureColumns (tableName : string) : T Store (option (gmap string string)) :=
  r ← load (fun s => List.find (fun d => (dt_name d =? tableName)%string) (st_dynamic s));
  mret match r with Ok (Some d) => secure_map (dt_secure d) | _ => None end.

Definition secure_kind (secureCols : option (gmap string string)) (col : string) : option string :=
  match secureCols with Some m => m !! col | None => None end.
Definition is_hash_column (secureCols : option (gmap string string)) (col : string) : bool :=
  match secure_kind secureCols col with Some k => (k =? "hash")%string | None => false end.

(** [SELECT COUNT( * ) FROM dynamic_tables WHERE table_name = ?]: positive. *)
Definition registered_table (tableName : string) : T Store bool :=
  r ← load (fun s => existsb (fun d => (dt_name d =? tableName)%string) (st_dynamic s));
  mret match r with Ok b => b | Err _ => false end.

(** ** manage_schema *)

(** The SQL type and, for a secure column, the kind of a logical type. *)
Definition column_type (colName : string) (colType : json) (hint : string) : res string (string * option string) :=
  if negb (validIdentifier colName) then Err ("invalid column name: " ++ colName)
  else match colType with
       | JStr ty =>
           let ty := ToUpper ty in
           match allowedColumnTypes ty with
           | None => Err ("unsupported column type: " ++ ty ++ hint)
           | Some sqlType => Ok (sqlType, secureColumnKinds ty)
           end
       | _ => Err ("column type must be a string for " ++ colName)
       end.

Definition mark_secure (colName : string) (kind : option string) (m : gmap string string) : gmap string string :=
  match kind with Some k => <[colName := k]> m | None => m end.

Definition allowed_hint : string := " (allowed: TEXT, INTEGER, REAL, BOOLEAN, PASSWORD, ENCRYPTED)".

Fixpoint column_defs (l : list (string * json)) (defs : list string) (secure : gmap string string)
    : res string (list string * gmap string string) :=
  match l with
  | [] => Ok (defs, secure)
  | (colName, ty) :: r =>
      match column_type colName ty allowed_hint with
      | Err e => Err e
      | Ok (sqlType, kind) => column_defs r (defs ++ [(colName ++ " " ++ sqlType)%string])%list (mark_secure colName kind secure)
      end
  end.

Definition create_text (table : string) (defs : list string) : string :=
  "CREATE TABLE IF NOT EXISTS " ++ table ++ " (id INTEGER PRIMARY KEY AUTOINCREMENT, " ++ Join defs ", "
  ++ ", created_at DATETIME DEFAULT CURRENT_TIMESTAMP)".

(** A line break of the raw string literals, with [n] tabs. *)
Definition line (n : nat) : string := s1 (byte_of 10) ++ String.concat "" (repeat (s1 (byte_of 9)) n).

(** The four statements of [createFTSIndex], with what each is for. *)
Definition fts_statements (tableName : string) (columns : list string) : list (string * string) :=
  let ftsTable := tableName ++ "_fts" in
  let colList := Join columns ", " in
  let newColList := Join (map (fun c => "new." ++ c) columns) ", " in
  let oldColList := Join (map (fun c => "old." ++ c) columns) ", " in
  let trigger suffix event body :=
    "CREATE TRIGGER IF NOT EXISTS " ++ tableName ++ suffix ++ " AFTER " ++ event ++ " ON " ++ tableName ++ " BEGIN"
    ++ body ++ line 2 ++ "END" in
  let insert := line 3 ++ "INSERT INTO " ++ ftsTable ++ "(rowid, " ++ colList ++ ") VALUES (new.id, " ++ newColList ++ ");" in
  let remove := line 3 ++ "INSERT INTO " ++ ftsTable ++ "(" ++ ftsTable ++ ", rowid, " ++ colList
                ++ ") VALUES('delete', old.id, " ++ oldColList ++ ");" in
  [("creating FTS5 table", "CREATE VIRTUAL TABLE IF NOT EXISTS " ++ ftsTable ++ " USING fts5(" ++ colList ++ ", content="
                           ++ tableName ++ ", content_rowid=id)");
   ("creating INSERT trigger", trigger "_ai" "INSERT" insert);
   ("creating DELETE trigger", trigger "_ad" "DELETE" remove);
   ("creating UPDATE trigger", trigger "_au" "UPDATE" (remove ++ insert))].

Fixpoint exec_all (l : list (string * string)) : T Store (res string unit) :=
  match l with
  | [] => mret (Ok tt)
  | (what, q) :: r =>
      o ← db_exec q [];
      match o with
      | Err e => mret (Err (what ++ ": " ++ e))
      | Ok _ => exec_all r
      end
  end.
Definition createFTSIndex (tableName : string) (columns : list string) : T Store (res string unit) :=
  exec_all (fts_statements tableName columns).

(** The searchable columns that exist and are of type TEXT. *)
Definition searchable (columnsRaw : gmap string json) (raw : list json) : list string :=
  omap (fun sc => match sc with
                  | JStr colName =>
                      if validIdentifier colName then
                        match columnsRaw !! colName with
                        | Some (JStr ct) => if EqualFold ct "TEXT" then Some colName else None
                        | _ => None
                        end
                      else None
                  | _ => None
                  end) raw.

Definition create args : T Store Result :=
  let tableName := arg_string "table_name" args in
  let columnsRaw := default [] (arg_object "columns" args) in
  guard_reject (negb ((tableName =? "")%string || (List.length columnsRaw =? 0)%nat)) "table_name and columns are required";;
  physicalName ← or_reject (sanitizedTableName tableName);
  defs ← or_reject (column_defs (entries (go_map columnsRaw)) [] ∅);
  let '(colDefs, secureCols) := defs in
  created ← db_exec (create_text physicalName colDefs) [];
  or_throw "creating table" created;;
  must_save "recording dynamic table" (fun t s =>
    (tt, set_dynamic (upsert_dynamic tableName (Marshal (any_value (JObj columnsRaw))) (Marshal (enc_gmap secureCols)) t
                        (st_dynamic s)) s));;
  let searchableCols := match arg_list "searchable_columns" args with
                        | Some l => searchable (go_map columnsRaw) l
                        | None => []
                        end in
  fts ← match searchableCols with [] => mret (Ok tt) | _ => createFTSIndex physicalName searchableCols end;
  mret (success ([("columns", any_value (JObj columnsRaw))]
                 ++ match fts with
                    | Err e => [("fts_warning", JStr ("FTS5 index creation failed: " ++ e))]
                    | Ok _ => match searchableCols with [] => [] | _ => [("fts_columns", JArr (map JStr searchableCols))] end
                    end
                 ++ [("secure_columns", enc_gmap secureCols); ("table", JStr tableName)])%list).

(** The loop over [add_columns]: columns added and the secure columns then. *)
Fixpoint add_columns (physicalName : string) (l : list (string * json)) (secure : gmap string string)
    : T Store (list string * gmap string string) :=
  match l with
  | [] => mret ([], secure)
  | (colName, ty) :: r =>
      t ← or_reject (column_type colName ty "");
      o ← db_exec ("ALTER TABLE " ++ physicalName ++ " ADD COLUMN " ++ colName ++ " " ++ fst t) [];
      or_throw ("adding column " ++ colName) o;;
      p ← add_columns physicalName r (mark_secure colName (snd t) secure);
      mret (colName :: fst p, snd p)
  end.

Definition alter_add (physicalName : string) (raw : option (list (string * json))) (secure : gmap string string)
    : T Store (list string * gmap string string) :=
  match raw with
  | Some m => add_columns physicalName (entries (go_map m)) secure
  | None => mret ([], secure)
  end.

(** The names to drop; the protected ones end the call. *)
Fixpoint cols_to_drop (l : list json) : res string (list string) :=
  match l with
  | [] => Ok []
  | JStr colName :: r =>
      if (colName =? "")%string then cols_to_drop r
      else if (colName =? "id")%string || (colName =? "created_at")%string
      then Err ("cannot drop protected column: " ++ colName)
      else match cols_to_drop r with Ok cs => Ok (colName :: cs) | Err e => Err e end
  | _ :: r => cols_to_drop r
  end.

Fixpoint drop_columns (physicalName : string) (l : list string) (secure : gmap string string)
    : T Store (gmap string string) :=
  match l with
  | [] => mret secure
  | colName :: r =>
      o ← db_exec ("ALTER TABLE " ++ physicalName ++ " DROP COLUMN " ++ colName) [];
      or_throw ("dropping column " ++ colName) o;;
      drop_columns physicalName r (delete colName secure)
  end.

Definition drop_gate (tableName : string) (colsToDrop : list string) : T Store unit :=
  match colsToDrop with
  | [] => mret tt
  | _ => approval_gate ("drop_columns:" ++ tableName ++ ":" ++ Join colsToDrop ",")
           ("The AI wants to drop column(s) " ++ Join colsToDrop ", " ++ " from table '" ++ tableName
            ++ "'. Data in these columns will be permanently lost. Approve?")
           ("Dropping columns [" ++ Join colsToDrop ", " ++ "] from table '" ++ tableName ++ "'.")
  end.

(** The part of [alter] on [drop_columns]: the columns dropped. *)
Definition alter_drop (tableName physicalName : string) (raw : option (list json)) (secure : gmap string string)
    : T Store (list string * gmap string string) :=
  match raw with
  | None => mret ([], secure)
  | Some l =>
      colsToDrop ← or_reject (cols_to_drop l);
      drop_gate tableName colsToDrop;;
      secure ← drop_columns physicalName colsToDrop secure;
      match colsToDrop with
      | [] => mret tt
      | _ => log_destructive "manage_schema" "alter_drop_columns" (tableName ++ ":[" ++ Join colsToDrop "," ++ "]")
      end;;
      mret (colsToDrop, secure)
  end.

Definition set_secure (tableName secure : string) (l : list DynRow) : list DynRow :=
  update_where (fun r => (dt_name r =? tableName)%string)
    (fun r => {| dt_id := dt_id r; dt_name := dt_name r; dt_schema := dt_schema r; dt_secure := Some secure; dt_created := dt_created r |}) l.

Definition alter args : T Store Result :=
  let tableName := arg_string "table_name" args in
  guard_reject (negb (tableName =? "")%string) "table_name is required";;
  physicalName ← or_reject (sanitizedTableName tableName);
  secureCols ← LoadSecureColumns tableName;
  added ← alter_add physicalName (arg_object "add_columns" args) (default ∅ secureCols);
  dropped ← alter_drop tableName physicalName (arg_list "drop_columns" args) (snd added);
  match fst added, fst dropped with
  | [], [] => reject "no columns to add or drop"
  | _, _ => mret tt
  end;;
  save_ (fun _ s => set_dynamic (set_secure tableName (Marshal (enc_gmap (snd dropped))) (st_dynamic s)) s);;
  mret (success [("added", slice JStr (fst added)); ("dropped", slice JStr (fst dropped)); ("table", JStr tableName)]).

(** A row of [PRAGMA table_info]: name, type, whether it is the primary key. *)
Definition scan_column (r : list (string * json)) : option (string * string * bool) :=
  match map snd r with
  | [cid; JStr name; JStr ty; notNull; _; pk] =>
      match scan_int cid, scan_int notNull, scan_int pk with
      | Some _, Some _, Some p => Some (name, ty, (p =? 1)%Z)
      | _, _, _ => None
      end
  | _ => None
  end.

Definition column_json (secureCols : option (gmap string string)) (col : string * string * bool) : json :=
  let '(name, ty, pk) := col in
  JObj ([("name", JStr name)]
        ++ (if pk then [("primary_key", JBool true)] else [])
        ++ match secure_kind secureCols name with
           | Some k => if (k =? "hash")%string then [("secure", JStr "PASSWORD")]
                       else if (k =? "encrypt")%string then [("secure", JStr "ENCRYPTED")] else []
           | None => []
           end
        ++ [("type", JStr ty)])%list.

Definition describe args : T Store Result :=
  let tableName := arg_string "table_name" args in
  guard_reject (negb (tableName =? "")%string) "table_name is required";;
  physicalName ← or_reject (sanitizedTableName tableName);
  secureCols ← LoadSecureColumns tableName;
  r ← db_query ("PRAGMA table_info(" ++ physicalName ++ ")") [];
  rows ← or_throw "describing table" r;
  match omap scan_column rows with
  | [] => reject "table not found"
  | columns => mret (success [("columns", JArr (map (column_json secureCols) columns)); ("table", JStr tableName)])
  end.

Fixpoint insert_by {A} (key : A -> string) (x : A) (l : list A) : list A :=
  match l with
  | [] => [x]
  | y :: r => if string_leb (key x) (key y) then x :: l else y :: insert_by key x r
  end.
(** [ORDER BY] a text column, of equal rows the first found first. *)
Definition order_by {A} (key : A -> string) (l : list A) : list A := foldr (insert_by key) [] l.

Definition list_tables args : T Store Result :=
  r ← load (fun s => order_by dt_name (st_dynamic s));
  match r with
  | Err e => throw ("listing tables: " ++ e)
  | Ok rows => mret {| Success := true; Error := "";
      Data := Some (slice (fun d => JObj [("created_at", JStr (time_text (dt_created d))); ("schema", JStr (dt_schema d));
                                          ("table_name", JStr (dt_name d))]) rows) |}
  end.

Definition drop args : T Store Result :=
  let tableName := arg_string "table_name" args in
  guard_reject (negb (tableName =? "")%string) "table_name is required";;
  physicalName ← or_reject (sanitizedTableName tableName);
  known ← registered_table tableName;
  guard_reject known "table not found";;
  count ← query_int ("SELECT COUNT(*) FROM " ++ physicalName) [];
  let rowCount := Itoa match count with Ok n => n | Err _ => 0%Z end in
  approval_gate ("drop_table:" ++ tableName)
    ("The AI wants to DROP the table '" ++ tableName ++ "' (" ++ rowCount
     ++ " rows). This will permanently delete all data in the table and remove related API endpoints. This cannot be undone. Approve?")
    ("Dropping table '" ++ tableName ++ "' (" ++ rowCount ++ " rows) and its related endpoints.");;
  o ← db_exec ("DROP TABLE IF EXISTS " ++ physicalName) [];
  or_throw "dropping table" o;;
  must_save "removing table registry entry" (fun _ s =>
    (tt, set_dynamic (List.filter (fun d => negb (dt_name d =? tableName)%string) (st_dynamic s)) s));;
  must_save "removing api endpoints" (fun _ s =>
    (tt, set_api (List.filter (fun a => negb (ar_table a =? tableName)%string) (st_api s)) s));;
  must_save "removing auth endpoints" (fun _ s =>
    (tt, set_auth (List.filter (fun a => negb (au_table a =? tableName)%string) (st_auth s)) s));;
  log_destructive "manage_schema" "drop" tableName;;
  mret (success [("dropped", JStr tableName)]).

(** The dispatch of a tool over its routes, in this monad. *)
Definition dispatch {S} (routes : list (string * ActionHandler (T S Result))) (infer : option (Args -> string)) args
    : T S Result :=
  DispatchAction (fun r _ => mret r) (list_to_map routes) (map fst (entries (list_to_map routes : gmap string _))) infer args.

Definition schema_infer args : string :=
  if has_arg "columns" args then "create" else if has_arg "table_name" args then "describe" else "list".

(** [s, _ := dataMap[k].(string)] of the data of a result. *)
Definition data_string (k : string) (data : option json) : string :=
  match data with Some (JObj m) => arg_string k m | _ => "" end.

Definition SchemaTool_Summarize (result : string) : string :=
  match parseSummaryResult result with
  | None => summarizeTruncate result 200
  | Some (false, _, e) => summarizeError e
  | Some (true, Some (JArr l), _) =>
      dq "{'success':true,'summary':'Listed " ++ Itoa (Z.of_nat (List.length l)) ++ dq " tables'}"
  | Some (true, data, _) =>
      let tableName := data_string "table" data in
      if (tableName =? "")%string then summarizeTruncate result 300
      else dq "{'success':true,'summary':'Table " ++ tableName ++
           match data with
           | Some (JObj m) =>
               match arg "columns" m with
               | Some (JArr cols) => ": " ++ Itoa (Z.of_nat (List.length cols)) ++ dq " columns'}"
               | _ => dq " created'}"
               end
           | _ => dq " created'}"
           end
  end.

Definition SchemaTool_Execute args : T Store Result :=
  dispatch [("create", create); ("alter", alter); ("describe", describe); ("list", list_tables); ("drop", drop)]
    (Some schema_infer) args.
End Tables.

Lemma keeps_dispatch {S} `{O : MapOrder} (I : S -> Prop) (routes : list (string * ActionHandler (T S Result))) infer args :
  (forall name h, In (name, h) routes -> forall args, keeps I (h args) (fun _ => True)) ->
  keeps I (dispatch routes infer args) (fun _ => True).
Proof.
  intros H. unfold dispatch, DispatchAction.
  assert (forall action args, keeps I
    match (list_to_map routes : gmap string (ActionHandler (T S Result))) !! action with
    | Some handler => handler args
    | None => mret (failure ("unknown action " ++ Quote action ++ " — valid actions: "
                ++ joinSorted (map fst (entries (list_to_map routes : gmap string (ActionHandler (T S Result)))))))
    end (fun _ => True)) as Hrun.
  { intros action args0. destruct (_ !! action) as [h|] eqn:Eh; [|by apply keeps_ret].
    apply elem_of_list_to_map_2 in Eh. by eapply H, list_elem_of_In. }
  destruct (RequireAction args) as [a|r]; [apply Hrun|].
  destruct infer as [f|]; cbn zeta; [|by apply keeps_ret]. destruct (f args =? "")%string; [by apply keeps_ret|apply Hrun].
Qed.
