(* ===== verification/SchedulerTool.v ===== *)
(** * tools/scheduler.go: manage_scheduler

    The tool the brain schedules tasks with, on the rows the scheduler works
    through. *)

From Stdlib Require Import ZArith Lia Ascii String List Bool.
From stdpp Require Import base list strings gmap.
From S2P Require Import Prelude GoStrings GoTime JSONText Cron World ToolCore SiteTables ToolMonad Tables Scheduler.

Local Open Scope string_scope.

Definition cron_text (e : cron_err) : string :=
  (fix go (e : cron_err) : string :=
    match e with
    | FieldCount n => "must have 5 fields (minute hour day_of_month month day_of_week), got " ++ Itoa (Z.of_nat n)
    | InField i name e => "field " ++ Itoa (Z.of_nat i) ++ " (" ++ name ++ "): " ++ go e
    | EmptyValue => "empty value"
    | InvalidStep s => "invalid step " ++ Quote s
    | InvalidValue s => "invalid value " ++ Quote s
    | OutOfRange v lo hi => "value " ++ Itoa v ++ " out of range " ++ Itoa lo ++ "-" ++ Itoa hi
    | InvalidRangeStart s => "invalid range start " ++ Quote s
    | InvalidRangeEnd s => "invalid range end " ++ Quote s
    | InvalidRange a b lo hi => "range " ++ Itoa a ++ "-" ++ Itoa b ++ " invalid (must be within " ++ Itoa lo ++ "-"
                                ++ Itoa hi ++ ")"
    end) e.

Section SchedulerTool.
Context `{E : Env} `{F : Formats} (ce : CronEnv).

(** [None] when the cron search does not come back. *)
Definition computeNextRun (cronExpr : string) (intervalSec : Z) (t : time) : option time :=
  if negb (cronExpr =? "")%string then NextTime (cron_fuel ce) (zone ce) cronExpr t
  else if (0 <? intervalSec)%Z then Some (after_interval t intervalSec)
  else Some (t + 1 * hour).

Definition insert_task (name description prompt cronExpr : string) (interval : Z) (next : option time) (t : time) (s : SiteStore)
    : SiteStore * Z :=
  let id := next_id t_id (scheduled_tasks s) in
  (set_tasks (scheduled_tasks s ++
     [{| t_id := id; t_name := name; t_prompt := prompt; t_cron := Some cronExpr; t_interval := Some interval;
         t_enabled := true; t_last := None; t_next := next; t_runs := 0; t_errors := 0;
         t_description := Some description; t_created := t; t_updated := t |}])%list s, id).

(** A call ends in a result, in an error of the database, or hangs. *)
Definition create_row (name description prompt cronExpr : string) (interval : Z) (next : option time) : M (outcome Result) :=
  id ← ExecInsert (insert_task name description prompt cronExpr interval next);
  mret match id with
       | None => Fail "creating task"
       | Some id => Done (success ([("id", JNum (Itoa id)); ("name", JStr name)]
                      ++ match next with Some t => [("next_run", JStr (time_text t))] | None => [] end)%list)
       end.

Definition executeCreate (args : Args) : M (outcome Result) :=
  let name := arg_string "name" args in
  let prompt := arg_string "prompt" args in
  if (name =? "")%string || (prompt =? "")%string then mret (Done (failure "name and prompt are required"))
  else
    let description := arg_string "description" args in
    let cronExpr := arg_string "cron_expression" args in
    let interval := match arg_num "interval_seconds" args with Some l => float_int l | None => 0 end in
    let positive := match arg_num "interval_seconds" args with Some l => float_positive l | None => false end in
    match (if (cronExpr =? "")%string then Ok tt else Validate cronExpr) with
    | Err e => mret (Done (failure ("invalid cron expression: " ++ cron_text e)))
    | Ok _ =>
        t ← now;
        if negb (cronExpr =? "")%string then
          match computeNextRun cronExpr 0 t with
          | None => mret (Panic "the cron search does not come back")
          | Some r => create_row name description prompt cronExpr interval (Some r)
          end
        else if positive : bool then create_row name description prompt cronExpr interval (computeNextRun "" interval t)
        else create_row name description prompt cronExpr interval None
    end.

(** The columns an update sets. *)
Definition set_fields (args : Args) (stamp : time) (t : TaskRow) : TaskRow :=
  {| t_id := t_id t;
     t_name := match arg "name" args with Some (JStr s) => if (s =? "")%string then t_name t else s | _ => t_name t end;
     t_prompt := match arg "prompt" args with Some (JStr s) => if (s =? "")%string then t_prompt t else s | _ => t_prompt t end;
     t_cron := match arg "cron_expression" args with Some (JStr s) => Some s | _ => t_cron t end;
     t_interval := match arg_num "interval_seconds" args with Some l => Some (float_int l) | None => t_interval t end;
     t_enabled := match arg "is_enabled" args with Some (JBool b) => b | _ => t_enabled t end;
     t_last := t_last t; t_next := t_next t; t_runs := t_runs t; t_errors := t_errors t;
     t_description := match arg "description" args with Some (JStr s) => Some s | _ => t_description t end;
     t_created := t_created t; t_updated := stamp |}.

Definition task_id (args : Args) : option Z :=
  match arg_num "id" args with
  | Some l => if float_zero l then None else Some (float_int l)
  | None => None
  end.

Definition has_task (id : Z) (s : SiteStore) : bool := existsb (fun t => (t_id t =? id)%Z) (scheduled_tasks s).

Definition executeUpdate (args : Args) : M (outcome Result) :=
  match task_id args with
  | None => mret (Done (failure "id is required"))
  | Some taskID =>
      let newCron := match arg "cron_expression" args with Some (JStr s) => Some s | _ => None end in
      let newInterval := option_map float_int (arg_num "interval_seconds" args) in
      match (match newCron with Some c => if (c =? "")%string then Ok tt else Validate c | None => Ok tt end) with
      | Err e => mret (Done (failure ("invalid cron expression: " ++ cron_text e)))
      | Ok _ =>
          found ← get (fun w => has_task taskID (db w));
          ok ← ExecWrite (fun stamp => update_task (set_fields args stamp) taskID);
          if negb ok then mret (Fail "updating task")
          else if negb found then mret (Done (failure "task not found"))
          else
            let done := Done (success [("id", JNum (Itoa taskID))]) in
            match newCron, newInterval with
            | None, None => mret done
            | _, _ =>
                t ← now;
                match computeNextRun (default "" newCron) (default 0%Z newInterval) t with
                | None => mret (Panic "the cron search does not come back")
                | Some r => ExecWrite (fun _ => update_task (set_next r) taskID);; mret done
                end
            end
      end
  end.

Definition delete_task (id : Z) (s : SiteStore) : SiteStore :=
  let s := if foreign_keys then set_runs (List.filter (fun r => negb (r_task r =? id)%Z) (task_runs s)) s else s in
  set_tasks (List.filter (fun t => negb (t_id t =? id)%Z) (scheduled_tasks s)) s.

Definition executeDelete (args : Args) : M (outcome Result) :=
  match task_id args with
  | None => mret (Done (failure "id is required"))
  | Some taskID =>
      found ← get (fun w => has_task taskID (db w));
      ok ← ExecWrite (fun _ => delete_task taskID);
      mret (if negb ok then Fail "deleting task"
            else if negb found then Done (failure "task not found")
            else Done (success [("deleted_id", JNum (Itoa taskID))]))
  end.

(** The columns that are not NULL. *)
Definition task_json (t : TaskRow) : json :=
  let member {A} k (f : A -> json) o := match o with Some a => [(k, f a)] | None => [] end in
  JObj ([("created_at", JStr (time_text (t_created t)))] ++ member "cron_expression" JStr (t_cron t)
        ++ member "description" JStr (t_description t) ++ [("id", int (t_id t))] ++ member "interval_seconds" int (t_interval t)
        ++ [("is_enabled", JBool (t_enabled t))] ++ member "last_run" (fun x => JStr (time_text x)) (t_last t) ++ [("name", JStr (t_name t))]
        ++ member "next_run" (fun x => JStr (time_text x)) (t_next t) ++ [("prompt", JStr (t_prompt t))])%list.

Definition executeList (args : Args) : M (outcome Result) :=
  r ← Query (fun s => order_by t_name (scheduled_tasks s));
  mret match r with
       | Err e => Fail ("listing tasks: " ++ e)
       | Ok tasks => Done (result_data (slice task_json tasks))
       end.

Definition SchedulerTool_Execute `{O : MapOrder} (args : Args) : M (outcome Result) :=
  let routes : gmap string (ActionHandler (M (outcome Result))) :=
    list_to_map [("create", executeCreate); ("list", executeList); ("update", executeUpdate); ("delete", executeDelete)] in
  DispatchAction (fun r _ => mret (Done r)) routes (map fst (entries routes)) None args.

(** ** Agreement with the scheduler *)

Lemma create_row_spec name description prompt cronExpr interval next w w' r :
  create_row name description prompt cronExpr interval next w = (Done r, w') ->
  scheduled_tasks (db w') = (scheduled_tasks (db w) ++
    [{| t_id := next_id t_id (scheduled_tasks (db w)); t_name := name; t_prompt := prompt; t_cron := Some cronExpr;
        t_interval := Some interval; t_enabled := true; t_last := None; t_next := next; t_runs := 0; t_errors := 0;
        t_description := Some description; t_created := CURRENT_TIMESTAMP w; t_updated := CURRENT_TIMESTAMP w |}])%list.
Proof.
  unfold create_row, ExecInsert, mbind, M_bind, mret, M_ret. destruct (write_fails _); [by intros [= <-]|].
  unfold insert_task. by intros [= <- <-].
Qed.

(** A task the tool creates is one the scheduler will run: it is enabled, its
    first run is exactly the run the scheduler itself would compute for its
    row at that moment, and it lies in the future (for an interval that fits a
    duration); a task without a schedule gets no run. *)
Theorem create_agrees_with_scheduler args w w' r : zone ce mod 60 = 0 ->
  executeCreate args w = (Done r, w') -> Success r = true ->
  (forall l, arg_num "interval_seconds" args = Some l -> exists n, l = Itoa n /\ 0 <= n < 2 ^ 33) ->
  exists row, scheduled_tasks (db w') = (scheduled_tasks (db w) ++ [row])%list /\ t_enabled row = true /\
    match compute_next ce row (clock w) with
    | RunAt t => t_next row = Some t /\ clock w < t
    | NoSchedule => t_next row = None
    | Hangs => False
    end.
Proof.
  intros Hz. unfold executeCreate. destruct (_ || _); [intros [= <- <-]; done|].
  set (c := arg_string "cron_expression" args). intros Hr Hs Hi.
  destruct (if (c =? "")%string then Ok tt else Validate c) as [u|e]; [|injection Hr as <- <-; done].
  unfold now, mbind, M_bind, get in Hr. cbn iota in Hr.
  destruct (String.eqb_spec c "") as [Hc|Hc]; cbn [negb] in Hr.
  - destruct (arg_num "interval_seconds" args) as [l|].
    + destruct (Hi l eq_refl) as (n & -> & Hn). destruct (float_of_int n ltac:(lia)) as (F1 & F2 & _). rewrite F1, F2 in Hr.
      unfold computeNextRun in Hr. cbn [negb String.eqb] in Hr. destruct (Z.ltb_spec 0 n) as [Hp|Hp].
      * apply create_row_spec in Hr. eexists. split; [exact Hr|]. split; [done|].
        unfold compute_next. cbn [t_cron t_interval t_next]. rewrite Hc. cbn [String.eqb].
        apply Z.ltb_lt in Hp. rewrite Hp. split; [done|]. apply Z.ltb_lt in Hp.
        unfold after_interval. rewrite wrap64_id; unfold in_int64, min_int64, max_int64, second in *; lia.
      * apply create_row_spec in Hr. eexists. split; [exact Hr|]. split; [done|].
        unfold compute_next. cbn [t_cron t_interval t_next]. rewrite Hc. cbn [String.eqb].
        apply Z.ltb_ge in Hp. by rewrite Hp.
    + apply create_row_spec in Hr. eexists. split; [exact Hr|]. split; [done|].
      unfold compute_next. cbn [t_cron t_interval t_next]. rewrite Hc. done.
  - unfold computeNextRun in Hr. apply String.eqb_neq in Hc. rewrite Hc in Hr. cbn [negb] in Hr.
    destruct (NextTime _ _ c (clock w)) as [t|] eqn:Et; [|discriminate Hr].
    apply create_row_spec in Hr. eexists. split; [exact Hr|]. split; [done|].
    unfold compute_next. cbn [t_cron t_interval t_next]. rewrite Hc, Et. split; [done|].
    apply (NextTime_bounds _ _ _ _ _ Hz) in Et as [Et _]. exact Et.
Qed.
End SchedulerTool.

(** ** A sample *)

(** Arguments that are whole numbers. *)
Definition digit_floats : Formats.
Proof.
  refine {| float_zero := fun l => match Atoi l with (0%Z, None) => true | _ => false end;
            float_positive := fun l => match Atoi l with (n, None) => (0 <? n)%Z | _ => false end;
            float_int := fun l => fst (Atoi l);
            float_leb := fun l m => (fst (Atoi l) <=? m)%Z; time_text := Itoa; foreign_keys := false |}.
  intros n Hn. rewrite Atoi_Itoa by lia. cbn. split; [done|]. split; [done|]. by destruct n.
Defined.

Definition create_args : Args :=
  [("action", JStr "create"); ("name", JStr "report"); ("prompt", JStr "write it"); ("interval_seconds", JNum (Itoa 60))].

Lemma create_agrees_with_scheduler_witness :
  match executeCreate (E := SchedulerSample.env) (F := digit_floats) SchedulerSample.ce create_args new_world with
  | (Done r, w') => exists row, scheduled_tasks (db w') = [row] /\ t_enabled row = true
  | _ => False
  end.
Proof.
  destruct (executeCreate (E := SchedulerSample.env) (F := digit_floats) SchedulerSample.ce create_args new_world)
    as [[r|e|e] w'] eqn:Ex; [|vm_compute in Ex; congruence..].
  destruct (create_agrees_with_scheduler (E := SchedulerSample.env) (F := digit_floats) SchedulerSample.ce create_args
              new_world w' r eq_refl Ex) as (row & H1 & H2 & _).
  - vm_compute in Ex. by simplify_eq.
  - intros l [= <-]. exists 60. split; [done|lia].
  - exists row. split; [exact H1|exact H2].
Defined.
