(* ===== verification/DataTool.v ===== *)
(** * tools/tables.go: manage_data

    Query, insert, update, delete, count, aggregate and search on the tables of
    the owner, each a statement built from checked names and bound arguments. *)

From Stdlib Require Import ZArith Lia Ascii String List Bool.
From stdpp Require Import base list strings gmap.
From S2P Require Import Prelude GoStrings GoTime JSONText PlanStore World ToolCore Approval Security SiteTables ToolMonad Tables.

Local Open Scope string_scope.

Section DataTool.
Context `{C : Crypto} `{Q : SQL} `{O : MapOrder} `{E : Env} `{F : Formats}.
Context (encryptor : bool).           (* ctx.Encryptor is not nil *)
Implicit Types (s : Store) (args : Args).

(** ** Reading *)

(** The condition of the [filters] argument. *)
Definition filters_where args : res string (string * list json) :=
  match arg_list "filters" args with
  | Some (f :: r) => buildWhereClause (f :: r)
  | _ => Ok ("", [])
  end.

Definition order_text args : res string string :=
  match arg_object "order_by" args with
  | None => Ok ""
  | Some m =>
      let col := member_string "column" m in
      if (col =? "")%string then Ok ""
      else if negb (validIdentifier col) then Err ("invalid order_by column: " ++ col)
      else
        let dir := ToUpper (TrimSpace (member_string "direction" m)) in
        let dir := if (dir =? "ASC")%string || (dir =? "DESC")%string then dir else "ASC" in
        Ok (" ORDER BY " ++ col ++ " " ++ dir)
  end.

Definition limit_text args : string :=
  match arg_num "limit" args with
  | Some l => if float_positive l then " LIMIT " ++ Itoa (float_int l) else " LIMIT 50"
  | None => " LIMIT 50"
  end.

(** A row as an answer holds it: PASSWORD columns left out. *)
Definition visible_row (secureCols : option (gmap string string)) (r : list (string * json)) : row :=
  go_map (List.filter (fun kv => negb (is_hash_column secureCols (fst kv))) r).

Definition row_json (r : row) : json := JObj (map_to_list r).

Definition query args : T Store Result :=
  let tableName := arg_string "table_name" args in
  physicalName ← or_reject (sanitizedTableName tableName);
  secureCols ← LoadSecureColumns tableName;
  filters ← or_reject (filters_where args);
  order ← or_reject (order_text args);
  r ← db_query ("SELECT * FROM " ++ physicalName ++ fst filters ++ order ++ limit_text args) (snd filters);
  rows ← or_throw "querying table" r;
  mret (result_data (slice row_json (map (visible_row secureCols) rows))).

Definition count args : T Store Result :=
  let tableName := arg_string "table_name" args in
  guard_reject (negb (tableName =? "")%string) "table_name is required";;
  physicalName ← or_reject (sanitizedTableName tableName);
  filters ← or_reject (filters_where args);
  r ← query_int ("SELECT COUNT(*) FROM " ++ physicalName ++ fst filters) (snd filters);
  n ← or_throw "counting rows" r;
  mret (success [("count", int n); ("table", JStr tableName)]).

Definition allowedAggFuncs : list string := ["count"; "sum"; "avg"; "min"; "max"].

Definition aggregate_expr (fn col : string) : string :=
  if negb (fn =? "count")%string then ToUpper fn ++ "(" ++ col ++ ")"
  else if negb (col =? "")%string then "COUNT(" ++ col ++ ")" else "COUNT(*)".

Fixpoint group_cols (l : list json) : res string (list string) :=
  match l with
  | [] => Ok []
  | g :: r =>
      let gc := match g with JStr s => s | _ => "" end in
      if (gc =? "")%string || negb (validIdentifier gc) then Err ("invalid group_by column: " ++ format_value g)
      else match group_cols r with Ok cs => Ok (gc :: cs) | Err e => Err e end
  end.

Definition aggregate_text (physicalName fn col whereClause : string) (groupCols : list string) : string :=
  "SELECT " ++ Join (groupCols ++ [(aggregate_expr fn col ++ " AS result")%string])%list ", " ++ " FROM " ++ physicalName
  ++ whereClause
  ++ match groupCols with
     | [] => ""
     | _ => " GROUP BY " ++ Join groupCols ", " ++ " ORDER BY " ++ Join groupCols ", "
     end.

Definition aggregate_column (fn col : string) : res string unit :=
  if negb (fn =? "count")%string && (col =? "")%string then Err (fn ++ " requires a column parameter")
  else if negb (col =? "")%string && negb (validIdentifier col) then Err ("invalid column name: " ++ col)
  else Ok tt.

(** A grouped row: scanning fails when the number of columns differs. *)
Definition group_row (groupCols : list string) (r : list (string * json)) : option row :=
  if (List.length r =? List.length groupCols + 1)%nat
  then Some (go_map (combine (groupCols ++ ["result"])%list (map snd r))) else None.

Definition aggregate args : T Store Result :=
  let tableName := arg_string "table_name" args in
  guard_reject (negb (tableName =? "")%string) "table_name is required";;
  physicalName ← or_reject (sanitizedTableName tableName);
  let fn := ToLower (TrimSpace (arg_string "function" args)) in
  guard_reject (existsb (String.eqb fn) allowedAggFuncs) "function is required: count, sum, avg, min, or max";;
  let col := arg_string "column" args in
  or_reject (aggregate_column fn col);;
  groupCols ← or_reject (group_cols (default [] (arg_list "group_by" args)));
  filters ← or_reject (filters_where args);
  r ← db_query (aggregate_text physicalName fn col (fst filters) groupCols) (snd filters);
  rows ← or_throw "aggregate query" r;
  match groupCols with
  | [] =>
      match rows with
      | ((_, v) :: _) :: _ =>
          match scan_float v with
          | Some n => mret (success [("function", JStr fn); ("result", n); ("table", JStr tableName)])
          | None => throw "aggregate query: sql: Scan error"
          end
      | _ => throw "aggregate query: sql: no rows in result set"
      end
  | _ => mret (success [("data", slice row_json (omap (group_row groupCols) rows)); ("function", JStr fn);
                        ("table", JStr tableName)])
  end.

Definition search_limit args : Z :=
  match arg_num "limit" args with
  | Some l => if float_positive l && float_leb l 200 then float_int l else 50
  | None => 50
  end.

(** [scanRowsMaps] and [stripSecureCols]. *)
Definition stripSecureCols (secureCols : option (gmap string string)) (rows : list row) : list row :=
  map (fun r => filter (fun kv => is_hash_column secureCols (fst kv) = false) r) rows.

Definition search args : T Store Result :=
  let tableName := arg_string "table_name" args in
  let queryText := arg_string "query_text" args in
  guard_reject (negb ((tableName =? "")%string || (queryText =? "")%string)) "table_name and query_text are required";;
  physicalName ← or_reject (sanitizedTableName tableName);
  let ftsTable := physicalName ++ "_fts" in
  cnt ← query_int "SELECT COUNT(*) FROM sqlite_master WHERE type='table' AND name=?" [JStr ftsTable];
  guard_reject (match cnt with Ok n => negb (n =? 0)%Z | Err _ => false end)
    ("no full-text search index for table " ++ tableName ++ " — create with searchable_columns in manage_schema");;
  r ← db_query ("SELECT t.* FROM " ++ physicalName ++ " t JOIN " ++ ftsTable ++ " f ON t.id = f.rowid WHERE " ++ ftsTable
                ++ " MATCH ? ORDER BY f.rank LIMIT ?") [JStr queryText; int (search_limit args)];
  match r with
  | Err e => reject ("search error: " ++ e)
  | Ok rows =>
      let results := scanRowsToMaps rows in
      secureCols ← LoadSecureColumns tableName;
      let results := stripSecureCols secureCols results in
      mret (success [("count", int (Z.of_nat (List.length results))); ("query", JStr queryText);
                     ("results", slice row_json results)])
  end.

(** ** Writing *)

(** Columns and values of a row, secure ones processed; [bad] and [during] are
    the texts of the errors. *)
Fixpoint row_values (bad during : string -> string) (secureCols : option (gmap string string))
    (l : list (string * json)) : T Store (list string * list json) :=
  match l with
  | [] => mret ([], [])
  | (col, v) :: r =>
      guard_reject (validIdentifier col) (bad col);;
      v ← match secure_kind secureCols col with
          | Some kind => or_throw (during col) (ProcessSecureValue encryptor kind v)
          | None => mret v
          end;
      p ← row_values bad during secureCols r;
      mret (col :: fst p, v :: snd p)
  end.

Definition bad_column (col : string) : string := "invalid column name: " ++ col.
Definition during_column (col : string) : string := "processing secure column " ++ col.
Definition insert_row_text (physicalName : string) (cols : list string) : string :=
  "INSERT INTO " ++ physicalName ++ " (" ++ Join cols ", " ++ ") VALUES (" ++ Join (map (fun _ => "?") cols) ", " ++ ")".

Definition insertSingle (physicalName tableName : string) (data : gmap string json)
    (secureCols : option (gmap string string)) : T Store Result :=
  p ← row_values bad_column during_column secureCols (entries data);
  r ← db_exec (insert_row_text physicalName (fst p)) (snd p);
  res ← or_throw "inserting row" r;
  mret (success [("id", int (fst res)); ("table", JStr tableName)]).

(** The rows of a bulk insert from number [i] on: the ids. *)
Fixpoint insert_rows (physicalName : string) (secureCols : option (gmap string string)) (i : Z) (rows : list json)
    : T Store (list Z) :=
  match rows with
  | [] => mret []
  | JObj m :: rest =>
      p ← row_values (fun col => "invalid column name in row " ++ Itoa i ++ ": " ++ col)
            (fun col => "processing secure column " ++ col ++ " in row " ++ Itoa i) secureCols (entries (go_map m));
      r ← db_exec (insert_row_text physicalName (fst p)) (snd p);
      res ← or_throw ("inserting row " ++ Itoa i) r;
      ids ← insert_rows physicalName secureCols (i + 1)%Z rest;
      mret (fst res :: ids)
  | _ :: _ => reject ("row " ++ Itoa i ++ " is not a valid object")
  end.

(** [tx.Rollback] of the deferred call: the owner's tables are as they were. *)
Definition transaction {A} (m : T Store A) : T Store A := fun c =>
  match m c with
  | (Ok a, c') => (Ok a, c')
  | (Err x, c') => (Err x, set_cs (set_user (st_user (cs c)) (cs c')) c')
  end.

Definition insertBulk (physicalName tableName : string) (rowsRaw : list json)
    (secureCols : option (gmap string string)) : T Store Result :=
  guard_reject (List.length rowsRaw <=? 100)%nat "maximum 100 rows per bulk insert";;
  must_save "starting transaction" (fun _ s => (tt, s));;
  insertedIDs ← transaction (
    ids ← insert_rows physicalName secureCols 0 rowsRaw;
    must_save "committing bulk insert" (fun _ s => (tt, s));;
    mret ids);
  mret (success [("first_id", int (hd 0%Z insertedIDs)); ("inserted", int (Z.of_nat (List.length insertedIDs)));
                 ("last_id", int (List.last insertedIDs 0%Z)); ("table", JStr tableName)]).

Definition insert args : T Store Result :=
  let tableName := arg_string "table_name" args in
  guard_reject (negb (tableName =? "")%string) "table_name is required";;
  physicalName ← or_reject (sanitizedTableName tableName);
  secureCols ← LoadSecureColumns tableName;
  match arg_list "rows" args with
  | Some (r :: rest) => insertBulk physicalName tableName (r :: rest) secureCols
  | _ =>
      match arg_object "data" args with
      | Some (kv :: rest) => insertSingle physicalName tableName (go_map (kv :: rest)) secureCols
      | _ => reject "data or rows parameter is required for insert"
      end
  end.

(** [int64(idFloat)], 0 for an argument that is no number. *)
Definition arg_id args : Z := match arg_num "id" args with Some l => float_int l | None => 0 end.

Definition update args : T Store Result :=
  let tableName := arg_string "table_name" args in
  let data := default [] (arg_object "data" args) in
  guard_reject (negb ((tableName =? "")%string || (List.length data =? 0)%nat)) "table_name, id, and data are required";;
  physicalName ← or_reject (sanitizedTableName tableName);
  secureCols ← LoadSecureColumns tableName;
  p ← row_values bad_column during_column secureCols (entries (go_map data));
  r ← db_exec ("UPDATE " ++ physicalName ++ " SET " ++ Join (map (fun c => c ++ " = ?") (fst p)) ", " ++ " WHERE id = ?")
        (snd p ++ [int (arg_id args)])%list;
  res ← or_throw "updating row" r;
  mret (success [("rows_affected", int (snd res))]).

Definition del args : T Store Result :=
  let tableName := arg_string "table_name" args in
  guard_reject (negb (tableName =? "")%string) "table_name and id are required";;
  physicalName ← or_reject (sanitizedTableName tableName);
  r ← db_exec ("DELETE FROM " ++ physicalName ++ " WHERE id = ?") [int (arg_id args)];
  res ← or_throw "deleting row" r;
  guard_reject (negb (snd res =? 0)%Z) "row not found";;
  log_destructive "manage_data" "delete" (tableName ++ " id=" ++ Itoa (arg_id args));;
  mret (success [("deleted_id", int (arg_id args))]).

Definition data_infer args : string :=
  if has_arg "query_text" args then "search"
  else if has_arg "rows" args then "insert"
  else if has_arg "id" args then (if has_arg "data" args then "update" else "delete")
  else if has_arg "data" args then "insert"
  else if has_arg "function" args then "aggregate"
  else "query".

Definition DataTool_Execute args : T Store Result :=
  dispatch [("query", query); ("insert", insert); ("update", update); ("delete", del); ("count", count);
            ("aggregate", aggregate); ("search", search)] (Some data_infer) args.

Definition DataTool_Summarize (result : string) : string :=
  match parseSummaryResult result with
  | None => summarizeTruncate result 200
  | Some (false, _, e) => summarizeError e
  | Some (true, Some (JArr l), _) =>
      dq "{'success':true,'summary':'Queried: " ++ Itoa (Z.of_nat (List.length l)) ++ dq " rows returned'}"
  | Some (true, _, _) => summarizeTruncate result 300
  end.
End DataTool.
