(* ===== verification/Endpoints.v ===== *)
(** * tools/endpoints.go: manage_endpoints

    The routes an owner exposes under /api/: CRUD endpoints over a table, login
    endpoints, uploads, streams, websockets and OAuth providers.  The tool fills
    the tables the public server is configured by (PublicAPI.v). *)

From Stdlib Require Import ZArith Lia Ascii String List Bool.
From stdpp Require Import base list strings gmap.
From S2P Require Import Prelude GoStrings GoTime JSONText PlanStore World ToolCore Approval Security SiteTables ToolMonad Tables DataTool.

Local Open Scope string_scope.

(** [INSERT ... ON CONFLICT(key) DO UPDATE]: [new] makes the row for an id, [upd]
    changes the row there is; the id of a new row is returned. *)
Definition upsert {A} (key : A -> bool) (id : A -> Z) (new : Z -> A) (upd : A -> A) (l : list A) : option Z * list A :=
  if existsb key l then (None, update_where key upd l)
  else let n := next_id id l in (Some n, (l ++ [new n])%list).

Section Endpoints.
Context `{C : Crypto} `{Q : SQL} `{O : MapOrder} `{E : Env} `{F : Formats}.
Context (encryptor : bool).              (* ctx.Encryptor is not nil *)
Context (last_rowid : Store -> Z).       (* what LastInsertId answers after an upsert that updated *)
Context (ws_usage : string -> string).   (* the help text in the answer of create_websocket *)
Implicit Types (s : Store) (args : Args).

(** Whether a row with the value exists; false on an error. *)
Definition exists_row (f : Store -> bool) : T Store bool :=
  r ← load f;
  mret match r with Ok b => b | Err _ => false end.

(** ** CRUD endpoints *)

Definition strings_arg (k : string) (dflt : list string) args : list string :=
  match arg_list k args with Some (x :: r) => only_strings (x :: r) | _ => dflt end.

Definition optional_role args : option string :=
  match arg "required_role" args with Some (JStr rr) => if (rr =? "")%string then None else Some rr | _ => None end.

Definition positive_int (k : string) (dflt : Z) args : Z :=
  match arg_num k args with Some l => if float_positive l then float_int l else dflt | None => dflt end.

Definition createAPI args : T Store Result :=
  let path := arg_string "path" args in
  let tableName := arg_string "table_name" args in
  guard_reject (negb ((path =? "")%string || (tableName =? "")%string)) "path and table_name are required";;
  known ← registered_table tableName;
  guard_reject known ("dynamic table '" ++ tableName ++ "' does not exist — create it first with manage_schema");;
  let methods := strings_arg "methods" ["GET"; "POST"; "PUT"; "DELETE"] args in
  let publicCols := match arg_list "public_columns" args with
                    | Some (x :: r) => Some (Marshal (slice JStr (only_strings (x :: r))))
                    | _ => None
                    end in
  let requiredRole := optional_role args in
  let requiresAuth := match requiredRole with Some _ => true | None => arg_bool "requires_auth" args end in
  let publicRead := arg_bool "public_read" args in
  let rateLimit := positive_int "rate_limit" 60 args in
  must_save "creating API endpoint" (fun t s =>
    let mk id created := {| ar_id := id; ar_path := path; ar_table := tableName; ar_methods := Marshal (slice JStr methods);
                            ar_columns := publicCols; ar_auth := requiresAuth; ar_read := publicRead;
                            ar_role := requiredRole; ar_rate := rateLimit; ar_created := created |} in
    (tt, set_api (snd (upsert (fun r => (ar_path r =? path)%string) ar_id (fun n => mk n t)
                         (fun r => mk (ar_id r) (ar_created r)) (st_api s))) s));;
  mret (success ([("methods", slice JStr methods); ("path", JStr path); ("public_read", JBool publicRead);
                  ("rate_limit", int rateLimit)]
                 ++ match requiredRole with Some r => [("required_role", JStr r)] | None => [] end
                 ++ [("requires_auth", JBool requiresAuth); ("table_name", JStr tableName)])%list).

Definition listAPI args : T Store Result :=
  r ← load (fun s => order_by ar_path (st_api s));
  rows ← or_throw "listing API endpoints" r;
  mret (result_data (slice (fun a =>
    JObj [("created_at", JStr (time_text (ar_created a))); ("id", int (ar_id a)); ("methods", JStr (ar_methods a));
          ("path", JStr (ar_path a)); ("public_columns", JStr (default "" (ar_columns a)));
          ("rate_limit", int (ar_rate a)); ("requires_auth", JBool (ar_auth a)); ("table_name", JStr (ar_table a))]) rows)).

(** A DELETE by key: how many rows it removed. *)
Definition delete_rows {A} (key : A -> bool) (l : list A) : Z * list A :=
  let kept := List.filter (fun x => negb (key x)) l in
  (Z.of_nat (List.length l - List.length kept), kept).

Definition deleteAPI args : T Store Result :=
  let path := arg_string "path" args in
  guard_reject (negb (path =? "")%string) "path is required";;
  n ← must_save "deleting API endpoint" (fun _ s =>
        let '(n, l) := delete_rows (fun r => (ar_path r =? path)%string) (st_api s) in (n, set_api l s));
  guard_reject (negb (n =? 0)%Z) "endpoint not found";;
  log_destructive "manage_endpoints" "delete_api" path;;
  mret (success [("deleted", JStr path)]).

(** ** Login endpoints *)

(** [schema_def] as a map; nothing if the row or the JSON is not there. *)
Definition load_schema (tableName : string) : T Store (gmap string json) :=
  r ← load (fun s => List.find (fun d => (dt_name d =? tableName)%string) (st_dynamic s));
  match r with
  | Ok (Some d) =>
      match Unmarshal (dt_schema d) with
      | Ok (JObj m) => mret (go_map m)
      | Ok JNull => mret ∅
      | _ => reject ("invalid schema_def for table " ++ Quote tableName)
      end
  | _ => reject ("could not load schema for table " ++ Quote tableName)
  end.

Fixpoint public_cols (l : list json) : res string (list string) :=
  match l with
  | [] => Ok []
  | JStr s :: r =>
      if negb (validIdentifier s) then Err ("invalid public_column name: " ++ s)
      else match public_cols r with Ok cs => Ok (s :: cs) | Err e => Err e end
  | _ :: r => public_cols r
  end.

Definition public_columns_json args : res string string :=
  match arg_list "public_columns" args with
  | Some (x :: r) => match public_cols (x :: r) with Ok cs => Ok (Marshal (slice JStr cs)) | Err e => Err e end
  | _ => Ok "[]"
  end.

Definition role_column args : res string string :=
  let rc := arg_string "role_column" args in
  if (rc =? "")%string then Ok "role"
  else if validIdentifier rc then Ok rc else Err ("invalid role_column name: " ++ rc).

Definition set_schema (tableName schema : string) (l : list DynRow) : list DynRow :=
  update_where (fun r => (dt_name r =? tableName)%string)
    (fun r => {| dt_id := dt_id r; dt_name := dt_name r; dt_schema := schema; dt_secure := dt_secure r; dt_created := dt_created r |}) l.

(** The role column is added to the table if its schema does not name it. *)
Definition ensure_role_column (tableName roleColumn : string) (schema : gmap string json) : T Store unit :=
  match schema !! roleColumn with
  | Some _ => mret tt
  | None =>
      o ← db_exec ("ALTER TABLE " ++ tableName ++ " ADD COLUMN " ++ roleColumn ++ " TEXT DEFAULT ''") [];
      match o with
      | Err e => reject ("role_column " ++ Quote roleColumn ++ " does not exist in table " ++ Quote tableName
                         ++ " and could not be auto-added: " ++ e)
      | Ok _ =>
          save_ (fun _ s => set_dynamic (set_schema tableName
            (Marshal (any_value (JObj (map_to_list (<[roleColumn := JStr "TEXT"]> schema))))) (st_dynamic s)) s);;
          mret tt
      end
  end.

Definition auth_routes (path : string) : json :=
  JArr [JStr ("POST /api/" ++ path ++ "/register"); JStr ("POST /api/" ++ path ++ "/login"); JStr ("GET /api/" ++ path ++ "/me")].

(** The table and its columns, as [createAuth] wants them: the schema. *)
Definition check_auth_table (tableName usernameCol passwordCol : string) : T Store (gmap string json) :=
  secureCols ← LoadSecureColumns tableName;
  guard_reject (bool_decide (secureCols <> None)) ("table " ++ Quote tableName ++ " not found in dynamic tables registry");;
  guard_reject (is_hash_column secureCols passwordCol)
    ("column " ++ Quote passwordCol ++ " in table " ++ Quote tableName ++ " is not a PASSWORD column");;
  schema ← load_schema tableName;
  guard_reject (bool_decide (schema !! usernameCol <> None))
    ("username_column " ++ Quote usernameCol ++ " does not exist in table " ++ Quote tableName ++ " — available columns: "
     ++ Join (List.filter (fun c => negb (c =? passwordCol)%string) (map fst (entries schema))) ", ");;
  colCount ← query_int ("SELECT COUNT(*) FROM pragma_table_info('" ++ tableName ++ "')") [];
  guard_reject (match colCount with Ok n => negb (n =? 0)%Z | Err _ => false end)
    ("table " ++ Quote tableName ++ " is registered but does not exist as a physical table — recreate it with manage_schema");;
  mret schema.

Definition createAuth args : T Store Result :=
  let tableName := arg_string "table_name" args in
  let path := arg_string "path" args in
  let usernameCol := arg_string "username_column" args in
  let passwordCol := OptionalString args "password_column" "password" in
  guard_reject (negb ((tableName =? "")%string || (path =? "")%string || (usernameCol =? "")%string))
    "table_name, path, and username_column are required";;
  guard_reject (validIdentifier usernameCol) ("invalid username_column name: " ++ usernameCol);;
  guard_reject (validIdentifier passwordCol) ("invalid password_column name: " ++ passwordCol);;
  schema ← check_auth_table tableName usernameCol passwordCol;
  publicColumnsJSON ← or_reject (public_columns_json args);
  let defaultRole := OptionalString args "default_role" "user" in
  roleColumn ← or_reject (role_column args);
  ensure_role_column tableName roleColumn schema;;
  id ← must_save "creating auth endpoint" (fun t s =>
    let mk id created := {| au_id := id; au_path := path; au_table := tableName; au_username := usernameCol;
                            au_password := passwordCol; au_columns := publicColumnsJSON; au_default := defaultRole;
                            au_role := roleColumn; au_created := created |} in
    let '(n, l) := upsert (fun r => (au_path r =? path)%string) au_id (fun n => mk n t)
                     (fun r => mk (au_id r) (au_created r)) (st_auth s) in
    (default (last_rowid s) n, set_auth l s));
  mret (success [("default_role", JStr defaultRole); ("id", int id); ("password_column", JStr passwordCol);
                 ("path", JStr path); ("role_column", JStr roleColumn); ("routes", auth_routes path);
                 ("table", JStr tableName); ("username_column", JStr usernameCol)]).

Definition listAuth args : T Store Result :=
  r ← load (fun s => order_by au_path (st_auth s));
  rows ← or_throw "listing auth endpoints" r;
  mret (result_data (slice (fun a =>
    JObj [("created_at", JStr (time_text (au_created a))); ("id", int (au_id a)); ("password_column", JStr (au_password a));
          ("path", JStr (au_path a)); ("public_columns", JStr (au_columns a)); ("routes", auth_routes (au_path a));
          ("table_name", JStr (au_table a)); ("username_column", JStr (au_username a))]) rows)).

Definition deleteAuth args : T Store Result :=
  let path := arg_string "path" args in
  guard_reject (negb (path =? "")%string) "path is required";;
  n ← must_save "deleting auth endpoint" (fun _ s =>
        let '(n, l) := delete_rows (fun r => (au_path r =? path)%string) (st_auth s) in (n, set_auth l s));
  guard_reject (negb (n =? 0)%Z) "auth endpoint not found";;
  log_destructive "manage_endpoints" "delete_auth" path;;
  mret (success [("deleted", JStr path)]).

Definition verifyPassword args : T Store Result :=
  let tableName := arg_string "table_name" args in
  let password := arg_string "password" args in
  let passwordCol := OptionalString args "password_column" "password" in
  guard_reject (negb ((tableName =? "")%string || (password =? "")%string)) "table_name, id, and password are required";;
  physicalName ← or_reject (sanitizedTableName tableName);
  guard_reject (validIdentifier passwordCol) ("invalid column name: " ++ passwordCol);;
  r ← db_query ("SELECT " ++ passwordCol ++ " FROM " ++ physicalName ++ " WHERE id = ?") [int (arg_id args)];
  match r with
  | Ok (((_, v) :: _) :: _) =>
      match scan_text v with
      | Some hashedPassword => mret (success [("match", JBool (bcrypt_check password hashedPassword))])
      | None => reject "row not found"
      end
  | _ => reject "row not found"
  end.

(** ** Uploads, streams and websockets *)

Definition createUpload args : T Store Result :=
  let path := arg_string "path" args in
  guard_reject (negb (path =? "")%string) "path is required";;
  let allowedTypes := strings_arg "allowed_types" ["image/*"; "application/pdf"] args in
  let maxSizeMB := positive_int "max_size_mb" 5 args in
  let requiresAuth := arg_bool "requires_auth" args in
  let tableName := arg_string "table_name" args in
  must_save "creating upload endpoint" (fun _ s =>
    let mk id := {| up_id := id; up_path := path; up_types := Marshal (slice JStr allowedTypes); up_max := maxSizeMB;
                    up_auth := requiresAuth; up_table := tableName |} in
    (tt, set_upload (snd (upsert (fun r => (up_path r =? path)%string) up_id mk (fun r => mk (up_id r)) (st_upload s))) s));;
  mret (success [("allowed_types", slice JStr allowedTypes); ("max_size_mb", int maxSizeMB); ("path", JStr path);
                 ("requires_auth", JBool requiresAuth); ("route", JStr ("POST /api/" ++ path ++ "/upload"));
                 ("table_name", JStr tableName)]).

Definition createStream args : T Store Result :=
  let path := arg_string "path" args in
  guard_reject (negb (path =? "")%string) "path is required";;
  let eventTypes := strings_arg "event_types" ["data.insert"; "data.update"; "data.delete"] args in
  let requiresAuth := arg_bool "requires_auth" args in
  must_save "creating stream endpoint" (fun _ s =>
    let mk id := {| sr_id := id; sr_path := path; sr_types := Marshal (slice JStr eventTypes); sr_auth := requiresAuth |} in
    (tt, set_stream (snd (upsert (fun r => (sr_path r =? path)%string) sr_id mk (fun r => mk (sr_id r)) (st_stream s))) s));;
  mret (success [("event_types", slice JStr eventTypes); ("path", JStr path); ("requires_auth", JBool requiresAuth);
                 ("route", JStr ("GET /api/" ++ path ++ "/stream"));
                 ("usage", JStr ("const source = new EventSource('/api/" ++ path
                    ++ "/stream'); source.addEventListener('data.insert', (e) => { const data = JSON.parse(e.data); ... });"))]).

Definition createWebSocket args : T Store Result :=
  let path := arg_string "path" args in
  guard_reject (negb (path =? "")%string) "path is required";;
  let writeToTable := arg_string "write_to_table" args in
  guard_reject ((writeToTable =? "")%string || validIdentifier writeToTable) ("invalid write_to_table name: " ++ writeToTable);;
  let roomColumn := arg_string "room_column" args in
  let requiresAuth := arg_bool "requires_auth" args in
  must_save "creating websocket endpoint" (fun _ s =>
    let mk id := {| ws_id := id; ws_path := path; ws_table := writeToTable; ws_room := roomColumn; ws_auth := requiresAuth |} in
    (tt, set_ws (snd (upsert (fun r => (ws_path r =? path)%string) ws_id mk (fun r => mk (ws_id r)) (st_ws s))) s));;
  mret (success ([("path", JStr path); ("requires_auth", JBool requiresAuth)]
                 ++ (if (roomColumn =? "")%string then [] else [("room_column", JStr roomColumn)])
                 ++ [("route", JStr ("GET /api/" ++ path ++ "/ws")); ("usage", JStr (ws_usage path))]
                 ++ (if (writeToTable =? "")%string then [] else [("write_to_table", JStr writeToTable)]))%list).

(** ** OAuth providers *)

Definition oauth_secret_name (providerName : string) : string := "oauth_" ++ providerName ++ "_secret".

Definition createOAuth args : T Store Result :=
  let str k := arg_string k args in
  guard_reject (forallb (fun k => negb (str k =? "")%string)
      ["provider_name"; "client_id"; "client_secret"; "authorize_url"; "token_url"; "userinfo_url"; "auth_path"])
    "provider_name, client_id, client_secret, authorize_url, token_url, userinfo_url, and auth_path are required";;
  let providerName := str "provider_name" in
  let authPath := str "auth_path" in
  let displayName := OptionalString args "display_name" providerName in
  authExists ← exists_row (fun s => existsb (fun r => (au_path r =? authPath)%string) (st_auth s));
  guard_reject authExists ("auth endpoint '" ++ authPath ++ "' does not exist — create it first with create_auth");;
  let secretName := oauth_secret_name providerName in
  guard_reject encryptor "encryption not available";;
  match encrypt (str "client_secret") with
  | Err _ => reject "failed to encrypt client secret"
  | Ok encrypted =>
      save_ (fun _ s => set_secrets (<[secretName := encrypted]> (st_secrets s)) s);;
      must_save "creating OAuth provider" (fun t s =>
        let mk id enabled created :=
          {| oa_id := id; oa_name := providerName; oa_display := displayName; oa_client := str "client_id";
             oa_secret_name := secretName; oa_authorize := str "authorize_url"; oa_token := str "token_url";
             oa_userinfo := str "userinfo_url"; oa_scopes := OptionalString args "scopes" "openid email profile";
             oa_username := OptionalString args "username_field" "email"; oa_path := authPath;
             oa_enabled := enabled; oa_created := created |} in
        (tt, set_oauth (snd (upsert (fun r => (oa_name r =? providerName)%string) oa_id (fun n => mk n true t)
                               (fun r => mk (oa_id r) (oa_enabled r) (oa_created r)) (st_oauth s))) s));;
      mret (success [("auth_path", JStr authPath); ("display_name", JStr displayName); ("provider", JStr providerName);
                     ("routes", JArr [JStr ("GET /api/" ++ authPath ++ "/oauth/" ++ providerName ++ " (redirect to provider)");
                                      JStr ("GET /api/" ++ authPath ++ "/oauth/" ++ providerName ++ "/callback (automatic)")])])
  end.

Definition listOAuth args : T Store Result :=
  r ← load (fun s => order_by oa_name (st_oauth s));
  rows ← or_throw "listing OAuth providers" r;
  mret (result_data (slice (fun a =>
    JObj [("auth_path", JStr (oa_path a)); ("authorize_url", JStr (oa_authorize a)); ("client_id", JStr (oa_client a));
          ("created_at", JStr (time_text (oa_created a))); ("display_name", JStr (oa_display a)); ("id", int (oa_id a));
          ("is_enabled", JBool (oa_enabled a)); ("name", JStr (oa_name a)); ("scopes", JStr (oa_scopes a))]) rows)).

Definition deleteOAuth args : T Store Result :=
  let providerName := arg_string "provider_name" args in
  guard_reject (negb (providerName =? "")%string) "provider_name is required";;
  save_ (fun _ s => set_secrets (delete (oauth_secret_name providerName) (st_secrets s)) s);;
  affected ← must_save "deleting OAuth provider" (fun _ s =>
    let '(n, l) := delete_rows (fun r => (oa_name r =? providerName)%string) (st_oauth s) in (n, set_oauth l s));
  guard_reject (negb (affected =? 0)%Z) ("OAuth provider '" ++ providerName ++ "' not found");;
  mret (success [("deleted", JStr providerName)]).

Definition EndpointsTool_Execute args : T Store Result :=
  dispatch [("create_api", createAPI); ("list_api", listAPI); ("delete_api", deleteAPI); ("create_auth", createAuth);
            ("list_auth", listAuth); ("delete_auth", deleteAuth); ("create_upload", createUpload);
            ("create_stream", createStream); ("create_websocket", createWebSocket); ("verify_password", verifyPassword);
            ("create_oauth", createOAuth); ("list_oauth", listOAuth); ("delete_oauth", deleteOAuth)] None args.

Definition EndpointsTool_Summarize (result : string) : string :=
  match parseSummaryResult result with
  | None => summarizeTruncate result 200
  | Some (false, _, e) => summarizeError e
  | Some (true, Some (JArr l), _) =>
      dq "{'success':true,'summary':'Listed " ++ Itoa (Z.of_nat (List.length l)) ++ dq " endpoints'}"
  | Some (true, data, _) =>
      let path := data_string "path" data in
      if (path =? "")%string then summarizeTruncate result 300
      else dq "{'success':true,'summary':'Endpoint at /api/" ++ path ++ dq "'}"
  end.
End Endpoints.
