(* ===== verification/Questions.v ===== *)
(** * Secrets, the questions to the owner and his answers

    tools/secrets.go (names in clear, values encrypted), tools/communication.go (the model asks and looks for answers),
    server/admin/questions.go (the owner reads and answers) and the part of main.go
    that wakes the worker when everything is answered.  A secret he gives is
    encrypted before it is stored. *)

From Stdlib Require Import ZArith Lia Ascii String List Bool.
From stdpp Require Import base list strings gmap.
From S2P Require Import Prelude GoStrings GoTime JSONText Plan PlanJSON PlanStore World ToolCore Approval Scheduler Worker Manager Security SiteTables ToolMonad Tables Endpoints.

Local Open Scope string_scope.
Local Open Scope go_scope.

Record SecretRow := { sr_id : Z; sr_name : string; sr_value : string; sr_created : time; sr_updated : time }.
Record MemoryRow := { mr_id : Z; mr_key : string; mr_value : string; mr_category : string; mr_created : time; mr_updated : time }.

(** What the owner told: the tables secrets and memory. *)
Record OwnerStore := { ow_secrets : list SecretRow; ow_memory : list MemoryRow }.

Definition set_secret_rows (l : list SecretRow) (s : OwnerStore) : OwnerStore := {| ow_secrets := l; ow_memory := ow_memory s |}.
Definition set_memory_rows (l : list MemoryRow) (s : OwnerStore) : OwnerStore := {| ow_secrets := ow_secrets s; ow_memory := l |}.
Definition secret_named (name : string) (r : SecretRow) : bool := (sr_name r =? name)%string.
Definition find_secret (name : string) (s : OwnerStore) : option SecretRow := List.find (secret_named name) (ow_secrets s).

(** [INSERT ... ON CONFLICT(name) DO UPDATE] *)
Definition upsert_secret (name encrypted : string) (t : time) (s : OwnerStore) : OwnerStore :=
  set_secret_rows (snd (upsert (secret_named name) sr_id
    (fun n => {| sr_id := n; sr_name := name; sr_value := encrypted; sr_created := t; sr_updated := t |})
    (fun r => {| sr_id := sr_id r; sr_name := sr_name r; sr_value := encrypted; sr_created := sr_created r; sr_updated := t |})
    (ow_secrets s))) s.

Section Secrets.
Context `{C : Crypto} `{E : Env} `{F : Formats} `{O : MapOrder}.
Context (encryptor : bool).              (* ctx.Encryptor is not nil *)
Implicit Types (args : Args).

Definition store_secret args : T OwnerStore Result :=
  let name := arg_string "name" args in
  let value := arg_string "value" args in
  guard_reject (negb ((name =? "")%string || (value =? "")%string)) "name and value are required";;
  guard_reject encryptor "encryption not available";;
  encrypted ← or_throw "encrypting secret" (encrypt value);
  must_save "storing secret" (fun t s => (tt, upsert_secret name encrypted t s));;
  lift (publish "secret.stored" [("name", VString name)]);;
  mret (success [("message", JStr ("Secret '" ++ name ++ "' stored successfully")); ("name", JStr name)]).

Definition list_secrets args : T OwnerStore Result :=
  r ← load (fun s => order_by sr_name (ow_secrets s));
  rows ← or_throw "listing secrets" r;
  mret (result_data (slice (fun r =>
    JObj [("created_at", JStr (time_text (sr_created r))); ("id", int (sr_id r)); ("name", JStr (sr_name r));
          ("updated_at", JStr (time_text (sr_updated r)))]) rows)).

Definition delete_secret args : T OwnerStore Result :=
  let name := arg_string "name" args in
  guard_reject (negb (name =? "")%string) "name is required";;
  n ← must_save "deleting secret" (fun _ s =>
        let '(n, l) := delete_rows (secret_named name) (ow_secrets s) in (n, set_secret_rows l s));
  guard_reject (negb (n =? 0)%Z) ("secret '" ++ name ++ "' not found");;
  log_destructive "manage_secrets" "delete" name;;
  mret (success [("message", JStr ("Secret '" ++ name ++ "' deleted")); ("name", JStr name)]).

Definition SecretsTool_Execute args : T OwnerStore Result :=
  dispatch [("store", store_secret); ("list", list_secrets); ("delete", delete_secret)] None args.
End Secrets.

(** ** Reading the tables *)

Definition question_is (id : Z) (q : QuestionRow) : bool := (q_id q =? id)%Z.
Definition find_question (id : Z) (s : SiteStore) : option QuestionRow := List.find (question_is id) (questions s).
Definition answers_of (id : Z) (s : SiteStore) : list AnswerRow := List.filter (fun a => a_question a =? id)%Z (answers s).
(** [ORDER BY a.created_at DESC LIMIT 1] *)
Definition last_answer (q : QuestionRow) (s : SiteStore) : option AnswerRow := latest_answer (answers_of (q_id q) s).

(** [ORDER BY created_at] *)
Fixpoint insert_up {A} (key : A -> Z) (x : A) (l : list A) : list A :=
  match l with
  | [] => [x]
  | y :: r => if (key x <=? key y)%Z then x :: l else y :: insert_up key x r
  end.
Definition ascending {A} (key : A -> Z) (l : list A) : list A := foldr (insert_up key) [] l.

(** ** The tool *)

Section Tool.
Context `{E : Env} `{F : Formats} `{O : MapOrder}.
Implicit Types (args : Args).

Definition owner_question (question context options urgency ty secretName fields : string) (t : time) (s : SiteStore) : SiteStore * Z :=
  let id := next_id q_id (questions s) in
  (set_questions (questions s ++
     [{| q_id := id; q_question := question; q_context := Some context; q_options := options; q_urgency := urgency;
         q_status := "pending"; q_type := ty; q_secret := Some secretName; q_fields := Some fields; q_created := t |}])%list s, id).

Definition or_else (s dflt : string) : string := if (s =? "")%string then dflt else s.

Definition ask_question args : T OwnerStore Result :=
  let question := arg_string "question" args in
  guard_reject (negb (question =? "")%string) "question is required";;
  let qContext := arg_string "context" args in
  let options := arg_string "options" args in
  let urgency := or_else (arg_string "urgency" args) "normal" in
  let qType := or_else (arg_string "type" args) "text" in
  let secretName := arg_string "secret_name" args in
  guard_reject (negb ((qType =? "secret")%string && (secretName =? "")%string)) "secret_name is required when type is 'secret'";;
  let fields := arg_string "fields" args in
  id ← lift (ExecInsert (owner_question question qContext options urgency qType secretName fields));
  match id with
  | None => throw "creating question"
  | Some id =>
      lift (publish "question.asked"
        [("id", VInt64 id); ("question", VString question); ("context", VString qContext); ("options", VString options);
         ("urgency", VString urgency); ("type", VString qType); ("secret_name", VString secretName); ("fields", VString fields)]);;
      mret (success [("id", int id); ("question", JStr question); ("type", JStr qType); ("urgency", JStr urgency)])
  end.

(** One row of the join with the answers. *)
Definition answer_entry (q : QuestionRow) (a : option AnswerRow) : json :=
  JObj (match a with
        | Some a => [("answer", JStr (a_answer a)); ("answered", JBool true); ("answered_at", JStr (time_text (a_created a)))]
        | None => [("answered", JBool false)]
        end ++ [("question", JStr (q_question q)); ("question_id", int (q_id q)); ("status", JStr (q_status q))])%list.

(** [LEFT JOIN answers] *)
Definition joined (s : SiteStore) (q : QuestionRow) : list (QuestionRow * option AnswerRow) :=
  match answers_of (q_id q) s with [] => [(q, None)] | l => map (fun a => (q, Some a)) l end.
Definition open_rows (s : SiteStore) : list (QuestionRow * option AnswerRow) :=
  flat_map (joined s) (ascending q_created
    (List.filter (fun q => (q_status q =? "pending")%string || (q_status q =? "answered")%string) (questions s))).

Definition check_answers args : T OwnerStore Result :=
  match (match arg_num "question_id" args with Some l => if float_positive l then Some (float_int l) else None | None => None end) with
  | Some qid =>
      r ← lift (Query (fun s => option_map (fun q => (q, last_answer q s)) (find_question qid s)));
      row ← or_throw "checking answer" r;
      match row with
      | None => reject "question not found"
      | Some (q, a) => mret (result_data (answer_entry q a))
      end
  | None =>
      r ← lift (Query open_rows);
      rows ← or_throw "checking answers" r;
      mret (result_data (slice (fun '(q, a) => answer_entry q a) rows))
  end.

Definition CommunicationTool_Execute args : T OwnerStore Result :=
  dispatch [("ask", ask_question); ("check", check_answers)] None args.
End Tool.

(** ** The handlers of the administration *)

(** A handler works on one site: its worker's world and its own tables. *)
Definition Q (A : Type) : Type := Ctx OwnerStore -> A * Ctx OwnerStore.
#[export] Instance Q_ret : MRet Q := fun A a c => (a, c).
#[export] Instance Q_bind : MBind Q := fun A B k m c => let '(a, c') := m c in k a c'.

Definition on_world {A} (m : M A) : Q A := fun c => let '(a, w) := m (cw c) in (a, {| cw := w; cs := cs c |}).

Definition Answered : Type := Z * json.
Definition admin_error (status : Z) (msg : string) : Answered := (status, JObj [("error", JStr msg)]).

Record FieldDef := { fd_name : string; fd_label : string; fd_type : string; fd_secret : string }.
Definition dec_FieldDef (j : json) : res string FieldDef :=
  let! m := members j in
  let! n := str "name" m in let! l := str "label" m in let! t := str "type" m in let! s := str "secret_name" m in
  Ok {| fd_name := n; fd_label := l; fd_type := t; fd_secret := s |}.
Definition dec_fields (text : string) : res string (list FieldDef) :=
  res_bind (Unmarshal text) (fun j => dec_list dec_FieldDef (Some j)).
(** The values of the fields; the nil map has none. *)
Definition dec_values (text : string) : res string (gmap string string) :=
  res_bind (Unmarshal text) (fun j => res_bind (dec_map (Some j)) (fun m => Ok (default ∅ m))).

Definition upsert_memory (key value : string) (t : time) (s : OwnerStore) : OwnerStore :=
  set_memory_rows (snd (upsert (fun r => (mr_key r =? key)%string) mr_id
    (fun n => {| mr_id := n; mr_key := key; mr_value := value; mr_category := "field_answer"; mr_created := t; mr_updated := t |})
    (fun r => {| mr_id := mr_id r; mr_key := mr_key r; mr_value := value; mr_category := mr_category r; mr_created := mr_created r; mr_updated := t |})
    (ow_memory s))) s.

Section Answers.
Context `{C : Crypto} `{E : Env} `{F : Formats}.

(** [ExecWrite] on the tables secrets and memory; errors are dropped. *)
Definition write_own (f : time -> OwnerStore -> OwnerStore) : Q unit := fun c =>
  let w := cw c in
  (tt, {| cw := count_write w; cs := if write_fails (nwrites w) then cs c else f (CURRENT_TIMESTAMP w) (cs c) |}).

Definition secret_stored (name : string) (questionID : Z) : Q unit :=
  on_world (publish "secret.stored" [("name", VString name); ("question_id", VInt questionID)]).

Definition is_secret (fd : FieldDef) : bool := (fd_type fd =? "secret")%string && negb (fd_secret fd =? "")%string.

(** One field of a structured answer: its label, if it was configured. *)
Definition store_field (questionID : Z) (values : gmap string string) (fd : FieldDef) : Q (list string) :=
  let val := default "" (values !! fd_name fd) in
  if (val =? "")%string then mret []
  else if is_secret fd then
    match encrypt val with
    | Err _ => mret []
    | Ok encrypted =>
        write_own (upsert_secret (fd_secret fd) encrypted);;
        secret_stored (fd_secret fd) questionID;;
        mret [fd_label fd]
    end
  else
    write_own (upsert_memory (fd_name fd) val);;
    mret [fd_label fd].
Fixpoint store_fields (questionID : Z) (values : gmap string string) (defs : list FieldDef) : Q (list string) :=
  match defs with
  | [] => mret []
  | fd :: r =>
      l ← store_field questionID values fd;
      l' ← store_fields questionID values r;
      mret (l ++ l')%list
  end.

(** What is kept as the answer, after secrets and fields went to their places. *)
Definition kept_answer (questionID : Z) (q : option QuestionRow) (answer : string) : Q (Answered + string) :=
  let fieldsJSON := default "" (q ≫= q_fields) in
  let secretName := default "" (q ≫= q_secret) in
  if negb ((fieldsJSON =? "")%string || (fieldsJSON =? "[]")%string) then
    match dec_fields fieldsJSON, dec_values answer with
    | Ok defs, Ok values =>
        configured ← store_fields questionID values defs;
        mret (inr ("Configured: " ++ Join configured ", "))
    | _, _ => mret (inr answer)
    end
  else if bool_decide (option_map q_type q = Some "secret") && negb (secretName =? "")%string then
    match encrypt answer with
    | Err _ => mret (inl (admin_error 500 "failed to encrypt secret"))
    | Ok encrypted =>
        write_own (upsert_secret secretName encrypted);;
        secret_stored secretName questionID;;
        mret (inr ("Secret '" ++ secretName ++ "' configured"))
    end
  else mret (inr answer).

Definition set_answered (q : QuestionRow) : QuestionRow :=
  {| q_id := q_id q; q_question := q_question q; q_context := q_context q; q_options := q_options q; q_urgency := q_urgency q;
     q_status := "answered"; q_type := q_type q; q_secret := q_secret q; q_fields := q_fields q; q_created := q_created q |}.
Definition add_answer (questionID : Z) (answer : string) (t : time) (s : SiteStore) : SiteStore :=
  set_answers (answers s ++ [{| a_id := next_id a_id (answers s); a_question := questionID; a_answer := answer; a_created := t |}])%list s.

(** [Answer], once the site is known. *)
Definition answer_question (questionID : Z) (answer : string) : Q Answered :=
  r ← on_world (Query (find_question questionID));
  kept ← kept_answer questionID match r with Ok q => q | Err _ => None end answer;
  match kept with
  | inl e => mret e
  | inr answer =>
      ok ← on_world (ExecWrite (fun _ s => set_questions (update_where (question_is questionID) set_answered (questions s)) s));
      if negb (ok : bool) then mret (admin_error 500 "failed to answer question") else
      on_world (ExecWrite (add_answer questionID answer));;
      p ← on_world (Query pending_questions);
      let pendingCount := match p with Ok n => Z.of_nat n | Err _ => (-1)%Z end in
      (if (pendingCount =? 0)%Z then
         parts ← on_world (Query answered);
         match parts with
         | Ok parts => on_world (publish "question.answered" [("question_id", VInt questionID); ("answer", VString (Join parts newline))])
         | Err _ => mret tt
         end
       else mret tt);;
      mret (200%Z, JObj [("id", int questionID); ("pending", int pendingCount); ("status", JStr "answered")])
  end.

(** *** All sites *)

Definition Sites : Type := Z -> Ctx OwnerStore.
Definition HS (A : Type) : Type := Sites -> A * Sites.
#[export] Instance HS_ret : MRet HS := fun A a s => (a, s).
#[export] Instance HS_bind : MBind HS := fun A B k m s => let '(a, s') := m s in k a s'.
Definition at_site {A} (id : Z) (m : Q A) : HS A := fun sites =>
  let '(a, c) := m (sites id) in (a, fun i => if (i =? id)%Z then c else sites i).

Context (opens : Z -> bool).             (* the site's database opens *)

(** The first open site, in the order of the map, that has a question of this id. *)
Fixpoint site_of_question (ids : list Z) (questionID : Z) : HS Z :=
  match ids with
  | [] => mret 0%Z
  | id :: r =>
      if negb (opens id) then site_of_question r questionID else
      found ← at_site id (on_world (Query (find_question questionID)));
      match found with
      | Ok (Some _) => mret id
      | _ => site_of_question r questionID
      end
  end.

(** The body: the answer and the site. *)
Definition decode_answer (body : string) : option (string * Z) :=
  match parse_value (2 * String.length body + 2) max_depth body with
  | Ok (j, _) =>
      match (let! m := members j in let! a := str "answer" m in let! s := dec_int (member "site_id" m) in Ok (a, s)) with
      | Ok x => Some x
      | Err _ => None
      end
  | Err _ => None
  end.

(** [openIDs] are the ids of the open sites as the map gives them. *)
Definition Answer (openIDs : list Z) (idText body : string) : HS Answered :=
  match Atoi idText with
  | (questionID, None) =>
      match decode_answer body with
      | None => mret (admin_error 400 "invalid request body")
      | Some (answer, site_id) =>
          if (answer =? "")%string then mret (admin_error 400 "answer is required") else
          siteID ← (if (site_id =? 0)%Z then site_of_question openIDs questionID else mret site_id);
          if (siteID =? 0)%Z then mret (admin_error 404 "question not found")
          else if negb (opens siteID) then mret (admin_error 500 "failed to open site database")
          else at_site siteID (answer_question questionID answer)
      end
  | _ => mret (admin_error 400 "invalid question ID")
  end.

(** *** Lists *)

Definition with_status (status : string) (q : QuestionRow) : bool := (status =? "")%string || (q_status q =? status)%string.
Definition listed (status : string) (s : SiteStore) : list (QuestionRow * option AnswerRow) :=
  map (fun q => (q, last_answer q s)) (descending q_created (List.filter (with_status status) (questions s))).

Definition opt_member (k : string) (o : option string) : list (string * json) := match o with Some t => [(k, JStr t)] | None => [] end.
Definition text_or_nil (o : option string) : json := match o with Some t => JStr t | None => JNull end.

Definition question_json (siteID : Z) (qa : QuestionRow * option AnswerRow) : json :=
  let '(q, a) := qa in
  JObj ([("id", int (q_id q)); ("site_id", int siteID); ("question", JStr (q_question q));
         ("answer", text_or_nil (option_map a_answer a)); ("status", JStr (q_status q)); ("type", JStr (q_type q))]
        ++ opt_member "secret_name" (q_secret q) ++ opt_member "fields" (q_fields q)
        ++ [("created_at", JStr (time_text (q_created q))); ("updated_at", JStr (time_text (q_created q)))])%list.
Definition siteQuestion_json (siteID : Z) (qa : QuestionRow * option AnswerRow) : json :=
  let '(q, a) := qa in
  JObj ([("id", int (q_id q)); ("site_id", int siteID); ("question", JStr (q_question q)); ("context", text_or_nil (q_context q));
         ("options", JStr (q_options q)); ("urgency", JStr (q_urgency q)); ("status", JStr (q_status q));
         ("answer", text_or_nil (option_map a_answer a)); ("created_at", JStr (time_text (q_created q))); ("type", JStr (q_type q))]
        ++ opt_member "secret_name" (q_secret q) ++ opt_member "fields" (q_fields q))%list.

(** A site whose database does not open or answer is left out. *)
Fixpoint list_sites (ids : list Z) (status : string) : HS (list json) :=
  match ids with
  | [] => mret []
  | id :: r =>
      l ← (if opens id then
             rows ← at_site id (on_world (Query (listed status)));
             mret match rows with Ok rows => map (question_json id) rows | Err _ => [] end
           else mret []);
      l' ← list_sites r status;
      mret (l ++ l')%list
  end.
(** [siteIDs] are all sites, nothing if they cannot be read. *)
Definition ListQuestions (siteIDs : option (list Z)) (status : string) : HS Answered :=
  l ← list_sites (default [] siteIDs) status;
  mret (200%Z, JArr l).

Definition ListBySite (idText status : string) : HS Answered :=
  match Atoi idText with
  | (siteID, None) =>
      if negb (opens siteID) then mret (admin_error 500 "failed to open site database") else
      rows ← at_site siteID (on_world (Query (listed status)));
      mret (200%Z, JArr match rows with Ok rows => map (siteQuestion_json siteID) rows | Err _ => [] end)
  | _ => mret (admin_error 400 "invalid site ID")
  end.

(** ** Waking the worker *)

Definition payload_value (k : string) (p : payload) : value := default VNil (payload_get k p).
Definition wake_command (e : Event) : BrainCommand :=
  {| CmdType := CommandWake;
     CmdPayload := Some [("reason", VString "question_answered"); ("question_id", payload_value "question_id" (ev_payload e));
                         ("answer", payload_value "answer" (ev_payload e))] |}.

(** The subscription of main.go: sent, and once more after three seconds. *)
Definition wake_on_answer (siteID : Z) (e : Event) : M unit :=
  if negb (ev_type e =? "question.answered")%string then mret tt else
  err ← Manager.SendCommand siteID (wake_command e);
  match err with
  | None => mret tt
  | Some _ => sleep (3 * second);; Manager.SendCommand siteID (wake_command e);; mret tt
  end.
End Answers.
