(* ===== verification/QuestionFacts.v ===== *)
(** * What becomes of an answer

    That a secret leaves no trace but its ciphertext, and that the approval of the
    owner reaches the tool that waits for it. *)

From Stdlib Require Import ZArith Lia Ascii String List Bool.
From stdpp Require Import base list strings gmap.
From S2P Require Import PublicAPIFacts Prelude GoStrings GoTime JSONText Plan PlanJSON PlanStore World ToolCore Approval LLMLoop Scheduler SchedulerTool Stages Worker Manager Security SiteTables ToolMonad Tables Endpoints Questions.

Local Open Scope string_scope.

Section Answering.
Context `{C : Crypto} `{E : Env} `{F : Formats}.
Implicit Types (c : Ctx OwnerStore).

(** ** Secrets *)

(** Two values of a secret field that cannot be told apart by their ciphertexts. *)
Definition same_cipher (a b : string) : Prop := (a =? "")%string = (b =? "")%string /\ encrypt a = encrypt b.

(** Two answers to a structured question that differ in their secrets only. *)
Definition same_but_secrets (defs : list FieldDef) (v1 v2 : gmap string string) : Prop :=
  Forall (fun fd => let a := default "" (v1 !! fd_name fd) in let b := default "" (v2 !! fd_name fd) in
                    if is_secret fd then same_cipher a b else a = b) defs.

(** The owner was asked for a secret, alone or in a field, and the answers agree on all else. *)
Definition differ_in_secret (q : QuestionRow) (a1 a2 : string) : Prop :=
  let fields := default "" (q_fields q) in
  if negb ((fields =? "")%string || (fields =? "[]")%string) then
    exists defs v1 v2, dec_fields fields = Ok defs /\ dec_values a1 = Ok v1 /\ dec_values a2 = Ok v2 /\ same_but_secrets defs v1 v2
  else q_type q = "secret" /\ default "" (q_secret q) <> "" /\ encrypt a1 = encrypt a2.

Lemma Q_bind_run {A B} (m : Q A) (k : A -> Q B) c a c' : m c = (a, c') -> (m ≫= k) c = k a c'.
Proof. intros H. unfold mbind, Q_bind. by rewrite H. Qed.

Lemma Q_ret_bind {A B} (a : A) (k : A -> Q B) c : (mret a ≫= k) c = k a c.
Proof. done. Qed.

Lemma Q_assoc {A B B'} (m : Q A) (k : A -> Q B) (k' : B -> Q B') c : ((m ≫= k) ≫= k') c = (m ≫= (fun a => k a ≫= k')) c.
Proof. unfold mbind, Q_bind. by destruct (m c). Qed.

Lemma store_field_same id v1 v2 fd :
  (let a := default "" (v1 !! fd_name fd) in let b := default "" (v2 !! fd_name fd) in
   if is_secret fd then same_cipher a b else a = b) -> store_field id v1 fd = store_field id v2 fd.
Proof.
  unfold store_field. destruct (is_secret fd); cbv zeta.
  - intros [-> ->]. done.
  - by intros ->.
Qed.
Lemma store_fields_same id v1 v2 defs : same_but_secrets defs v1 v2 -> store_fields id v1 defs = store_fields id v2 defs.
Proof.
  induction 1 as [|fd defs H _ IH]; [done|]. cbn [store_fields]. by rewrite (store_field_same id v1 v2 fd H), IH.
Qed.
Lemma kept_answer_same id q a1 a2 : differ_in_secret q a1 a2 -> kept_answer id (Some q) a1 = kept_answer id (Some q) a2.
Proof.
  unfold differ_in_secret, kept_answer. cbn [mbind option_bind option_map]. destruct (negb _).
  - intros (defs & v1 & v2 & -> & -> & -> & H). by rewrite (store_fields_same id v1 v2 defs H).
  - intros (-> & Hs & He). apply String.eqb_neq in Hs. rewrite Hs, bool_decide_true by done. cbn. by rewrite He.
Qed.

(** A secret leaves no trace but its ciphertext.  If the question can be read,
    asks for a secret - by its type or in one of its fields - and the answer has the
    form asked for, then everything that follows from the answer, in the tables, in
    the events published and in the response, is the same for any two answers whose
    secrets have the same ciphertexts: no part of it tells more than the ciphertext does. *)
Theorem secret_answer_hidden id q a1 a2 c :
  load_fails (nloads (cw c)) = None -> find_question id (db (cw c)) = Some q -> differ_in_secret q a1 a2 ->
  answer_question id a1 c = answer_question id a2 c.
Proof.
  intros Hl Hq Hd. assert (on_world (Query (find_question id)) c = (Ok (Some q), {| cw := count_load (cw c); cs := cs c |})) as Hr.
  { unfold on_world, Query. by rewrite Hl, Hq. }
  unfold answer_question. rewrite (Q_bind_run _ _ _ _ _ Hr), (Q_bind_run _ _ _ _ _ Hr). cbv beta iota. by rewrite (kept_answer_same id q a1 a2 Hd).
Qed.

(** ** Approvals *)

Lemma latest_fold l x : (forall y, In y l -> y = x \/ (a_created y < a_created x)%Z) ->
  forall best, (match best with Some b => b = x \/ (a_created b < a_created x)%Z | None => True end) -> In x l \/ best = Some x ->
  fold_left (fun best a => match best with
                           | Some b => if (a_created b <? a_created a)%Z then Some a else best
                           | None => Some a
                           end) l best = Some x.
Proof.
  induction l as [|y l IH]; intros Hl best Hb Hi; cbn [fold_left]; [by destruct Hi|].
  assert (forall z, In z l -> z = x \/ (a_created z < a_created x)%Z) as Hl' by (intros; apply Hl; by right).
  destruct (Hl y (or_introl eq_refl)) as [->|Hy].
  - destruct best as [b|]; [destruct Hb as [->|Hb]|].
    + rewrite Z.ltb_irrefl. apply IH; [done|by left|by right].
    + apply Z.ltb_lt in Hb as ->. apply IH; [done|by left|by right].
    + apply IH; [done|by left|by right].
  - assert (In x l \/ best = Some x) as Hi' by (destruct Hi as [[->|]|]; [lia|by left|by right]).
    destruct best as [b|].
    + destruct (Z.ltb_spec (a_created b) (a_created y)) as [Hlt|Hge]; [|by apply IH].
      apply IH; [done|by right|]. destruct Hi' as [|[= ->]]; [by left|lia].
    + apply IH; [done|by right|]. destruct Hi' as [|[=]]; by left.
Qed.

(** The answer that is younger than all others is the latest. *)
Lemma latest_youngest l x : In x l -> (forall y, In y l -> y = x \/ (a_created y < a_created x)%Z) -> latest_answer l = Some x.
Proof. intros Hx Hl. apply latest_fold; [done|done|by left]. Qed.

(** A question that is answered with the text as it is. *)
Definition plain_question (q : QuestionRow) : bool :=
  ((default "" (q_fields q) =? "")%string || (default "" (q_fields q) =? "[]")%string) &&
  negb ((q_type q =? "secret")%string && negb (default "" (q_secret q) =? "")%string).

Definition after_answer (id : Z) (answer : string) (t : time) (s : SiteStore) : SiteStore :=
  add_answer id answer t (set_questions (update_where (question_is id) set_answered (questions s)) s).
Definition answered_event (id : Z) (s : SiteStore) : Event :=
  {| ev_type := "question.answered"; ev_payload := [("question_id", VInt id); ("answer", VString (Join (answered s) newline))] |}.

Lemma query_run `{K : !Calm} {A} (f : SiteStore -> A) c :
  on_world (Query f) c = (Ok (f (db (cw c))), {| cw := count_load (cw c); cs := cs c |}).
Proof. unfold on_world, Query. by rewrite loads_work. Qed.
Lemma write_run `{K : !Calm} f c :
  on_world (ExecWrite f) c = (true, {| cw := set_db (f (CURRENT_TIMESTAMP (cw c))) (count_write (cw c)); cs := cs c |}).
Proof. unfold on_world, ExecWrite. by rewrite writes_work. Qed.

Lemma kept_plain id q answer : plain_question q = true -> kept_answer id (Some q) answer = mret (inr answer).
Proof.
  intros [Hf Hs%negb_true_iff]%andb_prop. unfold kept_answer. cbn [mbind option_bind option_map]. rewrite Hf. cbn [negb].
  assert (bool_decide (Some (q_type q) = Some "secret") = (q_type q =? "secret")%string) as ->; [|by rewrite Hs].
  destruct (String.eqb_spec (q_type q) "secret") as [->|Hn]; [done|]. apply bool_decide_false. congruence.
Qed.

(** What a plain answer comes to. *)
Lemma plain_answer `{K : !Calm} id q answer c : find_question id (db (cw c)) = Some q -> plain_question q = true ->
  let s := after_answer id answer (CURRENT_TIMESTAMP (cw c)) (db (cw c)) in
  exists w, answer_question id answer c =
      ((200%Z, JObj [("id", int id); ("pending", int (Z.of_nat (pending_questions s))); ("status", JStr "answered")]), {| cw := w; cs := cs c |}) /\
    db w = s /\ commands w = commands (cw c) /\ worker w = worker (cw c) /\
    bus w = (bus (cw c) ++ if (pending_questions s =? 0)%nat then [answered_event id s] else [])%list.
Proof.
  intros Hq Hp s. unfold answer_question.
  rewrite (Q_bind_run _ _ _ _ _ (query_run _ _)), Hq. cbv beta iota. rewrite (kept_plain id q answer Hp), Q_ret_bind. cbv beta iota.
  rewrite (Q_bind_run _ _ _ _ _ (write_run _ _)). cbn [negb]. rewrite (Q_bind_run _ _ _ _ _ (write_run _ _)), (Q_bind_run _ _ _ _ _ (query_run _ _)).
  cbn [cw cs]. change (db (set_db _ _)) with s. destruct (Nat.eqb_spec (pending_questions s) 0) as [H0|H0].
  - rewrite H0. change (Z.of_nat 0 =? 0)%Z with true. cbv beta iota. eexists. split.
    + rewrite Q_assoc, (Q_bind_run _ _ _ _ _ (query_run _ _)). reflexivity.
    + done.
  - destruct (Z.eqb_spec (Z.of_nat (pending_questions s)) 0) as [|_]; [lia|]. eexists. split; [reflexivity|]. cbn. by rewrite app_nil_r.
Qed.

Lemma none_pending id answer t s : (forall q, In q (questions s) -> q_status q = "pending" -> q_id q = id) ->
  pending_questions (after_answer id answer t s) = 0%nat.
Proof.
  intros H. unfold pending_questions, after_answer, add_answer. cbn [questions set_answers set_questions].
  destruct (List.filter _ _) as [|q l] eqn:Hf; [done|]. assert (In q (q :: l)) as Hq by (by left). rewrite <- Hf in Hq.
  apply filter_In in Hq as [Hq Hp%String.eqb_eq]. apply in_map_iff in Hq as (q0 & <- & Hq0). unfold question_is in Hp.
  destruct (Z.eqb_spec (q_id q0) id) as [|Hn]; [done|]. by apply H in Hq0.
Qed.

Lemma answers_after key id answer t s y : In y (answers_for key (after_answer id answer t s)) ->
  In y (answers_for key s) \/ y = {| a_id := next_id a_id (answers s); a_question := id; a_answer := answer; a_created := t |}.
Proof.
  unfold answers_for, after_answer, add_answer. cbn [questions answers set_answers set_questions]. intros (q & Hq & Hy)%in_flat_map.
  apply in_map_iff in Hq as (q0 & <- & Hq0). case_bool_decide as Hc; [|done]. apply filter_In in Hy as [Hy Hi].
  apply in_app_iff in Hy as [Hy|[<-|[]]]; [|by right]. left. apply in_flat_map. exists q0. split; [done|].
  assert (q_context q0 = Some key /\ a_question y =? q_id q0 = true)%Z as [Hc' Hi'] by (by destruct (question_is id q0)).
  rewrite bool_decide_true by done. by apply filter_In.
Qed.

Lemma new_answer_in key id answer t s q : find_question id s = Some q -> q_context q = Some key ->
  In {| a_id := next_id a_id (answers s); a_question := id; a_answer := answer; a_created := t |}
     (answers_for key (after_answer id answer t s)).
Proof.
  intros [Hi Hq]%find_some Hc. unfold question_is in Hq. apply in_flat_map. exists (set_answered q). split.
  - apply in_map_iff. exists q. unfold question_is. by rewrite Hq.
  - cbn [q_context set_answered]. rewrite bool_decide_true by done. apply filter_In. split.
    + unfold after_answer, add_answer. cbn [answers set_answers]. apply in_app_iff. right. by left.
    + cbn. apply Z.eqb_eq in Hq. by apply Z.eqb_eq.
Qed.
End Answering.

Lemma wake_sent site e w queue : ev_type e = "question.answered" -> commands w = Some queue -> (List.length queue < channel_size)%nat ->
  wake_on_answer site e w = (tt, set_commands (Some (queue ++ [wake_command e])%list) w).
Proof.
  intros He Hc Hl%Nat.ltb_lt. unfold wake_on_answer. rewrite He. change (negb _) with false. cbv beta iota. unfold SendCommand, mbind, M_bind, get. cbv beta iota. rewrite Hc. unfold Send. by rewrite Hl.
Qed.

(** C26. The owner's word reaches the tool that waits for it.  When nothing fails and
    the question for the approval of an action is the last one open, its answer is
    stored, the worker is sent one command, with all questions and answers in it, and
    the tool that asks again finds the action approved exactly if the answer approves
    it (given that earlier answers are a second or more older); a worker that waits,
    paused, is building again with these answers at hand, and the pipeline is no longer
    paused. *)
Theorem approval_reaches_worker `{C : Crypto} `{E : Env} `{K : !Calm} `{D : Deps} site c q id key answer queue :
  let w := cw c in
  find_question id (db w) = Some q -> q_context q = Some (approvalKeyPrefix ++ key) -> plain_question q = true ->
  (forall q', In q' (questions (db w)) -> q_status q' = "pending" -> q_id q' = id) ->
  (forall a, In a (answers_for (approvalKeyPrefix ++ key) (db w)) -> (a_created a < CURRENT_TIMESTAMP w)%Z) ->
  commands w = Some queue -> (List.length queue < channel_size)%nat ->
  let '(r, c1) := answer_question id answer c in
  fst r = 200%Z /\ exists e, bus (cw c1) = (bus w ++ [e])%list /\
    let w2 := snd (wake_on_answer site e (cw c1)) in
    commands w2 = Some (queue ++ [wake_command e])%list /\
    fst (CheckApproval key w2) = approves answer /\
    (wstate (worker w) = StatePaused ->
     let w3 := snd (handleCommand (wake_command e) w2) in
     wstate (worker w3) = StateBuilding /\ paused (pipeline (db w3)) = false /\ stage (pipeline (db w3)) = stage (pipeline (db w)) /\
     payload_string "answer" (wakeContext (worker w3)) = Some (Join (answered (db (cw c1))) newline)).
Proof.
  cbv zeta. intros Hq Hc Hpl Hp Ht Hcmd Hlen. destruct (plain_answer id q answer c Hq Hpl) as (w1 & -> & Hdb & Hcm & Hwk & Hbus).
  split; [done|]. cbn [cw]. rewrite (none_pending _ _ _ _ Hp) in Hbus. cbn [Nat.eqb] in Hbus. eexists. split; [exact Hbus|].
  set (e := answered_event id _). rewrite (wake_sent site e w1 queue) by (done || congruence). cbn [snd].
  split; [done|]. split.
  - unfold CheckApproval, read_answer, mbind, M_bind, Query. rewrite loads_work. cbn [fst db set_commands]. rewrite Hdb.
    rewrite (latest_youngest _ _ (new_answer_in _ id answer (CURRENT_TIMESTAMP (cw c)) _ q Hq Hc)); [done|].
    intros y [Hy|Hy]%answers_after; [right; by apply Ht|by left].
  - intros Hst. unfold handleCommand, wake_command, mbind, M_bind. cbn. rewrite Hwk, Hst.
    rewrite bool_decide_true by done. unfold ResumePipeline, ExecWrite. rewrite writes_work. cbn. rewrite Hdb. by cbn.
Qed.

(** ** Samples *)

Module OwnerSample.
(** A cipher of which only the length can be told. *)
#[export] Instance crypto : Crypto :=
  {| token_sign := ApiSample.sign; token_parse := ApiSample.parse; token_valid := ApiSample.sign_parse; bcrypt := Ok; bcrypt_check := String.eqb;
     encrypt s := Ok (Itoa (Z.of_nat (String.length s))); float_text s := s |}.
#[export] Instance env : Env := calm_env (fun _ _ => Err "").
#[export] Instance calm : Calm.
Proof. by split. Qed.
#[export] Existing Instances Sample.deps digit_floats.

Definition asked (id : Z) (context : option string) (ty : string) (secret fields : option string) : QuestionRow :=
  {| q_id := id; q_question := "Which?"; q_context := context; q_options := ""; q_urgency := "normal"; q_status := "pending";
     q_type := ty; q_secret := secret; q_fields := fields; q_created := 0%Z |}.
Definition key_question : QuestionRow := asked 1 None "secret" (Some "api_key") None.
Definition form_question : QuestionRow :=
  asked 1 None "text" None (Some (dq "[{'name':'key','label':'Key','type':'secret','secret_name':'api_key'}]")).
Definition gate_question : QuestionRow := asked 1 (Some "approval:delete_table:posts") "approval" None None.
Definition start (q : QuestionRow) : Ctx OwnerStore :=
  {| cw := set_db (set_questions [q]) paused_world; cs := {| ow_secrets := []; ow_memory := [] |} |}.

(** Two answers to the form. *)
Definition form_fields : list FieldDef := [{| fd_name := "key"; fd_label := "Key"; fd_type := "secret"; fd_secret := "api_key" |}].
Definition first_values : gmap string string := {["key" := "sk-111"]}.
Definition second_values : gmap string string := {["key" := "sk-222"]}.
Lemma form_fields_read : dec_fields (default "" (q_fields form_question)) = Ok form_fields.
Proof. vm_compute. reflexivity. Qed.
Lemma first_values_read : dec_values (dq "{'key':'sk-111'}") = Ok first_values.
Proof. vm_compute. reflexivity. Qed.
Lemma second_values_read : dec_values (dq "{'key':'sk-222'}") = Ok second_values.
Proof. vm_compute. reflexivity. Qed.
Lemma values_alike : same_but_secrets form_fields first_values second_values.
Proof. apply Forall_cons_2; [|by constructor]. cbv zeta. change (is_secret _) with true. cbv iota. split; vm_compute; reflexivity. Qed.
Lemma forms_alike : differ_in_secret form_question (dq "{'key':'sk-111'}") (dq "{'key':'sk-222'}").
Proof.
  unfold differ_in_secret. cbv zeta. change (negb _) with true. cbv iota. exists form_fields, first_values, second_values.
  split; [apply form_fields_read|]. split; [apply first_values_read|]. split; [apply second_values_read|apply values_alike].
Qed.
End OwnerSample.
Import OwnerSample.

(** Two keys of the same length leave the same state. *)
Lemma secret_answer_hidden_witness :
  answer_question 1 "sk-111" (start key_question) = answer_question 1 "sk-222" (start key_question) /\
  answer_question 1 (dq "{'key':'sk-111'}") (start form_question) = answer_question 1 (dq "{'key':'sk-222'}") (start form_question).
Proof.
  split.
  - apply (secret_answer_hidden 1 key_question); [done|done|]. done.
  - apply (secret_answer_hidden 1 form_question); [done|done|]. apply forms_alike.
Defined.

(** An answer that is no object of texts is kept as it is, the secret with it. *)
Example malformed_answer_in_clear :
  map a_answer (answers (db (cw (snd (answer_question 1 "sk-111" (start form_question)))))) = ["sk-111"].
Proof. vm_compute. reflexivity. Qed.

Lemma approval_reaches_worker_witness :
  let '(r, c1) := answer_question 1 "Yes, delete it" (start gate_question) in
  fst r = 200%Z /\ exists e, bus (cw c1) = [e] /\
    let w2 := snd (wake_on_answer 1 e (cw c1)) in
    fst (CheckApproval "delete_table:posts" w2) = true /\
    paused (pipeline (db (snd (handleCommand (wake_command e) w2)))) = false.
Proof.
  pose proof (approval_reaches_worker 1 (start gate_question) gate_question 1 "delete_table:posts" "Yes, delete it" []
    eq_refl eq_refl eq_refl ltac:(by intros q' [<-|[]]) ltac:(by intros a []) eq_refl ltac:(vm_compute; lia)) as H.
  cbv zeta in H. destruct (answer_question _ _ _) as [r c1]. destruct H as (H1 & e & H2 & _ & H3 & H4).
  split; [exact H1|]. exists e. split; [exact H2|]. split; [exact H3|]. exact (proj1 (proj2 (H4 eq_refl))).
Defined.
