(* ===== verification/StoreFacts.v ===== *)
(** * The site's configuration tables stay well formed

    What the tools write to dynamic_tables, api_endpoints, auth_endpoints and
    ws_endpoints, and what the public server can rely on when it reads them.  First a site the examples
    of the tools work on. *)

From Stdlib Require Import ZArith Lia Ascii String List Bool.
From stdpp Require Import base list strings gmap.
From S2P Require Import Prelude GoStrings GoTime JSONText PlanStore JSONRead World ToolCore Approval Security SiteTables PublicAPIFacts ToolMonad Tables SchedulerTool DataTool Endpoints.

Local Open Scope string_scope.

Module ToolSample.
(** A database that answers no rows and accepts a statement once, as SQLite does
    with a column to add. *)
Definition once : SQL :=
  {| tables := list string;
     sql_query := fun _ _ _ => Ok [];
     sql_exec := fun q _ u => if existsb (String.eqb q) u then (Err "duplicate column name", u) else (Ok (1, 1)%Z, q :: u);
     table_info := fun _ _ => Ok [("id", "INTEGER"); ("email", "TEXT"); ("password", "TEXT")] |}.

#[export] Existing Instances ApiSample.crypto ApiSample.order once digit_floats.
#[export] Instance env : Env := calm_env (fun _ _ => Err "").

(** A table with a password, registered. *)
Definition users : DynRow :=
  {| dt_id := 1; dt_name := "users"; dt_schema := dq "{'email':'TEXT','password':'PASSWORD'}";
     dt_secure := Some (Marshal (enc_gmap {["password" := "hash"]})); dt_created := 0 |}.

Definition store : Store :=
  {| st_user := []; st_dynamic := [users]; st_api := []; st_auth := []; st_upload := []; st_stream := []; st_ws := [];
     st_oauth := []; st_secrets := ∅; st_sent := [] |}.

Definition start : Ctx Store := {| cw := new_world; cs := store |}.

Definition insert_args : Args :=
  [("action", JStr "insert"); ("table_name", JStr "users"); ("data", JObj [("email", JStr "a@b.c"); ("password", JStr "pw")])].

(** An alteration that adds a column and drops another. *)
Definition alter_args : Args :=
  [("table_name", JStr "users"); ("add_columns", JObj [("age", JStr "integer")]); ("drop_columns", JArr [JStr "email"])].
End ToolSample.

(** ** The JSON of the secure columns *)

Lemma utf8_plain s : all_bytes (fun a => code a <? 128)%nat s = true -> utf8 s.
Proof. apply utf8_ascii. Qed.

Lemma is_word_plain a : is_word a = true -> (code a <? 128)%nat = true.
Proof.
  unfold is_word, is_alpha, is_upper, is_lower, is_digit. rewrite Nat.ltb_lt.
  destruct (Ascii.eqb_spec a "_") as [->|]; [intros _; vm_compute; lia|].
  rewrite !orb_true_iff, !andb_true_iff, !Nat.leb_le. intros [[[[]|[]]|[]]|]; [lia..|done].
Qed.

Lemma identifier_utf8 s : validIdentifier s = true -> utf8 s.
Proof.
  intros H%validIdentifier_words. apply utf8_plain. revert H. apply all_bytes_impl. apply is_word_plain.
Qed.

Definition kind_ok (k : string) : Prop := k = "hash" \/ k = "encrypt".

(** Columns with the kinds the tools know. *)
Definition secure_ok (m : gmap string string) : Prop :=
  map_Forall (fun c k => validIdentifier c = true /\ kind_ok k) m.

Lemma enc_gmap_readable m : secure_ok m -> readable max_depth (enc_gmap m).
Proof.
  intros Hm. change max_depth with (S (pred max_depth)). unfold enc_gmap. cbn [readable].
  assert (Forall (fun kv => validIdentifier (fst kv) = true /\ kind_ok (snd kv)) (sorted_members m)) as Hl.
  { rewrite sorted_members_perm. apply Forall_forall. intros [k v] Hkv%elem_of_map_to_list. exact (Hm k v Hkv). }
  induction Hl as [|[k v] l [Hk Hv] Hl IH]; [done|]. cbn [map foldr fst snd]. split; [|done].
  split; [by apply identifier_utf8|]. cbn [fst snd kind_ok] in *. by destruct Hv as [->| ->]; apply utf8_plain.
Qed.

(** What the tools read back is what they wrote. *)
Lemma secure_map_enc m : secure_ok m -> secure_map (Some (Marshal (enc_gmap m))) = Some m.
Proof.
  intros Hm. unfold secure_map. rewrite Unmarshal_Marshal by by apply enc_gmap_readable. unfold enc_gmap.
  assert (forall l : list (string * string),
    mapM (fun kv : string * json => match snd kv with JStr s => Some (fst kv, s) | JNull => Some (fst kv, "") | _ => None end)
      (map (fun kv => (fst kv, JStr (snd kv))) l) = Some l) as ->.
  { induction l as [|[k v] l IH]; [done|]. cbn [map mapM mbind option_bind fst snd]. cbn in IH. by rewrite IH. }
  by rewrite go_map_sorted.
Qed.

(** And so does the public server. *)
Lemma string_map_enc m : secure_ok m -> string_map_of (Marshal (enc_gmap m)) = m.
Proof.
  intros Hm. unfold string_map_of. rewrite Unmarshal_Marshal by by apply enc_gmap_readable. unfold enc_gmap.
  rewrite map_map. cbn [fst snd text_of]. rewrite (map_ext _ id) by (by intros []). rewrite map_id. apply go_map_sorted.
Qed.

(** ** Well-formedness *)

Definition table_ok (name : string) : Prop := sanitizedTableName name = Ok name.

Record dyn_ok (d : DynRow) : Prop := {
  dyn_name : table_ok (dt_name d);
  dyn_secure : exists m, dt_secure d = Some (Marshal (enc_gmap m)) /\ secure_ok m;
}.

Record api_ok (a : ApiRow) : Prop := {
  api_table : table_ok (ar_table a);
  api_role : ar_role a <> None -> ar_auth a = true;
}.

Definition names_json (s : string) : Prop :=
  exists cols, (s = Marshal (slice JStr cols) \/ s = "[]" /\ cols = []) /\ Forall (fun c => validIdentifier c = true) cols.

Record auth_ok (a : AuthRow) : Prop := {
  auth_table : table_ok (au_table a);
  auth_username : validIdentifier (au_username a) = true;
  auth_password : validIdentifier (au_password a) = true;
  auth_role : validIdentifier (au_role a) = true;
  auth_columns : names_json (au_columns a);
}.

Definition ws_ok (r : WsRow) : Prop := ws_table r = "" \/ validIdentifier (ws_table r) = true.

Record store_wf `{Q : SQL} (s : Store) : Prop := {
  wf_dynamic : Forall dyn_ok (st_dynamic s);
  wf_dynamic_names : NoDup (map dt_name (st_dynamic s));
  wf_api : Forall api_ok (st_api s);
  wf_api_paths : NoDup (map ar_path (st_api s));
  wf_auth : Forall auth_ok (st_auth s);
  wf_auth_paths : NoDup (map au_path (st_auth s));
  wf_ws : Forall ws_ok (st_ws s);
}.

(** ** Rows under updates *)

Section Rows.
Context {A B : Type} (f : A -> B).
Implicit Types (P : A -> Prop) (l : list A).

Lemma Forall_update_where P key upd l :
  (forall r, P r -> P (upd r)) -> Forall P l -> Forall P (update_where key upd l).
Proof. intros Hu Hl. apply Forall_map. eapply Forall_impl; [exact Hl|]. intros r Hr. cbn. destruct (key r); auto. Qed.

Lemma NoDup_append_row (k : B) l (key : A -> bool) r :
  (forall x, key x = true <-> f x = k) -> existsb key l = false -> f r = k -> NoDup (map f l) ->
  NoDup (map f (l ++ [r])%list).
Proof.
  intros Hk He Hr Hn. rewrite map_app. apply NoDup_app. split; [done|]. split; [|by repeat constructor; inversion 1].
  intros x Hx' Hx. cbn in Hx. apply list_elem_of_singleton in Hx. subst x.
  apply list_elem_of_In, in_map_iff in Hx' as (y & Hx & Hy).
  apply not_true_iff_false in He. apply He, existsb_exists. exists y. split; [done|].
  apply Hk. by rewrite Hx.
Qed.

Lemma NoDup_filter_rows (key : A -> bool) l : NoDup (map f l) -> NoDup (map f (List.filter key l)).
Proof.
  induction l as [|x l IH]; [done|]. cbn [map List.filter]. rewrite NoDup_cons. intros [Hx Hl].
  destruct (key x); [|by apply IH]. cbn [map]. apply NoDup_cons. split; [|by apply IH].
  intros (y & E & [Hy _]%filter_In)%list_elem_of_In%in_map_iff. by apply Hx, list_elem_of_In, in_map_iff; exists y.
Qed.

Lemma Forall_filter_rows P (key : A -> bool) l : Forall P l -> Forall P (List.filter key l).
Proof. induction 1 as [|x l Hx Hl IH]; [done|]. cbn. destruct (key x); [by constructor|done]. Qed.

Lemma Forall_upsert P key id new upd l :
  Forall P l -> (forall n, P (new n)) -> (forall r, P r -> P (upd r)) -> Forall P (snd (upsert key id new upd l)).
Proof.
  intros Hl Hn Hu. unfold upsert. destruct (existsb key l); cbn [snd]; [by apply Forall_update_where|].
  apply Forall_app. split; [done|]. by constructor.
Qed.

Lemma NoDup_upsert (k : B) key id new upd l :
  (forall x, key x = true <-> f x = k) -> (forall n, f (new n) = k) -> (forall r, f (upd r) = k) ->
  NoDup (map f l) -> NoDup (map f (snd (upsert key id new upd l))).
Proof.
  intros Hk Hn Hu Hl. unfold upsert. destruct (existsb key l) eqn:E; cbn [snd].
  - rewrite map_update_where; [done|]. intros r Hr. rewrite Hu. symmetry. by apply Hk.
  - by eapply NoDup_append_row.
Qed.
End Rows.

(** The key of a row, as the statements compare it. *)
Lemma eqb_key {A} (f : A -> string) (k : string) x : (f x =? k)%string = true <-> f x = k.
Proof. apply String.eqb_eq. Qed.

(** ** What the tools do to it *)

Section Keeps.
Context `{C : Crypto} `{Q : SQL} `{O : MapOrder} `{E : Env} `{F : Formats}.
Implicit Types (s : Store).

Lemma keeps_exec (I : Store -> Prop) q args : (forall u s, I s -> I (set_user u (add_sent (q, args) s))) ->
  keeps I (db_exec q args) (fun _ => True).
Proof. intros H c Hc. unfold db_exec. destruct (sql_exec _ _ _). cbn. split; [by apply H|done]. Qed.

Lemma keeps_query (I : Store -> Prop) q args : (forall s, I s -> I (add_sent (q, args) s)) ->
  keeps I (db_query q args) (fun _ => True).
Proof. intros H c Hc. cbn. split; [by apply H|done]. Qed.

Lemma keeps_query_int (I : Store -> Prop) q args : (forall s, I s -> I (add_sent (q, args) s)) ->
  keeps I (query_int q args) (fun _ => True).
Proof. intros H. eapply keeps_bind; [by apply keeps_query|]. intros. by apply keeps_ret. Qed.

Lemma wf_exec q args : keeps store_wf (db_exec q args) (fun _ => True).
Proof. apply keeps_exec. by intros u s []. Qed.
Lemma wf_query q args : keeps store_wf (db_query q args) (fun _ => True).
Proof. apply keeps_query. by intros s []. Qed.
Lemma wf_query_int q args : keeps store_wf (query_int q args) (fun _ => True).
Proof. apply keeps_query_int. by intros s []. Qed.

(** What is read of the registry. *)
Lemma wf_LoadSecureColumns tableName : keeps store_wf (LoadSecureColumns tableName)
  (fun o => match o with Some m => secure_ok m /\ table_ok tableName | None => True end).
Proof.
  eapply keeps_bind.
  - apply (keeps_load store_wf _ (fun o => match o with Some d => dyn_ok d /\ dt_name d = tableName | None => True end)).
    intros s Hs. destruct (List.find _ _) as [d|] eqn:Hf; [|done]. apply List.find_some in Hf as [Hd Hn].
    split; [|by apply String.eqb_eq]. apply list_elem_of_In in Hd. by apply (proj1 (Forall_forall _ _) (wf_dynamic s Hs)).
  - intros r Hr. apply keeps_ret. destruct r as [[d|]|]; [|done..]. destruct Hr as [[Hn (m & Hm & Ho)] <-].
    rewrite Hm, secure_map_enc by done. by split.
Qed.

Lemma wf_registered_table tableName : keeps store_wf (registered_table tableName) (fun b => b = true -> table_ok tableName).
Proof.
  eapply keeps_bind.
  - apply (keeps_load store_wf _ (fun b => b = true -> table_ok tableName)).
    intros s Hs (d & Hd & Hn%String.eqb_eq)%existsb_exists. subst tableName. apply list_elem_of_In in Hd.
    apply dyn_name. by apply (proj1 (Forall_forall _ _) (wf_dynamic s Hs)).
  - intros r Hr. apply keeps_ret. by destruct r.
Qed.

#[local] Hint Resolve wf_exec wf_query wf_query_int wf_LoadSecureColumns wf_registered_table : keeps.

Lemma sanitized_ok name n : sanitizedTableName name = Ok n -> n = name /\ table_ok name.
Proof. unfold table_ok. intros H. pose proof H as H'. unfold sanitizedTableName in H. repeat case_match; by simplify_eq. Qed.

(** The kind of a secure column. *)
Lemma column_type_ok c ty hint t k : column_type c ty hint = Ok (t, k) ->
  validIdentifier c = true /\ match k with Some k => kind_ok k | None => True end.
Proof.
  unfold column_type. destruct (validIdentifier c); [|done]. cbn [negb]. destruct ty; try done.
  destruct (allowedColumnTypes _); [|done]. intros [= _ <-]. split; [done|]. unfold secureColumnKinds.
  destruct (_ =? "PASSWORD")%string; [by left|]. destruct (_ =? "ENCRYPTED")%string; [by right|done].
Qed.

Lemma mark_secure_ok c k m : validIdentifier c = true -> match k with Some k => kind_ok k | None => True end ->
  secure_ok m -> secure_ok (mark_secure c k m).
Proof. intros Hc Hk Hm. destruct k; [|done]. by apply map_Forall_insert_2. Qed.

Lemma column_defs_ok l : forall defs m r, secure_ok m -> column_defs l defs m = Ok r -> secure_ok (snd r).
Proof.
  induction l as [|[c ty] l IH]; intros defs m r Hm; cbn; [by intros [= <-]|].
  destruct (column_type c ty _) as [[t k]|] eqn:Ht; [|done]. intros Hr. eapply IH; [|done].
  apply column_type_ok in Ht as [Hc Hk]. by apply mark_secure_ok.
Qed.

Lemma secure_ok_empty : secure_ok ∅.
Proof. apply map_Forall_empty. Qed.

(** ** manage_schema *)

Lemma wf_set_dynamic s l : store_wf s -> Forall dyn_ok l -> NoDup (map dt_name l) -> store_wf (set_dynamic l s).
Proof. intros [] H1 H2. by split. Qed.

Lemma wf_upsert_dynamic name schema m t s : store_wf s -> table_ok name -> secure_ok m ->
  store_wf (set_dynamic (upsert_dynamic name schema (Marshal (enc_gmap m)) t (st_dynamic s)) s).
Proof.
  intros Hs Hn Hm. pose proof (wf_dynamic_names s Hs) as Hd. pose proof (wf_dynamic s Hs) as Hf.
  unfold upsert_dynamic. destruct (existsb _ _) eqn:Hx; apply wf_set_dynamic; try done.
  - apply Forall_update_where; [|done]. intros r _. split; [done|by exists m].
  - rewrite map_update_where; [done|]. intros r Hr. symmetry. by apply String.eqb_eq.
  - apply Forall_app. split; [done|]. constructor; [|done]. split; [done|by exists m].
  - eapply NoDup_append_row; [apply eqb_key|done|done|done].
Qed.

Lemma wf_set_secure name m s : store_wf s -> secure_ok m ->
  store_wf (set_dynamic (set_secure name (Marshal (enc_gmap m)) (st_dynamic s)) s).
Proof.
  intros Hs Hm. apply wf_set_dynamic; [done| |].
  - apply Forall_update_where; [|by apply wf_dynamic]. intros r []. split; [done|by exists m].
  - unfold set_secure. rewrite map_update_where by done. by apply wf_dynamic_names.
Qed.

Lemma wf_set_schema name schema s : store_wf s -> store_wf (set_dynamic (set_schema name schema (st_dynamic s)) s).
Proof.
  intros Hs. apply wf_set_dynamic; [done| |].
  - apply Forall_update_where; [|by apply wf_dynamic]. intros r []. by split.
  - unfold set_schema. rewrite map_update_where by done. by apply wf_dynamic_names.
Qed.

Lemma wf_exec_all l : keeps store_wf (exec_all l) (fun _ => True).
Proof. induction l as [|[what q] l IH]; cbn [exec_all]; keep_tac. Qed.

Lemma wf_create args : keeps store_wf (create args) (fun _ => True).
Proof.
  unfold create. keep_tac; try apply wf_exec_all.
  all: cbn [snd]; apply wf_upsert_dynamic; [done|eapply proj2, sanitized_ok; eassumption|].
  all: match goal with H : column_defs _ _ _ = Ok _ |- _ => exact (column_defs_ok _ _ _ _ secure_ok_empty H) end.
Qed.

Lemma wf_add_columns name l : forall m, secure_ok m -> keeps store_wf (add_columns name l m) (fun p => secure_ok (snd p)).
Proof.
  induction l as [|[c ty] l IH]; intros m Hm; cbn [add_columns]; [by apply keeps_ret|].
  eapply keeps_bind; [apply keeps_or_reject_eq|]. intros [t k] [Hc Hk]%column_type_ok.
  keep_tac; [by apply IH, mark_secure_ok|by apply keeps_ret].
Qed.

Lemma wf_drop_columns name l : forall m, secure_ok m -> keeps store_wf (drop_columns name l m) secure_ok.
Proof.
  induction l as [|c l IH]; intros m Hm; cbn [drop_columns]; [by apply keeps_ret|].
  keep_tac. apply IH. by apply map_Forall_delete.
Qed.

Lemma wf_alter_drop t n raw m : secure_ok m -> keeps store_wf (alter_drop t n raw m) (fun p => secure_ok (snd p)).
Proof.
  intros Hm. unfold alter_drop, drop_gate. keep_tac; try (by apply keeps_ret); by apply wf_drop_columns.
Qed.

Lemma wf_alter_add n raw m : secure_ok m -> keeps store_wf (alter_add n raw m) (fun p => secure_ok (snd p)).
Proof. intros Hm. unfold alter_add. destruct raw; [by apply wf_add_columns|by apply keeps_ret]. Qed.

Lemma wf_alter args : keeps store_wf (alter args) (fun _ => True).
Proof.
  unfold alter. cbv zeta. eapply keeps_bind; [apply keeps_guard|]. intros _ _.
  eapply keeps_bind; [apply keeps_or_reject_eq|]. intros n _.
  eapply keeps_bind; [apply wf_LoadSecureColumns|]. intros o Ho.
  eapply keeps_bind; [apply wf_alter_add; destruct o; [apply Ho|apply secure_ok_empty]|]. intros added Ha.
  eapply keeps_bind; [by apply wf_alter_drop|]. intros dropped Hd.
  keep_tac; by apply wf_set_secure.
Qed.

Lemma wf_drop args : keeps store_wf (drop args) (fun _ => True).
Proof.
  unfold drop. keep_tac; cbn [snd].
  - pose proof (wf_dynamic_names s H). apply wf_set_dynamic; [done|by apply Forall_filter_rows, wf_dynamic|].
    by apply NoDup_filter_rows.
  - destruct H. split; try done; [by apply Forall_filter_rows|by apply NoDup_filter_rows].
  - destruct H. split; try done; [by apply Forall_filter_rows|by apply NoDup_filter_rows].
Qed.

Lemma wf_schema args : keeps store_wf (SchemaTool_Execute args) (fun _ => True).
Proof.
  apply keeps_dispatch. intros name h Hin args'.
  repeat (destruct Hin as [[= <- <-]|Hin]; [first [apply wf_create|apply wf_alter|apply wf_drop
    |unfold describe, list_tables; keep_tac]|]). done.
Qed.

(** ** manage_data *)

Lemma wf_row_values enc bad during m l : keeps store_wf (row_values enc bad during m l) (fun _ => True).
Proof. induction l as [|[c v] l IH]; cbn [row_values]; keep_tac. Qed.

#[local] Hint Resolve wf_row_values : keeps.

Lemma wf_insert_rows enc n m l : forall i, keeps store_wf (insert_rows enc n m i l) (fun _ => True).
Proof.
  induction l as [|v l IH]; intros i; cbn [insert_rows]; [by apply keeps_ret|].
  destruct v; keep_tac.
Qed.

#[local] Hint Resolve wf_insert_rows : keeps.

(** A transaction gives back the tables of the owner, which [I] does not speak of. *)
Lemma keeps_transaction {A} (I : Store -> Prop) (m : T Store A) R :
  (forall u s, I s -> I (set_user u s)) -> keeps I m R -> keeps I (transaction m) R.
Proof.
  intros Hu Hm c Hc. destruct (Hm c Hc) as [H1 H2]. unfold transaction. destruct (m c) as [[a|x] c']; cbn in *; [done|].
  split; [by apply Hu|done].
Qed.

Lemma wf_insertBulk enc n t l m : keeps store_wf (insertBulk enc n t l m) (fun _ => True).
Proof.
  unfold insertBulk. eapply keeps_bind; [apply keeps_guard|]. intros _ _.
  eapply keeps_bind; [by apply keeps_must_save|]. intros _ _.
  eapply keeps_bind; [|intros; by apply keeps_ret].
  apply (keeps_transaction _ _ (fun _ => True)); [by intros u s []|]. keep_tac; cbn; done.
Qed.

#[local] Hint Resolve wf_insertBulk : keeps.

Lemma wf_data enc args : keeps store_wf (DataTool_Execute enc args) (fun _ => True).
Proof.
  apply keeps_dispatch. intros name h Hin args'.
  repeat (destruct Hin as [[= <- <-]|Hin];
    [unfold query, insert, insertSingle, update, del, count, aggregate, search; keep_tac|]). done.
Qed.

(** ** manage_endpoints *)

Lemma wf_api_rows s l : store_wf s -> Forall api_ok l -> NoDup (map ar_path l) -> store_wf (set_api l s).
Proof. intros [] H1 H2. by split. Qed.
Lemma wf_auth_rows s l : store_wf s -> Forall auth_ok l -> NoDup (map au_path l) -> store_wf (set_auth l s).
Proof. intros [] H1 H2. by split. Qed.
Lemma wf_ws_rows s l : store_wf s -> Forall ws_ok l -> store_wf (set_ws l s).
Proof. intros [] H1. by split. Qed.

Lemma wf_delete_api key s : store_wf s -> store_wf (set_api (snd (delete_rows key (st_api s))) s).
Proof.
  intros Hs. apply wf_api_rows; [done|by apply Forall_filter_rows, wf_api|by apply NoDup_filter_rows, wf_api_paths].
Qed.
Lemma wf_delete_auth key s : store_wf s -> store_wf (set_auth (snd (delete_rows key (st_auth s))) s).
Proof.
  intros Hs. apply wf_auth_rows; [done|by apply Forall_filter_rows, wf_auth|by apply NoDup_filter_rows, wf_auth_paths].
Qed.

Lemma wf_createAPI args : keeps store_wf (createAPI args) (fun _ => True).
Proof.
  unfold createAPI. cbv zeta. eapply keeps_bind; [apply keeps_guard|]. intros _ _.
  eapply keeps_bind; [apply wf_registered_table|]. intros known Hk.
  eapply keeps_bind; [apply keeps_guard|]. intros ? Hg. specialize (Hk Hg).
  eapply keeps_bind; [|intros; by apply keeps_ret]. apply keeps_must_save. intros t s Hs. cbn [snd].
  apply wf_api_rows; [done| |].
  - apply Forall_upsert; [by apply wf_api|..]; intros; split; cbn; try done; by destruct (optional_role args).
  - eapply NoDup_upsert; [apply eqb_key|done|done|by apply wf_api_paths].
Qed.

Lemma public_cols_ok l : forall cs, public_cols l = Ok cs -> Forall (fun c => validIdentifier c = true) cs.
Proof.
  induction l as [|v l IH]; intros cs; cbn [public_cols]; [by intros [= <-]|]. destruct v; try apply IH.
  destruct (validIdentifier s) eqn:Hs; [|done]. cbn [negb]. destruct (public_cols l); [|done].
  intros [= <-]. constructor; [done|by apply IH].
Qed.

Lemma public_columns_json_ok args j : public_columns_json args = Ok j -> names_json j.
Proof.
  unfold public_columns_json. destruct (arg_list _ _) as [[|x r]|].
  1,3: intros [= <-]; exists []; split; [by right|done].
  destruct (public_cols (x :: r)) as [cs|] eqn:Hc; [|done]. intros [= <-]. exists cs. split; [by left|].
  by eapply public_cols_ok.
Qed.

Lemma role_column_ok args r : role_column args = Ok r -> validIdentifier r = true.
Proof. unfold role_column. destruct (_ =? _)%string; [by intros [= <-]|]. destruct (validIdentifier _) eqn:Hv; [|done]. by intros [= <-]. Qed.

Lemma wf_check_auth_table t u p : keeps store_wf (check_auth_table t u p) (fun _ => table_ok t).
Proof.
  unfold check_auth_table. eapply keeps_bind; [apply wf_LoadSecureColumns|]. intros o Ho.
  eapply keeps_bind; [apply keeps_guard|]. intros ? Hg. destruct o as [m|]; [|done]. destruct Ho as [_ Ht].
  eapply keeps_bind; [apply keeps_guard|]. intros _ _.
  eapply (keeps_bind _ _ _ (fun _ => True)); [unfold load_schema; keep_tac|]. intros schema _.
  eapply keeps_bind; [apply keeps_guard|]. intros _ _.
  eapply keeps_bind; [apply wf_query_int|]. intros n _.
  eapply keeps_bind; [apply keeps_guard|]. intros _ _. by apply keeps_ret.
Qed.

Lemma wf_ensure_role_column t r sch : keeps store_wf (ensure_role_column t r sch) (fun _ => True).
Proof. unfold ensure_role_column. keep_tac. by apply wf_set_schema. Qed.

Lemma wf_createAuth last_rowid args : keeps store_wf (createAuth last_rowid args) (fun _ => True).
Proof.
  unfold createAuth. cbv zeta. eapply keeps_bind; [apply keeps_guard|]. intros _ _.
  eapply keeps_bind; [apply keeps_guard|]. intros ? Hu. eapply keeps_bind; [apply keeps_guard|]. intros ? Hp.
  eapply keeps_bind; [apply wf_check_auth_table|]. intros schema Ht.
  eapply keeps_bind; [apply keeps_or_reject_eq|]. intros j Hj%public_columns_json_ok.
  eapply keeps_bind; [apply keeps_or_reject_eq|]. intros r Hr%role_column_ok.
  eapply keeps_bind; [apply wf_ensure_role_column|]. intros _ _.
  eapply keeps_bind; [|intros; by apply keeps_ret]. apply keeps_must_save. intros t s Hs.
  rewrite (surjective_pairing (upsert _ _ _ _ _)). cbn [snd]. apply wf_auth_rows; [done| |].
  - by apply Forall_upsert; [by apply wf_auth|..]; intros; split.
  - eapply NoDup_upsert; [apply eqb_key|done|done|by apply wf_auth_paths].
Qed.

Lemma wf_createWebSocket usage args : keeps store_wf (createWebSocket usage args) (fun _ => True).
Proof.
  unfold createWebSocket. cbv zeta. eapply keeps_bind; [apply keeps_guard|]. intros _ _.
  eapply keeps_bind; [apply keeps_guard|]. intros ? Hw.
  eapply keeps_bind; [|intros; by apply keeps_ret]. apply keeps_must_save. intros t s Hs. cbn [snd].
  apply wf_ws_rows; [done|]. apply orb_true_iff in Hw as [Hw%String.eqb_eq|Hw];
    by apply Forall_upsert; [by apply wf_ws|..]; intros; unfold ws_ok; cbn; auto.
Qed.

#[local] Hint Resolve wf_createAPI wf_createAuth wf_createWebSocket : keeps.

Lemma wf_endpoints enc last_rowid usage args : keeps store_wf (EndpointsTool_Execute enc last_rowid usage args) (fun _ => True).
Proof.
  apply keeps_dispatch. intros name h Hin args'.
  repeat (destruct Hin as [[= <- <-]|Hin]; [
    first [solve [eauto with keeps] |
    unfold listAPI, deleteAPI, listAuth, deleteAuth, createUpload, createStream, verifyPassword, createOAuth, listOAuth,
      deleteOAuth, exists_row, result_data; keep_tac; cbn [snd]]|]); [..|done].
  all: try match goal with H : store_wf ?s |- store_wf _ => try (by destruct H); first
    [ by apply (wf_delete_api _ s) | by apply (wf_delete_auth _ s) ] end.
Qed.

End Keeps.

Import ToolSample.

