(* ===== verification/DataFacts.v ===== *)
(** * manage_data: statements, secure columns; manage_schema's approvals

    What the data tool sends to SQLite for any arguments, how it treats the
    columns registered as PASSWORD or ENCRYPTED, and what becomes of an
    alteration that needs the owner's approval.  At the end the way from manage_endpoints
    to the public server: [site_view] is what that sees of a store. *)

From Stdlib Require Import ZArith Lia Ascii String List Bool.
From stdpp Require Import base list strings gmap.
From S2P Require Import Prelude GoStrings GoTime JSONText PlanStore World ToolCore Approval Security SiteTables PublicAPI PublicAPIFacts ToolMonad Tables DataTool Endpoints StoreFacts.

Local Open Scope string_scope.

(** ** Safe pieces *)

Lemma sql_ok_join_list sep l ns : sql_ok sep 0 -> Forall2 (fun s n => sql_ok s n) l ns -> sql_ok (Join l sep) (sum_list ns).
Proof.
  intros Hsep. induction 1 as [|s n l ns Hs Hl IH]; [by split|].
  destruct l as [|t l]; [inversion Hl; subst; cbn; by rewrite Nat.add_0_r|].
  change (Join (s :: t :: l) sep) with (s ++ (sep ++ Join (t :: l) sep)). change (sum_list (n :: ns)) with (n + (0 + sum_list ns))%nat.
  by repeat apply sql_ok_append.
Qed.

Lemma identifiers_join sep l : sql_ok sep 0 -> Forall (fun c => validIdentifier c = true) l -> sql_ok (Join l sep) 0.
Proof.
  intros Hs Hl. replace 0%nat with (0 * List.length l)%nat by lia. apply sql_ok_join; [done|].
  eapply Forall_impl; [exact Hl|]. apply sql_ok_identifier.
Qed.

Lemma allowed_op_safe op : existsb (String.eqb op) allowedOps = true -> sql_ok op 0.
Proof. intros (x & Hx & ->%String.eqb_eq)%existsb_exists. repeat (destruct Hx as [<-|Hx]; [by split|]). done. Qed.

Lemma build_clause_ok f c ps : build_clause f = Ok (c, ps) -> sql_ok c (List.length ps).
Proof.
  unfold build_clause. destruct f as [| | | | |fm]; try done. destruct (validIdentifier _) eqn:Hc; [|done]. cbn [negb].
  set (op := ToUpper _). destruct (existsb _ _) eqn:Hop; [|done]. apply allowed_op_safe in Hop. cbn [negb].
  apply sql_ok_identifier in Hc. destruct (_ || _); [|destruct (arg "value" fm); [|done]]; intros [= <- <-].
  - change (List.length []) with (0 + (0 + 0))%nat. repeat apply sql_ok_append; [done|by split|done].
  - change (List.length [j]) with (0 + (0 + (0 + 1)))%nat. repeat apply sql_ok_append; [done|by split|done|by split].
Qed.

Lemma build_clauses_ok fs : forall cs ps, build_clauses fs = Ok (cs, ps) ->
  exists ns, Forall2 (fun c n => sql_ok c n) cs ns /\ sum_list ns = List.length ps.
Proof.
  induction fs as [|f fs IH]; intros cs ps; cbn [build_clauses]; [intros [= <- <-]; by exists []|].
  destruct (build_clause f) as [[c p]|] eqn:Hc; [|done]. apply build_clause_ok in Hc.
  destruct (build_clauses fs) as [[cs' ps']|]; [|done]. intros [= <- <-].
  destruct (IH _ _ eq_refl) as (ns & Hn & Hs). exists (List.length p :: ns). split; [by constructor|].
  rewrite length_app. cbn. by rewrite Hs.
Qed.

Lemma filters_where_ok args w ps : filters_where args = Ok (w, ps) -> sql_ok w (List.length ps).
Proof.
  unfold filters_where. destruct (arg_list _ _) as [[|f r]|]; [intros [= <- <-]; by split| |intros [= <- <-]; by split].
  unfold buildWhereClause. destruct (build_clauses _) as [[cs qs]|] eqn:Hb; [|done]. intros [= <- <-].
  apply build_clauses_ok in Hb as (ns & Hn & <-).
  change (sum_list ns) with (0 + sum_list ns)%nat. apply sql_ok_append; [by split|]. by apply sql_ok_join_list.
Qed.

Lemma order_text_ok args o : order_text args = Ok o -> sql_ok o 0.
Proof.
  unfold order_text. destruct (arg_object _ _) as [m|]; [|intros [= <-]; by split].
  destruct (_ =? "")%string; [intros [= <-]; by split|]. destruct (validIdentifier _) eqn:Hc; [|done]. cbn [negb].
  intros [= <-]. apply sql_ok_identifier in Hc.
  change 0%nat with (0 + (0 + (0 + 0)))%nat. repeat apply sql_ok_append; try done.
  destruct ((_ =? "ASC")%string || (_ =? "DESC")%string) eqn:Hd; [|done].
  apply orb_true_iff in Hd as [->%String.eqb_eq| ->%String.eqb_eq]; done.
Qed.

(** ** Statements *)

Definition fts_lookup : string := "SELECT COUNT(*) FROM sqlite_master WHERE type='table' AND name=?".

(** A safe text, possibly ended by a number, or the lookup of a search index; an
    argument for each placeholder. *)
Definition data_statement_ok (st : string * list json) : Prop :=
  sql_ok (fst st) (List.length (snd st)) \/
  (exists p n, fst st = p ++ Itoa n /\ sql_ok p (List.length (snd st))) \/
  (fst st = fts_lookup /\ List.length (snd st) = 1%nat).

(** Everything sent after [old] satisfies [P], and the registry is [dyn]. *)
Definition sent_since `{Q : SQL} (P : string * list json -> Prop) (dyn : list DynRow) (old : list (string * list json))
    (s : Store) : Prop :=
  st_dynamic s = dyn /\ exists l, st_sent s = (l ++ old)%list /\ Forall P l.

Section Statements.
Context `{C : Crypto} `{Q : SQL} `{O : MapOrder} `{E : Env} `{F : Formats}.
Context (enc : bool) (dyn : list DynRow) (old : list (string * list json)).
Implicit Types (P : string * list json -> Prop).

Lemma sent_add P q args s : P (q, args) -> sent_since P dyn old s -> sent_since P dyn old (add_sent (q, args) s).
Proof. intros HP [Hd (l & Hl & Hp)]. split; [done|]. exists ((q, args) :: l). cbn. rewrite Hl. split; [done|]. by constructor. Qed.

Lemma sent_exec P q args : P (q, args) -> keeps (sent_since P dyn old) (db_exec q args) (fun _ => True).
Proof. intros HP. apply keeps_exec. intros u s Hs. by apply (sent_add P q args s). Qed.
Lemma sent_query P q args : P (q, args) -> keeps (sent_since P dyn old) (db_query q args) (fun _ => True).
Proof. intros HP. apply keeps_query. intros s. by apply sent_add. Qed.
Lemma sent_query_int P q args : P (q, args) -> keeps (sent_since P dyn old) (query_int q args) (fun _ => True).
Proof. intros HP. apply keeps_query_int. intros s. by apply sent_add. Qed.
Lemma sent_secure P t : keeps (sent_since P dyn old) (LoadSecureColumns t) (fun _ => True).
Proof. unfold LoadSecureColumns. keep_tac. Qed.

#[local] Hint Resolve sent_secure : keeps.

Lemma sanitized_identifier name n : sanitizedTableName name = Ok n -> sql_ok n 0.
Proof. unfold sanitizedTableName. destruct (validIdentifier name) eqn:Hv; [|done]. cbn. case_match; [done|]. intros [= <-]. by apply sql_ok_identifier. Qed.

(** What [row_values] returns: as many values as columns, all identifiers. *)
Definition row_ok (p : list string * list json) : Prop :=
  Forall (fun c => validIdentifier c = true) (fst p) /\ List.length (snd p) = List.length (fst p).

Lemma row_values_ok I bad during m l : keeps I (row_values enc bad during m l) row_ok.
Proof.
  induction l as [|[c v] l IH]; cbn [row_values]; [by apply keeps_ret|].
  eapply keeps_bind; [apply keeps_guard|]. intros ? Hc.
  eapply (keeps_bind _ _ _ (fun _ => True)); [keep_tac|]. intros v' _.
  eapply keeps_bind; [apply IH|]. intros p [H1 H2]. apply keeps_ret. split; [by constructor|]. cbn. by rewrite H2.
Qed.

Lemma insert_row_text_ok n cols : sql_ok n 0 -> Forall (fun c => validIdentifier c = true) cols ->
  sql_ok (insert_row_text n cols) (List.length cols).
Proof.
  intros Hn Hc. unfold insert_row_text.
  replace (List.length cols) with (0 + (0 + (0 + (0 + (0 + (List.length cols + 0))))))%nat by lia.
  repeat apply sql_ok_append; try (by split); [done|by apply identifiers_join|].
  replace (List.length cols) with (1 * List.length (map (fun _ => "?") cols))%nat by (rewrite length_map; lia).
  apply sql_ok_join; [done|]. apply Forall_map. by apply Forall_true.
Qed.

Lemma update_text_ok n cols : sql_ok n 0 -> Forall (fun c => validIdentifier c = true) cols ->
  sql_ok ("UPDATE " ++ n ++ " SET " ++ Join (map (fun c => c ++ " = ?") cols) ", " ++ " WHERE id = ?") (List.length cols + 1).
Proof.
  intros Hn Hc. replace (List.length cols + 1)%nat with (0 + (0 + (0 + (List.length cols + 1))))%nat by lia.
  repeat apply sql_ok_append; try (by split); [done|].
  replace (List.length cols) with (1 * List.length (map (fun c => c ++ " = ?") cols))%nat by (rewrite length_map; lia).
  apply sql_ok_join; [done|]. apply Forall_map. eapply Forall_impl; [exact Hc|]. intros c Hv. cbn.
  change 1%nat with (0 + 1)%nat. apply sql_ok_append; [by apply sql_ok_identifier|by split].
Qed.

Lemma group_cols_ok l : forall cs, group_cols l = Ok cs -> Forall (fun c => validIdentifier c = true) cs.
Proof.
  induction l as [|g l IH]; intros cs; cbn [group_cols]; [by intros [= <-]|].
  destruct (_ || _) eqn:Hc; [done|]. destruct (group_cols l); [|done]. intros [= <-].
  apply orb_false_iff in Hc as [_ Hc%negb_false_iff]. constructor; [done|by apply IH].
Qed.

Lemma aggregate_expr_ok fn col : existsb (String.eqb fn) allowedAggFuncs = true -> is_ok (aggregate_column fn col) = true ->
  sql_ok (aggregate_expr fn col) 0.
Proof.
  unfold aggregate_expr, aggregate_column.
  intros (x & Hx & ->%String.eqb_eq)%existsb_exists. destruct (String.eqb_spec col "") as [->|Hcol].
  - repeat (destruct Hx as [<-|Hx]; [by vm_compute|]). done.
  - rewrite andb_false_r. cbn [negb andb]. destruct (validIdentifier col) eqn:Hv; [|done]. intros _. apply sql_ok_identifier in Hv.
    assert (forall p, sql_ok p 0 -> sql_ok (p ++ col ++ ")") 0) as H.
    { intros p Hp. change 0%nat with (0 + (0 + 0))%nat. by repeat apply sql_ok_append. }
    repeat (destruct Hx as [<-|Hx]; [by apply (H "COUNT(")||apply (H "SUM(")||apply (H "AVG(")||apply (H "MIN(")||apply (H "MAX(")|]).
    done.
Qed.

Lemma aggregate_text_ok n fn col w k gc : sql_ok n 0 -> sql_ok (aggregate_expr fn col) 0 -> sql_ok w k ->
  Forall (fun c => validIdentifier c = true) gc -> sql_ok (aggregate_text n fn col w gc) k.
Proof.
  intros Hn Ha Hw Hg. unfold aggregate_text. replace k with (0 + (0 + (0 + (0 + (k + 0)))))%nat by lia.
  repeat apply sql_ok_append; try done.
  - replace 0%nat with (0 * List.length (gc ++ [(aggregate_expr fn col ++ " AS result")%string])%list)%nat by lia.
    apply sql_ok_join; [done|]. apply Forall_app. split; [eapply Forall_impl; [exact Hg|apply sql_ok_identifier]|].
    constructor; [|done]. change 0%nat with (0 + 0)%nat. by apply sql_ok_append.
  - destruct gc as [|g gc]; [done|]. change 0%nat with (0 + (0 + (0 + 0)))%nat.
    repeat apply sql_ok_append; try done; by apply identifiers_join.
Qed.

Notation SENT := (sent_since data_statement_ok dyn old).

Lemma data_exec q n args : sql_ok q n -> n = List.length args -> keeps SENT (db_exec q args) (fun _ => True).
Proof. intros H ->. apply sent_exec. by left. Qed.
Lemma data_query q n args : sql_ok q n -> n = List.length args -> keeps SENT (db_query q args) (fun _ => True).
Proof. intros H ->. apply sent_query. by left. Qed.

Lemma data_query_action args : keeps SENT (query args) (fun _ => True).
Proof.
  unfold query. cbv zeta. eapply keeps_bind; [apply keeps_or_reject_eq|]. intros n Hn%sanitized_identifier.
  eapply keeps_bind; [apply sent_secure|]. intros m _.
  eapply keeps_bind; [apply keeps_or_reject_eq|]. intros [w ps] Hw%filters_where_ok.
  eapply keeps_bind; [apply keeps_or_reject_eq|]. intros o Ho%order_text_ok.
  eapply (keeps_bind _ _ _ (fun _ => True)); [|intros; keep_tac]. apply sent_query. cbn [fst snd].
  assert (sql_ok ("SELECT * FROM " ++ n ++ w ++ o ++ " LIMIT ") (List.length ps)) as Hp.
  { replace (List.length ps) with (0 + (0 + (List.length ps + (0 + 0))))%nat by lia. by repeat apply sql_ok_append. }
  assert (sql_ok ("SELECT * FROM " ++ n ++ w ++ o ++ " LIMIT 50") (List.length ps)) as H50.
  { replace (List.length ps) with (0 + (0 + (List.length ps + (0 + 0))))%nat by lia. by repeat apply sql_ok_append. }
  unfold limit_text. destruct (arg_num _ _) as [l|]; [|by left]. destruct (float_positive l); [|by left].
  right. left. eexists _, _. split; [|exact Hp]. cbn [fst]. by rewrite !append_assoc.
Qed.

Lemma data_count args : keeps SENT (count args) (fun _ => True).
Proof.
  unfold count. cbv zeta. eapply keeps_bind; [apply keeps_guard|]. intros _ _.
  eapply keeps_bind; [apply keeps_or_reject_eq|]. intros n Hn%sanitized_identifier.
  eapply keeps_bind; [apply keeps_or_reject_eq|]. intros [w ps] Hw%filters_where_ok.
  eapply (keeps_bind _ _ _ (fun _ => True)); [|intros; keep_tac]. apply sent_query_int. left. cbn [fst snd].
  change (List.length ps) with (0 + (0 + List.length ps))%nat. by repeat apply sql_ok_append.
Qed.

Lemma data_aggregate args : keeps SENT (aggregate args) (fun _ => True).
Proof.
  unfold aggregate. cbv zeta. eapply keeps_bind; [apply keeps_guard|]. intros _ _.
  eapply keeps_bind; [apply keeps_or_reject_eq|]. intros n Hn%sanitized_identifier.
  eapply keeps_bind; [apply keeps_guard|]. intros ? Hf.
  eapply keeps_bind; [apply keeps_or_reject_eq|]. intros ? Hc.
  eapply keeps_bind; [apply keeps_or_reject_eq|]. intros gc Hg%group_cols_ok.
  eapply keeps_bind; [apply keeps_or_reject_eq|]. intros [w ps] Hw%filters_where_ok.
  eapply (keeps_bind _ _ _ (fun _ => True)); [|intros; keep_tac]. eapply data_query; [|done]. cbn [fst snd].
  apply aggregate_text_ok; [done| |done..]. apply aggregate_expr_ok; [done|]. by rewrite Hc.
Qed.

Lemma data_search args : keeps SENT (search args) (fun _ => True).
Proof.
  unfold search. cbv zeta. eapply keeps_bind; [apply keeps_guard|]. intros _ _.
  eapply keeps_bind; [apply keeps_or_reject_eq|]. intros n Hn%sanitized_identifier.
  eapply keeps_bind; [apply sent_query_int; by right; right|]. intros cnt _.
  eapply keeps_bind; [apply keeps_guard|]. intros _ _.
  eapply (keeps_bind _ _ _ (fun _ => True)); [|intros; keep_tac]. eapply (data_query _ 2); [|done].
  change 2%nat with (0 + (0 + (0 + ((0 + 0) + (0 + ((0 + 0) + 2))))))%nat. by repeat apply sql_ok_append.
Qed.

Lemma data_insertSingle n t data m : sql_ok n 0 -> keeps SENT (insertSingle enc n t data m) (fun _ => True).
Proof.
  intros Hn. unfold insertSingle. eapply keeps_bind; [apply row_values_ok|]. intros p [Hc Hl].
  eapply (keeps_bind _ _ _ (fun _ => True)); [|intros; keep_tac]. eapply data_exec; [by apply insert_row_text_ok|done].
Qed.

Lemma data_insert_rows n m rows : sql_ok n 0 -> forall i, keeps SENT (insert_rows enc n m i rows) (fun _ => True).
Proof.
  intros Hn. induction rows as [|v rows IH]; intros i; cbn [insert_rows]; [by apply keeps_ret|].
  destruct v; try apply keeps_exit.
  eapply keeps_bind; [apply row_values_ok|]. intros p [Hc Hl].
  eapply (keeps_bind _ _ _ (fun _ => True)); [|intros; keep_tac]. eapply data_exec; [by apply insert_row_text_ok|done].
Qed.

Lemma data_insertBulk n t rows m : sql_ok n 0 -> keeps SENT (insertBulk enc n t rows m) (fun _ => True).
Proof.
  intros Hn. unfold insertBulk. eapply keeps_bind; [apply keeps_guard|]. intros _ _.
  eapply keeps_bind; [by apply keeps_must_save|]. intros _ _.
  eapply keeps_bind; [|intros; by apply keeps_ret].
  apply (keeps_transaction _ _ (fun _ => True)); [by intros|].
  eapply keeps_bind; [by apply data_insert_rows|]. intros ids _.
  eapply keeps_bind; [by apply keeps_must_save|]. intros. by apply keeps_ret.
Qed.

Lemma data_insert args : keeps SENT (insert enc args) (fun _ => True).
Proof.
  unfold insert. cbv zeta. eapply keeps_bind; [apply keeps_guard|]. intros _ _.
  eapply keeps_bind; [apply keeps_or_reject_eq|]. intros n Hn%sanitized_identifier.
  eapply keeps_bind; [apply sent_secure|]. intros m _.
  repeat case_match; try apply keeps_exit; first [by apply data_insertBulk|by apply data_insertSingle].
Qed.

Lemma data_update args : keeps SENT (update enc args) (fun _ => True).
Proof.
  unfold update. cbv zeta. eapply keeps_bind; [apply keeps_guard|]. intros _ _.
  eapply keeps_bind; [apply keeps_or_reject_eq|]. intros n Hn%sanitized_identifier.
  eapply keeps_bind; [apply sent_secure|]. intros m _.
  eapply keeps_bind; [apply row_values_ok|]. intros p [Hc Hl].
  eapply (keeps_bind _ _ _ (fun _ => True)); [|intros; keep_tac].
  eapply data_exec; [by apply update_text_ok|]. by rewrite length_app, Hl.
Qed.

Lemma data_del args : keeps SENT (del args) (fun _ => True).
Proof.
  unfold del. cbv zeta. eapply keeps_bind; [apply keeps_guard|]. intros _ _.
  eapply keeps_bind; [apply keeps_or_reject_eq|]. intros n Hn%sanitized_identifier.
  eapply (keeps_bind _ _ _ (fun _ => True)); [|intros; keep_tac]. eapply (data_exec _ 1); [|done].
  change 1%nat with (0 + (0 + 1))%nat. by repeat apply sql_ok_append.
Qed.

(** All of the tool's actions. *)
Lemma data_all args : keeps SENT (DataTool_Execute enc args) (fun _ => True).
Proof.
  apply keeps_dispatch. intros name h Hin args'.
  repeat (destruct Hin as [[= <- <-]|Hin]; [first [apply data_query_action|apply data_insert|apply data_update|apply data_del
    |apply data_count|apply data_aggregate|apply data_search]|]). done.
Qed.
End Statements.

(** Whatever the arguments, every statement manage_data sends is put together
    from identifiers and fixed texts, without quotes, semicolons or comments, and
    has an argument for each of its placeholders; the registry of tables stays
    as it was. *)
Theorem data_statements_safe `{C : Crypto} `{Q : SQL} `{O : MapOrder} `{E : Env} `{F : Formats} enc args (c : Ctx Store) :
  let s' := cs (snd (outcome_of (DataTool_Execute enc args) c)) in
  st_dynamic s' = st_dynamic (cs c) /\
  exists l, st_sent s' = (l ++ st_sent (cs c))%list /\ Forall data_statement_ok l.
Proof.
  cbv zeta. eapply (keeps_outcome (sent_since data_statement_ok (st_dynamic (cs c)) (st_sent (cs c)))); [apply data_all|].
  split; [done|]. by exists [].
Qed.

(** ** Secure columns *)

Lemma go_map_names {A} (l : list (string * A)) c v : go_map l !! c = Some v -> c ∈ map fst l.
Proof.
  unfold go_map. assert (forall m : gmap string A, fold_left (fun m kv => <[fst kv := snd kv]> m) l m !! c = Some v ->
    c ∈ map fst l \/ m !! c = Some v) as H.
  { induction l as [|[k x] l IH]; intros m; [by right|]. cbn [fold_left fst snd map]. intros [Hi|Hm]%IH; [left; by right|].
    destruct (decide (c = k)) as [->|]; [left; by left|]. rewrite lookup_insert_ne in Hm by done. by right. }
  intros [Hi|Hm]%H; [done|]. by destruct (lookup_empty_Some _ _ Hm).
Qed.

Section Secure.
Context `{C : Crypto} `{Q : SQL} `{O : MapOrder} `{E : Env} `{F : Formats}.
Context (enc : bool) (dyn : list DynRow) (old : list (string * list json)).
Hypothesis loads_work : forall n, load_fails n = None.

(** What the registry says of a table's columns. *)
Definition secure_of (tableName : string) : option (gmap string string) :=
  match List.find (fun d => (dt_name d =? tableName)%string) dyn with Some d => secure_map (dt_secure d) | None => None end.

Lemma secure_loaded P t : keeps (sent_since P dyn old) (LoadSecureColumns t) (fun o => o = secure_of t).
Proof.
  intros c Hc. unfold LoadSecureColumns, load, mbind, T_bind, mret, T_ret. rewrite loads_work. cbn. split; [done|].
  intros o [= <-]. destruct Hc as [Hd _]. unfold secure_of. by rewrite Hd.
Qed.

(** The value bound for a secure column is one the processing returned. *)
Definition processed (m : option (gmap string string)) (col : string) (v : json) : Prop :=
  match secure_kind m col with Some kind => exists raw, ProcessSecureValue enc kind raw = Ok v | None => True end.

Lemma row_values_processed I bad during m l :
  keeps I (row_values enc bad during m l) (fun p => Forall2 (processed m) (fst p) (snd p)).
Proof.
  induction l as [|[c v] l IH]; cbn [row_values]; [by apply keeps_ret|].
  eapply keeps_bind; [apply keeps_guard|]. intros _ _.
  eapply (keeps_bind _ _ _ (fun v => processed m c v)).
  - destruct (secure_kind m c) as [kind|] eqn:Hk.
    + apply keeps_or_throw. intros v' Hv. unfold processed. rewrite Hk. by exists v.
    + apply keeps_ret. unfold processed. by rewrite Hk.
  - intros v' Hv. eapply keeps_bind; [apply IH|]. intros p Hp. apply keeps_ret. by constructor.
Qed.

(** A statement that writes a row: its text for the columns, their values. *)
Definition writes_processed (m : option (gmap string string)) (st : string * list json) : Prop :=
  exists n cols vals more,
    (fst st = insert_row_text n cols \/
     fst st = "UPDATE " ++ n ++ " SET " ++ Join (map (fun c => c ++ " = ?") cols) ", " ++ " WHERE id = ?") /\
    snd st = (vals ++ more)%list /\ Forall2 (processed m) cols vals.

Lemma inserted_processed m n p : Forall2 (processed m) (fst p) (snd p) ->
  keeps (sent_since (writes_processed m) dyn old) (db_exec (insert_row_text n (fst p)) (snd p)) (fun _ => True).
Proof.
  intros Hp. apply sent_exec. exists n, (fst p), (snd p), []. split; [by left|]. split; [|done]. by rewrite app_nil_r.
Qed.

Lemma insert_rows_processed m n rows : forall i,
  keeps (sent_since (writes_processed m) dyn old) (insert_rows enc n m i rows) (fun _ => True).
Proof.
  induction rows as [|v rows IH]; intros i; cbn [insert_rows]; [by apply keeps_ret|]. destruct v; try apply keeps_exit.
  eapply keeps_bind; [apply row_values_processed|]. intros p Hp.
  eapply keeps_bind; [by apply inserted_processed|]. intros. keep_tac.
Qed.

Lemma insert_processed args : keeps (sent_since (writes_processed (secure_of (arg_string "table_name" args))) dyn old)
  (insert enc args) (fun _ => True).
Proof.
  unfold insert. cbv zeta. eapply keeps_bind; [apply keeps_guard|]. intros _ _.
  eapply keeps_bind; [apply keeps_or_reject_eq|]. intros n _.
  eapply keeps_bind; [apply secure_loaded|]. intros m ->.
  assert (forall data, keeps (sent_since (writes_processed (secure_of (arg_string "table_name" args))) dyn old)
    (insertSingle enc n (arg_string "table_name" args) data (secure_of (arg_string "table_name" args))) (fun _ => True)) as H1.
  { intros data. unfold insertSingle. eapply keeps_bind; [apply row_values_processed|]. intros p Hp.
    eapply keeps_bind; [by apply inserted_processed|]. intros. keep_tac. }
  assert (forall rows, keeps (sent_since (writes_processed (secure_of (arg_string "table_name" args))) dyn old)
    (insertBulk enc n (arg_string "table_name" args) rows (secure_of (arg_string "table_name" args))) (fun _ => True)) as H2.
  { intros rows. unfold insertBulk. eapply keeps_bind; [apply keeps_guard|]. intros _ _.
    eapply keeps_bind; [by apply keeps_must_save|]. intros _ _.
    eapply keeps_bind; [|intros; by apply keeps_ret]. apply (keeps_transaction _ _ (fun _ => True)); [by intros|].
    eapply keeps_bind; [apply insert_rows_processed|]. intros ids _. keep_tac. by cbn. }
  repeat case_match; try apply keeps_exit; auto.
Qed.

Lemma update_processed args : keeps (sent_since (writes_processed (secure_of (arg_string "table_name" args))) dyn old)
  (update enc args) (fun _ => True).
Proof.
  unfold update. cbv zeta. eapply keeps_bind; [apply keeps_guard|]. intros _ _.
  eapply keeps_bind; [apply keeps_or_reject_eq|]. intros n _.
  eapply keeps_bind; [apply secure_loaded|]. intros m ->.
  eapply keeps_bind; [apply row_values_processed|]. intros p Hp.
  eapply (keeps_bind _ _ _ (fun _ => True)); [|intros; keep_tac]. apply sent_exec.
  exists n, (fst p), (snd p), [int (arg_id args)]. split; [by right|]. by split.
Qed.

(** No row of an answer has a column of kind hash. *)
Definition hides_hashes (m : option (gmap string string)) (rows : json) : Prop :=
  exists l : list row, rows = slice row_json l /\
    Forall (fun r => forall c, is_hash_column m c = true -> r !! c = None) l.

Lemma visible_row_hides m r c : is_hash_column m c = true -> visible_row m r !! c = None.
Proof.
  intros Hc. destruct (visible_row m r !! c) as [v|] eqn:Hv; [|done]. apply go_map_names in Hv.
  apply list_elem_of_In, in_map_iff in Hv as ([k x] & <- & [_ Hf]%filter_In). cbn in *. by rewrite Hc in Hf.
Qed.

Lemma strip_hides m rows : Forall (fun r => forall c, is_hash_column m c = true -> r !! c = None) (stripSecureCols m rows).
Proof.
  unfold stripSecureCols. apply Forall_map, Forall_true. intros r c Hc. cbn.
  destruct (filter _ r !! c) as [v|] eqn:Hv; [|done]. apply map_lookup_filter_Some in Hv as [_ Hf]. cbn in Hf. by rewrite Hc in Hf.
Qed.

Lemma query_hides P args : (forall q a, P (q, a)) -> keeps (sent_since P dyn old) (query args)
  (fun r => exists rows, Data r = Some rows /\ hides_hashes (secure_of (arg_string "table_name" args)) rows).
Proof.
  intros HP. unfold query. cbv zeta. eapply keeps_bind; [apply keeps_or_reject_eq|]. intros n _.
  eapply keeps_bind; [apply secure_loaded|]. intros m ->.
  eapply keeps_bind; [apply keeps_or_reject_eq|]. intros w _. eapply keeps_bind; [apply keeps_or_reject_eq|]. intros o _.
  eapply keeps_bind; [by apply sent_query|]. intros r _. eapply keeps_bind; [apply keeps_or_throw_eq|]. intros rows _.
  apply keeps_ret. eexists. split; [done|]. eexists. split; [done|].
  apply Forall_map, Forall_true. intros x c. by apply visible_row_hides.
Qed.

Lemma search_hides P args : (forall q a, P (q, a)) -> keeps (sent_since P dyn old) (search args)
  (fun r => exists n q rows, Data r = Some (JObj [("count", n); ("query", q); ("results", rows)]) /\
            hides_hashes (secure_of (arg_string "table_name" args)) rows).
Proof.
  intros HP. unfold search. cbv zeta. eapply keeps_bind; [apply keeps_guard|]. intros _ _.
  eapply keeps_bind; [apply keeps_or_reject_eq|]. intros n _.
  eapply keeps_bind; [by apply sent_query_int|]. intros cnt _. eapply keeps_bind; [apply keeps_guard|]. intros _ _.
  eapply keeps_bind; [by apply sent_query|]. intros r _. destruct r as [rows|e]; [|apply keeps_exit].
  eapply keeps_bind; [apply secure_loaded|]. intros m ->. apply keeps_ret. eexists _, _, _. split; [done|].
  eexists. split; [done|]. apply strip_hides.
Qed.
End Secure.


(** ** An alteration that waits for the owner *)

Section Alter.
Context `{C : Crypto} `{Q : SQL} `{O : MapOrder} `{E : Env} `{F : Formats}.

(** What SQLite does with [ALTER TABLE t ADD COLUMN c]: it fails when the table has
    the column, which it has once the statement succeeded. *)
Definition adds_columns : Prop := forall t c ty u,
  let q := "ALTER TABLE " ++ t ++ " ADD COLUMN " ++ c ++ " " ++ ty in
  match sql_exec q [] u with
  | (Ok _, u') => exists e, sql_exec q [] u' = (Err e, u')
  | (Err _, u') => u' = u
  end.

Lemma LoadSecureColumns_ok t c : exists m w, LoadSecureColumns t c = (Ok m, {| cw := w; cs := cs c |}).
Proof. unfold LoadSecureColumns, load, mbind, T_bind, mret, T_ret. by eexists _, _. Qed.

(** The state after a statement on the owner's tables. *)
Definition executed (q : string) (u : tables) (c : Ctx Store) : Ctx Store := set_cs (set_user u (add_sent (q, []) (cs c))) c.

Definition add_text (t col sqlType : string) : string := "ALTER TABLE " ++ t ++ " ADD COLUMN " ++ col ++ " " ++ sqlType.

Lemma add_columns_cons t col ty rest sec sqlType kind c : column_type col ty "" = Ok (sqlType, kind) ->
  let q := add_text t col sqlType in
  add_columns t ((col, ty) :: rest) sec c =
    match sql_exec q [] (st_user (cs c)) with
    | (Err e, u) => (Err (Failed ("adding column " ++ col ++ ": " ++ e)), executed q u c)
    | (Ok _, u) => (p ← add_columns t rest (mark_secure col kind sec); mret (col :: fst p, snd p)) (executed q u c)
    end.
Proof.
  intros Hty q. cbn [add_columns]. rewrite Hty. rewrite (bind_ok (or_reject (Ok (sqlType, kind))) _ (sqlType, kind) c c) by done.
  cbn [fst snd]. fold (add_text t col sqlType).
  fold q. unfold mbind at 1, T_bind at 1, db_exec. by destruct (sql_exec q [] (st_user (cs c))) as [[r|e] u].
Qed.

(** [alter] with good arguments and one column to add. *)
Lemma alter_one args t m col ty sqlType kind c : arg_string "table_name" args = t -> t <> "" -> table_ok t ->
  arg_object "add_columns" args = Some m -> entries (go_map m) = [(col, ty)] ->
  column_type col ty "" = Ok (sqlType, kind) -> exists secure w,
  let q := add_text t col sqlType in
  let c0 := {| cw := w; cs := cs c |} in
  alter args c =
    match sql_exec q [] (st_user (cs c)) with
    | (Err e, u) => (Err (Failed ("adding column " ++ col ++ ": " ++ e)), executed q u c0)
    | (Ok _, u) =>
        (dropped ← alter_drop t t (arg_list "drop_columns" args) (mark_secure col kind secure);
         save_ (fun _ s => set_dynamic (set_secure t (Marshal (enc_gmap (snd dropped))) (st_dynamic s)) s);;
         mret (success [("added", slice JStr [col]); ("dropped", slice JStr (fst dropped)); ("table", JStr t)]))
        (executed q u c0)
    end.
Proof.
  intros Ht Hne Hok Hm He Hty. destruct (LoadSecureColumns_ok t c) as (o & w & Hl). exists (default ∅ o), w. cbv zeta.
  unfold alter. cbv zeta. rewrite Ht, Hok, Hm. unfold guard_reject. destruct (String.eqb_spec t "") as [|_]; [done|].
  cbn [negb]. rewrite (bind_ok (mret tt) _ tt c c) by done.
  rewrite (bind_ok (or_reject (Ok t)) _ t c c) by done. rewrite (bind_ok _ _ _ _ _ Hl).
  unfold alter_add. rewrite He.
  pose proof (add_columns_cons t col ty [] (default ∅ o) sqlType kind {| cw := w; cs := cs c |} Hty) as Ha. cbv zeta in Ha.
  cbn [cs] in Ha. destruct (sql_exec _ [] (st_user (cs c))) as [[r|e] u].
  - rewrite (bind_ok _ _ _ _ _ Ha). cbn [fst snd].
    unfold mbind, T_bind. by destruct (alter_drop t t (arg_list "drop_columns" args) _ _) as [[[ds sec2]|x] c3].
  - by rewrite (bind_err _ _ _ _ _ Ha).
Qed.

Lemma drop_columns_throws t l : forall sec c x c', drop_columns t l sec c = (Err x, c') -> exists e, x = Failed e.
Proof.
  induction l as [|d l IH]; intros sec c x c'; cbn [drop_columns]; [done|]. unfold mbind, T_bind, db_exec.
  destruct (sql_exec _ _ _) as [[r|e] u]; cbn; [by apply IH|]. intros [= <- _]. by eexists.
Qed.

Lemma drop_gate_keeps_store t l c : cs (snd (drop_gate t l c)) = cs c.
Proof.
  assert (keeps (fun s : Store => s = cs c) (drop_gate t l) (fun _ => True)) as H by (unfold drop_gate; keep_tac).
  by destruct (H c eq_refl).
Qed.

(** A drop that ends in a result, not in an error, has dropped nothing. *)
Lemma alter_drop_rejects t raw sec c r c' : alter_drop t t raw sec c = (Err (Returned r), c') -> cs c' = cs c.
Proof.
  unfold alter_drop. destruct raw as [l|]; [|done]. unfold mbind, T_bind.
  destruct (cols_to_drop l) as [cols|e]; cbn [or_reject]; [|by intros [= _ <-]]. unfold mret at 1, T_ret at 1.
  pose proof (drop_gate_keeps_store t cols c) as Hg. destruct (drop_gate t cols c) as [[?|x] c1]; cbn [snd] in Hg; [|by intros [= _ <-]].
  destruct (drop_columns t cols sec c1) as [[sec2|x] c2] eqn:Hd.
  - destruct cols; [done|]. unfold log_destructive, lift. by destruct (LogDestructiveAction _ _ _ _).
  - apply drop_columns_throws in Hd as (e & ->). done.
Qed.

Lemma save_result (f : time -> Store -> Store) (r : Result) c : fst ((save_ f;; mret r) c) = Ok r.
Proof. unfold save_, save, mbind, T_bind, mret, T_ret. by destruct (write_fails _). Qed.

(** An alteration that adds a column and drops others never gets done once it
    had to wait for the owner: the column is added before the owner is asked, so
    that the call made again after the approval fails on it, and before it comes
    to the columns to drop. *)
Theorem approved_alter_fails args t m col ty sqlType kind c r0 c' c1 :
  adds_columns -> arg_string "table_name" args = t -> t <> "" -> table_ok t ->
  arg_object "add_columns" args = Some m -> entries (go_map m) = [(col, ty)] ->
  column_type col ty "" = Ok (sqlType, kind) ->
  outcome_of (alter args) c = (Returned r0, c') -> Success r0 = false ->
  st_user (cs c1) = st_user (cs c') ->
  exists e, fst (outcome_of (alter args) c1) = Failed ("adding column " ++ col ++ ": " ++ e) /\
            st_user (cs (snd (outcome_of (alter args) c1))) = st_user (cs c').
Proof.
  intros Hadd Ht Hne Hok Hm He Hty Hfirst Hr0 Hu.
  pose proof (Hadd t col sqlType (st_user (cs c))) as Hx. cbv zeta in Hx. fold (add_text t col sqlType) in Hx.
  destruct (alter_one args t m col ty sqlType kind c Ht Hne Hok Hm He Hty) as (sec & w & Hc). cbv zeta in Hc.
  unfold outcome_of in Hfirst. rewrite Hc in Hfirst. clear Hc.
  destruct (sql_exec (add_text t col sqlType) [] (st_user (cs c))) as [[r|e] u] eqn:Hq; [|done].
  assert (st_user (cs c') = u) as Hu'.
  { unfold mbind at 1, T_bind at 1 in Hfirst. destruct (alter_drop _ _ _ _ _) as [[[ds sec2]|x] c2] eqn:Hd.
    - pose proof (save_result (fun _ s => set_dynamic (set_secure t (Marshal (enc_gmap sec2)) (st_dynamic s)) s)
        (success [("added", slice JStr [col]); ("dropped", slice JStr ds); ("table", JStr t)]) c2) as Hs.
      cbn [fst snd] in Hfirst. destruct ((save_ _;; mret _) c2) as [o c3]. cbn [fst] in Hs. rewrite Hs in Hfirst.
      by injection Hfirst as <- _.
    - destruct x as [r1|e|]; [|done|done]. injection Hfirst as -> ->. by apply alter_drop_rejects in Hd as ->. }
  destruct (alter_one args t m col ty sqlType kind c1 Ht Hne Hok Hm He Hty) as (sec1 & w1 & Hc1). cbv zeta in Hc1.
  rewrite Hu, Hu' in Hc1. destruct Hx as (e & Hx). rewrite Hx in Hc1. exists e. unfold outcome_of. rewrite Hc1. cbn.
  by rewrite Hu'.
Qed.
End Alter.

Import ToolSample.


(** The owner is asked; the approved call then fails on the column it added. *)
Lemma approved_alter_fails_witness :
  let '(r0, c') := outcome_of (alter ToolSample.alter_args) ToolSample.start in
  match r0 with Returned r => Success r = false /\ paused (pipeline (db (cw c'))) = true | _ => False end /\
  exists e, fst (outcome_of (alter ToolSample.alter_args) c') = Failed ("adding column " ++ "age" ++ ": " ++ e) /\
            st_user (cs (snd (outcome_of (alter ToolSample.alter_args) c'))) = st_user (cs c').
Proof.
  destruct (outcome_of (alter ToolSample.alter_args) ToolSample.start) as [r0 c'] eqn:Hx.
  pose proof Hx as Hv. vm_compute in Hv. injection Hv as Hr Hc. rewrite <- Hr. split; [subst c'; by split|].
  eapply (approved_alter_fails ToolSample.alter_args "users" [("age", JStr "integer")] "age" (JStr "integer") "INTEGER" None
           ToolSample.start _ c' c').
  - intros t c ty u q. unfold sql_exec. cbn. destruct (existsb (String.eqb q) u) eqn:He; [done|].
    exists "duplicate column name". cbn. by rewrite String.eqb_refl.
  - reflexivity.
  - done.
  - reflexivity.
  - reflexivity.
  - vm_compute. reflexivity.
  - vm_compute. reflexivity.
  - rewrite Hx, <- Hr. reflexivity.
  - reflexivity.
  - reflexivity.
Defined.

Definition site_view `{Q : SQL} (id : Z) (config : string) (j : option JWTManager) (enc : bool) (s : Store) : SiteAPI :=
  {| site_ID := id; site_Config := config; api_endpoints := st_api s; auth_endpoints := st_auth s;
     dynamic_tables := st_dynamic s; jwt := j; encryptor := enc |}.

(** What the server reads of a list of texts the tool wrote. *)
Lemma strings_of_slice l : Forall utf8 l -> l <> [] -> strings_of (Marshal (slice JStr l)) = l.
Proof.
  intros Hl Hne. unfold strings_of. rewrite Unmarshal_Marshal.
  - destruct l as [|x l]; [done|]. unfold slice. rewrite map_map. cbn [text_of]. by rewrite map_id.
  - destruct l as [|x l]; [done|]. change max_depth with (S (pred max_depth)). cbn [slice readable].
    clear Hne. induction Hl as [|y r Hy Hr IH]; [done|]. by split.
Qed.

Section Exposure.
Context `{C : Crypto} `{Q : SQL} `{O : MapOrder} `{E : Env} `{F : Formats}.

Definition expose_args (path t : string) (cols : list string) : Args :=
  [("path", JStr path); ("table_name", JStr t); ("public_columns", JArr (map JStr cols))].

Lemma only_strings_map l : only_strings (map JStr l) = l.
Proof. induction l as [|x l IH]; [done|]. cbn. f_equal. exact IH. Qed.

(** A first look at what [createAPI] stores. *)
Lemma createAPI_stores path t x cols c : path <> "" -> t <> "" ->
  (forall n, write_fails n = false) -> (forall n, load_fails n = None) ->
  existsb (fun d => (dt_name d =? t)%string) (st_dynamic (cs c)) = true ->
  (forall a, a ∈ st_api (cs c) -> ar_path a <> path) ->
  let c' := snd (createAPI (expose_args path t (x :: cols)) c) in
  is_ok (fst (createAPI (expose_args path t (x :: cols)) c)) = true /\ st_dynamic (cs c') = st_dynamic (cs c) /\
  exists a, List.find (fun r => (ar_path r =? path)%string) (st_api (cs c')) = Some a /\
    ar_table a = t /\ ar_methods a = Marshal (slice JStr ["GET"; "POST"; "PUT"; "DELETE"]) /\
    ar_columns a = Some (Marshal (slice JStr (x :: cols))) /\ ar_auth a = false.
Proof.
  intros Hp Ht Hw Hl Hreg Hnew.
  assert (existsb (fun r => (ar_path r =? path)%string) (st_api (cs c)) = false) as Hno.
  { apply not_true_iff_false. intros (a & Ha & He%String.eqb_eq)%existsb_exists. apply list_elem_of_In in Ha. by apply (Hnew a). }
  unfold createAPI. cbv zeta.
  change (arg_string "path" (expose_args path t (x :: cols))) with path.
  change (arg_string "table_name" (expose_args path t (x :: cols))) with t.
  change (arg_list "public_columns" (expose_args path t (x :: cols))) with (Some (map JStr (x :: cols))).
  unfold guard_reject. destruct (String.eqb_spec path "") as [|_]; [done|]. destruct (String.eqb_spec t "") as [|_]; [done|].
  unfold registered_table, load, must_save, save, mbind, T_bind, mret, T_ret. cbn [negb orb]. rewrite Hl, Hreg. cbn [cw cs].
  rewrite Hw. unfold upsert. rewrite Hno. cbn [snd fst is_ok cs]. split; [done|]. split; [done|].
  eexists. split.
  - unfold set_api. cbn [st_api].
    assert (forall l a, existsb (fun r => (ar_path r =? path)%string) l = false -> ar_path a = path ->
      List.find (fun r => (ar_path r =? path)%string) (l ++ [a])%list = Some a) as Hf.
    { induction l as [|y l IH]; intros a; cbn; [by intros _ <-; rewrite String.eqb_refl|].
      intros [Hy Hr]%orb_false_iff Ha. rewrite Hy. by apply IH. }
    by apply Hf.
  - cbn. repeat split. by rewrite only_strings_map.
Qed.

(** The texts of [public_columns] are stored as they are given, and the public
    server puts them into its statement as they are: after the tool was asked to
    expose a registered table with the column [x], a plain GET of the endpoint
    makes SQLite execute [x], whatever text it is.  (With [password AS p] the hash
    leaves under a name that is in no list of secure columns.) *)
Theorem public_columns_unchecked path t x c id config j enc r now w :
  path <> "" -> t <> "" -> utf8 x ->
  (forall n, write_fails n = false) -> (forall n, load_fails n = None) ->
  existsb (fun d => (dt_name d =? t)%string) (st_dynamic (cs c)) = true ->
  (forall a, a ∈ st_api (cs c) -> ar_path a <> path) ->
  is_hash_column (match List.find (fun d => (dt_name d =? t)%string) (st_dynamic (cs c)) with
                  | Some d => string_map_of <$> dt_secure d | None => None end) x = false ->
  method r = "GET" -> Security.query r = ∅ ->
  let (res, c') := createAPI (expose_args path t [x]) c in
  is_ok res = true /\
  In ("SELECT " ++ x ++ " FROM " ++ t ++ " ORDER BY id DESC LIMIT ? OFFSET ?", [num 50; num 0])
     (statements (snd (crud (site_view id config j enc (cs c')) r path "" now w))).
Proof.
  intros Hp Ht Hx Hw Hl Hreg Hnew Hhash Hm Hq.
  destruct (createAPI_stores path t x [] c Hp Ht Hw Hl Hreg Hnew) as (Hok & Hd & a & Ha & A1 & A2 & A3 & A4).
  destruct (createAPI _ c) as [res c']. cbn [fst snd] in *. split; [done|].
  unfold crud, loadEndpoint, site_view. cbn [api_endpoints dynamic_tables]. rewrite Ha, A1, A2, A3, A4, Hd.
  rewrite strings_of_slice; [|by repeat constructor; apply utf8_plain|done].
  rewrite strings_of_slice; [|by constructor|done].
  cbn [Methods]. rewrite Hm. change (methodAllowed ["GET"; "POST"; "PUT"; "DELETE"] "GET") with true. cbn [negb].
  unfold authorize. cbn [RequiresAuth andb]. unfold mbind at 1, H_bind at 1, mret at 1, H_ret at 1. cbn [String.eqb Ascii.eqb Bool.eqb negb].
  change (Marshal (slice JStr [x]) =? "")%string with false. cbv iota.
  set (ep := {| TableName := t |}).
  assert (forall k, query_get k r = "") as Hg by (intros k; unfold query_get; by rewrite Hq, lookup_empty).
  assert (entries (Security.query r) = []) as He.
  { apply Permutation_nil_r. etrans; [apply entries_perm|]. by rewrite Hq, map_to_list_empty. }
  assert (visibleColumns ep = x) as Hv.
  { assert (is_hash ep x = false) as Hh.
    { unfold is_hash, ep. cbn [SecureCols]. unfold is_hash_column, secure_kind in Hhash.
      destruct (List.find _ (st_dynamic (cs c))) as [d|]; [|by rewrite lookup_empty].
      destruct (dt_secure d) as [raw|]; [exact Hhash|by rewrite lookup_empty]. }
    unfold visibleColumns. change (PublicColumns ep) with [x]. cbn [List.filter]. by rewrite Hh. }
  unfold apiList, search_clause, bounded_param, order_clause, or_else. rewrite !Hg, He, Hv.
  generalize (SecureCols ep). intros secure. cbn. unfold mbind, H_bind, mret, H_ret. cbn.
  repeat (case_match; cbn; try by left).
Qed.
End Exposure.

Import ToolSample.

(** A hash under another name. *)
Lemma public_columns_unchecked_witness :
  let x := "password AS p" in
  let r := {| method := "GET"; url_path := "/api/people"; headers := []; cookies := []; Security.query := ∅; req_body := "" |} in
  let (res, c') := createAPI (expose_args "people" "users" [x]) ToolSample.start in
  is_ok res = true /\
  In ("SELECT " ++ x ++ " FROM " ++ "users" ++ " ORDER BY id DESC LIMIT ? OFFSET ?", [num 50; num 0])
     (statements (snd (crud (site_view 1 "" None true (cs c')) r "people" "" 0
        {| db_tables := [] : @tables ToolSample.once; statements := []; published := [] |}))).
Proof.
  cbv zeta. apply public_columns_unchecked; try done; [by apply utf8_plain|].
  intros a Ha. by apply elem_of_nil in Ha.
Defined.
