(* ===== verification/PageText.v ===== *)
(** * Texts of pages and stylesheets

    The functions of tools/pages.go, tools/storage.go and tools/summarize.go that
    look at HTML and CSS and keep no state: cleaning of a page, the warnings
    about its scripts, its skeleton, its fingerprint, the check and the summary of
    a stylesheet.  [None] is an index out of range: Go panics. *)

From Stdlib Require Import ZArith Lia Ascii String List Bool.
From stdpp Require Import base list strings gmap.
From S2P Require Import Prelude GoStrings JSONText Regex SiteTables.

Local Open Scope string_scope.

Definition double : ascii := byte_of 34.
Definition single : ascii := byte_of 39.
Definition quotes : string := String double (s1 single).
Definition anything : re := Cls (fun _ => true).

(** ** Cleaning *)

(** An attribute value that begins with [p], in quotes of either kind. *)
Definition quoted_i (p : string) : re :=
  let q c := seq_of [byte c; lit_i p; star (Cls (none_of (s1 c))); byte c] in Alt (q double) (q single).
Definition equals : re := seq_of [spaces; lit "="; spaces].
Definition names_i (l : list string) : re := foldr (fun n r => Alt (lit_i n) r) (Cls (fun _ => false)) l.

Definition onEventAttrRe : re :=
  seq_of [plus (Cls white); lit_i "on"; plus letter_i; equals;
          Alt (quoted_i "") (star (Cls (fun a => negb (white a || Ascii.eqb a ">"))))].
Definition jsURIRe : re := seq_of [Grp 1 (names_i ["href"; "src"; "action"]); equals; quoted_i "javascript:"].
Definition dataURIScriptRe : re := seq_of [Grp 1 (names_i ["href"; "src"]); equals; quoted_i "data:text/html"].

Definition sanitizePageHTML (content : string) : string :=
  remove_all dataURIScriptRe (remove_all jsURIRe (remove_all onEventAttrRe content)).

(** ** Scripts in a page *)

(** The flag U: the first end tag ends the script. *)
Definition pageScriptRe : re :=
  seq_of [lit_i "<script"; star_lazy (Cls (none_of ">")); lit ">"; Grp 1 (plus_lazy anything); lit_i "</script>"].
Definition internalLinkRe : re :=
  seq_of [lit "href"; equals; Cls (one_of quotes); Grp 1 (Cat (lit "/") (star (Cls (none_of (quotes ++ "#?")))));
          opt (Cls (one_of (quotes ++ "#?")))].
Definition getByIdRe : re :=
  seq_of [lit "getElementById("; spaces; Cls (one_of quotes); Grp 1 (plus (Cls (none_of quotes))); Cls (one_of quotes);
          spaces; lit ")"].
Definition querySelectorRe : re :=
  seq_of [lit "querySelector("; spaces; Cls (one_of quotes); lit "#"; Grp 1 (plus (Cls (none_of quotes)));
          Cls (one_of quotes); spaces; lit ")"].
Definition htmlIDRe : re :=
  seq_of [WordB; lit_i "id"; equals; Cls (one_of quotes); Grp 1 (plus (Cls (none_of quotes))); Cls (one_of quotes)].
Definition unguardedQSRe : re :=
  seq_of [lit "querySelector"; opt (lit "All"); lit "("; plus (Cls (none_of ")")); lit ")."; Cls is_alpha].

Definition extractScriptContent (content : string) : string :=
  Join (map (group 1) (FindAll pageScriptRe content)) (s1 (byte_of 10)).

Fixpoint Count (a : ascii) (s : string) : Z :=
  match s with String b r => (if Ascii.eqb a b then 1 else 0) + Count a r | EmptyString => 0 end.

(** A set of strings, as a map. *)
Definition string_set (l : list string) : gmap string unit := list_to_map (map (fun s => (s, tt)) l).

Section Warnings.
Context `{O : MapOrder}.

Definition missing_id (id : string) : string :=
  "JS references element #" ++ id ++ dq " but no id='" ++ id ++ dq "' found in HTML — will cause TypeError at runtime".

Definition validatePageContent (content : string) : list string :=
  let scriptContent := extractScriptContent content in
  if (scriptContent =? "")%string then []
  else
    let opens := Count "{" scriptContent in
    let closes := Count "}" scriptContent in
    let htmlIDs := string_set (map (group 1) (FindAll htmlIDRe content)) in
    let referencedIDs := string_set (map (group 1) (FindAll getByIdRe scriptContent ++ FindAll querySelectorRe scriptContent)%list) in
    ((if (opens =? closes)%Z then []
      else [("Possible JS syntax error: " ++ Itoa opens ++ " open braces vs " ++ Itoa closes ++ " close braces")%string])
     ++ map missing_id (List.filter (fun id => match htmlIDs !! id with None => true | _ => false end)
                          (map fst (entries referencedIDs)))
     ++ (if MatchString unguardedQSRe scriptContent
         then ["querySelector() result used without ?. — add optional chaining to avoid TypeError when element is missing"]
         else []))%list.
End Warnings.

(** What [save] calls errors among the warnings. *)
Definition is_hard_error (w : string) : bool := Contains w "but no id=" || Contains w "syntax error" || Contains w "brace".

(** The internal links of a page, each once. *)
Fixpoint once (seen l : list string) : list string :=
  match l with
  | [] => []
  | x :: r => if existsb (String.eqb x) seen then once seen r else x :: once (x :: seen) r
  end.
Definition internal_links (pagePath content : string) : list string :=
  once [] (List.filter (fun target => negb (HasPrefix target "/assets/" || HasPrefix target "/api/"
                                            || HasPrefix target "/files/" || (target =? pagePath)%string))
             (map (group 1) (FindAll internalLinkRe content))).

(** ** Skeletons *)

Definition skeletonLeafTags : list string :=
  ["h1"; "h2"; "h3"; "h4"; "h5"; "h6"; "p"; "a"; "img"; "button"; "span"; "input"; "textarea"; "select"; "label";
   "li"; "th"; "td"; "figcaption"; "small"].
Definition skeletonSkipTags : list string := ["script"; "style"; "svg"; "noscript"].
Definition is_in (l : list string) (x : string) : bool := existsb (String.eqb x) l.

Definition skeleton_attr (inner attr : string) : string :=
  match Index inner (attr ++ "=") with
  | None => ""
  | Some idx =>
      match drop_str (idx + String.length attr + 1) inner with
      | EmptyString => ""
      | String q rest =>
          if in_set q quotes then
            match Index rest (s1 q) with
            | Some e => let val := take_str e rest in
                        if (val =? "")%string then "" else " " ++ attr ++ "=" ++ s1 double ++ val ++ s1 double
            | None => ""
            end
          else ""
      end
  end.

Definition extractSkeletonAttrs (inner : string) : string := skeleton_attr inner "class" ++ skeleton_attr inner "id".

(** The tag name: up to the first blank. *)
Fixpoint index_any (set s : string) : option nat :=
  match s with
  | EmptyString => None
  | String a r => if in_set a set then Some 0%nat else option_map S (index_any set r)
  end.
Definition blanks : string := String " " (String (byte_of 9) (String (byte_of 10) (s1 (byte_of 13)))).
Definition tag_name (inner : string) : string :=
  ToLower match index_any blanks inner with Some (S n) => take_str (S n) inner | _ => inner end.

Record Skel := { sk_out : string; sk_depth : nat; sk_skip : string }.
Definition maxDepth : nat := 6.
Definition write_tag (s : string) (d : nat) (k : Skel) : Skel :=
  {| sk_out := sk_out k ++ s; sk_depth := d; sk_skip := sk_skip k |}.

(** What is between [<] and [>], taken apart: closing, closed by itself, the rest;
    nothing when the last byte of nothing is asked for. *)
Definition split_tag (inner : string) : option (bool * bool * string) :=
  let isClosing := HasPrefix inner "/" in
  let inner := if isClosing then drop_str 1 inner else inner in
  if (inner =? "")%string then None
  else
    let isSelfClose := HasSuffix inner "/" in
    let inner := if isSelfClose then take_str (String.length inner - 1) inner else inner in
    Some (isClosing, isSelfClose, TrimSpace inner).

(** A tag that is no comment. *)
Definition skeleton_tag (inner : string) (k : Skel) : option Skel :=
  if (inner =? "")%string then Some k
  else
    match split_tag inner with
    | None => None
    | Some (isClosing, isSelfClose, inner) =>
        let tagName := tag_name inner in
        let d := sk_depth k in
        Some
          (if negb (sk_skip k =? "")%string then
             if isClosing && (tagName =? sk_skip k)%string then {| sk_out := sk_out k; sk_depth := d; sk_skip := "" |} else k
           else if is_in skeletonSkipTags tagName && negb isClosing then
             {| sk_out := sk_out k; sk_depth := d; sk_skip := tagName |}
           else if isClosing then
             let d := Nat.pred d in
             write_tag (if (d <? maxDepth)%nat then "</" ++ tagName ++ ">" else "") d k
           else if (maxDepth <=? d)%nat then
             write_tag "" (if negb isSelfClose && negb (is_in skeletonLeafTags tagName) then S d else d) k
           else
             let attrs := extractSkeletonAttrs inner in
             if is_in skeletonLeafTags tagName || isSelfClose then write_tag ("<" ++ tagName ++ attrs ++ "/>") d k
             else write_tag ("<" ++ tagName ++ attrs ++ ">") (S d) k)
    end.

(** The loop over the text; each round takes a byte at least, so that its length
    is enough fuel.  The end of a comment is looked for from the [>] of the tag on. *)
Fixpoint skeleton_loop (fuel : nat) (html : string) (k : Skel) : option Skel :=
  match fuel, html with
  | S fuel, String a r =>
      if (700 <=? String.length (sk_out k))%nat then Some k
      else if negb (Ascii.eqb a "<") then skeleton_loop fuel r k
      else
        match Index html ">" with
        | None => Some k
        | Some e =>
            let tag := take_str (S e) html in
            let after := drop_str (S e) html in
            if HasPrefix tag "<!--" then
              match Index (">" ++ after) "-->" with
              | Some ci => skeleton_loop fuel (drop_str (ci + 3) (">" ++ after)) k
              | None => skeleton_loop fuel after k
              end
            else
              match skeleton_tag (take_str (e - 1) r) k with
              | Some k' => skeleton_loop fuel after k'
              | None => None
              end
        end
  | _, _ => Some k
  end.

Definition extractPageSkeleton (html : string) : option string :=
  match skeleton_loop (S (String.length html)) html {| sk_out := ""; sk_depth := 0; sk_skip := "" |} with
  | None => None
  | Some k =>
      let result := sk_out k in
      Some (if (600 <? String.length result)%nat then
              match LastIndex (take_str 600 result) ">" with
              | Some (S last) => take_str (S (S last)) result
              | _ => take_str 600 result
              end
            else result)
  end.

(** ** Fingerprints *)

Section Fingerprint.
(** [strings.ToLower] on all of Unicode; the length of a text can change. *)
Context (lower : string -> string).

Fixpoint asset_end (s : string) : nat :=
  match s with
  | String a r => if in_set a (quotes ++ ") >") then 0 else S (asset_end r)
  | EmptyString => 0
  end.

(** [idx] is the place in the lowered text [low] begins at; the references are cut
    out of the text itself. *)
Fixpoint asset_refs (fuel : nat) (content low : string) (idx : nat) (assets : list string) : option (list string) :=
  match fuel with
  | O => Some assets
  | S fuel =>
      match Index low "/assets/" with
      | None => Some assets
      | Some pos =>
          let start := (idx + pos + 8)%nat in
          let low' := drop_str (pos + 8) low in
          let n := asset_end low' in
          if (n =? 0)%nat then asset_refs fuel content low' start assets
          else if (String.length content <? start + n)%nat then None
          else
            let asset := take_str n (drop_str start content) in
            asset_refs fuel content (drop_str n low') (start + n)%nat
              (if is_in assets asset then assets else (assets ++ [asset])%list)
      end
  end.

Definition pageStructureFingerprint (content : string) : option string :=
  let low := lower content in
  let elements := List.filter (fun tag => Contains low ("<" ++ tag))
                    ["nav"; "header"; "main"; "section"; "article"; "aside"; "footer"] in
  match asset_refs (S (String.length low)) content low 0 [] with
  | None => None
  | Some assets =>
      let parts := match elements with [] => "" | _ => "Structure: " ++ Join elements "," end in
      Some match assets with
           | [] => parts
           | _ => (if (parts =? "")%string then parts else parts ++ ". ") ++ "Assets: " ++ Join assets ","
           end
  end.
End Fingerprint.

(** ** Stylesheets *)

(** The scan of [validateCSSContent]: the quote a string is in, whether in a
    comment (a comment begins inside of strings too), the open braces. *)
Fixpoint css_scan (filename : string) (s : string) (before : option ascii) (q : option ascii) (comment : bool) (depth : Z)
    : list string * (Z * bool) :=
  match s with
  | EmptyString => ([], (depth, comment))
  | String c r =>
      if comment then
        match r with
        | String d r' => if Ascii.eqb c "*" && Ascii.eqb d "/" then css_scan filename r' (Some d) q false depth
                         else css_scan filename r (Some c) q true depth
        | EmptyString => ([], (depth, true))
        end
      else
        let scan_code :=
          match q with
          | Some e => css_scan filename r (Some c)
                        (if Ascii.eqb c e && negb (match before with Some b => Ascii.eqb b "\" | None => false end) then None else q)
                        false depth
          | None =>
              if in_set c quotes then css_scan filename r (Some c) (Some c) false depth
              else if Ascii.eqb c "{" then css_scan filename r (Some c) None false (depth + 1)
              else if Ascii.eqb c "}" then
                if (depth - 1 <? 0)%Z then
                  let '(w, x) := css_scan filename r (Some c) None false 0 in
                  ((("CSS syntax error in " ++ filename ++ ": unexpected closing brace '}'")%string :: w), x)
                else css_scan filename r (Some c) None false (depth - 1)
              else css_scan filename r (Some c) None false depth
          end in
        match r with
        | String d r' => if Ascii.eqb c "/" && Ascii.eqb d "*" then css_scan filename r' (Some d) q true depth else scan_code
        | EmptyString => scan_code
        end
  end.

Definition validateCSSContent (filename css : string) : list string :=
  if (TrimSpace css =? "")%string then [("CSS file " ++ filename ++ " is empty")%string]
  else
    let '(warnings, (depth, inComment)) := css_scan filename css None None false 0 in
    (warnings
     ++ (if (0 <? depth)%Z then [("CSS syntax error in " ++ filename ++ ": " ++ Itoa depth ++ " unclosed brace(s) '{'")%string] else [])
     ++ (if inComment then [("CSS syntax error in " ++ filename ++ ": unclosed comment /* ... */")%string] else []))%list.

Definition cssClassRe : re :=
  seq_of [Bol; star_lazy (Cls (none_of "{}")); lit "."; Grp 1 (plus (Cls (fun a => is_word_byte a || Ascii.eqb a "-")));
          Alt (Cls (fun a => Ascii.eqb a ":" || white a)) Eol].
Definition cssVarRe : re :=
  seq_of [Grp 1 (Cat (lit "--") (plus (Cls (fun a => is_word_byte a || Ascii.eqb a "-")))); spaces; lit ":"; spaces;
          Grp 2 (plus (Cls (none_of ";}")))].

(** The first of those with the same key. *)
Fixpoint first_by {A} (key : A -> string) (seen : list string) (l : list A) : list A :=
  match l with
  | [] => []
  | x :: r => if is_in seen (key x) then first_by key seen r else x :: first_by key (key x :: seen) r
  end.

Inductive css_group := COLORS | FONTS | SPACING | VARS | LAYOUT | COMPONENTS | UTILITIES | OTHER.
Definition same_group (a b : css_group) : bool :=
  match a, b with
  | COLORS, COLORS | FONTS, FONTS | SPACING, SPACING | VARS, VARS | LAYOUT, LAYOUT | COMPONENTS, COMPONENTS
  | UTILITIES, UTILITIES | OTHER, OTHER => true
  | _, _ => false
  end.
Definition starts (s : string) (l : list string) : bool := existsb (HasPrefix s) l.

Definition var_group (name : string) : css_group :=
  if starts name ["--color"] then COLORS
  else if starts name ["--font"; "--text"] then FONTS
  else if starts name ["--spacing"; "--radius"; "--gap"] then SPACING
  else VARS.

Definition class_group (cls : string) : css_group :=
  if starts cls ["container"; "grid"; "flex"; "col-"; "row"; "wrap"] then LAYOUT
  else if starts cls ["card"; "btn"; "hero"; "section"; "form"; "modal"; "badge"; "alert"; "nav"; "footer"; "header";
                      "sidebar"; "tab"; "dropdown"; "input"; "label"] then COMPONENTS
  else if starts cls ["text-"; "hidden"; "sr-"; "mt-"; "mb-"; "ml-"; "mr-"; "mx-"; "my-"; "p-"; "pt-"; "pb-"; "px-";
                      "py-"; "gap-"; "w-"; "h-"; "d-"] || is_in ["hidden"; "visible"] cls then UTILITIES
  else OTHER.

(** [s[:n]] if it is longer *)
Definition cut_at (n : nat) (s : string) : string := if (n <? String.length s)%nat then take_str n s else s.

Definition extractCSSSummary (css : string) : string :=
  let vars := map (fun m => (var_group (group 1 m), group 1 m ++ ":" ++ TrimSpace (group 2 m)))
                (first_by (group 1) [] (FindAll cssVarRe css)) in
  let classes := map (fun c => (class_group c, "." ++ c)) (first_by id [] (map (group 1) (FindAll cssClassRe css))) in
  let addGroup (g : css_group) (label : string) max sep :=
    match firstn max (map snd (List.filter (fun x => same_group g (fst x)) (vars ++ classes)%list)) with
    | [] => []
    | items => [(label ++ ": " ++ Join items sep)%string]
    end in
  cut_at 1500 (Join (addGroup COLORS "COLORS" 12%nat ", " ++ addGroup FONTS "FONTS" 4%nat ", "
                     ++ addGroup SPACING "SPACING" 6%nat ", " ++ addGroup VARS "VARS" 8%nat ", "
                     ++ addGroup LAYOUT "LAYOUT" 10%nat " " ++ addGroup COMPONENTS "COMPONENTS" 15%nat " "
                     ++ addGroup UTILITIES "UTILITIES" 10%nat " " ++ addGroup OTHER "OTHER" 10%nat " ")%list " | ").
