(* ===== verification/Pages.v ===== *)
(** * tools/pages.go: manage_pages

    Saving, patching, reading, deleting and reverting the pages of a site, with
    the history of their versions and the hints a save answers with.  The texts
    are those of PageText.v. *)

From Stdlib Require Import ZArith Lia Ascii String List Bool.
From stdpp Require Import base list strings gmap sorting.
From S2P Require Import Prelude GoStrings GoTime JSONText World ToolCore Approval SiteTables ToolMonad Tables Endpoints PageText.

Local Open Scope string_scope.

(** ** The tables *)

Record Page := {
  p_id : Z; p_path : string; p_title : option string; p_content : option string; p_template : option string;
  p_status : option string; p_metadata : option string; p_layout : option string; p_assets : option string;
  p_deleted : bool; p_deleted_at : option time; p_created : time; p_updated : time;
}.

Record PageVersion := {
  v_page : Z; v_path : string; v_title : option string; v_content : option string; v_template : option string;
  v_status : option string; v_metadata : option string; v_number : Z; v_by : string; v_created : time;
}.

Record PageStore := {
  ps_pages : list Page;
  ps_versions : list PageVersion;
  ps_nav : option (option string);       (* body_before_main of the layout [default] *)
  ps_api : list ApiRow;
  ps_auth : list AuthRow;
}.

Definition set_page_rows (l : list Page) (s : PageStore) : PageStore :=
  {| ps_pages := l; ps_versions := ps_versions s; ps_nav := ps_nav s; ps_api := ps_api s; ps_auth := ps_auth s |}.
Definition set_versions (l : list PageVersion) (s : PageStore) : PageStore :=
  {| ps_pages := ps_pages s; ps_versions := l; ps_nav := ps_nav s; ps_api := ps_api s; ps_auth := ps_auth s |}.

(** [ORDER BY updated_at DESC]: the order of pages of the same second is left open. *)
Class RecentFirst := {
  recent : list Page -> list Page;
  recent_perm : forall l, recent l ≡ₚ l;
  recent_sorted : forall l, Sorted (fun a b => (p_updated b <= p_updated a)%Z) (recent l);
}.

Definition live (path : string) (p : Page) : bool := (p_path p =? path)%string && negb (p_deleted p).
Definition find_live (path : string) (s : PageStore) : option Page := List.find (live path) (ps_pages s).
Definition find_any (path : string) (s : PageStore) : option Page :=
  List.find (fun p => (p_path p =? path)%string) (ps_pages s).

(** [SELECT COALESCE(MAX(version_number), 0)] *)
Definition max_version (id : Z) (l : list PageVersion) : Z :=
  fold_left Z.max (map v_number (List.filter (fun v => (v_page v =? id)%Z) l)) 0%Z.
Definition find_version (id n : Z) (s : PageStore) : option PageVersion :=
  List.find (fun v => (v_page v =? id)%Z && (v_number v =? n)%Z) (ps_versions s).

Definition version_of (p : Page) (path by_ : string) (n : Z) (t : time) : PageVersion :=
  {| v_page := p_id p; v_path := path; v_title := p_title p; v_content := p_content p; v_template := p_template p;
     v_status := p_status p; v_metadata := p_metadata p; v_number := n; v_by := by_; v_created := t |}.

(** ** LIKE *)

(** SQLite's LIKE with the escape character [\]: letters of ASCII without case;
    [_] stands for one character of UTF-8. *)
Fixpoint like (fuel : nat) (pat s : string) : bool :=
  match fuel with
  | O => false
  | S fuel =>
      match pat with
      | EmptyString => (s =? "")%string
      | String c pat' =>
          if Ascii.eqb c "%" then
            like fuel pat' s || match s with String _ r => like fuel pat r | EmptyString => false end
          else if Ascii.eqb c "_" then
            match s with
            | String _ _ => like fuel pat' (drop_str (Nat.max 1 (utf8_len s)) s)
            | EmptyString => false
            end
          else
            let '(esc, d, pat'') :=
              if Ascii.eqb c "\" then match pat' with String d r => (true, d, r) | EmptyString => (false, c, pat') end
              else (true, c, pat') in
            match s with
            | String a r => esc && Ascii.eqb (lower_byte a) (lower_byte d) && like fuel pat'' r
            | EmptyString => false
            end
      end
  end.
Definition LIKE (pat s : string) : bool := like (S (String.length pat + String.length s)) pat s.
Definition like_text (pat : string) (o : option string) : bool := match o with Some s => LIKE pat s | None => false end.

(** [%] and [_] of the query taken literally (a [\] of its own is not). *)
Fixpoint escape_like (q : string) : string :=
  match q with
  | EmptyString => ""
  | String a r => (if Ascii.eqb a "%" || Ascii.eqb a "_" then String "\" (s1 a) else s1 a) ++ escape_like r
  end.

(** ** Patches *)

(** [json.Unmarshal] into a slice of search and replace texts. *)
Definition dec_patch (j : json) : res string (string * string) :=
  match j with
  | JNull => Ok ("", "")
  | JObj m =>
      match dec_string "" (member "search" m), dec_string "" (member "replace" m) with
      | Ok s, Ok r => Ok (s, r)
      | Err e, _ | _, Err e => Err e
      end
  | _ => Err "json: cannot unmarshal into Go value of type struct"
  end.
Fixpoint dec_patches (l : list json) : res string (list (string * string)) :=
  match l with
  | [] => Ok []
  | j :: r => match dec_patch j, dec_patches r with
              | Ok p, Ok ps => Ok (p :: ps)
              | Err e, _ | _, Err e => Err e
              end
  end.
Definition patches_of (text : string) : res string (list (string * string)) :=
  match Unmarshal text with
  | Ok JNull => Ok []
  | Ok (JArr l) => dec_patches l
  | Ok _ => Err "json: cannot unmarshal into Go value of type []struct"
  | Err e => Err e
  end.

(** The patches in turn: the text they leave, how many applied, the search texts
    that were not found. *)
Fixpoint apply_patches (l : list (string * string)) (modified : string) : string * nat * list string :=
  match l with
  | [] => (modified, 0%nat, [])
  | (search, replace) :: r =>
      if (search =? "")%string then apply_patches r modified
      else if negb (Contains modified search) then
        let '(m, n, nf) := apply_patches r modified in (m, n, search :: nf)
      else
        let '(m, n, nf) := apply_patches r (ReplaceAll modified search replace) in (m, S n, nf)
  end.

Definition strings_json (l : list string) : json := slice JStr l.
Definition when {A} (b : bool) (x : A) : list A := if b then [x] else [].
Definition text_or_null (o : option string) : json := JStr (default "" o).
Definition nonempty (s : string) : option string := if (s =? "")%string then None else Some s.

Section Pages.
Context `{E : Env} `{F : Formats} `{O : MapOrder} `{R : RecentFirst}.
Implicit Types (s : PageStore) (args : Args).

Definition PT (A : Type) : Type := T PageStore A.

(** A read whose error the code drops. *)
Definition load_or {A} (d : A) (f : PageStore -> A) : PT A :=
  r ← load f;
  mret match r with Ok a => a | Err _ => d end.

(** The current state of a page goes into its history; an error is dropped, and
    so is one in the reading of the highest number. *)
Definition capture_version (p : Page) (path by_ : string) : PT unit :=
  maxVer ← load_or 0%Z (fun s => max_version (p_id p) (ps_versions s));
  save_ (fun t s => set_versions (ps_versions s ++ [version_of p path by_ (maxVer + 1) t])%list s);;
  mret tt.

(** ** What a save answers with *)

Fixpoint dead_links (targets : list string) : PT (list string) :=
  match targets with
  | [] => mret []
  | target :: r =>
      exists_ ← load_or false (fun s => existsb (live target) (ps_pages s));
      rest ← dead_links r;
      mret (if (exists_ : bool) then rest
            else (("Links to " ++ target ++ " which does not exist yet — create it or fix the link")%string :: rest))
  end.

Definition nav_hints (pagePath : string) : PT (list string) :=
  if (pagePath =? "/")%string then mret []
  else
    navHTML ← load_or None ps_nav;
    mret match (navHTML : option (option string)) with
         | Some (Some nav) =>
             if (nav =? "")%string || Contains nav (s1 double ++ pagePath ++ s1 double)
                || Contains nav (s1 single ++ pagePath ++ s1 single) then []
             else [("Layout nav does not link to " ++ pagePath
                    ++ " — update with manage_layout if this page should be in navigation")%string]
         | _ => []
         end.

Definition checkCoherence (pagePath content : string) : PT (list string) :=
  hints ← nav_hints pagePath;
  dead ← dead_links (internal_links pagePath content);
  mret (hints ++ dead)%list.

Definition api_entry (a : ApiRow) : string :=
  let cols :=
    match ar_columns a with
    | Some c => if (c =? "")%string || (c =? "[]")%string then ""
                else match Unmarshal c with
                     | Ok j => match dec_string_list (Some j) with Ok l => Join l "," | Err _ => "" end
                     | Err _ => ""
                     end
    | None => ""
    end in
  ar_methods a ++ " " ++ ar_path a ++ " -> " ++ ar_table a ++ (if (cols =? "")%string then "" else "(" ++ cols ++ ")").
Definition auth_entry (a : AuthRow) : string := "AUTH " ++ au_path a ++ " -> " ++ au_table a.

Definition buildAPICatalog : PT string :=
  rows ← load (fun s => order_by ar_path (ps_api s));
  match rows with
  | Err _ => mret ""
  | Ok apis =>
      auths ← load_or [] (fun s => order_by au_path (ps_auth s));
      mret (cut_at 2000 (Join (map api_entry apis ++ map auth_entry auths)%list "; "))
  end.

(** The statement names a column [content] that the table assets does not have
    (db/site_migrations/001_initial.sql): it fails, and the error is dropped. *)
Definition loadGlobalCSSForCatalog : PT string :=
  load (fun _ => tt);;
  mret "".

(** The loop over the pages: at most 1500 bytes of entries; a separator written
    before an entry that is too long stays. *)
Fixpoint skeleton_entries (l : list Page) (b : string) : option string :=
  match l with
  | [] => Some b
  | p :: r =>
      match p_content p with
      | None => skeleton_entries r b
      | Some content =>
          match extractPageSkeleton content with
          | None => None
          | Some skeleton =>
              if (skeleton =? "")%string then skeleton_entries r b
              else
                let b := if (b =? "")%string then b else b ++ " | " in
                let entry := p_path p ++ ": " ++ skeleton in
                if (1500 <? String.length b + String.length entry)%nat then Some b
                else skeleton_entries r (b ++ entry)
          end
      end
  end.

Definition others (excludePath : string) (p : Page) : bool := negb (p_deleted p) && negb (p_path p =? excludePath)%string.

Definition loadRecentPageSkeletons (excludePath : string) (limit : nat) : PT string :=
  rows ← load_or [] (fun s => firstn limit (recent (List.filter (others excludePath) (ps_pages s))));
  match skeleton_entries rows "" with
  | Some b => mret b
  | None => crash
  end.

(** The catalogs, with the hints: what a save adds to its answer. *)
Definition catalogs (path : string) : PT (list (string * json) * list (string * json)) :=
  apiCatalog ← buildAPICatalog;
  css ← loadGlobalCSSForCatalog;
  skeletons ← loadRecentPageSkeletons path 3;
  let summary := if (css =? "")%string then "" else extractCSSSummary css in
  mret ((when (negb (apiCatalog =? "")%string) ("available_endpoints", JStr apiCatalog)
         ++ when (negb (summary =? "")%string) ("css_classes", JStr summary))%list,
        when (negb (skeletons =? "")%string) ("page_skeletons", JStr skeletons)).

(** ** Actions *)

Definition required_path args : PT string :=
  let path := arg_string "path" args in
  guard_reject (negb (path =? "")%string) "path is required";;
  mret path.

(** The row of [INSERT ... ON CONFLICT(path) DO UPDATE]. *)
Definition save_row (path title content template status metadata : string) (layout assets : option string) (t : time) s
    : PageStore :=
  let mk id created :=
    {| p_id := id; p_path := path; p_title := Some title; p_content := Some content; p_template := Some template;
       p_status := Some status; p_metadata := Some metadata; p_layout := layout; p_assets := assets;
       p_deleted := false; p_deleted_at := None; p_created := created; p_updated := t |} in
  set_page_rows (snd (upsert (fun p => (p_path p =? path)%string) p_id (fun n => mk n t)
                        (fun p => mk (p_id p) (p_created p)) (ps_pages s))) s.

(** The page there is goes into the history before it is overwritten. *)
Definition capture_existing (path : string) : PT unit :=
  r ← load (find_live path);
  match r with
  | Ok (Some p) => capture_version p path "brain"
  | _ => mret tt
  end.

Definition save_page args : PT Result :=
  path ← required_path args;
  let title := arg_string "title" args in
  let status := OptionalString args "status" "published" in
  capture_existing path;;
  let content := sanitizePageHTML (arg_string "content" args) in
  must_save "saving page" (fun t s =>
    (tt, save_row path title content (arg_string "template" args) status (OptionalString args "metadata" "{}")
           (nonempty (arg_string "layout" args)) (nonempty (arg_string "assets" args)) t s));;
  let warnings := validatePageContent content in
  let hardErrors := List.filter is_hard_error warnings in
  let softWarnings := List.filter (fun w => negb (is_hard_error w)) warnings in
  hints ← checkCoherence path content;
  cats ← catalogs path;
  let data errors :=
    JObj (when (negb (bool_decide (softWarnings = []))) ("ATTENTION_JS_ISSUES", strings_json softWarnings)
          ++ fst cats ++ errors
          ++ when (negb (bool_decide (hints = []))) ("hints", strings_json hints) ++ snd cats
          ++ [("path", JStr path); ("status", JStr status); ("title", JStr title)])%list in
  mret match hardErrors with
       | [] => {| Success := true; Data := Some (data []); Error := "" |}
       | _ => {| Success := false; Data := Some (data [("errors", strings_json hardErrors)]);
                 Error := "Page saved with errors that MUST be fixed: " ++ Join hardErrors "; " |}
       end.

Definition patch_page args : PT Result :=
  path ← required_path args;
  let patchesStr := arg_string "patches" args in
  guard_reject (negb (patchesStr =? "")%string) "patches is required (JSON array of {search, replace} pairs)";;
  patches ← or_reject match patches_of patchesStr with
                      | Ok ps => Ok ps
                      | Err e => Err ("patches must be a JSON array: " ++ e)
                      end;
  guard_reject (negb (bool_decide (patches = []))) "patches array is empty";;
  r ← load (find_live path);
  match r with
  | Ok (Some p) =>
      capture_version p path "brain";;
      let '(modified, applied, notFound) := apply_patches patches (default "" (p_content p)) in
      if (applied =? 0)%nat && negb (bool_decide (notFound = [])) then
        mret {| Success := false; Data := Some (JObj [("not_found", strings_json notFound)]); Error := "no patches matched" |}
      else
        let modified := sanitizePageHTML modified in
        must_save "saving patched page" (fun t s =>
          (tt, set_page_rows (update_where (fun q => (p_id q =? p_id p)%Z)
                 (fun q => {| p_id := p_id q; p_path := p_path q; p_title := p_title q; p_content := Some modified;
                              p_template := p_template q; p_status := p_status q; p_metadata := p_metadata q;
                              p_layout := p_layout q; p_assets := p_assets q; p_deleted := p_deleted q;
                              p_deleted_at := p_deleted_at q; p_created := p_created q; p_updated := t |}) (ps_pages s)) s));;
        let warnings := validatePageContent modified in
        hints ← checkCoherence path modified;
        cats ← catalogs path;
        mret (success ([("applied", int (Z.of_nat applied))] ++ fst cats
                       ++ when (negb (bool_decide (hints = []))) ("hints", strings_json hints)
                       ++ when (negb (bool_decide (notFound = []))) ("not_found", strings_json notFound)
                       ++ snd cats ++ [("path", JStr path)]
                       ++ when (negb (bool_decide (warnings = []))) ("warnings", strings_json warnings))%list)
  | _ => reject "page not found"
  end.

Definition get_page args : PT Result :=
  path ← required_path args;
  r ← load (find_live path);
  match r with
  | Err e => throw ("getting page: " ++ e)
  | Ok None => reject "page not found"
  | Ok (Some p) =>
      mret (success [("content", text_or_null (p_content p)); ("created_at", JStr (time_text (p_created p)));
                     ("id", int (p_id p)); ("metadata", text_or_null (p_metadata p)); ("path", JStr path);
                     ("status", text_or_null (p_status p)); ("template", text_or_null (p_template p));
                     ("title", text_or_null (p_title p)); ("updated_at", JStr (time_text (p_updated p)))])
  end.

Definition list_pages args : PT Result :=
  r ← load (fun s => order_by p_path (List.filter (fun p => negb (p_deleted p)) (ps_pages s)));
  rows ← or_throw "listing pages" r;
  mret (result_data (slice (fun p =>
    JObj [("id", int (p_id p)); ("path", JStr (p_path p)); ("status", text_or_null (p_status p));
          ("title", text_or_null (p_title p)); ("updated_at", JStr (time_text (p_updated p)))]) rows)).

(** [UPDATE ... WHERE]: the rows it changes, counted. *)
Definition update_pages (key : Page -> bool) (f : time -> Page -> Page) (t : time) s : Z * PageStore :=
  (Z.of_nat (List.length (List.filter key (ps_pages s))), set_page_rows (update_where key (f t) (ps_pages s)) s).

Definition mark_deleted (b : bool) (t : time) (p : Page) : Page :=
  {| p_id := p_id p; p_path := p_path p; p_title := p_title p; p_content := p_content p; p_template := p_template p;
     p_status := p_status p; p_metadata := p_metadata p; p_layout := p_layout p; p_assets := p_assets p;
     p_deleted := b; p_deleted_at := if b then Some t else None; p_created := p_created p;
     p_updated := if b then p_updated p else t |}.

Definition delete_page args : PT Result :=
  path ← required_path args;
  n ← must_save "deleting page" (update_pages (live path) (mark_deleted true));
  guard_reject (negb (n =? 0)%Z) "page not found";;
  mret (success [("deleted", JStr path)]).

Definition restore_page args : PT Result :=
  path ← required_path args;
  n ← must_save "restoring page" (update_pages (fun p => (p_path p =? path)%string && p_deleted p) (mark_deleted false));
  guard_reject (negb (n =? 0)%Z) "no deleted page found at that path";;
  mret (success [("restored", JStr path)]).

Definition history_limit args : Z :=
  match arg_num "limit" args with Some l => if float_positive l then float_int l else 20 | None => 20 end.

Definition page_history args : PT Result :=
  path ← required_path args;
  r ← load (find_any path);
  match r with
  | Ok (Some p) =>
      rows ← load (fun s => sql_limit (history_limit args)
                     (descending v_number (List.filter (fun v => (v_page v =? p_id p)%Z) (ps_versions s))));
      rows ← or_throw "querying page history" rows;
      mret (success [("path", JStr path); ("versions", slice (fun v =>
        JObj [("changed_by", JStr (v_by v)); ("created_at", JStr (time_text (v_created v)));
              ("status", text_or_null (v_status v)); ("title", text_or_null (v_title v)); ("version", int (v_number v))]) rows)])
  | _ => reject "page not found"
  end.

(** The version of the arguments: a number of at least one. *)
Definition version_arg args : option Z :=
  match arg_num "version" args with
  | Some l => if float_positive l && negb (float_int l =? 0)%Z then Some (float_int l) else None
  | None => None
  end.

Definition revert_to (v : PageVersion) (t : time) (p : Page) : Page :=
  {| p_id := p_id p; p_path := p_path p; p_title := v_title v; p_content := v_content v; p_template := v_template v;
     p_status := v_status v; p_metadata := v_metadata v; p_layout := p_layout p; p_assets := p_assets p;
     p_deleted := false; p_deleted_at := None; p_created := p_created p; p_updated := t |}.

Definition revert_page args : PT Result :=
  path ← required_path args;
  match version_arg args with
  | None => reject "version (number) is required"
  | Some version =>
      r ← load (find_any path);
      match r with
      | Ok (Some p) =>
          rv ← load (find_version (p_id p) version);
          match rv with
          | Ok (Some v) =>
              capture_version p path "revert";;
              must_save "reverting page" (fun t s =>
                (tt, set_page_rows (update_where (fun q => (p_id q =? p_id p)%Z) (revert_to v t) (ps_pages s)) s));;
              mret (success [("path", JStr path); ("restored_version", int version); ("title", text_or_null (v_title v))])
          | _ => reject ("version " ++ Itoa version ++ " not found for page " ++ path)
          end
      | _ => reject "page not found"
      end
  end.

Definition search_pages args : PT Result :=
  let q := arg_string "query" args in
  guard_reject (negb (q =? "")%string) "query is required for search";;
  let pat := "%" ++ escape_like q ++ "%" in
  r ← load (fun s => order_by p_path (List.filter (fun p =>
              negb (p_deleted p) && (like_text pat (p_title p) || like_text pat (p_content p))) (ps_pages s)));
  rows ← or_throw "searching pages" r;
  mret (result_data (slice (fun p =>
    JObj [("id", int (p_id p)); ("path", JStr (p_path p)); ("status", text_or_null (p_status p));
          ("title", text_or_null (p_title p))]) rows)).

Definition pages_infer args : string :=
  if has_arg "version" args then "revert"
  else if has_arg "content" args then "save"
  else if has_arg "query" args then "search"
  else if has_arg "path" args then "get"
  else "list".

Definition PagesTool_Execute args : PT Result :=
  dispatch [("save", save_page); ("patch", patch_page); ("get", get_page); ("list", list_pages); ("delete", delete_page);
            ("restore", restore_page); ("history", page_history); ("revert", revert_page); ("search", search_pages)]
    (Some pages_infer) args.
End Pages.

(** ** Summaries *)

Section Summary.
Context (lower : string -> string).

Definition string_member (k : string) (m : list (string * json)) : option string :=
  match arg k m with Some (JStr s) => Some s | _ => None end.
Definition escape_quotes (s : string) : string := ReplaceAll s (s1 double) (String "\" (s1 double)).
Definition member_if {A} (o : option A) (f : A -> string) : list string := match o with Some a => [f a] | None => [] end.

(** The warnings and hints are arrays of strings, as the tool makes them. *)
Definition saved_summary (path : string) (m : list (string * json)) : string :=
  let raw k s := dq "'" ++ k ++ dq "':'" ++ s ++ dq "'" in
  let head := dq "'success':true,'path':'" ++ path ++ dq "'" in
  let parts := ([head]
    ++ member_if (arg "warnings" m) (fun w => dq "'warnings':" ++ Marshal w)%string
    ++ member_if (arg "hints" m) (fun h => dq "'hints':" ++ Marshal h)%string
    ++ member_if (string_member "available_endpoints" m) (fun s => raw "available_endpoints" (escape_quotes s))
    ++ member_if (string_member "css_classes" m) (fun s => raw "css_classes" (escape_quotes s))
    ++ member_if (string_member "page_skeletons" m) (fun s => raw "page_skeletons" (escape_quotes (cut_at 800 s))))%list in
  "{" ++ Join parts "," ++ "}".

Definition PagesTool_Summarize (result : string) : option string :=
  match parseSummaryResult result with
  | None => Some (summarizeTruncate result 200)
  | Some (false, _, e) => Some (summarizeError e)
  | Some (true, Some (JArr l), _) =>
      Some (dq "{'success':true,'summary':'Returned " ++ Itoa (Z.of_nat (List.length l)) ++ dq " items'}")
  | Some (true, Some (JObj m), _) =>
      match nonempty (default "" (string_member "content" m)) with
      | Some content =>
          match pageStructureFingerprint lower content with
          | Some fingerprint =>
              Some (dq "{'success':true,'summary':'Read page " ++ default "" (string_member "path" m) ++ " ("
                    ++ Itoa (Z.of_nat (String.length content)) ++ " chars). " ++ fingerprint ++ dq "'}")
          | None => None
          end
      | None =>
          match string_member "path" m with
          | Some path =>
              if existsb (fun k => has_arg k m) ["warnings"; "hints"]
                 || existsb (fun k => bool_decide (is_Some (string_member k m)))
                      ["available_endpoints"; "css_classes"; "page_skeletons"]
              then Some (saved_summary path m)
              else Some (summarizeTruncate result 300)
          | None => Some (summarizeTruncate result 300)
          end
      end
  | _ => Some (summarizeTruncate result 300)
  end.
End Summary.
