(* ===== verification/PageFacts.v ===== *)
(** * What manage_pages promises

    The history of a page gives back what a save has overwritten, whatever
    happens in between; which pages make a save panic; the rows keep their paths
    and ids. *)

From Stdlib Require Import ZArith Lia Ascii String List Bool.
From stdpp Require Import base list strings gmap sorting.
From S2P Require Import Prelude GoStrings GoTime JSONText PlanStore World ToolCore SchedulerTool SiteTables PublicAPIFacts ToolMonad Tables Endpoints PageText Pages StoreFacts.

Local Open Scope string_scope.

(** ** Rows *)

Lemma find_update_where {A} (key key' : A -> bool) (f : A -> A) l :
  (forall y, key' y = true -> key (f y) = key y) ->
  List.find key (update_where key' f l) = option_map (fun y => if key' y then f y else y) (List.find key l).
Proof.
  intros H. induction l as [|y l IH]; [done|]. cbn [update_where map List.find]. fold (update_where key' f l).
  destruct (key' y) eqn:E; [rewrite (H y E)|]; destruct (key y) eqn:E'; cbn [option_map]; rewrite ?E, ?IH; done.
Qed.

Lemma filter_update_where {A} (key key' : A -> bool) (f : A -> A) l :
  (forall y, key' y = true -> key y = false /\ key (f y) = false) ->
  List.filter key (update_where key' f l) = List.filter key l.
Proof.
  intros H. induction l as [|y l IH]; [done|]. cbn [update_where map List.filter]. fold (update_where key' f l). rewrite IH.
  destruct (key' y) eqn:E; [|done]. by destruct (H y E) as [-> ->].
Qed.

Lemma find_app_Some {A} (key : A -> bool) l l' x : List.find key l = Some x -> List.find key (l ++ l')%list = Some x.
Proof. induction l as [|y l IH]; [done|]. cbn. by destruct (key y). Qed.

Lemma find_app_None {A} (key : A -> bool) l l' : List.find key l = None -> List.find key (l ++ l')%list = List.find key l'.
Proof. induction l as [|y l IH]; [done|]. cbn. by destruct (key y). Qed.

Lemma find_weaken {A} (key key' : A -> bool) l x : (forall y, key y = true -> key' y = true) ->
  (forall y, In y l -> key' y = true -> y = x) -> List.find key l = Some x -> List.find key' l = Some x.
Proof.
  intros H Hu Hf. apply find_some in Hf as [Hin Hx]. destruct (List.find key' l) as [z|] eqn:Hz.
  - apply find_some in Hz as [Hz1 Hz2]. by rewrite (Hu z).
  - pose proof (find_none _ _ Hz x Hin) as Hn. by rewrite (H x Hx) in Hn.
Qed.

Lemma fold_max_le l : forall n, (n <= fold_left Z.max l n)%Z /\ forall x, In x l -> (x <= fold_left Z.max l n)%Z.
Proof.
  induction l as [|y l IH]; intros n; cbn [fold_left]; [split; [lia|done]|]. destruct (IH (Z.max n y)) as [H1 H2].
  split; [lia|]. intros x [->|Hx]; [lia|auto].
Qed.

Lemma max_version_le id l v : In v l -> v_page v = id -> (v_number v <= max_version id l)%Z.
Proof.
  intros Hv Hi. apply fold_max_le, in_map_iff. exists v. split; [done|]. apply filter_In. split; [done|]. by apply Z.eqb_eq.
Qed.

Lemma max_version_pos id l : (0 <= max_version id l)%Z.
Proof. exact (proj1 (fold_max_le _ _)). Qed.

Lemma NoDup_key {A B} (f : A -> B) l x y : NoDup (map f l) -> In x l -> In y l -> f x = f y -> x = y.
Proof.
  induction l as [|z l IH]; [done|]. cbn [map In]. rewrite NoDup_cons. intros [Hz Hl] Hx Hy E.
  assert (forall w, In w l -> f w <> f z) as Hne.
  { intros w Hw Ew. apply Hz, list_elem_of_In, in_map_iff. by exists w. }
  destruct Hx as [<-|Hx], Hy as [<-|Hy]; [done| | |by apply IH]; [by destruct (Hne _ Hy)|by destruct (Hne _ Hx)].
Qed.

(** ** The texts *)

Lemma Contains_prefix s sub : String.prefix sub s = true -> Contains s sub = true.
Proof. intros H. unfold Contains. destruct s; cbn [Index]; by rewrite H. Qed.

Lemma Contains_cons a s sub : Contains s sub = true -> Contains (String a s) sub = true.
Proof.
  unfold Contains. cbn [Index]. destruct (String.prefix sub (String a s)); [done|]. by destruct (Index s sub).
Qed.

Lemma Contains_drop n : forall s sub, Contains (drop_str n s) sub = true -> Contains s sub = true.
Proof. induction n as [|n IH]; intros [|a s] sub; cbn [drop_str]; try done. intros H. by apply Contains_cons, IH. Qed.

Lemma Contains_skip s : Contains (">" ++ s) "</>" = true -> Contains s "</>" = true.
Proof. change (">" ++ s) with (String ">" s). unfold Contains. cbn. by destruct (Index s "</>"). Qed.

(** The last byte is asked for of nothing but a slash. *)
Lemma skeleton_tag_None inner k : skeleton_tag inner k = None -> inner = "/".
Proof.
  unfold skeleton_tag. destruct (inner =? "")%string eqn:He; [done|]. destruct (split_tag inner) as [[[? ?] ?]|] eqn:Hs; [done|].
  intros _. revert Hs. unfold split_tag. destruct inner as [|a r]; [done|]. unfold HasPrefix. cbn [String.prefix drop_str].
  destruct (ascii_dec "/" a) as [<-|]; [|done]. destruct r; [done|]. done.
Qed.

Lemma skeleton_loop_None fuel : forall html k, skeleton_loop fuel html k = None -> Contains html "</>" = true.
Proof.
  induction fuel as [|fuel IH]; intros html k; [by destruct html|]. destruct html as [|a r]; [done|].
  cbn [skeleton_loop]. destruct (700 <=? _)%nat; [done|].
  destruct (Ascii.eqb a "<") eqn:Ha; cbn [negb]; [|intros H; by eapply Contains_cons, IH].
  apply Ascii.eqb_eq in Ha as ->. destruct (Index (String "<" r) ">") as [e|] eqn:He; [|done].
  destruct (HasPrefix (take_str (S e) (String "<" r)) "<!--") eqn:Hc.
  - destruct (Index _ "-->") as [ci|]; intros H%IH.
    + eapply Contains_drop, Contains_skip, Contains_drop, H.
    + by eapply Contains_drop.
  - destruct (skeleton_tag _ k) as [k'|] eqn:Ht; [intros H%IH; by eapply Contains_drop|]. intros _.
    apply skeleton_tag_None in Ht. destruct (Index_split _ _ _ He) as ([|b x] & y & E & <-); [done|].
    cbn [String.append] in E. injection E as <- ->. cbn [String.length] in Ht.
    rewrite Nat.sub_1_r in Ht. cbn [Nat.pred] in Ht. rewrite take_append in Ht. subst x.
    apply (Contains_prefix (String "<" (String "/" (String ">" y)))). by destruct y.
Qed.

(** Only a text with [</>] in it makes the skeleton panic, and one that begins with it does. *)
Lemma skeleton_panics_only html : extractPageSkeleton html = None -> Contains html "</>" = true.
Proof. unfold extractPageSkeleton. destruct (skeleton_loop _ _ _) eqn:H; [done|]. intros _. by eapply skeleton_loop_None. Qed.

Lemma skeleton_panics r : extractPageSkeleton ("</>" ++ r) = None.
Proof. by destruct r. Qed.

Lemma skeleton_entries_fine l : forall b,
  Forall (fun p => forall t, p_content p = Some t -> Contains t "</>" = false) l -> skeleton_entries l b <> None.
Proof.
  induction l as [|p l IH]; intros b Hl; [done|]. inversion Hl as [|? ? Hp Hr]; subst. cbn [skeleton_entries].
  destruct (p_content p) as [t|]; [|by apply IH]. specialize (Hp t eq_refl).
  destruct (extractPageSkeleton t) as [sk|] eqn:Hs; [|apply skeleton_panics_only in Hs; congruence].
  destruct (sk =? "")%string; [by apply IH|]. destruct (1500 <? _)%nat; [done|by apply IH].
Qed.

(** ** The history *)

Section History.
Context `{E : Env} `{F : Formats} `{O : MapOrder} `{R : RecentFirst}.
Implicit Types (s : PageStore) (args : Args).

(** What a version keeps of a page. *)
Definition contents (p : Page) : option string * option string * option string * option string * option string :=
  (p_title p, p_content p, p_template p, p_status p, p_metadata p).

Lemma reads_load_or {A} (d : A) f : reads (load_or d f).
Proof. unfold load_or. reads_tac. Qed.
#[local] Hint Resolve reads_load_or : reads.

Lemma keeps_required_path I args : keeps I (required_path args) (fun path => path = arg_string "path" args /\ path <> "").
Proof.
  unfold required_path. eapply keeps_bind; [apply keeps_guard|]. intros [] Hp. apply keeps_ret. split; [done|].
  by apply negb_true_iff, String.eqb_neq in Hp.
Qed.

(** Hints and catalogs only read. *)
Lemma reads_dead_links l : reads (dead_links l).
Proof. induction l as [|t l IH]; cbn [dead_links]; reads_tac. Qed.
#[local] Hint Resolve reads_dead_links : reads.
Lemma reads_checkCoherence path content : reads (checkCoherence path content).
Proof. unfold checkCoherence, nav_hints. reads_tac. Qed.
Lemma reads_buildAPICatalog : reads buildAPICatalog.
Proof. unfold buildAPICatalog. reads_tac. Qed.
Lemma reads_loadGlobalCSS : reads loadGlobalCSSForCatalog.
Proof. unfold loadGlobalCSSForCatalog. reads_tac. Qed.
#[local] Hint Resolve reads_checkCoherence reads_buildAPICatalog reads_loadGlobalCSS : reads.
Lemma keeps_catalogs I path : keeps I (catalogs path) (fun _ => True).
Proof. unfold catalogs, loadRecentPageSkeletons. keep_tac. Qed.
#[local] Hint Resolve keeps_catalogs : keeps.

(** No action takes a version away or gives a path to another id: the invariant
    of a site that had the versions [vs] and, at [path], the page [id]. *)
Definition remembers (vs : list PageVersion) (path : string) (id : Z) s : Prop :=
  (exists l, ps_versions s = vs ++ l)%list /\ option_map p_id (find_any path s) = Some id.

Lemma remembers_version vs path id v s :
  remembers vs path id s -> remembers vs path id (set_versions (ps_versions s ++ [v])%list s).
Proof. intros [[l Hl] Hp]. split; [|done]. exists (l ++ [v])%list. cbn. by rewrite Hl, app_assoc. Qed.

Lemma remembers_update vs path id key f s : (forall p, key p = true -> p_path (f p) = p_path p /\ p_id (f p) = p_id p) ->
  remembers vs path id s -> remembers vs path id (set_page_rows (update_where key f (ps_pages s)) s).
Proof.
  intros Hf [Hl Hp]. split; [done|]. unfold find_any in *. cbn.
  rewrite find_update_where by (intros y Hy; by destruct (Hf y Hy) as [-> _]).
  destruct (List.find _ (ps_pages s)) as [p|]; [|done]. cbn in *. rewrite <- Hp. f_equal.
  destruct (key p) eqn:Hk; [|done]. by destruct (Hf p Hk) as [_ ->].
Qed.

Lemma remembers_upsert vs path path' id new upd s :
  (forall p, p_id (upd p) = p_id p) -> (forall p, p_path (upd p) = path') ->
  remembers vs path id s ->
  remembers vs path id (set_page_rows (snd (upsert (fun p => (p_path p =? path')%string) p_id new upd (ps_pages s))) s).
Proof.
  intros Hi Hq H. unfold upsert. destruct (existsb _ _); cbn [snd].
  - apply remembers_update; [|done]. intros p Hp. apply String.eqb_eq in Hp. by rewrite Hq, Hi, Hp.
  - destruct H as [Hl Hp]. split; [done|]. unfold find_any in *. cbn.
    destruct (List.find _ (ps_pages s)) as [p|] eqn:Hf; [|done]. by rewrite (find_app_Some _ _ _ _ Hf).
Qed.

Lemma remembers_capture vs path id p path' b :
  keeps (remembers vs path id) (capture_version p path' b) (fun _ => True).
Proof. unfold capture_version. keep_tac. by apply remembers_version. Qed.
#[local] Hint Resolve remembers_capture keeps_required_path : keeps.

Lemma remembers_call vs path id args : keeps (remembers vs path id) (PagesTool_Execute args) (fun _ => True).
Proof.
  apply keeps_dispatch. intros name h Hin args'.
  repeat destruct Hin as [[= <- <-]|Hin]; [..|done];
    unfold save_page, capture_existing, patch_page, get_page, list_pages, delete_page, restore_page, page_history, revert_page,
      search_pages; keep_tac; cbn [snd update_pages]; try (by apply remembers_update).
  by apply remembers_upsert.
Qed.

(** A sequence of calls, however each one ends. *)
Definition calls (l : list Args) (c : Ctx PageStore) : Ctx PageStore :=
  fold_left (fun c args => snd (outcome_of (PagesTool_Execute args) c)) l c.

Lemma remembers_calls vs path id l : forall c, remembers vs path id (cs c) -> remembers vs path id (cs (calls l c)).
Proof.
  induction l as [|a l IH]; intros c Hc; [done|]. cbn. apply IH. by eapply keeps_outcome; [apply remembers_call|].
Qed.

(** ** Saving and reverting *)

Context `{K : !Calm}.

Lemma wp_load_or {A} s (d : A) f (Q : A -> PageStore -> Prop) X : Q (f s) s -> wp s (load_or d f) Q X.
Proof. intros H. apply wp_bind, wp_load_calm. by apply wp_ret. Qed.

Lemma wp_required_path s args path (Q : string -> PageStore -> Prop) X : arg_string "path" args = path -> path <> "" ->
  Q path s -> wp s (required_path args) Q X.
Proof.
  intros <- Hp H. unfold required_path. apply wp_bind, wp_guard; [intros _; by apply wp_ret|].
  by intros Hx%negb_false_iff%String.eqb_eq.
Qed.

Lemma wp_capture s p path b (Q : unit -> PageStore -> Prop) X :
  (forall t, Q tt (set_versions (ps_versions s ++ [version_of p path b (max_version (p_id p) (ps_versions s) + 1) t])%list s)) ->
  wp s (capture_version p path b) Q X.
Proof.
  intros H. unfold capture_version. apply wp_bind, wp_load_or, wp_bind, wp_save__calm. intros t. by apply wp_ret.
Qed.

(** What a save leaves behind when it replaces the page [p]. *)
Definition saved args path p s s' : Prop := exists t t',
  s' = save_row path (arg_string "title" args) (sanitizePageHTML (arg_string "content" args)) (arg_string "template" args)
         (OptionalString args "status" "published") (OptionalString args "metadata" "{}")
         (nonempty (arg_string "layout" args)) (nonempty (arg_string "assets" args)) t'
         (set_versions (ps_versions s ++ [version_of p path "brain" (max_version (p_id p) (ps_versions s) + 1) t])%list s).

Lemma wp_save_page s args path p : arg_string "path" args = path -> path <> "" -> find_live path s = Some p ->
  wp s (save_page args) (fun _ => saved args path p s) (fun _ => saved args path p s).
Proof.
  intros Hpath Hne Hp. unfold save_page. eapply wp_bind, wp_required_path; [done..|]. cbv zeta. apply wp_bind.
  unfold capture_existing. apply wp_bind, wp_load_calm. rewrite Hp. apply wp_capture. intros t.
  eapply wp_bind, wp_must_save_calm. intros t'. cbn [fst snd].
  apply wp_bind, wp_reads; [apply reads_checkCoherence|]. intros hints.
  eapply wp_keeps; [keep_tac|intros; by exists t, t'..].
Qed.

Lemma wp_revert_page s args path p n v : arg_string "path" args = path -> path <> "" -> version_arg args = Some n ->
  find_any path s = Some p -> find_version (p_id p) n s = Some v ->
  wp s (revert_page args)
    (fun r s' => Success r = true /\ exists t vs, s' = set_page_rows (update_where (fun q => (p_id q =? p_id p)%Z) (revert_to v t) (ps_pages s))
                                                        (set_versions vs s))
    (fun _ _ => False).
Proof.
  intros Hpath Hne Hn Hp Hv. unfold revert_page. eapply wp_bind, wp_required_path; [done..|]. rewrite Hn.
  apply wp_bind, wp_load_calm. rewrite Hp. apply wp_bind, wp_load_calm. rewrite Hv.
  apply wp_bind, wp_capture. intros t. eapply wp_bind, wp_must_save_calm. intros t'. apply wp_ret. split; [done|].
  by eexists _, _.
Qed.

Lemma find_live_any path s p : find_live path s = Some p -> NoDup (map p_path (ps_pages s)) -> find_any path s = Some p.
Proof.
  intros Hp Hd. pose proof (find_some _ _ Hp) as [Hin [Hpath _]%andb_prop]. apply String.eqb_eq in Hpath.
  eapply find_weaken; [| |exact Hp]; [by intros y [? _]%andb_prop|].
  intros y Hy Hk%String.eqb_eq. eapply NoDup_key; [exact Hd|done..|]. by rewrite Hpath.
Qed.

Lemma find_version_new vs v l n id s : ps_versions s = ((vs ++ [v]) ++ l)%list -> v_page v = id ->
  v_number v = n -> (max_version id vs < n)%Z -> find_version id n s = Some v.
Proof.
  intros Hs Hv Hn Hm. unfold find_version. rewrite Hs. apply find_app_Some. rewrite find_app_None.
  - cbn. by rewrite Hv, Hn, !Z.eqb_refl.
  - destruct (List.find _ vs) as [w|] eqn:Hf; [|done]. exfalso.
    apply find_some in Hf as [Hin [Hi%Z.eqb_eq Hw%Z.eqb_eq]%andb_prop]. pose proof (max_version_le _ _ _ Hin Hi). lia.
Qed.

Lemma saved_remembers args path p s s' : find_any path s = Some p -> saved args path p s s' ->
  exists v, remembers (ps_versions s ++ [v])%list path (p_id p) s' /\
    v_page v = p_id p /\ v_number v = (max_version (p_id p) (ps_versions s) + 1)%Z /\
    (v_title v, v_content v, v_template v, v_status v, v_metadata v) = contents p.
Proof.
  intros Hp (t & t' & ->). exists (version_of p path "brain" (max_version (p_id p) (ps_versions s) + 1) t).
  split; [|done]. apply remembers_upsert; [done..|]. split; [exists []; by rewrite app_nil_r|]. unfold find_any in *. cbn. by rewrite Hp.
Qed.

(** What a save overwrites can be had back.  A page is saved over the page
    [p]; after any further calls of the tool, reverting to the number the old
    state got succeeds, and the page has the old title, content, template, status
    and metadata again and is not deleted.  Its layout and its list of assets are
    not in the history: they stay as the calls in between have left them. *)
Theorem saved_page_recovered args path p c l args' :
  NoDup (map p_path (ps_pages (cs c))) -> find_live path (cs c) = Some p ->
  arg_string "path" args = path -> arg_string "path" args' = path -> path <> "" ->
  version_arg args' = Some (max_version (p_id p) (ps_versions (cs c)) + 1)%Z ->
  let c1 := calls l (snd (outcome_of (save_page args) c)) in
  let '(x, c2) := outcome_of (revert_page args') c1 in
  match x with Returned r => Success r = true | _ => False end /\
  exists q1 q, find_any path (cs c1) = Some q1 /\ find_any path (cs c2) = Some q /\
    contents q = contents p /\ p_deleted q = false /\ p_layout q = p_layout q1 /\ p_assets q = p_assets q1.
Proof.
  intros Hd Hp Ha Ha' Hne Hn c1. pose proof (find_live_any _ _ _ Hp Hd) as Hany.
  assert (saved args path p (cs c) (cs (snd (outcome_of (save_page args) c)))) as Hs.
  { apply (wp_outcome (cs c) (save_page args) (fun _ => saved args path p (cs c))); [by apply wp_save_page|done]. }
  destruct (saved_remembers _ _ _ _ _ Hany Hs) as (v & Hr & Hv & Hnum & Hc).
  apply (remembers_calls _ _ _ l) in Hr. fold c1 in Hr. destruct Hr as [[l' Hl] Hq1].
  destruct (find_any path (cs c1)) as [q1|] eqn:Hf; [|done]. cbn in Hq1. injection Hq1 as Hid.
  assert (find_version (p_id q1) (max_version (p_id p) (ps_versions (cs c)) + 1) (cs c1) = Some v) as Hfv.
  { rewrite Hid. eapply find_version_new; [exact Hl|done|done|lia]. }
  pose proof (wp_revert_page _ _ _ _ _ _ Ha' Hne Hn Hf Hfv c1 eq_refl) as Hw. unfold outcome_of.
  destruct (revert_page args' c1) as [[r|x] c2]; [|done]. destruct Hw as (Hok & t & vs & ->). split; [done|].
  exists q1, (revert_to v t q1). split; [done|]. split; [|by rewrite <- Hc].
  unfold find_any in *. cbn. rewrite find_update_where by done. rewrite Hf. cbn. by rewrite Z.eqb_refl.
Qed.
End History.

(** ** Panics *)

Lemma arg_snoc k k' v args : k' <> k -> arg k (args ++ [(k', v)])%list = arg k args.
Proof.
  intros Hk. induction args as [|[k0 v0] args IH]; cbn; [by destruct (String.eqb_spec k' k)|]. by rewrite IH.
Qed.

(** The arguments a handler is called with: as given, or with the inferred action. *)
Definition given (args args' : Args) : Prop := args' = args \/ exists v, args' = set_arg "action" v args.

Lemma wp_dispatch {S} `{O : MapOrder} (s : S) routes infer args (Q : Result -> S -> Prop) X :
  (forall r, Q r s) -> (forall name h args', In (name, h) routes -> given args args' -> wp s (h args') Q X) ->
  wp s (dispatch routes infer args) Q X.
Proof.
  intros HQ H. unfold dispatch, DispatchAction.
  assert (forall action args', given args args' -> wp s
    match (list_to_map routes : gmap string (ActionHandler (T S Result))) !! action with
    | Some handler => handler args'
    | None => mret (failure ("unknown action " ++ Quote action ++ " — valid actions: "
                ++ joinSorted (map fst (entries (list_to_map routes : gmap string (ActionHandler (T S Result)))))))
    end Q X) as Hrun.
  { intros action args' Hg. destruct (_ !! action) as [h|] eqn:Eh; [|by apply wp_ret].
    apply elem_of_list_to_map_2 in Eh. eapply H; [by apply list_elem_of_In|done]. }
  destruct (RequireAction args) as [a|r]; [apply Hrun; by left|].
  destruct infer as [f|]; cbn zeta; [|by apply wp_ret].
  destruct (f args =? "")%string; [by apply wp_ret|]. apply Hrun. right. by eexists.
Qed.

Section Panics.
Context `{E : Env} `{F : Formats} `{O : MapOrder} `{R : RecentFirst}.
Implicit Types (s : PageStore) (args : Args).

(** No page but the one at [path] has [</>] in it. *)
Definition clean (path : string) s : Prop := forall p, In p (ps_pages s) -> others path p = true ->
  forall t, p_content p = Some t -> Contains t "</>" = false.
(** ... and the page [id] is at [path]. *)
Definition clean_at (path : string) (id : Z) s : Prop :=
  clean path s /\ forall q, In q (ps_pages s) -> p_id q = id -> p_path q = path.

Lemma others_at path p : p_path p = path -> others path p = false.
Proof. intros <-. unfold others. by rewrite String.eqb_refl, andb_false_r. Qed.

Lemma clean_update path key f s : (forall p, key p = true -> In p (ps_pages s) -> p_path p = path) ->
  (forall p, p_path (f p) = p_path p) -> clean path s -> clean path (set_page_rows (update_where key f (ps_pages s)) s).
Proof.
  intros Hk Hf Hc p (q & <- & Hq)%in_map_iff Ho. destruct (key q) eqn:E'; [|by apply Hc].
  by rewrite others_at in Ho by (rewrite Hf; auto).
Qed.

Lemma clean_at_update path id key f s : (forall p, key p = true -> In p (ps_pages s) -> p_path p = path) ->
  (forall p, p_path (f p) = p_path p /\ p_id (f p) = p_id p) -> clean_at path id s ->
  clean_at path id (set_page_rows (update_where key f (ps_pages s)) s).
Proof.
  intros Hk Hf [Hc Hi]. split; [apply clean_update; [done|apply Hf|done]|].
  intros p (q & <- & Hq)%in_map_iff. destruct (key q); [destruct (Hf q) as [-> ->]|]; by apply Hi.
Qed.

Lemma clean_save_row path title content template status metadata layout assets t s :
  clean path s -> clean path (save_row path title content template status metadata layout assets t s).
Proof.
  intros Hc p Hp Ho. unfold save_row, upsert in Hp. cbn in Hp. destruct (existsb _ _); cbn in Hp.
  - apply in_map_iff in Hp as (q & <- & Hq). destruct (p_path q =? path)%string eqn:Hk; [|by apply Hc].
    by rewrite others_at in Ho.
  - apply in_app_iff in Hp as [Hp|[<-|[]]]; [by apply Hc|]. by rewrite others_at in Ho.
Qed.

Lemma steady_required_path I args : steady I (required_path args).
Proof. unfold required_path. steady_tac. Qed.
#[local] Hint Resolve steady_required_path : steady.
#[local] Hint Resolve reads_load_or reads_checkCoherence reads_buildAPICatalog reads_loadGlobalCSS : reads.

Lemma steady_skeletons I path : (forall s, I s -> clean path s) -> steady I (loadRecentPageSkeletons path 3).
Proof.
  intros Hi s Hs. unfold loadRecentPageSkeletons, load_or. apply wp_bind, wp_bind, wp_load; [|intros e]; apply wp_ret.
  - destruct (skeleton_entries _ "") eqn:He; [by apply wp_ret|].
    apply skeleton_entries_fine in He; [done|]. apply Forall_take. rewrite Forall_forall. intros p Hp t Ht.
    rewrite recent_perm, list_elem_of_In, filter_In in Hp. destruct Hp as [Hp Ho]. by eapply Hi.
  - by apply wp_ret.
Qed.

Lemma steady_catalogs I path : (forall s, I s -> clean path s) -> steady I (catalogs path).
Proof. intros Hi. pose proof (steady_skeletons I path Hi). unfold catalogs. steady_tac. Qed.

Lemma steady_capture (I : PageStore -> Prop) p path b : (forall s l, I s -> I (set_versions l s)) -> steady I (capture_version p path b).
Proof. intros Hi. unfold capture_version. steady_tac. by apply Hi. Qed.

Lemma wp_required_any s args (Q : string -> PageStore -> Prop) X :
  Q (arg_string "path" args) s -> (forall r, X (Returned r) s) -> wp s (required_path args) Q X.
Proof. intros H HX. apply wp_bind, wp_guard; [intros _; by apply wp_ret|auto]. Qed.

(** What a call on [path] needs of the pages, and what it keeps as it ends. *)
Definition returns (path : string) (m : PT Result) : Prop := forall s, clean path s -> NoDup (map p_id (ps_pages s)) ->
  wp s m (fun _ _ => True) (fun x _ => x <> Panicked).

Lemma returns_steady path m : steady (clean path) m -> returns path m.
Proof. intros H s Hs _. eapply wp_mono; [by apply H|done|by intros x s' [? _]]. Qed.

Lemma returns_required path args (k : string -> PT Result) : arg_string "path" args = path ->
  returns path (k path) -> returns path (path ← required_path args; k path).
Proof. intros <- H s Hs Hi. apply wp_bind, wp_required_any; [by apply H|done]. Qed.

Lemma returns_save path args : arg_string "path" args = path -> returns path (save_page args).
Proof.
  intros Hpath. apply returns_required; [done|]. apply returns_steady. cbv zeta.
  apply steady_bind; [unfold capture_existing; steady_tac; by apply steady_capture|]. intros _.
  apply steady_bind; [apply steady_must_save; intros; by apply clean_save_row|]. intros _.
  pose proof (steady_catalogs (clean path) path (fun s H => H)). steady_tac.
Qed.

Lemma clean_at_page s path p : In p (ps_pages s) -> p_path p = path -> NoDup (map p_id (ps_pages s)) -> clean path s ->
  clean_at path (p_id p) s.
Proof.
  intros Hp Hpath Hd Hc. split; [done|]. intros q Hq Hid. by rewrite <- Hpath, (NoDup_key p_id _ q p Hd Hq Hp Hid).
Qed.

(** With a row of the path in hand, steady code that may update it by its id. *)
Lemma wp_at_page s path p (m : PT Result) : In p (ps_pages s) -> p_path p = path -> NoDup (map p_id (ps_pages s)) ->
  clean path s -> steady (clean_at path (p_id p)) m -> wp s m (fun _ _ => True) (fun x _ => x <> Panicked).
Proof.
  intros Hp Hpath Hd Hc Hm. eapply wp_mono; [by apply Hm, clean_at_page|done|by intros x s' [? _]].
Qed.

Lemma returns_patch path args : arg_string "path" args = path -> returns path (patch_page args).
Proof.
  intros Hpath. apply returns_required; [done|]. intros s Hs Hd. cbv zeta.
  apply wp_bind, wp_guard; [intros _|done]. apply wp_bind, wp_or_reject; [intros ps _|done].
  apply wp_bind, wp_guard; [intros _|done]. apply wp_bind, wp_load; [|intros e; by apply wp_exit].
  destruct (find_live path s) as [p|] eqn:Hp; [|by apply wp_exit].
  apply find_some in Hp as [Hin [Hat%String.eqb_eq _]%andb_prop]. apply (wp_at_page s path p); [done..|].
  apply steady_bind; [by apply steady_capture|]. intros _.
  destruct (apply_patches ps _) as [[modified applied] notFound]. destruct (_ && _); [apply steady_ret|].
  apply steady_bind; [apply steady_must_save; intros t s' [Hc Hi]; cbn [snd]|].
  { apply clean_at_update; [by intros q Hq%Z.eqb_eq Hin'; apply Hi|done|by split]. }
  intros _. pose proof (steady_catalogs (clean_at path (p_id p)) path (fun s H => proj1 H)). steady_tac.
Qed.

Lemma returns_revert path args : arg_string "path" args = path -> returns path (revert_page args).
Proof.
  intros Hpath. apply returns_required; [done|]. intros s Hs Hd. destruct (version_arg args) as [n|]; [|by apply wp_exit].
  apply wp_bind, wp_load; [|intros e; by apply wp_exit].
  destruct (find_any path s) as [p|] eqn:Hp; [|by apply wp_exit].
  apply find_some in Hp as [Hin Hat%String.eqb_eq]. apply (wp_at_page s path p); [done..|].
  apply steady_bind; [apply steady_load|]. intros rv. destruct rv as [[v|]|]; [|steady_tac..].
  apply steady_bind; [by apply steady_capture|]. intros _.
  apply steady_bind; [apply steady_must_save; intros t s' [Hc Hi]; cbn [snd]|intros _; apply steady_ret].
  apply clean_at_update; [by intros q Hq%Z.eqb_eq Hin'; apply Hi|done|by split].
Qed.

Lemma returns_mark path args (b c : bool) key during none r : arg_string "path" args = path ->
  (forall a p, key a p = true -> p_path p = a) ->
  returns path (path ← required_path args;
                n ← must_save during (update_pages (key path) (mark_deleted b));
                guard_reject (negb (n =? 0)%Z) none;;
                mret (r path)).
Proof.
  intros Hpath Hk. apply (returns_required path args (fun path =>
    n ← must_save during (update_pages (key path) (mark_deleted b)); guard_reject (negb (n =? 0)%Z) none;; mret (r path))); [done|].
  apply returns_steady. steady_tac. cbn [snd update_pages]. apply clean_update; [by intros p Hp _; apply Hk|done|done].
Qed.

Lemma returns_call args s : clean (arg_string "path" args) s -> NoDup (map p_id (ps_pages s)) ->
  wp s (PagesTool_Execute args) (fun _ _ => True) (fun x _ => x <> Panicked).
Proof.
  intros Hc Hd. apply wp_dispatch; [done|]. intros name h args' Hin Hg.
  assert (arg_string "path" args' = arg_string "path" args) as Hpath.
  { destruct Hg as [->|[v ->]]; [done|]. unfold arg_string, set_arg. by rewrite arg_snoc. }
  assert (returns (arg_string "path" args) (h args')) as Hr; [|by apply Hr].
  repeat destruct Hin as [[= <- <-]|Hin]; [by apply returns_save|by apply returns_patch|..|done]; try by apply returns_revert.
  3: by apply (returns_mark _ args' true true live); [|intros a p [->%String.eqb_eq _]%andb_prop].
  3: by apply (returns_mark _ args' false true (fun a p => (p_path p =? a)%string && p_deleted p));
       [|intros a p [->%String.eqb_eq _]%andb_prop].
  all: apply returns_steady; unfold get_page, list_pages, page_history, search_pages; steady_tac.
Qed.

(** The most recent of the pages comes first. *)
Lemma recent_head l q : In q l -> (forall p, In p l -> p = q \/ (p_updated p < p_updated q)%Z) -> exists l', recent l = q :: l'.
Proof.
  intros Hq Hl. pose proof (recent_sorted l) as Hs. pose proof (recent_perm l) as Hp.
  assert (In q (recent l)) as Hqr by (by rewrite <- list_elem_of_In, Hp, list_elem_of_In).
  assert (forall p, In p (recent l) -> p = q \/ (p_updated p < p_updated q)%Z) as Hlr.
  { intros p. rewrite <- list_elem_of_In, Hp, list_elem_of_In. apply Hl. }
  destruct (recent l) as [|h l']; [done|]. destruct (Hlr h (or_introl eq_refl)) as [->|Hh]; [by eexists|].
  destruct Hqr as [->|Hqr]; [by eexists|]. apply Sorted_StronglySorted in Hs; [|intros ? ? ? ? ?; lia].
  inversion Hs as [|? ? _ Hall]; subst. rewrite Forall_forall in Hall. apply list_elem_of_In, Hall in Hqr. lia.
Qed.

Lemma wp_skeletons_panic `{K : !Calm} s path q r l Q X :
  recent (List.filter (others path) (ps_pages s)) = q :: l -> p_content q = Some ("</>" ++ r) ->
  X Panicked s -> wp s (loadRecentPageSkeletons path 3) Q X.
Proof.
  intros Hr Hq HX. unfold loadRecentPageSkeletons. apply wp_bind, wp_load_or. rewrite Hr. cbn [firstn skeleton_entries].
  rewrite Hq, skeleton_panics. by apply wp_exit.
Qed.

Lemma filter_others_save path title content template status metadata layout assets t s :
  List.filter (others path) (ps_pages (save_row path title content template status metadata layout assets t s))
  = List.filter (others path) (ps_pages s).
Proof.
  unfold save_row, upsert. cbn [ps_pages set_page_rows]. destruct (existsb _ _); cbn [snd].
  - apply filter_update_where. intros p Hp%String.eqb_eq. by rewrite !others_at.
  - rewrite List.filter_app. cbn [List.filter]. by rewrite others_at, app_nil_r.
Qed.

Lemma find_any_save path title content template status metadata layout assets t s :
  exists p, find_any path (save_row path title content template status metadata layout assets t s) = Some p /\
    p_content p = Some content /\ p_deleted p = false.
Proof.
  unfold find_any, save_row, upsert. cbn [ps_pages set_page_rows]. destruct (existsb _ _) eqn:He; cbn [snd].
  - rewrite find_update_where by (by intros y Hy%String.eqb_eq; rewrite Hy).
    apply existsb_exists in He as (y & Hin & Hy). destruct (List.find _ _) as [z|] eqn:Hf.
    + apply find_some in Hf as [_ Hz]. cbn [option_map]. rewrite Hz. by eexists.
    + by rewrite (find_none _ _ Hf y Hin) in Hy.
  - rewrite find_app_None; [cbn; rewrite String.eqb_refl; by eexists|].
    destruct (List.find _ _) as [z|] eqn:Hf; [|done]. apply find_some in Hf as [Hin Hz].
    by rewrite <- not_true_iff_false, existsb_exists in He; destruct He; exists z.
Qed.

Lemma wp_capture_existing `{K : !Calm} s path (Q : unit -> PageStore -> Prop) X :
  (forall vs, Q tt (set_versions vs s)) -> wp s (capture_existing path) Q X.
Proof.
  intros H. unfold capture_existing. apply wp_bind, wp_load_calm. destruct (find_live path s).
  - apply wp_capture. intros t. apply H.
  - apply wp_ret. specialize (H (ps_versions s)). by destruct s.
Qed.

Lemma wp_save_panics `{K : !Calm} s args path q r l :
  arg_string "path" args = path -> path <> "" ->
  recent (List.filter (others path) (ps_pages s)) = q :: l -> p_content q = Some ("</>" ++ r) ->
  wp s (save_page args) (fun _ _ => False) (fun x s' => x = Panicked /\ exists p, find_any path s' = Some p /\
    p_content p = Some (sanitizePageHTML (arg_string "content" args)) /\ p_deleted p = false).
Proof.
  intros Hpath Hne Hr Hq. unfold save_page. eapply wp_bind, wp_required_path; [done..|]. cbv zeta.
  apply wp_bind, wp_capture_existing. intros vs. apply wp_bind, wp_must_save_calm. intros t. cbn [snd].
  apply wp_bind, wp_reads; [apply reads_checkCoherence|]. intros hints. apply wp_bind. unfold catalogs.
  apply wp_bind, wp_reads; [apply reads_buildAPICatalog|]. intros api.
  apply wp_bind, wp_reads; [apply reads_loadGlobalCSS|]. intros css.
  apply wp_bind. eapply wp_skeletons_panic; [by rewrite filter_others_save|exact Hq|].
  split; [done|]. apply find_any_save.
Qed.

(** Which saves panic, and with them the process, since nothing recovers the
    panic of a tool.  The skeletons of the recent pages go into the answer to a
    save; the skeleton of a text with the tag [</>] asks for the last byte of
    nothing.  A call of manage_pages panics only if some other page that is not
    deleted holds [</>]; and when the most recently updated other page begins
    with it, every save of the path panics, after the page has been written. *)
Theorem save_panics args path c q r :
  arg_string "path" args = path -> path <> "" -> NoDup (map p_id (ps_pages (cs c))) ->
  (fst (outcome_of (PagesTool_Execute args) c) = Panicked ->
   exists p t, In p (ps_pages (cs c)) /\ p_deleted p = false /\ p_path p <> path /\
               p_content p = Some t /\ Contains t "</>" = true) /\
  (Calm -> In q (ps_pages (cs c)) -> p_deleted q = false -> p_path q <> path -> p_content q = Some ("</>" ++ r) ->
   (forall p, In p (ps_pages (cs c)) -> p_deleted p = false -> p_path p <> path -> p = q \/ (p_updated p < p_updated q)%Z) ->
   let '(x, c') := outcome_of (save_page args) c in
   x = Panicked /\ exists p, find_any path (cs c') = Some p /\
     p_content p = Some (sanitizePageHTML (arg_string "content" args)) /\ p_deleted p = false).
Proof.
  intros Hpath Hne Hd. split.
  - intros Hx.
    destruct (existsb (fun p => others path p && match p_content p with Some t => Contains t "</>" | None => false end)
                (ps_pages (cs c))) eqn:He.
    + apply existsb_exists in He as (p & Hin & [Ho Ht]%andb_prop). unfold others in Ho. apply andb_prop in Ho as [Ho Hp].
      apply negb_true_iff in Ho, Hp. apply String.eqb_neq in Hp. destruct (p_content p) as [t|] eqn:Hpt; [|done]. exists p, t. repeat split; done.
    + exfalso. revert Hx. apply (wp_outcome (cs c) _ (fun x _ => x <> Panicked)); [|done].
      eapply wp_mono; [apply returns_call; [|done]|done|done]. rewrite Hpath. intros p Hp Ho t Ht.
      apply not_true_iff_false in He. apply not_true_iff_false. intros Hc. apply He, existsb_exists. exists p.
      split; [done|]. by rewrite Ho, Ht, Hc.
  - intros K Hq Hdel Hqp Hcont Hlast.
    destruct (recent_head (List.filter (others path) (ps_pages (cs c))) q) as [l Hl].
    + apply filter_In. split; [done|]. unfold others. rewrite Hdel. cbn. by apply negb_true_iff, String.eqb_neq.
    + intros p [Hp Ho]%filter_In. unfold others in Ho. apply andb_prop in Ho as [Ho Hpp].
      apply negb_true_iff in Ho, Hpp. apply String.eqb_neq in Hpp. by apply Hlast.
    + pose proof (wp_save_panics (cs c) args path q r l Hpath Hne Hl Hcont c eq_refl) as Hw. unfold outcome_of.
      by destruct (save_page args c) as [[x|x] c'].
Qed.
End Panics.

(** ** A site with two pages *)

Module PageSample.
#[export] Existing Instances ApiSample.order digit_floats.
#[export] Instance env : Env := calm_env (fun _ _ => Err "").
#[export] Instance calm : Calm.
Proof. by split. Qed.

Definition newer (a b : Page) : Prop := (p_updated b <= p_updated a)%Z.
#[export] Instance newer_dec : RelDecision newer := fun a b => Z.le_dec (p_updated b) (p_updated a).
#[export] Instance newer_total : Total newer.
Proof. intros a b. unfold newer. lia. Qed.
#[export] Instance newest_first : RecentFirst :=
  {| recent := merge_sort newer; recent_perm := merge_sort_Permutation newer; recent_sorted := Sorted_merge_sort newer |}.

Definition page (id : Z) (path content : string) (updated : time) : Page :=
  {| p_id := id; p_path := path; p_title := Some "t"; p_content := Some content; p_template := Some ""; p_status := Some "published";
     p_metadata := Some "{}"; p_layout := None; p_assets := None; p_deleted := false; p_deleted_at := None;
     p_created := 0%Z; p_updated := updated |}.

Definition start : Ctx PageStore :=
  {| cw := new_world;
     cs := {| ps_pages := [page 1 "/" "<p>home</p>" 1; page 2 "/a" "</>" 2]; ps_versions := []; ps_nav := None; ps_api := []; ps_auth := [] |} |}.

Definition save_args : Args := [("action", JStr "save"); ("path", JStr "/"); ("content", JStr "<p>new</p>"); ("layout", JStr "none")].
Definition delete_args : Args := [("action", JStr "delete"); ("path", JStr "/")].
Definition revert_args : Args := [("action", JStr "revert"); ("path", JStr "/"); ("version", int 1)].
End PageSample.
Import PageSample.

Lemma saved_page_recovered_witness :
  let p := page 1 "/" "<p>home</p>" 1 in
  let c1 := calls [delete_args] (snd (outcome_of (save_page save_args) start)) in
  let '(x, c2) := outcome_of (revert_page revert_args) c1 in
  match x with Returned r => Success r = true | _ => False end /\
  exists q1 q, find_any "/" (cs c1) = Some q1 /\ find_any "/" (cs c2) = Some q /\
    contents q = contents p /\ p_deleted q = false /\ p_layout q = p_layout q1 /\ p_assets q = p_assets q1.
Proof.
  apply (saved_page_recovered save_args "/" (page 1 "/" "<p>home</p>" 1) start [delete_args] revert_args); try reflexivity; [|done].
  cbn. apply NoDup_cons. split; [by rewrite list_elem_of_singleton|apply NoDup_singleton].
Defined.

Lemma save_panics_witness :
  let '(x, c') := outcome_of (save_page save_args) start in
  x = Panicked /\ exists p, find_any "/" (cs c') = Some p /\
    p_content p = Some (sanitizePageHTML "<p>new</p>") /\ p_deleted p = false.
Proof.
  apply (proj2 (save_panics save_args "/" start (page 2 "/a" "</>" 2) "" eq_refl ltac:(done)
    ltac:(cbn; apply NoDup_cons; split; [by rewrite list_elem_of_singleton|apply NoDup_singleton]))).
  - exact calm.
  - by right; left.
  - done.
  - done.
  - done.
  - intros p [<-|[<-|[]]] _ Hp; [by destruct Hp|by left].
Defined.
