(* ===== verification/Layout.v ===== *)
(** * tools/layout.go: manage_layout

    The frames of a site's pages: what stands before and after their content and
    in their head, with the history of its versions, which only grows; every state in
    it can be brought back. *)

From Stdlib Require Import ZArith Lia Ascii String List Bool.
From stdpp Require Import base list strings gmap.
From S2P Require Import Prelude GoStrings GoTime JSONText World ToolCore SiteTables ToolMonad Tables Endpoints Regex PageText Pages StoreFacts PageFacts.

Local Open Scope string_scope.

Record LayoutRow := {
  l_id : Z; l_name : string; l_head : option string; l_before : option string; l_after : option string;
  l_template : option string; l_created : time; l_updated : time;
}.

Record LayoutVersion := {
  lv_layout : Z; lv_name : string; lv_head : option string; lv_before : option string; lv_after : option string;
  lv_template : option string; lv_number : Z; lv_by : string; lv_created : time;
}.

Record LayoutStore := { lo_rows : list LayoutRow; lo_versions : list LayoutVersion }.

Definition set_layouts (l : list LayoutRow) (s : LayoutStore) : LayoutStore := {| lo_rows := l; lo_versions := lo_versions s |}.
Definition layout_named (name : string) (l : LayoutRow) : bool := (l_name l =? name)%string.
Definition find_layout (name : string) (s : LayoutStore) : option LayoutRow := List.find (layout_named name) (lo_rows s).

Definition of_layout (id : Z) (v : LayoutVersion) : bool := (lv_layout v =? id)%Z.
Definition max_layout_version (id : Z) (s : LayoutStore) : Z :=
  fold_left Z.max (map lv_number (List.filter (of_layout id) (lo_versions s))) 0%Z.
Definition find_layout_version (id n : Z) (s : LayoutStore) : option LayoutVersion :=
  List.find (fun v => of_layout id v && (lv_number v =? n)%Z) (lo_versions s).

(** SQLite's length of a text: its characters, up to a zero byte. *)
Fixpoint sql_length_from (inside : bool) (s : string) : Z :=
  match s with
  | EmptyString => 0
  | String a r =>
      if (code a =? 0)%nat then 0
      else if inside && (128 <=? code a)%nat && (code a <? 192)%nat then sql_length_from true r
      else 1 + sql_length_from (192 <=? code a)%nat r
  end%Z.
Definition sql_length (s : string) : Z := sql_length_from false s.

(** ** What does not belong into a layout *)

Definition not_gt : re := star (Cls (none_of ">")).
Definition layoutDocShellRe : re :=
  seq_of [lit "<"; opt (lit "/"); Grp 1 (names_i ["!DOCTYPE"; "html"; "head"; "body"]); not_gt; lit ">"].
Definition asset_attr (name : string) : re :=
  seq_of [lit_i (name ++ "="); Cls (one_of quotes); lit_i "/assets/"; star (Cls (none_of quotes)); Cls (one_of quotes)].
Definition layoutAssetLinkRe : re := seq_of [lit_i "<link"; not_gt; asset_attr "href"; not_gt; opt (lit "/"); lit ">"].
Definition layoutAssetSrcRe : re :=
  seq_of [lit_i "<script"; not_gt; asset_attr "src"; not_gt; lit ">"; star_lazy anything; lit_i "</script>"].

Definition shell_warning : string := "Stripped <!DOCTYPE>/<html>/<head>/<body> tags — the server handles document structure".
Definition link_warning : string := "Stripped <link> for /assets/ — shared CSS is auto-injected by the server".
Definition src_warning : string := "Stripped <script src='/assets/'> — shared JS is auto-injected by the server".

(** A field without the matches, and the warning if there were any. *)
Definition strip (r : re) (warning : string) (field : string) : string * list string :=
  if MatchString r field then (remove_all r field, [warning]) else (field, []).

Definition strip_assets (field : string) : string * list string :=
  let '(f, w1) := strip layoutAssetLinkRe link_warning field in
  let '(f, w2) := strip layoutAssetSrcRe src_warning f in (f, (w1 ++ w2)%list).

(** The three fields, and all warnings: first those of the document's tags. *)
Definition clean_fields (head before after : string) : (string * string * string) * list string :=
  let '(h, w1) := strip layoutDocShellRe shell_warning head in
  let '(b, w2) := strip layoutDocShellRe shell_warning before in
  let '(a, w3) := strip layoutDocShellRe shell_warning after in
  let '(h, w4) := strip_assets h in
  let '(b, w5) := strip_assets b in
  let '(a, w6) := strip_assets a in
  ((h, b, a), (w1 ++ w2 ++ w3 ++ w4 ++ w5 ++ w6)%list).

Section Layouts.
Context `{E : Env} `{F : Formats} `{O : MapOrder}.
Implicit Types (s : LayoutStore) (args : Args).

Definition LT (A : Type) : Type := T LayoutStore A.

(** [s, ok := args[k].(string)] *)
Definition given_text (k : string) args : option string := match arg k args with Some (JStr t) => Some t | _ => None end.

Definition version_of_layout (l : LayoutRow) (name by_ : string) (n : Z) (t : time) : LayoutVersion :=
  {| lv_layout := l_id l; lv_name := name; lv_head := l_head l; lv_before := l_before l; lv_after := l_after l;
     lv_template := l_template l; lv_number := n; lv_by := by_; lv_created := t |}.

(** The layout goes into its history; errors are dropped. *)
Definition capture_layout (l : LayoutRow) (name by_ : string) : LT unit :=
  r ← load (max_layout_version (l_id l));
  let maxVer := match r with Ok n => n | Err _ => 0%Z end in
  save_ (fun t s => {| lo_rows := lo_rows s;
                       lo_versions := (lo_versions s ++ [version_of_layout l name by_ (maxVer + 1) t])%list |});;
  mret tt.

Definition layout_row (name : string) (head before after : option string) (id : Z) (created t : time) : LayoutRow :=
  {| l_id := id; l_name := name; l_head := head; l_before := before; l_after := after; l_template := None;
     l_created := created; l_updated := t |}.

(** [INSERT ... ON CONFLICT(name) DO UPDATE] *)
Definition save_layout_row (name head before after : string) (t : time) s : LayoutStore :=
  set_layouts (snd (upsert (layout_named name) l_id
                      (fun n => layout_row name (Some head) (Some before) (Some after) n t t)
                      (fun l => layout_row name (Some head) (Some before) (Some after) (l_id l) (l_created l) t)
                      (lo_rows s))) s.

Definition layout_provides (before after : string) : json :=
  JObj [("has_footer", JBool (Contains (ToLower after) "<footer"));
        ("has_header", JBool (Contains (ToLower before) "<header"));
        ("has_nav", JBool (Contains (ToLower before) "<nav"));
        ("note", JStr "Pages go inside <main> — do not duplicate nav/header/footer in page content.")].

(** Fields that are not given keep what they held, if the layout is there. *)
Definition merged (old : option LayoutRow) (field : LayoutRow -> option string) (arg : option string) (stripped : string) : string :=
  match old, arg with
  | Some l, None => default "" (field l)
  | _, _ => stripped
  end.

Definition save_layout args : LT Result :=
  let name := arg_string "name" args in
  guard_reject (negb (name =? "")%string) (dq "name is required (use 'default' for the main layout)");;
  let '((h, b, a), warnings) :=
    clean_fields (arg_string "head_content" args) (arg_string "body_before_main" args) (arg_string "body_after_main" args) in
  r ← load (find_layout name);
  let old := match r with Ok o => o | Err _ => None end in
  match old with Some l => capture_layout l name "brain" | None => mret tt end;;
  let h := merged old l_head (given_text "head_content" args) h in
  let b := merged old l_before (given_text "body_before_main" args) b in
  let a := merged old l_after (given_text "body_after_main" args) a in
  must_save "saving layout" (fun t s => (tt, save_layout_row name h b a t s));;
  mret (success ([("layout_provides", layout_provides b a); ("name", JStr name)]
                 ++ when (negb (bool_decide (warnings = []))) ("warnings", strings_json warnings))%list).

Definition layout_name args : string := let n := arg_string "name" args in if (n =? "")%string then "default" else n.

(** A read that finds no row and one that fails are the same to the tool. *)
Definition must_find_layout (name : string) : LT LayoutRow :=
  r ← load (find_layout name);
  match r with
  | Ok (Some l) => mret l
  | _ => reject ("layout " ++ Quote name ++ " not found")
  end.

(** The field of a patch, and the row with another text in it. *)
Definition field_text (field : string) (l : LayoutRow) : option string :=
  if (field =? "body_before_main")%string then Some (default "" (l_before l))
  else if (field =? "body_after_main")%string then Some (default "" (l_after l))
  else if (field =? "head_content")%string then Some (default "" (l_head l))
  else None.
Definition set_field (field text : string) (t : time) (l : LayoutRow) : LayoutRow :=
  let pick f old := if (field =? f)%string then Some text else old in
  {| l_id := l_id l; l_name := l_name l; l_head := pick "head_content" (l_head l);
     l_before := pick "body_before_main" (l_before l); l_after := pick "body_after_main" (l_after l);
     l_template := l_template l; l_created := l_created l; l_updated := t |}.

Definition patch_layout args : LT Result :=
  let name := layout_name args in
  let patchesStr := arg_string "patches" args in
  guard_reject (negb (patchesStr =? "")%string) "patches is required (JSON array of {search, replace} pairs)";;
  patches ← or_reject match patches_of patchesStr with
                      | Ok ps => Ok ps
                      | Err e => Err ("patches must be a JSON array: " ++ e)
                      end;
  guard_reject (negb (bool_decide (patches = []))) "patches array is empty";;
  let field := let f := arg_string "field" args in if (f =? "")%string then "body_before_main" else f in
  l ← must_find_layout name;
  capture_layout l name "brain";;
  match field_text field l with
  | None => reject ("invalid field " ++ Quote field ++ " — use body_before_main, body_after_main, or head_content")
  | Some target =>
      let '(target, applied, notFound) := apply_patches patches target in
      if (applied =? 0)%nat && negb (bool_decide (notFound = [])) then
        mret {| Success := false; Data := Some (JObj [("not_found", strings_json notFound)]); Error := "no patches matched" |}
      else
        must_save "saving patched layout" (fun t s =>
          (tt, set_layouts (update_where (fun x => (l_id x =? l_id l)%Z) (set_field field target t) (lo_rows s)) s));;
        mret (success ([("applied", int (Z.of_nat applied)); ("field", JStr field); ("name", JStr name)]
                       ++ when (negb (bool_decide (notFound = []))) ("not_found", strings_json notFound))%list)
  end.

(** A NULL cannot be scanned into a string: the layout then counts as not found. *)
Definition get_layout args : LT Result :=
  let name := layout_name args in
  l ← must_find_layout name;
  match l_head l, l_before l, l_after l with
  | Some h, Some b, Some a =>
      mret (success [("body_after_main", JStr a); ("body_before_main", JStr b); ("created_at", JStr (time_text (l_created l)));
                     ("head_content", JStr h); ("name", JStr name); ("updated_at", JStr (time_text (l_updated l)))])
  | _, _, _ => reject ("layout " ++ Quote name ++ " not found")
  end.

Definition layout_entry (l : LayoutRow) : option json :=
  match l_before l, l_after l with
  | Some b, Some a =>
      Some (JObj [("created_at", JStr (time_text (l_created l))); ("name", JStr (l_name l));
                  ("size", int (sql_length b + sql_length a)); ("updated_at", JStr (time_text (l_updated l)))])
  | _, _ => None
  end.
Definition list_layouts args : LT Result :=
  r ← load (fun s => order_by l_name (lo_rows s));
  rows ← or_throw "listing layouts" r;
  let layouts := omap layout_entry rows in
  mret (success [("count", int (Z.of_nat (List.length layouts))); ("layouts", slice id layouts)]).

Definition layout_history args : LT Result :=
  let name := layout_name args in
  l ← must_find_layout name;
  r ← load (fun s => firstn 20 (descending lv_number (List.filter (of_layout (l_id l)) (lo_versions s))));
  rows ← or_throw "querying layout history" r;
  mret (success [("name", JStr name); ("versions", slice (fun v =>
    JObj [("changed_by", JStr (lv_by v)); ("created_at", JStr (time_text (lv_created v)));
          ("version", int (lv_number v))]) rows)]).

Definition revert_layout_to (v : LayoutVersion) (t : time) (l : LayoutRow) : LayoutRow :=
  layout_row (l_name l) (lv_head v) (lv_before v) (lv_after v) (l_id l) (l_created l) t.

Definition revert_layout args : LT Result :=
  let name := layout_name args in
  match version_arg args with
  | None => reject "version (number) is required"
  | Some version =>
      l ← must_find_layout name;
      rv ← load (find_layout_version (l_id l) version);
      match rv with
      | Ok (Some v) =>
          capture_layout l name "revert";;
          must_save "reverting layout" (fun t s =>
            (tt, set_layouts (update_where (fun x => (l_id x =? l_id l)%Z) (revert_layout_to v t) (lo_rows s)) s));;
          mret (success [("name", JStr name); ("restored_version", int version)])
      | _ => reject ("version " ++ Itoa version ++ " not found for layout " ++ Quote name)
      end
  end.

Definition layout_infer args : string :=
  if has_arg "patches" args then "patch"
  else if has_arg "version" args then "revert"
  else if has_arg "body_before_main" args || has_arg "body_after_main" args || has_arg "head_content" args then "save"
  else if has_arg "name" args then "get"
  else "list".

Definition LayoutTool_Execute args : LT Result :=
  dispatch [("save", save_layout); ("patch", patch_layout); ("get", get_layout); ("list", list_layouts);
            ("history", layout_history); ("revert", revert_layout)] (Some layout_infer) args.
End Layouts.

Definition LayoutTool_Summarize (result : string) : string :=
  match parseSummaryResult result with
  | None => summarizeTruncate result 200
  | Some (false, _, e) => summarizeError e
  | Some (true, Some (JObj m), _) =>
      "{" ++ Join ([(dq "'success':true,'layout':'" ++ arg_string "name" m ++ dq "'")%string]
                   ++ member_if (arg "layout_provides" m) (fun p => dq "'layout_provides':" ++ Marshal p)%string
                   ++ member_if (arg "warnings" m) (fun w => dq "'warnings':" ++ Marshal w)%string)%list "," ++ "}"
  | Some (true, _, _) => summarizeTruncate result 300
  end.

Section LayoutFacts.
Context `{E : Env} `{F : Formats} `{O : MapOrder}.
Implicit Types (s : LayoutStore) (args : Args).

(** The versions [vs] came first, and the layout of the name has the id. *)
Definition recalls (vs : list LayoutVersion) (name : string) (id : Z) s : Prop :=
  (exists l, lo_versions s = vs ++ l)%list /\ option_map l_id (find_layout name s) = Some id.

Lemma recalls_update vs name id key f s : (forall l, key l = true -> l_name (f l) = l_name l /\ l_id (f l) = l_id l) ->
  recalls vs name id s -> recalls vs name id (set_layouts (update_where key f (lo_rows s)) s).
Proof.
  intros Hf [Hv Hi]. split; [done|]. unfold find_layout in *. cbn [lo_rows set_layouts].
  rewrite find_update_where by (intros y Hy; unfold layout_named; by destruct (Hf y Hy) as [-> _]).
  destruct (List.find _ _) as [l|]; [|done]. cbn in *. destruct (key l) eqn:Hk; [|done]. by destruct (Hf l Hk) as [_ ->].
Qed.

Lemma find_layout_name name s l : find_layout name s = Some l -> l_name l = name.
Proof. intros [_ H]%find_some. by apply String.eqb_eq. Qed.

Lemma find_upsert_other name name' new upd s : name <> name' -> (forall n, l_name (new n) = name') ->
  (forall l, l_name (upd l) = name') -> find_layout name (set_layouts (snd (upsert (layout_named name') l_id new upd (lo_rows s))) s) = find_layout name s.
Proof.
  intros Hne Hn Hu. unfold find_layout, upsert. destruct (existsb _ _); cbn [snd lo_rows set_layouts].
  - rewrite find_update_where.
    + destruct (List.find _ _) as [l|] eqn:Hl; [|done]. cbn. apply find_some in Hl as [_ Hl%String.eqb_eq].
      unfold layout_named. by destruct (String.eqb_spec (l_name l) name'); [congruence|].
    + intros y Hy%String.eqb_eq. unfold layout_named. by rewrite Hu, Hy.
  - destruct (List.find (layout_named name) (lo_rows s)) as [l|] eqn:Hf; [by apply find_app_Some|].
    rewrite find_app_None by done. cbn. unfold layout_named. rewrite Hn. by destruct (String.eqb_spec name' name).
Qed.

Lemma find_upsert_same name new upd s l : find_layout name s = Some l -> (forall x, l_name (upd x) = name) ->
  find_layout name (set_layouts (snd (upsert (layout_named name) l_id new upd (lo_rows s))) s) = Some (upd l).
Proof.
  intros Hl Hu. unfold find_layout, upsert in *. assert (existsb (layout_named name) (lo_rows s) = true) as ->.
  { apply existsb_exists. by exists l; apply find_some in Hl. }
  cbn [snd lo_rows set_layouts]. rewrite find_update_where.
  - rewrite Hl. cbn. by apply find_some in Hl as [_ ->].
  - intros y Hy. rewrite Hy. unfold layout_named. by rewrite Hu, String.eqb_refl.
Qed.

Lemma recalls_save vs name id name' h b a t s : recalls vs name id s -> recalls vs name id (save_layout_row name' h b a t s).
Proof.
  intros [Hv Hi]. split; [done|]. unfold save_layout_row. destruct (find_layout name s) as [l|] eqn:Hl; [|done].
  destruct (decide (name = name')) as [<-|Hne].
  - by rewrite (find_upsert_same _ _ _ _ _ Hl).
  - by rewrite find_upsert_other, Hl.
Qed.

Lemma recalls_capture vs name id l n b : keeps (recalls vs name id) (capture_layout l n b) (fun _ => True).
Proof.
  unfold capture_layout. keep_tac. match goal with H : recalls _ _ _ _ |- _ => destruct H as [[r Hr] Hi] end. split; [|done].
  eexists. cbn [lo_versions]. by rewrite Hr, <- app_assoc.
Qed.

Lemma recalls_find vs name id n : keeps (recalls vs name id) (must_find_layout n) (fun _ => True).
Proof. unfold must_find_layout. keep_tac. Qed.
#[local] Hint Resolve recalls_capture recalls_find : keeps.

Lemma recalls_call vs name id args : keeps (recalls vs name id) (LayoutTool_Execute args) (fun _ => True).
Proof.
  apply keeps_dispatch. intros h f Hin args'.
  repeat destruct Hin as [[= <- <-]|Hin]; [..|done];
    unfold save_layout, patch_layout, get_layout, list_layouts, layout_history, revert_layout; keep_tac; cbn [snd];
    first [by apply recalls_save | by apply recalls_update].
Qed.

Definition layout_calls (l : list Args) (c : Ctx LayoutStore) : Ctx LayoutStore :=
  fold_left (fun c args => snd (outcome_of (LayoutTool_Execute args) c)) l c.

Lemma recalls_calls vs name id l : forall c, recalls vs name id (cs c) -> recalls vs name id (cs (layout_calls l c)).
Proof.
  induction l as [|a l IH]; intros c Hc; [done|]. cbn. apply IH. by eapply keeps_outcome; [apply recalls_call|].
Qed.

(** ** Saving and reverting *)

Context `{K : !Calm}.

Lemma wp_must_find s name l (Q : LayoutRow -> LayoutStore -> Prop) X : find_layout name s = Some l -> Q l s ->
  wp s (must_find_layout name) Q X.
Proof. intros Hl H. unfold must_find_layout. apply wp_bind, wp_load_calm. rewrite Hl. by apply wp_ret. Qed.

Definition with_version (v : LayoutVersion) s : LayoutStore := {| lo_rows := lo_rows s; lo_versions := (lo_versions s ++ [v])%list |}.

Lemma wp_capture_layout s l name b (Q : unit -> LayoutStore -> Prop) X :
  (forall t, Q tt (with_version (version_of_layout l name b (max_layout_version (l_id l) s + 1) t) s)) ->
  wp s (capture_layout l name b) Q X.
Proof. intros H. unfold capture_layout. apply wp_bind, wp_load_calm, wp_bind, wp_save__calm. intros t. apply wp_ret, H. Qed.

(** What a save of the layout [l] leaves: its old state in the history. *)
Definition saved_over args l s s' : Prop := exists t t' h b a,
  s' = save_layout_row (l_name l) h b a t' (with_version (version_of_layout l (l_name l) "brain" (max_layout_version (l_id l) s + 1) t) s).

Lemma wp_save_layout s args l : arg_string "name" args = l_name l -> l_name l <> "" -> find_layout (l_name l) s = Some l ->
  wp s (save_layout args) (fun r s' => Success r = true /\ saved_over args l s s') (fun _ _ => False).
Proof.
  intros Hn Hne Hl. unfold save_layout. rewrite Hn. apply wp_bind, wp_guard.
  2: { by intros Hx%negb_false_iff%String.eqb_eq. }
  intros _. destruct (clean_fields _ _ _) as [[[h b] a] ws]. apply wp_bind, wp_load_calm. rewrite Hl. cbv zeta.
  apply wp_bind, wp_capture_layout. intros t. eapply wp_bind, wp_must_save_calm. intros t'. apply wp_ret. split; [done|].
  by eexists t, t', _, _, _.
Qed.

Lemma wp_revert_layout s args name l n v : layout_name args = name -> version_arg args = Some n ->
  find_layout name s = Some l -> find_layout_version (l_id l) n s = Some v ->
  wp s (revert_layout args)
    (fun r s' => Success r = true /\ exists t w, s' = set_layouts (update_where (fun x => (l_id x =? l_id l)%Z) (revert_layout_to v t) (lo_rows s))
                                                   (with_version w s))
    (fun _ _ => False).
Proof.
  intros Hname Hn Hl Hv. unfold revert_layout. rewrite Hname, Hn. eapply wp_bind, wp_must_find; [done|].
  apply wp_bind, wp_load_calm. rewrite Hv. apply wp_bind, wp_capture_layout. intros t.
  eapply wp_bind, wp_must_save_calm. intros t'. apply wp_ret. split; [done|]. by eexists _, _.
Qed.

Lemma max_layout_version_le id s v : In v (lo_versions s) -> lv_layout v = id -> (lv_number v <= max_layout_version id s)%Z.
Proof.
  intros Hv Hi. apply fold_max_le, in_map_iff. exists v. split; [done|]. apply filter_In. split; [done|]. by apply Z.eqb_eq.
Qed.

Lemma find_layout_version_new s v l n id s' : lo_versions s' = ((lo_versions s ++ [v]) ++ l)%list -> lv_layout v = id ->
  lv_number v = n -> (max_layout_version id s < n)%Z -> find_layout_version id n s' = Some v.
Proof.
  intros Hs Hv Hn Hm. unfold find_layout_version. rewrite Hs. apply find_app_Some. rewrite find_app_None.
  - cbn. unfold of_layout. by rewrite Hv, Hn, !Z.eqb_refl.
  - destruct (List.find _ _) as [w|] eqn:Hf; [|done]. exfalso.
    apply find_some in Hf as [Hin [Hi%Z.eqb_eq Hw%Z.eqb_eq]%andb_prop]. pose proof (max_layout_version_le _ _ _ Hin Hi). lia.
Qed.

(** A layout that was saved over can be had back.  The save of a layout that is
    there succeeds; after any further calls of the tool, a revert to the number its
    old state got succeeds too, and the layout has the old head and bodies again. *)
Theorem saved_layout_recovered args l c cl args' :
  find_layout (l_name l) (cs c) = Some l -> l_name l <> "" ->
  arg_string "name" args = l_name l -> arg_string "name" args' = l_name l ->
  version_arg args' = Some (max_layout_version (l_id l) (cs c) + 1)%Z ->
  let '(x, c0) := outcome_of (save_layout args) c in
  let '(x', c2) := outcome_of (revert_layout args') (layout_calls cl c0) in
  (exists r r', x = Returned r /\ x' = Returned r' /\ Success r = true /\ Success r' = true) /\
  exists q, find_layout (l_name l) (cs c2) = Some q /\
    (l_head q, l_before q, l_after q) = (l_head l, l_before l, l_after l).
Proof.
  intros Hl Hne Ha Ha' Hn. pose proof (wp_save_layout _ _ _ Ha Hne Hl c eq_refl) as Hs. unfold outcome_of.
  destruct (save_layout args c) as [[r|x] c0]; [|done]. destruct Hs as (Hok & t & t' & h & b & a & Hs).
  set (v := version_of_layout l (l_name l) "brain" (max_layout_version (l_id l) (cs c) + 1) t) in Hs.
  assert (recalls (lo_versions (cs c) ++ [v])%list (l_name l) (l_id l) (cs c0)) as Hr.
  { rewrite Hs. apply recalls_save. split; [exists []; by rewrite app_nil_r|]. unfold find_layout in *. cbn. by rewrite Hl. }
  apply (recalls_calls _ _ _ cl) in Hr as [[l' Hv] Hi]. destruct (find_layout (l_name l) (cs (layout_calls cl c0))) as [q1|] eqn:Hq1; [|done].
  injection Hi as Hi. assert (find_layout_version (l_id q1) (max_layout_version (l_id l) (cs c) + 1) (cs (layout_calls cl c0)) = Some v) as Hfv.
  { rewrite Hi. eapply find_layout_version_new; [exact Hv|done|done|lia]. }
  assert (layout_name args' = l_name l) as Hname. { unfold layout_name. rewrite Ha'. by destruct (String.eqb_spec (l_name l) ""). }
  pose proof (wp_revert_layout _ _ _ _ _ _ Hname Hn Hq1 Hfv (layout_calls cl c0) eq_refl) as Hw.
  destruct (revert_layout args' (layout_calls cl c0)) as [[r'|x] c2]; [|done]. destruct Hw as (Hok' & t2 & w & ->).
  split; [by exists r, r'|]. exists (revert_layout_to v t2 q1). split; [|done]. unfold find_layout in *. cbn.
  rewrite find_update_where by done. rewrite Hq1. cbn. by rewrite Z.eqb_refl.
Qed.
End LayoutFacts.

(** ** What the cleaning takes away *)

(** The expression for the tags of the document also matches [<header>]: the header
    of a layout loses its tags, and the answer says that there is none. *)
Example header_tags_lost :
  fst (clean_fields "" "<header class=top><nav>Menu</nav></header>" "") = ("", "<nav>Menu</nav>", "").
Proof. vm_compute. reflexivity. Qed.

Module LayoutSample.
Definition old : LayoutRow :=
  {| l_id := 1; l_name := "default"; l_head := Some ""; l_before := Some "<nav>a</nav>"; l_after := Some ""; l_template := None;
     l_created := 0; l_updated := 0 |}.
Definition start : Ctx LayoutStore := {| cw := new_world; cs := {| lo_rows := [old]; lo_versions := [] |} |}.
Definition save_args : Args := [("action", JStr "save"); ("name", JStr "default"); ("body_before_main", JStr "<nav>b</nav>")].
Definition patch_args : Args := [("action", JStr "patch"); ("patches", JStr (dq "[{'search':'b','replace':'c'}]"))].
Definition revert_args : Args := [("action", JStr "revert"); ("name", JStr "default"); ("version", int 1)].
End LayoutSample.
Import PageSample.

Lemma saved_layout_recovered_witness :
  let '(x, c0) := outcome_of (save_layout LayoutSample.save_args) LayoutSample.start in
  let '(x', c2) := outcome_of (revert_layout LayoutSample.revert_args) (layout_calls [LayoutSample.patch_args] c0) in
  (exists r r', x = Returned r /\ x' = Returned r' /\ Success r = true /\ Success r' = true) /\
  exists q, find_layout "default" (cs c2) = Some q /\ (l_head q, l_before q, l_after q) = (Some "", Some "<nav>a</nav>", Some "").
Proof.
  by apply (saved_layout_recovered LayoutSample.save_args LayoutSample.old LayoutSample.start [LayoutSample.patch_args] LayoutSample.revert_args).
Defined.
