(* ===== verification/PageParts.v ===== *)
(** * Parts of a served page

    The functions of server/public/handler.go that take a page's content apart:
    which tags load its styles and scripts, what belongs to the document and not to
    the page, and the escaping of texts.  Taking a page apart loses nothing: every byte
    is in a tag that was taken out or in what is left, in its order. *)

From Stdlib Require Import ZArith Lia Ascii String List Bool.
From stdpp Require Import base list strings gmap.
From S2P Require Import Prelude GoStrings Regex JSONText PageText.

Local Open Scope string_scope.

(** ** Expressions *)

Definition up_to_gt : re := star (Cls (none_of ">")).
(** [<name[\s>].*</name>] with the flags s and U: up to the first end tag. *)
Definition block_re (name : string) : re :=
  seq_of [lit_i ("<" ++ name); Cls (fun a => white a || Ascii.eqb a ">"); star_lazy anything; lit_i ("</" ++ name ++ ">")].
Definition open_re (name : string) : re := seq_of [lit_i ("<" ++ name); up_to_gt; lit ">"].
Definition close_re (name : string) : re := seq_of [lit_i ("</" ++ name); spaces; lit ">"].

Definition cssLinkRe : re :=
  seq_of [lit_i "<link"; up_to_gt; lit_i "rel="; Cls (one_of quotes); lit_i "stylesheet"; Cls (one_of quotes); up_to_gt;
          opt (lit "/"); lit ">"].
Definition styleBlockRe : re := block_re "style".
Definition scriptBlockRe : re := block_re "script".
Definition scriptSelfCloseRe : re := seq_of [lit_i "<script"; up_to_gt; lit "/"; spaces; lit ">"].
Definition scriptOpenTagRe : re := open_re "script".
Definition scriptSrcRe : re := seq_of [WordB; lit_i "src"; spaces; lit "="].
Definition attr_re (name : string) : re :=
  seq_of [lit_i name; equals; Cls (one_of quotes); Grp 1 (plus (Cls (none_of quotes))); Cls (one_of quotes)].
Definition hrefAttrRe : re := attr_re "href".
Definition srcAttrRe : re := attr_re "src".

Definition doctypeRe : re := open_re "!DOCTYPE".
Definition htmlOpenRe : re := open_re "html".
Definition htmlCloseRe : re := close_re "html".
Definition headBlockRe : re := block_re "head".
Definition bodyOpenRe : re := open_re "body".
Definition bodyCloseRe : re := close_re "body".
Definition navBlockRe : re := block_re "nav".
Definition footBlockRe : re := block_re "footer".

(** ** Matches and what becomes of them *)

(** The text of a match: what lies between its beginning and its end. *)
Definition matched (s : string) (b : string) (h : here) : string :=
  let from := drop_str (String.length b) s in take_str (String.length from - String.length (rest h)) from.

Fixpoint texts_of (l : list (string * here)) (s : string) : list string :=
  match l with
  | [] => []
  | (b, h) :: r => matched s b h :: texts_of r (rest h)
  end.
Fixpoint rebuild (f : string -> string) (l : list (string * here)) (s t : string) : string :=
  match l with
  | [] => t
  | (b, h) :: r => b ++ f (matched s b h) ++ rebuild f r (rest h) t
  end.

Definition all_pieces (r : re) (s : string) : list (string * here) * string := pieces (S (String.length s)) r None s.
(** [re.FindAllString(s, -1)] *)
Definition FindAllString (r : re) (s : string) : list string := texts_of (fst (all_pieces r s)) s.
(** [re.ReplaceAllStringFunc(s, f)] *)
Definition ReplaceAllStringFunc (r : re) (f : string -> string) (s : string) : string :=
  let '(l, t) := all_pieces r s in rebuild f l s t.
(** [re.FindString(s)] *)
Definition FindString (r : re) (s : string) : string :=
  match find r None s with Some (b, h) => matched s b h | None => "" end.
(** The first group of the first match. *)
Definition first_group (r : re) (s : string) : string :=
  match find r None s with Some (_, h) => group 1 h | None => "" end.

Definition extractHref (tag : string) : string := first_group hrefAttrRe tag.
Definition extractSrc (tag : string) : string := first_group srcAttrRe tag.
Definition isExternalScript (block : string) : bool :=
  let openTag := FindString scriptOpenTagRe block in
  if (openTag =? "")%string then false else MatchString scriptSrcRe openTag.
Definition extractScriptSrc (block : string) : string :=
  let openTag := FindString scriptOpenTagRe block in
  if (openTag =? "")%string then "" else extractSrc openTag.

Fixpoint dedup_from (seen : list string) (l : list string) : list string :=
  match l with
  | [] => []
  | s :: r => if existsb (String.eqb s) seen then dedup_from seen r else s :: dedup_from (s :: seen) r
  end.
Definition dedupStrings (l : list string) : list string := dedup_from [] l.

(** ** Styles and scripts *)

(** The matches of [r] taken out: they, and what is left. *)
Definition take_out (r : re) (s : string) : list string * string := (FindAllString r s, ReplaceAllStringFunc r (fun _ => "") s).

Definition newline : string := s1 (byte_of 10).

(** The tags for the head, those for the end of the body, and the rest. *)
Definition extract_lists (content : string) : list string * list string * string :=
  let '(links, content) := take_out cssLinkRe content in
  let '(styles, content) := take_out styleBlockRe content in
  let '(scripts, content) := take_out scriptBlockRe content in
  let '(closed, content) := take_out scriptSelfCloseRe content in
  ((links ++ styles)%list, (scripts ++ closed)%list, content).
Definition extractAssetTags (content : string) : string * string * string :=
  let '(head, bodyEnd, clean) := extract_lists content in (Join head newline, Join bodyEnd newline, clean).

(** [json.Unmarshal] into a slice of strings. *)
Definition filenames_of (text : string) : list string :=
  match Unmarshal text with
  | Ok j => match dec_string_list (Some j) with Ok l => l | Err _ => [] end
  | Err _ => []
  end.
Definition is_ext (ext fn : string) : bool := HasSuffix (ToLower fn) ext.
Definition trimmed_names (text : string) : list string :=
  List.filter (fun fn => negb (fn =? "")%string) (map TrimSpace (filenames_of text)).
Definition asset_url (fn : string) : string := "/assets/" ++ fn.
Definition css_names (l : list string) : list string := List.filter (is_ext ".css") l.
Definition js_names (l : list string) : list string := List.filter (fun fn => negb (is_ext ".css" fn) && is_ext ".js" fn) l.
Definition parsePageAssetURLs (assetsJSON : string) : list string * list string :=
  let l := trimmed_names assetsJSON in (map asset_url (css_names l), map asset_url (js_names l)).

Definition not_empty (l : list string) : list string := List.filter (fun s => negb (s =? "")%string) l.

(** The content for the router in the browser, with the addresses of styles and scripts. *)
Definition stripForSPA (content : string) : string * list string * list string :=
  let cssURLs := not_empty (map extractHref (FindAllString cssLinkRe content)) in
  let content := remove_all cssLinkRe content in
  let external := List.filter isExternalScript (FindAllString scriptBlockRe content) in
  let jsURLs := not_empty (map extractScriptSrc external) in
  let content := ReplaceAllStringFunc scriptBlockRe (fun m => if isExternalScript m then "" else m) content in
  let jsURLs2 := not_empty (map extractSrc (FindAllString scriptSelfCloseRe content)) in
  let content := remove_all scriptSelfCloseRe content in
  (TrimSpace content, cssURLs, (jsURLs ++ jsURLs2)%list).

(** ** The document's own tags *)

Definition rescued (content : string) : list string :=
  List.concat (map (fun h => (FindAllString cssLinkRe h ++ FindAllString styleBlockRe h ++ FindAllString scriptBlockRe h)%list)
                 (FindAllString headBlockRe content)).
Definition stripDocumentShell (content : string) : string :=
  let lower := ToLower content in
  if negb (Contains lower "<!doctype") && negb (Contains lower "<html") then content
  else
    let saved := rescued content in
    let content := remove_all bodyCloseRe (remove_all bodyOpenRe (remove_all htmlCloseRe (remove_all htmlOpenRe
                     (remove_all headBlockRe (remove_all doctypeRe content))))) in
    TrimSpace (match saved with [] => content | _ => Join saved newline ++ newline ++ content end).

(** [stripSharedAssetRefs] for the names of the site's assets. *)
Definition names_asset (names : list string) (match_ : string) : bool :=
  existsb (fun name => Contains (ToLower match_) ("/assets/" ++ name)) names.
Definition strip_asset_refs (names : list string) (content : string) : string :=
  match names with
  | [] => content
  | _ =>
      let content := ReplaceAllStringFunc cssLinkRe (fun m => if names_asset names m then "" else m) content in
      let content := ReplaceAllStringFunc scriptBlockRe
                       (fun m => if isExternalScript m && names_asset names m then "" else m) content in
      ReplaceAllStringFunc scriptSelfCloseRe (fun m => if names_asset names m then "" else m) content
  end.

(** ** Escaping *)

(** [html.EscapeString] *)
Definition escape_byte (a : ascii) : string :=
  if Ascii.eqb a "&" then "&amp;"
  else if Ascii.eqb a "'" then "&#39;"
  else if Ascii.eqb a "<" then "&lt;"
  else if Ascii.eqb a ">" then "&gt;"
  else if Ascii.eqb a double then "&#34;"
  else s1 a.
Fixpoint EscapeString (s : string) : string :=
  match s with EmptyString => "" | String a r => escape_byte a ++ EscapeString r end.

Definition bytes : string -> list ascii := list_ascii_of_string.
Definition all_of (l : list string) : list ascii := List.concat (map bytes l).

Lemma bytes_append s t : bytes (s ++ t) = (bytes s ++ bytes t)%list.
Proof. unfold bytes. induction s as [|a s IH]; [done|]. rewrite append_cons. cbn. by rewrite IH. Qed.
Lemma all_of_app l l' : all_of (l ++ l')%list = (all_of l ++ all_of l')%list.
Proof. unfold all_of. by rewrite map_app, concat_app. Qed.

(** The text is one the expression matches, where it stands. *)
Definition is_match (r : re) (t : string) : Prop := exists h h', Match r h h' /\ rest h = t ++ rest h'.

Lemma matched_append b t e h : rest h = e -> matched (b ++ t ++ e) b h = t.
Proof. intros H. unfold matched. rewrite drop_append, H, length_append, Nat.add_sub. apply take_append. Qed.

Lemma find_match r : forall s p b h, find r p s = Some (b, h) -> exists t, s = b ++ t ++ rest h /\ is_match r t.
Proof.
  induction s as [|a s IH]; intros p b h; cbn [find]; destruct (match_at r p _) eqn:Hm; intros Hf; try done.
  1,2: simplify_eq; apply match_at_Some in Hm; destruct (Match_suffix _ _ _ Hm) as (t & Ht & _); exists t;
    split; [exact Ht|by eexists _, _].
  destruct (find r (Some a) s) as [[b' h']|] eqn:Hf'; [|done]. simplify_eq.
  destruct (IH _ _ _ Hf') as (t & -> & H). by exists t.
Qed.
Lemma find_matched r s p b h : find r p s = Some (b, h) -> s = b ++ matched s b h ++ rest h /\ is_match r (matched s b h).
Proof. intros (t & -> & Ht)%find_match. by rewrite !matched_append. Qed.

Lemma pieces_match r fuel : forall p s, Forall (is_match r) (texts_of (fst (pieces fuel r p s)) s).
Proof.
  induction fuel as [|n IH]; intros p s; cbn [pieces]; [constructor|]. destruct (find r p s) as [[b h]|] eqn:Hf; [|constructor].
  specialize (IH (prev h) (rest h)). destruct (pieces n r (prev h) (rest h)) as [l t]. constructor; [by apply find_matched in Hf as [_ Hf]|done].
Qed.
Lemma rebuild_same r fuel : forall p s, rebuild (fun m => m) (fst (pieces fuel r p s)) s (snd (pieces fuel r p s)) = s.
Proof.
  induction fuel as [|n IH]; intros p s; cbn [pieces]; [done|]. destruct (find r p s) as [[b h]|] eqn:Hf; [|done].
  specialize (IH (prev h) (rest h)). destruct (pieces n r (prev h) (rest h)) as [l t]. cbn [fst snd rebuild] in *. rewrite IH.
  by apply find_matched in Hf as [Hf _].
Qed.

(** Replacing every match by itself changes nothing. *)
Lemma ReplaceAll_same r s : ReplaceAllStringFunc r (fun m => m) s = s.
Proof.
  unfold ReplaceAllStringFunc, all_pieces. pose proof (rebuild_same r (S (String.length s)) None s) as H. by destruct (pieces _ _ _ _).
Qed.

Lemma rebuild_parts (f : string -> string) r fuel : (forall m, f m = "" \/ f m = m) -> forall p s,
  let l := fst (pieces fuel r p s) in
  sublist (bytes (rebuild f l s (snd (pieces fuel r p s)))) (bytes s) /\
  bytes s ≡ₚ (all_of (List.filter (fun m => f m =? "")%string (texts_of l s)) ++ bytes (rebuild f l s (snd (pieces fuel r p s))))%list.
Proof.
  intros Hf. induction fuel as [|n IH]; intros p s; cbn [pieces]; [done|]. destruct (find r p s) as [[b h]|] eqn:Hm; [|done].
  specialize (IH (prev h) (rest h)). destruct (pieces n r (prev h) (rest h)) as [l t]. cbn [fst snd rebuild texts_of List.filter] in *.
  destruct IH as [I1 I2]. apply find_matched in Hm as [Hs _]. set (m := matched s b h) in *. clearbody m. subst s. rewrite !bytes_append. split.
  - apply sublist_app; [done|]. apply sublist_app; [|done]. destruct (Hf m) as [->| ->]; [apply sublist_nil_l|done].
  - destruct (String.eqb_spec (f m) "") as [He|He].
    + rewrite He. cbn [bytes list_ascii_of_string app]. unfold all_of. cbn [map List.concat]. fold (all_of (List.filter (fun m => (f m =? "")%string) (texts_of l (rest h)))).
      rewrite I2, Permutation_app_swap_app, <- app_assoc. f_equiv. apply Permutation_app_swap_app.
    + destruct (Hf m) as [|Hm]; [done|]. rewrite Hm, I2, (Permutation_app_swap_app (bytes m)). apply Permutation_app_swap_app.
Qed.

(** One kind of tag taken out. *)
Lemma take_out_spec r s : let '(tags, left_) := take_out r s in
  Forall (is_match r) tags /\ sublist (bytes left_) (bytes s) /\ bytes s ≡ₚ (all_of tags ++ bytes left_)%list.
Proof.
  unfold take_out, FindAllString, ReplaceAllStringFunc, all_pieces.
  pose proof (pieces_match r (S (String.length s)) None s) as H1.
  pose proof (rebuild_parts (fun _ => "") r (S (String.length s)) ltac:(by left) None s) as [H2 H3].
  destruct (pieces _ _ _ _) as [l t]. cbn [fst snd] in *. split_and!; [done..|]. rewrite H3. f_equiv.
  by rewrite (forallb_filter_id _ (texts_of l s)) by (by apply forallb_forall).
Qed.

(** Taking the styles and scripts out of a page loses nothing.  The tags for the
    head are styles' links and styles, those for the end of the body are scripts;
    every byte of the content is in one of them or in what is left, as often as it
    was; and what is left stands in its order. *)
Theorem extraction_loses_nothing content :
  let '(head, bodyEnd, clean) := extract_lists content in
  Forall (fun t => is_match cssLinkRe t \/ is_match styleBlockRe t) head /\
  Forall (fun t => is_match scriptBlockRe t \/ is_match scriptSelfCloseRe t) bodyEnd /\
  sublist (bytes clean) (bytes content) /\
  bytes content ≡ₚ (all_of head ++ all_of bodyEnd ++ bytes clean)%list.
Proof.
  unfold extract_lists. pose proof (take_out_spec cssLinkRe content) as H1. destruct (take_out cssLinkRe content) as [links c1].
  pose proof (take_out_spec styleBlockRe c1) as H2. destruct (take_out styleBlockRe c1) as [styles c2].
  pose proof (take_out_spec scriptBlockRe c2) as H3. destruct (take_out scriptBlockRe c2) as [scripts c3].
  pose proof (take_out_spec scriptSelfCloseRe c3) as H4. destruct (take_out scriptSelfCloseRe c3) as [closed c4].
  destruct H1 as (M1 & S1 & P1), H2 as (M2 & S2 & P2), H3 as (M3 & S3 & P3), H4 as (M4 & S4 & P4). split_and!.
  - apply Forall_app_2; eapply Forall_impl; [exact M1|by left|exact M2|by right].
  - apply Forall_app_2; eapply Forall_impl; [exact M3|by left|exact M4|by right].
  - by rewrite S4, S3, S2.
  - by rewrite P1, P2, P3, P4, !all_of_app, !app_assoc.
Qed.

(** The content of a page with a style, a script and a paragraph. *)
Example extracted_example : extract_lists "<style >p{}</style><p>hi</p><script >f()</script>" =
  (["<style >p{}</style>"], ["<script >f()</script>"], "<p>hi</p>").
Proof. vm_compute. reflexivity. Qed.
