(* ===== verification/HttpTool.v ===== *)
(** * tools/http.go: make_http_request

    Requests to the outside, with the check that keeps them away from internal
    addresses.  Name resolution, the HTTP client, the XML decoder and the HTML
    tokenizer are parameters; answers of the network may change from one
    operation to the next. *)

From Stdlib Require Import ZArith Lia Ascii String List Bool.
From stdpp Require Import base list strings gmap.
From S2P Require Import Prelude GoStrings GoTime JSONText Security World ToolCore SiteTables ToolMonad PageText Pages.

Local Open Scope string_scope.

Record URL := { u_scheme : string; u_hostname : string; u_path : string }.
Record HttpReq := { rq_method : string; rq_url : string; rq_set : list (string * string); rq_content : option string }.
Record HttpResp := { rs_code : Z; rs_status : string; rs_headers : gmap string (list string); rs_body : res string string }.

(** The structures [encoding/xml] decodes a feed into: RSS, and Atom, whose links
    are addresses with their relation. *)
Record rssItem := { ri_title : string; ri_link : string; ri_description : string; ri_pubDate : string }.
Record rssChannel := { rc_title : string; rc_link : string; rc_description : string; rc_items : list rssItem }.
Record atomEntry := {
  ae_title : string; ae_links : list (string * string); ae_summary : string; ae_content : string; ae_updated : string;
}.
Record atomFeed := { af_title : string; af_links : list (string * string); af_entries : list atomEntry }.

Inductive token := StartTag (n : string) | EndTag (n : string) | TextTok (s : string).

Class Net := {
  url_parse : string -> res string URL;
  lookup_host : nat -> string -> res string (list string);
  parse_ip : string -> option (list Z);               (* the sixteen bytes *)
  new_request : string -> string -> option string;    (* the error of [http.NewRequest] *)
  http_do : nat -> HttpReq -> res string HttpResp;     (* redirects followed *)
  parse_rss : string -> option rssChannel;
  parse_atom : string -> option atomFeed;
  html_tokens : string -> list token;
}.

(** What a tool that uses the network keeps: how many operations there were, and
    the addresses requested. *)
Class Online (S : Type) := { net_now : S -> nat; net_note : option string -> S -> S }.

(** ** Addresses *)

(** [To4]: the last four bytes of an address mapped from IPv4. *)
Definition To4 (ip : list Z) : option (list Z) :=
  if bool_decide (firstn 12 ip = [0; 0; 0; 0; 0; 0; 0; 0; 0; 0; 255; 255]%Z) then Some (skipn 12 ip) else None.
Definition octet (n : nat) (ip : list Z) : Z := nth n ip 0%Z.

Definition IsLoopback (ip : list Z) : bool :=
  match To4 ip with
  | Some v4 => (octet 0 v4 =? 127)%Z
  | None => bool_decide (ip = [0; 0; 0; 0; 0; 0; 0; 0; 0; 0; 0; 0; 0; 0; 0; 1]%Z)
  end.
Definition IsPrivate (ip : list Z) : bool :=
  match To4 ip with
  | Some v4 => (octet 0 v4 =? 10)%Z || (octet 0 v4 =? 172)%Z && (Z.land (octet 1 v4) 240 =? 16)%Z
               || (octet 0 v4 =? 192)%Z && (octet 1 v4 =? 168)%Z
  | None => (List.length ip =? 16)%nat && (Z.land (octet 0 ip) 254 =? 252)%Z
  end.
Definition IsLinkLocalUnicast (ip : list Z) : bool :=
  match To4 ip with
  | Some v4 => (octet 0 v4 =? 169)%Z && (octet 1 v4 =? 254)%Z
  | None => (List.length ip =? 16)%nat && (octet 0 ip =? 254)%Z && (Z.land (octet 1 ip) 192 =? 128)%Z
  end.
Definition IsLinkLocalMulticast (ip : list Z) : bool :=
  match To4 ip with
  | Some v4 => (octet 0 v4 =? 224)%Z && (octet 1 v4 =? 0)%Z && (octet 2 v4 =? 0)%Z
  | None => (List.length ip =? 16)%nat && (octet 0 ip =? 255)%Z && (Z.land (octet 1 ip) 15 =? 2)%Z
  end.
Definition IsUnspecified (ip : list Z) : bool :=
  match To4 ip with
  | Some v4 => bool_decide (v4 = [0; 0; 0; 0]%Z)
  | None => bool_decide (ip = repeat 0%Z 16)
  end.
Definition isPrivateIP (ip : list Z) : bool :=
  IsLoopback ip || IsPrivate ip || IsLinkLocalUnicast ip || IsLinkLocalMulticast ip || IsUnspecified ip.

Section Http.
Context {S : Type} `{N : Net} `{L : !Online S}.
Context `{E : Env} `{F : Formats} `{O : MapOrder}.

(** A use of the network: its number, and the address if it is a request. *)
Definition net_op (url : option string) : T S nat := fun c =>
  (Ok (net_now (cs c)), {| cw := cw c; cs := net_note url (cs c) |}).

Fixpoint check_ips (ips : list string) : option string :=
  match ips with
  | [] => None
  | ipStr :: r =>
      match parse_ip ipStr with
      | None => Some ("unparseable resolved IP " ++ Quote ipStr)
      | Some ip => if isPrivateIP ip then Some ("resolved to private/internal IP " ++ ipStr) else check_ips r
      end
  end.

(** The error, if the address is refused. *)
Definition validateExternalURL (rawURL : string) : T S (option string) :=
  match url_parse rawURL with
  | Err e => mret (Some ("invalid URL: " ++ e))
  | Ok u =>
      let scheme := ToLower (u_scheme u) in
      if negb ((scheme =? "http")%string || (scheme =? "https")%string) then
        mret (Some ("scheme " ++ Quote scheme ++ " not allowed (only http/https)"))
      else if (u_hostname u =? "")%string then mret (Some "empty hostname")
      else
        n ← net_op None;
        mret match lookup_host n (u_hostname u) with
             | Err e => Some ("cannot resolve " ++ Quote (u_hostname u) ++ ": " ++ e)
             | Ok ips => check_ips ips
             end
  end.

(** ** The answer *)

(** [domain] is the site's, when it can be read. *)
Definition resolveLocalURL (domain : option string) (path : string) : string :=
  match domain with
  | Some d => if (d =? "")%string || (d =? "localhost")%string then "http://localhost:5000" ++ path
              else "https://" ++ d ++ path
  | None => "http://localhost:5000" ++ path
  end.

Definition truncate (s : string) (max : nat) : string :=
  if (String.length s <=? max)%nat then s else take_str max s ++ "...".

Definition stripHTMLTags (s : string) : string :=
  TrimSpace (String.concat "" (omap (fun t => match t with TextTok x => Some x | _ => None end) (html_tokens s))).

Definition is_skipped (tag : string) : bool := is_in ["script"; "style"; "noscript"] tag.
Fixpoint text_tokens (l : list token) (skip : nat) : string :=
  match l with
  | [] => ""
  | StartTag n :: r => text_tokens r (if is_skipped n then Datatypes.S skip else skip)
  | EndTag n :: r => text_tokens r (if is_skipped n then Nat.pred skip else skip)
  | TextTok s :: r => (if (skip =? 0)%nat then s ++ " " else "") ++ text_tokens r skip
  end.
Definition extractText (html : string) : string := cut_at 50000 (Join (Fields (text_tokens (html_tokens html) 0)) " ").

Definition maxFeedItems : nat := 50.
Definition maxFeedDescLen : nat := 500.

(** The link that is none of another relation. *)
Definition alternate_link (links : list (string * string)) : string :=
  match List.find (fun l => (snd l =? "")%string || (snd l =? "alternate")%string) links with
  | Some l => fst l
  | None => ""
  end.
Definition item_json (title link desc date : string) : json :=
  JObj ([("title", JStr title); ("link", JStr link); ("description", JStr desc)]
        ++ if (date =? "")%string then [] else [("pub_date", JStr date)])%list.
Definition feed_json (title link desc : string) (items : list json) : json :=
  JObj [("title", JStr title); ("link", JStr link); ("description", JStr desc);
        ("items", match items with [] => JNull | _ => JArr items end)].

Definition rss_json (f : rssChannel) : json :=
  feed_json (rc_title f) (rc_link f) (truncate (rc_description f) maxFeedDescLen)
    (map (fun e => item_json (ri_title e) (ri_link e) (truncate (stripHTMLTags (ri_description e)) maxFeedDescLen) (ri_pubDate e))
       (firstn maxFeedItems (rc_items f))).
Definition atom_json (f : atomFeed) : json :=
  feed_json (af_title f) (alternate_link (af_links f)) ""
    (map (fun e => item_json (ae_title e) (alternate_link (ae_links e))
                     (truncate (stripHTMLTags (if (ae_summary e =? "")%string then ae_content e else ae_summary e)) maxFeedDescLen)
                     (ae_updated e))
       (firstn maxFeedItems (af_entries f))).

(** A document without a title is none of its kind. *)
Definition titled {A} (title : A -> string) (o : option A) : option A :=
  match o with Some a => if (title a =? "")%string then None else Some a | None => None end.
Definition parseRSSOrAtomFeed (data : string) : res string json :=
  match titled rc_title (parse_rss data), titled af_title (parse_atom data) with
  | Some f, _ => Ok (rss_json f)
  | None, Some f => Ok (atom_json f)
  | None, None => Err "response is not a valid RSS 2.0 or Atom feed"
  end.

Definition flattenHeaders (h : gmap string (list string)) : json :=
  JObj (map (fun kv => (fst kv, JStr (Join (snd kv) ", "))) (map_to_list h)).

(** ** The request *)

(** The headers set, in the order the map is walked. *)
Definition request_headers args : list (string * string) :=
  match arg_object "headers" args with
  | Some m => omap (fun kv => match snd kv with JStr v => Some (fst kv, v) | _ => None end) (entries (go_map m))
  | None => []
  end.

(** An address of the model is checked; one of the site itself is not. *)
Definition request_url (domain : option string) args : T S string :=
  let url := arg_string "url" args in
  guard_reject (negb (url =? "")%string) "url is required";;
  if HasPrefix url "/" then mret (resolveLocalURL domain url)
  else
    blocked ← validateExternalURL url;
    match blocked with
    | Some e => reject ("blocked URL: " ++ e)
    | None => mret url
    end.

Definition response_result args (r : HttpResp) (body : string) : Result :=
  if arg_bool "parse_feed" args then
    match parseRSSOrAtomFeed body with
    | Err e => failure ("feed parse error: " ++ e)
    | Ok feed => success [("feed", feed); ("status_code", int (rs_code r))]
    end
  else
    success [("body", JStr (if arg_bool "strip_html" args then extractText body else body));
             ("headers", flattenHeaders (rs_headers r)); ("status", JStr (rs_status r)); ("status_code", int (rs_code r))].

(** [io.LimitReader] *)
Definition limited (n : nat) (body : res string string) : res string string :=
  match body with Ok b => Ok (take_str n b) | Err e => Err e end.

Definition HttpTool_Execute (domain : option string) args : T S Result :=
  url ← request_url domain args;
  let method := OptionalString args "method" "GET" in
  let rq := {| rq_method := method; rq_url := url; rq_set := request_headers args;
               rq_content := match arg "body" args with Some (JStr b) => nonempty b | _ => None end |} in
  match new_request method url with
  | Some e => reject ("creating request: " ++ e)
  | None =>
      n ← net_op (Some url);
      match http_do n rq with
      | Err e => reject ("executing request: " ++ e)
      | Ok r => body ← or_throw "reading response" (limited (100 * 1024) (rs_body r));
                mret (response_result args r body)
      end
  end.

Definition HttpTool_Summarize (result : string) : string :=
  match parseSummaryResult result with
  | None => summarizeTruncate result 200
  | Some (false, _, e) => summarizeError e
  | Some (true, Some (JObj m), _) =>
      let status := match arg "status_code" m with Some (JNum l) => float_int l | _ => 0%Z end in
      let body := default "" (string_member "body" m) in
      dq "{'success':true,'summary':'HTTP " ++ Itoa status ++ " (" ++ Itoa (Z.of_nat (String.length body)) ++ dq " chars)'}"
  | _ => summarizeTruncate result 300
  end.
End Http.
