(* ===== verification/Paths.v ===== *)
(** * File names, content types, base64

    The pure part of tools/storage.go, and what it uses of path/filepath (on
    slash-separated relative paths) and encoding/base64. *)

From Stdlib Require Import ZArith Lia Ascii String List Bool.
From stdpp Require Import base list strings.
From S2P Require Import Prelude GoStrings PageText.

Local Open Scope string_scope.

(** ** path/filepath *)

(** The elements of a cleaned relative path, the last first. *)
Definition clean_step (acc : list string) (c : string) : list string :=
  if (c =? "")%string || (c =? ".")%string then acc
  else if (c =? "..")%string then
    match acc with
    | d :: r => if (d =? "..")%string then c :: acc else r
    | [] => [c]
    end
  else c :: acc.
Definition Clean (path : string) : string :=
  match rev (fold_left clean_step (Split "/" path) []) with
  | [] => "."
  | l => Join l "/"
  end.

(** [filepath.Join] of a directory and a name. *)
Definition path_Join (dir name : string) : string := Clean (if (name =? "")%string then dir else dir ++ "/" ++ name).

(** [filepath.Dir] *)
Definition Dir (path : string) : string :=
  match LastIndex path "/" with
  | Some i => Clean (take_str (S i) path)
  | None => "."
  end.

(** The part of a path after its last separator. *)
Definition last_element (path : string) : string :=
  match LastIndex path "/" with Some i => drop_str (S i) path | None => path end.

(** [filepath.Ext] *)
Definition Ext (path : string) : string :=
  let b := last_element path in
  match LastIndex b "." with Some i => drop_str i b | None => "" end.

(** [filepath.Base] *)
Definition Base (path : string) : string :=
  if (path =? "")%string then "."
  else
    let p := TrimRight path "/" in
    if (p =? "")%string then "/" else last_element p.

(** ** Names *)

Definition sanitizePath (name : string) : string :=
  let name := ReplaceAll name "\" "/" in
  let name := if HasPrefix name "/" then trim_left_set "/" name else name in
  Join (List.filter (fun p => negb (is_in [""; "."; ".."] p)) (map TrimSpace (Split "/" name))) "/".

Definition sanitizeFilename (name storageDir : string) : string :=
  TrimPrefix (sanitizePath name) (storageDir ++ "/").

Definition content_types : list (string * string) :=
  [(".jpg", "image/jpeg"); (".jpeg", "image/jpeg"); (".png", "image/png"); (".gif", "image/gif"); (".svg", "image/svg+xml");
   (".webp", "image/webp"); (".css", "text/css"); (".js", "application/javascript"); (".json", "application/json");
   (".html", "text/html"); (".htm", "text/html"); (".xml", "application/xml"); (".txt", "text/plain"); (".csv", "text/csv");
   (".woff", "font/woff"); (".woff2", "font/woff2"); (".ttf", "font/ttf"); (".otf", "font/otf"); (".pdf", "application/pdf");
   (".ico", "image/x-icon"); (".mp4", "video/mp4"); (".webm", "video/webm"); (".mp3", "audio/mpeg"); (".zip", "application/zip")].
Definition octet_stream : string := "application/octet-stream".

Fixpoint table_get (k : string) (l : list (string * string)) : option string :=
  match l with [] => None | (k', v) :: r => if (k' =? k)%string then Some v else table_get k r end.

Definition inferContentType (filename : string) : string :=
  match table_get (ToLower (Ext filename)) content_types with Some t => t | None => octet_stream end.

Definition isTextContentType (ct : string) : bool :=
  HasPrefix ct "text/" || is_in ["application/javascript"; "application/json"; "application/xml"; "image/svg+xml"] ct.

(** ** encoding/base64, the standard encoding *)

Definition b64_char (n : nat) : ascii :=
  if (n <? 26)%nat then byte_of (65 + n)
  else if (n <? 52)%nat then byte_of (97 + (n - 26))
  else if (n <? 62)%nat then byte_of (48 + (n - 52))
  else if (n =? 62)%nat then "+"%char else "/"%char.
Definition b64_val (a : ascii) : option nat :=
  if is_upper a then Some (code a - 65)%nat
  else if is_lower a then Some (code a - 97 + 26)%nat
  else if is_digit a then Some (code a - 48 + 52)%nat
  else if Ascii.eqb a "+" then Some 62%nat
  else if Ascii.eqb a "/" then Some 63%nat else None.

Fixpoint EncodeToString (s : string) : string :=
  match s with
  | EmptyString => ""
  | String a EmptyString =>
      String (b64_char (code a / 4)%nat) (String (b64_char (code a mod 4 * 16)%nat) "==")
  | String a (String b EmptyString) =>
      String (b64_char (code a / 4)%nat) (String (b64_char (code a mod 4 * 16 + code b / 16)%nat)
        (String (b64_char (code b mod 16 * 4)%nat) "="))
  | String a (String b (String c r)) =>
      String (b64_char (code a / 4)%nat) (String (b64_char (code a mod 4 * 16 + code b / 16)%nat)
        (String (b64_char (code b mod 16 * 4 + code c / 64)%nat) (String (b64_char (code c mod 64)%nat) (EncodeToString r))))
  end.

Fixpoint without_breaks (s : string) : string :=
  match s with
  | EmptyString => ""
  | String a r => if (code a =? 10)%nat || (code a =? 13)%nat then without_breaks r else String a (without_breaks r)
  end.

(** Groups of four; padding only in the last. *)
Fixpoint decode_groups (s : string) : option string :=
  match s with
  | EmptyString => Some ""
  | String a (String b (String c (String d r))) =>
      match b64_val a, b64_val b with
      | Some x, Some y =>
          let first := byte_of (x * 4 + y / 16)%nat in
          if Ascii.eqb c "=" then if Ascii.eqb d "=" && (r =? "")%string then Some (s1 first) else None
          else
            match b64_val c with
            | None => None
            | Some z =>
                let second := byte_of (y mod 16 * 16 + z / 4)%nat in
                if Ascii.eqb d "=" then if (r =? "")%string then Some (String first (s1 second)) else None
                else
                  match b64_val d, decode_groups r with
                  | Some w, Some t => Some (String first (String second (String (byte_of (z mod 4 * 64 + w)%nat) t)))
                  | _, _ => None
                  end
            end
      | _, _ => None
      end
  | _ => None
  end.
Definition DecodeString (s : string) : option string := decode_groups (without_breaks s).

(** Text as it is, or base64, perhaps in a data URI. *)
Definition decodeFileData (content dataB64 : string) : option string :=
  if negb (content =? "")%string then Some content
  else
    DecodeString match Index dataB64 "," with
                 | Some idx => if Contains (take_str idx dataB64) "base64" then drop_str (S idx) dataB64 else dataB64
                 | None => dataB64
                 end.

(** The name of an image from its address; an extension longer than the room for
    the name is a slice out of range. *)
Definition name_byte (a : ascii) : bool := is_alpha a || is_digit a || in_set a "-_.".
Fixpoint keep_bytes (p : ascii -> bool) (s : string) : string :=
  match s with EmptyString => "" | String a r => if p a then String a (keep_bytes p r) else keep_bytes p r end.
Definition filename_from (u_path fallbackExt : string) : option string :=
  let base := Base u_path in
  let base := match Index base "?" with Some i => take_str i base | None => base end in
  if is_in [""; "."; "/"] base then Some ("image" ++ fallbackExt)
  else
    let result := keep_bytes name_byte base in
    if (result =? "")%string then Some ("image" ++ fallbackExt)
    else if (80 <? String.length result)%nat then
      let ext := Ext result in
      if (80 <? String.length ext)%nat then None else Some (take_str (80 - String.length ext) result ++ ext)
    else Some result.

(** ** Paths without detours *)

Definition slashless (s : string) : Prop := all_bytes (fun a => negb (Ascii.eqb a "/")) s = true.
Definition plain_element (c : string) : bool := negb (is_in [""; "."; ".."] c).
(** No element is empty, [.] or [..]. *)
Definition safe_path (p : string) : Prop := forallb plain_element (Split "/" p) = true.

Lemma Split_slashless s : Forall slashless (Split "/" s).
Proof.
  induction s as [|a s IH]; cbn [Split]; [by repeat constructor|].
  destruct (Ascii.eqb a "/") eqn:Ha; [by constructor|]. destruct (Split "/" s) as [|w ws].
  { constructor; [|done]. unfold slashless. cbn. by rewrite Ha. }
  inversion IH; subst. constructor; [|done]. unfold slashless in *. cbn. by rewrite Ha.
Qed.

Lemma Split_slashless_id s : slashless s -> Split "/" s = [s].
Proof.
  induction s as [|a s IH]; [done|]. unfold slashless in *. cbn [all_bytes Split]. intros [Ha Hs]%andb_prop.
  apply negb_true_iff in Ha. by rewrite Ha, IH.
Qed.

Lemma Split_append s t : Split "/" (s ++ "/" ++ t) = (Split "/" s ++ Split "/" t)%list.
Proof.
  induction s as [|a s IH]; [done|]. rewrite append_cons. cbn [Split]. rewrite IH. destruct (Ascii.eqb a "/"); [done|].
  destruct (Split "/" s) as [|w ws] eqn:E; [|done]. by destruct (Split_not_nil "/" s).
Qed.

Lemma Join_cons c l : l <> [] -> Join (c :: l) "/" = c ++ "/" ++ Join l "/".
Proof. by destruct l. Qed.

Lemma Join_Split s : Join (Split "/" s) "/" = s.
Proof.
  induction s as [|a s IH]; [done|]. cbn [Split]. pose proof (Split_not_nil "/" s) as Hn.
  destruct (Ascii.eqb a "/") eqn:Ha.
  - apply Ascii.eqb_eq in Ha as ->. rewrite Join_cons by done. by rewrite IH.
  - destruct (Split "/" s) as [|w ws]; [done|]. rewrite <- IH. destruct ws; [done|]. by rewrite !Join_cons, append_cons by done.
Qed.

Lemma Split_Join l : l <> [] -> Forall slashless l -> Split "/" (Join l "/") = l.
Proof.
  induction l as [|c l IH]; [done|]. intros _ Hl. inversion Hl as [|? ? Hc Hr]; subst.
  destruct l as [|d l]; [by apply Split_slashless_id|]. rewrite Join_cons by done.
  rewrite Split_append, IH by done. by rewrite Split_slashless_id.
Qed.

Lemma clean_plain l : forall acc, forallb plain_element l = true -> fold_left clean_step l acc = (rev l ++ acc)%list.
Proof.
  induction l as [|c l IH]; intros acc; [done|]. cbn [forallb fold_left rev]. intros [Hc Hl]%andb_prop.
  rewrite IH by done. rewrite <- app_assoc. f_equal. unfold plain_element, is_in, existsb in Hc. unfold clean_step.
  by destruct (c =? "")%string, (c =? ".")%string, (c =? "..")%string.
Qed.

Lemma Clean_safe p : safe_path p -> Clean p = p.
Proof.
  intros Hp. rewrite <- (Join_Split p) at 2. unfold Clean. rewrite clean_plain, app_nil_r, rev_involutive by done.
  pose proof (Split_not_nil "/" p). by destruct (Split "/" p).
Qed.

Lemma safe_append p q : safe_path p -> safe_path q -> safe_path (p ++ "/" ++ q).
Proof. unfold safe_path. rewrite Split_append, forallb_app. by intros -> ->. Qed.

Lemma safe_nonempty p : safe_path p -> p <> "".
Proof. by intros H ->. Qed.

Lemma Join_safe dir name : safe_path dir -> safe_path name -> path_Join dir name = dir ++ "/" ++ name.
Proof.
  intros Hd Hn. unfold path_Join. destruct (String.eqb_spec name "") as [->|]; [done|]. by apply Clean_safe, safe_append.
Qed.

Lemma Join_elements_safe l : l <> [] -> Forall slashless l -> forallb plain_element l = true -> safe_path (Join l "/").
Proof. intros Hn Hs Hl. unfold safe_path. by rewrite Split_Join. Qed.

(** The directory of a file below [dir] is [dir] or below it. *)
Lemma Dir_safe dir name : safe_path dir -> safe_path name ->
  (Dir (dir ++ "/" ++ name) = dir \/ exists n, safe_path n /\ Dir (dir ++ "/" ++ name) = dir ++ "/" ++ n) /\
  (String.length (Dir (dir ++ "/" ++ name)) + 2 <= String.length (dir ++ "/" ++ name))%nat.
Proof.
  intros Hd Hn. unfold Dir. destruct (LastIndex (dir ++ "/" ++ name) "/") as [i|] eqn:Hi.
  2: { apply (LastIndex_None _ "/"%char) in Hi. rewrite !all_bytes_append in Hi. by rewrite andb_comm in Hi. }
  apply (LastIndex_byte _ "/"%char) in Hi as (a & b & E & <- & Hb). 
  assert (Hs : slashless b).
  { eapply all_bytes_impl, Hb. intros x. cbv beta. by rewrite Ascii.eqb_sym. }
  assert (take_str (S (String.length a)) (dir ++ "/" ++ name) = a ++ "/" ++ "") as ->.
  { rewrite E. change (s1 "/" ++ b) with ("/" ++ b). rewrite <- append_assoc.
    replace (S (String.length a)) with (String.length (a ++ "/")) by (rewrite length_append; cbn; lia). apply take_append. }
  pose proof (f_equal (Split "/") E) as HE. change (s1 "/" ++ b) with ("/" ++ b) in HE.
  rewrite !Split_append, (Split_slashless_id b Hs) in HE.
  pose proof (Split_slashless name) as Hsl. unfold safe_path in Hd, Hn.
  destruct (Split "/" name) as [|c l _] eqn:Hl using rev_ind; [by destruct (Split_not_nil "/" name)|].
  rewrite app_assoc in HE. apply app_inj_tail in HE as [HE ->]. apply Forall_app in Hsl as [Hsl _].
  rewrite forallb_app in Hn. apply andb_prop in Hn as [Hn Hb1].
  assert (safe_path a) as Ha by (unfold safe_path; by rewrite <- HE, forallb_app, Hd, Hn).
  assert (Clean (a ++ "/" ++ "") = a) as ->.
  { unfold Clean. rewrite Split_append, fold_left_app, (clean_plain (Split "/" a)) by exact Ha. cbn [fold_left Split clean_step String.eqb orb].
    rewrite app_nil_r, rev_involutive. pose proof (Join_Split a). pose proof (Split_not_nil "/" a). by destruct (Split "/" a). }
  split; [|rewrite E, !length_append; destruct b; [done|cbn; lia]].
  pose proof (Join_Split a) as Hj. rewrite <- HE in Hj. rewrite <- Hj.
  destruct (decide (l = [])) as [->|Hl0]; [left; by rewrite app_nil_r, Join_Split|right].
  exists (Join l "/"). split; [by apply Join_elements_safe|].
  pose proof (Split_append dir (Join l "/")) as Hx. rewrite (Split_Join l) in Hx by done. by rewrite <- Hx, Join_Split.
Qed.

(** ** Sanitized names *)

Lemma all_bytes_trim_with P len : forall s skip, all_bytes P s = true -> all_bytes P (trim_with len skip s) = true.
Proof.
  induction s as [|a s IH]; intros skip Hs; [by destruct skip|]. pose proof Hs as [_ Hr]%andb_prop.
  destruct skip as [|k]; cbn [trim_with]; [|by apply IH]. destruct (len (String a s)); [done|by apply IH].
Qed.

Lemma all_bytes_TrimSpace P s : all_bytes P s = true -> all_bytes P (TrimSpace s) = true.
Proof.
  intros H. unfold TrimSpace. rewrite all_bytes_reverse. apply all_bytes_trim_with. rewrite all_bytes_reverse.
  by apply all_bytes_trim_with.
Qed.

Lemma sanitizePath_safe name : sanitizePath name <> "" -> safe_path (sanitizePath name).
Proof.
  unfold sanitizePath. set (l := List.filter _ _). intros Hne. apply Join_elements_safe.
  - by intros E; rewrite E in Hne.
  - apply Forall_forall. intros c [Hc _]%list_elem_of_In%filter_In. apply in_map_iff in Hc as (d & <- & Hd).
    apply all_bytes_TrimSpace. pose proof (Split_slashless (if HasPrefix (ReplaceAll name "\" "/") "/"
      then trim_left_set "/" (ReplaceAll name "\" "/") else ReplaceAll name "\" "/")) as Hs.
    rewrite Forall_forall in Hs. by apply Hs, list_elem_of_In.
  - apply forallb_forall. by intros c [_ Hc]%filter_In.
Qed.

(** More at the end of the last element, if that is no [.] or [..] then. *)
Lemma Split_extend s t : slashless t -> exists l b, Split "/" s = (l ++ [b])%list /\ Split "/" (s ++ t) = (l ++ [(b ++ t)%string])%list.
Proof.
  intros Ht. induction s as [|a s (l & b & E1 & E2)]; [exists [], ""; by rewrite append_nil_l, (Split_slashless_id t)|].
  rewrite append_cons. cbn [Split]. rewrite E1, E2. destruct (Ascii.eqb a "/"); [by exists ("" :: l), b|].
  destruct l as [|w l]; cbn; [by exists [], (String a b)|by exists (String a w :: l), b].
Qed.

Lemma plain_long c : (3 <= String.length c)%nat -> plain_element c = true.
Proof.
  intros Hl. unfold plain_element, is_in, existsb.
  by destruct (String.eqb_spec c ""), (String.eqb_spec c "."), (String.eqb_spec c ".."); subst; cbn in Hl; try lia.
Qed.

Lemma safe_extend s t : safe_path s -> slashless t -> (2 <= String.length t)%nat -> safe_path (s ++ t).
Proof.
  intros Hs Ht Hl. destruct (Split_extend s t Ht) as (l & b & E1 & E2). unfold safe_path in *. rewrite E1, forallb_app in Hs.
  rewrite E2, forallb_app. apply andb_prop in Hs as [-> Hb]. cbn in *. rewrite andb_true_r in *.
  apply plain_long. rewrite length_append. destruct b; [done|]. cbn. lia.
Qed.

Lemma HasPrefix_app s p : HasPrefix s p = true -> exists t, s = p ++ t.
Proof.
  unfold HasPrefix. revert s. induction p as [|a p IH]; intros s; [by exists s|]. destruct s as [|b s]; [done|].
  cbn [String.prefix]. destruct (ascii_dec a b) as [->|]; [|done]. intros (t & ->)%IH. by exists t.
Qed.

Lemma sanitizeFilename_safe name dir : sanitizeFilename name dir <> "" -> safe_path (sanitizeFilename name dir).
Proof.
  unfold sanitizeFilename, TrimPrefix. destruct (HasPrefix _ _) eqn:Hp; [|by apply sanitizePath_safe].
  intros Hne. destruct (HasPrefix_app _ _ Hp) as [t Ht]. rewrite Ht, drop_append in *.
  assert (safe_path (sanitizePath name)) as Hs by (apply sanitizePath_safe; rewrite Ht; by destruct dir).
  rewrite Ht, append_assoc in Hs. unfold safe_path in *. rewrite Split_append, forallb_app in Hs. by apply andb_prop in Hs as [_ ?].
Qed.

(** ** base64 is read back *)

Definition sextet (n : nat) : bool :=
  let a := b64_char n in
  match b64_val a with Some m => (m =? n)%nat | None => false end
  && negb (Ascii.eqb a "=") && negb ((code a =? 10)%nat || (code a =? 13)%nat).
Lemma sextets_ok : forallb sextet (seq 0 64) = true.
Proof. reflexivity. Qed.

Lemma sextet_spec n : (n < 64)%nat ->
  b64_val (b64_char n) = Some n /\ Ascii.eqb (b64_char n) "=" = false /\
  (code (b64_char n) =? 10)%nat || (code (b64_char n) =? 13)%nat = false.
Proof.
  intros Hn. pose proof sextets_ok as H. rewrite forallb_forall in H. specialize (H n).
  rewrite in_seq in H. specialize (H ltac:(lia)). unfold sextet in H. apply andb_prop in H as [[H1 H2]%andb_prop H3].
  destruct (b64_val _) as [m|]; [|done]. apply Nat.eqb_eq in H1 as ->. by rewrite negb_true_iff in H2, H3.
Qed.

Lemma byte_code n a : n = code a -> byte_of n = a.
Proof. intros ->. apply ascii_nat_embedding. Qed.

Lemma code_lt a : (code a < 256)%nat.
Proof. apply nat_ascii_bounded. Qed.

(** The bytes of a group out of its sextets. *)
Lemma groups (x y z : nat) : (x < 256)%nat -> (y < 256)%nat -> (z < 256)%nat ->
  (x / 4 < 64 /\ x mod 4 * 16 + y / 16 < 64 /\ y mod 16 * 4 + z / 64 < 64 /\ z mod 64 < 64 /\
   x / 4 * 4 + (x mod 4 * 16 + y / 16) / 16 = x /\
   (x mod 4 * 16 + y / 16) mod 16 * 16 + (y mod 16 * 4 + z / 64) / 4 = y /\
   (y mod 16 * 4 + z / 64) mod 4 * 64 + z mod 64 = z)%nat.
Proof.
  intros Hx Hy Hz.
  assert (forall a b m, b < m -> (a * m + b) / m = a /\ (a * m + b) mod m = b)%nat as Hdm.
  { intros a b m Hb. split; [rewrite Nat.div_add_l by lia; rewrite Nat.div_small by lia; lia|].
    rewrite Nat.add_comm, Nat.Div0.mod_add. by apply Nat.mod_small. }
  assert (y / 16 < 16)%nat by (apply Nat.Div0.div_lt_upper_bound; lia).
  assert (z / 64 < 4)%nat by (apply Nat.Div0.div_lt_upper_bound; lia).
  assert (x / 4 < 64)%nat by (apply Nat.Div0.div_lt_upper_bound; lia).
  assert (x mod 4 < 4 /\ y mod 16 < 16 /\ z mod 64 < 64)%nat by (repeat split; apply Nat.mod_upper_bound; lia).
  destruct (Hdm (x mod 4) (y / 16) 16)%nat as [-> ->]; [lia|]. destruct (Hdm (y mod 16) (z / 64) 4)%nat as [-> ->]; [lia|].
  pose proof (Nat.div_mod_eq x 4). pose proof (Nat.div_mod_eq y 16). pose proof (Nat.div_mod_eq z 64). lia.
Qed.

Lemma without_breaks_encode n : forall s, (String.length s <= n)%nat -> without_breaks (EncodeToString s) = EncodeToString s.
Proof.
  induction n as [|n IH]; intros [|a [|b [|c s]]] Hs; try done; cbn [String.length] in Hs; try lia; cbn [EncodeToString without_breaks].
  - destruct (groups (code a) 0 0) as (H1 & H2 & _); [apply code_lt|lia..|]. rewrite Nat.add_0_r in H2.
    destruct (sextet_spec _ H1) as (_ & _ & ->), (sextet_spec _ H2) as (_ & _ & ->). done.
  - destruct (groups (code a) (code b) 0) as (H1 & H2 & H3 & _); [apply code_lt..|lia|]. rewrite Nat.add_0_r in H3.
    destruct (sextet_spec _ H1) as (_ & _ & ->), (sextet_spec _ H2) as (_ & _ & ->), (sextet_spec _ H3) as (_ & _ & ->). done.
  - destruct (groups (code a) (code b) (code c)) as (H1 & H2 & H3 & H4 & _); [apply code_lt..|].
    destruct (sextet_spec _ H1) as (_ & _ & ->), (sextet_spec _ H2) as (_ & _ & ->), (sextet_spec _ H3) as (_ & _ & ->),
      (sextet_spec _ H4) as (_ & _ & ->). rewrite IH by lia. done.
Qed.

Lemma decode_encode n : forall s, (String.length s <= n)%nat -> decode_groups (EncodeToString s) = Some s.
Proof.
  induction n as [|n IH]; intros [|a [|b [|c s]]] Hs; try done; cbn [String.length] in Hs; try lia;
    cbn [EncodeToString decode_groups].
  - destruct (groups (code a) 0 0) as (H1 & H2 & _ & _ & E1 & _); [apply code_lt|lia..|]. rewrite Nat.add_0_r in H2, E1.
    destruct (sextet_spec _ H1) as (-> & _), (sextet_spec _ H2) as (-> & _).
    rewrite (byte_code _ a E1). done.
  - destruct (groups (code a) (code b) 0) as (H1 & H2 & H3 & _ & E1 & E2 & _); [apply code_lt..|lia|].
    rewrite Nat.add_0_r in H3, E2.
    destruct (sextet_spec _ H1) as (-> & _), (sextet_spec _ H2) as (-> & _), (sextet_spec _ H3) as (-> & -> & _).
    rewrite (byte_code _ a E1), (byte_code _ b E2). done.
  - destruct (groups (code a) (code b) (code c)) as (H1 & H2 & H3 & H4 & E1 & E2 & E3); [apply code_lt..|].
    destruct (sextet_spec _ H1) as (-> & _), (sextet_spec _ H2) as (-> & _), (sextet_spec _ H3) as (-> & -> & _),
      (sextet_spec _ H4) as (-> & -> & _).
    rewrite IH by lia. by rewrite (byte_code _ a E1), (byte_code _ b E2), (byte_code _ c E3).
Qed.

Lemma DecodeString_EncodeToString s : DecodeString (EncodeToString s) = Some s.
Proof. unfold DecodeString. by rewrite (without_breaks_encode _ s (le_n _)), (decode_encode _ s (le_n _)). Qed.
