(* ===== verification/Encryption.v ===== *)
(** * security/encryption.go: how secrets are kept

    AES-256 in Galois counter mode is the class [AEAD]; the key in hexadecimal, the
    nonce before the ciphertext and the base64 around both are the program's. *)

From Stdlib Require Import ZArith Lia Ascii String List Bool.
From stdpp Require Import base list strings.
From S2P Require Import Prelude GoStrings JSONText Paths.

Local Open Scope string_scope.

(** [cipher.AEAD] with [rand.Reader]: opening what was sealed with the same key and
    nonce gives the text back. *)
Class AEAD := {
  NonceSize : nat;
  random : nat -> res string string;                             (* the bytes read next *)
  Seal : string -> string -> string -> string;                   (* key, nonce, plaintext *)
  unseal : string -> string -> string -> res string string;      (* Open *)
  unseal_Seal : forall key nonce p, String.length key = 32%nat -> String.length nonce = NonceSize ->
    unseal key nonce (Seal key nonce p) = Ok p;
  random_size : forall n s, random n = Ok s -> String.length s = NonceSize;
}.

(** ** encoding/hex *)

(** [hex.EncodeToString] *)
Fixpoint hex_encode (s : string) : string :=
  match s with
  | "" => ""
  | String a r => String (hex_digit (code a / 16)) (String (hex_digit (code a mod 16)) (hex_encode r))
  end.

(** [hex.DecodeString] *)
Fixpoint hex_decode (s : string) : res string string :=
  match s with
  | EmptyString => Ok ""
  | String a EmptyString =>
      match hex_value a with
      | None => Err "encoding/hex: invalid byte"
      | Some _ => Err "encoding/hex: odd length hex string"
      end
  | String a (String b r) =>
      match hex_value a, hex_value b with
      | Some x, Some y => match hex_decode r with Ok t => Ok (String (byte_of (16 * x + y)) t) | Err e => Err e end
      | _, _ => Err "encoding/hex: invalid byte"
      end
  end.

Record Encryptor := { enc_key : string }.

Definition NewEncryptor (hexKey : string) : res string Encryptor :=
  match hex_decode hexKey with
  | Err e => Err ("decoding key: " ++ e)
  | Ok key =>
      if negb (String.length key =? 32)%nat
      then Err ("key must be 32 bytes (got " ++ Itoa (Z.of_nat (String.length key)) ++ ")")
      else Ok {| enc_key := key |}
  end.

Section Encryption.
Context `{A : AEAD}.

(** The [n]-th reading of random bytes. *)
Definition Encrypt (e : Encryptor) (n : nat) (plaintext : string) : res string string :=
  match random n with
  | Err err => Err ("generating nonce: " ++ err)
  | Ok nonce => Ok (EncodeToString (nonce ++ Seal (enc_key e) nonce plaintext))
  end.

Definition Decrypt (e : Encryptor) (encoded : string) : res string string :=
  match DecodeString encoded with
  | None => Err "decoding base64: illegal base64 data"
  | Some ciphertext =>
      if (String.length ciphertext <? NonceSize)%nat then Err "ciphertext too short"
      else match unseal (enc_key e) (take_str NonceSize ciphertext) (drop_str NonceSize ciphertext) with
           | Err err => Err ("decrypting: " ++ err)
           | Ok p => Ok p
           end
  end.
End Encryption.

(** ** What it promises *)

Lemma hex_value_digit n : (n < 16)%nat -> hex_value (hex_digit n) = Some n.
Proof. intros Hn. do 16 (destruct n as [|n]; [reflexivity|]). lia. Qed.

Lemma hex_roundtrip s : hex_decode (hex_encode s) = Ok s.
Proof.
  induction s as [|a s IH]; [done|]. cbn [hex_encode hex_decode].
  assert (Ha : (code a < 256)%nat) by apply nat_ascii_bounded.
  rewrite !hex_value_digit, IH.
  - do 2 f_equal. unfold byte_of, code in *. rewrite <- Nat.div_mod_eq. apply ascii_nat_embedding.
  - apply Nat.mod_upper_bound. lia.
  - apply Nat.Div0.div_lt_upper_bound. lia.
Qed.

Lemma hex_decode_length s : forall t, hex_decode s = Ok t -> String.length s = (2 * String.length t)%nat.
Proof.
  induction s as [s IH] using (induction_ltof1 _ String.length). unfold ltof in IH. intros t. destruct s as [|a [|b r]]; cbn [hex_decode].
  - by intros [= <-].
  - by destruct (hex_value a).
  - destruct (hex_value a), (hex_value b); try done. destruct (hex_decode r) as [u|] eqn:Hu; [|done]. intros [= <-].
    apply IH in Hu; [|cbn; lia]. cbn. lia.
Qed.

Lemma hex_decode_digits s : is_ok (hex_decode s) = true <->
  Nat.even (String.length s) = true /\ all_bytes (fun a => bool_decide (is_Some (hex_value a))) s = true.
Proof.
  induction s as [s IH] using (induction_ltof1 _ String.length). unfold ltof in IH. destruct s as [|a [|b r]]; cbn [hex_decode all_bytes].
  - done.
  - destruct (hex_value a); split; intros H; first [done|by destruct H].
  - specialize (IH r ltac:(cbn; lia)). destruct (hex_value a) as [x|], (hex_value b) as [y|]; cbn [String.length Nat.even].
    2,3,4: split; [done|]; intros [_ H]; by repeat (apply andb_prop in H as [? H]).
    rewrite !bool_decide_true by done. cbn [andb]. rewrite <- IH. by destruct (hex_decode r).
Qed.

(** A key is 64 hexadecimal digits, and nothing else is. *)
Lemma NewEncryptor_iff hexKey : is_ok (NewEncryptor hexKey) = true <->
  String.length hexKey = 64%nat /\ all_bytes (fun a => bool_decide (is_Some (hex_value a))) hexKey = true.
Proof.
  unfold NewEncryptor. pose proof (hex_decode_digits hexKey) as Hd. destruct (hex_decode hexKey) as [key|e] eqn:Hk; cbn in Hd.
  - pose proof (hex_decode_length _ _ Hk) as Hl. destruct (Nat.eqb_spec (String.length key) 32) as [H|H]; cbn.
    + split; [|done]. intros _. split; [lia|]. by apply Hd.
    + split; [done|]. intros [H1 _]. lia.
  - split; [done|]. intros [H1 H2]. rewrite H1, H2 in Hd. by apply Hd.
Qed.

(** What is encrypted is decrypted.  Exactly the texts of 64 hexadecimal digits
    are keys; with any key, whatever random bytes are read, a text encrypted is
    base64 and decrypts to itself, and encrypting fails only when no random bytes
    can be read. *)
Theorem encrypted_is_decrypted `{A : AEAD} hexKey :
  (is_ok (NewEncryptor hexKey) = true <->
     String.length hexKey = 64%nat /\ all_bytes (fun a => bool_decide (is_Some (hex_value a))) hexKey = true) /\
  forall e, NewEncryptor hexKey = Ok e -> forall n p,
    match Encrypt e n p with
    | Ok c => Decrypt e c = Ok p
    | Err _ => is_ok (random n) = false
    end.
Proof.
  split; [apply NewEncryptor_iff|]. intros e He n p. unfold Encrypt. destruct (random n) as [nonce|] eqn:Hn; [|done]. unfold Decrypt.
  rewrite DecodeString_EncodeToString. apply random_size in Hn. rewrite length_append.
  destruct (Nat.ltb_spec (String.length nonce + String.length (Seal (enc_key e) nonce p)) NonceSize) as [|_]; [lia|].
  rewrite <- Hn, take_append, drop_append, unseal_Seal; [done| |done]. unfold NewEncryptor in He. destruct (hex_decode hexKey) as [key|]; [|done].
  destruct (Nat.eqb_spec (String.length key) 32); [|done]. by injection He as <-.
Qed.

(** The class has instances: a cipher that seals nothing away. *)
Module EncryptionSample.
#[export] Instance plain : AEAD.
Proof.
  refine {| NonceSize := 12; random _ := Ok "000000000000"; Seal _ _ p := p; unseal _ _ c := Ok c |}; [done|].
  by intros _ s [= <-].
Defined.
Definition key : string := "00112233445566778899aabbccddeeff00112233445566778899AABBCCDDEEFF".
End EncryptionSample.
Import EncryptionSample.

Lemma encrypted_is_decrypted_witness :
  exists e c, NewEncryptor key = Ok e /\ Encrypt e 0 "hunter2" = Ok c /\ Decrypt e c = Ok "hunter2".
Proof.
  destruct (encrypted_is_decrypted key) as [[_ Hk] H]. specialize (Hk ltac:(split; vm_compute; reflexivity)).
  destruct (NewEncryptor key) as [e|] eqn:He; [|discriminate]. exists e, (EncodeToString "000000000000hunter2").
  split; [reflexivity|]. split; [reflexivity|]. exact (H e eq_refl 0%nat "hunter2").
Defined.
