(* ===== verification/Files.v ===== *)
(** * tools/storage.go: manage_files

    Assets and files of a site: rows of the site database, with the contents on
    disk and the earlier contents of text files in the history.  The disk is a map
    from cleaned paths to contents with the directories there are; every operation
    on it is noted with its path, and any of them can fail. *)

From Stdlib Require Import ZArith Lia Ascii String List Bool.
From stdpp Require Import base list strings gmap.
From S2P Require Import Prelude GoStrings GoTime JSONText World ToolCore Approval SiteTables ToolMonad Tables Endpoints PageText Pages HttpTool Paths.

Local Open Scope string_scope.

Record FileRow := {
  f_id : Z; f_name : string; f_type : option string; f_size : option Z; f_path : string;
  f_meta : option string;                (* alt_text of assets, description of files *)
  f_scope : string;                      (* of assets *)
  f_created : time;
}.

Record FileVersion := {
  fv_table : string; fv_name : string; fv_content : string; fv_type : option string; fv_size : Z; fv_number : Z;
  fv_by : string; fv_created : time;
}.

Inductive disk_op := OpMkdir | OpRead | OpWrite | OpRename (to : string) | OpRemove.

Record FileStore := {
  fs_assets : list FileRow;
  fs_files : list FileRow;
  fs_versions : list FileVersion;
  fs_disk : gmap string string;
  fs_dirs : gset string;
  fs_ops : list (disk_op * string);      (* what was asked of the disk, latest first *)
  fs_net : nat;
  fs_urls : list string;
}.

Definition set_versions_of (l : list FileVersion) (s : FileStore) : FileStore :=
  {| fs_assets := fs_assets s; fs_files := fs_files s; fs_versions := l; fs_disk := fs_disk s; fs_dirs := fs_dirs s;
     fs_ops := fs_ops s; fs_net := fs_net s; fs_urls := fs_urls s |}.
Definition set_disk (d : gmap string string) (s : FileStore) : FileStore :=
  {| fs_assets := fs_assets s; fs_files := fs_files s; fs_versions := fs_versions s; fs_disk := d; fs_dirs := fs_dirs s;
     fs_ops := fs_ops s; fs_net := fs_net s; fs_urls := fs_urls s |}.
Definition set_dirs (d : gset string) (s : FileStore) : FileStore :=
  {| fs_assets := fs_assets s; fs_files := fs_files s; fs_versions := fs_versions s; fs_disk := fs_disk s; fs_dirs := d;
     fs_ops := fs_ops s; fs_net := fs_net s; fs_urls := fs_urls s |}.
Definition note_op (o : disk_op) (path : string) (s : FileStore) : FileStore :=
  {| fs_assets := fs_assets s; fs_files := fs_files s; fs_versions := fs_versions s; fs_disk := fs_disk s; fs_dirs := fs_dirs s;
     fs_ops := (o, path) :: fs_ops s; fs_net := fs_net s; fs_urls := fs_urls s |}.

#[export] Instance files_online : Online FileStore :=
  {| net_now := fs_net;
     net_note url s :=
       {| fs_assets := fs_assets s; fs_files := fs_files s; fs_versions := fs_versions s; fs_disk := fs_disk s;
          fs_dirs := fs_dirs s; fs_ops := fs_ops s; fs_net := S (fs_net s);
          fs_urls := match url with Some u => u :: fs_urls s | None => fs_urls s end |} |}.

(** ** The two storages *)

Record storageConfig := { table : string; dirName : string; urlBase : string }.
Definition assets_config : storageConfig := {| table := "assets"; dirName := "assets"; urlBase := "/assets/" |}.
Definition files_config : storageConfig := {| table := "files"; dirName := "files"; urlBase := "/files/" |}.

Definition getStorageConfig (args : Args) : res string storageConfig :=
  let s := OptionalString args "storage" "assets" in
  if (s =? "assets")%string then Ok assets_config
  else if (s =? "files")%string then Ok files_config
  else Err ("invalid storage: " ++ Quote s ++ dq " (use 'assets' or 'files')").

Definition is_assets (cfg : storageConfig) : bool := (table cfg =? "assets")%string.
Definition rows (cfg : storageConfig) (s : FileStore) : list FileRow := if is_assets cfg then fs_assets s else fs_files s.
Definition set_file_rows (cfg : storageConfig) (l : list FileRow) (s : FileStore) : FileStore :=
  {| fs_assets := if is_assets cfg then l else fs_assets s; fs_files := if is_assets cfg then fs_files s else l;
     fs_versions := fs_versions s; fs_disk := fs_disk s; fs_dirs := fs_dirs s; fs_ops := fs_ops s; fs_net := fs_net s;
     fs_urls := fs_urls s |}.
Definition named (filename : string) (f : FileRow) : bool := (f_name f =? filename)%string.
Definition find_row (cfg : storageConfig) (filename : string) (s : FileStore) : option FileRow :=
  List.find (named filename) (rows cfg s).

Definition maxFileSize : Z := Z.shiftl 10 20.
Definition maxFileVersions : Z := 10.

Definition of_file (cfg : storageConfig) (filename : string) (v : FileVersion) : bool :=
  (fv_table v =? table cfg)%string && (fv_name v =? filename)%string.
Definition max_file_version (cfg : storageConfig) (filename : string) (s : FileStore) : Z :=
  fold_left Z.max (map fv_number (List.filter (of_file cfg filename) (fs_versions s))) 0%Z.

(** The directories on the way to a path, the path included. *)
Fixpoint prefixes (sofar : string) (l : list string) : list string :=
  match l with
  | [] => []
  | c :: r => let p := if (sofar =? "")%string then c else sofar ++ "/" ++ c in p :: prefixes p r
  end.

(** What can go wrong with the disk beyond what it holds, by the number of the
    operation; an operation that fails leaves the disk as it is. *)
Class Disk := { disk_error : nat -> disk_op -> string -> option string }.

Section Files.
Context `{E : Env} `{F : Formats} `{O : MapOrder} `{N : Net} `{D : Disk}.
Context (siteID : Z).
Implicit Types (s : FileStore) (args : Args) (cfg : storageConfig).

Definition FT (A : Type) : Type := T FileStore A.

(** ** The disk *)

Definition disk_do {A} (o : disk_op) (path : string) (f : FileStore -> res string A * FileStore) : FT (res string A) := fun c =>
  let s := note_op o path (cs c) in
  match disk_error (List.length (fs_ops (cs c))) o path with
  | Some e => (Ok (Err e), {| cw := cw c; cs := s |})
  | None => let '(r, s') := f s in (Ok r, {| cw := cw c; cs := s' |})
  end.

Definition MkdirAll (dir : string) : FT (res string unit) := disk_do OpMkdir dir (fun s =>
  let l := prefixes "" (Split "/" dir) in
  if existsb (fun d => bool_decide (is_Some (fs_disk s !! d))) l then (Err "not a directory", s)
  else (Ok tt, set_dirs (list_to_set l ∪ fs_dirs s) s)).

Definition ReadFile (path : string) : FT (res string string) := disk_do OpRead path (fun s =>
  (match fs_disk s !! path with Some d => Ok d | None => Err "no such file or directory" end, s)).

(** Whether a file can be put at a path. *)
Definition place (path : string) s : option string :=
  if bool_decide (path ∈ fs_dirs s) then Some "is a directory"
  else if bool_decide (Dir path ∈ fs_dirs s) then None else Some "no such file or directory".

Definition WriteFile (path data : string) : FT (res string unit) := disk_do OpWrite path (fun s =>
  match place path s with
  | Some e => (Err e, s)
  | None => (Ok tt, set_disk (<[path := data]> (fs_disk s)) s)
  end).

Definition Rename (old new : string) : FT (res string unit) := disk_do (OpRename new) old (fun s =>
  match fs_disk s !! old, place new s with
  | None, _ => (Err "no such file or directory", s)
  | _, Some e => (Err e, s)
  | Some d, None => (Ok tt, set_disk (<[new := d]> (delete old (fs_disk s))) s)
  end).

(** Whether the file was there; that it was not is no error to the caller. *)
Definition Remove (path : string) : FT (res string unit) := disk_do OpRemove path (fun s =>
  (Ok tt, set_disk (delete path (fs_disk s)) s)).

(** ** Storing *)

Definition site_dir cfg : string := path_Join (path_Join (path_Join "data" "sites") (Itoa siteID)) (dirName cfg).

(** The path a name has unless the row says otherwise. *)
Definition default_path cfg (filename : string) : string := path_Join (site_dir cfg) filename.
Definition stored_path cfg (f : FileRow) (filename : string) : string :=
  if (f_path f =? "")%string then default_path cfg filename else f_path f.

Definition storageDir cfg : FT string :=
  r ← MkdirAll (site_dir cfg);
  match r with
  | Ok _ => mret (site_dir cfg)
  | Err e => throw ("creating " ++ dirName cfg ++ " directory: " ++ e)
  end.

(** The directory of a file below the one of the storage. *)
Definition make_subdir (during : string) (dir storagePath : string) : FT unit :=
  if (Dir storagePath =? dir)%string then mret tt
  else r ← MkdirAll (Dir storagePath); or_throw during r.

Definition writeFileToDisk cfg (filename data : string) : FT string :=
  dir ← storageDir cfg;
  let storagePath := path_Join dir filename in
  make_subdir "creating subdirectory" dir storagePath;;
  r ← WriteFile storagePath data;
  or_throw "writing file" r;;
  mret storagePath.

(** ** Arguments *)

Definition config_arg args : FT storageConfig := or_reject (getStorageConfig args).

Definition name_arg (k : string) cfg args : FT string :=
  let filename := arg_string k args in
  guard_reject (negb (filename =? "")%string) (k ++ " is required");;
  let filename := sanitizeFilename filename (dirName cfg) in
  guard_reject (negb (filename =? "")%string) "invalid filename";;
  mret filename.

(** ** History *)

Definition version_row cfg (filename data : string) (ct : string) (n : Z) (by_ : string) (t : time) : FileVersion :=
  {| fv_table := table cfg; fv_name := filename; fv_content := data; fv_type := Some ct;
     fv_size := Z.of_nat (String.length data); fv_number := n; fv_by := by_; fv_created := t |}.

(** The number of the last version; nothing, if it cannot be read. *)
Definition last_version cfg (filename : string) : FT Z :=
  r ← load (max_file_version cfg filename);
  mret match r with Ok n => n | Err _ => 0%Z end.

Definition record_version cfg (filename data ct : string) (by_ : string) : FT Z :=
  maxVer ← last_version cfg filename;
  save_ (fun t s => set_versions_of (fs_versions s ++ [version_row cfg filename data ct (maxVer + 1) by_ t])%list s);;
  mret (maxVer + 1)%Z.

(** The text a save overwrites goes into the history, of which the last ten stay. *)
Definition keep_old_text cfg (filename contentType : string) : FT unit :=
  if isTextContentType contentType then
    q ← load (find_row cfg filename);
    match q with
    | Ok (Some f) =>
        old ← ReadFile (stored_path cfg f filename);
        match old with
        | Ok oldData =>
            n ← record_version cfg filename oldData contentType "brain";
            if (maxFileVersions <? n)%Z then
              save_ (fun _ s => set_versions_of
                (List.filter (fun v => negb (of_file cfg filename v && (fv_number v <=? n - maxFileVersions)%Z)) (fs_versions s)) s);;
              mret tt
            else mret tt
        | Err _ => mret tt
        end
    | _ => mret tt
    end
  else mret tt.

(** [INSERT ... ON CONFLICT(filename) DO UPDATE] *)
Definition upsert_row cfg (filename ct : string) (size : nat) (storagePath desc scope : string) (t : time) s : unit * FileStore :=
  let mk id created :=
    {| f_id := id; f_name := filename; f_type := Some ct; f_size := Some (Z.of_nat size); f_path := storagePath;
       f_meta := Some desc; f_scope := if is_assets cfg then scope else ""; f_created := created |} in
  (tt, set_file_rows cfg (snd (upsert (named filename) f_id (fun n => mk n t) (fun f => mk (f_id f) (f_created f)) (rows cfg s))) s).

(** [UPDATE ... WHERE filename = ?] *)
Definition update_row cfg (filename : string) (f : FileRow -> FileRow) s : FileStore :=
  set_file_rows cfg (update_where (named filename) f (rows cfg s)) s.

(** ** Saving *)

Definition is_css (filename : string) : bool := HasSuffix (ToLower filename) ".css".

(** Warnings and summary of a stylesheet, as members of the answer. *)
Definition css_members (filename data : string) : list (string * json) * list (string * json) :=
  if is_css filename then
    let warnings := validateCSSContent filename data in
    let summary := extractCSSSummary data in
    (when (negb (summary =? "")%string) ("css_classes", JStr summary),
     when (negb (bool_decide (warnings = []))) ("warnings", strings_json warnings))
  else ([], []).

(** The type by the extension, if that is known. *)
Definition content_type_of (filename given : string) : string :=
  let inferred := inferContentType filename in
  if negb (inferred =? octet_stream)%string || (given =? "")%string then inferred else given.

Definition size_json (s : string) : json := int (Z.of_nat (String.length s)).

Definition executeSave args : FT Result :=
  cfg ← config_arg args;
  let filename := arg_string "filename" args in
  guard_reject (negb (filename =? "")%string) "filename is required";;
  let content := arg_string "content" args in
  let dataB64 := arg_string "data" args in
  guard_reject (negb ((content =? "")%string && (dataB64 =? "")%string)) "either content or data (base64) is required";;
  let scope := OptionalString args "scope" "global" in
  let filename := sanitizeFilename filename (dirName cfg) in
  guard_reject (negb (filename =? "")%string) "invalid filename";;
  match decodeFileData content dataB64 with
  | None => reject "invalid base64 data"
  | Some fileData =>
      guard_reject (Z.of_nat (String.length fileData) <=? maxFileSize)%Z
        ("file too large (" ++ Itoa (Z.of_nat (String.length fileData)) ++ " bytes, max " ++ Itoa maxFileSize ++ ")");;
      let contentType := content_type_of filename (arg_string "content_type" args) in
      keep_old_text cfg filename contentType;;
      storagePath ← writeFileToDisk cfg filename fileData;
      must_save "saving record"
        (upsert_row cfg filename contentType (String.length fileData) storagePath (arg_string "description" args) scope);;
      let css := css_members filename fileData in
      mret (success ([("content_type", JStr contentType)] ++ fst css ++ [("filename", JStr filename)]
                     ++ when (is_assets cfg) ("scope", JStr scope)
                     ++ [("size", size_json fileData); ("url", JStr (urlBase cfg ++ filename))] ++ snd css)%list)
  end.

(** ** Reading, patching, removing *)

(** The row of a file, or the end of the call. *)
Definition must_find cfg (filename missing : string) : FT FileRow :=
  q ← load (find_row cfg filename);
  match q with
  | Ok (Some f) => mret f
  | Ok None => reject missing
  | Err e => throw ("querying " ++ table cfg ++ ": " ++ e)
  end.

Definition read_or_reject (path : string) : FT string :=
  r ← ReadFile path;
  match r with Ok d => mret d | Err _ => reject "file not found on disk" end.

Definition executePatch args : FT Result :=
  cfg ← config_arg args;
  filename ← name_arg "filename" cfg args;
  let patchesStr := arg_string "patches" args in
  guard_reject (negb (patchesStr =? "")%string) "patches is required (JSON array of {search, replace} pairs)";;
  patches ← or_reject match patches_of patchesStr with
                      | Ok ps => Ok ps
                      | Err e => Err ("patches must be a JSON array: " ++ e)
                      end;
  guard_reject (negb (bool_decide (patches = []))) "patches array is empty";;
  f ← must_find cfg filename "file not found";
  let ct := default "" (f_type f) in
  guard_reject (isTextContentType ct) ("patch only works on text files, got " ++ ct);;
  let storagePath := stored_path cfg f filename in
  fileData ← read_or_reject storagePath;
  record_version cfg filename fileData ct "brain";;
  let '(modified, applied, notFound) := apply_patches patches fileData in
  if (applied =? 0)%nat && negb (bool_decide (notFound = [])) then
    mret {| Success := false; Data := Some (JObj [("not_found", strings_json notFound)]); Error := "no patches matched" |}
  else
    r ← WriteFile storagePath modified;
    or_throw "writing patched file" r;;
    save_ (fun _ s => update_row cfg filename (fun f =>
      {| f_id := f_id f; f_name := f_name f; f_type := f_type f; f_size := Some (Z.of_nat (String.length modified));
         f_path := f_path f; f_meta := f_meta f; f_scope := f_scope f; f_created := f_created f |}) s);;
    let css := css_members filename modified in
    mret (success ([("applied", int (Z.of_nat applied))] ++ fst css ++ [("filename", JStr filename)]
                   ++ when (negb (bool_decide (notFound = []))) ("not_found", strings_json notFound)
                   ++ [("size", size_json modified)] ++ snd css)%list).

Definition executeGet args : FT Result :=
  cfg ← config_arg args;
  filename ← name_arg "filename" cfg args;
  f ← must_find cfg filename "not found";
  fileData ← read_or_reject (stored_path cfg f filename);
  let ct := default "" (f_type f) in
  let tail := [("filename", JStr filename); ("size", size_json fileData); ("url", JStr (urlBase cfg ++ filename))] in
  mret (success (if isTextContentType ct then ("content", JStr fileData) :: ("content_type", JStr ct) :: tail
                 else ("content_type", JStr ct) :: ("data", JStr (EncodeToString fileData)) :: tail)).

Definition row_object cfg (f : FileRow) : json :=
  JObj ([("content_type", JStr (default "" (f_type f))); ("created_at", JStr (time_text (f_created f)));
         ("description", JStr (default "" (f_meta f))); ("filename", JStr (f_name f)); ("id", int (f_id f))]
        ++ when (is_assets cfg) ("scope", JStr (f_scope f))
        ++ [("size", int (default 0%Z (f_size f))); ("url", JStr (urlBase cfg ++ f_name f))])%list.

Definition executeList args : FT Result :=
  cfg ← config_arg args;
  r ← load (fun s => order_by f_name (rows cfg s));
  l ← or_throw ("listing " ++ table cfg) r;
  mret (result_data (slice (row_object cfg) l)).

(** A row that cannot be read is deleted all the same, and its file is left. *)
Definition executeDelete args : FT Result :=
  cfg ← config_arg args;
  filename ← name_arg "filename" cfg args;
  q ← load (find_row cfg filename);
  storagePath ← match q with
                | Ok (Some f) => mret (f_path f)
                | Ok None => reject "not found"
                | Err _ => mret ""
                end;
  must_save "deleting record" (fun _ s => (tt, set_file_rows cfg (List.filter (fun f => negb (named filename f)) (rows cfg s)) s));;
  (if (storagePath =? "")%string then mret tt
   else r ← Remove storagePath; or_throw "removing file from disk" r);;
  log_destructive "manage_files" "delete" filename;;
  mret (success [("deleted", JStr filename)]).

(** The name is unique in its table: a row cannot take that of another. *)
Definition rename_row cfg (oldName newName newPath ct : string) s : res string unit * FileStore :=
  if negb (newName =? oldName)%string && existsb (named oldName) (rows cfg s) && existsb (named newName) (rows cfg s)
  then (Err ("UNIQUE constraint failed: " ++ table cfg ++ ".filename"), s)
  else (Ok tt, update_row cfg oldName (fun f =>
    {| f_id := f_id f; f_name := newName; f_type := Some ct; f_size := f_size f; f_path := newPath; f_meta := f_meta f;
       f_scope := f_scope f; f_created := f_created f |}) s).

Definition executeRename args : FT Result :=
  cfg ← config_arg args;
  let oldName := arg_string "old_filename" args in
  let newName := arg_string "new_filename" args in
  guard_reject (negb ((oldName =? "")%string || (newName =? "")%string)) "old_filename and new_filename are required";;
  let oldName := sanitizeFilename oldName (dirName cfg) in
  let newName := sanitizeFilename newName (dirName cfg) in
  guard_reject (negb ((oldName =? "")%string || (newName =? "")%string)) "invalid filename";;
  f ← must_find cfg oldName "not found";
  dir ← storageDir cfg;
  let newPath := path_Join dir newName in
  make_subdir "creating directory" dir newPath;;
  (if (f_path f =? "")%string then mret tt
   else r ← Rename (f_path f) newPath; or_throw "renaming file on disk" r);;
  r ← must_save "updating record" (fun _ s => rename_row cfg oldName newName newPath (inferContentType newName) s);
  or_throw "updating record" r;;
  mret (success [("new_filename", JStr newName); ("old_filename", JStr oldName); ("url", JStr (urlBase cfg ++ newName))]).

Definition executeHistory args : FT Result :=
  cfg ← config_arg args;
  filename ← name_arg "filename" cfg args;
  r ← load (fun s => sql_limit (history_limit args) (descending fv_number (List.filter (of_file cfg filename) (fs_versions s))));
  l ← or_throw "querying file history" r;
  mret (success [("filename", JStr filename); ("versions", slice (fun v =>
    JObj [("changed_by", JStr (fv_by v)); ("content_type", JStr (default "" (fv_type v)));
          ("created_at", JStr (time_text (fv_created v))); ("size", int (fv_size v)); ("version", int (fv_number v))]) l)]).

Definition find_file_version cfg (filename : string) (n : Z) s : option FileVersion :=
  List.find (fun v => of_file cfg filename v && (fv_number v =? n)%Z) (fs_versions s).

Definition executeRollback args : FT Result :=
  cfg ← config_arg args;
  filename ← name_arg "filename" cfg args;
  match version_arg args with
  | None => reject "version (number) is required"
  | Some version =>
      q ← load (find_file_version cfg filename version);
      match q with
      | Err e => throw ("querying version: " ++ e)
      | Ok None => reject ("version " ++ Itoa version ++ " not found for " ++ filename)
      | Ok (Some v) =>
          old ← ReadFile (default_path cfg filename);
          (match old with
           | Ok oldData => record_version cfg filename oldData (default "" (fv_type v)) "rollback";; mret tt
           | Err _ => mret tt
           end);;
          storagePath ← writeFileToDisk cfg filename (fv_content v);
          let ct := match nonempty (default "" (fv_type v)) with Some t => t | None => inferContentType filename end in
          save_ (fun _ s => update_row cfg filename (fun f =>
            {| f_id := f_id f; f_name := f_name f; f_type := Some ct; f_size := Some (Z.of_nat (String.length (fv_content v)));
               f_path := storagePath; f_meta := f_meta f; f_scope := f_scope f; f_created := f_created f |}) s);;
          mret (success [("filename", JStr filename); ("restored_version", int version); ("size", size_json (fv_content v));
                         ("url", JStr (urlBase cfg ++ filename))])
      end
  end.

(** ** Images from the network *)

Definition allowedImageTypes : list (string * string) :=
  [("image/jpeg", ".jpg"); ("image/png", ".png"); ("image/gif", ".gif"); ("image/webp", ".webp");
   ("image/svg+xml", ".svg"); ("image/x-icon", ".ico"); ("image/avif", ".avif")].
Definition maxImageSize : Z := Z.shiftl 5 20.

(** [Header.Get]: the first value. *)
Definition resp_header (k : string) (r : HttpResp) : string :=
  match rs_headers r !! k with Some (v :: _) => v | _ => "" end.

Definition image_type (r : HttpResp) : string :=
  let ct := resp_header "Content-Type" r in
  ToLower match Index ct ";" with Some i => TrimSpace (take_str i ct) | None => ct end.

(** The image's bytes with its type and extension. *)
Definition fetch (rawURL : string) : FT (string * string * string) :=
  n ← net_op (Some rawURL);
  match http_do n {| rq_method := "GET"; rq_url := rawURL; rq_set := []; rq_content := None |} with
  | Err e => reject ("fetching image: " ++ e)
  | Ok r =>
      guard_reject (rs_code r =? 200)%Z ("HTTP " ++ Itoa (rs_code r) ++ " from image URL");;
      let ct := image_type r in
      match table_get ct allowedImageTypes with
      | None => reject ("unsupported image type " ++ Quote ct ++ " — supported: JPEG, PNG, GIF, WebP, SVG, ICO, AVIF")
      | Some ext =>
          match rs_body r with
          | Err e => reject ("reading image: " ++ e)
          | Ok data =>
              guard_reject (Z.of_nat (String.length data) <=? maxImageSize)%Z ("image too large (>" ++ Itoa 5 ++ " MB)");;
              mret (data, ct, ext)
          end
      end
  end.

Definition filenameFromURL (rawURL fallbackExt : string) : option string :=
  match url_parse rawURL with
  | Err _ => Some ("image" ++ fallbackExt)
  | Ok u => filename_from (u_path u) fallbackExt
  end.

Definition image_name cfg args (rawURL ext : string) : FT string :=
  name ← match nonempty (arg_string "filename" args) with
         | Some n => mret n
         | None => match filenameFromURL rawURL ext with Some n => mret n | None => crash end
         end;
  let filename := sanitizeFilename name (dirName cfg) in
  let filename := if (filename =? "")%string then "image" ++ ext else filename in
  mret (if (Ext filename =? "")%string then filename ++ ext else filename).

Definition executeFetchImage args : FT Result :=
  let rawURL := arg_string "url" args in
  guard_reject (negb (rawURL =? "")%string) "url is required";;
  blocked ← validateExternalURL rawURL;
  match blocked with
  | Some e => reject ("blocked URL: " ++ e)
  | None =>
      cfg ← config_arg args;
      image ← fetch rawURL;
      let '(data, ct, ext) := image in
      filename ← image_name cfg args rawURL ext;
      storagePath ← writeFileToDisk cfg filename data;
      must_save "saving image record"
        (upsert_row cfg filename ct (String.length data) storagePath (arg_string "description" args)
           (OptionalString args "scope" "global"));;
      mret (success [("content_type", JStr ct); ("filename", JStr filename); ("size", size_json data);
                     ("url", JStr (urlBase cfg ++ filename))])
  end.

(** ** The tool *)

Definition files_infer args : string :=
  if has_arg "url" args then "fetch_image"
  else if has_arg "patches" args then "patch"
  else if has_arg "version" args then "rollback"
  else if has_arg "content" args then "save"
  else if has_arg "data" args then "save"
  else if has_arg "new_filename" args then "rename"
  else if has_arg "filename" args then "get"
  else "list".

Definition FilesTool_Execute args : FT Result :=
  dispatch [("save", executeSave); ("patch", executePatch); ("get", executeGet); ("list", executeList);
            ("delete", executeDelete); ("rename", executeRename); ("history", executeHistory);
            ("rollback", executeRollback); ("fetch_image", executeFetchImage)] (Some files_infer) args.

Definition FilesTool_Summarize (result : string) : string :=
  match parseSummaryResult result with
  | None => summarizeTruncate result 200
  | Some (false, _, e) => summarizeError e
  | Some (true, Some (JObj m), _) =>
      let filename := default "" (string_member "filename" m) in
      match nonempty (default "" (string_member "content" m)), arg "warnings" m, nonempty (default "" (string_member "css_classes" m)) with
      | Some content, _, _ =>
          dq "{'success':true,'summary':'Read file " ++ filename ++ " (" ++ Itoa (Z.of_nat (String.length content)) ++ dq " chars)'}"
      | None, Some w, _ =>
          dq "{'success':true,'file':'" ++ filename ++ dq "','warnings':" ++ Marshal w ++ dq ",'ACTION_REQUIRED':'Fix JS errors'}"
      | None, None, Some css =>
          dq "{'success':true,'file':'" ++ filename ++ dq "','css_classes':'" ++ ReplaceAll (cut_at 1200 css) (s1 double) (s1 single) ++ dq "'}"
      | None, None, None =>
          let size := match arg "size" m with Some (JNum l) => float_int l | _ => 0%Z end in
          dq "{'success':true,'summary':'File " ++ filename ++ " (" ++ Itoa size ++ dq " bytes)'}"
      end
  | _ => summarizeTruncate result 300
  end.
End Files.
