(* ===== verification/FileFacts.v ===== *)
(** * What manage_files promises

    Whatever the model asks for, the tool touches the disk only below the two
    directories of its site. *)

From Stdlib Require Import ZArith Lia Ascii String List Bool.
From stdpp Require Import base list strings gmap.
From S2P Require Import Prelude GoStrings GoTime JSONText PlanStore World ToolCore Approval SchedulerTool SiteTables PublicAPIFacts ToolMonad Tables Endpoints PageText Pages HttpTool Paths Files StoreFacts PageFacts.

Local Open Scope string_scope.

(** ** Where things are *)

Lemma Itoa_plain z : slashless (Itoa z) /\ plain_element (Itoa z) = true.
Proof.
  destruct (Itoa_cases z) as (neg & a & r & -> & Hd & _).
  assert (slashless (String a r)) as Hs.
  { eapply all_bytes_impl, Hd. intros b Hb. apply negb_true_iff. destruct (Ascii.eqb_spec b "/") as [->|]; done. }
  cbn [all_bytes] in Hd. apply andb_prop in Hd as [Ha _]. unfold plain_element, is_in, existsb.
  destruct neg; (split; [exact Hs || done|]).
  - done.
  - destruct (Ascii.eqb_spec a ".") as [->|Hn]; [done|]. apply negb_true_iff. apply Ascii.eqb_neq in Hn. cbn. by rewrite Hn.
Qed.

Definition valid (cfg : storageConfig) : Prop := cfg = assets_config \/ cfg = files_config.

Section Confined.
Context `{E : Env} `{F : Formats} `{O : MapOrder} `{N : Net} `{D : Disk}.
Context (siteID : Z).
Implicit Types (s : FileStore) (args : Args) (cfg : storageConfig).

Lemma site_dir_safe cfg : valid cfg -> safe_path (site_dir siteID cfg).
Proof.
  intros Hv. assert (safe_path (Itoa siteID)) as Hi.
  { destruct (Itoa_plain siteID) as [H1 H2]. unfold safe_path. rewrite Split_slashless_id by done. cbn. by rewrite H2. }
  assert (safe_path (dirName cfg)) as Hd by (by destruct Hv as [->| ->]). unfold site_dir.
  assert (path_Join "data" "sites" = "data/sites") as -> by reflexivity.
  rewrite (Join_safe "data/sites"); [|done|done]. rewrite Join_safe; [|by apply (safe_append "data/sites")|done].
  by apply (safe_append ("data/sites" ++ "/" ++ Itoa siteID)); [apply (safe_append "data/sites")|].
Qed.

(** Below the directory of a storage, by elements that lead nowhere else. *)
Definition inside cfg (path : string) : Prop := exists name, safe_path name /\ path = site_dir siteID cfg ++ "/" ++ name.
Definition inside_site (path : string) : Prop := exists cfg, valid cfg /\ inside cfg path.

(** What the tool may ask of the disk. *)
Definition op_ok (op : disk_op * string) : Prop :=
  match fst op with
  | OpMkdir => exists cfg, valid cfg /\ (snd op = site_dir siteID cfg \/ inside cfg (snd op))
  | OpRename to => inside_site (snd op) /\ inside_site to
  | _ => inside_site (snd op)
  end.

(** A file is where its name says. *)
Definition row_ok cfg (f : FileRow) : Prop := safe_path (f_name f) /\ f_path f = default_path siteID cfg (f_name f).

(** What has come of the store [s0]. *)
Record confined s0 s : Prop := {
  c_ops : exists l, fs_ops s = (l ++ fs_ops s0)%list /\ Forall op_ok l;
  c_assets : Forall (row_ok assets_config) (fs_assets s);
  c_files : Forall (row_ok files_config) (fs_files s);
  c_disk : forall p, ~ inside_site p -> fs_disk s !! p = fs_disk s0 !! p;
}.

Lemma default_inside cfg name : valid cfg -> safe_path name -> default_path siteID cfg name = site_dir siteID cfg ++ "/" ++ name.
Proof. intros Hv Hn. apply Join_safe; [by apply site_dir_safe|done]. Qed.

Lemma default_ok cfg name : valid cfg -> safe_path name -> inside_site (default_path siteID cfg name).
Proof. intros Hv Hn. exists cfg. split; [done|]. exists name. split; [done|]. by apply default_inside. Qed.

Lemma rows_ok s0 cfg s : valid cfg -> confined s0 s -> Forall (row_ok cfg) (rows cfg s).
Proof. by intros [->| ->] []. Qed.

Lemma confined_set_rows s0 cfg l s : valid cfg -> Forall (row_ok cfg) l -> confined s0 s -> confined s0 (set_file_rows cfg l s).
Proof. intros [->| ->] Hl []; by split. Qed.

Lemma confined_versions s0 l s : confined s0 s -> confined s0 (set_versions_of l s).
Proof. intros []; by split. Qed.

Lemma confined_update s0 cfg name f s : valid cfg -> (forall r, row_ok cfg r -> named name r = true -> row_ok cfg (f r)) ->
  confined s0 s -> confined s0 (update_row cfg name f s).
Proof.
  intros Hv Hf Hc. apply confined_set_rows; [done| |done]. apply Forall_map.
  eapply Forall_impl; [by eapply rows_ok|]. intros r Hr. cbn. destruct (named name r) eqn:Hn; [by apply Hf|done].
Qed.

Context (s0 : FileStore).
Notation I := (confined s0).

(** ** The disk *)

Lemma conf_disk_do {A} o path (f : FileStore -> res string A * FileStore) : op_ok (o, path) ->
  (forall s, I s -> I (snd (f s))) -> keeps I (disk_do o path f) (fun _ => True).
Proof.
  intros Ho Hf c Hc. split; [|done]. unfold disk_do.
  assert (I (note_op o path (cs c))) as Hn.
  { destruct Hc as [(l & Hl & Ho') ? ? ?]. split; try done. exists ((o, path) :: l). cbn. rewrite Hl. split; [done|by constructor]. }
  destruct (disk_error _ _ _); [done|]. specialize (Hf _ Hn). by destruct (f _).
Qed.

Lemma conf_set_disk d s : (forall p, ~ inside_site p -> d !! p = fs_disk s !! p) -> I s -> I (set_disk d s).
Proof. intros Hd []. split; try done. intros p Hp. cbn. rewrite Hd by done. auto. Qed.

Lemma conf_MkdirAll cfg dir : valid cfg -> dir = site_dir siteID cfg \/ inside cfg dir -> keeps I (MkdirAll dir) (fun _ => True).
Proof.
  intros Hv Hd. apply conf_disk_do; [by exists cfg|]. intros s Hs. cbv zeta. case_match; cbn; [done|]. destruct Hs; by split.
Qed.

Lemma conf_ReadFile p : inside_site p -> keeps I (ReadFile p) (fun _ => True).
Proof. intros Hp. by apply conf_disk_do. Qed.

Lemma conf_WriteFile p data : inside_site p -> keeps I (WriteFile p data) (fun _ => True).
Proof.
  intros Hp. apply conf_disk_do; [done|]. intros s Hs. destruct (place p s); cbn; [done|]. apply conf_set_disk; [|done].
  intros q Hq. rewrite lookup_insert_ne; [done|]. by intros ->.
Qed.

Lemma conf_Rename p q : inside_site p -> inside_site q -> keeps I (Rename p q) (fun _ => True).
Proof.
  intros Hp Hq. apply conf_disk_do; [done|]. intros s Hs. destruct (fs_disk s !! p), (place q s); cbn; try done.
  apply conf_set_disk; [|done]. intros r Hr. rewrite lookup_insert_ne by (by intros ->). rewrite lookup_delete_ne; [done|]. by intros ->.
Qed.

Lemma conf_Remove p : inside_site p -> keeps I (Remove p) (fun _ => True).
Proof.
  intros Hp. apply conf_disk_do; [done|]. intros s Hs. apply conf_set_disk; [|done].
  intros q Hq. rewrite lookup_delete_ne; [done|]. by intros ->.
Qed.

Lemma conf_storageDir cfg : valid cfg -> keeps I (storageDir siteID cfg) (fun d => d = site_dir siteID cfg).
Proof.
  intros Hv. unfold storageDir. eapply keeps_bind; [eapply conf_MkdirAll; [done|by left]|].
  intros [[]|e] _; [by apply keeps_ret|apply keeps_exit].
Qed.

Lemma conf_make_subdir during cfg name : valid cfg -> safe_path name ->
  keeps I (make_subdir during (site_dir siteID cfg) (default_path siteID cfg name)) (fun _ => True).
Proof.
  intros Hv Hn. unfold make_subdir. destruct (_ =? _)%string eqn:Hd; [by apply keeps_ret|].
  rewrite default_inside in * by done. eapply keeps_bind; [eapply conf_MkdirAll; [done|]|by intros; eapply keeps_any, keeps_or_throw_eq].
  destruct (Dir_safe (site_dir siteID cfg) name) as [[->|(n & Hs & ->)] _]; [by apply site_dir_safe|done|by left|right]. by exists n.
Qed.

Lemma conf_write cfg name data : valid cfg -> safe_path name ->
  keeps I (writeFileToDisk siteID cfg name data) (fun p => p = default_path siteID cfg name).
Proof.
  intros Hv Hn. unfold writeFileToDisk. eapply keeps_bind; [by apply conf_storageDir|]. intros d ->. fold (default_path siteID cfg name).
  eapply keeps_bind; [by apply conf_make_subdir|]. intros _ _.
  eapply keeps_bind; [by apply conf_WriteFile, default_ok|]. intros r _.
  eapply keeps_bind; [apply keeps_or_throw_eq|]. intros _ _. by apply keeps_ret.
Qed.

(** ** The parts of the handlers *)

Lemma conf_config_arg args : keeps I (config_arg args) valid.
Proof.
  unfold config_arg, getStorageConfig, valid. apply keeps_or_reject. intros a.
  destruct (_ =? "assets")%string; [intros [= <-]; by left|]. destruct (_ =? "files")%string; [intros [= <-]; by right|done].
Qed.

Lemma conf_name_arg k cfg args : keeps I (name_arg k cfg args) safe_path.
Proof.
  unfold name_arg. eapply keeps_bind; [apply keeps_guard|]. intros _ _. cbv zeta.
  eapply keeps_bind; [apply keeps_guard|]. intros [] Hn. apply keeps_ret, sanitizeFilename_safe.
  apply negb_true_iff in Hn. by apply String.eqb_neq in Hn.
Qed.

Definition row_at cfg (name : string) (f : FileRow) : Prop := row_ok cfg f /\ f_name f = name.

Lemma find_row_ok cfg name s f : valid cfg -> I s -> find_row cfg name s = Some f -> row_at cfg name f.
Proof.
  intros Hv Hs (Hin & Hn%String.eqb_eq)%find_some. split; [|done].
  pose proof (rows_ok s0 cfg s Hv Hs) as Hr. rewrite Forall_forall in Hr. by apply Hr, list_elem_of_In.
Qed.

Lemma conf_find cfg name : valid cfg ->
  keeps I (load (find_row cfg name)) (fun r => match r with Ok (Some f) => row_at cfg name f | _ => True end).
Proof.
  intros Hv c Hc. split; [done|]. unfold load. destruct (load_fails _); intros ? [= <-]; [done|].
  destruct (find_row cfg name (cs c)) eqn:Hf; [|done]. by eapply find_row_ok.
Qed.

Lemma conf_must_find cfg name missing : valid cfg -> keeps I (must_find cfg name missing) (row_at cfg name).
Proof.
  intros Hv. unfold must_find. eapply keeps_bind; [by apply conf_find|]. intros [[f|]|e] Hf; [by apply keeps_ret|apply keeps_exit..].
Qed.

Lemma stored_ok cfg name f : valid cfg -> safe_path name -> row_at cfg name f ->
  stored_path siteID cfg f name = default_path siteID cfg name /\ f_path f = default_path siteID cfg name.
Proof.
  intros Hv Hn [[Hs Hp] Hname]. rewrite Hname in Hp. unfold stored_path. rewrite Hp. by destruct (_ =? "")%string.
Qed.

Lemma conf_read_stored cfg name f : valid cfg -> safe_path name -> row_at cfg name f ->
  keeps I (ReadFile (stored_path siteID cfg f name)) (fun _ => True).
Proof. intros Hv Hn Hf. destruct (stored_ok cfg name f) as [-> _]; [done..|]. by apply conf_ReadFile, default_ok. Qed.

Lemma conf_write_stored cfg name f data : valid cfg -> safe_path name -> row_at cfg name f ->
  keeps I (WriteFile (stored_path siteID cfg f name) data) (fun _ => True).
Proof. intros Hv Hn Hf. destruct (stored_ok cfg name f) as [-> _]; [done..|]. by apply conf_WriteFile, default_ok. Qed.

Lemma conf_record cfg name data ct b : keeps I (record_version cfg name data ct b) (fun _ => True).
Proof. unfold record_version, last_version. keep_tac. by apply confined_versions. Qed.

Lemma conf_keep_old cfg name ct : valid cfg -> safe_path name -> keeps I (keep_old_text siteID cfg name ct) (fun _ => True).
Proof.
  intros Hv Hn. unfold keep_old_text. destruct (isTextContentType ct); [|by apply keeps_ret].
  eapply keeps_bind; [by apply conf_find|]. intros [[f|]|e] Hf; [|by apply keeps_ret..].
  eapply keeps_bind; [by apply conf_read_stored|]. intros [d|e] _; [|by apply keeps_ret].
  eapply keeps_bind; [apply conf_record|]. intros n _. keep_tac. by apply confined_versions.
Qed.

Lemma conf_upsert cfg name ct size path desc scope t s : valid cfg -> safe_path name -> path = default_path siteID cfg name ->
  I s -> I (snd (upsert_row cfg name ct size path desc scope t s)).
Proof.
  intros Hv Hn Hp Hs. apply confined_set_rows; [done| |done]. by apply Forall_upsert; [eapply rows_ok|..].
Qed.

Lemma conf_net (url : option string) : keeps I (net_op url) (fun _ => True).
Proof. intros c Hc. split; [|done]. destruct Hc; by split. Qed.

Lemma conf_validate rawURL : keeps I (validateExternalURL rawURL) (fun _ => True).
Proof. unfold validateExternalURL. destruct (url_parse rawURL); [|by apply keeps_ret]. keep_tac. apply conf_net. Qed.

#[local] Hint Resolve conf_config_arg conf_name_arg conf_find conf_must_find conf_read_stored conf_write_stored conf_record conf_keep_old
  conf_net conf_validate conf_write conf_WriteFile conf_ReadFile conf_Remove conf_storageDir conf_make_subdir default_ok : keeps.

Lemma conf_save args : keeps I (executeSave siteID args) (fun _ => True).
Proof.
  unfold executeSave. eapply keeps_bind; [apply conf_config_arg|]. intros cfg Hv. cbv zeta.
  do 2 (eapply keeps_bind; [apply keeps_guard|]; intros _ _).
  eapply keeps_bind; [apply keeps_guard|]. intros [] Hn. apply negb_true_iff, String.eqb_neq, sanitizeFilename_safe in Hn.
  keep_tac. by apply conf_upsert.
Qed.

Lemma conf_patch args : keeps I (executePatch siteID args) (fun _ => True).
Proof. unfold executePatch, read_or_reject. keep_tac; by apply confined_update. Qed.

Lemma conf_get args : keeps I (executeGet siteID args) (fun _ => True).
Proof. unfold executeGet, read_or_reject. keep_tac. Qed.

Lemma conf_list args : keeps I (executeList args) (fun _ => True).
Proof. unfold executeList. keep_tac. Qed.

Lemma conf_history args : keeps I (executeHistory args) (fun _ => True).
Proof. unfold executeHistory. keep_tac. Qed.

(** The path of a row that was found, or none. *)
Lemma conf_removed cfg name (q : res string (option FileRow)) : valid cfg -> safe_path name ->
  match q with Ok (Some f) => row_at cfg name f | _ => True end ->
  keeps I (match q with Ok (Some f) => mret (f_path f) | Ok None => reject "not found" | Err _ => mret "" end)
    (fun p => p = "" \/ inside_site p).
Proof.
  intros Hv Hn Hq. destruct q as [[f|]|e]; [|apply keeps_exit|apply keeps_ret; by left]. apply keeps_ret. right.
  destruct (stored_ok cfg name f) as [_ ->]; [done..|]. by apply default_ok.
Qed.

Lemma conf_delete args : keeps I (executeDelete args) (fun _ => True).
Proof.
  unfold executeDelete. eapply keeps_bind; [apply conf_config_arg|]. intros cfg Hv.
  eapply keeps_bind; [apply conf_name_arg|]. intros name Hn. eapply keeps_bind; [by apply conf_find|]. intros q Hq.
  eapply keeps_bind; [by eapply conf_removed|]. intros p Hp.
  eapply keeps_bind; [apply keeps_must_save; intros t s Hs|intros _ _].
  { apply confined_set_rows; [done| |done]. by eapply Forall_filter_rows, rows_ok. }
  eapply (keeps_bind _ _ _ (fun _ => True)); [|intros _ _; keep_tac].
  destruct (String.eqb_spec p "") as [->|Hne]; [by apply keeps_ret|]. destruct Hp as [->|Hp]; [done|]. keep_tac.
Qed.

Lemma conf_rename args : keeps I (executeRename siteID args) (fun _ => True).
Proof.
  unfold executeRename. eapply keeps_bind; [apply conf_config_arg|]. intros cfg Hv. cbv zeta.
  eapply keeps_bind; [apply keeps_guard|]. intros _ _. eapply keeps_bind; [apply keeps_guard|]. intros [] Hn.
  apply negb_true_iff, orb_false_iff in Hn as [Ho%String.eqb_neq%sanitizeFilename_safe Hn%String.eqb_neq%sanitizeFilename_safe].
  eapply keeps_bind; [by apply conf_must_find|]. intros f Hf. eapply keeps_bind; [by apply conf_storageDir|]. intros d ->.
  eapply keeps_bind; [by apply conf_make_subdir|]. intros _ _.
  destruct (stored_ok _ _ _ Hv Ho Hf) as [_ Hp].
  eapply (keeps_bind _ _ _ (fun _ => True)).
  { destruct (_ =? "")%string; [by apply keeps_ret|]. eapply keeps_bind; [|intros r _; eapply keeps_any, keeps_or_throw_eq].
    apply conf_Rename; [rewrite Hp|]; by apply default_ok. }
  intros _ _. eapply keeps_bind; [apply keeps_must_save; intros t s Hs|intros r _; keep_tac].
  unfold rename_row. destruct (_ && _); [done|]. by apply confined_update.
Qed.

Lemma conf_rollback args : keeps I (executeRollback siteID args) (fun _ => True).
Proof.
  unfold executeRollback. eapply keeps_bind; [apply conf_config_arg|]. intros cfg Hv.
  eapply keeps_bind; [apply conf_name_arg|]. intros name Hn. destruct (version_arg args) as [n|]; [|apply keeps_exit].
  keep_tac. apply confined_update; [done| |done]. intros r [Hr _] Hnm%String.eqb_eq. split; [done|]. cbn. by rewrite Hnm.
Qed.

(** The extension of an image, from the table. *)
Definition extension (ext : string) : Prop := slashless ext /\ (2 <= String.length ext)%nat.

Lemma allowed_extension ct ext : table_get ct allowedImageTypes = Some ext -> extension ext.
Proof.
  unfold allowedImageTypes, extension. cbn [table_get]. repeat (destruct (_ =? ct)%string; [intros [= <-]; split; [done|cbn; lia]|]). done.
Qed.

Lemma conf_fetch rawURL : keeps I (fetch rawURL) (fun x => extension (snd x)).
Proof.
  unfold fetch. eapply keeps_bind; [apply conf_net|]. intros n _. destruct (http_do n _) as [r|e]; [|apply keeps_exit].
  eapply keeps_bind; [apply keeps_guard|]. intros _ _. cbv zeta.
  destruct (table_get _ _) as [ext|] eqn:He; [|apply keeps_exit]. destruct (rs_body r); [|apply keeps_exit].
  eapply keeps_bind; [apply keeps_guard|]. intros _ _. apply keeps_ret. by eapply allowed_extension.
Qed.

Lemma conf_image_name cfg args rawURL ext : extension ext -> keeps I (image_name cfg args rawURL ext) safe_path.
Proof.
  intros [Hs Hl]. unfold image_name. eapply (keeps_bind _ _ _ (fun _ => True)).
  { destruct (nonempty _); [by apply keeps_ret|]. destruct (filenameFromURL _ _); [by apply keeps_ret|apply keeps_exit]. }
  intros name _. cbv zeta. apply keeps_ret.
  set (n := if (sanitizeFilename name (dirName cfg) =? "")%string then "image" ++ ext else sanitizeFilename name (dirName cfg)).
  assert (safe_path n) as Hn.
  { unfold n. destruct (String.eqb_spec (sanitizeFilename name (dirName cfg)) ""); [by apply safe_extend|by apply sanitizeFilename_safe]. }
  destruct (Ext n =? "")%string; [by apply safe_extend|done].
Qed.

Lemma conf_fetch_image args : keeps I (executeFetchImage siteID args) (fun _ => True).
Proof.
  unfold executeFetchImage. cbv zeta. eapply keeps_bind; [apply keeps_guard|]. intros _ _.
  eapply keeps_bind; [apply conf_validate|]. intros [e|] _; [apply keeps_exit|].
  eapply keeps_bind; [apply conf_config_arg|]. intros cfg Hv. eapply keeps_bind; [apply conf_fetch|]. intros [[data ct] ext] He.
  eapply keeps_bind; [by apply conf_image_name|]. intros name Hn. keep_tac. by apply conf_upsert.
Qed.

Lemma conf_call args : keeps I (FilesTool_Execute siteID args) (fun _ => True).
Proof.
  apply keeps_dispatch. intros name h Hin args'.
  repeat destruct Hin as [[= <- <-]|Hin]; [..|done];
    eauto using conf_save, conf_patch, conf_get, conf_list, conf_delete, conf_rename, conf_history, conf_rollback, conf_fetch_image.
Qed.
End Confined.

(** C17. Whatever the model asks for, manage_files keeps to the site.  Every
    operation on the disk it makes - in any action, on any arguments, whatever the
    disk, the database and the network answer - is on a path below data/sites/<id>/assets
    or data/sites/<id>/files whose elements are neither empty nor [.] nor [..];
    each row keeps the path its name has; and every path elsewhere holds what it held. *)
Theorem files_confined `{E : Env} `{F : Formats} `{O : MapOrder} `{N : Net} `{D : Disk} (siteID : Z) args c :
  Forall (row_ok siteID assets_config) (fs_assets (cs c)) -> Forall (row_ok siteID files_config) (fs_files (cs c)) ->
  let s' := cs (snd (outcome_of (FilesTool_Execute siteID args) c)) in
  (exists l, fs_ops s' = (l ++ fs_ops (cs c))%list /\ Forall (op_ok siteID) l) /\
  Forall (row_ok siteID assets_config) (fs_assets s') /\ Forall (row_ok siteID files_config) (fs_files s') /\
  forall p, ~ inside_site siteID p -> fs_disk s' !! p = fs_disk (cs c) !! p.
Proof.
  intros Ha Hf. assert (confined siteID (cs c) (cs c)) as Hc by (split; try done; by exists []).
  apply (keeps_outcome _ (FilesTool_Execute siteID args) (fun _ => True)) in Hc; [|apply conf_call]. by destruct Hc.
Qed.

(** ** A site with a stylesheet *)

Module FileSample.
#[export] Existing Instances ApiSample.order digit_floats.
#[export] Instance env : Env := calm_env (fun _ _ => Err "").
#[export] Instance calm : Calm.
Proof. by split. Qed.
#[export] Instance quiet : Net :=
  {| url_parse _ := Err ""; lookup_host _ _ := Err ""; parse_ip _ := None; new_request _ _ := None; http_do _ _ := Err "";
     parse_rss _ := None; parse_atom _ := None; html_tokens _ := [] |}.
#[export] Instance works : Disk := {| disk_error _ _ _ := None |}.

Definition style : FileRow :=
  {| f_id := 1; f_name := "css/a.css"; f_type := Some "text/css"; f_size := Some 3%Z; f_path := "data/sites/7/assets/css/a.css";
     f_meta := Some ""; f_scope := "global"; f_created := 0%Z |}.
Definition start : Ctx FileStore :=
  {| cw := new_world;
     cs := {| fs_assets := [style]; fs_files := []; fs_versions := []; fs_disk := {["data/sites/7/assets/css/a.css" := "b{}"]};
              fs_dirs := {["data"; "data/sites"; "data/sites/7"; "data/sites/7/assets"; "data/sites/7/assets/css"]};
              fs_ops := []; fs_net := 0; fs_urls := [] |} |}.
Definition save_args : Args := [("action", JStr "save"); ("filename", JStr "css/a.css"); ("content", JStr "i{}")].
Definition get_args : Args := [("action", JStr "get"); ("filename", JStr "/css/a.css")].
Definition rollback_args : Args := [("action", JStr "rollback"); ("filename", JStr "css/a.css"); ("version", int 1)].
End FileSample.
Import FileSample.

(** Of a name that climbs out of the site the last element is left. *)
Lemma files_confined_witness :
  let args := [("action", JStr "save"); ("filename", JStr "../../x.css"); ("content", JStr "i{}")] in
  let s' := cs (snd (outcome_of (FilesTool_Execute 7 args) start)) in
  (exists l, fs_ops s' = (l ++ fs_ops (cs start))%list /\ Forall (op_ok 7) l) /\
  Forall (row_ok 7 assets_config) (fs_assets s') /\ Forall (row_ok 7 files_config) (fs_files s') /\
  forall p, ~ inside_site 7 p -> fs_disk s' !! p = fs_disk (cs start) !! p.
Proof. apply (files_confined 7). - repeat constructor. - constructor. Defined.
