(* ===== verification/FileHistory.v ===== *)
(** * What manage_files saves, it reads back

    A file that was saved is read back as it was given, and the text it
    overwrote comes back when its version is rolled back to.  Both are stated for a
    disk and a database that do what they are asked. *)

From Stdlib Require Import ZArith Lia Ascii String List Bool.
From stdpp Require Import base list strings gmap.
From S2P Require Import Prelude GoStrings GoTime JSONText PlanStore World ToolCore Approval SchedulerTool SiteTables PublicAPIFacts ToolMonad Tables Endpoints PageText Pages HttpTool Paths Files StoreFacts PageFacts FileFacts.

Local Open Scope string_scope.

Section ReadBack.
Context `{E : Env} `{F : Formats} `{O : MapOrder} `{N : Net} `{D : Disk} `{K : !Calm}.
Context (disk_works : forall n o p, disk_error n o p = None).
Context (siteID : Z).
Implicit Types (s : FileStore) (args : Args) (cfg : storageConfig).

(** An end of the call that is no success. *)
Definition no_success (x : Exit) s : Prop := match x with Returned r => Success r = false | _ => True end.

Lemma wp_disk_do {A} s o path (f : FileStore -> res string A * FileStore) (Q : res string A -> FileStore -> Prop) X :
  Q (fst (f (note_op o path s))) (snd (f (note_op o path s))) -> wp s (disk_do o path f) Q X.
Proof. intros H c Hc. unfold disk_do. rewrite disk_works, Hc. by destruct (f _). Qed.

Lemma wp_or_throw {A} s during (r : res string A) (Q : A -> FileStore -> Prop) :
  (forall a, r = Ok a -> Q a s) -> wp s (or_throw during r) Q no_success.
Proof. intros H. destruct r; [by apply wp_ret, H|by apply wp_exit]. Qed.

Lemma wp_ReadFile s path Q X :
  Q (match fs_disk s !! path with Some d => Ok d | None => Err "no such file or directory" end) (note_op OpRead path s) ->
  wp s (ReadFile path) Q X.
Proof. intros H. by apply wp_disk_do. Qed.

(** What stays when directories are made and operations noted. *)
Definition same_data s s' : Prop := fs_disk s' = fs_disk s /\ fs_versions s' = fs_versions s /\
  fs_assets s' = fs_assets s /\ fs_files s' = fs_files s.

(** No file is on the way to a directory. *)
Definition free_way dir s : Prop := forall q, In q (prefixes "" (Split "/" dir)) -> fs_disk s !! q = None.

Lemma wp_MkdirAll s dir (Q : res string unit -> FileStore -> Prop) X :
  (forall s', same_data s s' -> (free_way dir s -> forall p, p ∈ fs_dirs s' <-> In p (prefixes "" (Split "/" dir)) \/ p ∈ fs_dirs s) ->
     Q (if bool_decide (Forall (fun q => fs_disk s !! q = None) (prefixes "" (Split "/" dir))) then Ok tt else Err "not a directory") s') ->
  wp s (MkdirAll dir) Q X.
Proof.
  intros H. apply wp_disk_do. cbv zeta. destruct (existsb _ _) eqn:He.
  - rewrite bool_decide_eq_false_2 in H; [apply H; [by repeat split|]|].
    + apply existsb_exists in He as (q & Hq & [d Hd]%bool_decide_eq_true). intros Hf. cbn in Hd. by rewrite (Hf q Hq) in Hd.
    + apply existsb_exists in He as (q & Hq & [d Hd]%bool_decide_eq_true). rewrite Forall_forall. intros Hf.
      cbn in Hd. by rewrite (Hf q) in Hd by (by apply list_elem_of_In).
  - rewrite bool_decide_eq_true_2 in H; [apply H; [by repeat split|]|].
    + intros _ p. cbn. by rewrite elem_of_union, elem_of_list_to_set, list_elem_of_In.
    + apply Forall_forall. intros q Hq%list_elem_of_In. destruct (fs_disk s !! q) eqn:Hd; [|done].
      rewrite <- not_true_iff_false, existsb_exists in He. destruct He. exists q. split; [done|]. apply bool_decide_eq_true.
      cbn. rewrite Hd. by eexists.
Qed.

Lemma same_data_trans s1 s2 s3 : same_data s1 s2 -> same_data s2 s3 -> same_data s1 s3.
Proof. unfold same_data. intuition congruence. Qed.

(** *** The way to a file *)

(** A directory on the way to another is no longer than it. *)
Lemma prefixes_length l : forall sofar q, In q (prefixes sofar l) ->
  (String.length q <= String.length sofar + 1 + String.length (Join l "/"))%nat.
Proof.
  induction l as [|c r IH]; [done|]. intros sofar q. cbn [prefixes].
  assert (String.length c <= String.length (Join (c :: r) "/"))%nat as Hc.
  { destruct r; [cbn; lia|]. rewrite Join_cons by done. rewrite !length_append. lia. }
  intros [<-|Hq].
  - destruct (_ =? "")%string; [lia|]. rewrite !length_append. change (String.length "/") with 1%nat. lia.
  - destruct r as [|d r]; [done|]. apply IH in Hq. rewrite Join_cons, !length_append by done. change (String.length "/") with 1%nat.
    destruct (sofar =? "")%string; rewrite ?length_append in Hq; change (String.length "/") with 1%nat in Hq; lia.
Qed.

Lemma not_on_the_way p dir : (String.length dir + 2 <= String.length p)%nat -> ~ In p (prefixes "" (Split "/" dir)).
Proof. intros Hl Hp%prefixes_length. rewrite Join_Split in Hp. cbn in Hp. lia. Qed.

(** A file can be written where it belongs. *)
Definition placed cfg name s : Prop :=
  free_way (site_dir siteID cfg) s /\ free_way (Dir (default_path siteID cfg name)) s /\
  place (default_path siteID cfg name) s = None.

Lemma placed_longer cfg name : valid cfg -> safe_path name ->
  (String.length (site_dir siteID cfg) + 2 <= String.length (default_path siteID cfg name))%nat /\
  (String.length (Dir (default_path siteID cfg name)) + 2 <= String.length (default_path siteID cfg name))%nat.
Proof.
  intros Hv Hn. rewrite default_inside by done. split.
  - rewrite !length_append. change (String.length "/") with 1%nat. destruct name; [by apply safe_nonempty in Hn|]. cbn [String.length]. lia.
  - by apply Dir_safe; [apply site_dir_safe|].
Qed.

Lemma free_way_write cfg name dir data s s' : (String.length dir + 2 <= String.length (default_path siteID cfg name))%nat ->
  fs_disk s' = <[default_path siteID cfg name := data]> (fs_disk s) -> free_way dir s -> free_way dir s'.
Proof.
  intros Hl Ed Hf q Hq. rewrite Ed, lookup_insert_ne; [by apply Hf|]. intros <-. by apply (not_on_the_way _ dir Hl).
Qed.

Lemma wp_WriteFile s path data (Q : res string unit -> FileStore -> Prop) X :
  (forall s', same_data s s' -> fs_dirs s' = fs_dirs s ->
     Q (match place path s with Some e => Err e | None => Ok tt end)
       (match place path s with Some _ => s' | None => set_disk (<[path := data]> (fs_disk s)) s' end)) ->
  wp s (WriteFile path data) Q X.
Proof.
  intros H. apply wp_disk_do. change (place path (note_op OpWrite path s)) with (place path s).
  specialize (H (note_op OpWrite path s) ltac:(done) eq_refl). by destruct (place path s).
Qed.

(** A directory that is made, and what a success says. *)
Lemma wp_made s dir during (Q : unit -> FileStore -> Prop) :
  (forall s', same_data s s' -> free_way dir s ->
     (forall p, p ∈ fs_dirs s' <-> In p (prefixes "" (Split "/" dir)) \/ p ∈ fs_dirs s) -> Q tt s') ->
  wp s (r ← MkdirAll dir; or_throw during r) Q no_success.
Proof.
  intros H. apply wp_bind, wp_MkdirAll. intros s' Hs Hd. case_bool_decide as Hf; [|by apply wp_exit].
  assert (free_way dir s) as Hw by (intros q Hq; rewrite Forall_forall in Hf; by apply Hf, list_elem_of_In).
  apply wp_ret, H; auto.
Qed.

(** A directory on a free way is made. *)
Lemma wp_makes {A} s dir (k : res string unit -> FT A) (Q : A -> FileStore -> Prop) X :
  free_way dir s ->
  (forall s', same_data s s' -> (forall p, p ∈ fs_dirs s' <-> In p (prefixes "" (Split "/" dir)) \/ p ∈ fs_dirs s) -> wp s' (k (Ok tt)) Q X) ->
  wp s (MkdirAll dir ≫= k) Q X.
Proof.
  intros Hf H. apply wp_bind, wp_MkdirAll. intros s' Hs Hd. rewrite bool_decide_eq_true_2; [by apply H; auto|].
  apply Forall_forall. intros q Hq. by apply Hf, list_elem_of_In.
Qed.

Lemma free_way_same dir s s' : same_data s s' -> free_way dir s -> free_way dir s'.
Proof. intros (Ed & _) Hf q. rewrite Ed. apply Hf. Qed.

(** A write that ends well leaves the file where it belongs, ready to be written again. *)
Lemma wp_writeFileToDisk s cfg name data (Q : string -> FileStore -> Prop) : valid cfg -> safe_path name ->
  (forall s', fs_disk s' = <[default_path siteID cfg name := data]> (fs_disk s) -> fs_versions s' = fs_versions s ->
     fs_assets s' = fs_assets s -> fs_files s' = fs_files s -> placed cfg name s' -> Q (default_path siteID cfg name) s') ->
  wp s (writeFileToDisk siteID cfg name data) Q no_success.
Proof.
  intros Hv Hn H. destruct (placed_longer cfg name Hv Hn) as [L1 L2]. unfold writeFileToDisk, storageDir.
  apply wp_bind, wp_bind, wp_MkdirAll. intros s1 H1 _. case_bool_decide as Hf; [|by apply wp_exit]. apply wp_ret.
  assert (free_way (site_dir siteID cfg) s1) as Hw1.
  { apply (free_way_same _ s); [done|]. intros q Hq. rewrite Forall_forall in Hf. by apply Hf, list_elem_of_In. }
  fold (default_path siteID cfg name).
  assert (forall s2, same_data s s2 -> free_way (site_dir siteID cfg) s2 -> free_way (Dir (default_path siteID cfg name)) s2 ->
    wp s2 (r ← WriteFile (default_path siteID cfg name) data; or_throw "writing file" r;; mret (default_path siteID cfg name)) Q no_success) as Hw.
  { intros s2 (Ed & Ev & Ea & Ef) F1 F2. apply wp_bind, wp_WriteFile. intros s3 (Ed3 & Ev3 & Ea3 & Ef3) Ed3'.
    destruct (place _ s2) as [e|] eqn:Hp; apply wp_bind, wp_or_throw; [done|]. intros _ _. apply wp_ret.
    apply H; cbn; try congruence. split_and!.
    - by eapply free_way_write, F1.
    - by eapply free_way_write, F2.
    - unfold place in *. cbn. by rewrite Ed3'. }
  apply wp_bind. unfold make_subdir. destruct (String.eqb_spec (Dir (default_path siteID cfg name)) (site_dir siteID cfg)) as [Ed|_].
  - apply wp_ret, Hw; [|done|by rewrite Ed]. split_and!; congruence || apply H1.
  - apply wp_made. intros s2 H2 Hf2 _. apply Hw; [by eapply same_data_trans|by eapply free_way_same|by eapply free_way_same].
Qed.

Lemma free_way_makes dir p s s' : (String.length dir + 2 <= String.length p)%nat ->
  (forall q, q ∈ fs_dirs s' <-> In q (prefixes "" (Split "/" dir)) \/ q ∈ fs_dirs s) -> place p s = None -> place p s' = None.
Proof.
  intros Hl Hd. unfold place. case_bool_decide as H1; [done|]. case_bool_decide as H2; [|done]. intros _.
  rewrite bool_decide_eq_false_2, bool_decide_eq_true_2; [done|apply Hd; by right|].
  rewrite Hd. intros [Hp|Hp]; [|done]. by apply (not_on_the_way p dir Hl).
Qed.

(** Where a file belongs it can be written. *)
Lemma wp_write_placed s cfg name data (Q : string -> FileStore -> Prop) X : valid cfg -> safe_path name -> placed cfg name s ->
  (forall s', fs_disk s' = <[default_path siteID cfg name := data]> (fs_disk s) -> fs_versions s' = fs_versions s ->
     fs_assets s' = fs_assets s -> fs_files s' = fs_files s -> Q (default_path siteID cfg name) s') ->
  wp s (writeFileToDisk siteID cfg name data) Q X.
Proof.
  intros Hv Hn (F1 & F2 & Hp) H. destruct (placed_longer cfg name Hv Hn) as [L1 L2]. unfold writeFileToDisk, storageDir.
  apply wp_bind, wp_makes; [done|]. intros s1 H1 Hd1. apply wp_ret. fold (default_path siteID cfg name).
  assert (place (default_path siteID cfg name) s1 = None) as Hp1 by (by apply (free_way_makes _ _ _ _ L1 Hd1)).
  assert (forall s2, same_data s s2 -> place (default_path siteID cfg name) s2 = None ->
    wp s2 (r ← WriteFile (default_path siteID cfg name) data; or_throw "writing file" r;; mret (default_path siteID cfg name)) Q X) as Hw.
  { intros s2 (Ed & Ev & Ea & Ef) Hp2. apply wp_bind, wp_WriteFile. intros s3 (Ed3 & Ev3 & Ea3 & Ef3) _.
    rewrite Hp2. apply wp_bind, wp_ret, wp_ret, H; cbn; congruence. }
  apply wp_bind. unfold make_subdir. destruct (_ =? _)%string; [by apply wp_ret, Hw|].
  apply wp_makes; [by eapply free_way_same|]. intros s2 H2 Hd2.
  apply wp_ret, Hw; [by eapply same_data_trans|by apply (free_way_makes _ _ _ _ L2 Hd2)].
Qed.

(** *** The parts of the handlers *)

Lemma valid_config args cfg : getStorageConfig args = Ok cfg -> valid cfg.
Proof. unfold getStorageConfig, valid. cbv zeta. repeat (case_match; [intros [= <-]; auto|]). done. Qed.

Lemma wp_config s args (Q : storageConfig -> FileStore -> Prop) :
  (forall cfg, getStorageConfig args = Ok cfg -> Q cfg s) -> wp s (config_arg args) Q no_success.
Proof. intros H. by apply wp_or_reject. Qed.

Lemma wp_name s args k cfg (Q : string -> FileStore -> Prop) :
  (let name := sanitizeFilename (arg_string k args) (dirName cfg) in arg_string k args <> "" -> name <> "" -> Q name s) ->
  wp s (name_arg k cfg args) Q no_success.
Proof.
  intros H. unfold name_arg. apply wp_bind, wp_guard; [intros H1%negb_true_iff%String.eqb_neq|done].
  apply wp_bind, wp_guard; [intros H2%negb_true_iff%String.eqb_neq|done]. apply wp_ret. by apply H.
Qed.

(** *** The history *)

Lemma find_filter {A} (key keep : A -> bool) l : (forall x, key x = true -> keep x = true) ->
  List.find key (List.filter keep l) = List.find key l.
Proof.
  intros H. induction l as [|x l IH]; [done|]. cbn. destruct (keep x) eqn:Hk; cbn; [by rewrite IH|].
  destruct (key x) eqn:Hx; [by rewrite H in Hk|done].
Qed.

Lemma max_file_version_le cfg name s v : In v (fs_versions s) -> of_file cfg name v = true ->
  (fv_number v <= max_file_version cfg name s)%Z.
Proof. intros Hv Ho. apply fold_max_le, in_map_iff. exists v. split; [done|]. by apply filter_In. Qed.

(** The number after the last is free, so that the version it is given to is found by it. *)
Lemma find_recorded cfg name s v : of_file cfg name v = true -> fv_number v = (max_file_version cfg name s + 1)%Z ->
  List.find (fun w => of_file cfg name w && (fv_number w =? max_file_version cfg name s + 1)%Z) (fs_versions s ++ [v])%list = Some v.
Proof.
  intros Ho Hn. rewrite find_app_None; [cbn; by rewrite Ho, Hn, Z.eqb_refl|].
  destruct (List.find _ (fs_versions s)) as [w|] eqn:Hf; [|done]. exfalso.
  apply find_some in Hf as [Hin [Hw Hx%Z.eqb_eq]%andb_prop]. pose proof (max_file_version_le cfg name s w Hin Hw). lia.
Qed.

Lemma version_row_of_file cfg name data ct n b t : of_file cfg name (version_row cfg name data ct n b t) = true.
Proof. unfold of_file, version_row. cbn. by rewrite !String.eqb_refl. Qed.

Definition recorded cfg name (old ct : string) s s' : Prop := exists v,
  find_file_version cfg name (max_file_version cfg name s + 1) s' = Some v /\ fv_content v = old /\ fv_type v = Some ct.

(** The same rows and the same files. *)
Definition same_files s s' : Prop := fs_disk s' = fs_disk s /\ fs_assets s' = fs_assets s /\ fs_files s' = fs_files s.

Lemma wp_record s cfg name data ct b (Q : Z -> FileStore -> Prop) X :
  (forall t, Q (max_file_version cfg name s + 1)%Z
     (set_versions_of (fs_versions s ++ [version_row cfg name data ct (max_file_version cfg name s + 1) b t])%list s)) ->
  wp s (record_version cfg name data ct b) Q X.
Proof.
  intros H. unfold record_version, last_version. apply wp_bind, wp_bind, wp_load_calm, wp_ret, wp_bind, wp_save__calm.
  intros t. by apply wp_ret.
Qed.

Lemma wp_keep_old s cfg name ct X : wp s (keep_old_text siteID cfg name ct)
  (fun _ s' => same_files s s' /\ (isTextContentType ct = true -> forall f old, find_row cfg name s = Some f ->
     fs_disk s !! stored_path siteID cfg f name = Some old -> recorded cfg name old ct s s')) X.
Proof.
  unfold keep_old_text. destruct (isTextContentType ct); [|by apply wp_ret; split].
  apply wp_bind, wp_load_calm. destruct (find_row cfg name s) as [f|] eqn:Hf; [|apply wp_ret; by split].
  apply wp_bind, wp_ReadFile. destruct (fs_disk s !! stored_path siteID cfg f name) as [old|] eqn:Ho.
  2: { apply wp_ret. split; [done|]. intros _ f' old [= <-]. by rewrite Ho. }
  apply wp_bind, wp_record. intros t. set (n := (max_file_version cfg name _ + 1)%Z).
  destruct (maxFileVersions <? n)%Z.
  - apply wp_bind, wp_save__calm. intros t'. apply wp_ret. split; [done|]. intros _ f' old' [= <-]. rewrite Ho. intros [= <-].
    exists (version_row cfg name old ct n "brain" t). split; [|done]. unfold find_file_version. cbn [fs_versions set_versions_of]. rewrite find_filter.
    + apply (find_recorded cfg name (note_op OpRead _ s)); [apply version_row_of_file|done].
    + intros w [_ Hw%Z.eqb_eq]%andb_prop. apply negb_true_iff, andb_false_iff. right. apply Z.leb_gt. rewrite Hw.
      unfold maxFileVersions. change (max_file_version cfg name s + 1)%Z with n. lia.
  - apply wp_ret. split; [done|]. intros _ f' old' [= <-]. rewrite Ho. intros [= <-].
    exists (version_row cfg name old ct n "brain" t). split; [|done]. apply (find_recorded cfg name (note_op OpRead _ s)); [apply version_row_of_file|done].
Qed.

(** *** What a successful save leaves *)

Definition holds cfg name (data ct : string) s : Prop :=
  fs_disk s !! default_path siteID cfg name = Some data /\
  exists f, find_row cfg name s = Some f /\ f_type f = Some ct /\ f_path f = default_path siteID cfg name.

Record saved_as args cfg name data ct : Prop := {
  sv_config : getStorageConfig args = Ok cfg;
  sv_given : arg_string "filename" args <> "";
  sv_name : name = sanitizeFilename (arg_string "filename" args) (dirName cfg);
  sv_named : name <> "";
  sv_data : decodeFileData (arg_string "content" args) (arg_string "data" args) = Some data;
  sv_type : ct = content_type_of name (arg_string "content_type" args);
}.

Lemma rows_set cfg l s : rows cfg (set_file_rows cfg l s) = l.
Proof. unfold rows, set_file_rows. by destruct (is_assets cfg). Qed.

Lemma find_upserted cfg name ct size path desc scope t s :
  exists f, find_row cfg name (snd (upsert_row cfg name ct size path desc scope t s)) = Some f /\ f_type f = Some ct /\ f_path f = path.
Proof.
  unfold find_row, upsert_row. cbn [snd]. rewrite rows_set. unfold upsert. destruct (existsb _ _) eqn:He; cbn [snd].
  - rewrite find_update_where by (intros y Hy; rewrite Hy; apply String.eqb_refl).
    apply existsb_exists in He as (y & Hin & Hy). destruct (List.find _ _) as [z|] eqn:Hf.
    + apply find_some in Hf as [_ Hz]. cbn [option_map]. rewrite Hz. by eexists.
    + by rewrite (find_none _ _ Hf y Hin) in Hy.
  - rewrite find_app_None.
    + unfold named. cbn. rewrite String.eqb_refl. by eexists.
    + destruct (List.find _ _) as [z|] eqn:Hf; [|done]. apply find_some in Hf as [Hin Hz].
      by rewrite <- not_true_iff_false, existsb_exists in He; destruct He; exists z.
Qed.

Lemma wp_executeSave s args : wp s (executeSave siteID args)
  (fun _ s' => exists cfg name data ct, saved_as args cfg name data ct /\ holds cfg name data ct s' /\ placed cfg name s' /\
     (isTextContentType ct = true -> forall f old, find_row cfg name s = Some f ->
        fs_disk s !! stored_path siteID cfg f name = Some old -> recorded cfg name old ct s s')) no_success.
Proof.
  unfold executeSave. apply wp_bind, wp_config. intros cfg Hcfg. cbv zeta.
  apply wp_bind, wp_guard; [intros H1%negb_true_iff%String.eqb_neq|done]. apply wp_bind, wp_guard; [intros _|done].
  apply wp_bind, wp_guard; [intros H2%negb_true_iff%String.eqb_neq|done].
  destruct (decodeFileData _ _) as [data|] eqn:Hd; [|by apply wp_exit]. apply wp_bind, wp_guard; [intros _|done].
  apply wp_bind. eapply wp_mono; [apply wp_keep_old| |done]. intros _ s1 [(Ed & Ea & Ef) Hrec].
  apply wp_bind, wp_writeFileToDisk; [by eapply valid_config|by apply sanitizeFilename_safe|].
  intros s2 Hdisk Hvers _ _ Hp. apply wp_bind, wp_must_save_calm. intros t. apply wp_ret.
  eexists cfg, _, data, _. split; [by split|]. split; [split; [|apply find_upserted]|split; [exact Hp|]].
  - cbn. by rewrite Hdisk, lookup_insert_eq.
  - intros Ht f old Hf Ho. destruct (Hrec Ht f old Hf Ho) as (v & Hv & Hc). exists v. split; [|done].
    unfold find_file_version in *. cbn. by rewrite Hvers.
Qed.

(** *** Reading *)

(** The arguments mean this file. *)
Record names args cfg name : Prop := {
  nm_config : getStorageConfig args = Ok cfg;
  nm_given : arg_string "filename" args <> "";
  nm_name : sanitizeFilename (arg_string "filename" args) (dirName cfg) = name;
  nm_named : name <> "";
}.

Lemma wp_names s args cfg name (Q : string -> FileStore -> Prop) X : names args cfg name -> Q name s ->
  wp s (name_arg "filename" cfg args) Q X.
Proof.
  intros [_ Hg <- Hn] HQ. unfold name_arg. apply wp_bind, wp_guard; [intros _|by intros ?%negb_false_iff%String.eqb_eq].
  apply wp_bind, wp_guard; [intros _|by intros ?%negb_false_iff%String.eqb_eq]. by apply wp_ret.
Qed.

Lemma wp_named_config s args cfg name (Q : storageConfig -> FileStore -> Prop) X : names args cfg name -> Q cfg s ->
  wp s (config_arg args) Q X.
Proof. intros [Hc _ _ _] HQ. unfold config_arg. rewrite Hc. by apply wp_ret. Qed.

(** What a reader gets out of the answer: the text, or the bytes the base64 stands for. *)
Definition answered (r : Result) : option string :=
  match Data r with
  | Some (JObj m) =>
      match string_member "content" m, string_member "data" m with
      | Some t, _ => Some t
      | None, Some b => DecodeString b
      | None, None => None
      end
  | _ => None
  end.
Definition answered_type (r : Result) : option string :=
  match Data r with Some (JObj m) => string_member "content_type" m | _ => None end.

Definition reads_as (r : Result) data ct : Prop := Success r = true /\ answered r = Some data /\ answered_type r = Some ct.

Lemma holds_stored cfg name data ct s f : holds cfg name data ct s -> find_row cfg name s = Some f ->
  stored_path siteID cfg f name = default_path siteID cfg name.
Proof. intros [_ (f' & -> & _ & Hp)] [= ->]. unfold stored_path. rewrite Hp. by destruct (_ =? _)%string. Qed.

Lemma wp_executeGet s args cfg name data ct X : names args cfg name -> holds cfg name data ct s ->
  wp s (executeGet siteID args) (fun r _ => reads_as r data ct) X.
Proof.
  intros Hn Hh. unfold executeGet. eapply wp_bind, wp_named_config; [done|]. eapply wp_bind, wp_names; [done|].
  destruct (proj2 Hh) as (f & Hf & Ht & _). unfold must_find, read_or_reject. apply wp_bind, wp_bind, wp_load_calm. rewrite Hf.
  apply wp_ret, wp_bind, wp_bind, wp_ReadFile. rewrite (holds_stored _ _ _ _ _ _ Hh Hf), (proj1 Hh).
  apply wp_ret, wp_ret. rewrite Ht. cbn [default id]. unfold reads_as. destruct (isTextContentType ct); [by repeat split|].
  split; [done|]. split; [|done]. unfold answered. cbn [Data success string_member]. by apply DecodeString_EncodeToString.
Qed.

(** *** Rolling back *)

Lemma wp_executeRollback s args cfg name data ct0 n v ct X : valid cfg -> names args cfg name -> holds cfg name data ct0 s ->
  placed cfg name s -> version_arg args = Some n -> find_file_version cfg name n s = Some v -> fv_type v = Some ct -> ct <> "" ->
  wp s (executeRollback siteID args) (fun r s' => Success r = true /\ holds cfg name (fv_content v) ct s') X.
Proof.
  intros Hv Hn [Hd (f & Hf & _)] Hp Hver Hfv Hct Hne. unfold executeRollback.
  eapply wp_bind, wp_named_config; [done|]. eapply wp_bind, wp_names; [done|]. rewrite Hver.
  apply wp_bind, wp_load_calm. rewrite Hfv. apply wp_bind, wp_ReadFile. rewrite Hd.
  apply wp_bind, wp_bind, wp_record. intros t. apply wp_ret, wp_bind, wp_write_placed.
  { done. } { destruct Hn as [_ _ <- Hne']. by apply sanitizeFilename_safe. }
  { exact Hp. }
  intros s' Hd' _ Ha Hfs. apply wp_bind, wp_save__calm. intros t'. apply wp_ret. split; [done|]. split.
  - cbn. by rewrite Hd', lookup_insert_eq.
  - unfold find_row, update_row. rewrite rows_set, find_update_where by done. unfold rows in *.
    replace (if is_assets cfg then fs_assets s' else fs_files s') with (rows cfg s) by (unfold rows; cbn in Ha, Hfs; by rewrite Ha, Hfs).
    fold (find_row cfg name s). rewrite Hf. apply find_some in Hf as [_ Hnm]. cbn. rewrite Hnm. cbn. rewrite Hct. cbn [default nonempty].
    destruct ct; [done|]. by eexists.
Qed.

(** *** The promises *)

Definition succeeds (x : Exit) : Prop := match x with Returned r => Success r = true | _ => False end.

Lemma save_outcome args c : succeeds (fst (outcome_of (executeSave siteID args) c)) ->
  exists cfg name data ct, saved_as args cfg name data ct /\
    let s' := cs (snd (outcome_of (executeSave siteID args) c)) in
    holds cfg name data ct s' /\ placed cfg name s' /\
    (isTextContentType ct = true -> forall f old, find_row cfg name (cs c) = Some f ->
       fs_disk (cs c) !! stored_path siteID cfg f name = Some old -> recorded cfg name old ct (cs c) s').
Proof.
  pose proof (wp_executeSave (cs c) args c eq_refl) as H. unfold outcome_of. destruct (executeSave siteID args c) as [[r|x] c1]; cbn in *.
  - intros _. destruct H as (cfg & name & data & ct & Hs & Hh & Hp & Hr). by exists cfg, name, data, ct.
  - destruct x as [r| |]; cbn in *; [congruence|done|done].
Qed.
End ReadBack.

(** A file that is saved is read back.  When a save succeeds - with the content
    as text or as base64 - the name asked for, made safe, holds the bytes given,
    under the type its extension says: whatever arguments then name the same file
    in the same storage, [get] answers these bytes, a text as it is and anything
    else in a base64 that decodes to them. *)
Theorem saved_file_read_back `{E : Env} `{F : Formats} `{O : MapOrder} `{N : Net} `{D : Disk} `{K : !Calm} (siteID : Z) args c :
  (forall n o p, disk_error n o p = None) ->
  let '(x, c1) := outcome_of (executeSave siteID args) c in
  succeeds x -> exists cfg name data ct, saved_as args cfg name data ct /\
    forall args', names args' cfg name ->
      match fst (outcome_of (executeGet siteID args') c1) with Returned r => reads_as r data ct | _ => False end.
Proof.
  intros Hd. pose proof (save_outcome Hd siteID args c) as H. destruct (outcome_of (executeSave siteID args) c) as [x c1]. cbn [fst snd] in H.
  intros Hx. destruct (H Hx) as (cfg & name & data & ct & Hs & Hh & _). exists cfg, name, data, ct. split; [done|]. intros args' Hn.
  apply (wp_outcome (cs c1) _ (fun x _ => match x with Returned r => reads_as r data ct | _ => False end)); [|done].
  by eapply wp_executeGet.
Qed.

(** The text a save overwrites can be had back.  The save of a text over a file
    that is on disk keeps the old text in the history, under the number after the
    last one (and the history of more than ten versions is cut at its old end); the
    rollback to that number succeeds, and the file then reads as before the save. *)
Theorem overwritten_text_restored `{E : Env} `{F : Formats} `{O : MapOrder} `{N : Net} `{D : Disk} `{K : !Calm} (siteID : Z)
    args c cfg name ct f old :
  (forall n o p, disk_error n o p = None) ->
  getStorageConfig args = Ok cfg -> name = sanitizeFilename (arg_string "filename" args) (dirName cfg) ->
  ct = content_type_of name (arg_string "content_type" args) -> isTextContentType ct = true ->
  find_row cfg name (cs c) = Some f -> fs_disk (cs c) !! stored_path siteID cfg f name = Some old ->
  let '(x, c1) := outcome_of (executeSave siteID args) c in
  succeeds x -> forall rollback_args get_args, names rollback_args cfg name -> names get_args cfg name ->
    version_arg rollback_args = Some (max_file_version cfg name (cs c) + 1)%Z ->
    let '(y, c2) := outcome_of (executeRollback siteID rollback_args) c1 in
    succeeds y /\
    match fst (outcome_of (executeGet siteID get_args) c2) with Returned r => reads_as r old ct | _ => False end.
Proof.
  intros Hd Hcfg Hname Hct Htext Hf Hold. pose proof (save_outcome Hd siteID args c) as H.
  destruct (outcome_of (executeSave siteID args) c) as [x c1]. cbn [fst snd] in H.
  intros Hx rb gt Hrb Hgt Hver. destruct (H Hx) as (cfg' & name' & data & ct' & [Hc _ Hn _ _ Ht] & Hh & Hp & Hr).
  rewrite Hcfg in Hc. injection Hc as <-. rewrite <- Hname in Hn. subst name'. rewrite <- Hct in Ht. subst ct'.
  destruct (Hr Htext f old Hf Hold) as (v & Hv & Hvc & Hvt).
  assert (ct <> "") as Hne by (by intros ->).
  pose proof (wp_executeRollback Hd siteID (cs c1) rb cfg name data ct _ v ct (fun _ _ => False) (valid_config _ _ Hcfg) Hrb Hh Hp Hver Hv Hvt Hne) as Hw.
  specialize (Hw c1 eq_refl). unfold outcome_of at 1. destruct (executeRollback siteID rb c1) as [[r|y] c2]; [|done].
  destruct Hw as [Hok Hh2]. split; [done|]. rewrite Hvc in Hh2.
  apply (wp_outcome (cs c2) _ (fun x _ => match x with Returned r => reads_as r old ct | _ => False end)); [|done].
  by eapply wp_executeGet.
Qed.

Import FileSample.

Lemma saved_file_read_back_witness :
  let '(x, c1) := outcome_of (executeSave 7 save_args) start in
  succeeds x -> exists cfg name data ct, saved_as save_args cfg name data ct /\
    forall args', names args' cfg name ->
      match fst (outcome_of (executeGet 7 args') c1) with Returned r => reads_as r data ct | _ => False end.
Proof. apply (saved_file_read_back 7 save_args start). done. Defined.

(** The save succeeds, and the file reads as [i{}]; after the rollback it reads as [b{}]. *)
Lemma overwritten_text_restored_witness :
  let '(x, c1) := outcome_of (executeSave 7 save_args) start in
  let '(y, c2) := outcome_of (executeRollback 7 rollback_args) c1 in
  succeeds x /\ succeeds y /\
  match fst (outcome_of (executeGet 7 get_args) c2) with Returned r => reads_as r "b{}" "text/css" | _ => False end.
Proof.
  pose proof (overwritten_text_restored 7 save_args start assets_config "css/a.css" "text/css" style "b{}"
    ltac:(done) eq_refl eq_refl ltac:(vm_compute; reflexivity) eq_refl ltac:(vm_compute; reflexivity) ltac:(vm_compute; reflexivity)) as H.
  destruct (outcome_of (executeSave 7 save_args) start) as [x c1] eqn:Hs. assert (succeeds x) as Hx.
  { change x with (fst (x, c1)). rewrite <- Hs. vm_compute. reflexivity. }
  specialize (H Hx rollback_args get_args ltac:(by split) ltac:(by split) eq_refl).
  destruct (outcome_of (executeRollback 7 rollback_args) c1). split; [exact Hx|exact H].
Defined.
