(* ===== verification/SiteDB.v ===== *)
(** * db: opening databases, migrations, the cache of site databases

    db/db.go, db/migrations.go and db/sitedb.go.  SQLite is a parameter: what a
    statement does to the content of a database.  Files, directories and pools can
    fail at any use; a pool is a number, open until it is closed. *)

From Stdlib Require Import ZArith Lia Ascii String List Bool.
From stdpp Require Import base list strings gmap.
From S2P Require Import Prelude GoStrings GoTime ToolCore.

Local Open Scope string_scope.

(** ** The outside *)

(** The content of a database, and a statement executed on it; what it leaves
    behind when it fails counts too. *)
Class SQLite := {
  content : Type;
  fresh : content;
  run_sql : string -> content -> res string unit * content;
  io_fails : nat -> option string;              (* the answer of the operating system or the driver *)
}.

(** A database file: the names in its migrations table, once there is one, and
    everything else. *)
Record DbFile `{K : SQLite} := { applied : option (list string); body : content }.

Section SiteDB.
Context `{K : SQLite}.
Context (migrations : list (string * string)).       (* the embedded directory *)

(** ** Migrations *)

(** The comment lines at the head of a statement are taken off. *)
Fixpoint strip_comments (fuel : nat) (stmt : string) : string :=
  match fuel with
  | O => stmt
  | S fuel =>
      if HasPrefix stmt "--" then
        match Index stmt newline with
        | Some idx => strip_comments fuel (TrimSpace (drop_str (idx + 1) stmt))
        | None => ""
        end
      else stmt
  end.

Definition clean_statement (stmt : string) : string :=
  let stmt := TrimSpace stmt in strip_comments (S (String.length stmt)) stmt.

Definition statements_of (text : string) : list string :=
  List.filter (fun s => negb (s =? "")%string) (map clean_statement (Split ";" text)).

Fixpoint run_statements (name : string) (l : list string) (c : content) : res string unit * content :=
  match l with
  | [] => (Ok tt, c)
  | stmt :: r =>
      match run_sql stmt c with
      | (Err e, c') => (Err ("executing migration " ++ name ++ ": " ++ e ++ newline ++ "Statement: " ++ stmt), c')
      | (Ok _, c') => run_statements name r c'
      end
  end.

(** In the order of their names. *)
Fixpoint insert_file (f : string * string) (l : list (string * string)) : list (string * string) :=
  match l with
  | [] => [f]
  | g :: r => match String.compare (fst f) (fst g) with Gt => g :: insert_file f r | _ => f :: l end
  end.
Definition sql_files : list (string * string) :=
  List.filter (fun f => HasSuffix (fst f) ".sql") (foldr insert_file [] migrations).

(** The loop over the files; [n] counts the accesses to the file system. *)
Fixpoint apply_migrations (files : list (string * string)) (names : list string) (c : content) (n : nat)
    : res string unit * (list string * content * nat) :=
  match files with
  | [] => (Ok tt, (names, c, n))
  | (name, text) :: r =>
      match io_fails n with
      | Some e => (Err ("checking migration " ++ name ++ ": " ++ e), (names, c, S n))
      | None =>
          if existsb (String.eqb name) names then apply_migrations r names c (S n)
          else
            match run_statements name (statements_of text) c with
            | (Err e, c') => (Err e, (names, c', S n))
            | (Ok _, c') =>
                match io_fails (S n) with
                | Some e => (Err ("recording migration " ++ name ++ ": " ++ e), (names, c', S (S n)))
                | None => apply_migrations r (names ++ [name])%list c' (S (S n))
                end
            end
      end
  end.

(** [migrate] and [runSiteMigrations]. *)
Definition migrate (f : DbFile) (n : nat) : res string unit * (DbFile * nat) :=
  match io_fails n with
  | Some e => (Err ("creating migrations table: " ++ e), (f, S n))
  | None =>
      let '(r, (names, c, n')) := apply_migrations sql_files (default [] (applied f)) (body f) (S n) in
      (r, ({| applied := Some names; body := c |}, n'))
  end.

(** ** The databases of the sites *)

Record SiteDB := { sd_read : nat; sd_writer : nat; sd_site : Z }.

Record Mgr := {
  dbs : gmap Z SiteDB;                (* the cache *)
  files : gmap Z DbFile;              (* <dataDir>/sites/<id>/site.db *)
  pools : gset nat;                   (* open pools *)
  next_pool : nat;
  io : nat;                           (* accesses so far *)
}.

Definition NewSiteDBManager (files : gmap Z DbFile) : Mgr :=
  {| dbs := ∅; files := files; pools := ∅; next_pool := 0; io := 0 |}.

Definition D (A : Type) : Type := Mgr -> (res string A * Mgr)%type.
#[export] Instance D_ret : MRet D := fun A a m => (Ok a, m).
#[export] Instance D_bind : MBind D := fun A B k p m =>
  match p m with (Ok a, m') => k a m' | (Err e, m') => (Err e, m') end.

Definition set_dbs (d : gmap Z SiteDB) (m : Mgr) : Mgr :=
  {| dbs := d; files := files m; pools := pools m; next_pool := next_pool m; io := io m |}.
Definition set_files (f : gmap Z DbFile) (m : Mgr) : Mgr :=
  {| dbs := dbs m; files := f; pools := pools m; next_pool := next_pool m; io := io m |}.
Definition set_pools (p : gset nat) (m : Mgr) : Mgr :=
  {| dbs := dbs m; files := files m; pools := p; next_pool := next_pool m; io := io m |}.

(** An access that may fail. *)
Definition access (what : string) : D unit := fun m =>
  let m' := {| dbs := dbs m; files := files m; pools := pools m; next_pool := next_pool m; io := S (io m) |} in
  match io_fails (io m) with Some e => (Err (what ++ ": " ++ e), m') | None => (Ok tt, m') end.

(** A change of the manager's own state. *)
Definition modify (f : Mgr -> Mgr) : D unit := fun m => (Ok tt, f m).

(** [sql.Open]: a pool. *)
Definition new_pool : D nat := fun m =>
  (Ok (next_pool m), {| dbs := dbs m; files := files m; pools := {[next_pool m]} ∪ pools m;
                        next_pool := S (next_pool m); io := io m |}).
Definition sql_Open (what : string) : D nat :=
  access what;;
  new_pool.

(** [db.Ping]: the file is there from now on. *)
Definition Ping (what : string) (siteID : Z) : D unit :=
  access what;;
  modify (fun m => set_files (<[siteID := default {| applied := None; body := fresh |} (files m !! siteID)]> (files m)) m).

Definition pool_Close (p : nat) : D unit := modify (fun m => set_pools (pools m ∖ {[p]}) m).

(** [if err := p; err != nil { cleanup; return err }] *)
Definition on_error {A} (p : D A) (cleanup : D unit) : D A := fun m =>
  match p m with
  | (Ok a, m') => (Ok a, m')
  | (Err e, m') => (Err e, snd (cleanup m'))
  end.

Definition run_site_migrations (siteID : Z) : D unit := fun m =>
  let '(r, (f, n)) := migrate (default {| applied := None; body := fresh |} (files m !! siteID)) (io m) in
  (match r with Ok _ => Ok tt | Err e => Err ("running site migrations for site " ++ Itoa siteID ++ ": " ++ e) end,
   {| dbs := dbs m; files := <[siteID := f]> (files m); pools := pools m; next_pool := next_pool m; io := n |}).

Definition openSiteDB (siteID : Z) : D SiteDB :=
  access "creating site db directory";;
  readDB ← sql_Open ("opening site database " ++ Itoa siteID ++ " (read)");
  on_error (Ping ("pinging site database " ++ Itoa siteID) siteID) (pool_Close readDB);;
  writeDB ← on_error (sql_Open ("opening site database " ++ Itoa siteID ++ " (write)")) (pool_Close readDB);
  on_error (Ping ("pinging site database " ++ Itoa siteID ++ " (write)") siteID) (pool_Close readDB;; pool_Close writeDB);;
  on_error (run_site_migrations siteID) (pool_Close writeDB;; pool_Close readDB);;
  mret {| sd_read := readDB; sd_writer := writeDB; sd_site := siteID |}.

(** The part of [Open] under the write lock, which looks into the cache again. *)
Definition open_locked (siteID : Z) : D SiteDB := fun m =>
  match dbs m !! siteID with
  | Some sdb => (Ok sdb, m)
  | None => (sdb ← openSiteDB siteID;
             modify (fun m => set_dbs (<[siteID := sdb]> (dbs m)) m);;
             mret sdb) m
  end.

Definition Open (siteID : Z) : D SiteDB := fun m =>
  match dbs m !! siteID with
  | Some sdb => (Ok sdb, m)
  | None => open_locked siteID m
  end.

Definition Create (siteID : Z) : D SiteDB := fun m =>
  match dbs m !! siteID with
  | Some sdb => (Ok sdb, m)
  | None => (access "creating site db directory";; open_locked siteID) m
  end.

(** The pools of a site are closed and the cache forgets it. *)
Definition Close (siteID : Z) : D unit := fun m =>
  match dbs m !! siteID with
  | Some sdb => (pool_Close (sd_writer sdb);; pool_Close (sd_read sdb);;
                 modify (fun m => set_dbs (delete siteID (dbs m)) m)) m
  | None => (Ok tt, m)
  end.

Definition Delete (siteID : Z) : D unit :=
  Close siteID;;
  access "removing site directory";;
  modify (fun m => set_files (delete siteID (files m)) m).

Definition Get (siteID : Z) (m : Mgr) : option SiteDB := dbs m !! siteID.

Fixpoint close_all (l : list (Z * SiteDB)) : D unit :=
  match l with
  | [] => mret tt
  | (_, sdb) :: r => pool_Close (sd_writer sdb);; pool_Close (sd_read sdb);; close_all r
  end.
Definition CloseAll : D unit := fun m =>
  (close_all (map_to_list (dbs m));; modify (set_dbs ∅)) m.

Definition OpenSiteIDs (m : Mgr) : list Z := (map_to_list (dbs m)).*1.
End SiteDB.

(** ** Migrations: facts *)

Lemma length_trim_with len skip s : (String.length (trim_with len skip s) <= String.length s)%nat.
Proof.
  revert skip. induction s as [|a s IH]; intros skip; [by destruct skip|].
  destruct skip; cbn [trim_with]; [|cbn; specialize (IH skip); lia].
  destruct (len (String a s)) as [|k]; cbn; [lia|]. specialize (IH k). lia.
Qed.

Lemma length_reverse s : String.length (reverse s) = String.length s.
Proof. induction s as [|a s IH]; [done|]. rewrite reverse_cons, length_append, IH. cbn. lia. Qed.

Lemma length_TrimSpace s : (String.length (TrimSpace s) <= String.length s)%nat.
Proof.
  unfold TrimSpace. rewrite length_reverse. etrans; [apply length_trim_with|]. rewrite length_reverse. apply length_trim_with.
Qed.

Lemma length_drop n s : String.length (drop_str n s) = (String.length s - n)%nat.
Proof. revert s. induction n as [|n IH]; intros [|a s]; cbn; [done..|]. apply IH. Qed.

(** The fuel is enough: what is left of a statement starts with no comment. *)
Lemma strip_comments_done fuel s : (String.length s < fuel)%nat -> HasPrefix (strip_comments fuel s) "--" = false.
Proof.
  revert s. induction fuel as [|fuel IH]; intros s Hs; [lia|]. cbn [strip_comments].
  destruct (HasPrefix s "--") eqn:Hp; [|done]. destruct (Index s newline) as [idx|]; [|done].
  apply IH. pose proof (length_TrimSpace (drop_str (idx + 1) s)) as H. rewrite length_drop in H.
  destruct s as [|a s]; [done|]. cbn [String.length] in *. lia.
Qed.

Lemma clean_statement_no_comment s : HasPrefix (clean_statement s) "--" = false.
Proof. apply strip_comments_done. lia. Qed.

Section Facts.
Context `{K : SQLite} (migrations : list (string * string)).

Definition io_works : Prop := forall n, io_fails n = None.

Lemma apply_migrations_spec fs : forall names c n r names' c' n',
  apply_migrations fs names c n = (r, (names', c', n')) ->
  (exists l, names' = (names ++ l)%list /\ (forall x, x ∈ l -> x ∈ map fst fs)) /\
  (NoDup names -> NoDup names') /\
  (r = Ok tt -> forall f, f ∈ fs -> fst f ∈ names').
Proof.
  induction fs as [|[name text] fs IH]; intros names c n r names' c' n'; cbn [apply_migrations].
  { intros [= <- <- <- <-]. split; [exists []; split; [by rewrite app_nil_r|]; by intros x ?%elem_of_nil|].
    split; [done|]. by intros _ f ?%elem_of_nil. }
  assert (forall r0 c0 n0, (r0, (names, c0, n0)) = (r, (names', c', n')) -> (exists e, r0 = Err e) ->
    (exists l, names' = (names ++ l)%list /\ (forall x, x ∈ l -> x ∈ map fst ((name, text) :: fs))) /\
    (NoDup names -> NoDup names') /\ (r = Ok tt -> forall f, f ∈ ((name, text) :: fs) -> fst f ∈ names')) as Hstop.
  { intros r0 c0 n0 [= <- <- <- <-] [e ->]. split; [|done]. exists []. split; [by rewrite app_nil_r|]. by intros x ?%elem_of_nil. }
  destruct (io_fails n); [intros H; by eapply Hstop; eauto|].
  destruct (existsb (String.eqb name) names) eqn:Hin.
  - intros ((l & -> & Hl) & Hn & Hall)%IH. split; [|split; [done|]].
    + exists l. split; [done|]. intros x Hx. right. by apply Hl.
    + intros Hr f [->|Hf]%elem_of_cons; [|by apply Hall]. cbn.
      apply existsb_exists in Hin as (x & Hx & ->%String.eqb_eq). apply elem_of_app. left. by apply list_elem_of_In.
  - destruct (run_statements name _ c) as [[[]|e] c1]; [|intros H; by eapply Hstop; eauto].
    destruct (io_fails (S n)); [intros H; by eapply Hstop; eauto|].
    intros ((l & -> & Hl) & Hn & Hall)%IH. split; [|split].
    + exists (name :: l). split; [by rewrite <- app_assoc|]. intros x [->|Hx]%elem_of_cons; [by left|]. right. by apply Hl.
    + intros Hd. apply Hn. apply NoDup_app. split; [done|]. split; [|apply NoDup_singleton].
      intros x Hx ->%list_elem_of_singleton. apply not_true_iff_false in Hin. apply Hin, existsb_exists.
      exists name. split; [by apply list_elem_of_In|apply String.eqb_refl].
    + intros Hr f [->|Hf]%elem_of_cons; [|by apply Hall]. cbn. apply elem_of_app. left. apply elem_of_app. right. by left.
Qed.

Lemma apply_migrations_again fs names c : io_works -> (forall f, f ∈ fs -> fst f ∈ names) ->
  forall n, exists n', apply_migrations fs names c n = (Ok tt, (names, c, n')).
Proof.
  intros Hio. induction fs as [|[name text] fs IH]; intros Hf n; cbn [apply_migrations]; [by eexists|].
  rewrite Hio. assert (existsb (String.eqb name) names = true) as ->.
  { apply existsb_exists. exists name. split; [|apply String.eqb_refl]. apply list_elem_of_In. apply (Hf (name, text)). by left. }
  apply IH. intros f Hin. apply Hf. by right.
Qed.

(** The names of the migrations a file knows to be applied. *)
Definition names_of (f : DbFile) : list string := default [] (applied f).

(** All the migrations are recorded. *)
Definition complete (f : DbFile) : Prop := forall m, m ∈ sql_files migrations -> fst m ∈ names_of f.

(** No record is lost, and none made but of a file of the directory. *)
Definition extends (f f' : DbFile) : Prop :=
  exists l, names_of f' = (names_of f ++ l)%list /\ (forall x, x ∈ l -> x ∈ map fst (sql_files migrations)) /\
            (NoDup (names_of f) -> NoDup (names_of f')).

Lemma migrate_spec f n r f' n' : migrate migrations f n = (r, (f', n')) ->
  extends f f' /\ (r = Ok tt -> complete f').
Proof.
  unfold migrate. destruct (io_fails n) as [e|].
  - intros [= <- <- <-]. split; [|done]. exists []. split; [by rewrite app_nil_r|]. split; [|done]. by intros x ?%elem_of_nil.
  - destruct (apply_migrations _ _ _ _) as [r0 [[names c] n0]] eqn:Ha. intros [= <- <- <-].
    apply apply_migrations_spec in Ha as ((l & -> & Hl) & Hn & Hall). split; [|exact Hall]. by exists l.
Qed.

(** A database that has all of them is left alone. *)
Lemma migrate_idempotent f n : io_works -> complete f -> applied f <> None ->
  exists n', migrate migrations f n = (Ok tt, (f, n')).
Proof.
  intros Hio Hc Ha. unfold migrate. rewrite Hio.
  destruct (apply_migrations_again (sql_files migrations) (names_of f) (body f) Hio Hc (S n)) as (n' & Hn).
  fold (names_of f). rewrite Hn. exists n'. do 2 f_equal. destruct f as [[a|] b]; [done|done].
Qed.
End Facts.

(** ** What the manager promises *)

(** The abstract state: which databases are open, as which handles, and the files. *)
Record Spec `{K : SQLite} := { sp_open : gmap Z SiteDB; sp_files : gmap Z DbFile }.

Inductive op := OOpen (id : Z) | OOpenLocked (id : Z) | OCreate (id : Z) | OClose (id : Z) | ODelete (id : Z)
              | OGet (id : Z) | OCloseAll | OIDs.

Inductive obs := ObsDB (r : res string SiteDB) | ObsUnit (r : res string unit) | ObsGet (o : option SiteDB) | ObsIDs (l : list Z).

Definition opens (o : op) (id : Z) : Prop := o = OOpen id \/ o = OOpenLocked id \/ o = OCreate id.

Section Refinement.
Context `{K : SQLite} (migrations : list (string * string)).

Definition run (o : op) (m : Mgr) : obs * Mgr :=
  match o with
  | OOpen id => let '(r, m') := Open migrations id m in (ObsDB r, m')
  | OOpenLocked id => let '(r, m') := open_locked migrations id m in (ObsDB r, m')
  | OCreate id => let '(r, m') := Create migrations id m in (ObsDB r, m')
  | OClose id => let '(r, m') := Close id m in (ObsUnit r, m')
  | ODelete id => let '(r, m') := Delete id m in (ObsUnit r, m')
  | OGet id => (ObsGet (Get id m), m)
  | OCloseAll => let '(r, m') := CloseAll m in (ObsUnit r, m')
  | OIDs => (ObsIDs (OpenSiteIDs m), m)
  end.

Definition no_file : DbFile := {| applied := None; body := fresh |}.

Inductive spec_step : op -> Spec -> obs -> Spec -> Prop :=
| spec_cached o id s d : opens o id -> sp_open s !! id = Some d -> spec_step o s (ObsDB (Ok d)) s
| spec_opened o id s d f' : opens o id -> sp_open s !! id = None -> sd_site d = id ->
    (forall id' d', sp_open s !! id' = Some d' -> sd_read d' <> sd_read d /\ sd_writer d' <> sd_writer d) ->
    complete migrations f' -> extends migrations (default no_file (sp_files s !! id)) f' ->
    spec_step o s (ObsDB (Ok d)) {| sp_open := <[id := d]> (sp_open s); sp_files := <[id := f']> (sp_files s) |}
| spec_failed o id s e files' : opens o id -> sp_open s !! id = None ->
    (files' = sp_files s \/
     exists f', files' = <[id := f']> (sp_files s) /\ extends migrations (default no_file (sp_files s !! id)) f') ->
    spec_step o s (ObsDB (Err e)) {| sp_open := sp_open s; sp_files := files' |}
| spec_close id s : spec_step (OClose id) s (ObsUnit (Ok tt)) {| sp_open := delete id (sp_open s); sp_files := sp_files s |}
| spec_delete id s : spec_step (ODelete id) s (ObsUnit (Ok tt))
    {| sp_open := delete id (sp_open s); sp_files := delete id (sp_files s) |}
| spec_delete_failed id s e : spec_step (ODelete id) s (ObsUnit (Err e))
    {| sp_open := delete id (sp_open s); sp_files := sp_files s |}
| spec_get id s : spec_step (OGet id) s (ObsGet (sp_open s !! id)) s
| spec_close_all s : spec_step OCloseAll s (ObsUnit (Ok tt)) {| sp_open := ∅; sp_files := sp_files s |}
| spec_ids s l : NoDup l -> (forall id, id ∈ l <-> is_Some (sp_open s !! id)) -> spec_step OIDs s (ObsIDs l) s.

(** The pools that are open are those of the open databases: none is left behind,
    none shared, and a new one is none of them. *)
Record owned (m : Mgr) : Prop := {
  own_pools : forall p, p ∈ pools m <-> exists id d, dbs m !! id = Some d /\ (p = sd_read d \/ p = sd_writer d);
  own_below : forall id d, dbs m !! id = Some d ->
    sd_site d = id /\ sd_read d <> sd_writer d /\ (sd_read d < next_pool m)%nat /\ (sd_writer d < next_pool m)%nat;
  own_apart : forall id id' d d' p, dbs m !! id = Some d -> dbs m !! id' = Some d' ->
    p = sd_read d \/ p = sd_writer d -> p = sd_read d' \/ p = sd_writer d' -> id = id';
}.

Definition refines (m : Mgr) (s : Spec) : Prop :=
  sp_open s = dbs m /\ sp_files s = files m /\ owned m.

(** ** Opening *)

(** What an attempt to open leaves: the cache as it was, the file touched by the
    migrations only, and two new pools or none. *)
Definition opening (id : Z) (m : Mgr) (r : res string SiteDB) (m' : Mgr) : Prop :=
  dbs m' = dbs m /\
  (files m' = files m \/ exists f', files m' = <[id := f']> (files m) /\
     extends migrations (default no_file (files m !! id)) f' /\ (is_ok r = true -> complete migrations f')) /\
  match r with
  | Ok d => (exists f', files m' !! id = Some f' /\ complete migrations f') /\
            d = {| sd_read := next_pool m; sd_writer := S (next_pool m); sd_site := id |} /\
            pools m' = {[S (next_pool m)]} ∪ ({[next_pool m]} ∪ pools m) /\ next_pool m' = S (S (next_pool m))
  | Err _ => pools m' = pools m /\ (next_pool m <= next_pool m')%nat
  end.

Lemma file_extends_refl f : extends migrations f f.
Proof. exists []. split; [by rewrite app_nil_r|]. split; [by intros x ?%elem_of_nil|done]. Qed.

Lemma drop_new (p : nat) (X : gset nat) : p ∉ X -> ({[p]} ∪ X) ∖ {[p]} = X.
Proof. intros Hp. apply set_eq. intros x. rewrite elem_of_difference, elem_of_union, elem_of_singleton. naive_solver. Qed.

Lemma openSiteDB_opening id m : (forall p, p ∈ pools m -> (p < next_pool m)%nat) ->
  opening id m (fst (openSiteDB migrations id m)) (snd (openSiteDB migrations id m)).
Proof.
  intros Hp. set (a := next_pool m).
  assert (a ∉ pools m) as Ha by (intros Hin; specialize (Hp _ Hin); unfold a in Hp; lia).
  assert (S a ∉ ({[a]} ∪ pools m)) as Hb.
  { rewrite elem_of_union, elem_of_singleton. intros [H|Hin]; [lia|]. specialize (Hp _ Hin). unfold a in Hp. lia. }
  destruct m as [d f p n i]. cbn in a, Ha, Hb, Hp. unfold a in *. clear a.
  unfold openSiteDB, sql_Open, Ping, on_error, pool_Close, access, new_pool, modify, run_site_migrations, set_files, set_pools.
  unfold mbind, D_bind, mret, D_ret. cbn -[migrate].
  destruct (io_fails i); cbn -[migrate].
  { split; [done|]. split; [by left|]. cbn. split; [done|lia]. }
  destruct (io_fails (S i)); cbn -[migrate].
  { split; [done|]. split; [by left|]. cbn. split; [done|lia]. }
  destruct (io_fails (S (S i))); cbn -[migrate].
  { split; [done|]. split; [by left|]. cbn. split; [by apply drop_new|lia]. }
  destruct (io_fails (S (S (S i)))); cbn -[migrate].
  { split; [done|]. split; [right; eexists; split; [done|]; split; [apply file_extends_refl|done]|]. cbn.
    split; [by apply drop_new|lia]. }
  assert (({[S n]} ∪ ({[n]} ∪ p)) ∖ {[n]} ∖ {[S n]} = p) as Hboth.
  { apply set_eq. intros x. rewrite !elem_of_difference, !elem_of_union, !elem_of_singleton.
    assert (x ∈ p -> x <> n) by (by intros H ->). assert (x ∈ p -> x <> S n) by (intros H' ->; specialize (Hp _ H'); lia).
    naive_solver. }
  assert (({[S n]} ∪ ({[n]} ∪ p)) ∖ {[S n]} ∖ {[n]} = p) as Hboth'.
  { etrans; [|exact Hboth]. apply set_eq. intros x. rewrite !elem_of_difference.
    split; intros [[H1 H2] H3]; (split; [by split|done]). }
  destruct (io_fails (S (S (S (S i))))); cbn -[migrate].
  { split; [done|]. split; [right; eexists; split; [done|]; split; [apply file_extends_refl|done]|]. cbn. split; [done|lia]. }
  rewrite ?lookup_insert_eq. cbn -[migrate]. rewrite ?lookup_insert_eq. cbn -[migrate]. rewrite ?insert_insert_eq.
  destruct (migrate _ _ _) as [r [f' n']] eqn:Hm. apply migrate_spec in Hm as [He Hc]. rewrite insert_insert_eq.
  destruct r as [[]|e]; cbn.
  - split; [done|]. split; [right; eexists; split; [done|]; by split; auto|]. cbn. split; [|done].
    exists f'. split; [apply lookup_insert_eq|by apply Hc].
  - split; [done|]. split; [right; eexists; split; [done|]; by split|]. cbn. split; [done|lia].
Qed.

(** ** Keeping the pools in order *)

Lemma owned_below m p : owned m -> p ∈ pools m -> (p < next_pool m)%nat.
Proof. intros H (id & d & Hd & Hp)%(own_pools m H). destruct (own_below m H id d Hd) as (_ & _ & ? & ?). destruct Hp; lia. Qed.

Lemma owned_failed m m' : owned m -> dbs m' = dbs m -> pools m' = pools m -> (next_pool m <= next_pool m')%nat -> owned m'.
Proof.
  intros H Hd Hp Hn. split; rewrite ?Hd, ?Hp; [apply H| |apply (own_apart m H)].
  intros id d Hid. destruct (own_below m H id d Hid) as (? & ? & ? & ?). repeat split; [done..|lia|lia].
Qed.

Lemma owned_opened m m' id d : owned m -> dbs m !! id = None ->
  d = {| sd_read := next_pool m; sd_writer := S (next_pool m); sd_site := id |} ->
  dbs m' = <[id := d]> (dbs m) -> pools m' = {[S (next_pool m)]} ∪ ({[next_pool m]} ∪ pools m) ->
  next_pool m' = S (S (next_pool m)) -> owned m'.
Proof.
  intros H Hid Hd Hdbs Hp Hn.
  assert (forall i x p, dbs m !! i = Some x -> p = sd_read x \/ p = sd_writer x -> (p < next_pool m)%nat) as Hlt.
  { intros i x p Hx Hxp. apply owned_below; [done|]. apply (own_pools m H). by exists i, x. }
  split; rewrite ?Hdbs, ?Hp, ?Hn.
  - intros p. rewrite !elem_of_union, !elem_of_singleton, (own_pools m H). split.
    + intros [->|[->|(i & x & Hx & Hxp)]]; [exists id, d; rewrite lookup_insert_eq, Hd; by auto..|].
      exists i, x. split; [|done]. rewrite lookup_insert_ne; [done|]. intros ->. congruence.
    + intros (i & x & Hx & Hxp). apply lookup_insert_Some in Hx as [[<- <-]|[Hne Hx]].
      * subst d. cbn in Hxp. naive_solver.
      * right. right. by exists i, x.
  - intros i x Hx. apply lookup_insert_Some in Hx as [[<- <-]|[Hne Hx]].
    + subst d. cbn. repeat split; lia.
    + destruct (own_below m H i x Hx) as (? & ? & ? & ?). repeat split; [done..|lia|lia].
  - intros i i' x x' p Hx Hx' Hp1 Hp2. apply lookup_insert_Some in Hx as [[<- <-]|[Hne Hx]], Hx' as [[<- <-]|[Hne' Hx']].
    + done.
    + subst d. cbn in Hp1. pose proof (Hlt _ _ _ Hx' Hp2). destruct Hp1; lia.
    + subst d. cbn in Hp2. pose proof (Hlt _ _ _ Hx Hp1). destruct Hp2; lia.
    + by eapply (own_apart m H).
Qed.

(** What [Close] comes to. *)
Lemma Close_spec id m : owned m ->
  fst (Close id m) = Ok tt /\ dbs (snd (Close id m)) = delete id (dbs m) /\ files (snd (Close id m)) = files m /\
  owned (snd (Close id m)).
Proof.
  intros H. unfold Close. destruct (dbs m !! id) as [d|] eqn:Hd.
  2:{ split; [done|]. split; [by rewrite delete_id|done]. }
  unfold mbind, D_bind, pool_Close, modify. cbn. split; [done|]. split; [done|]. split; [done|]. split; cbn.
  - intros p. rewrite !elem_of_difference, !elem_of_singleton, (own_pools m H). split.
    + intros [[(i & x & Hx & Hxp) Hw] Hr]. exists i, x. split; [|done]. rewrite lookup_delete_ne; [done|].
      intros ->. rewrite Hd in Hx. injection Hx as <-. by destruct Hxp.
    + intros (i & x & Hx & Hxp). apply lookup_delete_Some in Hx as [Hne Hx]. split; [split|].
      * by exists i, x.
      * intros ->. apply Hne. by apply (own_apart m H id i d x (sd_writer d)); [done|done|right|].
      * intros ->. apply Hne. by apply (own_apart m H id i d x (sd_read d)); [done|done|left|].
  - intros i x Hx. apply lookup_delete_Some in Hx as [_ Hx]. by apply (own_below m H).
  - intros i i' x x' p Hx Hx'. apply lookup_delete_Some in Hx as [_ Hx]. apply lookup_delete_Some in Hx' as [_ Hx'].
    by eapply (own_apart m H).
Qed.

Lemma close_all_spec l m :
  fst (close_all l m) = Ok tt /\ dbs (snd (close_all l m)) = dbs m /\ files (snd (close_all l m)) = files m /\
  next_pool (snd (close_all l m)) = next_pool m /\
  forall p, p ∈ pools (snd (close_all l m)) <->
    p ∈ pools m /\ forall id d, (id, d) ∈ l -> p <> sd_read d /\ p <> sd_writer d.
Proof.
  revert m. induction l as [|[i d] l IH]; intros m; cbn [close_all].
  { cbn. split; [done|]. split; [done|]. split; [done|]. split; [done|]. intros p.
    split; [intros Hp; split; [done|by intros ? ? ?%elem_of_nil]|by intros [? _]]. }
  unfold mbind, D_bind, pool_Close, modify. cbn [fst snd].
  destruct (IH (set_pools (pools (set_pools (pools m ∖ {[sd_writer d]}) m) ∖ {[sd_read d]})
    (set_pools (pools m ∖ {[sd_writer d]}) m))) as (H1 & H2 & H3 & H4 & H5).
  split; [done|]. split; [done|]. split; [done|]. split; [done|]. intros p. rewrite H5. cbn.
  rewrite !elem_of_difference, !elem_of_singleton. split.
  - intros [[[Hp Hw] Hr] Hl]. split; [done|]. intros id x [[= -> ->]|Hx]%elem_of_cons; [done|by eapply Hl].
  - intros [Hp Hl]. split.
    + destruct (Hl i d) as [? ?]; [by left|]. done.
    + intros id x Hx. apply (Hl id x). by right.
Qed.

(** ** The refinement *)

Lemma opening_refines o id m r m' s : opens o id -> refines m s -> dbs m !! id = None -> opening id m r m' ->
  let m2 := match r with Ok d => set_dbs (<[id := d]> (dbs m')) m' | Err _ => m' end in
  exists s', spec_step o s (ObsDB r) s' /\ refines m2 s'.
Proof.
  intros Ho (Hs1 & Hs2 & Hown) Hid (Hd & Hf & Hr) m2. destruct r as [d|e].
  - destruct Hr as ((f' & Hf' & Hc) & Hdv & Hp & Hn).
    exists {| sp_open := <[id := d]> (sp_open s); sp_files := files m' |}. split.
    + assert (files m' = <[id := f']> (sp_files s) /\ extends migrations (default no_file (sp_files s !! id)) f') as [E He].
      { rewrite Hs2. destruct Hf as [E|(f0 & E & He & _)].
        - rewrite E in Hf'. rewrite E, Hf'. cbn. split; [by rewrite insert_id|apply file_extends_refl].
        - rewrite E, lookup_insert_eq in Hf'. injection Hf' as ->. by split. }
      rewrite E. apply spec_opened; [done|by rewrite Hs1|by subst d| |done|done].
      intros i x Hx. rewrite Hs1 in Hx. destruct (own_below m Hown i x Hx) as (_ & _ & ? & ?). subst d. cbn. lia.
    + split; [by rewrite Hs1, <- Hd|]. split; [done|]. eapply (owned_opened m m2 id d); try done. cbn. by rewrite Hd.
  - destruct Hr as [Hp Hn]. exists {| sp_open := sp_open s; sp_files := files m' |}. split.
    + eapply spec_failed; [done|by rewrite Hs1|]. rewrite Hs2. destruct Hf as [E|(f0 & E & He & _)]; [by left|right; by exists f0].
    + split; [by rewrite Hs1, <- Hd|]. split; [done|]. by eapply (owned_failed m).
Qed.

Lemma open_locked_refines o id m s : opens o id -> refines m s ->
  exists s', spec_step o s (ObsDB (fst (open_locked migrations id m))) s' /\ refines (snd (open_locked migrations id m)) s'.
Proof.
  intros Ho Hr. unfold open_locked. destruct (dbs m !! id) as [d|] eqn:Hid.
  - exists s. split; [|done]. apply (spec_cached o id); [done|]. destruct Hr as [-> _]. done.
  - destruct Hr as (Hs1 & Hs2 & Hown). pose proof (openSiteDB_opening id m (fun p => owned_below m p Hown)) as Hop.
    pose proof (opening_refines o id m _ _ s Ho (conj Hs1 (conj Hs2 Hown)) Hid Hop) as Hx. cbv zeta in Hx.
    unfold mbind, D_bind. by destruct (openSiteDB migrations id m) as [[d|e] m'].
Qed.

(** An access before the rest changes neither cache nor files. *)
Lemma refines_access what m s : refines m s -> refines (snd (access what m)) s.
Proof. intros (H1 & H2 & []). unfold access. by destruct (io_fails _). Qed.

Lemma manager_step o m s : refines m s ->
  exists s', spec_step o s (fst (run o m)) s' /\ refines (snd (run o m)) s'.
Proof.
  intros Hr. pose proof Hr as (Hs1 & Hs2 & Hown). destruct o as [id|id|id|id|id|id| |]; cbn [run].
  - pose proof (open_locked_refines (OOpen id) id m s (or_introl eq_refl) Hr) as Hx. unfold Open.
    destruct (dbs m !! id) as [d|] eqn:Hid; [|by destruct (open_locked migrations id m)].
    exists s. split; [|done]. cbn. apply (spec_cached _ id); [by left|by rewrite Hs1].
  - pose proof (open_locked_refines (OOpenLocked id) id m s (or_intror (or_introl eq_refl)) Hr) as Hx.
    by destruct (open_locked migrations id m).
  - unfold Create. destruct (dbs m !! id) as [d|] eqn:Hid.
    { exists s. split; [|done]. apply (spec_cached _ id); [by right; right|by rewrite Hs1]. }
    pose proof (refines_access "creating site db directory" m s Hr) as Ha. unfold mbind, D_bind.
    assert (dbs (snd (access "creating site db directory" m)) = dbs m) as Hda by (unfold access; by destruct (io_fails _)).
    destruct (access _ m) as [[[]|e] m1]; cbn [snd fst] in *.
    + pose proof (open_locked_refines (OCreate id) id m1 s (or_intror (or_intror eq_refl)) Ha) as Hx.
      by destruct (open_locked migrations id m1).
    + exists {| sp_open := sp_open s; sp_files := sp_files s |}. split; [|by destruct s].
      eapply spec_failed; [by right; right|by rewrite Hs1|by left].
  - destruct (Close_spec id m Hown) as (H1 & H2 & H3 & H4). destruct (Close id m) as [r m']. cbn in *. subst r.
    eexists. split; [constructor|]. split; [cbn; by rewrite Hs1, H2|]. split; [cbn; by rewrite Hs2|done].
  - unfold Delete. destruct (Close_spec id m Hown) as (H1 & H2 & H3 & H4). unfold mbind, D_bind.
    destruct (Close id m) as [r m1]. cbn [fst snd] in *. subst r.
    assert (refines m1 {| sp_open := delete id (sp_open s); sp_files := sp_files s |}) as Hm1.
    { split; [cbn; by rewrite Hs1|]. by split; [cbn; rewrite Hs2|]. }
    pose proof (refines_access "removing site directory" m1 _ Hm1) as Ha.
    destruct (access _ m1) as [[[]|e] m2]; cbn [fst snd] in *.
    + destruct Ha as (A1 & A2 & A3). eexists. split; [apply spec_delete|]. split; [done|]. split; [cbn in *; by rewrite A2|].
      by destruct A3.
    + eexists. split; [apply spec_delete_failed|done].
  - exists s. split; [|done]. unfold Get. rewrite <- Hs1. constructor.
  - unfold CloseAll, mbind, D_bind. destruct (close_all_spec (map_to_list (dbs m)) m) as (H1 & H2 & H3 & H4 & H5).
    destruct (close_all _ m) as [r m1]. cbn [fst snd] in *. subst r. eexists. split; [constructor|].
    split; [done|]. split; [cbn; by rewrite Hs2|]. split; cbn.
    + intros p. rewrite H5. split; [|by intros (i & x & Hx & _); destruct (lookup_empty_Some _ _ Hx)].
      intros [(i & x & Hx & Hxp)%(own_pools m Hown) Hl]. destruct (Hl i x) as [? ?]; [by apply elem_of_map_to_list|].
      by destruct Hxp.
    + intros i x Hx. by destruct (lookup_empty_Some _ _ Hx).
    + intros i i' x x' p Hx. by destruct (lookup_empty_Some _ _ Hx).
  - exists s. split; [|done]. cbn. apply spec_ids; [apply NoDup_fst_map_to_list|]. intros id. rewrite Hs1. unfold OpenSiteIDs.
    rewrite list_elem_of_fmap. split.
    + intros ([i x] & -> & Hx%elem_of_map_to_list). by eexists.
    + intros [x Hx]. exists (id, x). split; [done|]. by apply elem_of_map_to_list.
Qed.

(** Sequences of calls. *)
Fixpoint run_all (ops : list op) (m : Mgr) : list obs * Mgr :=
  match ops with
  | [] => ([], m)
  | o :: r => let '(x, m') := run o m in let '(xs, m'') := run_all r m' in (x :: xs, m'')
  end.

Inductive spec_trace : list op -> Spec -> list obs -> Spec -> Prop :=
| trace_nil s : spec_trace [] s [] s
| trace_cons o ops s x s' xs s'' : spec_step o s x s' -> spec_trace ops s' xs s'' -> spec_trace (o :: ops) s (x :: xs) s''.

(** C38. Whatever calls are made of the manager of the site databases, in whatever
    order and whatever fails outside, it answers as its contract says: the
    databases it hands out are those of the contract's map, the same handle until
    it is closed; a database it opens has had all migrations, and no record of one
    is lost by an attempt that fails; closing, deleting, looking up and listing are
    those of the map.  And no connection pool is left open but those of the open
    databases, of which no two share one. *)
Theorem manager_refines files ops :
  let '(xs, m) := run_all ops (NewSiteDBManager files) in
  exists s, spec_trace ops {| sp_open := ∅; sp_files := files |} xs s /\ refines m s.
Proof.
  assert (forall m s, refines m s -> let '(xs, m') := run_all ops m in exists s', spec_trace ops s xs s' /\ refines m' s') as H.
  { induction ops as [|o ops IH]; intros m s Hr; cbn [run_all]; [exists s; split; [constructor|done]|].
    destruct (manager_step o m s Hr) as (s1 & Hs & Hr1). destruct (run o m) as [x m1]. cbn [fst snd] in *.
    specialize (IH m1 s1 Hr1). destruct (run_all ops m1) as [xs m2]. destruct IH as (s2 & Ht & Hr2).
    exists s2. split; [by econstructor|done]. }
  apply H. split; [done|]. split; [done|]. split; cbn.
  - intros p. split; [by intros ?%elem_of_empty|by intros (i & x & Hx & _); destruct (lookup_empty_Some _ _ Hx)].
  - intros i x Hx. by destruct (lookup_empty_Some _ _ Hx).
  - intros i i' x x' p Hx. by destruct (lookup_empty_Some _ _ Hx).
Qed.
End Refinement.
