(* ===== verification/Middleware.v ===== *)
(** * server/middleware: rate limiting, client addresses, headers

    The token bucket of ratelimit.go computes in float64: IEEE 754 binary64 as
    the Standard Library specifies it. *)

From Stdlib Require Import ZArith Lia Ascii String List Bool.
From Stdlib.Floats Require Import SpecFloat.
From stdpp Require Import base list strings gmap.
From S2P Require Import Prelude GoStrings GoTime Security.

Local Open Scope Z_scope.

(** ** float64 *)

Definition float64 := spec_float.
Definition fadd : float64 -> float64 -> float64 := SFadd 53 1024.
Definition fsub : float64 -> float64 -> float64 := SFsub 53 1024.
Definition fmul : float64 -> float64 -> float64 := SFmul 53 1024.
Definition fdiv : float64 -> float64 -> float64 := SFdiv 53 1024.
Definition fltb : float64 -> float64 -> bool := SFltb.
Definition of_int (z : Z) : float64 := binary_normalize 53 1024 z 0 false.

(** [Duration.Seconds] *)
Definition Seconds (d : duration) : float64 :=
  fadd (of_int (Z.quot d second)) (fdiv (of_int (Z.rem d second)) (of_int second)).

(** [t.Sub(u)], which stops at the ends of int64. *)
Definition time_Sub (t u : time) : duration := Z.max min_int64 (Z.min max_int64 (t - u)).

(** ** ratelimit.go *)

Record bucket := { tokens : float64; lastCheck : time }.

Record RateLimiter := {
  buckets : gmap string bucket;
  rate : float64;
  burst : float64;
  lastSweep : time;
}.

Definition NewRateLimiter (rate : float64) (burst : Z) (now : time) : RateLimiter :=
  {| buckets := ∅; rate := rate; burst := of_int burst; lastSweep := now |}.

(** Stale entries go every minute. *)
Definition sweep (now : time) (rl : RateLimiter) : RateLimiter :=
  if minute <? time_Sub now (lastSweep rl) then
    {| buckets := filter (fun kb => time_Sub now (lastCheck (snd kb)) <= 2 * minute) (buckets rl);
       rate := rate rl; burst := burst rl; lastSweep := now |}
  else rl.

(** The tokens of a bucket, refilled. *)
Definition refill (now : time) (rl : RateLimiter) (b : bucket) : float64 :=
  let elapsed := Seconds (time_Sub now (lastCheck b)) in
  let t := fadd (tokens b) (fmul elapsed (rate rl)) in
  if fltb (burst rl) t then burst rl else t.

Definition allow (now : time) (ip : string) (rl : RateLimiter) : bool * RateLimiter :=
  let rl := sweep now rl in
  let b := default {| tokens := burst rl; lastCheck := now |} (buckets rl !! ip) in
  let t := refill now rl b in
  let set t := {| buckets := <[ip := {| tokens := t; lastCheck := now |}]> (buckets rl);
                  rate := rate rl; burst := burst rl; lastSweep := lastSweep rl |} in
  if fltb t (of_int 1) then (false, set t) else (true, set (fsub t (of_int 1))).

(** ** Addresses *)

(** [net.SplitHostPort]: the host, or nothing on an error. *)
Definition SplitHostPort (hostport : string) : option string :=
  match LastIndex hostport ":" with
  | None => None
  | Some i =>
      let check j k host :=
        if Contains (drop_str j hostport) "[" || Contains (drop_str k hostport) "]" then None else Some host in
      if HasPrefix hostport "[" then
        match Index hostport "]" with
        | None => None
        | Some e =>
            if (e + 1 =? i)%nat then check 1%nat (e + 1)%nat (take_str (e - 1) (drop_str 1 hostport)) else None
        end
      else
        let host := take_str i hostport in
        if Contains host ":" then None else check 0%nat 0%nat host
  end.

Definition loopback (host : string) : bool := existsb (String.eqb host) ["127.0.0.1"; "::1"; "localhost"]%string.

Definition ClientIP (remoteAddr : string) (r : HttpRequest) : string :=
  let host := default remoteAddr (SplitHostPort remoteAddr) in
  if loopback host then
    let xff := header "X-Forwarded-For" r in
    let xri := header "X-Real-IP" r in
    if negb (xff =? "")%string then
      match Index xff "," with Some idx => TrimSpace (take_str idx xff) | None => TrimSpace xff end
    else if negb (xri =? "")%string then TrimSpace xri
    else host
  else host.

(** [Handler]: the answer of its own, or the request goes on. *)
Definition limit_request (now : time) (remoteAddr : string) (r : HttpRequest) (rl : RateLimiter) : bool * RateLimiter :=
  allow now (ClientIP remoteAddr r) rl.

(** ** Headers *)

(** The headers [CORS] sets, in order, and whether the request ends here. *)
Definition CORS (allowedOrigins : list string) (r : HttpRequest) : list (string * string) * bool :=
  let allowAll := match allowedOrigins with [] => true | _ => existsb (String.eqb "*") allowedOrigins end in
  let origin := header "Origin" r in
  (((if allowAll then [("Access-Control-Allow-Origin", "*")]
    else if negb (origin =? "")%string && existsb (String.eqb origin) allowedOrigins then
      [("Access-Control-Allow-Origin", origin); ("Access-Control-Allow-Credentials", "true"); ("Vary", "Origin")]
    else [])
   ++ [("Access-Control-Allow-Methods", "GET, POST, PUT, DELETE, OPTIONS, PATCH");
       ("Access-Control-Allow-Headers", "Accept, Authorization, Content-Type, X-Request-ID");
       ("Access-Control-Max-Age", "86400")])%list, (method r =? "OPTIONS")%string).

Definition SecurityHeaders : list (string * string) :=
  [("X-Content-Type-Options", "nosniff"); ("X-Frame-Options", "SAMEORIGIN");
   ("Referrer-Policy", "strict-origin-when-cross-origin");
   ("Permissions-Policy", "camera=(self), microphone=(self), geolocation=()")]%string.

(** The id of a request: its own, or a new one. *)
Definition RequestID (uuid : string) (r : HttpRequest) : string :=
  let id := header "X-Request-ID" r in if (id =? "")%string then uuid else id.

(** ** What the limiter lets through *)

Fixpoint serve (now : time) (ips : list string) (rl : RateLimiter) : list (string * bool) * RateLimiter :=
  match ips with
  | [] => ([], rl)
  | ip :: r =>
      let '(ok, rl') := allow now ip rl in
      let '(rest, rl'') := serve now r rl' in
      ((ip, ok) :: rest, rl'')
  end.

(** How many requests of a client passed. *)
Definition passed (ip : string) (l : list (string * bool)) : Z :=
  Z.of_nat (List.length (List.filter (fun x => (fst x =? ip)%string && snd x) l)).
Definition asked (ip : string) (ips : list string) : Z :=
  Z.of_nat (List.length (List.filter (String.eqb ip) ips)).

(** Integers up to a thousand are exact. *)
Definition range (n : Z) : list Z := map Z.of_nat (seq 0 (Z.to_nat n)).

Definition exact_at (m : Z) : bool :=
  Bool.eqb (fltb (of_int m) (of_int 1)) (m <? 1) &&
  (if 1 <=? m then match fsub (of_int m) (of_int 1), of_int (m - 1) with
                   | S754_zero false, S754_zero false => true
                   | S754_finite s1 m1 e1, S754_finite s2 m2 e2 => Bool.eqb s1 s2 && (Pos.eqb m1 m2) && (e1 =? e2)
                   | _, _ => false
                   end else true).

Lemma exact_up_to_1000 : forallb exact_at (range 1001) = true.
Proof. vm_compute. reflexivity. Qed.

Lemma in_range m n : 0 <= m < n -> In m (range n).
Proof. intros H. apply in_map_iff. exists (Z.to_nat m). split; [lia|]. apply in_seq. lia. Qed.

Lemma int_exact m : 0 <= m <= 1000 -> fltb (of_int m) (of_int 1) = (m <? 1) /\
  (1 <= m -> fsub (of_int m) (of_int 1) = of_int (m - 1)).
Proof.
  intros Hm. pose proof (proj1 (forallb_forall _ _) exact_up_to_1000 m (in_range m 1001 ltac:(lia))) as H.
  unfold exact_at in H. apply andb_true_iff in H as [H1%eqb_prop H2]. split; [done|]. intros H0.
  rewrite (proj2 (Z.leb_le 1 m) H0) in H2. destruct (fsub _ _) as [[]| | |s1 m1 e1], (of_int (m - 1)) as [[]| | |s2 m2 e2]; try done.
  apply andb_true_iff in H2 as [[->%eqb_prop ->%Pos.eqb_eq]%andb_true_iff ->%Z.eqb_eq]. done.
Qed.

(** The floats of the integers are in order: the bucket is never taken for
    overfull. *)
Definition float_le (x y : float64) : bool :=
  match x, y with
  | S754_zero false, S754_zero false | S754_zero false, S754_finite false _ _ => true
  | S754_finite false m e, S754_finite false m' e' => (e <? e') || ((e =? e') && (Z.pos m <=? Z.pos m'))
  | _, _ => false
  end.

Lemma float_le_trans x y z : float_le x y = true -> float_le y z = true -> float_le x z = true.
Proof.
  destruct x as [[]| | |[] m e], y as [[]| | |[] m' e'], z as [[]| | |[] m'' e'']; try done. cbn.
  rewrite !orb_true_iff, !andb_true_iff, !Z.ltb_lt, !Z.eqb_eq, !Z.leb_le. lia.
Qed.

Lemma float_le_ltb x y : float_le x y = true -> fltb y x = false.
Proof.
  destruct x as [[]| | |[] m e], y as [[]| | |[] m' e']; try done. cbn. unfold fltb, SFltb, SFcompare.
  rewrite orb_true_iff, andb_true_iff, Z.ltb_lt, Z.eqb_eq, Z.leb_le. intros H.
  destruct (Z.compare_spec e' e) as [->|?|?]; [|lia|done]. change (Pos.compare_cont Eq m' m) with (Pos.compare m' m).
  destruct (Pos.compare_spec m' m); [done|lia|done].
Qed.

Lemma levels_in_order : forallb (fun m => float_le (of_int m) (of_int m) && float_le (of_int m) (of_int (m + 1))) (range 1001) = true.
Proof. vm_compute. reflexivity. Qed.

Lemma level_below m n : 0 <= m <= n -> n <= 1000 -> fltb (of_int n) (of_int m) = false.
Proof.
  intros [Hm Hmn] Hn. apply float_le_ltb. revert n Hmn Hn. apply (Z.le_ind (fun n => n <= 1000 -> _)); [solve_proper| |].
  - intros H. pose proof (proj1 (forallb_forall _ _) levels_in_order m (in_range m 1001 ltac:(lia))) as H'. cbv beta in H'.
    by apply andb_true_iff in H' as [H' _].
  - intros k Hk IH Hk1. eapply float_le_trans; [apply IH; lia|].
    pose proof (proj1 (forallb_forall _ _) levels_in_order k (in_range k 1001 ltac:(lia))) as H'. cbv beta in H'.
    by apply andb_true_iff in H' as [_ H'].
Qed.

Definition finite (x : float64) : Prop :=
  match x with S754_zero _ | S754_finite _ _ _ => True | _ => False end.

Lemma of_int_shape m : 0 <= m <= 1000 -> of_int m = S754_zero false \/ exists s k e, of_int m = S754_finite s k e.
Proof.
  intros Hm. pose proof (proj1 (int_exact m Hm)) as H.
  destruct (Z.ltb_spec m 1); [left; by replace m with 0 by lia|]. right.
  assert (forallb (fun m => match of_int m with S754_finite _ _ _ => true | _ => m <? 1 end) (range 1001) = true) as Hf
    by (vm_compute; reflexivity).
  pose proof (proj1 (forallb_forall _ _) Hf m (in_range m 1001 ltac:(lia))) as H'. cbv beta in H'.
  destruct (of_int m); try (apply Z.ltb_lt in H'; lia). by eexists _, _, _.
Qed.

(** No time, no tokens. *)
Lemma refill_now now rl b m n : 0 <= m <= n -> n <= 1000 -> burst rl = of_int n -> finite (rate rl) ->
  b = {| tokens := of_int m; lastCheck := now |} -> refill now rl b = of_int m.
Proof.
  intros Hm Hn Hb Hr ->. unfold refill. cbn [lastCheck tokens].
  replace (time_Sub now now) with 0 by (unfold time_Sub, min_int64, max_int64; lia).
  change (Seconds 0) with (S754_zero false).
  assert (exists s, fmul (S754_zero false) (rate rl) = S754_zero s) as [s ->].
  { unfold fmul. destruct (rate rl); try done; by eexists. }
  assert (fadd (of_int m) (S754_zero s) = of_int m) as ->.
  { destruct (of_int_shape m ltac:(lia)) as [->|(? & ? & ? & ->)]; [by destruct s|done]. }
  by rewrite Hb, level_below.
Qed.

(** The level of a client's bucket at an instant. *)
Definition level (now : time) (ip : string) (n m : Z) (rl : RateLimiter) : Prop :=
  burst rl = of_int n /\ finite (rate rl) /\
  match buckets rl !! ip with
  | Some b => b = {| tokens := of_int m; lastCheck := now |}
  | None => m = n
  end.

Lemma sweep_level now ip n m rl : level now ip n m rl -> level now ip n m (sweep now rl).
Proof.
  intros (H1 & H2 & H3). unfold sweep. destruct (minute <? _); [|done]. split; [done|]. split; [done|]. cbn.
  destruct (buckets rl !! ip) as [b|] eqn:Hb.
  - rewrite (map_lookup_filter_Some_2 _ _ _ b); [done|done|]. cbn. subst b. cbn. unfold time_Sub, min_int64, max_int64.
    change minute with 60000000000. lia.
  - by rewrite map_lookup_filter_None_2; [|left].
Qed.

Lemma allow_same now ip n m rl : 0 <= m <= n -> n <= 1000 -> level now ip n m rl ->
  fst (allow now ip rl) = (1 <=? m) /\ level now ip n (if 1 <=? m then m - 1 else m) (snd (allow now ip rl)).
Proof.
  intros Hm Hn (H1 & H2 & H3)%sweep_level. unfold allow. cbv zeta.
  assert (refill now (sweep now rl) (default {| tokens := burst (sweep now rl); lastCheck := now |} (buckets (sweep now rl) !! ip))
          = of_int m) as ->.
  { eapply (refill_now now _ _ m n); [done..|]. destruct (buckets _ !! ip); [done|]. cbn. by rewrite H1, H3. }
  destruct (int_exact m ltac:(lia)) as [Hl Hs]. rewrite Hl. destruct (Z.ltb_spec m 1), (Z.leb_spec 1 m); try lia; cbn [fst snd].
  - split; [done|]. split; [done|]. split; [done|]. cbn [buckets]. by rewrite lookup_insert_eq.
  - split; [done|]. split; [done|]. split; [done|]. cbn [buckets]. rewrite lookup_insert_eq. by rewrite Hs by lia.
Qed.

Lemma allow_other now ip ip' n m rl : ip <> ip' -> level now ip n m rl -> level now ip n m (snd (allow now ip' rl)).
Proof.
  intros Hne (H1 & H2 & H3)%sweep_level. unfold allow. cbv zeta.
  destruct (fltb _ _); cbn; (split; [done|]); (split; [done|]); cbn; by rewrite lookup_insert_ne.
Qed.

Lemma serve_passed now ip n ips : 0 <= n <= 1000 -> forall m rl, 0 <= m <= n -> level now ip n m rl ->
  passed ip (fst (serve now ips rl)) = Z.min (asked ip ips) m.
Proof.
  intros Hn. induction ips as [|x ips IH]; intros m rl Hm Hl; [cbn; unfold passed, asked; cbn; lia|].
  cbn [serve]. destruct (allow now x rl) as [ok rl1] eqn:Ha. destruct (serve now ips rl1) as [rest rl2] eqn:Hs. cbn [fst].
  unfold passed, asked. cbn [List.filter fst snd]. destruct (String.eqb_spec x ip) as [->|Hne].
  - destruct (allow_same now ip n m rl Hm ltac:(lia) Hl) as [H1 H2]. rewrite Ha in H1, H2. cbn in H1, H2.
    rewrite String.eqb_refl. subst ok. specialize (IH (if 1 <=? m then m - 1 else m) rl1 ltac:(destruct (Z.leb_spec 1 m); lia) H2). rewrite Hs in IH. cbn in IH.
    unfold passed, asked in IH. destruct (Z.leb_spec 1 m); cbn [andb List.length] in *; lia.
  - rewrite (proj2 (String.eqb_neq ip x)) by congruence. cbn [andb].
    assert (level now ip n m rl1) as Hl1 by (pose proof (allow_other now ip x n m rl ltac:(congruence) Hl) as H; by rewrite Ha in H).
    specialize (IH m rl1 Hm Hl1). rewrite Hs in IH. exact IH.
Qed.

(** C39. At one instant a client without a bucket gets exactly as many requests
    through as the limiter's burst allows, or all it makes if they are fewer,
    whatever the other clients ask in between: for a burst of up to a thousand and
    any finite rate, in float64 as the code computes. *)
Theorem burst_exact now ip n ips rl : 0 <= n <= 1000 ->
  burst rl = of_int n -> finite (rate rl) -> buckets rl !! ip = None ->
  passed ip (fst (serve now ips rl)) = Z.min (asked ip ips) n.
Proof. intros Hn Hb Hr Hi. apply (serve_passed now ip n ips Hn n rl); [lia|]. split; [done|]. split; [done|]. by rewrite Hi. Qed.

(** The limiter of the login routes: 5 a second, 10 at once. *)
Lemma burst_exact_witness :
  let rl := NewRateLimiter (of_int 5) 10 0 in
  let ips := (repeat "a"%string 8 ++ repeat "b"%string 20 ++ repeat "a"%string 8)%list in
  passed "a" (fst (serve 0 ips rl)) = 10 /\ passed "b" (fst (serve 0 ips rl)) = 10.
Proof.
  split; (rewrite burst_exact with (n := 10); [vm_compute; reflexivity|lia|reflexivity|exact I|reflexivity]).
Defined.
