(* ===== verification/EventBus.v ===== *)
(** * events/bus.go: publish and subscribe

    The bus is part of the state its handlers run on, since a handler may
    subscribe and unsubscribe; [Publish] works on the subscriptions as they are
    when it starts. *)

From Stdlib Require Import ZArith Lia Ascii String List Bool.
From stdpp Require Import base list strings gmap relations.
From S2P Require Import Prelude.


Section Bus.
(** The state of the program and the events; a handler changes the state, and
    tells whether it panicked. *)
Context {World Event : Type} (event_type : Event -> string).

Definition HandlerFunc : Type := Event -> World -> bool * World.

Record subscription := { sub_id : nat; handler : HandlerFunc }.

Record Bus := {
  handlers : gmap string (list subscription);
  global : list subscription;
  nextID : nat;
}.

Definition NewBus : Bus := {| handlers := ∅; global := []; nextID := 0 |}.

Definition typed (ty : string) (b : Bus) : list subscription := default [] (handlers b !! ty).

Definition Subscribe (ty : string) (h : HandlerFunc) (b : Bus) : nat * Bus :=
  let id := S (nextID b) in
  (id, {| handlers := <[ty := typed ty b ++ [{| sub_id := id; handler := h |}]]> (handlers b);
          global := global b; nextID := id |}).

Definition SubscribeAll (h : HandlerFunc) (b : Bus) : nat * Bus :=
  let id := S (nextID b) in
  (id, {| handlers := handlers b; global := global b ++ [{| sub_id := id; handler := h |}]; nextID := id |}).

(** The slice without the first subscription of that id, if there is one. *)
Fixpoint cut (id : nat) (l : list subscription) : option (list subscription) :=
  match l with
  | [] => None
  | s :: r => if (sub_id s =? id)%nat then Some r
              else match cut id r with Some r' => Some (s :: r') | None => None end
  end.

(** The loop over the map, whose order is any. *)
Fixpoint cut_typed (id : nat) (l : list (string * list subscription)) : option (string * list subscription) :=
  match l with
  | [] => None
  | (ty, subs) :: r => match cut id subs with Some subs' => Some (ty, subs') | None => cut_typed id r end
  end.

Definition Unsubscribe (order : list (string * list subscription)) (id : nat) (b : Bus) : Bus :=
  match cut_typed id order with
  | Some (ty, subs) => {| handlers := <[ty := subs]> (handlers b); global := global b; nextID := nextID b |}
  | None =>
      match cut id (global b) with
      | Some subs => {| handlers := handlers b; global := subs; nextID := nextID b |}
      | None => b
      end
  end.

(** Who gets an event of a type, in order. *)
Definition receivers (ty : string) (b : Bus) : list subscription := typed ty b ++ global b.

(** The handlers run one after the other; a panic ends that handler only.  The
    ids of the handlers run are returned. *)
Fixpoint run_handlers (e : Event) (l : list subscription) (w : World) : list nat * World :=
  match l with
  | [] => ([], w)
  | s :: r =>
      let '(_, w') := handler s e w in
      let '(ran, w'') := run_handlers e r w' in
      (sub_id s :: ran, w'')
  end.

Context (bus_of : World -> Bus).

Definition Publish (e : Event) (w : World) : list nat * World :=
  run_handlers e (receivers (event_type e) (bus_of w)) w.

(** ** Ids *)

(** Ids are not used twice, whatever the type. *)
Record bus_wf (b : Bus) : Prop := {
  wf_typed : forall ty s, s ∈ typed ty b -> (0 < sub_id s <= nextID b)%nat;
  wf_global : forall s, s ∈ global b -> (0 < sub_id s <= nextID b)%nat;
  wf_nodup : forall ty, NoDup (map sub_id (typed ty b ++ global b));
  wf_types : forall ty ty' s s', s ∈ typed ty b -> s' ∈ typed ty' b -> sub_id s = sub_id s' -> ty = ty';
}.

Definition others (id : nat) (l : list subscription) : list subscription :=
  List.filter (fun s => negb (sub_id s =? id)%nat) l.

Lemma others_absent id l : id ∉ map sub_id l -> others id l = l.
Proof.
  induction l as [|s l IH]; [done|]. cbn. rewrite not_elem_of_cons. intros [H1 H2].
  destruct (Nat.eqb_spec (sub_id s) id); [congruence|]. cbn. f_equal. by apply IH.
Qed.

Lemma cut_spec id l : NoDup (map sub_id l) ->
  match cut id l with
  | Some r => r = others id l /\ id ∈ map sub_id l
  | None => id ∉ map sub_id l
  end.
Proof.
  induction l as [|s l IH]; cbn; [intros _; apply not_elem_of_nil|]. rewrite NoDup_cons. intros [Hs Hl].
  specialize (IH Hl). destruct (Nat.eqb_spec (sub_id s) id) as [Hid|Hid]; cbn [negb].
  - subst id. split; [symmetry; by apply others_absent|by left].
  - destruct (cut id l) as [r|].
    + destruct IH as [-> Hin]. split; [done|by right].
    + rewrite not_elem_of_cons. split; [congruence|done].
Qed.

Lemma cut_typed_spec id l : (forall ty subs, (ty, subs) ∈ l -> NoDup (map sub_id subs)) ->
  match cut_typed id l with
  | Some (ty, r) => exists subs, (ty, subs) ∈ l /\ r = others id subs /\ id ∈ map sub_id subs
  | None => forall ty subs, (ty, subs) ∈ l -> id ∉ map sub_id subs
  end.
Proof.
  induction l as [|[ty subs] l IH]; intros Hnd; cbn; [by intros ? ? ?%not_elem_of_nil|].
  pose proof (cut_spec id subs (Hnd ty subs ltac:(by left))) as Hc. destruct (cut id subs) as [r|].
  - destruct Hc as [-> Hin]. exists subs. split; [by left|done].
  - specialize (IH ltac:(intros; apply (Hnd ty0); by right)). destruct (cut_typed id l) as [[ty' r]|].
    + destruct IH as (subs' & Hin & H). exists subs'. split; [by right|done].
    + intros ty' subs' [[= -> ->]|Hin]%elem_of_cons; [done|by eapply IH].
Qed.

Lemma wf_typed_nodup b ty : bus_wf b -> NoDup (map sub_id (typed ty b)).
Proof. intros Hb. pose proof (wf_nodup b Hb ty) as H. rewrite map_app in H. by apply NoDup_app in H as [H _]. Qed.

Lemma wf_disjoint b ty s : bus_wf b -> s ∈ typed ty b -> sub_id s ∉ map sub_id (global b).
Proof.
  intros Hb Hs. pose proof (wf_nodup b Hb ty) as H. rewrite map_app in H. apply NoDup_app in H as (_ & H & _).
  apply H. by apply list_elem_of_fmap_2.
Qed.

Lemma receivers_unsubscribe order id b ty : bus_wf b -> order ≡ₚ map_to_list (handlers b) ->
  receivers ty (Unsubscribe order id b) = others id (receivers ty b).
Proof.
  intros Hb Ho. unfold receivers, Unsubscribe.
  assert (Hin : forall t subs, (t, subs) ∈ order <-> handlers b !! t = Some subs).
  { intros t subs. rewrite Ho. apply elem_of_map_to_list. }
  assert (Ht : forall t subs, handlers b !! t = Some subs -> typed t b = subs) by (unfold typed; by intros t subs ->).
  pose proof (cut_typed_spec id order) as Hc.
  assert (Hnd : forall t subs, (t, subs) ∈ order -> NoDup (map sub_id subs)).
  { intros t subs Hts%Hin%Ht. rewrite <- Hts. by apply wf_typed_nodup. }
  specialize (Hc Hnd). unfold others at 1. rewrite List.filter_app. fold (others id (typed ty b)) (others id (global b)).
  destruct (cut_typed id order) as [[t r]|].
  - destruct Hc as (subs & Hts%Hin & -> & Hid). cbn [global]. pose proof (Ht _ _ Hts) as Htt.
    apply list_elem_of_fmap in Hid as (s & -> & Hs). rewrite <- Htt in Hs.
    rewrite (others_absent _ (global b)) by (by eapply wf_disjoint). f_equal.
    destruct (decide (t = ty)) as [->|Hne]; unfold typed at 1; cbn [handlers].
    + rewrite lookup_insert_eq. cbn. by rewrite Htt.
    + rewrite lookup_insert_ne by done. change (default [] (handlers b !! ty)) with (typed ty b).
      rewrite others_absent; [done|]. intros (s' & He & Hs')%list_elem_of_fmap. apply Hne.
      by apply (wf_types b Hb t ty s s').
  - assert (Hty : id ∉ map sub_id (typed ty b)).
    { unfold typed. destruct (handlers b !! ty) as [subs|] eqn:E; [|apply not_elem_of_nil]. apply (Hc ty). by apply Hin. }
    rewrite (others_absent _ (typed ty b)) by done.
    assert (Hg : NoDup (map sub_id (global b))).
    { pose proof (wf_nodup b Hb ty) as H. rewrite map_app in H. by apply NoDup_app in H as (_ & _ & H). }
    pose proof (cut_spec id (global b) Hg) as Hcg. destruct (cut id (global b)) as [r|]; cbn.
    + by destruct Hcg as [-> _].
    + by rewrite (others_absent _ (global b)).
Qed.


(** ** The operations keep ids unique *)

Lemma typed_insert ty ty' subs b (g : list subscription) n :
  typed ty' {| handlers := <[ty := subs]> (handlers b); global := g; nextID := n |}
  = if decide (ty = ty') then subs else typed ty' b.
Proof.
  unfold typed. cbn. destruct (decide (ty = ty')) as [->|Hne].
  - by rewrite lookup_insert_eq.
  - by rewrite lookup_insert_ne.
Qed.

Lemma NewBus_wf : bus_wf NewBus.
Proof.
  assert (H : forall ty, typed ty NewBus = []) by (intros ty; unfold typed; cbn; by rewrite lookup_empty).
  split.
  - intros ty s. rewrite H. by intros ?%not_elem_of_nil.
  - by intros s ?%not_elem_of_nil.
  - intros ty. rewrite H. constructor.
  - intros ty ty' s s'. rewrite H. by intros ?%not_elem_of_nil.
Qed.

(** A new id is above all ids in use. *)
Lemma fresh_id b l : (forall s, s ∈ l -> (0 < sub_id s <= nextID b)%nat) -> S (nextID b) ∉ map sub_id l.
Proof. intros H (s & He & Hs)%list_elem_of_fmap. apply H in Hs. lia. Qed.

Lemma Subscribe_wf ty h b : bus_wf b -> bus_wf (snd (Subscribe ty h b)).
Proof.
  intros [H1 H2 H3 H4]. cbn [Subscribe snd].
  assert (Hnew : forall t s, s ∈ typed t {| handlers := <[ty := typed ty b ++ [{| sub_id := S (nextID b); handler := h |}]]>
      (handlers b); global := global b; nextID := S (nextID b) |} ->
      s ∈ typed t b \/ t = ty /\ sub_id s = S (nextID b)).
  { intros t s. rewrite typed_insert. destruct (decide (ty = t)) as [<-|]; [|by left].
    intros [?|Hs]%elem_of_app; [by left|]. apply list_elem_of_singleton in Hs as ->. by right. }
  split; cbn [nextID global].
  - intros t s [Hs|[_ Hs]]%Hnew; [apply H1 in Hs|]; lia.
  - intros s Hs. apply H2 in Hs. lia.
  - intros t. rewrite typed_insert. destruct (decide (ty = t)) as [<-|]; [|apply H3].
    rewrite <- app_assoc, !map_app. cbn. rewrite <- Permutation_middle. constructor; [|rewrite <- map_app; apply H3].
    rewrite <- map_app. apply fresh_id. intros s [Hs|Hs]%elem_of_app; eauto.
  - intros t t' s s' [Hs|[-> Hs]]%Hnew [Hs'|[-> Hs']]%Hnew Heq; [by eapply H4|..|done].
    + apply H1 in Hs. lia.
    + apply H1 in Hs'. lia.
Qed.

Lemma SubscribeAll_wf h b : bus_wf b -> bus_wf (snd (SubscribeAll h b)).
Proof.
  intros [H1 H2 H3 H4]. cbn [SubscribeAll snd]. split; cbn [nextID global].
  - intros t s Hs. apply (H1 t) in Hs. lia.
  - intros s [Hs%H2|Hs]%elem_of_app; [lia|]. apply list_elem_of_singleton in Hs as ->. cbn. lia.
  - intros t. rewrite app_assoc, map_app. cbn. rewrite <- Permutation_cons_append. constructor; [|apply H3].
    apply fresh_id. intros s [Hs|Hs]%elem_of_app; eauto.
  - apply H4.
Qed.

(** A bus whose receivers are among another's, in their order. *)
Lemma shrink_wf b b' : nextID b' = nextID b ->
  (forall ty, sublist (typed ty b') (typed ty b)) -> sublist (global b') (global b) -> bus_wf b -> bus_wf b'.
Proof.
  intros Hn Ht Hg [H1 H2 H3 H4].
  assert (Hin : forall t s, s ∈ typed t b' -> s ∈ typed t b) by (intros t s Hs; by eapply elem_of_sublist).
  split; rewrite ?Hn.
  - eauto.
  - intros s Hs. apply H2. by apply (elem_of_sublist (global b')).
  - intros ty. eapply sublist_NoDup; [apply (H3 ty)|]. apply (fmap_sublist sub_id). by apply sublist_app.
  - intros t t' s s' Hs Hs'. eauto.
Qed.

Lemma cut_sublist id l r : cut id l = Some r -> sublist r l.
Proof.
  revert r. induction l as [|s l IH]; intros r; cbn; [done|]. destruct (_ =? _)%nat.
  - intros [= <-]. by apply sublist_cons.
  - destruct (cut id l) as [r'|]; [|done]. intros [= <-]. apply sublist_skip. by apply IH.
Qed.

Lemma cut_typed_in id l ty r : cut_typed id l = Some (ty, r) -> exists subs, (ty, subs) ∈ l /\ cut id subs = Some r.
Proof.
  induction l as [|[t subs] l IH]; cbn; [done|]. destruct (cut id subs) as [r'|] eqn:E.
  - intros [= <- <-]. exists subs. by split; [left|].
  - intros H. apply IH in H as (subs' & Hin & Hc). exists subs'. by split; [right|].
Qed.

Lemma Unsubscribe_wf order id b : order ≡ₚ map_to_list (handlers b) -> bus_wf b -> bus_wf (Unsubscribe order id b).
Proof.
  intros Ho Hb. unfold Unsubscribe. destruct (cut_typed id order) as [[ty r]|] eqn:E.
  - apply cut_typed_in in E as (subs & Hin & Hc). rewrite Ho, elem_of_map_to_list in Hin.
    apply (shrink_wf b); [done| |done|done]. intros t. rewrite typed_insert.
    destruct (decide (ty = t)) as [<-|]; [|done]. unfold typed. rewrite Hin. by eapply cut_sublist.
  - destruct (cut id (global b)) as [r|] eqn:Eg; [|done].
    apply (shrink_wf b); [done|done| |done]. by eapply cut_sublist.
Qed.

Inductive bus_step : Bus -> Bus -> Prop :=
| step_subscribe ty h b : bus_step b (snd (Subscribe ty h b))
| step_all h b : bus_step b (snd (SubscribeAll h b))
| step_unsubscribe order id b : order ≡ₚ map_to_list (handlers b) -> bus_step b (Unsubscribe order id b).

Lemma bus_reachable_wf b : rtc bus_step NewBus b -> bus_wf b.
Proof.
  intros H. apply (rtc_ind_r (R := bus_step) bus_wf NewBus); [apply NewBus_wf| |exact H].
  intros b1 b2 _ [] Hb1; auto using Subscribe_wf, SubscribeAll_wf, Unsubscribe_wf.
Qed.

(** Every receiver runs once, in order, whatever the handlers do. *)
Lemma run_handlers_all e l w : fst (run_handlers e l w) = map sub_id l.
Proof.
  revert w. induction l as [|s l IH]; intros w; cbn; [done|]. destruct (handler s e w) as [p w'].
  specialize (IH w'). destruct (run_handlers e l w'). cbn in *. by rewrite IH.
Qed.

(** Of any bus the program can have: an event is given to every handler
    subscribed to its type, then to every global one, once each and in the order
    of subscription, whatever a handler does to the bus and whichever panic; a
    new subscription is the last of its kind under an id not in use; and
    unsubscribing takes exactly the subscription of that id away, in whatever
    order the map of handlers is walked. *)
Theorem bus_delivery b ty : rtc bus_step NewBus b ->
  (forall e w, bus_of w = b -> event_type e = ty -> fst (Publish e w) = map sub_id (typed ty b ++ global b)) /\
  (forall h, let '(id, b') := Subscribe ty h b in
     id ∉ map sub_id (receivers ty b) /\
     receivers ty b' = typed ty b ++ {| sub_id := id; handler := h |} :: global b) /\
  (forall order id, order ≡ₚ map_to_list (handlers b) ->
     receivers ty (Unsubscribe order id b) = others id (receivers ty b)).
Proof.
  intros Hb%bus_reachable_wf. split; [|split].
  - intros e w <- <-. apply run_handlers_all.
  - intros h. cbn [Subscribe]. split.
    + apply fresh_id. intros s [Hs|Hs]%elem_of_app; [by eapply wf_typed|by eapply wf_global].
    + unfold receivers. rewrite typed_insert, decide_True by done. by rewrite <- app_assoc.
  - intros order id Ho. by apply receivers_unsubscribe.
Qed.
End Bus.

(** A bus of two types, the first handler panicking, on a state that is the bus. *)
Definition quiet {W E : Type} (p : bool) : HandlerFunc (World := W) (Event := E) := fun _ w => (p, w).

Definition two_types : Bus (World := nat) (Event := string) :=
  snd (SubscribeAll (quiet false) (snd (Subscribe "brain.message" (quiet true) NewBus))).

Lemma bus_delivery_witness :
  fst (Publish (World := nat) (fun e => e) (fun _ => two_types) "brain.message"%string 0%nat) = [1; 2]%nat.
Proof.
  refine (proj1 (bus_delivery (World := nat) (fun e : string => e) (fun _ => two_types) two_types "brain.message"%string _)
            "brain.message"%string 0%nat eq_refl eq_refl).
  eapply rtc_l; [apply (step_subscribe "brain.message"%string (quiet true))|].
  eapply rtc_l; [apply (step_all (quiet false))|]. apply rtc_refl.
Defined.
