(* ===== verification/WsHub.v ===== *)
(** * server/public/ws_hub.go: websocket rooms

    Rooms by key, clients by id, and the buffered channel of each client.  The
    connections of [apiWebSocket] are the steps: one joins the room of its site,
    endpoint and [room] parameter under a fresh id, broadcasts what it reads,
    takes what it is sent out of its channel, and leaves. *)

From Stdlib Require Import ZArith Lia Ascii String List Bool.
From stdpp Require Import base list strings gmap relations pretty.
From S2P Require Import Prelude GoStrings.

(** A channel holds the messages not yet written to the connection. *)
Record wsClient := { id : string; ch : list string }.

Definition wsHub := gmap string (gmap string wsClient).

Definition NewWSHub : wsHub := ∅.

(** [make(chan []byte, 64)]. *)
Definition channel_capacity : nat := 64.

Definition join (roomKey clientID : string) (h : wsHub) : wsHub :=
  <[roomKey := <[clientID := {| id := clientID; ch := [] |}]> (default ∅ (h !! roomKey))]> h.

Definition leave (roomKey clientID : string) (h : wsHub) : wsHub :=
  match h !! roomKey with
  | None => h
  | Some room =>
      let room' := delete clientID room in
      if decide (room' = ∅) then delete roomKey h else <[roomKey := room']> h
  end.

(** The non-blocking send. *)
Definition offer (senderID msg : string) (c : wsClient) : wsClient :=
  if (id c =? senderID)%string then c
  else if (List.length (ch c) <? channel_capacity)%nat then {| id := id c; ch := ch c ++ [msg] |}
  else c.

Definition broadcast (roomKey senderID msg : string) (h : wsHub) : wsHub :=
  match h !! roomKey with
  | None => h
  | Some room => <[roomKey := offer senderID msg <$> room]> h
  end.

(** The write pump takes one message. *)
Definition receive (roomKey clientID : string) (h : wsHub) : wsHub :=
  match h !! roomKey with
  | None => h
  | Some room => <[roomKey := alter (fun c => {| id := id c; ch := tail (ch c) |}) clientID room]> h
  end.

(** [fmt.Sprintf("%d:%s:%s", siteID, endpointPath, room)]. *)
Definition room_key (siteID : Z) (endpointPath room : string) : string :=
  (Itoa siteID ++ ":" ++ endpointPath ++ ":" ++ room)%string.

(** ** Keys *)

Definition no_colon (s : string) : bool := all_bytes (fun a => negb (Ascii.eqb a ":")) s.

(** Two texts split at their first colon. *)
Lemma colon_split a b x y : no_colon a = true -> no_colon b = true ->
  (a ++ String ":" x = b ++ String ":" y)%string -> a = b /\ x = y.
Proof.
  revert b. induction a as [|c a IH]; intros [|d b] Ha Hb He; rewrite ?append_cons, ?append_nil_l in He;
    cbn in Ha, Hb; try apply andb_true_iff in Ha as [Ha1 Ha2]; try apply andb_true_iff in Hb as [Hb1 Hb2].
  - by injection He.
  - injection He as <- _. done.
  - injection He as -> _. done.
  - injection He as -> He. apply IH in He as [-> ->]; done.
Qed.

Lemma Itoa_no_colon z : no_colon (Itoa z) = true.
Proof.
  destruct (Itoa_cases z) as (neg & a & r & -> & Ha & Hr & _). unfold no_colon.
  assert (Hd : forall s, all_bytes is_digit s = true -> all_bytes (fun a => negb (Ascii.eqb a ":")) s = true).
  { intros s. apply all_bytes_impl. intros c Hc. by destruct (Ascii.eqb_spec c ":") as [->|]. }
  specialize (Hd _ Ha). destruct neg; [|exact Hd]. change (all_bytes (fun a => negb (Ascii.eqb a ":")) (String a r) = true). exact Hd.
Qed.

Lemma room_key_parts s e r s' e' r' : room_key s e r = room_key s' e' r' ->
  s = s' /\ (no_colon e = true -> no_colon e' = true -> e = e' /\ r = r').
Proof.
  unfold room_key. intros [Hs He]%colon_split; try apply Itoa_no_colon.
  split; [by apply (inj pretty)|]. intros H1 H2. by apply colon_split in He.
Qed.

(** ** Connections *)

(** A message that was read from a connection, with its sender and where. *)
Record Sent := { s_site : Z; s_endpoint : string; s_room : string; s_sender : string; s_text : string }.

Inductive hub_step : wsHub * list Sent -> wsHub * list Sent -> Prop :=
| conn_join s e r c h log : hub_step (h, log) (join (room_key s e r) c h, log)
| conn_leave s e r c h log : hub_step (h, log) (leave (room_key s e r) c h, log)
| conn_read s e r c msg h log :
    hub_step (h, log) (broadcast (room_key s e r) c msg h,
                       {| s_site := s; s_endpoint := e; s_room := r; s_sender := c; s_text := msg |} :: log)
| conn_write s e r c h log : hub_step (h, log) (receive (room_key s e r) c h, log).

(** A channel is within its capacity, under its client's id, and holds only what
    somebody else sent to its room. *)
Definition client_ok (log : list Sent) (k cid : string) (c : wsClient) : Prop :=
  id c = cid /\ (List.length (ch c) <= channel_capacity)%nat /\
  Forall (fun m => exists x, x ∈ log /\ room_key (s_site x) (s_endpoint x) (s_room x) = k /\
                             s_sender x <> cid /\ s_text x = m) (ch c).

Definition hub_inv (st : wsHub * list Sent) : Prop :=
  forall k room, fst st !! k = Some room -> room <> ∅ /\
    forall cid c, room !! cid = Some c -> client_ok (snd st) k cid c.

Lemma client_ok_more log x k cid c : client_ok log k cid c -> client_ok (x :: log) k cid c.
Proof.
  intros (H1 & H2 & H3). split; [done|]. split; [done|]. eapply Forall_impl; [exact H3|].
  intros m (y & Hy & H). exists y. split; [by right|done].
Qed.

Lemma offer_ok log x k cid c : room_key (s_site x) (s_endpoint x) (s_room x) = k ->
  client_ok log k cid c -> client_ok (x :: log) k cid (offer (s_sender x) (s_text x) c).
Proof.
  intros Hk Hc. pose proof (client_ok_more _ x _ _ _ Hc) as (H1 & H2 & H3). unfold offer.
  destruct (String.eqb_spec (id c) (s_sender x)) as [He|He]; [done|].
  destruct (Nat.ltb_spec (List.length (ch c)) channel_capacity) as [Hl|Hl]; [|done].
  split; [done|]. split; cbn; [rewrite length_app; cbn; lia|]. apply Forall_app. split; [done|].
  constructor; [|constructor]. exists x. split; [by left|]. by subst.
Qed.

Lemma alter_to_empty {A} (f : A -> A) k (m : gmap string A) : alter f k m = ∅ -> m = ∅.
Proof.
  intros Ha. apply map_empty. intros i. pose proof (f_equal (fun x => x !! i) Ha) as H. cbn in H.
  rewrite lookup_empty in H. destruct (decide (k = i)) as [->|Hne].
  - rewrite lookup_alter_eq in H. by destruct (m !! i).
  - by rewrite lookup_alter_ne in H.
Qed.

Lemma hub_step_inv st st' : hub_step st st' -> hub_inv st -> hub_inv st'.
Proof.
  intros Hs Hi k room. unfold hub_inv in Hi.
  destruct Hs as [s e r c h log|s e r c h log|s e r c msg h log|s e r c h log]; cbn [fst snd] in *.
  - unfold join. intros [[<- <-]|[Hne Hk]]%lookup_insert_Some; [|by apply Hi].
    split; [apply insert_non_empty|]. intros cid c' [[<- <-]|[Hc Hl]]%lookup_insert_Some.
    + split; [done|]. split; [cbn; lia|constructor].
    + destruct (h !! room_key s e r) as [room|] eqn:E; [|by destruct (lookup_empty_Some _ _ Hl)]. by apply (Hi _ _ E).
  - unfold leave. destruct (h !! room_key s e r) as [old|] eqn:E; [|by apply Hi].
    destruct (decide _) as [He|He].
    + intros [_ Hk]%lookup_delete_Some. by apply Hi.
    + intros [[<- <-]|[Hne Hk]]%lookup_insert_Some; [|by apply Hi]. split; [done|].
      intros cid c' [_ Hl]%lookup_delete_Some. by apply (Hi _ _ E).
  - unfold broadcast. destruct (h !! room_key s e r) as [old|] eqn:E.
    + intros [[<- <-]|[Hne Hk]]%lookup_insert_Some.
      * split; [intros He%fmap_empty_inv; by apply (Hi _ _ E)|].
        intros cid c'. rewrite lookup_fmap, fmap_Some. intros (c0 & Hc0 & ->).
        set (x := {| s_site := s; s_endpoint := e; s_room := r; s_sender := c; s_text := msg |}).
        apply (offer_ok log x); [done|]. by apply (Hi _ _ E).
      * destruct (Hi _ _ Hk) as [H1 H2]. split; [done|]. intros. apply client_ok_more. auto.
    + intros Hk. destruct (Hi _ _ Hk) as [H1 H2]. split; [done|]. intros. apply client_ok_more. auto.
  - unfold receive. destruct (h !! room_key s e r) as [old|] eqn:E; [|by apply Hi].
    intros [[<- <-]|[Hne Hk]]%lookup_insert_Some; [|by apply Hi]. destruct (Hi _ _ E) as [H1 H2].
    split; [intros Ha; by apply H1; eapply alter_to_empty|]. intros cid c' Hl. apply lookup_alter_Some in Hl as [(-> & c0 & Hc0 & ->)|[Hn Hl]]; [|auto].
    destruct (H2 _ _ Hc0) as (G1 & G2 & G3). split; [done|]. cbn [ch]. revert G2 G3. destruct (ch c0) as [|m l]; intros G2 G3; [by split; [cbn; lia|]|].
    apply Forall_cons in G3 as [_ G3]. cbn [List.length] in G2. split; [cbn; lia|done].
Qed.

(** C40. Whatever connections join, leave, send and read, in any order: what waits
    in a client's channel was sent by another client to the same room of the same
    site (and to the same endpoint and room parameter, as long as endpoint paths
    have no colon); a channel never exceeds its capacity; no empty room is kept. *)
Theorem rooms_are_isolated st s e r room cid c m : rtc hub_step (NewWSHub, []) st ->
  fst st !! room_key s e r = Some room ->
  room <> ∅ /\ (room !! cid = Some c -> (List.length (ch c) <= channel_capacity)%nat /\
    (m ∈ ch c -> exists x, x ∈ snd st /\ s_text x = m /\ s_sender x <> cid /\ s_site x = s /\
       (no_colon e = true -> no_colon (s_endpoint x) = true -> s_endpoint x = e /\ s_room x = r))).
Proof.
  intros H Hroom. assert (Hi : hub_inv st).
  { apply (rtc_ind_r (R := hub_step) hub_inv (NewWSHub, [])); [|intros a b _ Hs Ha; by eapply hub_step_inv|exact H].
    intros k room' Hk. destruct (lookup_empty_Some _ _ Hk). }
  destruct (Hi _ _ Hroom) as [Hne Hc]. split; [done|]. intros Hl. destruct (Hc _ _ Hl) as (_ & H2 & H3).
  split; [done|]. intros Hm. rewrite Forall_forall in H3. destruct (H3 m Hm) as (x & Hx & Hk & Hs & Ht).
  apply room_key_parts in Hk as [Hsite Hp]. exists x. split; [done|]. split; [done|]. split; [done|]. split; [done|auto].
Qed.

Definition two_clients : wsHub * list Sent :=
  (broadcast (room_key 7 "chat" "") "u1" "hi" (join (room_key 7 "chat" "") "u2" (join (room_key 7 "chat" "") "u1" NewWSHub)),
   [{| s_site := 7; s_endpoint := "chat"; s_room := ""; s_sender := "u1"; s_text := "hi" |}]).

Lemma rooms_are_isolated_witness :
  match fst two_clients !! room_key 7 "chat" "" with
  | Some room => room <> ∅
  | None => False
  end.
Proof.
  destruct (fst two_clients !! room_key 7 "chat" "") as [room|] eqn:E; [|by vm_compute in E].
  refine (proj1 (rooms_are_isolated two_clients 7 "chat" "" room "u2" {| id := "u2"; ch := [] |} "hi" _ E)).
  eapply rtc_l; [apply (conn_join 7 "chat" "" "u1")|]. eapply rtc_l; [apply (conn_join 7 "chat" "" "u2")|].
  eapply rtc_l; [apply (conn_read 7 "chat" "" "u1" "hi")|]. apply rtc_refl.
Defined.
