(* ===== verification/Webhooks.v ===== *)
(** * Webhooks: webhooks/outgoing.go and server/public/webhooks.go

    Deliveries to the webhooks subscribed to an event, with signature and
    retries, and the receipt of webhooks from outside.  HMAC-SHA256, the HTTP
    client and the text of a time are parameters. *)

From Stdlib Require Import ZArith Lia Ascii String List Bool.
From stdpp Require Import base list strings gmap.
From S2P Require Import Prelude GoStrings GoTime JSONText Security Encryption.

Local Open Scope string_scope.

(** ** The state of a site *)

Record WebhookRow := {
  wh_id : Z; wh_name : string; wh_secret : option string; wh_url : option string; wh_direction : string; wh_enabled : bool;
  last_triggered : option time; wh_created : time;
}.

Record LogRow := {
  wl_id : Z; wl_webhook : Z; wl_direction : string; wl_event : string; wl_payload : string;
  wl_status : option Z; wl_response : option string; wl_success : bool; wl_created : time;
}.

Record Event := { ev_type : string; ev_site : Z; ev_payload : json; ev_time : time }.

Record Hooks := {
  webhooks : list WebhookRow;
  subscriptions : list (Z * string);
  logs : list LogRow;                   (* latest first *)
  log_seq : Z;                          (* the last id of a log *)
  clock : time;
  posted : list (string * string * list (string * string));   (* url, body, headers; latest first *)
  events : list Event;                  (* latest first *)
}.

Class Net := {
  hmac_sha256 : string -> string -> string;                  (* key, message *)
  new_request : string -> option string;                     (* the error of a malformed url *)
  client_do : nat -> res string (Z * string);                (* status and body of the n-th request *)
  time_text : time -> string;                                (* MarshalJSON of a time *)
}.

Section Webhooks.
Context `{N : Net}.

Definition computeHMAC (message key : string) : string := hmac_sha256 key message.

(** ** Outgoing *)

Definition payload_of (e : Event) : string :=
  Marshal (JObj [("event", JStr (ev_type e)); ("payload", ev_payload e); ("site_id", JNum (Itoa (ev_site e)));
                 ("timestamp", JStr (time_text (ev_time e)))]).

Definition request_headers (secret payload : string) : list (string * string) :=
  [("Content-Type", "application/json"); ("User-Agent", "IATAN-Webhook/1.0")]
  ++ (if (secret =? "")%string then []
      else [("X-Webhook-Signature", "sha256=" ++ hex_encode (hmac_sha256 secret payload))]).

Definition post (url payload : string) (hs : list (string * string)) (h : Hooks) : Hooks :=
  {| webhooks := webhooks h; subscriptions := subscriptions h; logs := logs h; log_seq := log_seq h; clock := clock h;
     posted := (url, payload, hs) :: posted h; events := events h |}.

Definition wait (d : duration) (h : Hooks) : Hooks :=
  {| webhooks := webhooks h; subscriptions := subscriptions h; logs := logs h; log_seq := log_seq h; clock := clock h + d;
     posted := posted h; events := events h |}.

(** A log row, given its id and CURRENT_TIMESTAMP. *)
Definition add_log (l : Z -> time -> LogRow) (h : Hooks) : Hooks :=
  let id := log_seq h + 1 in
  {| webhooks := webhooks h; subscriptions := subscriptions h; logs := l id (Truncate (clock h) second) :: logs h; log_seq := id; clock := clock h;
     posted := posted h; events := events h |}.

Definition touch (id : Z) (h : Hooks) : Hooks :=
  {| webhooks := map (fun r => if (wh_id r =? id)%Z then
                        {| wh_id := wh_id r; wh_name := wh_name r; wh_secret := wh_secret r; wh_url := wh_url r;
                           wh_direction := wh_direction r; wh_enabled := wh_enabled r;
                           last_triggered := Some (Truncate (clock h) second); wh_created := wh_created r |}
                      else r) (webhooks h);
     subscriptions := subscriptions h; logs := logs h; log_seq := log_seq h; clock := clock h; posted := posted h; events := events h |}.

Definition is_success (status : Z) : bool := (200 <=? status)%Z && (status <? 300)%Z.

(** [io.LimitReader]. *)
Definition limit (n : Z) (s : string) : string :=
  if (Z.of_nat (String.length s) <=? n)%Z then s else take_str (Z.to_nat n) s.

Definition outgoing_log (id : Z) (ev payload : string) (status : Z) (response : string) (ok : bool) (row_id : Z) (t : time) : LogRow :=
  {| wl_id := row_id; wl_webhook := id; wl_direction := "outgoing"; wl_event := ev; wl_payload := payload;
     wl_status := Some status; wl_response := Some response; wl_success := ok; wl_created := t |}.

(** The attempts from number [3 - tries] on; status and response of the last
    answer so far. *)
Fixpoint attempts (tries : nat) (id : Z) (url secret payload ev : string) (status : Z) (response : string)
    (h : Hooks) : Hooks :=
  match tries with
  | O => add_log (outgoing_log id ev payload status response false) h
  | S tries' =>
      let attempt := 3 - Z.of_nat tries in
      let h := if (0 <? attempt)%Z then wait (attempt * attempt * (2 * second)) h else h in
      match new_request url with
      | Some _ => attempts tries' id url secret payload ev status response h
      | None =>
          let n := List.length (posted h) in
          let h := post url payload (request_headers secret payload) h in
          match client_do n with
          | Err _ => attempts tries' id url secret payload ev status response h
          | Ok (code, body) =>
              let response := limit 4096 body in
              if is_success code then touch id (add_log (outgoing_log id ev payload code response true) h)
              else attempts tries' id url secret payload ev code response h
          end
      end
  end.

Definition deliver (id : Z) (url secret : string) (e : Event) (h : Hooks) : Hooks :=
  attempts 3 id url secret (payload_of e) (ev_type e) 0 "" h.

(** The webhooks [handleEvent] delivers an event to, with url and secret. *)
Definition targets (e : Event) (h : Hooks) : list (Z * string * string) :=
  omap (fun s =>
    if (snd s =? ev_type e)%string then
      match List.find (fun r => (wh_id r =? fst s)%Z) (webhooks h) with
      | Some r =>
          match wh_url r with
          | Some url => if wh_enabled r && negb (url =? "")%string
                        then Some (wh_id r, url, default "" (wh_secret r)) else None
          | None => None
          end
      | None => None
      end
    else None) (subscriptions h).

(** [handleEvent]; the deliveries are goroutines of their own, here in turn. *)
Definition handleEvent (is_open : bool) (e : Event) (h : Hooks) : Hooks :=
  if (ev_site e =? 0)%Z || negb is_open then h
  else fold_left (fun h t => let '(id, url, secret) := t in deliver id url secret e h) (targets e h) h.

(** ** Incoming *)

(** The check of a signature: none when there is no secret or no signature. *)
Definition signature_ok (secret signature body : string) : bool :=
  if negb (secret =? "")%string && negb (signature =? "")%string then
    match hex_decode (TrimPrefix signature "sha256=") with
    | Ok mac => (mac =? computeHMAC body secret)%string
    | Err _ => false
    end
  else true.

Definition signature_of (r : HttpRequest) : string :=
  let s := header "X-Webhook-Signature" r in
  if (s =? "")%string then header "X-Hub-Signature-256" r else s.

Definition object_of (body : string) : json :=
  match Unmarshal body with Ok (JObj m) => JObj m | _ => JNull end.

Definition received (site : Z) (row : WebhookRow) (body : string) (h : Hooks) : Hooks :=
  let h := touch (wh_id row) h in
  let h := add_log (fun id t => {| wl_id := id; wl_webhook := wh_id row; wl_direction := "incoming"; wl_event := "webhook.received";
                      wl_payload := body; wl_status := None; wl_response := None; wl_success := true;
                                   wl_created := t |}) h in
  {| webhooks := webhooks h; subscriptions := subscriptions h; logs := logs h; log_seq := log_seq h; clock := clock h;
     posted := posted h;
     events := {| ev_type := "webhook.received"; ev_site := site;
                  ev_payload := JObj [("webhook_id", JNum (Itoa (wh_id row))); ("webhook_name", JStr (wh_name row));
                                      ("payload", object_of body)];
                  ev_time := clock h |} :: events h |}.

Definition IncomingWebhook (site : Z) (webhookName : string) (r : HttpRequest) (h : Hooks) : HttpResponse * Hooks :=
  if (webhookName =? "")%string then (error_response 404 "webhook name required", h)
  else match List.find (fun x => (wh_name x =? webhookName)%string) (webhooks h) with
  | None => (error_response 404 "webhook not found", h)
  | Some row =>
      match wh_secret row with
      | None => (error_response 404 "webhook not found", h)   (* NULL does not scan into a string *)
      | Some secret =>
          if negb (wh_enabled row) then (error_response 403 "webhook is disabled", h)
          else
            let body := limit 1048576 (req_body r) in
            if signature_ok secret (signature_of r) body then
              ({| resp_status := 200;
                  resp_body := JObj [("message", JStr "webhook received"); ("success", JBool true)] |},
               received site row body h)
            else (error_response 401 "invalid signature", h)
      end
  end.

(** ** Deliveries *)

(** The answer to the [k]-th attempt, the url being well formed. *)
Definition succeeds (n : nat) : bool :=
  match client_do n with Ok (code, _) => is_success code | Err _ => false end.

Fixpoint first_success (tries n : nat) : option nat :=
  match tries with
  | O => None
  | S t => if succeeds n then Some n else first_success t (S n)
  end.

Lemma repeat_snoc {A} (x : A) n l : (repeat x n ++ x :: l = repeat x (S n) ++ l)%list.
Proof. change (x :: l) with ([x] ++ l)%list. by rewrite app_assoc, <- repeat_cons. Qed.

(** What an attempt loop from attempt [3 - tries] does. *)
Lemma attempts_spec tries id url secret payload ev status response h : new_request url = None -> (tries <= 3)%nat ->
  let h' := attempts tries id url secret payload ev status response h in
  let n := List.length (posted h) in
  let sent := match first_success tries n with Some k => S (k - n) | None => tries end in
  (exists l t, logs h' = outgoing_log id ev payload (fst l) (snd l) (bool_decide (is_Some (first_success tries n))) (log_seq h + 1) t :: logs h) /\
  posted h' = (repeat (url, payload, request_headers secret payload) sent ++ posted h)%list.
Proof.
  intros Hu. revert status response h.
  induction tries as [|tries IH]; intros status response h Ht; cbn [attempts first_success].
  { cbn. split; [by eexists (status, response), _|done]. }
  cbv zeta. rewrite Hu.
  set (h0 := if (0 <? _)%Z then _ else h).
  assert (Hlog : logs h0 = logs h) by (unfold h0; by case_match).
  assert (Hseq : log_seq h0 = log_seq h) by (unfold h0; by case_match).
  assert (Hpost : posted h0 = posted h) by (unfold h0; by case_match).
  rewrite <- Hpost, <- Hlog, <- Hseq. unfold succeeds. clearbody h0. clear Hpost Hlog Hseq.
  assert (Hrest : forall st rs,
    let h' := attempts tries id url secret payload ev st rs (post url payload (request_headers secret payload) h0) in
    let n := S (List.length (posted h0)) in
    (exists l t, logs h' = outgoing_log id ev payload (fst l) (snd l) (bool_decide (is_Some (first_success tries n))) (log_seq h0 + 1) t :: logs h0) /\
    posted h' = (repeat (url, payload, request_headers secret payload)
      (S match first_success tries n with Some k => S (k - n) | None => tries end) ++ posted h0)%list).
  { intros st rs. destruct (IH st rs (post url payload (request_headers secret payload) h0) ltac:(lia)) as [(l & t & Hl) Hp].
    cbn [posted post List.length logs log_seq] in *. split; [by exists l, t|]. rewrite Hp.
    apply repeat_snoc. }
  assert (Hfs : forall t m k, first_success t m = Some k -> (m <= k)%nat).
  { clear. induction t as [|t IH]; intros m k; cbn; [done|]. case_match; [intros [= <-]; lia|]. intros Hk%IH. lia. }
  assert (Hn : forall m, S match first_success tries (S m) with Some k => S (k - S m) | None => tries end
               = match first_success tries (S m) with Some k => S (k - m) | None => S tries end).
  { intros m. destruct (first_success tries (S m)) as [k|] eqn:E; [|done]. apply Hfs in E. lia. }
  destruct (client_do (List.length (posted h0))) as [[c body]|e].
  - destruct (is_success c) eqn:Ec.
    + cbn. split; [by eexists (c, limit 4096 body), _|]. by rewrite Nat.sub_diag.
    + destruct (Hrest c (limit 4096 body)) as [H1 H2]. split; [exact H1|]. by rewrite H2, Hn.
  - destruct (Hrest status response) as [H1 H2]. split; [exact H1|]. by rewrite H2, Hn.
Qed.

(** A delivery to a well-formed url makes its attempts until one is answered
    with a 2xx status, three at most, all with the same body and signature, and
    leaves one log entry, which tells success if and only if one attempt
    succeeded. *)
Theorem deliver_spec id url secret e h : new_request url = None ->
  let h' := deliver id url secret e h in
  let n := List.length (posted h) in
  let first := first_success 3 n in
  let made := match first with Some k => S (k - n) | None => 3%nat end in
  posted h' = (repeat (url, payload_of e, request_headers secret (payload_of e)) made ++ posted h)%list /\
  (1 <= made <= 3)%nat /\
  exists status response t, logs h' =
    outgoing_log id (ev_type e) (payload_of e) status response (bool_decide (is_Some first)) (log_seq h + 1) t :: logs h.
Proof.
  intros Hu. cbv zeta. unfold deliver.
  destruct (attempts_spec 3 id url secret (payload_of e) (ev_type e) 0 "" h Hu ltac:(lia)) as [([st rs] & t & Hl) Hp].
  split; [exact Hp|]. split; [|by exists st, rs, t].
  cbn. repeat case_match; simplify_eq; lia.
Qed.

(** ** Receiving *)

(** The signature [deliver] puts in its header. *)
Definition delivered_signature (secret payload : string) : string :=
  default "" (assoc "X-Webhook-Signature" (request_headers secret payload)).

(** A webhook with a secret accepts a request whose signature is the HMAC of
    the body (the signature the program's own deliveries carry is one), refuses
    any other signature and leaves everything as it was; but a request with no
    signature at all is accepted too, logged and published. *)
Theorem incoming_signature site name r h row secret : name <> "" -> secret <> "" ->
  List.find (fun x => (wh_name x =? name)%string) (webhooks h) = Some row ->
  wh_secret row = Some secret -> wh_enabled row = true ->
  let body := limit 1048576 (req_body r) in
  let valid := hex_decode (TrimPrefix (signature_of r) "sha256=") = Ok (hmac_sha256 secret body) in
  let '(resp, h') := IncomingWebhook site name r h in
  ((signature_of r = "" \/ valid) /\ resp_status resp = 200 /\ h' = received site row body h \/
   signature_of r <> "" /\ ~ valid /\ resp_status resp = 401 /\ h' = h) /\
  (signature_of r = delivered_signature secret body -> valid).
Proof.
  intros Hn Hs0 Hf Hs He. cbv zeta. unfold IncomingWebhook. apply String.eqb_neq in Hn. rewrite Hn, Hf, Hs, He.
  cbn [negb]. set (body := limit 1048576 (req_body r)).
  apply String.eqb_neq in Hs0. unfold signature_ok. rewrite Hs0. cbn [negb andb].
  assert (Hd : delivered_signature secret body = "sha256=" ++ hex_encode (hmac_sha256 secret body)).
  { unfold delivered_signature, request_headers. by rewrite Hs0. }
  assert (Hlast : signature_of r = delivered_signature secret body ->
            hex_decode (TrimPrefix (signature_of r) "sha256=") = Ok (hmac_sha256 secret body)).
  { intros ->. by rewrite Hd, TrimPrefix_append, hex_roundtrip. }
  destruct (String.eqb_spec (signature_of r) "") as [E|E]; cbn [negb].
  { split; [left; by split; [left|]|exact Hlast]. }
  destruct (hex_decode _) as [mac|]; [|split; [by right|exact Hlast]].
  destruct (String.eqb_spec mac (computeHMAC body secret)) as [->|Hne].
  - split; [left; by split; [right|]|exact Hlast].
  - split; [right|exact Hlast]. split; [done|]. split; [|done]. intros [= ->]. by apply Hne.
Qed.
End Webhooks.

Module WebhookSample.
#[export] Instance net : Net :=
  {| hmac_sha256 := fun k m => k ++ m; new_request := fun _ => None;
     client_do := fun n => if (n =? 0)%nat then Err "connection refused" else Ok (200, "thanks");
     time_text := fun _ => "2024-01-01T00:00:00Z" |}.

Definition hook : WebhookRow :=
  {| wh_id := 1; wh_name := "stripe"; wh_secret := Some "s"; wh_url := Some "https://x.test"; wh_direction := "outgoing";
     wh_enabled := true; last_triggered := None; wh_created := 0 |}.

Definition start : Hooks :=
  {| webhooks := [hook]; subscriptions := [(1%Z, "data.insert")]; logs := []; log_seq := 0; clock := 0; posted := []; events := [] |}.

Definition inserted : Event :=
  {| ev_type := "data.insert"; ev_site := 3; ev_payload := JObj [("id", JNum "5")]; ev_time := 0 |}.

Definition unsigned : HttpRequest :=
  {| method := "POST"; url_path := "/webhooks/stripe"; headers := []; cookies := []; query := ∅; req_body := "{}" |}.
End WebhookSample.

Import WebhookSample.

Lemma deliver_spec_witness :
  let h' := deliver 1 "https://x.test" "s" inserted start in
  posted h' = repeat ("https://x.test", payload_of inserted, request_headers "s" (payload_of inserted)) 2.
Proof. exact (proj1 (deliver_spec 1 "https://x.test" "s" inserted start eq_refl)). Defined.

Lemma incoming_signature_witness :
  let '(resp, h') := IncomingWebhook 3 "stripe" unsigned start in
  resp_status resp = 200 /\ h' = received 3 hook "{}" start.
Proof.
  pose proof (incoming_signature 3 "stripe" unsigned start hook "s" ltac:(discriminate) ltac:(discriminate)
    eq_refl eq_refl eq_refl) as H.
  destruct (IncomingWebhook 3 "stripe" unsigned start) as [resp h'] eqn:E. destruct H as [[H|H] _].
  - exact (proj2 H).
  - destruct (proj1 H). reflexivity.
Defined.
