(* ===== verification/PublicSite.v ===== *)
(** * server/public: the pages of a site

    Which page a path leads to, the document it is served in, its content for the
    router in the browser, assets, files, sitemap and the choice of the site by host
    (server/public/handler.go).  Reads that fail are part of the model: the code
    takes most of them for rows that are not there. *)

From Stdlib Require Import ZArith Lia Ascii String List Bool.
From stdpp Require Import base list strings gmap.
From S2P Require Import Prelude GoStrings GoTime JSONText PlanStore World Security SiteTables Tables Regex PageText Pages Layout Paths Files Middleware Encryption PageParts.

Local Open Scope string_scope.

(** ** What the server reads *)

Record SiteInfo := {
  si_id : Z; si_name : string; si_domain : option string; si_status : string; si_description : option string;
}.

Record Visit := { vi_path : string; vi_hash : string; vi_referrer : string; vi_agent : string }.

(** The tables of a site, with the disk of its files. *)
Record PubStore := {
  pub_pages : list Page;
  pub_redirects : list (string * (string * Z));
  pub_layouts : list LayoutRow;
  pub_files : FileStore;
  pub_visits : list Visit;
}.

Record SrvState := { sv : PubStore; sv_reads : nat; sv_writes : nat }.

Definition P (A : Type) : Type := SrvState -> A * SrvState.
#[export] Instance P_ret : MRet P := fun A a s => (a, s).
#[export] Instance P_bind : MBind P := fun A B k m s => let '(a, s') := m s in k a s'.

(** What answers from outside: which opens, queries, reads of the disk and writes
    fail, in the order they are made; SHA-256; the text SQLite keeps of a time. *)
Class Server := {
  read_breaks : nat -> bool;
  write_breaks : nat -> bool;
  sha256 : string -> string;
  stored_time : time -> string;
}.

(** A scan of a table without ORDER BY. *)
Class TableScan := { scan : forall {A}, list A -> list A; scan_perm : forall {A} (l : list A), scan l ≡ₚ l }.

Inductive Reply :=
| RJson (status : Z) (v : json)
| RHtml (status : Z) (doc : string)
| RErrorPage (status : Z) (title message : string)
| RRedirect (status : Z) (target : string)
| RText (status : Z) (content_type text : string)
| RFile (content_type cache etag data : string)
| RNotModified (etag : string).

Definition public_error (status : Z) (msg : string) : Reply := RJson status (JObj [("error", JStr msg)]).
(** [http.NotFound] *)
Definition NotFound : Reply := RText 404 "text/plain; charset=utf-8" ("404 page not found" ++ newline).

(** ** Pages and paths *)

Definition published (p : Page) : bool := bool_decide (p_status p = Some "published") && negb (p_deleted p).
Definition is_page (path : string) (p : Page) : bool := (p_path p =? path)%string && published p.

Definition homeFallbacks (path : string) : list string :=
  if (path =? "/")%string then ["/index.html"; "/index"; "/home"]
  else if (path =? "/index.html")%string || (path =? "/index")%string then ["/"]
  else [].

(** The parameters of a path that fits a template, segment by segment. *)
Fixpoint match_segments (cand req : list string) (extracted : gmap string string) : option (gmap string string) :=
  match cand, req with
  | [], _ => Some extracted
  | _ :: _, [] => None
  | cp :: cand, rp :: req =>
      if HasPrefix cp ":" then match_segments cand req (<[drop_str 1 cp := rp]> extracted)
      else if (cp =? rp)%string then match_segments cand req extracted else None
  end.
Definition match_template (candidate requestPath : string) : option (gmap string string) :=
  let candParts := Split "/" candidate in
  let reqParts := Split "/" requestPath in
  if negb (List.length candParts =? List.length reqParts)%nat then None else match_segments candParts reqParts ∅.
Fixpoint first_template (l : list string) (requestPath : string) : option (string * gmap string string) :=
  match l with
  | [] => None
  | c :: r => match match_template c requestPath with Some m => Some (c, m) | None => first_template r requestPath end
  end.
(** [path LIKE '%:%'] *)
Definition is_template (p : Page) : bool := LIKE "%:%" (p_path p) && published p.

Section Handlers.
Context `{V : Server} `{S : TableScan}.

(** A query for one row: nothing, if there is none or the query fails. *)
Definition row_of {A} (f : PubStore -> option A) : P (option A) := fun s =>
  (if read_breaks (sv_reads s) then None else f (sv s),
   {| sv := sv s; sv_reads := Datatypes.S (sv_reads s); sv_writes := sv_writes s |}).
Definition rows_of {A} (f : PubStore -> list A) : P (option (list A)) := row_of (fun s => Some (f s)).

(** [SiteDBManager.Open] *)
Definition openSite : P bool := r ← row_of (fun _ => Some tt); mret (bool_decide (is_Some r)).

Definition write_row (f : PubStore -> PubStore) : P bool := fun s =>
  let s' := {| sv := if write_breaks (sv_writes s) then sv s else f (sv s); sv_reads := sv_reads s; sv_writes := Datatypes.S (sv_writes s) |} in
  (negb (write_breaks (sv_writes s)), s').

Definition load_page (path : string) : P (option Page) := row_of (fun s => List.find (is_page path) (pub_pages s)).

Definition checkRedirect (path : string) : P (option (string * Z)) :=
  row_of (fun s => option_map snd (List.find (fun kv => (fst kv =? path)%string) (pub_redirects s))).

Definition findParamPage (requestPath : string) : P (option (string * gmap string string)) :=
  l ← rows_of (fun s => map p_path (scan (List.filter is_template (pub_pages s))));
  mret match l with Some l => first_template l requestPath | None => None end.

(** The page of a template that fits the path. *)
Definition param_page (path : string) : P (option (Page * gmap string string)) :=
  t ← findParamPage path;
  match t with
  | None => mret None
  | Some (template, params) =>
      p ← load_page template;
      mret (option_map (fun p => (p, params)) p)
  end.

Fixpoint first_page (paths : list string) : P (option (string * Page)) :=
  match paths with
  | [] => mret None
  | alt :: r => p ← load_page alt; match p with Some p => mret (Some (alt, p)) | None => first_page r end
  end.

(** The page to serve, the path it is served as, and the parameters. *)
Definition resolve_page (pagePath : string) : P (option (Page * string * option (gmap string string))) :=
  p ← load_page pagePath;
  match p with
  | Some p => mret (Some (p, pagePath, None))
  | None =>
      alt ← first_page (homeFallbacks pagePath);
      match alt with
      | Some (path, p) => mret (Some (p, path, None))
      | None =>
          t ← param_page pagePath;
          mret (option_map (fun '(p, params) => (p, pagePath, Some params)) t)
      end
  end.

(** ** Assets *)

Record layoutData := { HeadContent : string; BodyBeforeMain : string; BodyAfterMain : string; Template : string }.

(** A NULL cannot be scanned into a string: such a layout counts as missing. *)
Definition layout_data (l : LayoutRow) : option layoutData :=
  match l_head l, l_before l, l_after l with
  | Some h, Some b, Some a => Some {| HeadContent := h; BodyBeforeMain := b; BodyAfterMain := a; Template := default "" (l_template l) |}
  | _, _, _ => None
  end.
Definition loadLayout (name : string) : P (option layoutData) :=
  row_of (fun s => match List.find (layout_named name) (pub_layouts s) with Some l => layout_data l | None => None end).

Definition latest (l : list FileRow) : option time :=
  match map f_created l with [] => None | t :: r => Some (fold_left Z.max r t) end.
Definition getAssetVersionHash : P string :=
  m ← row_of (fun s => option_map stored_time (latest (fs_assets (pub_files s))));
  mret match m with
       | Some t => if (t =? "")%string then "" else hex_encode (take_str 4 (sha256 t))
       | None => ""
       end.

Definition version_suffix (hash : string) : string := if (hash =? "")%string then "" else "?v=" ++ hash.
Definition css_tag (suffix fn : string) : string := dq "  <link rel='stylesheet' href='/assets/" ++ fn ++ suffix ++ dq "'>" ++ newline.
Definition js_tag (suffix fn : string) : string := dq "  <script src='/assets/" ++ fn ++ suffix ++ dq "'></script>" ++ newline.
Definition asset_tags (suffix : string) (names : list string) : string * string :=
  (String.concat "" (map (css_tag suffix) (css_names names)), String.concat "" (map (js_tag suffix) (js_names names))).

Definition is_css_or_js (f : FileRow) : bool := LIKE "%.css" (f_name f) || LIKE "%.js" (f_name f).

(** The tags of the assets of all pages, and of those of one page. *)
Definition autoInjectAssets : P (string * string) :=
  hash ← getAssetVersionHash;
  l ← rows_of (fun s => order_by (fun n => n) (map f_name
        (List.filter (fun f => (f_scope f =? "global")%string && is_css_or_js f) (fs_assets (pub_files s)))));
  mret match l with Some names => asset_tags (version_suffix hash) names | None => ("", "") end.
Definition no_assets (pageAssetsJSON : string) : bool := (pageAssetsJSON =? "")%string || (pageAssetsJSON =? "null")%string.
Definition injectPageAssets (pageAssetsJSON versionHash : string) : string * string :=
  if no_assets pageAssetsJSON then ("", "") else asset_tags (version_suffix versionHash) (trimmed_names pageAssetsJSON).

(** The names of all styles and scripts; none, if they cannot be read. *)
Definition asset_names : P (list string) :=
  l ← rows_of (fun s => map (fun f => ToLower (f_name f)) (List.filter is_css_or_js (fs_assets (pub_files s))));
  mret (default [] l).

Definition stripSharedAssetRefs (content : string) : P string :=
  names ← asset_names;
  mret (strip_asset_refs names content).

(** ** The document *)

Record pageMetadata := { Description : string; OGImage : string; Canonical : string; Keywords : string }.

(** A member of another type leaves the field as it is, and does not end the decoding. *)
Definition text_field (name : string) (m : list (string * json)) : string :=
  fold_left (fun old kv => match snd kv with JStr s => if same_name (fst kv) name then s else old | _ => old end) m "".
Definition dec_metadata (text : string) : pageMetadata :=
  let m := if (text =? "")%string || (text =? "{}")%string then []
           else match Unmarshal text with Ok (JObj m) => m | _ => [] end in
  {| Description := text_field "description" m; OGImage := text_field "og_image" m; Canonical := text_field "canonical" m;
     Keywords := text_field "keywords" m |}.

Definition line (s : string) : string := s ++ newline.
Definition when_text (s : string) (t : string) : string := if (s =? "")%string then "" else t.
Definition meta_tag (attr name content : string) : string :=
  line (dq "  <meta " ++ attr ++ dq "='" ++ name ++ dq "' content='" ++ EscapeString content ++ dq "'>").

(** [strings.Replace(s, old, new, 1)] *)
Definition replace_first (s old new : string) : string :=
  match Index s old with
  | Some n => take_str n s ++ new ++ drop_str (n + String.length old) s
  | None => s
  end.

(** What is read for a document besides the page. *)
Record DocParts := { dp_layout : option layoutData; dp_global : string * string; dp_hash : string; dp_names : list string }.

Definition document_title (site : SiteInfo) (title : string) : string :=
  (if (title =? "")%string then "" else EscapeString title ++ " | ") ++ EscapeString (si_name site).
Definition own_domain (site : SiteInfo) : string := default "" (si_domain site).
Definition canonicalURL (site : SiteInfo) (meta : pageMetadata) (pagePath : string) : string :=
  if (Canonical meta =? "")%string && negb (own_domain site =? "")%string
  then "https://" ++ own_domain site ++ pagePath else Canonical meta.
Definition description (site : SiteInfo) (meta : pageMetadata) : string :=
  if (Description meta =? "")%string then default "" (si_description site) else Description meta.

Definition head_start (site : SiteInfo) (meta : pageMetadata) (title : string) : string :=
  let d := description site meta in
  line "<!DOCTYPE html>" ++ line (dq "<html lang='en' dir='ltr'>") ++ line "<head>" ++ line (dq "  <meta charset='utf-8'>")
  ++ line (dq "  <meta name='viewport' content='width=device-width, initial-scale=1'>")
  ++ line ("  <title>" ++ document_title site title ++ "</title>")
  ++ when_text d (meta_tag "name" "description" d)
  ++ when_text (Keywords meta) (meta_tag "name" "keywords" (Keywords meta))
  ++ meta_tag "property" "og:title" title
  ++ when_text d (meta_tag "property" "og:description" d)
  ++ when_text (OGImage meta) (meta_tag "property" "og:image" (OGImage meta)).
Definition canonical_tags (url : string) : string :=
  when_text url (meta_tag "property" "og:url" url ++ line (dq "  <link rel='canonical' href='" ++ EscapeString url ++ dq "'>")).

(** The body: [clean] is the content without its styles and scripts. *)
Definition document_body (noLayoutWrap : bool) (layout : option layoutData) (clean : string) : string :=
  match (if noLayoutWrap then None else layout) with
  | None => line clean
  | Some l =>
      if negb (Template l =? "")%string then line (replace_first (Template l) "{{content}}" clean)
      else
        let clean := remove_all footBlockRe (remove_all navBlockRe clean) in
        when_text (BodyBeforeMain l) (line (BodyBeforeMain l)) ++ line "<main>" ++ clean ++ newline ++ line "</main>"
        ++ when_text (BodyAfterMain l) (line (BodyAfterMain l))
  end.

Definition params_script (routeParams : option (gmap string string)) : string :=
  let m := default ∅ routeParams in
  line ("<script>window.__routeParams=" ++ (if bool_decide (m = ∅) then "{}" else Marshal (enc_gmap m)) ++ ";</script>").

(** The text of the document. *)
Definition document (parts : DocParts) (site : SiteInfo) (pagePath : string) (p : Page) (routeParams : option (gmap string string)) : string :=
  let meta := dec_metadata (default "" (p_metadata p)) in
  let title := default "" (p_title p) in
  let '(pageCSS, pageJS) := injectPageAssets (default "" (p_assets p)) (dp_hash parts) in
  let content := strip_asset_refs (dp_names parts) (stripDocumentShell (default "" (p_content p))) in
  let '(headTags, bodyEndTags, clean) := extractAssetTags content in
  head_start site meta title ++ canonical_tags (canonicalURL site meta pagePath)
  ++ fst (dp_global parts) ++ pageCSS
  ++ match dp_layout parts with Some l => when_text (HeadContent l) ("  " ++ line (HeadContent l)) | None => "" end
  ++ when_text headTags (line headTags) ++ line "</head>" ++ line "<body>"
  ++ document_body (default "" (p_layout p) =? "none")%string (dp_layout parts) clean
  ++ params_script routeParams
  ++ snd (dp_global parts) ++ pageJS ++ when_text bodyEndTags (line bodyEndTags) ++ line "</body>" ++ "</html>".

Definition layout_to_load (p : Page) : string :=
  let n := default "" (p_layout p) in if (n =? "")%string || (n =? "none")%string then "default" else n.

Definition document_parts (p : Page) : P DocParts :=
  layout ← loadLayout (layout_to_load p);
  global ← autoInjectAssets;
  hash ← getAssetVersionHash;
  names ← asset_names;
  mret {| dp_layout := layout; dp_global := global; dp_hash := hash; dp_names := names |}.

Definition renderDocument (site : SiteInfo) (pagePath : string) (p : Page) (routeParams : option (gmap string string)) : P string :=
  parts ← document_parts p;
  mret (document parts site pagePath p routeParams).

(** ** The handlers *)

Definition serve404 (site : SiteInfo) : P Reply :=
  ok ← openSite;
  p ← (if (ok : bool) then load_page "/404" else mret None);
  match p with
  | Some p => doc ← renderDocument site "/404" p None; mret (RHtml 404 doc)
  | None => mret (RErrorPage 404 "Page Not Found" "The page you're looking for doesn't exist or has been moved.")
  end.

(** [trackPageView]: its errors are dropped.  [ServePage] starts it as a goroutine of
    its own; here it is done before the document is made, which reads none of what it writes. *)
Definition trackPageView (remoteAddr : string) (pagePath : string) (r : HttpRequest) : P unit :=
  ok ← openSite;
  if (ok : bool) then
    let ua := header "User-Agent" r in
    let visitor := take_str 16 (hex_encode (sha256 (ClientIP remoteAddr r ++ ua))) in
    write_row (fun s => {| pub_pages := pub_pages s; pub_redirects := pub_redirects s; pub_layouts := pub_layouts s;
                           pub_files := pub_files s;
                           pub_visits := (pub_visits s ++ [{| vi_path := pagePath; vi_hash := visitor;
                                                              vi_referrer := header "Referer" r; vi_agent := ua |}])%list |});;
    mret tt
  else mret tt.

Definition ServePage (site : SiteInfo) (remoteAddr : string) (r : HttpRequest) : P Reply :=
  ok ← openSite;
  if negb (ok : bool) then mret (public_error 500 "database error") else
  let pagePath := if (url_path r =? "")%string then "/" else url_path r in
  redirect ← checkRedirect pagePath;
  match redirect with
  | Some (target, code) => mret (RRedirect code target)
  | None =>
      found ← resolve_page pagePath;
      match found with
      | None => serve404 site
      | Some (p, path, params) =>
          trackPageView remoteAddr path r;;
          doc ← renderDocument site path p params;
          mret (RHtml 200 doc)
      end
  end.

(** ** The page as JSON *)

Definition with_version (suffix url : string) : string :=
  if HasPrefix url "/assets/" && negb (Contains url "?") then url ++ suffix else url.

Definition page_json (site : SiteInfo) (pagePath : string) (p : Page) (params : option (gmap string string)) (cleaned hash : string) : json :=
  let '(content, css, js) := stripForSPA (remove_all footBlockRe (remove_all navBlockRe cleaned)) in
  let assets := default "" (p_assets p) in
  let '(dbCSS, dbJS) := if no_assets assets then ([], []) else parsePageAssetURLs assets in
  let urls l := dedupStrings (map (if (hash =? "")%string then fun u => u else with_version (version_suffix hash)) l) in
  let css := urls (dbCSS ++ css)%list in
  let js := urls (dbJS ++ js)%list in
  let layout := default "" (p_layout p) in
  JObj ([("content", JStr (TrimSpace content)); ("layout", JStr (if (layout =? "")%string then "default" else layout));
         ("metadata", JStr (default "" (p_metadata p)))]
        ++ when (negb (bool_decide (css = []))) ("page_css", JArr (map JStr css))
        ++ when (negb (bool_decide (js = []))) ("page_js", JArr (map JStr js))
        ++ match params with Some m => [("params", enc_gmap m)] | None => [] end
        ++ [("path", JStr pagePath); ("site_id", JNum (Itoa (si_id site))); ("title", JStr (default "" (p_title p)))])%list.

(** The page the router gets: without the fallbacks of the home page. *)
Definition api_resolve (pagePath : string) : P (option (Page * option (gmap string string))) :=
  p ← load_page pagePath;
  match p with
  | Some p => mret (Some (p, None))
  | None => t ← param_page pagePath; mret (option_map (fun '(p, params) => (p, Some params)) t)
  end.

Definition api_page (site : SiteInfo) (r : HttpRequest) : P Reply :=
  ok ← openSite;
  if negb (ok : bool) then mret (public_error 500 "database error") else
  let pagePath := let q := query_get "path" r in if (q =? "")%string then "/" else q in
  redirect ← checkRedirect pagePath;
  match redirect with
  | Some (target, code) => mret (RJson 200 (JObj [("redirect", JStr target); ("status_code", JNum (Itoa code))]))
  | None =>
      found ← api_resolve pagePath;
      match found with
      | None => mret (public_error 404 "page not found")
      | Some (p, params) =>
          cleaned ← stripSharedAssetRefs (default "" (p_content p));
          hash ← getAssetVersionHash;
          mret (RJson 200 (page_json site pagePath p params cleaned hash))
      end
  end.

(** ** Sitemap and robots *)

Definition base_url (site : SiteInfo) (host : string) : string :=
  "https://" ++ if (own_domain site =? "")%string then host else own_domain site.

Definition sitemap_entry (base : string) (day_text : time -> string) (p : Page) : string :=
  line "  <url>" ++ line ("    <loc>" ++ EscapeString (base ++ p_path p) ++ "</loc>")
  ++ line ("    <lastmod>" ++ day_text (p_updated p) ++ "</lastmod>") ++ line "  </url>".
Definition sitemap_text (base : string) (day_text : time -> string) (l : list Page) : string :=
  line (dq "<?xml version='1.0' encoding='UTF-8'?>") ++ line (dq "<urlset xmlns='http://www.sitemaps.org/schemas/sitemap/0.9'>")
  ++ String.concat "" (map (sitemap_entry base day_text) l) ++ line "</urlset>".

(** [day_text] is [Format("2006-01-02")]. *)
Definition Sitemap (day_text : time -> string) (site : SiteInfo) (host : string) : P Reply :=
  ok ← openSite;
  if negb (ok : bool) then mret (RText 500 "text/plain; charset=utf-8" (line "internal error")) else
  l ← rows_of (fun s => order_by p_path (List.filter published (pub_pages s)));
  mret match l with
       | None => RText 500 "text/plain; charset=utf-8" (line "internal error")
       | Some l => RText 200 "application/xml; charset=utf-8" (sitemap_text (base_url site host) day_text l)
       end.

Definition Robots (site : SiteInfo) (host : string) : Reply :=
  RText 200 "text/plain; charset=utf-8" (line "User-agent: *" ++ line "Allow: /" ++ line ("Sitemap: " ++ base_url site host ++ "/sitemap.xml")).

(** ** Assets and files *)

Definition mime_types : list (string * string) :=
  [(".css", "text/css"); (".js", "application/javascript"); (".svg", "image/svg+xml"); (".json", "application/json");
   (".html", "text/html"); (".htm", "text/html"); (".png", "image/png"); (".jpg", "image/jpeg"); (".jpeg", "image/jpeg");
   (".gif", "image/gif"); (".webp", "image/webp"); (".woff", "font/woff"); (".woff2", "font/woff2"); (".ttf", "font/ttf");
   (".otf", "font/otf"); (".ico", "image/x-icon"); (".xml", "application/xml"); (".pdf", "application/pdf"); (".mp4", "video/mp4");
   (".webm", "video/webm"); (".mp3", "audio/mpeg")].
Definition mimeByExtension (filename : string) : string := default "" (table_get (ToLower (Ext filename)) mime_types).

(** A relative name that is its own cleaned form and does not lead up. *)
Definition plain_name (filename : string) : bool :=
  negb (filename =? "")%string && (Clean filename =? filename)%string && negb (HasPrefix filename "/") && negb (HasPrefix filename "..").

Definition site_prefix (site : SiteInfo) : string := path_Join (path_Join "data" "sites") (Itoa (si_id site)).
(** A path that begins, cleaned, with the directory of the site; an absolute one does not. *)
Definition has_site_prefix (site : SiteInfo) (fpath : string) : bool :=
  negb (HasPrefix fpath "/") && HasPrefix (Clean fpath) (site_prefix site).

Definition file_path (site : SiteInfo) (cfg : storageConfig) (f : FileRow) (filename : string) : string :=
  if (f_path f =? "")%string then path_Join (path_Join (site_prefix site) (dirName cfg)) filename else f_path f.

Definition file_type (f : FileRow) (filename : string) : string :=
  let ct := mimeByExtension filename in
  let ct := if (ct =? "")%string then default "" (f_type f) else ct in
  if (ct =? "")%string then octet_stream else ct.

Definition etag_of (data : string) : string := take_str 18 (s1 double ++ hex_encode (sha256 data) ++ s1 double) ++ s1 double.

Definition asset_cache : string := "public, max-age=31536000, immutable".
Definition file_cache : string := "public, max-age=86400, must-revalidate".

(** [ServeAsset] and [ServeFile]. *)
Definition serve_stored (cfg : storageConfig) (cache : string) (site : SiteInfo) (r : HttpRequest) : P Reply :=
  let filename := TrimPrefix (url_path r) (urlBase cfg) in
  if negb (plain_name filename) then mret NotFound else
  ok ← openSite;
  if negb (ok : bool) then mret NotFound else
  f ← row_of (fun s => find_row cfg filename (pub_files s));
  match f with
  | None => mret NotFound
  | Some f =>
      let fpath := file_path site cfg f filename in
      if negb (has_site_prefix site fpath) then mret NotFound else
      data ← row_of (fun s => fs_disk (pub_files s) !! Clean fpath);
      mret match data with
           | None => NotFound
           | Some data =>
               let etag := etag_of data in
               if (header "If-None-Match" r =? etag)%string then RNotModified etag
               else RFile (file_type f filename) cache etag data
           end
  end.
Definition ServeAsset : SiteInfo -> HttpRequest -> P Reply := serve_stored assets_config asset_cache.
Definition ServeFile : SiteInfo -> HttpRequest -> P Reply := serve_stored files_config file_cache.
End Handlers.

(** ** The site of a request *)

Definition wantsHTML (r : HttpRequest) : bool := Contains (header "Accept" r) "text/html".
Definition strip_port (host : string) : string := match LastIndex host ":" with Some n => take_str n host | None => host end.

(** [SiteResolver]: the site, or the answer.  [by_domain] and [active] are the reads
    of the sites, nothing where they fail. *)
Definition SiteResolver (by_domain : string -> option SiteInfo) (active : option (list SiteInfo)) (host : string) (r : HttpRequest)
    : Reply + SiteInfo :=
  match (match by_domain (strip_port host) with
         | Some s => Some s
         | None => match active with Some (s :: _) => Some s | _ => None end
         end) with
  | None =>
      inl (if wantsHTML r then RErrorPage 404 "Site Not Found" "There is no site configured for this domain."
           else public_error 404 "site not found")
  | Some site =>
      if (si_status site =? "active")%string then inr site
      else inl (if wantsHTML r then RErrorPage 404 "Site Unavailable" "This site is currently unavailable. Please check back later."
                else public_error 404 "site not found")
  end.
