(* ===== verification/PublicSiteFacts.v ===== *)
(** * What the public server promises

    Which pages a visitor can see and which he gets, what of his own text comes back
    to him and how, that taking a page apart loses nothing, and that what the tools
    saved is what is served. *)

From Stdlib Require Import ZArith Lia Ascii String List Bool.
From stdpp Require Import base list strings gmap.
From S2P Require Import Prelude GoStrings GoTime JSONText PlanStore World ToolCore Approval SchedulerTool Security SiteTables PublicAPIFacts ToolMonad Tables Endpoints Regex PlanJSON PageText Pages HttpTool Paths Files StoreFacts PageFacts FileFacts FileHistory Middleware Layout PageParts Encryption PublicSite.

Local Open Scope string_scope.

(** ** Templates *)

Definition is_param (c : string) : bool := HasPrefix c ":".
Definition param_name (c : string) : string := drop_str 1 c.
Definition param_names (cand : list string) : list string := map param_name (List.filter is_param cand).
(** A segment of a template with its parameters put in. *)
Definition put_in (m : gmap string string) (c : string) : string := if is_param c then default "" (m !! param_name c) else c.
Definition fill_template (m : gmap string string) (template : string) : string := Join (map (put_in m) (Split "/" template)) "/".

(** The values a list of segments gives to parameters not bound later stay. *)
Lemma match_segments_other cand : forall req acc m k, match_segments cand req acc = Some m -> ~ In k (param_names cand) -> m !! k = acc !! k.
Proof.
  induction cand as [|c cand IH]; intros req acc m k; cbn [match_segments]; [by intros [= ->]|].
  destruct req as [|r req]; [done|]. unfold param_names. cbn [List.filter]. unfold is_param at 1. destruct (HasPrefix c ":").
  - cbn [map]. intros H Hk. rewrite (IH _ _ _ _ H) by (intros Hi; apply Hk; by right).
    apply lookup_insert_ne. intros <-. apply Hk. by left.
  - destruct (c =? r)%string; [|done]. intros H Hk. by apply (IH _ _ _ _ H).
Qed.

Lemma match_segments_fill cand : forall req acc m, NoDup (param_names cand) -> List.length cand = List.length req ->
  match_segments cand req acc = Some m -> map (put_in m) cand = req.
Proof.
  induction cand as [|c cand IH]; intros req acc m Hd Hl H; [by destruct req|]. destruct req as [|r req]; [done|]. injection Hl as Hl.
  cbn [match_segments] in H. cbn [map]. unfold param_names in Hd. cbn [List.filter] in Hd. unfold put_in at 1. fold (is_param c) in H.
  destruct (is_param c).
  - cbn [map] in Hd. apply NoDup_cons in Hd as [Hn Hd]. rewrite (IH _ _ _ Hd Hl H). f_equal.
    rewrite (match_segments_other _ _ _ _ _ H) by (intros Hi; by apply Hn, list_elem_of_In). unfold param_name. by rewrite lookup_insert_eq.
  - destruct (String.eqb_spec c r) as [->|]; [|done]. f_equal. by apply (IH _ _ _ Hd Hl H).
Qed.

Lemma match_segments_complete cand : forall m acc, Forall (fun c => is_param c = true -> is_Some (m !! param_name c)) cand ->
  exists m', match_segments cand (map (put_in m) cand) acc = Some m' /\ (forall k, In k (param_names cand) -> m' !! k = m !! k).
Proof.
  induction cand as [|c cand IH]; intros m acc Hs; cbn [match_segments map]; [by exists acc|].
  apply Forall_cons in Hs as [Hc Hs]. unfold param_names. cbn [List.filter]. fold (is_param c). destruct (is_param c) eqn:Hp.
  - destruct (Hc eq_refl) as [v Hv]. destruct (IH m (<[param_name c := put_in m c]> acc) Hs) as (m' & H1 & H2).
    exists m'. split; [done|]. intros k Hk. destruct (in_dec String.string_dec k (param_names cand)) as [Hi|Hi]; [by apply H2|].
    destruct Hk as [<-|Hk]; [|done]. rewrite (match_segments_other _ _ _ _ _ H1) by done.
    unfold put_in. by rewrite Hp, lookup_insert_eq, Hv.
  - unfold put_in at 1. rewrite Hp, String.eqb_refl. by apply IH.
Qed.

(** A path fits a template exactly when the template with parameters put in is
    that path; the parameters found then are those put in. *)
Theorem template_fits template path : NoDup (param_names (Split "/" template)) ->
  (forall m, match_template template path = Some m -> fill_template m template = path) /\
  (forall m, Forall (fun c => is_param c = true -> exists v, m !! param_name c = Some v /\ slashless v) (Split "/" template) ->
     fill_template m template = path ->
     exists m', match_template template path = Some m' /\ forall k, In k (param_names (Split "/" template)) -> m' !! k = m !! k).
Proof.
  intros Hd. unfold match_template, fill_template. split.
  - intros m. destruct (_ =? _)%nat eqn:Hl; [|done]. cbn [negb]. intros H. apply Nat.eqb_eq in Hl.
    by rewrite (match_segments_fill _ _ _ _ Hd Hl H), Join_Split.
  - intros m Hm <-. assert (Split "/" (Join (map (put_in m) (Split "/" template)) "/") = map (put_in m) (Split "/" template)) as ->.
    { apply Split_Join; [by pose proof (Split_not_nil "/" template); destruct (Split "/" template)|].
      apply Forall_map. pose proof (Split_slashless template) as Hs. rewrite Forall_forall in *. intros c Hc. unfold put_in.
      destruct (is_param c) eqn:Hp; [|by apply Hs]. by destruct (Hm c Hc Hp) as (v & -> & Hv). }
    rewrite length_map, Nat.eqb_refl. cbn [negb]. apply match_segments_complete. eapply Forall_impl; [exact Hm|].
    intros c H Hp. destruct (H Hp) as (v & Hv & _). by exists v.
Qed.

(** ** Which page is served *)

(** The page [p] answers a request for [path], as [path'] and with parameters. *)
Inductive responds_to (path : string) (p : Page) : string -> option (gmap string string) -> Prop :=
| by_path : p_path p = path -> responds_to path p path None
| by_home path' : In path' (homeFallbacks path) -> p_path p = path' -> responds_to path p path' None
| by_template m : match_template (p_path p) path = Some m -> responds_to path p path (Some m).

Section Serving.
Context `{V : Server} `{S : TableScan}.
Implicit Types (s : SrvState).

(** A read of the server: the site is as it was. *)
Definition quiet {A} (m : P A) : Prop := forall s, sv (snd (m s)) = sv s.

Lemma quiet_ret {A} (a : A) : quiet (mret a).
Proof. done. Qed.
Lemma quiet_row {A} (f : PubStore -> option A) : quiet (row_of f).
Proof. done. Qed.
Lemma quiet_bind {A B} (m : P A) (k : A -> P B) : quiet m -> (forall a, quiet (k a)) -> quiet (m ≫= k).
Proof. intros Hm Hk s. unfold mbind, P_bind. specialize (Hm s). destruct (m s) as [a s1]. cbn in Hm. by rewrite (Hk a s1). Qed.

Lemma bind_run {A B} (m : P A) (k : A -> P B) s : (m ≫= k) s = k (fst (m s)) (snd (m s)).
Proof. unfold mbind, P_bind. by destruct (m s). Qed.
Lemma row_run {A} (f : PubStore -> option A) s a : fst (row_of f s) = Some a -> f (sv s) = Some a.
Proof. cbn. by destruct (read_breaks _). Qed.

Ltac quiet_tac :=
  repeat (cbv beta zeta; lazymatch goal with
    | |- quiet (mbind _ _) => apply quiet_bind; [|intros ?]
    | |- quiet (mret _) => apply quiet_ret
    | |- quiet (row_of _) => apply quiet_row
    | |- quiet (rows_of _) => apply quiet_row
    | |- quiet (match ?x with _ => _ end) => destruct x eqn:?
    | |- quiet _ => solve [eauto with quiet]
    end).

Lemma quiet_openSite : quiet openSite.
Proof. unfold openSite. quiet_tac. Qed.
Lemma quiet_load path : quiet (load_page path).
Proof. apply quiet_row. Qed.
Lemma quiet_param path : quiet (param_page path).
Proof. unfold param_page, findParamPage, load_page. quiet_tac. Qed.
Lemma quiet_first l : quiet (first_page l).
Proof. induction l as [|x l IH]; cbn [first_page]; [done|]. apply quiet_bind; [apply quiet_load|]. by intros [p|]. Qed.
Lemma quiet_resolve path : quiet (resolve_page path).
Proof.
  unfold resolve_page. apply quiet_bind; [apply quiet_load|]. intros [p|]; [done|]. apply quiet_bind; [apply quiet_first|].
  intros [[a p]|]; [done|]. by apply quiet_bind; [apply quiet_param|].
Qed.
Lemma quiet_render site path p params : quiet (renderDocument site path p params).
Proof.
  unfold renderDocument, document_parts, loadLayout, autoInjectAssets, getAssetVersionHash, asset_names. quiet_tac.
Qed.

Lemma load_page_spec path s p : fst (load_page path s) = Some p -> In p (pub_pages (sv s)) /\ published p = true /\ p_path p = path.
Proof. intros [Hi [Hp%String.eqb_eq Hq]%andb_prop]%row_run%find_some. done. Qed.

Lemma first_template_spec l path c m : first_template l path = Some (c, m) -> In c l /\ match_template c path = Some m.
Proof.
  induction l as [|x l IH]; [done|]. cbn [first_template]. destruct (match_template x path) as [m'|] eqn:Hm.
  - intros [= <- <-]. split; [by left|done].
  - intros [H1 H2]%IH. split; [by right|done].
Qed.

Lemma param_page_spec path s p m : fst (param_page path s) = Some (p, m) ->
  In p (pub_pages (sv s)) /\ published p = true /\ match_template (p_path p) path = Some m.
Proof.
  unfold param_page. rewrite bind_run. assert (quiet (findParamPage path)) as Hq by (unfold findParamPage; quiet_tac).
  specialize (Hq s). unfold findParamPage in *. rewrite bind_run in *. destruct (fst (rows_of _ s)) as [l|]; [|done]. cbn [mret P_ret fst snd] in *.
  destruct (first_template l path) as [[c m']|] eqn:Hf; [|done]. rewrite bind_run. cbn [mret P_ret fst].
  set (s1 := snd (rows_of _ s)) in *. destruct (fst (load_page c s1)) as [q|] eqn:Hl; [|done]. intros [= -> ->].
  apply load_page_spec in Hl as (H1 & H2 & H3). rewrite Hq in H1. apply first_template_spec in Hf as [_ Hf]. by rewrite H3.
Qed.

Lemma first_page_spec l : forall s path p, fst (first_page l s) = Some (path, p) ->
  In path l /\ In p (pub_pages (sv s)) /\ published p = true /\ p_path p = path.
Proof.
  induction l as [|x l IH]; intros s path p; [done|]. cbn [first_page]. rewrite bind_run.
  destruct (fst (load_page x s)) as [q|] eqn:Hl.
  - intros [= <- <-]. split; [by left|by apply load_page_spec].
  - intros (H1 & H2)%IH. split; [by right|]. by rewrite (quiet_load x s) in H2.
Qed.

Lemma resolve_page_spec path s p path' params : fst (resolve_page path s) = Some (p, path', params) ->
  In p (pub_pages (sv s)) /\ published p = true /\ responds_to path p path' params.
Proof.
  unfold resolve_page. rewrite bind_run. destruct (fst (load_page path s)) as [q|] eqn:Hl.
  - intros [= <- <- <-]. apply load_page_spec in Hl as (H1 & H2 & H3). split_and!; [done|done|by constructor].
  - rewrite bind_run. set (s1 := snd (load_page path s)). assert (sv s1 = sv s) as H1 by apply quiet_load.
    destruct (fst (first_page _ s1)) as [[alt q]|] eqn:Hf.
    + intros [= <- <- <-]. apply first_page_spec in Hf as (Hi & H2 & H3 & H4). rewrite H1 in H2. split_and!; [done|done|by constructor].
    + rewrite bind_run. set (s2 := snd (first_page _ s1)). assert (sv s2 = sv s) as H2 by (unfold s2; by rewrite quiet_first).
      destruct (fst (param_page path s2)) as [[q m]|] eqn:Hm; [|done]. intros [= <- <- <-].
      apply param_page_spec in Hm as (H3 & H4 & H5). rewrite H2 in H3. split_and!; [done|done|by constructor].
Qed.

(** ** The answer *)

(** What a document is made of besides its page is of the site: the layout the page
    names, and tags for assets of all pages. *)
Definition parts_of (st : PubStore) (p : Page) (parts : DocParts) : Prop :=
  (forall d, dp_layout parts = Some d -> exists l, In l (pub_layouts st) /\ l_name l = layout_to_load p /\ layout_data l = Some d) /\
  (exists hash names, dp_global parts = asset_tags (version_suffix hash) names /\
     forall n, In n names -> exists f, In f (fs_assets (pub_files st)) /\ f_name f = n /\ f_scope f = "global").

Lemma insert_by_In {A} (key : A -> string) x y l : In y (insert_by key x l) -> y = x \/ In y l.
Proof.
  induction l as [|z l IH]; cbn; [naive_solver|]. destruct (_ : bool); cbn; [naive_solver|]. intros [->|H]; [by right; left|]. destruct (IH H); auto.
Qed.
Lemma order_by_In {A} (key : A -> string) y l : In y (order_by key l) -> In y l.
Proof. induction l as [|x l IH]; [done|]. cbn. intros [->|H]%insert_by_In; auto. Qed.

Lemma loadLayout_spec name s d : fst (loadLayout name s) = Some d ->
  exists l, In l (pub_layouts (sv s)) /\ l_name l = name /\ layout_data l = Some d.
Proof.
  intros H%row_run. destruct (List.find _ _) as [l|] eqn:Hf; [|done]. apply find_some in Hf as [Hi Hn%String.eqb_eq]. by exists l.
Qed.

Lemma autoInject_spec s : exists hash names, fst (autoInjectAssets s) = asset_tags (version_suffix hash) names /\
  forall n, In n names -> exists f, In f (fs_assets (pub_files (sv s))) /\ f_name f = n /\ f_scope f = "global".
Proof.
  unfold autoInjectAssets. rewrite bind_run. set (s1 := snd (getAssetVersionHash s)).
  assert (sv s1 = sv s) as H1. { unfold s1, getAssetVersionHash. by rewrite bind_run. }
  rewrite bind_run. destruct (fst (rows_of _ s1)) as [l|] eqn:Hl.
  - apply row_run in Hl. injection Hl as <-. eexists _, _. split; [done|]. intros n Hn%order_by_In.
    apply in_map_iff in Hn as (f & <- & [Hf [Hs%String.eqb_eq _]%andb_prop]%filter_In). exists f. by rewrite <- H1.
  - by exists "", [].
Qed.

Lemma render_spec site path p params s : exists parts,
  fst (renderDocument site path p params s) = document parts site path p params /\ parts_of (sv s) p parts.
Proof.
  unfold renderDocument. rewrite bind_run. cbn [mret P_ret fst]. eexists. split; [done|].
  unfold document_parts. rewrite bind_run. set (s1 := snd (loadLayout _ s)). assert (sv s1 = sv s) as H1 by done.
  rewrite bind_run. split.
  - intros d Hd. rewrite bind_run in Hd. by apply loadLayout_spec in Hd.
  - rewrite bind_run. cbn [dp_global mret P_ret fst]. rewrite bind_run. cbn [fst dp_global]. exact (autoInject_spec s1).
Qed.

(** What a visit may change: the list of visits. *)
Definition same_site (a b : PubStore) : Prop :=
  pub_pages a = pub_pages b /\ pub_redirects a = pub_redirects b /\ pub_layouts a = pub_layouts b /\ pub_files a = pub_files b.

Lemma track_same addr path r s : same_site (sv s) (sv (snd (trackPageView addr path r s))).
Proof.
  unfold trackPageView. rewrite bind_run. set (s1 := snd (openSite s)). assert (sv s1 = sv s) as H1 by apply quiet_openSite.
  rewrite <- H1. destruct (fst (openSite s)); [|done]. cbv zeta. rewrite bind_run. unfold write_row. cbn [snd fst mret P_ret sv].
  by destruct (write_breaks _).
Qed.

Definition requested (r : HttpRequest) : string := if (url_path r =? "")%string then "/" else url_path r.

(** What visitors see is published.  Whatever fails: the document a path is
    answered with is made from a page that is published and not deleted - the one of
    that path, of a variant of the home page, or of a template the path fits -, from
    the layout that page names and the assets of all pages; a path not found gets the
    page /404, if that is published, or the built-in error page; a redirect is one
    that is in the table.  A request changes nothing but the list of visits. *)
Theorem only_published_served site addr r s :
  let '(reply, s') := ServePage site addr r s in
  same_site (sv s) (sv s') /\
  match reply with
  | RHtml status doc => exists parts p path params, doc = document parts site path p params /\ parts_of (sv s) p parts /\
      In p (pub_pages (sv s)) /\ published p = true /\
      (status = 200 /\ responds_to (requested r) p path params \/ status = 404 /\ p_path p = "/404" /\ params = None)%Z
  | RRedirect code target => In (requested r, (target, code)) (pub_redirects (sv s))
  | RErrorPage status _ _ => status = 404%Z
  | RJson status _ => status = 500%Z
  | _ => False
  end.
Proof.
  rewrite (surjective_pairing (ServePage site addr r s)). unfold ServePage. fold (requested r). rewrite bind_run.
  set (s1 := snd (openSite s)). assert (sv s1 = sv s) as H1 by apply quiet_openSite. rewrite <- H1.
  destruct (fst (openSite s)); cbn [negb]; [|by cbn]. rewrite bind_run. set (s2 := snd (checkRedirect _ s1)).
  assert (sv s2 = sv s1) as H2 by done. destruct (fst (checkRedirect _ s1)) as [[target code]|] eqn:Hred.
  { cbn. split; [done|]. apply row_run in Hred. destruct (List.find _ _) as [[a b]|] eqn:Hf; [|done].
    apply find_some in Hf as [Hi Hk%String.eqb_eq]. cbn in Hred, Hk. injection Hred as ->. by subst a. }
  rewrite bind_run. set (s3 := snd (resolve_page _ s2)). assert (sv s3 = sv s2) as H3 by apply quiet_resolve.
  destruct (fst (resolve_page _ s2)) as [[[p path] params]|] eqn:Hp.
  - apply resolve_page_spec in Hp as (P1 & P2 & P3). rewrite bind_run. set (s4 := snd (trackPageView _ _ _ s3)).
    assert (same_site (sv s3) (sv s4)) as Hs by apply track_same. rewrite bind_run. cbn [mret P_ret fst snd].
    rewrite quiet_render. rewrite H3, H2 in Hs. split; [done|]. destruct (render_spec site path p params s4) as (parts & -> & Hparts).
    exists parts, p, path, params. split_and!; try done; [|by left].
    destruct Hs as (_ & _ & Hl & Hf). unfold parts_of in *. by rewrite Hl, Hf.
  - unfold serve404. rewrite bind_run. set (s4 := snd (openSite s3)). assert (sv s4 = sv s3) as H4 by apply quiet_openSite.
    rewrite bind_run. set (m := if fst (openSite s3) then _ else _). assert (quiet m) as Hm by (unfold m; destruct (fst (openSite s3)); [apply quiet_load|done]).
    destruct (fst (m s4)) as [p|] eqn:Hl.
    + rewrite bind_run. cbn [mret P_ret fst snd]. rewrite quiet_render, Hm, H4, H3, H2. split; [done|].
      destruct (render_spec site "/404" p None (snd (m s4))) as (parts & -> & Hparts). rewrite Hm, H4, H3, H2 in Hparts.
      assert (fst (load_page "/404" s4) = Some p) as Hl' by (unfold m in Hl; by destruct (fst (openSite s3))).
      apply load_page_spec in Hl' as (P1 & P2 & P3). rewrite H4, H3, H2 in P1. exists parts, p, "/404", None. by split_and!; [..|right].
    + cbn [mret P_ret fst snd]. rewrite Hm, H4, H3, H2. done.
Qed.
End Serving.

(** ** Every published page is found *)

Lemma like_rest n : forall s, (String.length s < n)%nat -> like (S n) "%" s = true.
Proof.
  induction n as [|n IH]; [lia|]. intros s Hs. cbn [like]. destruct s as [|a s]; [done|].
  change (like (S n) "" (String a s) || like (S n) "%" s = true). rewrite IH by (cbn in Hs; lia). apply orb_true_r.
Qed.
Lemma like_colon b e : forall n, (String.length b + String.length e + 3 < n)%nat -> like n "%:%" (b ++ String ":" e) = true.
Proof.
  induction b as [|a b IH]; intros n Hn; (destruct n as [|n]; [lia|]); cbn [like].
  - destruct n as [|n]; [lia|]. change (like (S n) ":%" (String ":" e) || like (S n) "%:%" e = true).
    change (like (S n) ":%" (String ":" e)) with (like n "%" e). destruct n as [|n]; [lia|]. cbn in Hn. by rewrite like_rest by lia.
  - change (like n ":%" (String a (b ++ String ":" e)) || like n "%:%" (b ++ String ":" e) = true).
    rewrite IH by (cbn in Hn; lia). apply orb_true_r.
Qed.
Lemma LIKE_colon b e : LIKE "%:%" (b ++ String ":" e) = true.
Proof. apply like_colon. rewrite length_append. cbn. lia. Qed.

Lemma Join_has_segment l c : In c l -> exists b e, Join l "/" = b ++ c ++ e.
Proof.
  induction l as [|x l IH]; [done|]. intros [->|Hc].
  - destruct l; [exists "", ""; by rewrite append_nil_r|]. exists "", ("/" ++ Join (s :: l) "/"). by rewrite Join_cons.
  - destruct (IH Hc) as (b & e & H). exists (x ++ "/" ++ b), e. rewrite Join_cons by (by destruct l). rewrite H. by rewrite !append_assoc.
Qed.

(** A template with a parameter is among the rows asked for. *)
Lemma param_LIKE path c : In c (Split "/" path) -> is_param c = true -> LIKE "%:%" path = true.
Proof.
  intros Hc Hp. rewrite <- (Join_Split path). destruct (Join_has_segment _ _ Hc) as (b & e & ->). unfold is_param in Hp.
  apply HasPrefix_split in Hp as [r ->]. apply (LIKE_colon b (r ++ e)).
Qed.

(** A template without one fits only itself. *)
Lemma no_param_self cand : forall req acc m, List.length cand = List.length req -> Forall (fun c => is_param c = false) cand ->
  match_segments cand req acc = Some m -> cand = req.
Proof.
  induction cand as [|c cand IH]; intros [|r req] acc m Hl Hp; try done. injection Hl as Hl. apply Forall_cons in Hp as [Hc Hp].
  cbn [match_segments]. unfold is_param in Hc. rewrite Hc. destruct (String.eqb_spec c r) as [->|]; [|done]. intros H. f_equal. by eapply IH.
Qed.
Lemma match_template_LIKE template path m : match_template template path = Some m -> template = path \/ LIKE "%:%" template = true.
Proof.
  unfold match_template. destruct (_ =? _)%nat eqn:Hl; [|done]. cbn [negb]. apply Nat.eqb_eq in Hl. intros H.
  destruct (existsb is_param (Split "/" template)) eqn:He.
  - right. apply existsb_exists in He as (c & Hc & Hp). by eapply param_LIKE.
  - left. rewrite <- (Join_Split template), <- (Join_Split path). f_equal. eapply no_param_self; [done| |done].
    apply Forall_forall. intros c Hc%list_elem_of_In. destruct (is_param c) eqn:Hp; [|done].
    rewrite <- not_true_iff_false in He. destruct He. apply existsb_exists. by exists c.
Qed.

Lemma first_template_complete l path c m : In c l -> match_template c path = Some m -> is_Some (first_template l path).
Proof.
  induction l as [|x l IH]; [done|]. intros Hi Hm. cbn [first_template]. destruct (match_template x path) eqn:Hx; [done|].
  destruct Hi as [->|Hi]; [congruence|by apply IH].
Qed.

Section Calm.
Context `{V : Server} `{S : TableScan}.
Context (reads_work : forall n, read_breaks n = false).
Implicit Types (s : SrvState).

Lemma row_works {A} (f : PubStore -> option A) s : fst (row_of f s) = f (sv s).
Proof. cbn. by rewrite reads_work. Qed.

Lemma load_found path s p : In p (pub_pages (sv s)) -> published p = true -> p_path p = path -> is_Some (fst (load_page path s)).
Proof.
  intros Hi Hp Hq. unfold load_page. rewrite row_works. destruct (List.find _ _) eqn:Hf; [done|].
  pose proof (find_none _ _ Hf p Hi) as H. unfold is_page in H. by rewrite Hq, String.eqb_refl, Hp in H.
Qed.

Lemma first_page_found l : forall s path p, In path l -> In p (pub_pages (sv s)) -> published p = true -> p_path p = path ->
  is_Some (fst (first_page l s)).
Proof.
  induction l as [|x l IH]; [done|]. intros s path p Hl Hi Hp Hq. cbn [first_page]. rewrite bind_run.
  destruct (fst (load_page x s)) as [q|] eqn:Hx; [done|]. destruct Hl as [->|Hl].
  - destruct (load_found path s p Hi Hp Hq) as [q Hq']. congruence.
  - by eapply IH.
Qed.

Lemma param_page_found path s p m : In p (pub_pages (sv s)) -> published p = true -> match_template (p_path p) path = Some m ->
  LIKE "%:%" (p_path p) = true -> is_Some (fst (param_page path s)).
Proof.
  intros Hi Hp Hm Hk. unfold param_page. rewrite bind_run. set (s1 := snd (findParamPage path s)). assert (sv s1 = sv s) as H1 by done.
  unfold findParamPage. rewrite bind_run. unfold rows_of. rewrite row_works. cbn [mret P_ret fst].
  destruct (first_template _ path) as [[c m']|] eqn:Hf.
  - apply first_template_spec in Hf as [Hc _]. apply in_map_iff in Hc as (q & Hq & Hc%list_elem_of_In). rewrite scan_perm in Hc.
    apply list_elem_of_In, filter_In in Hc as [Hc [_ Hpub]%andb_prop]. rewrite <- H1 in Hc.
    destruct (load_found c s1 q Hc Hpub Hq) as [q' Hq']. rewrite bind_run, Hq'. by eexists.
  - destruct (first_template_complete (map p_path (scan (List.filter is_template (pub_pages (sv s))))) path (p_path p) m) as [x Hx]; [|done|congruence].
    apply in_map_iff. exists p. split; [done|]. apply list_elem_of_In. rewrite scan_perm. apply list_elem_of_In, filter_In.
    split; [done|]. unfold is_template. by rewrite Hk, Hp.
Qed.

Lemma resolve_found path s p path' params : In p (pub_pages (sv s)) -> published p = true -> responds_to path p path' params ->
  is_Some (fst (resolve_page path s)).
Proof.
  intros Hi Hp Ha. unfold resolve_page. rewrite bind_run. destruct (fst (load_page path s)) as [q|] eqn:Hl; [done|].
  assert (p_path p <> path) as Hn. { intros Hq. destruct (load_found path s p Hi Hp Hq). congruence. }
  rewrite bind_run. set (s1 := snd (load_page path s)). assert (sv s1 = sv s) as H1 by done. rewrite <- H1 in Hi.
  destruct (fst (first_page _ s1)) as [[alt q]|] eqn:Hf; [done|]. rewrite bind_run. set (s2 := snd (first_page _ s1)).
  assert (sv s2 = sv s1) as H2 by apply quiet_first. destruct Ha as [|alt Halt Hq|m Hm]; [done| |].
  - destruct (first_page_found (homeFallbacks path) s1 alt p Halt Hi Hp Hq). congruence.
  - rewrite <- H2 in Hi. destruct (match_template_LIKE _ _ _ Hm) as [|Hk]; [done|].
    destruct (param_page_found path s2 p m Hi Hp Hm Hk) as [[q m'] ->]. by eexists.
Qed.
End Calm.

Lemma serve404_status `{V : Server} `{S : TableScan} site doc s : fst (serve404 site s) <> RHtml 200 doc.
Proof.
  unfold serve404. rewrite bind_run. destruct (fst (openSite s)).
  - rewrite bind_run. destruct (fst (load_page _ _)); [rewrite bind_run|]; discriminate.
  - rewrite bind_run. discriminate.
Qed.

(** C18. A published page is found, and nothing else is.  When the reads work and no
    redirect is set for a path, the answer is a page (status 200) exactly when some
    published page answers for that path: by its own path, by being a variant of the
    home page, or by a template the path fits.  A page of the very path comes first. *)
Theorem page_served_iff_published `{V : Server} `{S : TableScan} site addr r s :
  (forall n, read_breaks n = false) -> (forall kv, In kv (pub_redirects (sv s)) -> fst kv <> requested r) ->
  ((exists doc, fst (ServePage site addr r s) = RHtml 200 doc) <->
   (exists p path params, In p (pub_pages (sv s)) /\ published p = true /\ responds_to (requested r) p path params)) /\
  forall p, In p (pub_pages (sv s)) -> published p = true -> p_path p = requested r ->
    exists q parts, p_path q = requested r /\ published q = true /\
      fst (ServePage site addr r s) = RHtml 200 (document parts site (requested r) q None).
Proof.
  intros Hw Hr. unfold ServePage. fold (requested r). rewrite bind_run. set (s1 := snd (openSite s)).
  assert (sv s1 = sv s) as H1 by apply quiet_openSite. assert (fst (openSite s) = true) as ->.
  { unfold openSite. rewrite bind_run, row_works by done. done. }
  cbn [negb]. rewrite bind_run. set (s2 := snd (checkRedirect _ s1)). assert (sv s2 = sv s) as H2 by done.
  assert (fst (checkRedirect (requested r) s1) = None) as ->.
  { unfold checkRedirect. rewrite row_works, H1 by done. destruct (List.find _ _) as [kv|] eqn:Hf; [|done].
    apply find_some in Hf as [Hi Hk%String.eqb_eq]. by destruct (Hr kv). }
  rewrite bind_run. rewrite <- H2. split.
  - destruct (fst (resolve_page (requested r) s2)) as [[[p path] params]|] eqn:Hp.
    + apply resolve_page_spec in Hp as (P1 & P2 & P3). split; [by intros _; exists p, path, params|].
      intros _. rewrite !bind_run. by eexists.
    + split.
      * intros [doc Hd]. by destruct (serve404_status site doc (snd (resolve_page (requested r) s2))).
      * intros (p & path & params & P1 & P2 & P3). destruct (resolve_found Hw _ s2 p path params P1 P2 P3). congruence.
  - intros p Hi Hp Hq. destruct (load_found Hw (requested r) s2 p Hi Hp Hq) as [q Hl]. unfold resolve_page at 1. rewrite bind_run, Hl.
    cbn [mret P_ret fst]. rewrite !bind_run. cbn [mret P_ret fst]. apply load_page_spec in Hl as (_ & Hq1 & Hq2).
    set (s3 := snd (trackPageView _ _ _ _)). destruct (render_spec site (requested r) q None s3) as (parts & -> & _). by exists q, parts.
Qed.

(** ** The visitor's own text *)

(** Text that can end neither an attribute nor a tag, and text that ends no script. *)
Definition inert (s : string) : Prop :=
  all_bytes (fun a => negb (Ascii.eqb a "<" || Ascii.eqb a ">" || Ascii.eqb a "'" || Ascii.eqb a double)) s = true.
Definition no_tag (s : string) : Prop := all_bytes (fun a => negb (Ascii.eqb a "<" || Ascii.eqb a ">" || Ascii.eqb a "&")) s = true.

Lemma EscapeString_inert s : inert (EscapeString s).
Proof.
  unfold inert. induction s as [|a s IH]; [done|]. cbn [EscapeString]. rewrite all_bytes_append, IH, andb_true_r.
  by destruct a as [[] [] [] [] [] [] [] []].
Qed.

Lemma no_tag_append s t : no_tag s -> no_tag t -> no_tag (s ++ t).
Proof. unfold no_tag. rewrite all_bytes_append. by intros -> ->. Qed.

Lemma between_high lo hi a : (128 <= lo)%nat -> between lo hi a = true -> (128 <=? code a)%nat = true.
Proof. unfold between. intros Hl [H%Nat.leb_le _]%andb_prop. apply Nat.leb_le. lia. Qed.

(** The bytes of an encoding of more than one byte are above ASCII. *)
Lemma utf8_high s k : utf8_len s = S (S k) -> all_bytes (fun a => (128 <=? code a)%nat) (take_str (S (S k)) s) = true.
Proof.
  destruct s as [|a r]; [done|]. cbn [utf8_len]. destruct (_ <? 128)%nat; [done|]. destruct r as [|b r]; [done|]. unfold cont.
  assert (forall lo hi x, (128 <= lo)%nat -> between lo hi x = true -> (128 <=? code x)%nat = true) as HB by apply between_high.
  destruct (between 194 223 a) eqn:H1.
  { destruct (between 128 191 b) eqn:H2; [|done]. intros [= <-]. cbn [take_str all_bytes]. rewrite (HB 194 223 a)%nat, (HB 128 191 b)%nat by (done || lia). done. }
  destruct r as [|c r]; [done|]. destruct (between 224 239 a) eqn:H3.
  { destruct (_ && between 128 191 c) eqn:H4; [|done]. intros [= <-]. cbn [take_str all_bytes]. apply andb_prop in H4 as [H4 H5].
    assert ((128 <=? code b)%nat = true) as -> by (repeat case_match; (eapply HB, H4; lia)).
    rewrite (HB 224 239 a)%nat, (HB 128 191 c)%nat by (done || lia). done. }
  destruct r as [|d r]; [done|]. destruct (between 240 244 a) eqn:H5; [|done].
  destruct (_ && between 128 191 c && between 128 191 d) eqn:H6; [|done]. intros [= <-]. cbn [take_str all_bytes].
  apply andb_prop in H6 as [[H6 H7]%andb_prop H8].
  assert ((128 <=? code b)%nat = true) as -> by (repeat case_match; (eapply HB, H6; lia)).
  rewrite (HB 240 244 a)%nat, (HB 128 191 c)%nat, (HB 128 191 d)%nat by (done || lia). done.
Qed.

Lemma escape_of_no_tag a e : escape_of a = Some e -> no_tag e.
Proof. destruct a as [[] [] [] [] [] [] [] []]; first [discriminate | by intros [= <-]]. Qed.
Lemma plain_no_tag a : escape_of a = None -> no_tag (s1 a).
Proof. destruct a as [[] [] [] [] [] [] [] []]; first [discriminate | done]. Qed.
Lemma line_separator_no_tag s e : line_separator s = Some e -> no_tag e.
Proof. unfold line_separator. destruct (HasPrefix _ _); [by intros [= <-]|]. destruct (HasPrefix _ _); [by intros [= <-]|done]. Qed.

Lemma enc_body_no_tag n : forall s, no_tag (enc_body n s).
Proof.
  induction n as [|n IH]; [done|]. intros [|a r]; [done|]. cbn [enc_body]. destruct (escape_of a) as [e|] eqn:He.
  { apply no_tag_append; [by eapply escape_of_no_tag|apply IH]. }
  destruct (utf8_len (String a r)) as [|k] eqn:Hk; apply no_tag_append; try apply IH; [done|].
  destruct (line_separator _) as [e|] eqn:Hl; [by eapply line_separator_no_tag|]. destruct k as [|k].
  - by apply plain_no_tag in He.
  - apply utf8_high in Hk. eapply all_bytes_impl, Hk. intros b Hb%Nat.leb_le. apply negb_true_iff. rewrite !orb_false_iff.
    repeat split; apply Ascii.eqb_neq; intros ->; vm_compute in Hb; lia.
Qed.
Lemma enc_string_no_tag s : no_tag (enc_string s).
Proof. unfold enc_string. change (no_tag (s1 quote ++ enc_body (String.length s) s ++ s1 quote)). repeat apply no_tag_append; [done|apply enc_body_no_tag|done]. Qed.

Lemma Join_no_tag l sep : no_tag sep -> Forall no_tag l -> no_tag (Join l sep).
Proof.
  intros Hs. induction 1 as [|x l Hx Hl IH]; [done|]. destruct l as [|y l]; [done|].
  change (Join (x :: y :: l) sep) with (x ++ sep ++ Join (y :: l) sep). by repeat apply no_tag_append.
Qed.

Lemma enc_gmap_no_tag m : no_tag (Marshal (enc_gmap m)).
Proof.
  unfold enc_gmap. cbn [Marshal]. rewrite map_map. repeat apply no_tag_append; [done| |done]. apply Join_no_tag; [done|].
  apply Forall_map, Forall_true. intros [k v]. cbn [fst snd Marshal].
  apply no_tag_append; [apply enc_string_no_tag|]. apply no_tag_append; [done|apply enc_string_no_tag].
Qed.

Lemma params_readable m : map_Forall (fun k v => utf8 k /\ utf8 v) m -> readable max_depth (enc_gmap m).
Proof.
  intros Hm. assert (Forall (fun kv : string * string => utf8 kv.1 /\ utf8 kv.2) (sorted_members m)) as H.
  { rewrite sorted_members_perm. apply Forall_forall. intros [k v] Hi%elem_of_map_to_list. by apply Hm. }
  unfold enc_gmap. unfold max_depth. change (100 * 100)%nat with (S (Nat.pred (100 * 100))). cbn [readable].
  induction H as [|[k v] l H1 _ IH]; [done|]. cbn [map foldr fst snd]. split; [split; apply H1|exact IH].
Qed.

(** The parameters, as the script of the page has them. *)
Definition params_data (params : option (gmap string string)) : string :=
  let m := default ∅ params in if bool_decide (m = ∅) then "{}" else Marshal (enc_gmap m).

(** The two places, in the order the document is written. *)
Lemma two_places (h t m1 m2 m3 m4 m5 m6 m7 o d c nl e : string) :
  h ++ t ++ m1 ++ m2 ++ m3 ++ m4 ++ m5 ++ m6 ++ m7 ++ ((o ++ d ++ c) ++ nl) ++ e =
  h ++ t ++ (m1 ++ m2 ++ m3 ++ m4 ++ m5 ++ m6 ++ m7) ++ o ++ d ++ c ++ nl ++ e.
Proof. by rewrite !append_assoc. Qed.

(** C19. What a visitor writes into the address cannot become markup.  The document
    of a page depends on the path and the parameters of the request in two places
    only: the tags for the address of the page, in whose attributes a text stands that
    can end neither attribute nor tag; and the script that sets the parameters, in a text
    in which no tag begins or ends, so that it cannot end the script, and which is
    read back as the parameters themselves. *)
Theorem visitor_text_escaped parts site p : exists before_ between_ after_, forall path params, exists tags,
  document parts site path p params = before_ ++ tags ++ between_ ++ "<script>window.__routeParams=" ++ params_data params ++ ";</script>" ++ after_ /\
  (tags = "" \/ exists url, inert url /\
     tags = line (dq "  <meta property='og:url' content='" ++ url ++ dq "'>") ++ line (dq "  <link rel='canonical' href='" ++ url ++ dq "'>")) /\
  no_tag (params_data params) /\
  (map_Forall (fun k v => utf8 k /\ utf8 v) (default ∅ params) ->
     exists j, Unmarshal (params_data params) = Ok j /\ dec_map (Some j) = Ok (Some (default ∅ params))).
Proof.
  unfold document. cbv zeta. destruct (injectPageAssets _ _) as [pageCSS pageJS]. destruct (extractAssetTags _) as [[headTags bodyEndTags] clean].
  eexists _, _, _. intros path params. exists (canonical_tags (canonicalURL site (dec_metadata (default "" (p_metadata p))) path)). split_and!.
  - unfold params_script at 1. fold (params_data params). unfold line at 4. apply two_places.
  - unfold canonical_tags, when_text. destruct (_ =? "")%string; [by left|right]. eexists. split; [apply EscapeString_inert|done].
  - unfold params_data. case_bool_decide; [done|apply enc_gmap_no_tag].
  - intros Hm. unfold params_data. case_bool_decide as He.
    + exists (JObj []). split; [done|]. rewrite He. vm_compute. reflexivity.
    + exists (enc_gmap (default ∅ params)). split; [by apply Unmarshal_Marshal, params_readable|apply dec_enc_gmap].
Qed.

Module SiteSample.
#[export] Instance server : Server :=
  {| read_breaks _ := false; write_breaks _ := false; sha256 s := s; stored_time t := Itoa t |}.
#[export] Instance in_order : TableScan.
Proof. by exists (fun A l => l). Defined.

Definition site : SiteInfo :=
  {| si_id := 7; si_name := "Shop"; si_domain := Some "shop.example"; si_status := "active"; si_description := None |}.
Definition page (path content : string) (status : string) : Page :=
  {| p_id := 1; p_path := path; p_title := Some "A page"; p_content := Some content; p_template := None; p_status := Some status;
     p_metadata := None; p_layout := None; p_assets := None; p_deleted := false; p_deleted_at := None; p_created := 0%Z; p_updated := 0%Z |}.
Definition about : Page := page "/about" "<p>who we are</p>" "published".
Definition store : PubStore :=
  {| pub_pages := [page "/about" "<p>soon</p>" "draft"; about; page "/thread/:id" "<p>thread</p>" "published"];
     pub_redirects := [("/old", ("/about", 301%Z))]; pub_layouts := [];
     pub_files := {| fs_assets := []; fs_files := []; fs_versions := []; fs_disk := ∅; fs_dirs := ∅; fs_ops := []; fs_net := 0; fs_urls := [] |};
     pub_visits := [] |}.
Definition start : SrvState := {| sv := store; sv_reads := 0; sv_writes := 0 |}.
Definition get (path : string) : HttpRequest :=
  {| method := "GET"; url_path := path; headers := []; cookies := []; query := ∅; req_body := "" |}.
End SiteSample.
Import SiteSample.

(** The thread 4, and the template with its parameter put in. *)
Lemma template_fits_witness :
  fill_template {["id" := "4"]} "/thread/:id" = "/thread/4" /\
  exists m, match_template "/thread/:id" "/thread/4" = Some m /\ m !! "id" = Some "4".
Proof.
  destruct (template_fits "/thread/:id" "/thread/4" ltac:(by apply NoDup_singleton)) as [_ H]. split; [by vm_compute|].
  destruct (H {["id" := "4"]}) as (m & Hm & Hv).
  - apply Forall_cons_2; [done|]. apply Forall_cons_2; [done|]. apply Forall_cons_2; [|by constructor]. intros _. by exists "4".
  - by vm_compute.
  - exists m. split; [exact Hm|]. rewrite Hv by (by left). done.
Defined.

(** The page is served, and not its draft; nothing is served for another path. *)
Lemma page_served_iff_published_witness :
  (exists q parts, p_path q = "/about" /\ published q = true /\
     fst (ServePage site "10.0.0.1:80" (get "/about") start) = RHtml 200 (document parts site "/about" q None)) /\
  exists doc, fst (ServePage site "10.0.0.1:80" (get "/thread/4") start) = RHtml 200 doc.
Proof.
  split.
  - apply (page_served_iff_published site "10.0.0.1:80" (get "/about") start ltac:(done) ltac:(by intros kv [<-|[]])) with (p := about);
      [by right; left|done|done].
  - apply (page_served_iff_published site "10.0.0.1:80" (get "/thread/4") start ltac:(done) ltac:(by intros kv [<-|[]])).
    exists (page "/thread/:id" "<p>thread</p>" "published"), "/thread/4", (Some {["id" := "4"]}).
    split; [by right; right; left|]. split; [done|]. constructor. by vm_compute.
Defined.

Lemma HasPrefix_append p s : HasPrefix (p ++ s) p = true.
Proof. unfold HasPrefix. induction p as [|a p IH]; [by destruct s|]. rewrite append_cons. cbn. by destruct (ascii_dec a a). Qed.

Lemma safe_relative name : safe_path name -> HasPrefix name "/" = false.
Proof.
  intros Hn. destruct (HasPrefix name "/") eqn:Hp; [|done]. apply HasPrefix_split in Hp as [r ->].
  unfold safe_path in Hn. change ("/" ++ r) with ("" ++ "/" ++ r) in Hn. by rewrite Split_append in Hn.
Qed.

(** The server's table of types agrees with the tool's. *)
Lemma mime_agrees filename : mimeByExtension filename <> "" -> inferContentType filename = mimeByExtension filename.
Proof.
  unfold mimeByExtension, inferContentType. set (e := ToLower (Ext filename)). clearbody e. unfold mime_types, content_types. cbn [table_get].
  repeat (match goal with |- context [String.eqb ?k e] => destruct (String.eqb_spec k e) as [<-|?] end; [done|]). done.
Qed.

Lemma served_type filename given f : f_type f = Some (content_type_of filename given) ->
  file_type f filename = content_type_of filename given.
Proof.
  intros Hf. unfold file_type. rewrite Hf. cbn [default id].
  assert (content_type_of filename given <> "") as Hne.
  { unfold content_type_of. destruct (String.eqb_spec given "") as [|Hg]; [rewrite orb_true_r|destruct (negb _); cbn [orb]; [|done]];
      unfold inferContentType; destruct (table_get _ _) eqn:Ht; try done; revert Ht; unfold content_types; cbn [table_get];
      repeat (case_match; [by intros [= <-]|]); done. }
  destruct (String.eqb_spec (mimeByExtension filename) "") as [_|Hm]; cbv zeta.
  - by destruct (String.eqb_spec (content_type_of filename given) "").
  - destruct (String.eqb_spec (mimeByExtension filename) "") as [|_]; [done|]. unfold content_type_of.
    rewrite (mime_agrees _ Hm). destruct (String.eqb_spec (mimeByExtension filename) octet_stream) as [Ho|_]; [|done]. exfalso. revert Ho Hm.
    unfold mimeByExtension. set (e := ToLower (Ext filename)). clearbody e. unfold mime_types. cbn [table_get]. repeat (case_match; [done|]). done.
Qed.

Section Served.
Context `{E : Env} `{F : Formats} `{O : MapOrder} `{N : Net} `{D : Disk} `{K : !Calm} `{V : Server}.
Context (disk_works : forall n o p, disk_error n o p = None) (reads_work : forall n, read_breaks n = false).

(** A file where it belongs lies below the site. *)
Lemma in_site_prefix site cfg name : valid cfg -> safe_path name ->
  Clean (default_path (si_id site) cfg name) = default_path (si_id site) cfg name /\ has_site_prefix site (default_path (si_id site) cfg name) = true.
Proof.
  intros Hv Hn. rewrite default_inside by done. assert (safe_path (site_dir (si_id site) cfg ++ "/" ++ name)) as Hs by (by apply safe_append, Hn; apply site_dir_safe).
  split; [by apply Clean_safe|]. unfold has_site_prefix. rewrite Clean_safe by done.
  assert (site_dir (si_id site) cfg = site_prefix site ++ "/" ++ dirName cfg) as ->.
  { destruct (Itoa_plain (si_id site)) as [H1 H2].
    assert (safe_path (Itoa (si_id site))) as Hi by (unfold safe_path; rewrite Split_slashless_id by done; cbn; by rewrite H2).
    unfold site_dir, site_prefix. change (path_Join "data" "sites") with "data/sites". rewrite (Join_safe "data/sites") by done.
    apply Join_safe; [by apply (safe_append "data/sites")|]. by destruct Hv as [->| ->]. }
  rewrite !append_assoc, HasPrefix_append, andb_true_r. unfold site_prefix. change (path_Join "data" "sites") with "data/sites".
  destruct (Itoa_plain (si_id site)) as [H1 H2]. rewrite Join_safe; [done|done|].
  unfold safe_path. rewrite Split_slashless_id by done. cbn. by rewrite H2.
Qed.

(** A file of the table that lies where its name says is answered with. *)
Lemma serve_found site cfg cache name f data s r : valid cfg -> safe_path name -> HasPrefix name ".." = false ->
  find_row cfg name (pub_files (sv s)) = Some f -> f_path f = default_path (si_id site) cfg name ->
  fs_disk (pub_files (sv s)) !! default_path (si_id site) cfg name = Some data -> url_path r = urlBase cfg ++ name ->
  fst (serve_stored cfg cache site r s) =
    if (header "If-None-Match" r =? etag_of data)%string then RNotModified (etag_of data)
    else RFile (file_type f name) cache (etag_of data) data.
Proof.
  intros Hv Hn Hdd Hf Hp Hd Hu. unfold serve_stored. rewrite Hu, TrimPrefix_append.
  assert (plain_name name = true) as ->.
  { unfold plain_name. rewrite Clean_safe, Hdd, String.eqb_refl, (safe_relative name) by done. apply safe_nonempty, String.eqb_neq in Hn. by rewrite Hn. }
  cbn [negb]. rewrite bind_run. assert (fst (openSite s) = true) as -> by (unfold openSite; rewrite bind_run, row_works by done; done).
  cbn [negb]. rewrite bind_run, row_works by done. change (sv (snd (openSite s))) with (sv s). rewrite Hf.
  destruct (in_site_prefix site cfg name Hv Hn) as [Hc Hx].
  assert (file_path site cfg f name = default_path (si_id site) cfg name) as ->.
  { unfold file_path. rewrite Hp. destruct (_ =? "")%string eqn:He; [|done]. reflexivity. }
  rewrite Hx. cbn [negb]. rewrite bind_run, row_works by done. change (sv (snd (row_of _ _))) with (sv s). by rewrite Hc, Hd.
Qed.

Lemma serve_held site cfg cache name data given s r : valid cfg -> safe_path name -> HasPrefix name ".." = false ->
  holds (si_id site) cfg name data (content_type_of name given) (pub_files (sv s)) -> url_path r = urlBase cfg ++ name ->
  fst (serve_stored cfg cache site r s) =
    if (header "If-None-Match" r =? etag_of data)%string then RNotModified (etag_of data)
    else RFile (content_type_of name given) cache (etag_of data) data.
Proof.
  intros Hv Hn Hdd [Hd (f & Hf & Ht & Hp)] Hu. by rewrite (serve_found site cfg cache name f data), (served_type name given).
Qed.
End Served.

(** C20. A file that is saved is served.  When a save succeeds - as an asset or as a
    file - and the server's reads work, a request for the name under /assets/ or
    /files/ is answered with the bytes given, under the type the save recorded, or
    with "not modified" when the visitor has these bytes; only a name that begins
    with two dots is never served. *)
Theorem saved_file_served `{E : Env} `{F : Formats} `{O : MapOrder} `{N : Net} `{D : Disk} `{K : !Calm} `{V : Server} site args c :
  (forall n o p, disk_error n o p = None) -> (forall n, read_breaks n = false) ->
  let '(x, c1) := outcome_of (executeSave (si_id site) args) c in
  succeeds x -> exists cfg name data ct, saved_as args cfg name data ct /\
    (HasPrefix name ".." = false -> forall cache s r, pub_files (sv s) = cs c1 -> url_path r = urlBase cfg ++ name ->
       fst (serve_stored cfg cache site r s) =
         if (header "If-None-Match" r =? etag_of data)%string then RNotModified (etag_of data)
         else RFile ct cache (etag_of data) data).
Proof.
  intros Hd Hr. pose proof (save_outcome Hd (si_id site) args c) as H. destruct (outcome_of (executeSave (si_id site) args) c) as [x c1].
  cbn [fst snd] in H. intros Hx. destruct (H Hx) as (cfg & name & data & ct & Hs & Hh & _). exists cfg, name, data, ct. split; [done|].
  intros Hdd cache s r Hst Hu. destruct Hs as [Hcfg _ Hname Hne _ Hct]. subst ct. rewrite <- Hst in Hh.
  apply serve_held; try done; [by eapply valid_config|]. rewrite Hname in Hne |- *. by apply sanitizeFilename_safe.
Qed.

(** The check by the beginning of a path takes the directory of site 10 for that of site 1. *)
Example directory_of_another_site : 
  has_site_prefix {| si_id := 1; si_name := ""; si_domain := None; si_status := ""; si_description := None |} "data/sites/10/files/secret.pdf" = true.
Proof. vm_compute. reflexivity. Qed.

Import FileSample SiteSample.

(** The style saved comes back, or is not sent again. *)
Lemma saved_file_served_witness :
  let '(x, c1) := outcome_of (executeSave 7 save_args) FileSample.start in
  exists cfg name data ct, saved_as save_args cfg name data ct /\
    (HasPrefix name ".." = false -> forall cache s r, pub_files (sv s) = cs c1 -> url_path r = urlBase cfg ++ name ->
       fst (serve_stored cfg cache SiteSample.site r s) =
         if (header "If-None-Match" r =? etag_of data)%string then RNotModified (etag_of data)
         else RFile ct cache (etag_of data) data).
Proof.
  pose proof (saved_file_served SiteSample.site save_args FileSample.start (fun _ _ _ => eq_refl) (fun _ => eq_refl)) as H.
  change (si_id SiteSample.site) with 7%Z in H.
  destruct (outcome_of (executeSave 7 save_args) FileSample.start) as [x c1] eqn:Hs. apply H.
  change x with (fst (x, c1)). rewrite <- Hs. vm_compute. reflexivity.
Defined.
