(* ===== verification/Uploads.v ===== *)
(** * Uploads of a site's visitors

    POST /api/{path}/upload of server/public/handler.go: what is checked of an
    upload before it is stored, where it is stored, and that the server then
    answers with it.  The multipart parser and the system's table of types are
    parameters; the disk and the rows of the files are those of manage_files. *)

From Stdlib Require Import ZArith Lia Ascii String List Bool.
From stdpp Require Import base list strings gmap.
From S2P Require Import PublicAPIFacts Prelude GoStrings GoTime JSONText World ToolCore Approval Security SiteTables PublicAPI ToolMonad Tables Endpoints PageText Pages HttpTool Paths Files StoreFacts PageFacts FileFacts FileHistory PublicSite PublicSiteFacts.

Local Open Scope string_scope.

(** ** The endpoint *)

Record uploadEndpointConfig := {
  ue_Path : string; AllowedTypes : list string; MaxSizeMB : Z; ue_RequiresAuth : bool; ue_TableName : string;
}.

Definition loadUploadEndpoint (l : list UploadRow) (path : string) : option uploadEndpointConfig :=
  match List.find (fun u => (up_path u =? path)%string) l with
  | None => None
  | Some u => Some {| ue_Path := up_path u; AllowedTypes := strings_of (up_types u);
                      MaxSizeMB := if (up_max u =? 0)%Z then 5 else up_max u;
                      ue_RequiresAuth := up_auth u; ue_TableName := up_table u |}
  end.

Definition mimeTypeMatches (contentType pattern : string) : bool :=
  if (pattern =? "*/*")%string || (pattern =? "*")%string then true
  else if EqualFold contentType pattern then true
  else if HasSuffix pattern "/*" then
    HasPrefix (ToLower contentType) (ToLower (take_str (String.length pattern - 1) pattern))
  else false.

(** ** The form *)

(** A file of a form, and what reading it gives. *)
Record FormPart := { pt_filename : string; pt_type : string; pt_data : res string string }.

(** [http.MaxBytesReader]: the bytes it gives, and whether it fails after them. *)
Definition MaxBytesReader (n : Z) (body : string) : string * bool :=
  (take_str (Z.to_nat n) body, (Z.to_nat n <? String.length body)%nat).

(** [io.ReadAll] of an [io.LimitReader]. *)
Definition ReadLimited (n : Z) (content : res string string) : res string string :=
  match content with Ok d => Ok (take_str (Z.to_nat n) d) | Err e => Err e end.

(** mime/multipart, and the table of types of the system: an extension is a dot and
    a name. *)
Class Multipart := {
  ParseMultipartForm : HttpRequest -> string * bool -> option (list (string * FormPart));
  ExtensionsByType : string -> list string;
  extension_plain : forall t e, In e (ExtensionsByType t) -> slashless e /\ plain_element e = true;
}.

(** [Request.FormFile] *)
Definition FormFile (field : string) (l : list (string * FormPart)) : option FormPart :=
  option_map snd (List.find (fun kv => (fst kv =? field)%string) l).

(** The type the client gives, or the one of unknown bytes. *)
Definition declared_type (p : FormPart) : string := if (pt_type p =? "")%string then octet_stream else pt_type p.

Section Uploads.
Context `{Q : SQL} `{E : Env} `{D : Disk} `{P : Multipart}.

(** ** The monad: the files of the site, and its tables *)

Record UpState := { up_tool : Ctx FileStore; up_srv : Srv }.

Definition U (A : Type) : Type := UpState -> (res HttpResponse A * UpState)%type.

#[export] Instance U_ret : MRet U := fun A a s => (Ok a, s).
#[export] Instance U_bind : MBind U := fun A B k m s =>
  match m s with (Ok a, s') => k a s' | (Err r, s') => (Err r, s') end.

Definition finish {A} (r : HttpResponse) : U A := fun s => (Err r, s).
Definition storage_error : HttpResponse := error_response 500 "storage error".

(** The operations on disk and files, none of which ends a handler. *)
Definition on_files {A} (m : FT A) : U A := fun s =>
  let '(x, c) := m (up_tool s) in
  (match x with Ok a => Ok a | Err _ => Err storage_error end, {| up_tool := c; up_srv := up_srv s |}).

(** [siteDB.Writer().Exec] on the owner's tables. *)
Definition on_tables {A} (m : H A) : U A := fun s =>
  let '(x, w) := m (up_srv s) in (x, {| up_tool := up_tool s; up_srv := w |}).

(** ** The handler *)

Definition uploads_dir (siteID : Z) : string :=
  path_Join (path_Join (path_Join (path_Join "data" "sites") (Itoa siteID)) "files") "uploads".

Definition upload_ext (p : FormPart) : string :=
  let ext := Ext (pt_filename p) in
  if (ext =? "")%string then match ExtensionsByType (declared_type p) with e :: _ => e | [] => ext end else ext.

Definition uniqueName (now : time) (p : FormPart) : string :=
  Itoa now ++ "_" ++ TrimSuffix (Base (pt_filename p)) (upload_ext p) ++ upload_ext p.

(** The name of a file is UNIQUE: a second one fails. *)
Definition insert_upload (name ct : string) (size : nat) (path : string) (t : time) (s : FileStore) : bool * FileStore :=
  if existsb (named name) (fs_files s) then (false, s)
  else (true, set_file_rows files_config (fs_files s ++
          [{| f_id := next_id f_id (fs_files s); f_name := name; f_type := Some ct; f_size := Some (Z.of_nat size); f_path := path;
              f_meta := None; f_scope := ""; f_created := t |}])%list s).

Definition link_text (table : string) : string :=
  "INSERT INTO " ++ table ++ " (filename, url, content_type, size) VALUES (?, ?, ?, ?)".

Definition upload_url (now : time) (p : FormPart) : string := "/files/uploads/" ++ uniqueName now p.
Definition upload_reply (now : time) (p : FormPart) (data : string) : HttpResponse :=
  {| resp_status := 201;
     resp_body := JObj [("filename", JStr (pt_filename p)); ("size", num (Z.of_nat (String.length data)));
                        ("type", JStr (declared_type p)); ("url", JStr (upload_url now p))] |}.

(** Into the file on disk, the files of the site and the linked table; the answer. *)
Definition store_upload (siteID : Z) (ue : uploadEndpointConfig) (p : FormPart) (data : string) (now : time) : U HttpResponse :=
  let storageName := "uploads/" ++ uniqueName now p in
  let dir := uploads_dir siteID in
  let storagePath := path_Join dir (uniqueName now p) in
  let ct := declared_type p in
  made ← on_files (MkdirAll dir);
  if negb (is_ok made) then finish storage_error else
  written ← on_files (WriteFile storagePath data);
  if negb (is_ok written) then finish storage_error else
  inserted ← on_files (save (insert_upload storageName ct (String.length data) storagePath));
  if negb (default false inserted) then on_files (Remove storagePath);; finish storage_error
  else
    (if (ue_TableName ue =? "")%string then mret tt
     else on_tables (Exec (link_text (ue_TableName ue))
                       [JStr (pt_filename p); JStr (upload_url now p); JStr ct; num (Z.of_nat (String.length data))]);; mret tt);;
    mret (upload_reply now p data).

Definition too_large (ue : uploadEndpointConfig) : HttpResponse :=
  error_response 400 ("file too large (max " ++ Itoa (MaxSizeMB ue) ++ " MB)").

Definition max_bytes (ue : uploadEndpointConfig) : Z := wrap64 (MaxSizeMB ue * 1024 * 1024).

Definition apiUpload (api : SiteAPI) (l : list UploadRow) (r : HttpRequest) (endpointPath : string) (now : time) : U HttpResponse :=
  match loadUploadEndpoint l endpointPath with
  | None => finish (error_response 404 "upload endpoint not found")
  | Some ue =>
      if ue_RequiresAuth ue && negb (validateSiteToken api (bearer r)) then finish (error_response 401 "unauthorized") else
      let maxBytes := max_bytes ue in
      match ParseMultipartForm r (MaxBytesReader (wrap64 (maxBytes + 1024)) (req_body r)) with
      | None => finish (too_large ue)
      | Some form =>
          match FormFile "file" form with
          | None => finish (error_response 400 "file field is required (use multipart form with field name 'file')")
          | Some p =>
              if negb (existsb (mimeTypeMatches (declared_type p)) (AllowedTypes ue))
              then finish (error_response 400 ("file type " ++ Quote (declared_type p) ++ " not allowed"))
              else match ReadLimited (maxBytes + 1) (pt_data p) with
                   | Err _ => finish (too_large ue)
                   | Ok data =>
                       if (maxBytes <? Z.of_nat (String.length data))%Z then finish (too_large ue)
                       else store_upload (site_ID api) ue p data now
                   end
          end
      end
  end.
End Uploads.

(** ** Where an upload goes *)

Lemma all_bytes_take P n : forall s, all_bytes P s = true -> all_bytes P (take_str n s) = true.
Proof.
  induction n as [|n IH]; intros [|a s]; try done. cbn [all_bytes take_str]. intros [Ha Hs]%andb_prop. by rewrite Ha, IH.
Qed.

Lemma last_element_slashless p : slashless (last_element p).
Proof.
  unfold last_element. destruct (LastIndex p "/") as [i|] eqn:Hi.
  - apply (LastIndex_byte _ "/"%char) in Hi as (a & b & E & <- & Hb). rewrite E.
    replace (S (String.length a)) with (String.length (a ++ s1 "/")) by (rewrite length_append; cbn; lia).
    rewrite <- append_assoc, drop_append. eapply all_bytes_impl, Hb. intros x. cbv beta. by rewrite Ascii.eqb_sym.
  - apply (LastIndex_None _ "/"%char) in Hi. eapply all_bytes_impl, Hi. intros x. cbv beta. by rewrite Ascii.eqb_sym.
Qed.

Lemma all_bytes_drop P n : forall s, all_bytes P s = true -> all_bytes P (drop_str n s) = true.
Proof. induction n as [|n IH]; intros [|a s]; try done. cbn [all_bytes drop_str]. intros [Ha Hs]%andb_prop. by apply IH. Qed.

Lemma Ext_slashless p : slashless (Ext p).
Proof. unfold Ext. destruct (LastIndex _ _); [|done]. apply all_bytes_drop, last_element_slashless. Qed.

Lemma Base_cases p : Base p = "/" \/ slashless (Base p).
Proof. unfold Base. destruct (_ =? "")%string; [by right|]. destruct (_ =? "")%string; [by left|right]. apply last_element_slashless. Qed.

Lemma Clean_trailing p : safe_path p -> Clean (p ++ "/") = p.
Proof.
  intros Hp. change (p ++ "/") with (p ++ "/" ++ ""). unfold Clean. rewrite Split_append, fold_left_app, (clean_plain (Split "/" p)) by exact Hp.
  cbn [fold_left Split clean_step String.eqb orb]. rewrite app_nil_r, rev_involutive.
  pose proof (Join_Split p). pose proof (Split_not_nil "/" p). by destruct (Split "/" p).
Qed.

Lemma Join_trailing dir name : safe_path dir -> safe_path name -> path_Join dir (name ++ "/") = path_Join dir name.
Proof.
  intros Hd Hn. rewrite (Join_safe dir name) by done. unfold path_Join. assert (name ++ "/" <> "") as Hne by (by destruct name).
  apply String.eqb_neq in Hne. rewrite Hne. rewrite <- (Clean_trailing (dir ++ "/" ++ name)) by (by apply safe_append). by rewrite !append_assoc.
Qed.

Lemma find_None_existsb {A} (f : A -> bool) l : existsb f l = false -> List.find f l = None.
Proof. induction l as [|a l IH]; [done|]. cbn. intros [-> H]%orb_false_iff. by apply IH. Qed.

Lemma safe_element c : slashless c -> plain_element c = true -> safe_path c.
Proof. intros Hs Hp. unfold safe_path. rewrite Split_slashless_id by done. cbn. by rewrite Hp. Qed.

(** A name that begins with the time and an underscore is no way up. *)
Lemma stamped_safe now t : slashless t -> safe_path (Itoa now ++ "_" ++ t).
Proof.
  intros Ht. destruct (Itoa_plain now) as [H1 _]. apply safe_element.
  - unfold slashless in *. by rewrite !all_bytes_append, H1, Ht.
  - unfold plain_element. apply negb_true_iff. unfold is_in, existsb. rewrite !orb_false_iff.
    assert (forall x, all_bytes (fun a => negb (Ascii.eqb a "_")) x = true -> (Itoa now ++ "_" ++ t =? x)%string = false) as H.
    { intros x Hx. apply String.eqb_neq. intros <-. rewrite all_bytes_append in Hx. by apply andb_prop in Hx as [_ Hx]. }
    split; [by apply H|]. split; [by apply H|]. split; [by apply H|done].
Qed.

Lemma only_slashes t : all_bytes (fun a => in_set a "/") t = true -> slashless t -> t = "".
Proof.
  destruct t as [|a t]; [done|]. unfold slashless. cbn. rewrite orb_false_r. intros [Ha _]%andb_prop [Hb _]%andb_prop. by rewrite Ha in Hb.
Qed.

Lemma Base_slash_Ext p : Base p = "/" -> Ext p = "".
Proof.
  unfold Base. destruct (_ =? "")%string; [done|]. destruct (String.eqb_spec (TrimRight p "/") "") as [Ht|].
  2: { intros H. pose proof (last_element_slashless (TrimRight p "/")) as Hl. by rewrite H in Hl. }
  intros _. destruct (TrimRight_split "/" p) as (t & Hs & Ha). rewrite Ht, append_nil_l in Hs. rewrite <- Hs in Ha.
  unfold Ext. enough (last_element p = "") as -> by done. apply only_slashes; [|apply last_element_slashless].
  unfold last_element. destruct (LastIndex p "/"); [by apply all_bytes_drop|done].
Qed.

Section UploadFacts.
Context `{Q : SQL} `{E : Env} `{D : Disk} `{P : Multipart}.
Context (siteID : Z) (now : time).
Implicit Types (p : FormPart).

Lemma upload_ext_plain p : slashless (upload_ext p) /\
  (Ext (pt_filename p) = "" -> upload_ext p = "" \/ plain_element (upload_ext p) = true).
Proof.
  unfold upload_ext. destruct (String.eqb_spec (Ext (pt_filename p)) "") as [He|He]; [|split; [apply Ext_slashless|done]].
  destruct (ExtensionsByType _) as [|e l] eqn:Hl; [split; [apply Ext_slashless|by left]|].
  destruct (extension_plain (declared_type p) e) as [H1 H2]; [rewrite Hl; by left|]. split; [done|by right].
Qed.

Lemma uniqueName_safe p : slashless (Base (pt_filename p)) -> safe_path (uniqueName now p).
Proof.
  intros Hb. apply stamped_safe. unfold slashless in *. rewrite all_bytes_append. destruct (upload_ext_plain p) as [-> _].
  rewrite andb_true_r. unfold TrimSuffix. destruct (HasSuffix _ _); [by apply all_bytes_take|done].
Qed.

(** A name of slashes only. *)
Lemma uniqueName_slash p : Base (pt_filename p) = "/" ->
  uniqueName now p = (Itoa now ++ "_") ++ "/" ++ upload_ext p /\ (upload_ext p = "" \/ plain_element (upload_ext p) = true).
Proof.
  intros Hb. destruct (upload_ext_plain p) as [Hs Hp]. split; [|by apply Hp, Base_slash_Ext]. unfold uniqueName. rewrite Hb, append_assoc. do 2 f_equal.
  unfold TrimSuffix. unfold slashless in Hs. rewrite <- all_bytes_reverse in Hs. unfold HasSuffix. change (reverse "/") with "/".
  destruct (reverse (upload_ext p)) as [|b u] eqn:He.
  - rewrite <- (reverse_reverse (upload_ext p)), He. done.
  - cbn [all_bytes] in Hs. cbn [String.prefix]. destruct (ascii_dec b "/") as [->|]; [done|]. done.
Qed.

(** Below the directory of the uploads, and the files of the site. *)
Definition upload_path p : string := path_Join (uploads_dir siteID) (uniqueName now p).

Lemma files_valid : valid files_config.
Proof. by right. Qed.
#[local] Hint Resolve files_valid site_dir_safe : core.

Lemma uploads_dir_inside : uploads_dir siteID = site_dir siteID files_config ++ "/uploads" /\ safe_path (uploads_dir siteID).
Proof.
  assert (uploads_dir siteID = site_dir siteID files_config ++ "/uploads") as ->.
  { change (uploads_dir siteID) with (path_Join (site_dir siteID files_config) "uploads"). apply Join_safe; [by apply site_dir_safe|done]. }
  split; [done|]. apply (safe_append (site_dir siteID files_config) "uploads"); [by apply site_dir_safe|done].
Qed.

Lemma upload_path_inside p : exists name, safe_path name /\ upload_path p = default_path siteID files_config ("uploads/" ++ name) /\
  (slashless (Base (pt_filename p)) -> name = uniqueName now p).
Proof.
  destruct uploads_dir_inside as [Hd Hs].
  assert (forall name, safe_path name -> path_Join (uploads_dir siteID) name = default_path siteID files_config ("uploads/" ++ name)) as Hj.
  { intros name Hn. rewrite Join_safe, Hd, default_inside by first [done|by apply (safe_append "uploads")]. by rewrite append_assoc. }
  unfold upload_path. destruct (Base_cases (pt_filename p)) as [Hb|Hb].
  - destruct (uniqueName_slash p Hb) as [-> [He|He]].
    + exists (Itoa now ++ "_"). assert (safe_path (Itoa now ++ "_")) as Hst by (by apply (stamped_safe now "")).
      rewrite He, <- Hj by done. change ("/" ++ "") with "/". split; [done|]. split; [by apply Join_trailing|rewrite Hb; discriminate].
    + assert (safe_path ((Itoa now ++ "_") ++ "/" ++ upload_ext p)) as Hst.
      { apply safe_append; [by apply (stamped_safe now "")|]. apply safe_element; [apply upload_ext_plain|done]. }
      exists ((Itoa now ++ "_") ++ "/" ++ upload_ext p). rewrite Hj by done. done.
  - exists (uniqueName now p). split; [by apply uniqueName_safe|]. split; [by apply Hj, uniqueName_safe|done].
Qed.

(** ** What is checked, and what is stored *)

Definition uwp {A} (s : UpState) (m : U A) (R : A -> UpState -> Prop) (X : HttpResponse -> UpState -> Prop) : Prop :=
  match m s with (Ok a, s') => R a s' | (Err x, s') => X x s' end.

Lemma uwp_bind {A B} s (m : U A) (k : A -> U B) R X : uwp s m (fun a s' => uwp s' (k a) R X) X -> uwp s (m ≫= k) R X.
Proof. unfold uwp, mbind, U_bind. by destruct (m s) as [[a|x] s']. Qed.

(** A disk operation: noted, it fails or gets through. *)
Lemma uwp_disk {A} s o path (f : FileStore -> res string A * FileStore) (R : res string A -> UpState -> Prop) X :
  let n := note_op o path (cs (up_tool s)) in
  (forall e, R (Err e) {| up_tool := set_cs n (up_tool s); up_srv := up_srv s |}) ->
  R (fst (f n)) {| up_tool := set_cs (snd (f n)) (up_tool s); up_srv := up_srv s |} ->
  uwp s (on_files (disk_do o path f)) R X.
Proof.
  intros n He Hf. unfold uwp, on_files, disk_do. destruct (disk_error _ _ _); [apply He|]. fold n. by destruct (f n).
Qed.

Lemma uwp_save {A} s (f : time -> FileStore -> A * FileStore) (R : option A -> UpState -> Prop) X :
  (forall c, cs c = cs (up_tool s) -> R None {| up_tool := c; up_srv := up_srv s |}) ->
  (forall t c, cs c = snd (f t (cs (up_tool s))) -> R (Some (fst (f t (cs (up_tool s))))) {| up_tool := c; up_srv := up_srv s |}) ->
  uwp s (on_files (save f)) R X.
Proof.
  intros Hn Hs. unfold uwp, on_files, save. destruct (write_fails _); [by apply Hn|].
  specialize (Hs (CURRENT_TIMESTAMP (cw (up_tool s)))). destruct (f _ _) as [a s']. by apply Hs.
Qed.

(** Everything that is checked before anything is stored. *)
Record accepted (api : SiteAPI) (l : list UploadRow) (r : HttpRequest) (path : string)
    (ue : uploadEndpointConfig) (p : FormPart) (data : string) : Prop := {
  acc_endpoint : loadUploadEndpoint l path = Some ue;
  acc_caller : ue_RequiresAuth ue = true -> validateSiteToken api (bearer r) = true;
  acc_form : exists form, ParseMultipartForm r (MaxBytesReader (wrap64 (max_bytes ue + 1024)) (req_body r)) = Some form /\
               FormFile "file" form = Some p;
  acc_type : exists t, In t (AllowedTypes ue) /\ mimeTypeMatches (declared_type p) t = true;
  acc_data : pt_data p = Ok data;
  acc_size : (Z.of_nat (String.length data) <= max_bytes ue)%Z;
}.

(** The row, the file and the statement of an upload. *)
Record stored_upload (ue : uploadEndpointConfig) (p : FormPart) (data : string) (s s' : UpState) : Prop := {
  su_new : find_row files_config ("uploads/" ++ uniqueName now p) (cs (up_tool s)) = None;
  su_row : exists f, fs_files (cs (up_tool s')) = (fs_files (cs (up_tool s)) ++ [f])%list /\
             f_name f = "uploads/" ++ uniqueName now p /\ f_type f = Some (declared_type p) /\
             f_size f = Some (Z.of_nat (String.length data)) /\ f_path f = upload_path p;
  su_disk : fs_disk (cs (up_tool s')) = <[upload_path p := data]> (fs_disk (cs (up_tool s)));
  su_sent : map fst (statements (up_srv s')) =
              ((if (ue_TableName ue =? "")%string then [] else [link_text (ue_TableName ue)]) ++ map fst (statements (up_srv s)))%list;
}.

(** What an upload may ask of the disk. *)
Definition asked (s s' : UpState) : Prop :=
  exists ops, fs_ops (cs (up_tool s')) = (ops ++ fs_ops (cs (up_tool s)))%list /\ Forall (op_ok siteID) ops.

(** Nothing stored: at most the file of the upload itself is other than before. *)
Record not_stored (p : FormPart) (s s' : UpState) : Prop := {
  ns_files : fs_files (cs (up_tool s')) = fs_files (cs (up_tool s));
  ns_tables : up_srv s' = up_srv s;
  ns_disk : forall q, q <> upload_path p -> fs_disk (cs (up_tool s')) !! q = fs_disk (cs (up_tool s)) !! q;
}.

Lemma asked_op s0 s s' o path : asked s0 s -> op_ok siteID (o, path) ->
  fs_ops (cs (up_tool s')) = (o, path) :: fs_ops (cs (up_tool s)) -> asked s0 s'.
Proof. intros (l & Hl & Ho) H He. exists ((o, path) :: l). rewrite He, Hl. split; [done|by constructor]. Qed.

Lemma upload_path_ok o p : o <> OpMkdir -> (forall t, o <> OpRename t) -> op_ok siteID (o, upload_path p).
Proof.
  intros H1 H2. destruct (upload_path_inside p) as (name & Hn & He & _). unfold op_ok. cbn [fst snd].
  assert (inside_site siteID (upload_path p)) as Hi by (rewrite He; apply default_ok; [done|by apply (safe_append "uploads")]).
  destruct o; try done. by destruct (H2 to).
Qed.

Lemma uploads_dir_ok : op_ok siteID (OpMkdir, uploads_dir siteID).
Proof.
  exists files_config. split; [done|]. right. exists "uploads". split; [done|]. cbn [snd]. by destruct uploads_dir_inside as [-> _].
Qed.

(** The file goes when its row cannot be written. *)
Lemma remove_spec {A} p s0 s (R : A -> UpState -> Prop) : asked s0 s -> not_stored p s0 s ->
  uwp s (on_files (Remove (upload_path p));; finish storage_error) R
    (fun reply s' => asked s0 s' /\ reply = storage_error /\ not_stored p s0 s').
Proof.
  intros Ha [Hf Ht Hd]. apply uwp_bind, uwp_disk; [intros e|]; (split; [by eapply (asked_op _ _ _ OpRemove _ Ha); [by apply upload_path_ok|]|]);
    (split; [done|]); split; try done. intros q Hq. cbn. rewrite lookup_delete_ne by done. by apply Hd.
Qed.

(** The statement on the linked table. *)
Lemma link_spec (ue : uploadEndpointConfig) args s :
  uwp s (if (ue_TableName ue =? "")%string then mret tt else on_tables (Exec (link_text (ue_TableName ue)) args);; mret tt)
    (fun _ s' => up_tool s' = up_tool s /\ map fst (statements (up_srv s')) =
       ((if (ue_TableName ue =? "")%string then [] else [link_text (ue_TableName ue)]) ++ map fst (statements (up_srv s)))%list)
    (fun _ _ => False).
Proof.
  destruct (_ =? _)%string; [done|]. unfold uwp, mbind, U_bind, on_tables, Exec. by destruct (sql_exec _ _ _) as [[]].
Qed.

Lemma uwp_mono {A} s (m : U A) (R R' : A -> UpState -> Prop) (X X' : HttpResponse -> UpState -> Prop) :
  uwp s m R X -> (forall a s', R a s' -> R' a s') -> (forall x s', X x s' -> X' x s') -> uwp s m R' X'.
Proof. unfold uwp. destruct (m s) as [[a|x] s']; auto. Qed.

Lemma store_upload_spec ue p data s : uwp s (store_upload siteID ue p data now)
  (fun reply s' => asked s s' /\ reply = upload_reply now p data /\ stored_upload ue p data s s')
  (fun reply s' => asked s s' /\ reply = storage_error /\ not_stored p s s').
Proof.
  assert (asked s s) as H0 by by exists []. unfold store_upload. cbv zeta. fold (upload_path p).
  apply uwp_bind, uwp_disk.
  { intros e. split; [by apply (asked_op s s _ _ _ H0 uploads_dir_ok)|by repeat split]. }
  set (n := note_op OpMkdir _ _). cbv zeta.
  assert (forall s1, fs_ops (cs (up_tool s1)) = fs_ops n -> asked s s1) as H1 by (intros s1 E1; by apply (asked_op s s _ _ _ H0 uploads_dir_ok)).
  destruct (existsb _ _); cbn [fst snd]; [by split; [apply H1|]|]. clear H0.
  set (s1 := {| up_tool := _; up_srv := _ |}). specialize (H1 s1 eq_refl). cbn [is_ok negb].
  pose proof (upload_path_ok OpWrite p ltac:(done) ltac:(done)) as Hop.
  apply uwp_bind, uwp_disk.
  { intros e. split; [by apply (asked_op s s1 _ _ _ H1 Hop)|by repeat split]. }
  set (m := note_op OpWrite _ _). destruct (place _ _); cbn [fst snd is_ok negb].
  { split; [by apply (asked_op s s1 _ _ _ H1 Hop)|by repeat split]. }
  set (s2 := {| up_tool := _; up_srv := _ |}).
  assert (asked s s2) as H2 by by apply (asked_op s s1 _ _ _ H1 Hop).
  assert (fs_disk (cs (up_tool s2)) = <[upload_path p := data]> (fs_disk (cs (up_tool s)))) as Hd2 by done. 
  assert (fs_files (cs (up_tool s2)) = fs_files (cs (up_tool s)) /\ up_srv s2 = up_srv s) as [Hf2 Hs2] by done.
  clearbody s2. clear s1 H1 m n Hop.
  assert (forall c, cs c = cs (up_tool s2) -> let s3 := {| up_tool := c; up_srv := up_srv s2 |} in asked s s3 /\ not_stored p s s3) as Hfail.
  { intros c Hc. unfold asked. cbn [up_tool]. rewrite Hc. split; [done|]. split; cbn [up_tool]; rewrite ?Hc; [done..|].
    intros q Hq. by rewrite Hd2, lookup_insert_ne. }
  apply uwp_bind, uwp_save; [intros c Hc; by apply remove_spec; apply Hfail|].
  intros t c. unfold insert_upload. destruct (existsb _ _) eqn:Hx; cbn [fst snd default id negb]; intros Hc; [by apply remove_spec; apply Hfail|].
  clear Hfail. apply uwp_bind. eapply uwp_mono; [apply link_spec| |done]. intros [] s4 [H4 H5]. 
  unfold uwp, mret, U_ret. cbn [up_tool up_srv] in *. unfold asked. rewrite H4, Hc. split; [exact H2|]. split; [done|].
  split.
  - unfold find_row. change (rows files_config) with fs_files. rewrite <- Hf2. by apply find_None_existsb.
  - rewrite H4, Hc, <- Hf2. by eexists.
  - by rewrite H4, Hc.
  - by rewrite H5, Hs2.
Qed.

Lemma read_whole maxBytes content data : ReadLimited (maxBytes + 1) content = Ok data ->
  (Z.of_nat (String.length data) <= maxBytes)%Z -> content = Ok data.
Proof.
  destruct content as [d|]; [|done]. cbn. intros [= <-] Hl. f_equal. revert Hl. set (n := Z.to_nat (maxBytes + 1)).
  assert (maxBytes < 0 \/ Z.of_nat n = maxBytes + 1)%Z as Hn by lia. clearbody n. intros Hl.
  assert (String.length (take_str n d) < n)%nat as H by lia. clear Hl Hn. revert d H.
  induction n as [|n IH]; intros [|a d] H; cbn in *; [lia..|done|]. f_equal. apply IH. lia.
Qed.

Lemma apiUpload_spec api l r path s : site_ID api = siteID -> uwp s (apiUpload api l r path now)
  (fun reply s' => asked s s' /\ exists ue p data, accepted api l r path ue p data /\ reply = upload_reply now p data /\ stored_upload ue p data s s')
  (fun reply s' => asked s s' /\ resp_status reply <> 201 /\
     (s' = s \/ exists ue p data, accepted api l r path ue p data /\ reply = storage_error /\ not_stored p s s')).
Proof.
  intros Hsite. unfold apiUpload. assert (asked s s) as H0 by by exists [].
  assert (forall status msg, status <> 201%Z -> asked s s /\ resp_status (error_response status msg) <> 201 /\
    (s = s \/ exists ue p data, accepted api l r path ue p data /\ error_response status msg = storage_error /\ not_stored p s s)) as Hno
    by (intros; split; [done|]; split; [done|by left]).
  destruct (loadUploadEndpoint l path) as [ue|] eqn:He; [|by apply Hno].
  destruct (ue_RequiresAuth ue && negb (validateSiteToken api (bearer r))) eqn:Ha; [by apply Hno|]. cbv zeta.
  destruct (ParseMultipartForm r _) as [form|] eqn:Hform; [|by apply Hno].
  destruct (FormFile "file" form) as [p|] eqn:Hp; [|by apply Hno].
  destruct (existsb _ _) eqn:Ht; cbn [negb]; [|by apply Hno].
  destruct (ReadLimited _ _) as [data|] eqn:Hr; [|by apply Hno].
  destruct (Z.ltb_spec (max_bytes ue) (Z.of_nat (String.length data))) as [|Hs]; [by apply Hno|].
  assert (accepted api l r path ue p data) as Hacc.
  { split; try done.
    - intros Hq. rewrite Hq in Ha. by destruct (validateSiteToken _ _).
    - by exists form.
    - apply existsb_exists in Ht as (t & Hi & Hm). by exists t.
    - by eapply read_whole. }
  rewrite Hsite. eapply uwp_mono; [apply store_upload_spec|..].
  - intros reply s' (H1 & H2 & H3). split; [done|]. by exists ue, p, data.
  - intros reply s' (H1 & -> & H3). split; [done|]. split; [done|]. right. by exists ue, p, data.
Qed.
End UploadFacts.

(** C22. An upload is stored only when the endpoint exists, its caller holds the key
    of the site if the endpoint asks for one, the type the client declares is among
    those allowed, and the whole file is within the limit; then the answer is 201,
    and the file, its row under a new name and a row of the linked table are all that
    is added.  In any other case no row is; and whatever happens, the disk is touched
    below the site's directories only. *)
Theorem upload_checked `{Q : SQL} `{E : Env} `{D : Disk} `{P : Multipart} api l r path now s :
  let '(x, s') := apiUpload api l r path now s in
  asked (site_ID api) s s' /\
  match x with
  | Ok reply => exists ue p data, accepted api l r path ue p data /\ reply = upload_reply now p data /\
                  stored_upload (site_ID api) now ue p data s s'
  | Err reply => resp_status reply <> 201 /\
                  (s' = s \/ exists ue p data, accepted api l r path ue p data /\ reply = storage_error /\
                              not_stored (site_ID api) now p s s')
  end.
Proof.
  pose proof (apiUpload_spec (site_ID api) now api l r path s eq_refl) as H. unfold uwp in H.
  by destruct (apiUpload api l r path now s) as [[reply|reply] s'].
Qed.

(** ** Served again *)

(** By the extension of the name, if the server knows it. *)
Definition type_served (p : FormPart) (name : string) : string :=
  if (mimeByExtension name =? "")%string then declared_type p else mimeByExtension name.

Section ServedUpload.
Context `{Q : SQL} `{E : Env} `{D : Disk} `{P : Multipart} `{V : Server}.

Lemma stored_upload_served site now ue p data s s' cache v r : (forall n, read_breaks n = false) ->
  stored_upload (si_id site) now ue p data s s' -> slashless (Base (pt_filename p)) ->
  pub_files (sv v) = cs (up_tool s') -> url_path r = upload_url now p ->
  fst (serve_stored files_config cache site r v) =
    if (header "If-None-Match" r =? etag_of data)%string then RNotModified (etag_of data)
    else RFile (type_served p ("uploads/" ++ uniqueName now p)) cache (etag_of data) data.
Proof.
  intros Hr [Hnew (f & Hf & Hname & Htype & _ & Hpath) Hdisk _] Hb Hv Hu.
  destruct (upload_path_inside (si_id site) now p) as (name & Hn & Hat & Heq). specialize (Heq Hb) as ->.
  set (full := "uploads/" ++ uniqueName now p) in *.
  rewrite (serve_found Hr site files_config cache full f data).
  - unfold file_type, type_served. rewrite Htype. cbn [default id]. destruct (mimeByExtension full =? "")%string eqn:Hx; cbv zeta; [|by rewrite Hx].
    unfold declared_type. destruct (pt_type p =? "")%string eqn:Hy; [done|]. by rewrite Hy.
  - by right.
  - by apply (safe_append "uploads").
  - done.
  - unfold find_row in *. change (rows files_config) with fs_files in *. rewrite Hv, Hf, find_app_None by done. cbn.
    unfold named. by rewrite Hname, String.eqb_refl.
  - by rewrite Hpath.
  - by rewrite Hv, Hdisk, <- Hat, lookup_insert_eq.
  - by rewrite Hu.
Qed.
End ServedUpload.

(** What an upload answered with 201 stores is what the server answers a request for
    its URL with - under the type of its name, which nothing checked: the type
    checked is the one the client declares. *)
Theorem uploaded_file_served `{Q : SQL} `{E : Env} `{D : Disk} `{P : Multipart} `{V : Server} site api l r path now s :
  (forall n, read_breaks n = false) -> site_ID api = si_id site ->
  let '(x, s') := apiUpload api l r path now s in
  forall reply, x = Ok reply -> exists p data, reply = upload_reply now p data /\ pt_data p = Ok data /\
    (slashless (Base (pt_filename p)) ->
     forall cache v req, pub_files (sv v) = cs (up_tool s') -> url_path req = upload_url now p ->
     fst (serve_stored files_config cache site req v) =
       if (header "If-None-Match" req =? etag_of data)%string then RNotModified (etag_of data)
       else RFile (type_served p ("uploads/" ++ uniqueName now p)) cache (etag_of data) data).
Proof.
  intros Hr Hsite. pose proof (apiUpload_spec (si_id site) now api l r path s Hsite) as H. unfold uwp in H.
  destruct (apiUpload api l r path now s) as [[y|y] s']; [|done]. destruct H as (_ & ue & p & data & Ha & -> & Hst).
  intros ? [= <-]. exists p, data. split; [done|]. split; [by apply (acc_data _ _ _ _ _ _ _ Ha)|].
  intros Hb cache v req Hv Hu. by eapply stored_upload_served.
Qed.

Module UploadSample.
Import FileSample SiteSample.
#[export] Existing Instances ApiSample.sql SiteSample.server FileSample.env FileSample.works.
(** The body is the name of the file, its type and its text, separated by commas. *)
Definition read_form (b : string * bool) : option (list (string * FormPart)) :=
  if snd b then None
  else match Split "," (fst b) with
       | [name; ty; text] => Some [("file", {| pt_filename := Base name; pt_type := ty; pt_data := Ok text |})]
       | _ => None
       end.
#[export] Instance forms : Multipart.
Proof. refine {| ParseMultipartForm _ := read_form; ExtensionsByType _ := [] |}. by intros t e []. Defined.

Definition photos : UploadRow :=
  {| up_id := 1; up_path := "photos"; up_types := dq "['image/*']"; up_max := 1; up_auth := false; up_table := "" |}.
Definition post (body : string) : HttpRequest :=
  {| method := "POST"; url_path := "/api/photos/upload"; headers := []; cookies := []; query := ∅; req_body := body |}.
Definition api : SiteAPI :=
  {| site_ID := 7; site_Config := ""; api_endpoints := []; auth_endpoints := []; dynamic_tables := []; jwt := None; encryptor := false |}.
Definition start : UpState :=
  {| up_tool := {| cw := cw FileSample.start; cs := pub_files SiteSample.store |};
     up_srv := {| db_tables := tt; statements := []; PublicAPI.published := [] |} |}.
Definition put_files (f : FileStore) : PubStore :=
  {| pub_pages := []; pub_redirects := []; pub_layouts := []; pub_files := f; pub_visits := [] |}.
End UploadSample.
Import UploadSample.

(** The photo is stored and served. *)
Lemma uploaded_file_served_witness :
  let '(x, s') := apiUpload api [photos] (post "cat.png,image/png,PNG") "photos" 5 UploadSample.start in
  forall reply, x = Ok reply -> exists p data, reply = upload_reply 5 p data /\ pt_data p = Ok data /\
    (slashless (Base (pt_filename p)) ->
     forall cache v req, pub_files (sv v) = cs (up_tool s') -> url_path req = upload_url 5 p ->
     fst (serve_stored files_config cache SiteSample.site req v) =
       if (header "If-None-Match" req =? etag_of data)%string then RNotModified (etag_of data)
       else RFile (type_served p ("uploads/" ++ uniqueName 5 p)) cache (etag_of data) data).
Proof. by apply (uploaded_file_served SiteSample.site). Defined.

(** A page that calls itself an image passes the check of an endpoint for images and
    is served as a page. *)
Example page_as_image :
  let '(x, s') := apiUpload api [photos] (post "x.html,image/png,<script>") "photos" 5 UploadSample.start in
  x = Ok (upload_reply 5 {| pt_filename := "x.html"; pt_type := "image/png"; pt_data := Ok "<script>" |} "<script>") /\
  fst (serve_stored files_config file_cache SiteSample.site (SiteSample.get "/files/uploads/5_x.html")
         {| sv := put_files (cs (up_tool s')); sv_reads := 0; sv_writes := 0 |})
  = RFile "text/html" file_cache (etag_of "<script>") "<script>".
Proof. vm_compute. split; reflexivity. Qed.
