(* ===== verification/Streams.v ===== *)
(** * Streams and websockets of a site

    GET /api/{path}/stream and /api/{path}/ws of server/public/handler.go: who may
    connect, what a stream writes of the events of the bus, and what comes of a
    message read from a websocket.  A stream is a sequence of steps of its
    subscription, its loop and its connection; the rooms are those of WsHub. *)

From Stdlib Require Import ZArith Lia Ascii String List Bool.
From stdpp Require Import base list strings gmap.
From S2P Require Import PublicAPIFacts Prelude GoStrings GoTime JSONText Plan PlanJSON PlanStore Security JSONRead SSE SiteTables PublicAPI ToolMonad Tables WsHub.

Local Open Scope string_scope.

(** ** Who may connect *)

Record streamEndpointConfig := { se_Path : string; EventTypes : list string; se_RequiresAuth : bool }.

Definition loadStreamEndpoint (l : list StreamRow) (path : string) : option streamEndpointConfig :=
  match List.find (fun s => (sr_path s =? path)%string) l with
  | None => None
  | Some s => Some {| se_Path := sr_path s; EventTypes := strings_of (sr_types s); se_RequiresAuth := sr_auth s |}
  end.

Record wsEndpointConfig := {
  ws_Path : string; WriteToTable : string; ws_RequiresAuth : bool;
  tableColumns : gmap string string;        (* empty where nothing is cached *)
}.

Definition validTableName (s : string) : bool :=
  match s with "" => false | String a r => is_alpha a && all_bytes is_word r end.

Definition loadWSEndpoint (l : list WsRow) (dyn : list DynRow) (path : string) : option wsEndpointConfig :=
  match List.find (fun w => (ws_path w =? path)%string) l with
  | None => None
  | Some w =>
      Some {| ws_Path := ws_path w; WriteToTable := ws_table w; ws_RequiresAuth := ws_auth w;
              tableColumns :=
                if negb (ws_table w =? "")%string && validTableName (ws_table w) then
                  match List.find (fun d => (dt_name d =? ws_table w)%string) dyn with
                  | Some d => if (dt_schema d =? "")%string then ∅ else string_map_of (dt_schema d)
                  | None => ∅
                  end
                else ∅ |}
  end.

(** The first element of the path after /api/. *)
Definition endpoint_of (r : HttpRequest) : string :=
  match SplitN2 "/" (TrimPrefix (url_path r) "/api/") with p :: _ => p | [] => "" end.

Section Access.
Context `{C : Crypto}.

Definition validateSiteTokenOrJWT (api : SiteAPI) (token : string) (now : time) : bool :=
  if (token =? "")%string then false
  else if validateSiteToken api token then true
  else match jwt api with
       | Some j => match Validate j token now with Ok c => (SiteID c =? site_ID api)%Z | Err _ => false end
       | None => false
       end.

(** The header, or the parameter where a header cannot be set. *)
Definition live_token (r : HttpRequest) : string :=
  if (bearer r =? "")%string then query_get "token" r else bearer r.

Definition admit_live (api : SiteAPI) (r : HttpRequest) (requiresAuth : bool) (now : time) : res HttpResponse unit :=
  if requiresAuth && negb (validateSiteTokenOrJWT api (live_token r) now) then Err (error_response 401 "unauthorized") else Ok tt.

Definition open_stream (api : SiteAPI) (l : list StreamRow) (r : HttpRequest) (now : time) : res HttpResponse streamEndpointConfig :=
  match loadStreamEndpoint l (endpoint_of r) with
  | None => Err (error_response 404 "stream endpoint not found")
  | Some se => match admit_live api r (se_RequiresAuth se) now with Ok _ => Ok se | Err e => Err e end
  end.

Definition open_websocket (api : SiteAPI) (l : list WsRow) (r : HttpRequest) (now : time) : res HttpResponse wsEndpointConfig :=
  match loadWSEndpoint l (dynamic_tables api) (endpoint_of r) with
  | None => Err (error_response 404 "websocket endpoint not found")
  | Some w => match admit_live api r (ws_RequiresAuth w) now with Ok _ => Ok w | Err e => Err e end
  end.
End Access.

(** ** The stream of a connection *)

Record BusEvent := { be_type : string; be_site : Z; be_payload : json }.

Record StreamConn := {
  sc_ch : list BusEvent;       (* eventCh *)
  sc_out : string;             (* written to the connection *)
  sc_open : bool;
  sc_dropped : nat;            (* events the full channel did not take *)
}.

Definition new_stream : StreamConn := {| sc_ch := []; sc_out := ""; sc_open := true; sc_dropped := 0 |}.

(** [make(chan events.Event, 64)] *)
Definition event_capacity : nat := 64.

Definition wanted (siteID : Z) (types : list string) (e : BusEvent) : bool :=
  (be_site e =? siteID)%Z && existsb (String.eqb (be_type e)) types.

(** What the bus calls for every event. *)
Definition on_event (siteID : Z) (types : list string) (e : BusEvent) (c : StreamConn) : StreamConn :=
  if negb (wanted siteID types e) then c
  else if (List.length (sc_ch c) <? event_capacity)%nat
  then {| sc_ch := (sc_ch c ++ [e])%list; sc_out := sc_out c; sc_open := sc_open c; sc_dropped := sc_dropped c |}
  else {| sc_ch := sc_ch c; sc_out := sc_out c; sc_open := sc_open c; sc_dropped := S (sc_dropped c) |}.

Definition nl : string := s1 newline_byte.
Definition event_text (e : BusEvent) : string := "event: " ++ be_type e ++ nl ++ "data: " ++ Marshal (be_payload e) ++ nl ++ nl.
Definition keepalive : string := ": keepalive" ++ nl ++ nl.

Definition close (c : StreamConn) : StreamConn :=
  {| sc_ch := sc_ch c; sc_out := sc_out c; sc_open := false; sc_dropped := sc_dropped c |}.
(** A write that fails ends the loop. *)
Definition write_out (ok : bool) (text : string) (ch : list BusEvent) (c : StreamConn) : StreamConn :=
  {| sc_ch := ch; sc_out := if ok then sc_out c ++ text else sc_out c; sc_open := ok; sc_dropped := sc_dropped c |}.

(** What happens to a stream: an event of the bus; the loop takes one out, or the
    ticker, and writes; the visitor is gone. *)
Inductive stream_step := Published (e : BusEvent) | Deliver (ok : bool) | Tick (ok : bool) | Gone.

Definition step_stream (siteID : Z) (types : list string) (c : StreamConn) (a : stream_step) : StreamConn :=
  if negb (sc_open c) then c
  else match a with
       | Published e => on_event siteID types e c
       | Deliver ok => match sc_ch c with [] => c | e :: r => write_out ok (event_text e) r c end
       | Tick ok => write_out ok keepalive (sc_ch c) c
       | Gone => close c
       end.

Definition run_stream (siteID : Z) (types : list string) (l : list stream_step) : StreamConn :=
  fold_left (step_stream siteID types) l new_stream.

(** ** The messages of a websocket *)

Section Messages.
Context `{Fl : Floats} `{O : MapOrder} `{Q : SQL}.

(** [wsWriteToTable]: the statement, if there is anything to write. *)
Definition wsWriteToTable (ws : wsEndpointConfig) (msgMap : row) : option (string * list json) :=
  if bool_decide (tableColumns ws = ∅) then
    Some ("INSERT INTO " ++ WriteToTable ws ++ " (data, created_at) VALUES (?, datetime('now'))",
          [JStr (Marshal (sorted_object msgMap))])
  else
    let pairs := omap (fun kv => if (fst kv =? "id")%string || (fst kv =? "created_at")%string then None
                                 else option_map (pair (fst kv)) (msgMap !! fst kv)) (entries (tableColumns ws)) in
    match pairs with
    | [] => None
    | _ =>
        Some ("INSERT INTO " ++ WriteToTable ws ++ " (" ++ Join (map fst pairs ++ ["created_at"])%list ", " ++ ") VALUES ("
              ++ Join (map (fun _ => "?") pairs ++ ["datetime('now')"])%list ", " ++ ")", map snd pairs)
    end.

(** What comes of a message: nothing, the end of the program - a nil map is written
    to, and no one recovers -, or a text for the room and a statement. *)
Inductive pumped := Skipped | Crashed | Relayed (text : string) (statement : option (string * list json)).

Definition read_message (clientID : string) (ws : wsEndpointConfig) (data : string) : pumped :=
  match Unmarshal data with
  | Ok JNull => Crashed
  | Ok (JObj m) =>
      match go_members m with
      | None => Skipped
      | Some members =>
          let msgMap := <["_sender" := JStr clientID]> members in
          Relayed (Marshal (sorted_object msgMap))
            (if negb (WriteToTable ws =? "")%string && validTableName (WriteToTable ws) then wsWriteToTable ws msgMap else None)
      end
  | _ => Skipped
  end.

(** The hub and the tables after a message; nothing after a crash. *)
Definition pump_message (roomKey clientID : string) (ws : wsEndpointConfig) (data : string) (s : wsHub * Srv) : option (wsHub * Srv) :=
  match read_message clientID ws data with
  | Skipped => Some s
  | Crashed => None
  | Relayed text statement =>
      Some (broadcast roomKey clientID text (fst s),
            match statement with Some (q, args) => snd (Exec q args (snd s)) | None => snd s end)
  end.
End Messages.

(** ** What the visitor's EventSource makes of a stream *)

(** Lines are fields; an empty one dispatches the event its fields made, if there is
    data. *)
Fixpoint dispatch (lines : list string) (ty : string) (data : list string) : list (string * string) :=
  match lines with
  | [] => []
  | l :: rest =>
      if (l =? "")%string then
        match data with
        | [] => dispatch rest "" []
        | _ => (if (ty =? "")%string then "message" else ty, Join data nl) :: dispatch rest "" []
        end
      else
        let '(field, value) := match SplitN2 ":" l with [f; v] => (f, TrimPrefix v " ") | _ => (l, "") end in
        if (field =? "event")%string then dispatch rest value data
        else if (field =? "data")%string then dispatch rest ty (data ++ [value])%list
        else dispatch rest ty data
  end.

(** A text whose last line is not ended yet. *)
Definition event_source (text : string) : list (string * string) := dispatch (removelast (Split newline_byte text)) "" [].

(** events/types.go *)
Definition event_types : list string :=
  ["site.created"; "site.updated"; "site.deleted"; "brain.started"; "brain.stopped"; "brain.error"; "brain.mode_changed";
   "tool.executed"; "tool.failed"; "chat.message"; "provider.added"; "provider.updated"; "question.asked"; "question.answered";
   "brain.message"; "brain.tool_start"; "brain.tool_result"; "brain.stage_change"; "webhook.received"; "webhook.delivered";
   "webhook.failed"; "secret.stored"; "data.insert"; "data.update"; "data.delete"; "payment.completed"; "payment.failed"; "ws.message"].

(** An event as the program publishes it. *)
Definition proper_event (e : BusEvent) : Prop := In (be_type e) event_types /\ readable max_depth (be_payload e).

Definition event_lines (e : BusEvent) : list string := ["event: " ++ be_type e; "data: " ++ Marshal (be_payload e); ""].
(** What is written at a time: an event, or a sign of life. *)
Definition chunk_lines (c : option BusEvent) : list string := match c with Some e => event_lines e | None => [": keepalive"; ""] end.
Definition seen (e : BusEvent) : string * string := (be_type e, Marshal (be_payload e)).

Lemma written_app l k : written (l ++ k) = written l ++ written k.
Proof. induction l as [|x l IH]; [done|]. cbn [app]. by rewrite !written_cons, IH, append_assoc. Qed.

Lemma event_text_written e : event_text e = written (event_lines e).
Proof. unfold event_text, event_lines. rewrite !written_cons. unfold nl. change (written []) with "". by rewrite !append_assoc. Qed.

Lemma split_written ls : Forall (fun l => all_bytes line_byte l = true) ls -> removelast (Split newline_byte (written ls)) = ls.
Proof.
  induction 1 as [|l ls Hl H IH]; [done|]. rewrite written_cons, Split_line by done.
  destruct (Split newline_byte (written ls)) as [|x r] eqn:E; [by apply Split_not_nil in E|]. cbn [removelast] in *. by rewrite IH.
Qed.

Lemma proper_lines e : proper_event e -> Forall (fun l => all_bytes line_byte l = true) (event_lines e) /\ be_type e <> "".
Proof.
  intros [Ht Hp]. split.
  - repeat constructor; rewrite all_bytes_append; apply andb_true_iff; (split; [done|]).
    + clear Hp. unfold event_types in Ht. repeat destruct Ht as [<-|Ht]; try done.
    + apply Marshal_printable in Hp. revert Hp. apply all_bytes_impl. intros [[] [] [] [] [] [] [] []]; by intros [=].
  - intros E. rewrite E in Ht. cbn in Ht. by repeat destruct Ht as [Ht|Ht].
Qed.

Lemma dispatch_chunks l : Forall (fun c => match c with Some e => be_type e <> "" | None => True end) l ->
  dispatch (concat (map chunk_lines l)) "" [] = map seen (omap (fun o => o) l).
Proof.
  induction 1 as [|[e|] l He H IH]; [done|..]; cbn [map concat].
  - cbn [chunk_lines event_lines app]. cbn [dispatch]. 
    change (("event: " ++ be_type e =? "")%string) with false. change (("data: " ++ Marshal (be_payload e) =? "")%string) with false.
    cbv iota. change (SplitN2 ":" ("event: " ++ be_type e)) with ["event"; " " ++ be_type e].
    change (SplitN2 ":" ("data: " ++ Marshal (be_payload e))) with ["data"; " " ++ Marshal (be_payload e)]. cbv iota beta.
    rewrite !TrimPrefix_append. cbn [String.eqb Ascii.eqb Bool.eqb app Join]. apply String.eqb_neq in He. rewrite He.
    change (omap (fun o => o) (Some e :: l)) with (e :: omap (fun o => o) l). cbn [map]. by rewrite <- IH.
  - cbn [chunk_lines app]. change (omap (fun o => o) (None :: l)) with (omap (fun o => o) l). rewrite <- IH. reflexivity.
Qed.

Definition events_of (l : list stream_step) : list BusEvent := omap (fun a => match a with Published e => Some e | _ => None end) l.

Section StreamRun.
Context (siteID : Z) (types : list string).
Notation wants l := (List.filter (wanted siteID types) l).

(** What was written so far of the events [W] wanted, and what the channel still
    holds. *)
Record stream_inv (W : list BusEvent) (c : StreamConn) (chunks : list (option BusEvent)) (rest : list BusEvent) : Prop := {
  si_out : sc_out c = written (concat (map chunk_lines chunks));
  si_sub : sublist (omap (fun o => o) chunks ++ rest)%list W;
  si_rest : sc_open c = true -> rest = sc_ch c;
  si_all : sc_open c = true -> sc_dropped c = 0%nat -> (omap (fun o => o) chunks ++ rest)%list = W;
  si_room : (List.length (sc_ch c) <= event_capacity)%nat;
}.

Lemma written_chunks l c : written (concat (map chunk_lines (l ++ [c])%list)) = written (concat (map chunk_lines l)) ++ written (chunk_lines c).
Proof. by rewrite map_app, List.concat_app, written_app; cbn [map concat]; rewrite app_nil_r. Qed.

Lemma inv_more W W' c chunks rest : stream_inv W c chunks rest -> sc_open c = false \/ sc_dropped c <> 0%nat \/ W' = [] ->
  stream_inv (W ++ W')%list c chunks rest.
Proof.
  intros [Ho Hs Hr Ha Hl] H. split; [done|by apply sublist_inserts_r|done| |done].
  intros H1 H2. destruct H as [H|[H| ->]]; [congruence|done|]. rewrite app_nil_r. by apply Ha.
Qed.

(** The loop and the connection: the events wanted are the same. *)
Lemma step_loop W c chunks rest a : sc_open c = true -> (forall e, a <> Published e) -> stream_inv W c chunks rest ->
  exists chunks' rest', stream_inv W (step_stream siteID types c a) chunks' rest'.
Proof.
  intros Hopen Hne [Ho Hs Hr Ha Hl]. unfold step_stream. rewrite Hopen. cbn [negb]. specialize (Hr Hopen) as ->. specialize (Ha Hopen).
  destruct a as [e|ok|ok|]; [by destruct (Hne e)|..].
  - destruct (sc_ch c) as [|e r] eqn:Hch; [exists chunks, []; split; rewrite ?Hch; done|]. cbn [List.length] in Hl. destruct ok.
    + exists (chunks ++ [Some e])%list, r. split; cbn [write_out sc_out sc_open sc_ch sc_dropped]; try done; [..|lia].
      * by rewrite written_chunks, Ho, event_text_written.
      * by rewrite omap_app, <- app_assoc.
      * intros _ Hd. rewrite omap_app, <- app_assoc. by apply Ha.
    + exists chunks, (e :: r). split; cbn [write_out sc_out sc_open sc_ch sc_dropped]; try done. lia.
  - destruct ok.
    + exists (chunks ++ [None])%list, (sc_ch c). split; cbn [write_out sc_out sc_open sc_ch sc_dropped]; try done.
      * by rewrite written_chunks, Ho.
      * by rewrite omap_app, app_nil_r.
      * intros _ Hd. rewrite omap_app, app_nil_r. by apply Ha.
    + by exists chunks, (sc_ch c).
  - by exists chunks, (sc_ch c).
Qed.

Lemma stream_step_inv W c chunks rest a : stream_inv W c chunks rest ->
  exists chunks' rest', stream_inv (W ++ wants (events_of [a]))%list (step_stream siteID types c a) chunks' rest'.
Proof.
  intros Hi. destruct (sc_open c) eqn:Hopen.
  2: { unfold step_stream. rewrite Hopen. exists chunks, rest. apply inv_more; [done|by left]. }
  destruct a as [e|ok|ok|].
  2-4: rewrite app_nil_r; by eapply step_loop.
  change (wants (events_of [Published e])) with (if wanted siteID types e then [e] else []).
  unfold step_stream. rewrite Hopen. cbn [negb]. unfold on_event. destruct (wanted siteID types e); cbn [negb].
  2: { exists chunks, rest. apply inv_more; [done|by right; right]. }
  destruct Hi as [Ho Hs Hr Ha Hl]. specialize (Hr Hopen) as ->. specialize (Ha Hopen).
  destruct (Nat.ltb_spec (List.length (sc_ch c)) event_capacity) as [Hlt|Hge].
  - exists chunks, (sc_ch c ++ [e])%list. split; cbn [sc_out sc_open sc_ch sc_dropped]; try done.
    + rewrite app_assoc. by apply sublist_app.
    + intros _ Hd. by rewrite app_assoc, Ha.
    + rewrite length_app. cbn. lia.
  - exists chunks, (sc_ch c). split; cbn [sc_out sc_open sc_ch sc_dropped]; try done. by apply sublist_inserts_r.
Qed.

Lemma run_inv l : exists chunks rest, stream_inv (wants (events_of l)) (run_stream siteID types l) chunks rest.
Proof.
  induction l as [|a l IH] using rev_ind; [exists [], []; split; [done..|cbn; lia]|].
  destruct IH as (chunks & rest & Hi). apply (stream_step_inv _ _ _ _ a) in Hi as (chunks' & rest' & Hi). exists chunks', rest'.
  unfold run_stream, events_of in *. rewrite fold_left_app, omap_app, List.filter_app. exact Hi.
Qed.
End StreamRun.

(** C23. However events, deliveries, signs of life and a visitor's leaving follow each
    other, what his EventSource makes of the stream are events of the site and of the
    types the endpoint lists, in their order and each once, with payloads he reads
    as they were published; as long as the stream is open and its channel of 64
    dropped nothing, what it makes of it and what is waiting are all of them. *)
Theorem stream_read_back siteID types l : Forall proper_event (events_of l) ->
  let c := run_stream siteID types l in
  let events := List.filter (wanted siteID types) (events_of l) in
  (List.length (sc_ch c) <= event_capacity)%nat /\
  sublist (event_source (sc_out c)) (map seen events) /\
  Forall (fun m => exists e, In e events /\ fst m = be_type e /\ Unmarshal (snd m) = Ok (be_payload e)) (event_source (sc_out c)) /\
  (sc_open c = true -> sc_dropped c = 0%nat -> (event_source (sc_out c) ++ map seen (sc_ch c))%list = map seen events).
Proof.
  intros Hp c events. destruct (run_inv siteID types l) as (chunks & rest & [Ho Hs Hr Ha Hl]). fold c in Ho, Hr, Ha, Hl. fold events in Hs, Ha.
  assert (Forall proper_event events) as Hpe.
  { apply Forall_forall. intros e [He _]%list_elem_of_In%filter_In. rewrite Forall_forall in Hp. by apply Hp, list_elem_of_In. }
  assert (Forall (fun o => match o with Some e => proper_event e | None => True end) chunks) as Hpc.
  { apply Forall_forall. intros [e|] He; [|done]. assert (e ∈ events) as Hx.
    { eapply elem_of_sublist; [|exact Hs]. apply elem_of_app. left. apply list_elem_of_omap. by exists (Some e). }
    rewrite Forall_forall in Hpe. by apply Hpe. }
  assert (event_source (sc_out c) = map seen (omap (fun o => o) chunks)) as He.
  { unfold event_source. rewrite Ho, split_written, dispatch_chunks; [done| |].
    - eapply Forall_impl; [exact Hpc|]. intros [e|] H; [|done]. by apply proper_lines.
    - apply Forall_concat, Forall_map. eapply Forall_impl; [exact Hpc|]. intros [e|] H; [by apply proper_lines|by repeat constructor]. }
  rewrite He. split; [done|]. split; [|split].
  - apply (fmap_sublist seen). etrans; [|exact Hs]. by apply sublist_inserts_r.
  - apply Forall_map, Forall_forall. intros e Hin. assert (e ∈ events) as Hx.
    { eapply elem_of_sublist; [|exact Hs]. apply elem_of_app. by left. }
    exists e. split; [by apply list_elem_of_In|]. split; [done|]. rewrite Forall_forall in Hpe. apply Unmarshal_Marshal, Hpe, Hx.
  - intros Hopen Hd. rewrite <- (Hr Hopen), <- map_app. f_equal. by apply Ha.
Qed.

(** Who gets in: everyone, or who holds the key of the site or a token of a user of
    the site - of whatever role. *)
Lemma open_stream_iff `{C : Crypto} api l r now se : open_stream api l r now = Ok se <->
  loadStreamEndpoint l (endpoint_of r) = Some se /\ (se_RequiresAuth se = true -> validateSiteTokenOrJWT api (live_token r) now = true).
Proof.
  unfold open_stream, admit_live. destruct (loadStreamEndpoint _ _) as [s|]; [|by split; [|intros []]].
  destruct (se_RequiresAuth s) eqn:Ha, (validateSiteTokenOrJWT _ _ _) eqn:Hv; cbn [andb negb];
    (split; [intros H; first [discriminate H|injection H as <-; split; [done|congruence]]
            |intros [[= <-] H]; first [done|by specialize (H Ha)]]).
Qed.

Lemma open_websocket_iff `{C : Crypto} api l r now w : open_websocket api l r now = Ok w <->
  loadWSEndpoint l (dynamic_tables api) (endpoint_of r) = Some w /\
  (ws_RequiresAuth w = true -> validateSiteTokenOrJWT api (live_token r) now = true).
Proof.
  unfold open_websocket, admit_live. destruct (loadWSEndpoint _ _ _) as [s|]; [|by split; [|intros []]].
  destruct (ws_RequiresAuth s) eqn:Ha, (validateSiteTokenOrJWT _ _ _) eqn:Hv; cbn [andb negb];
    (split; [intros H; first [discriminate H|injection H as <-; split; [done|congruence]]
            |intros [[= <-] H]; first [done|by specialize (H Ha)]]).
Qed.

(** ** What a websocket passes on *)

Section MessageFacts.
Context `{Fl : Floats} `{O : MapOrder} `{Q : SQL}.

Lemma object_read_back (m : gmap string json) : map_Forall (fun k v => utf8 k /\ readable (pred max_depth) v) m ->
  Unmarshal (Marshal (sorted_object m)) = Ok (JObj (sorted_members m)) /\ go_map (sorted_members m) = m.
Proof.
  intros Hm. split; [|apply go_map_sorted]. apply (Unmarshal_Marshal (sorted_object m)).
  change max_depth with (S (pred max_depth)). by apply readable_sorted.
Qed.

Lemma validTableName_identifier s : validTableName s = true -> validIdentifier s = true.
Proof. by destruct s. Qed.

Lemma Join_snoc l x sep : l <> [] -> Join (l ++ [x])%list sep = Join l sep ++ sep ++ x.
Proof.
  induction l as [|y l IH]; [done|]. intros _. destruct l as [|z l]; [done|].
  change (Join ((y :: z :: l) ++ [x])%list sep) with (y ++ (sep ++ Join ((z :: l) ++ [x])%list sep)). rewrite IH by done.
  change (Join (y :: z :: l) sep) with (y ++ (sep ++ Join (z :: l) sep)). by rewrite !append_assoc.
Qed.

(** A statement of [n] arguments that ends by giving the time. *)
Definition timed_insert (q : string) (n : nat) : Prop := exists t, q = t ++ "datetime('now'))" /\ sql_ok t n.

Lemma wsWriteToTable_safe ws msgMap q args : validTableName (WriteToTable ws) = true ->
  map_Forall (fun c _ => validIdentifier c = true) (tableColumns ws) -> wsWriteToTable ws msgMap = Some (q, args) ->
  timed_insert q (List.length args).
Proof.
  intros Ht%validTableName_identifier Hc. unfold wsWriteToTable. destruct (bool_decide _).
  { intros [= <- <-]. exists ("INSERT INTO " ++ WriteToTable ws ++ " (data, created_at) VALUES (?, "). split; [by rewrite !append_assoc|].
    change (List.length _) with (0 + (0 + 1))%nat. sql_text. }
  cbv zeta. set (pairs := omap _ _). assert (Forall (fun p => validIdentifier (fst p) = true) pairs) as Hp.
  { apply Forall_forall. intros [k v] ([k' t] & Hin & Hk)%list_elem_of_omap. rewrite entries_perm in Hin. apply elem_of_map_to_list in Hin.
    cbn [fst] in Hk. destruct (_ || _); [done|]. destruct (msgMap !! k'); [|done]. injection Hk as <- _. by apply (Hc k' t). }
  clearbody pairs. intros H. assert (pairs <> [] /\ q = "INSERT INTO " ++ WriteToTable ws ++ " (" ++ Join (map fst pairs ++ ["created_at"])%list ", " ++ ") VALUES ("
    ++ Join (map (fun _ => "?") pairs ++ ["datetime('now')"])%list ", " ++ ")" /\ args = map snd pairs) as (Hne & -> & ->)
    by (destruct pairs; [done|]; by injection H as <- <-). clear H.
  exists ("INSERT INTO " ++ WriteToTable ws ++ " (" ++ Join (map fst pairs ++ ["created_at"])%list ", " ++ ") VALUES ("
          ++ Join (map (fun _ => "?") pairs) ", " ++ ", "). split.
  - rewrite (Join_snoc (map (fun _ => "?") pairs)) by (by destruct pairs). by rewrite !append_assoc.
  - rewrite length_map. replace (List.length pairs) with
      (0 + (0 + (0 + (0 * List.length (map fst pairs ++ ["created_at"])%list + (0 + (1 * List.length (map (fun _ => "?") pairs) + 0))))))%nat
      by (rewrite length_map; cbn [List.length]; lia).
    sql_text; apply sql_ok_join; try (split; [vm_compute; reflexivity|reflexivity]).
    + apply Forall_app. split; [|by repeat constructor]. apply Forall_map. eapply Forall_impl; [exact Hp|]. intros x Hx. by apply sql_ok_identifier.
    + apply Forall_map, Forall_forall. by split.
Qed.
End MessageFacts.

(** What a websocket passes on to a room is the object that came, read as it was
    decoded, with the id of the connection it came by as its "_sender", whatever the
    message said of itself; what it writes to a table is one INSERT of identifiers
    with as many placeholders as values.  Exactly the message "null" has another
    end, that of the program. *)
Theorem message_passed_on `{Fl : Floats} `{O : MapOrder} `{Q : SQL} clientID ws data : utf8 clientID ->
  match read_message clientID ws data with
  | Crashed => Unmarshal data = Ok JNull
  | Skipped => forall m, Unmarshal data = Ok (JObj m) -> go_members m = None
  | Relayed text statement =>
      (exists m members m', Unmarshal data = Ok (JObj m) /\ go_members m = Some members /\
         Unmarshal text = Ok (JObj m') /\ go_map m' = <["_sender" := JStr clientID]> members) /\
      (map_Forall (fun c _ => validIdentifier c = true) (tableColumns ws) ->
       match statement with Some (q, args) => timed_insert q (List.length args) | None => True end)
  end.
Proof.
  intros Hid. unfold read_message. destruct (Unmarshal data) as [[|b|l|s|l|m]|e] eqn:Hu; try done. pose proof (Unmarshal_readable _ _ Hu) as Hr.
  destruct (go_members m) as [members|] eqn:Hm; [|by intros ? [= <-]]. split.
  - exists m, members. destruct (object_read_back (<["_sender" := JStr clientID]> members)) as [H1 H2]; [|by eexists].
    apply map_Forall_insert_2; [|by eapply go_members_readable]. by split; [apply utf8_ascii|].
  - intros Hc. destruct (negb _ && _) eqn:Hw; [|done]. apply andb_prop in Hw as [_ Hw].
    destruct (wsWriteToTable _ _) as [[q args]|] eqn:Hs; [|done]. by eapply wsWriteToTable_safe.
Qed.

Module LiveSample.
#[export] Existing Instances ApiSample.sql ApiSample.order FloatSample.same_numbers.
Definition inserted (id : Z) (site : Z) : BusEvent :=
  {| be_type := "data.insert"; be_site := site; be_payload := JObj [("id", JNum (Itoa id))] |}.
Definition afternoon : list stream_step :=
  [Published (inserted 1 7); Tick true; Published (inserted 2 8); Deliver true; Published (inserted 3 7)].

Definition chat : wsEndpointConfig :=
  {| ws_Path := "chat"; WriteToTable := ""; ws_RequiresAuth := false; tableColumns := ∅ |}.
Definition signup : WsRow := {| ws_id := 1; ws_path := "signup"; ws_table := "users"; ws_room := ""; ws_auth := false |}.
Definition users : DynRow :=
  {| dt_id := 1; dt_name := "users"; dt_schema := dq "{'email':'TEXT','password':'PASSWORD'}"; dt_secure := Some (dq "{'password':'hash'}"); dt_created := 0 |}.
End LiveSample.
Import LiveSample.

(** One event of the site has been read, another waits. *)
Lemma stream_read_back_witness :
  let c := run_stream 7 ["data.insert"] afternoon in
  event_source (sc_out c) = [("data.insert", dq "{'id':1}")] /\
  (event_source (sc_out c) ++ map seen (sc_ch c))%list = map seen (List.filter (wanted 7 ["data.insert"]) (events_of afternoon)).
Proof.
  intros c. split; [vm_compute; reflexivity|].
  destruct (stream_read_back 7 ["data.insert"] afternoon) as (_ & _ & _ & H).
  - change (events_of afternoon) with [inserted 1 7; inserted 2 8; inserted 3 7]. assert (forall n s, proper_event (inserted n s)) as Hp.
    { intros n s. split; [cbn; tauto|]. change max_depth with (S (pred max_depth)). cbn [readable foldr inserted be_payload fst snd].
      split; [|done]. split; [by apply utf8_ascii|apply Itoa_readable]. }
    repeat (apply Forall_cons_2; [apply Hp|]). apply Forall_nil_2.
  - apply H; vm_compute; reflexivity.
Defined.

(** A message that gives another sender. *)
Lemma message_passed_on_witness :
  let data := dq "{'_sender':'admin','text':'hi'}" in
  utf8 "u1" /\
  match read_message "u1" chat data with
  | Crashed => Unmarshal data = Ok JNull
  | Skipped => forall m, Unmarshal data = Ok (JObj m) -> go_members m = None
  | Relayed text statement =>
      (exists m members m', Unmarshal data = Ok (JObj m) /\ go_members m = Some members /\
         Unmarshal text = Ok (JObj m') /\ go_map m' = <["_sender" := JStr "u1"]> members) /\
      (map_Forall (fun c _ => validIdentifier c = true) (tableColumns chat) ->
       match statement with Some (q, args) => timed_insert q (List.length args) | None => True end)
  end.
Proof. assert (utf8 "u1") as H by by apply utf8_ascii. split; [exact H|]. apply message_passed_on. exact H. Defined.

Example sender_replaced : read_message "u1" chat (dq "{'_sender':'admin','text':'hi'}") = Relayed (dq "{'_sender':'u1','text':'hi'}") None.
Proof. vm_compute. reflexivity. Qed.

(** Four bytes from anyone end the program, and nothing is recovered. *)
Example null_crashes : read_message "u1" chat "null" = Crashed.
Proof. vm_compute. reflexivity. Qed.

(** A column the tools and the API keep hashed is written as it comes. *)
Example password_in_clear :
  match loadWSEndpoint [signup] [users] "signup" with
  | Some ws => exists text q, read_message "u1" ws (dq "{'email':'a@b.c','password':'secret'}") =
                                Relayed text (Some (q, [JStr "a@b.c"; JStr "secret"]))
  | None => False
  end.
Proof. vm_compute. by do 2 eexists. Qed.
