(* ===== verification/OAuth.v ===== *)
(** * Logging in through a provider

    The OAuth routes of server/public/auth.go: the redirect to the provider with a
    signed state in a cookie, and the callback that checks it, asks the provider who
    came and logs him in.  The provider's answers and the signature are parameters;
    the requests sent to it and the cookies set are part of the outcome. *)

From Stdlib Require Import ZArith Lia Ascii String List Bool.
From stdpp Require Import base list strings gmap.
From S2P Require Import PublicAPIFacts Prelude GoStrings GoTime JSONText PlanStore Security JSONRead SiteTables PublicAPI ToolMonad Tables Paths Encryption Webhooks.

Local Open Scope string_scope.

(** ** net/url *)

Definition unreserved (a : ascii) : bool := is_alpha a || is_digit a || in_set a "-_.~".
Definition upper_hex (n : nat) : ascii := if (n <? 10)%nat then byte_of (48 + n) else byte_of (55 + n).

(** [url.QueryEscape] *)
Fixpoint QueryEscape (s : string) : string :=
  match s with
  | "" => ""
  | String a r =>
      (if unreserved a then s1 a
       else if Ascii.eqb a " " then "+"
       else String "%" (String (upper_hex (code a / 16)) (s1 (upper_hex (code a mod 16))))) ++ QueryEscape r
  end.

(** [url.QueryUnescape]; nothing for a malformed escape. *)
Fixpoint QueryUnescape (s : string) : option string :=
  match s with
  | "" => Some ""
  | String a r =>
      if Ascii.eqb a "%" then
        match r with
        | String x (String y r') =>
            match hex_value x, hex_value y with
            | Some h, Some l => option_map (String (byte_of (16 * h + l))) (QueryUnescape r')
            | _, _ => None
            end
        | _ => None
        end
      else option_map (String (if Ascii.eqb a "+" then " "%char else a)) (QueryUnescape r)
  end.

(** [url.ParseQuery] and [Values.Get]: the first pair of the key that is well formed. *)
Fixpoint first_value (key : string) (pairs : list string) : string :=
  match pairs with
  | [] => ""
  | p :: rest =>
      if (p =? "")%string || Contains p ";" then first_value key rest
      else
        let '(k, v) := match SplitN2 "=" p with [k; v] => (k, v) | _ => (p, "") end in
        match QueryUnescape k, QueryUnescape v with
        | Some k, Some v => if (k =? key)%string then v else first_value key rest
        | _, _ => first_value key rest
        end
  end.
Definition form_value (key body : string) : string := first_value key (Split "&" body).

(** ** What goes in and out *)

(** A request, with the host it was sent to, whether by TLS, and the site's domain. *)
Record Visitor := { vs_request : HttpRequest; vs_host : string; vs_tls : bool; vs_domain : option string }.

Record Cookie := {
  ck_name : string; ck_value : string; ck_path : string; ck_max_age : Z; ck_http_only : bool; ck_lax : bool; ck_secure : bool;
}.

(** A request to the provider. *)
Record ProviderRequest := { pr_method : string; pr_url : string; pr_form : list (string * string); pr_bearer : option string }.

(** A panic ends the request only: net/http recovers it. *)
Inductive OAuthReply := ORefused (r : HttpResponse) | ORedirect (url : string) | OPanicked.

Record OAuthOutcome := { oo_cookies : list Cookie; oo_requests : list ProviderRequest; oo_reply : OAuthReply }.

Definition refused (cookies : list Cookie) (requests : list ProviderRequest) (status : Z) (msg : string) : OAuthOutcome :=
  {| oo_cookies := cookies; oo_requests := requests; oo_reply := ORefused (error_response status msg) |}.

Definition loadOAuthProvider (l : list OAuthRow) (providerName authPath : string) : option OAuthRow :=
  List.find (fun o => (oa_name o =? providerName)%string && (oa_path o =? authPath)%string && oa_enabled o) l.

Definition oauthRedirectURI (v : Visitor) (authPath provider : string) : string :=
  (if vs_tls v then "https" else "http") ++ "://"
  ++ match vs_domain v with Some d => if (d =? "")%string then vs_host v else d | None => vs_host v end
  ++ "/api/" ++ authPath ++ "/oauth/" ++ provider ++ "/callback".

Definition state_cookie (authPath value : string) (maxAge : Z) (lax secure : bool) : Cookie :=
  {| ck_name := "oauth_state"; ck_value := value; ck_path := "/api/" ++ authPath ++ "/oauth/"; ck_max_age := maxAge;
     ck_http_only := true; ck_lax := lax; ck_secure := secure |}.

Section OAuth.
Context `{C : Crypto} `{Q : SQL} `{N : Net} `{A : AEAD} `{Fl : Floats}.

Definition HMAC (j : JWTManager) (data : string) : string := hmac_sha256 (secret j) data.

(** ** To the provider *)

Definition signed_state (j : JWTManager) (randomBytes : string) : string := hex_encode randomBytes ++ "." ++ hex_encode (HMAC j randomBytes).

Definition authorize_url (op : OAuthRow) (redirectURI state : string) : string :=
  oa_authorize op ++ "?client_id=" ++ QueryEscape (oa_client op) ++ "&redirect_uri=" ++ QueryEscape redirectURI
  ++ "&response_type=code&scope=" ++ QueryEscape (oa_scopes op) ++ "&state=" ++ QueryEscape state.

(** [random] is what [rand.Read] gives for 16 bytes. *)
Definition oauthAuthorize (api : SiteAPI) (l : list OAuthRow) (v : Visitor) (authPath provider : string)
    (random : res string string) : OAuthOutcome :=
  match loadOAuthProvider l provider authPath with
  | None => refused [] [] 404 "OAuth provider not configured"
  | Some op =>
      match random with
      | Err _ => refused [] [] 500 "failed to generate state"
      | Ok randomBytes =>
          match jwt api with
          | None => {| oo_cookies := []; oo_requests := []; oo_reply := OPanicked |}
          | Some j =>
              let state := signed_state j randomBytes in
              {| oo_cookies := [state_cookie authPath state 600 true (vs_tls v)]; oo_requests := [];
                 oo_reply := ORedirect (authorize_url op (oauthRedirectURI v authPath provider) state) |}
          end
      end
  end.

(** ** And back *)

(** The random bytes of a state that is the visitor's and signed, or the answer; a
    panic where there is no key. *)
Definition check_state (api : SiteAPI) (r : HttpRequest) : OAuthReply + string :=
  let bad msg := inl (ORefused (error_response 400 msg)) in
  match assoc "oauth_state" (cookies r) with
  | None => bad "missing OAuth state cookie"
  | Some cookie =>
      let queryState := query_get "state" r in
      if (queryState =? "")%string || negb (queryState =? cookie)%string then bad "invalid OAuth state"
      else match SplitN2 "." queryState with
           | [random; mac] =>
               match hex_decode random with
               | Err _ => bad "invalid OAuth state encoding"
               | Ok randomBytes =>
                   match jwt api with
                   | None => inl OPanicked
                   | Some j =>
                       if (mac =? hex_encode (HMAC j randomBytes))%string then inr randomBytes
                       else bad "OAuth state verification failed"
                   end
               end
           | _ => bad "malformed OAuth state"
           end
  end.

Definition exchange_request (op : OAuthRow) (code redirectURI clientSecret : string) : ProviderRequest :=
  {| pr_method := "POST"; pr_url := oa_token op;
     pr_form := [("grant_type", "authorization_code"); ("code", code); ("redirect_uri", redirectURI);
                 ("client_id", oa_client op); ("client_secret", clientSecret)];
     pr_bearer := None |}.

(** A member of the token's struct: the text, and whether decoding failed. *)
Definition token_member (acc : string * bool) (kv : string * json) : string * bool :=
  if same_name (fst kv) "access_token" then
    match snd kv with JStr s => (s, snd acc) | JNull => acc | _ => (fst acc, true) end
  else if same_name (fst kv) "token_type" then
    match snd kv with JStr _ | JNull => acc | _ => (fst acc, true) end
  else acc.

(** The token of an answer: of its JSON, or of the form some providers send. *)
Definition access_token (body : string) : string :=
  match Unmarshal body with
  | Ok (JObj m) => let '(t, failed) := fold_left token_member m ("", false) in if failed then form_value "access_token" body else t
  | Ok JNull => ""
  | _ => form_value "access_token" body
  end.

(** The first request to the provider. *)
Definition exchangeOAuthCode (op : OAuthRow) : res string string :=
  match new_request (oa_token op) with
  | Some e => Err e
  | None =>
      match client_do 0 with
      | Err e => Err e
      | Ok (status, body) =>
          if negb (status =? 200)%Z then Err ("token exchange failed (status " ++ Itoa status ++ "): " ++ body)
          else if (access_token body =? "")%string then Err "no access_token in response" else Ok (access_token body)
      end
  end.

(** The second. *)
Definition fetchOAuthUserInfo (op : OAuthRow) : res string (gmap string json) :=
  match new_request (oa_userinfo op) with
  | Some e => Err e
  | None =>
      match client_do 1 with
      | Err e => Err e
      | Ok (status, body) =>
          if negb (status =? 200)%Z then Err ("userinfo request failed (status " ++ Itoa status ++ ")")
          else match Unmarshal body with
               | Ok (JObj m) => match go_members m with Some info => Ok info | None => Err "invalid userinfo JSON: number out of range" end
               | Ok JNull => Ok ∅
               | Ok _ => Err "invalid userinfo JSON: cannot unmarshal into a map"
               | Err e => Err ("invalid userinfo JSON: " ++ e)
               end
      end
  end.

Definition username_of (op : OAuthRow) (info : gmap string json) : option string :=
  match info !! oa_username op with
  | Some (JStr s) => if (s =? "")%string then None else Some s
  | _ => None
  end.

(** The user of a name: his id and role; a new one where there is none. *)
Definition find_or_create (ae : authEndpointConfig) (username randomBytes : string) : H (Z * string) :=
  existing ← Query (select_user ae ("id, " ++ RoleColumn ae)) [JStr username];
  match existing with
  | Err _ => write_error 500 "database error"
  | Ok [] =>
      let unusableHash := match bcrypt (hex_encode randomBytes ++ "!oauth-no-password-login") with Ok h => h | Err _ => "" end in
      result ← Exec (insert_text (ae_TableName ae) [UsernameColumn ae; PasswordColumn ae; RoleColumn ae])
                 [JStr username; JStr unusableHash; JStr (DefaultRole ae)];
      match result with
      | Err _ => write_error 500 "failed to create user"
      | Ok (id, _) => mret (id, DefaultRole ae)
      end
  | Ok (r0 :: _) =>
      match r0 !! "id" ≫= scan_int with
      | Some id => mret (id, scan_role ae r0)
      | None => write_error 500 "database error"
      end
  end.

Definition login_user (api : SiteAPI) (ae : authEndpointConfig) (username randomBytes : string) (now : time) : H string :=
  user ← find_or_create ae username randomBytes;
  match generateUserToken api (fst user) username (nonempty_or (snd user) (DefaultRole ae)) now with
  | Err _ => write_error 500 "failed to generate token"
  | Ok token => mret ("/#token=" ++ QueryEscape token)
  end.

Definition fetch_request (op : OAuthRow) (token : string) : ProviderRequest :=
  {| pr_method := "GET"; pr_url := oa_userinfo op; pr_form := []; pr_bearer := Some token |}.

(** The requests that leave: none for a malformed URL. *)
Definition sent_to (url : string) (r : ProviderRequest) : list ProviderRequest :=
  match new_request url with Some _ => [] | None => [r] end.

(** After the state: [cookies] clears it. *)
Definition callback_checked (api : SiteAPI) (l : list OAuthRow) (secrets : gmap string string) (enc : option Encryptor)
    (v : Visitor) (ae : authEndpointConfig) (authPath provider randomBytes : string) (now : time) (w : Srv) : OAuthOutcome * Srv :=
  let r := vs_request v in
  let cookies := [state_cookie authPath "" (-1) false false] in
  let fail requests status msg := (refused cookies requests status msg, w) in
  if negb (query_get "error" r =? "")%string then fail [] 400 ("OAuth error: " ++ query_get "error" r)
  else if (query_get "code" r =? "")%string then fail [] 400 "missing authorization code"
  else
    match loadOAuthProvider l provider authPath with
    | None => fail [] 404 "OAuth provider not configured"
    | Some op =>
        match secrets !! oa_secret_name op with
        | None => fail [] 500 "OAuth client secret not found"
        | Some encryptedSecret =>
            match enc with
            | None => ({| oo_cookies := cookies; oo_requests := []; oo_reply := OPanicked |}, w)
            | Some e =>
                match Decrypt e encryptedSecret with
                | Err _ => fail [] 500 "failed to decrypt OAuth secret"
                | Ok clientSecret =>
                    let asked := sent_to (oa_token op)
                      (exchange_request op (query_get "code" r) (oauthRedirectURI v authPath provider) clientSecret) in
                    match exchangeOAuthCode op with
                    | Err msg => fail asked 502 ("failed to exchange OAuth code: " ++ msg)
                    | Ok token =>
                        let asked := (asked ++ sent_to (oa_userinfo op) (fetch_request op token))%list in
                        match fetchOAuthUserInfo op with
                        | Err msg => fail asked 502 ("failed to fetch user info: " ++ msg)
                        | Ok info =>
                            match username_of op info with
                            | None => fail asked 502 ("user info missing " ++ oa_username op ++ " field")
                            | Some username =>
                                let '(x, w') := login_user api ae username randomBytes now w in
                                ({| oo_cookies := cookies; oo_requests := asked;
                                    oo_reply := match x with Ok url => ORedirect url | Err resp => ORefused resp end |}, w')
                            end
                        end
                    end
                end
            end
        end
    end.

Definition oauthCallback (api : SiteAPI) (l : list OAuthRow) (secrets : gmap string string) (enc : option Encryptor)
    (v : Visitor) (ae : authEndpointConfig) (authPath provider : string) (now : time) (w : Srv) : OAuthOutcome * Srv :=
  match check_state api (vs_request v) with
  | inl reply => ({| oo_cookies := []; oo_requests := []; oo_reply := reply |}, w)
  | inr randomBytes => callback_checked api l secrets enc v ae authPath provider randomBytes now w
  end.

(** The rest of [handleAuthRequest]: [action] begins with oauth/. *)
Definition oauth_route (api : SiteAPI) (l : list OAuthRow) (secrets : gmap string string) (enc : option Encryptor)
    (v : Visitor) (ae : authEndpointConfig) (authPath action : string) (random : res string string) (now : time) (w : Srv)
    : OAuthOutcome * Srv :=
  match SplitN2 "/" (drop_str 6 action) with
  | [provider; rest] =>
      if (rest =? "callback")%string then oauthCallback api l secrets enc v ae authPath provider now w
      else (oauthAuthorize api l v authPath provider random, w)
  | p => (oauthAuthorize api l v authPath (hd "" p) random, w)
  end.
End OAuth.

(** ** The state *)

Section OAuthFacts.
Context `{C : Crypto} `{Q : SQL} `{N : Net} `{A : AEAD} `{Fl : Floats}.

Lemma SplitN2_first c a b : all_bytes (fun x => negb (Ascii.eqb x c)) a = true -> SplitN2 c (a ++ String c b) = [a; b].
Proof.
  induction a as [|x a IH]; cbn [all_bytes]; [intros _; rewrite append_nil_l; cbn [SplitN2]; by rewrite Ascii.eqb_refl|].
  intros [Hx%negb_true_iff Ha]%andb_prop. rewrite append_cons. cbn [SplitN2]. by rewrite Hx, IH.
Qed.

(** Hexadecimal has no dots. *)
Lemma hex_split h t b : hex_decode h = Ok b -> SplitN2 "." (h ++ "." ++ t) = [h; t].
Proof.
  intros H. apply (SplitN2_first "." h t). assert (is_ok (hex_decode h) = true) as Hok by by rewrite H.
  apply hex_decode_digits in Hok as [_ Hd]. revert Hd. apply all_bytes_impl. intros a Ha. destruct (Ascii.eqb_spec a ".") as [->|]; [|done].
  by vm_compute in Ha.
Qed.

(** What the check of a state lets through. *)
Definition state_of (api : SiteAPI) (r : HttpRequest) (randomBytes : string) : Prop :=
  exists j h, jwt api = Some j /\ hex_decode h = Ok randomBytes /\
    query_get "state" r = h ++ "." ++ hex_encode (HMAC j randomBytes) /\
    assoc "oauth_state" (cookies r) = Some (query_get "state" r).

Lemma check_state_iff api r randomBytes : check_state api r = inr randomBytes <-> state_of api r randomBytes.
Proof.
  unfold check_state, state_of. split.
  - destruct (assoc _ _) as [cookie|]; [|done]. destruct (_ || _) eqn:Hq; [done|]. apply orb_false_iff in Hq as [_ Hq%negb_false_iff%String.eqb_eq].
    rewrite <- Hq. destruct (SplitN2_cases "." (query_get "state" r)) as [[_ ->]|[_ (h & mac & -> & E)]]; [done|].
    destruct (hex_decode h) as [b|] eqn:Hh; [|done]. destruct (jwt api) as [j|]; [|done]. destruct (String.eqb_spec mac (hex_encode (HMAC j b))); [|done].
    intros [= <-]. exists j, h. subst mac. done.
  - intros (j & h & Hj & Hh & Hs & Hc). rewrite Hc, String.eqb_refl, orb_false_r.
    destruct (String.eqb_spec (query_get "state" r) "") as [He|_]; [rewrite He in Hs; by destruct h|]. rewrite Hs.
    rewrite (hex_split h _ randomBytes), Hh, Hj by done. by rewrite String.eqb_refl.
Qed.

(** ** The whole way *)

(** The account a name is logged in to: the row that has it, with its role, or a new
    row with the default role. *)
Definition account (ae : authEndpointConfig) (username : string) (id : Z) (role : string) (w w' : Srv) : Prop :=
  exists rows, sql_query (select_user ae ("id, " ++ RoleColumn ae)) [JStr username] (db_tables w) = Ok rows /\
  match scanRowsToMaps rows with
  | r0 :: _ => r0 !! "id" ≫= scan_int = Some id /\ role = nonempty_or (scan_role ae r0) (DefaultRole ae) /\ db_tables w' = db_tables w
  | [] => role = DefaultRole ae /\ exists hash n,
            sql_exec (insert_text (ae_TableName ae) [UsernameColumn ae; PasswordColumn ae; RoleColumn ae])
              [JStr username; JStr hash; JStr (DefaultRole ae)] (db_tables w) = (Ok (id, n), db_tables w')
  end.

Lemma H_bind_run {X Y} (m : H X) (k : X -> H Y) w :
  (m ≫= k) w = match m w with (Ok a, w') => k a w' | (Err r, w') => (Err r, w') end.
Proof. done. Qed.

Lemma login_user_spec api ae username randomBytes now w url w' : login_user api ae username randomBytes now w = (Ok url, w') ->
  exists id role j, account ae username id role w w' /\ jwt api = Some j /\
    url = "/#token=" ++ QueryEscape (GenerateForSite j (site_ID api) id username role now).
Proof.
  unfold login_user, find_or_create, account. rewrite !H_bind_run. unfold Query at 1.
  destruct (sql_query _ _ _) as [rows|e] eqn:Hq; [|done]. destruct (scanRowsToMaps rows) as [|r0 rest] eqn:Hr.
  - rewrite H_bind_run. unfold Exec. set (hash := match bcrypt _ with Ok h => h | Err _ => "" end). cbn [db_tables send].
    destruct (sql_exec _ _ _) as [[[id n]|e] t] eqn:He; [|done]. cbn [mret H_ret fst snd]. unfold generateUserToken.
    destruct (jwt api) as [j|]; [|done]. intros [= <- <-]. exists id, (DefaultRole ae), j. split; [|split; [done|]].
    + exists rows. split; [done|]. rewrite Hr. split; [done|]. by exists hash, n.
    + unfold nonempty_or. by destruct (_ =? "")%string.
  - destruct (r0 !! "id" ≫= scan_int) as [id|] eqn:Hid; [|done]. cbn [mret H_ret fst snd]. unfold generateUserToken.
    destruct (jwt api) as [j|]; [|done]. intros [= <- <-]. exists id, (nonempty_or (scan_role ae r0) (DefaultRole ae)), j.
    split; [|done]. exists rows. split; [done|]. by rewrite Hr.
Qed.

(** The code to the token endpoint, the token to the one for the user's data. *)
Definition proper_request (op : OAuthRow) (q : ProviderRequest) : Prop :=
  (pr_url q = oa_token op /\ pr_bearer q = None) \/ (pr_url q = oa_userinfo op /\ pr_form q = []).

Lemma sent_proper op url q : proper_request op q -> Forall (proper_request op) (sent_to url q).
Proof. intros H. unfold sent_to. destruct (new_request url); [constructor|by apply Forall_cons_2]. Qed.

(** What comes of the callback after the state was found in order. *)
Definition provider_login (api : SiteAPI) (l : list OAuthRow) (ae : authEndpointConfig) (authPath provider : string) (now : time)
    (w : Srv) (o : OAuthOutcome) (w' : Srv) : Prop :=
  match oo_reply o with
  | ORedirect url => exists op info username id role j,
      loadOAuthProvider l provider authPath = Some op /\ is_ok (exchangeOAuthCode op) = true /\
      fetchOAuthUserInfo op = Ok info /\ username_of op info = Some username /\ account ae username id role w w' /\
      jwt api = Some j /\ url = "/#token=" ++ QueryEscape (GenerateForSite j (site_ID api) id username role now)
  | _ => True
  end /\
  match loadOAuthProvider l provider authPath with
  | Some op => Forall (proper_request op) (oo_requests o)
  | None => oo_requests o = [] /\ w' = w
  end.

Lemma callback_checked_spec api l secrets enc v ae authPath provider b now w :
  let '(o, w') := callback_checked api l secrets enc v ae authPath provider b now w in
  provider_login api l ae authPath provider now w o w'.
Proof.
  assert (forall cookies requests status msg, match loadOAuthProvider l provider authPath with
      | Some op => Forall (proper_request op) requests | None => requests = [] end ->
    provider_login api l ae authPath provider now w (refused cookies requests status msg) w) as Hno.
  { intros cookies requests status msg H. split; [done|]. cbn [oo_requests refused]. by destruct (loadOAuthProvider _ _ _). }
  assert (match loadOAuthProvider l provider authPath with Some op => Forall (proper_request op) [] | None => @nil ProviderRequest = [] end) as H0
    by by destruct (loadOAuthProvider _ _ _).
  unfold callback_checked. cbv zeta. destruct (negb _); [by apply Hno|]. destruct (_ =? "")%string; [by apply Hno|].
  destruct (loadOAuthProvider l provider authPath) as [op|] eqn:Hop; [|by apply Hno].
  destruct (secrets !! _) as [sec|]; [|by apply Hno]. destruct enc as [e|]; [|by split; cbn; rewrite ?Hop].
  destruct (Decrypt e sec) as [clientSecret|]; [|by apply Hno].
  set (q1 := sent_to (oa_token op) _). assert (Forall (proper_request op) q1) as H1 by (apply sent_proper; by left).
  destruct (exchangeOAuthCode op) as [token|msg] eqn:Hx; [|by apply Hno].
  set (q2 := sent_to (oa_userinfo op) _). assert (Forall (proper_request op) (q1 ++ q2)%list) as H2
    by (apply Forall_app; split; [done|apply sent_proper; by right]).
  destruct (fetchOAuthUserInfo op) as [info|msg] eqn:Hf; [|by apply Hno].
  destruct (username_of op info) as [username|] eqn:Hu; [|by apply Hno].
  destruct (login_user api ae username b now w) as [[url|resp] w'] eqn:Hl; split; cbn [oo_reply oo_requests]; rewrite ?Hop; try done.
  apply login_user_spec in Hl as (id & role & j & Ha & Hj & Hurl). exists op, info, username, id, role, j. by rewrite Hx.
Qed.
End OAuthFacts.

(** C24. A visitor is logged in by a provider only when the state he brings is the one
    of his cookie and signed with the server's key, the provider is enabled for the
    endpoint, exchanged the code and named him; the token he is sent to the front
    page with is one of the site for that name, with the id and role of the account
    of that name, or of a new one with the default role.  Without such a state
    nothing is asked, changed or set; and whatever is asked of the provider, the
    secret goes to the token endpoint only. *)
Theorem oauth_login_sound `{C : Crypto} `{Q : SQL} `{N : Net} `{A : AEAD} `{Fl : Floats} api l secrets enc v ae authPath provider now w :
  let '(o, w') := oauthCallback api l secrets enc v ae authPath provider now w in
  match check_state api (vs_request v) with
  | inl reply => o = {| oo_cookies := []; oo_requests := []; oo_reply := reply |} /\ w' = w /\ forall url, reply <> ORedirect url
  | inr randomBytes => state_of api (vs_request v) randomBytes /\ provider_login api l ae authPath provider now w o w'
  end.
Proof.
  unfold oauthCallback. destruct (check_state api (vs_request v)) as [reply|b] eqn:Hc.
  - split; [done|]. split; [done|]. intros url ->. revert Hc. unfold check_state. cbv zeta. repeat case_match; done.
  - pose proof (callback_checked_spec api l secrets enc v ae authPath provider b now w) as H.
    destruct (callback_checked _ _ _ _ _ _ _ _ _ _ _) as [o w']. split; [by apply check_state_iff|done].
Qed.

(** The state set on the way out is in order on the way back. *)
Lemma state_comes_back `{C : Crypto} `{N : Net} api l v authPath provider randomBytes o c r :
  oauthAuthorize api l v authPath provider (Ok randomBytes) = o -> oo_cookies o = [c] ->
  assoc (ck_name c) (cookies r) = Some (ck_value c) -> query_get "state" r = ck_value c ->
  check_state api r = inr randomBytes.
Proof.
  unfold oauthAuthorize. destruct (loadOAuthProvider _ _ _) as [op|]; [|by intros <-]. destruct (jwt api) as [j|] eqn:Hj; [|by intros <-].
  intros <- [= <-] Hc Hs. apply check_state_iff. exists j, (hex_encode randomBytes). rewrite Hj, hex_roundtrip, Hs. done.
Qed.

Module OAuthSample.
#[export] Existing Instances ApiSample.crypto EncryptionSample.plain FloatSample.same_numbers.
(** A database with one account, made with a password. *)
#[export] Instance one_account : SQL :=
  {| tables := unit; sql_query := fun _ _ _ => Ok [[("id", JNum "1"); ("role", JStr "admin")]]; sql_exec := fun _ _ t => (Err "", t);
     table_info := fun _ _ => Ok [] |}.
(** A provider where somebody took the name. *)
#[export] Instance provider : Net :=
  {| hmac_sha256 k m := k ++ m; new_request _ := None;
     client_do n := Ok (200%Z, match n with O => dq "{'access_token':'t'}" | _ => dq "{'login':'alice'}" end); time_text t := Itoa t |}.
Definition key : JWTManager := {| secret := "k"; expiry := hour |}.
Definition api : SiteAPI :=
  {| site_ID := 7; site_Config := ""; api_endpoints := []; auth_endpoints := []; dynamic_tables := []; jwt := Some key; encryptor := true |}.
Definition github : OAuthRow :=
  {| oa_id := 1; oa_name := "github"; oa_display := "GitHub"; oa_client := "c"; oa_secret_name := "gh"; oa_authorize := "https://github.test/authorize";
     oa_token := "https://github.test/token"; oa_userinfo := "https://github.test/user"; oa_scopes := "read:user"; oa_username := "login";
     oa_path := "auth"; oa_enabled := true; oa_created := 0 |}.
Definition auth : authEndpointConfig :=
  {| ae_TableName := "users"; UsernameColumn := "email"; PasswordColumn := "password"; ae_PublicColumns := []; DefaultRole := "user";
     RoleColumn := "role" |}.
Definition back : Visitor :=
  {| vs_request := {| method := "GET"; url_path := "/api/auth/oauth/github/callback"; headers := []; cookies := [("oauth_state", signed_state key "r")];
                      query := {["state" := [signed_state key "r"]; "code" := ["x"]]}; req_body := "" |};
     vs_host := "shop.example"; vs_tls := true; vs_domain := None |}.
Definition start : Srv (Q := one_account) := {| db_tables := tt; statements := []; published := [] |}.
End OAuthSample.
Import OAuthSample.

(** Accounts are told by the name alone: who has the name of an account at a provider
    gets the account and its role, though it was made with a password here. *)
Example account_by_name_alone :
  oo_reply (fst (oauthCallback api [github] {["gh" := EncodeToString "000000000000s3cret"]} (Some {| enc_key := EncryptionSample.key |})
                   back auth "auth" "github" 0 start))
  = ORedirect ("/#token=" ++ QueryEscape (GenerateForSite key 7 1 "alice" "admin" 0)).
Proof. vm_compute. reflexivity. Qed.
