(* ===== verification/AdminDB.v ===== *)
(** * The global database of the administration

    The tables of db/migrations/001_initial.sql, the statements of db/models/user.go,
    provider.go and site.go and of db/db.go as functions on them, and the monad of
    the handlers of server/admin: a handler answers early, goes on, panics, or waits
    for ever for the write lock. *)

From Stdlib Require Import ZArith Lia Ascii String List Bool.
From stdpp Require Import base list strings gmap.
From S2P Require Import Prelude GoStrings GoTime JSONText Plan PlanJSON PlanStore World LLMTypes ToolCore Manager Security Questions SiteDB.

Local Open Scope string_scope.

(** ** Rows *)

Record User := {
  us_id : Z; us_username : string; us_hash : string; us_display : string; us_role : string;
  us_created : time; us_updated : time;
}.

Record LLMProvider := {
  lp_id : Z; lp_name : string; lp_type : string; lp_key : option string; lp_base : option string; lp_enabled : bool;
  lp_config : string; lp_created : time; lp_updated : time;
}.

Record LLMModel := {
  lm_id : Z; lm_provider : Z; lm_model : string; lm_display : string; lm_max : Z; lm_stream : bool; lm_tools : bool;
  lm_default : bool; lm_config : string; lm_created : time;
}.

Record Site := {
  st_id : Z; st_name : string; st_domain : option string; st_description : option string; st_model : Z;
  st_status : string; st_mode : string; st_config : string; st_created : time; st_updated : time;
}.

(** AUTOINCREMENT: the last id given in each table, which deleting does not give back. *)
Record Sequences := { sq_users : Z; sq_providers : Z; sq_models : Z; sq_sites : Z }.

Record GlobalDB := {
  gd_users : list User; gd_settings : gmap string string; gd_sites : list Site;
  gd_providers : list LLMProvider; gd_models : list LLMModel; gd_seq : Sequences;
}.

Definition set_users (l : list User) (d : GlobalDB) : GlobalDB :=
  {| gd_users := l; gd_settings := gd_settings d; gd_sites := gd_sites d; gd_providers := gd_providers d;
     gd_models := gd_models d; gd_seq := gd_seq d |}.
Definition set_settings (m : gmap string string) (d : GlobalDB) : GlobalDB :=
  {| gd_users := gd_users d; gd_settings := m; gd_sites := gd_sites d; gd_providers := gd_providers d;
     gd_models := gd_models d; gd_seq := gd_seq d |}.
Definition set_sites (l : list Site) (d : GlobalDB) : GlobalDB :=
  {| gd_users := gd_users d; gd_settings := gd_settings d; gd_sites := l; gd_providers := gd_providers d;
     gd_models := gd_models d; gd_seq := gd_seq d |}.
Definition set_providers (l : list LLMProvider) (d : GlobalDB) : GlobalDB :=
  {| gd_users := gd_users d; gd_settings := gd_settings d; gd_sites := gd_sites d; gd_providers := l;
     gd_models := gd_models d; gd_seq := gd_seq d |}.
Definition set_models (l : list LLMModel) (d : GlobalDB) : GlobalDB :=
  {| gd_users := gd_users d; gd_settings := gd_settings d; gd_sites := gd_sites d; gd_providers := gd_providers d;
     gd_models := l; gd_seq := gd_seq d |}.
Definition set_seq (q : Sequences) (d : GlobalDB) : GlobalDB :=
  {| gd_users := gd_users d; gd_settings := gd_settings d; gd_sites := gd_sites d; gd_providers := gd_providers d;
     gd_models := gd_models d; gd_seq := q |}.

Definition unique_error (column : string) : string := "constraint failed: UNIQUE constraint failed: " ++ column ++ " (2067)".
Definition no_rows : string := "sql: no rows in result set".

(** ** db/models/user.go *)

Definition user_named (username : string) (u : User) : bool := (us_username u =? username)%string.
Definition user_is (id : Z) (u : User) : bool := (us_id u =? id)%Z.
Definition is_admin (u : User) : bool := (us_role u =? "admin")%string.

Definition GetUserByUsername (username : string) (d : GlobalDB) : option User := List.find (user_named username) (gd_users d).
Definition GetUserByID (id : Z) (d : GlobalDB) : option User := List.find (user_is id) (gd_users d).
Definition ListUsers (d : GlobalDB) : list User := ascending us_id (gd_users d).
Definition CountUsers (d : GlobalDB) : Z := Z.of_nat (List.length (gd_users d)).
(** [SELECT COUNT] of the users whose role is admin *)
Definition count_admins (d : GlobalDB) : Z := Z.of_nat (List.length (List.filter is_admin (gd_users d))).
Definition GetOwnerDisplayName (d : GlobalDB) : string :=
  match ascending us_id (List.filter is_admin (gd_users d)) with u :: _ => us_display u | [] => "" end.

(** The statement of [CreateUserTx]. *)
Definition insert_user (username hash role display : string) (t : time) (d : GlobalDB) : res string (Z * GlobalDB) :=
  if existsb (user_named username) (gd_users d) then Err (unique_error "users.username")
  else
    let q := gd_seq d in
    let id := (sq_users q + 1)%Z in
    Ok (id, set_seq {| sq_users := id; sq_providers := sq_providers q; sq_models := sq_models q; sq_sites := sq_sites q |}
              (set_users (gd_users d ++ [{| us_id := id; us_username := username; us_hash := hash; us_display := display;
                                            us_role := role; us_created := t; us_updated := t |}])%list d)).

Definition update_user (id : Z) (f : User -> User) (d : GlobalDB) : res string (unit * GlobalDB) :=
  Ok (tt, set_users (update_where (user_is id) f (gd_users d)) d).
Definition UpdateUserPassword (id : Z) (hash : string) (t : time) : GlobalDB -> res string (unit * GlobalDB) :=
  update_user id (fun u => {| us_id := us_id u; us_username := us_username u; us_hash := hash; us_display := us_display u;
                              us_role := us_role u; us_created := us_created u; us_updated := t |}).
Definition UpdateUserRole (id : Z) (role : string) (t : time) : GlobalDB -> res string (unit * GlobalDB) :=
  update_user id (fun u => {| us_id := us_id u; us_username := us_username u; us_hash := us_hash u; us_display := us_display u;
                              us_role := role; us_created := us_created u; us_updated := t |}).
Definition UpdateUserDisplayName (id : Z) (display : string) (t : time) : GlobalDB -> res string (unit * GlobalDB) :=
  update_user id (fun u => {| us_id := us_id u; us_username := us_username u; us_hash := us_hash u; us_display := display;
                              us_role := us_role u; us_created := us_created u; us_updated := t |}).
Definition DeleteUser (id : Z) (t : time) (d : GlobalDB) : res string (unit * GlobalDB) :=
  Ok (tt, set_users (List.filter (fun u => negb (user_is id u)) (gd_users d)) d).

(** ** db/db.go: settings *)

Definition GetSetting (key : string) (d : GlobalDB) : option string := gd_settings d !! key.
Definition SetSetting_stmt (key value : string) (t : time) (d : GlobalDB) : res string (unit * GlobalDB) :=
  Ok (tt, set_settings (<[key := value]> (gd_settings d)) d).

(** ** db/models/site.go *)

Definition site_is (id : Z) (s : Site) : bool := (st_id s =? id)%Z.
Definition at_domain (domain : string) (s : Site) : bool := bool_decide (st_domain s = Some domain).
Definition GetSiteByID (id : Z) (d : GlobalDB) : option Site := List.find (site_is id) (gd_sites d).
Definition GetSiteByDomain (domain : string) (d : GlobalDB) : option Site := List.find (at_domain domain) (gd_sites d).
Definition ListSites (d : GlobalDB) : list Site := ascending st_id (gd_sites d).
(** [LIMIT ? OFFSET ?] *)
Definition ListSitesPaginated (limit offset : Z) (d : GlobalDB) : list Site * Z :=
  (sql_limit limit (skipn (Z.to_nat offset) (ListSites d)), Z.of_nat (List.length (gd_sites d))).
Definition ListActiveSites (d : GlobalDB) : list Site :=
  ascending st_id (List.filter (fun s => (st_status s =? "active")%string) (gd_sites d)).

(** The domain is UNIQUE where it is not NULL. *)
Definition domain_taken (domain : option string) (l : list Site) : bool :=
  match domain with Some x => existsb (at_domain x) l | None => false end.

Definition CreateSite_stmt (name : string) (domain description : option string) (model : Z) (t : time) (d : GlobalDB)
    : res string (Z * GlobalDB) :=
  if domain_taken domain (gd_sites d) then Err (unique_error "sites.domain")
  else
    let q := gd_seq d in
    let id := (sq_sites q + 1)%Z in
    Ok (id, set_seq {| sq_users := sq_users q; sq_providers := sq_providers q; sq_models := sq_models q; sq_sites := id |}
              (set_sites (gd_sites d ++ [{| st_id := id; st_name := name; st_domain := domain; st_description := description;
                                            st_model := model; st_status := "active"; st_mode := "building"; st_config := "{}";
                                            st_created := t; st_updated := t |}])%list d)).

Definition UpdateSite (id : Z) (name : string) (domain description : option string) (model : Z) (t : time) (d : GlobalDB)
    : res string (unit * GlobalDB) :=
  if existsb (site_is id) (gd_sites d) && domain_taken domain (List.filter (fun s => negb (site_is id s)) (gd_sites d))
  then Err (unique_error "sites.domain")
  else Ok (tt, set_sites (update_where (site_is id)
         (fun s => {| st_id := st_id s; st_name := name; st_domain := domain; st_description := description; st_model := model;
                      st_status := st_status s; st_mode := st_mode s; st_config := st_config s; st_created := st_created s;
                      st_updated := t |}) (gd_sites d)) d).

Definition UpdateSiteStatus (id : Z) (status : string) (t : time) (d : GlobalDB) : res string (unit * GlobalDB) :=
  Ok (tt, set_sites (update_where (site_is id)
         (fun s => {| st_id := st_id s; st_name := st_name s; st_domain := st_domain s; st_description := st_description s;
                      st_model := st_model s; st_status := status; st_mode := st_mode s; st_config := st_config s;
                      st_created := st_created s; st_updated := t |}) (gd_sites d)) d).
Definition UpdateSiteMode (id : Z) (mode : string) (t : time) (d : GlobalDB) : res string (unit * GlobalDB) :=
  Ok (tt, set_sites (update_where (site_is id)
         (fun s => {| st_id := st_id s; st_name := st_name s; st_domain := st_domain s; st_description := st_description s;
                      st_model := st_model s; st_status := st_status s; st_mode := mode; st_config := st_config s;
                      st_created := st_created s; st_updated := t |}) (gd_sites d)) d).

(** [DELETE FROM sites]: the rows affected. *)
Definition delete_site_row (id : Z) (t : time) (d : GlobalDB) : res string (nat * GlobalDB) :=
  Ok (List.length (List.filter (site_is id) (gd_sites d)),
      set_sites (List.filter (fun s => negb (site_is id s)) (gd_sites d)) d).

(** ** db/models/provider.go *)

Definition provider_is (id : Z) (p : LLMProvider) : bool := (lp_id p =? id)%Z.
Definition provider_named (name : string) (p : LLMProvider) : bool := (lp_name p =? name)%string.
Definition model_is (id : Z) (m : LLMModel) : bool := (lm_id m =? id)%Z.
Definition model_of (provider : Z) (m : LLMModel) : bool := (lm_provider m =? provider)%Z.

Definition GetProviderByID (id : Z) (d : GlobalDB) : option LLMProvider := List.find (provider_is id) (gd_providers d).
Definition GetProviderByName (name : string) (d : GlobalDB) : option LLMProvider := List.find (provider_named name) (gd_providers d).
Definition ListProviders (d : GlobalDB) : list LLMProvider := ascending lp_id (gd_providers d).
Definition CountProviders (d : GlobalDB) : Z := Z.of_nat (List.length (gd_providers d)).
Definition ListModelsByProvider (provider : Z) (d : GlobalDB) : list LLMModel :=
  ascending lm_id (List.filter (model_of provider) (gd_models d)).
Definition GetModelByID (id : Z) (d : GlobalDB) : option LLMModel := List.find (model_is id) (gd_models d).

(** The first pair of the join, if any. *)
Definition with_provider (d : GlobalDB) (m : LLMModel) : option (LLMModel * LLMProvider) :=
  option_map (pair m) (GetProviderByID (lm_provider m) d).
Definition GetDefaultModel (d : GlobalDB) : option (LLMModel * LLMProvider) :=
  List.find (fun mp => lp_enabled (snd mp)) (omap (with_provider d) (ascending lm_id (List.filter lm_default (gd_models d)))).
Definition GetModelForSite (site : Z) (d : GlobalDB) : option (LLMModel * LLMProvider) :=
  GetSiteByID site d ≫= fun s => GetModelByID (st_model s) d ≫= with_provider d.

Definition insert_provider (name type : string) (key base : option string) (t : time) (d : GlobalDB) : res string (Z * GlobalDB) :=
  if existsb (provider_named name) (gd_providers d) then Err (unique_error "llm_providers.name")
  else
    let q := gd_seq d in
    let id := (sq_providers q + 1)%Z in
    Ok (id, set_seq {| sq_users := sq_users q; sq_providers := id; sq_models := sq_models q; sq_sites := sq_sites q |}
              (set_providers (gd_providers d ++ [{| lp_id := id; lp_name := name; lp_type := type; lp_key := key; lp_base := base;
                                                    lp_enabled := true; lp_config := "{}"; lp_created := t; lp_updated := t |}])%list d)).

Definition UpdateProvider (id : Z) (name : string) (key base : option string) (enabled : bool) (t : time) (d : GlobalDB)
    : res string (unit * GlobalDB) :=
  if existsb (provider_is id) (gd_providers d) && existsb (fun p => provider_named name p && negb (provider_is id p)) (gd_providers d)
  then Err (unique_error "llm_providers.name")
  else Ok (tt, set_providers (update_where (provider_is id)
         (fun p => {| lp_id := lp_id p; lp_name := name; lp_type := lp_type p; lp_key := key; lp_base := base; lp_enabled := enabled;
                      lp_config := lp_config p; lp_created := lp_created p; lp_updated := t |}) (gd_providers d)) d).

Definition set_default_flag (b : bool) (m : LLMModel) : LLMModel :=
  {| lm_id := lm_id m; lm_provider := lm_provider m; lm_model := lm_model m; lm_display := lm_display m; lm_max := lm_max m;
     lm_stream := lm_stream m; lm_tools := lm_tools m; lm_default := b; lm_config := lm_config m; lm_created := lm_created m |}.
(** [UPDATE llm_models SET is_default = ? WHERE ...] *)
Definition mark_models (b : bool) (which : LLMModel -> bool) (t : time) (d : GlobalDB) : res string (unit * GlobalDB) :=
  Ok (tt, set_models (update_where which (set_default_flag b) (gd_models d)) d).
(** The model [SELECT id ... WHERE provider_id = ? ORDER BY id LIMIT 1] names. *)
Definition first_model (provider : Z) (d : GlobalDB) (m : LLMModel) : bool :=
  match ListModelsByProvider provider d with f :: _ => model_is (lm_id f) m | [] => false end.

Definition DeleteModel (id : Z) (t : time) (d : GlobalDB) : res string (unit * GlobalDB) :=
  Ok (tt, set_models (List.filter (fun m => negb (model_is id m)) (gd_models d)) d).

Section Models.
Context `{F : Formats}.

(** ON DELETE CASCADE *)
Definition DeleteProvider (id : Z) (t : time) (d : GlobalDB) : res string (unit * GlobalDB) :=
  let d' := set_providers (List.filter (fun p => negb (provider_is id p)) (gd_providers d)) d in
  Ok (tt, if foreign_keys then set_models (List.filter (fun m => negb (model_of id m)) (gd_models d)) d' else d').

Definition insert_model (provider : Z) (model display : string) (maxTokens : Z) (streaming tools dflt : bool) (t : time) (d : GlobalDB)
    : res string (Z * GlobalDB) :=
  if existsb (fun m => model_of provider m && (lm_model m =? model)%string) (gd_models d)
  then Err (unique_error "llm_models.provider_id, llm_models.model_id")
  else if foreign_keys && negb (existsb (provider_is provider) (gd_providers d)) then Err "constraint failed: FOREIGN KEY constraint failed (787)"
  else
    let q := gd_seq d in
    let id := (sq_models q + 1)%Z in
    Ok (id, set_seq {| sq_users := sq_users q; sq_providers := sq_providers q; sq_models := id; sq_sites := sq_sites q |}
              (set_models (gd_models d ++ [{| lm_id := id; lm_provider := provider; lm_model := model; lm_display := display;
                                              lm_max := maxTokens; lm_stream := streaming; lm_tools := tools; lm_default := dflt;
                                              lm_config := "{}"; lm_created := t |}])%list d)).
End Models.

(** ** The handlers' state and monad *)

(** A provider as the factory makes it. *)
Record Live := { lv_name : string; lv_type : string; lv_key : string; lv_base : string }.

(** Which statements fail, with what error; the factory of providers, which knows some
    types; what a provider answers to a ping. *)
Class AdminEnv := {
  stmt_fails : nat -> option string;
  knows_type : option (string -> bool);           (* Deps.ProviderFactory, which can be nil *)
  ping : Live -> string -> option string;
  admin_decrypt : string -> res string string;    (* Encryptor.Decrypt *)
}.

Record AdminEvent := { ae_type : string; ae_site : Z; ae_payload : payload }.

Record AdminState `{K : SQLite} := {
  ad_db : GlobalDB;
  ad_tx : option GlobalDB;               (* what the open transaction has written *)
  ad_locked : bool;                      (* DB.mu *)
  ad_stmts : nat;                        (* statements so far *)
  ad_clock : time;
  ad_live : ProviderRegistry Live;
  ad_bus : list AdminEvent;              (* published, the latest last *)
  ad_dbs : Mgr;                          (* the databases of the sites *)
  ad_brain : BrainManager;
}.

Record AuthCookie := { ac_value : string; ac_max_age : Z; ac_secure : bool }.

(** What is written: a status, a body, and the cookie iatan_auth (of the path /admin,
    HttpOnly, SameSite=Strict) where it is set. *)
Record AdminAnswer := { an_status : Z; an_body : json; an_cookie : option AuthCookie }.
Definition answer_json (status : Z) (body : json) : AdminAnswer := {| an_status := status; an_body := body; an_cookie := None |}.
Definition answer_error (status : Z) (msg : string) : AdminAnswer := answer_json status (JObj [("error", JStr msg)]).

(** How a handler ends early: it has answered, it panics, or it waits for a lock it
    holds itself. *)
Inductive AdminExit := Replied (a : AdminAnswer) | Crashed | Stuck.

Section Monad.
Context `{K : SQLite} `{X : AdminEnv}.

Definition A (T : Type) : Type := AdminState -> (res AdminExit T * AdminState)%type.
#[export] Instance A_ret : MRet A := fun T a s => (Ok a, s).
#[export] Instance A_bind : MBind A := fun T U k m s =>
  match m s with (Ok a, s') => k a s' | (Err x, s') => (Err x, s') end.

Definition replied {T} (a : AdminAnswer) : A T := fun s => (Err (Replied a), s).
Definition refuse {T} (status : Z) (msg : string) : A T := replied (answer_error status msg).
Definition check (b : bool) (status : Z) (msg : string) : A unit := if b then mret tt else refuse status msg.
Definition or_refuse {T} (status : Z) (msg : string) (r : res string T) : A T :=
  match r with Ok a => mret a | Err _ => refuse status msg end.
Definition crashed {T} : A T := fun s => (Err Crashed, s).

(** A deferred call: it runs however the handler ends. *)
Definition deferred {T} (m : A T) (f : AdminState -> AdminState) : A T := fun s => let '(r, s') := m s in (r, f s').

Definition with_db (d : GlobalDB) (s : AdminState) : AdminState :=
  {| ad_db := d; ad_tx := ad_tx s; ad_locked := ad_locked s; ad_stmts := ad_stmts s; ad_clock := ad_clock s;
     ad_live := ad_live s; ad_bus := ad_bus s; ad_dbs := ad_dbs s; ad_brain := ad_brain s |}.
Definition with_tx (t : option GlobalDB) (s : AdminState) : AdminState :=
  {| ad_db := ad_db s; ad_tx := t; ad_locked := ad_locked s; ad_stmts := ad_stmts s; ad_clock := ad_clock s;
     ad_live := ad_live s; ad_bus := ad_bus s; ad_dbs := ad_dbs s; ad_brain := ad_brain s |}.
Definition with_lock (b : bool) (s : AdminState) : AdminState :=
  {| ad_db := ad_db s; ad_tx := ad_tx s; ad_locked := b; ad_stmts := ad_stmts s; ad_clock := ad_clock s;
     ad_live := ad_live s; ad_bus := ad_bus s; ad_dbs := ad_dbs s; ad_brain := ad_brain s |}.
Definition count_stmt (s : AdminState) : AdminState :=
  {| ad_db := ad_db s; ad_tx := ad_tx s; ad_locked := ad_locked s; ad_stmts := S (ad_stmts s); ad_clock := ad_clock s;
     ad_live := ad_live s; ad_bus := ad_bus s; ad_dbs := ad_dbs s; ad_brain := ad_brain s |}.
Definition with_live (l : ProviderRegistry Live) (s : AdminState) : AdminState :=
  {| ad_db := ad_db s; ad_tx := ad_tx s; ad_locked := ad_locked s; ad_stmts := ad_stmts s; ad_clock := ad_clock s;
     ad_live := l; ad_bus := ad_bus s; ad_dbs := ad_dbs s; ad_brain := ad_brain s |}.
Definition with_event (e : AdminEvent) (s : AdminState) : AdminState :=
  {| ad_db := ad_db s; ad_tx := ad_tx s; ad_locked := ad_locked s; ad_stmts := ad_stmts s; ad_clock := ad_clock s;
     ad_live := ad_live s; ad_bus := (ad_bus s ++ [e])%list; ad_dbs := ad_dbs s; ad_brain := ad_brain s |}.
Definition with_dbs (m : Mgr) (s : AdminState) : AdminState :=
  {| ad_db := ad_db s; ad_tx := ad_tx s; ad_locked := ad_locked s; ad_stmts := ad_stmts s; ad_clock := ad_clock s;
     ad_live := ad_live s; ad_bus := ad_bus s; ad_dbs := m; ad_brain := ad_brain s |}.
Definition with_brain (m : BrainManager) (s : AdminState) : AdminState :=
  {| ad_db := ad_db s; ad_tx := ad_tx s; ad_locked := ad_locked s; ad_stmts := ad_stmts s; ad_clock := ad_clock s;
     ad_live := ad_live s; ad_bus := ad_bus s; ad_dbs := ad_dbs s; ad_brain := m |}.

Definition stamp (s : AdminState) : time := Truncate (ad_clock s) second.

(** *** Statements outside a transaction *)

Definition select {T} (f : GlobalDB -> T) : A (res string T) := fun s =>
  (Ok match stmt_fails (ad_stmts s) with Some e => Err e | None => Ok (f (ad_db s)) end, count_stmt s).
(** [QueryRow.Scan] *)
Definition select_row {T} (f : GlobalDB -> option T) : A (res string T) := fun s =>
  (Ok match stmt_fails (ad_stmts s) with
      | Some e => Err e
      | None => match f (ad_db s) with Some a => Ok a | None => Err no_rows end
      end, count_stmt s).

(** A write; another connection's transaction keeps it out. *)
Definition exec {T} (f : time -> GlobalDB -> res string (T * GlobalDB)) : A (res string T) := fun s =>
  let s' := count_stmt s in
  match stmt_fails (ad_stmts s), ad_tx s with
  | Some e, _ => (Ok (Err e), s')
  | None, Some _ => (Ok (Err "database is locked (5) (SQLITE_BUSY)"), s')
  | None, None =>
      match f (stamp s) (ad_db s) with
      | Err e => (Ok (Err e), s')
      | Ok (a, d) => (Ok (Ok a), with_db d s')
      end
  end.

(** [DB.ExecWrite]: under the mutex. *)
Definition ExecWrite {T} (f : time -> GlobalDB -> res string (T * GlobalDB)) : A (res string T) := fun s =>
  if ad_locked s then (Err Stuck, s)
  else let '(r, s') := exec f (with_lock true s) in (r, with_lock false s').

Definition SetSetting (key value : string) : A (res string unit) := ExecWrite (SetSetting_stmt key value).

(** *** Transactions *)

Definition BeginWriteTx : A (res string unit) := fun s =>
  if ad_locked s then (Err Stuck, s)
  else match stmt_fails (ad_stmts s) with
       | Some e => (Ok (Err e), count_stmt s)
       | None => (Ok (Ok tt), with_lock true (with_tx (Some (ad_db s)) (count_stmt s)))
       end.
Definition EndWriteTx (s : AdminState) : AdminState := with_lock false s.

Definition tx_done : string := "sql: transaction has already been committed or rolled back".
Definition tx_exec {T} (f : time -> GlobalDB -> res string (T * GlobalDB)) : A (res string T) := fun s =>
  let s' := count_stmt s in
  match stmt_fails (ad_stmts s), ad_tx s with
  | Some e, _ => (Ok (Err e), s')
  | None, None => (Ok (Err tx_done), s')
  | None, Some d =>
      match f (stamp s) d with
      | Err e => (Ok (Err e), s')
      | Ok (a, d') => (Ok (Ok a), with_tx (Some d') s')
      end
  end.
Definition tx_select {T} (f : GlobalDB -> T) : A (res string T) := fun s =>
  (Ok match stmt_fails (ad_stmts s), ad_tx s with
      | Some e, _ => Err e
      | None, None => Err tx_done
      | None, Some d => Ok (f d)
      end, count_stmt s).
Definition Rollback : A unit := fun s => (Ok tt, with_tx None s).
(** A commit that fails leaves nothing. *)
Definition Commit : A (res string unit) := fun s =>
  let s' := with_tx None (count_stmt s) in
  match stmt_fails (ad_stmts s), ad_tx s with
  | Some e, _ => (Ok (Err e), s')
  | None, None => (Ok (Err tx_done), s')
  | None, Some d => (Ok (Ok tt), with_db d s')
  end.

(** *** The rest *)

Definition publish_admin (ty : string) (site : Z) (p : payload) : A unit := fun s =>
  (Ok tt, with_event {| ae_type := ty; ae_site := site; ae_payload := p |} s).
Definition on_dbs {T} (m : D T) : A (res string T) := fun s =>
  let '(r, x) := m (ad_dbs s) in (Ok r, with_dbs x s).
Definition on_brain {T} (m : BrainManager -> T * BrainManager) : A T := fun s =>
  let '(r, x) := m (ad_brain s) in (Ok r, with_brain x s).

(** The first value of a body, as a struct: null is its zero value. *)
Definition decodeJSON {T} (dec : list (string * json) -> res string T) (body : string) : A T :=
  match parse_value (2 * String.length body + 2) max_depth body with
  | Ok (j, _) => or_refuse 400 "invalid request body" (res_bind (members j) dec)
  | Err _ => refuse 400 "invalid request body"
  end.
(** [strconv.Atoi] of a parameter of the path. *)
Definition url_int (what text : string) : A Z :=
  match Atoi text with (n, None) => mret n | _ => refuse 400 ("invalid " ++ what) end.

(** What the client gets of a handler. *)
Definition serve_admin (m : A AdminAnswer) (s : AdminState) : AdminExit * AdminState :=
  match m s with (Ok a, s') => (Replied a, s') | (Err x, s') => (x, s') end.
End Monad.
