(* ===== verification/Admin.v ===== *)
(** * The administration: login, users, settings, sites, workers

    server/admin/auth.go, users.go, settings.go, sites.go and brain.go on the monad of
    AdminDB.  A handler is a computation that ends in an answer. *)

From Stdlib Require Import ZArith Lia Ascii String List Bool.
From stdpp Require Import base list strings gmap.
From S2P Require Import Prelude GoStrings GoTime JSONText Plan PlanJSON PlanStore World LLMTypes OpenAI ToolCore Manager Security JSONRead SiteTables ToolMonad Questions SiteDB AdminDB.

Local Open Scope string_scope.
Local Open Scope go_scope.

Section Admin.
Context `{C : Crypto} `{F : Formats} `{K : SQLite} `{X : AdminEnv} `{Fl : Floats}.
Context (jwt : JWTManager) (secureCookies : bool) (migrations : list (string * string)).

(** ** What is written *)

Definition created_text (t : option time) : json :=
  JStr match t with Some t => time_text t | None => "0001-01-01T00:00:00Z" end.

(** A user without his hash; one just created has no times. *)
Definition user_json (id : Z) (username display role : string) (times : option (time * time)) : json :=
  JObj [("id", int id); ("username", JStr username); ("display_name", JStr display); ("role", JStr role);
        ("created_at", created_text (option_map fst times)); ("updated_at", created_text (option_map snd times))].
Definition stored_user (u : User) : json :=
  user_json (us_id u) (us_username u) (us_display u) (us_role u) (Some (us_created u, us_updated u)).

Definition site_json (s : Site) : json :=
  JObj [("id", int (st_id s)); ("name", JStr (st_name s)); ("domain", text_or_nil (st_domain s));
        ("description", text_or_nil (st_description s)); ("llm_model_id", int (st_model s)); ("status", JStr (st_status s));
        ("mode", JStr (st_mode s)); ("config", JStr (st_config s)); ("created_at", JStr (time_text (st_created s)));
        ("updated_at", JStr (time_text (st_updated s)))].

Definition status_json (s : string) : json := JObj [("status", JStr s)].

(** [SetAuthCookie], [ClearAuthCookie] *)
Definition SetAuthCookie (token : string) : AuthCookie :=
  {| ac_value := token; ac_max_age := Z.quot (expiry jwt) second; ac_secure := secureCookies |}.
Definition ClearAuthCookie : AuthCookie := {| ac_value := ""; ac_max_age := -1; ac_secure := false |}.

(** ** auth.go *)

Definition credentials (m : list (string * json)) : res string (string * string) :=
  let! u := str "username" m in let! p := str "password" m in Ok (u, p).

Definition token_answer (status : Z) (token : string) (user : json) : AdminAnswer :=
  {| an_status := status; an_body := JObj [("token", JStr token); ("user", user)]; an_cookie := Some (SetAuthCookie token) |}.

Definition now_of : A time := fun s => (Ok (ad_clock s), s).

Definition HandleLogin (body : string) : A AdminAnswer :=
  req ← decodeJSON credentials body;
  let '(username, password) := req in
  check (negb ((username =? "")%string || (password =? "")%string)) 400 "username and password are required";;
  r ← select_row (GetUserByUsername username);
  user ← or_refuse 401 "invalid credentials" r;
  check (bcrypt_check password (us_hash user)) 401 "invalid credentials";;
  t ← now_of;
  mret (token_answer 200 (Generate jwt (us_id user) (us_username user) (us_role user) t) (stored_user user)).

Definition HandleLogout : A AdminAnswer :=
  mret {| an_status := 200; an_body := status_json "ok"; an_cookie := Some ClearAuthCookie |}.

Definition HandleSetupCheck : A AdminAnswer :=
  r ← select CountUsers;
  count ← or_refuse 500 "internal error" r;
  mret (answer_json 200 (JObj [("needs_setup", JBool (count =? 0)%Z)])).

(** [requires_api_key] of the column config: true unless it says a boolean. *)
Definition requires_key (config : string) : bool :=
  match Unmarshal config with
  | Ok (JObj m) => match go_members m ≫= lookup "requires_api_key" with Some (JBool b) => b | _ => true end
  | _ => true
  end.

Definition model_entry (m : LLMModel) : json :=
  JObj [("id", int (lm_id m)); ("model_id", JStr (lm_model m)); ("display_name", JStr (lm_display m));
        ("is_default", JBool (lm_default m)); ("supports_tools", JBool (lm_tools m))].
Definition provider_entry (p : LLMProvider) (models : list LLMModel) : json :=
  JObj [("id", int (lp_id p)); ("name", JStr (lp_name p)); ("provider_type", JStr (lp_type p));
        ("requires_api_key", JBool (requires_key (lp_config p))); ("has_api_key", JBool (bool_decide (lp_key p <> None)));
        ("models", slice model_entry models)].

(** The providers with their models; one whose models cannot be read is left out. *)
Fixpoint catalog (l : list LLMProvider) : A (list json) :=
  match l with
  | [] => mret []
  | p :: r =>
      models ← select (ListModelsByProvider (lp_id p));
      rest ← catalog r;
      mret (match models with Ok ms => provider_entry p ms :: rest | Err _ => rest end)
  end.

Definition HandleProviderCatalog : A AdminAnswer :=
  r ← select ListProviders;
  providers ← or_refuse 500 "failed to list providers" r;
  l ← catalog providers;
  mret (answer_json 200 (slice (fun j => j) l)).

Record setupRequest := {
  su_username : string; su_password : string; su_display : string; su_provider : Z; su_model : string; su_key : string;
}.
Definition dec_setup (m : list (string * json)) : res string setupRequest :=
  let! u := str "username" m in let! p := str "password" m in let! d := str "display_name" m in
  let! i := dec_int (member "provider_id" m) in let! mo := str "model_id" m in let! k := str "api_key" m in
  Ok {| su_username := u; su_password := p; su_display := d; su_provider := i; su_model := mo; su_key := k |}.

(** A provider made by the factory goes into the registry in use. *)
Definition register_live (name type key base : string) (s : AdminState) : AdminState :=
  match knows_type with
  | Some knows => if knows type then with_live (RegisterProvider name {| lv_name := name; lv_type := type; lv_key := key; lv_base := base |} (ad_live s)) s else s
  | None => s
  end.

Definition tx_fail {T} (status : Z) (msg : string) : A T :=
  Rollback;;
  refuse status msg.

(** The part of setup that chooses and keys a provider; what to do at the end. *)
Definition setup_provider (req : setupRequest) : A (AdminState -> AdminState) :=
  if negb (0 <? su_provider req)%Z then mret (fun s : AdminState => s) else
  r ← select_row (GetProviderByID (su_provider req));
  match r with
  | Err _ => mret (fun s : AdminState => s)
  | Ok p =>
      let key := if (su_key req =? "")%string then None
                 else match encrypt (su_key req) with Ok e => Some e | Err _ => None end in
      tx_exec (UpdateProvider (lp_id p) (lp_name p) key (lp_base p) true);;
      cleared ← tx_exec (mark_models false (fun _ => true));
      if negb (is_ok cleared) then tx_fail 500 "failed to configure provider" else
      chosen ← tx_exec (if (su_model req =? "")%string
                        then fun t d => mark_models true (first_model (lp_id p) d) t d
                        else mark_models true (fun m => (lm_model m =? su_model req)%string && model_of (lp_id p) m));
      if negb (is_ok chosen) then tx_fail 500 "failed to configure provider" else
      mret (fun s => if (su_key req =? "")%string then s
                     else register_live (lp_name p) (lp_type p) (su_key req) (default "" (lp_base p)) s)
  end.

(** The end of setup, with the registration it deferred. *)
Definition setup_finish (req : setupRequest) (id : Z) : A AdminAnswer :=
  committed ← Commit;
  or_refuse 500 "failed to complete setup" committed;;
  t ← now_of;
  mret (token_answer 201 (Generate jwt id (su_username req) "admin" t)
          (user_json id (su_username req) (su_display req) "admin" None)).

Definition setup_locked (req : setupRequest) (hash : string) : A AdminAnswer :=
  count ← tx_select CountUsers;
  match count with
  | Err _ => tx_fail 500 "internal error"
  | Ok count =>
      if (0 <? count)%Z then tx_fail 409 "setup already completed" else
      user ← tx_exec (insert_user (su_username req) hash "admin" (su_display req));
      match user with
      | Err _ => tx_fail 500 "failed to create user"
      | Ok id =>
          register ← setup_provider req;
          deferred (setup_finish req id) register
      end
  end.

Definition HandleSetup (body : string) : A AdminAnswer :=
  req ← decodeJSON dec_setup body;
  check (negb ((su_username req =? "")%string || (su_password req =? "")%string)) 400 "username and password are required";;
  hash ← or_refuse 500 "failed to create user" (bcrypt (su_password req));
  begun ← BeginWriteTx;
  or_refuse 500 "internal error" begun;;
  deferred (setup_locked req hash) EndWriteTx.

(** ** users.go *)

Definition users_List : A AdminAnswer :=
  r ← select ListUsers;
  users ← or_refuse 500 "failed to list users" r;
  mret (answer_json 200 (JArr (map stored_user users))).

Record createUserRequest := { cu_username : string; cu_password : string; cu_role : string; cu_display : string }.
Definition dec_create_user (m : list (string * json)) : res string createUserRequest :=
  let! u := str "username" m in let! p := str "password" m in let! r := str "role" m in let! d := str "display_name" m in
  Ok {| cu_username := u; cu_password := p; cu_role := r; cu_display := d |}.

Definition users_Create (body : string) : A AdminAnswer :=
  req ← decodeJSON dec_create_user body;
  check (negb ((cu_username req =? "")%string || (cu_password req =? "")%string)) 400 "username and password are required";;
  let role := or_else (cu_role req) "user" in
  hash ← or_refuse 500 "failed to create user" (bcrypt (cu_password req));
  r ← exec (insert_user (cu_username req) hash role (cu_display req));
  id ← or_refuse 500 "failed to create user" r;
  mret (answer_json 201 (user_json id (cu_username req) (cu_display req) role None)).

Definition dec_update_user (m : list (string * json)) : res string createUserRequest :=
  let! p := str "password" m in let! r := str "role" m in let! d := str "display_name" m in
  Ok {| cu_username := ""; cu_password := p; cu_role := r; cu_display := d |}.

(** The count that protects the last admin: zero where it cannot be read. *)
Definition admins_left : A Z :=
  r ← select count_admins;
  mret match r with Ok n => n | Err _ => 0%Z end.

(** A user who cannot be read is not protected. *)
Definition guard_last_admin (userID : Z) (msg : string) : A unit :=
  existing ← select_row (GetUserByID userID);
  match existing with
  | Ok u =>
      if is_admin u then
        n ← admins_left;
        check (1 <? n)%Z 400 msg
      else mret tt
  | Err _ => mret tt
  end.

Definition users_Update (userText body : string) : A AdminAnswer :=
  userID ← url_int "user ID" userText;
  req ← decodeJSON dec_update_user body;
  (if (cu_password req =? "")%string then mret tt
   else hash ← or_refuse 500 "failed to update password" (bcrypt (cu_password req));
        r ← exec (UpdateUserPassword userID hash);
        or_refuse 500 "failed to update user" r);;
  (if (cu_role req =? "")%string then mret tt
   else (if (cu_role req =? "admin")%string then mret tt else guard_last_admin userID "cannot demote the last admin user");;
        r ← exec (UpdateUserRole userID (cu_role req));
        or_refuse 500 "failed to update user" r);;
  (if (cu_display req =? "")%string then mret tt
   else r ← exec (UpdateUserDisplayName userID (cu_display req));
        or_refuse 500 "failed to update user" r);;
  r ← select_row (GetUserByID userID);
  user ← or_refuse 404 "user not found" r;
  mret (answer_json 200 (stored_user user)).

Definition users_Delete (userText : string) : A AdminAnswer :=
  userID ← url_int "user ID" userText;
  guard_last_admin userID "cannot delete the last admin user";;
  r ← exec (DeleteUser userID);
  or_refuse 500 "failed to delete user" r;;
  mret (answer_json 200 (status_json "deleted")).

(** ** settings.go *)

Definition settings_Get : A AdminAnswer :=
  r ← select gd_settings;
  mret (answer_json 200 (match r with
                         | Ok m => JObj (map (fun kv => (fst kv, JStr (snd kv))) (sorted_members m))
                         | Err _ => JObj []
                         end)).

(** The settings in the order the map gives them; those before a failure stay. *)
Fixpoint set_all (l : list (string * string)) : A unit :=
  match l with
  | [] => mret tt
  | (k, v) :: r =>
      x ← SetSetting k v;
      or_refuse 500 "failed to save settings" x;;
      set_all r
  end.

Definition settings_Update `{O : MapOrder} (body : string) : A AdminAnswer :=
  match parse_value (2 * String.length body + 2) max_depth body with
  | Ok (j, _) =>
      m ← or_refuse 400 "invalid request body" (dec_map (Some j));
      set_all (entries (default ∅ m));;
      mret (answer_json 200 (status_json "updated"))
  | Err _ => refuse 400 "invalid request body"
  end.
End Admin.
