(* ===== verification/AdminSites.v ===== *)
(** * The administration: sites with their workers, providers of language models

    server/admin/sites.go and brain.go, and the subscription of main.go that starts
    the worker of a new site: the bus calls it before Publish returns; providers.go
    over the tables of providers and models and the registry of the providers in use;
    status and tools of system.go and tools.go. *)

From Stdlib Require Import ZArith Lia Ascii String List Bool.
From stdpp Require Import base list strings gmap.
From S2P Require Import Prelude GoStrings GoTime JSONText Plan PlanJSON PlanStore World LLMTypes OpenAI ToolCore Security JSONRead SiteTables ToolMonad Questions Manager SiteDB AdminDB Admin.

Local Open Scope string_scope.
Local Open Scope go_scope.

Section Sites.
Context `{C : Crypto} `{F : Formats} `{K : SQLite} `{X : AdminEnv}.
Context (migrations : list (string * string)).

(** ** Workers: brain.go *)

(** [StartSite]: a new worker opens the site's database. *)
Definition start_brain (siteID : Z) : A (option string) := fun s =>
  if IsRunning siteID (ad_brain s) then (Ok None, s)
  else (opened ← on_dbs (Open migrations siteID);
        on_brain (StartSite (match opened with Ok _ => None | Err e => Some e end) siteID)) s.

Definition brain_Start (siteText : string) : A AdminAnswer :=
  siteID ← url_int "site ID" siteText;
  err ← start_brain siteID;
  check (bool_decide (err = None)) 500 "failed to start brain";;
  mret (answer_json 200 (JObj [("site_id", int siteID); ("status", JStr "started")])).

Definition brain_Stop (siteText : string) : A AdminAnswer :=
  siteID ← url_int "site ID" siteText;
  err ← on_brain (StopSite siteID);
  check (bool_decide (err = None)) 500 "failed to stop brain";;
  mret (answer_json 200 (JObj [("site_id", int siteID); ("status", JStr "stopped")])).

Definition state_name (b : BrainState) : string :=
  match b with
  | StateIdle => "idle" | StateBuilding => "building" | StateMonitoring => "monitoring" | StatePaused => "paused" | StateError => "error"
  end.

(** [state_of] gives the state of a worker. *)
Definition brain_Status (state_of : nat -> BrainState) (siteText : string) : A AdminAnswer :=
  siteID ← url_int "site ID" siteText;
  m ← on_brain (fun m => (m, m));
  mode ← select_row (fun d => st_mode <$> GetSiteByID siteID d);
  mret (answer_json 200 (JObj
    [("site_id", int siteID); ("state", JStr (state_name (Status state_of siteID m)));
     ("mode", JStr (match mode with Ok t => or_else t "building" | Err _ => "building" end));
     ("running", JBool (IsRunning siteID m))])).

Definition valid_mode (mode : string) : bool := existsb (String.eqb mode) ["building"; "monitoring"; "paused"].

(** The command that follows the change; whether a worker takes it is not answered. *)
Definition mode_command (mode : string) : BrainCommand :=
  {| CmdType := "mode_change"; CmdPayload := Some [("mode", VString mode)] |}.

Definition change (f : AdminState -> AdminState) : A unit := fun s => (Ok tt, f s).
Definition brain_Mode (send : Z -> BrainCommand -> AdminState -> AdminState) (siteText body : string) : A AdminAnswer :=
  siteID ← url_int "site ID" siteText;
  mode ← decodeJSON (str "mode") body;
  check (valid_mode mode) 400 "invalid mode; must be building, monitoring, or paused";;
  r ← exec (UpdateSiteMode siteID mode);
  or_refuse 500 "failed to update mode" r;;
  change (send siteID (mode_command mode));;
  mret (answer_json 200 (JObj [("site_id", int siteID); ("mode", JStr mode)])).

(** ** Sites: sites.go *)

(** [limit] and [offset] of the query, if a limit is given. *)
Definition page_bounds (limitStr offsetStr : string) : option (Z * Z) :=
  if (limitStr =? "")%string then None
  else
    let limit := match Atoi limitStr with (n, None) => if (n <=? 0)%Z then 50 else n | _ => 50 end in
    Some (limit, if (offsetStr =? "")%string then 0 else Z.max 0 (fst (Atoi offsetStr)))%Z.

Definition sites_List (limitStr offsetStr : string) : A AdminAnswer :=
  match page_bounds limitStr offsetStr with
  | Some (limit, offset) =>
      total ← select (fun d => snd (ListSitesPaginated limit offset d));
      total ← or_refuse 500 "failed to list sites" total;
      rows ← select (fun d => fst (ListSitesPaginated limit offset d));
      rows ← or_refuse 500 "failed to list sites" rows;
      mret (answer_json 200 (JObj [("items", JArr (map site_json rows)); ("total", int total)]))
  | None =>
      rows ← select ListSites;
      rows ← or_refuse 500 "failed to list sites" rows;
      mret (answer_json 200 (JArr (map site_json rows)))
  end.

Record siteRequest := { sr_name : string; sr_domain : option string; sr_description : option string; sr_model : Z }.
Definition dec_site (m : list (string * json)) : res string siteRequest :=
  let! n := str "name" m in let! d := dec_text_ptr (member "domain" m) in let! e := dec_text_ptr (member "description" m) in
  let! i := dec_int (member "llm_model_id" m) in
  Ok {| sr_name := n; sr_domain := d; sr_description := e; sr_model := i |}.

(** An empty domain is stored as NULL, which is not UNIQUE. *)
Definition normal_domain (d : option string) : option string := if bool_decide (d = Some "") then None else d.

(** The model of the request, which must exist, or the system's default. *)
Definition chosen_model (model : Z) : A Z :=
  if (model <=? 0)%Z then
    r ← select_row GetDefaultModel;
    mp ← or_refuse 400 "no model selected and no system default configured — please select a provider and model" r;
    mret (lm_id (fst mp))
  else
    r ← select_row (GetModelByID model);
    or_refuse 400 "selected model does not exist" r;;
    mret model.

(** [CreateSite]: the row, and then what it holds. *)
Definition CreateSite (name : string) (domain description : option string) (model : Z) : A (res string Site) :=
  r ← exec (CreateSite_stmt name domain description model);
  match r with
  | Err e => mret (Err e)
  | Ok id => select_row (GetSiteByID id)
  end.

Definition DeleteSite (id : Z) : A (res string unit) :=
  r ← exec (delete_site_row id);
  mret match r with
       | Err e => Err e
       | Ok n => if (n =? 0)%nat then Err ("site " ++ Itoa id ++ " not found") else Ok tt
       end.

(** main.go: the worker of a new site. *)
Definition on_site_created (siteID : Z) : A unit :=
  start_brain siteID;;
  mret tt.

Definition sites_Create (body : string) : A AdminAnswer :=
  req ← decodeJSON dec_site body;
  check (negb (sr_name req =? "")%string) 400 "name is required";;
  model ← chosen_model (sr_model req);
  r ← CreateSite (sr_name req) (normal_domain (sr_domain req)) (sr_description req) model;
  match r with
  | Err e =>
      if Contains e "UNIQUE" then refuse 409 "a site with this domain already exists" else refuse 500 "failed to create site"
  | Ok site =>
      db ← on_dbs (Create migrations (st_id site));
      match db with
      | Err e =>
          DeleteSite (st_id site);;
          refuse 500 ("failed to create site database: " ++ e)
      | Ok _ =>
          publish_admin "site.created" (st_id site) [("name", VString (st_name site))];;
          on_site_created (st_id site);;
          mret (answer_json 201 (site_json site))
      end
  end.

Definition sites_Get (siteText : string) : A AdminAnswer :=
  siteID ← url_int "site ID" siteText;
  r ← select_row (GetSiteByID siteID);
  site ← or_refuse 404 "site not found" r;
  mret (answer_json 200 (site_json site)).

Definition sites_Update (siteText body : string) : A AdminAnswer :=
  siteID ← url_int "site ID" siteText;
  req ← decodeJSON dec_site body;
  check (negb (sr_name req =? "")%string) 400 "name is required";;
  check (0 <? sr_model req)%Z 400 "llm_model_id is required";;
  r ← exec (UpdateSite siteID (sr_name req) (normal_domain (sr_domain req)) (sr_description req) (sr_model req));
  or_refuse 500 "failed to update site" r;;
  r ← select_row (GetSiteByID siteID);
  site ← or_refuse 500 "site updated but failed to reload" r;
  publish_admin "site.updated" siteID [("name", VString (st_name site))];;
  mret (answer_json 200 (site_json site)).

Definition sites_Delete (siteText : string) : A AdminAnswer :=
  siteID ← url_int "site ID" siteText;
  on_brain (StopSite siteID);;
  r ← ExecWrite (delete_site_row siteID);
  n ← or_refuse 500 "failed to delete site" r;
  check (negb (n =? 0)%nat) 404 "site not found";;
  on_dbs (Delete siteID);;
  publish_admin "site.deleted" siteID [];;
  mret (answer_json 200 (status_json "deleted")).

Definition toggled (status : string) : string := if (status =? "active")%string then "inactive" else "active".

(** The site is read again for the event: where that fails a nil pointer is followed. *)
Definition sites_ToggleStatus (siteText : string) : A AdminAnswer :=
  siteID ← url_int "site ID" siteText;
  r ← select_row (GetSiteByID siteID);
  site ← or_refuse 404 "site not found" r;
  r ← exec (UpdateSiteStatus siteID (toggled (st_status site)));
  or_refuse 500 "failed to update site status" r;;
  again ← select_row (GetSiteByID siteID);
  match again with
  | Err _ => crashed
  | Ok site' =>
      publish_admin "site.updated" siteID [("name", VString (st_name site')); ("status", VString (toggled (st_status site)))];;
      mret (answer_json 200 (site_json site'))
  end.
End Sites.

Section Providers.
Context `{C : Crypto} `{F : Formats} `{K : SQLite} `{X : AdminEnv} `{Fl : Floats}.

(** ** What is written *)

Definition provider_json (p : LLMProvider) : json :=
  JObj [("id", int (lp_id p)); ("name", JStr (lp_name p)); ("provider_type", JStr (lp_type p)); ("base_url", text_or_nil (lp_base p));
        ("is_enabled", JBool (lp_enabled p)); ("config", JStr (lp_config p)); ("created_at", JStr (time_text (lp_created p)));
        ("updated_at", JStr (time_text (lp_updated p)))].
(** [created]: not known of a model just made, nor is its configuration read. *)
Definition model_json (m : LLMModel) (created : option time) : json :=
  JObj [("id", int (lm_id m)); ("provider_id", int (lm_provider m)); ("model_id", JStr (lm_model m)); ("display_name", JStr (lm_display m));
        ("max_tokens", int (lm_max m)); ("supports_streaming", JBool (lm_stream m)); ("supports_tools", JBool (lm_tools m));
        ("is_default", JBool (lm_default m)); ("config", JStr (lm_config m)); ("created_at", created_text created)].

(** ** Reading *)

(** Enabled, and with a key. *)
Definition offered (p : LLMProvider) : bool := lp_enabled p && bool_decide (lp_key p <> None).

Definition providers_Catalog : A AdminAnswer :=
  r ← select ListProviders;
  l ← or_refuse 500 "failed to list providers" r;
  entries ← catalog (List.filter offered l);
  mret (answer_json 200 (JArr entries)).

Definition providers_List : A AdminAnswer :=
  r ← select ListProviders;
  l ← or_refuse 500 "failed to list providers" r;
  mret (answer_json 200 (JArr (map provider_json l))).

Definition providers_Get (idText : string) : A AdminAnswer :=
  id ← url_int "provider ID" idText;
  r ← select_row (GetProviderByID id);
  p ← or_refuse 404 "provider not found" r;
  mret (answer_json 200 (provider_json p)).

Definition providers_Models (idText : string) : A AdminAnswer :=
  id ← url_int "provider ID" idText;
  r ← select (ListModelsByProvider id);
  l ← or_refuse 500 "failed to list models" r;
  mret (answer_json 200 (JArr (map (fun m => model_json m (Some (lm_created m))) l))).

(** ** Creating and changing *)

Record providerRequest := { pq_name : string; pq_type : string; pq_key : string; pq_base : option string; pq_enabled : bool }.
Definition dec_provider (m : list (string * json)) : res string providerRequest :=
  let! n := str "name" m in let! t := str "provider_type" m in let! k := str "api_key" m in
  let! b := dec_text_ptr (member "base_url" m) in
  Ok {| pq_name := n; pq_type := t; pq_key := k; pq_base := b; pq_enabled := true |}.
Definition dec_provider_update (m : list (string * json)) : res string providerRequest :=
  let! n := str "name" m in let! k := str "api_key" m in let! b := dec_text_ptr (member "base_url" m) in
  let! e := dec_bool (member "is_enabled" m) in
  Ok {| pq_name := n; pq_type := ""; pq_key := k; pq_base := b; pq_enabled := e |}.

(** A key as it is stored: none, or encrypted. *)
Definition sealed (key : string) : A (option string) :=
  if (key =? "")%string then mret None
  else e ← or_refuse 500 "failed to encrypt api key" (encrypt key);
       mret (Some e).

Definition missing_base (base : option string) : bool := bool_decide (base = None \/ base = Some "").

(** [CreateProvider]: the row, read back. *)
Definition CreateProvider (name type : string) (key base : option string) : A (res string LLMProvider) :=
  r ← exec (insert_provider name type key base);
  match r with
  | Err e => mret (Err e)
  | Ok id => select_row (GetProviderByID id)
  end.

Definition go_live (name type key base : string) : A unit := fun s => (Ok tt, register_live name type key base s).

Definition provider_event (ty : string) (p : LLMProvider) : A unit :=
  publish_admin ty 0 [("provider_id", VInt (lp_id p)); ("name", VString (lp_name p))].

Definition providers_Create (body : string) : A AdminAnswer :=
  req ← decodeJSON dec_provider body;
  check (negb ((pq_name req =? "")%string || (pq_type req =? "")%string)) 400 "name and provider_type are required";;
  check (negb ((pq_type req =? "openai")%string && missing_base (pq_base req))) 400 "base_url is required for OpenAI-compatible providers";;
  key ← sealed (pq_key req);
  r ← CreateProvider (pq_name req) (pq_type req) key (pq_base req);
  p ← or_refuse 500 "failed to create provider" r;
  (if (pq_key req =? "")%string then mret tt else go_live (pq_name req) (pq_type req) (pq_key req) (default "" (pq_base req)));;
  provider_event "provider.added" p;;
  mret (answer_json 201 (provider_json p)).

(** The key of a provider in the clear: the new one, or the one stored. *)
Definition plain_key (req : providerRequest) (existing : LLMProvider) : string :=
  if (pq_key req =? "")%string then
    match lp_key existing with
    | Some k => match admin_decrypt k with Ok t => t | Err _ => "" end
    | None => ""
    end
  else pq_key req.

(** The provider is registered again under its new name; the old name stays. *)
Definition reregister (req : providerRequest) (existing stored : LLMProvider) : A unit :=
  let key := plain_key req existing in
  if bool_decide (knows_type = None) || (key =? "")%string then mret tt
  else go_live (or_else (pq_name req) (lp_name stored)) (lp_type stored) key
         (match pq_base req with Some b => b | None => default "" (lp_base stored) end).

Definition providers_Update (idText body : string) : A AdminAnswer :=
  id ← url_int "provider ID" idText;
  req ← decodeJSON dec_provider_update body;
  r ← select_row (GetProviderByID id);
  existing ← or_refuse 404 "provider not found" r;
  check (negb ((lp_type existing =? "openai")%string
               && missing_base (match pq_base req with Some b => Some b | None => lp_base existing end)))
    400 "base_url is required for OpenAI-compatible providers";;
  key ← (if (pq_key req =? "")%string then mret (lp_key existing) else sealed (pq_key req));
  r ← exec (UpdateProvider id (pq_name req) key (pq_base req) (pq_enabled req));
  or_refuse 500 "failed to update provider" r;;
  r ← select_row (GetProviderByID id);
  stored ← or_refuse 500 "provider updated but failed to reload" r;
  reregister req existing stored;;
  provider_event "provider.updated" stored;;
  mret (answer_json 200 (provider_json stored)).

(** The registry keeps a provider that is deleted. *)
Definition providers_Delete (idText : string) : A AdminAnswer :=
  id ← url_int "provider ID" idText;
  r ← exec (DeleteProvider id);
  or_refuse 500 "failed to delete provider" r;;
  mret (answer_json 200 (status_json "deleted")).

(** ** Testing *)

Definition test_failed (msg : string) : AdminAnswer := answer_json 200 (JObj [("error", JStr msg); ("success", JBool false)]).

(** The provider in use, or one made of what is stored, which is then registered. *)
Definition live_provider (p : LLMProvider) : A Live := fun s =>
  match GetProvider (ad_live s) (lp_name p) with
  | Ok l => (Ok l, s)
  | Err _ =>
      let fail msg := (Err (Replied (test_failed msg)), s) in
      match lp_key p with
      | None => fail "no API key configured for this provider"
      | Some k =>
          match admin_decrypt k with
          | Err _ => fail "failed to decrypt API key"
          | Ok key =>
              match knows_type with
              | None => fail "provider factory not available"
              | Some knows =>
                  if knows (lp_type p) then
                    let l := {| lv_name := lp_name p; lv_type := lp_type p; lv_key := key; lv_base := default "" (lp_base p) |} in
                    (Ok l, with_live (RegisterProvider (lp_name p) l (ad_live s)) s)
                  else fail ("unsupported provider type: " ++ lp_type p)
              end
          end
      end
  end.

(** The default model of the provider, or the first; models that cannot be read are none. *)
Definition ping_model (l : list LLMModel) : string :=
  let chosen := match List.find lm_default l with Some m => lm_model m | None => "" end in
  if (chosen =? "")%string then match l with m :: _ => lm_model m | [] => "" end else chosen.

Definition providers_Test (idText : string) : A AdminAnswer :=
  id ← url_int "provider ID" idText;
  r ← select_row (GetProviderByID id);
  p ← or_refuse 404 "provider not found" r;
  live ← live_provider p;
  models ← select (ListModelsByProvider id);
  let model := ping_model (match models with Ok l => l | Err _ => [] end) in
  if (model =? "")%string then replied (test_failed "no models configured for this provider") else
  match ping live model with
  | Some e => replied (test_failed e)
  | None => mret (answer_json 200 (JObj [("success", JBool true)]))
  end.

(** ** Models *)

Record modelRequest := {
  mq_model : string; mq_display : string; mq_max : Z; mq_stream : bool; mq_tools : bool; mq_default : bool;
}.
Definition dec_model (m : list (string * json)) : res string modelRequest :=
  let! i := str "model_id" m in let! d := str "display_name" m in let! x := dec_int (member "max_tokens" m) in
  let! s := dec_bool (member "supports_streaming" m) in let! t := dec_bool (member "supports_tools" m) in
  let! e := dec_bool (member "is_default" m) in
  Ok {| mq_model := i; mq_display := d; mq_max := x; mq_stream := s; mq_tools := t; mq_default := e |}.

(** The other defaults are cleared first, whatever comes of that, and stay cleared
    where the model is not made. *)
Definition providers_CreateModel (idText body : string) : A AdminAnswer :=
  id ← url_int "provider ID" idText;
  req ← decodeJSON dec_model body;
  check (negb (mq_model req =? "")%string) 400 "model_id is required";;
  let display := or_else (mq_display req) (mq_model req) in
  let max := if (mq_max req =? 0)%Z then 4096%Z else mq_max req in
  (if mq_default req then exec (mark_models false (model_of id)) else mret (Ok tt));;
  r ← exec (insert_model id (mq_model req) display max (mq_stream req) (mq_tools req) (mq_default req));
  m ← or_refuse 500 "failed to create model" r;
  mret (answer_json 201 (model_json
    {| lm_id := m; lm_provider := id; lm_model := mq_model req; lm_display := display; lm_max := max; lm_stream := mq_stream req;
       lm_tools := mq_tools req; lm_default := mq_default req; lm_config := ""; lm_created := 0 |} None)).

Definition providers_DeleteModel (modelText : string) : A AdminAnswer :=
  id ← url_int "model ID" modelText;
  r ← exec (DeleteModel id);
  or_refuse 500 "failed to delete model" r;;
  mret (answer_json 200 (status_json "deleted")).

Definition providers_SetDefaultModel (idText modelText : string) : A AdminAnswer :=
  id ← url_int "provider ID" idText;
  model ← url_int "model ID" modelText;
  r ← exec (mark_models false (model_of id));
  or_refuse 500 "failed to update default model" r;;
  r ← exec (mark_models true (fun m => model_is model m && model_of id m));
  or_refuse 500 "failed to set default model" r;;
  mret (answer_json 200 (status_json "default set")).

(** ** system.go and tools.go *)

(** What the platform says of itself comes in from outside. *)
Definition system_Status (platform : list (string * json)) : A AdminAnswer :=
  users ← select CountUsers;
  sites ← select ListSites;
  providers ← select CountProviders;
  m ← on_brain (fun m => (m, m));
  let count r := match r with Ok n => n | Err _ => 0%Z end in
  mret (answer_json 200 (JObj (platform ++
    [("user_count", int (count users));
     ("site_count", int (match sites with Ok l => Z.of_nat (List.length l) | Err _ => 0%Z end));
     ("provider_count", int (count providers)); ("brain_running", int (Z.of_nat (RunningCount m)));
     ("running_sites", JArr (map int (RunningSites m)))])%list)).

Definition tools_List (l : list Tool) : A AdminAnswer :=
  mret (answer_json 200 (JArr (map (fun t => JObj [("name", JStr (Name t)); ("description", JStr (ToolDescription t)); ("parameters", Parameters t)]) l))).
End Providers.
