(* ===== verification/AdminFacts.v ===== *)
(** * What the administration keeps

    The tables of the global database stay well formed under every handler; setup
    happens once and as a whole; the last admin stays; a login opens the
    administration; a site has its row, its database and its worker together. *)

From Stdlib Require Import ZArith Lia Ascii String List Bool.
From stdpp Require Import base list strings gmap.
From S2P Require Import Prelude GoStrings GoTime JSONText Plan PlanJSON PlanStore World LLMTypes OpenAI ToolCore Security JSONRead SiteTables ToolMonad Questions Manager SiteDB AdminDB Admin AdminSites.

Local Open Scope string_scope.
Local Open Scope Z_scope.

(** ** Tables with keys *)

(** No two rows share a key, where they have one. *)
Definition distinct {A B} (key : A -> option B) (l : list A) : Prop := NoDup (omap key l).

(** A table whose ids come from a sequence. *)
Definition numbered {A} (id : A -> Z) (last : Z) (l : list A) : Prop :=
  NoDup (map id l) /\ Forall (fun a => id a <= last) l.

Section Tables.
Context {A B : Type} (id : A -> Z) (key : A -> option B).

Lemma update_where_at (c : A -> bool) f (l : list A) a : In a (update_where c f l) <->
  exists b, In b l /\ a = if c b then f b else b.
Proof. unfold update_where. rewrite in_map_iff. split; intros (b & H1 & H2); eauto. Qed.

Lemma distinct_filter p (l : list A) : distinct key l -> distinct key (List.filter p l).
Proof.
  unfold distinct. induction l as [|a l IH]; [done|]. cbn. destruct (key a) as [b|] eqn:Hk.
  - intros [Hb Hl]%NoDup_cons. destruct (p a); cbn; rewrite ?Hk; [|by apply IH]. apply NoDup_cons. split; [|by apply IH].
    intros (x & Hx & Hkx)%list_elem_of_omap. apply Hb, list_elem_of_omap. exists x. split; [|done].
    apply list_elem_of_In in Hx. apply filter_In in Hx as [Hx _]. by apply list_elem_of_In.
  - intros Hl. destruct (p a); cbn; rewrite ?Hk; by apply IH.
Qed.

Lemma distinct_snoc (l : list A) a : distinct key l -> (forall b, key a = Some b -> forall x, In x l -> key x <> Some b) ->
  distinct key (l ++ [a])%list.
Proof.
  unfold distinct. intros Hl Ha. rewrite omap_app. apply NoDup_app. split; [done|]. split.
  - intros b Hb Hb'. cbn in Hb'. destruct (key a) as [b'|] eqn:Hk; [|by apply elem_of_nil in Hb'].
    apply list_elem_of_singleton in Hb' as ->. apply list_elem_of_omap in Hb as (x & Hx & Hkx).
    apply list_elem_of_In in Hx. by apply (Ha b' eq_refl x).
  - cbn. destruct (key a); [apply NoDup_singleton|apply NoDup_nil_2].
Qed.

Lemma omap_update_same (c : A -> bool) f (l : list A) : (forall a, In a l -> c a = true -> key (f a) = key a) ->
  omap key (update_where c f l) = omap key l.
Proof.
  induction l as [|a l IH]; [done|]. intros H. cbn. fold (update_where c f l). rewrite IH by (intros; apply H; [by right|done]).
  destruct (c a) eqn:Hc; [|done]. rewrite H; [done|by left|done].
Qed.

(** A row gets a key that no other row has. *)
Lemma distinct_update n f (l : list A) : NoDup (map id l) -> distinct key l ->
  (forall a x b, In a l -> In x l -> id a = n -> id x <> n -> key (f a) = Some b -> key x <> Some b) ->
  distinct key (update_where (fun a => id a =? n) f l).
Proof.
  unfold distinct. induction l as [|a l IH]; [done|]. cbn [map]. intros [Ha Hn]%NoDup_cons Hd Hf.
  cbn [update_where List.map]. fold (update_where (fun a => id a =? n) f l).
  assert (forall x, In x l -> id x <> id a) as Hne.
  { intros x Hx E. apply Ha. rewrite <- E. apply list_elem_of_In, in_map, Hx. }
  assert (NoDup (omap key l)) as Hl. { cbn in Hd. destruct (key a); [by apply NoDup_cons in Hd as [_ ?]|done]. }
  destruct (Z.eqb_spec (id a) n) as [E|E].
  - assert (update_where (fun a => id a =? n) f l = l) as ->.
    { transitivity (map (fun x => x) l); [|apply map_id]. apply map_ext_in. intros x Hx. cbv beta.
      destruct (Z.eqb_spec (id x) n) as [E'|]; [|done]. exfalso. apply (Hne x Hx). congruence. }
    cbn. destruct (key (f a)) as [b|] eqn:Hk; [|done]. apply NoDup_cons. split; [|done].
    intros (x & Hx & Hkx)%list_elem_of_omap. apply list_elem_of_In in Hx.
    apply (Hf a x b); [by left|by right|done| |done|done]. rewrite <- E. by apply Hne.
  - assert (NoDup (omap key (update_where (fun a => id a =? n) f l))) as Hu.
    { apply IH; [done..|]. intros a' x b H1 H2. by apply Hf; right. }
    cbn in Hd |- *. destruct (key a) as [b|] eqn:Hk; [|done]. apply NoDup_cons. split; [|done].
    intros (x & Hx & Hkx)%list_elem_of_omap. apply list_elem_of_In, update_where_at in Hx as (y & Hy & Ex).
    apply NoDup_cons in Hd as [Hb _]. destruct (Z.eqb_spec (id y) n) as [En|En].
    + subst x. by apply (Hf y a b); [right|left|..].
    + subst x. apply Hb, list_elem_of_omap. exists y. split; [by apply list_elem_of_In|done].
Qed.

Lemma numbered_filter p last (l : list A) : numbered id last l -> numbered id last (List.filter p l).
Proof.
  intros [Hn Hl]. split.
  - clear Hl. induction l as [|a l IH]; [done|]. cbn in *. apply NoDup_cons in Hn as [Ha Hn]. destruct (p a); cbn; [|by apply IH].
    apply NoDup_cons. split; [|by apply IH]. intros H. apply Ha. apply list_elem_of_In, in_map_iff in H as (x & Ex & Hx).
    apply filter_In in Hx as [Hx _]. rewrite <- Ex. by apply list_elem_of_In, in_map.
  - rewrite Forall_forall in Hl |- *. intros a Ha. apply Hl. apply list_elem_of_In in Ha. apply filter_In in Ha as [Ha _]. by apply list_elem_of_In.
Qed.

Lemma numbered_snoc last (l : list A) a : numbered id last l -> id a = last + 1 -> numbered id (last + 1) (l ++ [a])%list.
Proof.
  intros [Hn Hl] Ea. split.
  - rewrite map_app. apply NoDup_app. split; [done|]. split; [|apply NoDup_singleton].
    intros x Hx Hx'. apply list_elem_of_singleton in Hx'. apply list_elem_of_In, in_map_iff in Hx as (b & Eb & Hb).
    rewrite Forall_forall in Hl. specialize (Hl b). rewrite list_elem_of_In in Hl. specialize (Hl Hb). lia.
  - apply Forall_app. split; [|repeat constructor; lia]. eapply Forall_impl; [exact Hl|]. cbn. lia.
Qed.

Lemma numbered_update c f last (l : list A) : (forall a, id (f a) = id a) -> numbered id last l -> numbered id last (update_where c f l).
Proof.
  intros Hf [Hn Hl]. split.
  - enough (map id (update_where c f l) = map id l) as -> by done. unfold update_where. rewrite map_map. apply map_ext. intros a. by destruct (c a).
  - rewrite Forall_forall in Hl |- *. intros a Ha. apply list_elem_of_In, update_where_at in Ha as (b & Hb & ->).
    apply list_elem_of_In in Hb. destruct (c b); [rewrite Hf|]; by apply Hl.
Qed.
End Tables.

(** ** A well-formed database *)

(** Ids are given once and not twice; names, domains and the models of a provider are
    unique; where foreign keys are checked every model has its provider. *)
Record db_wf `{F : Formats} (d : GlobalDB) : Prop := {
  wf_users : numbered us_id (sq_users (gd_seq d)) (gd_users d);
  wf_usernames : distinct (fun u => Some (us_username u)) (gd_users d);
  wf_sites : numbered st_id (sq_sites (gd_seq d)) (gd_sites d);
  wf_domains : distinct st_domain (gd_sites d);
  wf_providers : numbered lp_id (sq_providers (gd_seq d)) (gd_providers d);
  wf_names : distinct (fun p => Some (lp_name p)) (gd_providers d);
  wf_models : numbered lm_id (sq_models (gd_seq d)) (gd_models d);
  wf_model_names : distinct (fun m => Some (lm_provider m, lm_model m)) (gd_models d);
  wf_owned : foreign_keys = true -> Forall (fun m => existsb (provider_is (lm_provider m)) (gd_providers d) = true) (gd_models d);
}.

(** A statement keeps it. *)
Definition sound `{F : Formats} {T} (f : time -> GlobalDB -> res string (T * GlobalDB)) : Prop :=
  forall t d a d', db_wf d -> f t d = Ok (a, d') -> db_wf d'.

Lemma not_existsb {A} (p : A -> bool) l a : existsb p l = false -> In a l -> p a = false.
Proof.
  intros H Ha. destruct (p a) eqn:E; [|done]. exfalso. rewrite <- not_true_iff_false in H. apply H, existsb_exists. eauto.
Qed.

Lemma existsb_update {A} (p : A -> bool) c f l : (forall x, p (f x) = p x) -> existsb p (update_where c f l) = existsb p l.
Proof. intros H. unfold update_where. induction l as [|a l IH]; [done|]. cbn. rewrite IH. by destruct (c a); rewrite ?H. Qed.

Section Sound.
Context `{F : Formats}.

Lemma sound_insert_user u h r n : sound (insert_user u h r n).
Proof.
  intros t d a d' [] H. unfold insert_user in H. destruct (existsb _ _) eqn:E; [done|]. injection H as <- <-. constructor; cbn; try done.
  - by apply numbered_snoc.
  - apply distinct_snoc; [done|]. intros b [= <-] x Hx [= Ex]. pose proof (not_existsb _ _ _ E Hx) as H. unfold user_named in H.
    by rewrite Ex, String.eqb_refl in H.
Qed.

Lemma sound_update_user id f : (forall t u, us_id (f t u) = us_id u) -> (forall t u, us_username (f t u) = us_username u) ->
  sound (fun t => update_user id (f t)).
Proof.
  intros H1 H2 t d a d' [] [= <- <-]. constructor; cbn; try done; [by apply numbered_update|].
  unfold distinct. rewrite omap_update_same; [done|]. intros. by rewrite H2.
Qed.

Lemma sound_delete_user id : sound (DeleteUser id).
Proof. intros t d a d' [] [= <- <-]. constructor; cbn; try done; [by apply numbered_filter|by apply distinct_filter]. Qed.

Lemma sound_setting k v : sound (SetSetting_stmt k v).
Proof. by intros t d a d' [] [= <- <-]. Qed.

Lemma domain_taken_none dom l x b : domain_taken dom l = false -> In x l -> dom = Some b -> st_domain x <> Some b.
Proof.
  intros H Hx ->. cbn in H. pose proof (not_existsb _ _ _ H Hx) as E. unfold at_domain in E. by apply bool_decide_eq_false in E.
Qed.

Lemma sound_create_site n dom e m : sound (CreateSite_stmt n dom e m).
Proof.
  intros t d a d' [] H. unfold CreateSite_stmt in H. destruct (domain_taken _ _) eqn:E; [done|]. injection H as <- <-.
  constructor; cbn; try done; [by apply numbered_snoc|]. apply distinct_snoc; [done|]. intros b Hb x Hx. cbn in Hb. by eapply domain_taken_none.
Qed.

Lemma sound_update_site id n dom e m : sound (UpdateSite id n dom e m).
Proof.
  intros t d a d' [] H. unfold UpdateSite in H. destruct (_ && _) eqn:E; [done|]. injection H as <- <-.
  constructor; cbn; try done; [by apply numbered_update|]. apply (distinct_update st_id); [apply wf_sites0|done|].
  intros s x b Hs Hx Es Ex Hb. cbn in Hb. apply andb_false_iff in E as [E|E].
  - pose proof (not_existsb _ _ _ E Hs) as H. unfold site_is in H. by apply Z.eqb_neq in H.
  - eapply domain_taken_none; [exact E| |exact Hb]. apply filter_In. split; [done|]. unfold site_is. by apply negb_true_iff, Z.eqb_neq.
Qed.

Lemma sound_set_site id f : (forall t s, st_id (f t s) = st_id s) -> (forall t s, st_domain (f t s) = st_domain s) ->
  sound (fun t d => Ok (tt, set_sites (update_where (site_is id) (f t) (gd_sites d)) d)).
Proof.
  intros H1 H2 t d a d' [] [= <- <-]. constructor; cbn; try done; [by apply numbered_update|].
  unfold distinct. rewrite omap_update_same; [done|]. intros. by rewrite H2.
Qed.

Lemma sound_delete_site id : sound (delete_site_row id).
Proof. intros t d a d' [] [= <- <-]. constructor; cbn; try done; [by apply numbered_filter|by apply distinct_filter]. Qed.

Lemma existsb_app_l {A} (p : A -> bool) l l' : existsb p l = true -> existsb p (l ++ l')%list = true.
Proof. intros H. by rewrite existsb_app, H. Qed.

Lemma sound_insert_provider n ty k b : sound (insert_provider n ty k b).
Proof.
  intros t d a d' [] H. unfold insert_provider in H. destruct (existsb _ _) eqn:E; [done|]. injection H as <- <-.
  constructor; cbn; try done; [by apply numbered_snoc| |].
  - apply distinct_snoc; [done|]. intros x [= <-] p Hp [= Ep]. pose proof (not_existsb _ _ _ E Hp) as H. unfold provider_named in H.
    by rewrite Ep, String.eqb_refl in H.
  - intros Hf. eapply Forall_impl; [by apply wf_owned0|]. intros m Hm. cbn. by apply existsb_app_l.
Qed.

Lemma sound_update_provider id n k b e : sound (UpdateProvider id n k b e).
Proof.
  intros t d a d' [] H. unfold UpdateProvider in H. destruct (_ && _) eqn:E; [done|]. injection H as <- <-.
  constructor; cbn; try done; [by apply numbered_update| |].
  - apply (distinct_update lp_id); [apply wf_providers0|done|]. intros p x c Hp Hx Ep Ex [= <-] [= Hn].
    apply andb_false_iff in E as [E|E].
    + pose proof (not_existsb _ _ _ E Hp) as H. unfold provider_is in H. by apply Z.eqb_neq in H.
    + pose proof (not_existsb _ _ _ E Hx) as H. cbv beta in H. unfold provider_named, provider_is in H.
      rewrite Hn, String.eqb_refl in H. apply Z.eqb_neq in Ex. by rewrite Ex in H.
  - intros Hf. eapply Forall_impl; [by apply wf_owned0|]. intros m Hm. by rewrite existsb_update.
Qed.

Lemma sound_mark_models b which : sound (mark_models b which).
Proof.
  intros t d a d' [] [= <- <-]. constructor; cbn; try done; [by apply numbered_update| |].
  - unfold distinct. rewrite omap_update_same; done.
  - intros Hf. specialize (wf_owned0 Hf). rewrite Forall_forall in wf_owned0 |- *. intros m Hm. apply list_elem_of_In, update_where_at in Hm as (m' & Hm & ->).
    apply list_elem_of_In in Hm. destruct (which m'); by apply (wf_owned0 m').
Qed.

Lemma sound_delete_model id : sound (DeleteModel id).
Proof.
  intros t d a d' [] [= <- <-]. constructor; cbn; try done; [by apply numbered_filter|by apply distinct_filter|].
  intros Hf. specialize (wf_owned0 Hf). rewrite Forall_forall in wf_owned0 |- *. intros m Hm. apply list_elem_of_In, filter_In in Hm as [Hm _].
  by apply wf_owned0, list_elem_of_In.
Qed.

Lemma sound_delete_provider id : sound (DeleteProvider id).
Proof.
  intros t d a d' [] H. unfold DeleteProvider in H. injection H as <- <-. destruct foreign_keys eqn:Hf; constructor; cbn;
    try done; try (by apply numbered_filter); try (by apply distinct_filter); [|by rewrite Hf].
  intros _. specialize (wf_owned0 eq_refl). rewrite Forall_forall in wf_owned0 |- *. intros m Hm. apply list_elem_of_In, filter_In in Hm as [Hm Hne].
  apply list_elem_of_In, wf_owned0, existsb_exists in Hm as (p & Hp & Ep). apply existsb_exists. exists p. split; [|done].
  apply filter_In. split; [done|]. unfold provider_is, model_of in *. apply Z.eqb_eq in Ep. by rewrite Ep.
Qed.

Lemma sound_insert_model p mo di mx st to df : sound (insert_model p mo di mx st to df).
Proof.
  intros t d a d' [] H. unfold insert_model in H. destruct (existsb _ _) eqn:E; [done|]. destruct (_ && _) eqn:Ef; [done|]. injection H as <- <-.
  constructor; cbn; try done; [by apply numbered_snoc| |].
  - apply distinct_snoc; [done|]. intros x [= <-] m Hm [= E1 E2]. pose proof (not_existsb _ _ _ E Hm) as H. cbv beta in H. unfold model_of in H.
    by rewrite E1, E2, Z.eqb_refl, String.eqb_refl in H.
  - intros Hf. apply Forall_app. split; [by apply wf_owned0|]. rewrite Hf in Ef. cbn in Ef. apply negb_false_iff in Ef. by repeat constructor.
Qed.
End Sound.

Section SoundUpdates.
Context `{F : Formats}.
Lemma sound_password id h : sound (UpdateUserPassword id h).
Proof. unfold UpdateUserPassword. by apply sound_update_user. Qed.
Lemma sound_role id r : sound (UpdateUserRole id r).
Proof. unfold UpdateUserRole. by apply sound_update_user. Qed.
Lemma sound_display id n : sound (UpdateUserDisplayName id n).
Proof. unfold UpdateUserDisplayName. by apply sound_update_user. Qed.
Lemma sound_site_status id x : sound (UpdateSiteStatus id x).
Proof. unfold UpdateSiteStatus. by apply sound_set_site. Qed.
Lemma sound_site_mode id x : sound (UpdateSiteMode id x).
Proof. unfold UpdateSiteMode. by apply sound_set_site. Qed.
End SoundUpdates.

Create HintDb admin.
#[export] Hint Resolve sound_password sound_role sound_display sound_site_status sound_site_mode sound_insert_user sound_delete_user sound_setting sound_create_site sound_update_site sound_delete_site
  sound_insert_provider sound_update_provider sound_mark_models sound_delete_model sound_delete_provider sound_insert_model : admin.

(** ** Handlers between requests *)

(** A statement keeps what is said of the tables. *)
Definition preserves {T} (P : GlobalDB -> Prop) (f : time -> GlobalDB -> res string (T * GlobalDB)) : Prop :=
  forall t d a d', P d -> f t d = Ok (a, d') -> P d'.

Section Keeps.
Context `{C : Crypto} `{F : Formats} `{K : SQLite} `{X : AdminEnv} `{Fl : Floats}.

(** Between requests no transaction is open and nobody holds the lock. *)
Definition quiet (P : GlobalDB -> Prop) (s : AdminState) : Prop := P (ad_db s) /\ ad_tx s = None /\ ad_locked s = false.

(** A part of a handler that keeps that and is not left waiting. *)
Definition akeeps {T} (P : GlobalDB -> Prop) (m : A T) : Prop :=
  forall s, quiet P s -> quiet P (snd (m s)) /\ fst (m s) <> Err Stuck.

Section Rules.
Context (P : GlobalDB -> Prop).

Lemma akeeps_ret {T} (a : T) : akeeps P (mret a).
Proof. by intros s H. Qed.
Lemma akeeps_bind {T U} (m : A T) (k : T -> A U) : akeeps P m -> (forall a, akeeps P (k a)) -> akeeps P (m ≫= k).
Proof.
  intros Hm Hk s Hs. specialize (Hm s Hs) as [H1 H2]. unfold mbind, A_bind. destruct (m s) as [[a|x] s']; cbn in *; [by apply Hk|by split; [|intros [= ->]]].
Qed.
Lemma akeeps_replied {T} r : akeeps P (replied r : A T).
Proof. by intros s H. Qed.
Lemma akeeps_crashed {T} : akeeps P (crashed : A T).
Proof. by intros s H. Qed.
Lemma akeeps_or_refuse {T} n msg (r : res string T) : akeeps P (or_refuse n msg r).
Proof. by destruct r. Qed.
Lemma akeeps_check b n msg : akeeps P (check b n msg).
Proof. by destruct b. Qed.
Lemma akeeps_select {T} (f : GlobalDB -> T) : akeeps P (select f).
Proof. by intros s H. Qed.
Lemma akeeps_select_row {T} (f : GlobalDB -> option T) : akeeps P (select_row f).
Proof. by intros s H. Qed.
Lemma akeeps_exec {T} (f : time -> GlobalDB -> res string (T * GlobalDB)) : preserves P f -> akeeps P (exec f).
Proof.
  intros Hf s (H1 & H2 & H3). unfold exec, quiet. rewrite H2. destruct (stmt_fails _); [by split; [repeat split|]|].
  destruct (f (stamp s) (ad_db s)) as [[a d]|e] eqn:E; cbn; (split; [|done]); repeat split; try done. by eapply Hf.
Qed.
Lemma akeeps_ExecWrite {T} (f : time -> GlobalDB -> res string (T * GlobalDB)) : preserves P f -> akeeps P (ExecWrite f).
Proof.
  intros Hf s (H1 & H2 & H3). unfold ExecWrite. rewrite H3. unfold exec, quiet. cbn. rewrite H2. destruct (stmt_fails _); [by split; [repeat split|]|].
  destruct (f _ (ad_db s)) as [[a d]|e] eqn:E; cbn; (split; [|done]); repeat split; try done. by eapply Hf.
Qed.
Lemma akeeps_decode {T} (dec : list (string * json) -> res string T) body : akeeps P (decodeJSON dec body).
Proof. unfold decodeJSON. destruct (parse_value _ _ _) as [[j r]|]; [apply akeeps_or_refuse|by intros s H]. Qed.
Lemma akeeps_url_int what text : akeeps P (url_int what text).
Proof. unfold url_int. by destruct (Atoi text) as [n [e|]]. Qed.
Lemma akeeps_publish ty n p : akeeps P (publish_admin ty n p).
Proof. by intros s H. Qed.
Lemma akeeps_on_dbs {T} (m : D T) : akeeps P (on_dbs m).
Proof. intros s H. unfold on_dbs. by destruct (m (ad_dbs s)). Qed.
Lemma akeeps_on_brain {T} (m : BrainManager -> T * BrainManager) : akeeps P (on_brain m).
Proof. intros s H. unfold on_brain. by destruct (m (ad_brain s)). Qed.
Lemma akeeps_now : akeeps P now_of.
Proof. by intros s H. Qed.
Lemma akeeps_live n ty k b : akeeps P (go_live n ty k b).
Proof. intros s H. unfold go_live, register_live. cbn. by destruct knows_type as [kn|]; [destruct (kn ty)|]. Qed.
Lemma akeeps_live_provider p : akeeps P (live_provider p).
Proof. intros s H. unfold live_provider. repeat case_match; by split. Qed.
Lemma akeeps_catalog l : akeeps P (catalog l).
Proof. induction l as [|p l IH]; [apply akeeps_ret|]. apply akeeps_bind; [apply akeeps_select|]. intros. apply akeeps_bind; [done|]. intros. apply akeeps_ret. Qed.
Lemma akeeps_start migrations n : akeeps P (start_brain migrations n).
Proof.
  intros s H. unfold start_brain. destruct (IsRunning _ _); [by split|]. revert s H. apply akeeps_bind; [apply akeeps_on_dbs|].
  intros r. apply akeeps_on_brain.
Qed.
End Rules.
End Keeps.

#[export] Hint Resolve akeeps_ret akeeps_replied akeeps_crashed akeeps_or_refuse akeeps_check akeeps_select akeeps_select_row akeeps_exec
  akeeps_ExecWrite akeeps_decode akeeps_url_int akeeps_publish akeeps_on_dbs akeeps_on_brain akeeps_now akeeps_live akeeps_live_provider
  akeeps_catalog akeeps_start : admin.

(** Goes through a handler, step by step and case by case. *)
Ltac keep :=
  repeat first
    [ progress intros
    | apply akeeps_bind
    | solve [eauto with admin]
    | case_match ].

(** ** Setup *)

Section Setup.
Context `{C : Crypto} `{F : Formats} `{K : SQLite} `{X : AdminEnv} `{Fl : Floats}.
Context (jwt : JWTManager) (secureCookies : bool).

Definition awp {T} (m : A T) (s : AdminState) (Q : T -> AdminState -> Prop) (E : AdminExit -> AdminState -> Prop) : Prop :=
  match m s with (Ok a, s') => Q a s' | (Err x, s') => E x s' end.

Lemma awp_bind {T U} (m : A T) (k : T -> A U) s Q E :
  awp m s (fun a s' => awp (k a) s' Q E) E -> awp (m ≫= k) s Q E.
Proof. unfold awp, mbind, A_bind. by destruct (m s) as [[a|x] s']. Qed.
Lemma awp_mono {T} (m : A T) s (Q Q' : T -> AdminState -> Prop) (E E' : AdminExit -> AdminState -> Prop) :
  awp m s Q E -> (forall a s', Q a s' -> Q' a s') -> (forall x s', E x s' -> E' x s') -> awp m s Q' E'.
Proof. unfold awp. destruct (m s) as [[a|x] s']; eauto. Qed.
Lemma awp_or_refuse {T} n msg (r : res string T) s (Q : T -> AdminState -> Prop) (E : AdminExit -> AdminState -> Prop) :
  (forall a, r = Ok a -> Q a s) -> (forall e, r = Err e -> E (Replied (answer_error n msg)) s) -> awp (or_refuse n msg r) s Q E.
Proof. unfold awp. destruct r; cbn; eauto. Qed.
Lemma awp_check b n msg s (Q : unit -> AdminState -> Prop) (E : AdminExit -> AdminState -> Prop) :
  (b = true -> Q tt s) -> (b = false -> E (Replied (answer_error n msg)) s) -> awp (check b n msg) s Q E.
Proof. unfold awp. destruct b; cbn; auto. Qed.

(** In a transaction: the tables as they were, and what it has written. *)
Definition inside (d0 d : GlobalDB) (s : AdminState) : Prop := ad_db s = d0 /\ ad_tx s = Some d.
(** Refused: nothing was written. *)
Definition undone (d0 : GlobalDB) (x : AdminExit) (s : AdminState) : Prop := ad_db s = d0 /\ ad_tx s = None /\ exists a, x = Replied a.

(** The statements of setup on what the transaction has written. *)
Definition same_users (d d' : GlobalDB) : Prop := gd_users d' = gd_users d /\ (db_wf d -> db_wf d').

Lemma tx_exec_inside {T} (f : time -> GlobalDB -> res string (T * GlobalDB)) d0 d s : inside d0 d s -> sound f ->
  (forall t d a d', f t d = Ok (a, d') -> gd_users d' = gd_users d) ->
  awp (tx_exec f) s (fun _ s' => exists d', inside d0 d' s' /\ same_users d d') (fun _ _ => False).
Proof.
  intros [H1 H2] Hf Hu. unfold awp, tx_exec. rewrite H2. destruct (stmt_fails _); [by exists d|].
  destruct (f (stamp s) d) as [[a d']|e] eqn:E; [|by exists d]. exists d'. split; [done|]. split; [by eapply Hu|]. intros Hd. by eapply Hf.
Qed.

Lemma tx_fail_undone {T} n msg d0 d s (Q : T -> AdminState -> Prop) : inside d0 d s -> awp (tx_fail n msg) s Q (undone d0).
Proof. intros [H1 H2]. cbv [awp tx_fail mbind A_bind Rollback refuse replied]. repeat split; [done|by eexists]. Qed.

Lemma same_users_trans d1 d2 d3 : same_users d1 d2 -> same_users d2 d3 -> same_users d1 d3.
Proof. intros [H1 H2] [H3 H4]. split; [congruence|auto]. Qed.

(** What is deferred touches the registry only. *)
Definition registry_only (f : AdminState -> AdminState) : Prop := forall s, exists l, f s = with_live l s.

Lemma registry_only_id : registry_only (fun s => s).
Proof. intros []. by eexists. Qed.
Lemma registry_only_register n ty k b : registry_only (register_live n ty k b).
Proof. intros s. unfold register_live. destruct knows_type as [kn|]; [destruct (kn ty); [by eexists|]|]; by destruct s; eexists. Qed.

Lemma setup_provider_spec req d0 d s : inside d0 d s ->
  awp (setup_provider req) s (fun reg s' => registry_only reg /\ exists d', inside d0 d' s' /\ same_users d d') (undone d0).
Proof.
  intros Hs. unfold setup_provider. destruct (negb _). { split; [apply registry_only_id|]. by exists d. }
  apply awp_bind. unfold awp at 1, select_row. set (s1 := count_stmt s). assert (inside d0 d s1) as H1 by done. clearbody s1.
  set (r := match stmt_fails _ with Some _ => _ | None => _ end). destruct r as [p|e]. 2: { split; [apply registry_only_id|]. by exists d. }
  apply awp_bind. eapply awp_mono; [eapply tx_exec_inside; [exact H1|eauto with admin|]| |done].
  { intros t x a x' E. unfold UpdateProvider in E. case_match; [done|]. by injection E as <- <-. }
  intros _ s2 (d2 & H2 & U2). apply awp_bind. eapply awp_mono; [eapply tx_exec_inside; [exact H2|eauto with admin|]| |done].
  { by intros t x a x' [= <- <-]. }
  intros cl s3 (d3 & H3 & U3). destruct (negb (is_ok cl)); [by eapply tx_fail_undone|].
  apply awp_bind. eapply awp_mono; [eapply tx_exec_inside; [exact H3| |]| |done].
  { case_match; [|eauto with admin]. intros t x a x' Hx E. by eapply (sound_mark_models _ _ t x a x'). }
  { case_match; by intros t x a x' [= <- <-]. }
  intros ch s4 (d4 & H4 & U4). destruct (negb (is_ok ch)); [by eapply tx_fail_undone|]. split.
  - intros s'. destruct (_ =? "")%string; [apply registry_only_id|apply registry_only_register].
  - exists d4. split; [done|]. eauto using same_users_trans.
Qed.

(** The only user after setup. *)
Definition first_admin (req : setupRequest) (hash : string) (d0 : GlobalDB) (u : User) : Prop :=
  us_username u = su_username req /\ us_hash u = hash /\ us_role u = "admin" /\ us_display u = su_display req /\
  us_id u = (sq_users (gd_seq d0) + 1)%Z.

Definition set_up (req : setupRequest) (hash : string) (d0 d : GlobalDB) : Prop :=
  gd_users d0 = [] /\ (db_wf d0 -> db_wf d) /\ exists u, gd_users d = [u] /\ first_admin req hash d0 u.

Lemma setup_finish_spec req id d0 d s : inside d0 d s ->
  awp (setup_finish jwt secureCookies req id) s
    (fun a s' => ad_db s' = d /\ ad_tx s' = None /\
       a = token_answer jwt secureCookies 201 (Generate jwt id (su_username req) "admin" (ad_clock s))
             (user_json id (su_username req) (su_display req) "admin" None)) (undone d0).
Proof.
  intros [H1 H2]. unfold setup_finish. apply awp_bind. unfold awp at 1, Commit. rewrite H2. destruct (stmt_fails _) as [e|].
  - apply awp_bind. cbn. split; [done|]. split; [done|by eexists].
  - apply awp_bind. cbn. done.
Qed.

Lemma awp_deferred {T} (m : A T) f s (Q : T -> AdminState -> Prop) (E : AdminExit -> AdminState -> Prop) :
  awp m s (fun a s' => Q a (f s')) (fun x s' => E x (f s')) -> awp (deferred m f) s Q E.
Proof. unfold awp, deferred. by destruct (m s) as [[a|x] s']. Qed.

Lemma setup_locked_spec req hash d0 s : inside d0 d0 s ->
  awp (setup_locked jwt secureCookies req hash) s
    (fun a s' => ad_tx s' = None /\ an_status a = 201 /\ set_up req hash d0 (ad_db s')) (undone d0).
Proof.
  intros Hs. unfold setup_locked. apply awp_bind. unfold awp at 1, tx_select. destruct Hs as [H1 H2]. rewrite H2.
  set (s1 := count_stmt s). assert (inside d0 d0 s1) as Hs1 by done. clearbody s1.
  destruct (stmt_fails _) as [e|]; [by eapply tx_fail_undone|]. destruct (Z.ltb_spec 0 (CountUsers d0)) as [Hc|Hc]; [by eapply tx_fail_undone|].
  assert (gd_users d0 = []) as Hd0. { unfold CountUsers in Hc. destruct (gd_users d0); [done|cbn in Hc; lia]. }
  apply awp_bind. unfold awp at 1, tx_exec. destruct Hs1 as [H3 H4]. rewrite H4. clear s H1 H2.
  set (s2 := count_stmt s1). assert (inside d0 d0 s2) as H5 by done.
  destruct (stmt_fails _) as [e|]; [by eapply tx_fail_undone|].
  destruct (insert_user _ _ _ _ _ d0) as [[id d1]|e] eqn:Ei; [|by eapply tx_fail_undone].
  assert (inside d0 d1 (with_tx (Some d1) s2)) as H6 by done. set (s3 := with_tx _ _) in *. clearbody s3.
  apply awp_bind. eapply awp_mono; [by eapply setup_provider_spec| |done].
  intros reg s4 (Hreg & d2 & H7 & [Hu Hw]). apply awp_deferred. eapply awp_mono; [by eapply setup_finish_spec| |].
  - intros a s5 (H8 & H9 & ->). destruct (Hreg s5) as [l ->]. cbn. split; [done|]. split; [done|]. rewrite H8. split; [done|].
    split; [intros Hd; apply Hw; by eapply sound_insert_user|]. unfold insert_user in Ei. rewrite Hd0 in Ei. injection Ei as <- <-.
    rewrite Hu. eexists. split; [done|]. by repeat split.
  - intros x s5 (H8 & H9 & Hx). destruct (Hreg s5) as [l ->]. by repeat split.
Qed.

(** Setup makes the first user of an empty installation, or changes nothing. *)
Lemma HandleSetup_spec body s : ad_tx s = None -> ad_locked s = false ->
  awp (HandleSetup jwt secureCookies body) s
    (fun a s' => ad_tx s' = None /\ ad_locked s' = false /\ an_status a = 201 /\
       exists req hash, bcrypt (su_password req) = Ok hash /\ set_up req hash (ad_db s) (ad_db s'))
    (fun x s' => undone (ad_db s) x s' /\ ad_locked s' = false).
Proof.
  intros Ht Hl. unfold HandleSetup. apply awp_bind. unfold decodeJSON. destruct (parse_value _ _ _) as [[j rest]|].
  2: { cbn. repeat split; try done. by eexists. }
  apply awp_or_refuse. 2: { intros e _. repeat split; try done. by eexists. }
  intros req _. apply awp_bind, awp_check. 2: { intros _. repeat split; try done. by eexists. }
  intros _. apply awp_bind, awp_or_refuse. 2: { intros e _. repeat split; try done. by eexists. }
  intros hash Hh. apply awp_bind. unfold awp at 1, BeginWriteTx. rewrite Hl. destruct (stmt_fails _) as [e|].
  { apply awp_bind. cbn. repeat split; try done. by eexists. }
  apply awp_bind. cbn [awp or_refuse]. apply awp_deferred. set (s1 := with_lock _ _).
  change (awp (setup_locked jwt secureCookies req hash) s1
    (fun a s' => ad_tx (EndWriteTx s') = None /\ ad_locked (EndWriteTx s') = false /\ an_status a = 201 /\
       exists req hash, bcrypt (su_password req) = Ok hash /\ set_up req hash (ad_db s) (ad_db (EndWriteTx s')))
    (fun x s' => undone (ad_db s) x (EndWriteTx s') /\ ad_locked (EndWriteTx s') = false)).
  eapply awp_mono; [apply (setup_locked_spec _ _ (ad_db s)); done| |].
  - intros a s' (H1 & H2 & H3). cbn. repeat split; try done. by exists req, hash.
  - intros x s' (H1 & H2 & H3). by repeat split.
Qed.
End Setup.

(** ** The last admin *)

Definition has_admin (d : GlobalDB) : Prop := exists u, In u (gd_users d) /\ is_admin u = true.
Definition governed `{F : Formats} (d : GlobalDB) : Prop := db_wf d /\ has_admin d.

Lemma found_by_id l u : NoDup (map us_id l) -> In u l -> List.find (user_is (us_id u)) l = Some u.
Proof.
  induction l as [|a l IH]; [done|]. cbn. intros [Ha Hn]%NoDup_cons [<-|Hu]. { unfold user_is. by rewrite Z.eqb_refl. }
  unfold user_is at 1. destruct (Z.eqb_spec (us_id a) (us_id u)) as [E|]; [|by apply IH]. exfalso. apply Ha. rewrite E. by apply list_elem_of_In, in_map.
Qed.

(** Of two admins one has another id. *)
Lemma another_admin l id : NoDup (map us_id l) -> (1 < List.length (List.filter is_admin l))%nat ->
  exists u, In u l /\ is_admin u = true /\ us_id u <> id.
Proof.
  intros Hn Hl. assert (NoDup (map us_id (List.filter is_admin l))) as Hf. { apply (numbered_filter us_id is_admin (fold_right Z.max 0 (map us_id l))). split; [done|].
    clear. induction l as [|a l IH]; [constructor|]. cbn. constructor; [lia|]. eapply Forall_impl; [exact IH|]. cbn. lia. }
  destruct (List.filter is_admin l) as [|a [|b r]] eqn:E; cbn in Hl; try lia.
  assert (In a (List.filter is_admin l)) as Ha by (rewrite E; by left). assert (In b (List.filter is_admin l)) as Hb by (rewrite E; by right; left).
  apply filter_In in Ha as [Ha1 Ha2]. apply filter_In in Hb as [Hb1 Hb2]. destruct (Z.eq_dec (us_id a) id) as [<-|]; [|by exists a].
  exists b. repeat split; try done. intros Eb. cbn in Hf. apply NoDup_cons in Hf as [Hf _]. apply Hf. rewrite <- Eb. by left.
Qed.

Section LastAdmin.
Context `{C : Crypto} `{F : Formats} `{K : SQLite} `{X : AdminEnv} `{Fl : Floats}.
Context (reads_work : forall n, stmt_fails n = None).

(** Where the guard lets a change of a user pass there is another admin. *)
Lemma guard_spares id msg s : governed (ad_db s) ->
  awp (guard_last_admin id msg) s
    (fun _ s' => ad_db s' = ad_db s /\ ad_tx s' = ad_tx s /\ ad_locked s' = ad_locked s /\
       exists u, In u (gd_users (ad_db s)) /\ is_admin u = true /\ us_id u <> id)
    (fun x s' => ad_db s' = ad_db s /\ ad_tx s' = ad_tx s /\ ad_locked s' = ad_locked s /\ exists a, x = Replied a).
Proof.
  intros [Hwf (u & Hu & Ha)]. destruct (wf_users _ Hwf) as [Hn _]. unfold guard_last_admin. apply awp_bind. unfold awp at 1, select_row. rewrite reads_work.
  unfold GetUserByID. destruct (List.find (user_is id) (gd_users (ad_db s))) as [v|] eqn:Hf; cbn beta iota.
  - destruct (is_admin v) eqn:Hv; cycle 1.
    + repeat split. exists u. repeat split; try done. intros <-. rewrite found_by_id in Hf by done. congruence.
    + apply awp_bind. unfold admins_left. apply awp_bind. unfold awp at 1, select. rewrite reads_work. cbn beta iota.
      unfold awp at 1. cbn beta iota. apply awp_check.
      * intros Hc%Z.ltb_lt. repeat split. apply another_admin; [done|]. unfold count_admins in Hc. cbn in Hc. lia.
      * intros _. repeat split. by eexists.
  - repeat split. exists u. repeat split; try done. intros <-. by rewrite found_by_id in Hf.
Qed.

Lemma guarded {T} id msg (f : time -> GlobalDB -> res string (T * GlobalDB)) : sound f ->
  (forall t d a d' u, f t d = Ok (a, d') -> In u (gd_users d) -> us_id u <> id -> In u (gd_users d')) ->
  akeeps governed (guard_last_admin id msg ≫= fun _ => exec f).
Proof.
  intros Hs Hf s (HP & Ht & Hl). pose proof (guard_spares id msg s HP) as H. unfold awp, mbind, A_bind in *.
  destruct (guard_last_admin id msg s) as [[[]|x] s1].
  - destruct H as (H1 & H2 & H3 & u & Hu & Ha & Hne). unfold exec. rewrite reads_work, H2, Ht, H1.
    destruct (f (stamp s1) (ad_db s)) as [[a d]|e] eqn:E; cbn; (split; [|done]); unfold quiet; cbn; rewrite ?H1, ?H2, ?H3; split_and!; try done.
    split; [eapply Hs; [apply HP|exact E]|]. exists u. split; [|done]. by eapply Hf.
  - destruct H as (H1 & H2 & H3 & a & ->). cbn. unfold quiet. by rewrite H1, H2, H3.
Qed.

Lemma guarded_delete id msg : akeeps governed (guard_last_admin id msg ≫= fun _ => exec (DeleteUser id)).
Proof.
  apply guarded; [apply sound_delete_user|]. intros t d a d' u [= <- <-] Hu Hne. cbn. apply filter_In. split; [done|].
  unfold user_is. by apply negb_true_iff, Z.eqb_neq.
Qed.
Lemma guarded_demote id role msg : akeeps governed (guard_last_admin id msg ≫= fun _ => exec (UpdateUserRole id role)).
Proof.
  apply guarded; [apply sound_role|]. intros t d a d' u [= <- <-] Hu Hne. cbn. apply update_where_at. exists u.
  split; [done|]. unfold user_is. by apply Z.eqb_neq in Hne as ->.
Qed.

(** Any other statement leaves the users or their roles, or adds one. *)
Lemma governed_if {T} (f : time -> GlobalDB -> res string (T * GlobalDB)) : sound f ->
  (forall t d a d', f t d = Ok (a, d') -> has_admin d -> has_admin d') -> preserves governed f.
Proof. intros Hs Hf t d a d' [H1 H2] E. split; [by eapply Hs|by eapply Hf]. Qed.

Lemma has_admin_same d d' : gd_users d' = gd_users d -> has_admin d -> has_admin d'.
Proof. intros E (u & Hu & Ha). exists u. by rewrite E. Qed.
Lemma has_admin_update id f d : (forall u, us_role (f u) = us_role u) -> has_admin d ->
  has_admin (set_users (update_where (user_is id) f (gd_users d)) d).
Proof.
  intros Hf (u & Hu & Ha). exists (if user_is id u then f u else u). split; [by apply update_where_at; eauto|].
  destruct (user_is id u); [|done]. unfold is_admin in *. by rewrite Hf.
Qed.
End LastAdmin.

(** ** Every handler *)

(** What is said of the tables is kept by the statements of the handlers; where a user
    loses a role or goes, by the guard and the statement together. *)
Record closed `{C : Crypto} `{F : Formats} `{K : SQLite} `{X : AdminEnv} (P : GlobalDB -> Prop) : Prop := {
  cl_insert_user : forall u h r n, preserves P (insert_user u h r n);
  cl_password : forall id h, preserves P (UpdateUserPassword id h);
  cl_display : forall id n, preserves P (UpdateUserDisplayName id n);
  cl_promote : forall id, preserves P (UpdateUserRole id "admin");
  cl_demote : forall id r msg, akeeps P (guard_last_admin id msg ≫= fun _ => exec (UpdateUserRole id r));
  cl_delete_user : forall id msg, akeeps P (guard_last_admin id msg ≫= fun _ => exec (DeleteUser id));
  cl_setting : forall k v, preserves P (SetSetting_stmt k v);
  cl_create_site : forall n d e m, preserves P (CreateSite_stmt n d e m);
  cl_update_site : forall id n d e m, preserves P (UpdateSite id n d e m);
  cl_site_status : forall id x, preserves P (UpdateSiteStatus id x);
  cl_site_mode : forall id x, preserves P (UpdateSiteMode id x);
  cl_delete_site : forall id, preserves P (delete_site_row id);
  cl_insert_provider : forall n ty k b, preserves P (insert_provider n ty k b);
  cl_update_provider : forall id n k b e, preserves P (UpdateProvider id n k b e);
  cl_delete_provider : forall id, preserves P (DeleteProvider id);
  cl_mark_models : forall b w, preserves P (mark_models b w);
  cl_insert_model : forall p mo di mx st to df, preserves P (insert_model p mo di mx st to df);
  cl_delete_model : forall id, preserves P (DeleteModel id);
  cl_set_up : forall req h d d', P d -> set_up req h d d' -> P d';
}.
#[export] Hint Resolve cl_insert_user cl_password cl_display cl_promote cl_setting cl_create_site cl_update_site cl_site_status cl_site_mode
  cl_delete_site cl_insert_provider cl_update_provider cl_delete_provider cl_mark_models cl_insert_model cl_delete_model : admin.

Section Closed.
Context `{C : Crypto} `{F : Formats} `{K : SQLite} `{X : AdminEnv} `{Fl : Floats}.

Lemma akeeps_guard P id msg : akeeps P (guard_last_admin id msg).
Proof. unfold guard_last_admin, admins_left. keep. Qed.

Lemma closed_wf : closed db_wf.
Proof.
  constructor; intros; try solve [intros t d' a d''; first
    [apply sound_insert_user|apply sound_password|apply sound_display|apply sound_role|apply sound_setting|apply sound_create_site|apply sound_update_site
    |apply sound_site_status|apply sound_site_mode|apply sound_delete_site|apply sound_insert_provider|apply sound_update_provider|apply sound_delete_provider
    |apply sound_mark_models|apply sound_insert_model|apply sound_delete_model]].
  - apply akeeps_bind; [apply akeeps_guard|]. intros _. apply akeeps_exec. apply sound_role.
  - apply akeeps_bind; [apply akeeps_guard|]. intros _. apply akeeps_exec. apply sound_delete_user.
  - destruct H0 as (_ & H1 & _). by apply H1.
Qed.

Lemma closed_governed : (forall n, stmt_fails n = None) -> closed governed.
Proof.
  intros Hr. constructor; intros; try solve [apply governed_if; [eauto with admin|]; intros t dd a dd' E;
    first [injection E as <- <-; by apply has_admin_same
          |injection E as <- <-; by apply has_admin_update
          |unfold insert_user, CreateSite_stmt, UpdateSite, insert_provider, UpdateProvider, insert_model, DeleteProvider in E;
           repeat case_match; try done; injection E as <- <-; by apply has_admin_same]].
  - apply governed_if; [eauto with admin|]. intros t x a x' E (v & Hv & Ha). unfold insert_user in E. case_match; [done|]. injection E as <- <-.
    exists v. split; [|done]. cbn. apply in_or_app. by left.
  - apply governed_if; [eauto with admin|]. intros t x a x' [= <- <-] (v & Hv & Ha). eexists. split.
    + apply update_where_at. exists v. split; [exact Hv|reflexivity].
    + by destruct (user_is id v).
  - by apply guarded_demote.
  - by apply guarded_delete.
  - destruct H0 as (E & _ & u & Eu & _ & _ & Er & _). destruct H as [_ (v & Hv & _)]. by rewrite E in Hv.
Qed.
End Closed.
