(* ===== verification/AdminRoutes.v ===== *)
(** * The routes of the administration

    The table of server/admin/routes.go with who may call what, the middleware before
    the handlers, and the handlers of the global database behind it.  The router (chi)
    is a parameter: it answers with an entry of the table. *)

From Stdlib Require Import ZArith Lia Ascii String List Bool.
From stdpp Require Import base list strings gmap.
From S2P Require Import PublicAPIFacts SchedulerTool Prelude GoStrings GoTime JSONText Plan PlanJSON PlanStore World LLMTypes OpenAI ToolCore Security JSONRead SiteTables ToolMonad Questions Manager SiteDB AdminDB Admin AdminSites AdminFacts.

Local Open Scope string_scope.
Local Open Scope Z_scope.

(** ** The table *)

(** The handlers of this file, and the others by name. *)
Inductive Endpoint :=
| SetupCheck | SetupProviders | Login | Logout | Setup
| ListOfUsers | CreateUser | UpdateUser | RemoveUser
| GetSettings | UpdateSettings
| ListOfSites | GetSite | CreateASite | UpdateASite | RemoveSite | ToggleSite
| BrainStatus | BrainStart | BrainStop | BrainMode
| Catalog | ListOfProviders | GetProviderByNumber | ProviderModels | CreateAProvider | UpdateAProvider | RemoveProvider | TestProvider
| CreateAModel | RemoveModel | SetDefaultModel
| SystemStatus | ListOfTools
| Elsewhere (handler : string).

Inductive Access := Public | User_ | Admin_.

Record Route := { rt_access : Access; rt_method : string; rt_pattern : string; rt_endpoint : Endpoint }.
Definition on (a : Access) (m p : string) (e : Endpoint) : Route := {| rt_access := a; rt_method := m; rt_pattern := "/admin/api" ++ p; rt_endpoint := e |}.
Definition site_route (a : Access) (m p handler : string) : Route := on a m ("/sites/{siteID}" ++ p) (Elsewhere handler).

Definition public_routes : list Route :=
  [ on Public "GET" "/setup/check" SetupCheck; on Public "GET" "/setup/providers" SetupProviders;
    on Public "POST" "/auth/login" Login; on Public "POST" "/auth/logout" Logout; on Public "POST" "/setup" Setup ].

Definition user_routes : list Route :=
  [ on User_ "GET" "/sites" ListOfSites; on User_ "GET" "/providers/catalog" Catalog; on User_ "GET" "/providers" ListOfProviders;
    on User_ "GET" "/providers/{providerID}" GetProviderByNumber; on User_ "GET" "/providers/{providerID}/models" ProviderModels;
    on User_ "GET" "/tools" ListOfTools; on User_ "GET" "/users" ListOfUsers; on User_ "GET" "/system/status" SystemStatus;
    on User_ "GET" "/events/stream" (Elsewhere "system.EventStream"); on User_ "GET" "/questions" (Elsewhere "questions.List");
    on User_ "GET" "/settings" GetSettings; on User_ "GET" "/logs/{siteID}" (Elsewhere "logs.List");
    on User_ "GET" "/logs/{siteID}/llm" (Elsewhere "logs.ListLLM"); on User_ "GET" "/logs/{siteID}/llm/csv" (Elsewhere "logs.ExportCSV");
    on User_ "GET" "/logs/{siteID}/llm/stats" (Elsewhere "logs.Stats"); on User_ "GET" "/logs/{siteID}/llm/{logID}" (Elsewhere "logs.GetLLM") ].

Definition site_reads : list Route :=
  [ on User_ "GET" "/sites/{siteID}/" GetSite; site_route User_ "GET" "/summary" "sites.Summary"; site_route User_ "GET" "/pages" "pages.List";
    site_route User_ "GET" "/pages/{pageID}" "pages.Get"; site_route User_ "GET" "/assets" "assets.List";
    site_route User_ "GET" "/assets/{assetID}/content" "assets.Content"; site_route User_ "GET" "/tables" "tables.List";
    site_route User_ "GET" "/tables/{tableName}/rows" "tables.Rows"; site_route User_ "GET" "/endpoints" "endpoints.List";
    site_route User_ "GET" "/endpoints/{endpointID}" "endpoints.Get"; site_route User_ "GET" "/files" "files.List";
    site_route User_ "GET" "/tasks" "tasks.List"; site_route User_ "GET" "/webhooks" "webhooks.List";
    site_route User_ "GET" "/webhooks/{webhookID}" "webhooks.Get"; site_route User_ "GET" "/tasks/{taskID}/runs" "tasks.TaskRuns";
    site_route User_ "GET" "/questions" "questions.ListBySite"; site_route User_ "GET" "/service-providers" "svcProviders.List";
    site_route User_ "GET" "/auth-endpoints" "authEndpoints.List"; site_route User_ "GET" "/secrets" "secrets.List";
    site_route User_ "GET" "/layouts" "layouts.List"; site_route User_ "GET" "/layouts/{layoutID}" "layouts.Get";
    site_route User_ "GET" "/analytics/summary" "analytics.Summary"; site_route User_ "GET" "/diagnostics/health" "diag.Health";
    site_route User_ "GET" "/diagnostics/integrity" "diag.Integrity"; site_route User_ "GET" "/diagnostics/errors" "diag.Errors" ].

Definition site_writes : list Route :=
  [ on Admin_ "PUT" "/sites/{siteID}/" UpdateASite; on Admin_ "DELETE" "/sites/{siteID}/" RemoveSite;
    on Admin_ "POST" "/sites/{siteID}/toggle-status" ToggleSite;
    site_route Admin_ "POST" "/assets" "assets.Create"; site_route Admin_ "DELETE" "/assets/{assetID}" "assets.Delete";
    site_route Admin_ "POST" "/tables/{tableName}/rows" "tables.InsertRow"; site_route Admin_ "PUT" "/tables/{tableName}/rows/{rowID}" "tables.UpdateRow";
    site_route Admin_ "DELETE" "/tables/{tableName}/rows/{rowID}" "tables.DeleteRow";
    site_route Admin_ "PUT" "/endpoints/{endpointID}" "endpoints.Update"; site_route Admin_ "DELETE" "/endpoints/{endpointID}" "endpoints.Delete";
    site_route Admin_ "POST" "/files" "files.Create"; site_route Admin_ "DELETE" "/files/{fileID}" "files.Delete";
    site_route Admin_ "POST" "/tasks/{taskID}/toggle" "tasks.Toggle"; site_route Admin_ "DELETE" "/tasks/{taskID}" "tasks.Delete";
    site_route Admin_ "POST" "/tasks" "tasks.Create"; site_route Admin_ "PUT" "/tasks/{taskID}" "tasks.Update";
    site_route Admin_ "POST" "/webhooks/{webhookID}/toggle" "webhooks.Toggle"; site_route Admin_ "DELETE" "/webhooks/{webhookID}" "webhooks.Delete";
    site_route Admin_ "PUT" "/pages/{pageID}" "pages.Update"; site_route Admin_ "DELETE" "/pages/{pageID}" "pages.Delete";
    site_route Admin_ "DELETE" "/auth-endpoints/{endpointID}" "authEndpoints.Delete"; site_route Admin_ "DELETE" "/secrets/{secretID}" "secrets.Delete";
    site_route Admin_ "DELETE" "/layouts/{layoutID}" "layouts.Delete";
    site_route Admin_ "POST" "/service-providers/{provID}/toggle" "svcProviders.Toggle";
    site_route Admin_ "DELETE" "/service-providers/{provID}" "svcProviders.Delete" ].

Definition shared_routes : list Route :=
  [ on User_ "GET" "/brain/{siteID}/status" BrainStatus; on User_ "GET" "/chat/{siteID}/history" (Elsewhere "chat.History");
    on User_ "POST" "/chat/{siteID}/stream" (Elsewhere "chat.Stream"); on User_ "POST" "/questions/{questionID}/answer" (Elsewhere "questions.Answer") ].

Definition admin_routes : list Route :=
  [ on Admin_ "POST" "/sites" CreateASite; on Admin_ "POST" "/brain/{siteID}/start" BrainStart; on Admin_ "POST" "/brain/{siteID}/stop" BrainStop;
    on Admin_ "POST" "/brain/{siteID}/mode" BrainMode; on Admin_ "POST" "/providers" CreateAProvider;
    on Admin_ "PUT" "/providers/{providerID}" UpdateAProvider; on Admin_ "DELETE" "/providers/{providerID}" RemoveProvider;
    on Admin_ "POST" "/providers/{providerID}/test" TestProvider; on Admin_ "POST" "/providers/{providerID}/models" CreateAModel;
    on Admin_ "DELETE" "/providers/{providerID}/models/{modelID}" RemoveModel;
    on Admin_ "POST" "/providers/{providerID}/models/{modelID}/default" SetDefaultModel; on Admin_ "POST" "/users" CreateUser;
    on Admin_ "PUT" "/users/{userID}" UpdateUser; on Admin_ "DELETE" "/users/{userID}" RemoveUser; on Admin_ "PUT" "/settings" UpdateSettings ].

Definition RegisterRoutes : list Route :=
  (public_routes ++ user_routes ++ site_reads ++ site_writes ++ shared_routes ++ admin_routes)%list.

(** ** A request *)

(** chi: the entry a request is given to, with the parameters of its path. *)
Class Router := {
  match_route : list Route -> HttpRequest -> option (Route * list (string * string));
  match_in : forall l r e p, match_route l r = Some (e, p) -> In e l /\ rt_method e = method r;
}.

(** What of the environment the handlers use beyond the database: the built-in tools,
    the platform's data, the states of the workers and the way of a command to one. *)
Record AdminDeps := {
  dp_jwt : JWTManager;
  dp_secure_cookies : bool;
  dp_migrations : list (string * string);
  dp_platform : list (string * json);
  dp_tools : list Tool;
  dp_state_of : nat -> BrainState;
}.

Section Routes.
Context `{C : Crypto} `{F : Formats} `{K : SQLite} `{X : AdminEnv} `{Fl : Floats} `{O : MapOrder} `{R : Router}.
Context (send_command : Z -> BrainCommand -> BrainManager -> BrainManager).
Context (elsewhere : string -> HttpRequest -> list (string * string) -> A AdminAnswer).
Context (unmatched : HttpRequest -> AdminAnswer).     (* the files of the web interface, or the router's own answer *)

Definition handle (d : AdminDeps) (e : Endpoint) (r : HttpRequest) (params : list (string * string)) : A AdminAnswer :=
  let p name := default "" (assoc name params) in
  let body := req_body r in
  match e with
  | SetupCheck => HandleSetupCheck
  | SetupProviders => HandleProviderCatalog
  | Login => HandleLogin (dp_jwt d) (dp_secure_cookies d) body
  | Logout => HandleLogout
  | Setup => HandleSetup (dp_jwt d) (dp_secure_cookies d) body
  | ListOfUsers => users_List
  | CreateUser => users_Create body
  | UpdateUser => users_Update (p "userID") body
  | RemoveUser => users_Delete (p "userID")
  | GetSettings => settings_Get
  | UpdateSettings => settings_Update body
  | ListOfSites => sites_List (query_get "limit" r) (query_get "offset" r)
  | GetSite => sites_Get (p "siteID")
  | CreateASite => sites_Create (dp_migrations d) body
  | UpdateASite => sites_Update (p "siteID") body
  | RemoveSite => sites_Delete (p "siteID")
  | ToggleSite => sites_ToggleStatus (p "siteID")
  | BrainStatus => brain_Status (dp_state_of d) (p "siteID")
  | BrainStart => brain_Start (dp_migrations d) (p "siteID")
  | BrainStop => brain_Stop (p "siteID")
  | BrainMode => brain_Mode (fun n c s => with_brain (send_command n c (ad_brain s)) s) (p "siteID") body
  | Catalog => providers_Catalog
  | ListOfProviders => providers_List
  | GetProviderByNumber => providers_Get (p "providerID")
  | ProviderModels => providers_Models (p "providerID")
  | CreateAProvider => providers_Create body
  | UpdateAProvider => providers_Update (p "providerID") body
  | RemoveProvider => providers_Delete (p "providerID")
  | TestProvider => providers_Test (p "providerID")
  | CreateAModel => providers_CreateModel (p "providerID") body
  | RemoveModel => providers_DeleteModel (p "modelID")
  | SetDefaultModel => providers_SetDefaultModel (p "providerID") (p "modelID")
  | SystemStatus => system_Status (dp_platform d)
  | ListOfTools => tools_List (dp_tools d)
  | Elsewhere h => elsewhere h r params
  end.

(** The middleware of a group: [Authenticator], and [RequireRole] inside it. *)
Definition admitted (d : AdminDeps) (a : Access) (r : HttpRequest) (now : time) : res HttpResponse unit :=
  match a with
  | Public => Ok tt
  | User_ => match Authenticator (dp_jwt d) r now with Ok _ => Ok tt | Err e => Err e end
  | Admin_ => match Authenticator (dp_jwt d) r now with Ok c => RequireRole "admin" (Some c) | Err e => Err e end
  end.

(** The answer to a request, and what it leaves; the limiter before the public
    routes is that of Middleware. *)
Definition serve_admin_request (d : AdminDeps) (r : HttpRequest) (s : AdminState) : AdminExit * AdminState :=
  match match_route RegisterRoutes r with
  | None => (Replied (unmatched r), s)
  | Some (e, params) =>
      match admitted d (rt_access e) r (ad_clock s) with
      | Err resp => (Replied (answer_json (resp_status resp) (resp_body resp)), s)
      | Ok _ => serve_admin (handle d (rt_endpoint e) r params) s
      end
  end.

(** Requests one after the other, each at its time. *)
Definition at_time (t : time) (s : AdminState) : AdminState :=
  {| ad_db := ad_db s; ad_tx := ad_tx s; ad_locked := ad_locked s; ad_stmts := ad_stmts s; ad_clock := t; ad_live := ad_live s;
     ad_bus := ad_bus s; ad_dbs := ad_dbs s; ad_brain := ad_brain s |}.
Definition serve_all (d : AdminDeps) (l : list (time * HttpRequest)) (s : AdminState) : AdminState :=
  fold_left (fun s tr => snd (serve_admin_request d (snd tr) (at_time (fst tr) s))) l s.
End Routes.

(** ** What a request keeps *)

Section Kept.
Context `{C : Crypto} `{F : Formats} `{K : SQLite} `{X : AdminEnv} `{Fl : Floats} `{O : MapOrder} `{R : Router}.
Context (send_command : Z -> BrainCommand -> BrainManager -> BrainManager).
Context (elsewhere : string -> HttpRequest -> list (string * string) -> A AdminAnswer).
Context (unmatched : HttpRequest -> AdminAnswer).

(** A handler that leaves all this alone. *)
Definition same_core (s s' : AdminState) : Prop :=
  ad_db s' = ad_db s /\ ad_tx s' = ad_tx s /\ ad_locked s' = ad_locked s /\ ad_live s' = ad_live s /\ ad_brain s' = ad_brain s.
Definition areads {T} (m : A T) : Prop := forall s, same_core s (snd (m s)) /\ fst (m s) <> Err Stuck.

(** The handlers of other files work on the sites. *)
Definition elsewhere_reads : Prop := forall h r p, areads (elsewhere h r p).

Lemma areads_keeps {T} P (m : A T) : areads m -> akeeps P m.
Proof. intros Hm s (H1 & H2 & H3). destruct (Hm s) as [(E1 & E2 & E3 & _) Hs]. split; [|done]. unfold quiet. by rewrite E1, E2, E3. Qed.

Lemma akeeps_assoc {T U V} P (g : A T) (e : T -> A U) (k : U -> A V) :
  akeeps P (g ≫= e) -> (forall u, akeeps P (k u)) -> akeeps P (g ≫= fun t => e t ≫= k).
Proof.
  intros H Hk s Hs. specialize (H s Hs). unfold mbind, A_bind in *. destruct (g s) as [[t|x] s1]; [destruct (e t s1) as [[u|x] s2]|]; cbn in *; [by apply Hk, H| |]; destruct H as [H1 H2];
    (split; [exact H1|]); intros E; apply H2; by injection E as ->.
Qed.

Lemma users_Delete_keeps P n : closed P -> akeeps P (users_Delete n).
Proof.
  intros HP. unfold users_Delete. apply akeeps_bind; [apply akeeps_url_int|]. intros id. apply akeeps_assoc; [apply (cl_delete_user _ HP)|]. keep.
Qed.

Lemma users_Update_keeps P n body : closed P -> akeeps P (users_Update n body).
Proof.
  intros HP. unfold users_Update. apply akeeps_bind; [apply akeeps_url_int|]. intros id. apply akeeps_bind; [apply akeeps_decode|]. intros req.
  apply akeeps_bind; [keep|]. intros _. apply akeeps_bind; [|keep]. destruct (cu_role req =? "")%string; [keep|].
  destruct (String.eqb_spec (cu_role req) "admin") as [->|]; [|apply akeeps_assoc; [apply (cl_demote _ HP)|keep]].
  apply akeeps_bind; [keep|]. intros _. apply akeeps_bind; [|keep]. apply akeeps_exec, (cl_promote _ HP).
Qed.

Lemma setup_keeps P j c body : closed P -> akeeps P (HandleSetup j c body).
Proof.
  intros HP s (H1 & H2 & H3). pose proof (HandleSetup_spec j c body s H2 H3) as H. unfold awp in H. destruct (HandleSetup _ _ _ s) as [[a|x] s'].
  - destruct H as (Ht & Hl & _ & req & hash & _ & Hs). split; [|done]. split_and!; try done. cbn. by eapply (cl_set_up _ HP).
  - destruct H as ((Hd & Ht & a & ->) & Hl). cbn. split; [|done]. unfold quiet. by rewrite Hd.
Qed.

Lemma set_all_keeps P l : closed P -> akeeps P (set_all l).
Proof.
  intros HP. induction l as [|[k v] l IH]; [apply akeeps_ret|]. cbn [set_all]. apply akeeps_bind; [apply akeeps_ExecWrite; eauto with admin|].
  intros x. apply akeeps_bind; [apply akeeps_or_refuse|done].
Qed.

Lemma change_keeps P f : (forall s, ad_db (f s) = ad_db s /\ ad_tx (f s) = ad_tx s /\ ad_locked (f s) = ad_locked s) -> akeeps P (change f).
Proof. intros Hf s (H1 & H2 & H3). destruct (Hf s) as (E1 & E2 & E3). cbn. unfold quiet. by rewrite E1, E2, E3. Qed.

Lemma handle_keeps P d e r params : closed P -> elsewhere_reads -> akeeps P (handle send_command elsewhere d e r params).
Proof.
  intros HP He. destruct e; cbn [handle]; try (by apply setup_keeps); try (by apply users_Update_keeps); try (by apply users_Delete_keeps);
    try (apply areads_keeps, He);
    unfold HandleSetupCheck, HandleProviderCatalog, HandleLogin, HandleLogout, users_List, users_Create, settings_Get, settings_Update,
      sites_List, sites_Get, sites_Create, sites_Update, sites_Delete, sites_ToggleStatus, CreateSite, DeleteSite, chosen_model, on_site_created,
      brain_Status, brain_Start, brain_Stop, brain_Mode, providers_Catalog, providers_List, providers_Get, providers_Models, providers_Create,
      providers_Update, reregister, providers_Delete, providers_Test, providers_CreateModel,
      providers_DeleteModel, providers_SetDefaultModel, system_Status, tools_List, CreateProvider, sealed, provider_event; keep.
  - by apply set_all_keeps.
  - by apply change_keeps.
Qed.

(** *** Handlers that read *)

Lemma areads_ret {T} (a : T) : areads (mret a).
Proof. by intros s. Qed.
Lemma areads_bind {T U} (m : A T) (k : T -> A U) : areads m -> (forall a, areads (k a)) -> areads (m ≫= k).
Proof.
  intros Hm Hk s. specialize (Hm s) as [(H1 & H2 & H3 & H4 & H5) Hs]. unfold mbind, A_bind. destruct (m s) as [[a|x] s']; cbn in *.
  - destruct (Hk a s') as [(E1 & E2 & E3 & E4 & E5) Hs']. unfold same_core. split; [|done]. split_and!; congruence.
  - split; [done|]. intros E. apply Hs. by injection E as ->.
Qed.
Lemma areads_replied {T} r : areads (replied r : A T).
Proof. by intros s. Qed.
Lemma areads_or_refuse {T} n msg (r : res string T) : areads (or_refuse n msg r).
Proof. by destruct r. Qed.
Lemma areads_check b n msg : areads (check b n msg).
Proof. by destruct b. Qed.
Lemma areads_select {T} (f : GlobalDB -> T) : areads (select f).
Proof. by intros s. Qed.
Lemma areads_select_row {T} (f : GlobalDB -> option T) : areads (select_row f).
Proof. by intros s. Qed.
Lemma areads_decode {T} (dec : list (string * json) -> res string T) body : areads (decodeJSON dec body).
Proof. unfold decodeJSON. destruct (parse_value _ _ _) as [[j r]|]; [apply areads_or_refuse|by intros s]. Qed.
Lemma areads_url_int what text : areads (url_int what text).
Proof. unfold url_int. by destruct (Atoi text) as [n [e|]]. Qed.
Lemma areads_look : areads (on_brain (fun m => (m, m))).
Proof. intros s. by destruct s. Qed.
Lemma areads_now : areads now_of.
Proof. by intros s. Qed.
Hint Resolve areads_ret areads_replied areads_or_refuse areads_check areads_select areads_select_row areads_decode areads_url_int areads_look
  areads_now : admin.
Ltac reading_tac := repeat first [progress intros | apply areads_bind | solve [eauto with admin] | case_match].

Lemma areads_catalog l : areads (catalog l).
Proof. induction l as [|p l IH]; [apply areads_ret|]. cbn [catalog]. reading_tac. Qed.
Hint Resolve areads_catalog : admin.

(** What the public part and every user may call. *)
Definition reading (e : Endpoint) : bool :=
  match e with
  | SetupCheck | SetupProviders | Login | Logout | ListOfUsers | GetSettings | ListOfSites | GetSite | BrainStatus | Catalog | ListOfProviders
  | GetProviderByNumber | ProviderModels | SystemStatus | ListOfTools | Elsewhere _ => true
  | _ => false
  end.

Lemma handle_reads d e r params : reading e = true -> elsewhere_reads -> areads (handle send_command elsewhere d e r params).
Proof.
  intros He Hel. destruct e; try discriminate He; cbn [handle]; try (apply Hel);
    unfold HandleSetupCheck, HandleProviderCatalog, HandleLogin, HandleLogout, users_List, settings_Get, sites_List, sites_Get, brain_Status,
      providers_Catalog, providers_List, providers_Get, providers_Models, system_Status, tools_List; reading_tac.
Qed.

Lemma serve_admin_state (m : A AdminAnswer) s : snd (serve_admin m s) = snd (m s).
Proof. unfold serve_admin. by destruct (m s) as [[x|x] s']. Qed.

(** Where there is a user, setup does nothing. *)
Lemma setup_locked_refused j c req hash s : ad_tx s = Some (ad_db s) -> gd_users (ad_db s) <> [] ->
  awp (setup_locked j c req hash) s (fun _ _ => False) (fun _ s' => ad_tx s' = None /\ same_core (with_tx None s) s').
Proof.
  intros Ht Hu. unfold setup_locked. apply awp_bind. unfold awp at 1, tx_select. rewrite Ht. destruct (stmt_fails _); [done|].
  unfold CountUsers. destruct (gd_users (ad_db s)); [done|]. done.
Qed.

Lemma setup_refused j c body s : ad_tx s = None -> ad_locked s = false -> gd_users (ad_db s) <> [] ->
  awp (HandleSetup j c body) s (fun _ _ => False) (fun _ s' => same_core s s').
Proof.
  intros Ht Hl Hu. unfold HandleSetup. apply awp_bind. unfold decodeJSON. destruct (parse_value _ _ _) as [[v rest]|]; [|done].
  apply awp_or_refuse; [|done]. intros req _. apply awp_bind, awp_check; [|done]. intros _. apply awp_bind, awp_or_refuse; [|done].
  intros hash _. apply awp_bind. unfold awp at 1, BeginWriteTx. rewrite Hl. destruct (stmt_fails _); [done|]. apply awp_bind. cbn [awp or_refuse].
  apply awp_deferred. eapply awp_mono; [by apply setup_locked_refused|done|]. intros x s' (H1 & H2 & _ & _ & H4 & H5). unfold same_core. cbn in *.
  by rewrite H1, H2, Ht, Hl, H4, H5.
Qed.

(** Every route but those of the admins, and setup, reads. *)
Lemma routes_reading e : In e RegisterRoutes -> rt_access e = Admin_ \/ rt_endpoint e = Setup \/ reading (rt_endpoint e) = true.
Proof.
  assert (forallb (fun e => match rt_access e with Admin_ => true | _ => match rt_endpoint e with Setup => true | x => reading x end end) RegisterRoutes = true) as H
    by (vm_compute; reflexivity).
  intros He. rewrite forallb_forall in H. specialize (H e He). destruct (rt_access e); [..|by left]; right; destruct (rt_endpoint e); auto.
Qed.

Lemma A_bind_ok {T U} (m : A T) (k : T -> A U) s a s' : m s = (Ok a, s') -> (m ≫= k) s = k a s'.
Proof. intros H. unfold mbind, A_bind. by rewrite H. Qed.

Lemma decode_keeps {T} (dec : list (string * json) -> res string T) body s : snd (decodeJSON dec body s) = s.
Proof. unfold decodeJSON. destruct (parse_value _ _ _) as [[v r]|]; [|done]. by destruct (res_bind _ _). Qed.

Lemma at_time_quiet P t s : quiet P s -> quiet P (at_time t s).
Proof. done. Qed.

Lemma serve_keeps P d r s : closed P -> elsewhere_reads -> quiet P s ->
  quiet P (snd (serve_admin_request send_command elsewhere unmatched d r s)) /\
  fst (serve_admin_request send_command elsewhere unmatched d r s) <> Stuck.
Proof.
  intros HP He Hs. unfold serve_admin_request. destruct (match_route _ _) as [[e params]|]; [|done]. destruct (admitted _ _ _ _); [|done].
  pose proof (handle_keeps P d (rt_endpoint e) r params HP He s Hs) as [H1 H2]. unfold serve_admin.
  destruct (handle _ _ _ _ _ _ s) as [[x|x] s']; cbn in *; (split; [done|]); [done|]. intros ->. by apply H2.
Qed.

Lemma serve_all_keeps P d l : closed P -> elsewhere_reads -> forall s, quiet P s -> quiet P (serve_all send_command elsewhere unmatched d l s).
Proof.
  intros HP He. unfold serve_all. induction l as [|[t r] l IH]; intros s Hs; [done|]. cbn [fold_left]. apply IH.
  apply serve_keeps; [done..|]. by apply at_time_quiet.
Qed.
End Kept.

(** ** A router, and an installation *)

Fixpoint fits (pattern path : list string) : option (list (string * string)) :=
  match pattern, path with
  | [], [] => Some []
  | p :: ps, x :: xs =>
      match fits ps xs with
      | None => None
      | Some l => if HasPrefix p "{" then Some ((TrimSuffix (TrimPrefix p "{") "}", x) :: l) else if (p =? x)%string then Some l else None
      end
  | _, _ => None
  end.

Fixpoint first_route (l : list Route) (r : HttpRequest) : option (Route * list (string * string)) :=
  match l with
  | [] => None
  | e :: rest =>
      match (if (rt_method e =? method r)%string then fits (Split "/" (rt_pattern e)) (Split "/" (url_path r)) else None) with
      | Some params => Some (e, params)
      | None => first_route rest r
      end
  end.

Lemma first_route_in l r e p : first_route l r = Some (e, p) -> In e l /\ rt_method e = method r.
Proof.
  induction l as [|x l IH]; [done|]. cbn. destruct (String.eqb_spec (rt_method x) (method r)) as [E|].
  - destruct (fits _ _); [intros [= <- <-]; by split; [left|]|]. intros H. destruct (IH H). by split; [right|].
  - intros H. destruct (IH H). by split; [right|].
Qed.

Module AdminSample.
#[export] Existing Instances ApiSample.crypto ApiSample.order digit_floats FloatSample.same_numbers.
#[export] Instance router : Router := {| match_route := first_route; match_in := first_route_in |}.
(** A disk and databases that accept everything. *)
#[export] Instance sqlite : SQLite := {| content := unit; fresh := tt; run_sql := fun _ c => (Ok tt, c); io_fails := fun _ => None |}.
#[export] Instance calm : AdminEnv :=
  {| stmt_fails := fun _ => None; knows_type := Some (fun t => (t =? "openai")%string); ping := fun _ _ => None; admin_decrypt := fun k => Ok k |}.

Definition key : JWTManager := {| secret := "k"; expiry := hour |}.
Definition deps : AdminDeps :=
  {| dp_jwt := key; dp_secure_cookies := false; dp_migrations := []; dp_platform := []; dp_tools := []; dp_state_of := fun _ => StateIdle |}.
Definition nowhere (h : string) (r : HttpRequest) (p : list (string * string)) : A AdminAnswer := mret (answer_json 200 JNull).
Definition files (r : HttpRequest) : AdminAnswer := answer_json 404 JNull.
Definition quiet_send (n : Z) (c : BrainCommand) (m : BrainManager) : BrainManager := m.

Definition ann : User :=
  {| us_id := 1; us_username := "ann"; us_hash := "$2a$secret"; us_display := "Ann"; us_role := "admin"; us_created := 0; us_updated := 0 |}.
Definition model : LLMModel :=
  {| lm_id := 1; lm_provider := 1; lm_model := "m"; lm_display := "M"; lm_max := 4096; lm_stream := true; lm_tools := true; lm_default := true;
     lm_config := "{}"; lm_created := 0 |}.
Definition openai : LLMProvider :=
  {| lp_id := 1; lp_name := "local"; lp_type := "openai"; lp_key := Some "k"; lp_base := Some "http://localhost:11434/v1"; lp_enabled := true;
     lp_config := "{}"; lp_created := 0; lp_updated := 0 |}.
Definition tables : GlobalDB :=
  {| gd_users := [ann]; gd_settings := ∅; gd_sites := []; gd_providers := [openai]; gd_models := [model];
     gd_seq := {| sq_users := 1; sq_providers := 1; sq_models := 1; sq_sites := 0 |} |}.
Definition start : AdminState :=
  {| ad_db := tables; ad_tx := None; ad_locked := false; ad_stmts := 0; ad_clock := hour; ad_live := NewProviderRegistry; ad_bus := [];
     ad_dbs := NewSiteDBManager ∅; ad_brain := NewBrainManager |}.
Definition empty : AdminState :=
  with_db {| gd_users := []; gd_settings := ∅; gd_sites := []; gd_providers := [openai]; gd_models := [model];
             gd_seq := {| sq_users := 0; sq_providers := 1; sq_models := 1; sq_sites := 0 |} |} start.

Definition request (m path body : string) (token : option string) : HttpRequest :=
  {| method := m; url_path := path; headers := match token with Some t => [("Authorization", "Bearer " ++ t)] | None => [] end; cookies := [];
     query := ∅; req_body := dq body |}.
Definition ann_token : string := Generate key 1 "ann" "admin" 0.

Definition some_requests : list (time * HttpRequest) :=
  [(0%Z, request "DELETE" "/admin/api/users/1" "" (Some ann_token)); (0%Z, request "PUT" "/admin/api/users/1" "{'role':'user'}" (Some ann_token));
   (0%Z, request "POST" "/admin/api/users" "{'username':'bob','password':'pw','role':'admin'}" (Some ann_token));
   (0%Z, request "DELETE" "/admin/api/users/1" "" (Some ann_token))].

Lemma tables_wf : db_wf tables.
Proof.
  constructor; cbn; try (split; [apply NoDup_singleton || apply NoDup_nil_2|repeat constructor; cbn; lia]); try apply NoDup_singleton; try apply NoDup_nil_2.
  intros _. by repeat constructor.
Qed.
Lemma start_quiet : quiet db_wf start.
Proof. split; [apply tables_wf|done]. Qed.
Lemma nowhere_reads : elsewhere_reads nowhere.
Proof. by intros h r p s. Qed.
End AdminSample.
Import AdminSample.

(** ** Properties *)

Section Properties.
Context `{C : Crypto} `{F : Formats} `{K : SQLite} `{X : AdminEnv} `{Fl : Floats} `{O : MapOrder} `{R : Router}.


(** Who changes anything that is global (users, sites, settings, providers, models,
    the registry, the workers) has a token whose role is admin, or sets up an
    installation without users. *)
Theorem changes_need_admin send elsewhere unmatched d r s : elsewhere_reads elsewhere -> quiet db_wf s ->
  let s' := snd (serve_admin_request send elsewhere unmatched d r s) in
  same_core s s' \/ gd_users (ad_db s) = [] \/
  exists token c, find_token r = Ok token /\ Validate (dp_jwt d) token (ad_clock s) = Ok c /\ ClaimRole c = "admin".
Proof.
  intros He Hs s'. subst s'. unfold serve_admin_request. destruct (match_route _ _) as [[e params]|] eqn:Hm; [|by left].
  destruct (admitted _ _ _ _) as [[]|resp] eqn:Ha; [|by left]. apply match_in in Hm as [Hin _].
  destruct (routes_reading e Hin) as [Hadm|[Hsetup|Hread]].
  - right; right. rewrite Hadm in Ha. cbn in Ha. unfold Authenticator in Ha. destruct (find_token r) as [t|]; [|done].
    destruct (Validate _ _ _) as [c|] eqn:Hv; [|done]. unfold RequireRole in Ha. destruct (String.eqb_spec (ClaimRole c) "admin"); [|done]. eauto.
  - destruct (gd_users (ad_db s)) as [|u l] eqn:Hu; [by right; left|left]. rewrite Hsetup. cbn [handle]. rewrite serve_admin_state.
    destruct Hs as (_ & H2 & H3). pose proof (setup_refused (dp_jwt d) (dp_secure_cookies d) (req_body r) s H2 H3) as H. unfold awp in H. rewrite Hu in H.
    destruct (HandleSetup _ _ _ s) as [[a|x] s']; by specialize (H ltac:(done)).
  - left. rewrite serve_admin_state. by apply handle_reads.
Qed.

(** Setup happens once and as a whole.  It succeeds only where there is no user, and
    leaves exactly one, the admin of the request with the hash of his password; any
    other end, whichever statement fails, leaves the database as it was; and no end
    leaves a transaction or the lock behind. *)
Theorem setup_happens_once j c body s : ad_tx s = None -> ad_locked s = false ->
  let '(r, s') := HandleSetup j c body s in
  ad_tx s' = None /\ ad_locked s' = false /\
  match r with
  | Ok a => an_status a = 201 /\ gd_users (ad_db s) = [] /\
            exists req hash u, bcrypt (su_password req) = Ok hash /\ gd_users (ad_db s') = [u] /\ first_admin req hash (ad_db s) u
  | Err x => ad_db s' = ad_db s /\ exists a, x = Replied a
  end.
Proof.
  intros Ht Hl. pose proof (HandleSetup_spec j c body s Ht Hl) as H. unfold awp in H. destruct (HandleSetup j c body s) as [[a|x] s'].
  - destruct H as (H1 & H2 & H3 & req & hash & Hh & H4 & _ & u & H5 & H6). split_and!; try done. by exists req, hash, u.
  - destruct H as ((H1 & H2 & H3) & H4). by split_and!.
Qed.

(** Logging in.  A login succeeds exactly when the user read by the name has the
    password; the token it gives opens the routes of users for as long as it runs, and
    those of admins exactly when he is one. *)
Theorem login_admits d body s :
  ((exists a s', HandleLogin (dp_jwt d) (dp_secure_cookies d) body s = (Ok a, s')) <->
   stmt_fails (ad_stmts s) = None /\
   exists username password u, fst (decodeJSON credentials body s) = Ok (username, password) /\ username <> "" /\ password <> "" /\
     GetUserByUsername username (ad_db s) = Some u /\ bcrypt_check password (us_hash u) = true) /\
  forall a s', HandleLogin (dp_jwt d) (dp_secure_cookies d) body s = (Ok a, s') ->
    exists u token, In u (gd_users (ad_db s)) /\ ac_value <$> an_cookie a = Some token /\
      forall r now, find_token r = Ok token -> now < Truncate (ad_clock s + expiry (dp_jwt d)) second ->
        admitted d User_ r now = Ok tt /\ (admitted d Admin_ r now = Ok tt <-> us_role u = "admin").
Proof.
  assert (forall a s', HandleLogin (dp_jwt d) (dp_secure_cookies d) body s = (Ok a, s') ->
    stmt_fails (ad_stmts s) = None /\
    exists username password u, fst (decodeJSON credentials body s) = Ok (username, password) /\ username <> "" /\ password <> "" /\
      GetUserByUsername username (ad_db s) = Some u /\ bcrypt_check password (us_hash u) = true /\
      an_cookie a = Some (SetAuthCookie (dp_jwt d) (dp_secure_cookies d) (Generate (dp_jwt d) (us_id u) (us_username u) (us_role u) (ad_clock s)))) as Hlogin.
  { intros a s' H. pose proof (decode_keeps credentials body s) as Hd. unfold HandleLogin, mbind at 1, A_bind at 1 in H.
    destruct (decodeJSON credentials body s) as [[[un pw]|x] s1]; [|done]. cbn in Hd. subst s1. unfold mbind at 1, A_bind at 1, check at 1 in H.
    destruct (negb _) eqn:Hne in H; [|done]. cbn [mret A_ret] in H. unfold mbind at 1, A_bind at 1, select_row at 1 in H.
    destruct (stmt_fails _) as [e|]; [done|]. split; [done|]. destruct (GetUserByUsername un (ad_db s)) as [u|] eqn:Hu; [|done].
    unfold mbind at 1, A_bind at 1 in H. cbn [or_refuse mret A_ret] in H. unfold mbind at 1, A_bind at 1, check at 1 in H.
    destruct (bcrypt_check pw (us_hash u)) eqn:Hc; [|done]. cbn in H. injection H as <- <-. apply negb_true_iff, orb_false_iff in Hne as [H1 H2].
    apply String.eqb_neq in H1, H2. by exists un, pw, u. }
  split; [split|].
  - intros (a & s' & H). destruct (Hlogin a s' H) as (H1 & un & pw & u & H2 & H3 & H4 & H5 & H6 & _). split; [done|]. by exists un, pw, u.
  - intros (Hs & un & pw & u & Hd & H1 & H2 & Hu & Hc). pose proof (decode_keeps credentials body s) as Hk. unfold HandleLogin, mbind at 1, A_bind at 1.
    destruct (decodeJSON credentials body s) as [[x|x] s1]; [|done]. cbn in Hd, Hk. injection Hd as ->. subst s1.
    apply String.eqb_neq in H1, H2. rewrite H1, H2. eexists _, _.
    rewrite (A_bind_ok _ _ s tt s) by done. erewrite A_bind_ok by (unfold select_row; rewrite Hs, Hu; reflexivity).
    erewrite A_bind_ok by reflexivity. erewrite A_bind_ok by (rewrite Hc; reflexivity). erewrite A_bind_ok by reflexivity. reflexivity.
  - intros a s' H. destruct (Hlogin a s' H) as (_ & un & pw & u & _ & _ & _ & Hu & _ & ->). eexists u, _. split; [by apply find_some in Hu as [? _]|].
    split; [done|]. intros r now Hr Hnow. cbn [ac_value SetAuthCookie] in Hr.
    assert (Authenticator (dp_jwt d) r now = Ok {| SiteID := 0; UserID := us_id u; Username := us_username u; ClaimRole := us_role u |}) as Ha.
    { unfold Authenticator. rewrite Hr. unfold Validate, Generate, GenerateForSite. by rewrite token_valid. }
    unfold admitted. rewrite Ha. split; [done|]. unfold RequireRole. cbn. by destruct (String.eqb_spec (us_role u) "admin").
Qed.
End Properties.


Lemma changes_need_admin_witness :
  let r := request "DELETE" "/admin/api/users/1" "" None in
  same_core start (snd (serve_admin_request quiet_send nowhere files deps r start)).
Proof.
  intros r. destruct (changes_need_admin quiet_send nowhere files deps r start nowhere_reads start_quiet) as [H|[H|(t & c & H & _)]];
    [exact H|discriminate H|vm_compute in H; discriminate H].
Defined.

Lemma setup_happens_once_witness :
  let '(r, s') := HandleSetup key false (dq "{'username':'ann','password':'secret','provider_id':1,'api_key':'k'}") empty in
  ad_tx s' = None /\ map us_username (gd_users (ad_db s')) = ["ann"].
Proof.
  pose proof (setup_happens_once key false (dq "{'username':'ann','password':'secret','provider_id':1,'api_key':'k'}") empty eq_refl eq_refl) as H.
  destruct (HandleSetup _ _ _ empty) as [r s'] eqn:E. destruct H as (H1 & _ & H2). split; [exact H1|].
  vm_compute in E. injection E as <- <-. reflexivity.
Defined.

(** The first admin cannot go or lose the role as long as he is the only one. *)
Example requests_of_ann :
  map us_username (gd_users (ad_db (serve_all quiet_send nowhere files deps some_requests start))) = ["bob"].
Proof. vm_compute. reflexivity. Qed.
