(* ===== verification/AdminSiteFacts.v ===== *)
(** * What becomes of a site

    A site made in the administration has its row, its database and its worker
    together; one deleted has none of them; and what the two leave behind when
    something fails. *)

From Stdlib Require Import ZArith Lia Ascii String List Bool.
From stdpp Require Import base list strings gmap.
From S2P Require Import PublicAPIFacts SchedulerTool Prelude GoStrings GoTime JSONText Plan PlanJSON PlanStore World LLMTypes OpenAI ToolCore Security JSONRead SiteTables ToolMonad Questions Manager SiteDB AdminDB Admin AdminSites AdminFacts AdminRoutes.

Local Open Scope string_scope.
Local Open Scope Z_scope.

(** ** Rows *)

Lemma numbered_fresh (l : list Site) last : numbered st_id last l -> List.find (site_is (last + 1)) l = None.
Proof.
  intros [_ Hl]. destruct (List.find _ l) as [s|] eqn:E; [|done]. exfalso. apply find_some in E as [Hs E]. unfold site_is in E. apply Z.eqb_eq in E.
  rewrite Forall_forall in Hl. specialize (Hl s). rewrite list_elem_of_In in Hl. specialize (Hl Hs). lia.
Qed.

Lemma find_snoc {A} (p : A -> bool) l a : List.find p l = None -> List.find p (l ++ [a])%list = if p a then Some a else None.
Proof. induction l as [|x l IH]; cbn; [done|]. destruct (p x); [done|exact IH]. Qed.

Lemma filter_fresh (l : list Site) last a : numbered st_id last l -> st_id a = last + 1 ->
  List.filter (fun s => negb (site_is (last + 1) s)) (l ++ [a])%list = l.
Proof.
  intros [_ Hl] Ha. rewrite List.filter_app. cbn. unfold site_is at 2. rewrite Ha, Z.eqb_refl. cbn. rewrite app_nil_r.
  induction Hl as [|x l Hx Hl IH]; [done|]. cbn. unfold site_is at 1. assert (st_id x =? last + 1 = false) as -> by (apply Z.eqb_neq; lia).
  cbn. by rewrite IH.
Qed.

Lemma find_deleted (l : list Site) id : List.find (site_is id) (List.filter (fun s => negb (site_is id s)) l) = None.
Proof.
  destruct (List.find _ _) as [s|] eqn:E; [|done]. exfalso. apply find_some in E as [Hs E]. apply filter_In in Hs as [_ Hs]. by rewrite E in Hs.
Qed.

Lemma filter_absent (l : list Site) id : List.filter (site_is id) l = [] -> List.filter (fun s => negb (site_is id s)) l = l.
Proof. induction l as [|a l IH]; [done|]. cbn. destruct (site_is id a); [done|]. cbn. intros H. by rewrite IH. Qed.

Section SiteFacts.
Context `{C : Crypto} `{F : Formats} `{K : SQLite} `{X : AdminEnv}.
Context (migrations : list (string * string)).

(** ** The database and the worker *)

Lemma bind_err_D {T U} (m : D T) (k : T -> D U) x e x' : m x = (Err e, x') -> (m ≫= k) x = (Err e, x').
Proof. intros H. unfold mbind, D_bind. by rewrite H. Qed.

Lemma open_locked_cached id m sdb m' : open_locked migrations id m = (Ok sdb, m') -> dbs m' !! id = Some sdb.
Proof.
  unfold open_locked. destruct (dbs m !! id) as [x|] eqn:E; [by intros [= <- <-]|]. unfold mbind, D_bind.
  destruct (openSiteDB migrations id m) as [[x|e] m1]; [|done]. cbn. intros [= <- <-]. cbn. by rewrite lookup_insert_eq.
Qed.

Lemma Create_cached id m sdb m' : Create migrations id m = (Ok sdb, m') -> dbs m' !! id = Some sdb.
Proof.
  unfold Create. destruct (dbs m !! id) as [x|] eqn:E; [by intros [= <- <-]|]. unfold mbind, D_bind.
  destruct (access _ m) as [[[]|e] m1]; [|done]. apply open_locked_cached.
Qed.

Lemma Delete_uncached id m : dbs (snd (Delete id m)) !! id = None.
Proof.
  unfold Delete, mbind, D_bind. assert (dbs (snd (Close id m)) !! id = None /\ exists x, fst (Close id m) = Ok x) as [H [x E]].
  { unfold Close. destruct (dbs m !! id) as [sdb|] eqn:E; [|by split; [|eexists]]. cbn. split; [apply lookup_delete_eq|by eexists]. }
  destruct (Close id m) as [r m1]. cbn in E, H. subst r. unfold access. destruct (io_fails _); cbn; exact H.
Qed.

(** Where the database is open the worker starts. *)
Lemma start_brain_cached id s : is_Some (dbs (ad_dbs s) !! id) ->
  awp (start_brain migrations id) s
    (fun r s' => r = None /\ IsRunning id (ad_brain s') = true /\ ad_db s' = ad_db s /\ ad_dbs s' = ad_dbs s) (fun _ _ => False).
Proof.
  intros [sdb H]. unfold awp, start_brain. destruct (IsRunning id (ad_brain s)) eqn:E; [done|].
  unfold mbind, A_bind, on_dbs, Open. rewrite H. cbn. unfold on_brain, StartSite. cbn. unfold IsRunning in E. destruct (workers (ad_brain s) !! id); [done|].
  cbn. split_and!; try done. unfold IsRunning. cbn. by rewrite lookup_insert_eq.
Qed.

Lemma awp_of {T} (m : A T) s : awp m s (fun a s' => m s = (Ok a, s')) (fun x s' => m s = (Err x, s')).
Proof. unfold awp. by destruct (m s) as [[a|x] s']. Qed.

Lemma awp_select_row {T} (f : GlobalDB -> option T) s (Q : res string T -> AdminState -> Prop) E :
  stmt_fails (ad_stmts s) = None ->
  Q (match f (ad_db s) with Some a => Ok a | None => Err no_rows end) (count_stmt s) -> awp (select_row f) s Q E.
Proof. intros H. unfold awp, select_row. by rewrite H. Qed.

Lemma awp_exec {T} (f : time -> GlobalDB -> res string (T * GlobalDB)) s (Q : res string T -> AdminState -> Prop) E :
  stmt_fails (ad_stmts s) = None -> ad_tx s = None ->
  match f (stamp s) (ad_db s) with
  | Ok (a, d) => Q (Ok a) (with_db d (count_stmt s))
  | Err e => Q (Err e) (count_stmt s)
  end -> awp (exec f) s Q E.
Proof. intros H1 H2. unfold awp, exec. rewrite H1, H2. by destruct (f _ _) as [[a d]|e]. Qed.

(** The model of a new site is one that is stored. *)
Lemma chosen_model_spec model s :
  awp (chosen_model model) s (fun _ s' => same_core s s' /\ ad_dbs s' = ad_dbs s) (fun x s' => (same_core s s' /\ ad_dbs s' = ad_dbs s) /\ exists a, x = Replied a).
Proof.
  unfold chosen_model. destruct (_ <=? _); apply awp_bind; unfold awp at 1, select_row; destruct (stmt_fails _); apply awp_bind, awp_or_refuse;
    cbn; intros; split; try done; by eexists.
Qed.
End SiteFacts.

(** A site is made whole or not at all.  Where the statements on the global
    database work, a request that makes a site adds exactly one row, under an id never
    used before and a domain no other site has, with the site's database open and its
    worker running; a request refused - also where the database of the site could not
    be made - leaves the sites as they were. *)
Theorem site_made_whole `{C : Crypto} `{F : Formats} `{K : SQLite} `{X : AdminEnv} migrations body s :
  (forall n, stmt_fails n = None) -> quiet db_wf s ->
  awp (sites_Create migrations body) s
    (fun a s' => exists site, a = answer_json 201 (site_json site) /\ gd_sites (ad_db s') = (gd_sites (ad_db s) ++ [site])%list /\
       st_id site = sq_sites (gd_seq (ad_db s)) + 1 /\ st_status site = "active" /\ st_mode site = "building" /\
       domain_taken (st_domain site) (gd_sites (ad_db s)) = false /\
       is_Some (dbs (ad_dbs s') !! st_id site) /\ IsRunning (st_id site) (ad_brain s') = true)
    (fun x s' => gd_sites (ad_db s') = gd_sites (ad_db s) /\ exists a, x = Replied a).
Proof.
  intros Hw (Hwf & Ht & Hl). unfold sites_Create. apply awp_bind. eapply awp_mono; [apply awp_of| |]; cbv beta.
  2: { intros x s1 E. pose proof (decode_keeps dec_site body s) as Hd. rewrite E in Hd. cbn in Hd. subst s1. split; [done|].
       unfold decodeJSON in E. destruct (parse_value _ _ _) as [[v r]|]; [|injection E as <-; by eexists].
       destruct (res_bind _ _); [done|]. injection E as <-. by eexists. }
  intros req s1 E. pose proof (decode_keeps dec_site body s) as Hd. rewrite E in Hd. cbn in Hd. subst s1.
  apply awp_bind, awp_check; [|intros; split; [done|by eexists]]. intros _. apply awp_bind. eapply awp_mono; [apply chosen_model_spec| |]; cbv beta.
  2: { intros x s1 (((H1 & _) & _) & Hx). by rewrite H1. }
  intros model s1 ((E1 & E2 & E3 & _ & _) & _). rewrite <- E1 in Hwf |- *. clear E. apply awp_bind. unfold CreateSite. apply awp_bind, awp_exec; [done|congruence|].
  unfold CreateSite_stmt. destruct (domain_taken _ _) eqn:Hdom; [cbn beta iota; destruct (Contains (unique_error "sites.domain") "UNIQUE"); (split; [done|by eexists])|].
  set (site := {| st_name := sr_name req |}). set (d := set_seq _ _). apply awp_select_row; [done|]. cbn [ad_db with_db].
  destruct (wf_sites _ Hwf) as [Hn Hle]. pose proof (numbered_fresh _ _ (conj Hn Hle)) as Hf.
  assert (GetSiteByID (sq_sites (gd_seq (ad_db s1)) + 1) d = Some site) as ->.
  { unfold GetSiteByID. subst d. cbn. rewrite find_snoc by done. unfold site_is. cbn. by rewrite Z.eqb_refl. }
  cbn beta iota. apply awp_bind. unfold awp at 1, on_dbs. destruct (Create migrations (st_id site) _) as [[sdb|e] m] eqn:Hc.
  - apply awp_bind. unfold awp at 1, publish_admin. apply awp_bind. unfold on_site_created. apply awp_bind.
    eapply awp_mono; [apply start_brain_cached|intros r s2 (-> & H1 & H2 & H3)|done].
    { cbn. by erewrite Create_cached. }
    exists site. cbn in H2, H3. split_and!; try done; [by rewrite H2|rewrite H3; cbn; by erewrite Create_cached].
  - apply awp_bind. unfold DeleteSite. apply awp_bind, awp_exec; [done|cbn; congruence|]. cbn. unfold awp. cbn.
    split; [|by eexists]. by apply filter_fresh.
Qed.

(** A site deleted is gone with its worker and its open database, and no other site is
    touched; where there was none, or the statement fails, the sites stay - but the
    worker is stopped already. *)
Theorem site_deleted_whole `{C : Crypto} `{F : Formats} `{K : SQLite} `{X : AdminEnv} text s : ad_tx s = None -> ad_locked s = false ->
  awp (sites_Delete text) s
    (fun a s' => exists id, Atoi text = (id, None) /\ is_Some (GetSiteByID id (ad_db s)) /\ GetSiteByID id (ad_db s') = None /\
       IsRunning id (ad_brain s') = false /\ dbs (ad_dbs s') !! id = None /\
       gd_sites (ad_db s') = List.filter (fun x => negb (site_is id x)) (gd_sites (ad_db s)))
    (fun x s' => (exists a, x = Replied a) /\ gd_sites (ad_db s') = gd_sites (ad_db s)).
Proof.
  intros Ht Hl. unfold sites_Delete. apply awp_bind. unfold url_int. destruct (Atoi text) as [id [e|]]; [by split; [eexists|]|].
  cbn beta iota. apply awp_bind. unfold awp at 1, on_brain. assert (IsRunning id (snd (StopSite id (ad_brain s))) = false) as Hr.
  { unfold StopSite. destruct (workers (ad_brain s) !! id) eqn:E; unfold IsRunning; cbn; [by rewrite lookup_delete_eq|by rewrite E]. }
  destruct (StopSite id (ad_brain s)) as [r b]. cbn in Hr. apply awp_bind. unfold awp at 1, ExecWrite. cbn [ad_locked with_brain]. rewrite Hl.
  unfold exec. cbn [ad_tx with_lock with_brain]. rewrite Ht. destruct (stmt_fails _) as [e|]; cbn.
  { by split; [eexists|]. }
  apply awp_bind. unfold awp at 1. cbn [or_refuse mret A_ret]. apply awp_bind, awp_check.
  2: { intros Hn%negb_false_iff. split; [by eexists|]. cbn. apply filter_absent. by destruct (List.filter _ _). }
  intros Hn. apply awp_bind. unfold awp at 1, on_dbs. cbn [ad_dbs with_lock with_db with_brain count_stmt].
  pose proof (Delete_uncached id (ad_dbs s)) as Hd. destruct (Delete id (ad_dbs s)) as [x m]. cbn in Hd. apply awp_bind.
  unfold awp, publish_admin. exists id. split; [done|]. cbn. split_and!; try done; [|apply find_deleted].
  unfold GetSiteByID. destruct (List.find _ _) as [y|] eqn:E; [by eexists|]. exfalso. clear -E Hn.
  induction (gd_sites (ad_db s)) as [|a l IH]; [done|]. cbn in *. destruct (site_is id a); [done|by apply IH].
Qed.

(** ** Providers *)

(** After a default is set, the one model named is the default of its provider - if it
    is one of his - and the models of other providers keep their marks. *)
Theorem default_model_is_one `{C : Crypto} `{F : Formats} `{K : SQLite} `{X : AdminEnv} idText modelText s : ad_tx s = None ->
  awp (providers_SetDefaultModel idText modelText) s
    (fun _ s' => exists id model, Atoi idText = (id, None) /\ Atoi modelText = (model, None) /\
       gd_models (ad_db s') = map (fun m => if model_of id m then set_default_flag (model_is model m) m else m) (gd_models (ad_db s)))
    (fun x _ => exists a, x = Replied a).
Proof.
  intros Ht. unfold providers_SetDefaultModel. apply awp_bind. unfold url_int at 1. destruct (Atoi idText) as [id [e|]]; [by eexists|].
  cbn beta iota. apply awp_bind. unfold url_int. destruct (Atoi modelText) as [model [e|]]; [by eexists|]. cbn beta iota.
  apply awp_bind. unfold awp at 1, exec. rewrite Ht. destruct (stmt_fails _); [by eexists|]. cbn [mark_models].
  apply awp_bind. unfold awp at 1. cbn [or_refuse mret A_ret]. apply awp_bind. unfold awp at 1, exec. cbn [ad_tx with_db count_stmt]. rewrite Ht.
  destruct (stmt_fails _); [by eexists|]. cbn [mark_models]. apply awp_bind. unfold awp at 1. cbn [or_refuse mret A_ret]. unfold awp. cbn.
  exists id, model. split_and!; try done. unfold update_where. rewrite map_map. apply map_ext. intros m. unfold model_of.
  destruct (lm_provider m =? id) eqn:Em; cbn; unfold model_of; cbn; rewrite Em; [|by rewrite andb_false_r].
  rewrite andb_true_r. unfold model_is. cbn. by destruct (lm_id m =? model).
Qed.

Import AdminSample.

Lemma site_made_whole_witness :
  exists s', fst (sites_Create [] (dq "{'name':'Shop','domain':'shop.example','llm_model_id':1}") start) = Ok s' /\
    IsRunning 1 (ad_brain (snd (sites_Create [] (dq "{'name':'Shop','domain':'shop.example','llm_model_id':1}") start))) = true.
Proof.
  pose proof (site_made_whole (X := calm) [] (dq "{'name':'Shop','domain':'shop.example','llm_model_id':1}") start (fun _ => eq_refl) start_quiet) as H.
  unfold awp in H. destruct (sites_Create _ _ start) as [[a|x] s'] eqn:E.
  - exists a. split; [reflexivity|]. destruct H as (site & _ & _ & Hid & _ & _ & _ & _ & Hr). change (IsRunning (0 + 1) (ad_brain s') = true).
    rewrite Hid in Hr. exact Hr.
  - vm_compute in E. discriminate E.
Defined.

(** The check of an address that is required takes the one that is stored where the
    request gives none; the update then stores none. *)
Example base_url_lost :
  (fun s => map lp_base (gd_providers (ad_db s))) (snd (providers_Update "1" (dq "{'name':'local','is_enabled':true}") start)) = [None].
Proof. vm_compute. reflexivity. Qed.

(** A provider that is renamed or deleted stays in the registry under its old name. *)
Example provider_outlives_itself :
  let s1 := snd (providers_Update "1" (dq "{'name':'one','base_url':'http://x','is_enabled':true}") start) in
  let s2 := snd (providers_Update "1" (dq "{'name':'two','base_url':'http://x','is_enabled':true}") s1) in
  let s3 := snd (providers_Delete "1" s2) in
  gd_providers (ad_db s3) = [] /\ is_Some (providers (ad_live s3) !! "one") /\ is_Some (providers (ad_live s3) !! "two").
Proof. vm_compute. split; [done|]. split; by eexists. Qed.

(** Where the row of a new site cannot be read back the request fails, and the site is
    there without a database. *)
Definition unread : AdminEnv :=
  {| stmt_fails := fun n => if (n =? 2)%nat then Some "disk I/O error" else None; knows_type := None; ping := fun _ _ => None; admin_decrypt := fun k => Ok k |}.
Example site_left_behind :
  let '(r, s') := sites_Create (X := unread) [] (dq "{'name':'Shop','llm_model_id':1}") start in
  r = Err (Replied (answer_error 500 "failed to create site")) /\ map st_name (gd_sites (ad_db s')) = ["Shop"] /\ dbs (ad_dbs s') = ∅.
Proof. vm_compute. done. Qed.

(** A user who cannot be read is not protected: the last admin goes. *)
Definition unread_user : AdminEnv :=
  {| stmt_fails := fun n => if (n =? 0)%nat then Some "database is locked" else None; knows_type := None; ping := fun _ _ => None; admin_decrypt := fun k => Ok k |}.
Example last_admin_deleted :
  gd_users (ad_db (snd (users_Delete (X := unread_user) "1" start))) = [].
Proof. vm_compute. reflexivity. Qed.

(** A worker may be started for a site that does not exist, which makes its database. *)
Example worker_of_no_site :
  let s' := snd (brain_Start [] "99" start) in
  gd_sites (ad_db s') = [] /\ IsRunning 99 (ad_brain s') = true /\ is_Some (SiteDB.files (ad_dbs s') !! 99).
Proof. vm_compute. split_and!; try done. by eexists. Qed.
