(* ===== verification/Services.v ===== *)
(** * tools/providers.go: service providers and authenticated requests

    The table service_providers, the secrets that go with it, and the requests sent
    with them.  The tools for mail and payments use the same rows, so that their
    tables are part of the same store. *)

From Stdlib Require Import ZArith Lia Ascii String List Bool.
From stdpp Require Import base list strings gmap.
From S2P Require Import Prelude GoStrings GoTime JSONText Security World ToolCore SiteTables ToolMonad Tables Endpoints Questions PageText Pages HttpTool Encryption.

Local Open Scope string_scope.

(** ** The tables *)

Record ServiceRow := {
  sp_id : Z; sp_name : string; sp_base : string; sp_type : string; sp_header : string; sp_prefix : string;
  sp_secret : option string; sp_description : string; sp_docs : string; sp_enabled : bool; sp_created : time;
}.

(** payment_config and payments *)
Record PayConfig := { pc_provider : string; pc_type : string; pc_currency : string; pc_secret : string; pc_created : time }.
Record PaymentRow := {
  py_id : Z; py_external : string; py_amount : Z; py_currency : string; py_status : string; py_description : string;
  py_metadata : string; py_url : string; py_created : time; py_updated : time;
}.

(** email_config and email_templates *)
Record MailConfig := { mc_provider : string; mc_type : string; mc_address : string; mc_name : string; mc_created : time }.
Record TemplateRow := { tm_id : Z; tm_name : string; tm_subject : string; tm_html : string; tm_text : string; tm_created : time }.

(** The four tables of the tools are made when they are first used; the two
    configurations have at most one row. *)
Record ServiceStore := {
  sv_providers : list ServiceRow;
  sv_seq : Z;                                   (* the last id of a provider *)
  sv_secrets : list SecretRow;
  sv_pay_config : option (option PayConfig);
  sv_payments : option (list PaymentRow);
  sv_mail_config : option (option MailConfig);
  sv_templates : option (list TemplateRow);
  sv_sent : list HttpReq;                       (* requests sent, the latest last *)
}.

Definition set_rows (l : list ServiceRow) (s : ServiceStore) : ServiceStore :=
  {| sv_providers := l; sv_seq := sv_seq s; sv_secrets := sv_secrets s; sv_pay_config := sv_pay_config s;
     sv_payments := sv_payments s; sv_mail_config := sv_mail_config s; sv_templates := sv_templates s; sv_sent := sv_sent s |}.
Definition set_sequence (n : Z) (s : ServiceStore) : ServiceStore :=
  {| sv_providers := sv_providers s; sv_seq := n; sv_secrets := sv_secrets s; sv_pay_config := sv_pay_config s;
     sv_payments := sv_payments s; sv_mail_config := sv_mail_config s; sv_templates := sv_templates s; sv_sent := sv_sent s |}.
Definition set_pay_config (c : option (option PayConfig)) (s : ServiceStore) : ServiceStore :=
  {| sv_providers := sv_providers s; sv_seq := sv_seq s; sv_secrets := sv_secrets s; sv_pay_config := c;
     sv_payments := sv_payments s; sv_mail_config := sv_mail_config s; sv_templates := sv_templates s; sv_sent := sv_sent s |}.
Definition set_payments (l : option (list PaymentRow)) (s : ServiceStore) : ServiceStore :=
  {| sv_providers := sv_providers s; sv_seq := sv_seq s; sv_secrets := sv_secrets s; sv_pay_config := sv_pay_config s;
     sv_payments := l; sv_mail_config := sv_mail_config s; sv_templates := sv_templates s; sv_sent := sv_sent s |}.
Definition set_mail_config (c : option (option MailConfig)) (s : ServiceStore) : ServiceStore :=
  {| sv_providers := sv_providers s; sv_seq := sv_seq s; sv_secrets := sv_secrets s; sv_pay_config := sv_pay_config s;
     sv_payments := sv_payments s; sv_mail_config := c; sv_templates := sv_templates s; sv_sent := sv_sent s |}.
Definition set_templates (l : option (list TemplateRow)) (s : ServiceStore) : ServiceStore :=
  {| sv_providers := sv_providers s; sv_seq := sv_seq s; sv_secrets := sv_secrets s; sv_pay_config := sv_pay_config s;
     sv_payments := sv_payments s; sv_mail_config := sv_mail_config s; sv_templates := l; sv_sent := sv_sent s |}.
Definition note_sent (rq : HttpReq) (s : ServiceStore) : ServiceStore :=
  {| sv_providers := sv_providers s; sv_seq := sv_seq s; sv_secrets := sv_secrets s; sv_pay_config := sv_pay_config s;
     sv_payments := sv_payments s; sv_mail_config := sv_mail_config s; sv_templates := sv_templates s;
     sv_sent := (sv_sent s ++ [rq])%list |}.

Definition service_named (name : string) (p : ServiceRow) : bool := (sp_name p =? name)%string.
Definition service_is (id : Z) (p : ServiceRow) : bool := (sp_id p =? id)%Z.
Definition enabled_named (name : string) (p : ServiceRow) : bool := service_named name p && sp_enabled p.

Definition ST (A : Type) : Type := T ServiceStore A.

Section Services.
Context `{N : HttpTool.Net} `{A : AEAD} `{E : Env} `{F : Formats} `{O : MapOrder}.
Context (encryptor : option Encryptor).
Implicit Types (args : Args).

(** A statement on a table that may not be there. *)
Definition table_exec {B} (during : string) (f : time -> ServiceStore -> option (B * ServiceStore)) : ST B :=
  o ← save (fun t s => match f t s with Some (b, s') => (Some b, s') | None => (None, s) end);
  match o with Some (Some b) => mret b | _ => throw during end.

(** ** Requests *)

(** [client.Do], redirects followed. *)
Definition client_Do (rq : HttpReq) : ST (res string HttpResp) := fun c =>
  (Ok (http_do (List.length (sv_sent (cs c))) rq), {| cw := cw c; cs := note_sent rq (cs c) |}).

(** The name of the secret a provider authenticates with. *)
Definition needed_secret (p : ServiceRow) : option string :=
  if (sp_type p =? "none")%string then None else match sp_secret p with Some n => nonempty n | None => None end.

(** The header the secret goes into. *)
Definition auth_headers (p : ServiceRow) (secret : string) : list (string * string) :=
  if (sp_type p =? "bearer")%string then [(sp_header p, sp_prefix p ++ " " ++ secret)]
  else if (sp_type p =? "api_key_header")%string then [(sp_header p, secret)]
  else if (sp_type p =? "basic")%string then [(sp_header p, "Basic " ++ secret)]
  else [].

Definition secret_value (name : string) (s : ServiceStore) : option string :=
  option_map sr_value (List.find (secret_named name) (sv_secrets s)).

(** [read] gives the encrypted value, or ends the handler. *)
Definition inject_auth (read : string -> ST string) (p : ServiceRow) : ST (list (string * string)) :=
  match needed_secret p with
  | None => mret []
  | Some name =>
      encryptedValue ← read name;
      match encryptor with
      | None => reject "encryption not available"
      | Some e =>
          match Decrypt e encryptedValue with
          | Err _ => reject "failed to decrypt secret"
          | Ok v => mret (auth_headers p v)
          end
      end
  end.

(** ** The tool *)

Definition executeAdd args : ST Result :=
  let name := arg_string "name" args in
  let baseURL := arg_string "base_url" args in
  guard_reject (negb ((name =? "")%string || (baseURL =? "")%string)) "name and base_url are required";;
  id ← must_save "adding provider" (fun t s =>
    if existsb (service_named name) (sv_providers s) then (None, s)
    else
      let id := (sv_seq s + 1)%Z in
      (Some id, set_sequence id (set_rows (sv_providers s ++
        [{| sp_id := id; sp_name := name; sp_base := baseURL; sp_type := OptionalString args "auth_type" "bearer";
            sp_header := OptionalString args "auth_header" "Authorization"; sp_prefix := OptionalString args "auth_prefix" "Bearer";
            sp_secret := Some (arg_string "secret_name" args); sp_description := arg_string "description" args;
            sp_docs := arg_string "api_docs" args; sp_enabled := true; sp_created := t |}])%list s)));
  match id with
  | None => reject ("provider '" ++ name ++ "' already exists for this site")
  | Some id => mret (success [("id", int id); ("name", JStr name)])
  end.

Definition service_json (p : ServiceRow) : json :=
  JObj ([("api_docs", JStr (sp_docs p)); ("auth_type", JStr (sp_type p)); ("base_url", JStr (sp_base p));
         ("description", JStr (sp_description p)); ("id", int (sp_id p)); ("is_enabled", JBool (sp_enabled p)); ("name", JStr (sp_name p))]
        ++ match sp_secret p with Some n => [("secret_name", JStr n)] | None => [] end)%list.

Definition executeList args : ST Result :=
  r ← load (fun s => order_by sp_name (sv_providers s));
  rows ← or_throw "listing providers" r;
  mret (result_data (JArr (map service_json rows))).

Definition remove_where (key : ServiceRow -> bool) : ST Z :=
  must_save "removing provider" (fun _ s => let '(n, l) := delete_rows key (sv_providers s) in (n, set_rows l s)).

Definition executeRemove args : ST Result :=
  let name := arg_string "name" args in
  affected ← (if negb (name =? "")%string then remove_where (service_named name)
              else match arg_num "id" args with
                   | Some lit => if float_positive lit then remove_where (service_is (float_int lit)) else reject "name or id is required"
                   | None => reject "name or id is required"
                   end);
  guard_reject (negb (affected =? 0)%Z) "provider not found";;
  mret (result_data (JStr "provider removed")).

(** A text that is given replaces the column, even an empty one. *)
Definition given_text (k : string) (old : string) args : string := match arg k args with Some (JStr v) => v | _ => old end.
Definition is_text (k : string) args : bool := match arg k args with Some (JStr _) => true | _ => false end.
Definition updatable : list string := ["description"; "api_docs"; "base_url"; "auth_type"; "secret_name"].
Definition updated_service args (p : ServiceRow) : ServiceRow :=
  {| sp_id := sp_id p; sp_name := sp_name p; sp_base := given_text "base_url" (sp_base p) args; sp_type := given_text "auth_type" (sp_type p) args;
     sp_header := sp_header p; sp_prefix := sp_prefix p;
     sp_secret := match arg "secret_name" args with Some (JStr v) => Some v | _ => sp_secret p end;
     sp_description := given_text "description" (sp_description p) args; sp_docs := given_text "api_docs" (sp_docs p) args;
     sp_enabled := sp_enabled p; sp_created := sp_created p |}.

Definition executeUpdate args : ST Result :=
  let name := arg_string "name" args in
  guard_reject (negb (name =? "")%string) "name is required";;
  guard_reject (existsb (fun k => is_text k args) updatable) "no fields to update";;
  affected ← must_save "updating provider" (fun _ s =>
    (Z.of_nat (List.length (List.filter (service_named name) (sv_providers s))),
     set_rows (update_where (service_named name) (updated_service args) (sv_providers s)) s));
  guard_reject (negb (affected =? 0)%Z) ("provider '" ++ name ++ "' not found");;
  mret (result_data (JStr "provider updated")).

(** The address of a path at a provider. *)
Definition full_url (baseURL path : string) : string :=
  TrimRight baseURL "/" ++ (if (path =? "")%string then "" else if HasPrefix path "/" then path else "/" ++ path).

Definition looked_up_secret (name : string) : ST string :=
  r ← load (secret_value name);
  v ← or_throw "looking up secret" r;
  match v with
  | Some v => mret v
  | None => reject ("secret '" ++ name ++ "' not found — use ask_question(type='secret') to request it from the admin")
  end.

Definition request_result (r : HttpResp) (body : string) : Result :=
  {| Success := (200 <=? rs_code r)%Z && (rs_code r <? 300)%Z;
     Data := Some (JObj [("body", JStr body); ("headers", flattenHeaders (rs_headers r)); ("status", JStr (rs_status r));
                         ("status_code", int (rs_code r))]);
     Error := "" |}.

Definition executeRequest args : ST Result :=
  let providerName := arg_string "provider" args in
  guard_reject (negb (providerName =? "")%string) "provider is required";;
  r ← load (fun s => List.find (enabled_named providerName) (sv_providers s));
  found ← or_throw "looking up provider" r;
  match found with
  | None => reject ("provider '" ++ providerName ++ "' not found or disabled")
  | Some p =>
      let fullURL := full_url (sp_base p) (arg_string "path" args) in
      let method := OptionalString args "method" "POST" in
      match new_request method fullURL with
      | Some e => reject ("creating request: " ++ e)
      | None =>
          auth ← inject_auth looked_up_secret p;
          resp ← client_Do {| rq_method := method; rq_url := fullURL;
                              rq_set := (("Content-Type", "application/json") :: auth ++ request_headers args)%list;
                              rq_content := nonempty (arg_string "body" args) |};
          match resp with
          | Err e => reject ("executing request: " ++ e)
          | Ok r => body ← or_throw "reading response" (limited (100 * 1024) (rs_body r));
                    mret (request_result r body)
          end
      end
  end.

Definition ProvidersTool_Execute args : ST Result :=
  dispatch [("add", executeAdd); ("list", executeList); ("remove", executeRemove); ("update", executeUpdate); ("request", executeRequest)]
    None args.
End Services.
