(* ===== verification/Payments.v ===== *)
(** * tools/payments.go: manage_payments; tools/email.go: manage_email

    Checkouts at a provider of payments, and the webhooks by which it tells how they
    went.  The amounts that two of the providers want as decimals come out of a
    division of float64s.  Then mail through a service provider: the configuration, the
    templates with their variables, and the requests four kinds of providers want. *)

From Stdlib Require Import ZArith Lia Ascii String List Bool.
From stdpp Require Import base list strings gmap.
From S2P Require Import Prelude GoStrings GoTime JSONText Security World ToolCore JSONRead SiteTables ToolMonad Tables Endpoints Questions PageText Pages HttpTool Encryption Services.

Local Open Scope string_scope.

(** ** Amounts *)

(** The integer nearest to n/d, to the even one of two. *)
Definition round_even (n d : Z) : Z :=
  let q := (n / d)%Z in
  let r := (n mod d)%Z in
  if (2 * r <? d)%Z then q else if (d <? 2 * r)%Z then (q + 1)%Z else if Z.even q then q else (q + 1)%Z.

(** n/d times a power of two, as a fraction. *)
Definition scaled (n d e : Z) : Z * Z := if (0 <=? e)%Z then ((n * 2 ^ e)%Z, d) else (n, (d * 2 ^ (- e))%Z).

(** The exponent that gives n/d a mantissa of 53 bits. *)
Definition exponent (n d : Z) : Z :=
  let e := (53 + Z.log2 d - Z.log2 n)%Z in
  let '(a, b) := scaled n d e in
  if (2 ^ 53 <=? a / b)%Z then (e - 1)%Z else e.

(** The float64 nearest to the positive n/d, as a fraction. *)
Definition nearest (n d : Z) : Z * Z :=
  let e := exponent n d in
  let '(a, b) := scaled n d e in
  let m := round_even a b in
  if (0 <=? e)%Z then (m, (2 ^ e)%Z) else ((m * 2 ^ (- e))%Z, 1%Z).

Definition two_digits (n : Z) : string := if (n <? 10)%Z then "0" ++ Itoa n else Itoa n.
(** A number of hundredths. *)
Definition cents_text (c : Z) : string := Itoa (c / 100) ++ "." ++ two_digits (c mod 100).

(** [fmt.Sprintf("%.2f", float64(amount)/100.0)] *)
Definition amountStr (amount : Z) : string :=
  let '(p, q) := nearest amount 1 in
  let '(n, d) := nearest p (100 * q) in
  cents_text (round_even (100 * n) d).

(** ** Requests to the providers *)

Record Checkout := {
  co_amount : Z; co_currency : string; co_description : string; co_success : string; co_cancel : string;
  co_metadata : option (list (string * json));
}.

Section Payments.
Context `{N : HttpTool.Net} `{A : AEAD} `{E : Env} `{F : Formats} `{O : MapOrder} `{Fl : Floats}.
Context (encryptor : option Encryptor).
Context (hmac_sha256 : string -> string -> string).        (* key, message *)
Context (read_before : HttpResp -> string).                (* what was read of a body before an error *)
Implicit Types (args : Args).

(** The metadata as [json.Marshal] writes it; nil is null. *)
Definition metadata_json (m : option (list (string * json))) : option json :=
  match m with Some l => go_value (JObj l) | None => Some JNull end.

(** Address, body and content type. *)
Definition checkout_request (providerType baseURL : string) (c : Checkout) : string * string * string :=
  let base := TrimRight baseURL "/" in
  if (providerType =? "stripe")%string then
    (base ++ "/v1/checkout/sessions",
     "mode=payment&success_url=" ++ co_success c ++ "&cancel_url=" ++ co_cancel c ++ "&line_items[0][price_data][currency]="
       ++ co_currency c ++ "&line_items[0][price_data][unit_amount]=" ++ Itoa (co_amount c)
       ++ "&line_items[0][price_data][product_data][name]=" ++ co_description c ++ "&line_items[0][quantity]=1",
     "application/x-www-form-urlencoded")
  else if (providerType =? "paypal")%string then
    (base ++ "/v2/checkout/orders",
     Marshal (JObj
       [("application_context", JObj [("cancel_url", JStr (co_cancel c)); ("return_url", JStr (co_success c))]);
        ("intent", JStr "CAPTURE");
        ("purchase_units", JArr [JObj
          [("amount", JObj [("currency_code", JStr (ToUpper (co_currency c))); ("value", JStr (amountStr (co_amount c)))]);
           ("description", JStr (co_description c))]])]),
     "application/json")
  else if (providerType =? "mollie")%string then
    (base ++ "/v2/payments",
     Marshal (JObj
       [("amount", JObj [("currency", JStr (ToUpper (co_currency c))); ("value", JStr (amountStr (co_amount c)))]);
        ("cancelUrl", JStr (co_cancel c)); ("description", JStr (co_description c)); ("redirectUrl", JStr (co_success c))]),
     "application/json")
  else
    (base ++ "/payments",
     match metadata_json (co_metadata c) with
     | Some m => Marshal (JObj
         [("amount", int (co_amount c)); ("cancel_url", JStr (co_cancel c)); ("currency", JStr (co_currency c));
          ("description", JStr (co_description c)); ("metadata", m); ("success_url", JStr (co_success c))])
     | None => ""
     end,
     "application/json").

(** ** Answers of the providers *)

(** [json.Unmarshal] into a map, errors dropped. *)
Definition answer_members (body : string) : list (string * json) := match Unmarshal body with Ok (JObj m) => m | _ => [] end.

(** The address of the last link of a kind. *)
Definition link_href (rel : string) (links : list json) : string :=
  fold_left (fun url l => match l with
                          | JObj m => if (arg_string "rel" m =? rel)%string then arg_string "href" m else url
                          | _ => url
                          end) links "".

(** The checkout's address and the provider's id of it. *)
Definition checkout_answer (providerType : string) (m : list (string * json)) : string * string :=
  if (providerType =? "stripe")%string then (arg_string "url" m, arg_string "id" m)
  else if (providerType =? "paypal")%string then
    (match arg_list "links" m with Some l => link_href "approve" l | None => "" end, arg_string "id" m)
  else if (providerType =? "mollie")%string then
    (match arg_object "_links" m with
     | Some l => match arg_object "checkout" l with Some c => arg_string "href" c | None => "" end
     | None => ""
     end, arg_string "id" m)
  else
    let url := arg_string "checkout_url" m in
    let id := arg_string "id" m in
    (if (url =? "")%string then arg_string "url" m else url, if (id =? "")%string then arg_string "payment_id" m else id).

(** ** The tables *)

(** Errors are dropped: a table that cannot be made is missed by what follows. *)
Definition ensure_payments : ST unit :=
  save_ (fun _ s => set_pay_config (Some (default None (sv_pay_config s))) s);;
  save_ (fun _ s => set_payments (Some (default [] (sv_payments s))) s);;
  mret tt.

Definition pay_config (s : ServiceStore) : option PayConfig := mjoin (sv_pay_config s).
Definition payments_of (s : ServiceStore) : list PaymentRow := default [] (sv_payments s).
Definition payment_is (id : Z) (p : PaymentRow) : bool := (py_id p =? id)%Z.
Definition payment_external (id : string) (p : PaymentRow) : bool := (py_external p =? id)%string.

Definition configure args : ST Result :=
  let providerName := arg_string "provider_name" args in
  let providerType := OptionalString args "provider_type" "generic" in
  let currency := OptionalString args "currency" "usd" in
  guard_reject (negb (providerName =? "")%string) "provider_name is required";;
  exists_ ← load (fun s => existsb (service_named providerName) (sv_providers s));
  guard_reject (match exists_ with Ok b => b | Err _ => false end)
    ("provider '" ++ providerName ++ "' not found — create it first with manage_providers");;
  ensure_payments;;
  table_exec "configuring payments" (fun t s =>
    match sv_pay_config s with
    | None => None
    | Some old => Some (tt, set_pay_config (Some (Some
        {| pc_provider := providerName; pc_type := providerType; pc_currency := currency; pc_secret := arg_string "webhook_secret_name" args;
           pc_created := match old with Some c => pc_created c | None => t end |})) s)
    end);;
  mret (success [("currency", JStr currency); ("provider", JStr providerName); ("type", JStr providerType)]).

(** ** Checkouts *)

Definition int_arg (k : string) args : Z := match arg_num k args with Some lit => float_int lit | None => 0%Z end.

Definition secret_or_reject (name : string) : ST string :=
  r ← load (secret_value name);
  match r with Ok (Some v) => mret v | _ => reject ("secret '" ++ name ++ "' not found") end.

Definition body_read (n : nat) (r : HttpResp) : string := take_str n (match rs_body r with Ok b => b | Err _ => read_before r end).

Definition insert_payment (externalID checkoutURL metadata : string) (c : Checkout) (t : time) (s : ServiceStore) : option (Z * ServiceStore) :=
  match sv_payments s with
  | None => None
  | Some l =>
      let id := next_id py_id l in
      Some (id, set_payments (Some (l ++
        [{| py_id := id; py_external := externalID; py_amount := co_amount c; py_currency := co_currency c; py_status := "pending";
            py_description := co_description c; py_metadata := metadata; py_url := checkoutURL; py_created := t; py_updated := t |}])%list) s)
  end.

(** From the provider's row on: the request, and the payment it leads to. *)
Definition checkout_at (providerType : string) (c : Checkout) (p : ServiceRow) : ST Result :=
  let '(reqURL, reqBody, contentType) := checkout_request providerType (sp_base p) c in
  match new_request "POST" reqURL with
  | Some e => reject ("creating request: " ++ e)
  | None =>
      auth ← inject_auth encryptor secret_or_reject p;
      resp ← client_Do {| rq_method := "POST"; rq_url := reqURL; rq_set := (("Content-Type", contentType) :: auth)%list; rq_content := Some reqBody |};
      match resp with
      | Err e => reject ("creating checkout: " ++ e)
      | Ok r =>
          let respBody := body_read (16 * 1024) r in
          if (400 <=? rs_code r)%Z then reject ("provider returned " ++ Itoa (rs_code r) ++ ": " ++ respBody)
          else
            let '(checkoutURL, externalID) := checkout_answer providerType (answer_members respBody) in
            let metadata := match co_metadata c with
                            | Some m => match go_value (JObj m) with Some j => Marshal j | None => "" end
                            | None => "{}"
                            end in
            paymentID ← table_exec "storing payment" (insert_payment externalID checkoutURL metadata c);
            mret (success [("amount", int (co_amount c)); ("checkout_url", JStr checkoutURL); ("currency", JStr (co_currency c));
                           ("external_id", JStr externalID); ("payment_id", int paymentID)])
      end
  end.

Definition createCheckout args : ST Result :=
  let amount := int_arg "amount" args in
  let successURL := arg_string "success_url" args in
  let cancelURL := arg_string "cancel_url" args in
  guard_reject (0 <? amount)%Z "amount (in cents) is required and must be positive";;
  guard_reject (negb ((successURL =? "")%string || (cancelURL =? "")%string)) "success_url and cancel_url are required";;
  ensure_payments;;
  r ← load pay_config;
  match r with
  | Ok (Some cfg) =>
      let c := {| co_amount := amount; co_currency := OptionalString args "currency" (pc_currency cfg);
                  co_description := arg_string "description" args; co_success := successURL; co_cancel := cancelURL;
                  co_metadata := arg_object "metadata" args |} in
      row ← load (fun s => List.find (enabled_named (pc_provider cfg)) (sv_providers s));
      match row with
      | Ok (Some p) => checkout_at (pc_type cfg) c p
      | _ => reject ("payment provider '" ++ pc_provider cfg ++ "' not found or disabled")
      end
  | _ => reject "payments not configured — use manage_payments(action='configure') first"
  end.

(** ** Asking *)

Definition status_json (p : PaymentRow) : Result :=
  success [("amount", int (py_amount p)); ("currency", JStr (py_currency p)); ("description", JStr (py_description p));
           ("external_id", JStr (py_external p)); ("payment_id", int (py_id p)); ("status", JStr (py_status p))].

Definition checkStatus args : ST Result :=
  ensure_payments;;
  let ask key :=
    r ← load (fun s => List.find key (payments_of s));
    match r with Ok (Some p) => mret (status_json p) | _ => reject "payment not found" end in
  match arg_num "payment_id" args with
  | Some lit => ask (payment_is (float_int lit))
  | None => let eid := arg_string "external_id" args in
            if (eid =? "")%string then reject "payment_id or external_id is required" else ask (payment_external eid)
  end.

(** [ORDER BY created_at DESC]: rows of the same second come in any order. *)
Definition payment_json (p : PaymentRow) : json :=
  JObj [("amount", int (py_amount p)); ("created_at", JStr (time_text (py_created p))); ("currency", JStr (py_currency p));
        ("description", JStr (py_description p)); ("external_id", JStr (py_external p)); ("id", int (py_id p)); ("status", JStr (py_status p))].
Definition list_payments (newest : list PaymentRow -> list PaymentRow) args : ST Result :=
  ensure_payments;;
  r ← load sv_payments;
  rows ← or_throw "listing payments" r;
  match rows with
  | None => throw "listing payments"
  | Some l => mret (result_data (slice payment_json (firstn 50 (newest l))))
  end.

(** ** Webhooks *)

(** Stripe's header has parts; the first of scheme v1 counts. *)
Definition verifyWebhookSignature (providerType body signature secret : string) : bool :=
  let expectedMAC := hex_encode (hmac_sha256 secret body) in
  if (providerType =? "stripe")%string then
    match List.find (fun part => HasPrefix part "v1=") (Split "," signature) with
    | Some part => (drop_str 3 part =? expectedMAC)%string
    | None => false
    end
  else (signature =? expectedMAC)%string.

(** Whether a webhook passes: without a secret, a signature or a key, or with a
    secret that cannot be read, there is no check. *)
Definition check_signature (cfg : PayConfig) (body signature : string) : ST bool :=
  if (pc_secret cfg =? "")%string || (signature =? "")%string || bool_decide (encryptor = None) then mret true
  else
    r ← load (secret_value (pc_secret cfg));
    mret match r, encryptor with
         | Ok (Some encryptedValue), Some e =>
             match Decrypt e encryptedValue with
             | Ok secretValue => verifyWebhookSignature (pc_type cfg) body signature secretValue
             | Err _ => true
             end
         | _, _ => true
         end.

(** The provider's id and the new status. *)
Definition webhook_change (providerType : string) (m : list (string * json)) : string * string :=
  if (providerType =? "stripe")%string then
    match arg_object "data" m with
    | Some d => match arg_object "object" d with Some o => (arg_string "id" o, arg_string "payment_status" o) | None => ("", "") end
    | None => ("", "")
    end
  else if (providerType =? "paypal")%string then
    match arg_object "resource" m with
    | Some r => let status := arg_string "status" r in
                (arg_string "id" r, if (status =? "COMPLETED")%string then "paid" else ToLower status)
    | None => ("", "")
    end
  else if (providerType =? "mollie")%string then (arg_string "id" m, arg_string "status" m)
  else let id := arg_string "id" m in
       (if (id =? "")%string then arg_string "payment_id" m else id, arg_string "status" m).

Definition set_status (status : string) (t : time) (p : PaymentRow) : PaymentRow :=
  {| py_id := py_id p; py_external := py_external p; py_amount := py_amount p; py_currency := py_currency p; py_status := status;
     py_description := py_description p; py_metadata := py_metadata p; py_url := py_url p; py_created := py_created p; py_updated := t |}.

Definition handleWebhook args : ST Result :=
  ensure_payments;;
  let body := arg_string "webhook_body" args in
  let signature := arg_string "webhook_signature" args in
  guard_reject (negb (body =? "")%string) "webhook_body is required";;
  r ← load pay_config;
  match r with
  | Ok (Some cfg) =>
      passes ← check_signature cfg body signature;
      guard_reject passes "webhook signature verification failed";;
      match Unmarshal body with
      | Ok (JObj _ as j) | Ok (JNull as j) =>
          let '(externalID, newStatus) := webhook_change (pc_type cfg) (match j with JObj m => m | _ => [] end) in
          guard_reject (negb ((externalID =? "")%string || (newStatus =? "")%string)) "could not extract payment ID or status from webhook";;
          table_exec "updating payment status" (fun t s =>
            match sv_payments s with
            | None => None
            | Some l => Some (tt, set_payments (Some (update_where (payment_external externalID) (set_status newStatus t) l)) s)
            end);;
          mret (success [("external_id", JStr externalID); ("status", JStr newStatus)])
      | _ => reject "invalid webhook JSON"
      end
  | _ => reject "payments not configured"
  end.

Definition PaymentsTool_Execute (newest : list PaymentRow -> list PaymentRow) args : ST Result :=
  dispatch [("configure", configure); ("create_checkout", createCheckout); ("check_status", checkStatus); ("list", list_payments newest);
            ("handle_webhook", handleWebhook)] None args.

Definition PaymentsTool_Summarize (result : string) : string :=
  match parseSummaryResult result with
  | None => summarizeTruncate result 200
  | Some (false, _, e) => summarizeError e
  | Some (true, Some (JArr l), _) => dq "{'success':true,'summary':'Listed " ++ Itoa (Z.of_nat (List.length l)) ++ dq " payments'}"
  | Some (true, Some (JObj m), _) =>
      let status := arg_string "status" m in
      if (status =? "")%string then summarizeTruncate result 300
      else dq "{'success':true,'summary':'Payment status: " ++ status ++ dq "'}"
  | _ => summarizeTruncate result 300
  end.
End Payments.

(** The message, filled in. *)
Record Mail := { ml_to : string; ml_subject : string; ml_html : string; ml_text : string }.

Section Email.
Context `{N : HttpTool.Net} `{A : AEAD} `{C : Crypto} `{E : Env} `{F : Formats} `{O : MapOrder}.
Context (encryptor : option Encryptor).
Context (read_before : HttpResp -> string).
Implicit Types (args : Args).

(** ** Tables *)

Definition ensure_mail : ST unit :=
  save_ (fun _ s => set_mail_config (Some (default None (sv_mail_config s))) s);;
  save_ (fun _ s => set_templates (Some (default [] (sv_templates s))) s);;
  mret tt.

Definition mail_config (s : ServiceStore) : option MailConfig := mjoin (sv_mail_config s).
Definition templates_of (s : ServiceStore) : list TemplateRow := default [] (sv_templates s).
Definition template_named (name : string) (t : TemplateRow) : bool := (tm_name t =? name)%string.

Definition mail_configure args : ST Result :=
  let providerName := arg_string "provider_name" args in
  let providerType := OptionalString args "provider_type" "generic" in
  let fromAddress := arg_string "from_address" args in
  let fromName := arg_string "from_name" args in
  guard_reject (negb ((providerName =? "")%string || (fromAddress =? "")%string)) "provider_name and from_address are required";;
  exists_ ← load (fun s => existsb (service_named providerName) (sv_providers s));
  guard_reject (match exists_ with Ok b => b | Err _ => false end)
    ("provider '" ++ providerName ++ "' not found — create it first with manage_providers");;
  ensure_mail;;
  table_exec "configuring email" (fun t s =>
    match sv_mail_config s with
    | None => None
    | Some old => Some (tt, set_mail_config (Some (Some
        {| mc_provider := providerName; mc_type := providerType; mc_address := fromAddress; mc_name := fromName;
           mc_created := match old with Some c => mc_created c | None => t end |})) s)
    end);;
  mret (success [("from_address", JStr fromAddress); ("from_name", JStr fromName); ("provider", JStr providerName); ("type", JStr providerType)]).

(** ** The message *)

(** What is given goes before the template. *)
Definition or_template (given_ tmpl : string) : string := if (given_ =? "")%string then tmpl else given_.
Definition given_mail args : Mail :=
  {| ml_to := arg_string "to" args; ml_subject := arg_string "subject" args; ml_html := arg_string "body_html" args; ml_text := arg_string "body_text" args |}.
Definition from_template (t : TemplateRow) (m : Mail) : Mail :=
  {| ml_to := ml_to m; ml_subject := or_template (ml_subject m) (tm_subject t); ml_html := or_template (ml_html m) (tm_html t);
     ml_text := or_template (ml_text m) (tm_text t) |}.

Definition load_template args (m : Mail) : ST Mail :=
  let tmplName := arg_string "template_name" args in
  if (tmplName =? "")%string then mret m
  else
    ensure_mail;;
    r ← load (fun s => List.find (template_named tmplName) (templates_of s));
    match r with
    | Ok (Some t) => mret (from_template t m)
    | _ => reject ("template '" ++ tmplName ++ "' not found")
    end.

(** One variable, everywhere; the next sees what it put in. *)
Definition substitute (m : Mail) (kv : string * json) : Mail :=
  let put s := ReplaceAll s ("{{" ++ fst kv ++ "}}") (format_value (snd kv)) in
  {| ml_to := ml_to m; ml_subject := put (ml_subject m); ml_html := put (ml_html m); ml_text := put (ml_text m) |}.
(** In the order the map is walked. *)
Definition fill args (m : Mail) : Mail :=
  match arg_object "template_vars" args with
  | Some vars => fold_left substitute (entries (go_map vars)) m
  | None => m
  end.

(** ** Requests to the providers *)

Definition mail_request (cfg : MailConfig) (baseURL : string) (m : Mail) : string * string * string :=
  let base := TrimRight baseURL "/" in
  if (mc_type cfg =? "sendgrid")%string then
    (base ++ "/mail/send",
     Marshal (JObj
       [("content", JArr [JObj [("type", JStr "text/html"); ("value", JStr (ml_html m))]]);
        ("from", JObj [("email", JStr (mc_address cfg)); ("name", JStr (mc_name cfg))]);
        ("personalizations", JArr [JObj [("to", JArr [JObj [("email", JStr (ml_to m))]])]]);
        ("subject", JStr (ml_subject m))]),
     "application/json")
  else if (mc_type cfg =? "mailgun")%string then
    (base ++ "/messages",
     "from=" ++ mc_name cfg ++ " <" ++ mc_address cfg ++ ">&to=" ++ ml_to m ++ "&subject=" ++ ml_subject m ++ "&html=" ++ ml_html m,
     "application/x-www-form-urlencoded")
  else if (mc_type cfg =? "resend")%string then
    (base ++ "/emails",
     Marshal (JObj [("from", JStr (mc_name cfg ++ " <" ++ mc_address cfg ++ ">")); ("html", JStr (ml_html m)); ("subject", JStr (ml_subject m));
                    ("to", JArr [JStr (ml_to m)])]),
     "application/json")
  else
    (base ++ "/send",
     Marshal (JObj [("from", JStr (mc_address cfg)); ("html", JStr (ml_html m)); ("subject", JStr (ml_subject m)); ("text", JStr (ml_text m));
                    ("to", JStr (ml_to m))]),
     "application/json").

Definition complete (m : Mail) : bool :=
  negb ((ml_to m =? "")%string || (ml_subject m =? "")%string || ((ml_html m =? "")%string && (ml_text m =? "")%string)).

Definition mail_at (cfg : MailConfig) (m : Mail) (p : ServiceRow) : ST Result :=
  let '(reqURL, reqBody, contentType) := mail_request cfg (sp_base p) m in
  match new_request "POST" reqURL with
  | Some e => reject ("creating request: " ++ e)
  | None =>
      auth ← inject_auth encryptor secret_or_reject p;
      resp ← client_Do {| rq_method := "POST"; rq_url := reqURL; rq_set := (("Content-Type", contentType) :: auth)%list; rq_content := Some reqBody |};
      match resp with
      | Err e => reject ("sending email: " ++ e)
      | Ok r =>
          if (400 <=? rs_code r)%Z
          then reject ("email provider returned " ++ Itoa (rs_code r) ++ ": " ++ body_read read_before (8 * 1024) r)
          else mret (success [("status", int (rs_code r)); ("subject", JStr (ml_subject m)); ("to", JStr (ml_to m))])
      end
  end.

Definition send args : ST Result :=
  m ← load_template args (given_mail args);
  let m := fill args m in
  guard_reject (complete m) "to, subject, and body_html (or body_text) are required";;
  ensure_mail;;
  r ← load mail_config;
  match r with
  | Ok (Some cfg) =>
      row ← load (fun s => List.find (enabled_named (mc_provider cfg)) (sv_providers s));
      match row with
      | Ok (Some p) => mail_at cfg m p
      | _ => reject ("email provider '" ++ mc_provider cfg ++ "' not found or disabled")
      end
  | _ => reject "email not configured — use manage_email(action='configure') first"
  end.

(** ** Templates *)

Definition upsert_template (name subject html text : string) (t : time) (l : list TemplateRow) : list TemplateRow :=
  snd (upsert (template_named name) tm_id
    (fun n => {| tm_id := n; tm_name := name; tm_subject := subject; tm_html := html; tm_text := text; tm_created := t |})
    (fun r => {| tm_id := tm_id r; tm_name := tm_name r; tm_subject := subject; tm_html := html; tm_text := text; tm_created := tm_created r |}) l).

Definition saveTemplate args : ST Result :=
  let name := arg_string "template_name" args in
  let subject := arg_string "subject" args in
  let html := arg_string "body_html" args in
  guard_reject (negb ((name =? "")%string || (subject =? "")%string || (html =? "")%string)) "template_name, subject, and body_html are required";;
  ensure_mail;;
  table_exec "saving template" (fun t s =>
    match sv_templates s with
    | None => None
    | Some l => Some (tt, set_templates (Some (upsert_template name subject html (arg_string "body_text" args) t l)) s)
    end);;
  mret (success [("name", JStr name); ("subject", JStr subject)]).

Definition listTemplates args : ST Result :=
  ensure_mail;;
  r ← load sv_templates;
  rows ← or_throw "listing templates" r;
  match rows with
  | None => throw "listing templates"
  | Some l => mret (result_data (slice (fun t => JObj [("created_at", JStr (time_text (tm_created t))); ("name", JStr (tm_name t));
                                                       ("subject", JStr (tm_subject t))]) (order_by tm_name l)))
  end.

Definition EmailTool_Execute args : ST Result :=
  dispatch [("configure", mail_configure); ("send", send); ("save_template", saveTemplate); ("list_templates", listTemplates)] None args.

Definition EmailTool_Summarize (result : string) : string :=
  match parseSummaryResult result with
  | None => summarizeTruncate result 200
  | Some (false, _, e) => summarizeError e
  | Some (true, Some (JArr l), _) => dq "{'success':true,'summary':'Listed " ++ Itoa (Z.of_nat (List.length l)) ++ dq " email templates'}"
  | Some (true, Some (JObj m), _) =>
      let status := arg_string "status" m in
      if (status =? "")%string then summarizeTruncate result 300 else dq "{'success':true,'summary':'Email: " ++ status ++ dq "'}"
  | _ => summarizeTruncate result 300
  end.
End Email.
