(* ===== verification/PaymentFacts.v ===== *)
(** * What the tools of service providers guarantee

    Amounts come out exactly; requests and secrets go to the provider they belong to;
    a payment is followed from its checkout to the webhook that settles it. *)

From Stdlib Require Import ZArith Lia Ascii String List Bool.
From stdpp Require Import base list strings gmap.
From S2P Require Import PublicAPIFacts SchedulerTool Prelude GoStrings GoTime JSONText Security World ToolCore JSONRead SiteTables ToolMonad Tables Endpoints Questions PageText Pages PageFacts HttpTool Paths Encryption Services Payments.

Local Open Scope string_scope.

(** ** Amounts *)

Section Amounts.
Local Open Scope Z_scope.

Lemma round_even_near n d : 0 < d -> Z.abs (2 * (d * round_even n d - n)) <= d.
Proof.
  intros Hd. unfold round_even. pose proof (Z.div_mod n d ltac:(lia)) as E. pose proof (Z.mod_pos_bound n d Hd) as B. cbv zeta.
  destruct (Z.ltb_spec (2 * (n mod d)) d); [|destruct (Z.ltb_spec d (2 * (n mod d))); [|destruct (Z.even _)]]; nia.
Qed.

(** What is nearer than a half is the result. *)
Lemma round_even_is n d a : 0 < d -> Z.abs (2 * (n - d * a)) < d -> round_even n d = a.
Proof. intros Hd Ha. pose proof (round_even_near n d Hd). nia. Qed.

Lemma pow2_pos e : 0 <= e -> 0 < 2 ^ e.
Proof. intros. by apply Z.pow_pos_nonneg. Qed.

(** Half of the exponent halves the fraction. *)
Lemma scaled_half n d e a b : scaled n d e = (a, b) ->
  exists a' b', scaled n d (e - 1) = (a', b') /\ (a = 2 * a' /\ b = b' \/ a = a' /\ b' = 2 * b).
Proof.
  unfold scaled. destruct (Z.leb_spec 0 e), (Z.leb_spec 0 (e - 1)); try lia; intros [= <- <-]; do 2 eexists; (split; [done|]).
  - left. split; [|done]. replace e with (Z.succ (e - 1)) at 1 by lia. rewrite Z.pow_succ_r by lia. lia.
  - right. assert (e = 0) as -> by lia. cbn. lia.
  - right. split; [done|]. replace (- (e - 1)) with (Z.succ (- e)) by lia. rewrite Z.pow_succ_r by lia. lia.
Qed.

(** The mantissa has 53 bits. *)
Lemma exponent_fits n d : 0 < n -> 0 < d -> let '(a, b) := scaled n d (exponent n d) in 0 < a /\ 0 < b /\ 2 ^ 52 * b <= a.
Proof.
  intros Hn Hd. unfold exponent. set (e := 53 + Z.log2 d - Z.log2 n). destruct (scaled n d e) as [a b] eqn:E.
  assert (0 < a /\ 0 < b /\ 2 ^ 52 * b <= a) as (Ha & Hb & H).
  { pose proof (Z.log2_spec n Hn) as [Ln _]. pose proof (Z.log2_spec d Hd) as [_ Ld]. rewrite Z.pow_succ_r in Ld by apply Z.log2_nonneg.
    pose proof (Z.log2_nonneg n). pose proof (Z.log2_nonneg d). unfold scaled in E. destruct (Z.leb_spec 0 e); injection E as <- <-.
    - pose proof (pow2_pos e ltac:(lia)). split_and!; [nia|done|].
      assert (2 ^ Z.log2 n * 2 ^ e = 2 ^ 53 * 2 ^ Z.log2 d) as Ep by (rewrite <- !Z.pow_add_r by lia; f_equal; lia).
      change (2 ^ 53) with (2 * 2 ^ 52) in Ep. nia.
    - pose proof (pow2_pos (- e) ltac:(lia)). split_and!; [done|nia|].
      assert (2 ^ Z.log2 n = 2 ^ 53 * 2 ^ Z.log2 d * 2 ^ (- e)) as Ep by (rewrite <- !Z.pow_add_r by lia; f_equal; lia).
      change (2 ^ 53) with (2 * 2 ^ 52) in Ep. nia. }
  destruct (Z.leb_spec (2 ^ 53) (a / b)) as [Hbig|_]; [|by rewrite E].
  destruct (scaled_half _ _ _ _ _ E) as (a' & b' & -> & Hh). pose proof (Z.mul_div_le a b Hb).
  change (2 ^ 53) with (2 * 2 ^ 52) in Hbig. destruct Hh as [[-> ->]|[-> ->]]; split_and!; nia.
Qed.

(** Rounding to float64 changes a number by one part in 2^53 at most. *)
Lemma nearest_close n d : 0 < n -> 0 < d -> let '(p, q) := nearest n d in
  0 < q /\ 0 < p /\ 2 ^ 53 * Z.abs (p * d - n * q) <= n * q.
Proof.
  intros Hn Hd. pose proof (exponent_fits n d Hn Hd) as H. unfold nearest. set (e := exponent n d) in *. clearbody e.
  destruct (scaled n d e) as [a b] eqn:E. destruct H as (Ha & Hb & H). pose proof (round_even_near a b Hb) as Hr.
  set (m := round_even a b) in *. clearbody m. assert (0 < m) as Hm by (change (2 ^ 52) with 4503599627370496 in H; nia).
  change (2 ^ 53) with (2 * 2 ^ 52). unfold scaled in E. destruct (Z.leb_spec 0 e); injection E as <- <-.
  - pose proof (pow2_pos e ltac:(lia)). split_and!; [done|done|]. replace (m * d - n * 2 ^ e) with (d * m - n * 2 ^ e) by lia. nia.
  - pose proof (pow2_pos (- e) ltac:(lia)). split_and!; [lia|nia|].
    replace (m * 2 ^ (- e) * d - n * 1) with (d * 2 ^ (- e) * m - n) by lia. nia.
Qed.

Lemma hundredths a : 0 < a < 2 ^ 50 ->
  let '(p, q) := nearest a 1 in let '(n, d) := nearest p (100 * q) in round_even (100 * n) d = a.
Proof.
  intros [Ha Hb]. pose proof (nearest_close a 1 Ha ltac:(lia)) as H. destruct (nearest a 1) as [p q]. destruct H as (Hq & Hp & H1).
  pose proof (nearest_close p (100 * q) Hp ltac:(lia)) as H. destruct (nearest p (100 * q)) as [n d]. destruct H as (Hd & Hn & H2).
  apply round_even_is; [done|].
  change (2 ^ 53) with 9007199254740992 in *. change (2 ^ 50) with 1125899906842624 in Hb.
  assert (p <= 2 * (a * q)) as Hpa by nia.
  assert (q * Z.abs (100 * n - d * a) <= Z.abs (n * (100 * q) - p * d) + d * Z.abs (p * 1 - a * q)) as Ht.
  { assert (Z.abs (q * (100 * n - d * a)) = q * Z.abs (100 * n - d * a)) as <- by (rewrite Z.abs_mul, (Z.abs_eq q); lia).
    assert (Z.abs (d * (p * 1 - a * q)) = d * Z.abs (p * 1 - a * q)) as <- by (rewrite Z.abs_mul, (Z.abs_eq d); lia).
    replace (q * (100 * n - d * a)) with ((n * (100 * q) - p * d) + d * (p * 1 - a * q)) by ring. apply Z.abs_triangle. }
  assert (9007199254740992 * (q * Z.abs (100 * n - d * a)) <= 3 * (a * q * d)) as H3 by nia.
  assert (9007199254740992 * Z.abs (100 * n - d * a) <= 3 * (a * d)) as H4.
  { apply (Z.mul_le_mono_pos_l _ _ q Hq). lia. }
  rewrite Z.abs_mul. change (Z.abs 2) with 2. nia.
Qed.
End Amounts.

(** C30. The amount of a checkout is written for PayPal and Mollie with exactly its cents,
    though it went through float64: for every amount below 2^50 cents. *)
Theorem amount_text_exact amount : (0 < amount < 2 ^ 50)%Z -> amountStr amount = cents_text amount.
Proof.
  intros H%hundredths. unfold amountStr. destruct (nearest amount 1) as [p q]. destruct (nearest p (100 * q)) as [n d]. by rewrite H.
Qed.

Lemma amount_text_exact_witness : (0 < 1999 < 2 ^ 50)%Z /\ amountStr 1999 = "19.99".
Proof. split; [done|]. rewrite (amount_text_exact 1999); [reflexivity|done]. Defined.

(** ** Requests *)

Section Requests.
Context `{N : HttpTool.Net} `{A : AEAD} `{C : Crypto} `{E : Env} `{F : Formats} `{O : MapOrder} `{Fl : Floats}.
Context (encryptor : option Encryptor) (hmac_sha256 : string -> string -> string) (read_before : HttpResp -> string)
  (newest : list PaymentRow -> list PaymentRow).
Implicit Types (args : Args) (s : ServiceStore).

(** The address is below that of the provider: its host is the provider's. *)
Definition at_home (p : ServiceRow) (url : string) : Prop :=
  exists rest, url = TrimRight (sp_base p) "/" ++ rest /\ (rest = "" \/ HasPrefix rest "/" = true).

(** The header for the provider's own secret, or none. *)
Definition authorised s (p : ServiceRow) (auth : list (string * string)) : Prop :=
  auth = [] \/ exists name enc e v, needed_secret p = Some name /\ secret_value name s = Some enc /\ encryptor = Some e /\
                                    Decrypt e enc = Ok v /\ auth = auth_headers p v.

Definition lawful s args (rq : HttpReq) : Prop :=
  exists p ct auth extra, In p (sv_providers s) /\ sp_enabled p = true /\ at_home p (rq_url rq) /\
    rq_set rq = (("Content-Type", ct) :: auth ++ extra)%list /\ authorised s p auth /\ (extra = [] \/ extra = request_headers args).

Definition sent_lawfully s args s' : Prop := sv_sent s' = sv_sent s \/ exists rq, lawful s args rq /\ sv_sent s' = (sv_sent s ++ [rq])%list.

(** Nothing sent, and the tables that requests depend on as they were. *)
Definition same s s' : Prop := sv_providers s' = sv_providers s /\ sv_secrets s' = sv_secrets s /\ sv_sent s' = sv_sent s.
Definition none_sent s s' : Prop := sv_sent s' = sv_sent s.

Lemma keeps_table_exec {B} (I : ServiceStore -> Prop) during (f : time -> ServiceStore -> option (B * ServiceStore)) :
  (forall t s b s', I s -> f t s = Some (b, s') -> I s') -> keeps I (table_exec during f) (fun _ => True).
Proof.
  intros Hf. eapply keeps_bind; [apply keeps_save|].
  - intros t s Hs. specialize (Hf t s). destruct (f t s) as [[b s']|]; [by eapply Hf|done].
  - intros [[b|]|] _; [by apply keeps_ret|apply keeps_exit..].
Qed.

Lemma keeps_ensure_payments s : keeps (same s) ensure_payments (fun _ => True).
Proof. unfold ensure_payments. keep_tac; done. Qed.
Lemma keeps_ensure_mail s : keeps (same s) ensure_mail (fun _ => True).
Proof. unfold ensure_mail. keep_tac; done. Qed.
Hint Resolve keeps_ensure_payments keeps_ensure_mail : keeps.

Lemma wp_inv {B} (I : ServiceStore -> Prop) s (m : ST B) (Q : B -> ServiceStore -> Prop) X :
  keeps I m (fun _ => True) -> I s -> (forall b s', I s' -> Q b s') -> (forall x s', I s' -> X x s') -> wp s m Q X.
Proof. intros Hm Hs HQ HX c <-. destruct (Hm c Hs) as [H _]. destruct (m c) as [[b|x] c']; auto. Qed.

(** A request with the secret of its provider, and code that sends nothing more. *)
Lemma wp_request s0 s args p ct extra url read (mk : list (string * string) -> HttpReq) (k : res string HttpResp -> ST Result) :
  same s0 s -> In p (sv_providers s0) -> sp_enabled p = true -> at_home p url ->
  (forall auth, rq_url (mk auth) = url /\ rq_set (mk auth) = (("Content-Type", ct) :: auth ++ extra)%list) ->
  (extra = [] \/ extra = request_headers args) ->
  (forall name, wp s (read name) (fun v s' => s' = s /\ secret_value name s = Some v) (fun _ s' => s' = s)) ->
  (forall r s1, keeps (none_sent s1) (k r) (fun _ => True)) ->
  wp s (auth ← inject_auth encryptor read p; resp ← client_Do (mk auth); k resp) (fun _ => sent_lawfully s0 args) (fun _ => sent_lawfully s0 args).
Proof.
  intros (H1 & H2 & H3) Hin Hen Hhome Hmk Hex Hread Hk. apply wp_bind.
  assert (forall auth, authorised s0 p auth ->
    wp s (resp ← client_Do (mk auth); k resp) (fun _ => sent_lawfully s0 args) (fun _ => sent_lawfully s0 args)) as Hgo.
  { intros auth Ha. apply wp_bind. intros c <-. unfold client_Do. cbn. apply (wp_inv (none_sent (note_sent (mk auth) (cs c)))); try done;
      intros ? s' Hs'; right; exists (mk auth); (split; [|by rewrite Hs'; cbn; rewrite H3]);
      destruct (Hmk auth) as [Hu Hset]; exists p, ct, auth, extra; by rewrite Hu. }
  unfold inject_auth. destruct (needed_secret p) as [name|] eqn:Hn; [|apply wp_ret, Hgo; by left].
  apply wp_bind. eapply wp_mono; [apply Hread| |intros x s' ->; by left]. intros enc s' [-> Hv].
  destruct encryptor as [e|] eqn:He; [|apply wp_exit; by left]. destruct (Decrypt e enc) as [v|] eqn:Hd; [|apply wp_exit; by left].
  apply wp_ret, Hgo. right. exists name, enc, e, v. split_and!; try done. unfold secret_value in *. by rewrite <- H2.
Qed.

Lemma reject_reads s name : wp s (secret_or_reject name) (fun v s' => s' = s /\ secret_value name s = Some v) (fun _ s' => s' = s).
Proof.
  unfold secret_or_reject. apply wp_bind, wp_load; [|intros e; by apply wp_exit].
  destruct (secret_value name s); [by apply wp_ret|by apply wp_exit].
Qed.
Lemma looked_up_reads s name : wp s (looked_up_secret name) (fun v s' => s' = s /\ secret_value name s = Some v) (fun _ s' => s' = s).
Proof.
  unfold looked_up_secret. apply wp_bind, wp_load; [|intros e; apply wp_bind; by apply wp_exit].
  apply wp_bind, wp_ret. destruct (secret_value name s); [by apply wp_ret|by apply wp_exit].
Qed.

Lemma checkout_home providerType c p : at_home p (fst (fst (checkout_request providerType (sp_base p) c))).
Proof. unfold checkout_request. repeat destruct (_ =? _)%string; eexists; (split; [done|by right]). Qed.
Lemma mail_home cfg m p : at_home p (fst (fst (mail_request cfg (sp_base p) m))).
Proof. unfold mail_request. repeat destruct (_ =? _)%string; eexists; (split; [done|by right]). Qed.
Lemma path_home p path : at_home p (full_url (sp_base p) path).
Proof.
  eexists. split; [done|]. destruct (String.eqb_spec path ""); [by left|right]. destruct (HasPrefix path "/") eqn:Hp; [done|by destruct path].
Qed.

Lemma found_enabled name l p : List.find (enabled_named name) l = Some p -> In p l /\ sp_enabled p = true.
Proof. intros [H1 [_ H2]%andb_true_iff]%find_some. done. Qed.

Lemma checkout_lawful s0 s args cfg c p : same s0 s -> In p (sv_providers s0) -> sp_enabled p = true ->
  wp s (checkout_at encryptor read_before cfg c p) (fun _ => sent_lawfully s0 args) (fun _ => sent_lawfully s0 args).
Proof.
  intros Hs Hin Hen. unfold checkout_at. pose proof (checkout_home cfg c p) as Hh. destruct (checkout_request _ _ _) as [[url body] ct].
  destruct (new_request _ _); [apply wp_exit; left; apply Hs|].
  apply (wp_request s0 s args p ct [] url secret_or_reject (fun auth => {| rq_method := "POST"; rq_url := url; rq_set := (("Content-Type", ct) :: auth)%list; rq_content := Some body |}));
    try done; [intros auth; by rewrite app_nil_r|by left|apply reject_reads|].
  intros r s1. keep_tac. apply keeps_table_exec. intros ? st ? ? Hs2. unfold insert_payment. destruct (sv_payments st); [|done]. by intros [= _ <-].
Qed.

Lemma mail_lawful s0 s args cfg m p : same s0 s -> In p (sv_providers s0) -> sp_enabled p = true ->
  wp s (mail_at encryptor read_before cfg m p) (fun _ => sent_lawfully s0 args) (fun _ => sent_lawfully s0 args).
Proof.
  intros Hs Hin Hen. unfold mail_at. pose proof (mail_home cfg m p) as Hh. destruct (mail_request _ _ _) as [[url body] ct].
  destruct (new_request _ _); [apply wp_exit; left; apply Hs|].
  apply (wp_request s0 s args p ct [] url secret_or_reject (fun auth => {| rq_method := "POST"; rq_url := url; rq_set := (("Content-Type", ct) :: auth)%list; rq_content := Some body |}));
    try done; [intros auth; by rewrite app_nil_r|by left|apply reject_reads|].
  intros r s1. keep_tac.
Qed.

(** What every handler begins with. *)
Ltac before_request s0 :=
  lazymatch goal with
  | |- wp ?s (mbind _ (guard_reject _ _)) _ _ => apply wp_bind, wp_guard; [intros _|intros _; by left]
  | |- wp ?s (mbind ?k ?m) ?Q ?X =>
      apply wp_bind; apply (wp_inv (same s0)); [solve [keep_tac; eauto with keeps]|done| |intros ? s' (_ & _ & ?); by left]
  end.

Lemma createCheckout_lawful s0 args :
  wp s0 (createCheckout encryptor read_before args) (fun _ => sent_lawfully s0 args) (fun _ => sent_lawfully s0 args).
Proof.
  unfold createCheckout. do 2 before_request s0. assert (same s0 s0) as Hs0 by done. before_request s0. intros [] s1 Hs1.
  apply wp_bind, wp_load; [|intros e; apply wp_exit; left; apply Hs1]. destruct (pay_config s1) as [cfg|]; [|apply wp_exit; left; apply Hs1].
  apply wp_bind, wp_load; [|intros e; apply wp_exit; left; apply Hs1]. destruct (List.find _ _) as [p|] eqn:Hf; [|apply wp_exit; left; apply Hs1].
  apply found_enabled in Hf as [Hin Hen]. destruct Hs1 as (H1 & H2 & H3). rewrite H1 in Hin. by apply checkout_lawful.
Qed.

Lemma send_lawful s0 args : wp s0 (send encryptor read_before args) (fun _ => sent_lawfully s0 args) (fun _ => sent_lawfully s0 args).
Proof.
  unfold send. assert (same s0 s0) as Hs0 by done. apply wp_bind. apply (wp_inv (same s0)); [unfold load_template; keep_tac|done| |intros ? s' (_ & _ & ?); by left].
  intros m s1 Hs1. apply wp_bind, wp_guard; [intros _|intros _; left; apply Hs1]. before_request s0. intros [] s2 Hs2.
  apply wp_bind, wp_load; [|intros e; apply wp_exit; left; apply Hs2]. destruct (mail_config s2) as [cfg|]; [|apply wp_exit; left; apply Hs2].
  apply wp_bind, wp_load; [|intros e; apply wp_exit; left; apply Hs2]. destruct (List.find _ _) as [p|] eqn:Hf; [|apply wp_exit; left; apply Hs2].
  apply found_enabled in Hf as [Hin Hen]. pose proof Hs2 as (H1 & H2 & H3). rewrite H1 in Hin. by apply mail_lawful.
Qed.

Lemma executeRequest_lawful s0 args : wp s0 (executeRequest encryptor args) (fun _ => sent_lawfully s0 args) (fun _ => sent_lawfully s0 args).
Proof.
  unfold executeRequest. before_request s0. apply wp_bind, wp_load; [|intros e; apply wp_bind, wp_exit; by left]. apply wp_bind, wp_ret.
  destruct (List.find _ _) as [p|] eqn:Hf; [|apply wp_exit; by left]. apply found_enabled in Hf as [Hin Hen].
  destruct (new_request _ _); [apply wp_exit; by left|].
  eapply (wp_request s0 s0 args p _ (request_headers args) _ looked_up_secret (fun auth => {| rq_set := (("Content-Type", "application/json") :: auth ++ request_headers args)%list |}));
    try done; [apply path_home|done|by right|apply looked_up_reads|].
  intros r s1. keep_tac.
Qed.

(** Handlers that send nothing. *)
Ltac sends_nothing :=
  intros ?; lazymatch goal with |- wp ?s _ _ _ => apply (wp_inv (none_sent s)); [|done|intros; by left|intros; by left] end.

Lemma given_headers args args' : given args args' -> request_headers args' = request_headers args.
Proof. intros [->|[v ->]]; [done|]. unfold request_headers, arg_object, set_arg. by rewrite arg_snoc. Qed.

Lemma lawful_given s args args' s' : given args args' -> sent_lawfully s args' s' -> sent_lawfully s args s'.
Proof.
  intros Hg [H|(rq & (p & ct & auth & extra & H1 & H2 & H3 & H4 & H5 & H6) & H)]; [by left|]. right. exists rq. split; [|done].
  exists p, ct, auth, extra. rewrite <- (given_headers _ _ Hg). done.
Qed.

Lemma keeps_none_exec {B} s during (f : time -> ServiceStore -> option (B * ServiceStore)) :
  (forall t s1 b s2, f t s1 = Some (b, s2) -> sv_sent s2 = sv_sent s1) -> keeps (none_sent s) (table_exec during f) (fun _ => True).
Proof. intros Hf. apply keeps_table_exec. intros t s1 b s2 H1 H2. unfold none_sent. rewrite (Hf _ _ _ _ H2). exact H1. Qed.
Lemma none_ensure_payments s : keeps (none_sent s) ensure_payments (fun _ => True).
Proof. unfold ensure_payments. keep_tac; done. Qed.
Lemma none_ensure_mail s : keeps (none_sent s) ensure_mail (fun _ => True).
Proof. unfold ensure_mail. keep_tac; done. Qed.
Hint Resolve none_ensure_payments none_ensure_mail : keeps.

Ltac quiet_exec := apply keeps_none_exec; let H := fresh in intros ? ? ? ? H; repeat case_match; try done; by injection H as <- <- || injection H as <-.

Lemma wp_tool s args (routes : list (string * ActionHandler (T ServiceStore Result))) :
  Forall (fun r => forall args, wp s (snd r args) (fun _ => sent_lawfully s args) (fun _ => sent_lawfully s args)) routes ->
  wp s (dispatch routes None args) (fun _ => sent_lawfully s args) (fun _ => sent_lawfully s args).
Proof.
  intros H. apply wp_dispatch; [by left|]. intros name h args' Hin Hg. rewrite List.Forall_forall in H. specialize (H _ Hin args').
  eapply wp_mono; [exact H|intros; by eapply lawful_given..].
Qed.

Lemma providers_lawful s args : wp s (ProvidersTool_Execute encryptor args) (fun _ => sent_lawfully s args) (fun _ => sent_lawfully s args).
Proof.
  apply wp_tool. rewrite !Forall_cons, Forall_nil. split_and!; cbn [snd]; try done; try exact (executeRequest_lawful s); sends_nothing.
  - unfold executeAdd. keep_tac. unfold none_sent in *. destruct (existsb _ _); done.
  - unfold executeList. keep_tac.
  - unfold executeRemove, remove_where. keep_tac; unfold delete_rows; done.
  - unfold executeUpdate. keep_tac; done.
Qed.

Lemma email_lawful s args : wp s (EmailTool_Execute encryptor read_before args) (fun _ => sent_lawfully s args) (fun _ => sent_lawfully s args).
Proof.
  apply wp_tool. rewrite !Forall_cons, Forall_nil. split_and!; cbn [snd]; try done; try exact (send_lawful s); sends_nothing.
  - unfold mail_configure. keep_tac. quiet_exec.
  - unfold saveTemplate. keep_tac. quiet_exec.
  - unfold listTemplates. keep_tac.
Qed.

Lemma payments_lawful s args :
  wp s (PaymentsTool_Execute encryptor hmac_sha256 read_before newest args) (fun _ => sent_lawfully s args) (fun _ => sent_lawfully s args).
Proof.
  apply wp_tool. rewrite !Forall_cons, Forall_nil. split_and!; cbn [snd]; try done; try exact (createCheckout_lawful s); sends_nothing.
  - unfold configure. keep_tac. quiet_exec.
  - unfold checkStatus. keep_tac.
  - unfold list_payments. keep_tac.
  - unfold handleWebhook, check_signature. keep_tac; quiet_exec.
Qed.
End Requests.

(** The next id is above all others. *)
Lemma next_id_above {B} (key : B -> Z) l x : In x l -> (key x < next_id key l)%Z.
Proof.
  unfold next_id. assert (forall l a, (a <= fold_left Z.max l a)%Z) as Hge by (intros l0; induction l0 as [|y l0 IH]; cbn; intros a; [done|specialize (IH (Z.max a y)); lia]).
  generalize 0%Z. induction l as [|y l IH]; intros a; cbn; [done|]. intros [->|H]; [specialize (Hge (map key l) (Z.max a (key x))); lia|by apply IH].
Qed.

Section Following.
Context `{N : HttpTool.Net} `{A : AEAD} `{E : Env} `{K : !Calm} `{F : Formats} `{O : MapOrder} `{Fl : Floats}.
Context (encryptor : option Encryptor) (hmac_sha256 : string -> string -> string) (read_before : HttpResp -> string).
Implicit Types (args : Args) (s : ServiceStore).

(** With the tables of payments made. *)
Definition ensured s : ServiceStore :=
  set_payments (Some (payments_of s)) (set_pay_config (Some (default None (sv_pay_config s))) s).

Lemma wp_ensure s (Q : unit -> ServiceStore -> Prop) X : Q tt (ensured s) -> wp s ensure_payments Q X.
Proof.
  intros H. unfold ensure_payments. apply wp_bind, wp_save__calm. intros _. apply wp_bind, wp_save__calm. intros _. by apply wp_ret.
Qed.

Lemma wp_table_exec {B} s during (f : time -> ServiceStore -> option (B * ServiceStore)) (Q : B -> ServiceStore -> Prop) X :
  (forall t, match f t s with Some (b, s') => Q b s' | None => X (Failed during) s end) -> wp s (table_exec during f) Q X.
Proof.
  intros H. unfold table_exec. apply wp_bind, wp_save_calm. intros t. specialize (H t). destruct (f t s) as [[b s']|]; cbn; [by apply wp_ret|by apply wp_exit].
Qed.

Lemma ensured_config s : pay_config (ensured s) = pay_config s.
Proof. unfold pay_config. cbn. by destruct (sv_pay_config s). Qed.

Lemma fresh_payment l : List.find (payment_is (next_id py_id l)) l = None.
Proof.
  destruct (List.find _ _) as [p|] eqn:Hf; [|done]. apply find_some in Hf as [Hin Hid%Z.eqb_eq].
  pose proof (next_id_above py_id l p Hin). lia.
Qed.

Lemma find_last (key : PaymentRow -> bool) l p : List.find key l = None -> key p = true -> List.find key (l ++ [p])%list = Some p.
Proof. induction l as [|x l IH]; cbn; [by intros _ ->|]. destruct (key x); [done|exact IH]. Qed.

(** The row a checkout leads to. *)
Definition booked args s (p : PaymentRow) : Prop :=
  py_id p = next_id py_id (payments_of s) /\ py_status p = "pending" /\ py_amount p = int_arg "amount" args /\ (0 < py_amount p)%Z /\
  py_description p = arg_string "description" args /\
  exists cfg, pay_config s = Some cfg /\ py_currency p = OptionalString args "currency" (pc_currency cfg).

(** Code that leaves the payments alone. *)
Lemma keeps_auth l read (p : ServiceRow) : (forall name, keeps (fun s => sv_payments s = l) (read name) (fun _ => True)) ->
  keeps (fun s => sv_payments s = l) (inject_auth encryptor read p) (fun _ => True).
Proof. intros H. unfold inject_auth. keep_tac. Qed.
Lemma keeps_Do l rq : keeps (fun s => sv_payments s = l) (client_Do rq) (fun _ => True).
Proof. by intros c Hc. Qed.

(** What a checkout leaves when it ends early: the payments there were. *)
Definition unpaid s s' : Prop := payments_of s' = payments_of s.

Lemma checkout_books s0 s args cfg p c0 :
  c0 = {| co_amount := int_arg "amount" args; co_currency := OptionalString args "currency" (pc_currency cfg);
          co_description := arg_string "description" args; co_success := arg_string "success_url" args;
          co_cancel := arg_string "cancel_url" args; co_metadata := arg_object "metadata" args |} ->
  pay_config s0 = Some cfg -> (0 < co_amount c0)%Z -> sv_payments s = Some (payments_of s0) ->
  wp s (checkout_at encryptor read_before (pc_type cfg) c0 p)
    (fun r s' => exists row, booked args s0 row /\ sv_payments s' = Some (payments_of s0 ++ [row])%list /\
      Success r = true /\ option_map (fun d => arg "payment_id" (match d with JObj m => m | _ => [] end)) (Data r) = Some (Some (int (py_id row))))
    (fun _ s' => sv_payments s' = Some (payments_of s0)).
Proof.
  intros Hc Hcfg Ham Hs. unfold checkout_at. destruct (checkout_request _ _ _) as [[url body] ct]. destruct (new_request _ _); [by apply wp_exit|].
  apply wp_bind. eapply (wp_inv (fun s' => sv_payments s' = Some (payments_of s0))); [|exact Hs| |done].
  { apply keeps_auth. intros name. unfold secret_or_reject. keep_tac. }
  intros auth s1 H1. apply wp_bind. eapply wp_inv; [apply keeps_Do|exact H1| |done]. cbv beta. intros resp s2 H2.
  destruct resp as [r|e]; [|by apply wp_exit]. destruct (400 <=? rs_code r)%Z; [by apply wp_exit|].
  destruct (checkout_answer _ _) as [curl ext]. apply wp_bind, wp_table_exec. intros t. unfold insert_payment. rewrite H2. apply wp_ret.
  eexists. split; [|split; [done|by split]]. subst c0. unfold booked. cbn. split_and!; try done. by exists cfg.
Qed.
End Following.

Section Settled.
Context `{N : HttpTool.Net} `{A : AEAD} `{E : Env} `{K : !Calm} `{F : Formats} `{O : MapOrder} `{Fl : Floats}.
Context (encryptor : option Encryptor) (hmac_sha256 : string -> string -> string) (read_before : HttpResp -> string).

(** Asking for a payment by its id. *)
Lemma status_by_id ask lit s l p : arg_num "payment_id" ask = Some lit -> sv_payments s = Some l ->
  List.find (payment_is (float_int lit)) l = Some p ->
  wp s (checkStatus ask) (fun r _ => r = status_json p) (fun _ _ => False).
Proof.
  intros Ha Hs Hf. unfold checkStatus. apply wp_bind, wp_ensure. rewrite Ha. apply wp_bind, wp_load_calm.
  unfold ensured, payments_of. cbn. rewrite Hs. cbn. rewrite Hf. by apply wp_ret.
Qed.

(** A signature as the provider's kind writes it: the HMAC in hex, which a kind like
    Stripe's lists among others as v1. *)
Definition fits (type signature secret body : string) : Prop :=
  let expected := hex_encode (hmac_sha256 secret body) in
  if (type =? "stripe")%string then In ("v1=" ++ expected) (Split "," signature) else signature = expected.

Lemma verify_fits type body signature secret : verifyWebhookSignature hmac_sha256 type body signature secret = true -> fits type signature secret body.
Proof.
  unfold verifyWebhookSignature, fits. destruct (type =? "stripe")%string; [|by intros ->%String.eqb_eq].
  destruct (List.find _ _) as [part|] eqn:Hf; [|done]. intros Hd%String.eqb_eq. apply find_some in Hf as [Hin Hp].
  apply HasPrefix_split in Hp as [r ->]. change (drop_str 3 ("v1=" ++ r)) with (drop_str 0 r) in Hd. cbn in Hd. by rewrite <- Hd.
Qed.

(** Why a webhook is let through. *)
Definition vouched (cfg : PayConfig) (s : ServiceStore) (body signature : string) : Prop :=
  pc_secret cfg = "" \/ signature = "" \/ encryptor = None \/
  (exists e, encryptor = Some e /\
     match secret_value (pc_secret cfg) s with
     | Some enc => match Decrypt e enc with
                   | Ok secret => fits (pc_type cfg) signature secret body
                   | Err _ => True                                (* a secret that cannot be read checks nothing *)
                   end
     | None => True
     end).

Lemma wp_check s cfg body signature (Q : bool -> ServiceStore -> Prop) X :
  (vouched cfg s body signature -> Q true s) -> Q false s -> wp s (check_signature encryptor hmac_sha256 cfg body signature) Q X.
Proof.
  intros Ht Hf. unfold check_signature. destruct (String.eqb_spec (pc_secret cfg) ""); [apply wp_ret, Ht; by left|].
  destruct (String.eqb_spec signature ""); [apply wp_ret, Ht; by right; left|]. cbn [orb].
  destruct encryptor as [e|] eqn:He; [|apply wp_ret, Ht; by right; right; left]. cbn. apply wp_bind, wp_load_calm, wp_ret.
  unfold vouched in Ht. rewrite He in Ht.
  assert (forall P : Prop, P -> pc_secret cfg = "" \/ signature = "" \/ Some e = None \/ P) as Hlast by (intros P HP; by right; right; right).
  destruct (secret_value (pc_secret cfg) s) as [enc|] eqn:Hs; [|apply Ht, Hlast; exists e; by rewrite ?Hs].
  destruct (Decrypt e enc) as [v|] eqn:Hd; [|apply Ht, Hlast; exists e; by rewrite ?Hs, ?Hd].
  destruct (verifyWebhookSignature _ _ _ _ _) eqn:Hv; [|done]. apply Ht, Hlast. exists e. rewrite ?Hs, ?Hd. split; [done|]. by apply verify_fits.
Qed.
End Settled.

Section Theorems.
Context `{N : HttpTool.Net} `{A : AEAD} `{E : Env} `{K : !Calm} `{F : Formats} `{O : MapOrder} `{Fl : Floats}.
Context (encryptor : option Encryptor) (hmac_sha256 : string -> string -> string) (read_before : HttpResp -> string).

(** Rows are found by their id before a change of status as after it. *)
Lemma find_updated id key status t l : List.find (payment_is id) (update_where key (set_status status t) l)
  = option_map (fun p => if key p then set_status status t p else p) (List.find (payment_is id) l).
Proof.
  unfold update_where. induction l as [|p l IH]; [done|]. cbn. assert (payment_is id (if key p then set_status status t p else p) = payment_is id p) as ->
    by (by destruct (key p)). by destruct (payment_is id p).
Qed.

(** C27. A payment can be followed.  A checkout that succeeds adds one payment with an id
    of its own, pending, of the amount asked for, and answers with its id; asked for by
    that id, it is given.  A checkout that fails adds none. *)
Theorem payment_followed args s :
  wp s (createCheckout encryptor read_before args)
    (fun r s' => exists p, booked args s p /\ payments_of s' = (payments_of s ++ [p])%list /\
       option_map (fun d => arg "payment_id" (match d with JObj m => m | _ => [] end)) (Data r) = Some (Some (int (py_id p))) /\
       forall ask lit, arg_num "payment_id" ask = Some lit -> float_int lit = py_id p ->
         wp s' (checkStatus ask) (fun answer _ => answer = status_json p) (fun _ _ => False))
    (fun _ s' => payments_of s' = payments_of s).
Proof.
  unfold createCheckout. apply wp_bind, wp_guard; [intros Ham%Z.ltb_lt|done]. apply wp_bind, wp_guard; [intros _|done].
  apply wp_bind, wp_ensure. apply wp_bind, wp_load_calm. rewrite ensured_config. destruct (pay_config s) as [cfg|] eqn:Hc; [|by apply wp_exit].
  apply wp_bind, wp_load_calm. destruct (List.find _ _) as [row|]; [|by apply wp_exit].
  eapply wp_mono; [apply (checkout_books encryptor read_before s _ args cfg row); try done| |]; cbv beta.
  - intros r s' (p & Hb & Hs & _ & Hd). exists p. unfold payments_of at 1. rewrite Hs. split_and!; try done.
    intros ask lit Ha Hl. apply (status_by_id ask lit s' _ p Ha Hs). destruct Hb as (Hid & _). rewrite Hl, Hid.
    apply find_last; [apply fresh_payment|]. unfold payment_is. rewrite Hid. apply Z.eqb_refl.
  - intros x s' Hs. unfold payments_of at 1. by rewrite Hs.
Qed.

(** C28. What a webhook of the provider does.  It is taken only with a signature that
    matches, unless there is no secret or no signature to check by; it gives the status
    it tells to the payments of the provider's id it names, which is what is answered
    from then on; refused or failing, it changes nothing. *)
Theorem webhook_checked args s :
  let body := arg_string "webhook_body" args in
  wp s (handleWebhook encryptor hmac_sha256 args)
    (fun _ s' => exists cfg m id status t, pay_config s = Some cfg /\ vouched encryptor hmac_sha256 cfg s body (arg_string "webhook_signature" args) /\
       Unmarshal body = Ok (JObj m) /\ webhook_change (pc_type cfg) m = (id, status) /\ id <> "" /\ status <> "" /\
       payments_of s' = update_where (payment_external id) (set_status status t) (payments_of s) /\
       forall ask lit p, arg_num "payment_id" ask = Some lit -> List.find (payment_is (float_int lit)) (payments_of s) = Some p ->
         wp s' (checkStatus ask) (fun answer _ => answer = status_json (if payment_external id p then set_status status t p else p)) (fun _ _ => False))
    (fun _ s' => payments_of s' = payments_of s).
Proof.
  cbv zeta. unfold handleWebhook. apply wp_bind, wp_ensure. apply wp_bind, wp_guard; [intros _|done]. apply wp_bind, wp_load_calm.
  rewrite ensured_config. destruct (pay_config s) as [cfg|] eqn:Hc; [|by apply wp_exit]. apply wp_bind, wp_check; [intros Hv|].
  2: { by apply wp_bind, wp_exit. }
  apply wp_bind, wp_ret. destruct (Unmarshal _) as [[|b|n|t|l|m]|e] eqn:Hu; try by apply wp_exit.
  { assert (webhook_change (pc_type cfg) [] = ("", "")) as ->; [|by apply wp_bind, wp_exit].
    unfold webhook_change. by destruct (pc_type cfg =? "stripe")%string, (pc_type cfg =? "paypal")%string, (pc_type cfg =? "mollie")%string. }
  destruct (webhook_change (pc_type cfg) m) as [id status] eqn:Hw. apply wp_bind, wp_guard; [intros Hg|done].
  apply wp_bind, wp_table_exec. intros t. cbn. apply wp_ret. exists cfg, m, id, status, t.
  destruct (String.eqb_spec id ""), (String.eqb_spec status ""); try done. split_and!; try done.
  intros ask lit p Ha Hf. eapply status_by_id; [done|reflexivity|]. rewrite find_updated, Hf. done.
Qed.
End Theorems.


(** ** Examples *)

Module PaymentSample.
#[export] Existing Instances ApiSample.order digit_floats EncryptionSample.plain FloatSample.same_numbers.
#[export] Instance env : Env := calm_env (fun _ _ => Err "").
#[export] Instance calm : Calm.
Proof. by split. Qed.
#[export] Instance provider : HttpTool.Net :=
  {| url_parse _ := Err ""; lookup_host _ _ := Err ""; parse_ip _ := None; new_request _ _ := None;
     http_do _ _ := Ok {| rs_code := 200; rs_status := "200 OK"; rs_headers := ∅; rs_body := Ok (dq "{'id':'cs_1','url':'https://pay.test/cs_1'}") |};
     parse_rss _ := None; parse_atom _ := None; html_tokens _ := [] |}.

Definition key : option Encryptor := Some {| enc_key := "k" |}.
Definition sealed (s : string) : string := EncodeToString ("000000000000" ++ s).
Definition mac (k m : string) : string := k ++ m.
Definition nothing_read (r : HttpResp) : string := "".

Definition shop : ServiceStore :=
  {| sv_providers := [{| sp_id := 1; sp_name := "stripe"; sp_base := "https://api.test/"; sp_type := "bearer"; sp_header := "Authorization";
                         sp_prefix := "Bearer"; sp_secret := Some "stripe_key"; sp_description := ""; sp_docs := ""; sp_enabled := true; sp_created := 0 |}];
     sv_seq := 1;
     sv_secrets := [{| sr_id := 1; sr_name := "stripe_key"; sr_value := sealed "sk"; sr_created := 0; sr_updated := 0 |};
                    {| sr_id := 2; sr_name := "hook"; sr_value := sealed "wh"; sr_created := 0; sr_updated := 0 |}];
     sv_pay_config := Some (Some {| pc_provider := "stripe"; pc_type := "stripe"; pc_currency := "usd"; pc_secret := "hook"; pc_created := 0 |});
     sv_payments := None; sv_mail_config := None; sv_templates := None; sv_sent := [] |}.
Definition buy : Args :=
  [("action", JStr "create_checkout"); ("amount", JNum "1999"); ("success_url", JStr "/ok"); ("cancel_url", JStr "/no"); ("description", JStr "Hat")].
Definition balance : Args :=
  [("action", JStr "request"); ("provider", JStr "stripe"); ("path", JStr "v1/balance"); ("method", JStr "GET")].
Definition run (m : ST Result) (s : ServiceStore) : Exit * ServiceStore :=
  let '(x, c) := outcome_of m {| cw := new_world; cs := s |} in (x, cs c).
Definition bought : ServiceStore := snd (run (createCheckout key nothing_read buy) shop).
Definition paid (signature : string) : Args :=
  [("webhook_body", JStr (dq "{'data':{'object':{'id':'cs_1','payment_status':'paid'}}}")); ("webhook_signature", JStr signature)].
End PaymentSample.
Import PaymentSample.

Lemma payment_followed_witness : map py_status (payments_of bought) = ["pending"] /\
  exists p, booked buy shop p /\ payments_of bought = [p].
Proof.
  split; [reflexivity|]. pose proof (payment_followed key nothing_read buy shop {| cw := new_world; cs := shop |} eq_refl) as H.
  change bought with (cs (snd (createCheckout key nothing_read buy {| cw := new_world; cs := shop |}))).
  destruct (createCheckout key nothing_read buy _) as [[r|x] c] eqn:Hc; [|vm_compute in Hc; discriminate Hc].
  destruct H as (p & Hb & Hp & _). exists p. split; [exact Hb|exact Hp].
Defined.

Lemma webhook_checked_witness :
  let s' := snd (run (handleWebhook key mac (paid (dq "t=1,v1=" ++ hex_encode (mac "wh" (dq "{'data':{'object':{'id':'cs_1','payment_status':'paid'}}}"))))) bought) in
  map py_status (payments_of s') = ["paid"] /\ exists id t, payments_of s' = update_where (payment_external id) (set_status "paid" t) (payments_of bought).
Proof.
  cbv zeta. match goal with |- context [handleWebhook key mac ?a] => set (args := a) end. split; [reflexivity|].
  pose proof (webhook_checked key mac args bought {| cw := new_world; cs := bought |} eq_refl) as H.
  unfold run, outcome_of. destruct (handleWebhook key mac args _) as [[r|x] c] eqn:Hc; [|vm_compute in Hc; discriminate Hc].
  destruct H as (cfg & m & id & status & t & Hcfg & _ & Hu & Hw & _ & _ & Hp & _). exists id, t. cbn [snd cs].
  vm_compute in Hcfg. injection Hcfg as <-. vm_compute in Hu. injection Hu as <-. vm_compute in Hw. injection Hw as _ <-. exact Hp.
Defined.

(** Without a signature anyone settles a payment, although there is a secret. *)
Example unsigned_webhook_taken : map py_status (payments_of (snd (run (handleWebhook key mac (paid "")) bought))) = ["paid"].
Proof. vm_compute. reflexivity. Qed.

(** Stripe signs the time of the webhook with its body ([t.body]), so that its own
    signatures do not match. *)
Example stripe_refused :
  let body := dq "{'data':{'object':{'id':'cs_1','payment_status':'paid'}}}" in
  map py_status (payments_of (snd (run (handleWebhook key mac (paid ("t=1,v1=" ++ hex_encode (mac "wh" ("1." ++ body))))) bought))) = ["pending"].
Proof. vm_compute. reflexivity. Qed.

(** A settled payment is unsettled by a later webhook, and a webhook that names no
    payment succeeds. *)
Example webhook_of_nothing :
  let args := [("webhook_body", JStr (dq "{'data':{'object':{'id':'other','payment_status':'paid'}}}"))] in
  let '(x, s') := run (handleWebhook key mac args) bought in
  x = Returned (success [("external_id", JStr "other"); ("status", JStr "paid")]) /\ map py_status (payments_of s') = ["pending"].
Proof. vm_compute. done. Qed.

(** The description goes into Stripe's form as it is: it can set the amount. *)
Example form_injected :
  map rq_content (sv_sent (snd (run (createCheckout key nothing_read
    [("amount", JNum "1999"); ("success_url", JStr "/ok"); ("cancel_url", JStr "/no"); ("description", JStr "Hat&line_items[0][price_data][unit_amount]=1")]) shop)))
  = [Some "mode=payment&success_url=/ok&cancel_url=/no&line_items[0][price_data][currency]=usd&line_items[0][price_data][unit_amount]=1999&line_items[0][price_data][product_data][name]=Hat&line_items[0][price_data][unit_amount]=1&line_items[0][quantity]=1"].
Proof. vm_compute. reflexivity. Qed.


(** But the address of a provider can be changed without its secret, which then goes
    there. *)
Example secret_redirected :
  let s' := snd (run (ProvidersTool_Execute key [("action", JStr "update"); ("name", JStr "stripe"); ("base_url", JStr "http://10.0.0.1")]) shop) in
  map (fun rq => (rq_url rq, rq_set rq)) (sv_sent (snd (run (ProvidersTool_Execute key balance) s')))
  = [("http://10.0.0.1/v1/balance", [("Content-Type", "application/json"); ("Authorization", "Bearer sk")])].
Proof. vm_compute. reflexivity. Qed.

(** ** Mail *)

Definition mailbox (type : string) : ServiceStore :=
  set_mail_config (Some (Some {| mc_provider := "stripe"; mc_type := type; mc_address := "a@test"; mc_name := "A"; mc_created := 0 |})) shop.
Definition text_only : Args := [("to", JStr "b@test"); ("subject", JStr "Hi"); ("body_text", JStr "Hello")].

(** A mail of text alone is complete, but three kinds of providers get no text. *)
Example text_is_lost : map rq_content (sv_sent (snd (run (send (C := ApiSample.crypto) key nothing_read text_only) (mailbox "resend"))))
  = [Some (dq "{'from':'A \u003ca@test\u003e','html':'','subject':'Hi','to':['b@test']}")].
Proof. vm_compute. reflexivity. Qed.

(** float64 agrees: the quotient rounded once and printed. *)
Example amounts : map amountStr [1; 99; 100; 1999; 4503599627370497]%Z = ["0.01"; "0.99"; "1.00"; "19.99"; "45035996273704.97"].
Proof. vm_compute. reflexivity. Qed.
