(* ===== verification/WebhookTool.v ===== *)
(** * tools/webhooks.go: manage_webhooks

    How the model makes webhooks and subscribes them, on the tables the deliveries of
    Webhooks read, and that what is subscribed is delivered. *)

From Stdlib Require Import ZArith Lia Ascii String List Bool.
From stdpp Require Import base list strings gmap.
From S2P Require Import Webhooks SchedulerTool PublicAPIFacts Prelude GoStrings GoTime JSONText Security World ToolCore SiteTables ToolMonad Tables Endpoints Encryption PageFacts.

Local Open Scope string_scope.

(** The tables, with the last id AUTOINCREMENT has given. *)
Record HookStore := { hs_hooks : Hooks; hs_seq : Z }.

Definition with_hooks (rows : list WebhookRow) (subs : list (Z * string)) (logs_ : list LogRow) (h : Hooks) : Hooks :=
  {| webhooks := rows; subscriptions := subs; logs := logs_; log_seq := log_seq h; Webhooks.clock := Webhooks.clock h; posted := posted h; Webhooks.events := Webhooks.events h |}.
Definition set_webhooks (rows : list WebhookRow) (s : HookStore) : HookStore :=
  {| hs_hooks := with_hooks rows (subscriptions (hs_hooks s)) (logs (hs_hooks s)) (hs_hooks s); hs_seq := hs_seq s |}.
Definition set_subscriptions (subs : list (Z * string)) (s : HookStore) : HookStore :=
  {| hs_hooks := with_hooks (webhooks (hs_hooks s)) subs (logs (hs_hooks s)) (hs_hooks s); hs_seq := hs_seq s |}.

Definition webhook_named (name : string) (r : WebhookRow) : bool := (wh_name r =? name)%string.
Definition rows_of (s : HookStore) : list WebhookRow := webhooks (hs_hooks s).
Definition subs_of (s : HookStore) : list (Z * string) := subscriptions (hs_hooks s).

Section WebhookTool.
Context `{E : Env} `{F : Formats} `{O : MapOrder}.
Context (random_secret : res string string).                (* 32 bytes of [rand.Read] *)
Implicit Types (args : Args).

Definition insert_webhook (name secret url direction : string) (t : time) (s : HookStore) : option Z * HookStore :=
  if existsb (webhook_named name) (rows_of s) then (None, s)
  else
    let id := (hs_seq s + 1)%Z in
    let row := {| wh_id := id; wh_name := name; wh_secret := Some secret; wh_url := Some url; wh_direction := direction;
                  wh_enabled := true; last_triggered := None; wh_created := t |} in
    (Some id, {| hs_hooks := hs_hooks (set_webhooks (rows_of s ++ [row])%list s); hs_seq := id |}).

Definition create args : T HookStore Result :=
  let name := arg_string "name" args in
  let url := arg_string "url" args in
  guard_reject (negb (name =? "")%string) "name is required";;
  bytes ← or_throw "generating secret" random_secret;
  let secret := hex_encode bytes in
  let direction := if (url =? "")%string then "incoming" else "outgoing" in
  id ← must_save "creating webhook" (insert_webhook name secret url direction);
  match id with
  | None => throw "creating webhook: UNIQUE constraint failed: webhooks.name"
  | Some id => mret (success ([("direction", JStr direction); ("id", int id); ("name", JStr name); ("secret", JStr secret)]
                              ++ if (url =? "")%string then [] else [("url", JStr url)])%list)
  end.

(** The members a webhook shows when they are there. *)
Definition url_member (r : WebhookRow) : list (string * json) :=
  match wh_url r with Some u => if (u =? "")%string then [] else [("url", JStr u)] | None => [] end.
Definition triggered_member (r : WebhookRow) : list (string * json) :=
  match last_triggered r with Some t => [("last_triggered", JStr (time_text t))] | None => [] end.
Definition head_members (r : WebhookRow) : list (string * json) :=
  ([("created_at", JStr (time_text (wh_created r))); ("direction", JStr (wh_direction r)); ("id", int (wh_id r));
    ("is_enabled", JBool (wh_enabled r))] ++ triggered_member r)%list.

(** The error of reading the subscriptions is dropped. *)
Definition get args : T HookStore Result :=
  let name := arg_string "name" args in
  guard_reject (negb (name =? "")%string) "name is required";;
  r ← load (fun s => List.find (webhook_named name) (rows_of s));
  found ← or_throw "querying webhook" r;
  match found with
  | None => reject "webhook not found"
  | Some r =>
      match wh_secret r with
      | None => throw "querying webhook: converting NULL to string is unsupported"
      | Some secret =>
          subs ← load (fun s => order_by (fun e => e) (map snd (List.filter (fun x => (fst x =? wh_id r)%Z) (subs_of s))));
          mret (success (head_members r ++ [("name", JStr name); ("secret", JStr secret)]
                         ++ match subs with Ok (e :: l) => [("subscriptions", JArr (map JStr (e :: l)))] | _ => [] end
                         ++ url_member r)%list)
      end
  end.

Definition webhook_json (r : WebhookRow) : json := JObj (head_members r ++ [("name", JStr (wh_name r))] ++ url_member r)%list.
Definition list_ args : T HookStore Result :=
  r ← load (fun s => order_by wh_name (rows_of s));
  rows ← or_throw "listing webhooks" r;
  mret (result_data (slice webhook_json rows)).

(** ON DELETE CASCADE *)
Definition drop_webhooks (key : WebhookRow -> bool) (s : HookStore) : Z * HookStore :=
  let '(n, rows) := delete_rows key (rows_of s) in
  let gone id := existsb (fun r => key r && (wh_id r =? id)%Z) (rows_of s) in
  let s' := set_webhooks rows s in
  (n, if foreign_keys
      then {| hs_hooks := with_hooks rows (List.filter (fun x => negb (gone (fst x))) (subs_of s))
                            (List.filter (fun l => negb (gone (wl_webhook l))) (logs (hs_hooks s))) (hs_hooks s); hs_seq := hs_seq s |}
      else s').

Definition delete args : T HookStore Result :=
  let name := arg_string "name" args in
  guard_reject (negb (name =? "")%string) "name is required";;
  n ← must_save "deleting webhook" (fun _ s => drop_webhooks (webhook_named name) s);
  guard_reject (negb (n =? 0)%Z) "webhook not found";;
  mret (success [("deleted", JStr name)]).

(** The direction is not touched. *)
Definition changed args (r : WebhookRow) : WebhookRow :=
  {| wh_id := wh_id r; wh_name := wh_name r; wh_secret := wh_secret r;
     wh_url := match arg "url" args with Some (JStr u) => Some u | _ => wh_url r end; wh_direction := wh_direction r;
     wh_enabled := match arg "is_enabled" args with Some (JBool b) => b | _ => wh_enabled r end;
     last_triggered := last_triggered r; wh_created := wh_created r |}.
Definition has_change args : bool :=
  match arg "url" args, arg "is_enabled" args with Some (JStr _), _ => true | _, Some (JBool _) => true | _, _ => false end.

Definition update args : T HookStore Result :=
  let name := arg_string "name" args in
  guard_reject (negb (name =? "")%string) "name is required";;
  guard_reject (has_change args) "provide at least one field to update (url or is_enabled)";;
  n ← must_save "updating webhook" (fun _ s =>
        (Z.of_nat (List.length (List.filter (webhook_named name) (rows_of s))),
         set_webhooks (update_where (webhook_named name) (changed args) (rows_of s)) s));
  guard_reject (negb (n =? 0)%Z) "webhook not found";;
  mret (success [("updated", JStr name)]).

(** [ON CONFLICT(webhook_id, event_type) DO NOTHING] *)
Definition insert_subscription (id : Z) (event : string) (s : HookStore) : HookStore :=
  if existsb (fun x => (fst x =? id)%Z && (snd x =? event)%string) (subs_of s) then s
  else set_subscriptions (subs_of s ++ [(id, event)])%list s.

(** The types subscribed to, those whose statement failed left out. *)
Fixpoint subscribe_all (id : Z) (types : list json) : T HookStore (list string) :=
  match types with
  | [] => mret []
  | JStr e :: r =>
      if (e =? "")%string then subscribe_all id r
      else ok ← save_ (fun _ s => insert_subscription id e s);
           rest ← subscribe_all id r;
           mret (if (ok : bool) then e :: rest else rest)
  | _ :: r => subscribe_all id r
  end.

Definition subscribe args : T HookStore Result :=
  let name := arg_string "name" args in
  guard_reject (negb (name =? "")%string) "name is required";;
  let types := default [] (arg_list "event_types" args) in
  guard_reject (negb (List.length types =? 0)%nat) "event_types is required";;
  r ← load (fun s => List.find (webhook_named name) (rows_of s));
  match r with
  | Ok (Some row) =>
      subscribed ← subscribe_all (wh_id row) types;
      mret (success [("name", JStr name); ("subscribed", slice JStr subscribed)])
  | _ => reject "webhook not found"
  end.

Definition webhooks_infer args : string :=
  if has_arg "event_types" args then "subscribe" else if has_arg "url" args then "create"
  else if has_arg "is_enabled" args then "update" else if has_arg "name" args then "get" else "list".

Definition WebhooksTool_Execute args : T HookStore Result :=
  dispatch [("create", create); ("get", get); ("list", list_); ("delete", delete); ("update", update); ("subscribe", subscribe)]
    (Some webhooks_infer) args.
End WebhookTool.

(** ** Invariant *)

(** Ids are given once and names are unique; what is subscribed was a webhook once. *)
Record hooks_wf (s : HookStore) : Prop := {
  wf_ids : NoDup (map wh_id (rows_of s));
  wf_names : NoDup (map wh_name (rows_of s));
  wf_rows : forall r, In r (rows_of s) -> (wh_id r <= hs_seq s)%Z;
  wf_subs : forall x, In x (subs_of s) -> (fst x <= hs_seq s)%Z;
  wf_once : NoDup (subs_of s);
}.

Lemma NoDup_map_filter {A B} (f : A -> B) (P : A -> bool) l : NoDup (map f l) -> NoDup (map f (List.filter P l)).
Proof.
  induction l as [|x l IH]; cbn; [done|]. intros [Hx Hl]%NoDup_cons. destruct (P x); cbn; [|by apply IH].
  apply NoDup_cons. split; [|by apply IH]. intros H. apply Hx. rewrite list_elem_of_In, in_map_iff in *. destruct H as (y & E & [H _]%filter_In). by exists y.
Qed.
Lemma NoDup_filter_b {A} (P : A -> bool) (l : list A) : NoDup l -> NoDup (List.filter P l).
Proof. intros H. rewrite <- (map_id (List.filter P l)). apply NoDup_map_filter. by rewrite map_id. Qed.

Section Kept.
Context `{E : Env} `{F : Formats} `{O : MapOrder}.
Context (random_secret : res string string).
Implicit Types (s : HookStore).

Lemma wf_insert name secret url direction t s : hooks_wf s -> hooks_wf (snd (insert_webhook name secret url direction t s)).
Proof.
  intros [H1 H2 H3 H4 H5]. unfold insert_webhook. destruct (existsb _ _) eqn:Hn; cbn; [by split|].
  assert (forall r, In r (rows_of s) -> wh_name r <> name) as Hnew.
  { intros r Hr <-. assert (existsb (webhook_named (wh_name r)) (rows_of s) = true) as Hy; [|congruence].
    apply existsb_exists. exists r. split; [done|]. apply String.eqb_refl. }
  split; cbn -[Z.add]; unfold rows_of, subs_of in *; cbn -[Z.add] in *.
  - rewrite map_app. apply NoDup_app. split_and!; [done| |apply NoDup_singleton]. intros i Hi. rewrite list_elem_of_In in Hi.
    apply in_map_iff in Hi as (r & <- & Hr). intros Hx%list_elem_of_singleton. specialize (H3 r Hr). cbn -[Z.add] in Hx, H3. lia.
  - rewrite map_app. apply NoDup_app. split_and!; [done| |apply NoDup_singleton]. intros i Hi. rewrite list_elem_of_In in Hi.
    apply in_map_iff in Hi as (r & <- & Hr). intros Hx%list_elem_of_singleton. by apply (Hnew r Hr).
  - intros r [Hr|[<-|[]]]%in_app_or; cbn -[Z.add]; [specialize (H3 r Hr)|]; lia.
  - intros x Hx. specialize (H4 x Hx). lia.
  - done.
Qed.

Lemma hooks_wf_drop key s : hooks_wf s -> hooks_wf (snd (drop_webhooks key s)).
Proof.
  intros [H1 H2 H3 H4 H5]. unfold drop_webhooks, delete_rows. destruct foreign_keys; split; cbn; unfold rows_of, subs_of in *; cbn;
    try (by apply NoDup_map_filter); try (by apply NoDup_filter_b); try (intros r [Hr _]%filter_In; auto); auto.
Qed.

Lemma wf_change name args s : hooks_wf s -> hooks_wf (set_webhooks (update_where (webhook_named name) (changed args) (rows_of s)) s).
Proof.
  intros [H1 H2 H3 H4 H5]. split; unfold rows_of, subs_of in *; cbn; [by rewrite map_update_where..| |done|done].
  intros r. unfold update_where. rewrite in_map_iff. intros (x & <- & Hx). specialize (H3 x Hx). by destruct (webhook_named name x).
Qed.

Lemma wf_subscription id event s : (exists r, In r (rows_of s) /\ wh_id r = id) -> hooks_wf s -> hooks_wf (insert_subscription id event s).
Proof.
  intros (r & Hr & <-) [H1 H2 H3 H4 H5]. unfold insert_subscription. destruct (existsb _ _) eqn:Hn; [by split|].
  split; unfold rows_of, subs_of in *; cbn; try done.
  - intros x [Hx|[<-|[]]]%in_app_or; [by apply H4|by apply H3].
  - apply NoDup_app. split_and!; [done| |apply NoDup_singleton]. intros x Hx%list_elem_of_In ->%list_elem_of_singleton.
    assert (existsb (fun x => (fst x =? wh_id r)%Z && (snd x =? event)%string) (subscriptions (hs_hooks s)) = true) as Hy; [|congruence].
    apply existsb_exists. eexists. split; [exact Hx|]. cbn. by rewrite Z.eqb_refl, String.eqb_refl.
Qed.

(** What subscribing leaves: rows and sequence. *)
Lemma subscription_rows id event s : rows_of (insert_subscription id event s) = rows_of s.
Proof. unfold insert_subscription. by destruct (existsb _ _). Qed.

Definition holds (id : Z) s : Prop := hooks_wf s /\ exists r, In r (rows_of s) /\ wh_id r = id.
Lemma holds_subscription id event s : holds id s -> holds id (insert_subscription id event s).
Proof. intros [Hw Hr]. split; [by apply wf_subscription|]. by rewrite subscription_rows. Qed.

Lemma keeps_subscribe_all id types : keeps (holds id) (subscribe_all id types) (fun _ => True).
Proof.
  induction types as [|[|b|n|e|l|m] types IH]; cbn [subscribe_all]; try done. destruct (e =? "")%string; [done|].
  eapply keeps_bind; [apply keeps_save_; intros; by apply holds_subscription|]. intros ok _.
  eapply keeps_bind; [exact IH|]. intros rest _. by apply keeps_ret.
Qed.

Lemma keeps_hooks args : keeps hooks_wf (WebhooksTool_Execute random_secret args) (fun _ => True).
Proof.
  apply keeps_dispatch. intros name h Hin args'. cbn in Hin. repeat destruct Hin as [[= <- <-]|Hin]; [..|done].
  - unfold create. keep_tac. by apply wf_insert.
  - unfold get. keep_tac.
  - unfold list_. keep_tac.
  - unfold delete. keep_tac. by apply hooks_wf_drop.
  - unfold update. keep_tac. by apply wf_change.
  - unfold subscribe. eapply keeps_bind; [apply keeps_guard|intros _ _]. cbv zeta. eapply keeps_bind; [apply keeps_guard|intros _ _].
    intros c Hc. unfold mbind, T_bind, load. destruct (load_fails _); [done|]. cbn. destruct (List.find _ _) as [row|] eqn:Hf; [|done].
    apply find_some in Hf as [Hrow _]. set (c1 := {| cw := _; cs := _ |}).
    destruct (keeps_subscribe_all (wh_id row) (default [] (arg_list "event_types" args')) c1) as [[Hk _] _]; [split; [done|by exists row]|].
    destruct (subscribe_all _ _ c1) as [[l|x] c2]; by split.
Qed.
End Kept.

(** ** Deliveries *)

Section Reached.
Context `{W : Webhooks.Net} `{E : Env} `{K : !Calm} `{F : Formats} `{O : MapOrder}.
Implicit Types (s : HookStore).

Lemma posted_grows tries id url secret payload ev status response h :
  exists l, posted (attempts tries id url secret payload ev status response h) = (l ++ posted h)%list.
Proof.
  revert status response h. induction tries as [|tries IH]; intros status response h; [by exists []|]. cbn [attempts]. cbv zeta.
  set (h0 := if (0 <? _)%Z then _ else h). assert (posted h0 = posted h) as <- by (unfold h0; by case_match). clearbody h0.
  destruct (new_request url); [apply IH|].
  assert (forall st rs, exists l, posted (attempts tries id url secret payload ev st rs (post url payload (request_headers secret payload) h0)) = (l ++ posted h0)%list) as Hrest.
  { intros st rs. destruct (IH st rs (post url payload (request_headers secret payload) h0)) as [l ->]. exists (l ++ [(url, payload, request_headers secret payload)])%list. by rewrite <- app_assoc. }
  destruct (client_do _) as [[code body]|]; [|apply Hrest]. destruct (is_success code); [|apply Hrest]. by exists [(url, payload, request_headers secret payload)].
Qed.

(** Every target of an event is posted to. *)
Lemma targets_posted e h id url secret : new_request url = None -> ev_site e <> 0%Z -> In (id, url, secret) (targets e h) ->
  In (url, payload_of e, request_headers secret (payload_of e)) (posted (handleEvent true e h)).
Proof.
  intros Hu Hs%Z.eqb_neq Hin. unfold handleEvent. rewrite Hs. cbn [negb orb].
  assert (forall l h x, In x (posted h) -> In x (posted (fold_left (fun h t => let '(id, url, secret) := t in deliver id url secret e h) l h))) as Hkeep.
  { intros l. induction l as [|[[i u] k] l IH]; cbn [fold_left]; intros h0 x Hx; [done|]. apply IH. unfold deliver.
    destruct (posted_grows 3 i u k (payload_of e) (Webhooks.ev_type e) 0 "" h0) as [p ->]. apply in_or_app. by right. }
  revert Hin. generalize (targets e h). intros l. revert h. induction l as [|[[i u] k] l IH]; intros h Hin; [done|]. cbn [fold_left]. destruct Hin as [[= -> -> ->]|Hin]; [|by apply IH].
  apply Hkeep. destruct (deliver_spec id url secret e h Hu) as (-> & Hm & _). apply in_or_app. left. destruct (match _ with Some _ => _ | None => _ end); [lia|by left].
Qed.

Lemma subscribed_targets id event s : hooks_wf s -> forall row, In row (rows_of s) -> wh_id row = id -> In (id, event) (subs_of s) ->
  forall e url, Webhooks.ev_type e = event -> wh_enabled row = true -> wh_url row = Some url -> url <> "" -> In (id, url, default "" (wh_secret row)) (targets e (hs_hooks s)).
Proof.
  intros Hw row Hr Hid Hsub e url He Hen Hurl Hne. unfold targets. apply list_elem_of_In, list_elem_of_omap. exists (id, event).
  split; [by apply list_elem_of_In|]. cbn. rewrite He, String.eqb_refl.
  assert (List.find (fun r => (wh_id r =? id)%Z) (webhooks (hs_hooks s)) = Some row) as ->.
  { destruct Hw as [Hn _ _ _ _]. unfold rows_of in *. revert Hr Hn. clear -Hid. induction (webhooks (hs_hooks s)) as [|r l IH]; [done|]. cbn.
    intros [->|Hr] [Hx Hl]%NoDup_cons; [by rewrite Hid, Z.eqb_refl|]. destruct (Z.eqb_spec (wh_id r) id) as [Hrid|]; [|by apply IH].
    destruct Hx. rewrite list_elem_of_In, in_map_iff. exists row. by rewrite Hrid. }
  rewrite Hurl, Hen. destruct (String.eqb_spec url ""); [done|]. cbn. by rewrite Hid.
Qed.

Lemma subs_insert id event s x : In x (subs_of (insert_subscription id event s)) <-> In x (subs_of s) \/ x = (id, event).
Proof.
  unfold insert_subscription. destruct (existsb _ _) eqn:Hn; [|unfold subs_of; cbn; rewrite in_app_iff; cbn; intuition congruence].
  split; [by left|]. intros [H| ->]; [done|]. apply existsb_exists in Hn as ([i e] & Hx & [Hi Hev]%andb_true_iff). cbn in Hi, Hev.
  apply Z.eqb_eq in Hi as ->. by apply String.eqb_eq in Hev as ->.
Qed.

(** What subscribing adds. *)
Lemma wp_subscribe_all id types : forall s, holds id s ->
  wp s (subscribe_all id types)
    (fun _ s' => holds id s' /\ rows_of s' = rows_of s /\
                 forall x, In x (subs_of s') <-> In x (subs_of s) \/ fst x = id /\ snd x <> "" /\ In (JStr (snd x)) types)
    (fun _ _ => False).
Proof.
  induction types as [|j types IH]; intros s Hs; [apply wp_ret; split_and!; try done; intros x; cbn; tauto|].
  assert ((forall e, j = JStr e -> e = "") ->
    wp s (subscribe_all id types) (fun _ s' => holds id s' /\ rows_of s' = rows_of s /\
      forall x, In x (subs_of s') <-> In x (subs_of s) \/ fst x = id /\ snd x <> "" /\ In (JStr (snd x)) (j :: types)) (fun _ _ => False)) as Hskip.
  { intros Hj. eapply wp_mono; [by apply IH| |done]. cbv beta. intros _ s' (H1 & H2 & H3). split_and!; try done. intros x. rewrite H3. cbn.
    split; [tauto|]. intros [?|(? & Hx & [Hjx|?])]; [by left| |tauto]. by destruct (Hx (Hj _ Hjx)). }
  cbn [subscribe_all]. destruct j as [|b|n|e|l|m]; try (apply Hskip; by intros ? [=]).
  destruct (String.eqb_spec e "") as [->|He]; [apply Hskip; by intros ? [= ->]|].
  apply wp_bind, wp_save__calm. intros t. apply wp_bind. eapply wp_mono; [apply IH; by apply holds_subscription| |done]. cbv beta.
  intros rest s' (H1 & H2 & H3). apply wp_ret. rewrite subscription_rows in H2. split_and!; try done. intros [i v]. rewrite H3, subs_insert. cbn.
  split; [intros [[?|[= -> ->]]|?]; tauto|]. intros [?|(-> & Hv & [[= ->]|?])]; tauto.
Qed.

(** C31. Who subscribes is told.  After a subscription of a webhook that is enabled and
    has an address, an event of one of the types is posted to it, signed with its
    secret; no other delivery comes about; and a subscription refused changes nothing. *)
Theorem subscription_delivers args s : hooks_wf s ->
  let types := default [] (arg_list "event_types" args) in
  wp s (subscribe args)
    (fun _ s' => exists row, List.find (webhook_named (arg_string "name" args)) (rows_of s) = Some row /\ hooks_wf s' /\
       (forall e url, In (JStr (Webhooks.ev_type e)) types -> Webhooks.ev_type e <> "" -> ev_site e <> 0%Z ->
          wh_enabled row = true -> wh_url row = Some url -> url <> "" -> new_request url = None ->
          In (url, payload_of e, request_headers (default "" (wh_secret row)) (payload_of e)) (posted (handleEvent true e (hs_hooks s')))) /\
       (forall e t, In t (targets e (hs_hooks s')) -> In t (targets e (hs_hooks s)) \/ fst (fst t) = wh_id row /\ In (JStr (Webhooks.ev_type e)) types))
    (fun _ s' => s' = s).
Proof.
  intros Hw. cbv zeta. unfold subscribe. apply wp_bind, wp_guard; [intros _|done]. cbv zeta. apply wp_bind, wp_guard; [intros _|done].
  apply wp_bind, wp_load_calm. destruct (List.find _ _) as [row|] eqn:Hf; [|by apply wp_exit]. pose proof (find_some _ _ Hf) as [Hrow _].
  apply wp_bind. eapply wp_mono; [apply wp_subscribe_all; split; [done|by exists row]| |done]. cbv beta.
  intros l s' ((Hw' & _) & Hr & Hsubs). apply wp_ret. exists row. split_and!; try done.
  - intros e url Hin Hne Hsite Hen Hurl Hu Hreq. eapply (targets_posted e _ (wh_id row)); [done|done|].
    apply (subscribed_targets (wh_id row) (Webhooks.ev_type e) s' Hw' row); try done; [by rewrite Hr|]. apply Hsubs. by right.
  - intros e t Ht. unfold targets in *. apply list_elem_of_In, list_elem_of_omap in Ht as (x & Hx%list_elem_of_In & Ht).
    assert (webhooks (hs_hooks s') = webhooks (hs_hooks s)) as Hrr by exact Hr. rewrite Hrr in Ht.
    apply Hsubs in Hx as [Hx|(Hid & Hx & Hin)].
    + left. apply list_elem_of_In, list_elem_of_omap. exists x. split; [by apply list_elem_of_In|done].
    + right. destruct (String.eqb_spec (snd x) (Webhooks.ev_type e)) as [He|]; [|done]. split; [|by rewrite <- He].
      destruct (List.find (fun r => (wh_id r =? fst x)%Z) _) as [r|] eqn:Hfr; [|done]. apply find_some in Hfr as [_ Hfr%Z.eqb_eq].
      destruct (wh_url r); [|done]. destruct (_ && _); [|done]. injection Ht as <-. cbn. congruence.
Qed.
End Reached.

Module HookToolSample.
#[export] Existing Instances ApiSample.order digit_floats WebhookSample.net.
#[export] Instance env : Env := calm_env (fun _ _ => Err "").
#[export] Instance calm : Calm.
Proof. by split. Qed.
Definition store : HookStore := {| hs_hooks := with_hooks [WebhookSample.hook] [] [] WebhookSample.start; hs_seq := 1 |}.
Definition ask : Args := [("name", JStr "stripe"); ("event_types", JArr [JStr "data.insert"; JNum "1"])].
Lemma store_wf : hooks_wf store.
Proof. split; cbn; try done; [apply NoDup_singleton..| |constructor]. by intros r [<-|[]]. Qed.
End HookToolSample.
Import HookToolSample.

Lemma subscription_delivers_witness :
  let s' := cs (snd (subscribe ask {| cw := new_world; cs := store |})) in
  In ("https://x.test", payload_of WebhookSample.inserted, request_headers "s" (payload_of WebhookSample.inserted))
     (posted (handleEvent true WebhookSample.inserted (hs_hooks s'))).
Proof.
  pose proof (subscription_delivers ask store store_wf {| cw := new_world; cs := store |} eq_refl) as H. cbv zeta.
  destruct (subscribe ask _) as [[r|x] c] eqn:Hc; [|vm_compute in Hc; discriminate Hc]. destruct H as (row & Hf & _ & H & _).
  vm_compute in Hf. injection Hf as <-. apply (H WebhookSample.inserted "https://x.test"); try reflexivity; try discriminate. by left.
Defined.

(** Giving an incoming webhook an address makes events go there while it still says it
    is incoming. *)
Example incoming_with_address :
  let s' := cs (snd (subscribe ask {| cw := new_world; cs := cs (snd (update [("name", JStr "stripe"); ("url", JStr "https://y.test")]
    {| cw := new_world; cs := {| hs_hooks := with_hooks [{| wh_id := 1; wh_name := "stripe"; wh_secret := Some "s"; wh_url := Some ""; wh_direction := "incoming";
       wh_enabled := true; last_triggered := None; wh_created := 0 |}] [] [] WebhookSample.start; hs_seq := 1 |} |})) |})) in
  map wh_direction (rows_of s') = ["incoming"] /\ map (fun t => snd (fst t)) (targets WebhookSample.inserted (hs_hooks s')) = ["https://y.test"].
Proof. vm_compute. done. Qed.
