(* ===== verification/Panel.v ===== *)
(** * The panels of a site: handlers of server/admin on a site database

    A panel's handler works on the tables of one site, as a tool does, and answers a
    request of the administration: a tool's code whose value is an answer or what it
    goes on with.  Here the panels that list, switch and remove: secrets, service
    providers, webhooks, layouts; and the panel of the tasks (sitetasks.go) over the rows
    the scheduler works through. *)

From Stdlib Require Import ZArith Lia Ascii String List Bool.
From stdpp Require Import base list strings gmap sorting.
From S2P Require Import Webhooks Prelude GoStrings GoTime JSONText Cron Plan PlanJSON PlanStore OpenAI World ToolCore Security JSONRead SiteTables ToolMonad Tables Endpoints Scheduler SchedulerTool Questions Pages Layout SiteDB AdminDB Services WebhookTool.

Local Open Scope string_scope.
Local Open Scope go_scope.

(** ** The monad *)

Definition P (S A : Type) : Type := T S (res AdminAnswer A).
#[export] Instance P_ret {S} : MRet (P S) := fun A a c => (Ok (Ok a), c).
#[export] Instance P_bind {S} : MBind (P S) := fun A B k m =>
  mbind (M := T S) (fun r => match r with Ok a => k a | Err x => fun c => (Ok (Err x), c) end) m.

Section Monad.
Context {S : Type}.

(** What a tool's code does to the database and the disk. *)
Definition effect {A} (m : T S A) : P S A := fun c =>
  match m c with (Ok a, c') => (Ok (Ok a), c') | (Err x, c') => (Err x, c') end.

Definition replied_with {A} (a : AdminAnswer) : P S A := fun c => (Ok (Err a), c).
Definition refused {A} (status : Z) (msg : string) : P S A := replied_with (answer_error status msg).
Definition demand (b : bool) (status : Z) (msg : string) : P S unit := if b then mret tt else refused status msg.
Definition or_refused {A} (status : Z) (msg : string) (r : res string A) : P S A :=
  match r with Ok a => mret a | Err _ => refused status msg end.

(** [strconv.Atoi(chi.URLParam(r, ...))] *)
Definition path_int (what text : string) : P S Z :=
  match Atoi text with (n, None) => mret n | _ => refused 400 ("invalid " ++ what) end.

(** [decodeJSON] *)
Definition body_of {A} (dec : list (string * json) -> res string A) (body : string) : P S A :=
  match parse_value (2 * String.length body + 2) max_depth body with
  | Ok (j, _) => or_refused 400 "invalid request body" (res_bind (members j) dec)
  | Err _ => refused 400 "invalid request body"
  end.

(** What is answered in the end; a handler of a panel has no other end. *)
Definition answer_of (m : P S AdminAnswer) (c : Ctx S) : option AdminAnswer * Ctx S :=
  match m c with
  | (Ok (Ok a), c') | (Ok (Err a), c') => (Some a, c')
  | (Err _, c') => (None, c')
  end.

Section Effects.
Context `{E : Env}.

(** [siteDB.Query], [QueryRow] and [ExecWrite]. *)
Definition reading {A} (f : S -> A) : P S (res string A) := effect (load f).
Definition writing {A} (status : Z) (msg : string) (f : time -> S -> A * S) : P S A :=
  o ← effect (save f);
  match o with Some a => mret a | None => refused status msg end.

(** A query whose error is answered with an empty list. *)
Definition listing {A} (f : S -> list A) (show : A -> option json) : P S AdminAnswer :=
  r ← reading f;
  mret (answer_json 200 (JArr match r with Ok l => omap show l | Err _ => [] end)).
End Effects.

Context (open_error : Z -> option string).          (* SiteDBManager.Open *)

Definition requireSiteDB (site : string) : P S Z :=
  siteID ← path_int "site ID" site;
  match open_error siteID with Some _ => refused 500 "failed to open site database" | None => mret siteID end.
End Monad.

Definition affected_or_404 {S} (msg : string) (n : Z) : P S unit := demand (negb (n =? 0)%Z) 404 msg.
Definition status_answer (s : string) : AdminAnswer := answer_json 200 (JObj [("status", JStr s)]).

Section Panel.
Context `{E : Env} `{F : Formats} `{W : Newest}.
Context (open_error : Z -> option string).

(** ** sitesecrets.go *)

Definition secret_entry (r : SecretRow) : json :=
  JObj [("id", int (Questions.sr_id r)); ("name", JStr (sr_name r)); ("created_at", JStr (time_text (sr_created r)));
        ("updated_at", JStr (time_text (sr_updated r)))].

Definition secrets_List (site : string) : P OwnerStore AdminAnswer :=
  requireSiteDB open_error site;;
  listing (fun s => order_by sr_name (ow_secrets s)) (fun r => Some (secret_entry r)).

Definition secrets_Delete (site secretID : string) : P OwnerStore AdminAnswer :=
  requireSiteDB open_error site;;
  id ← path_int "secret ID" secretID;
  n ← writing 500 "failed to delete secret" (fun _ s =>
        let '(n, l) := delete_rows (fun r => (Questions.sr_id r =? id)%Z) (ow_secrets s) in (n, set_secret_rows l s));
  affected_or_404 "secret not found" n;;
  mret (answer_json 200 (JObj [("deleted", int id)])).

(** ** serviceproviders.go *)

Definition service_entry (site : Z) (p : ServiceRow) : json :=
  JObj ([("id", int (sp_id p)); ("site_id", int site); ("name", JStr (sp_name p)); ("base_url", JStr (sp_base p));
         ("auth_type", JStr (sp_type p))]
        ++ match sp_secret p with Some n => [("secret_name", JStr n)] | None => [] end
        ++ [("description", JStr (sp_description p)); ("api_docs", JStr (sp_docs p)); ("is_enabled", JBool (sp_enabled p));
            ("created_at", JStr (time_text (sp_created p)))])%list.

Definition services_List (site : string) : P ServiceStore AdminAnswer :=
  siteID ← requireSiteDB open_error site;
  r ← reading (fun s => order_by sp_name (sv_providers s));
  rows ← or_refused 500 "failed to list service providers" r;
  mret (answer_json 200 (JArr (map (service_entry siteID) rows))).

Definition flip_service (p : ServiceRow) : ServiceRow :=
  {| sp_id := sp_id p; sp_name := sp_name p; sp_base := sp_base p; sp_type := sp_type p; sp_header := sp_header p; sp_prefix := sp_prefix p;
     sp_secret := sp_secret p; sp_description := sp_description p; sp_docs := sp_docs p; sp_enabled := negb (sp_enabled p);
     sp_created := sp_created p |}.

(** Whether there is such a provider is not asked. *)
Definition services_Toggle (site provID : string) : P ServiceStore AdminAnswer :=
  requireSiteDB open_error site;;
  id ← path_int "provider ID" provID;
  writing 500 "failed to toggle provider" (fun _ s => (tt, set_rows (update_where (service_is id) flip_service (sv_providers s)) s));;
  mret (answer_json 200 (JObj [("id", int id); ("toggled", JBool true)])).

Definition services_Delete (site provID : string) : P ServiceStore AdminAnswer :=
  requireSiteDB open_error site;;
  id ← path_int "provider ID" provID;
  n ← writing 500 "failed to delete provider" (fun _ s => let '(n, l) := delete_rows (service_is id) (sv_providers s) in (n, set_rows l s));
  affected_or_404 "provider not found" n;;
  mret (answer_json 200 (JObj [("deleted", JBool true)])).

(** ** sitewebhooks.go *)

(** With the secret. A webhook without one is not read. *)
Definition webhook_members (r : WebhookRow) (secret : string) (logs_ subscriptions_ : list (string * json)) : json :=
  JObj ([("created_at", JStr (time_text (wh_created r))); ("direction", JStr (wh_direction r)); ("id", int (wh_id r));
         ("is_enabled", JBool (wh_enabled r))]
        ++ match last_triggered r with Some t => [("last_triggered", JStr (time_text t))] | None => [] end
        ++ logs_ ++ [("name", JStr (wh_name r)); ("secret", JStr secret)] ++ subscriptions_
        ++ match wh_url r with Some u => [("url", JStr u)] | None => [] end)%list.

Definition webhooks_List (site : string) : P HookStore AdminAnswer :=
  requireSiteDB open_error site;;
  listing (fun s => newest wh_created (rows_of s)) (fun r => option_map (fun secret => webhook_members r secret [] []) (wh_secret r)).

Definition log_json (l : LogRow) : json :=
  JObj ([("created_at", JStr (time_text (wl_created l))); ("direction", JStr (wl_direction l)); ("event_type", JStr (wl_event l));
         ("id", int (wl_id l))]
        ++ match wl_status l with Some n => [("status_code", int n)] | None => [] end ++ [("success", JBool (wl_success l))])%list.

Definition webhook_is (id : Z) (r : WebhookRow) : bool := (wh_id r =? id)%Z.
Definition webhooks_Get (site webhookID : string) : P HookStore AdminAnswer :=
  requireSiteDB open_error site;;
  id ← path_int "webhook ID" webhookID;
  r ← reading (fun s => List.find (webhook_is id) (rows_of s));
  match r with
  | Ok (Some row) =>
      match wh_secret row with
      | None => refused 404 "webhook not found"
      | Some secret =>
          subs ← reading (fun s => map snd (List.filter (fun x => (fst x =? id)%Z) (subs_of s)));
          l ← reading (fun s => firstn 25 (newest wl_created (List.filter (fun x => (wl_webhook x =? id)%Z) (logs (hs_hooks s)))));
          mret (answer_json 200 (webhook_members row secret
                  match l with Ok l => [("logs", slice log_json l)] | Err _ => [] end
                  match subs with Ok l => [("subscriptions", slice JStr l)] | Err _ => [] end))
      end
  | _ => refused 404 "webhook not found"
  end.

Definition flip_webhook (r : WebhookRow) : WebhookRow :=
  {| wh_id := wh_id r; wh_name := wh_name r; wh_secret := wh_secret r; wh_url := wh_url r; wh_direction := wh_direction r;
     wh_enabled := negb (wh_enabled r); last_triggered := last_triggered r; wh_created := wh_created r |}.

(** A webhook that is not there, or cannot be read back, shows as disabled. *)
Definition webhooks_Toggle (site webhookID : string) : P HookStore AdminAnswer :=
  requireSiteDB open_error site;;
  id ← path_int "webhook ID" webhookID;
  writing 500 "failed to toggle webhook" (fun _ s => (tt, set_webhooks (update_where (webhook_is id) flip_webhook (rows_of s)) s));;
  r ← reading (fun s => List.find (webhook_is id) (rows_of s));
  mret (answer_json 200 (JObj [("id", int id); ("is_enabled", JBool match r with Ok (Some row) => wh_enabled row | _ => false end)])).

Definition webhooks_Delete (site webhookID : string) : P HookStore AdminAnswer :=
  requireSiteDB open_error site;;
  id ← path_int "webhook ID" webhookID;
  writing 500 "failed to delete webhook" (fun _ s => drop_webhooks (webhook_is id) s);;
  mret (status_answer "deleted").

(** ** sitelayouts.go *)

(** A part that is NULL does not scan. *)
Definition layout_entry (l : LayoutRow) : option json :=
  match l_head l, l_before l, l_after l with
  | Some head, Some before, Some after =>
      Some (JObj [("id", int (l_id l)); ("name", JStr (l_name l)); ("head_content", JStr head); ("body_before_main", JStr before);
                  ("body_after_main", JStr after); ("created_at", JStr (time_text (l_created l))); ("updated_at", JStr (time_text (l_updated l)))])
  | _, _, _ => None
  end.

Definition layout_is (id : Z) (l : LayoutRow) : bool := (l_id l =? id)%Z.
Definition layouts_List (site : string) : P LayoutStore AdminAnswer :=
  requireSiteDB open_error site;;
  listing (fun s => order_by l_name (lo_rows s)) layout_entry.

Definition layouts_Get (site layoutID : string) : P LayoutStore AdminAnswer :=
  requireSiteDB open_error site;;
  id ← path_int "layout ID" layoutID;
  r ← reading (fun s => List.find (layout_is id) (lo_rows s));
  match r with
  | Ok (Some l) => match layout_entry l with Some j => mret (answer_json 200 j) | None => refused 404 "layout not found" end
  | _ => refused 404 "layout not found"
  end.

(** The pages that use a layout; a count that fails is zero. *)
Definition uses_layout (name : string) (p : Page) : bool := bool_decide (p_layout p = Some name) && negb (p_deleted p).
Definition count_uses (name : string) : P (LayoutStore * PageStore) Z :=
  r ← reading (fun s => Z.of_nat (List.length (List.filter (uses_layout name) (ps_pages (snd s)))));
  mret match r with Ok n => n | Err _ => 0%Z end.

Definition layouts_Delete (site layoutID : string) : P (LayoutStore * PageStore) AdminAnswer :=
  requireSiteDB open_error site;;
  id ← path_int "layout ID" layoutID;
  r ← reading (fun s => List.find (layout_is id) (lo_rows (fst s)));
  match r with
  | Ok (Some l) =>
      pageCount ← count_uses (l_name l);
      demand (negb (0 <? pageCount)%Z) 409 ("cannot delete: " ++ Itoa pageCount ++ " page(s) use this layout");;
      n ← writing 500 "failed to delete layout" (fun _ s =>
            let '(n, rows) := delete_rows (layout_is id) (lo_rows (fst s)) in (n, (set_layouts rows (fst s), snd s)));
      affected_or_404 "layout not found" n;;
      mret (answer_json 200 (JObj [("deleted", int id)]))
  | _ => refused 404 "layout not found"
  end.
End Panel.

Section PanelTasks.
Context `{E : Env} `{F : Formats} `{W : Newest} (ce : CronEnv).
Context (open_error : Z -> option string).

Definition TP (A : Type) : Type := P unit A.

(** The tables are those of the worker. *)
Definition task_query {A} (f : SiteStore -> A) : TP (res string A) := effect (lift (Query f)).
Definition task_write (status : Z) (msg : string) (f : time -> SiteStore -> SiteStore) : TP unit :=
  ok ← effect (lift (World.ExecWrite f));
  demand ok status msg.

Definition or_null {A} (f : A -> json) (o : option A) : json := match o with Some a => f a | None => JNull end.
Definition when (o : option time) : json := or_null (fun t => JStr (time_text t)) o.
Definition task_entry (site : Z) (t : TaskRow) : json :=
  JObj [("id", int (t_id t)); ("site_id", int site); ("name", JStr (t_name t)); ("description", or_null JStr (t_description t));
        ("cron_expression", or_null JStr (t_cron t)); ("interval_seconds", or_null int (t_interval t)); ("prompt", JStr (t_prompt t));
        ("is_enabled", JBool (t_enabled t)); ("last_run", when (t_last t)); ("next_run", when (t_next t));
        ("created_at", JStr (time_text (t_created t))); ("updated_at", JStr (time_text (t_updated t)))].

Definition tasks_List (site : string) : TP AdminAnswer :=
  siteID ← requireSiteDB open_error site;
  r ← task_query (fun s => newest t_created (scheduled_tasks s));
  mret (answer_json 200 (JArr match r with Ok l => map (task_entry siteID) l | Err _ => [] end)).

Definition task_is (id : Z) (t : TaskRow) : bool := (t_id t =? id)%Z.
Definition with_enabled (b : bool) (stamp : time) (t : TaskRow) : TaskRow :=
  {| t_id := t_id t; t_name := t_name t; t_prompt := t_prompt t; t_cron := t_cron t; t_interval := t_interval t; t_enabled := b;
     t_last := t_last t; t_next := t_next t; t_runs := t_runs t; t_errors := t_errors t; t_description := t_description t;
     t_created := t_created t; t_updated := stamp |}.

Definition tasks_Toggle (site taskID : string) : TP AdminAnswer :=
  requireSiteDB open_error site;;
  id ← path_int "task ID" taskID;
  r ← task_query (fun s => List.find (task_is id) (scheduled_tasks s));
  match r with
  | Ok (Some t) =>
      let newState := negb (t_enabled t) in
      task_write 500 "failed to toggle task" (fun stamp => update_task (with_enabled newState stamp) id);;
      mret (answer_json 200 (JObj [("is_enabled", JBool newState)]))
  | _ => refused 404 "task not found"
  end.

Definition tasks_Delete (site taskID : string) : TP AdminAnswer :=
  requireSiteDB open_error site;;
  id ← path_int "task ID" taskID;
  found ← effect (lift (World.get (fun w => has_task id (db w))));
  task_write 500 "failed to delete task" (fun _ => delete_task id);;
  demand found 404 "task not found";;
  mret (status_answer "deleted").

Record newTask := { nt_name : string; nt_description : string; nt_cron : string; nt_interval : Z; nt_prompt : string }.
Definition dec_new_task (m : list (string * json)) : res string newTask :=
  let! n := str "name" m in let! d := str "description" m in let! c := str "cron_expression" m in
  let! i := dec_int (member "interval_seconds" m) in let! p := str "prompt" m in
  Ok {| nt_name := n; nt_description := d; nt_cron := c; nt_interval := i; nt_prompt := p |}.

Definition cron_checked (cron : string) : TP unit :=
  match (if (cron =? "")%string then Ok tt else Cron.Validate cron) with
  | Ok _ => mret tt
  | Err e => refused 400 ("invalid cron expression: " ++ cron_text e)
  end.

(** The next run of a schedule, if it is one. A search that does not come back does
    not let the handler end. *)
Definition planned (cron : string) (interval : Z) : TP (option time) :=
  t ← effect (lift now);
  if negb (cron =? "")%string then
    match NextTime (cron_fuel ce) (zone ce) cron t with Some r => mret (Some r) | None => effect crash end
  else if (0 <? interval)%Z then mret (Some (after_interval t interval))
  else mret None.

Definition tasks_Create (site body : string) : TP AdminAnswer :=
  requireSiteDB open_error site;;
  q ← body_of dec_new_task body;
  demand (negb ((nt_name q =? "")%string || (nt_prompt q =? "")%string)) 400 "name and prompt are required";;
  cron_checked (nt_cron q);;
  next ← planned (nt_cron q) (nt_interval q);
  r ← effect (lift (ExecInsert (insert_task (nt_name q) (nt_description q) (nt_prompt q) (nt_cron q) (nt_interval q) next)));
  match r with
  | None => refused 500 "failed to create task"
  | Some id => mret (answer_json 201 (JObj [("id", int id); ("name", JStr (nt_name q))]))
  end.

Record taskChange := {
  tu_name : option string; tu_description : option string; tu_cron : option string; tu_interval : option Z;
  tu_prompt : option string; tu_enabled : option bool;
}.
Definition dec_task_change (m : list (string * json)) : res string taskChange :=
  let! n := dec_text_ptr (member "name" m) in let! d := dec_text_ptr (member "description" m) in
  let! c := dec_text_ptr (member "cron_expression" m) in
  let! i := dec_ptr (fun v => dec_int (Some v)) (member "interval_seconds" m) in
  let! p := dec_text_ptr (member "prompt" m) in
  let! e := dec_ptr (fun v => dec_bool (Some v)) (member "is_enabled" m) in
  Ok {| tu_name := n; tu_description := d; tu_cron := c; tu_interval := i; tu_prompt := p; tu_enabled := e |}.

Definition changed_task (q : taskChange) (stamp : time) (t : TaskRow) : TaskRow :=
  {| t_id := t_id t; t_name := default (t_name t) (tu_name q); t_prompt := default (t_prompt t) (tu_prompt q);
     t_cron := match tu_cron q with Some c => Some c | None => t_cron t end;
     t_interval := match tu_interval q with Some n => Some n | None => t_interval t end;
     t_enabled := default (t_enabled t) (tu_enabled q); t_last := t_last t; t_next := t_next t; t_runs := t_runs t; t_errors := t_errors t;
     t_description := match tu_description q with Some d => Some d | None => t_description t end;
     t_created := t_created t; t_updated := stamp |}.

(** The next run follows what the request says alone, not the row. *)
Definition tasks_Update (site taskID body : string) : TP AdminAnswer :=
  requireSiteDB open_error site;;
  id ← path_int "task ID" taskID;
  q ← body_of dec_task_change body;
  cron_checked (default "" (tu_cron q));;
  task_write 500 "failed to update task" (fun stamp => update_task (changed_task q stamp) id);;
  next ← planned (default "" (tu_cron q)) (default 0%Z (tu_interval q));
  match next with
  | Some r => effect (lift (World.ExecWrite (fun _ => update_task (set_next r) id)));; mret tt
  | None => mret tt
  end;;
  mret (answer_json 200 (JObj [("id", int id); ("status", JStr "updated")])).

Definition run_json (r : TaskRun) : json :=
  JObj (match r_completed r with Some t => [("completed_at", JStr (time_text t))] | None => [] end
        ++ match r_error r with Some e => [("error_message", JStr e)] | None => [] end
        ++ [("id", int (r_id r)); ("started_at", JStr (time_text (r_started r))); ("status", JStr (r_status r))])%list.

Definition tasks_TaskRuns (site taskID : string) : TP AdminAnswer :=
  requireSiteDB open_error site;;
  id ← path_int "task ID" taskID;
  r ← task_query (fun s => firstn 50 (newest r_started (List.filter (fun x => (r_task x =? id)%Z) (task_runs s))));
  runs ← or_refused 500 "failed to list task runs" r;
  mret (answer_json 200 (JArr (map run_json runs))).
End PanelTasks.
