(* ===== verification/PanelTables.v ===== *)
(** * The panels of a site's tables and endpoints

    server/admin/sitetables.go and sitetables_crud.go on the tables of the owner, and
    siteendpoints.go and siteauthendpoints.go on what is declared about them: the same
    store as that of the tools. *)

From Stdlib Require Import ZArith Lia Ascii String List Bool.
From stdpp Require Import base list strings gmap.
From S2P Require Import Prelude GoStrings GoTime JSONText Plan PlanJSON PlanStore OpenAI World ToolCore Security JSONRead SiteTables ToolMonad Tables Endpoints Pages Questions AdminDB Panel.

Local Open Scope string_scope.
Local Open Scope go_scope.

Section PanelTables.
Context `{C : Crypto} `{Q : SQL} `{O : MapOrder} `{E : Env} `{F : Formats} `{Fl : Floats}.
Context (open_error : Z -> option string) (encryptor : bool).

(** ** sitetables.go *)

Definition quoted (name : string) : string := dq "'" ++ name ++ dq "'".

(** The number of rows, zero where it cannot be had. *)
Definition count_rows (tableName : string) : P Store Z :=
  r ← effect (query_int ("SELECT COUNT(*) FROM " ++ quoted tableName) []);
  mret match r with Ok n => n | Err _ => 0%Z end.

Fixpoint table_entries (l : list DynRow) : P Store (list json) :=
  match l with
  | [] => mret []
  | d :: r =>
      match dt_secure d with
      | None => table_entries r                          (* NULL does not scan *)
      | Some secure =>
          n ← count_rows (dt_name d);
          rest ← table_entries r;
          mret (JObj [("id", int (dt_id d)); ("table_name", JStr (dt_name d)); ("schema_def", JStr (dt_schema d)); ("secure_columns", JStr secure);
                      ("row_count", int n); ("created_at", JStr (time_text (dt_created d)))] :: rest)
      end
  end.

Definition tables_List (site : string) : P Store AdminAnswer :=
  requireSiteDB open_error site;;
  r ← reading (fun s => order_by dt_name (st_dynamic s));
  l ← match r with Ok l => table_entries l | Err _ => mret [] end;
  mret (answer_json 200 (JArr l)).

(** The check of a table: it is one of the registry's. *)
Definition known_table (tableName : string) : P Store unit :=
  known ← effect (registered_table tableName);
  demand known 404 "table not found".

(** [limit] and [offset] of the query. *)
Definition page_limit (text : string) : Z := let n := fst (Atoi text) in if (n <=? 0)%Z || (100 <? n)%Z then 50 else n.
Definition page_offset (text : string) : Z := let n := fst (Atoi text) in if (n <? 0)%Z then 0 else n.

(** A row as it is shown: password columns left out, encrypted ones masked. *)
Definition shown_value (secureCols : option (gmap string string)) (kv : string * json) : string * json :=
  (fst kv, if bool_decide (secure_kind secureCols (fst kv) = Some "encrypt") then JStr "[encrypted]" else snd kv).
Definition shown_row (secureCols : option (gmap string string)) (r : list (string * json)) : list (string * json) :=
  map_to_list (go_map (map (shown_value secureCols) (List.filter (fun kv => negb (is_hash_column secureCols (fst kv))) r))).

(** The columns of the result: those of its rows, of a result without rows those of
    the table. *)
Definition columns_of (tableName : string) (rows : list (list (string * json))) (t : tables) : list string :=
  match rows with
  | r :: _ => map fst r
  | [] => match table_info tableName t with Ok l => map fst l | Err _ => [] end
  end.

Definition strings_json (m : option (gmap string string)) : json :=
  match m with Some m => enc_gmap m | None => JNull end.

(** What the form of a row is made from. *)
Definition schema_of (tableName : string) : P Store json :=
  r ← reading (fun s => List.find (fun d => (dt_name d =? tableName)%string) (st_dynamic s));
  mret match r with
       | Ok (Some d) => match Unmarshal (dt_schema d) with Ok (JObj _) => enc_gmap (string_map_of (dt_schema d)) | _ => JNull end
       | _ => JNull
       end.

Definition tables_Rows (site tableName limit offset : string) : P Store AdminAnswer :=
  requireSiteDB open_error site;;
  demand (negb (tableName =? "")%string) 400 "table name is required";;
  known_table tableName;;
  secureCols ← effect (LoadSecureColumns tableName);
  total ← count_rows tableName;
  r ← effect (db_query ("SELECT * FROM " ++ quoted tableName ++ " ORDER BY id DESC LIMIT ? OFFSET ?")
                       [int (page_limit limit); int (page_offset offset)]);
  rows ← or_refused 500 "failed to query table" r;
  columns ← effect (fun c => (Ok (columns_of tableName rows (st_user (cs c))), c));
  schema ← schema_of tableName;
  mret (answer_json 200 (JObj [
    ("columns", slice JStr (List.filter (fun col => negb (is_hash_column secureCols col)) columns));
    ("rows", JArr (map (fun x => JObj (shown_row secureCols x)) rows)); ("schema", schema);
    ("secure_columns", strings_json secureCols); ("total", int total)])).

(** ** sitetables_crud.go *)

(** [rowRequest]: the members of data, the last of a name. *)
Definition dec_row (m : list (string * json)) : res string (gmap string json) :=
  match member "data" m with
  | Some (JObj d) => match go_members d with Some l => Ok l | None => type_error end
  | Some JNull | None => Ok ∅
  | _ => type_error
  end.
Definition row_data (body : string) : P Store (gmap string json) :=
  data ← body_of dec_row body;
  demand (negb (bool_decide (data = ∅))) 400 "data is required";;
  mret data.

(** The values as they are bound, with the columns they go to. [keep_empty] tells
    whether an empty password counts. *)
Fixpoint bound_values (keep_empty : bool) (secureCols : option (gmap string string)) (l : list (string * json))
    : P Store (list string * list json) :=
  match l with
  | [] => mret ([], [])
  | (col, val) :: r =>
      match secure_kind secureCols col with
      | None => rest ← bound_values keep_empty secureCols r; mret (col :: fst rest, val :: snd rest)
      | Some kind =>
          if negb keep_empty && (kind =? "hash")%string && (format_value val =? "")%string then bound_values keep_empty secureCols r
          else
            match ProcessSecureValue encryptor kind val with
            | Err e => refused 400 ("error processing " ++ col ++ ": " ++ e)
            | Ok v => rest ← bound_values keep_empty secureCols r; mret (col :: fst rest, v :: snd rest)
            end
      end
  end.

(** The names of the columns are put between quotes as they are. *)
Definition insert_text (tableName : string) (cols : list string) : string :=
  "INSERT INTO " ++ quoted tableName ++ " (" ++ Join (map quoted cols) ", " ++ ") VALUES (" ++ Join (map (fun _ => "?") cols) ", " ++ ")".
Definition update_text (tableName : string) (cols : list string) : string :=
  "UPDATE " ++ quoted tableName ++ " SET " ++ Join (map (fun c => quoted c ++ " = ?") cols) ", " ++ " WHERE id = ?".

Definition executed (msg q : string) (args : list json) : P Store (Z * Z) :=
  r ← effect (db_exec q args);
  or_refused 500 msg r.

Definition tables_InsertRow (site tableName body : string) : P Store AdminAnswer :=
  requireSiteDB open_error site;;
  demand (negb (tableName =? "")%string) 400 "table name is required";;
  known_table tableName;;
  data ← row_data body;
  secureCols ← effect (LoadSecureColumns tableName);
  p ← bound_values true secureCols (entries data);
  r ← executed "failed to insert row" (insert_text tableName (fst p)) (snd p);
  mret (answer_json 200 (JObj [("id", int (fst r))])).

Definition tables_UpdateRow (site tableName rowID body : string) : P Store AdminAnswer :=
  requireSiteDB open_error site;;
  id ← path_int "row ID" rowID;
  known_table tableName;;
  data ← row_data body;
  secureCols ← effect (LoadSecureColumns tableName);
  p ← bound_values false secureCols (entries data);
  match fst p with
  | [] => mret (status_answer "no changes")
  | _ => executed "failed to update row" (update_text tableName (fst p)) (snd p ++ [int id])%list;; mret (status_answer "updated")
  end.

Definition tables_DeleteRow (site tableName rowID : string) : P Store AdminAnswer :=
  requireSiteDB open_error site;;
  id ← path_int "row ID" rowID;
  known_table tableName;;
  executed "failed to delete row" ("DELETE FROM " ++ quoted tableName ++ " WHERE id = ?") [int id];;
  mret (status_answer "deleted").

(** ** siteendpoints.go *)

Definition endpoint_json (site : Z) (e : ApiRow) : json :=
  JObj [("id", int (ar_id e)); ("site_id", int site); ("path", JStr (ar_path e)); ("table_name", JStr (ar_table e));
        ("methods", JStr (ar_methods e)); ("public_columns", text_or_nil (ar_columns e)); ("requires_auth", JBool (ar_auth e));
        ("public_read", JBool (ar_read e)); ("required_role", text_or_nil (ar_role e)); ("rate_limit", int (ar_rate e));
        ("created_at", JStr (time_text (ar_created e)))].
Definition endpoint_is (id : Z) (e : ApiRow) : bool := (ar_id e =? id)%Z.

Definition endpoints_List (site : string) : P Store AdminAnswer :=
  siteID ← requireSiteDB open_error site;
  listing (fun s => order_by ar_path (st_api s)) (fun e => Some (endpoint_json siteID e)).

Definition endpoints_Get (site endpointID : string) : P Store AdminAnswer :=
  siteID ← requireSiteDB open_error site;
  id ← path_int "endpoint ID" endpointID;
  r ← reading (fun s => List.find (endpoint_is id) (st_api s));
  match r with
  | Ok (Some e) => mret (answer_json 200 (endpoint_json siteID e))
  | _ => refused 404 "endpoint not found"
  end.

Definition endpoints_Delete (site endpointID : string) : P Store AdminAnswer :=
  requireSiteDB open_error site;;
  id ← path_int "endpoint ID" endpointID;
  writing 500 "failed to delete endpoint" (fun _ s => (tt, set_api (List.filter (fun e => negb (endpoint_is id e)) (st_api s)) s));;
  mret (status_answer "deleted").

Record updateEndpointRequest := {
  ue_methods : list string; ue_auth : option bool; ue_read : option bool; ue_role : option string; ue_rate : option Z;
}.
Definition dec_update_endpoint (m : list (string * json)) : res string updateEndpointRequest :=
  let! ms := dec_string_list (member "methods" m) in
  let! a := dec_ptr (fun v => dec_bool (Some v)) (member "requires_auth" m) in
  let! r := dec_ptr (fun v => dec_bool (Some v)) (member "public_read" m) in
  let! ro := dec_text_ptr (member "required_role" m) in
  let! ra := dec_ptr (fun v => dec_int (Some v)) (member "rate_limit" m) in
  Ok {| ue_methods := ms; ue_auth := a; ue_read := r; ue_role := ro; ue_rate := ra |}.

Definition valid_methods : list string := ["GET"; "POST"; "PUT"; "DELETE"; "PATCH"].
Definition invalid_method (ms : list string) : option string :=
  List.find (fun m => negb (existsb (String.eqb (ToUpper m)) valid_methods)) ms.
Definition changes_endpoint (q : updateEndpointRequest) : bool :=
  negb (List.length (ue_methods q) =? 0)%nat || bool_decide (is_Some (ue_auth q)) || bool_decide (is_Some (ue_read q))
  || bool_decide (is_Some (ue_role q)) || bool_decide (is_Some (ue_rate q)).

(** The methods are stored as they were written; an empty role is none. *)
Definition changed_endpoint (q : updateEndpointRequest) (e : ApiRow) : ApiRow :=
  {| ar_id := ar_id e; ar_path := ar_path e; ar_table := ar_table e;
     ar_methods := match ue_methods q with [] => ar_methods e | ms => Marshal (JArr (map JStr ms)) end;
     ar_columns := ar_columns e; ar_auth := default (ar_auth e) (ue_auth q); ar_read := default (ar_read e) (ue_read q);
     ar_role := match ue_role q with Some r => nonempty r | None => ar_role e end;
     ar_rate := default (ar_rate e) (ue_rate q); ar_created := ar_created e |}.

Definition endpoints_Update (site endpointID body : string) : P Store AdminAnswer :=
  requireSiteDB open_error site;;
  id ← path_int "endpoint ID" endpointID;
  q ← body_of dec_update_endpoint body;
  match invalid_method (ue_methods q) with
  | Some m => refused 400 ("invalid method: " ++ m)
  | None =>
      demand (changes_endpoint q) 400 "no fields to update";;
      n ← writing 500 "failed to update endpoint" (fun _ s =>
            (Z.of_nat (List.length (List.filter (endpoint_is id) (st_api s))),
             set_api (update_where (endpoint_is id) (changed_endpoint q) (st_api s)) s));
      affected_or_404 "endpoint not found" n;;
      mret (status_answer "updated")
  end.

(** ** siteauthendpoints.go *)

Definition auth_entry (site : Z) (e : AuthRow) : json :=
  JObj [("id", int (au_id e)); ("site_id", int site); ("path", JStr (au_path e)); ("table_name", JStr (au_table e));
        ("username_column", JStr (au_username e)); ("password_column", JStr (au_password e)); ("public_columns", JStr (au_columns e));
        ("created_at", JStr (time_text (au_created e)));
        ("routes", JArr [JStr ("POST /api/" ++ au_path e ++ "/register"); JStr ("POST /api/" ++ au_path e ++ "/login");
                         JStr ("GET /api/" ++ au_path e ++ "/me")])].

Definition authEndpoints_List (site : string) : P Store AdminAnswer :=
  siteID ← requireSiteDB open_error site;
  listing (fun s => order_by au_path (st_auth s)) (fun e => Some (auth_entry siteID e)).

Definition authEndpoints_Delete (site endpointID : string) : P Store AdminAnswer :=
  requireSiteDB open_error site;;
  id ← path_int "endpoint ID" endpointID;
  n ← writing 500 "failed to delete auth endpoint" (fun _ s =>
        let '(n, l) := delete_rows (fun e => (au_id e =? id)%Z) (st_auth s) in (n, set_auth l s));
  affected_or_404 "auth endpoint not found" n;;
  mret (answer_json 200 (JObj [("deleted", int id)])).
End PanelTables.
