(* ===== verification/PanelContent.v ===== *)
(** * The panels of a site's pages, files and assets

    server/admin/sitepages.go, sitefiles.go, siteassets.go and siteassets_create.go:
    what the owner sees and changes of the contents the tools keep and the public
    server shows, over the pages of manage_pages and the rows and disk of
    manage_files. *)

From Stdlib Require Import ZArith Lia Ascii String List Bool.
From stdpp Require Import base list strings gmap.
From S2P Require Import Prelude GoStrings GoTime JSONText Plan PlanJSON OpenAI World ToolCore Security SiteTables PublicAPI ToolMonad Tables Endpoints Questions PageText Pages HttpTool Paths Files PublicSite Uploads AdminDB Panel.

Local Open Scope string_scope.
Local Open Scope go_scope.

Section PanelContent.
Context `{E : Env} `{F : Formats} `{W : Newest} `{D : Disk} `{MP : Multipart}.
Context (open_error : Z -> option string).
Context (FormValue : HttpRequest -> string -> string).        (* net/http *)
Context (copied_before : FormPart -> string).                 (* what io.Copy has written when reading fails *)

(** ** sitepages.go *)

(** Status and metadata are scanned into texts: a NULL fails. *)
Definition page_entry (site : Z) (with_content : bool) (p : Page) : option json :=
  match p_status p, p_metadata p with
  | Some status, Some metadata =>
      Some (JObj ([("id", int (p_id p)); ("site_id", int site); ("path", JStr (p_path p)); ("title", text_or_nil (p_title p))]
                  ++ match p_content p with Some c => if with_content then [("content", JStr c)] else [] | None => [] end
                  ++ [("template", text_or_nil (p_template p)); ("status", JStr status); ("metadata", JStr metadata);
                      ("created_at", JStr (time_text (p_created p))); ("updated_at", JStr (time_text (p_updated p)))])%list)
  | _, _ => None
  end.

Definition page_is (id : Z) (p : Page) : bool := (p_id p =? id)%Z && negb (p_deleted p).

Definition pages_List (site : string) : P PageStore AdminAnswer :=
  siteID ← requireSiteDB open_error site;
  listing (fun s => order_by p_path (List.filter (fun p => negb (p_deleted p)) (ps_pages s))) (page_entry siteID false).

Definition pages_Get (site pageID : string) : P PageStore AdminAnswer :=
  siteID ← requireSiteDB open_error site;
  id ← path_int "page ID" pageID;
  r ← reading (fun s => List.find (page_is id) (ps_pages s));
  match r with
  | Ok None => refused 404 "page not found"
  | Ok (Some p) => match page_entry siteID true p with Some j => mret (answer_json 200 j) | None => refused 500 "failed to load page" end
  | Err _ => refused 500 "failed to load page"
  end.

Record updatePageRequest := { up_title : option string; up_content : option string; up_status : option string }.
Definition dec_update_page (m : list (string * json)) : res string updatePageRequest :=
  let! t := dec_text_ptr (member "title" m) in let! c := dec_text_ptr (member "content" m) in let! s := dec_text_ptr (member "status" m) in
  Ok {| up_title := t; up_content := c; up_status := s |}.
Definition changes_page (q : updatePageRequest) : bool :=
  bool_decide (is_Some (up_title q)) || bool_decide (is_Some (up_content q)) || bool_decide (is_Some (up_status q)).

Definition over (new old : option string) : option string := match new with Some v => Some v | None => old end.
Definition changed_page (q : updatePageRequest) (t : time) (p : Page) : Page :=
  {| p_id := p_id p; p_path := p_path p; p_title := over (up_title q) (p_title p); p_content := over (up_content q) (p_content p);
     p_template := p_template p; p_status := over (up_status q) (p_status p); p_metadata := p_metadata p; p_layout := p_layout p;
     p_assets := p_assets p; p_deleted := p_deleted p; p_deleted_at := p_deleted_at p; p_created := p_created p; p_updated := t |}.
Definition removed_page (t : time) (p : Page) : Page :=
  {| p_id := p_id p; p_path := p_path p; p_title := p_title p; p_content := p_content p; p_template := p_template p; p_status := p_status p;
     p_metadata := p_metadata p; p_layout := p_layout p; p_assets := p_assets p; p_deleted := true; p_deleted_at := p_deleted_at p;
     p_created := p_created p; p_updated := t |}.

(** [UPDATE pages SET ... WHERE id = ? AND is_deleted = 0]: the rows affected. *)
Definition update_page (id : Z) (f : time -> Page -> Page) (t : time) (s : PageStore) : Z * PageStore :=
  (Z.of_nat (List.length (List.filter (page_is id) (ps_pages s))), set_page_rows (update_where (page_is id) (f t) (ps_pages s)) s).

Definition pages_Update (site pageID body : string) : P PageStore AdminAnswer :=
  requireSiteDB open_error site;;
  id ← path_int "page ID" pageID;
  q ← body_of dec_update_page body;
  demand (changes_page q) 400 "no fields to update";;
  n ← writing 500 "failed to update page" (update_page id (changed_page q));
  affected_or_404 "page not found" n;;
  mret (answer_json 200 (JObj [("updated", int id)])).

Definition pages_Delete (site pageID : string) : P PageStore AdminAnswer :=
  requireSiteDB open_error site;;
  id ← path_int "page ID" pageID;
  n ← writing 500 "failed to delete page" (update_page id removed_page);
  affected_or_404 "page not found" n;;
  mret (answer_json 200 (JObj [("deleted", int id)])).

(** ** sitefiles.go, siteassets.go *)

Definition file_entry (site : Z) (f : FileRow) : json :=
  JObj [("id", int (f_id f)); ("site_id", int site); ("filename", JStr (f_name f)); ("content_type", text_or_nil (f_type f));
        ("size", match f_size f with Some n => int n | None => JNull end); ("description", text_or_nil (f_meta f));
        ("created_at", JStr (time_text (f_created f)))].
Definition asset_entry (site : Z) (f : FileRow) : json :=
  JObj [("id", int (f_id f)); ("site_id", int site); ("filename", JStr (f_name f)); ("content_type", text_or_nil (f_type f));
        ("size", match f_size f with Some n => int n | None => JNull end); ("storage_path", JStr (f_path f));
        ("created_at", JStr (time_text (f_created f)))].
Definition file_is (id : Z) (f : FileRow) : bool := (f_id f =? id)%Z.

Definition files_List (site : string) : P FileStore AdminAnswer :=
  siteID ← requireSiteDB open_error site;
  listing (fun s => newest f_created (fs_files s)) (fun f => Some (file_entry siteID f)).
Definition assets_List (site : string) : P FileStore AdminAnswer :=
  siteID ← requireSiteDB open_error site;
  listing (fun s => newest f_created (fs_assets s)) (fun f => Some (asset_entry siteID f)).

(** The bytes themselves are the answer. *)
Definition assets_Content (site assetID : string) : P FileStore string :=
  requireSiteDB open_error site;;
  id ← path_int "asset ID" assetID;
  r ← reading (fun s => List.find (file_is id) (fs_assets s));
  match r with
  | Ok (Some f) =>
      data ← effect (ReadFile (f_path f));
      or_refused 404 "asset file not found on disk" data
  | _ => refused 404 "asset not found"
  end.

Definition delete_file (cfg : storageConfig) (id : Z) (t : time) (s : FileStore) : unit * FileStore :=
  (tt, set_file_rows cfg (List.filter (fun f => negb (file_is id f)) (rows cfg s)) s).

Definition files_Delete (site fileID : string) : P FileStore AdminAnswer :=
  requireSiteDB open_error site;;
  id ← path_int "file ID" fileID;
  r ← reading (fun s => List.find (file_is id) (fs_files s));
  let storagePath := match r with Ok (Some f) => f_path f | _ => "" end in
  writing 500 "failed to delete file" (delete_file files_config id);;
  if (storagePath =? "")%string then mret (status_answer "deleted")
  else effect (Remove storagePath);; mret (status_answer "deleted").

(** The file stays on disk. *)
Definition assets_Delete (site assetID : string) : P FileStore AdminAnswer :=
  requireSiteDB open_error site;;
  id ← path_int "asset ID" assetID;
  writing 500 "failed to delete asset" (delete_file assets_config id);;
  mret (status_answer "deleted").

(** ** Creation *)

Definition panel_types : list (string * string) :=
  [(".jpg", "image/jpeg"); (".jpeg", "image/jpeg"); (".png", "image/png"); (".gif", "image/gif"); (".svg", "image/svg+xml");
   (".webp", "image/webp"); (".css", "text/css"); (".js", "application/javascript"); (".html", "text/html"); (".htm", "text/html");
   (".json", "application/json"); (".pdf", "application/pdf"); (".woff2", "font/woff2"); (".woff", "font/woff"); (".ttf", "font/ttf")].
Definition panel_type (filename : string) : string := default octet_stream (table_get (ToLower (Ext filename)) panel_types).

(** [INSERT ... ON CONFLICT(filename) DO UPDATE]; the columns it does not name stay. *)
Definition put_row (cfg : storageConfig) (filename ct : string) (size : Z) (storagePath : string) (description : option string) (t : time)
    (s : FileStore) : unit * FileStore :=
  (tt, set_file_rows cfg (snd (upsert (named filename) f_id
     (fun n => {| f_id := n; f_name := filename; f_type := Some ct; f_size := Some size; f_path := storagePath; f_meta := description;
                  f_scope := if is_assets cfg then "global" else ""; f_created := t |})
     (fun f => {| f_id := f_id f; f_name := filename; f_type := Some ct; f_size := Some size; f_path := storagePath;
                  f_meta := over description (f_meta f); f_scope := f_scope f; f_created := f_created f |})
     (rows cfg s))) s).

Definition base_name (filename : string) : P FileStore string :=
  let name := Base filename in
  demand (negb ((name =? ".")%string || (name =? "..")%string)) 400 "invalid filename";;
  mret name.
Definition panel_dir (siteID : Z) (cfg : storageConfig) : P FileStore string :=
  r ← effect (MkdirAll (site_dir siteID cfg));
  or_refused 500 "failed to create directory" r;;
  mret (site_dir siteID cfg).

Definition created_json (filename ct : string) (size : Z) : AdminAnswer :=
  answer_json 200 (JObj [("content_type", JStr ct); ("filename", JStr filename); ("size", int size)]).

Record textAssetRequest := { ta_filename : string; ta_content : string }.
Definition dec_text_asset (m : list (string * json)) : res string textAssetRequest :=
  let! f := str "filename" m in let! c := str "content" m in Ok {| ta_filename := f; ta_content := c |}.

Definition save_asset_row (siteID : Z) (filename ct : string) (size : Z) (storagePath : string) : P FileStore AdminAnswer :=
  match open_error siteID with
  | Some _ => refused 500 "failed to open site database"
  | None =>
      writing 500 "failed to save asset record" (put_row assets_config filename ct size storagePath None);;
      mret (created_json filename ct size)
  end.

(** The file is written before the database of the site is opened. *)
Definition handleTextAsset (siteID : Z) (body : string) : P FileStore AdminAnswer :=
  q ← body_of dec_text_asset body;
  demand (negb (ta_filename q =? "")%string) 400 "filename is required";;
  filename ← base_name (ta_filename q);
  dir ← panel_dir siteID assets_config;
  let storagePath := path_Join dir filename in
  w ← effect (WriteFile storagePath (ta_content q));
  or_refused 500 "failed to write file" w;;
  save_asset_row siteID filename (panel_type filename) (Z.of_nat (String.length (ta_content q))) storagePath.

(** [os.Create] and [io.Copy]: the bytes written. *)
Definition copy_upload (storagePath : string) (p : FormPart) : P FileStore Z :=
  created ← effect (WriteFile storagePath "");
  or_refused 500 "failed to create file" created;;
  match pt_data p with
  | Err _ => effect (WriteFile storagePath (copied_before p));; refused 500 "failed to write file"
  | Ok data => w ← effect (WriteFile storagePath data);
               or_refused 500 "failed to write file" w;;
               mret (Z.of_nat (String.length data))
  end.

Definition maxUploadSize : Z := Z.shiftl 32 20.
Definition form_file (r : HttpRequest) (content : string * bool) : P FileStore FormPart :=
  match ParseMultipartForm r content with
  | None => refused 400 "failed to parse form"                 (* the parser says why *)
  | Some form => match FormFile "file" form with None => refused 400 "file is required" | Some p => mret p end
  end.

Definition handleAssetUpload (siteID : Z) (r : HttpRequest) : P FileStore AdminAnswer :=
  p ← form_file r (MaxBytesReader maxUploadSize (req_body r));
  filename ← base_name (pt_filename p);
  dir ← panel_dir siteID assets_config;
  let storagePath := path_Join dir filename in
  written ← copy_upload storagePath p;
  if (maxUploadSize <? written)%Z then effect (Remove storagePath);; refused 400 "file too large (max 32 MB)"
  else save_asset_row siteID filename (panel_type filename) written storagePath.

Definition assets_Create (site : string) (r : HttpRequest) : P FileStore AdminAnswer :=
  siteID ← path_int "site ID" site;
  if HasPrefix (header "Content-Type" r) "multipart/form-data" then handleAssetUpload siteID r
  else handleTextAsset siteID (req_body r).

(** A type the client gives, other than that of unknown bytes, is taken. *)
Definition given_type (p : FormPart) (filename : string) : string :=
  if (pt_type p =? "")%string || (pt_type p =? octet_stream)%string then panel_type filename else pt_type p.

Definition files_Create (site : string) (r : HttpRequest) : P FileStore AdminAnswer :=
  siteID ← requireSiteDB open_error site;
  p ← form_file r (req_body r, false);
  filename ← base_name (pt_filename p);
  dir ← panel_dir siteID files_config;
  let storagePath := path_Join dir filename in
  written ← copy_upload storagePath p;
  let ct := given_type p filename in
  writing 500 "failed to save file record" (put_row files_config filename ct written storagePath (Some (FormValue r "description")));;
  mret (created_json filename ct written).
End PanelContent.
