(* ===== verification/PanelFacts.v ===== *)
(** * What the panels promise

    What the owner is shown and what a panel changes agree with what the tools, the
    scheduler and the public server make of it. *)

From Stdlib Require Import ZArith Lia Ascii String List Bool.
From stdpp Require Import base list strings gmap.
From S2P Require Import PublicAPIFacts Prelude GoStrings GoTime JSONText Cron Plan PlanJSON PlanStore OpenAI World ToolCore Security JSONRead SiteTables ToolMonad Tables Endpoints Scheduler SchedulerTool Questions StoreFacts DataFacts Pages Layout HttpTool Paths Encryption AdminDB Services PanelTables Panel PanelContent.

Local Open Scope string_scope.

(** ** Where a handler of a panel leads *)

(** From [s] the handler goes on with a value and a store that satisfy [Q], or has
    answered, with an answer and a store that satisfy [R]; it has no other end. *)
Definition pwp {S A} (s : S) (m : P S A) (Q : A -> S -> Prop) (R : AdminAnswer -> S -> Prop) : Prop :=
  wp s m (fun r s' => match r with Ok a => Q a s' | Err x => R x s' end) (fun _ _ => False).

Section Pwp.
Context {S : Type}.
Implicit Types (s : S) (R : AdminAnswer -> S -> Prop).

Lemma pwp_ret {A} s (a : A) (Q : A -> S -> Prop) R : Q a s -> pwp s (mret a) Q R.
Proof. by intros H c <-. Qed.
Lemma pwp_replied {A} s x (Q : A -> S -> Prop) R : R x s -> pwp s (replied_with x : P S A) Q R.
Proof. by intros H c <-. Qed.
Lemma pwp_bind {A B} s (m : P S A) (k : A -> P S B) Q R : pwp s m (fun a s' => pwp s' (k a) Q R) R -> pwp s (m ≫= k) Q R.
Proof.
  intros H. unfold pwp, mbind, P_bind. apply wp_bind. eapply wp_mono; [exact H| |done].
  intros [a|x] s' Hr; [done|]. by intros c <-.
Qed.
Lemma pwp_mono {A} s (m : P S A) (Q Q' : A -> S -> Prop) R R' :
  pwp s m Q R -> (forall a s', Q a s' -> Q' a s') -> (forall x s', R x s' -> R' x s') -> pwp s m Q' R'.
Proof. intros H HQ HR. eapply wp_mono; [exact H| |done]. intros [a|x] s' Hr; auto. Qed.
Lemma pwp_effect {A} s (m : T S A) (Q : A -> S -> Prop) R : wp s m Q (fun _ _ => False) -> pwp s (effect m) Q R.
Proof. intros H c Hc. specialize (H c Hc). unfold effect. by destruct (m c) as [[a|x] c']. Qed.
Lemma pwp_demand s (b : bool) status msg (Q : unit -> S -> Prop) R :
  (b = true -> Q tt s) -> (b = false -> R (answer_error status msg) s) -> pwp s (demand b status msg) Q R.
Proof. intros H1 H2. destruct b; [apply pwp_ret|apply pwp_replied]; auto. Qed.
Lemma pwp_or_refused {A} s status msg (r : res string A) (Q : A -> S -> Prop) R :
  (forall a, r = Ok a -> Q a s) -> R (answer_error status msg) s -> pwp s (or_refused status msg r) Q R.
Proof. intros H1 H2. destruct r; [apply pwp_ret|apply pwp_replied]; auto. Qed.
Lemma pwp_path_int s what text (Q : Z -> S -> Prop) R :
  (forall n, Atoi text = (n, None) -> Q n s) -> R (answer_error 400 ("invalid " ++ what)) s -> pwp s (path_int what text) Q R.
Proof. intros H1 H2. unfold path_int. destruct (Atoi text) as [n [e|]]; [by apply pwp_replied|by apply pwp_ret, H1]. Qed.
Definition decodes {A} (dec : list (string * json) -> res string A) (body : string) (a : A) : Prop :=
  exists j r l, parse_value (2 * String.length body + 2) max_depth body = Ok (j, r) /\ members j = Ok l /\ dec l = Ok a.
Lemma pwp_decoded {A} s (dec : list (string * json) -> res string A) body (Q : A -> S -> Prop) R :
  (forall a, decodes dec body a -> Q a s) -> R (answer_error 400 "invalid request body") s -> pwp s (body_of dec body) Q R.
Proof.
  intros H1 H2. unfold body_of. destruct (parse_value _ _ body) as [[j r]|] eqn:Hp; [|by apply pwp_replied].
  apply pwp_or_refused; [|done]. intros a Ha. apply H1. destruct (members j) as [l|] eqn:Hm; [|done]. by exists j, r, l.
Qed.
Lemma pwp_body {A} s (dec : list (string * json) -> res string A) body (Q : A -> S -> Prop) R :
  (forall a, Q a s) -> R (answer_error 400 "invalid request body") s -> pwp s (body_of dec body) Q R.
Proof. intros H1 H2. apply pwp_decoded; auto. Qed.
Lemma pwp_requireSiteDB s open_error site (Q : Z -> S -> Prop) R :
  (forall n, Atoi site = (n, None) -> open_error n = None -> Q n s) ->
  R (answer_error 400 "invalid site ID") s -> R (answer_error 500 "failed to open site database") s ->
  pwp s (requireSiteDB open_error site) Q R.
Proof.
  intros H1 H2 H3. unfold requireSiteDB. apply pwp_bind, pwp_path_int; [|done]. intros n Hn.
  destruct (open_error n) eqn:Ho; [by apply pwp_replied|by apply pwp_ret, H1].
Qed.

Section Calm.
Context `{E : Env} `{K : !Calm}.
Lemma pwp_reading {A} s (f : S -> A) (Q : res string A -> S -> Prop) R : Q (Ok (f s)) s -> pwp s (reading f) Q R.
Proof. intros H. by apply pwp_effect, wp_load_calm. Qed.
Lemma pwp_writing {A} s status msg (f : time -> S -> A * S) (Q : A -> S -> Prop) R :
  (forall t, Q (fst (f t s)) (snd (f t s))) -> pwp s (writing status msg f) Q R.
Proof. intros H. apply pwp_bind, pwp_effect, wp_save_calm. intros t. apply pwp_ret, H. Qed.
End Calm.
End Pwp.

(** Every answer of refusal has a status of its own. *)
Definition is_refusal (x : AdminAnswer) : Prop := (400 <= an_status x)%Z.

(** ** The tables of the owner *)

(** The requests on the rows of a table. *)
Inductive row_request := ShowRows (limit offset : string) | InsertRow (body : string) | UpdateRow (rowID body : string) | DeleteRow (rowID : string).

Section Rows.
Context `{C : Crypto} `{Q : SQL} `{O : MapOrder} `{E : Env} `{K : !Calm} `{F : Formats} `{Fl : Floats}.
Context (open_error : Z -> option string) (encryptor : bool).
Implicit Types (s : Store) (t : string).

Definition serve_rows (site t : string) (q : row_request) : P Store AdminAnswer :=
  match q with
  | ShowRows limit offset => tables_Rows open_error site t limit offset
  | InsertRow body => tables_InsertRow open_error encryptor site t body
  | UpdateRow rowID body => tables_UpdateRow open_error encryptor site t rowID body
  | DeleteRow rowID => tables_DeleteRow open_error site t rowID
  end.

Definition secure_in s t : option (gmap string string) := secure_of (st_dynamic s) t.

(** The statements a panel sends: on the table asked for, which is one of the
    registry's, with the values of secure columns as the processing returned them. *)
Definition panel_statement s t (st : string * list json) : Prop :=
  st = ("SELECT COUNT(*) FROM " ++ quoted t, []) \/
  (exists limit offset, st = ("SELECT * FROM " ++ quoted t ++ " ORDER BY id DESC LIMIT ? OFFSET ?", [int limit; int offset]) /\
                        (0 < limit <= 100)%Z /\ (0 <= offset)%Z) \/
  (exists cols vals, st = (insert_text t cols, vals) /\ Forall2 (processed encryptor (secure_in s t)) cols vals) \/
  (exists cols vals id, st = (update_text t cols, vals ++ [int id])%list /\ Forall2 (processed encryptor (secure_in s t)) cols vals) \/
  (exists id, st = ("DELETE FROM " ++ quoted t ++ " WHERE id = ?", [int id])).

Definition sent_on s t s' : Prop :=
  st_dynamic s' = st_dynamic s /\ exists new, st_sent s' = (new ++ st_sent s)%list /\
    Forall (fun st => existsb (fun d => (dt_name d =? t)%string) (st_dynamic s) = true /\ panel_statement s t st) new.

(** What is shown of the rows: no password column, no encrypted value. *)
Definition shown_safely s t (x : AdminAnswer) : Prop := forall m rows, an_body x = JObj m -> arg "rows" m = Some (JArr rows) ->
  Forall (fun r => exists l, r = JObj l /\ forall k v, In (k, v) l ->
            is_hash_column (secure_in s t) k = false /\ (secure_kind (secure_in s t) k = Some "encrypt" -> v = JStr "[encrypted]")) rows.

Lemma sent_refl s t : sent_on s t s.
Proof. split; [done|]. exists []. by split. Qed.

Lemma sent_more s t s1 st : existsb (fun d => (dt_name d =? t)%string) (st_dynamic s) = true -> panel_statement s t st ->
  sent_on s t s1 -> sent_on s t (add_sent st s1).
Proof. intros Hk Hp [Hd (new & Hn & Hf)]. split; [done|]. exists (st :: new). cbn. rewrite Hn. split; [done|]. by constructor. Qed.

Lemma wp_sent_exec s t s1 q args (Q0 : res string (Z * Z) -> Store -> Prop) X :
  existsb (fun d => (dt_name d =? t)%string) (st_dynamic s) = true -> panel_statement s t (q, args) -> sent_on s t s1 ->
  (forall r s2, sent_on s t s2 -> Q0 r s2) -> wp s1 (db_exec q args) Q0 X.
Proof.
  intros Hk Hp H1 HQ c <-. unfold db_exec. destruct (sql_exec q args (st_user (cs c))) as [r u]. apply HQ. by apply (sent_more s t (cs c) (q, args)).
Qed.

Lemma wp_sent_query s t s1 q args (Q0 : res string (list (list (string * json))) -> Store -> Prop) X :
  existsb (fun d => (dt_name d =? t)%string) (st_dynamic s) = true -> panel_statement s t (q, args) -> sent_on s t s1 ->
  (forall r s2, sent_on s t s2 -> Q0 r s2) -> wp s1 (db_query q args) Q0 X.
Proof.
  intros Hk Hp H1 HQ c <-. unfold db_query. apply HQ. by apply (sent_more s t (cs c) (q, args)).
Qed.

Lemma pwp_known s t s1 (Q0 : unit -> Store -> Prop) R : sent_on s t s1 ->
  (existsb (fun d => (dt_name d =? t)%string) (st_dynamic s) = true -> Q0 tt s1) -> R (answer_error 404 "table not found") s1 ->
  pwp s1 (known_table t) Q0 R.
Proof.
  intros [Hd _] H1 H2. unfold known_table. apply pwp_bind, pwp_effect. unfold registered_table. apply wp_bind, wp_load_calm, wp_ret.
  rewrite Hd. by apply pwp_demand.
Qed.

Lemma pwp_secure s t s1 (Q0 : option (gmap string string) -> Store -> Prop) R : sent_on s t s1 -> Q0 (secure_in s t) s1 ->
  pwp s1 (effect (LoadSecureColumns t)) Q0 R.
Proof.
  intros [Hd _] H. apply pwp_effect. unfold LoadSecureColumns. apply wp_bind, wp_load_calm, wp_ret. by rewrite Hd.
Qed.

Lemma pwp_bound keep m l s1 (Q0 : list string * list json -> Store -> Prop) R :
  (forall p, Forall2 (processed encryptor m) (fst p) (snd p) -> Q0 p s1) -> (forall msg, R (answer_error 400 msg) s1) ->
  pwp s1 (bound_values encryptor keep m l) Q0 R.
Proof.
  intros HQ HR. revert Q0 HQ. induction l as [|[col val] l IH]; intros Q0 HQ; cbn [bound_values]; [by apply pwp_ret, HQ|].
  destruct (secure_kind m col) as [kind|] eqn:Hk.
  - destruct (_ && _); [by apply IH|]. destruct (ProcessSecureValue encryptor kind val) as [v|e] eqn:Hv; [|by apply pwp_replied].
    apply pwp_bind, IH. intros p Hp. apply pwp_ret, HQ. constructor; [|done]. unfold processed. rewrite Hk. by exists val.
  - apply pwp_bind, IH. intros p Hp. apply pwp_ret, HQ. constructor; [|done]. unfold processed. by rewrite Hk.
Qed.

Lemma page_limit_bounds text : (0 < page_limit text <= 100)%Z.
Proof. unfold page_limit. destruct (Z.leb_spec (fst (Atoi text)) 0); [by cbn|]. destruct (Z.ltb_spec 100 (fst (Atoi text))); cbn; lia. Qed.
Lemma page_offset_bounds text : (0 <= page_offset text)%Z.
Proof. unfold page_offset. destruct (Z.ltb_spec (fst (Atoi text)) 0); lia. Qed.

Lemma shown_row_safe m r k v : In (k, v) (shown_row m r) ->
  is_hash_column m k = false /\ (secure_kind m k = Some "encrypt" -> v = JStr "[encrypted]").
Proof.
  unfold shown_row. intros H%list_elem_of_In%elem_of_map_to_list. apply go_map_lookup in H as [H|[]%lookup_empty_Some]. apply in_map_iff in H as ([k0 v0] & [= <- <-] & Hf).
  apply filter_In in Hf as [_ Hh%negb_true_iff]. cbn in *. split; [done|]. intros Hk. by rewrite bool_decide_true.
Qed.

Lemma pwp_count s t s1 (Q0 : Z -> Store -> Prop) R : existsb (fun d => (dt_name d =? t)%string) (st_dynamic s) = true ->
  sent_on s t s1 -> (forall n s2, sent_on s t s2 -> Q0 n s2) -> pwp s1 (count_rows t) Q0 R.
Proof.
  intros Hk H1 HQ. unfold count_rows. apply pwp_bind, pwp_effect. unfold query_int. apply wp_bind.
  apply (wp_sent_query s t); [done|by left|done|]. intros r s2 H2. apply wp_ret, pwp_ret. by apply HQ.
Qed.

Lemma pwp_executed s t s1 msg q args (Q0 : Z * Z -> Store -> Prop) R :
  existsb (fun d => (dt_name d =? t)%string) (st_dynamic s) = true -> panel_statement s t (q, args) -> sent_on s t s1 ->
  (forall r s2, sent_on s t s2 -> Q0 r s2) -> (forall s2, sent_on s t s2 -> R (answer_error 500 msg) s2) -> pwp s1 (executed msg q args) Q0 R.
Proof.
  intros Hk Hp H1 HQ HR. unfold executed. apply pwp_bind, pwp_effect, (wp_sent_exec s t); try done.
  intros r s2 H2. apply pwp_or_refused; auto.
Qed.

Lemma pwp_row_data s1 body (Q0 : gmap string json -> Store -> Prop) R : (forall data, Q0 data s1) -> (forall msg, R (answer_error 400 msg) s1) ->
  pwp s1 (row_data body) Q0 R.
Proof. intros H1 H2. unfold row_data. apply pwp_bind, pwp_body; [|done]. intros data. apply pwp_bind, pwp_demand; [|done]. intros _. by apply pwp_ret. Qed.

Lemma status_shown s t x : shown_safely s t (status_answer x).
Proof. by intros m rows [= <-]. Qed.

Lemma rows_shown s t columns rows schema secure total : shown_safely s t (answer_json 200 (JObj [
  ("columns", columns); ("rows", JArr (map (fun x => JObj (shown_row (secure_in s t) x)) rows)); ("schema", schema); ("secure_columns", secure); ("total", total)])).
Proof.
  intros m l [= <-] Ha. cbn in Ha. injection Ha as <-. apply Forall_map, Forall_true. intros x. eexists. split; [done|].
  intros k v. apply shown_row_safe.
Qed.

Lemma show_rows_guarded s site t limit offset :
  pwp s (tables_Rows open_error site t limit offset) (fun x s' => sent_on s t s' /\ shown_safely s t x) (fun x s' => sent_on s t s' /\ is_refusal x).
Proof.
  assert (sent_on s t s) as H0 by apply sent_refl. unfold tables_Rows. apply pwp_bind, pwp_requireSiteDB; [|by split|by split]. intros n _ _.
  apply pwp_bind, pwp_demand; [|by split]. intros _. apply pwp_bind, (pwp_known s t); [done| |by split]. intros Hk.
  apply pwp_bind, (pwp_secure s t); [done|]. apply pwp_bind, (pwp_count s t); [done|done|]. intros total s1 H1.
  apply pwp_bind, pwp_effect, (wp_sent_query s t); [done| |done|].
  { right; left. eexists _, _. split; [done|]. split; [apply page_limit_bounds|apply page_offset_bounds]. }
  intros r s2 H2. apply pwp_bind, pwp_or_refused; [|by split]. intros rows _. apply pwp_bind, pwp_effect. intros c <-.
  apply pwp_bind. unfold schema_of. apply pwp_bind, pwp_reading, pwp_ret, pwp_ret. split; [done|apply rows_shown].
Qed.

Lemma insert_row_guarded s site t body :
  pwp s (tables_InsertRow open_error encryptor site t body) (fun x s' => sent_on s t s' /\ shown_safely s t x) (fun x s' => sent_on s t s' /\ is_refusal x).
Proof.
  assert (sent_on s t s) as H0 by apply sent_refl. unfold tables_InsertRow. apply pwp_bind, pwp_requireSiteDB; [|by split|by split]. intros n _ _.
  apply pwp_bind, pwp_demand; [|by split]. intros _. apply pwp_bind, (pwp_known s t); [done| |by split]. intros Hk.
  apply pwp_bind, pwp_row_data; [|by split]. intros data. apply pwp_bind, (pwp_secure s t); [done|].
  apply pwp_bind, pwp_bound; [|by split]. intros p Hp. apply pwp_bind, (pwp_executed s t); [done| |done| |by split].
  { right; right; left. by exists (fst p), (snd p). }
  intros r s2 H2. apply pwp_ret. split; [done|]. by intros m rows [= <-].
Qed.

Lemma update_row_guarded s site t rowID body :
  pwp s (tables_UpdateRow open_error encryptor site t rowID body) (fun x s' => sent_on s t s' /\ shown_safely s t x) (fun x s' => sent_on s t s' /\ is_refusal x).
Proof.
  assert (sent_on s t s) as H0 by apply sent_refl. unfold tables_UpdateRow. apply pwp_bind, pwp_requireSiteDB; [|by split|by split]. intros n _ _.
  apply pwp_bind, pwp_path_int; [|by split]. intros id _. apply pwp_bind, (pwp_known s t); [done| |by split]. intros Hk.
  apply pwp_bind, pwp_row_data; [|by split]. intros data. apply pwp_bind, (pwp_secure s t); [done|].
  apply pwp_bind, pwp_bound; [|by split]. intros p Hp. destruct (fst p) eqn:Hc; [apply pwp_ret; split; [done|apply status_shown]|]. rewrite <- Hc in *.
  apply pwp_bind, (pwp_executed s t); [done| |done| |by split].
  { do 3 right; left. by exists (fst p), (snd p), id. }
  intros r s2 H2. apply pwp_ret. split; [done|apply status_shown].
Qed.

Lemma delete_row_guarded s site t rowID :
  pwp s (tables_DeleteRow open_error site t rowID) (fun x s' => sent_on s t s' /\ shown_safely s t x) (fun x s' => sent_on s t s' /\ is_refusal x).
Proof.
  assert (sent_on s t s) as H0 by apply sent_refl. unfold tables_DeleteRow. apply pwp_bind, pwp_requireSiteDB; [|by split|by split]. intros n _ _.
  apply pwp_bind, pwp_path_int; [|by split]. intros id _. apply pwp_bind, (pwp_known s t); [done| |by split]. intros Hk.
  apply pwp_bind, (pwp_executed s t); [done| |done| |by split]. { do 4 right. by exists id. }
  intros r s2 H2. apply pwp_ret. split; [done|apply status_shown].
Qed.
End Rows.


(** ** Examples *)

Module PanelSample.
Export ToolSample FloatSample.
#[export] Instance calm : Calm (E := ToolSample.env).
Proof. by split. Qed.
#[export] Existing Instance FloatSample.same_numbers.
Definition opens (n : Z) : option string := None.
Definition run {S A} (m : P S A) (s : S) : option (AdminAnswer + A) * S :=
  let '(x, c) := m {| cw := new_world; cs := s |} in
  (match x with Ok (Ok a) => Some (inr a) | Ok (Err x) => Some (inl x) | Err _ => None end, cs c).
Definition ann : string := dq "{'data':{'email':'a@b.c','password':'pw'}}".
End PanelSample.
Import PanelSample.


(** A name of a column with a quote in it goes on as text of the statement. *)
Example a_name_ends_the_quotes : st_sent (snd (run (tables_UpdateRow opens true "7" "users" "1"
    (dq "{'data':{'email\' = 1, \'role':'admin'}}")) ToolSample.store))
  = [(dq "UPDATE 'users' SET 'email' = 1, 'role' = ? WHERE id = ?", [JStr "admin"; int 1])].
Proof. vm_compute. reflexivity. Qed.

(** The case of a name is the database's to ignore and the panel's to heed: the
    password goes into the table as it is. *)
Example a_password_in_clear : st_sent (snd (run (tables_InsertRow opens true "7" "users"
    (dq "{'data':{'Password':'pw'}}")) ToolSample.store))
  = [(dq "INSERT INTO 'users' ('Password') VALUES (?)", [JStr "pw"])].
Proof. vm_compute. reflexivity. Qed.
