(* ===== verification/PanelLinks.v ===== *)
(** * The panels and the other parts of a site

    A task the owner makes is the one the tool would make; a service he switches off
    gets no more requests; a layout in use stays; an asset he uploads is served. *)

From Stdlib Require Import ZArith Lia Ascii String List Bool.
From stdpp Require Import base list strings gmap.
From S2P Require Import PublicAPIFacts Prelude GoStrings GoTime JSONText Cron Plan PlanJSON PlanStore OpenAI World ToolCore Security JSONRead SiteTables ToolMonad Tables Endpoints Scheduler SchedulerTool Questions StoreFacts Pages Layout PageText PageFacts HttpTool Paths Files FileFacts FileHistory Encryption Middleware PageParts PublicSite PublicSiteFacts Uploads AdminDB Services Payments PaymentFacts PanelTables Panel PanelContent PanelFacts.

Local Open Scope string_scope.
Local Open Scope Z_scope.

(** ** Tasks *)

Section Tasks.
Context `{E : Env} `{F : Formats} `{W : Newest} (ce : CronEnv).
Context (open_error : Z -> option string).

(** The call of the tool that asks for the same task. *)
Definition tool_args (q : newTask) : Args :=
  [("name", JStr (nt_name q)); ("prompt", JStr (nt_prompt q)); ("description", JStr (nt_description q));
   ("cron_expression", JStr (nt_cron q)); ("interval_seconds", JNum (Itoa (nt_interval q)))].

(** What is answered to a request of the panel where the tool would end so. *)
Definition same_answer (q : newTask) (o : outcome Result) (x : option AdminAnswer) : Prop :=
  match o with
  | Done r =>
      if Success r then exists id, x = Some (answer_json 201 (JObj [("id", int id); ("name", JStr (nt_name q))])) /\
                                   exists m, Data r = Some (JObj m) /\ arg "id" m = Some (int id)
      else x = Some (answer_error 400 (Error r))
  | Fail _ => x = Some (answer_error 500 "failed to create task")
  | Panic _ => x = None
  end.

Lemma P_run {S A B} (m : P S A) (k : A -> P S B) c : (m ≫= k) c =
  match m c with (Ok (Ok a), c') => k a c' | (Ok (Err x), c') => (Ok (Err x), c') | (Err e, c') => (Err e, c') end.
Proof. unfold mbind, P_bind, mbind, T_bind. by destruct (m c) as [[[a|x]|e] c']. Qed.

Lemma body_of_run {S A} (dec : list (string * json) -> res string A) body (c : Ctx S) a : decodes dec body a -> body_of dec body c = (Ok (Ok a), c).
Proof. intros (j & r & l & H1 & H2 & H3). unfold body_of. rewrite H1, H2. cbn. by rewrite H3. Qed.

Lemma requireSiteDB_run {S} site n (c : Ctx S) : Atoi site = (n, None) -> open_error n = None -> requireSiteDB open_error site c = (Ok (Ok n), c).
Proof. intros Hn Ho. unfold requireSiteDB, path_int. rewrite P_run, Hn. cbn. by rewrite Ho. Qed.

(** The row's insert, in the panel and in the tool. *)
Lemma insert_same q next c :
  let '(o, w) := create_row (nt_name q) (nt_description q) (nt_prompt q) (nt_cron q) (nt_interval q) next (cw c) in
  let '(x, c') := answer_of (r ← effect (lift (ExecInsert (insert_task (nt_name q) (nt_description q) (nt_prompt q) (nt_cron q) (nt_interval q) next)));
    match r with
    | None => refused 500 "failed to create task"
    | Some id => mret (answer_json 201 (JObj [("id", int id); ("name", JStr (nt_name q))]))
    end : P unit AdminAnswer) c in
  cw c' = w /\ same_answer q o x.
Proof.
  unfold create_row, answer_of. rewrite P_run. unfold effect, lift. unfold mbind, M_bind, mret, M_ret.
  destruct (ExecInsert _ (cw c)) as [[id|] w]; cbn; [|done]. split; [done|]. exists id. split; [done|].
  eexists. split; [done|]. by destruct next.
Qed.

(** C33. A task the owner makes is the task the tool would make.  For every request
    whose interval float64 holds exactly, the panel leaves the database, the
    scheduled tasks and the first run of the new one exactly as manage_scheduler
    leaves them for the same fields; it answers 201 with the id where the tool
    succeeds, 400 with the tool's error where that refuses, 500 where the insert
    fails, and does not end where the search for the next minute does not. *)
Theorem task_as_tool site n body q c :
  Atoi site = (n, None) -> open_error n = None -> decodes dec_new_task body q ->
  - 2 ^ 53 <= nt_interval q <= 2 ^ 53 ->
  let '(o, w) := executeCreate ce (tool_args q) (cw c) in
  let '(x, c') := answer_of (tasks_Create ce open_error site body) c in
  cw c' = w /\ same_answer q o x.
Proof.
  intros Hn Ho Hd Hi. destruct (float_of_int _ Hi) as (F1 & F2 & _).
  unfold answer_of, tasks_Create. rewrite P_run, (requireSiteDB_run site n) by done. rewrite P_run, (body_of_run _ body c q) by done.
  unfold executeCreate, tool_args. change (arg_string "name" _) with (nt_name q). change (arg_string "prompt" _) with (nt_prompt q).
  change (arg_string "description" _) with (nt_description q). change (arg_string "cron_expression" _) with (nt_cron q).
  change (arg_num "interval_seconds" _) with (Some (Itoa (nt_interval q))). cbv beta iota zeta. rewrite F1, F2, P_run.
  destruct ((nt_name q =? "")%string || (nt_prompt q =? "")%string); [by cbn|]. cbn [demand negb]. cbn [mret P_ret]. rewrite P_run.
  unfold cron_checked. destruct (if (nt_cron q =? "")%string then Ok tt else Cron.Validate (nt_cron q)) as [u|e] eqn:Hv; [|by cbn].
  cbn [mret P_ret]. rewrite P_run. unfold planned at 1. rewrite P_run. cbn [effect lift now World.get].
  assert ({| cw := cw c; cs := cs c |} = c) as -> by (by destruct c).
  assert (forall (k : time -> World.M (outcome Result)), (now ≫= k) (cw c) = k (clock (cw c)) (cw c)) as Hnow by done. rewrite Hnow.
  destruct (String.eqb_spec (nt_cron q) "") as [Hc|Hc]; cbn [negb].
  - unfold computeNextRun. cbn [negb String.eqb]. destruct (0 <? nt_interval q); cbn [mret P_ret]; apply insert_same.
  - unfold computeNextRun. apply String.eqb_neq in Hc. rewrite Hc. cbn [negb]. destruct (NextTime _ _ _ _) as [t|]; [|by cbn].
    cbn [mret P_ret]. apply insert_same.
Qed.
End Tasks.

(** ** Services *)

Lemma update_twice {A} (key : A -> bool) (f : A -> A) l : (forall x, key (f x) = key x) -> (forall x, f (f x) = x) ->
  update_where key f (update_where key f l) = l.
Proof.
  intros Hk Hf. unfold update_where. rewrite map_map. rewrite <- (map_id l) at 2. apply map_ext. intros x.
  destruct (key x) eqn:Hx; [by rewrite Hk, Hx, Hf|by rewrite Hx].
Qed.

Lemma find_nothing {A} (key : A -> bool) l : (forall x, In x l -> key x = false) -> List.find key l = None.
Proof. intros H. destruct (List.find key l) as [x|] eqn:Hf; [|done]. apply find_some in Hf as [Hi Hk]. by rewrite H in Hk. Qed.

Section Switch.
Context `{N : HttpTool.Net} `{AE : AEAD} `{C : Crypto} `{E : Env} `{K : !Calm} `{F : Formats} `{O : MapOrder} `{Fl : Floats}.
Context (open_error : Z -> option string) (encryptor : option Encryptor) (read_before : HttpResp -> string).
Implicit Types (s : ServiceStore).

(** No provider of the name is switched on. *)
Definition off (name : string) s : Prop := List.find (enabled_named name) (sv_providers s) = None.

Lemma off_request name s args : off name s -> arg_string "provider" args = name ->
  wp s (executeRequest encryptor args) (fun _ _ => False) (fun _ s' => s' = s).
Proof.
  intros Hoff Hp. unfold executeRequest. apply wp_bind, wp_guard; [intros _|done]. apply wp_bind, wp_load_calm. cbn [or_throw].
  apply wp_bind, wp_ret. rewrite Hp, Hoff. by apply wp_exit.
Qed.

Lemma off_checkout name s args : off name s -> (forall cfg, pay_config s = Some cfg -> pc_provider cfg = name) ->
  wp s (createCheckout encryptor read_before args) (fun _ _ => False) (fun _ s' => sv_sent s' = sv_sent s).
Proof.
  intros Hoff Hcfg. unfold createCheckout. apply wp_bind, wp_guard; [intros _|done]. apply wp_bind, wp_guard; [intros _|done].
  apply wp_bind, wp_ensure. apply wp_bind, wp_load_calm. rewrite ensured_config. destruct (pay_config s) as [cfg|]; [|by apply wp_exit].
  apply wp_bind, wp_load_calm. rewrite (Hcfg cfg eq_refl). change (sv_providers (ensured s)) with (sv_providers s).
  rewrite Hoff. by apply wp_exit.
Qed.

(** What the making of the tables for mail leaves. *)
Definition mail_same s s' : Prop := sv_providers s' = sv_providers s /\ sv_sent s' = sv_sent s /\ mail_config s' = mail_config s.
Lemma keeps_mail_same s : keeps (mail_same s) ensure_mail (fun _ => True).
Proof.
  assert (forall f, (forall s', mail_same s s' -> mail_same s (f s')) -> keeps (mail_same s) (save_ (fun _ => f)) (fun _ => True)) as Hs
    by (intros f Hf; apply keeps_save_; auto).
  unfold ensure_mail. eapply keeps_bind; [apply Hs|intros _ _; eapply keeps_bind; [apply Hs|intros _ _; by apply keeps_ret]];
    intros s' (H1 & H2 & H3); (split_and!; [done|done|]); rewrite <- H3; unfold mail_config; cbn; by destruct (sv_mail_config s').
Qed.
#[local] Hint Resolve keeps_mail_same : keeps.

Lemma off_mail name s args : off name s -> (forall cfg, mail_config s = Some cfg -> mc_provider cfg = name) ->
  wp s (send encryptor read_before args) (fun _ _ => False) (fun _ s' => sv_sent s' = sv_sent s).
Proof.
  intros Hoff Hcfg. unfold send. apply wp_bind. eapply (wp_inv (mail_same s)); [unfold load_template; keep_tac|by split_and!| |by intros x s' (_ & H & _)].
  intros m s1 H1. cbv zeta. apply wp_bind, wp_guard; [intros _|by destruct H1 as (_ & H & _)].
  apply wp_bind. eapply (wp_inv (mail_same s)); [apply keeps_mail_same|done| |by intros x s' (_ & H & _)].
  intros [] s2 (Hp & Hs & Hc). apply wp_bind, wp_load_calm. rewrite Hc. destruct (mail_config s) as [cfg|]; [|by apply wp_exit].
  apply wp_bind, wp_load_calm. rewrite Hp, (Hcfg cfg eq_refl), Hoff. by apply wp_exit.
Qed.

Lemma flip_twice p : flip_service (flip_service p) = p.
Proof. destruct p. unfold flip_service. cbn. by rewrite negb_involutive. Qed.

Lemma flipped_off id p s : NoDup (map sp_name (sv_providers s)) -> NoDup (map sp_id (sv_providers s)) ->
  In p (sv_providers s) -> sp_id p = id -> sp_enabled p = true ->
  off (sp_name p) (set_rows (update_where (service_is id) flip_service (sv_providers s)) s).
Proof.
  intros Hn Hi Hp <- He. apply find_nothing. cbn. intros x. unfold update_where. intros (y & <- & Hy)%in_map_iff.
  unfold enabled_named, service_named. destruct (service_is (sp_id p) y) eqn:Hk.
  - apply Z.eqb_eq in Hk. assert (y = p) as -> by (by eapply (NoDup_key sp_id)). cbn. rewrite He. apply andb_false_r.
  - destruct (String.eqb_spec (sp_name y) (sp_name p)) as [Hy'|]; [|done]. assert (y = p) as -> by (by eapply (NoDup_key sp_name)).
    unfold service_is in Hk. by rewrite Z.eqb_refl in Hk.
Qed.
End Switch.

(** A service the owner switches off gets no more requests.  After the switch neither
    manage_providers nor the checkouts and mails configured with it send anything;
    switched a second time, everything is as it was. *)
Theorem switched_off `{N : HttpTool.Net} `{AE : AEAD} `{C : Crypto} `{E : Env} `{K : !Calm} `{F : Formats} `{O : MapOrder} `{Fl : Floats}
    open_error encryptor read_before site id p s :
  NoDup (map sp_name (sv_providers s)) -> NoDup (map sp_id (sv_providers s)) -> In p (sv_providers s) -> Atoi id = (sp_id p, None) -> sp_enabled p = true ->
  pwp s (services_Toggle open_error site id)
    (fun _ s' =>
       (forall args, arg_string "provider" args = sp_name p ->
          wp s' (executeRequest encryptor args) (fun _ _ => False) (fun _ s'' => s'' = s')) /\
       (forall args, (forall cfg, pay_config s' = Some cfg -> pc_provider cfg = sp_name p) ->
          wp s' (createCheckout encryptor read_before args) (fun _ _ => False) (fun _ s'' => sv_sent s'' = sv_sent s')) /\
       (forall args, (forall cfg, mail_config s' = Some cfg -> mc_provider cfg = sp_name p) ->
          wp s' (send encryptor read_before args) (fun _ _ => False) (fun _ s'' => sv_sent s'' = sv_sent s')) /\
       pwp s' (services_Toggle open_error site id) (fun _ s'' => s'' = s) (fun _ _ => True))
    (fun x s' => s' = s /\ is_refusal x).
Proof.
  intros Hn Hi Hp Hid He. unfold services_Toggle at 1. apply pwp_bind, pwp_requireSiteDB; [intros n Hsite Hopen|by split|by split].
  apply pwp_bind, pwp_path_int; [|by split]. intros n' Hn'. rewrite Hid in Hn'. injection Hn' as <-.
  apply pwp_bind, pwp_writing. intros t. cbn [fst snd]. apply pwp_ret.
  pose proof (flipped_off (sp_id p) p s Hn Hi Hp eq_refl He) as Hoff. split_and!.
  - intros args Ha. by apply (off_request encryptor (sp_name p)).
  - intros args Ha. by apply (off_checkout encryptor read_before (sp_name p)).
  - intros args Ha. by apply (off_mail encryptor read_before (sp_name p)).
  - unfold services_Toggle. apply pwp_bind, pwp_requireSiteDB; [intros _ _ _|done..]. apply pwp_bind, pwp_path_int; [|done]. intros n' Hn'.
    rewrite Hid in Hn'. injection Hn' as <-. apply pwp_bind, pwp_writing. intros t'. cbn [fst snd]. apply pwp_ret. cbn [sv_providers set_rows].
    rewrite update_twice; [by destruct s|done|apply flip_twice].
Qed.

(** ** Layouts *)

Lemma find_kept {A} (key keep : A -> bool) l : (forall x, In x l -> key x = true -> keep x = true) ->
  List.find key (List.filter keep l) = List.find key l.
Proof.
  induction l as [|a l IH]; [done|]. intros H. cbn. destruct (keep a) eqn:Hk; cbn.
  - destruct (key a); [done|]. apply IH. intros x Hx. apply H. by right.
  - destruct (key a) eqn:Ha; [by rewrite (H a (or_introl eq_refl) Ha) in Hk|]. apply IH. intros x Hx. apply H. by right.
Qed.

(** A layout in use stays.  Whatever a request to delete a layout comes to, every live
    page that names its layout finds it as before, and the pages are untouched; a
    request that succeeds has removed the layout of its id and no other. *)
Theorem used_layout_stays `{E : Env} `{K : !Calm} open_error site layoutID s :
  NoDup (map l_id (lo_rows (fst s))) ->
  let kept s' := snd s' = snd s /\ forall p name, In p (ps_pages (snd s)) -> p_deleted p = false -> p_layout p = Some name ->
                                   find_layout name (fst s') = find_layout name (fst s) in
  pwp s (layouts_Delete open_error site layoutID)
    (fun x s' => kept s' /\ exists id, Atoi layoutID = (id, None) /\
                 lo_rows (fst s') = List.filter (fun l => negb (layout_is id l)) (lo_rows (fst s)) /\
                 List.find (layout_is id) (lo_rows (fst s)) <> None)
    (fun x s' => kept s' /\ is_refusal x).
Proof.
  intros Hn. cbv zeta. assert (snd s = snd s /\ forall p name, In p (ps_pages (snd s)) -> p_deleted p = false -> p_layout p = Some name ->
                                   find_layout name (fst s) = find_layout name (fst s)) as H0 by done.
  unfold layouts_Delete. apply pwp_bind, pwp_requireSiteDB; [intros n _ _|done..]. apply pwp_bind, pwp_path_int; [|done]. intros id Hid.
  apply pwp_bind, pwp_reading. destruct (List.find _ _) as [l|] eqn:Hl; [|by apply pwp_replied].
  apply pwp_bind. unfold count_uses. apply pwp_bind, pwp_reading, pwp_ret. apply pwp_bind, pwp_demand; [|done]. intros Hc%negb_true_iff%Z.ltb_ge.
  apply pwp_bind, pwp_writing. intros t. unfold delete_rows. cbn [fst snd]. pose proof (find_some _ _ Hl) as [Hin Hk].
  assert (forall s', fst s' = set_layouts (List.filter (fun x => negb (layout_is id x)) (lo_rows (fst s))) (fst s) -> snd s' = snd s ->
    snd s' = snd s /\ forall p name, In p (ps_pages (snd s)) -> p_deleted p = false -> p_layout p = Some name ->
                      find_layout name (fst s') = find_layout name (fst s)) as Hkept.
  { intros s' E1 E2. split; [done|]. intros p name Hp Hd Hname. unfold find_layout. rewrite E1. cbn [lo_rows set_layouts]. apply find_kept.
    intros x Hx Hnm%String.eqb_eq. apply negb_true_iff. destruct (layout_is id x) eqn:Hx'; [|done]. exfalso.
    assert (x = l) as -> by (apply (NoDup_key l_id _ _ _ Hn Hx Hin); unfold layout_is in *; lia).
    assert (In p (List.filter (uses_layout (l_name l)) (ps_pages (snd s)))) as Hu.
    { apply filter_In. split; [done|]. unfold uses_layout. rewrite Hd, Hname, Hnm. by rewrite bool_decide_true. }
    destruct (List.filter _ (ps_pages (snd s))); [done|]. cbn in Hc. lia. }
  apply pwp_bind, pwp_demand; intros Ha; [|split; [by apply Hkept|done]]. apply pwp_ret. split; [by apply Hkept|]. exists id. by rewrite Hl.
Qed.

(** ** Assets *)

Lemma prefixes_last l : forall sofar, l <> [] -> forallb plain_element l = true ->
  In (if (sofar =? "")%string then Join l "/" else sofar ++ "/" ++ Join l "/") (prefixes sofar l).
Proof.
  induction l as [|c r IH]; [done|]. intros sofar _ [Hc Hr]%andb_prop. cbn [prefixes]. destruct r as [|d r]; [left; by destruct (sofar =? "")%string|].
  right. assert (c <> "") as Hne by (by intros ->). destruct (String.eqb_spec sofar "") as [->|Hs].
  - specialize (IH c ltac:(done) Hr). apply String.eqb_neq in Hne. rewrite Hne in IH. by rewrite Join_cons.
  - specialize (IH (sofar ++ "/" ++ c) ltac:(done) Hr). rewrite (proj2 (String.eqb_neq (sofar ++ "/" ++ c) "")) in IH by (by destruct sofar).
    rewrite Join_cons by done. by rewrite !append_assoc in IH.
Qed.

Lemma safe_on_the_way p : safe_path p -> In p (prefixes "" (Split "/" p)).
Proof. intros Hp. pose proof (prefixes_last (Split "/" p) "" (Split_not_nil _ _) Hp) as H. cbn in H. by rewrite Join_Split in H. Qed.

(** A name without an element of its own leads to the directory itself. *)
Lemma Join_no_name dir : safe_path dir -> path_Join dir "" = dir /\ path_Join dir "/" = dir.
Proof.
  intros Hd. split; [by apply Clean_safe|]. unfold path_Join. cbn [String.eqb]. unfold Clean.
  change (dir ++ "/" ++ "/") with (dir ++ "/" ++ "" ++ "/" ++ ""). rewrite !Split_append, !fold_left_app, (clean_plain (Split "/" dir)) by exact Hd.
  cbn [fold_left Split clean_step String.eqb orb app]. rewrite app_nil_r, rev_involutive. pose proof (Join_Split dir).
  pose proof (Split_not_nil "/" dir). by destruct (Split "/" dir).
Qed.

Section Assets.
Context `{E : Env} `{K : !Calm} `{F : Formats} `{N : HttpTool.Net} `{D : Disk} `{V : Server}.
Context (open_error : Z -> option string).
Hypothesis disk_works : forall n o p, disk_error n o p = None.
Hypothesis reads_work : forall n, read_breaks n = false.
Implicit Types (s : FileStore).

Lemma pwp_panel_dir s siteID cfg (Q : string -> FileStore -> Prop) R : valid cfg ->
  (forall s', same_data s s' -> site_dir siteID cfg ∈ fs_dirs s' -> Q (site_dir siteID cfg) s') ->
  (forall s', same_data s s' -> R (answer_error 500 "failed to create directory") s') -> pwp s (panel_dir siteID cfg) Q R.
Proof.
  intros Hv HQ HR. unfold panel_dir. apply pwp_bind, pwp_effect, wp_MkdirAll; [done|]. intros s' Hs Hd. apply pwp_bind, pwp_or_refused; [|by apply HR].
  intros a Ha. destruct (bool_decide _) eqn:Hb; [|done]. apply bool_decide_eq_true in Hb. apply pwp_ret, HQ; [done|].
  apply Hd; [|left; by apply safe_on_the_way, site_dir_safe]. intros q Hq%list_elem_of_In. by apply (proj1 (Forall_forall _ _) Hb).
Qed.

Lemma put_row_found cfg name ct size path desc t s :
  exists f, find_row cfg name (snd (put_row cfg name ct size path desc t s)) = Some f /\ f_type f = Some ct /\ f_path f = path.
Proof.
  unfold find_row, put_row. cbn [snd]. rewrite rows_set. unfold upsert. destruct (existsb _ _) eqn:He; cbn [snd].
  - rewrite find_update_where by (intros y Hy; unfold named in *; cbn; by rewrite Hy, String.eqb_refl).
    apply existsb_exists in He as (y & Hin & Hy). destruct (List.find _ _) as [z|] eqn:Hf.
    + apply find_some in Hf as [_ Hz]. cbn [option_map]. rewrite Hz. by eexists.
    + by rewrite (find_none _ _ Hf y Hin) in Hy.
  - rewrite find_app_None by (by apply find_None_existsb). unfold named. cbn. rewrite String.eqb_refl. by eexists.
Qed.

(** A request for the name under /assets/ is answered with these bytes, or with "not modified". *)
Definition shown_as site name ct data (s : FileStore) : Prop :=
  forall cache ps r, pub_files (sv ps) = s -> url_path r = "/assets/" ++ name ->
    fst (serve_stored assets_config cache site r ps) =
      if (header "If-None-Match" r =? etag_of data)%string then RNotModified (etag_of data) else RFile ct cache (etag_of data) data.

(** The server's table of types comes before what the panel recorded. *)
Definition type_shown name : string := if (mimeByExtension name =? "")%string then panel_type name else mimeByExtension name.

Lemma recorded_type f name : f_type f = Some (panel_type name) -> file_type f name = type_shown name.
Proof.
  intros Hf. unfold file_type, type_shown. rewrite Hf. cbn [default id]. destruct (String.eqb_spec (mimeByExtension name) "") as [_|Hm]; cbv zeta.
  - assert (panel_type name <> "") as Hne%String.eqb_neq; [|by rewrite Hne]. unfold panel_type, panel_types. cbn [table_get].
    repeat (case_match; [done|]). done.
  - apply String.eqb_neq in Hm. by rewrite Hm.
Qed.

Lemma base_name_safe p : Base p <> "." -> Base p <> ".." -> Base p = "/" \/ Base p = "" \/ safe_path (Base p).
Proof.
  intros H1 H2. destruct (Base_cases p) as [->|Hb]; [by left|right]. destruct (String.eqb_spec (Base p) "") as [->|Hne]; [by left|right].
  apply safe_element; [done|]. unfold plain_element. apply negb_true_iff. unfold is_in, existsb. rewrite !orb_false_iff.
  split_and!; try done; by apply String.eqb_neq, not_eq_sym.
Qed.

Lemma pwp_WriteFile {A} s path data status msg (Q : A -> FileStore -> Prop) R k :
  (forall s', same_data s s' -> place path s = None -> pwp (set_disk (<[path := data]> (fs_disk s)) s') (k tt) Q R) ->
  (forall s', same_data s s' -> R (answer_error status msg) s') ->
  pwp s (w ← effect (WriteFile path data); or_refused status msg w ≫= k) Q R.
Proof.
  intros HQ HR. apply pwp_bind, pwp_effect, wp_WriteFile; [done|]. intros s' Hs _. destruct (place path s) eqn:Hp.
  - apply pwp_bind, pwp_replied. by apply HR.
  - apply pwp_bind, pwp_ret. by apply HQ.
Qed.

Lemma saved_row_shown site s dir name data desc t : dir = site_dir (si_id site) assets_config ->
  fs_disk s !! path_Join dir name = Some data -> safe_path name -> HasPrefix name ".." = false ->
  shown_as site name (type_shown name) data
    (snd (put_row assets_config name (panel_type name) (Z.of_nat (String.length data)) (path_Join dir name) desc t s)).
Proof.
  intros -> Hd Hn Hdd cache ps r Hs Hu. assert (valid assets_config) as Hv by by left.
  destruct (put_row_found assets_config name (panel_type name) (Z.of_nat (String.length data))
    (path_Join (site_dir (si_id site) assets_config) name) desc t s) as (f & Hf & Ht & Hp).
  rewrite <- (recorded_type f name Ht). apply serve_found; rewrite ?Hs; try done.
Qed.

Definition asset_made site (body : string) (x : AdminAnswer) (s' : FileStore) : Prop :=
  exists q, decodes dec_text_asset body q /\ let name := Base (ta_filename q) in
    safe_path name /\ x = created_json name (panel_type name) (Z.of_nat (String.length (ta_content q))) /\
    (HasPrefix name ".." = false -> shown_as site name (type_shown name) (ta_content q) s').

(** The filenames of the assets are unique. *)
Definition names_unique (s : FileStore) : Prop := NoDup (map f_name (fs_assets s)).

Lemma put_row_unique name ct size path desc t s : names_unique s -> names_unique (snd (put_row assets_config name ct size path desc t s)).
Proof.
  intros Hn. unfold names_unique, put_row. cbn [snd]. change (fs_assets (set_file_rows assets_config ?l ?s)) with l.
  eapply NoDup_upsert; [intros x; apply eqb_key|done|done|exact Hn].
Qed.

Lemma text_asset_made site body s : names_unique s ->
  pwp s (handleTextAsset open_error (si_id site) body) (fun x s' => asset_made site body x s' /\ names_unique s')
    (fun x s' => is_refusal x /\ fs_assets s' = fs_assets s /\ fs_files s' = fs_files s).
Proof.
  intros Hu. assert (valid assets_config) as Hv by by left. unfold handleTextAsset.
  apply pwp_bind, pwp_decoded; [intros q Hq|done]. apply pwp_bind, pwp_demand; [intros _|done].
  apply pwp_bind. unfold base_name. apply pwp_bind, pwp_demand; [|done]. intros [H1%String.eqb_neq H2%String.eqb_neq]%negb_true_iff%orb_false_iff.
  apply pwp_ret. apply pwp_bind, pwp_panel_dir; [done| |by intros s1 (_ & _ & -> & ->)]. intros s1 (_ & _ & Ha & Hf) Hdir.
  apply pwp_WriteFile; [|by intros s2 (_ & _ & -> & ->)]. intros s2 (Hd2 & _ & Ha2 & Hf2) Hplace.
  assert (safe_path (Base (ta_filename q))) as Hn.
  { destruct (base_name_safe _ H1 H2) as [Hb|[Hb|Hb]]; [| |done]; exfalso; rewrite Hb in Hplace;
      destruct (Join_no_name (site_dir (si_id site) assets_config)) as [E1 E2]; try (by apply site_dir_safe);
      rewrite ?E1, ?E2 in Hplace; unfold place in Hplace; by rewrite bool_decide_true in Hplace. }
  unfold save_asset_row. destruct (open_error _); [apply pwp_replied; cbn; by rewrite Ha2, Hf2|].
  apply pwp_bind, pwp_writing. intros t. apply pwp_ret.
  split; [|apply put_row_unique; unfold names_unique; cbn; by rewrite Ha2, Ha]. exists q. split; [done|]. cbv zeta. split; [done|]. split; [done|]. intros Hdd.
  apply saved_row_shown; [done| |done|done]. cbn. apply lookup_insert_eq.
Qed.

(** Once the asset of a name is deleted, nothing is shown under the name. *)
Definition gone_when_deleted site name (s : FileStore) : Prop :=
  forall f site_text id, find_row assets_config name s = Some f -> Atoi id = (f_id f, None) ->
    pwp s (assets_Delete open_error site_text id)
      (fun _ s' => find_row assets_config name s' = None /\ forall cache ps r, pub_files (sv ps) = s' -> url_path r = "/assets/" ++ name ->
                     fst (serve_stored assets_config cache site r ps) = NotFound)
      (fun x s' => s' = s /\ is_refusal x).

Lemma deleted_gone site name s : names_unique s -> gone_when_deleted site name s.
Proof.
  intros Hu f st id Hf Hid. unfold assets_Delete. apply pwp_bind, pwp_requireSiteDB; [intros n _ _|done..].
  apply pwp_bind, pwp_path_int; [|done]. intros m Hm. rewrite Hid in Hm. injection Hm as <-. apply pwp_bind, pwp_writing. intros t. apply pwp_ret.
  assert (find_row assets_config name (snd (delete_file assets_config (f_id f) t s)) = None) as Hnone.
  { unfold find_row, delete_file. cbn [snd]. rewrite rows_set. apply find_nothing. intros x [Hx Hk]%filter_In. apply find_some in Hf as [Hin Hnm].
    unfold named in *. destruct (String.eqb_spec (f_name x) name) as [He|]; [|done]. apply String.eqb_eq in Hnm.
    assert (x = f) as -> by (eapply (NoDup_key f_name); [exact Hu|done|done|by rewrite He]). unfold file_is in Hk. by rewrite Z.eqb_refl in Hk. }
  split; [done|]. intros cache ps r Hs Hr. unfold serve_stored. rewrite Hr, TrimPrefix_append. destruct (plain_name name); [|done]. cbn [negb].
  rewrite bind_run. destruct (openSite ps) as [ok ps'] eqn:Ho. assert (sv ps' = sv ps /\ ok = true) as [Hsv ->].
  { unfold openSite in Ho. rewrite bind_run, row_works in Ho by done. by injection Ho as <- <-. }
  cbn [fst snd negb]. rewrite bind_run, row_works by done. by rewrite Hsv, Hs, Hnone.
Qed.
End Assets.

(** An asset the owner makes is shown.  When the disk works, making a text asset
    either is refused, leaving the tables of files as they were, or stores it under the
    last element of the name asked for - one element of a path, so inside the
    directory of the site - and answers with that name, the type and the number of
    bytes; then a visitor who asks for /assets/ and the name gets these bytes (or "not
    modified"), unless the name begins with two dots.  Deleted by the owner, it is no
    longer found by the tool or the visitor. *)
Theorem asset_shown `{E : Env} `{K : !Calm} `{F : Formats} `{N : HttpTool.Net} `{D : Disk} `{V : Server} open_error site body s :
  (forall n o p, disk_error n o p = None) -> (forall n, read_breaks n = false) -> names_unique s ->
  pwp s (handleTextAsset open_error (si_id site) body)
    (fun x s' => asset_made site body x s' /\ forall name, gone_when_deleted open_error site name s')
    (fun x s' => is_refusal x /\ fs_assets s' = fs_assets s /\ fs_files s' = fs_files s).
Proof.
  intros Hd Hr Hu. eapply pwp_mono; [by apply text_asset_made| |done]. intros x s' [H1 H2]. split; [done|]. intros name. by apply deleted_gone.
Qed.

(** ** Examples *)

Module LinkSample.
Export FileSample SiteSample.
#[export] Existing Instances FileSample.calm EncryptionSample.plain FloatSample.same_numbers ApiSample.crypto.
Definition opens (n : Z) : option string := None.
Definition run {S A} (m : P S A) (s : S) : option (AdminAnswer + A) * S :=
  let '(x, c) := m {| cw := new_world; cs := s |} in
  (match x with Ok (Ok a) => Some (inr a) | Ok (Err x) => Some (inl x) | Err _ => None end, cs c).

Definition report : string := dq "{'name':'report','prompt':'write it','interval_seconds':60}".
Definition banner : string := dq "{'filename':'img/banner.css','content':'i{}'}".
Definition used : Page := {| p_id := 1; p_path := "/"; p_title := None; p_content := Some ""; p_template := None; p_status := Some "published";
  p_metadata := None; p_layout := Some "wide"; p_assets := None; p_deleted := false; p_deleted_at := None; p_created := 0%Z; p_updated := 0%Z |}.
Definition plain_page : Page := {| p_id := 2; p_path := "/a"; p_title := None; p_content := Some ""; p_template := None; p_status := Some "published";
  p_metadata := None; p_layout := None; p_assets := None; p_deleted := false; p_deleted_at := None; p_created := 0%Z; p_updated := 0%Z |}.
Definition layout (id : Z) (name : string) : LayoutRow :=
  {| l_id := id; l_name := name; l_head := Some ""; l_before := Some ""; l_after := Some ""; l_template := None; l_created := 0; l_updated := 0 |}.
Definition two_layouts : LayoutStore * PageStore :=
  ({| lo_rows := [layout 1 "default"; layout 2 "wide"]; lo_versions := [] |}, {| ps_pages := [used; plain_page]; ps_versions := []; ps_nav := None; ps_api := []; ps_auth := [] |}).
Definition provider : ServiceRow :=
  {| sp_id := 1; sp_name := "stripe"; sp_base := "https://api.test/"; sp_type := "bearer"; sp_header := "Authorization";
     sp_prefix := "Bearer"; sp_secret := Some "stripe_key"; sp_description := ""; sp_docs := ""; sp_enabled := true; sp_created := 0 |}.
Definition shop : ServiceStore :=
  {| sv_providers := [provider]; sv_seq := 1; sv_secrets := []; sv_pay_config := None; sv_payments := None; sv_mail_config := None;
     sv_templates := None; sv_sent := [] |}.
End LinkSample.
Import LinkSample.

Lemma task_as_tool_witness :
  let q := {| nt_name := "report"; nt_description := ""; nt_cron := ""; nt_interval := 60; nt_prompt := "write it" |} in
  let c := {| cw := new_world; cs := tt |} in
  let '(o, w) := executeCreate SchedulerSample.ce (tool_args q) (cw c) in
  let '(x, c') := answer_of (tasks_Create SchedulerSample.ce opens "7" report) c in
  map t_name (scheduled_tasks (db w)) = ["report"] /\ cw c' = w /\ same_answer q o x.
Proof.
  cbv zeta. set (q := {| nt_name := "report" |}). set (c := {| cw := new_world; cs := tt |}).
  pose proof (task_as_tool SchedulerSample.ce opens "7" 7 report q c eq_refl eq_refl) as H.
  assert (decodes dec_new_task report q) as Hd.
  { eexists _, _, _. split; [vm_compute; reflexivity|]. by split. }
  specialize (H Hd). destruct (executeCreate SchedulerSample.ce (tool_args q) (cw c)) as [o w] eqn:Ho.
  destruct (answer_of _ c) as [x c']. split; [|apply H; cbn; lia].
  vm_compute in Ho. by injection Ho as _ <-.
Defined.

(** The style is served under the last element of the name asked for. *)
Lemma asset_shown_witness :
  let '(x, s') := run (handleTextAsset opens (si_id SiteSample.site) banner) (cs FileSample.start) in
  map f_name (fs_assets s') = ["css/a.css"; "banner.css"] /\
  exists a, x = Some (inr a) /\ asset_made SiteSample.site banner a s' /\ forall name, gone_when_deleted opens SiteSample.site name s'.
Proof.
  pose proof (asset_shown opens SiteSample.site banner (cs FileSample.start) (fun _ _ _ => eq_refl) (fun _ => eq_refl)
    (NoDup_singleton _) FileSample.start eq_refl) as H.
  unfold run. change {| cw := new_world; cs := cs FileSample.start |} with FileSample.start.
  destruct (handleTextAsset opens _ banner FileSample.start) as [r c] eqn:Hr.
  assert (map f_name (fs_assets (cs c)) = ["css/a.css"; "banner.css"] /\ exists a, r = Ok (Ok a)) as [H1 [a ->]].
  { pose proof Hr as Hv. vm_compute in Hv. injection Hv as <- <-. split; [by vm_compute|by eexists]. }
  split; [done|]. exists a. split; [done|exact H].
Defined.

(** The layout in use stays; the default one goes, although a page without a layout
    of its own is shown in it. *)
Lemma used_layout_stays_witness :
  (exists x, fst (run (layouts_Delete opens "7" "2") two_layouts) = Some (inl x) /\ is_refusal x) /\
  find_layout "wide" (fst (snd (run (layouts_Delete opens "7" "2") two_layouts))) = Some (layout 2 "wide").
Proof.
  assert (NoDup (map l_id (lo_rows (fst two_layouts)))) as Hn by (by apply (bool_decide_unpack _)).
  pose proof (used_layout_stays opens "7" "2" two_layouts Hn {| cw := new_world; cs := two_layouts |} eq_refl) as H. cbv zeta in H.
  unfold run. destruct (layouts_Delete opens "7" "2" _) as [r c] eqn:Hr. pose proof Hr as Hv. vm_compute in Hv. injection Hv as Hx Hc.
  rewrite <- Hx in H |- *. destruct H as [[_ Hk] Href]. split; [by eexists|]. cbn [snd]. rewrite (Hk used "wide"); [done|by left|done|done].
Defined.

Example default_layout_goes : find_layout "default" (fst (snd (run (layouts_Delete opens "7" "1") two_layouts))) = None.
Proof. vm_compute. reflexivity. Qed.

(** Of an asset that is deleted the bytes stay on disk; a file takes its own along. *)
Example bytes_stay : fs_disk (snd (run (assets_Delete opens "7" "1") (cs FileSample.start))) !! "data/sites/7/assets/css/a.css" = Some "b{}".
Proof. vm_compute. reflexivity. Qed.

(** A service that is not there is toggled too. *)
Example nothing_toggled : run (services_Toggle opens "7" "9") shop = (Some (inr (answer_json 200 (JObj [("id", int 9); ("toggled", JBool true)]))), shop).
Proof. vm_compute. reflexivity. Qed.

Lemma switched_off_witness :
  let s' := snd (run (services_Toggle opens "7" "1") shop) in
  map sp_enabled (sv_providers s') = [false] /\
  (forall args, arg_string "provider" args = "stripe" ->
     wp s' (executeRequest None args) (fun _ _ => False) (fun _ s'' => s'' = s')) /\
  pwp s' (services_Toggle opens "7" "1") (fun _ s'' => s'' = shop) (fun _ _ => True).
Proof.
  pose proof (switched_off opens None (fun _ => "") "7" "1" provider shop (NoDup_singleton _) (NoDup_singleton _) (or_introl eq_refl) eq_refl eq_refl
    {| cw := new_world; cs := shop |} eq_refl) as H.
  unfold run. destruct (services_Toggle opens "7" "1" _) as [r c] eqn:Hr. pose proof Hr as Hv. vm_compute in Hv. injection Hv as Hx Hc.
  rewrite <- Hx in H. destruct H as (H1 & _ & _ & H4). cbn [snd]. split; [by rewrite <- Hc|]. split; [exact H1|exact H4].
Defined.
