(* ===== verification/SiteTool.v ===== *)
(** * What a site reports of itself: tools/site.go, analytics.go and diagnostics.go

    The model's tools that read a site as a whole - its row, its redirects, its
    visitors, its errors and what is missing in it - and change its mode and its
    redirects.  The panels of Reports show the same to the owner. *)

From Stdlib Require Import ZArith Lia Ascii String List Bool.
From stdpp Require Import base list strings gmap.
From S2P Require Import Prelude GoStrings GoTime JSONText PlanStore World ToolCore Security SiteTables ToolMonad Tables SchedulerTool Endpoints Pages Layout Files LLMTypes PublicSite AdminDB.

Local Open Scope string_scope.

(** ** Times as texts *)

Definition digit (n : Z) : string := s1 (ascii_of_nat (48 + Z.to_nat (n mod 10))).
Definition pad2 (n : Z) : string := digit (n / 10) ++ digit n.
Definition year_text (y : Z) : string := if (0 <=? y)%Z && (y <? 10000)%Z then pad2 (y / 100) ++ pad2 (y mod 100) else Itoa y.

(** The date of a day as [2006-01-02]. *)
Definition date_text (n : Z) : string := let '(y, m, d) := civil n in year_text y ++ "-" ++ pad2 m ++ "-" ++ pad2 d.
Definition clock_text (t : time) : string :=
  pad2 (Hour 0 t) ++ ":" ++ pad2 (Minute 0 t) ++ ":" ++ pad2 (wall 0 t mod minute / second).
(** [CURRENT_TIMESTAMP], as the database stores and compares it. *)
Definition stamp_text (t : time) : string := date_text (day_of 0 t) ++ " " ++ clock_text t.

Definition string_ltb (a b : string) : bool := negb (string_leb b a).

(** ** The tables *)

Record RedirectRow := { rd_id : Z; rd_source : string; rd_target : string; rd_code : Z; rd_created : time }.
Record VisitRow := {
  an_path : string; an_hash : option string; an_referrer : option string; an_agent : option string; an_country : option string;
  an_created : time;
}.
(** A row of brain_log. *)
Record LogLine := { ln_id : Z; ln_log : BrainLog }.
(** A row of llm_log. *)
Record LLMLogRow := { ll_id : Z; ll_entry : LLMLogEntry; ll_error : option string; ll_created : time }.

(** The site's row in the global database and the tables of the site itself. *)
Record SiteView := {
  sw_sites : list Site; sw_redirects : list RedirectRow; sw_visits : list VisitRow; sw_log : list LogLine;
  sw_llm : list LLMLogRow; sw_pages : list Page; sw_layouts : list LayoutRow; sw_assets : list FileRow;
  sw_tables : list DynRow; sw_stage : option string;
}.

Definition set_sites (l : list Site) (s : SiteView) : SiteView :=
  {| sw_sites := l; sw_redirects := sw_redirects s; sw_visits := sw_visits s; sw_log := sw_log s; sw_llm := sw_llm s; sw_pages := sw_pages s;
     sw_layouts := sw_layouts s; sw_assets := sw_assets s; sw_tables := sw_tables s; sw_stage := sw_stage s |}.
Definition set_redirects (l : list RedirectRow) (s : SiteView) : SiteView :=
  {| sw_sites := sw_sites s; sw_redirects := l; sw_visits := sw_visits s; sw_log := sw_log s; sw_llm := sw_llm s; sw_pages := sw_pages s;
     sw_layouts := sw_layouts s; sw_assets := sw_assets s; sw_tables := sw_tables s; sw_stage := sw_stage s |}.
Definition set_llm (l : list LLMLogRow) (s : SiteView) : SiteView :=
  {| sw_sites := sw_sites s; sw_redirects := sw_redirects s; sw_visits := sw_visits s; sw_log := sw_log s; sw_llm := l; sw_pages := sw_pages s;
     sw_layouts := sw_layouts s; sw_assets := sw_assets s; sw_tables := sw_tables s; sw_stage := sw_stage s |}.

(** ** Counting *)

(** [COUNT(DISTINCT ...)] *)
Definition count_distinct (l : list (option string)) : Z := Z.of_nat (List.length (nodup string_dec (omap id l))).
(** [GROUP BY]: each key with its rows. *)
Definition grouped {A} (key : A -> string) (l : list A) : list (string * list A) :=
  map (fun k => (k, List.filter (fun x => (key x =? k)%string) l)) (nodup string_dec (map key l)).
Definition count {A} (l : list A) : Z := Z.of_nat (List.length l).

(** ** manage_site *)

Section SiteTool.
Context `{E : Env} `{F : Formats} `{O : MapOrder}.
Context (siteID : Z).
Implicit Types (args : Args).

Definition own_site (x : Site) : bool := (st_id x =? siteID)%Z.
Definition given (k : string) (o : option string) : list (string * json) :=
  match o with Some v => if (v =? "")%string then [] else [(k, JStr v)] | None => [] end.

Definition site_info args : T SiteView Result :=
  r ← load (fun s => List.find own_site (sw_sites s));
  match r with
  | Ok (Some x) => mret (success ([("created_at", JStr (time_text (st_created x)))] ++ given "description" (st_description x)
                                   ++ given "domain" (st_domain x)
                                   ++ [("mode", JStr (st_mode x)); ("name", JStr (st_name x)); ("updated_at", JStr (time_text (st_updated x)))])%list)
  | _ => reject "site not found"
  end.

Definition validModes : list string := ["building"; "monitoring"; "paused"].
Definition with_mode (mode : string) (t : time) (x : Site) : Site :=
  {| st_id := st_id x; st_name := st_name x; st_domain := st_domain x; st_description := st_description x; st_model := st_model x;
     st_status := st_status x; st_mode := mode; st_config := st_config x; st_created := st_created x; st_updated := t |}.
Definition setMode args : T SiteView Result :=
  let mode := arg_string "mode" args in
  guard_reject (existsb (String.eqb mode) validModes) "mode must be one of: building, monitoring, paused";;
  n ← must_save "setting site mode" (fun t s =>
        (count (List.filter own_site (sw_sites s)), set_sites (update_where own_site (with_mode mode t) (sw_sites s)) s));
  guard_reject (negb (n =? 0)%Z) "site not found";;
  mret (success [("mode", JStr mode); ("site_id", int siteID)]).

(** *** Redirects *)

Definition redirects_from (source : string) (r : RedirectRow) : bool := (rd_source r =? source)%string.
(** [int] of a float64 cuts its fraction off; an argument of another type is none. *)
Definition redirect_code args : Z := match arg_num "status_code" args with Some lit => float_int lit | None => 301%Z end.
Definition upsert_redirect (source target : string) (code : Z) (t : time) (s : SiteView) : SiteView :=
  set_redirects (snd (upsert (redirects_from source) rd_id
    (fun n => {| rd_id := n; rd_source := source; rd_target := target; rd_code := code; rd_created := t |})
    (fun r => {| rd_id := rd_id r; rd_source := rd_source r; rd_target := target; rd_code := code; rd_created := rd_created r |})
    (sw_redirects s))) s.

Definition addRedirect args : T SiteView Result :=
  let source := arg_string "source_path" args in
  let target := arg_string "target_path" args in
  guard_reject (negb ((source =? "")%string || (target =? "")%string)) "source_path and target_path are required";;
  guard_reject (HasPrefix source "/") "source_path must start with /";;
  let code := redirect_code args in
  guard_reject ((code =? 301)%Z || (code =? 302)%Z) "status_code must be 301 (permanent) or 302 (temporary)";;
  must_save "adding redirect" (fun t s => (tt, upsert_redirect source target code t s));;
  mret (success [("source_path", JStr source); ("status_code", int code); ("target_path", JStr target)]).

Definition removeRedirect args : T SiteView Result :=
  let source := arg_string "source_path" args in
  guard_reject (negb (source =? "")%string) "source_path is required";;
  n ← must_save "removing redirect" (fun _ s =>
        let '(n, l) := delete_rows (redirects_from source) (sw_redirects s) in (n, set_redirects l s));
  guard_reject (negb (n =? 0)%Z) "redirect not found";;
  mret (success [("deleted", JStr source)]).

Definition redirect_json (r : RedirectRow) : json :=
  JObj [("created_at", JStr (time_text (rd_created r))); ("source_path", JStr (rd_source r)); ("status_code", int (rd_code r));
        ("target_path", JStr (rd_target r))].
Definition listRedirects args : T SiteView Result :=
  r ← load (fun s => order_by rd_source (sw_redirects s));
  l ← or_throw "listing redirects" r;
  mret (result_data (slice redirect_json l)).

Definition SiteTool_Execute args : T SiteView Result :=
  dispatch [("info", site_info); ("set_mode", setMode); ("add_redirect", addRedirect); ("remove_redirect", removeRedirect);
            ("list_redirects", listRedirects)] None args.
End SiteTool.

(** ** manage_analytics *)

Section Analytics.
Context `{E : Env} `{F : Formats} `{O : MapOrder} `{W : Newest}.
Implicit Types (args : Args).

(** [created_at >= ? AND created_at <= ?]: texts are compared. *)
Definition within (first last : string) (v : VisitRow) : bool :=
  string_leb first (stamp_text (an_created v)) && string_leb (stamp_text (an_created v)) last.
Definition last_moment (endDate : string) : string := endDate ++ " 23:59:59".

Definition visit_record (v : VisitRow) : json :=
  let text k o := match o with Some t => [(k, JStr t)] | None => [] end in
  JObj (text "country" (an_country v) ++ [("created_at", JStr (time_text (an_created v))); ("page_path", JStr (an_path v))]
        ++ text "referrer" (an_referrer v) ++ text "visitor_hash" (an_hash v))%list.

Definition analytics_query args : T SiteView Result :=
  let startDate := arg_string "start_date" args in
  let endDate := arg_string "end_date" args in
  guard_reject (negb ((startDate =? "")%string || (endDate =? "")%string)) "start_date and end_date are required";;
  let pagePath := arg_string "page_path" args in
  r ← load (fun s => firstn 1000 (newest an_created (List.filter (fun v =>
        within startDate (last_moment endDate) v && ((pagePath =? "")%string || (an_path v =? pagePath)%string)) (sw_visits s))));
  l ← or_throw "querying analytics" r;
  mret (result_data (slice visit_record l)).

Definition referred (v : VisitRow) : bool := match an_referrer v with Some r => negb (r =? "")%string | None => false end.
(** [GROUP BY ... ORDER BY COUNT DESC LIMIT 10]: the keys with their counts. *)
Definition top {A} (n : nat) (key : A -> string) (l : list A) : list (string * Z) :=
  firstn n (newest snd (map (fun g => (fst g, count (snd g))) (grouped key l))).
Definition top_pages (l : list VisitRow) : list (string * Z) := top 10 an_path l.
Definition top_referrers (l : list VisitRow) : list (string * Z) := top 10 (fun v => default "" (an_referrer v)) (List.filter referred l).

Definition analytics_summary args : T SiteView Result :=
  let startDate := arg_string "start_date" args in
  let endDate := arg_string "end_date" args in
  guard_reject (negb ((startDate =? "")%string || (endDate =? "")%string)) "start_date and end_date are required";;
  let visits s := List.filter (within startDate (last_moment endDate)) (sw_visits s) in
  r ← load (fun s => count (visits s));
  totalViews ← or_throw "counting views" r;
  r ← load (fun s => count_distinct (map an_hash (visits s)));
  uniqueVisitors ← or_throw "counting unique visitors" r;
  r ← load (fun s => top_pages (visits s));
  pages ← or_throw "querying top pages" r;
  r ← load (fun s => top_referrers (visits s));
  referrers ← or_throw "querying top referrers" r;
  mret (success [("end_date", JStr endDate); ("start_date", JStr startDate);
    ("top_pages", slice (fun g => JObj [("page_path", JStr (fst g)); ("views", int (snd g))]) pages);
    ("top_referrers", slice (fun g => JObj [("count", int (snd g)); ("referrer", JStr (fst g))]) referrers);
    ("total_views", int totalViews); ("unique_visitors", int uniqueVisitors)]).

Definition AnalyticsTool_Execute args : T SiteView Result :=
  dispatch [("query", analytics_query); ("summary", analytics_summary)] None args.
End Analytics.

(** ** manage_diagnostics *)

(** What package runtime and the pool of connections tell, as they are shown. *)
Record Machine := { mc_runtime : json; mc_memory : json; mc_database : json }.

Section Diagnostics.
Context `{E : Env} `{F : Formats} `{O : MapOrder} `{W : Newest} `{SC : TableScan}.
Context (machine : Machine).
Implicit Types (args : Args).

(** A count whose read fails is zero. *)
Definition counted {A} (f : SiteView -> list A) : T SiteView Z :=
  r ← load (fun s => count (f s));
  mret match r with Ok n => n | Err _ => 0%Z end.

Definition diagnostics_health args : T SiteView Result :=
  pageCount ← counted sw_pages;
  t ← lift now;
  mret (success [("database", mc_database machine); ("memory", mc_memory machine); ("runtime", mc_runtime machine);
                 ("site_stats", JObj [("pages", int pageCount)]); ("timestamp", JStr (time_text t))]).

(** A line whose duration is NULL does not scan. *)
Definition line_json (l : LogLine) : option json :=
  let b := ln_log l in
  let text k o := match o with Some t => [(k, JStr t)] | None => [] end in
  option_map (fun d => JObj ([("created_at", JStr (time_text (bl_created b)))] ++ text "details" (bl_details b)
                             ++ [("duration_ms", int d); ("event_type", JStr (bl_type b)); ("id", int (ln_id l))] ++ text "model" (bl_model b)
                             ++ [("summary", JStr (bl_summary b)); ("tokens_used", int (bl_tokens b))])%list) (bl_duration b).
Definition null_duration : string := dq "sql: Scan error on column index 6, name 'duration_ms': converting NULL to int is unsupported".
(** A LIMIT below zero is none. *)
Definition limited {A} (n : Z) (l : list A) : list A := if (n <? 0)%Z then l else firstn (Z.to_nat n) l.
Definition error_limit args : Z :=
  match arg_num "limit" args with Some lit => if float_positive lit then float_int lit else 20%Z | None => 20%Z end.
Definition diagnostics_errors args : T SiteView Result :=
  r ← load (fun s => limited (error_limit args) (newest (fun l => bl_created (ln_log l))
        (List.filter (fun l => LIKE "%error%" (bl_type (ln_log l))) (sw_log s))));
  l ← or_throw "querying errors" r;
  match mapM line_json l with
  | Some rows => mret (result_data (slice id rows))
  | None => throw ("scanning error: " ++ null_duration)
  end.

(** *** What is missing *)

Definition has_layout (name : string) (s : SiteView) : bool := existsb (layout_named name) (sw_layouts s).
(** The layouts pages name that are not there: [SELECT DISTINCT]. *)
Definition lost_layouts (s : SiteView) : list string :=
  nodup string_dec (List.filter (fun n => negb (n =? "")%string && negb (n =? "none")%string && negb (has_layout n s))
                         (omap (fun p => if p_deleted p then None else p_layout p) (sw_pages s))).
Definition shown_page (p : Page) : bool := negb (p_deleted p) && bool_decide (p_status p = Some "published").
(** A page without content does not scan. *)
Definition layout_in_page (p : Page) : list string :=
  match p_content p with
  | None => []
  | Some content =>
      let lower := ToLower content in
      let say what := "Page " ++ Quote (p_path p) ++ " contains " ++ what ++ " (should be in layout)." in
      ((if Contains lower "<nav" then [say "<nav>"] else []) ++ (if Contains lower "<footer" then [say "<footer>"] else []))%list
  end.
Definition loaded {A} (f : SiteView -> list A) : T SiteView (list A) :=
  r ← load f;
  mret match r with Ok l => l | Err _ => [] end.
Definition named_like (pattern : string) (f : FileRow) : bool := LIKE pattern (f_name f).

Definition lost_issue (name : string) : string := "Pages reference non-existent layout " ++ Quote name ++ ".".
Definition diagnostics_integrity args : T SiteView Result :=
  layoutCount ← counted sw_layouts;
  lost ← loaded (fun s => scan (lost_layouts s));
  pages ← loaded (fun s => firstn 50 (scan (List.filter shown_page (sw_pages s))));
  cssCount ← counted (fun s => List.filter (named_like "%.css") (sw_assets s));
  jsCount ← counted (fun s => List.filter (named_like "%.js") (sw_assets s));
  let issues :=
    ((if (layoutCount =? 0)%Z then [dq "No layouts exist. Create one with manage_layout(action='save', name='default')."] else [])
     ++ map lost_issue lost
     ++ List.concat (map layout_in_page pages)
     ++ (if (cssCount =? 0)%Z then ["No CSS assets found. Design system may be incomplete."] else [])
     ++ (if (jsCount =? 0)%Z then ["No JS assets found (may be OK if no interactivity needed)."] else []))%list in
  mret (success [("counts", JObj [("css_assets", int cssCount); ("js_assets", int jsCount); ("layouts", int layoutCount)]);
                 ("issues", slice JStr issues);
                 ("status", JStr match issues with [] => "healthy" | _ => "issues_found" end)]).

Definition DiagnosticsTool_Execute args : T SiteView Result :=
  dispatch [("health", diagnostics_health); ("errors", diagnostics_errors); ("integrity", diagnostics_integrity)] None args.
End Diagnostics.
