(* ===== verification/Reports.v ===== *)
(** * What the owner is told of a site: analytics, diagnostics and logs

    server/admin/siteanalytics.go, sitediagnostics.go and logs.go, the summary of
    sites.go, and what writes and clears the log of the calls of models
    (llm/dblogger.go, the cleaning of brain/manager.go), over the tables of SiteTool.
    The export of that log is a text in CSV, written as encoding/csv writes it. *)

From Stdlib Require Import ZArith Lia Ascii String List Bool.
From stdpp Require Import base list strings gmap.
From S2P Require Import Prelude GoStrings GoTime JSONText PlanStore World ToolCore Security SiteTables ToolMonad Tables SchedulerTool Endpoints Pages Layout Files LLMTypes PublicSite Questions AdminDB Panel SiteTool.

Local Open Scope string_scope.

(** ** Dates *)

Fixpoint digits_value (s : string) (acc : Z) : option Z :=
  match s with
  | "" => Some acc
  | String a r => let n := Z.of_nat (nat_of_ascii a) in
      if (48 <=? n)%Z && (n <=? 57)%Z then digits_value r (acc * 10 + (n - 48))%Z else None
  end.
(** [time.Parse] of [2006-01-02]: the day. *)
Definition parse_date (s : string) : option Z :=
  if negb (String.length s =? 10)%nat || negb (substring 4 1 s =? "-")%string || negb (substring 7 1 s =? "-")%string then None
  else
    match digits_value (substring 0 4 s) 0, digits_value (substring 5 2 s) 0, digits_value (substring 8 2 s) 0 with
    | Some y, Some m, Some d =>
        if (1 <=? m)%Z && (m <=? 12)%Z && (1 <=? d)%Z
           && (d <=? days_before_month (is_leap y) (m + 1) - days_before_month (is_leap y) m)%Z
        then Some (day_number y m d) else None
    | _, _, _ => None
    end.

(** ** CSV *)

Definition quote_char : string := dq "'".
(** A field that holds a quote, a comma or the end of a line, or begins with white
    space, is put in quotes; so is the mark of Postgres for the end of data. *)
Definition needs_quotes (f : string) : bool :=
  if (f =? "")%string then false else if (f =? "\.")%string then true
  else Contains f newline || Contains f (s1 (ascii_of_nat 13)) || Contains f quote_char || Contains f "," || negb (space_len f =? 0)%nat.
Fixpoint doubled (f : string) : string :=
  match f with
  | "" => ""
  | String a r => if Ascii.eqb a (ascii_of_nat 34) then quote_char ++ quote_char ++ doubled r else String a (doubled r)
  end.
Definition csv_field (f : string) : string := if needs_quotes f then quote_char ++ doubled f ++ quote_char else f.
Definition csv_record (l : list string) : string := Join (map csv_field l) "," ++ newline.
Definition csv_text (l : list (list string)) : string := Join (map csv_record l) "".

Section Reports.
Context `{E : Env} `{F : Formats} `{W : Newest}.
Context (open_error : Z -> option string) (zone : Z).
Implicit Types (site : string) (s : SiteView).

(** A number or a list of a query whose error is dropped. *)
Definition or_zero (r : res string Z) : Z := match r with Ok n => n | Err _ => 0%Z end.
Definition or_nothing {A} (r : res string (list A)) : list A := match r with Ok l => l | Err _ => [] end.

Definition total {A} (f : A -> Z) (l : list A) : Z := fold_right (fun x n => (f x + n)%Z) 0%Z l.
Definition input_tokens (r : LLMLogRow) : Z := InputTokens (LogUsage (ll_entry r)).
Definition output_tokens (r : LLMLogRow) : Z := OutputTokens (LogUsage (ll_entry r)).
Definition failed_call (r : LLMLogRow) : bool := bool_decide (is_Some (ll_error r)).

(** [SitesHandler.Summary]: tokens and calls, the visits of a day, the pages. *)
Definition sites_Summary site : P SiteView AdminAnswer :=
  requireSiteDB open_error site;;
  tokens ← reading (fun s => (total (fun r => input_tokens r + output_tokens r)%Z (sw_llm s), count (sw_llm s)));
  t ← effect (lift now);
  visits ← reading (fun s => let l := List.filter (fun v => string_ltb (stamp_text (t - day)) (stamp_text (an_created v))) (sw_visits s) in
                             (count l, count_distinct (map an_hash l)));
  pages ← reading (fun s => count (List.filter (fun p => negb (p_deleted p)) (sw_pages s)));
  let both r := match r : res string (Z * Z) with Ok p => p | Err _ => (0%Z, 0%Z) end in
  mret (answer_json 200 (JObj [("total_tokens", int (fst (both tokens))); ("brain_actions", int (snd (both tokens)));
    ("page_views", int (fst (both visits))); ("unique_visitors", int (snd (both visits))); ("pages_count", int (or_zero pages))])).

(** ** siteanalytics.go *)

(** [created_at >= ? AND created_at < ?] *)
Definition before (first limit : string) (v : VisitRow) : bool :=
  string_leb first (stamp_text (an_created v)) && string_ltb (stamp_text (an_created v)) limit.
(** The day after the last one; an end that is no date leaves nothing. *)
Definition end_exclusive (start last : string) : string :=
  match parse_date last with Some d => date_text (d + 1) | None => start end.
Definition asked_or (asked : string) (n : Z) : string := if (asked =? "")%string then date_text n else asked.
Definition visit_day (v : VisitRow) : string := date_text (day_of 0 (an_created v)).

Definition analytics_Summary site (r : HttpRequest) : P SiteView AdminAnswer :=
  requireSiteDB open_error site;;
  t ← effect (lift now);
  let last := asked_or (query_get "end" r) (day_of zone t) in
  let start := asked_or (query_get "start" r) (day_of zone t - 7) in
  let visits s := List.filter (before start (end_exclusive start last)) (sw_visits s) in
  totals ← reading (fun s => (count (visits s), count_distinct (map an_hash (visits s))));
  pages ← reading (fun s => top_pages (visits s));
  referrers ← reading (fun s => top_referrers (visits s));
  daily ← reading (fun s => order_by fst (map (fun g => (fst g, (count (snd g), count_distinct (map an_hash (snd g))))) (grouped visit_day (visits s))));
  let both := match totals with Ok p => p | Err _ => (0%Z, 0%Z) end in
  mret (answer_json 200 (JObj [("total_views", int (fst both)); ("unique_visitors", int (snd both));
    ("top_pages", JArr (map (fun g => JObj [("path", JStr (fst g)); ("views", int (snd g))]) (or_nothing pages)));
    ("top_referrers", JArr (map (fun g => JObj [("referrer", JStr (fst g)); ("count", int (snd g))]) (or_nothing referrers)));
    ("daily", JArr (map (fun g => JObj [("date", JStr (fst g)); ("views", int (fst (snd g))); ("unique_visitors", int (snd (snd g)))]) (or_nothing daily)));
    ("start", JStr start); ("end", JStr last)])).

(** ** sitediagnostics.go *)

Definition counting {A} (f : SiteView -> list A) : P SiteView Z := r ← reading (fun s => count (f s)); mret (or_zero r).

Definition diagnostics_Health (machine : Machine) site : P SiteView AdminAnswer :=
  requireSiteDB open_error site;;
  pageCount ← counting (fun s => List.filter (fun p => negb (p_deleted p)) (sw_pages s));
  tableCount ← counting sw_tables;
  mret (answer_json 200 (JObj [("memory", mc_memory machine); ("runtime", mc_runtime machine);
                               ("site", JObj [("pages", int pageCount); ("tables", int tableCount)])])).

Definition issue (level message : string) : json := JObj [("level", JStr level); ("message", JStr message)].
(** A page of a layout that is not there; [none] counts as one. *)
Definition names_lost (s : SiteView) (p : Page) : option string :=
  if p_deleted p then None
  else match p_layout p with Some n => if (n =? "")%string || has_layout n s then None else Some n | None => None end.
Definition diagnostics_Integrity `{SC : TableScan} site : P SiteView AdminAnswer :=
  requireSiteDB open_error site;;
  stage ← reading sw_stage;
  let currentStage := match stage with Ok (Some t) => t | _ => "" end in
  let buildComplete := (currentStage =? StageMonitoring)%string || (currentStage =? StageComplete)%string || (currentStage =? "")%string in
  let building what := issue "info" ("No " ++ what ++ " yet — brain is still building (stage: " ++ currentStage ++ ")") in
  layoutCount ← counting sw_layouts;
  lost ← (if (0 <? layoutCount)%Z then
            r ← reading (fun s => scan (omap (fun p => option_map (pair (p_path p)) (names_lost s p)) (sw_pages s)));
            mret (or_nothing r)
          else mret []);
  assetCount ← counting sw_assets;
  let issues :=
    ((if (layoutCount =? 0)%Z then [if buildComplete then issue "error" "No layouts found. The site has no page structure." else building "layouts"] else [])
     ++ map (fun x => issue "warning" ("Page '" ++ fst x ++ "' references missing layout '" ++ snd x ++ "'")) lost
     ++ (if (assetCount =? 0)%Z then [if buildComplete then issue "warning" "No CSS/JS assets found. The site may have no styling."
                                      else building "assets"] else []))%list in
  mret (answer_json 200 (JObj [("issues", JArr issues); ("ok", JBool match issues with [] => true | _ => false end)])).

Definition query_limit (asked : string) (default_limit max : Z) : Z :=
  match Atoi asked with (n, None) => if (0 <? n)%Z && (n <=? max)%Z then n else default_limit | _ => default_limit end.
(** Texts that are NULL do not scan, nor does a duration that is. *)
Definition error_entry (l : LogLine) : option json :=
  let b := ln_log l in
  match bl_details b, bl_model b, bl_duration b with
  | Some details, Some model, Some d =>
      Some (JObj [("id", int (ln_id l)); ("event_type", JStr (bl_type b)); ("summary", JStr (bl_summary b)); ("details", JStr details);
                  ("tokens_used", int (bl_tokens b)); ("model", JStr model); ("duration_ms", int d); ("created_at", JStr (time_text (bl_created b)))])
  | _, _, _ => None
  end.
Definition line_time (l : LogLine) : Z := bl_created (ln_log l).
Definition diagnostics_Errors site (r : HttpRequest) : P SiteView AdminAnswer :=
  requireSiteDB open_error site;;
  listing (fun s => firstn (Z.to_nat (query_limit (query_get "limit" r) 20 100)) (newest line_time
             (List.filter (fun l => LIKE "%error%" (bl_type (ln_log l)) || LIKE "%fail%" (bl_type (ln_log l))) (sw_log s)))) error_entry.

(** ** logs.go *)

(** Only the duration has to be there. *)
Definition log_entry_json (l : LogLine) : option json :=
  let b := ln_log l in
  option_map (fun d => JObj [("id", int (ln_id l)); ("event_type", JStr (bl_type b)); ("summary", JStr (bl_summary b));
    ("details", text_or_nil (bl_details b)); ("tokens_used", int (bl_tokens b)); ("model", text_or_nil (bl_model b)); ("duration_ms", int d);
    ("created_at", JStr (time_text (bl_created b)))]) (bl_duration b).
Definition logs_List site (r : HttpRequest) : P SiteView AdminAnswer :=
  requireSiteDB open_error site;;
  let eventType := query_get "event_type" r in
  l ← reading (fun s => firstn (Z.to_nat (query_limit (query_get "limit" r) 50 500)) (newest line_time
             (List.filter (fun l => (eventType =? "")%string || (bl_type (ln_log l) =? eventType)%string) (sw_log s))));
  rows ← or_refused 500 "failed to query brain logs" l;
  mret (answer_json 200 (JArr (omap log_entry_json rows))).

(** [parseIntParam] *)
Definition parseIntParam (text : string) (def min max : Z) : Z :=
  if (text =? "")%string then def
  else match Atoi text with
       | (v, None) => if (v <? min)%Z then def else if (max <? v)%Z then max else v
       | _ => def
       end.

(** The conditions of a query on the log of calls. *)
Definition chosen_call (r : HttpRequest) (x : LLMLogRow) : bool :=
  let ask k (f : string -> bool) := (query_get k r =? "")%string || f (query_get k r) in
  ask "source" (String.eqb (Source (ll_entry x))) && ask "model" (String.eqb (LogModel (ll_entry x)))
  && (negb (query_get "has_error" r =? "true")%string || failed_call x)
  && ask "from" (fun t => string_leb t (stamp_text (ll_created x))) && ask "to" (fun t => string_leb (stamp_text (ll_created x)) t).
Definition chosen_calls (r : HttpRequest) s : list LLMLogRow := newest ll_created (List.filter (chosen_call r) (sw_llm s)).

(** [SUBSTR] from the beginning: characters, not bytes. *)
Fixpoint substr (n : nat) (inside : bool) (t : string) : string :=
  match t with
  | "" => ""
  | String a r =>
      let c := nat_of_ascii a in
      if inside && (128 <=? c)%nat && (c <? 192)%nat then String a (substr n true r)
      else match n with O => "" | S m => String a (substr m (192 <=? c)%nat r) end
  end.

Definition call_members (x : LLMLogRow) : list (string * json) :=
  let e := ll_entry x in
  [("id", int (ll_id x)); ("source", JStr (Source e)); ("session_id", JStr (SessionID e)); ("iteration", int (Iteration e));
   ("model", JStr (LogModel e)); ("provider_type", JStr (ProviderType e)); ("request_tools", JStr (RequestTools e));
   ("request_max_tokens", int (RequestMaxTokens e)); ("response_stop_reason", JStr (ResponseStopReason e));
   ("input_tokens", int (input_tokens x)); ("output_tokens", int (output_tokens x)); ("duration_ms", int (DurationMs e));
   ("error_message", text_or_nil (ll_error x)); ("response_preview", JStr (substr 200 false (ResponseContent e)));
   ("created_at", JStr (time_text (ll_created x)))].

Definition logs_ListLLM site (r : HttpRequest) : P SiteView AdminAnswer :=
  requireSiteDB open_error site;;
  let limit := parseIntParam (query_get "limit" r) 50 1 500 in
  let offset := parseIntParam (query_get "offset" r) 0 0 100000 in
  l ← reading (fun s => firstn (Z.to_nat limit) (skipn (Z.to_nat offset) (chosen_calls r s)));
  rows ← or_refused 500 "failed to query LLM logs" l;
  mret (answer_json 200 (JArr (map (fun x => JObj (call_members x)) rows))).

Definition logs_GetLLM site (logID : string) : P SiteView AdminAnswer :=
  requireSiteDB open_error site;;
  id ← path_int "log ID" logID;
  r ← reading (fun s => List.find (fun x => (ll_id x =? id)%Z) (sw_llm s));
  match r with
  | Ok None => refused 404 "log entry not found"
  | Ok (Some x) =>
      let e := ll_entry x in
      mret (answer_json 200 (JObj (call_members x ++ [("request_messages", JStr (RequestMessages e)); ("request_system", JStr (RequestSystem e));
        ("response_content", JStr (ResponseContent e)); ("response_tool_calls", JStr (ResponseToolCalls e))])%list))
  | Err _ => refused 500 "failed to fetch log entry"
  end.

(** What calls come to. *)
Record Usages := { us_calls : Z; us_input : Z; us_output : Z }.
Definition usages (l : list LLMLogRow) : Usages :=
  {| us_calls := count l; us_input := total input_tokens l; us_output := total output_tokens l |}.
(** [GROUP BY ... ORDER BY COUNT DESC] *)
Definition usages_by (key : LLMLogRow -> string) (l : list LLMLogRow) : list (string * Usages) :=
  newest (fun g => us_calls (snd g)) (map (fun g => (fst g, usages (snd g))) (grouped key l)).
Definition by_model : list LLMLogRow -> list (string * Usages) := usages_by (fun x => LogModel (ll_entry x)).
Definition by_source : list LLMLogRow -> list (string * Usages) := usages_by (fun x => Source (ll_entry x)).
Definition usages_json (name : string) (g : string * Usages) : json :=
  JObj [(name, JStr (fst g)); ("calls", int (us_calls (snd g))); ("input_tokens", int (us_input (snd g))); ("output_tokens", int (us_output (snd g)))].
Definition stats_json (u : Usages) (errors : Z) (models sources : json) : AdminAnswer :=
  answer_json 200 (JObj [("total_calls", int (us_calls u)); ("total_input_tokens", int (us_input u)); ("total_output_tokens", int (us_output u));
                         ("total_errors", int errors); ("by_model", models); ("by_source", sources)]).

Definition logs_Stats site : P SiteView AdminAnswer :=
  requireSiteDB open_error site;;
  r ← reading (fun s => (usages (sw_llm s), count (List.filter failed_call (sw_llm s))));
  match r with
  | Err _ => mret (stats_json {| us_calls := 0; us_input := 0; us_output := 0 |} 0 JNull JNull)
  | Ok (u, errors) =>
      models ← reading (fun s => by_model (sw_llm s));
      sources ← reading (fun s => by_source (sw_llm s));
      mret (stats_json u errors (JArr (map (usages_json "model") (or_nothing models))) (JArr (map (usages_json "source") (or_nothing sources))))
  end.

(** *** Export *)

Definition csv_header : list string :=
  ["ID"; "Timestamp"; "Source"; "Session ID"; "Iteration"; "Model"; "Provider"; "Input Tokens"; "Output Tokens"; "Total Tokens"; "Duration (ms)";
   "Stop Reason"; "Error"; "Max Tokens"; "System Prompt"; "Messages"; "Response Content"; "Tool Calls"; "Tools"].
Definition rfc3339 (t : time) : string := date_text (day_of 0 t) ++ "T" ++ clock_text t ++ "Z".
Definition csv_row (x : LLMLogRow) : list string :=
  let e := ll_entry x in
  [Itoa (ll_id x); rfc3339 (ll_created x); Source e; SessionID e; Itoa (Iteration e); LogModel e; ProviderType e;
   Itoa (input_tokens x); Itoa (output_tokens x); Itoa (input_tokens x + output_tokens x); Itoa (DurationMs e);
   ResponseStopReason e; default "" (ll_error x); Itoa (RequestMaxTokens e);
   RequestSystem e; RequestMessages e; ResponseContent e; ResponseToolCalls e; RequestTools e].

(** The answer: a name for the file, and its text. *)
Record CsvAnswer := { ca_filename : string; ca_text : string }.
Definition export_name site (t : time) : string :=
  let '(y, m, d) := civil (day_of zone t) in
  "llm_log_" ++ site ++ "_" ++ year_text y ++ pad2 m ++ pad2 d ++ "_" ++ pad2 (Hour zone t) ++ pad2 (Minute zone t)
  ++ pad2 (wall zone t mod minute / second) ++ ".csv".

Definition logs_ExportCSV site (r : HttpRequest) : P SiteView CsvAnswer :=
  requireSiteDB open_error site;;
  let limit := parseIntParam (query_get "limit" r) 10000 1 50000 in
  l ← reading (fun s => firstn (Z.to_nat limit) (chosen_calls r s));
  rows ← or_refused 500 "failed to query logs" l;
  t ← effect (lift now);
  mret {| ca_filename := export_name site t; ca_text := csv_text (csv_header :: map csv_row rows) |}.
End Reports.

(** ** The log of calls *)

(** [DBLLMLogger.LogLLMCall]: an error without a text is NULL. *)
Definition nullIfEmpty (s : string) : option string := if (s =? "")%string then None else Some s.
Definition log_call `{E : Env} (e : LLMLogEntry) : T SiteView unit :=
  save_ (fun t s => set_llm (sw_llm s ++ [{| ll_id := next_id ll_id (sw_llm s); ll_entry := e; ll_error := nullIfEmpty (ErrorMessage e);
                                             ll_created := t |}])%list s);;
  mret tt.

(** [cleanupLLMLogs] on one site: what is older than 30 days goes. *)
Definition cleanupLLMLogs `{E : Env} (now : time) : T SiteView unit :=
  save_ (fun _ s => set_llm (List.filter (fun x => negb (string_ltb (stamp_text (ll_created x)) (stamp_text (now - 30 * day)))) (sw_llm s)) s);;
  mret tt.
