(* ===== verification/ReportFacts.v ===== *)
(** * What the reports promise

    A redirect the model sets is followed by the public server until it is removed;
    the exported log is read back as it is stored; sums add up; the tool and the panel
    count the same visits. *)

From Stdlib Require Import ZArith Lia Ascii String List Bool Permutation.
From stdpp Require Import base list strings gmap sorting.
From S2P Require Import PublicAPIFacts Prelude GoStrings GoTime JSONText PlanStore World ToolCore Security SiteTables ToolMonad Tables SchedulerTool Endpoints StoreFacts Pages Layout PageFacts Files LLMTypes PublicSite PublicSiteFacts Questions AdminDB Panel PanelFacts SiteTool Reports.

Local Open Scope string_scope.

(** ** Reading CSV *)

(** A reader of RFC 4180: where it stands in a field. *)
Inductive csv_state := AtStart | Plain | Quoted | Closed.

Fixpoint csv_read (st : csv_state) (field : string) (record : list string) (text : string) : option (list (list string)) :=
  match text with
  | "" => match st, record with AtStart, [] => Some [] | _, _ => None end
  | String a r =>
      match st with
      | Quoted => if Ascii.eqb a (ascii_of_nat 34) then csv_read Closed field record r else csv_read Quoted (field ++ s1 a) record r
      | _ =>
          if Ascii.eqb a "," then csv_read AtStart "" (record ++ [field])%list r
          else if Ascii.eqb a (ascii_of_nat 10) then option_map (cons (record ++ [field])%list) (csv_read AtStart "" [] r)
          else match st with
               | AtStart => if Ascii.eqb a (ascii_of_nat 34) then csv_read Quoted field record r else csv_read Plain (field ++ s1 a) record r
               | Plain => if Ascii.eqb a (ascii_of_nat 34) then None else csv_read Plain (field ++ s1 a) record r
               | _ => if Ascii.eqb a (ascii_of_nat 34) then csv_read Quoted (field ++ s1 a) record r else None
               end
      end
  end.
Definition read_csv : string -> option (list (list string)) := csv_read AtStart "" [].

Lemma Contains_byte f c : Contains f (s1 c) = false -> all_bytes (fun a => negb (Ascii.eqb a c)) f = true.
Proof.
  intros H. induction f as [|a f IH]; [done|]. cbn [all_bytes]. apply andb_true_intro. split.
  - apply negb_true_iff, Ascii.eqb_neq. intros ->. by rewrite Contains_prefix in H by (cbn; by destruct (ascii_dec c c), f).
  - apply IH. apply not_true_iff_false. intros Hc. by rewrite Contains_cons in H.
Qed.

(** A byte of a field without quotes. *)
Definition plain_byte (a : ascii) : bool :=
  negb (Ascii.eqb a ",") && negb (Ascii.eqb a (ascii_of_nat 10)) && negb (Ascii.eqb a (ascii_of_nat 34)).

Lemma unquoted_plain f : needs_quotes f = false -> all_bytes plain_byte f = true.
Proof.
  unfold needs_quotes. destruct (String.eqb_spec f ""); [by subst|]. destruct (f =? "\.")%string; [done|].
  rewrite !orb_false_iff. intros [[[[H1 _] H2] H3] _].
  apply (Contains_byte f (ascii_of_nat 10)) in H1. apply (Contains_byte f (ascii_of_nat 34)) in H2. apply (Contains_byte f ",") in H3.
  clear -H1 H2 H3. induction f as [|a f IH]; [done|]. cbn [all_bytes] in *. apply andb_prop in H1 as [A1 B1], H2 as [A2 B2], H3 as [A3 B3].
  unfold plain_byte at 1. by rewrite A1, A2, A3, IH.
Qed.

Lemma read_plain_field g : forall f record t, all_bytes plain_byte g = true -> csv_read Plain f record (g ++ t) = csv_read Plain (f ++ g) record t.
Proof.
  induction g as [|a g IH]; intros f record t; [by rewrite append_nil_r|]. cbn [all_bytes]. intros [Ha Hg]%andb_prop.
  unfold plain_byte in Ha. apply andb_prop in Ha as [[H1%negb_true_iff H2%negb_true_iff]%andb_prop H3%negb_true_iff].
  rewrite append_cons. cbn [csv_read]. rewrite H1, H2, H3, IH by done. by rewrite append_assoc.
Qed.

Lemma read_quoted g : forall f record t, csv_read Quoted f record (doubled g ++ String (ascii_of_nat 34) t) =
  csv_read Closed (f ++ g) record t \/ (exists r, t = String (ascii_of_nat 34) r).
Proof.
  induction g as [|a g IH]; intros f record t; [left; by rewrite append_nil_r|]. cbn [doubled].
  destruct (Ascii.eqb_spec a (ascii_of_nat 34)) as [->|Ha].
  - destruct (IH (f ++ s1 (ascii_of_nat 34)) record t) as [H|H]; [left|by right]. rewrite append_assoc in H.
    change (s1 ?a ++ g) with (String a g) in H. rewrite <- H. reflexivity.
  - destruct (IH (f ++ s1 a) record t) as [H|H]; [left|by right]. rewrite append_assoc in H. change (s1 ?a ++ g) with (String a g) in H. rewrite <- H.
    rewrite append_cons. cbn [csv_read]. apply Ascii.eqb_neq in Ha. by rewrite Ha.
Qed.

(** What ends a field. *)
Definition ended (c : ascii) (record : list string) (r : string) : option (list (list string)) :=
  if Ascii.eqb c "," then csv_read AtStart "" record r else option_map (cons record) (csv_read AtStart "" [] r).

Lemma read_field g c record r : c = ","%char \/ c = ascii_of_nat 10 ->
  csv_read AtStart "" record (csv_field g ++ String c r) = ended c (record ++ [g])%list r.
Proof.
  intros Hc. assert (forall st f, st <> Quoted -> csv_read st f record (String c r) = ended c (record ++ [f])%list r) as Hend.
  { intros st f Hst. destruct st; [| |done|]; by destruct Hc as [->| ->]. }
  unfold csv_field. destruct (needs_quotes g) eqn:Hq.
  - rewrite !append_assoc.
    change (csv_read Quoted "" record (doubled g ++ String (ascii_of_nat 34) (String c r)) = ended c (record ++ [g])%list r).
    destruct (read_quoted g "" record (String c r)) as [H|[x Hx]]; [rewrite H; by apply Hend|]. injection Hx as -> _. by destruct Hc.
  - apply unquoted_plain in Hq. destruct g as [|a g]; [by apply Hend|]. cbn [all_bytes] in Hq. apply andb_prop in Hq as [Ha Hg].
    unfold plain_byte in Ha. apply andb_prop in Ha as [[H1%negb_true_iff H2%negb_true_iff]%andb_prop H3%negb_true_iff].
    rewrite append_cons. cbn [csv_read]. rewrite H1, H2, H3, read_plain_field by done. by apply Hend.
Qed.

Lemma read_record l : forall record r, l <> [] ->
  csv_read AtStart "" record (csv_record l ++ r) = option_map (cons (record ++ l)%list) (csv_read AtStart "" [] r).
Proof.
  induction l as [|g l IH]; [done|]. intros record r _. unfold csv_record. destruct l as [|h l].
  - change (Join (map csv_field [g]) ",") with (csv_field g). rewrite append_assoc. change (newline ++ r) with (String (ascii_of_nat 10) r).
    by rewrite read_field by (by right).
  - cbn [map]. rewrite Join_cons2, !append_assoc, append_cons. rewrite read_field by (by left).
    change (ended "," ?a ?b) with (csv_read AtStart "" a b). specialize (IH (record ++ [g])%list r ltac:(done)).
    unfold csv_record in IH. rewrite append_assoc in IH. cbn [map] in IH. rewrite IH. by rewrite <- app_assoc.
Qed.

Lemma csv_text_cons l rest : csv_text (l :: rest) = csv_record l ++ csv_text rest.
Proof. unfold csv_text. cbn [map]. destruct rest; [by rewrite append_nil_r|done]. Qed.

Theorem csv_read_back l : Forall (fun r => r <> []) l -> read_csv (csv_text l) = Some l.
Proof.
  induction 1 as [|r l Hr Hl IH]; [done|]. rewrite csv_text_cons. unfold read_csv in *. rewrite read_record by done. by rewrite IH.
Qed.

(** ** Dates as texts *)

Ltac divlia := Z.to_euclidean_division_equations; lia.

Lemma compare_digit a b x y : (0 <= a < 10)%Z -> (0 <= b < 10)%Z ->
  String.compare (digit a ++ x) (digit b ++ y) = match (a ?= b)%Z with Eq => String.compare x y | c => c end.
Proof.
  intros Ha Hb. unfold digit. rewrite !Z.mod_small by lia.
  assert (forall n, (0 <= n < 10)%Z -> n = 0 \/ n = 1 \/ n = 2 \/ n = 3 \/ n = 4 \/ n = 5 \/ n = 6 \/ n = 7 \/ n = 8 \/ n = 9)%Z as H by (intros; lia).
  apply H in Ha, Hb. clear H. destruct_or!; subst; reflexivity.
Qed.

Lemma digit_mod n : digit (n mod 10) = digit n.
Proof. unfold digit. by rewrite Z.mod_mod. Qed.

Lemma compare_pad2 a b x y : (0 <= a < 100)%Z -> (0 <= b < 100)%Z ->
  String.compare (pad2 a ++ x) (pad2 b ++ y) = match (a ?= b)%Z with Eq => String.compare x y | c => c end.
Proof.
  intros Ha Hb. unfold pad2. rewrite !append_assoc, compare_digit by divlia. rewrite <- (digit_mod a), <- (digit_mod b), compare_digit by divlia.
  destruct (Z.compare_spec a b); destruct (Z.compare_spec (a / 10) (b / 10)); try divlia;
    destruct (Z.compare_spec (a mod 10) (b mod 10)); try divlia; done.
Qed.

Lemma compare_prefix p x y : String.compare (p ++ x) (p ++ y) = String.compare x y.
Proof. induction p as [|c p IH]; [done|]. rewrite !append_cons. cbn. unfold Ascii.compare. by rewrite N.compare_refl. Qed.

(** Days of the years 0 to 9999. *)
Definition dated (n : Z) : Prop := (0 <= fst (fst (civil n)) < 10000)%Z.

Lemma compare_year a b x y : (0 <= a < 10000)%Z -> (0 <= b < 10000)%Z ->
  String.compare (year_text a ++ x) (year_text b ++ y) = match (a ?= b)%Z with Eq => String.compare x y | c => c end.
Proof.
  intros Ha Hb. unfold year_text. rewrite (proj2 (Z.leb_le 0 a)), (proj2 (Z.leb_le 0 b)), (proj2 (Z.ltb_lt a _)), (proj2 (Z.ltb_lt b _)) by lia.
  cbn [andb]. rewrite !append_assoc, !compare_pad2 by divlia.
  destruct (Z.compare_spec a b); destruct (Z.compare_spec (a / 100) (b / 100)); try divlia;
    destruct (Z.compare_spec (a mod 100) (b mod 100)); try divlia; done.
Qed.

(** The dates follow the days. *)
Definition date_compare (p q : Z * Z * Z) : comparison :=
  let '(y, m, d) := p in let '(y', m', d') := q in
  match (y ?= y')%Z with Eq => match (m ?= m')%Z with Eq => (d ?= d')%Z | c => c end | c => c end.

Lemma days_before_month_mono leap m m' : (1 <= m < m')%Z -> (m' <= 12)%Z -> (days_before_month leap (m + 1) <= days_before_month leap m')%Z.
Proof. intros H1 H2. assert (1 <= m <= 12)%Z as Hm by lia. assert (1 <= m' <= 12)%Z as Hm' by lia. month12 m; month12 m'; try lia; destruct leap; vm_compute; discriminate. Qed.

Lemma month_days leap m : (1 <= m <= 12)%Z -> (days_before_month leap (m + 1) - days_before_month leap m <= 31)%Z /\
  (0 <= days_before_month leap m)%Z /\ (days_before_month leap (m + 1) <= 365 + if leap then 1 else 0)%Z.
Proof. intros Hm. month12 m; destruct leap; vm_compute; split_and!; discriminate. Qed.

Lemma civil_compare a b : date_compare (civil a) (civil b) = (a ?= b)%Z.
Proof.
  assert (forall a b, date_compare (civil a) (civil b) = Lt -> (a < b)%Z) as Hlt.
  { clear. intros a b. pose proof (civil_spec a) as Ha. pose proof (civil_spec b) as Hb.
    destruct (civil a) as [[y m] d], (civil b) as [[y' m'] d']. destruct Ha as (M & D & E & L), Hb as (M' & D' & E' & L'). cbn.
    pose proof (month_days (is_leap y) m M). pose proof (month_days (is_leap y') m' M').
    destruct (Z.compare_spec y y') as [->|Hy|]; [|intros _|done].
    - destruct (Z.compare_spec m m') as [->|Hm|]; [|intros _|done]; [destruct (Z.compare_spec d d'); [done|lia|done]|].
      pose proof (days_before_month_mono (is_leap y') m m' ltac:(lia) ltac:(lia)). lia.
    - pose proof (days_before_year_succ y). pose proof (days_before_year_mono (y + 1) y' ltac:(lia)). lia. }
  assert (forall p q, date_compare q p = CompOpp (date_compare p q)) as Hopp.
  { clear. intros [[y m] d] [[y' m'] d']. cbn. rewrite (Z.compare_antisym y y'), (Z.compare_antisym m m'), (Z.compare_antisym d d').
    destruct (y ?= y')%Z, (m ?= m')%Z; done. }
  destruct (date_compare (civil a) (civil b)) eqn:H; symmetry.
  - apply Z.compare_eq_iff. pose proof (civil_spec a) as Ha. pose proof (civil_spec b) as Hb.
    destruct (civil a) as [[y m] d], (civil b) as [[y' m'] d']. cbn in H.
    destruct (Z.compare_spec y y') as [->| |], (Z.compare_spec m m') as [->| |], (Z.compare_spec d d') as [->| |]; try done. lia.
  - by apply Z.compare_lt_iff, Hlt.
  - apply Z.compare_gt_iff, Hlt. by rewrite Hopp, H.
Qed.

Lemma compare_date a b x y : dated a -> dated b ->
  String.compare (date_text a ++ x) (date_text b ++ y) = match (a ?= b)%Z with Eq => String.compare x y | c => c end.
Proof.
  intros Ha Hb. rewrite <- civil_compare. unfold date_text, dated in *. pose proof (civil_spec a) as Sa. pose proof (civil_spec b) as Sb.
  destruct (civil a) as [[y1 m1] d1], (civil b) as [[y2 m2] d2]. cbn [fst] in *. destruct Sa as (M & D & _ & L), Sb as (M' & D' & _ & L').
  pose proof (month_days (is_leap y1) m1 M). pose proof (month_days (is_leap y2) m2 M'). cbn [date_compare].
  rewrite !append_assoc, compare_year by done. destruct (y1 ?= y2)%Z; try done.
  rewrite compare_prefix, compare_pad2 by lia. destruct (m1 ?= m2)%Z; try done.
  rewrite compare_prefix, compare_pad2 by lia. done.
Qed.

(** *** Windows of visits *)

Lemma string_leb_date a b x y : dated a -> dated b ->
  string_leb (date_text a ++ x) (date_text b ++ y) = (a <? b)%Z || (a =? b)%Z && string_leb x y.
Proof.
  intros Ha Hb. unfold string_leb at 1. rewrite compare_date by done. destruct (Z.compare_spec a b) as [->|H|H].
  - by rewrite Z.ltb_irrefl, Z.eqb_refl.
  - by rewrite (proj2 (Z.ltb_lt a b)).
  - by rewrite (proj2 (Z.ltb_ge a b)), (proj2 (Z.eqb_neq a b)) by lia.
Qed.

Lemma clock_bound t : string_leb (" " ++ clock_text t) " 23:59:59" = true.
Proof.
  assert (0 <= Hour 0 t < 24 /\ 0 <= Minute 0 t < 60 /\ 0 <= wall 0 t mod minute / second < 60)%Z as (H1 & H2 & H3).
  { unfold Hour, Minute, day, hour, minute, second. divlia. }
  unfold string_leb, clock_text. change " 23:59:59" with (" " ++ pad2 23 ++ ":" ++ pad2 59 ++ ":" ++ pad2 59 ++ "").
  rewrite <- (append_nil_r (pad2 (wall _ _ mod _ / _))).
  rewrite compare_prefix, compare_pad2 by lia. destruct (Z.compare_spec (Hour 0 t) 23); [|done|lia].
  rewrite compare_prefix, compare_pad2 by lia. destruct (Z.compare_spec (Minute 0 t) 59); [|done|lia].
  rewrite compare_prefix, compare_pad2 by lia. by destruct (Z.compare_spec (wall 0 t mod minute / second) 59); [|done|lia].
Qed.

Lemma digit_value n r acc : digits_value (digit n ++ r) acc = digits_value r (acc * 10 + n mod 10)%Z.
Proof.
  assert (0 <= n mod 10 < 10)%Z as H by divlia. unfold digit, s1. rewrite append_cons. cbn [digits_value].
  rewrite nat_ascii_embedding by lia. rewrite (proj2 (Z.leb_le _ _)), (proj2 (Z.leb_le _ _)) by lia. cbn [andb].
  rewrite append_nil_l. f_equal. lia.
Qed.

Lemma pad2_value n r acc : (0 <= n < 100)%Z -> digits_value (pad2 n ++ r) acc = digits_value r (acc * 100 + n)%Z.
Proof. intros H. unfold pad2. rewrite append_assoc, !digit_value. f_equal. divlia. Qed.

Lemma parse_date_text n : dated n -> parse_date (date_text n) = Some n.
Proof.
  unfold dated, date_text. pose proof (civil_spec n) as S. pose proof (day_number_civil n 0) as Hn. destruct (civil n) as [[y m] d]. cbn [fst]. intros Hy.
  destruct S as (M & D & E & L). pose proof (month_days (is_leap y) m M) as (Hd & _). rewrite !Z.add_0_r in Hn.
  unfold year_text. rewrite (proj2 (Z.leb_le 0 y)), (proj2 (Z.ltb_lt y _)) by lia. cbn [andb].
  unfold parse_date.
  change (String.length ((pad2 (y / 100) ++ pad2 (y mod 100)) ++ "-" ++ pad2 m ++ "-" ++ pad2 d)) with 10%nat.
  change (substring 4 1 ((pad2 (y / 100) ++ pad2 (y mod 100)) ++ "-" ++ pad2 m ++ "-" ++ pad2 d)) with "-".
  change (substring 7 1 ((pad2 (y / 100) ++ pad2 (y mod 100)) ++ "-" ++ pad2 m ++ "-" ++ pad2 d)) with "-".
  change (substring 0 4 ((pad2 (y / 100) ++ pad2 (y mod 100)) ++ "-" ++ pad2 m ++ "-" ++ pad2 d)) with (pad2 (y / 100) ++ pad2 (y mod 100) ++ "").
  change (substring 5 2 ((pad2 (y / 100) ++ pad2 (y mod 100)) ++ "-" ++ pad2 m ++ "-" ++ pad2 d)) with (pad2 m ++ "").
  change (substring 8 2 ((pad2 (y / 100) ++ pad2 (y mod 100)) ++ "-" ++ pad2 m ++ "-" ++ pad2 d)) with (pad2 d ++ "").
  rewrite !pad2_value by divlia. cbn [digits_value Nat.eqb String.eqb Ascii.eqb Bool.eqb negb orb].
  assert ((0 * 100 + y / 100) * 100 + y mod 100 = y)%Z as -> by divlia. rewrite !Z.mul_0_l, !Z.add_0_l.
  rewrite (proj2 (Z.leb_le 1 m)), (proj2 (Z.leb_le m 12)), (proj2 (Z.leb_le 1 d)), (proj2 (Z.leb_le d _)) by lia. cbn [andb]. by rewrite Hn.
Qed.

(** The window of the tool and that of the panel. *)
Lemma windows_same start e v : dated e -> dated (e + 1) -> dated (day_of 0 (an_created v)) ->
  within start (last_moment (date_text e)) v = before start (end_exclusive start (date_text e)) v.
Proof.
  intros He He' Hv. unfold within, before, end_exclusive, last_moment, string_ltb. rewrite parse_date_text by done. f_equal.
  unfold stamp_text. rewrite string_leb_date, clock_bound, andb_true_r by done.
  rewrite <- (append_nil_r (date_text (e + 1))), string_leb_date by done. change (string_leb "" _) with true. rewrite andb_true_r.
  destruct (Z.ltb_spec (day_of 0 (an_created v)) e), (Z.eqb_spec (day_of 0 (an_created v)) e),
    (Z.ltb_spec (e + 1) (day_of 0 (an_created v))), (Z.eqb_spec (e + 1) (day_of 0 (an_created v))); try done; lia.
Qed.

(** ** Sums *)

Lemma total_cons {A} (f : A -> Z) x l : total f (x :: l) = (f x + total f l)%Z.
Proof. done. Qed.
Lemma total_perm {A} (f : A -> Z) l l' : l ≡ₚ l' -> total f l = total f l'.
Proof. induction 1; rewrite ?total_cons; lia. Qed.
Lemma total_map {A B} (f : B -> Z) (g : A -> B) l : total f (map g l) = total (fun x => f (g x)) l.
Proof. induction l as [|x l IH]; [done|]. cbn [map]. by rewrite !total_cons, IH. Qed.
Lemma total_ext {A} (f g : A -> Z) l : (forall x, In x l -> f x = g x) -> total f l = total g l.
Proof. induction l as [|x l IH]; [done|]. intros H. rewrite !total_cons, (H x), IH; [done| |by left]. intros y Hy. apply H. by right. Qed.
Lemma count_total {A} (l : list A) : count l = total (fun _ => 1%Z) l.
Proof. unfold count. induction l as [|x l IH]; [done|]. rewrite total_cons, <- IH. cbn [List.length]. lia. Qed.

Lemma total_split {A} (key : A -> string) (f : A -> Z) l ks : NoDup ks -> (forall x, In x l -> key x ∈ ks) ->
  total (fun k => total f (List.filter (fun x => (key x =? k)%string) l)) ks = total f l.
Proof.
  intros Hn. induction l as [|x l IH]; intros Hl.
  - clear. induction ks as [|k ks IH]; [done|]. exact IH.
  - transitivity (f x + total (fun k => total f (List.filter (fun x => (key x =? k)%string) l)) ks)%Z;
      [|rewrite IH by (intros y Hy; apply Hl; by right); done].
    assert (key x ∈ ks) as Hx by (apply Hl; by left). clear IH Hl. induction ks as [|k ks IH]; [by apply elem_of_nil in Hx|].
    apply NoDup_cons in Hn as [Hk Hn]. rewrite !total_cons. cbn [List.filter]. destruct (String.eqb_spec (key x) k) as [<-|Hne].
    + rewrite total_cons. enough (total (fun k => total f (List.filter (fun x => (key x =? k)%string) (x :: l))) ks
        = total (fun k => total f (List.filter (fun x => (key x =? k)%string) l)) ks) as E by (cbn [List.filter] in E; lia).
      apply total_ext. intros k Hin%list_elem_of_In. cbn [List.filter]. destruct (String.eqb_spec (key x) k) as [He|]; [|done].
      destruct Hk. by rewrite He.
    + apply elem_of_cons in Hx as [|Hx]; [done|]. specialize (IH Hn Hx). cbn [List.filter] in IH. lia.
Qed.

Lemma total_grouped {A} (key : A -> string) (f : A -> Z) l : total (fun g => total f (snd g)) (grouped key l) = total f l.
Proof.
  unfold grouped. rewrite total_map. cbn [snd]. apply total_split; [apply NoDup_ListNoDup, NoDup_nodup|].
  intros x Hx. apply list_elem_of_In, nodup_In. by apply in_map.
Qed.

Section Sums.
Context `{W : Newest}.

(** What the parts come to together. *)
Definition summed (l : list (string * Usages)) : Usages :=
  {| us_calls := total (fun g => us_calls (snd g)) l; us_input := total (fun g => us_input (snd g)) l; us_output := total (fun g => us_output (snd g)) l |}.

Lemma usages_by_sum key l : summed (usages_by key l) = usages l.
Proof.
  unfold summed, usages_by. rewrite !(total_perm _ _ _ (newest_perm _ _)), !total_map. cbn [snd us_calls us_input us_output usages]. unfold usages. f_equal.
  - rewrite count_total. rewrite <- (total_grouped key). apply total_ext. intros g _. apply count_total.
  - apply (total_grouped key).
  - apply (total_grouped key).
Qed.

Lemma usages_by_keys key l : NoDup (map fst (usages_by key l)).
Proof.
  unfold usages_by. rewrite newest_perm, map_map. unfold grouped. rewrite map_map. cbn [fst]. rewrite map_id.
  apply NoDup_ListNoDup, NoDup_nodup.
Qed.
End Sums.

(** ** Redirects *)

Definition redirect_rule (r : RedirectRow) : string * (string * Z) := (rd_source r, (rd_target r, rd_code r)).
(** The rule of a path, as the public server looks for it. *)
Definition rule_of (path : string) (s : SiteView) : option (string * Z) :=
  option_map snd (List.find (fun kv => (fst kv =? path)%string) (map redirect_rule (sw_redirects s))).

Lemma rule_find path s : rule_of path s = option_map (fun r => (rd_target r, rd_code r)) (List.find (redirects_from path) (sw_redirects s)).
Proof.
  unfold rule_of. induction (sw_redirects s) as [|r l IH]; [done|]. cbn [map List.find]. unfold redirects_from at 1. cbn [fst redirect_rule].
  by destruct (rd_source r =? path)%string.
Qed.

Lemma find_app_other {A} (key : A -> bool) l x : key x = false -> List.find key (l ++ [x])%list = List.find key l.
Proof. intros H. induction l as [|y l IH]; cbn; [by rewrite H|]. by rewrite IH. Qed.

Lemma rule_upserted source target code t s : rule_of source (upsert_redirect source target code t s) = Some (target, code) /\
  forall path, path <> source -> rule_of path (upsert_redirect source target code t s) = rule_of path s.
Proof.
  unfold upsert_redirect, upsert. split; [|intros path Hne]; rewrite !rule_find; cbn [sw_redirects set_redirects]; destruct (existsb _ _) eqn:He; cbn [snd].
  - rewrite find_update_where by (intros y Hy; done). apply existsb_exists in He as (y & Hin & Hy).
    destruct (List.find _ _) as [z|] eqn:Hf; [|by rewrite (find_none _ _ Hf y Hin) in Hy]. apply find_some in Hf as [_ Hz]. cbn. by rewrite Hz.
  - rewrite find_app_None by (destruct (List.find _ _) as [z|] eqn:Hf; [|done]; apply find_some in Hf as [Hin Hz];
      rewrite <- not_true_iff_false, existsb_exists in He; destruct He; by exists z).
    cbn. unfold redirects_from. cbn. by rewrite String.eqb_refl.
  - rewrite find_update_where by (intros y Hy; done). destruct (List.find _ _) as [z|] eqn:Hf; [|done]. apply find_some in Hf as [_ Hz].
    unfold redirects_from in *. apply String.eqb_eq in Hz. cbn. destruct (String.eqb_spec (rd_source z) source); [congruence|done].
  - rewrite find_app_other; [done|]. unfold redirects_from. cbn. by apply String.eqb_neq, not_eq_sym.
Qed.

Lemma rule_removed source s : rule_of source (set_redirects (List.filter (fun r => negb (redirects_from source r)) (sw_redirects s)) s) = None /\
  forall path, path <> source -> rule_of path (set_redirects (List.filter (fun r => negb (redirects_from source r)) (sw_redirects s)) s) = rule_of path s.
Proof.
  split; [|intros path Hne]; rewrite !rule_find; cbn [sw_redirects set_redirects]; induction (sw_redirects s) as [|z l IH]; try done; cbn [List.filter].
  - destruct (redirects_from source z) eqn:Hz; cbn [negb]; [done|]. cbn [List.find]. by rewrite Hz.
  - destruct (redirects_from source z) eqn:Hz; cbn [negb List.find].
    + unfold redirects_from in *. apply String.eqb_eq in Hz. destruct (String.eqb_spec (rd_source z) path); [congruence|done].
    + by destruct (redirects_from path z).
Qed.

(** What a visitor of a path is answered. *)
Definition answered_with `{V : Server} `{SC : TableScan} (s : SiteView) (path : string) (answer : option (string * Z)) : Prop :=
  forall site addr r ps, pub_redirects (sv ps) = map redirect_rule (sw_redirects s) -> url_path r = path ->
    match answer with
    | Some (target, code) => fst (ServePage site addr r ps) = RRedirect code target
    | None => forall code target, fst (ServePage site addr r ps) <> RRedirect code target
    end.

Section Redirects.
Context `{E : Env} `{K : !Calm} `{V : Server} `{SC : TableScan}.
Context (reads_work : forall n, read_breaks n = false).

Lemma served_rule s path : path <> "" -> answered_with s path (rule_of path s).
Proof.
  intros Hp site addr r ps Hs Hu. apply String.eqb_neq in Hp. destruct (rule_of path s) as [[target code]|] eqn:Hr.
  - unfold ServePage. rewrite Hu, Hp.
    assert (fst (openSite ps) = true /\ sv (snd (openSite ps)) = sv ps) as [Ho Hv] by (unfold openSite; rewrite bind_run, row_works by done; done).
    rewrite bind_run, Ho. cbn [negb]. rewrite bind_run. unfold checkRedirect at 1. rewrite row_works, Hv, Hs by done.
    change (option_map snd _) with (rule_of path s). by rewrite Hr.
  - intros code target Ha. pose proof (only_published_served site addr r ps) as H. destruct (ServePage site addr r ps) as [reply ps']. cbn in Ha.
    subst reply. destruct H as [_ H]. unfold requested in H. rewrite Hu, Hp, Hs in H. unfold rule_of in Hr.
    destruct (List.find _ _) eqn:Hf; [done|]. pose proof (find_none _ _ Hf _ H) as Hk. cbn in Hk. by rewrite String.eqb_refl in Hk.
Qed.

(** A rule set, and nothing else changed. *)
Definition redirects_to s s' (source : string) (rule : option (string * Z)) : Prop :=
  answered_with s' source rule /\ forall path, path <> "" -> path <> source -> answered_with s' path (rule_of path s).

Lemma removal args s source : arg_string "source_path" args = source -> source <> "" -> rule_of source s <> None ->
  wp s (removeRedirect args) (fun _ s' => redirects_to s s' source None) (fun _ _ => False).
Proof.
  intros Ha Hne Hr. unfold removeRedirect. rewrite Ha. apply wp_bind, wp_guard; [intros _|by intros H%negb_false_iff%String.eqb_eq].
  apply wp_bind, wp_must_save_calm. intros t. unfold delete_rows. cbn [fst snd]. destruct (rule_removed source s) as [H1 H2].
  apply wp_bind, wp_guard.
  - intros _. apply wp_ret. split; [rewrite <- H1; by apply served_rule|]. intros path Hp Hn. rewrite <- (H2 path Hn). by apply served_rule.
  - intros H%negb_false_iff%Z.eqb_eq. apply Hr. rewrite rule_find. destruct (List.find _ _) as [z|] eqn:Hf; [|done]. exfalso.
    apply find_some in Hf as [Hin Hz]. assert (forall l, In z l -> (List.length (List.filter (fun r => negb (redirects_from source r)) l) < List.length l)%nat) as Hlt.
    { clear -Hz. induction l as [|y l IH]; [done|]. pose proof (List.filter_length_le (fun r => negb (redirects_from source r)) l) as Hle.
      intros [->|Hin]; cbn [List.filter List.length]; [rewrite Hz; cbn; lia|]. specialize (IH Hin). destruct (negb (redirects_from source y)); cbn; lia. }
    specialize (Hlt _ Hin). lia.
Qed.
End Redirects.


(** ** The handlers *)

Section Handlers.
Context `{E : Env} `{K : !Calm} `{F : Formats} `{W : Newest}.
Context (open_error : Z -> option string) (zone : Z).
Implicit Types (s : SiteView).

Lemma pwp_now {S} (s : S) (Q : time -> S -> Prop) R : (forall t, Q t s) -> pwp s (effect (lift now)) Q R.
Proof. intros H. apply pwp_effect, wp_lift, H. Qed.

Lemma pwp_counting {A} s (f : SiteView -> list A) (Q : Z -> SiteView -> Prop) R : Q (count (f s)) s -> pwp s (counting f) Q R.
Proof. intros H. apply pwp_bind, pwp_reading, pwp_ret, H. Qed.

Lemma parse_bounds text def min max : (min <= def <= max)%Z -> (min <= parseIntParam text def min max <= max)%Z.
Proof.
  intros H. unfold parseIntParam. destruct (text =? "")%string; [done|]. destruct (Atoi text) as [v [e|]]; [done|].
  destruct (Z.ltb_spec v min); [done|]. destruct (Z.ltb_spec max v); lia.
Qed.
End Handlers.


(** The statistics of the log add up.  What the owner is told in all - calls and
    tokens - is the sum of what he is told of each model, and of each source; each
    model and each source comes once. *)
Theorem stats_add_up `{E : Env} `{K : !Calm} `{F : Formats} `{W : Newest} open_error site s :
  pwp s (logs_Stats open_error site)
    (fun x s' => s' = s /\ exists models sources,
       x = stats_json (usages (sw_llm s)) (count (List.filter failed_call (sw_llm s))) (JArr (map (usages_json "model") models)) (JArr (map (usages_json "source") sources)) /\
       summed models = usages (sw_llm s) /\ summed sources = usages (sw_llm s) /\ NoDup (map fst models) /\ NoDup (map fst sources))
    (fun x s' => s' = s /\ is_refusal x).
Proof.
  unfold logs_Stats. apply pwp_bind, pwp_requireSiteDB; [intros n _ _|by split|by split]. apply pwp_bind, pwp_reading.
  apply pwp_bind, pwp_reading. apply pwp_bind, pwp_reading. apply pwp_ret. split; [done|].
  exists (by_model (sw_llm s)), (by_source (sw_llm s)). split; [done|]. unfold by_model, by_source. rewrite !usages_by_sum.
  do 2 (split; [done|]). split; apply usages_by_keys.
Qed.

(** C37. The model and the owner count the same visits.  manage_analytics asks for an
    interval of moments, the panel for days up to the one after the last; for every
    first text and every last day of the years 0 to 9999 both come to the same number
    of views and of visitors, the same pages and the same referrers. *)
Theorem visits_agree `{E : Env} `{K : !Calm} `{F : Formats} `{W : Newest} `{O : MapOrder} open_error zone site r start e args s :
  dated e -> dated (e + 1) -> Forall (fun v => dated (day_of 0 (an_created v))) (sw_visits s) ->
  start <> "" -> arg_string "start_date" args = start -> arg_string "end_date" args = date_text e ->
  query_get "start" r = start -> query_get "end" r = date_text e ->
  exists views visitors pages referrers,
    wp s (analytics_summary args) (fun x s' => s' = s /\ x = success [("end_date", JStr (date_text e)); ("start_date", JStr start);
      ("top_pages", slice (fun g => JObj [("page_path", JStr (fst g)); ("views", int (snd g))]) pages);
      ("top_referrers", slice (fun g => JObj [("count", int (snd g)); ("referrer", JStr (fst g))]) referrers);
      ("total_views", int views); ("unique_visitors", int visitors)]) (fun _ _ => False) /\
    pwp s (analytics_Summary open_error zone site r) (fun x s' => s' = s /\ exists daily, x = answer_json 200 (JObj [("total_views", int views); ("unique_visitors", int visitors);
      ("top_pages", JArr (map (fun g => JObj [("path", JStr (fst g)); ("views", int (snd g))]) pages));
      ("top_referrers", JArr (map (fun g => JObj [("referrer", JStr (fst g)); ("count", int (snd g))]) referrers));
      ("daily", daily); ("start", JStr start); ("end", JStr (date_text e))])) (fun x s' => s' = s /\ is_refusal x).
Proof.
  intros He He' Hv Hne Ha1 Ha2 Hq1 Hq2. set (l := List.filter (before start (end_exclusive start (date_text e))) (sw_visits s)).
  assert (date_text e <> "") as Hd by (intros Hx; pose proof (parse_date_text e He) as H; by rewrite Hx in H).
  exists (count l), (count_distinct (map an_hash l)), (top_pages l), (top_referrers l).
  assert (List.filter (within start (last_moment (date_text e))) (sw_visits s) = l) as Hl.
  { unfold l. clear l. induction Hv as [|v vs Hv Hvs IH]; [done|]. cbn [List.filter]. rewrite windows_same by done. by rewrite IH. }
  apply String.eqb_neq in Hne, Hd. split.
  - unfold analytics_summary. rewrite Ha1, Ha2. apply wp_bind, wp_guard; [intros _|by rewrite Hne, Hd]. cbv zeta.
    do 4 (apply wp_bind, wp_load_calm; cbn [or_throw]; apply wp_bind, wp_ret). apply wp_ret. by rewrite Hl.
  - unfold analytics_Summary. apply pwp_bind, pwp_requireSiteDB; [intros n _ _|by split|by split]. apply pwp_bind, pwp_now. intros t.
    unfold asked_or. rewrite Hq1, Hq2, Hne, Hd. cbv zeta. do 4 apply pwp_bind, pwp_reading. apply pwp_ret. split; [done|]. by eexists.
Qed.

(** The panel finds a site in order exactly when it has a layout and an asset and no
    page names a layout that is not there. *)
Theorem integrity_ok `{E : Env} `{K : !Calm} `{F : Formats} `{SC : TableScan} open_error site s :
  pwp s (diagnostics_Integrity open_error site)
    (fun x s' => s' = s /\ exists issues b, x = answer_json 200 (JObj [("issues", JArr issues); ("ok", JBool b)]) /\
       (b = true <-> sw_layouts s <> [] /\ sw_assets s <> [] /\ forall p, In p (sw_pages s) -> names_lost s p = None))
    (fun x s' => s' = s /\ is_refusal x).
Proof.
  unfold diagnostics_Integrity. apply pwp_bind, pwp_requireSiteDB; [intros n _ _|by split|by split]. apply pwp_bind, pwp_reading. cbv zeta.
  apply pwp_bind, pwp_counting. set (found := omap (fun p => option_map (pair (p_path p)) (names_lost s p)) (sw_pages s)).
  assert (found = [] <-> forall p, In p (sw_pages s) -> names_lost s p = None) as Hf.
  { unfold found. clear. induction (sw_pages s) as [|p l IH]; [split; [by intros _ q []|done]|]. cbn. destruct (names_lost s p) eqn:Hp; cbn.
    - split; [done|]. intros H. by rewrite H in Hp by (by left).
    - rewrite IH. split; intros H q; [intros [<-|Hq]; [done|by apply H]|]. intros Hq. apply H. by right. }
  assert (forall {A} (l : list A), (count l =? 0)%Z = bool_decide (l = [])) as H0 by (by intros A [|a l]).
  assert (0 <? count (sw_layouts s) = negb (bool_decide (sw_layouts s = [])))%Z as H1 by (by destruct (sw_layouts s)).
  assert (scan found = [] <-> found = []) as Hs.
  { pose proof (scan_perm found) as Hp. split; intros E0; [rewrite E0 in Hp; by apply Permutation_nil in Hp|].
    apply Permutation_nil. rewrite <- E0 at 1. by symmetry. }
  rewrite H0, H1. destruct (bool_decide (sw_layouts s = [])) eqn:Hl; cbn [negb].
  - apply bool_decide_eq_true in Hl. apply pwp_bind, pwp_ret. apply pwp_bind, pwp_counting, pwp_ret. split; [done|]. eexists _, _. split; [done|].
    cbn [app]. split; [done|]. by intros [].
  - apply bool_decide_eq_false in Hl. apply pwp_bind, pwp_bind, pwp_reading, pwp_ret. apply pwp_bind, pwp_counting, pwp_ret. split; [done|]. eexists _, _. split; [done|].
    cbn [or_nothing app]. fold found. rewrite H0. rewrite <- Hf, <- Hs. destruct (scan found); cbn [map app]; [|by split; [|intros (_ & _ & ?)]].
    destruct (bool_decide (sw_assets s = [])) eqn:Ha; [apply bool_decide_eq_true in Ha|apply bool_decide_eq_false in Ha]; split; try done.
    by intros (_ & ? & _).
Qed.

(** ** Examples *)

Module ReportSample.
Export SiteSample.
#[export] Existing Instances ApiSample.order digit_floats.
#[export] Instance env : Env := calm_env (fun _ _ => Err "").
#[export] Instance calm : Calm.
Proof. by split. Qed.

(** The largest first, of equals the last found first. *)
Fixpoint put {A} (key : A -> Z) (x : A) (l : list A) : list A :=
  match l with [] => [x] | y :: r => if (key y <=? key x)%Z then x :: l else y :: put key x r end.
Lemma put_perm {A} (key : A -> Z) x l : put key x l ≡ₚ x :: l.
Proof. induction l as [|y l IH]; [done|]. cbn. destruct (_ <=? _)%Z; [done|]. rewrite IH. apply Permutation_swap. Qed.
Lemma put_sorted {A} (key : A -> Z) x l : Sorted (fun a b => (key b <= key a)%Z) l -> Sorted (fun a b => (key b <= key a)%Z) (put key x l).
Proof.
  induction 1 as [|y l Hl IH Hy]; [by repeat constructor|]. cbn. destruct (Z.leb_spec (key y) (key x)).
  - constructor; [by constructor|]. by constructor.
  - constructor; [done|]. destruct l as [|z l]; cbn in *; [constructor; lia|]. destruct (key z <=? key x)%Z; constructor; [lia|]. by inversion Hy.
Qed.
#[export, refine] Instance by_key : Newest := {| newest := fun A key l => foldr (put key) [] l |}.
Proof.
  - intros A key l. induction l as [|x l IH]; [done|]. cbn. by rewrite put_perm, IH.
  - intros A key l. induction l as [|x l IH]; [constructor|]. by apply put_sorted.
Defined.

Definition opens (n : Z) : option string := None.
Definition run {A} (m : P SiteView A) (s : SiteView) : option (AdminAnswer + A) :=
  match fst (m {| cw := new_world; cs := s |}) with Ok (Ok a) => Some (inr a) | Ok (Err x) => Some (inl x) | Err _ => None end.

Definition call (id : Z) (content : string) : LLMLogRow :=
  {| ll_id := id; ll_error := None; ll_created := id * day;
     ll_entry := {| Source := "brain"; SessionID := ""; Iteration := 1; LogModel := "m"; ProviderType := "p"; RequestMessages := "[]"; RequestSystem := "";
                    RequestTools := "[]"; RequestMaxTokens := 100; ResponseContent := content; ResponseToolCalls := ""; ResponseStopReason := "stop";
                    LogUsage := {| InputTokens := 2; OutputTokens := 3 |}; DurationMs := 5; ErrorMessage := "" |} |}.
(** The last moment of the first day, and the first of the second. *)
Definition visit (path : string) (t : time) : VisitRow :=
  {| an_path := path; an_hash := Some "a"; an_referrer := None; an_agent := None; an_country := None; an_created := t |}.
Definition home : Page :=
  {| p_id := 1; p_path := "/"; p_title := None; p_content := Some ""; p_template := None; p_status := Some "published"; p_metadata := None;
     p_layout := Some "none"; p_assets := None; p_deleted := false; p_deleted_at := None; p_created := 0%Z; p_updated := 0%Z |}.
Definition destroyed : LogLine :=
  {| ln_id := 1; ln_log := {| bl_type := "destructive_action"; bl_summary := "Destructive"; bl_details := None; bl_tokens := 0; bl_model := None;
                              bl_duration := None; bl_created := 0 |} |}.
Definition view : SiteView :=
  {| sw_sites := []; sw_redirects := [{| rd_id := 1; rd_source := "/a"; rd_target := "/b"; rd_code := 302; rd_created := 0 |}];
     sw_visits := [visit "/" (day - 1); visit "/x" day]; sw_log := [destroyed];
     sw_llm := [call 1 "plain"; call 2 (dq "say 'yes', then stop")];
     sw_pages := [home]; sw_layouts := [{| l_id := 1; l_name := "default"; l_head := None; l_before := None; l_after := None; l_template := None; l_created := 0; l_updated := 0 |}];
     sw_assets := [{| f_id := 1; f_name := "a.css"; f_type := None; f_size := None; f_path := ""; f_meta := None; f_scope := "global"; f_created := 0 |}];
     sw_tables := []; sw_stage := None |}.
Definition start : Ctx SiteView := {| cw := new_world; cs := view |}.
Definition first_day : HttpRequest :=
  {| method := "GET"; url_path := ""; headers := []; cookies := []; Security.query := {["start" := ["0001-01-01"]; "end" := ["0001-01-01"]]}; req_body := "" |}.
Definition move_args : Args := [("source_path", JStr "/old"); ("target_path", JStr "/new")].
Definition remove_args : Args := [("source_path", JStr "/old")].
Definition day_args : Args := [("start_date", JStr "0001-01-01"); ("end_date", JStr "0001-01-01")].
End ReportSample.
Import ReportSample.



Lemma visits_agree_witness :
  Datatypes.length (List.filter (within "0001-01-01" (last_moment "0001-01-01")) (sw_visits view)) = 1%nat /\
  exists views visitors,
    (exists data, fst (analytics_summary day_args ReportSample.start) = Ok (success data) /\ arg "total_views" data = Some (int views)) /\
    exists x m, run (analytics_Summary opens 0 "7" first_day) view = Some (inr x) /\ an_body x = JObj m /\
      arg "total_views" m = Some (int views) /\ arg "unique_visitors" m = Some (int visitors).
Proof.
  split; [vm_compute; reflexivity|].
  assert (dated 0) as D0 by (vm_compute; split; congruence). assert (dated 1) as D1 by (vm_compute; split; congruence).
  assert (Forall (fun v => dated (day_of 0 (an_created v))) (sw_visits view)) as Dv by (repeat constructor; vm_compute; congruence).
  destruct (visits_agree opens 0 "7" first_day "0001-01-01" 0 day_args view D0 D1 Dv ltac:(done) eq_refl eq_refl eq_refl eq_refl)
    as (views & visitors & pages & refs & H1 & H2).
  specialize (H1 ReportSample.start eq_refl). exists views, visitors. split.
  { destruct (analytics_summary day_args ReportSample.start) as [[a|x] c]; [|done]. destruct H1 as [_ ->]. by eexists. }
  assert (exists a c, analytics_Summary opens 0 "7" first_day ReportSample.start = (Ok (Ok a), c)) as (a & c & Hr)
    by (eexists _, _; vm_compute; reflexivity).
  specialize (H2 ReportSample.start eq_refl). rewrite Hr in H2. destruct H2 as (_ & daily & ->).
  eexists _, _. unfold run. change {| cw := new_world; cs := view |} with ReportSample.start. rewrite Hr.
  split; [reflexivity|]. split; [reflexivity|]. split; reflexivity.
Defined.

(** A page that wants no layout is told to want one that is missing. *)
Example no_layout_is_lost : match run (diagnostics_Integrity opens "7") view with
  | Some (inr x) => an_body x = JObj [("issues", JArr [issue "warning" "Page '/' references missing layout 'none'"]); ("ok", JBool false)]
  | _ => False
  end.
Proof. vm_compute. reflexivity. Qed.

(** What was destroyed is in the log, and not shown: its duration is NULL. *)
Example destruction_unseen : run (logs_List opens "7" (SiteSample.get "")) view = Some (inr (answer_json 200 (JArr []))).
Proof. vm_compute. reflexivity. Qed.

(** A path can be redirected to itself, and its page is out of reach. *)
Example redirect_to_itself : match addRedirect [("source_path", JStr "/about"); ("target_path", JStr "/about")] ReportSample.start with
  | (Ok r, c) => Success r = true /\ rule_of "/about" (cs c) = Some ("/about", 301%Z)
  | _ => False
  end.
Proof. vm_compute. by split. Qed.
