(* ===== verification/Prompts.v ===== *)
(** * What the models are told: brain/prompts.go, brain/manifests.go and chat/prompt.go

    The texts sent to a model with its work are made of fixed instructions and of what
    the databases hold: the plan, what is already built, the pages, the endpoints with
    their fields.  Every builder is a reader of [PromptView]; a read that fails leaves
    its part out.  The texts between back quotes are given line by line, a back quote
    standing for a double one. *)

From Stdlib Require Import ZArith Lia Ascii String List Bool.
From stdpp Require Import base list strings gmap.
From S2P Require Import Plan Prelude GoStrings GoTime JSONText PlanJSON PlanStore World ToolCore Security SiteTables ToolMonad Tables SchedulerTool Endpoints Pages Layout Files LLMTypes PublicSite AdminDB SiteTool.

Local Open Scope string_scope.

(** ** Indented JSON *)

(** A new line at a depth of [MarshalIndent] with two blanks. *)
Definition new_line (depth : nat) : string := ToolCore.newline ++ Join (repeat "  " depth) "".
Fixpoint indented (depth : nat) (j : json) : string :=
  match j with
  | JArr ((_ :: _) as l) => "[" ++ new_line (S depth) ++ Join (map (indented (S depth)) l) ("," ++ new_line (S depth)) ++ new_line depth ++ "]"
  | JObj ((_ :: _) as m) =>
      "{" ++ new_line (S depth) ++
      Join (map (fun kv => enc_string (fst kv) ++ ": " ++ indented (S depth) (snd kv)) m) ("," ++ new_line (S depth)) ++ new_line depth ++ "}"
  | _ => Marshal j
  end.
(** [json.MarshalIndent(v, <none>, <two blanks>)] *)
Definition MarshalIndent (j : json) : string := indented 0 j.

(** ** Fixed texts *)

Definition quoted_name (s : string) : string := s1 quote ++ s ++ s1 quote.
Definition verbatim (lines : list string) : string := ReplaceAll (Join lines ToolCore.newline ++ ToolCore.newline) "`" (s1 quote).
Definition line (s : string) : string := s ++ ToolCore.newline.
Definition fenced (kind body : string) : string := line ("```" ++ kind) ++ body ++ ToolCore.newline ++ line "```".

(** [buildPlatformContracts]: what belongs to no single tool. *)
Definition platform_contracts : string := verbatim
  ["### Parameterized Routes";
  "- Paths like /thread/:id match /thread/42. Server injects window.__routeParams = {id: `42`}.";
  "";
  "### SPA JSON API";
  "- GET /api/page?path=/foo -> {content, title, layout, page_css, page_js, params}.";
  "- SPA router: intercept clicks -> fetch -> replace main -> load assets -> update title -> handle popstate.";
  "";
  "### WebSocket Architecture";
  "The WS server is a pure relay — it broadcasts messages to the room, not back to the sender. There is no server-side game logic. All coordination must happen client-side.";
  "";
  "**Patterns for real-time apps (games, collaboration, chat):**";
  "- Use a `type` field in every message to distinguish message kinds: {type: `move`, ...}, {type: `state`, ...}, {type: `join`, ...}.";
  "- Track players/peers client-side: maintain a Map of _sender IDs seen. Announce presence by sending a {type: `join`, username: `...`} message on connect.";
  "- For games: one client acts as host (e.g. first to join). The host makes authoritative decisions (matchmaking, scoring, game over). Non-hosts send inputs, host broadcasts game state.";
  "- For state sync: send periodic {type: `state`, ...} snapshots so late joiners or reconnectors can catch up.";
  "- Handle disconnects: use ws.onclose + exponential backoff reconnection. Re-send a join message after reconnecting.";
  "- The server does NOT send join/leave events — implement heartbeat messages ({type: `ping`}) and timeout detection client-side."].

(** What the planner is asked for. *)
Definition plan_instructions : string := verbatim
  ["## Instructions";
  "";
  "Analyze the requirements and produce a complete Plan JSON — the build specification that drives everything. Think creatively about the best way to build this using the platform's capabilities.";
  "";
  "### JSON Shape";
  "{";
  "  `app_type`: `string (dashboard, marketplace, portfolio, community, tool, cms, etc.)`,";
  "  `architecture`: `spa | multi-page | single-page`,";
  "  `auth_strategy`: `jwt | localStorage-only | none`,";
  "  `design_system`: {";
  "    `colors`: {`primary`: `#hex`, `secondary`: `#hex`, `bg`: `#hex`, `surface`: `#hex`, `text`: `#hex`, `muted`: `#hex`, `accent`: `#hex`, `error`: `#hex`, `success`: `#hex`},";
  "    `typography`: {`heading_font`: `Font Name`, `body_font`: `Font Name`, `scale`: `tight|normal|loose`},";
  "    `spacing`: `compact|comfortable|spacious`,";
  "    `radius`: `none|sm|md|lg`,";
  "    `dark_mode`: true,";
  "    `components`: {";
  "      `card`: `<div class='card surface radius-md p-4'>...</div>`,";
  "      `button`: `<button class='btn btn-primary radius-sm'>...</button>`";
  "    }";
  "  },";
  "  `layout`: {`style`: `topnav|sidebar|minimal`, `nav_items`: [`/`, `/about`]},";
  "  `tables`: [";
  "    {`name`: `table_name`, `purpose`: `what it stores`, `columns`: [{`name`: `col`, `type`: `TEXT|INTEGER|REAL|BOOLEAN|PASSWORD|ENCRYPTED`, `required`: true}], `searchable_columns`: [`col`], `seed_data`: [{`col`: `example1`}, {`col`: `example2`}]}";
  "  ],";
  "  `endpoints`: [";
  "    {`action`: `create_api|create_auth|create_websocket|create_stream|create_upload`, `path`: `resource`, `table_name`: `table_name`, ...}";
  "  ],";
  "  `pages`: [";
  "    {`path`: `/`, `title`: `Home`, `purpose`: `what this page does`, `sections`: [";
  "      {`name`: `hero`, `purpose`: `Full-width intro with CTA button`},";
  "      {`name`: `features`, `purpose`: `3-column card grid`, `endpoints`: [`GET /api/features`], `data_flow`: `fetch on load, render as cards`}";
  "    ], `endpoints`: [`GET /api/features`], `auth`: false, `notes`: `technical build details`}";
  "  ],";
  "  `exclusions`: [`things NOT to build`],";
  "  `webhooks`: [{`name`: `...`, `direction`: `incoming|outgoing`, `event_types`: [...]}],";
  "  `scheduled_tasks`: [{`name`: `...`, `description`: `...`, `prompt`: `...`, `cron`: `0 8 * * *`}],";
  "  `questions`: [{`question`: `...`, `type`: `single_choice|multiple_choice|open`, `options`: [`...`]}]";
  "}";
  "";
  "## When to Ask Questions";
  "If the site description is vague or missing critical details, use the `questions` field to ask the owner BEFORE producing the plan. Return ONLY the questions — no pages, tables, or endpoints yet. The pipeline will pause, collect answers, and re-run the plan stage with the answers included.";
  "Ask when: the core purpose is unclear, the target audience is ambiguous, key features could go multiple ways, or design preferences are unknown.";
  "Do NOT ask when: the description is specific enough to make reasonable decisions. When in doubt, make a good default choice and build — the owner can request changes later via chat.";
  "Keep it to 2-3 questions max. Use single_choice or multiple_choice with clear options when possible.";
  "";
  "## Guidelines";
  "- layout.style: `topnav` for most apps, `sidebar` for dashboards/admin panels, `minimal` for landing pages.";
  "- sections: each section should describe what it does and which APIs it calls. This drives the build.";
  "- Do NOT include id or created_at columns — they are auto-added.";
  "- auth_strategy: `jwt` for server-side login/register, `localStorage-only` for client-side preferences, `none` for no identity.";
  "- Design the best site/app you can. Add features and polish that serve the user's goals.";
  "- pages.notes: actionable build instructions — API calls, state management, key interactions.";
  "- seed_data: include 2-3 example rows MAX to show the shape. The build stage will insert the full dataset — do NOT put dozens of rows here.";
  "";
  "## Required Fields";
  "- app_type, design_system (with at least colors.primary and colors.bg), pages (at least one at `/`)";
  "";
  "## Optional Fields";
  "- architecture, auth_strategy, layout, tables, endpoints, exclusions, webhooks, scheduled_tasks, questions"].

(** The order and the rules of the build. *)
Definition build_rules : string := verbatim
  ["## Build Phases (follow this order strictly)";
  "1. DATA LAYER: Create all tables, then all endpoints, then populate tables with rich seed data (the plan only has 2-3 examples — expand to a full realistic dataset). These must exist before pages reference them.";
  "2. DESIGN SYSTEM: Create the global CSS file. Define ALL design tokens as custom properties AND all reusable component classes (cards, buttons, sections, grids, forms, badges, etc.) in this single file. This CSS is the design vocabulary — pages will consume it.";
  "3. SHARED JS: Create global utility .js files (auth, fetch helpers, SPA nav, icons) with manage_files using scope=`global`. These are auto-injected on every page.";
  "4. LAYOUT: Create the layout (nav/footer) using classes from the global CSS. Use body_before_main (nav/header) and body_after_main (footer). Server wraps page content in <main>.";
  "5. PAGES (one at a time): For each page:";
  "   a. Create the page HTML with manage_pages (sections, forms, containers with specific IDs/classes).";
  "   b. Immediately after, create its page-specific .js file with manage_files (scope=`page`) that targets the exact IDs/classes you just wrote in the HTML.";
  "   c. CRITICAL: set the page's assets array to include the .js filename: assets='[`page-name.js`]'";
  "   The JS file is created AFTER the HTML so you know the exact DOM structure to target. No guessing selectors.";
  "";
  "## Coherence Rules";
  "- Every page MUST use the same structural patterns. If the first page uses <section class=`hero`><div class=`container`>...</div></section>, all hero sections must follow this same pattern.";
  "- Consistent heading hierarchy: h1 for page title, h2 for sections, h3 for card/item titles.";
  "";
  "## JavaScript & Interactivity Rules";
  "Pages are NOT static HTML mockups — they must be fully functional.";
  "";
  "**CRITICAL: Do NOT put JavaScript inside page HTML.** All JS must be in external .js files saved with manage_files:";
  "- Shared logic (tabs, modals, CRUD helpers, fetch utilities, auth): save as a **global-scope** .js file (auto-injected on all pages).";
  "- Page-specific logic: create the page HTML FIRST, then save a **page-scope** .js file targeting the exact IDs/classes from that page. List the filename in the page's assets array.";
  "- The ONLY exception: a tiny inline <script> (under 3 lines) to call an init function with page-specific args.";
  "- Wiring checklist: page HTML uses id=`user-list` → page JS uses document.getElementById('user-list'). Never guess — match exactly.";
  "";
  "Functionality requirements:";
  "- Each page that lists endpoints in the plan MUST have JavaScript that fetches from those endpoints and renders the data.";
  "- Fetch pattern: fetch('/api/resource').then(r => r.json()).then(data => { /* render */ })";
  "- Tabs, accordions, modals: add event listeners that actually switch/toggle content. Use data attributes to link triggers to panels.";
  "- CRUD admin pages: implement create (form submit → POST), read (fetch → render list), update (edit button → populate form → PUT), delete (delete button → confirm → DELETE).";
  "- Forms: prevent default, collect values, POST/PUT to the correct endpoint, show success/error feedback.";
  "- Dynamic pages with route params: use window.__routeParams (e.g. window.__routeParams.id) to fetch and display the specific item.";
  "- SPA navigation: internal links are handled automatically by the SPA router. Just use normal <a href=`/path`> links.";
  "- Only link to pages that exist in the plan. Do NOT invent links to pages that aren't being built.";
  "";
  "## Canvas & Interactive Apps";
  "For games, visualizations, or drawing tools that need a <canvas>:";
  "- Create the rendering engine as an external .js file with manage_files (e.g. game-engine.js).";
  "- Place a <canvas> element in the page HTML with explicit width/height attributes.";
  "- Use requestAnimationFrame for smooth rendering loops. Structure as: init() → gameLoop() → update() → draw().";
  "- Keep game logic (state, physics, collision) separate from rendering code.";
  "- For multiplayer: use WebSocket to sync state between clients. See `WebSocket Architecture` in Platform Contracts.";
  "- Do NOT use inline <script> for the game engine — it will be too large. Use external .js files.";
  "- Canvas pages still use the design system for surrounding UI (scores, controls, menus) — only the game area itself is canvas-rendered.";
  "";
  "## Assets & Files";
  "- manage_files can save any text file: .js, .css, .svg, .html, .json";
  "- Use SVG files for icons, logos, and illustrations — save with manage_files and reference as /assets/filename.svg";
  "- Binary images: use manage_files with the base64 data parameter, or make_http_request to fetch and save.";
  "";
  "## Auth & Token Rules";
  "- Store JWT tokens in localStorage using the key 'auth_token'. Each site runs on its own subdomain so tokens are naturally isolated.";
  "- Auth header: fetch('/api/resource', { headers: { Authorization: 'Bearer ' + localStorage.getItem('auth_token') } })";
  "- Login flow: POST to auth endpoint → store token → redirect. Logout: remove token → redirect to login.";
  "- The /me endpoint returns the current user: fetch('/api/{auth_path}/me', { headers: { Authorization: 'Bearer ' + token } })";
  "";
  "## Technical Rules";
  "- Pages: content goes inside <main> only. No <!DOCTYPE>/<html>/<head>/<body>. No <nav>/<footer> (layout handles these). No <link>/<script src> for /assets/ files (auto-injected).";
  "- NEVER hardcode the year in copyright notices or footers. Use JavaScript: <script>document.querySelectorAll('[data-year]').forEach(el => el.textContent = new Date().getFullYear())</script> with <span data-year></span> in the layout footer.";
  "- API sorting: use ?sort=column&order=asc|desc (not order_by/direction).";
  "- If a tool call fails, read the error, fix your input, and retry once.";
  "- When everything is built, stop."].

(** What a change of the plan looks like. *)
Definition patch_instructions : string := verbatim
  ["## Instructions";
  "";
  "Create a PlanPatch JSON describing only the changes needed:";
  "";
  "{";
  "  `add_pages`: [{`path`: `/blog`, `title`: `Blog`, `purpose`: `...`, `sections`: [{`name`: `...`, `purpose`: `...`}], `notes`: `...`}],";
  "  `modify_pages`: [{`path`: `/`, `title`: `Homepage`, `purpose`: `...`, `notes`: `...`}],";
  "  `remove_pages`: [`/old-page`],";
  "  `add_endpoints`: [{`action`: `create_api`, `path`: `posts`, `table_name`: `posts`}],";
  "  `add_tables`: [{`name`: `posts`, `purpose`: `...`, `columns`: [...]}],";
  "  `add_webhooks`: [{`name`: `...`, `direction`: `incoming|outgoing`, `event_types`: [...]}],";
  "  `add_scheduled_tasks`: [{`name`: `...`, `description`: `...`, `prompt`: `...`, `cron`: `...`}],";
  "  `update_nav`: true,";
  "  `update_css`: false,";
  "  `update_auth_strategy`: `jwt|localStorage-only|none`,";
  "  `update_design_system`: {`colors`: {`primary`: `#hex`, ...}, `dark_mode`: true},";
  "  `update_layout`: {`style`: `sidebar`, `nav_items`: [...]}";
  "}";
  "";
  "Rules:";
  "- Only include fields that actually change";
  "- Respect existing exclusions — do NOT add excluded features";
  "- update_design_system: only include if colors or design tokens need changing"].

(** What the monitoring tick may do. *)
Definition monitoring_instructions : string := verbatim
  ["## Instructions";
  "- Review the reported issues and assess severity";
  "- Use manage_diagnostics for system health details";
  "- Use manage_analytics for traffic patterns";
  "- Do NOT modify pages, layout, files, or site settings — monitoring is read-only";
  "- If a critical issue requires fixes, use manage_communication to notify the owner";
  "- Be brief in your response"].

(** How to answer the owner. *)
Definition wake_instructions : string := verbatim
  ["## Instructions";
  "- Read the owner's message and determine what needs fixing";
  "- Prefer patch actions for targeted fixes — avoid rewriting entire files:";
  "  - manage_pages(action=`patch`, patches='[{`search`:`...`,`replace`:`...`}]') for page HTML/JS";
  "  - manage_files(action=`patch`, patches='[{`search`:`...`,`replace`:`...`}]') for CSS/JS files";
  "  - manage_layout(action=`patch`, patches='[{`search`:`...`,`replace`:`...`}]') for nav/footer";
  "- Only read pages/files you actually need to fix. Do NOT read things `just to check`";
  "- Fix only what the owner asked for — no bonus improvements";
  "- Use the design system tokens (CSS custom properties) for any new styling";
  "- After making changes, briefly confirm what you did";
  "- Do NOT rebuild the entire site — make targeted fixes only";
  "- If the request requires a major restructure, use manage_communication to tell the owner they should trigger a rebuild"].

(** How to run a task. *)
Definition task_instructions : string := verbatim
  ["## Instructions";
  "- Execute the task described in the user message";
  "- Use tools as needed: query data, send emails, update pages, make HTTP requests";
  "- Be concise — scheduled tasks run without an audience";
  "- If you need information from the owner, use manage_communication to ask"].

(** The tools of the chat, in short. *)
Definition chat_tool_guide : string := verbatim
  ["## Tool Guide";
  "- manage_pages: read/update page HTML and JS";
  "- manage_files: update CSS or JS assets (scope: `global` or `page`)";
  "- manage_endpoints: create/modify API, WebSocket, SSE, or upload endpoints";
  "- manage_data: query/insert/update rows in data tables";
  "- manage_schema: add/modify database tables and columns";
  "- manage_layout: fix navigation or footer";
  "";
  "- manage_communication: ask the owner questions or suggest a rebuild";
  "- After making changes, briefly confirm what you did";
  "- Do NOT rebuild the entire site — make targeted fixes only"].
(** ** What a prompt reads *)

Record PromptView `{Q : SQL} := {
  pv_store : Store;                      (* tables and endpoints of the site *)
  pv_pages : list Page; pv_layouts : list LayoutRow; pv_assets : list FileRow;
  pv_visits : list VisitRow; pv_log : list BrainLog; pv_questions : list QuestionRow;
  pv_plan : option string;               (* plan_json of pipeline_state *)
  pv_sites : list Site; pv_users : list User; pv_settings : gmap string string;
}.

Section Prompts.
Context `{C : Crypto} `{Q : SQL} `{O : MapOrder} `{E : Env} `{F : Formats} `{W : Newest} `{SC : TableScan}.
Implicit Types (s : PromptView).

(** [time.Now().UTC().Format] of a date. *)
Definition today : T PromptView string := t ← lift now; mret (date_text (day_of 0 t)).

(** [loadRows]: a query that fails has no rows, a row that does not scan is left out.
    (Some of the callbacks return a variable beside the call that fills it, in an order
    the language leaves open; the compiler calls first.) *)
Definition loadRows {A B} (query : PromptView -> list A) (scan_row : A -> option B) : T PromptView (list B) :=
  r ← load query;
  mret (match r with Ok l => omap scan_row l | Err _ => [] end).
Definition rows_of {A} (query : PromptView -> list A) : T PromptView (list A) := loadRows query Some.

Fixpoint each {A B} (f : A -> T PromptView B) (l : list A) : T PromptView (list B) :=
  match l with
  | [] => mret []
  | x :: r => y ← f x; ys ← each f r; mret (y :: ys)
  end.

(** ** manifests.go *)

Record ManifestColumn := { mc_Name : string; mc_Type : string }.
Record ManifestTable := { mt_Name : string; mt_Columns : list ManifestColumn }.
Record ManifestAPI := {
  ma_Path : string; ma_Table : string; ma_Columns : list string; ma_Methods : string; ma_PublicColumns : list string;
  ma_RequiresAuth : bool; ma_PublicRead : bool;
}.
Record ManifestAuth := { mu_Path : string; mu_Table : string; mu_UsernameColumn : string }.
Record ManifestWS := { mw_Path : string; mw_Table : string }.
Record EndpointManifest := {
  em_API : list ManifestAPI; em_Auth : list ManifestAuth; em_WS : list ManifestWS; em_Stream : list ManifestWS; em_Upload : list ManifestWS;
}.

(** [PRAGMA table_info] *)
Definition pragma_rows (tableName : string) s : list (string * string) :=
  match table_info tableName (st_user (pv_store s)) with Ok l => l | Err _ => [] end.
Definition getTableColumnsTyped (tableName : string) : T PromptView (list ManifestColumn) :=
  loadRows (pragma_rows tableName) (fun c => Some {| mc_Name := fst c; mc_Type := snd c |}).
(** A set of names, as a Go map. *)
Definition getTableColumns (tableName : string) : T PromptView (gmap string bool) :=
  l ← rows_of (pragma_rows tableName);
  mret (go_map (map (fun c => (fst c, true)) l)).

Definition dynamic_names s : list string := map dt_name (order_by dt_name (st_dynamic (pv_store s))).
Definition extractSchemaManifest : T PromptView (res string (list ManifestTable)) :=
  r ← load dynamic_names;
  match r with
  | Err e => mret (Err e)
  | Ok names => l ← each (fun n => cols ← getTableColumnsTyped n; mret {| mt_Name := n; mt_Columns := cols |}) names; mret (Ok l)
  end.

(** The columns a visitor may see, when they are a list of texts that is not empty. *)
Definition public_columns (raw : option string) : list string :=
  match res_bind (Unmarshal (default "" raw)) (fun j => dec_string_list (Some j)) with Ok l => l | Err _ => [] end.
Definition api_manifest (a : ApiRow) : T PromptView ManifestAPI :=
  cols ← getTableColumns (ar_table a);
  mret {| ma_Path := ar_path a; ma_Table := ar_table a; ma_Columns := map fst (entries cols); ma_Methods := ar_methods a;
          ma_PublicColumns := public_columns (ar_columns a); ma_RequiresAuth := ar_auth a; ma_PublicRead := ar_read a |}.
Definition extractEndpointManifest : T PromptView EndpointManifest :=
  apis ← rows_of (fun s => order_by ar_path (st_api (pv_store s)));
  api ← each api_manifest apis;
  auth ← rows_of (fun s => order_by au_path (st_auth (pv_store s)));
  ws ← rows_of (fun s => order_by ws_path (st_ws (pv_store s)));
  streams ← rows_of (fun s => order_by sr_path (st_stream (pv_store s)));
  uploads ← rows_of (fun s => order_by up_path (st_upload (pv_store s)));
  mret {| em_API := api;
          em_Auth := map (fun a => {| mu_Path := au_path a; mu_Table := au_table a; mu_UsernameColumn := au_username a |}) auth;
          em_WS := map (fun w => {| mw_Path := ws_path w; mw_Table := ws_table w |}) ws;
          em_Stream := map (fun x => {| mw_Path := sr_path x; mw_Table := "" |}) streams;
          em_Upload := map (fun u => {| mw_Path := up_path u; mw_Table := up_table u |}) uploads |}.

(** A part of the manifest, if there is anything of its kind. *)
Definition part (title sep : string) (l : list string) : list string :=
  match l with [] => [] | _ => [title ++ ": " ++ Join l sep] end.
Definition table_entry (t : ManifestTable) : string := mt_Name t ++ "(" ++ Join (map mc_Name (mt_Columns t)) "," ++ ")".
Definition endpoint_entries (m : EndpointManifest) : list string :=
  let named (prefix : string) (w : ManifestWS) := prefix ++ mw_Path w in
  let bound (prefix path table : string) := prefix ++ path ++ "→" ++ table in
  (map (fun a => bound "API:" (ma_Path a) (ma_Table a)) (em_API m) ++ map (fun a => bound "Auth:" (mu_Path a) (mu_Table a)) (em_Auth m)
   ++ map (named "WS:") (em_WS m) ++ map (named "Stream:") (em_Stream m) ++ map (named "Upload:") (em_Upload m))%list.
Definition live_pages s : list Page := List.filter (fun p => negb (p_deleted p)) (pv_pages s).
Definition page_entry (p : Page) : string := p_path p ++ " (" ++ default "" (p_title p) ++ ")".

Definition buildCrashRecoveryManifest : T PromptView string :=
  schema ← extractSchemaManifest;
  ep ← extractEndpointManifest;
  pages ← rows_of (fun s => order_by p_path (live_pages s));
  layouts ← rows_of (fun s => order_by l_name (pv_layouts s));
  css ← rows_of (fun s => order_by f_name (List.filter (named_like "%.css") (pv_assets s)));
  let parts := (part "Tables" "; " (map table_entry (match schema with Ok l => l | Err _ => [] end))
                ++ part "Endpoints" "; " (endpoint_entries ep) ++ part "Pages" "; " (map page_entry pages)
                ++ part "Layouts" ", " (map l_name layouts) ++ part "CSS" ", " (map f_name css))%list in
  mret (match parts with
        | [] => ""
        | _ => line "## Already Built (resume from here — do NOT recreate these)" ++ Join parts ToolCore.newline
        end).

(** ** chat/prompt.go: the data layer *)

(** A [schema_def] read as a map of texts. *)
Definition schema_columns (schemaDef : string) : option (gmap string string) :=
  match Unmarshal schemaDef with Ok JNull => Some ∅ | _ => secure_map (Some schemaDef) end.
Definition shown_fields (cols : gmap string string) : list string :=
  order_by id (map fst (List.filter (fun kv => negb (EqualFold (snd kv) "PASSWORD")) (entries cols))).
Definition fields_text (schemaDef : string) : string :=
  if (schemaDef =? "")%string || (schemaDef =? "{}")%string then ""
  else match schema_columns schemaDef with Some cols => " — fields: " ++ Join (shown_fields cols) ", " | None => "" end.
Definition flags_text (requiresAuth publicRead : bool) : string :=
  if requiresAuth && publicRead then " [AUTH] [PUBLIC_READ]" else if requiresAuth then " [AUTH]" else "".
(** [LEFT JOIN dynamic_tables], whose names are unique. *)
Definition schema_def_of s (tableName : string) : string :=
  match List.find (fun d => (dt_name d =? tableName)%string) (st_dynamic (pv_store s)) with Some d => dt_schema d | None => "{}" end.
Definition api_line s (a : ApiRow) : string := "/api/" ++ ar_path a ++ flags_text (ar_auth a) (ar_read a) ++ fields_text (schema_def_of s (ar_table a)).
Definition ws_line (w : WsRow) : string :=
  "/api/" ++ ws_path w ++ "/ws" ++ (if (ws_room w =? "")%string then "" else " (rooms by " ++ ws_room w ++ ")").
Definition stream_line (x : StreamRow) : string := "/api/" ++ sr_path x ++ "/stream — events: " ++ sr_types x.
Definition upload_line (u : UploadRow) : string := "POST /api/" ++ up_path u ++ "/upload — accepts: " ++ up_types u.

Definition chapter (title : string) (l : list string) : string :=
  match l with [] => "" | _ => line title ++ line (line (Join l ToolCore.newline)) end.
Definition layer_text (api ws streams uploads : list string) : string :=
  match api, ws, streams, uploads with
  | [], [], [], [] => ""
  | _, _, _, _ => line "## Data Layer" ++ chapter "### API Endpoints" api ++ chapter "### WebSocket Endpoints" ws
                  ++ chapter "### SSE Stream Endpoints" streams ++ chapter "### Upload Endpoints" uploads
  end.
Definition BuildDataLayerSummary : T PromptView string :=
  api ← rows_of (fun s => map (api_line s) (order_by ar_path (st_api (pv_store s))));
  ws ← rows_of (fun s => map ws_line (scan (st_ws (pv_store s))));
  streams ← rows_of (fun s => map stream_line (scan (st_stream (pv_store s))));
  uploads ← rows_of (fun s => map upload_line (scan (st_upload (pv_store s))));
  mret (layer_text api ws streams uploads).

(** ** prompts.go: what is loaded *)

Definition site_row (siteID : Z) s : option Site := List.find (fun x => (st_id x =? siteID)%Z) (pv_sites s).
(** [loadSiteContext]: name, mode and description. *)
Definition loadSiteContext (siteID : Z) : T PromptView (option (string * string * string)) :=
  r ← load (site_row siteID);
  mret (match r with Ok (Some x) => Some (st_name x, st_mode x, default "" (st_description x)) | _ => None end).

Definition loadRecentErrors : T PromptView (list string) :=
  loadRows (fun s => firstn 5 (newest bl_created (List.filter (fun l => (bl_type l =? "error")%string && negb (bl_summary l =? "")%string) (pv_log s))))
    (fun l => if (bl_summary l =? "")%string then None else Some (bl_summary l)).

(** The visits since [datetime('now', '-7 days')]. *)
Definition recent_visits (t : time) s : list VisitRow :=
  List.filter (fun v => string_leb (stamp_text (t - 7 * day)) (stamp_text (an_created v))) (pv_visits s).
Definition loadAnalyticsSummary : T PromptView string :=
  t ← lift now;
  r ← load (fun s => (SiteTool.count (recent_visits t s), count_distinct (map an_hash (recent_visits t s))));
  let '(totalViews, uniqueVisitors) := match r with Ok p => p | Err _ => (0%Z, 0%Z) end in
  if (totalViews =? 0)%Z then mret ""
  else t2 ← lift now;
       topPages ← loadRows (fun s => top 5 an_path (recent_visits t2 s)) (fun g => Some (fst g ++ " (" ++ Itoa (snd g) ++ ")"));
       mret (line ("- Views: " ++ Itoa totalViews ++ ", Unique: " ++ Itoa uniqueVisitors)
             ++ match topPages with [] => "" | _ => line ("- Top: " ++ Join topPages ", ") end).

Definition manifest_page (p : Page) : option string :=
  status ← p_status p;
  let title := default "" (p_title p) in
  Some (p_path p ++ (if (title =? "")%string then "" else " " ++ quoted_name title) ++ (if (status =? "draft")%string then " [draft]" else "")).
Definition asset_list (title : string) (l : list FileRow) : string :=
  match l with [] => "" | _ => line (title ++ " assets: " ++ Join (map f_name l) ", ") end.
Definition on_page (a : FileRow) : bool := (f_scope a =? "page")%string.
Definition loadSiteManifest : T PromptView string :=
  pages ← loadRows (fun s => firstn 50 (order_by p_path (live_pages s))) manifest_page;
  assets ← rows_of (fun s => firstn 50 (order_by f_scope (order_by f_name (pv_assets s))));
  mret (match pages, assets with
        | [], [] => ""
        | _, _ => line "## Site Map" ++ (match pages with [] => "" | _ => line ("Pages: " ++ Join pages ", ") end)
                  ++ asset_list "Global" (List.filter (fun a => negb (on_page a)) assets) ++ asset_list "Page" (List.filter on_page assets)
                  ++ ToolCore.newline
        end).

Definition plan_kind (plan : Plan.Plan) : string :=
  line ("- Type: " ++ AppType plan ++ ", Architecture: " ++ Architecture plan ++ ", Auth: " ++ AuthStrategy plan).
Definition plan_sizes (plan : Plan.Plan) : string :=
  line ("- Plan: " ++ Itoa (SiteTool.count (Plan.Pages plan)) ++ " pages, " ++ Itoa (SiteTool.count (Plan.Endpoints plan)) ++ " endpoints, "
        ++ Itoa (SiteTool.count (Plan.Tables plan)) ++ " tables").
(** The plan kept in pipeline_state, where there is one that parses. *)
Definition stored_plan : T PromptView (option Plan.Plan) :=
  r ← load pv_plan;
  mret (match r with
        | Ok (Some raw) => if (raw =? "")%string then None else match ParsePlan raw with Ok p => Some p | Err _ => None end
        | _ => None
        end).
Definition listed (title : string) (l : list string) : string := match l with [] => "" | _ => line (title ++ Join l ", ") end.
Definition loadPlanSummary : T PromptView string :=
  p ← stored_plan;
  mret (match p with
        | None => ""
        | Some plan => line "## Plan Summary" ++ plan_kind plan
                       ++ listed "- Endpoints: " (map (fun ep => Action ep ++ " /api/" ++ EPath ep) (Plan.Endpoints plan))
                       ++ listed "- Tables: " (map TName (Plan.Tables plan)) ++ ToolCore.newline
        end).

(** The columns of a row of assets: the files are on the disk, and there is no column
    that holds their text. *)
Definition asset_columns (f : FileRow) : list (string * option string) :=
  [("id", Some (Itoa (f_id f))); ("filename", Some (f_name f)); ("content_type", f_type f); ("size", option_map Itoa (f_size f));
   ("storage_path", Some (f_path f)); ("alt_text", f_meta f); ("scope", Some (f_scope f)); ("created_at", Some (stamp_text (f_created f)))].
Definition asset_column (name : string) (f : FileRow) : option string :=
  match List.find (fun kv => (fst kv =? name)%string) (asset_columns f) with Some kv => snd kv | None => None end.
Definition loadGlobalCSS : T PromptView string :=
  l ← rows_of (fun s => firstn 1 (order_by f_name (List.filter (fun f => (f_scope f =? "global")%string && named_like "%.css" f) (pv_assets s))));
  mret (match l with f :: _ => default "" (asset_column "content" f) | [] => "" end).
Definition cssPromptLimit : nat := 64 * 64.
Definition css_section (css : string) : string :=
  if (css =? "")%string then ""
  else line "## CSS Reference"
       ++ line (fenced "css" (if (cssPromptLimit <? String.length css)%nat
                              then take_str cssPromptLimit css ++ ToolCore.newline ++ "/* ... truncated ... */" else css)).

(** ** prompts.go: the prompts *)

Definition owner_line (ownerName : string) : string := if (ownerName =? "")%string then "" else line ("Site owner: " ++ ownerName).
Definition described (x : Site) (f : string -> string) : string :=
  match st_description x with Some d => if (d =? "")%string then "" else f d | None => "" end.
Definition buildPlatformContracts : string := platform_contracts.

Definition buildPlanPrompt (x : Site) (ownerName answers capabilitiesRef : string) : T PromptView string :=
  date ← today;
  mret ("You are IATAN, an AI that plans and designs sites and applications. Your job is to understand what the user wants, map it to platform capabilities, and produce a complete build plan. "
    ++ line (line "Respond with ONLY a JSON object — no markdown, no explanation.")
    ++ owner_line ownerName ++ line (line ("Date: " ++ date))
    ++ line "## Site Info" ++ line ("- Name: " ++ st_name x) ++ described x (fun d => line ("- Description: " ++ quoted_name d)) ++ ToolCore.newline
    ++ (if (answers =? "")%string then "" else line "## Owner's Answers to Your Questions" ++ line (line (quoted_name answers)))
    ++ line "## Platform Capabilities Reference"
    ++ line (line "This platform can build any kind of web application. The capabilities below are your building blocks.")
    ++ capabilitiesRef ++ buildPlatformContracts ++ plan_instructions).

Definition writeSiteHeader (x : Site) (ownerName date : string) : string :=
  owner_line ownerName ++ line ("Current date: " ++ date) ++ "Site: " ++ st_name x ++ described x (fun d => " — " ++ d) ++ line ToolCore.newline.

(** [buildOrderChecklist]: the steps are counted as they are written. *)
Fixpoint numbered (step : Z) (l : list string) : string * Z :=
  match l with
  | [] => ("", step)
  | x :: r => let '(t, n) := numbered (step + 1) r in (line (Itoa step ++ ". " ++ x) ++ t, n)
  end.
Definition table_step (t : TableSpec) : string := "Create table: " ++ TName t.
Definition endpoint_step (ep : EndpointSpec) : string :=
  "Create endpoint: " ++ Action ep ++ " " ++ EPath ep ++ (if (TableName ep =? "")%string then "" else " (table: " ++ TableName ep ++ ")").
Definition page_step (pg : PageSpec) : string :=
  "Create page: " ++ Path pg ++ " (" ++ Title pg ++ ") — then immediately create its page-specific .js file (scope=" ++ quoted_name "page"
  ++ ") and list it in the page's assets array".
Definition buildOrderChecklist (plan : Plan.Plan) : string :=
  let '(tables_text, step) := numbered 1 (map table_step (Plan.Tables plan)) in
  let '(endpoints_text, step) := numbered step (map endpoint_step (Plan.Endpoints plan)) in
  let '(shared_text, step) := numbered step
    ["Create global CSS (design system)"; "Create shared JS utilities (auth, fetch helpers, etc.) with scope=" ++ quoted_name "global"; "Create layout"] in
  let '(pages_text, _) := numbered step (map page_step (Plan.Pages plan)) in
  line "## Build Order (follow this sequence)" ++ tables_text ++ endpoints_text ++ shared_text ++ pages_text ++ ToolCore.newline.

(** The design system, when it has colors. *)
Definition with_colors (plan : option Plan.Plan) (f : DesignSystem -> string) : string :=
  match plan ≫= Design with
  | Some d => match Colors d with Some m => if bool_decide (m = ∅) then "" else f d | None => "" end
  | None => ""
  end.
Definition design_contract (d : DesignSystem) : string :=
  line "## Design System Tokens (binding contract)"
  ++ line "Implement these as CSS custom properties in the global CSS file. Use them for ALL styling."
  ++ fenced "json" (MarshalIndent (enc_DesignSystem d))
  ++ line "Map colors to: --color-primary, --color-secondary, --color-bg, --color-surface, --color-text, --color-muted, etc."
  ++ line (line ("Use var(--color-*" ++ ") throughout all CSS — never hardcode hex values that duplicate a token."))
  ++ match Components d with
     | Some m => if bool_decide (m = ∅) then ""
                 else line "## Component HTML Signatures (binding contract)"
                      ++ line "You MUST use these exact HTML structures when building pages. Do NOT invent new class structures for these components."
                      ++ line (fenced "json" (MarshalIndent (enc_gmap m)))
     | None => ""
     end.
Definition plan_section (j : string) : string := line (fenced "json" j).
Definition buildBuildPrompt (plan : Plan.Plan) (x : Site) (ownerName existingManifest toolGuide : string) : T PromptView string :=
  date ← today;
  mret ("You are IATAN. Build this complete site in one session: database tables, API endpoints, CSS design system, page layout, and all pages. "
    ++ line (line "You have all tools available. Follow the build order below. When everything is built, stop calling tools.")
    ++ writeSiteHeader x ownerName date
    ++ line "## Plan" ++ plan_section (MarshalIndent (enc_Plan plan))
    ++ with_colors (Some plan) design_contract
    ++ buildOrderChecklist plan
    ++ (if (existingManifest =? "")%string then ""
        else line "## Already Built (crash recovery — do NOT recreate these)" ++ line (line existingManifest))
    ++ line (line "## Platform Contracts") ++ toolGuide ++ buildPlatformContracts ++ build_rules).

Definition buildUpdatePlanPrompt (existingPlan : option Plan.Plan) (x : option Site) (changeDescription ownerName capabilitiesRef : string) : T PromptView string :=
  date ← today;
  mret (line (line "You are IATAN, planning incremental changes to an existing site. Respond with ONLY a JSON PlanPatch object.")
    ++ owner_line ownerName ++ line (line ("Date: " ++ date))
    ++ match x with
       | Some x => line "## Site" ++ line ("- Name: " ++ st_name x) ++ described x (fun d => line ("- About: " ++ quoted_name d)) ++ ToolCore.newline
       | None => ""
       end
    ++ (if (changeDescription =? "")%string then "" else line "## Requested Changes" ++ line (line changeDescription))
    ++ line "## Current Plan" ++ plan_section (match existingPlan with Some p => MarshalIndent (enc_Plan p) | None => "" end)
    ++ line (line "## Platform Capabilities Reference") ++ capabilitiesRef ++ buildPlatformContracts ++ patch_instructions).

Definition plan_lines (plan : option Plan.Plan) : string := match plan with Some p => plan_kind p ++ plan_sizes p | None => "" end.
Definition buildMonitoringPrompt (x : Site) (plan : option Plan.Plan) (ownerName : string) : T PromptView string :=
  date ← today;
  analytics ← loadAnalyticsSummary;
  errors ← loadRecentErrors;
  manifest ← loadSiteManifest;
  mret (line (line "You are IATAN, monitoring a live website. Be brief and only act if needed.")
    ++ owner_line ownerName ++ line (line ("Current date: " ++ date))
    ++ line "## Site" ++ line ("- Name: " ++ st_name x) ++ line "- Mode: monitoring" ++ plan_lines plan ++ ToolCore.newline
    ++ (if (analytics =? "")%string then "" else line "## Analytics (Last 7 Days)" ++ line analytics)
    ++ (match errors with [] => "" | _ => line "## Recent Errors" ++ Join (map (fun e => line ("- " ++ e)) errors) "" ++ ToolCore.newline end)
    ++ manifest ++ monitoring_instructions).

Definition tokens_section (d : DesignSystem) : string := line "## Design System Tokens" ++ line (fenced "json" (MarshalIndent (enc_DesignSystem d))).
Definition buildChatWakePrompt (x : Site) (plan : option Plan.Plan) (ownerName : string) : T PromptView string :=
  date ← today;
  manifest ← loadSiteManifest;
  css ← loadGlobalCSS;
  layer ← BuildDataLayerSummary;
  mret (line "You are IATAN, responding to the site owner's message. The site is live and in monitoring mode."
    ++ line (line ("The owner" ++ (if (ownerName =? "")%string then "" else " (" ++ ownerName ++ ")") ++ " has sent you a message — read it carefully and take action if needed."))
    ++ line (line ("Current date: " ++ date))
    ++ line "## Site" ++ line ("- Name: " ++ st_name x) ++ plan_lines plan ++ ToolCore.newline
    ++ manifest ++ with_colors plan tokens_section ++ css_section css ++ layer ++ wake_instructions).

Definition buildScheduledTaskPrompt (siteID : Z) (toolGuide : string) : T PromptView string :=
  date ← today;
  x ← loadSiteContext siteID;
  planSummary ← loadPlanSummary;
  manifest ← loadSiteManifest;
  layer ← BuildDataLayerSummary;
  css ← loadGlobalCSS;
  plan ← stored_plan;
  mret (line (line "You are IATAN, executing a scheduled task. Use the available tools to complete the task described in the user message.")
    ++ line (line ("Current date: " ++ date))
    ++ match x with
       | Some (name, mode, description) =>
           line ("## Site: " ++ name ++ " (mode: " ++ mode ++ ")") ++ (if (description =? "")%string then "" else line ("- About: " ++ description)) ++ ToolCore.newline
       | None => ""
       end
    ++ planSummary ++ manifest ++ layer ++ css_section css ++ with_colors plan tokens_section
    ++ match plan with
       | Some p => match Exclusions p with
                   | [] => ""
                   | l => line "## Exclusions — do NOT create these" ++ Join (map (fun ex => line ("- " ++ ex)) l) "" ++ ToolCore.newline
                   end
       | None => ""
       end
    ++ line (line "## Platform Contracts") ++ toolGuide ++ buildPlatformContracts ++ task_instructions).

(** ** chat/prompt.go: the prompt of a chat *)

(** [ORDER BY id LIMIT 1]: the rows are kept in the order of their ids. *)
Definition first_admin s : option User := List.find (fun u => (us_role u =? "admin")%string) (pv_users s).
Definition chat_page (p : Page) : string :=
  let title := default "" (p_title p) in line ("- " ++ p_path p ++ (if (title =? "")%string then "" else " (" ++ title ++ ")")).
Definition pages_section : T PromptView string :=
  r ← load (fun s => SiteTool.count (live_pages s));
  let pageCount := match r with Ok n => n | Err _ => 0%Z end in
  if (0 <? pageCount)%Z then
    l ← load (fun s => firstn 15 (order_by p_path (live_pages s)));
    mret (line ("## Pages (" ++ Itoa pageCount ++ ")")
      ++ match l with
         | Ok l => Join (map chat_page l) "" ++ (if (15 <? pageCount)%Z then line ("- ... and " ++ Itoa (pageCount - 15) ++ " more") else "")
         | Err _ => ""
         end ++ ToolCore.newline)
  else mret "".
Definition pending_section : T PromptView string :=
  l ← rows_of (fun s => firstn 5 (List.filter (fun q => (q_status q =? "pending")%string) (pv_questions s)));
  mret (match l with
        | [] => ""
        | _ => line "## Pending Questions (awaiting owner)" ++ line (line (Join (map (fun q => "- " ++ q_question q) l) ToolCore.newline))
        end).
Definition site_section (siteID : Z) : T PromptView string :=
  r ← load (site_row siteID);
  mret (match r with
        | Ok (Some x) => line ("## Current Site: " ++ st_name x) ++ line ("Mode: " ++ st_mode x) ++ described x line ++ ToolCore.newline
        | _ => ""
        end).
Definition BuildChatSystemPrompt (siteID : Z) : T PromptView string :=
  custom ← load (fun s => default "" (pv_settings s !! "default_system_prompt"));
  date ← today;
  owner ← load (fun s => match first_admin s with Some u => us_display u | None => "" end);
  x ← site_section siteID;
  pages ← pages_section;
  layer ← BuildDataLayerSummary;
  pending ← pending_section;
  let text r := match r : res string string with Ok t => t | Err _ => "" end in
  mret ((if (text custom =? "")%string then "" else line (line (text custom)))
    ++ line (line ("Current date: " ++ date))
    ++ (if (text owner =? "")%string then "" else line (line ("The user's name is " ++ text owner ++ ". Address them by name when appropriate.")))
    ++ x ++ pages ++ layer ++ pending ++ chat_tool_guide).
End Prompts.
