(* ===== verification/PromptFacts.v ===== *)
(** * What the prompts promise

    The plan is in the prompt as it is stored; the order of the build is counted through;
    a build that is taken up again is told all there is; and what is told of a site does
    not depend on its secrets, its rows, its password columns or the hashes of its users. *)

From Stdlib Require Import ZArith Lia Ascii String List Bool.
From stdpp Require Import base list strings gmap sorting.
From S2P Require Import Plan PublicAPIFacts Prelude GoStrings GoTime JSONText PlanJSON PlanStore World ToolCore Security SiteTables ToolMonad Tables SchedulerTool Endpoints StoreFacts Pages Layout PageFacts Files FileFacts LLMTypes PublicSite PublicSiteFacts AdminDB SiteTool ReportFacts Prompts.

Local Open Scope string_scope.

(** ** The order of texts *)

Definition text_le (a b : string) : Prop := string_leb a b = true.

Lemma string_compare_trans a : forall b c, string_leb a b = true -> string_leb b c = true -> string_leb a c = true.
Proof.
  unfold string_leb. induction a as [|x a IH]; intros [|y b] [|z c]; cbn; try done.
  unfold Ascii.compare. destruct (N.compare_spec (N_of_ascii x) (N_of_ascii y)) as [H|H|H];
    destruct (N.compare_spec (N_of_ascii y) (N_of_ascii z)) as [H'|H'|H']; try done; intros H1 H2.
  - rewrite (proj2 (N.compare_eq_iff _ _)) by congruence. by apply (IH b c).
  - rewrite (proj2 (N.compare_lt_iff _ _)) by lia. done.
  - rewrite (proj2 (N.compare_lt_iff _ _)) by lia. done.
  - rewrite (proj2 (N.compare_lt_iff _ _)) by lia. done.
Qed.

#[export] Instance text_le_preorder : PreOrder text_le.
Proof. split; [intros a; destruct (String.leb_total a a); done|intros a b c; apply string_compare_trans]. Qed.
#[export] Instance text_le_antisymm : AntiSymm eq text_le.
Proof. intros a b. apply String.leb_antisym. Qed.

Section OrderBy.
Context {A} (key : A -> string).

Lemma insert_by_perm x l : insert_by key x l ≡ₚ x :: l.
Proof. induction l as [|y l IH]; [done|]. cbn. destruct (string_leb _ _); [done|]. rewrite IH. by constructor. Qed.

Lemma order_by_perm l : order_by key l ≡ₚ l.
Proof. induction l as [|x l IH]; [done|]. cbn. by rewrite insert_by_perm, IH. Qed.

Lemma insert_by_sorted x l : StronglySorted (fun a b => text_le (key a) (key b)) l ->
  StronglySorted (fun a b => text_le (key a) (key b)) (insert_by key x l).
Proof.
  induction 1 as [|y l Hl IH Hy]; cbn; [by repeat constructor|]. destruct (string_leb (key x) (key y)) eqn:Hxy.
  - constructor; [by constructor|]. constructor; [done|]. eapply Forall_impl; [exact Hy|]. intros z Hz. by etrans.
  - constructor; [done|]. rewrite insert_by_perm. constructor; [|done]. destruct (String.leb_total (key x) (key y)) as [H|H]; [|done].
    unfold string_leb in Hxy. unfold String.leb in H. congruence.
Qed.

Lemma order_by_sorted l : StronglySorted (fun a b => text_le (key a) (key b)) (order_by key l).
Proof. induction l as [|x l IH]; [constructor|]. by apply insert_by_sorted. Qed.
End OrderBy.

(** Sorting texts forgets the order they came in. *)
Lemma order_by_texts (l l' : list string) : l ≡ₚ l' -> order_by id l = order_by id l'.
Proof.
  intros H. apply (StronglySorted_unique text_le); [apply (order_by_sorted id)..|]. by rewrite !order_by_perm.
Qed.

(** ** Indented JSON is read back *)

Section Indented.
Local Open Scope nat_scope.
Local Open Scope string_scope.

Lemma skip_blanks d t : skip_space (Join (repeat "  " d) "" ++ t) = skip_space t.
Proof.
  induction d as [|d IH]; [done|]. destruct d as [|d]; [done|].
  change (Join (repeat "  " (S (S d))) "") with ("  " ++ Join (repeat "  " (S d)) ""). by rewrite append_assoc.
Qed.
Lemma skip_new_line d t : skip_space (new_line d ++ t) = skip_space t.
Proof. unfold new_line. rewrite append_assoc. etrans; [|apply (skip_blanks d)]. done. Qed.

Lemma parse_value_new_line n room d t : parse_value n room (new_line d ++ t) = parse_value n room t.
Proof. destruct n; [done|]. cbn [parse_value]. by rewrite skip_new_line. Qed.
Lemma parse_elems_new_line n room d t : parse_elems n room (new_line d ++ t) = parse_elems n room t.
Proof. destruct n; [done|]. cbn [parse_elems]. by rewrite parse_value_new_line. Qed.
Lemma parse_members_new_line n room d t : parse_members n room (new_line d ++ t) = parse_members n room t.
Proof. destruct n; [done|]. cbn [parse_members]. by rewrite skip_new_line. Qed.

(** The members of an array or an object, each on a line of its own. *)
Definition elem_lines (d : nat) (l : list json) : string := Join (map (indented d) l) ("," ++ new_line d).
Definition member_lines (d : nat) (m : list (string * json)) : string :=
  Join (map (fun kv => enc_string (fst kv) ++ ": " ++ indented d (snd kv)) m) ("," ++ new_line d).

Lemma Join_sep_cons x y sep (l : list string) : Join (x :: y :: l) sep = x ++ sep ++ Join (y :: l) sep.
Proof. done. Qed.

(** What is read of a value wherever it stands. *)
Definition reads_indented (j : json) : Prop := forall d n room t,
  readable room j -> stops t = true -> jsize j <= n -> parse_value n room (indented d j ++ t) = Ok (j, t).

Lemma stops_new_line d t : stops (new_line d ++ t) = true.
Proof. done. Qed.

Lemma elem_lines_read d l : Forall reads_indented l -> forall d' n room t, l <> [] ->
  foldr (fun x P => readable room x /\ P) True l -> foldr (fun x n => S (jsize x + n)) 1 l <= n ->
  parse_elems n room (elem_lines d l ++ new_line d' ++ String "]" t) = Ok (l, t).
Proof.
  unfold elem_lines. induction 1 as [|j l Hj Hl IH]; intros d' n room t Hne Hr Hn; [done|].
  destruct n as [|n]; [simpl in Hn; lia|]. destruct Hr as [Hr Hrs]. cbn [foldr] in Hn. destruct l as [|j2 l]; cbn [map].
  - change (Join [indented d j] _) with (indented d j). cbn [parse_elems]. rewrite Hj by (done || lia). cbn [res_bind].
    rewrite skip_new_line, skip_String by done. done.
  - rewrite Join_sep_cons, !append_assoc. cbn [parse_elems]. rewrite Hj by (done || lia). cbn [res_bind].
    change ("," ++ ?x) with (String "," x). rewrite skip_String, Ascii.eqb_refl by done. rewrite parse_elems_new_line.
    specialize (IH d' n room t ltac:(done) Hrs ltac:(cbn [foldr] in *; lia)). cbn [map] in IH. by rewrite IH.
Qed.

Lemma member_lines_read d m : Forall (fun kv => reads_indented (snd kv)) m -> forall d' n room t, m <> [] ->
  foldr (fun kv P => (utf8 (fst kv) /\ readable room (snd kv)) /\ P) True m -> foldr (fun kv n => S (jsize (snd kv) + n)) 1 m <= n ->
  parse_members n room (member_lines d m ++ new_line d' ++ String "}" t) = Ok (m, t).
Proof.
  unfold member_lines. induction 1 as [|[k j] m Hj Hm IH]; intros d' n room t Hne Hr Hn; [done|].
  destruct n as [|n]; [simpl in Hn; lia|]. destruct Hr as [[Hk Hr] Hrs]. cbn [foldr fst snd] in *.
  assert (forall u, stops u = true -> parse_value n room (" " ++ indented d j ++ u) = Ok (j, u)) as Hj'.
  { intros u Hu. rewrite <- (Hj d n room u) by (done || lia). by destruct n. }
  destruct m as [|kv2 m]; cbn [map fst snd].
  - change (Join [?x] _) with x. rewrite !append_assoc, enc_string_append. cbn [parse_members]. rewrite skip_opens, Ascii.eqb_refl by done.
    rewrite parse_enc_string by done. cbn [res_bind]. change (": " ++ ?x) with (String ":" (" " ++ x)).
    rewrite skip_String, Ascii.eqb_refl, Hj' by done. cbn [res_bind]. by rewrite skip_new_line, skip_String.
  - rewrite Join_sep_cons, !append_assoc, enc_string_append. cbn [parse_members]. rewrite skip_opens, Ascii.eqb_refl by done.
    rewrite parse_enc_string by done. cbn [res_bind]. change (": " ++ ?x) with (String ":" (" " ++ x)).
    rewrite skip_String, Ascii.eqb_refl, Hj' by done. cbn [res_bind]. change ("," ++ ?x) with (String "," x).
    rewrite skip_String, Ascii.eqb_refl by done. rewrite parse_members_new_line.
    specialize (IH d' n room t ltac:(done) Hrs ltac:(cbn [foldr] in *; lia)). cbn [map] in IH. by rewrite IH.
Qed.

Lemma indented_head d j room : readable room j -> exists a r, indented d j = String a r /\ opens a = true.
Proof.
  intros H. destruct (Marshal_head j room H) as (a & r & Ha & Ho). destruct j as [| | | |[|x l]|[|x m]]; try (by exists a, r);
    by eexists _, _; split; [reflexivity|].
Qed.

Lemma indented_reads j : reads_indented j.
Proof.
  induction j as [|b|lit|s|l Hl|m Hm] using json_ind'; intros d n room t Hr Ht Hn; try (by apply Marshal_reads).
  - destruct l as [|x l]; [by apply Marshal_reads|]. destruct n as [|n]; [simpl in Hn; lia|]. destruct room as [|room]; [done|].
    cbn [indented]. fold (elem_lines (S d) (x :: l)). rewrite !append_assoc. change ("[" ++ ?x) with (String "[" x). cbn [parse_value].
    rewrite skip_String by done. change (Ascii.eqb "[" "{"%char) with false. rewrite Ascii.eqb_refl, skip_new_line.
    change ("]" ++ t) with (String "]" t). destruct (elem_lines (S d) (x :: l) ++ new_line d ++ String "]" t) as [|a r] eqn:He.
    { by destruct (indented_head (S d) x room (proj1 Hr)) as (a & r & Ha & _); unfold elem_lines in He; destruct l; cbn [map] in He;
        [change (Join [?y] _) with y in He|rewrite Join_sep_cons in He]; rewrite Ha in He. }
    assert (opens a = true) as Ho.
    { destruct (indented_head (S d) x room (proj1 Hr)) as (b & r' & Hb & Ho). unfold elem_lines in He. destruct l; cbn [map] in He;
        [change (Join [?y] _) with y in He|rewrite Join_sep_cons in He]; rewrite Hb in He; by injection He as <- _. }
    rewrite skip_opens by done. assert (Ascii.eqb a "]" = false) as -> by (destruct a as [[] [] [] [] [] [] [] []]; done).
    rewrite <- He. rewrite (elem_lines_read (S d) (x :: l) Hl d n room t); [done|done|exact Hr|]. cbn [jsize] in Hn. lia.
  - destruct m as [|x m]; [by apply Marshal_reads|]. destruct n as [|n]; [simpl in Hn; lia|]. destruct room as [|room]; [done|].
    cbn [indented]. fold (member_lines (S d) (x :: m)). rewrite !append_assoc. change ("{" ++ ?x) with (String "{" x). cbn [parse_value].
    rewrite skip_String, Ascii.eqb_refl, skip_new_line by done.
    change ("}" ++ t) with (String "}" t). destruct (member_lines (S d) (x :: m) ++ new_line d ++ String "}" t) as [|a r] eqn:He.
    { unfold member_lines in He. destruct m; cbn [map] in He; [change (Join [?y] _) with y in He|rewrite Join_sep_cons in He]; done. }
    assert (a = quote) as ->.
    { unfold member_lines in He. destruct m; cbn [map] in He; [change (Join [?y] _) with y in He|rewrite Join_sep_cons in He];
        unfold enc_string in He; by injection He as <- _. }
    rewrite skip_String by done. change (Ascii.eqb quote "}"%char) with false. rewrite <- He.
    rewrite (member_lines_read (S d) (x :: m) Hm d n room t); [done|done|exact Hr|]. cbn [jsize] in Hn. lia.
Qed.

Lemma indented_longer j : forall d, String.length (Marshal j) <= String.length (indented d j).
Proof.
  induction j as [|b|lit|s|l Hl|m Hm] using json_ind'; intros d; try done.
  - destruct l as [|x l]; [done|]. cbn [Marshal indented]. rewrite !length_append.
    enough (String.length (Join (map Marshal (x :: l)) ",") <= String.length (elem_lines (S d) (x :: l))) by (unfold elem_lines in *; lia).
    revert x Hl. unfold elem_lines. induction l as [|y l IH]; intros x Hl; inversion Hl as [|? ? Hx Hr]; subst; [apply Hx|].
    specialize (IH y Hr). cbn [map] in *. rewrite Join_cons2, Join_sep_cons, !length_append. cbn [String.length]. specialize (Hx (S d)). lia.
  - destruct m as [|x m]; [done|]. cbn [Marshal indented]. rewrite !length_append.
    set (f := fun kv : string * json => enc_string (fst kv) ++ ":" ++ Marshal (snd kv)).
    set (g := fun kv : string * json => enc_string (fst kv) ++ ": " ++ indented (S d) (snd kv)).
    enough (String.length (Join (map f (x :: m)) ",") <= String.length (Join (map g (x :: m)) ("," ++ new_line (S d)))) by lia.
    assert (Forall (fun kv => String.length (f kv) <= String.length (g kv)) (x :: m)) as Hfg.
    { eapply Forall_impl; [exact Hm|]. intros kv Hkv. unfold f, g. rewrite !length_append. specialize (Hkv (S d)). cbn. lia. }
    clear Hm. revert x Hfg. induction m as [|y m IH]; intros x Hl; inversion Hl as [|? ? Hx Hr]; subst; [apply Hx|].
    specialize (IH y Hr). cbn [map] in *. rewrite Join_cons2, Join_sep_cons, !length_append. cbn [String.length]. lia.
Qed.

Lemma Unmarshal_indented j : readable max_depth j -> Unmarshal (MarshalIndent j) = Ok j.
Proof.
  intros H. unfold Unmarshal, MarshalIndent. pose proof (jsize_le j) as Hs. pose proof (indented_longer j 0) as Hl.
  rewrite <- (append_nil_r (indented 0 j)) at 2. by rewrite (indented_reads j 0 _ max_depth "") by (done || lia).
Qed.
End Indented.

(** ** Handlers that do not see a difference *)

Section Blind.
Context {S : Type} (R : S -> S -> Prop).

Definition blind {A} (m : T S A) : Prop := forall c c', cw c = cw c' -> R (cs c) (cs c') ->
  fst (m c) = fst (m c') /\ cw (snd (m c)) = cw (snd (m c')) /\ R (cs (snd (m c))) (cs (snd (m c'))).

Lemma blind_ret {A} (a : A) : blind (mret a).
Proof. by intros c c'. Qed.
Lemma blind_bind {A B} (m : T S A) (k : A -> T S B) : blind m -> (forall a, blind (k a)) -> blind (m ≫= k).
Proof.
  intros Hm Hk c c' Hw Hr. destruct (Hm c c' Hw Hr) as (H1 & H2 & H3). unfold mbind, T_bind.
  destruct (m c) as [[a|x] d], (m c') as [[a'|x'] d']; cbn in *; try done; injection H1 as <-; [by apply Hk|done].
Qed.
Lemma blind_load `{E : Env} {A} (f : S -> A) : (forall s s', R s s' -> f s = f s') -> blind (load f).
Proof. intros Hf c c' Hw Hr. unfold load. cbn. rewrite Hw. split; [|done]. destruct (load_fails _); [done|]. by rewrite (Hf _ _ Hr). Qed.
Lemma blind_lift {A} (m : M A) : blind (lift m).
Proof. intros c c' Hw Hr. unfold lift. rewrite Hw. by destruct (m (cw c')). Qed.
End Blind.

Ltac blind_tac :=
  repeat (cbv beta zeta; lazymatch goal with
    | |- blind _ (mbind _ _) => apply blind_bind; [|intros ?]
    | |- blind _ (mret _) => apply blind_ret
    | |- blind _ (lift _) => apply blind_lift
    | |- blind _ (match ?x with _ => _ end) => destruct x
    | |- blind _ _ => solve [eauto with blind]
    end).
Create HintDb blind.

(** ** What of a site may differ *)

Section Alike.
Context `{C : Crypto} `{Q : SQL} `{O : MapOrder} `{E : Env} `{F : Formats} `{W : Newest} `{SC : TableScan}.

(** Two schemas that differ in their password columns at most. *)
Definition visible (m : gmap string string) : gmap string string := filter (fun kv => EqualFold kv.2 "PASSWORD" = false) m.
Definition schema_alike (a b : string) : Prop :=
  a = b \/ (a <> "" /\ a <> "{}" /\ b <> "" /\ b <> "{}" /\
            exists m m', schema_columns a = Some m /\ schema_columns b = Some m' /\ visible m = visible m').

(** Two sites with the same columns, pages, files, plans and questions: their rows and
    secrets may differ, and the names and passwords of the users. *)
Record looks_alike (s s' : PromptView) : Prop := {
  la_info : forall n, table_info n (st_user (pv_store s)) = table_info n (st_user (pv_store s'));
  la_schemas : Forall2 (fun d d' => dt_name d = dt_name d' /\ schema_alike (dt_schema d) (dt_schema d')) (st_dynamic (pv_store s)) (st_dynamic (pv_store s'));
  la_api : st_api (pv_store s) = st_api (pv_store s');
  la_auth : st_auth (pv_store s) = st_auth (pv_store s');
  la_ws : st_ws (pv_store s) = st_ws (pv_store s');
  la_streams : st_stream (pv_store s) = st_stream (pv_store s');
  la_uploads : st_upload (pv_store s) = st_upload (pv_store s');
  la_pages : pv_pages s = pv_pages s';
  la_layouts : pv_layouts s = pv_layouts s';
  la_assets : pv_assets s = pv_assets s';
  la_visits : pv_visits s = pv_visits s';
  la_log : pv_log s = pv_log s';
  la_questions : pv_questions s = pv_questions s';
  la_plan : pv_plan s = pv_plan s';
  la_sites : pv_sites s = pv_sites s';
  la_users : Forall2 (fun u u' => us_role u = us_role u' /\ us_display u = us_display u') (pv_users s) (pv_users s');
  la_settings : pv_settings s = pv_settings s';
}.

Lemma entries_NoDup {A} (m : gmap string A) : NoDup (entries m).*1.
Proof. rewrite entries_perm. apply NoDup_fst_map_to_list. Qed.

Lemma shown_spec cols c : c ∈ shown_fields cols <-> exists t, visible cols !! c = Some t.
Proof.
  unfold shown_fields, visible. rewrite order_by_perm. rewrite list_elem_of_In, in_map_iff. split.
  - intros ([k t] & <- & [Hin Ht]%filter_In). exists t. apply map_lookup_filter_Some. split; [|by apply negb_true_iff in Ht].
    apply elem_of_map_to_list. rewrite <- entries_perm. by apply list_elem_of_In.
  - intros [t [Hc Ht]%map_lookup_filter_Some]. exists (c, t). split; [done|]. apply filter_In. split; [|by apply negb_true_iff].
    apply list_elem_of_In. rewrite entries_perm. by apply elem_of_map_to_list.
Qed.

Lemma shown_NoDup cols : NoDup (shown_fields cols).
Proof.
  unfold shown_fields. rewrite order_by_perm. pose proof (entries_NoDup cols) as H. induction (entries cols) as [|[k t] l IH]; [constructor|].
  cbn [fmap list_fmap] in H. inversion H as [|? ? Hk Hl]; subst. cbn [List.filter]. destruct (negb _); [|by apply IH].
  cbn [map fst]. constructor; [|by apply IH]. intros (kv & Hkv & [Hin _]%filter_In)%list_elem_of_In%in_map_iff. apply Hk. cbn.
  rewrite list_elem_of_fmap. exists kv. split; [done|]. by apply list_elem_of_In.
Qed.

Lemma shown_visible m m' : visible m = visible m' -> shown_fields m = shown_fields m'.
Proof.
  intros H. apply (StronglySorted_unique text_le); [apply (order_by_sorted id)..|]. apply NoDup_Permutation; [apply shown_NoDup..|].
  intros c. by rewrite !shown_spec, H.
Qed.

Lemma fields_alike a b : schema_alike a b -> fields_text a = fields_text b.
Proof.
  intros [->|(H1%String.eqb_neq & H2%String.eqb_neq & H3%String.eqb_neq & H4%String.eqb_neq & m & m' & Hm & Hm' & H)]; [done|].
  unfold fields_text. rewrite H1, H2, H3, H4, Hm, Hm'. cbn [orb]. by rewrite (shown_visible m m' H).
Qed.

Lemma names_ordered {A} (key : A -> string) l : map key (order_by key l) = order_by id (map key l).
Proof.
  induction l as [|x l IH]; [done|]. cbn [order_by foldr map]. fold (order_by key l). fold (order_by (@id string) (map key l)). rewrite <- IH.
  generalize (order_by key l). intros r. induction r as [|y r IHr]; [done|]. cbn. destruct (string_leb _ _); [done|]. cbn. by rewrite IHr.
Qed.

Section Related.
Context (s s' : PromptView) (H : looks_alike s s').

Lemma dynamic_alike : dynamic_names s = dynamic_names s'.
Proof.
  unfold dynamic_names. rewrite !names_ordered. f_equal. pose proof (la_schemas _ _ H) as Hf. induction Hf as [|d d' l l' [Hd _] Hl IH]; [done|].
  cbn. by rewrite Hd, IH.
Qed.
Lemma pragma_alike n : pragma_rows n s = pragma_rows n s'.
Proof. unfold pragma_rows. by rewrite (la_info _ _ H). Qed.
Lemma schema_def_alike n : fields_text (schema_def_of s n) = fields_text (schema_def_of s' n).
Proof.
  unfold schema_def_of. pose proof (la_schemas _ _ H) as Hf. induction Hf as [|d d' l l' [Hd Hs] Hl IH]; [done|].
  cbn [List.find]. rewrite Hd. destruct (_ =? _)%string; [by apply fields_alike|done].
Qed.
Lemma api_lines_alike : map (api_line s) (order_by ar_path (st_api (pv_store s))) = map (api_line s') (order_by ar_path (st_api (pv_store s'))).
Proof. rewrite (la_api _ _ H). apply map_ext. intros a. unfold api_line. by rewrite schema_def_alike. Qed.
Lemma owner_alike : match first_admin s with Some u => us_display u | None => "" end = match first_admin s' with Some u => us_display u | None => "" end.
Proof.
  unfold first_admin. pose proof (la_users _ _ H) as Hf. induction Hf as [|u u' l l' [Hr Hd] Hl IH]; [done|].
  cbn [List.find]. rewrite Hr. by destruct (_ =? _)%string.
Qed.
End Related.

Ltac alike_tac := let s := fresh "s" in let s' := fresh "s'" in let H := fresh "H" in intros s s' H; cbv beta;
  unfold site_row, live_pages, recent_visits;
  first [by rewrite (dynamic_alike s s' H)|by rewrite (pragma_alike s s' H)|by rewrite (api_lines_alike s s' H)|by rewrite (owner_alike s s' H)
        |destruct H; congruence].
#[local] Hint Extern 1 (blind looks_alike (load _)) => apply blind_load; solve [alike_tac] : blind.

Lemma blind_rows {A} (f : PromptView -> list A) : (forall s s', looks_alike s s' -> f s = f s') -> blind looks_alike (rows_of f).
Proof. intros Hf. apply blind_bind; [by apply blind_load|]. intros r. apply blind_ret. Qed.
Lemma blind_loadRows {A B} (f : PromptView -> list A) (g : A -> option B) :
  (forall s s', looks_alike s s' -> f s = f s') -> blind looks_alike (loadRows f g).
Proof. intros Hf. apply blind_bind; [by apply blind_load|]. intros r. apply blind_ret. Qed.
#[local] Hint Extern 1 (blind looks_alike (rows_of _)) => apply blind_rows; solve [alike_tac] : blind.
#[local] Hint Extern 1 (blind looks_alike (loadRows _ _)) => apply blind_loadRows; solve [alike_tac] : blind.

Lemma blind_each {A B} (f : A -> T PromptView B) l : (forall x, blind looks_alike (f x)) -> blind looks_alike (each f l).
Proof. intros Hf. induction l as [|x l IH]; cbn [each]; blind_tac. Qed.

Lemma blind_summary : blind looks_alike BuildDataLayerSummary.
Proof. unfold BuildDataLayerSummary. blind_tac. Qed.
Lemma blind_manifest : blind looks_alike loadSiteManifest.
Proof. unfold loadSiteManifest. blind_tac. Qed.
Lemma blind_css : blind looks_alike loadGlobalCSS.
Proof. unfold loadGlobalCSS. blind_tac. Qed.
Lemma blind_plan : blind looks_alike stored_plan.
Proof. unfold stored_plan. blind_tac. Qed.
Lemma blind_today : blind looks_alike today.
Proof. unfold today. blind_tac. Qed.
#[local] Hint Resolve blind_summary blind_manifest blind_css blind_plan blind_today : blind.

Lemma blind_analytics : blind looks_alike loadAnalyticsSummary.
Proof. unfold loadAnalyticsSummary. blind_tac. Qed.
Lemma blind_errors : blind looks_alike loadRecentErrors.
Proof. unfold loadRecentErrors. blind_tac. Qed.
Lemma blind_plan_summary : blind looks_alike loadPlanSummary.
Proof. unfold loadPlanSummary. blind_tac. Qed.
Lemma blind_site siteID : blind looks_alike (loadSiteContext siteID).
Proof. unfold loadSiteContext. blind_tac. Qed.
Lemma blind_sections siteID : blind looks_alike (site_section siteID) /\ blind looks_alike pages_section /\ blind looks_alike pending_section.
Proof. split; [|split]; unfold site_section, pages_section, pending_section; blind_tac. Qed.
Lemma blind_crash : blind looks_alike buildCrashRecoveryManifest.
Proof.
  unfold buildCrashRecoveryManifest, extractSchemaManifest, extractEndpointManifest.
  repeat (blind_tac; try (apply blind_each; intros ?; unfold getTableColumnsTyped, api_manifest, getTableColumns)).
Qed.
End Alike.


(** ** Texts within texts *)

Definition mentions (text t : string) : Prop := exists a b, text = a ++ t ++ b.

Lemma mentions_self t : mentions t t.
Proof. exists "", "". by rewrite append_nil_r. Qed.
Lemma mentions_l t u x : mentions t x -> mentions (t ++ u) x.
Proof. intros (a & b & ->). exists a, (b ++ u). by rewrite !append_assoc. Qed.
Lemma mentions_r t u x : mentions u x -> mentions (t ++ u) x.
Proof. intros (a & b & ->). exists (t ++ a), b. by rewrite !append_assoc. Qed.
Lemma mentions_Join l sep x : In x l -> mentions (Join l sep) x.
Proof.
  induction l as [|y l IH]; [done|]. intros [->|H]; destruct l as [|z l]; [apply mentions_self|rewrite Join_sep_cons; apply mentions_l, mentions_self|done|].
  rewrite Join_sep_cons. by apply mentions_r, mentions_r, IH.
Qed.
Lemma mentions_trans t u x : mentions t u -> mentions u x -> mentions t x.
Proof. intros (a & b & ->) H. by apply mentions_r, mentions_l. Qed.
Lemma mentions_part title sep l x parts : In x l -> (forall p, In p (part title sep l) -> In p parts) -> forall header, mentions (header ++ Join parts ToolCore.newline) x.
Proof.
  intros Hx Hp header. destruct l as [|y l]; [done|]. apply mentions_r. eapply mentions_trans; [apply mentions_Join, Hp; by left|].
  apply mentions_r, mentions_r, mentions_Join, Hx.
Qed.

(** ** A build that is taken up again *)

Section Resume.
Context `{C : Crypto} `{Q : SQL} `{O : MapOrder} `{E : Env} `{K : !Calm} `{F : Formats}.
Implicit Types (s : PromptView).

(** [m] reads [v] and leaves the store alone. *)
Definition gives {A} (m : T PromptView A) s (v : A) : Prop := forall (Q : A -> PromptView -> Prop) X, Q v s -> wp s m Q X.

Lemma omap_total {A B} (g : A -> B) l : omap (fun x => Some (g x)) l = map g l.
Proof. induction l as [|x l IH]; [done|]. cbn. by rewrite IH. Qed.

Lemma gives_rows {A} (f : PromptView -> list A) s : gives (rows_of f) s (f s).
Proof.
  intros P X H. apply wp_bind, wp_load_calm, wp_ret. rewrite (omap_total (fun x => x)). by rewrite map_id.
Qed.
Lemma gives_bind {A B} (m : T PromptView A) (k : A -> T PromptView B) s v u : gives m s v -> gives (k v) s u -> gives (m ≫= k) s u.
Proof. intros Hm Hk P X H. apply wp_bind, Hm, Hk, H. Qed.
Lemma gives_each {A B} (f : A -> T PromptView B) (g : A -> B) l s : (forall x, gives (f x) s (g x)) -> gives (each f l) s (map g l).
Proof.
  intros Hf. induction l as [|x l IH]; [intros P X H; by apply wp_ret|]. cbn [each map]. eapply gives_bind; [apply Hf|].
  eapply gives_bind; [apply IH|]. intros P X H. by apply wp_ret.
Qed.

Lemma gives_columns n s : gives (getTableColumnsTyped n) s (map (fun c => {| mc_Name := fst c; mc_Type := snd c |}) (pragma_rows n s)).
Proof.
  intros P X H. apply wp_bind, wp_load_calm, wp_ret. by rewrite omap_total.
Qed.

(** The tables and endpoints there are. *)
Definition built_tables s : list ManifestTable :=
  map (fun n => {| mt_Name := n; mt_Columns := map (fun c => {| mc_Name := fst c; mc_Type := snd c |}) (pragma_rows n s) |}) (dynamic_names s).
Definition built_api s (a : ApiRow) : ManifestAPI :=
  {| ma_Path := ar_path a; ma_Table := ar_table a; ma_Columns := map fst (entries (go_map (map (fun c => (fst c, true)) (pragma_rows (ar_table a) s))));
     ma_Methods := ar_methods a; ma_PublicColumns := public_columns (ar_columns a); ma_RequiresAuth := ar_auth a; ma_PublicRead := ar_read a |}.
Definition built_endpoints s : EndpointManifest :=
  {| em_API := map (built_api s) (order_by ar_path (st_api (pv_store s)));
     em_Auth := map (fun a => {| mu_Path := au_path a; mu_Table := au_table a; mu_UsernameColumn := au_username a |}) (order_by au_path (st_auth (pv_store s)));
     em_WS := map (fun w => {| mw_Path := ws_path w; mw_Table := ws_table w |}) (order_by ws_path (st_ws (pv_store s)));
     em_Stream := map (fun x => {| mw_Path := sr_path x; mw_Table := "" |}) (order_by sr_path (st_stream (pv_store s)));
     em_Upload := map (fun u => {| mw_Path := up_path u; mw_Table := up_table u |}) (order_by up_path (st_upload (pv_store s))) |}.

Lemma gives_schema s : gives extractSchemaManifest s (Ok (built_tables s)).
Proof.
  intros P X H. apply wp_bind, wp_load_calm. apply wp_bind. eapply (gives_each _ (fun n => {| mt_Name := n; mt_Columns := _ |})); [|by apply wp_ret].
  intros n. eapply gives_bind; [apply gives_columns|]. intros P' X' H'. by apply wp_ret.
Qed.
Lemma gives_endpoints s : gives extractEndpointManifest s (built_endpoints s).
Proof.
  unfold extractEndpointManifest. eapply gives_bind; [apply gives_rows|]. eapply gives_bind.
  { apply (gives_each _ (built_api s)). intros a. unfold api_manifest, getTableColumns. eapply gives_bind.
    - eapply gives_bind; [apply gives_rows|]. intros P X H. apply wp_ret, H.
    - intros P X H. by apply wp_ret. }
  do 4 (eapply gives_bind; [apply gives_rows|]). intros P X H. by apply wp_ret.
Qed.

Definition css_files s : list FileRow := List.filter (named_like "%.css") (pv_assets s).
Definition manifest_parts s : list string :=
  (part "Tables" "; " (map table_entry (built_tables s)) ++ part "Endpoints" "; " (endpoint_entries (built_endpoints s))
   ++ part "Pages" "; " (map page_entry (order_by p_path (live_pages s))) ++ part "Layouts" ", " (map l_name (order_by l_name (pv_layouts s)))
   ++ part "CSS" ", " (map f_name (order_by f_name (css_files s))))%list.

Lemma gives_manifest s : gives buildCrashRecoveryManifest s
  (match manifest_parts s with
   | [] => ""
   | _ => line "## Already Built (resume from here — do NOT recreate these)" ++ Join (manifest_parts s) ToolCore.newline
   end).
Proof.
  unfold buildCrashRecoveryManifest. eapply gives_bind; [apply gives_schema|]. eapply gives_bind; [apply gives_endpoints|].
  do 3 (eapply gives_bind; [apply gives_rows|]). intros P X H. cbv zeta. apply wp_ret. exact H.
Qed.

Definition nothing_built s : Prop :=
  st_dynamic (pv_store s) = [] /\ st_api (pv_store s) = [] /\ st_auth (pv_store s) = [] /\ st_ws (pv_store s) = [] /\ st_stream (pv_store s) = [] /\
  st_upload (pv_store s) = [] /\ live_pages s = [] /\ pv_layouts s = [] /\ css_files s = [].

Lemma app_nil_iff {A} (l k : list A) : (l ++ k)%list = [] <-> l = [] /\ k = [].
Proof. destruct l; cbn; split; [done|by intros [_ ->]|done|by intros [[=] _]]. Qed.
Lemma map_nil_iff {A B} (f : A -> B) l : map f l = [] <-> l = [].
Proof. by destruct l. Qed.
Lemma part_nil title sep l : part title sep l = [] <-> l = [].
Proof. by destruct l. Qed.
Lemma order_by_nil {A} (key : A -> string) l : order_by key l = [] <-> l = [].
Proof. split; [|by intros ->]. intros H. pose proof (order_by_perm key l) as Hp. rewrite H in Hp. by apply Permutation_nil_l in Hp. Qed.
Lemma order_by_in {A} (key : A -> string) x l : In x l -> In x (order_by key l).
Proof. intros H. apply list_elem_of_In. rewrite order_by_perm. by apply list_elem_of_In. Qed.

Lemma in_ordered {A B} (key : A -> string) (f : A -> B) (g : B -> string) x y l : In x l -> y = g (f x) -> In y (map g (map f (order_by key l))).
Proof. intros H ->. by apply in_map, in_map, order_by_in. Qed.

Lemma parts_nil s : manifest_parts s = [] <-> nothing_built s.
Proof.
  unfold manifest_parts, nothing_built, built_tables, dynamic_names, endpoint_entries, built_endpoints. cbn [em_API em_Auth em_WS em_Stream em_Upload].
  repeat first [rewrite app_nil_iff|rewrite part_nil|rewrite map_nil_iff|rewrite order_by_nil]. tauto.
Qed.
End Resume.

(** C35. A build that is taken up again is told what there is.  Where the reads work the
    manifest is empty exactly when nothing is built yet, so that the model is asked to
    resume exactly when there is something; and then it names every table with all its
    columns, every endpoint with its table, every page that is not deleted with its title,
    every layout and every stylesheet. *)
Theorem resume_told `{C : Crypto} `{Q : SQL} `{O : MapOrder} `{E : Env} `{K : !Calm} `{F : Formats} s :
  wp s buildCrashRecoveryManifest (fun m s' => s' = s /\ (m = "" <-> nothing_built s) /\
      (forall d, In d (st_dynamic (pv_store s)) -> mentions m (dt_name d ++ "(" ++ Join (map fst (pragma_rows (dt_name d) s)) "," ++ ")")) /\
      (forall a, In a (st_api (pv_store s)) -> mentions m ("API:" ++ ar_path a ++ "→" ++ ar_table a)) /\
      (forall a, In a (st_auth (pv_store s)) -> mentions m ("Auth:" ++ au_path a ++ "→" ++ au_table a)) /\
      (forall w, In w (st_ws (pv_store s)) -> mentions m ("WS:" ++ ws_path w)) /\
      (forall x, In x (st_stream (pv_store s)) -> mentions m ("Stream:" ++ sr_path x)) /\
      (forall u, In u (st_upload (pv_store s)) -> mentions m ("Upload:" ++ up_path u)) /\
      (forall p, In p (pv_pages s) -> p_deleted p = false -> mentions m (page_entry p)) /\
      (forall l, In l (pv_layouts s) -> mentions m (l_name l)) /\
      (forall f, In f (pv_assets s) -> named_like "%.css" f = true -> mentions m (f_name f)))
    (fun _ _ => False).
Proof.
  apply gives_manifest. split; [done|]. set (m := match manifest_parts s with [] => _ | _ => _ end). pose proof (parts_nil s) as Hn. split.
  { unfold m. rewrite <- Hn. by destruct (manifest_parts s). }
  assert (forall title sep l x, In x l -> (forall p, In p (part title sep l) -> In p (manifest_parts s)) -> mentions m x) as Hp.
  { intros title sep l x Hx Hin. pose proof (mentions_part title sep l x (manifest_parts s) Hx Hin) as H. unfold m.
    destruct (manifest_parts s) as [|y r] eqn:Hr; [|apply H]. destruct l as [|z l]; [done|]. destruct (Hin _ (or_introl eq_refl)). }
  assert (forall x, In x (endpoint_entries (built_endpoints s)) -> mentions m x) as He.
  { intros x Hx. apply (Hp "Endpoints" "; " _ x Hx). intros p Hin. unfold manifest_parts. rewrite !in_app_iff. tauto. }
  unfold endpoint_entries in He.  unfold built_endpoints in He. cbn [em_API em_Auth em_WS em_Stream em_Upload] in He.
  split_and!.
  - intros d Hd. apply (Hp "Tables" "; " (map table_entry (built_tables s))).
    + apply in_map_iff. eexists. split; [|apply in_map_iff; exists (dt_name d); split; [reflexivity|by apply in_map, order_by_in]].
      unfold table_entry. cbn [mt_Name mt_Columns]. by rewrite map_map.
    + intros p Hin. unfold manifest_parts. rewrite !in_app_iff. tauto.
  - intros a Ha. apply He. rewrite !in_app_iff. left. by eapply in_ordered.
  - intros a Ha. apply He. rewrite !in_app_iff. right. left. by eapply in_ordered.
  - intros w Hw. apply He. rewrite !in_app_iff. right. right. left. by eapply in_ordered.
  - intros x Hx. apply He. rewrite !in_app_iff. do 3 right. left. by eapply in_ordered.
  - intros u Hu. apply He. rewrite !in_app_iff. do 4 right. by eapply in_ordered.
  - intros p Hin Hd. apply (Hp "Pages" "; " (map page_entry (order_by p_path (live_pages s)))).
    + apply in_map, order_by_in, filter_In. by rewrite Hd.
    + intros q Hq. unfold manifest_parts. rewrite !in_app_iff. tauto.
  - intros l Hl. apply (Hp "Layouts" ", " (map l_name (order_by l_name (pv_layouts s)))); [by apply in_map, order_by_in|].
    intros q Hq. unfold manifest_parts. rewrite !in_app_iff. tauto.
  - intros f Hf Hc. apply (Hp "CSS" ", " (map f_name (order_by f_name (css_files s)))); [by apply in_map, order_by_in, filter_In|].
    intros q Hq. unfold manifest_parts. rewrite !in_app_iff. tauto.
Qed.

(** ** The prompt of the build *)

(** The steps of the build, in order. *)
Definition build_steps (p : Plan.Plan) : list string :=
  (map table_step (Plan.Tables p) ++ map endpoint_step (Plan.Endpoints p)
   ++ ["Create global CSS (design system)"; ("Create shared JS utilities (auth, fetch helpers, etc.) with scope=" ++ quoted_name "global")%string; "Create layout"]
   ++ map page_step (Plan.Pages p))%list.
Definition step_lines (n : Z) (l : list string) : string := Join (imap (fun i x => line (Itoa (n + Z.of_nat i) ++ ". " ++ x)) l) "".

Lemma Join_append (l k : list string) : Join (l ++ k)%list "" = Join l "" ++ Join k "".
Proof.
  induction l as [|x l IH]; [done|]. destruct l as [|y l]; [|change (Join ((x :: y :: l) ++ k)%list "") with (x ++ Join ((y :: l) ++ k)%list ""); rewrite IH; by rewrite <- append_assoc].
  destruct k as [|y k]; [cbn; by rewrite append_nil_r|done].
Qed.

Lemma step_lines_app n l k : step_lines n (l ++ k) = step_lines n l ++ step_lines (n + Z.of_nat (List.length l)) k.
Proof.
  unfold step_lines. rewrite imap_app, Join_append. f_equal. f_equal. apply imap_ext. intros i x _. cbn. do 2 f_equal. f_equal. lia.
Qed.

Lemma numbered_spec l : forall n, numbered n l = (step_lines n l, (n + Z.of_nat (List.length l))%Z).
Proof.
  induction l as [|x l IH]; intros n; cbn [numbered]; [by rewrite Z.add_0_r|]. rewrite IH. f_equal; [|cbn [List.length]; lia].
  change (x :: l) with ([x] ++ l)%list. rewrite step_lines_app. f_equal. unfold step_lines. cbn. by rewrite Z.add_0_r.
Qed.

Lemma checklist_counts p : buildOrderChecklist p =
  line "## Build Order (follow this sequence)" ++ step_lines 1 (build_steps p) ++ ToolCore.newline.
Proof.
  unfold buildOrderChecklist, build_steps. rewrite !numbered_spec. rewrite !step_lines_app, !append_assoc. cbn [List.length]. done.
Qed.

(** The build is given the plan, the order and what is there.  The prompt of the build
    holds the plan as JSON that is read back to the plan itself, whatever its texts are;
    the steps tables, endpoints, styles, scripts, layout and pages, counted from one
    without a gap; and, when there is one, the manifest of what is built. *)
Theorem build_prompt_whole `{C : Crypto} `{Q : SQL} `{E : Env} p x owner manifest guide v : storable p -> readable max_depth (enc_Plan p) ->
  wp v (buildBuildPrompt p x owner manifest guide) (fun text v' => v' = v /\
      (exists j, mentions text (line "## Plan" ++ line (fenced "json" j)) /\ res_bind (Unmarshal j) dec_Plan = Ok p) /\
      mentions text (line "## Build Order (follow this sequence)" ++ step_lines 1 (build_steps p) ++ ToolCore.newline) /\
      (manifest <> "" -> mentions text manifest))
    (fun _ _ => False).
Proof.
  intros Hp Hr. unfold buildBuildPrompt, today. apply wp_bind, wp_bind, wp_lift. intros t. apply wp_ret, wp_ret. split; [done|].
  rewrite <- checklist_counts. split; [|split].
  - exists (MarshalIndent (enc_Plan p)). split; [|rewrite Unmarshal_indented by done; by apply dec_enc_Plan].
    do 3 apply mentions_r. rewrite <- append_assoc. apply mentions_l, mentions_self.
  - do 6 apply mentions_r. apply mentions_l, mentions_self.
  - intros Hm%String.eqb_neq. do 7 apply mentions_r. apply mentions_l. rewrite Hm. apply mentions_r, mentions_l, mentions_l, mentions_self.
Qed.

(** The styles of a site never reach a prompt: the column they are asked from is none of
    the table's. *)
Lemma css_never_told `{Q : SQL} `{E : Env} s : wp s loadGlobalCSS (fun css s' => css = "" /\ s' = s) (fun _ _ => False).
Proof.
  unfold loadGlobalCSS, rows_of, loadRows. apply wp_bind, wp_bind, wp_load; [|intros e]; apply wp_ret, wp_ret; [|done]. split; [|done].
  by destruct (omap Some _) as [|f l].
Qed.

(** ** Witnesses *)

Module PromptSample.
#[export] Existing Instances ApiSample.crypto ApiSample.order ToolSample.once digit_floats ToolSample.env ReportSample.by_key SiteSample.in_order.
#[export] Instance calm : Calm.
Proof. by split. Qed.

Definition table (schema : string) : DynRow := {| dt_id := 1; dt_name := "users"; dt_schema := schema; dt_secure := None; dt_created := 0 |}.
Definition api : ApiRow :=
  {| ar_id := 1; ar_path := "people"; ar_table := "users"; ar_methods := dq "['GET']"; ar_columns := None; ar_auth := true; ar_read := false;
     ar_role := None; ar_rate := 0; ar_created := 0 |}.
Definition owner_of (hash : string) : User :=
  {| us_id := 1; us_username := hash; us_hash := hash; us_display := "Ann"; us_role := "admin"; us_created := 0; us_updated := 0 |}.
Definition shop : Site :=
  {| st_id := 7; st_name := "Shop"; st_domain := None; st_description := Some "Tea"; st_model := 1; st_status := "active"; st_mode := "monitoring"; st_config := "{}";
     st_created := 0; st_updated := 0 |}.

(** A site with rows, a schema, secrets and a hash of its own. *)
Definition view (rows : list string) (schema : string) (secrets : gmap string string) (hash : string) : PromptView :=
  {| pv_store := {| st_user := rows; st_dynamic := [table schema]; st_api := [api]; st_auth := []; st_upload := []; st_stream := []; st_ws := [];
                    st_oauth := []; st_secrets := secrets; st_sent := [] |};
     pv_pages := [ReportSample.home]; pv_layouts := sw_layouts ReportSample.view; pv_assets := sw_assets ReportSample.view;
     pv_visits := sw_visits ReportSample.view; pv_log := []; pv_questions := []; pv_plan := Some (marshalToJSON sample_plan);
     pv_sites := [shop]; pv_users := [owner_of hash]; pv_settings := ∅ |}.
Definition here : PromptView := view [] (dq "{'email':'TEXT','password':'PASSWORD'}") ∅ "h1".
Definition there : PromptView := view ["a row"] (dq "{'pin':'password','email':'TEXT'}") {["key" := "cipher"]} "h2".
Definition at_ (s : PromptView) : Ctx PromptView := {| cw := new_world; cs := s |}.

Definition first_columns : gmap string string := {["email" := "TEXT"; "password" := "PASSWORD"]}.
Definition second_columns : gmap string string := {["pin" := "password"; "email" := "TEXT"]}.
Lemma first_read : schema_columns (dq "{'email':'TEXT','password':'PASSWORD'}") = Some first_columns.
Proof. vm_compute. reflexivity. Qed.
Lemma second_read : schema_columns (dq "{'pin':'password','email':'TEXT'}") = Some second_columns.
Proof. vm_compute. reflexivity. Qed.
Lemma columns_visible : visible first_columns = visible second_columns.
Proof. vm_compute. reflexivity. Qed.
Lemma schemas_alike : schema_alike (dq "{'email':'TEXT','password':'PASSWORD'}") (dq "{'pin':'password','email':'TEXT'}").
Proof.
  right. do 4 (split; [vm_compute; discriminate|]). exists first_columns, second_columns.
  split; [exact first_read|]. split; [exact second_read|exact columns_visible].
Qed.
Lemma alike : looks_alike here there.
Proof.
  split; try reflexivity.
  - constructor; [|constructor]. split; [exact (eq_refl "users")|exact schemas_alike].
  - constructor; [|constructor]. by split.
Qed.
End PromptSample.
Import PromptSample.


Lemma resume_told_witness : exists m, fst (buildCrashRecoveryManifest (at_ here)) = Ok m /\ m <> "" /\ mentions m "users(id,email,password)" /\ mentions m "API:people→users".
Proof.
  pose proof (resume_told here (at_ here) eq_refl) as H. destruct (buildCrashRecoveryManifest (at_ here)) as [[m|x] c] eqn:Hm; [|done].
  destruct H as (_ & Hn & Ht & Ha & _). exists m. split; [done|]. split; [intros Hx; apply Hn in Hx; destruct Hx as [Hx _]; discriminate Hx|].
  split; [exact (Ht _ (or_introl eq_refl))|exact (Ha _ (or_introl eq_refl))].
Defined.

Lemma build_prompt_whole_witness : exists text, fst (buildBuildPrompt sample_plan shop "Ann" "Tables: a(b)" "" (at_ here)) = Ok text /\
  (exists j, mentions text (line "## Plan" ++ line (fenced "json" j)) /\ res_bind (Unmarshal j) dec_Plan = Ok sample_plan) /\ mentions text "Tables: a(b)".
Proof.
  assert (storable sample_plan) as Hs by (split; try (repeat constructor; vm_compute; congruence); intros d [= <-]; by unfold design_ok).
  assert (readable max_depth (enc_Plan sample_plan)) as Hr by (vm_compute; repeat split; by apply utf8_ascii).
  pose proof (build_prompt_whole sample_plan shop "Ann" "Tables: a(b)" "" here Hs Hr (at_ here) eq_refl) as H.
  destruct (buildBuildPrompt sample_plan shop "Ann" "Tables: a(b)" "" (at_ here)) as [[t|x] c]; [|done].
  destruct H as (_ & Hj & _ & Hm). exists t. split; [done|]. split; [exact Hj|by apply Hm].
Defined.

(** The steps of a plan, counted. *)
Example steps_counted : buildOrderChecklist sample_plan = line "## Build Order (follow this sequence)" ++ line "1. Create table: posts"
  ++ line "2. Create global CSS (design system)" ++ line (dq "3. Create shared JS utilities (auth, fetch helpers, etc.) with scope='global'")
  ++ line "4. Create layout" ++ ToolCore.newline.
Proof. vm_compute. reflexivity. Qed.

(** A build that is taken up again is told so twice: the manifest brings a heading of its own. *)
Example heading_twice : exists m text, fst (buildCrashRecoveryManifest (at_ here)) = Ok m /\ fst (buildBuildPrompt sample_plan shop "" m "" (at_ here)) = Ok text /\
  Contains text (line "## Already Built (crash recovery — do NOT recreate these)" ++ line "## Already Built (resume from here — do NOT recreate these)") = true.
Proof. eexists _, _. split; [vm_compute; reflexivity|]. split; [vm_compute; reflexivity|]. vm_compute. reflexivity. Qed.
